(* ===== verification/_CoqProject ===== *)
-Q . S2P
Prelude.v
Crc.v
Packet.v
JpegTables.v
JpegHuff.v
JpegSource.v
JpegCodec.v
JpegParse.v
JpegParseProofs.v
JpegEncode.v
JpegEncodeProofs.v
JpegRoundtrip.v
CmrMsg.v
CmrThreads.v
ExifTypes.v
ExifStream.v
ExifWriter.v
ExifProofs.v
ExifDirProofs.v
ExifTables.v
ExifReadProofs.v
ExifContent.v
ExifFileProofs.v
ExifSafety.v
NvDaemon.v
NvProofs.v
NvSafety.v
CmrMem.v
CmrMemProofs.v
CmrMemSafety.v
ModemBoot.v
ModemBootProofs.v
ModemMemory.v
ModemUart.v
ModemHandshake.v
ModemImages.v
ModemState.v
ModemStateProofs.v
ModemMonitor.v
AudioTables.v
AudioFilter.v
AudioFilterProofs.v
AudioLcfProofs.v
AudioRegs.v
AudioRegsProofs.v
AudioEq.v
AudioEqProofs.v
AudioEqInstall.v
AudioGain.v
EngTok.v
EngTokProofs.v
EngParcel.v
EngParcelProofs.v
EngLine.v
EngLineProofs.v
EngCmd.v
EngCmdProofs.v
EngServer.v
EngServerProofs.v
EngTableProofs.v
EngExchange.v
EngExchangeProofs.v
EngDiag.v
EngDiagProofs.v
