(* ===== verification/Prelude.v ===== *)
(** * Verification of device-side C code of the tarako phone

    The repository is the device tree of a phone with a Spreadtrum chip:
    daemons, hardware libraries and tools in C and C++, next to resources,
    register tables and vendored drivers. This library models parts of the C
    code whose logic is in the code itself and not in the kernel or the
    hardware, and proves what they compute.

    ** The parts and their files

    This file: machine integers with their wrap-around, carry-less arithmetic
    of CRCs, byte codecs, C arrays ([aget], [aset], [store]: an access outside
    the object is [None]), and the monad [M] of C programs over an explicit
    state, with weakest preconditions and simulations for it. A computation
    completes ([Ret]), leaves the C function early with the state it had
    ([Exit]), or does what C gives no meaning to ([Bad] with a [fault]).

    The modem loader, src/common/apps/modem_control. Crc.v: crc16.c, and
    crc32b.c and [calc_checksum] of src/common/apps/nvm_daemon; each checksum
    equals a bit-at-a-time or one's-complement reference, detects what it is
    used to detect, and accepts what its sender made. Packet.v: packet.c; the
    frames on the wire, that unescaping inverts escaping, that the loops which
    read a reply end, what a partial write does.
    ModemBoot.v: modem_boot.c, the list of images and the boot over the UART
    and the SPI bus. ModemBootProofs.v: what is sent. ModemMemory.v: the
    memory of a modem that carries out the packets holds the images.
    ModemUart.v: the first loader. ModemHandshake.v: the handshake, and that a
    boot ends. ModemImages.v: the table of images is read as it is written.
    ModemState.v: main.c, the state of the modem and the messages about it.
    ModemStateProofs.v and ModemMonitor.v: a run of the manager refines an
    abstract monitor.

    The JPEG codec of the camera, src/common/libs/libcamera/jpeg_fw_8825.
    JpegTables.v: jpegcodec_table.c, and how its tables depend on each other.
    JpegHuff.v: jpegdec_vld.c, from code lengths to registers; the codes are
    the canonical ones. JpegSource.v: the class [ByteSource] of what the
    parser reads from, with laws; jpegdec_bitstream.c, a buffer refilled
    through a callback, as an instance that is refined by the list of the
    bytes of the file; the memory pool of jpegdec_malloc.c. JpegCodec.v: the
    members of the codec's context. JpegParse.v: jpegdec_parse.c and
    [JPEG_FWParseHead], over any source. JpegParseProofs.v: the result does
    not depend on the source, and the parser ends on every input.
    JpegEncode.v: the setup and the header of the encoder, jpegenc_init.c,
    jpegenc_header.c, jpegenc_bitstream.c and [JPEG_HWWriteHead], as register
    writes. JpegEncodeProofs.v: the bytes these writes put into the stream.
    JpegRoundtrip.v: the parser reads from the encoder's header what the
    encoder was set up with.

    The message queue of the camera threads,
    src/common/libs/libcamera/sc8825/src/cmr_msg.c. CmrMsg.v: the operations
    run alone refine an abstract queue; a queue that fills loses messages.
    CmrThreads.v: the operations cut at their synchronisation points as a step
    relation; its invariant with one poster, what two posters break, and the
    thread that leaves the mutex locked.

    The EXIF writer of the camera, jpeg_fw_8825/src/exif_writer.c and
    jpeg_stream.c. ExifTypes.v: the structs and tags. ExifStream.v: positioned
    writes. ExifWriter.v: the four entry writers, the directories (the guarded
    blocks of the source as tables of [field]), the segment, a picture with it,
    the date. ExifProofs.v: a reader of the EXIF format, written from the
    format, and one entry. ExifDirProofs.v: the invariant [building] of a
    directory under construction, and the contract [writes_dir] between a
    directory and one it points to. ExifTables.v: what the structs have to
    satisfy ([valid_info]), and that every table row can then be written.
    ExifReadProofs.v: the reader of a segment finds what was written.
    ExifContent.v: what the EXIF standard has for the members of the structs,
    without the writer's tables; the tables say the same.
    ExifFileProofs.v: the callers of the writer, and where it goes wrong.
    ExifSafety.v: no access outside the buffer, whatever its size.

    The NV daemon, src/common/apps/nvm_daemon/nvitem.c. NvDaemon.v: its
    request loop over a disk that remembers what is not synced yet.
    NvProofs.v: the abstract store [nv] with its commands, and that each
    request carries one out. NvSafety.v: the daemon ends, refines the store
    and survives power failures; the interrupted request and the request that
    is too big, which break this.

    The capture memory of the camera, sc8825/src/cmr_mem.c under libcamera.
    CmrMem.v: the sizes that are asked for and the arrangement of the buffers
    of a capture in them, in 32-bit arithmetic. CmrMemProofs.v: the blocks
    given out so far ([arena]) and the planes of an image in its blocks.
    CmrMemSafety.v: no two buffers overlap, for which images the memory asked
    for is enough and for which it is not.

    The audio effect block, src/common/libs/audio/vb_effect. AudioTables.v and
    AudioFilter.v: filter_calc.c, the coefficients of the filters in fixed
    point, where an overflow of an [int] is undefined. AudioFilterProofs.v: a
    band of the equaliser, for all parameters; AudioLcfProofs.v: the low-cut
    filter. AudioRegs.v: the registers of vb_hal_if.c and vb_hal_adp.c, with
    the log of the writes; AudioRegsProofs.v: what each function writes.
    AudioEq.v: vbc_codec_eq.c, from a profile of the phone's non-volatile data
    to the registers. AudioEqProofs.v: the order of the writes when the
    filters change, and what the registers hold afterwards. AudioEqInstall.v:
    a whole profile, and the one with eight bands, which writes out of bounds.
    AudioGain.v: the digital gains.

    The engineering mode, src/common/apps/engineeringmodel/engcs: applications
    send commands to a server, a client of the server talks to the modems.
    EngTok.v: eng_attok.c, the tokens of a text that are cut in place;
    EngTokProofs.v: they are the fields of the text that is left.
    EngParcel.v: engparcel.c, the packing of the lines of an answer into an
    array and what is made of them; EngParcelProofs.v: nothing is written
    outside the array, and rows of numbers are reported. EngLine.v: the lines
    that [eng_readline] of eng_modemclient.c cuts from the device's bytes;
    EngLineProofs.v: they do not depend on the pieces in which the bytes
    arrive. EngCmd.v: the commands (engat.h), their parameters and the AT
    commands; EngCmdProofs.v: the numbers of a command arrive, and the
    parameter has the type that the printing expects. EngServer.v:
    engservice.c, and both ends of its messages; EngServerProofs.v: what is
    sent arrives; EngTableProofs.v: the table of the clients is a map, whoever
    comes and goes. EngExchange.v: the client, from a message of the server to
    the modem and back; EngExchangeProofs.v: a session of commands, which puts
    the theorems of the other files together. EngDiag.v: vdiag.c and
    eng_diag.c, the frames that a PC sends over the serial line, with the audio
    parameters in hexadecimal digits; EngDiagProofs.v: what the PC writes is
    what it reads back, in whatever pieces its frames come, and what a frame
    that is too long does.

    ** Interaction

    JpegParse.v knows its input only as a [ByteSource]; JpegSource.v gives two
    of them, and the simulation rules of this file carry every theorem on the
    list over to the buffered file. The round trip composes JpegEncode.v,
    through the abstract bitstream unit of JpegEncodeProofs.v, with
    JpegParse.v on the list. Packet.v and NvDaemon.v call the checksums of
    Crc.v. In the EXIF writer a directory calls another one through [writes_dir].

    ** Fuel and bounds

    Loops over a known range are [forM] over [upto n]. Loops that end with
    their input carry fuel: [ParseHead_terminates] shows that the parser's
    fuel, a number linear in the length of the input, is enough, and the
    theorems on the modem's reply state the number of reads; the NV daemon's
    receive loop gets as much as its script has left, which
    [nv_daemon_ends] shows to be enough, and the boot of the modem as much as
    there is to read or to open ([modem_boot_ends]); a loop that turns for ever
    without waiting for anything is a fault of its own, [Spins], which only the
    loading of a file that is too short reaches. The client of the
    engineering mode reads lines with a round for each line or event that can
    still come, which [session_answered] shows to be enough; a read of the
    serial line is one round, and frames are bytes between two 126s. The EXIF writer
    needs [app1_room] bytes, 16300 more than the thumbnail; its caller in
    jpeg_codec.c gives it 21 KiB more. [digits] has fuel for five digits, all
    a 16-bit field has. The theorems on capture memory bound the dimensions of
    images by 16384, so that no product of sizes wraps. The filters are
    computed at 8192 to 71231 Hz; the phone uses 44100 Hz.

    Integers are [Z]; a store into a w-bit object is wrapped where the source
    wraps it. Buffers are lists of bytes and pointers into them are indices;
    a pointer that may be NULL is an option. The hypotheses that bound a
    buffer's size say that it fits into the address space.

    ** Parameters

    What the code gets from outside is an argument: the bytes and the results
    of [read] and [write] on a device (scripts in Packet.v, NvDaemon.v, EngLine.v),
    which calls of [open] fail, the addresses of buffers, the callbacks of
    the reader and of the EXIF writer, what [malloc] returns, what a poll of a
    status register sees. The theorems quantify over them or state the
    documented behaviour they need.

    ** Not modelled

    The logging of the NV daemon, its
    search for partitions and its loading of modem images; the camera HAL,
    whose state machines are driven by ioctls; the sensor drivers, which are
    register tables and I2C writes; the decoding of scan data, which the
    hardware does; the JPEG firmware of the other chips, variants
    of the code modelled here; of the engineering mode the opening of devices
    and sockets, the event loop and the thread that runs it next to the one
    that accepts clients (the operations on the table are taken one after the
    other), the versions that the diagnosis asks for over another channel, and
    the tests of the hardware; the rest of the audio
    library (its tunable equaliser is never reached), hardware composer and tools, mostly control of devices and processes; vendored
    code (the Mali driver, Lua) and resources. *)
From stdpp Require Import base list.
From Stdlib Require Import ZArith Lia.

Open Scope Z_scope.

Lemma obind_Some {A B} (x : A) (f : A -> option B) : (Some x ≫= f) = f x.
Proof. reflexivity. Qed.

(** ** Machine integers *)

Definition wrap (w z : Z) : Z := z mod 2 ^ w.
Definition u8 (z : Z) : Z := wrap 8 z.
Definition u16 (z : Z) : Z := wrap 16 z.
Definition u32 (z : Z) : Z := wrap 32 z.

(** Two's complement reading of the low [w] bits. *)
Definition swrap (w z : Z) : Z := (z + 2 ^ (w - 1)) mod 2 ^ w - 2 ^ (w - 1).
Definition s8 (z : Z) : Z := swrap 8 z.
Definition s16 (z : Z) : Z := swrap 16 z.
Definition s32 (z : Z) : Z := swrap 32 z.

Definition byte (z : Z) : Prop := 0 <= z < 256.
Definition bytes (l : list Z) : Prop := Forall byte l.

(** C's truth value of an integer expression. *)
Definition truthy (z : Z) : bool := negb (z =? 0).

Create HintDb cint.
Create Rewrite HintDb cint.
Create Rewrite HintDb cbits.

Lemma wrap_range w z : 0 <= w -> 0 <= wrap w z < 2 ^ w.
Proof. intros. apply Z.mod_pos_bound, Z.pow_pos_nonneg; lia. Qed.

Lemma wrap_small w z : 0 <= z < 2 ^ w -> wrap w z = z.
Proof. apply Z.mod_small. Qed.

Lemma wrap_wrap w z : wrap w (wrap w z) = wrap w z.
Proof.
  unfold wrap. destruct (decide (2 ^ w = 0)) as [->|H].
  - by rewrite !Z.mod_0_r.
  - by apply Z.mod_mod.
Qed.

Lemma u8_range z : 0 <= u8 z < 256.
Proof. apply (wrap_range 8); lia. Qed.
Lemma u16_range z : 0 <= u16 z < 65536.
Proof. apply (wrap_range 16); lia. Qed.
Lemma u32_range z : 0 <= u32 z < 4294967296.
Proof. apply (wrap_range 32); lia. Qed.
Lemma u8_byte z : byte (u8 z).
Proof. apply u8_range. Qed.

Lemma u8_small z : 0 <= z < 256 -> u8 z = z.
Proof. apply (wrap_small 8). Qed.
Lemma u16_small z : 0 <= z < 65536 -> u16 z = z.
Proof. apply (wrap_small 16). Qed.
Lemma u32_small z : 0 <= z < 4294967296 -> u32 z = z.
Proof. apply (wrap_small 32). Qed.

#[export] Hint Resolve u8_byte u8_range u16_range u32_range : cint.
#[export] Hint Rewrite u8_small u16_small u32_small using lia : cint.

(** [wrap_lia] turns every wrapped integer of the goal and the context into a
    division with its bounds and calls [lia]. *)
Ltac unwrap :=
  unfold u8, u16, u32, s8, s16, s32, swrap, wrap, byte in *;
  change (2 ^ (8 - 1)) with 128 in *; change (2 ^ (16 - 1)) with 32768 in *;
  change (2 ^ (32 - 1)) with 2147483648 in *;
  change (2 ^ 8) with 256 in *; change (2 ^ 16) with 65536 in *;
  change (2 ^ 32) with 4294967296 in *.
Ltac wrap_lia := unwrap; Z.div_mod_to_equations; lia.

(** [Forall P] of a literal list, each element by [lia]. *)
Ltac list_lia := repeat (apply List.Forall_cons; [lia|]); apply List.Forall_nil.

(** Equality of literal lists, element by element. *)
Ltac list_eq := repeat match goal with |- (_ :: _) = (_ :: _) => apply f_equal2 end; try done.

(** ** Bit operations as arithmetic *)

Lemma bits_above w c i : 0 <= c < 2 ^ w -> 0 <= w <= i -> Z.testbit c i = false.
Proof.
  intros Hc Hi. destruct (decide (c = 0)) as [->|]; [apply Z.bits_0|].
  apply Z.bits_above_log2; [lia|]. eapply Z.lt_le_trans; [apply (Z.log2_lt_pow2 c w)|]; lia.
Qed.

Lemma land_shiftl_low a b n : 0 <= n -> 0 <= b < 2 ^ n -> Z.land (Z.shiftl a n) b = 0.
Proof.
  intros Hn Hb. apply Z.bits_inj'. intros i Hi. rewrite Z.land_spec, Z.bits_0.
  destruct (decide (i < n)).
  - by rewrite Z.shiftl_spec_low by lia.
  - by rewrite (bits_above n b), andb_false_r by lia.
Qed.

Lemma lor_shiftl a b n :
  0 <= n -> 0 <= b < 2 ^ n -> Z.lor (Z.shiftl a n) b = a * 2 ^ n + b.
Proof.
  intros Hn Hb. assert (Hd := land_shiftl_low a b n Hn Hb).
  rewrite <- Z.shiftl_mul_pow2 by lia.
  rewrite Z.add_nocarry_lxor by done. by apply Z.lxor_lor in Hd as ->.
Qed.

Lemma land_lnot_ones a n : 0 <= n -> Z.land a (Z.lnot (Z.ones n)) = a / 2 ^ n * 2 ^ n.
Proof. intros. by rewrite <- Z.ldiff_land, Z.ldiff_ones_r, Z.shiftl_mul_pow2, Z.shiftr_div_pow2 by lia. Qed.
Lemma land_ones_mod a n : 0 <= n -> Z.land a (Z.ones n) = a mod 2 ^ n.
Proof. intros. by apply Z.land_ones. Qed.

Lemma land_255 a : Z.land a 255 = a mod 256.
Proof. apply (land_ones_mod a 8). lia. Qed.
Lemma land_65535 a : Z.land a 65535 = a mod 65536.
Proof. apply (land_ones_mod a 16). lia. Qed.
Lemma land_1 a : Z.land a 1 = a mod 2.
Proof. apply (land_ones_mod a 1). lia. Qed.
Lemma land_15 a : Z.land a 15 = a mod 16.
Proof. apply (land_ones_mod a 4). lia. Qed.

Lemma lor_shiftl8 a b : byte b -> Z.lor (Z.shiftl a 8) b = a * 256 + b.
Proof. intros. apply (lor_shiftl a b 8); [lia|done]. Qed.

Lemma shiftr8 a : Z.shiftr a 8 = a / 256.
Proof. by apply Z.shiftr_div_pow2. Qed.
Lemma shiftr16 a : Z.shiftr a 16 = a / 65536.
Proof. by apply Z.shiftr_div_pow2. Qed.
Lemma shiftr24 a : Z.shiftr a 24 = a / 16777216.
Proof. by apply Z.shiftr_div_pow2. Qed.
Lemma shiftr4 a : Z.shiftr a 4 = a / 16.
Proof. by apply Z.shiftr_div_pow2. Qed.
Lemma shiftr1 a : Z.shiftr a 1 = a / 2.
Proof. by apply Z.shiftr_div_pow2. Qed.
Lemma shiftl8 a : Z.shiftl a 8 = a * 256.
Proof. by apply Z.shiftl_mul_pow2. Qed.
Lemma shiftl16 a : Z.shiftl a 16 = a * 65536.
Proof. by apply Z.shiftl_mul_pow2. Qed.

#[export] Hint Rewrite land_255 land_65535 land_1 land_15 shiftr1 shiftr8 shiftr16 shiftr24
  shiftr4 shiftl8 shiftl16 : cbits.

(** ** Carry-less arithmetic *)

Lemma lxor_range w a b : 0 <= w -> 0 <= a < 2 ^ w -> 0 <= b < 2 ^ w -> 0 <= Z.lxor a b < 2 ^ w.
Proof.
  intros Hw Ha Hb. split; [apply Z.lxor_nonneg; lia|].
  destruct (decide (Z.lxor a b = 0)) as [->|]; [by apply Z.pow_pos_nonneg|].
  assert (0 <= Z.lxor a b) by (apply Z.lxor_nonneg; lia).
  apply Z.log2_lt_pow2; [lia|]. eapply Z.le_lt_trans; [apply Z.log2_lxor; lia|].
  apply Z.max_lub_lt.
  - destruct (decide (a = 0)) as [->|]; [|apply Z.log2_lt_pow2; lia].
    simpl. destruct (decide (w = 0)) as [->|]; [|lia].
    assert (b = 0) by lia. by subst.
  - destruct (decide (b = 0)) as [->|]; [|apply Z.log2_lt_pow2; lia].
    simpl. destruct (decide (w = 0)) as [->|]; [|lia].
    assert (a = 0) by lia. by subst.
Qed.

(** Identities of [Z.lxor], bit by bit. *)
Ltac lxor_bits :=
  apply Z.bits_inj'; intros i _; rewrite ?Z.lxor_spec, ?Z.bits_0;
  repeat match goal with |- context [Z.testbit ?x i] => destruct (Z.testbit x i) end; done.

Lemma wrap_lxor w a b : 0 <= w -> wrap w (Z.lxor a b) = Z.lxor (wrap w a) (wrap w b).
Proof.
  intros. unfold wrap. rewrite <- !Z.land_ones by done. apply Z.bits_inj'. intros i Hi.
  rewrite !Z.land_spec, !Z.lxor_spec, !Z.land_spec.
  by destruct (Z.testbit a i), (Z.testbit b i), (Z.testbit (Z.ones w) i).
Qed.

Lemma truthy_land_pow2 a k : 0 <= k -> truthy (Z.land a (2 ^ k)) = Z.testbit a k.
Proof.
  intros Hk. unfold truthy. destruct (Z.testbit a k) eqn:E.
  - apply negb_true_iff, Z.eqb_neq. intros H.
    assert (Hb : Z.testbit (Z.land a (2 ^ k)) k = true).
    { by rewrite Z.land_spec, E, Z.pow2_bits_true. }
    by rewrite H, Z.bits_0 in Hb.
  - apply negb_false_iff, Z.eqb_eq, Z.bits_inj'. intros i Hi.
    rewrite Z.land_spec, Z.bits_0. destruct (decide (i = k)) as [->|].
    + by rewrite E.
    + rewrite Z.pow2_bits_false by done. apply andb_false_r.
Qed.

(** Functions that respect [Z.lxor], and their iterates. *)
Definition linear (f : Z -> Z) : Prop := forall a b, f (Z.lxor a b) = Z.lxor (f a) (f b).

Lemma linear_0 f : linear f -> f 0 = 0.
Proof. intros H. specialize (H 0 0). by rewrite Z.lxor_0_r, Z.lxor_nilpotent in H. Qed.

Lemma linear_iter f n : linear f -> linear (Nat.iter n f).
Proof. intros H a b. induction n as [|n IH]; simpl; [done|]. by rewrite IH, H. Qed.

Lemma linear_if (P : Z) (t : Z -> bool) :
  (forall a b, t (Z.lxor a b) = xorb (t a) (t b)) -> linear (fun c => if t c then P else 0).
Proof.
  intros H a b. rewrite H. destruct (t a), (t b); simpl;
    by rewrite ?Z.lxor_0_r, ?Z.lxor_0_l, ?Z.lxor_nilpotent.
Qed.

Lemma linear_lxor f g : linear f -> linear g -> linear (fun c => Z.lxor (f c) (g c)).
Proof.
  intros Hf Hg a b. rewrite Hf, Hg, !Z.lxor_assoc. f_equal.
  by rewrite <- !Z.lxor_assoc, (Z.lxor_comm (f b)).
Qed.

(** [all_bits k f a]: [f] holds of every number whose bits above the [k]th
    are [a]; the decision procedure of the finite checks on table entries. *)
Fixpoint all_bits (k : nat) (f : Z -> bool) (a : Z) : bool :=
  match k with
  | O => f a
  | S k => all_bits k f (2 * a) && all_bits k f (2 * a + 1)
  end.

Lemma all_bits_spec k f a x :
  all_bits k f a = true -> a * 2 ^ Z.of_nat k <= x < (a + 1) * 2 ^ Z.of_nat k -> f x = true.
Proof.
  revert a. induction k as [|k IH]; intros a; cbn [all_bits].
  - change (2 ^ Z.of_nat 0) with 1. intros H Hx. by replace x with a by lia.
  - rewrite Nat2Z.inj_succ, Z.pow_succ_r by lia. intros [H1 H2]%andb_true_iff Hx.
    set (p := 2 ^ Z.of_nat k) in *.
    destruct (decide (x < (2 * a + 1) * p)); [apply (IH (2 * a))|apply (IH (2 * a + 1))]; auto; lia.
Qed.

(** For a byte [x]: decide [f x] by running [f] on all 256 of them. *)
Lemma byte_check f x : all_bits 8 f 0 = true -> byte x -> f x = true.
Proof. intros H ?. apply (all_bits_spec 8 f 0 x H). change (2 ^ Z.of_nat 8) with 256. unfold byte in *. lia. Qed.

(** ** Byte codecs *)

Definition be16 (v : Z) : list Z := [u8 (Z.shiftr v 8); u8 v].
Definition be32 (v : Z) : list Z :=
  [u8 (Z.shiftr v 24); u8 (Z.shiftr v 16); u8 (Z.shiftr v 8); u8 v].
Definition le16 (v : Z) : list Z := [u8 v; u8 (Z.shiftr v 8)].
Definition le32 (v : Z) : list Z :=
  [u8 v; u8 (Z.shiftr v 8); u8 (Z.shiftr v 16); u8 (Z.shiftr v 24)].

Lemma be16_bytes v : bytes (be16 v).
Proof. repeat constructor; auto with cint; apply u8_range. Qed.
Lemma be32_bytes v : bytes (be32 v).
Proof. repeat constructor; apply u8_range. Qed.
Lemma le16_bytes v : bytes (le16 v).
Proof. repeat constructor; apply u8_range. Qed.
Lemma le32_bytes v : bytes (le32 v).
Proof. repeat constructor; apply u8_range. Qed.
#[export] Hint Resolve be16_bytes be32_bytes le16_bytes le32_bytes : cint.

Lemma be16_join v :
  0 <= v < 65536 -> Z.lor (Z.shiftl (u8 (Z.shiftr v 8)) 8) (u8 v) = v.
Proof.
  intros. rewrite lor_shiftl8 by apply u8_byte. rewrite shiftr8. wrap_lia.
Qed.

(** [bytes] of a literal list. *)
Definition byteb (z : Z) : bool := (0 <=? z) && (z <? 256).
Lemma bytes_forallb l : forallb byteb l = true -> bytes l.
Proof.
  induction l as [|z l IH]; cbn; [constructor|]. intros [[H1 H2]%andb_true_iff H3]%andb_true_iff.
  constructor; [|by apply IH]. unfold byte. lia.
Qed.
Ltac by_bytes := apply bytes_forallb; vm_compute; reflexivity.

Lemma bytes_app l1 l2 : bytes (l1 ++ l2) <-> bytes l1 /\ bytes l2.
Proof. apply Forall_app. Qed.
Lemma bytes_lookup l i x : bytes l -> l !! i = Some x -> byte x.
Proof. intros H1 H2. by eapply Forall_lookup_1. Qed.

(** ** Arrays addressed with C integers

    [aget]/[aset] are a C array access: [None] is an access outside the
    object, for which C gives no meaning. *)

Definition aget {A} (l : list A) (i : Z) : option A :=
  if 0 <=? i then l !! Z.to_nat i else None.

Definition aset {A} (l : list A) (i : Z) (x : A) : option (list A) :=
  if (0 <=? i) && (i <? Z.of_nat (length l)) then Some (<[Z.to_nat i := x]> l) else None.

Definition zlen {A} (l : list A) : Z := Z.of_nat (length l).

Lemma aget_Some {A} (l : list A) i x :
  aget l i = Some x <-> 0 <= i /\ l !! Z.to_nat i = Some x.
Proof. unfold aget. destruct (Z.leb_spec 0 i); naive_solver lia. Qed.

Lemma aget_nat {A} (l : list A) (n : nat) : aget l (Z.of_nat n) = l !! n.
Proof. unfold aget. rewrite (proj2 (Z.leb_le _ _)) by lia. by rewrite Nat2Z.id. Qed.

Lemma aget_is_Some {A} (l : list A) i :
  0 <= i < zlen l -> is_Some (aget l i).
Proof.
  intros. unfold aget, zlen in *. rewrite (proj2 (Z.leb_le _ _)) by lia.
  apply lookup_lt_is_Some. lia.
Qed.

Lemma aset_Some {A} (l : list A) i x :
  0 <= i < zlen l -> aset l i x = Some (<[Z.to_nat i := x]> l).
Proof.
  intros. unfold aset, zlen in *.
  by rewrite (proj2 (Z.leb_le _ _)), (proj2 (Z.ltb_lt _ _)) by lia.
Qed.

Lemma aset_nat {A} (l : list A) (n : nat) x :
  (n < length l)%nat -> aset l (Z.of_nat n) x = Some (<[n := x]> l).
Proof. intros. rewrite aset_Some by (unfold zlen; lia). by rewrite Nat2Z.id. Qed.

Lemma aset_length {A} (l l' : list A) i x : aset l i x = Some l' -> length l' = length l.
Proof. unfold aset. case_match; intros [= <-]. apply length_insert. Qed.

Lemma aset_bytes l l' i x : bytes l -> byte x -> aset l i x = Some l' -> bytes l'.
Proof. unfold aset. case_match; intros ?? [= <-]. by apply Forall_insert. Qed.

Lemma zlen_app {A} (l k : list A) : zlen (l ++ k) = zlen l + zlen k.
Proof. unfold zlen. rewrite length_app. lia. Qed.
Lemma zlen_cons {A} x (l : list A) : zlen (x :: l) = 1 + zlen l.
Proof. unfold zlen. simpl length. lia. Qed.
Lemma zlen_nil {A} : zlen (@nil A) = 0.
Proof. done. Qed.
(** Equality of option and pair results, down to integers. *)
Ltac out_eq :=
  repeat match goal with
         | |- Some _ = Some _ => f_equal
         | |- (_, _) = (_, _) => f_equal
         end; unfold zlen; simpl; rewrite ?length_app; simpl; try lia; try done.

(** Arithmetic on lengths of concatenations. *)
Ltac len_lia :=
  unfold zlen in *; cbn [length be16 be32 le16 le32] in *; rewrite ?length_app in *;
  cbn [length be16 be32 le16 le32] in *; lia.

Lemma zlen_replicate {A} n (x : A) : 0 <= n -> zlen (replicate (Z.to_nat n) x) = n.
Proof. intros H. unfold zlen. rewrite length_replicate. lia. Qed.
Lemma zlen_nonneg {A} (l : list A) : 0 <= zlen l.
Proof. unfold zlen. lia. Qed.
Lemma aget_range {A} (l : list A) i x : aget l i = Some x -> 0 <= i < zlen l.
Proof. intros [? H%lookup_lt_Some]%aget_Some. unfold zlen. lia. Qed.

Lemma aget_ext {A} (l k : list A) : (forall i, aget l i = aget k i) -> l = k.
Proof.
  intros H. apply list_eq. intros n. specialize (H (Z.of_nat n)). unfold aget in H.
  rewrite (proj2 (Z.leb_le _ _)), Nat2Z.id in H by lia. exact H.
Qed.

Lemma aget_None {A} (l : list A) i : i < 0 \/ zlen l <= i -> aget l i = None.
Proof.
  intros H. unfold aget, zlen in *. destruct (Z.leb_spec 0 i); [|done]. apply lookup_ge_None_2. lia.
Qed.

Lemma aget_app {A} (l k : list A) i : 0 <= i ->
  aget (l ++ k) i = if i <? zlen l then aget l i else aget k (i - zlen l).
Proof.
  intros Hi. unfold aget, zlen. rewrite (proj2 (Z.leb_le 0 i)) by lia. destruct (Z.ltb_spec i (Z.of_nat (length l))).
  - apply lookup_app_l. lia.
  - rewrite (proj2 (Z.leb_le _ _)) by lia. rewrite lookup_app_r by lia. f_equal. lia.
Qed.

#[export] Hint Rewrite @zlen_app @zlen_cons @zlen_nil : cbits.
#[export] Hint Resolve zlen_nonneg : cint.

(** Writing consecutive elements from index [i] on. *)
Fixpoint store {A} (l : list A) (i : Z) (xs : list A) : option (list A) :=
  match xs with
  | [] => Some l
  | x :: xs => l ← aset l i x; store l (i + 1) xs
  end.

Lemma store_app {A} (l : list A) i xs ys :
  store l i (xs ++ ys) = (l' ← store l i xs; store l' (i + zlen xs) ys).
Proof.
  revert l i. induction xs as [|x xs IH]; intros l i; cbn [store app].
  { change (zlen (@nil A)) with 0. by rewrite Z.add_0_r. }
  destruct (aset l i x) as [l'|]; [|done]. rewrite !obind_Some, IH.
  destruct (store l' (i + 1) xs); [|done]. rewrite !obind_Some. f_equal.
  rewrite zlen_cons. lia.
Qed.

(** A store that fits replaces a segment. *)
Lemma store_segment {A} (pre old post : list A) xs i :
  i = zlen pre -> length old = length xs ->
  store (pre ++ old ++ post) i xs = Some (pre ++ xs ++ post).
Proof.
  intros -> Hl. revert pre old Hl. induction xs as [|x xs IH]; intros pre old Hl.
  { by destruct old. }
  destruct old as [|y old]; [done|]. cbn [store].
  rewrite aset_Some by (rewrite !zlen_app, zlen_cons; pose proof (zlen_nonneg pre);
    pose proof (zlen_nonneg old); pose proof (zlen_nonneg post); lia).
  rewrite obind_Some. unfold zlen at 1. rewrite Nat2Z.id, insert_app_r_alt, Nat.sub_diag by lia.
  cbn [app]. change (<[0%nat:=x]> (y :: old ++ post)) with (x :: old ++ post).
  replace (zlen pre + 1) with (zlen (pre ++ [x])) by by rewrite zlen_app.
  replace (pre ++ x :: old ++ post) with ((pre ++ [x]) ++ old ++ post) by by rewrite <- app_assoc.
  rewrite IH by naive_solver. by rewrite <- app_assoc.
Qed.

(** A store into a longer segment replaces its beginning. *)
Lemma store_into {A} (pre old post : list A) xs :
  (length xs <= length old)%nat ->
  store (pre ++ old ++ post) (zlen pre) xs = Some (pre ++ xs ++ drop (length xs) old ++ post).
Proof.
  intros Hl. rewrite <- (take_drop (length xs) old) at 1. rewrite <- !app_assoc.
  apply store_segment; [done|]. rewrite length_take. lia.
Qed.

Lemma store_length {A} (l l' : list A) i xs : store l i xs = Some l' -> length l' = length l.
Proof.
  revert l i. induction xs as [|x xs IH]; intros l i; cbn [store]; [by intros [= ->]|].
  destruct (aset l i x) as [l1|] eqn:E; [|done]. rewrite obind_Some. intros H.
  apply aset_length in E. apply IH in H. lia.
Qed.

(** ** Memory at a byte offset *)

(** A 16-bit and a 32-bit access at a byte offset. *)
Definition load16 (l : list Z) (i : Z) : option Z :=
  a ← aget l i; b ← aget l (i + 1);
  Some (Z.lor a (Z.shiftl b 8)).
Definition load32 (l : list Z) (i : Z) : option Z :=
  a ← aget l i; b ← aget l (i + 1); c ← aget l (i + 2); d ← aget l (i + 3);
  Some (Z.lor (Z.lor (Z.lor a (Z.shiftl b 8)) (Z.shiftl c 16)) (Z.shiftl d 24)).

(** The bytes at an address: all of them are there. *)
Definition slice (l : list Z) (i n : Z) : option (list Z) :=
  let bs := take (Z.to_nat n) (drop (Z.to_nat i) l) in
  if (0 <=? i) && (zlen bs =? n) then Some bs else None.

Lemma slice_Some l i n bs : slice l i n = Some bs -> bs = take (Z.to_nat n) (drop (Z.to_nat i) l) /\ 0 <= i /\ zlen bs = n.
Proof.
  unfold slice. destruct ((0 <=? i) && _) eqn:E; [|done]. intros [= <-].
  apply andb_true_iff in E as [?%Z.leb_le ?%Z.eqb_eq]. done.
Qed.

Lemma slice_is_Some (l : list Z) i n : 0 <= i -> 0 <= n -> i + n <= zlen l -> is_Some (slice l i n).
Proof.
  intros Hi Hn Hl. unfold slice. rewrite (proj2 (Z.leb_le _ _)) by lia. unfold zlen in *.
  rewrite length_take, length_drop, (proj2 (Z.eqb_eq _ _)) by lia. by eexists.
Qed.

(** [buf] with [bs] in place of its bytes from [p] on. *)
Definition put (buf : list Z) (p : Z) (bs : list Z) : list Z :=
  take (Z.to_nat p) buf ++ bs ++ drop (Z.to_nat (p + zlen bs)) buf.

Lemma zlen_put buf p bs : 0 <= p -> p + zlen bs <= zlen buf -> zlen (put buf p bs) = zlen buf.
Proof. intros. unfold put, zlen in *. rewrite !length_app, length_take, length_drop. lia. Qed.

Lemma aget_put buf p bs i :
  0 <= p -> p + zlen bs <= zlen buf ->
  aget (put buf p bs) i = if (p <=? i) && (i <? p + zlen bs) then aget bs (i - p) else aget buf i.
Proof.
  intros Hp Hl. pose proof (zlen_nonneg bs). unfold aget, put. destruct (Z.leb_spec 0 i) as [Hi|Hi].
  2:{ destruct (Z.leb_spec p i); [lia|done]. }
  assert (Ht : length (take (Z.to_nat p) buf) = Z.to_nat p) by (rewrite length_take; unfold zlen in *; lia).
  destruct (Z.leb_spec p i), (Z.ltb_spec i (p + zlen bs)); cbn [andb]; try lia.
  - rewrite (proj2 (Z.leb_le 0 (i - p))) by lia.
    rewrite lookup_app_r, Ht by (rewrite Ht; lia). rewrite lookup_app_l by (unfold zlen in *; lia).
    f_equal. lia.
  - rewrite lookup_app_r, Ht by (rewrite Ht; lia). rewrite lookup_app_r by (unfold zlen in *; lia).
    rewrite lookup_drop. f_equal. unfold zlen in *. lia.
  - rewrite lookup_app_l by (rewrite Ht; lia). by rewrite lookup_take_lt by lia.
Qed.

(** Consecutive writes are one write. *)
Lemma put_put buf p a b :
  0 <= p -> p + zlen a + zlen b <= zlen buf -> put (put buf p a) (p + zlen a) b = put buf p (a ++ b).
Proof.
  intros Hp Hl. pose proof (zlen_nonneg a). pose proof (zlen_nonneg b). apply aget_ext. intros i.
  rewrite aget_put by (rewrite ?zlen_put; lia). rewrite !aget_put by (rewrite ?zlen_app; lia). rewrite zlen_app.
  destruct (Z.leb_spec p i), (Z.leb_spec (p + zlen a) i), (Z.ltb_spec i (p + zlen a + zlen b)),
    (Z.ltb_spec i (p + zlen a)), (Z.ltb_spec i (p + (zlen a + zlen b))); cbn [andb]; try lia; try done.
  - rewrite aget_app by lia. rewrite (proj2 (Z.ltb_ge _ _)) by lia. f_equal. lia.
  - rewrite aget_app by lia. by rewrite (proj2 (Z.ltb_lt _ _)) by lia.
Qed.

Lemma put_nil buf p : 0 <= p <= zlen buf -> put buf p [] = buf.
Proof.
  intros Hp. unfold put. cbn [app]. change (zlen (@nil Z)) with 0. rewrite Z.add_0_r. apply take_drop.
Qed.

Lemma aset_put buf p c : 0 <= p < zlen buf -> aset buf p c = Some (put buf p [c]).
Proof.
  intros Hp. rewrite aset_Some by done. f_equal. apply list_eq. intros n.
  destruct (decide (n = Z.to_nat p)) as [->|Hn].
  - rewrite list_lookup_insert_eq by (unfold zlen in *; lia). unfold put.
    rewrite lookup_app_r by (rewrite length_take; lia). rewrite length_take. unfold zlen in *.
    by replace (Z.to_nat p - Z.to_nat p `min` length buf)%nat with 0%nat by lia.
  - rewrite list_lookup_insert_ne by done. pose proof (aget_put buf p [c] (Z.of_nat n)) as H.
    rewrite !aget_nat in H. unfold zlen in *. cbn [length] in *. rewrite H by lia.
    destruct (Z.leb_spec p (Z.of_nat n)), (Z.ltb_spec (Z.of_nat n) (p + Z.of_nat 1)); cbn [andb]; try done. lia.
Qed.

Lemma store_ok (l xs : list Z) o :
  0 <= o -> o + zlen xs <= zlen l -> store l o xs = Some (put l o xs).
Proof.
  intros Ho Hl. unfold zlen in *.
  assert (E : l = take (Z.to_nat o) l ++ take (length xs) (drop (Z.to_nat o) l) ++ drop (length xs) (drop (Z.to_nat o) l))
    by by rewrite take_drop, take_drop.
  rewrite E at 1. rewrite store_segment; [|unfold zlen; rewrite length_take; lia|rewrite length_take, length_drop; lia].
  unfold put, zlen. rewrite drop_drop. do 4 f_equal. lia.
Qed.

Lemma store_None (l xs : list Z) o : 0 <= o -> zlen l < o + zlen xs -> 0 < zlen xs -> store l o xs = None.
Proof.
  revert l o. induction xs as [|x xs IH]; intros l o Ho Hl Hx; [by change (zlen (@nil Z)) with 0 in Hx|].
  rewrite zlen_cons in *. cbn [store]. destruct (aset l o x) as [l'|] eqn:E; [|done]. rewrite obind_Some.
  pose proof (aset_length _ _ _ _ E) as Hle. unfold aset in E. destruct ((0 <=? o) && _) eqn:Eb; [|done].
  apply andb_true_iff in Eb as [_ Eb%Z.ltb_lt]. apply IH; unfold zlen in *; lia.
Qed.

(** ** Computations of the C program

    A computation ends in one of three ways: it completes with a value, it
    leaves the enclosing C function early with that function's failure code
    (the state it had then is kept, as C keeps it), or it does something C
    gives no meaning to or never comes back ([fault]). *)

Inductive fault :=
  | OutOfBounds     (* access outside an object *)
  | NullPointer     (* access through a null pointer *)
  | Uninitialised   (* read of storage nothing was stored in *)
  | Blocked         (* waits for input that the environment never provides *)
  | Spins           (* repeats the same step for ever, without waiting *)
  | OutOfFuel.      (* the bound of the model was too small *)

#[export] Instance fault_eq_dec : EqDecision fault.
Proof. solve_decision. Defined.

Inductive outcome (S A : Type) : Type :=
  | Ret (a : A) (s : S)
  | Exit (s : S)
  | Bad (f : fault).
Arguments Ret {S A} a s.
Arguments Exit {S A} s.
Arguments Bad {S A} f.

Definition M (S A : Type) : Type := S -> outcome S A.

Definition ret {S A} (a : A) : M S A := fun s => Ret a s.
Definition bind {S A B} (m : M S A) (k : A -> M S B) : M S B := fun s =>
  match m s with
  | Ret a s' => k a s'
  | Exit s' => Exit s'
  | Bad f => Bad f
  end.
Definition exit {S A} : M S A := fun s => Exit s.
Definition bad {S A} (f : fault) : M S A := fun _ => Bad f.
Definition get {S} : M S S := fun s => Ret s s.
Definition gets {S A} (f : S -> A) : M S A := fun s => Ret (f s) s.
Definition modify {S} (f : S -> S) : M S unit := fun s => Ret tt (f s).
(** [lift f o]: the value of [o], or the fault [f] when there is none. *)
Definition lift {S A} (f : fault) (o : option A) : M S A := fun s =>
  match o with Some a => Ret a s | None => Bad f end.
(** [if (!b) return FAILURE;] *)
Definition require {S} (b : bool) : M S unit := fun s => if b then Ret tt s else Exit s.
(** [m() == SUCCESS], for a caller that looks at the code itself. *)
Definition succeeds {S A} (m : M S A) : M S bool := fun s =>
  match m s with
  | Ret _ s' => Ret true s'
  | Exit s' => Ret false s'
  | Bad f => Bad f
  end.

Declare Scope cprog_scope.
Delimit Scope cprog_scope with cprog.
Notation "x <- m ;; k" := (bind m (fun x => k))
  (at level 100, m at next level, right associativity) : cprog_scope.
Notation "m ;;; k" := (bind m (fun _ => k))
  (at level 100, right associativity) : cprog_scope.
Open Scope cprog_scope.

(** [for (x in l) body(x)] *)
Fixpoint forM {S A} (l : list A) (body : A -> M S unit) : M S unit :=
  match l with
  | [] => ret tt
  | x :: l' => body x ;;; forM l' body
  end.

Definition upto (n : nat) : list Z := Z.of_nat <$> seq 0 n.

(** *** Equations *)

Lemma bind_Ret {S A B} (m : M S A) (k : A -> M S B) s a s' :
  m s = Ret a s' -> bind m k s = k a s'.
Proof. unfold bind. by intros ->. Qed.
Lemma bind_Exit {S A B} (m : M S A) (k : A -> M S B) s s' :
  m s = Exit s' -> bind m k s = Exit s'.
Proof. unfold bind. by intros ->. Qed.
Lemma bind_assoc {S A B C} (m : M S A) (f : A -> M S B) (g : B -> M S C) s :
  bind (bind m f) g s = bind m (fun x => bind (f x) g) s.
Proof. unfold bind. by destruct (m s). Qed.

Lemma forM_app {S A} (l k : list A) (body : A -> M S unit) s :
  forM (l ++ k) body s = (forM l body ;;; forM k body) s.
Proof.
  revert s. induction l as [|x l IH]; intros s; [done|]. simpl.
  rewrite bind_assoc. unfold bind. destruct (body x s); [apply IH|done|done].
Qed.

(** [m] on a part of the state, read by [g] and put back by [p]. *)
Definition zoom {S T A} (g : S -> T) (p : T -> S -> S) (m : M T A) : M S A := fun s =>
  match m (g s) with
  | Ret a t => Ret a (p t s)
  | Exit t => Exit (p t s)
  | Bad f => Bad f
  end.

(** *** Weakest preconditions: from [s], [m] completes only with [Q], leaves
    early only with [E] and raises only the faults of [F]. *)

Definition wp {S A} (F : fault -> Prop) (m : M S A) (Q : A -> S -> Prop) (E : S -> Prop) (s : S)
    : Prop :=
  match m s with
  | Ret a s' => Q a s'
  | Exit s' => E s'
  | Bad f => F f
  end.

Definition no_fault : fault -> Prop := fun _ => False.

Section wp_rules.
Context {S : Type} {F : fault -> Prop}.
Implicit Types (s : S) (E : S -> Prop).

Lemma wp_ret {A} (a : A) Q E s : Q a s -> wp F (ret a) Q E s.
Proof. done. Qed.
Lemma wp_exit {A} (Q : A -> S -> Prop) E s : E s -> wp F exit Q E s.
Proof. done. Qed.
Lemma wp_bad {A} f (Q : A -> S -> Prop) E s : F f -> wp F (bad f) Q E s.
Proof. done. Qed.
Lemma wp_get Q E s : Q s s -> wp F get Q E s.
Proof. done. Qed.
Lemma wp_gets {A} (f : S -> A) Q E s : Q (f s) s -> wp F (gets f) Q E s.
Proof. done. Qed.
Lemma wp_modify f Q E s : Q tt (f s) -> wp F (modify f) Q E s.
Proof. done. Qed.
Lemma wp_require b Q E s :
  (b = true -> Q tt s) -> (b = false -> E s) -> wp F (require b) Q E s.
Proof. unfold wp, require. destruct b; auto. Qed.
Lemma wp_lift {A} f (o : option A) Q E s :
  (forall a, o = Some a -> Q a s) -> (o = None -> F f) -> wp F (lift f o) Q E s.
Proof. unfold wp, lift. destruct o; auto. Qed.
Lemma wp_lift_Some {A} f (o : option A) a (Q : A -> S -> Prop) E s :
  o = Some a -> Q a s -> wp F (lift f o) Q E s.
Proof. by intros ->. Qed.

Lemma wp_bind {A B} (m : M S A) (k : A -> M S B) Q E s :
  wp F m (fun a => wp F (k a) Q E) E s -> wp F (bind m k) Q E s.
Proof. unfold wp, bind. by destruct (m s). Qed.

Lemma wp_mono {A} (m : M S A) (Q Q' : A -> S -> Prop) E E' s :
  wp F m Q E s -> (forall a s', Q a s' -> Q' a s') -> (forall s', E s' -> E' s') ->
  wp F m Q' E' s.
Proof. unfold wp. destruct (m s); eauto. Qed.

Lemma wp_forM {A} (l : list A) body (I : S -> Prop) E s :
  I s -> (forall x s', x ∈ l -> I s' -> wp F (body x) (fun _ => I) E s') ->
  wp F (forM l body) (fun _ => I) E s.
Proof.
  revert s. induction l as [|x l IH]; intros s Hs Hb; simpl; [done|].
  apply wp_bind. eapply wp_mono; [apply Hb; [left|done]| |done].
  intros [] s' Hs'. apply IH; [done|]. intros y s'' Hy. apply Hb. by right.
Qed.

(** With an invariant that follows the index. *)
Lemma wp_forM_upto n body (I : nat -> S -> Prop) E s :
  I 0%nat s -> (forall i s', (i < n)%nat -> I i s' -> wp F (body (Z.of_nat i)) (fun _ => I (Datatypes.S i)) E s') ->
  wp F (forM (upto n) body) (fun _ => I n) E s.
Proof.
  unfold upto. intros H0 Hb. cut (forall m i s', (i + m = n)%nat -> I i s' ->
    wp F (forM (Z.of_nat <$> seq i m) body) (fun _ => I n) E s').
  { intros H. by apply (H n 0%nat). }
  induction m as [|m IH]; intros i s' Hi Hs'; cbn [seq fmap list_fmap forM].
  - by replace n with i by lia.
  - apply wp_bind. eapply wp_mono; [apply Hb; [lia|done]| |done].
    intros [] s'' Hs''. apply IH; [lia|done].
Qed.

Lemma wp_succeeds {A} (m : M S A) Q E s :
  wp F m (fun _ s' => Q true s') (fun s' => Q false s') s -> wp F (succeeds m) Q E s.
Proof. unfold wp, succeeds. by destruct (m s). Qed.

Lemma wp_zoom {T A} (g : S -> T) (p : T -> S -> S) (m : M T A) Q E s :
  wp F m (fun a t => Q a (p t s)) (fun t => E (p t s)) (g s) -> wp F (zoom g p m) Q E s.
Proof. unfold wp, zoom. by destruct (m (g s)). Qed.
End wp_rules.

(** A computation that cannot fail or fault completes. *)
Lemma wp_total {S A} (m : M S A) Q s :
  wp no_fault m Q (fun _ => False) s -> exists a s', m s = Ret a s' /\ Q a s'.
Proof. unfold wp. destruct (m s) as [a s'|s'|f]; [|done..]. intros H. by exists a, s'. Qed.

(** More faults allowed. *)
Lemma wp_faults {S A} (F F' : fault -> Prop) (m : M S A) Q E s : (forall f, F f -> F' f) -> wp F m Q E s -> wp F' m Q E s.
Proof. unfold wp. destruct (m s); auto. Qed.

(** The next command of a sequence. *)
Ltac wp_step :=
  match goal with
  | |- wp _ (bind _ _) _ _ _ => apply wp_bind
  | |- wp _ (ret _) _ _ _ => apply wp_ret
  | |- wp _ exit _ _ _ => apply wp_exit
  | |- wp _ (bad _) _ _ _ => apply wp_bad
  | |- wp _ get _ _ _ => apply wp_get
  | |- wp _ (gets _) _ _ _ => apply wp_gets
  | |- wp _ (modify _) _ _ _ => apply wp_modify
  | |- wp _ (require _) _ _ _ => apply wp_require; intros ?
  | |- wp _ (succeeds _) _ _ _ => apply wp_succeeds
  end.

(** *** Simulation: [m1] and [m2] take related states to related results, and
    have the same values and the same faults. *)

Section simulation.
Context {S1 S2 : Type} (R : S1 -> S2 -> Prop).

Definition sim {A} (m1 : M S1 A) (m2 : M S2 A) : Prop := forall s1 s2, R s1 s2 ->
  match m1 s1, m2 s2 with
  | Ret a1 s1', Ret a2 s2' => a1 = a2 /\ R s1' s2'
  | Exit s1', Exit s2' => R s1' s2'
  | Bad f1, Bad f2 => f1 = f2
  | _, _ => False
  end.

Lemma sim_ret {A} (a : A) : sim (ret a) (ret a).
Proof. intros s1 s2 H. by split. Qed.
Lemma sim_exit {A} : sim (A := A) exit exit.
Proof. by intros s1 s2 H. Qed.
Lemma sim_bad {A} f : sim (A := A) (bad f) (bad f).
Proof. by intros s1 s2 H. Qed.
Lemma sim_require b : sim (require b) (require b).
Proof. intros s1 s2 H. by destruct b. Qed.
Lemma sim_lift {A} f (o : option A) : sim (lift f o) (lift f o).
Proof. intros s1 s2 H. by destruct o. Qed.
Lemma sim_gets {A} (f1 : S1 -> A) (f2 : S2 -> A) :
  (forall s1 s2, R s1 s2 -> f1 s1 = f2 s2) -> sim (gets f1) (gets f2).
Proof. intros Hf s1 s2 H. split; [by apply Hf|done]. Qed.
Lemma sim_modify (f1 : S1 -> S1) (f2 : S2 -> S2) :
  (forall s1 s2, R s1 s2 -> R (f1 s1) (f2 s2)) -> sim (modify f1) (modify f2).
Proof. intros Hf s1 s2 H. split; [done|by apply Hf]. Qed.
Lemma sim_bind {A B} (m1 : M S1 A) (m2 : M S2 A) (k1 : A -> M S1 B) (k2 : A -> M S2 B) :
  sim m1 m2 -> (forall a, sim (k1 a) (k2 a)) -> sim (bind m1 k1) (bind m2 k2).
Proof.
  intros Hm Hk s1 s2 H. specialize (Hm s1 s2 H). unfold bind.
  destruct (m1 s1), (m2 s2); try done. destruct Hm as [-> Hm]. by apply Hk.
Qed.
Lemma sim_succeeds {A} (m1 : M S1 A) (m2 : M S2 A) : sim m1 m2 -> sim (succeeds m1) (succeeds m2).
Proof.
  intros Hm s1 s2 H. specialize (Hm s1 s2 H). unfold succeeds. destruct (m1 s1), (m2 s2); naive_solver.
Qed.
Lemma sim_forM {A} (l : list A) (b1 : A -> M S1 unit) (b2 : A -> M S2 unit) :
  (forall x, sim (b1 x) (b2 x)) -> sim (forM l b1) (forM l b2).
Proof. intros Hb. induction l; simpl; [apply sim_ret|by apply sim_bind]. Qed.
Lemma sim_if {A} (b : bool) (m1 m1' : M S1 A) (m2 m2' : M S2 A) :
  sim m1 m2 -> sim m1' m2' -> sim (if b then m1 else m1') (if b then m2 else m2').
Proof. by destruct b. Qed.
End simulation.

Create HintDb csim.
#[export] Hint Resolve sim_ret sim_exit sim_bad sim_require sim_lift sim_bind sim_succeeds
  sim_forM sim_if : csim.
