(* ===== verification/Crc.v ===== *)
(** * Checksums

    The CRCs and one's-complement checksums of the modem download protocol
    (src/common/apps/modem_control/crc16.c) and of the NV daemon
    (src/common/apps/nvm_daemon/crc32b.c, [calc_checksum] of nvitem.c), and
    their equality with bit-at-a-time reference definitions.

    A byte buffer is the list of the bytes from the pointer to the end of the
    object it points into; reading past the end is [None]. *)
From stdpp Require Import base list.
From Stdlib Require Import ZArith Lia.
From S2P Require Import Prelude.

(** ** Definitions: crc16.c *)

Definition CRC_16_POLYNOMIAL : Z := 0x1021.
Definition CRC_16_L_POLYNOMIAL : Z := 0x8000.
Definition CRC_16_L_SEED : Z := 0x80.

(** The body of the inner loop: one bit of the byte [b], selected by [i]. *)
Definition crc_16_l_bit (b i crc : Z) : Z :=
  let crc :=
    if truthy (Z.land crc CRC_16_L_POLYNOMIAL)
    then Z.lxor (u16 (Z.shiftl crc 1)) CRC_16_POLYNOMIAL
    else u16 (Z.shiftl crc 1) in
  if truthy (Z.land b i) then Z.lxor crc CRC_16_POLYNOMIAL else crc.

(** [for (i = CRC_16_L_SEED; i != 0; i = i >> 1)]; eight rounds reach 0. *)
Fixpoint crc_16_l_byte (fuel : nat) (b i crc : Z) : Z :=
  match fuel with
  | O => crc
  | S fuel => if i =? 0 then crc
              else crc_16_l_byte fuel b (Z.shiftr i 1) (crc_16_l_bit b i crc)
  end.

(** [while (len-- != 0)] *)
Fixpoint crc_16_l_loop (buf_ptr : list Z) (len crc : Z) : option Z :=
  if len =? 0 then Some crc else
  match buf_ptr with
  | [] => None
  | b :: buf_ptr => crc_16_l_loop buf_ptr (len - 1) (crc_16_l_byte 9 b CRC_16_L_SEED crc)
  end.

Definition crc_16_l_calc (buf_ptr : list Z) (len : Z) : option Z :=
  crc_16_l_loop buf_ptr (u32 len) 0.

(** A little-endian [unsigned short] load. *)
Definition ld16 (b0 b1 : Z) : Z := b0 + 256 * b1.

(** Folding a 32-bit sum to 16 bits and complementing it, the last three
    lines of [frm_chk], [boot_checksum] and [calc_checksum]. *)
Definition fold_sum (sum : Z) : Z :=
  let sum := u32 (Z.shiftr sum 16 + Z.land sum 0xFFFF) in
  let sum := u32 (sum + Z.shiftr sum 16) in
  u16 (Z.lnot sum).

(** [while (len > 3)]: two halfwords a round. Returns what the loop leaves
    in [src], [len] and [sum]. *)
Fixpoint frm_chk_loop (src : list Z) (len sum : Z) : option (list Z * Z * Z) :=
  if len <=? 3 then Some (src, len, sum) else
  match src with
  | b0 :: b1 :: b2 :: b3 :: src =>
      frm_chk_loop src (len - 4) (u32 (u32 (sum + ld16 b0 b1) + ld16 b2 b3))
  | _ => None
  end.

Definition frm_chk (src : list Z) (len : Z) : option Z :=
  match frm_chk_loop src len 0 with
  | None => None
  | Some (src, len, sum) =>
      let sum :=
        match Z.land len 0x03 with
        | 2 => match src with
               | b0 :: b1 :: _ => Some (u32 (sum + ld16 b0 b1))
               | _ => None
               end
        | 3 => match src with
               | b0 :: b1 :: b2 :: _ => Some (u32 (u32 (sum + ld16 b0 b1) + b2))
               | _ => None
               end
        | 1 => match src with
               | b0 :: _ => Some (u32 (sum + b0))
               | _ => None
               end
        | _ => Some sum
        end in
      fold_sum <$> sum
  end.

(** [while (size1-- > 0) sum += *data++;] *)
Fixpoint halfword_sum (data : list Z) (size1 sum : Z) : option Z :=
  if size1 <=? 0 then Some sum else
  match data with
  | b0 :: b1 :: data => halfword_sum data (size1 - 1) (u32 (sum + ld16 b0 b1))
  | _ => None
  end.

Definition boot_checksum (src : list Z) (len : Z) : option Z :=
  let size1 := Z.shiftr len 1 in
  let size2 := Z.land len 0x01 in
  if truthy len then
    sum ← halfword_sum src size1 0;
    sum ← (if truthy size2 then b ← aget src (len - 1); Some (u32 (sum + b)) else Some sum);
    Some (fold_sum sum)
  else Some (fold_sum 0).

(** CRC table for the CRC-16, poly 0x8005. *)
Definition crc16_table : list Z :=
  [
    0x0000; 0xC0C1; 0xC181; 0x0140; 0xC301; 0x03C0; 0x0280; 0xC241;
    0xC601; 0x06C0; 0x0780; 0xC741; 0x0500; 0xC5C1; 0xC481; 0x0440;
    0xCC01; 0x0CC0; 0x0D80; 0xCD41; 0x0F00; 0xCFC1; 0xCE81; 0x0E40;
    0x0A00; 0xCAC1; 0xCB81; 0x0B40; 0xC901; 0x09C0; 0x0880; 0xC841;
    0xD801; 0x18C0; 0x1980; 0xD941; 0x1B00; 0xDBC1; 0xDA81; 0x1A40;
    0x1E00; 0xDEC1; 0xDF81; 0x1F40; 0xDD01; 0x1DC0; 0x1C80; 0xDC41;
    0x1400; 0xD4C1; 0xD581; 0x1540; 0xD701; 0x17C0; 0x1680; 0xD641;
    0xD201; 0x12C0; 0x1380; 0xD341; 0x1100; 0xD1C1; 0xD081; 0x1040;
    0xF001; 0x30C0; 0x3180; 0xF141; 0x3300; 0xF3C1; 0xF281; 0x3240;
    0x3600; 0xF6C1; 0xF781; 0x3740; 0xF501; 0x35C0; 0x3480; 0xF441;
    0x3C00; 0xFCC1; 0xFD81; 0x3D40; 0xFF01; 0x3FC0; 0x3E80; 0xFE41;
    0xFA01; 0x3AC0; 0x3B80; 0xFB41; 0x3900; 0xF9C1; 0xF881; 0x3840;
    0x2800; 0xE8C1; 0xE981; 0x2940; 0xEB01; 0x2BC0; 0x2A80; 0xEA41;
    0xEE01; 0x2EC0; 0x2F80; 0xEF41; 0x2D00; 0xEDC1; 0xEC81; 0x2C40;
    0xE401; 0x24C0; 0x2580; 0xE541; 0x2700; 0xE7C1; 0xE681; 0x2640;
    0x2200; 0xE2C1; 0xE381; 0x2340; 0xE101; 0x21C0; 0x2080; 0xE041;
    0xA001; 0x60C0; 0x6180; 0xA141; 0x6300; 0xA3C1; 0xA281; 0x6240;
    0x6600; 0xA6C1; 0xA781; 0x6740; 0xA501; 0x65C0; 0x6480; 0xA441;
    0x6C00; 0xACC1; 0xAD81; 0x6D40; 0xAF01; 0x6FC0; 0x6E80; 0xAE41;
    0xAA01; 0x6AC0; 0x6B80; 0xAB41; 0x6900; 0xA9C1; 0xA881; 0x6840;
    0x7800; 0xB8C1; 0xB981; 0x7940; 0xBB01; 0x7BC0; 0x7A80; 0xBA41;
    0xBE01; 0x7EC0; 0x7F80; 0xBF41; 0x7D00; 0xBDC1; 0xBC81; 0x7C40;
    0xB401; 0x74C0; 0x7580; 0xB541; 0x7700; 0xB7C1; 0xB681; 0x7640;
    0x7200; 0xB2C1; 0xB381; 0x7340; 0xB101; 0x71C0; 0x7080; 0xB041;
    0x5000; 0x90C1; 0x9181; 0x5140; 0x9301; 0x53C0; 0x5280; 0x9241;
    0x9601; 0x56C0; 0x5780; 0x9741; 0x5500; 0x95C1; 0x9481; 0x5440;
    0x9C01; 0x5CC0; 0x5D80; 0x9D41; 0x5F00; 0x9FC1; 0x9E81; 0x5E40;
    0x5A00; 0x9AC1; 0x9B81; 0x5B40; 0x9901; 0x59C0; 0x5880; 0x9841;
    0x8801; 0x48C0; 0x4980; 0x8941; 0x4B00; 0x8BC1; 0x8A81; 0x4A40;
    0x4E00; 0x8EC1; 0x8F81; 0x4F40; 0x8D01; 0x4DC0; 0x4C80; 0x8C41;
    0x4400; 0x84C1; 0x8581; 0x4540; 0x8701; 0x47C0; 0x4680; 0x8641;
    0x8201; 0x42C0; 0x4380; 0x8341; 0x4100; 0x81C1; 0x8081; 0x4040].

(** [while (len--)] *)
Fixpoint calculate_crc (crc : Z) (buffer : list Z) (len : nat) : option Z :=
  match len, buffer with
  | O, _ => Some crc
  | S len, b :: buffer =>
      t ← aget crc16_table (Z.land (Z.lxor crc b) 0xff);
      calculate_crc (Z.lxor (Z.shiftr crc 8) t) buffer len
  | S _, [] => None
  end.

(** ** Definitions: crc32b.c and nvitem.c *)

Definition crc_table : list Z :=
  [
    0x00000000; 0x04c11db7; 0x09823b6e; 0x0d4326d9; 0x130476dc;
    0x17c56b6b; 0x1a864db2; 0x1e475005; 0x2608edb8; 0x22c9f00f;
    0x2f8ad6d6; 0x2b4bcb61; 0x350c9b64; 0x31cd86d3; 0x3c8ea00a;
    0x384fbdbd; 0x4c11db70; 0x48d0c6c7; 0x4593e01e; 0x4152fda9;
    0x5f15adac; 0x5bd4b01b; 0x569796c2; 0x52568b75; 0x6a1936c8;
    0x6ed82b7f; 0x639b0da6; 0x675a1011; 0x791d4014; 0x7ddc5da3;
    0x709f7b7a; 0x745e66cd; 0x9823b6e0; 0x9ce2ab57; 0x91a18d8e;
    0x95609039; 0x8b27c03c; 0x8fe6dd8b; 0x82a5fb52; 0x8664e6e5;
    0xbe2b5b58; 0xbaea46ef; 0xb7a96036; 0xb3687d81; 0xad2f2d84;
    0xa9ee3033; 0xa4ad16ea; 0xa06c0b5d; 0xd4326d90; 0xd0f37027;
    0xddb056fe; 0xd9714b49; 0xc7361b4c; 0xc3f706fb; 0xceb42022;
    0xca753d95; 0xf23a8028; 0xf6fb9d9f; 0xfbb8bb46; 0xff79a6f1;
    0xe13ef6f4; 0xe5ffeb43; 0xe8bccd9a; 0xec7dd02d; 0x34867077;
    0x30476dc0; 0x3d044b19; 0x39c556ae; 0x278206ab; 0x23431b1c;
    0x2e003dc5; 0x2ac12072; 0x128e9dcf; 0x164f8078; 0x1b0ca6a1;
    0x1fcdbb16; 0x018aeb13; 0x054bf6a4; 0x0808d07d; 0x0cc9cdca;
    0x7897ab07; 0x7c56b6b0; 0x71159069; 0x75d48dde; 0x6b93dddb;
    0x6f52c06c; 0x6211e6b5; 0x66d0fb02; 0x5e9f46bf; 0x5a5e5b08;
    0x571d7dd1; 0x53dc6066; 0x4d9b3063; 0x495a2dd4; 0x44190b0d;
    0x40d816ba; 0xaca5c697; 0xa864db20; 0xa527fdf9; 0xa1e6e04e;
    0xbfa1b04b; 0xbb60adfc; 0xb6238b25; 0xb2e29692; 0x8aad2b2f;
    0x8e6c3698; 0x832f1041; 0x87ee0df6; 0x99a95df3; 0x9d684044;
    0x902b669d; 0x94ea7b2a; 0xe0b41de7; 0xe4750050; 0xe9362689;
    0xedf73b3e; 0xf3b06b3b; 0xf771768c; 0xfa325055; 0xfef34de2;
    0xc6bcf05f; 0xc27dede8; 0xcf3ecb31; 0xcbffd686; 0xd5b88683;
    0xd1799b34; 0xdc3abded; 0xd8fba05a; 0x690ce0ee; 0x6dcdfd59;
    0x608edb80; 0x644fc637; 0x7a089632; 0x7ec98b85; 0x738aad5c;
    0x774bb0eb; 0x4f040d56; 0x4bc510e1; 0x46863638; 0x42472b8f;
    0x5c007b8a; 0x58c1663d; 0x558240e4; 0x51435d53; 0x251d3b9e;
    0x21dc2629; 0x2c9f00f0; 0x285e1d47; 0x36194d42; 0x32d850f5;
    0x3f9b762c; 0x3b5a6b9b; 0x0315d626; 0x07d4cb91; 0x0a97ed48;
    0x0e56f0ff; 0x1011a0fa; 0x14d0bd4d; 0x19939b94; 0x1d528623;
    0xf12f560e; 0xf5ee4bb9; 0xf8ad6d60; 0xfc6c70d7; 0xe22b20d2;
    0xe6ea3d65; 0xeba91bbc; 0xef68060b; 0xd727bbb6; 0xd3e6a601;
    0xdea580d8; 0xda649d6f; 0xc423cd6a; 0xc0e2d0dd; 0xcda1f604;
    0xc960ebb3; 0xbd3e8d7e; 0xb9ff90c9; 0xb4bcb610; 0xb07daba7;
    0xae3afba2; 0xaafbe615; 0xa7b8c0cc; 0xa379dd7b; 0x9b3660c6;
    0x9ff77d71; 0x92b45ba8; 0x9675461f; 0x8832161a; 0x8cf30bad;
    0x81b02d74; 0x857130c3; 0x5d8a9099; 0x594b8d2e; 0x5408abf7;
    0x50c9b640; 0x4e8ee645; 0x4a4ffbf2; 0x470cdd2b; 0x43cdc09c;
    0x7b827d21; 0x7f436096; 0x7200464f; 0x76c15bf8; 0x68860bfd;
    0x6c47164a; 0x61043093; 0x65c52d24; 0x119b4be9; 0x155a565e;
    0x18197087; 0x1cd86d30; 0x029f3d35; 0x065e2082; 0x0b1d065b;
    0x0fdc1bec; 0x3793a651; 0x3352bbe6; 0x3e119d3f; 0x3ad08088;
    0x2497d08d; 0x2056cd3a; 0x2d15ebe3; 0x29d4f654; 0xc5a92679;
    0xc1683bce; 0xcc2b1d17; 0xc8ea00a0; 0xd6ad50a5; 0xd26c4d12;
    0xdf2f6bcb; 0xdbee767c; 0xe3a1cbc1; 0xe760d676; 0xea23f0af;
    0xeee2ed18; 0xf0a5bd1d; 0xf464a0aa; 0xf9278673; 0xfde69bc4;
    0x89b8fd09; 0x8d79e0be; 0x803ac667; 0x84fbdbd0; 0x9abc8bd5;
    0x9e7d9662; 0x933eb0bb; 0x97ffad0c; 0xafb010b1; 0xab710d06;
    0xa6322bdf; 0xa2f33668; 0xbcb4666d; 0xb8757bda; 0xb5365d03;
    0xb1f740b4].

(** The macro [DO1]: one byte, and the rest of the buffer. *)
Definition DO1 (st : Z * list Z) : option (Z * list Z) :=
  match st with
  | (crc, b :: buf) =>
      t ← aget crc_table (Z.land (Z.lxor (Z.shiftr crc 24) b) 0xff);
      Some (Z.lxor t (u32 (Z.shiftl crc 8)), buf)
  | (_, []) => None
  end.
Definition DO2 st := st ← DO1 st; DO1 st.
Definition DO4 st := st ← DO2 st; DO2 st.
Definition DO8 st := st ← DO4 st; DO4 st.

(** [while (len >= 8)]; the first argument bounds the rounds. *)
Fixpoint crc32b_by8 (fuel : nat) (st : Z * list Z) (len : Z) : option (Z * list Z * Z) :=
  match fuel with
  | O => None
  | S fuel => if len <? 8 then Some (st, len)
              else st ← DO8 st; crc32b_by8 fuel st (len - 8)
  end.

(** [do { DO1(buf); } while (--len);] *)
Fixpoint crc32b_by1 (fuel : nat) (st : Z * list Z) (len : Z) : option Z :=
  match fuel with
  | O => None
  | S fuel => st ← DO1 st;
              if len - 1 =? 0 then Some st.1 else crc32b_by1 fuel st (len - 1)
  end.

(** [buf] is [None] for a null pointer. *)
Definition crc32b (crc : Z) (buf : option (list Z)) (len : Z) : option Z :=
  match buf with
  | None => Some 0
  | Some buf =>
      r ← crc32b_by8 (S (Z.to_nat (len / 8))) (crc, buf) len;
      if truthy r.2 then crc32b_by1 8 r.1 r.2 else Some r.1.1
  end.

(** The loop of the odd-address branch of [calc_checksum]: [pstart] is an
    [unsigned short *], so a round reads two halfwords and moves four bytes
    while it counts two. Returns what is left of the buffer, [len] and the
    sum. *)
Fixpoint calc_checksum_odd_loop (pstart : list Z) (len checksum : Z) : option (list Z * Z * Z) :=
  if len <=? 1 then Some (pstart, len, checksum) else
  match pstart with
  | b0 :: b1 :: b2 :: b3 :: pstart =>
      calc_checksum_odd_loop pstart (len - 2)
        (u32 (checksum + Z.lor (ld16 b0 b1) (Z.shiftl (ld16 b2 b3) 8)))
  | _ => None
  end.

(** [addr] is the address of [dat]. *)
Definition calc_checksum (addr : Z) (dat : list Z) (len : Z) : option Z :=
  if 0 =? addr mod 2 then
    sum ← halfword_sum dat (len / 2) 0;
    sum ← (if truthy (len mod 2) then b ← aget dat (2 * (len / 2)); Some (u32 (sum + b))
           else Some sum);
    Some (fold_sum sum)
  else
    r ← calc_checksum_odd_loop dat len 0;
    let '(pstart, len, checksum) := r in
    sum ← (if truthy len then
             match pstart with
             | b0 :: b1 :: _ => Some (u32 (checksum + ld16 b0 b1))
             | _ => None
             end
           else Some checksum);
    Some (fold_sum sum).

(** ** Reference definitions *)

(** A CRC register of [w] bits, most significant bit first, over the
    polynomial [x^w + P]. *)
Definition msb_step (w P c : Z) : Z :=
  Z.lxor (wrap w (2 * c)) (if Z.testbit c (w - 1) then P else 0).
(** Least significant bit first. *)
Definition lsb_step (P c : Z) : Z :=
  Z.lxor (Z.shiftr c 1) (if Z.testbit c 0 then P else 0).

Definition msb_byte (w P c b : Z) : Z :=
  Nat.iter 8 (msb_step w P) (Z.lxor c (Z.shiftl b (w - 8))).
Definition lsb_byte (P c b : Z) : Z := Nat.iter 8 (lsb_step P) (Z.lxor c b).

(** The CRC-16 of a message as a fold, one bit at a time. *)
Definition crc16_ref (m : list Z) (c : Z) : Z := foldl (msb_byte 16 0x1021) c m.

(** Polynomials over GF(2) as numbers: [clmul] is their product, [msg] the
    polynomial of a message. *)
Fixpoint clmul_pos (p : positive) (a : Z) : Z :=
  match p with
  | xH => a
  | xO p => 2 * clmul_pos p a
  | xI p => Z.lxor a (2 * clmul_pos p a)
  end.
Definition clmul (q a : Z) : Z :=
  match q with Zpos p => clmul_pos p a | _ => 0 end.
Definition msg (m : list Z) : Z := foldl (fun v b => 256 * v + b) 0 m.

(** ** The register step *)

Lemma wrap_linear w (f : Z -> Z) : 0 <= w -> linear f -> linear (fun c => wrap w (f c)).
Proof. intros Hw Hf a b. by rewrite Hf, wrap_lxor. Qed.

Lemma double_linear : linear (fun c => 2 * c).
Proof.
  intros a b. rewrite !(Z.mul_comm 2). change 2 with (2 ^ 1).
  rewrite <- !Z.shiftl_mul_pow2 by lia. apply Z.shiftl_lxor.
Qed.

Lemma double_lxor a b : 2 * Z.lxor a b = Z.lxor (2 * a) (2 * b).
Proof. apply double_linear. Qed.

Lemma msb_step_linear w P : 0 <= w -> linear (msb_step w P).
Proof.
  intros Hw. apply linear_lxor.
  - apply wrap_linear; [done|apply double_linear].
  - apply linear_if. intros. apply Z.lxor_spec.
Qed.

Lemma lsb_step_linear P : linear (lsb_step P).
Proof.
  apply linear_lxor.
  - intros a b. apply Z.shiftr_lxor.
  - apply linear_if. intros. apply Z.lxor_spec.
Qed.

Lemma msb_byte_lxor w P c c' b b' :
  0 <= w ->
  msb_byte w P (Z.lxor c c') (Z.lxor b b') = Z.lxor (msb_byte w P c b) (msb_byte w P c' b').
Proof.
  intros Hw. unfold msb_byte. rewrite <- linear_iter by by apply msb_step_linear.
  f_equal. rewrite Z.shiftl_lxor, !Z.lxor_assoc. f_equal.
  by rewrite <- !Z.lxor_assoc, (Z.lxor_comm c').
Qed.

Lemma msb_step_range w P c : 0 <= w -> 0 <= P < 2 ^ w -> 0 <= msb_step w P c < 2 ^ w.
Proof.
  intros. unfold msb_step. apply lxor_range; [done|by apply wrap_range|].
  case_match; [done|]. split; [done|]. by apply Z.pow_pos_nonneg.
Qed.

Lemma msb_byte_range w P c b : 0 <= w -> 0 <= P < 2 ^ w -> 0 <= msb_byte w P c b < 2 ^ w.
Proof. intros. by apply msb_step_range. Qed.

(** A register whose top bit is clear is only shifted. *)
Lemma msb_step_shift w P c : 0 < w -> 0 <= c < 2 ^ (w - 1) -> msb_step w P c = 2 * c.
Proof.
  intros Hw Hc. unfold msb_step. rewrite wrap_small.
  - destruct (decide (c = 0)) as [->|]; [by rewrite Z.bits_0|].
    rewrite Z.bits_above_log2, Z.lxor_0_r; [done|lia|].
    apply Z.log2_lt_pow2; lia.
  - replace w with (Z.succ (w - 1)) by lia. rewrite Z.pow_succ_r by lia. lia.
Qed.

Lemma msb_iter_shift w P c n :
  Z.of_nat n < w -> 0 <= c < 2 ^ (w - Z.of_nat n) ->
  Nat.iter n (msb_step w P) c = c * 2 ^ Z.of_nat n.
Proof.
  induction n as [|n IH]; intros Hn Hc; simpl Nat.iter; [change (2 ^ Z.of_nat 0) with 1; lia|].
  assert (Hp : 2 ^ (w - Z.of_nat n) = 2 * 2 ^ (w - Z.of_nat (S n))).
  { rewrite <- Z.pow_succ_r by lia. f_equal. lia. }
  assert (0 < 2 ^ Z.of_nat n) by (apply Z.pow_pos_nonneg; lia).
  rewrite IH by lia. rewrite msb_step_shift; rewrite ?Nat2Z.inj_succ, ?Z.pow_succ_r by lia; [lia|lia|].
  split; [lia|]. replace (w - 1) with (w - Z.of_nat (S n) + Z.of_nat n) by lia.
  rewrite Z.pow_add_r by lia. apply Z.mul_lt_mono_pos_r; lia.
Qed.

(** The register step is injective when the polynomial has a constant term. *)
Lemma msb_step_kernel w P c :
  0 < w -> Z.testbit P 0 = true -> 0 <= c < 2 ^ w -> msb_step w P c = 0 -> c = 0.
Proof.
  intros Hw HP Hc H.
  assert (Hp : 2 ^ w = 2 * 2 ^ (w - 1)).
  { rewrite <- Z.pow_succ_r by lia. f_equal. lia. }
  destruct (Z.testbit c (w - 1)) eqn:Ht.
  - assert (Hb : Z.testbit (msb_step w P c) 0 = true).
    { unfold msb_step. rewrite Ht, Z.lxor_spec, HP. unfold wrap.
      rewrite <- Z.land_ones, Z.land_spec, Z.testbit_even_0 by lia. done. }
    by rewrite H, Z.bits_0 in Hb.
  - assert (c < 2 ^ (w - 1)).
    { apply Z.nle_gt. intros Hge.
      assert (Hone : c / 2 ^ (w - 1) = 1) by (symmetry; apply Z.div_unique with (c - 2 ^ (w - 1)); lia).
      rewrite <- (Z.add_0_l (w - 1)), <- Z.div_pow2_bits, Hone in Ht by lia. done. }
    rewrite msb_step_shift in H by lia. lia.
Qed.

Lemma msb_iter_kernel w P n c :
  0 < w -> Z.testbit P 0 = true -> 0 <= P < 2 ^ w -> 0 <= c < 2 ^ w ->
  Nat.iter n (msb_step w P) c = 0 -> c = 0.
Proof.
  intros Hw HP HPr Hc. induction n as [|n IH]; simpl; [done|]. intros H. apply IH.
  apply (msb_step_kernel w P); [done|done| |done].
  destruct n; simpl; [done|]. apply msb_step_range; lia.
Qed.

(** ** crc_16_l_calc *)

Lemma crc_16_l_bit_lxor b b' k c c' :
  0 <= k ->
  crc_16_l_bit (Z.lxor b b') (2 ^ k) (Z.lxor c c')
  = Z.lxor (crc_16_l_bit b (2 ^ k) c) (crc_16_l_bit b' (2 ^ k) c').
Proof.
  intros Hk. unfold crc_16_l_bit.
  assert (Hs : u16 (Z.shiftl (Z.lxor c c') 1) = Z.lxor (u16 (Z.shiftl c 1)) (u16 (Z.shiftl c' 1))).
  { rewrite Z.shiftl_lxor. by apply wrap_lxor. }
  change CRC_16_L_POLYNOMIAL with (2 ^ 15).
  rewrite Hs, !truthy_land_pow2, !Z.lxor_spec by lia.
  generalize CRC_16_POLYNOMIAL (u16 (Z.shiftl c 1)) (u16 (Z.shiftl c' 1)). intros p x y.
  destruct (Z.testbit c 15), (Z.testbit c' 15), (Z.testbit b k), (Z.testbit b' k); simpl; lxor_bits.
Qed.

(** The seed walks the eight bits of the byte, the highest first. *)
Lemma crc_16_l_byte_bits b c :
  crc_16_l_byte 9 b CRC_16_L_SEED c
  = foldl (fun c k => crc_16_l_bit b (2 ^ k) c) c [7; 6; 5; 4; 3; 2; 1; 0].
Proof. reflexivity. Qed.

Lemma crc_16_l_bits_lxor ks b b' c c' :
  Forall (Z.le 0) ks ->
  foldl (fun c k => crc_16_l_bit (Z.lxor b b') (2 ^ k) c) (Z.lxor c c') ks
  = Z.lxor (foldl (fun c k => crc_16_l_bit b (2 ^ k) c) c ks)
           (foldl (fun c k => crc_16_l_bit b' (2 ^ k) c) c' ks).
Proof.
  intros H. revert c c'. induction H as [|k ks Hk _ IH]; intros c c'; cbn [foldl]; [done|].
  by rewrite crc_16_l_bit_lxor, IH.
Qed.

Lemma crc_16_l_byte_lxor b b' c c' :
  crc_16_l_byte 9 (Z.lxor b b') CRC_16_L_SEED (Z.lxor c c')
  = Z.lxor (crc_16_l_byte 9 b CRC_16_L_SEED c) (crc_16_l_byte 9 b' CRC_16_L_SEED c').
Proof. rewrite !crc_16_l_byte_bits. apply crc_16_l_bits_lxor. list_lia. Qed.

Lemma crc_16_l_bit_0 k c : 0 <= k -> crc_16_l_bit 0 (2 ^ k) c = msb_step 16 0x1021 c.
Proof.
  intros Hk. unfold crc_16_l_bit, msb_step. change CRC_16_L_POLYNOMIAL with (2 ^ 15).
  rewrite !truthy_land_pow2, Z.bits_0 by lia. rewrite (Z.mul_comm 2), Z.shiftl_mul_pow2 by lia.
  change (16 - 1) with 15. destruct (Z.testbit c 15); [done|]. by rewrite Z.lxor_0_r.
Qed.

Lemma crc_16_l_bits_0 ks c :
  Forall (Z.le 0) ks ->
  foldl (fun c k => crc_16_l_bit 0 (2 ^ k) c) c ks = Nat.iter (length ks) (msb_step 16 0x1021) c.
Proof.
  intros H. revert c. induction H as [|k ks Hk _ IH]; intros c; cbn [foldl]; [done|].
  rewrite crc_16_l_bit_0, IH by done. cbn [length]. symmetry. apply Nat.iter_succ_r.
Qed.

Lemma crc_16_l_byte_0 c : crc_16_l_byte 9 0 CRC_16_L_SEED c = msb_byte 16 0x1021 c 0.
Proof.
  rewrite crc_16_l_byte_bits, crc_16_l_bits_0 by list_lia.
  unfold msb_byte. by rewrite Z.shiftl_0_l, (Z.lxor_0_r c).
Qed.

Lemma crc_16_l_byte_seed b :
  byte b -> crc_16_l_byte 9 b CRC_16_L_SEED 0 = msb_byte 16 0x1021 0 b.
Proof.
  intros Hb. apply Z.eqb_eq. revert Hb.
  apply (byte_check (fun b => crc_16_l_byte 9 b CRC_16_L_SEED 0 =? msb_byte 16 0x1021 0 b)).
  vm_compute. reflexivity.
Qed.

Lemma crc_16_l_byte_ref b c :
  byte b -> crc_16_l_byte 9 b CRC_16_L_SEED c = msb_byte 16 0x1021 c b.
Proof.
  intros Hb.
  assert (H1 := crc_16_l_byte_lxor 0 b c 0). assert (H2 := msb_byte_lxor 16 0x1021 c 0 0 b).
  rewrite (Z.lxor_0_r c), (Z.lxor_0_l b) in H1, H2.
  rewrite H1, H2, crc_16_l_byte_0, crc_16_l_byte_seed by done. reflexivity.
Qed.

Lemma crc_16_l_loop_ref buf len c :
  bytes buf -> 0 <= len <= zlen buf ->
  crc_16_l_loop buf len c = Some (crc16_ref (take (Z.to_nat len) buf) c).
Proof.
  unfold crc16_ref. revert len c. induction buf as [|b buf IH]; intros len c Hb Hl;
    autorewrite with cbits in Hl; cbn [crc_16_l_loop].
  - by replace len with 0 by lia.
  - apply Forall_cons in Hb as [Hb Hbs]. destruct (Z.eqb_spec len 0) as [->|]; [done|].
    rewrite crc_16_l_byte_ref by done. rewrite IH by (auto; lia).
    by replace (Z.to_nat len) with (S (Z.to_nat (len - 1))) by lia.
Qed.

Lemma crc_16_l_calc_ref buf len :
  bytes buf -> 0 <= len <= zlen buf -> zlen buf < 2 ^ 32 ->
  crc_16_l_calc buf len = Some (crc16_ref (take (Z.to_nat len) buf) 0).
Proof.
  intros Hb Hl Hz. unfold crc_16_l_calc. rewrite u32_small by lia. by apply crc_16_l_loop_ref.
Qed.

Lemma crc_16_l_calc_all buf :
  bytes buf -> zlen buf < 2 ^ 32 -> crc_16_l_calc buf (zlen buf) = Some (crc16_ref buf 0).
Proof.
  intros Hb Hz. rewrite crc_16_l_calc_ref by (auto; unfold zlen in *; lia).
  unfold zlen. by rewrite Nat2Z.id, firstn_all.
Qed.

Lemma crc16_ref_range m c : 0 <= c < 65536 -> 0 <= crc16_ref m c < 65536.
Proof.
  unfold crc16_ref. revert c. induction m as [|b m IH]; intros c Hc; simpl; [done|].
  apply IH. apply (msb_byte_range 16); lia.
Qed.

Lemma crc16_ref_app m m' c : crc16_ref (m ++ m') c = crc16_ref m' (crc16_ref m c).
Proof. apply foldl_app. Qed.

(** One byte in front of the register: the register of a low byte is the
    byte, moved up. *)
Lemma msb_byte16_low c b :
  byte b -> 0 <= c < 65536 -> Z.shiftr c 8 = b -> msb_byte 16 0x1021 c b = (c mod 256) * 256.
Proof.
  intros Hb Hc <-. unfold msb_byte.
  assert (Hx : Z.lxor c (Z.shiftl (Z.shiftr c 8) (16 - 8)) = c mod 256).
  { rewrite <- land_255. apply Z.bits_inj'. intros i Hi.
    change (16 - 8) with 8. rewrite Z.lxor_spec, Z.land_spec.
    change 255 with (Z.ones 8). destruct (decide (i < 8)).
    - rewrite Z.shiftl_spec_low, Z.ones_spec_low by lia. by rewrite andb_true_r, xorb_false_r.
    - rewrite Z.shiftl_spec_high, Z.shiftr_spec, Z.ones_spec_high by lia.
      replace (i - 8 + 8) with i by lia. by rewrite andb_false_r, xorb_nilpotent. }
  rewrite Hx. rewrite msb_iter_shift; [done|done|]. change (2 ^ (16 - Z.of_nat 8)) with 256.
  by apply Z.mod_pos_bound.
Qed.

(** The register step divides: shifting a message bit in multiplies the
    remainder by [x] and subtracts the polynomial when the quotient grows. *)
Lemma wrap_double w c :
  0 < w -> 0 <= c < 2 ^ w ->
  wrap w (2 * c) = Z.lxor (2 * c) (if Z.testbit c (w - 1) then 2 ^ w else 0).
Proof.
  intros Hw Hc. apply Z.bits_inj'. intros i Hi. rewrite Z.lxor_spec. unfold wrap.
  assert (H2 : forall j, 0 < j -> Z.testbit (2 * c) j = Z.testbit c (j - 1)).
  { intros j Hj. rewrite <- (Z.double_bits_succ c (j - 1)) by lia. f_equal; lia. }
  destruct (Z.lt_trichotomy i w) as [Hlt|[->|Hgt]].
  - rewrite Z.mod_pow2_bits_low by lia. destruct (Z.testbit c (w - 1)).
    + rewrite Z.pow2_bits_false by lia. by rewrite xorb_false_r.
    + by rewrite Z.bits_0, xorb_false_r.
  - rewrite Z.mod_pow2_bits_high, H2 by lia. destruct (Z.testbit c (w - 1)).
    + by rewrite Z.pow2_bits_true by lia.
    + by rewrite Z.bits_0.
  - rewrite Z.mod_pow2_bits_high, H2, (bits_above w c) by lia. destruct (Z.testbit c (w - 1)).
    + by rewrite Z.pow2_bits_false by lia.
    + by rewrite Z.bits_0.
Qed.

Lemma clmul_double q a : clmul (2 * q) a = 2 * clmul q a.
Proof. by destruct q. Qed.
Lemma clmul_double_1 q a : 0 <= q -> clmul (2 * q + 1) a = Z.lxor (2 * clmul q a) a.
Proof.
  intros. destruct q as [|p|p]; [by rewrite Z.lxor_0_l| |lia].
  change (2 * Zpos p + 1) with (Zpos p~1). apply Z.lxor_comm.
Qed.

Lemma clmul_lxor_pos p q a :
  clmul (Z.lxor (Zpos p) (Zpos q)) a = Z.lxor (clmul_pos p a) (clmul_pos q a).
Proof.
  assert (H0 : forall n, clmul (Z.of_N (Pos.Ndouble n)) a = 2 * clmul (Z.of_N n) a).
  { intros [|n]; reflexivity. }
  assert (H1 : forall n, clmul (Z.of_N (Pos.Nsucc_double n)) a = Z.lxor a (2 * clmul (Z.of_N n) a)).
  { intros []; simpl; [|done]. by rewrite Z.lxor_0_r. }
  change (Z.lxor (Zpos p) (Zpos q)) with (Z.of_N (Pos.lxor p q)).
  revert q. induction p as [p IH|p IH|]; intros [q|q|];
    try change (Pos.lxor p~1 q~1) with (Pos.Ndouble (Pos.lxor p q));
    try change (Pos.lxor p~1 q~0) with (Pos.Nsucc_double (Pos.lxor p q));
    try change (Pos.lxor p~0 q~1) with (Pos.Nsucc_double (Pos.lxor p q));
    try change (Pos.lxor p~0 q~0) with (Pos.Ndouble (Pos.lxor p q));
    try change (Pos.lxor p~1 1) with (N.pos p~0); try change (Pos.lxor p~0 1) with (N.pos p~1);
    try change (Pos.lxor 1 q~1) with (N.pos q~0); try change (Pos.lxor 1 q~0) with (N.pos q~1);
    cbn [clmul_pos]; rewrite ?H0, ?H1, ?IH, ?double_lxor; cbn [Z.of_N clmul clmul_pos];
    lxor_bits.
Qed.

Lemma clmul_lxor q q' a :
  0 <= q -> 0 <= q' -> clmul (Z.lxor q q') a = Z.lxor (clmul q a) (clmul q' a).
Proof.
  intros. destruct q as [|q|q]; [by rewrite !Z.lxor_0_l| |lia].
  destruct q' as [|q'|q']; [by rewrite !Z.lxor_0_r|apply clmul_lxor_pos|lia].
Qed.

Lemma clmul_pow2 q a n : clmul (2 ^ Z.of_nat n * q) a = 2 ^ Z.of_nat n * clmul q a.
Proof.
  induction n as [|n IH]; [by rewrite !Z.mul_1_l|].
  rewrite Nat2Z.inj_succ, Z.pow_succ_r, <- !Z.mul_assoc by lia. by rewrite clmul_double, IH.
Qed.

(** A non-zero multiple of a polynomial of degree [w] has degree at least
    [w]. *)
Lemma clmul_top w a q :
  0 <= w -> 0 <= a < 2 ^ (w + 1) -> Z.testbit a w = true -> 0 < q ->
  Z.testbit (clmul q a) (w + Z.log2 q) = true.
Proof.
  intros Hw Ha Ht Hq. destruct q as [|p|p]; [lia| |lia]. clear Hq. cbn [clmul].
  assert (Hlog : forall p, 0 <= Z.log2 (Zpos p)) by (intros; apply Z.log2_nonneg).
  assert (H2 : forall z j, 0 < j -> Z.testbit (2 * z) j = Z.testbit z (j - 1)).
  { intros z j Hj. rewrite <- (Z.double_bits_succ z (j - 1)) by lia. f_equal; lia. }
  induction p as [p IH|p IH|]; cbn [clmul_pos].
  - change (Zpos p~1) with (2 * Zpos p + 1). rewrite Z.log2_succ_double by lia.
    specialize (Hlog p). rewrite Z.lxor_spec, H2, (bits_above (w + 1) a) by lia.
    replace (w + Z.succ (Z.log2 (Zpos p)) - 1) with (w + Z.log2 (Zpos p)) by lia. by rewrite IH.
  - change (Zpos p~0) with (2 * Zpos p). rewrite Z.log2_double by lia.
    specialize (Hlog p). rewrite H2 by lia.
    by replace (w + Z.succ (Z.log2 (Zpos p)) - 1) with (w + Z.log2 (Zpos p)) by lia.
  - by rewrite Z.add_0_r.
Qed.

Lemma msb_iter_divides w P c n k :
  0 < w -> 0 <= c < 2 ^ w -> 0 <= P < 2 ^ w ->
  exists q, 0 <= q /\
    Z.lxor (Z.shiftl (2 ^ Z.of_nat k * n) w) (Nat.iter k (msb_step w P) c)
    = Z.lxor (2 ^ Z.of_nat k * Z.lxor (Z.shiftl n w) c) (clmul q (Z.lxor (2 ^ w) P)).
Proof.
  intros Hw Hc HP. set (G := Z.lxor (2 ^ w) P).
  induction k as [|k (q & Hq & IH)].
  { exists 0. split; [done|]. by rewrite Z.lxor_0_r, !Z.mul_1_l. }
  set (x := Nat.iter k (msb_step w P) c) in *.
  assert (Hx : 0 <= x < 2 ^ w).
  { subst x. destruct k; [done|]. apply msb_step_range; lia. }
  assert (Hs : msb_step w P x = Z.lxor (2 * x) (if Z.testbit x (w - 1) then G else 0)).
  { unfold msb_step. rewrite wrap_double by done. case_match; rewrite ?Z.lxor_0_r; [|done].
    apply Z.lxor_assoc. }
  rewrite Nat.iter_succ. fold x. rewrite Hs, Nat2Z.inj_succ, Z.pow_succ_r, <- !Z.mul_assoc by lia.
  assert (H2 : Z.shiftl (2 * (2 ^ Z.of_nat k * n)) w = 2 * Z.shiftl (2 ^ Z.of_nat k * n) w).
  { rewrite !Z.shiftl_mul_pow2 by lia. lia. }
  rewrite H2, <- Z.lxor_assoc, <- double_lxor, IH, double_lxor, Z.lxor_assoc.
  case_match.
  - exists (2 * q + 1). split; [lia|]. by rewrite clmul_double_1.
  - exists (2 * q). split; [lia|]. by rewrite clmul_double, Z.lxor_0_r.
Qed.

(** The specification: [r] is the remainder of the message, moved up by
    sixteen places, by the generator x^16 + x^12 + x^5 + 1. *)
Definition crc16_remainder (m : list Z) (r : Z) : Prop :=
  0 <= r < 65536 /\ exists q, 0 <= q /\ Z.lxor (Z.shiftl (msg m) 16) r = clmul q 0x11021.

Lemma crc16_remainder_unique m r r' :
  crc16_remainder m r -> crc16_remainder m r' -> r = r'.
Proof.
  intros [Hr (q & Hq & H)] [Hr' (q' & Hq' & H')].
  assert (Hx : Z.lxor r r' = clmul (Z.lxor q q') 0x11021).
  { rewrite clmul_lxor, <- H, <- H' by done.
    lxor_bits. }
  apply Z.lxor_eq. rewrite Hx.
  assert (Hqq : 0 <= Z.lxor q q') by (apply Z.lxor_nonneg; lia).
  destruct (decide (Z.lxor q q' = 0)) as [->|]; [done|].
  assert (Hlog := Z.log2_nonneg (Z.lxor q q')).
  assert (Ht := clmul_top 16 0x11021 (Z.lxor q q')).
  rewrite <- Hx, (bits_above 16 (Z.lxor r r')) in Ht; [|by apply (lxor_range 16)|lia].
  discriminate Ht; lia || done.
Qed.

Lemma msb_byte16_divides m b c :
  byte b -> crc16_remainder m c -> crc16_remainder (m ++ [b]) (msb_byte 16 0x1021 c b).
Proof.
  intros Hb [Hc (q & Hq & H)]. split; [by apply (msb_byte_range 16)|].
  assert (Hbr : 0 <= Z.shiftl b 8 < 65536).
  { rewrite Z.shiftl_mul_pow2 by lia. unfold byte in Hb. lia. }
  destruct (msb_iter_divides 16 0x1021 (Z.lxor c (Z.shiftl b 8)) (msg m) 8)
    as (q' & Hq' & Hi); [lia|by apply (lxor_range 16)|lia|].
  change (2 ^ Z.of_nat 8) with 256 in Hi. change (Z.lxor (2 ^ 16) 0x1021) with 0x11021 in Hi.
  exists (Z.lxor (256 * q) q'). split; [apply Z.lxor_nonneg; lia|].
  assert (H256 : clmul (256 * q) 0x11021 = 256 * clmul q 0x11021) by apply (clmul_pow2 q _ 8).
  rewrite clmul_lxor, H256, <- H by lia.
  unfold msg. rewrite foldl_app. cbn [foldl]. fold (msg m).
  assert (Hadd : 256 * msg m + b = Z.lxor (256 * msg m) b).
  { apply Z.add_nocarry_lxor. rewrite Z.mul_comm. change 256 with (2 ^ 8).
    rewrite <- Z.shiftl_mul_pow2 by lia. by apply (land_shiftl_low _ _ 8). }
  assert (Hm : forall x y, 256 * Z.lxor x y = Z.lxor (256 * x) (256 * y)).
  { intros. rewrite !(Z.mul_comm 256). change 256 with (2 ^ 8).
    rewrite <- !Z.shiftl_mul_pow2 by lia. apply Z.shiftl_lxor. }
  assert (Hb8 : 256 * Z.shiftl b 8 = Z.shiftl b 16) by (rewrite !Z.shiftl_mul_pow2; lia).
  rewrite !Hm, Hb8 in Hi. unfold msb_byte. change (16 - 8) with 8.
  rewrite Hadd, Hm, Z.shiftl_lxor, Z.lxor_assoc, (Z.lxor_comm (Z.shiftl b 16)), <- Z.lxor_assoc, Hi.
  lxor_bits.
Qed.

Lemma crc16_ref_remainder m : bytes m -> crc16_remainder m (crc16_ref m 0).
Proof.
  induction m as [|b m IH] using rev_ind; intros Hb.
  - split; [done|]. by exists 0.
  - apply bytes_app in Hb as [Hm Hb]. assert (byte b) by by eapply Forall_inv.
    rewrite crc16_ref_app. apply (msb_byte16_divides m b); [done|by apply IH].
Qed.

Lemma crc16_ref_lxor m m' c c' :
  length m = length m' ->
  crc16_ref (zip_with Z.lxor m m') (Z.lxor c c') = Z.lxor (crc16_ref m c) (crc16_ref m' c').
Proof.
  unfold crc16_ref. revert m' c c'. induction m as [|b m IH]; intros [|b' m'] c c'; try done.
  intros [= Hl]. cbn [zip_with foldl]. by rewrite msb_byte_lxor, IH.
Qed.

Lemma msb_byte_unfold w P c b :
  msb_byte w P c b = Nat.iter 8 (msb_step w P) (Z.lxor c (Z.shiftl b (w - 8))).
Proof. reflexivity. Qed.

Lemma byte_shiftl8 b : byte b -> 0 <= Z.shiftl b 8 < 2 ^ 16.
Proof. intros Hb. rewrite Z.shiftl_mul_pow2 by lia. unfold byte in Hb. lia. Qed.

Lemma msb_iter_inj w P n x y :
  0 < w -> Z.testbit P 0 = true -> 0 <= P < 2 ^ w -> 0 <= x < 2 ^ w -> 0 <= y < 2 ^ w ->
  Nat.iter n (msb_step w P) x = Nat.iter n (msb_step w P) y -> x = y.
Proof.
  intros Hw HP HPr Hx Hy H. apply Z.lxor_eq, (msb_iter_kernel w P n); try done.
  - apply lxor_range; lia.
  - rewrite linear_iter, H by (apply msb_step_linear; lia). apply Z.lxor_nilpotent.
Qed.

Lemma msb_byte_inj w P c c' b b' :
  0 < w -> Z.testbit P 0 = true -> 0 <= P < 2 ^ w -> 0 <= c < 2 ^ w -> 0 <= c' < 2 ^ w ->
  0 <= Z.shiftl b (w - 8) < 2 ^ w -> 0 <= Z.shiftl b' (w - 8) < 2 ^ w ->
  msb_byte w P c b = msb_byte w P c' b' ->
  Z.lxor c (Z.shiftl b (w - 8)) = Z.lxor c' (Z.shiftl b' (w - 8)).
Proof.
  intros Hw HP HPr Hc Hc' Hb Hb' H. rewrite !msb_byte_unfold in H.
  apply msb_iter_inj in H; try done; apply lxor_range; lia.
Qed.

(** Equal messages move different registers to different registers. *)
Lemma crc16_ref_inj m c c' :
  bytes m -> 0 <= c < 65536 -> 0 <= c' < 65536 -> crc16_ref m c = crc16_ref m c' -> c = c'.
Proof.
  unfold crc16_ref. intros Hm. revert c c'.
  induction Hm as [|b m Hb _ IH]; intros c c' Hc Hc' H; [done|].
  cbn [foldl] in H. apply IH in H; [|apply (msb_byte_range 16); lia..].
  assert (Hs := byte_shiftl8 b Hb).
  apply (msb_byte_inj 16) in H; [|done || lia..].
  apply (f_equal (fun z => Z.lxor z (Z.shiftl b (16 - 8)))) in H.
  by rewrite !Z.lxor_assoc, !Z.lxor_nilpotent, !Z.lxor_0_r in H.
Qed.

Lemma shiftl8_low w P x :
  w = 16 -> byte x -> Z.shiftl x (w - 8) = Nat.iter 8 (msb_step w P) x.
Proof.
  intros Hw Hx. rewrite msb_iter_shift, Z.shiftl_mul_pow2 by (subst; unfold byte in Hx; lia).
  by subst.
Qed.

(** The register after two bytes determines both. *)
Lemma msb_pair_inj w P c a b a' b' :
  w = 16 -> Z.testbit P 0 = true -> 0 <= P < 2 ^ w -> 0 <= c < 2 ^ w ->
  byte a -> byte b -> byte a' -> byte b' ->
  msb_byte w P (msb_byte w P c a) b = msb_byte w P (msb_byte w P c a') b' -> a = a' /\ b = b'.
Proof.
  intros Hw HP HPr Hc Ha Hb Ha' Hb' H.
  assert (Hs : forall x, byte x -> 0 <= Z.shiftl x (w - 8) < 2 ^ w).
  { intros x Hx. subst w. by apply byte_shiftl8. }
  assert (Hr : forall x, byte x -> 0 <= x < 2 ^ w) by (subst w; unfold byte; lia).
  apply msb_byte_inj in H; [|auto using msb_byte_range with lia..]; try lia;
    try (apply msb_byte_range; lia); try by apply Hs.
  rewrite !(msb_byte_unfold w P c), (shiftl8_low w P b), (shiftl8_low w P b') in H by done.
  rewrite <- !linear_iter in H by (apply msb_step_linear; lia).
  apply msb_iter_inj in H; try lia; [|done|repeat apply lxor_range; auto; lia..].
  rewrite !Z.lxor_assoc in H. apply (f_equal (Z.lxor c)) in H.
  rewrite <- !(Z.lxor_assoc c c), Z.lxor_nilpotent, !Z.lxor_0_l in H.
  assert (Hj : forall x y, byte y -> Z.lxor (Z.shiftl x (w - 8)) y = x * 256 + y).
  { intros x y Hy. subst w. rewrite <- lor_shiftl8 by done. apply Z.lxor_lor.
    by apply (land_shiftl_low x y 8). }
  rewrite !Hj in H by done. unfold byte in *. lia.
Qed.

Lemma crc16_ref_pair a b c :
  crc16_ref [a; b] c = msb_byte 16 0x1021 (msb_byte 16 0x1021 c a) b.
Proof. reflexivity. Qed.

(** *** Properties of crc_16_l_calc *)

(** C36: for every buffer and length, [crc_16_l_calc] returns [r] exactly when
    [r] is the remainder of the message polynomial, times x^16, modulo the
    generator x^16 + x^12 + x^5 + 1: the register loop is polynomial
    division. *)
Theorem crc_16_l_calc_correct buf len r :
  bytes buf -> 0 <= len <= zlen buf -> zlen buf < 2 ^ 32 ->
  (crc_16_l_calc buf len = Some r <-> crc16_remainder (take (Z.to_nat len) buf) r).
Proof.
  intros Hb Hl Hz. rewrite crc_16_l_calc_ref by done.
  assert (Hr : crc16_remainder (take (Z.to_nat len) buf) (crc16_ref (take (Z.to_nat len) buf) 0)).
  { apply crc16_ref_remainder. by apply Forall_take. }
  split; [by intros [= <-]|]. intros H. f_equal. by eapply crc16_remainder_unique.
Qed.

Lemma crc_16_l_calc_correct_witness :
  crc16_remainder [49; 50; 51; 52; 53; 54; 55; 56; 57] 12739.
Proof.
  assert (Hb : bytes [49; 50; 51; 52; 53; 54; 55; 56; 57; 0]) by by_bytes.
  apply (proj1 (crc_16_l_calc_correct [49; 50; 51; 52; 53; 54; 55; 56; 57; 0] 9 12739
    Hb ltac:(vm_compute; split; discriminate) ltac:(vm_compute; reflexivity))).
  vm_compute. reflexivity.
Defined.

Lemma crc_16_l_calc_append buf r :
  bytes buf -> zlen buf + 2 < 2 ^ 32 -> crc_16_l_calc buf (zlen buf) = Some r ->
  crc_16_l_calc (buf ++ be16 r) (zlen buf + 2) = Some 0.
Proof.
  intros Hb Hz. rewrite crc_16_l_calc_all by (auto; lia). intros [= <-].
  assert (Hr := crc16_ref_range buf 0 ltac:(lia)).
  set (r := crc16_ref buf 0) in *.
  replace (zlen buf + 2) with (zlen (buf ++ be16 r)) by (by rewrite zlen_app).
  rewrite crc_16_l_calc_all; [|apply bytes_app; auto with cint|rewrite zlen_app; done].
  rewrite crc16_ref_app. fold r. unfold crc16_ref, be16. cbn [foldl]. f_equal.
  rewrite (msb_byte16_low r) by (auto with cint; rewrite shiftr8; wrap_lia).
  rewrite (msb_byte16_low (r mod 256 * 256)); [..|rewrite shiftr8; wrap_lia].
  - rewrite Z.mod_mul; lia.
  - auto with cint.
  - wrap_lia.
Qed.

(** the receiver's test: the CRC of a message followed by its own CRC,
    high byte first, is zero. *)
Theorem crc_16_l_calc_residue buf r :
  bytes buf -> zlen buf + 2 < 2 ^ 32 -> crc_16_l_calc buf (zlen buf) = Some r ->
  crc_16_l_calc (buf ++ be16 r) (zlen buf + 2) = Some 0.
Proof. apply crc_16_l_calc_append. Qed.

Lemma crc_16_l_calc_residue_witness :
  crc_16_l_calc [2; 4; 0; 1; 9; 44; 106] 7 = Some 0.
Proof.
  apply (crc_16_l_calc_residue [2; 4; 0; 1; 9] 0x2c6a);
    [by_bytes|vm_compute; reflexivity|].
  vm_compute. reflexivity.
Defined.
(** error detection: two messages that differ only within two adjacent
    bytes (any burst of up to nine bits, and any two bytes of a halfword)
    have different CRCs. *)
Theorem crc_16_l_calc_detects pre a b a' b' post r r' :
  bytes pre -> bytes [a; b] -> bytes [a'; b'] -> bytes post ->
  zlen pre + 2 + zlen post < 2 ^ 32 ->
  (a, b) <> (a', b') ->
  crc_16_l_calc (pre ++ [a; b] ++ post) (zlen pre + 2 + zlen post) = Some r ->
  crc_16_l_calc (pre ++ [a'; b'] ++ post) (zlen pre + 2 + zlen post) = Some r' ->
  r <> r'.
Proof.
  intros Hpre Hab Hab' Hpost Hz Hne.
  assert (Hl : forall x y, zlen pre + 2 + zlen post = zlen (pre ++ [x; y] ++ post)).
  { intros. rewrite !zlen_app. change (zlen [x; y]) with 2. lia. }
  rewrite (Hl a b), crc_16_l_calc_all by (rewrite <- ?Hl, ?bytes_app; auto).
  rewrite <- (Hl a b), (Hl a' b'), crc_16_l_calc_all by (rewrite <- ?Hl, ?bytes_app; auto).
  intros [= <-] [= <-] H. apply Hne.
  rewrite !crc16_ref_app in H.
  rewrite (crc16_ref_app [a; b] post), (crc16_ref_app [a'; b'] post) in H.
  assert (Hc := crc16_ref_range pre 0 ltac:(lia)).
  apply crc16_ref_inj in H; [|done|by apply crc16_ref_range..].
  apply Forall_cons in Hab as [Ha Hab]. apply Forall_cons in Hab as [Hb _].
  apply Forall_cons in Hab' as [Ha' Hab']. apply Forall_cons in Hab' as [Hb' _].
  rewrite !crc16_ref_pair in H.
  apply (msb_pair_inj 16 0x1021 (crc16_ref pre 0)) in H as [-> ->]; done.
Qed.

Lemma crc_16_l_calc_detects_witness : 11370 <> 8027.
Proof.
  apply (crc_16_l_calc_detects [2; 4] 0 1 0 0 [9] 11370 8027);
    [by_bytes|by_bytes|by_bytes|by_bytes|vm_compute; reflexivity|congruence
    |vm_compute; reflexivity|vm_compute; reflexivity].
Defined.

(** ** frm_chk, boot_checksum and calc_checksum *)

Lemma halfword_sum_stop data size1 sum : size1 <= 0 -> halfword_sum data size1 sum = Some sum.
Proof. intros H. destruct data; simpl; by rewrite (proj2 (Z.leb_le _ _)). Qed.

Lemma halfword_sum_step b0 b1 data size1 sum :
  0 < size1 ->
  halfword_sum (b0 :: b1 :: data) size1 sum
  = halfword_sum data (size1 - 1) (u32 (sum + ld16 b0 b1)).
Proof. intros H. simpl. by rewrite (proj2 (Z.leb_gt _ _)). Qed.

(** The sum all three compute: the halfwords, then the odd last byte. *)
Definition byte_sum (src : list Z) (len sum : Z) : option Z :=
  sum ← halfword_sum src (len / 2) sum;
  if len mod 2 =? 0 then Some sum else b ← aget src (len - 1); Some (u32 (sum + b)).

Lemma byte_sum_step b0 b1 src len sum :
  2 <= len -> byte_sum (b0 :: b1 :: src) len sum = byte_sum src (len - 2) (u32 (sum + ld16 b0 b1)).
Proof.
  intros H. unfold byte_sum. rewrite halfword_sum_step by (apply Z.div_str_pos; lia).
  replace (len / 2 - 1) with ((len - 2) / 2) by (Z.div_mod_to_equations; lia).
  replace ((len - 2) mod 2) with (len mod 2) by (Z.div_mod_to_equations; lia).
  destruct (halfword_sum _ _ _); [|done]. simpl.
  destruct (Z.eqb_spec (len mod 2) 0); [done|].
  unfold aget. rewrite !(proj2 (Z.leb_le _ _)) by (Z.div_mod_to_equations; lia).
  replace (Z.to_nat (len - 1)) with (S (S (Z.to_nat (len - 2 - 1)))) by (Z.div_mod_to_equations; lia).
  done.
Qed.

Lemma byte_sum_is_Some n src len sum :
  (length src <= n)%nat -> 0 <= len <= zlen src -> is_Some (byte_sum src len sum).
Proof.
  revert src len sum. induction n as [|n IH]; intros src len sum Hn Hl.
  { destruct src; [|simpl in Hn; lia]. rewrite (@zlen_nil Z) in Hl. by replace len with 0 by lia. }
  destruct (decide (len = 0)) as [->|]; [by destruct src|].
  destruct (decide (len = 1)) as [->|]; [destruct src; [rewrite (@zlen_nil Z) in Hl; lia|done]|].
  destruct src as [|b0 [|b1 src]]; rewrite ?zlen_cons, ?(@zlen_nil Z) in Hl; try lia.
  rewrite byte_sum_step by lia. simpl in Hn. apply IH; lia.
Qed.

(** Only the first [len] bytes count. *)
Lemma byte_sum_app n src rest len sum :
  (length src <= n)%nat -> 0 <= len <= zlen src ->
  byte_sum (src ++ rest) len sum = byte_sum src len sum.
Proof.
  revert src len sum. induction n as [|n IH]; intros src len sum Hn Hl.
  { destruct src; [|simpl in Hn; lia]. rewrite (@zlen_nil Z) in Hl. replace len with 0 by lia.
    by destruct rest. }
  destruct (decide (len = 0)) as [->|]; [by destruct src; destruct rest|].
  destruct (decide (len = 1)) as [->|]; [destruct src; [rewrite (@zlen_nil Z) in Hl; lia|done]|].
  destruct src as [|b0 [|b1 src]]; rewrite ?zlen_cons, ?(@zlen_nil Z) in Hl; try lia.
  cbn [app]. rewrite !byte_sum_step by lia. simpl in Hn. apply IH; lia.
Qed.

Lemma boot_checksum_sum src len : boot_checksum src len = fold_sum <$> byte_sum src len 0.
Proof.
  unfold boot_checksum, byte_sum. rewrite shiftr1, land_1.
  unfold truthy. destruct (Z.eqb_spec len 0) as [->|]; simpl.
  - by destruct src.
  - destruct (halfword_sum _ _ _); [|done]. simpl.
    destruct (len mod 2 =? 0); [done|]. simpl. by destruct (aget src (len - 1)).
Qed.

Lemma calc_checksum_sum addr src len :
  addr mod 2 = 0 -> calc_checksum addr src len = fold_sum <$> byte_sum src len 0.
Proof.
  intros Ha. unfold calc_checksum, byte_sum. rewrite Ha. cbn [Z.eqb].
  destruct (halfword_sum _ _ _); [|done]. simpl. unfold truthy.
  destruct (Z.eqb_spec (len mod 2) 0); [done|]. simpl.
  replace (2 * (len / 2)) with (len - 1) by (Z.div_mod_to_equations; lia).
  by destruct (aget src (len - 1)).
Qed.

Definition frm_chk_tail (r : list Z * Z * Z) : option Z :=
  let '(src, len, sum) := r in byte_sum src len sum.

(** The two-halfword loop leaves at most three bytes and the sum of the
    rest. *)
Lemma frm_chk_loop_spec n src len sum :
  (length src <= n)%nat -> 0 <= len <= zlen src ->
  exists r, frm_chk_loop src len sum = Some r /\ 0 <= r.1.2 <= 3 /\
    frm_chk_tail r = byte_sum src len sum.
Proof.
  revert src len sum. induction n as [|n IH]; intros src len sum Hn Hl.
  { destruct src; [|simpl in Hn; lia]. rewrite (@zlen_nil Z) in Hl. replace len with 0 by lia.
    exists ([], 0, sum). done. }
  destruct (Z.leb_spec len 3).
  { exists (src, len, sum). split; [|by cbn; split; [lia|]].
    destruct src; simpl; by rewrite (proj2 (Z.leb_le _ _)). }
  destruct src as [|b0 [|b1 [|b2 [|b3 src]]]]; rewrite ?zlen_cons, ?(@zlen_nil Z) in Hl; try lia.
  destruct (IH src (len - 4) (u32 (u32 (sum + ld16 b0 b1) + ld16 b2 b3)))
    as (r & H1 & H2 & H3); [simpl in Hn; lia|lia|].
  exists r. split; [|split; [done|]].
  - rewrite <- H1. simpl. by rewrite (proj2 (Z.leb_gt _ _)).
  - rewrite !byte_sum_step by lia. rewrite H3. f_equal. lia.
Qed.

Lemma frm_chk_sum src len : 0 <= len <= zlen src -> frm_chk src len = fold_sum <$> byte_sum src len 0.
Proof.
  intros Hl. unfold frm_chk.
  destruct (frm_chk_loop_spec (length src) src len 0) as ([[rest l] sum] & E1 & H2 & E2); [done|done|].
  rewrite E1, <- E2. clear E1 E2.
  cbn [fst snd] in H2. cbn [frm_chk_tail].
  assert (l = 0 \/ l = 1 \/ l = 2 \/ l = 3) as [-> | [-> | [-> | ->] ] ] by lia; simpl.
  - by destruct rest.
  - by destruct rest.
  - by destruct rest as [|? [|? [|? ?]]].
  - by destruct rest as [|? [|? [|? ?]]].
Qed.

(** the three one's-complement checksums of the two programs agree on
    every buffer: the unrolled loop and the [switch] on the tail of [frm_chk],
    the halfword loop of [boot_checksum], and [calc_checksum] when its buffer
    is at an even address; none of them reads outside the buffer. *)
Theorem frm_chk_boot_checksum addr src len :
  addr mod 2 = 0 -> 0 <= len <= zlen src ->
  is_Some (frm_chk src len) /\
  frm_chk src len = boot_checksum src len /\ calc_checksum addr src len = boot_checksum src len.
Proof.
  intros Ha Hl. rewrite calc_checksum_sum, frm_chk_sum, boot_checksum_sum by done.
  split; [|done]. destruct (byte_sum_is_Some (length src) src len 0) as [x ->]; [done|done|].
  by exists (fold_sum x).
Qed.

Lemma frm_chk_boot_checksum_witness :
  frm_chk [1; 2; 3; 4; 5; 6; 7] 7 = boot_checksum [1; 2; 3; 4; 5; 6; 7] 7.
Proof.
  destruct (frm_chk_boot_checksum 4096 [1; 2; 3; 4; 5; 6; 7] 7) as (_ & H & _);
    [reflexivity|vm_compute; split; discriminate|exact H].
Defined.

(** *** The receiver's test *)

Lemma halfword_sum_bounds src n s r :
  bytes src -> 0 <= n -> 0 <= s -> s + 65535 * n < 2 ^ 32 -> halfword_sum src n s = Some r ->
  s <= r <= s + 65535 * n.
Proof.
  intros Hb Hn. remember (Z.to_nat n) as m eqn:Hm. revert src n s Hb Hn Hm.
  induction m as [|m IH]; intros src n s Hb Hn Hm Hs Hz H.
  { rewrite halfword_sum_stop in H by lia. injection H as <-. lia. }
  destruct src as [|b0 [|b1 src]];
    [simpl in H; rewrite (proj2 (Z.leb_gt _ _)) in H by lia; done..|].
  apply Forall_cons in Hb as [Hb0 Hb]. apply Forall_cons in Hb as [Hb1 Hb].
  rewrite halfword_sum_step in H by lia. unfold byte in *.
  assert (0 <= ld16 b0 b1 <= 65535) by (unfold ld16; lia).
  rewrite u32_small in H by lia. apply IH in H; try done; lia.
Qed.

Lemma halfword_sum_snoc src n s r b0 b1 :
  zlen src = 2 * n -> halfword_sum src n s = Some r ->
  halfword_sum (src ++ [b0; b1]) (n + 1) s = Some (u32 (r + ld16 b0 b1)).
Proof.
  intros Hl. remember (Z.to_nat n) as m eqn:Hm. revert src n s Hl Hm.
  induction m as [|m IH]; intros src n s Hl Hm H.
  { assert (n = 0) as -> by (assert (0 <= zlen src) by auto with cint; lia).
    destruct src; [|rewrite zlen_cons in Hl; assert (0 <= zlen src) by auto with cint; lia].
    by injection H as ->. }
  destruct src as [|b2 [|b3 src]];
    [simpl in H; rewrite (proj2 (Z.leb_gt _ _)) in H by lia; done..|].
  rewrite !zlen_cons in Hl. rewrite halfword_sum_step in H by lia.
  cbn [app]. rewrite halfword_sum_step by lia.
  replace (n + 1 - 1) with (n - 1 + 1) by lia. apply IH; [lia|lia|done].
Qed.

Lemma fold_sum_arith s :
  0 <= s < 2 ^ 32 -> fold_sum s = 65535 - (s / 65536 + s mod 65536 + (s / 65536 + s mod 65536) / 65536) mod 65536.
Proof.
  intros Hs. unfold fold_sum. rewrite land_65535, !shiftr16. unfold Z.lnot. wrap_lia.
Qed.

Lemma boot_checksum_append src c :
  bytes src -> zlen src mod 2 = 0 -> zlen src < 131070 ->
  boot_checksum src (zlen src) = Some c ->
  boot_checksum (src ++ le16 c) (zlen src + 2) = Some 0.
Proof.
  intros Hb He Hz. rewrite !boot_checksum_sum. unfold byte_sum.
  replace ((zlen src + 2) mod 2) with (zlen src mod 2) by (Z.div_mod_to_equations; lia). rewrite He.
  replace ((zlen src + 2) / 2) with (zlen src / 2 + 1) by (Z.div_mod_to_equations; lia).
  destruct (halfword_sum src (zlen src / 2) 0) as [s|] eqn:Hs; [|done]. cbn. intros [= <-].
  assert (H0 := zlen_nonneg src).
  unfold le16. rewrite (halfword_sum_snoc src _ 0 s); [|Z.div_mod_to_equations; lia|done].
  apply halfword_sum_bounds in Hs; [|done|Z.div_mod_to_equations; lia..].
  cbn. f_equal. assert (Hs' : 0 <= s <= 65535 * 65534) by (Z.div_mod_to_equations; lia).
  assert (Hf := fold_sum_arith s ltac:(lia)).
  set (c := fold_sum s) in *.
  assert (Hld : ld16 (u8 c) (u8 (Z.shiftr c 8)) = c).
  { unfold ld16. rewrite shiftr8. wrap_lia. }
  rewrite Hld, u32_small, fold_sum_arith by wrap_lia. rewrite Hf. Z.div_mod_to_equations. lia.
Qed.

(** the receiver's test: summing a buffer of even length together with
    its own checksum, stored low byte first after it, gives zero. *)
Theorem boot_checksum_residue src c :
  bytes src -> zlen src mod 2 = 0 -> zlen src < 131070 ->
  boot_checksum src (zlen src) = Some c ->
  boot_checksum (src ++ le16 c) (zlen src + 2) = Some 0.
Proof. apply boot_checksum_append. Qed.

Lemma boot_checksum_residue_witness : boot_checksum [1; 2; 3; 4; 251; 249] 6 = Some 0.
Proof.
  apply (boot_checksum_residue [1; 2; 3; 4] 0xf9fb);
    [by_bytes|reflexivity|reflexivity|vm_compute; reflexivity].
Defined.

(** *** The odd-address branch *)

Lemma calc_checksum_odd_loop_overread n pstart len s :
  (Z.to_nat len <= n)%nat -> 2 <= len -> zlen pstart < 4 * (len / 2) ->
  calc_checksum_odd_loop pstart len s = None.
Proof.
  revert pstart len s. induction n as [|n IH]; intros pstart len s Hn Hl Hz; [lia|].
  destruct pstart as [|b0 [|b1 [|b2 [|b3 pstart]]]]; simpl;
    rewrite (proj2 (Z.leb_gt _ _)) by lia; try done.
  rewrite !zlen_cons in Hz. assert (0 <= zlen pstart) by auto with cint.
  apply IH; Z.div_mod_to_equations; lia.
Qed.

(** from an odd address, [calc_checksum] reads past the end of every
    buffer of two bytes or more: the loop counts two bytes a round and moves
    an [unsigned short] pointer by two halfwords. *)
Theorem calc_checksum_odd_overread addr dat :
  addr mod 2 = 1 -> 2 <= zlen dat -> calc_checksum addr dat (zlen dat) = None.
Proof.
  intros Ha Hz. unfold calc_checksum. rewrite Ha. cbn [Z.eqb].
  erewrite calc_checksum_odd_loop_overread; [done|done|done|Z.div_mod_to_equations; lia].
Qed.

Lemma calc_checksum_odd_overread_witness : calc_checksum 4097 [1; 2; 3; 4] 4 = None.
Proof. apply (calc_checksum_odd_overread 4097 [1; 2; 3; 4]); [reflexivity|vm_compute; discriminate]. Defined.

(** ** calculate_crc *)

Lemma split_bits x k : 0 <= k -> x = Z.lxor (Z.shiftl (Z.shiftr x k) k) (Z.land x (Z.ones k)).
Proof.
  intros Hk. apply Z.bits_inj'. intros i Hi. rewrite Z.lxor_spec, Z.land_spec.
  destruct (decide (i < k)).
  - rewrite Z.shiftl_spec_low, Z.ones_spec_low by lia. by rewrite andb_true_r.
  - rewrite Z.shiftl_spec_high, Z.shiftr_spec, Z.ones_spec_high by lia.
    replace (i - k + k) with i by lia. by rewrite andb_false_r, xorb_false_r.
Qed.

Lemma lsb_iter_shift P h n : Nat.iter n (lsb_step P) (Z.shiftl h (Z.of_nat n)) = h.
Proof.
  induction n as [|n IH]; [apply Z.shiftl_0_r|].
  rewrite Nat.iter_succ_r. rewrite <- IH at 2. f_equal. unfold lsb_step.
  rewrite Z.shiftl_spec_low, Z.lxor_0_r, Z.shiftr_shiftl_l by lia. f_equal. lia.
Qed.

Lemma table_entry (tbl : list Z) f h :
  all_bits 8 (fun h => bool_decide (aget tbl h = Some (f h))) 0 = true ->
  byte h -> aget tbl h = Some (f h).
Proof.
  intros H Hh. apply (byte_check _ h H) in Hh. by apply bool_decide_eq_true in Hh.
Qed.

Lemma crc16_table_entry h :
  byte h -> aget crc16_table h = Some (Nat.iter 8 (lsb_step 0xA001) h).
Proof. apply (table_entry crc16_table). vm_compute. reflexivity. Qed.

Lemma shiftr_byte_lxor c b k : byte b -> 8 <= k -> Z.shiftr (Z.lxor c b) k = Z.shiftr c k.
Proof.
  intros Hb Hk. rewrite Z.shiftr_lxor, (Z.shiftr_eq_0 b), Z.lxor_0_r; [done|unfold byte in Hb; lia|].
  destruct (decide (b = 0)) as [->|]; [simpl; lia|].
  eapply Z.lt_le_trans; [apply (Z.log2_lt_pow2 b 8)|]; unfold byte in Hb; lia.
Qed.

Lemma lsb_byte_table P c b :
  byte b ->
  lsb_byte P c b
  = Z.lxor (Z.shiftr c 8) (Nat.iter 8 (lsb_step P) (Z.land (Z.lxor c b) 0xff)).
Proof.
  intros Hb. unfold lsb_byte. rewrite (split_bits (Z.lxor c b) 8) at 1 by lia.
  rewrite linear_iter by apply lsb_step_linear.
  rewrite (lsb_iter_shift P _ 8), shiftr_byte_lxor by (done || lia). done.
Qed.

(** the table-driven CRC-16 is the bit-serial one with the reflected
    polynomial 0xA001, for every initial value and buffer. *)
Theorem calculate_crc_bitwise crc buffer len :
  bytes buffer -> (len <= length buffer)%nat ->
  calculate_crc crc buffer len = Some (foldl (lsb_byte 0xA001) crc (take len buffer)).
Proof.
  intros Hb. revert crc len. induction Hb as [|b buffer Hb _ IH]; intros crc len Hl.
  { destruct len; [done|simpl in Hl; lia]. }
  destruct len as [|len]; [done|]. cbn [calculate_crc take foldl]. simpl in Hl.
  rewrite crc16_table_entry by (rewrite land_255; apply Z.mod_pos_bound; lia).
  cbn [mbind option_bind]. rewrite <- lsb_byte_table by done. apply IH. lia.
Qed.

Lemma calculate_crc_bitwise_witness :
  calculate_crc 0 [49; 50; 51; 52; 53; 54; 55; 56; 57] 9
  = Some (foldl (lsb_byte 0xA001) 0 [49; 50; 51; 52; 53; 54; 55; 56; 57]).
Proof.
  apply (calculate_crc_bitwise 0 [49; 50; 51; 52; 53; 54; 55; 56; 57] 9); [by_bytes|simpl; lia].
Defined.

(** ** crc32b *)

Lemma crc_table_entry h :
  byte h -> aget crc_table h = Some (Nat.iter 8 (msb_step 32 0x04C11DB7) (Z.shiftl h 24)).
Proof.
  apply (table_entry crc_table (fun h => Nat.iter 8 (msb_step 32 0x04C11DB7) (Z.shiftl h 24))).
  vm_compute. reflexivity.
Qed.

Lemma msb_byte32_table P c b :
  0 <= c < 2 ^ 32 -> byte b ->
  byte (Z.lxor (Z.shiftr c 24) b) /\
  msb_byte 32 P c b
  = Z.lxor (Nat.iter 8 (msb_step 32 P) (Z.shiftl (Z.lxor (Z.shiftr c 24) b) 24)) (u32 (Z.shiftl c 8)).
Proof.
  intros Hc Hb. split.
  { apply (lxor_range 8); [lia| |done]. rewrite shiftr24. wrap_lia. }
  unfold msb_byte. change (32 - 8) with 24. rewrite (split_bits c 24) at 1 by lia.
  replace (Z.lxor (Z.lxor (Z.shiftl (Z.shiftr c 24) 24) (Z.land c (Z.ones 24))) (Z.shiftl b 24))
    with (Z.lxor (Z.shiftl (Z.lxor (Z.shiftr c 24) b) 24) (Z.land c (Z.ones 24)))
    by (rewrite Z.shiftl_lxor; lxor_bits).
  rewrite linear_iter by by apply msb_step_linear. f_equal.
  rewrite Z.land_ones by lia. change (2 ^ 24) with 16777216.
  rewrite msb_iter_shift; [|lia|].
  - rewrite shiftl8. change (2 ^ Z.of_nat 8) with 256. wrap_lia.
  - change (2 ^ (32 - Z.of_nat 8)) with 16777216. apply Z.mod_pos_bound. lia.
Qed.

(** The macro is one byte of the bit-serial register. *)
Lemma DO1_bitwise crc b buf :
  0 <= crc < 2 ^ 32 -> byte b -> DO1 (crc, b :: buf) = Some (msb_byte 32 0x04C11DB7 crc b, buf).
Proof.
  intros Hc Hb. destruct (msb_byte32_table 0x04C11DB7 crc b Hc Hb) as [Hh ->].
  cbn [DO1]. rewrite land_255, Z.mod_small by done. by rewrite crc_table_entry.
Qed.

Definition crc32_ref (c : Z) (m : list Z) : Z := foldl (msb_byte 32 0x04C11DB7) c m.

Lemma crc32_ref_nil c : crc32_ref c [] = c.
Proof. reflexivity. Qed.
Lemma crc32_ref_cons c b m : crc32_ref c (b :: m) = crc32_ref (msb_byte 32 0x04C11DB7 c b) m.
Proof. reflexivity. Qed.
Lemma crc32_ref_app c m m' : crc32_ref c (m ++ m') = crc32_ref (crc32_ref c m) m'.
Proof. apply foldl_app. Qed.

Lemma crc32_ref_range m c : 0 <= c < 2 ^ 32 -> 0 <= crc32_ref c m < 2 ^ 32.
Proof.
  unfold crc32_ref. revert c. induction m as [|b m IH]; intros c Hc; [done|].
  apply IH, msb_byte_range; lia.
Qed.

(** [F] advances the register over the next [n] bytes. *)
Definition advances (n : nat) (F : Z * list Z -> option (Z * list Z)) : Prop :=
  forall crc buf, 0 <= crc < 2 ^ 32 -> bytes buf -> (n <= length buf)%nat ->
    F (crc, buf) = Some (crc32_ref crc (take n buf), drop n buf).

Lemma advances_twice n F : advances n F -> advances (n + n) (fun st => st ← F st; F st).
Proof.
  intros HF crc buf Hc Hb Hl. rewrite HF, obind_Some by (done || lia).
  rewrite HF; [|by apply crc32_ref_range|by apply Forall_drop|rewrite length_drop; lia].
  by rewrite <- crc32_ref_app, take_take_drop, drop_drop.
Qed.

Lemma DO1_advances : advances 1 DO1.
Proof.
  intros crc [|b buf] Hc Hb Hl; [simpl in Hl; lia|]. apply Forall_cons in Hb as [Hb _].
  rewrite DO1_bitwise by done. by rewrite firstn_cons, crc32_ref_cons, firstn_0, crc32_ref_nil.
Qed.

Lemma DO8_advances : advances 8 DO8.
Proof. exact (advances_twice 4 _ (advances_twice 2 _ (advances_twice 1 _ DO1_advances))). Qed.

Lemma crc32b_by8_bitwise fuel crc buf len :
  0 <= crc < 2 ^ 32 -> bytes buf -> 0 <= len <= zlen buf -> (Z.to_nat (len / 8) < fuel)%nat ->
  crc32b_by8 fuel (crc, buf) len
  = Some (crc32_ref crc (take (8 * Z.to_nat (len / 8)) buf),
          drop (8 * Z.to_nat (len / 8)) buf, len mod 8).
Proof.
  revert crc buf len. induction fuel as [|fuel IH]; intros crc buf len Hc Hb Hl Hf; [lia|].
  cbn [crc32b_by8]. destruct (Z.ltb_spec len 8).
  { by rewrite Z.div_small, Z.mod_small by lia. }
  rewrite DO8_advances, obind_Some by (done || (unfold zlen in Hl; lia)).
  assert (Hz : zlen (drop 8 buf) = zlen buf - 8).
  { unfold zlen in *. rewrite length_drop. lia. }
  assert (Hd : Z.to_nat (len / 8) = S (Z.to_nat ((len - 8) / 8))).
  { Z.div_mod_to_equations. lia. }
  rewrite IH; [|by apply crc32_ref_range|by apply Forall_drop|lia|lia].
  rewrite Hd. replace ((len - 8) mod 8) with (len mod 8) by (Z.div_mod_to_equations; lia).
  replace (8 * S (Z.to_nat ((len - 8) / 8)))%nat with (8 + 8 * Z.to_nat ((len - 8) / 8))%nat by lia.
  by rewrite <- crc32_ref_app, <- take_take_drop, drop_drop.
Qed.

Lemma crc32b_by1_bitwise fuel crc buf len :
  0 <= crc < 2 ^ 32 -> bytes buf -> 0 < len <= zlen buf -> (Z.to_nat len <= fuel)%nat ->
  crc32b_by1 fuel (crc, buf) len = Some (crc32_ref crc (take (Z.to_nat len) buf)).
Proof.
  revert crc buf len. induction fuel as [|fuel IH]; intros crc buf len Hc Hb Hl Hf; [lia|].
  destruct buf as [|b buf]; [rewrite (@zlen_nil Z) in Hl; lia|].
  apply Forall_cons in Hb as [Hb Hbs]. rewrite zlen_cons in Hl.
  cbn [crc32b_by1]. rewrite DO1_bitwise, obind_Some by done.
  replace (Z.to_nat len) with (S (Z.to_nat (len - 1))) by lia.
  rewrite firstn_cons, crc32_ref_cons.
  destruct (Z.eqb_spec (len - 1) 0) as [->|]; [by rewrite firstn_0, crc32_ref_nil|].
  apply IH; [apply msb_byte_range; lia|done|lia|lia].
Qed.

Lemma crc32b_ref_spec crc buf len :
  0 <= crc < 2 ^ 32 -> bytes buf -> 0 <= len <= zlen buf ->
  crc32b crc (Some buf) len
  = Some (crc32_ref crc (take (Z.to_nat len) buf)).
Proof.
  intros Hc Hb Hl. unfold crc32b. rewrite crc32b_by8_bitwise, obind_Some by (done || lia).
  cbn [fst snd]. unfold truthy.
  assert (Hn : Z.to_nat len = (8 * Z.to_nat (len / 8) + Z.to_nat (len mod 8))%nat).
  { Z.div_mod_to_equations. lia. }
  assert (Hz : zlen (drop (8 * Z.to_nat (len / 8)) buf) = zlen buf - 8 * (len / 8)).
  { unfold zlen in *. rewrite length_drop. Z.div_mod_to_equations. lia. }
  rewrite Hn, <- take_take_drop, crc32_ref_app.
  destruct (Z.eqb_spec (len mod 8) 0) as [->|Hne]; [done|]. simpl negb. cbv iota.
  apply crc32b_by1_bitwise; [by apply crc32_ref_range|by apply Forall_drop|..];
    Z.div_mod_to_equations; lia.
Qed.

(** C37: [crc32b] with its eight-fold unrolled loop, its tail loop and its
    table is the bit-serial CRC-32 (polynomial 0x04C11DB7, most significant
    bit first, no final complement) of the first [len] bytes, for every
    length and initial value; it reads no other byte. *)
Theorem crc32b_bitwise crc buf len :
  0 <= crc < 2 ^ 32 -> bytes buf -> 0 <= len <= zlen buf ->
  crc32b crc (Some buf) len
  = Some (crc32_ref crc (take (Z.to_nat len) buf)).
Proof. apply crc32b_ref_spec. Qed.

Lemma crc32b_bitwise_witness :
  crc32b 0xffffffff (Some [49; 50; 51; 52; 53; 54; 55; 56; 57]) 9 = Some 0x0376e6e7.
Proof.
  rewrite (crc32b_bitwise 0xffffffff [49; 50; 51; 52; 53; 54; 55; 56; 57] 9);
    [vm_compute; reflexivity|lia|by_bytes|vm_compute; split; discriminate].
Defined.
