(* ===== verification/Packet.v ===== *)
(** * The download protocol of the modem loader

    src/common/apps/modem_control/packet.c: HDLC framing ([translate_packet],
    [untranslate_packet]), the packet headers ([setup_packet]) and the six
    request functions, each of which sends one packet and waits for the
    modem's reply.

    Buffers are lists of bytes. A device is a script: [tx] holds what the
    successive calls of [write] return, [rx] what arrives for [read]; [sent]
    records the buffer handed to each [write]. *)
From stdpp Require Import base list sets.
From Stdlib Require Import ZArith Lia.
From S2P Require Import Prelude Crc.

(** ** Definitions: framing *)

(** [dest[translated_size++] = x] *)
Definition put (st : list Z * Z) (x : Z) : option (list Z * Z) :=
  dest ← aset st.1 st.2 x; Some (dest, st.2 + 1).

Fixpoint translate_loop (src : list Z) (st : list Z * Z) : option (list Z * Z) :=
  match src with
  | [] => Some st
  | c :: src =>
      st ← (if c =? 0x7E then st ← put st 0x7D; put st 0x5E
            else if c =? 0x7D then st ← put st 0x7D; put st 0x5D
            else put st c);
      translate_loop src st
  end.

(** Returns the destination buffer and [translated_size]. *)
Definition translate_packet (dest src : list Z) (size : Z) : option (list Z * Z) :=
  if zlen src <? size then None else
  st ← put (dest, 0) 0x7E;
  st ← translate_loop (take (Z.to_nat size) src) st;
  put st 0x7E.

(** The loop of [untranslate_packet]; the [return] in the middle is
    [inr]. The CRC computed there is not used, but its buffer is read. *)
Fixpoint untranslate_loop (src dest : list Z) (translated_size status : Z)
    : option (list Z * Z) :=
  match src with
  | [] => Some (dest, translated_size)
  | c :: src =>
      match status with
      | 0 => untranslate_loop src dest translated_size (if c =? 0x7e then 1 else 0)
      | 1 => if negb (c =? 0x7e)
             then dest ← aset dest translated_size c;
                  untranslate_loop src dest (translated_size + 1) 2
             else untranslate_loop src dest translated_size 1
      | _ => if c =? 0x7E
             then crc ← crc_16_l_calc dest (translated_size - 2);
                  Some (dest, translated_size)
             else
               last ← aget dest (translated_size - 1);
               if last =? 0x7D then
                 dest ← (if c =? 0x5E then aset dest (translated_size - 1) 0x7E
                         else if c =? 0x5D then aset dest (translated_size - 1) 0x7D
                         else Some dest);
                 untranslate_loop src dest translated_size 2
               else
                 dest ← aset dest translated_size c;
                 untranslate_loop src dest (translated_size + 1) 2
      end
  end.

Definition untranslate_packet (dest src : list Z) (size : Z) : option (list Z * Z) :=
  if zlen src <? size then None else
  untranslate_loop (take (Z.to_nat size) src) dest 0 0.

(** ** Definitions: headers *)

Inductive CMD_TYPE :=
  | BSL_CMD_CONNECT
  | BSL_CMD_START_DATA
  | BSL_CMD_MIDST_DATA
  | BSL_CMD_END_DATA
  | BSL_CMD_EXEC_DATA
  | BSL_CMD_NORMAL_RESET
  | BSL_CMD_READ_FLASH
  | BSL_CMD_READ_CHIP_TYPE
  | BSL_CMD_LOOKUP_NVITEM
  | BSL_SET_BAUDRATE
  | BSL_ERASE_FLASH
  | BSL_REPARTITION
  | BSL_CMD_SWITCH_MODE.

Definition cmd_code (m : CMD_TYPE) : Z :=
  match m with
  | BSL_CMD_CONNECT => 0
  | BSL_CMD_START_DATA => 1
  | BSL_CMD_MIDST_DATA => 2
  | BSL_CMD_END_DATA => 3
  | BSL_CMD_EXEC_DATA => 4
  | BSL_CMD_NORMAL_RESET => 5
  | BSL_CMD_READ_FLASH => 6
  | BSL_CMD_READ_CHIP_TYPE => 7
  | BSL_CMD_LOOKUP_NVITEM => 8
  | BSL_SET_BAUDRATE => 9
  | BSL_ERASE_FLASH => 0xA
  | BSL_REPARTITION => 0xB
  | BSL_CMD_SWITCH_MODE => 0x0D
  end.

Definition BSL_REP_ACK : Z := 0x80.
Definition BSL_UART_PACKET : Z := 0.
Definition BSL_SPI_PACKET : Z := 1.

(** [sizeof(struct pkt_header_tag)] *)
Definition pkt_header_tag_size : Z := 4.

Definition cpu2be16 (wValue : Z) : Z :=
  Z.lor (Z.shiftl (Z.land wValue 0xFF) 8) (Z.land (Z.shiftr wValue 8) 0xFF).
Definition cpu2be32 (dwValue : Z) : Z :=
  Z.lor (Z.lor (Z.lor (Z.shiftl (Z.land dwValue 0xFF) 24)
                      (Z.shiftl (Z.land (Z.shiftr dwValue 8) 0xFF) 16))
               (Z.shiftl (Z.land (Z.shiftr dwValue 16) 0xFF) 8))
        (Z.shiftr dwValue 24).

(** Little-endian stores: [*((unsigned short * )&buffer[i]) = v]. *)
Definition st16 (buffer : list Z) (i v : Z) : option (list Z) := store buffer i (le16 v).
Definition st32 (buffer : list Z) (i v : Z) : option (list Z) := store buffer i (le32 v).

(** [head->type] and [head->length], [head] being [&buffer[4]]. *)
Definition set_head (buffer : list Z) (msg data_size : Z) : option (list Z) :=
  buffer ← st16 buffer 4 (cpu2be16 (u16 msg));
  st16 buffer 6 (cpu2be16 (u16 data_size)).

(** [boot_checksum(buffer + off, len)] *)
Definition checksum_at (buffer : list Z) (off len : Z) : option Z :=
  boot_checksum (drop (Z.to_nat off) buffer) len.

(** The three statements the SPI branches share: the data checksum at 4, then
    the header checksum at 6. *)
Definition set_checksums (buffer : list Z) (offset data_size : Z) : option (list Z) :=
  c ← checksum_at buffer offset data_size;
  buffer ← st16 buffer 4 c;
  c ← checksum_at buffer 0 6;
  st16 buffer 6 c.

(** The UART branch of START_DATA, MIDST_DATA, END_DATA and EXEC_DATA. *)
Definition setup_uart (buffer : list Z) (msg data_size : Z) : option (list Z * Z) :=
  let length := pkt_header_tag_size + data_size in
  buffer ← set_head buffer msg data_size;
  crc16 ← crc_16_l_calc (drop 4 buffer) length;
  buffer ← st16 buffer (length + 4) (cpu2be16 (u16 crc16));
  Some (buffer, length + 2).

(** Returns the buffer and [total_size]. *)
Definition setup_packet (msg : CMD_TYPE) (buffer : list Z) (offset data_size flag : Z)
    : option (list Z * Z) :=
  let length := pkt_header_tag_size + data_size in
  let code := cmd_code msg in
  let uart := flag =? BSL_UART_PACKET in
  match msg with
  | BSL_CMD_CONNECT =>
      if uart then
        buffer ← set_head buffer code data_size;
        buffer ← st16 buffer (length + 4) 0;
        Some (buffer, length + 2)
      else
        buffer ← st16 buffer 0 data_size;
        buffer ← st16 buffer 2 (u16 code);
        buffer ← st16 buffer 8 0;
        buffer ← set_checksums buffer offset data_size;
        Some (buffer, 12)
  | BSL_CMD_START_DATA =>
      if uart then setup_uart buffer code data_size else
        buffer ← st16 buffer 0 data_size;
        buffer ← st16 buffer 2 (u16 code);
        buffer ← set_checksums buffer offset data_size;
        Some (buffer, data_size + 8)
  | BSL_CMD_MIDST_DATA =>
      if uart then setup_uart buffer code data_size else
        buffer ← st16 buffer 0 (if data_size =? 0 then 4 else data_size);
        buffer ← st16 buffer 2 (u16 code);
        buffer ← set_checksums buffer offset data_size;
        Some (buffer, data_size + 8)
  | BSL_CMD_END_DATA =>
      if uart then setup_uart buffer code data_size else
        buffer ← st16 buffer 0 4;
        buffer ← st16 buffer 2 (u16 code);
        buffer ← set_checksums buffer offset data_size;
        buffer ← st32 buffer 8 0;
        Some (buffer, 12)
  | BSL_CMD_EXEC_DATA =>
      if uart then setup_uart buffer code data_size else
        buffer ← st16 buffer 0 data_size;
        buffer ← st16 buffer 2 (u16 code);
        buffer ← set_checksums buffer offset data_size;
        Some (buffer, data_size + 8)
  | BSL_CMD_SWITCH_MODE =>
      if uart then
        buffer ← set_head buffer code data_size;
        crc16 ← frm_chk (drop 4 buffer) length;
        buffer ← st16 buffer (length + 4) crc16;
        Some (buffer, length + 2)
      else
        buffer ← st16 buffer 0 4;
        buffer ← st16 buffer 2 (u16 code);
        buffer ← set_checksums buffer offset data_size;
        buffer ← st32 buffer 8 0;
        Some (buffer, 12)
  | _ => Some (buffer, 0)
  end.

(** ** Definitions: the device and the requests *)

Inductive rx_event :=
  | RxErr (r : Z)            (* [read] returns [r], at most 0 *)
  | RxData (d : list Z).     (* bytes that have arrived *)

Record link := Link {
  send_buffer : list Z;      (* static unsigned long send_buffer[1000] *)
  tx : list Z;
  sent : list (list Z);
  rx : list rx_event
}.

Definition send_buffer_size : Z := 4000.

Definition set_send_buffer (b : list Z) : M link unit :=
  modify (fun l => Link b (tx l) (sent l) (rx l)).

(** [write(fd, buf, n)] *)
Definition write (buf : list Z) (n : Z) : M link Z := fun l =>
  if zlen buf <? n then Bad OutOfBounds else
  match tx l with
  | [] => Bad Blocked
  | r :: tx' =>
      Ret (Z.min r n) (Link (send_buffer l) tx' (sent l ++ [take (Z.to_nat n) buf]) (rx l))
  end.

(** [read(fd, &raw_buffer[offset], size)] *)
Definition read (raw_buffer : list Z) (offset size : Z) : M link (list Z * Z) := fun l =>
  match rx l with
  | [] => Bad Blocked
  | RxErr r :: rx' => Ret (raw_buffer, Z.min r 0) (Link (send_buffer l) (tx l) (sent l) rx')
  | RxData d :: rx' =>
      let n := Z.to_nat size in
      match store raw_buffer offset (take n d) with
      | None => Bad OutOfBounds
      | Some raw_buffer =>
          Ret (raw_buffer, zlen (take n d))
              (Link (send_buffer l) (tx l) (sent l)
                    (if (length d <=? n)%nat then rx' else RxData (drop n d) :: rx'))
      end
  end.

(** [do { retval = write(...); if (retval > 0) translated_size -= retval; }
    while (translated_size > 0);] *)
Fixpoint write_loop (fuel : nat) (translated_size : Z) : M link Z :=
  match fuel with
  | O => bad OutOfFuel
  | S fuel =>
      sb <- gets send_buffer ;;
      retval <- write sb translated_size ;;
      let translated_size :=
        if retval >? 0 then translated_size - retval else translated_size in
      if translated_size >? 0 then write_loop fuel translated_size else ret retval
  end.

(** [do { retval = read(...); if (took retval) { offset += retval; size -= retval; } }
    while (size != 0);] *)
Fixpoint read_loop (fuel : nat) (took : Z -> bool) (raw_buffer : list Z) (offset size : Z)
    : M link (list Z * Z * Z) :=
  match fuel with
  | O => bad OutOfFuel
  | S fuel =>
      r <- read raw_buffer offset size ;;
      let '(raw_buffer, retval) := r in
      let '(offset, size) :=
        if took retval then (offset + retval, size - retval) else (offset, size) in
      if negb (size =? 0) then read_loop fuel took raw_buffer offset size
      else ret (raw_buffer, offset, retval)
  end.

(** Enough rounds for a script: every round but the last uses up an event. *)
Definition rx_fuel (evs : list rx_event) : nat := S (length evs).

(** Sending [size] bytes of the packet at [&buffer[4]], framed. *)
Definition send_uart (buffer : list Z) (size : Z) : M link Z :=
  sb <- gets send_buffer ;;
  t <- lift OutOfBounds (translate_packet sb (drop 4 buffer) size) ;;
  let '(sb, translated_size) := t in
  set_send_buffer sb ;;;
  n <- gets (fun l => S (length (tx l))) ;;
  write_loop n translated_size.

(** Waiting for the reply; the result is [raw_buffer], [offset], [retval]. *)
Definition read_reply (took : Z -> bool) (raw_buffer : list Z) (flag : Z)
    : M link (list Z * Z * Z) :=
  let size := if flag =? 0 then 8 else 6 in
  n <- gets (fun l => rx_fuel (rx l)) ;;
  read_loop n took raw_buffer 0 size.

(** [head.type] of the reply. *)
Definition reply_type (raw_buffer : list Z) (offset flag : Z) : M link Z :=
  data <- (if flag =? 0 then
             sb <- gets send_buffer ;;
             t <- lift OutOfBounds (untranslate_packet sb raw_buffer offset) ;;
             set_send_buffer t.1 ;;;
             ret t.1
           else ret raw_buffer) ;;
  d0 <- lift OutOfBounds (aget data 0) ;;
  d1 <- lift OutOfBounds (aget data 1) ;;
  ret (u16 (Z.lor (Z.shiftl d0 8) d1)).

(** From the return of [write] to the end of a request. *)
Definition finish (took : Z -> bool) (acks : Z -> bool) (raw_buffer : list Z) (flag retval : Z)
    : M link Z :=
  r <- (if retval >? 0 then read_reply took raw_buffer flag
        else ret (raw_buffer, 0, retval)) ;;
  let '(raw_buffer, offset, retval) := r in
  if retval >? 0 then
    t <- reply_type raw_buffer offset flag ;;
    if acks t then ret 0 else ret (-1)
  else ret (-1).

Definition gt0 (retval : Z) : bool := retval >? 0.
Definition ge0 (retval : Z) : bool := retval >=? 0.
Definition ack_only (type : Z) : bool := type =? BSL_REP_ACK.
Definition ack_or_0 (type : Z) : bool := (type =? BSL_REP_ACK) || (type =? 0).

Definition raw_buffer_0 : list Z := replicate 32 0.

Definition send_connect_message (flag : Z) : M link Z :=
  p <- lift OutOfBounds (setup_packet BSL_CMD_CONNECT raw_buffer_0 8 0 flag) ;;
  let '(raw_buffer, size) := p in
  retval <- (if flag =? 0 then send_uart raw_buffer size else write raw_buffer size) ;;
  finish gt0 ack_only raw_buffer flag retval.

Definition send_start_message (size addr flag : Z) : M link Z :=
  raw_buffer <- lift OutOfBounds (st32 raw_buffer_0 8 (cpu2be32 (u32 addr))) ;;
  raw_buffer <- lift OutOfBounds (st32 raw_buffer 12 (cpu2be32 size)) ;;
  p <- lift OutOfBounds (setup_packet BSL_CMD_START_DATA raw_buffer 8 8 flag) ;;
  let '(raw_buffer, size) := p in
  retval <- (if flag =? 0 then send_uart raw_buffer size else write raw_buffer size) ;;
  finish gt0 ack_or_0 raw_buffer flag retval.

Definition send_end_message (flag : Z) : M link Z :=
  p <- lift OutOfBounds (setup_packet BSL_CMD_END_DATA raw_buffer_0 8 0 flag) ;;
  let '(raw_buffer, size) := p in
  retval <- (if flag =? 0 then send_uart raw_buffer size else write raw_buffer size) ;;
  finish gt0 ack_or_0 raw_buffer flag retval.

(** Returns the caller's buffer too: the SPI branch builds the header in it. *)
Definition send_data_message (buffer : list Z) (data_size flag : Z) : M link (list Z * Z) :=
  if flag =? 0 then
    require_in_bounds <- lift OutOfBounds
      (if (0 <=? data_size) && (data_size <=? zlen buffer) then Some tt else None) ;;
    uart_buffer <- lift OutOfBounds
      (store (replicate 300 0) 8 (take (Z.to_nat data_size) buffer)) ;;
    p <- lift OutOfBounds (setup_packet BSL_CMD_MIDST_DATA uart_buffer 8 data_size flag) ;;
    let '(uart_buffer, size) := p in
    retval <- send_uart uart_buffer size ;;
    r <- finish gt0 ack_or_0 raw_buffer_0 flag retval ;;
    ret (buffer, r)
  else
    p <- lift OutOfBounds (setup_packet BSL_CMD_MIDST_DATA buffer 8 data_size flag) ;;
    let '(buffer, size) := p in
    retval <- write buffer size ;;
    r <- finish gt0 ack_or_0 raw_buffer_0 flag retval ;;
    ret (buffer, r).

Definition send_exec_message (addr flag : Z) : M link Z :=
  raw_buffer <- lift OutOfBounds (st32 raw_buffer_0 8 (cpu2be32 (u32 addr))) ;;
  p <- lift OutOfBounds (setup_packet BSL_CMD_EXEC_DATA raw_buffer 8 4 flag) ;;
  let '(raw_buffer, size) := p in
  retval <- (if flag =? 0 then send_uart raw_buffer size else write raw_buffer size) ;;
  finish ge0 ack_or_0 raw_buffer flag retval.

Definition uart_send_change_spi_mode_message : M link Z :=
  p <- lift OutOfBounds
         (setup_packet BSL_CMD_SWITCH_MODE raw_buffer_0 8 0 BSL_UART_PACKET) ;;
  let '(raw_buffer, size) := p in
  retval <- send_uart raw_buffer size ;;
  finish ge0 ack_only raw_buffer 0 retval.
(** ** Framing *)

Definition escape (c : Z) : list Z :=
  if c =? 0x7E then [0x7D; 0x5E] else if c =? 0x7D then [0x7D; 0x5D] else [c].
Definition esc (src : list Z) : list Z := flat_map escape src.
(** The frame of the protocol: a flag, the escaped bytes, a flag. *)
Definition frame (src : list Z) : list Z := 0x7E :: esc src ++ [0x7E].

Lemma esc_no_flag src : 0x7E ∉ esc src.
Proof.
  induction src as [|c src IH]; simpl; [apply not_elem_of_nil|].
  rewrite not_elem_of_app. split; [|done]. unfold escape.
  destruct (Z.eqb_spec c 0x7E); [|destruct (Z.eqb_spec c 0x7D)]; set_solver.
Qed.

Lemma esc_length src : (length src <= length (esc src) <= 2 * length src)%nat.
Proof.
  induction src as [|c src IH]; simpl; [lia|]. rewrite length_app. unfold escape.
  repeat case_match; simpl; lia.
Qed.

Lemma escape_inj c c' k k' : escape c ++ k = escape c' ++ k' -> c = c' /\ k = k'.
Proof.
  unfold escape.
  destruct (Z.eqb_spec c 0x7E), (Z.eqb_spec c' 0x7E), (Z.eqb_spec c 0x7D), (Z.eqb_spec c' 0x7D);
    simpl; intros [=]; subst; try done; lia.
Qed.

Lemma esc_inj src src' : esc src = esc src' -> src = src'.
Proof.
  assert (Hne : forall c k, escape c ++ k <> []).
  { intros c k. unfold escape. by repeat case_match. }
  revert src'. induction src as [|c src IH]; intros [|c' src'] H; simpl in H; [done| | |].
  - by destruct (Hne c' (esc src')).
  - by destruct (Hne c (esc src)).
  - apply escape_inj in H as [-> H]. f_equal. by apply IH.
Qed.

Lemma put_store st x : put st x = (dest ← store st.1 st.2 [x]; Some (dest, st.2 + 1)).
Proof. unfold put, store. by destruct (aset st.1 st.2 x). Qed.

Lemma translate_loop_store src dest n :
  translate_loop src (dest, n) = (dest ← store dest n (esc src); Some (dest, n + zlen (esc src))).
Proof.
  revert dest n. induction src as [|c src IH]; intros dest n; cbn [translate_loop esc flat_map].
  { change (zlen (@nil Z)) with 0. by rewrite Z.add_0_r. }
  fold (esc src). rewrite store_app.
  assert (H : (if c =? 126 then st ← put (dest, n) 125; put st 94
               else if c =? 125 then st ← put (dest, n) 125; put st 93 else put (dest, n) c)
              = (dest ← store dest n (escape c); Some (dest, n + zlen (escape c)))).
  { unfold escape. destruct (c =? 126); [|destruct (c =? 125)]; unfold put; cbn [store fst snd];
      (destruct (aset dest n _) as [d|]; [|done]); rewrite ?obind_Some; cbn [fst snd]; try done;
      (destruct (aset d (n + 1) _); [|done]); rewrite ?obind_Some; cbn [zlen length]; out_eq. }
  rewrite H. destruct (store dest n (escape c)) as [d|]; [|done]. rewrite !obind_Some, IH.
  destruct (store d _ (esc src)); [|done]. rewrite !obind_Some. out_eq.
Qed.

Lemma translate_packet_store dest src size :
  size = zlen src ->
  translate_packet dest src size
  = (dest ← store dest 0 (frame src); Some (dest, zlen (frame src))).
Proof.
  intros ->. unfold translate_packet. rewrite Z.ltb_irrefl. unfold zlen at 1.
  rewrite Nat2Z.id, firstn_all. unfold frame. cbn [store]. unfold put. cbn [fst snd].
  destruct (aset dest 0 126) as [d|]; [|reflexivity]. rewrite !obind_Some, translate_loop_store, store_app.
  destruct (store d (0 + 1) (esc src)) as [d'|]; [|reflexivity]. rewrite !obind_Some.
  cbn [fst snd store]. destruct (aset d' (0 + 1 + zlen (esc src)) 126); [|reflexivity].
  rewrite !obind_Some. out_eq.
Qed.

Lemma frame_zlen src : zlen src + 2 <= zlen (frame src) <= 2 * zlen src + 2.
Proof.
  unfold frame, zlen. cbn [length]. rewrite length_app. cbn [length].
  pose proof (esc_length src). lia.
Qed.

Lemma store_frame dest src :
  zlen (frame src) <= zlen dest ->
  store dest 0 (frame src) = Some (frame src ++ drop (length (frame src)) dest).
Proof.
  intros H. rewrite <- (take_drop (length (frame src)) dest) at 1.
  apply (store_segment []); [done|]. rewrite length_take. unfold zlen in H. lia.
Qed.

Lemma translate_packet_frame_eq dest src :
  zlen (frame src) <= zlen dest ->
  translate_packet dest src (zlen src)
  = Some (frame src ++ drop (length (frame src)) dest, zlen (frame src)).
Proof. intros H. rewrite translate_packet_store, store_frame by done. done. Qed.

(** C39: framing. When the escaped packet fits the destination,
    [translate_packet] stores exactly a flag, the escaped bytes and a flag at
    its beginning and returns their number, which is between [size + 2] and
    [2 * size + 2]; no flag byte occurs inside, and different packets have
    different frames. *)
Theorem translate_packet_frame dest src :
  zlen (frame src) <= zlen dest ->
  translate_packet dest src (zlen src)
    = Some (frame src ++ drop (length (frame src)) dest, zlen (frame src)) /\
  zlen src + 2 <= zlen (frame src) <= 2 * zlen src + 2 /\
  0x7E ∉ esc src /\
  (forall src', frame src' = frame src -> src' = src).
Proof.
  intros H. split; [by apply translate_packet_frame_eq|]. split; [apply frame_zlen|].
  split; [apply esc_no_flag|]. intros src' [= E]. apply app_inv_tail in E. by apply esc_inj.
Qed.

Lemma translate_packet_frame_witness :
  translate_packet [0; 0; 0; 0; 0; 0; 9] [1; 0x7E; 2] 3
  = Some ([0x7E; 1; 0x7D; 0x5E; 2; 0x7E; 9], 6).
Proof.
  destruct (translate_packet_frame [0; 0; 0; 0; 0; 0; 9] [1; 0x7E; 2]) as [H _];
    [vm_compute; discriminate|exact H].
Defined.

(** ** Unframing *)

(** One byte inside a frame, on the bytes decoded so far, the last one
    apart. *)
Definition un_step (st : list Z * Z) (c : Z) : list Z * Z :=
  if st.2 =? 0x7D
  then (st.1, if c =? 0x5E then 0x7E else if c =? 0x5D then 0x7D else 0x7D)
  else (st.1 ++ [st.2], c).
(** One byte of the packet, escaped. *)
Definition un_char (st : list Z * Z) (c : Z) : list Z * Z := foldl un_step st (escape c).

Lemma un_step_length st c :
  (length st.1 <= length (un_step st c).1 <= S (length st.1))%nat.
Proof. unfold un_step. case_match; simpl; rewrite ?length_app; simpl; lia. Qed.

Lemma un_step_loop cs k pre x rest :
  0x7E ∉ cs -> (length cs <= length rest)%nat ->
  let st := foldl un_step (pre, x) cs in
  exists rest',
    (length (st.1 ++ st.2 :: rest') = length (pre ++ x :: rest)) /\
    (untranslate_loop (cs ++ k) (pre ++ x :: rest) (zlen pre + 1) 2
     = untranslate_loop k (st.1 ++ st.2 :: rest') (zlen st.1 + 1) 2).
Proof.
  revert pre x rest. induction cs as [|c cs IH]; intros pre x rest Hn Hl; [by exists rest|].
  apply not_elem_of_cons in Hn as [Hc Hn]. simpl in Hl. destruct rest as [|r rest]; [simpl in Hl; lia|].
  cbn [foldl app untranslate_loop]. destruct (Z.eqb_spec c 0x7E); [by subst|].
  replace (zlen pre + 1 - 1) with (zlen pre) by lia.
  assert (Hg : forall y t, aget (pre ++ y :: t) (zlen pre) = Some y).
  { intros. unfold zlen. rewrite aget_nat. by apply list_lookup_middle. }
  assert (Hs : forall y t v, aset (pre ++ y :: t) (zlen pre) v = Some (pre ++ v :: t)).
  { intros y t v. pose proof (store_segment pre [y] t [v] _ eq_refl eq_refl) as H.
    cbn [store app] in H. by destruct (aset (pre ++ y :: t) (zlen pre) v). }
  rewrite Hg, obind_Some.
  destruct (Z.eqb_spec x 0x7D) as [->|Hx].
  - change (un_step (pre, 0x7D) c)
      with (pre, if c =? 0x5E then 0x7E else if c =? 0x5D then 0x7D else 0x7D).
    destruct (IH pre (if c =? 0x5E then 0x7E else if c =? 0x5D then 0x7D else 0x7D) (r :: rest))
      as (rest' & H1 & H2); [done|simpl in *; lia|].
    exists rest'. split; [rewrite H1, !length_app; done|]. rewrite <- H2.
    destruct (c =? 0x5E); [|destruct (c =? 0x5D)]; rewrite ?Hs, ?obind_Some; done.
  - assert (Hu : un_step (pre, x) c = (pre ++ [x], c)).
    { unfold un_step. cbn [fst snd]. by apply Z.eqb_neq in Hx as ->. }
    rewrite Hu. destruct (IH (pre ++ [x]) c rest) as (rest' & H1 & H2); [done|simpl in *; lia|].
    exists rest'. split; [rewrite H1, !length_app; simpl; lia|]. rewrite <- H2.
    pose proof (store_segment (pre ++ [x]) [r] rest [c] _ eq_refl eq_refl) as H.
    cbn [store app] in H. rewrite <- !app_assoc in H. cbn [app] in H.
    replace (zlen (pre ++ [x])) with (zlen pre + 1) in * by by rewrite zlen_app.
    destruct (aset (pre ++ x :: r :: rest) (zlen pre + 1) c); [|done].
    rewrite obind_Some in *. injection H as ->. by rewrite <- app_assoc.
Qed.

Lemma un_char_plain st c : st.2 <> 0x7D -> un_char st c = (st.1 ++ [st.2], c).
Proof.
  destruct st as [acc x]. cbn [fst snd]. intros Hx. unfold un_char, escape, un_step.
  apply Z.eqb_neq in Hx.
  destruct (Z.eqb_spec c 0x7E) as [->|]; [|destruct (Z.eqb_spec c 0x7D) as [->|]];
    cbn [foldl fst snd]; rewrite ?Hx; done.
Qed.

Lemma un_char_after_7D st c : st.2 = 0x7D -> (un_char st c).1 = st.1.
Proof.
  destruct st as [acc x]. cbn [fst snd]. intros ->. unfold un_char, escape, un_step.
  destruct (Z.eqb_spec c 0x7E) as [->|]; [done|].
  destruct (Z.eqb_spec c 0x7D) as [->|]; [done|]. done.
Qed.

Lemma un_chars_length st s :
  (length (foldl un_char st s).1 <= length st.1 + length s)%nat.
Proof.
  revert st. induction s as [|c s IH]; intros st; simpl; [lia|]. specialize (IH (un_char st c)).
  destruct (decide (st.2 = 0x7D)) as [E|E].
  - rewrite (un_char_after_7D st c E) in IH. lia.
  - rewrite (un_char_plain st c E) in *. cbn [fst] in IH. rewrite length_app in IH. simpl in IH. lia.
Qed.

(** The decoder loses a byte at every 0x7D that is not the last. *)
Lemma un_chars_lossy st s :
  0x7D ∈ take (length s) (st.2 :: s) ->
  (length (foldl un_char st s).1 < length st.1 + length s)%nat.
Proof.
  revert st. induction s as [|c s IH]; intros st; simpl; [by intros ?%elem_of_nil|].
  intros H. destruct (decide (st.2 = 0x7D)) as [E|E].
  - pose proof (un_chars_length (un_char st c) s) as L.
    rewrite (un_char_after_7D st c E) in L. lia.
  - apply elem_of_cons in H as [H|H]; [congruence|].
    rewrite (un_char_plain st c E). specialize (IH (st.1 ++ [st.2], c) H).
    cbn [fst] in IH. rewrite length_app in IH. simpl in IH. lia.
Qed.

Lemma un_chars_exact st s :
  0x7D ∉ take (length s) (st.2 :: s) ->
  let st' := foldl un_char st s in st'.1 ++ [st'.2] = (st.1 ++ st.2 :: s).
Proof.
  revert st. induction s as [|c s IH]; intros st H; [done|]. simpl in H.
  apply not_elem_of_cons in H as [H1 H2]. cbn [foldl]. rewrite un_char_plain by congruence.
  cbn zeta in IH. rewrite IH by done. cbn [fst snd]. by rewrite <- app_assoc.
Qed.

Lemma foldl_un_step_esc st s : foldl un_step st (esc s) = foldl un_char st s.
Proof.
  revert st. induction s as [|c s IH]; intros st; [done|].
  cbn [esc flat_map foldl]. by rewrite foldl_app, IH.
Qed.

Lemma crc_16_l_calc_is_Some buf len :
  0 <= len <= zlen buf -> len < 2 ^ 32 -> is_Some (crc_16_l_calc buf len).
Proof.
  intros Hl Hz. unfold crc_16_l_calc. rewrite u32_small by lia.
  assert (H : forall c, is_Some (crc_16_l_loop buf len c)); [|done].
  clear Hz. revert len Hl. induction buf as [|b buf IH]; intros len Hl c; cbn [crc_16_l_loop].
  - rewrite (@zlen_nil Z) in Hl. by replace len with 0 by lia.
  - rewrite zlen_cons in Hl. destruct (Z.eqb_spec len 0); [done|]. apply IH. lia.
Qed.

(** What [untranslate_packet] makes of a frame. *)
Lemma untranslate_frame dest c s :
  (2 * length (c :: s) < length dest)%nat -> zlen dest < 2 ^ 32 ->
  (0 < length (foldl un_char ([], c) s).1)%nat ->
  let st := foldl un_char ([], c) s in
  exists dest', untranslate_packet dest (frame (c :: s)) (zlen (frame (c :: s)))
    = Some (dest', zlen st.1 + 1) /\ take (S (length st.1)) dest' = st.1 ++ [st.2] /\
    length dest' = length dest.
Proof.
  intros Hl Hz Hp. cbn zeta. unfold untranslate_packet. rewrite Z.ltb_irrefl.
  unfold zlen at 1. rewrite Nat2Z.id, firstn_all. unfold frame. cbn [untranslate_loop].
  change (0x7E =? 0x7e) with true. cbn iota.
  destruct dest as [|r rest]; [simpl in Hl; lia|].
  (* the first byte of the packet enters the empty buffer *)
  assert (H0 : exists rest0, length rest0 = length rest /\
    untranslate_loop (esc (c :: s) ++ [0x7E]) (r :: rest) 0 1
    = untranslate_loop (esc s ++ [0x7E]) ([] ++ c :: rest0) (zlen (@nil Z) + 1) 2).
  { exists rest. split; [done|]. cbn [esc flat_map]. fold (esc s). unfold escape.
    destruct (Z.eqb_spec c 0x7E) as [->|]; [done|].
    destruct (Z.eqb_spec c 0x7D) as [->|]; [done|]. rewrite <- app_assoc.
    cbn [app untranslate_loop]. apply Z.eqb_neq in n as ->. done. }
  destruct H0 as (rest0 & Hr & ->). simpl in Hl.
  destruct (un_step_loop (esc s) [0x7E] [] c rest0) as (rest' & H1 & H2).
  { apply esc_no_flag. }
  { rewrite Hr. pose proof (esc_length s). lia. }
  rewrite foldl_un_step_esc in H1, H2. set (st := foldl un_char ([], c) s) in *.
  rewrite H2. cbn [untranslate_loop]. change (0x7E =? 0x7E) with true. cbn iota.
  assert (Hlen : length (st.1 ++ st.2 :: rest') = S (length rest)) by (rewrite H1, <- Hr; done).
  destruct (crc_16_l_calc_is_Some (st.1 ++ st.2 :: rest') (zlen st.1 + 1 - 2)) as [crc ->].
  { unfold zlen. rewrite Hlen. rewrite length_app in Hlen. simpl in Hlen. lia. }
  { unfold zlen in *. rewrite length_app in Hlen. simpl in *. lia. }
  rewrite obind_Some. eexists. split; [done|]. split; [|by rewrite Hlen].
  rewrite take_app_ge by lia. by replace (S (length st.1) - length st.1)%nat with 1%nat by lia.
Qed.

(** C38: Unframing a packet of at least three bytes that does not begin with
    0x7D, into an array of more than twice its size (below 4 GiB):
    [untranslate_packet] gives back the packet that [translate_packet] framed
    exactly when 0x7D occurs in it nowhere but as its last byte: after
    un-escaping a byte to 0x7D the decoder takes the next byte for a second
    escaped one and drops it. Not covered: a packet that begins with 0x7D, and
    shorter ones, for which the length handed to the CRC can wrap around
    (packet.c:83). *)
Theorem untranslate_roundtrip dest src :
  (3 <= length src)%nat -> (2 * length src < length dest)%nat -> zlen dest < 2 ^ 32 ->
  0x7D <> nth 0 src 0 ->
  exists dest' n,
    untranslate_packet dest (frame src) (zlen (frame src)) = Some (dest', n) /\
    (take (Z.to_nat n) dest' = src <-> 0x7D ∉ take (length src - 1) src).
Proof.
  intros Hs Hl Hz H0. destruct src as [|c [|c1 s]]; [simpl in Hs; lia..|]. simpl in H0.
  assert (Hone : (0 < length (foldl un_char ([], c) (c1 :: s)).1)%nat).
  { cbn [foldl]. rewrite un_char_plain by (cbn; congruence). cbn [fst snd app].
    assert (Hmono : forall l st, (0 < length st.1)%nat -> (0 < length (foldl un_char st l).1)%nat).
    { induction l as [|x l IH]; intros st Hst; [done|]. simpl. apply IH.
      destruct (decide (st.2 = 0x7D)) as [E|E].
      - by rewrite un_char_after_7D.
      - rewrite un_char_plain by done. simpl. rewrite length_app. simpl. lia. }
    apply Hmono. simpl. lia. }
  destruct (untranslate_frame dest c (c1 :: s)) as (dest' & H1 & H2 & H3); [done|done|done|].
  set (st := foldl un_char ([], c) (c1 :: s)) in *.
  exists dest', (zlen st.1 + 1). split; [done|].
  replace (Z.to_nat (zlen st.1 + 1)) with (S (length st.1)) by (unfold zlen; lia).
  rewrite H2. replace (length (c :: c1 :: s) - 1)%nat with (length (c1 :: s)) by (simpl; lia).
  split.
  - intros E Hin. apply (un_chars_lossy ([], c)) in Hin. fold st in Hin.
    apply (f_equal length) in E. rewrite length_app in E. simpl in E, Hin. lia.
  - intros Hin. by apply (un_chars_exact ([], c)).
Qed.

Lemma untranslate_roundtrip_witness :
  exists dest' n,
    untranslate_packet (replicate 20 0) [0x7E; 0; 0x7D; 0x5D; 3; 4; 0x7E] 7 = Some (dest', n) /\
    (take (Z.to_nat n) dest' = [0; 0x7D; 3; 4] <-> 0x7D ∉ [0; 0x7D; 3]).
Proof.
  apply (untranslate_roundtrip (replicate 20 0) [0; 0x7D; 3; 4]);
    [simpl; lia|simpl; lia|vm_compute; reflexivity|simpl; lia].
Defined.

(** a frame around a single byte makes [untranslate_packet] compute a CRC
    of [1 - 2] bytes, which as an [unsigned int] is 4294967295: the read runs
    off the end of any buffer. *)
Theorem untranslate_short_frame dest c :
  c <> 0x7E -> 0 < zlen dest < 4294967295 ->
  untranslate_packet dest [0x7E; c; 0x7E] 3 = None.
Proof.
  intros Hc Hd. unfold untranslate_packet. cbn [zlen length Z.ltb take].
  change (zlen [126; c; 126] <? 3) with false. change (Z.to_nat 3) with 3%nat.
  cbn [take untranslate_loop]. change (126 =? 126) with true. cbn iota.
  apply Z.eqb_neq in Hc. rewrite Hc. cbn [negb].
  rewrite aset_Some, obind_Some by lia.
  change (0 + 1 - 2) with (-1). unfold crc_16_l_calc. change (u32 (-1)) with 4294967295.
  assert (Hl : forall buf len crc, zlen buf < len -> crc_16_l_loop buf len crc = None); [|rewrite Hl; [done|]].
  { induction buf as [|b buf IH]; intros len crc H; cbn [crc_16_l_loop].
    - rewrite (@zlen_nil Z) in H. by rewrite (proj2 (Z.eqb_neq len 0)) by lia.
    - rewrite zlen_cons in H. pose proof (zlen_nonneg buf).
      rewrite (proj2 (Z.eqb_neq len 0)) by lia. apply IH. lia. }
  unfold zlen in *. rewrite length_insert. lia.
Qed.

Lemma untranslate_short_frame_witness :
  untranslate_packet (replicate 4000 0) [0x7E; 1; 0x7E] 3 = None.
Proof.
  apply untranslate_short_frame; [lia|].
  vm_compute. split; reflexivity.
Defined.

(** ** Packets *)

(** A packet on the UART: type and length, high byte first, the data, and
    the CRC of all that. *)
Definition uart_packet (code : Z) (data : list Z) : list Z :=
  let body := be16 code ++ be16 (zlen data) ++ data in body ++ be16 (crc16_ref body 0).

(** The checksum of a whole buffer. *)
Definition csum (l : list Z) : Z := default 0 (boot_checksum l (zlen l)).

(** A header on the SPI bus: size and type, low byte first, the checksum of
    the data, and the checksum of these six bytes. *)
Definition spi_header (code size : Z) (data : list Z) : list Z :=
  let h := le16 size ++ le16 code ++ le16 (csum data) in h ++ le16 (csum h).

Lemma le16_cpu2be16 v : 0 <= v < 65536 -> le16 (cpu2be16 (u16 v)) = be16 v.
Proof.
  intros Hv. rewrite u16_small by lia. unfold le16, be16, cpu2be16.
  rewrite !land_255, !shiftr8, lor_shiftl8 by (unfold byte; wrap_lia).
  rewrite !(Z.mod_small (v / 256)) by wrap_lia. list_eq; wrap_lia.
Qed.

Lemma le32_cpu2be32 v : 0 <= v < 2 ^ 32 -> le32 (cpu2be32 v) = be32 v.
Proof.
  intros Hv. unfold le32, be32, cpu2be32.
  rewrite !land_255, !shiftr24, !shiftr16, !shiftr8.
  assert (Hj : Z.lor (Z.lor (Z.lor (Z.shiftl (v mod 256) 24) (Z.shiftl ((v / 256) mod 256) 16))
                            (Z.shiftl ((v / 65536) mod 256) 8)) (v / 16777216)
               = v mod 256 * 16777216 + (v / 256) mod 256 * 65536
                 + (v / 65536) mod 256 * 256 + v / 16777216).
  { rewrite <- !Z.lor_assoc.
    rewrite (lor_shiftl _ (v / 16777216) 8) by wrap_lia. change (2 ^ 8) with 256.
    rewrite (lor_shiftl _ ((v / 65536) mod 256 * 256 + v / 16777216) 16) by wrap_lia.
    change (2 ^ 16) with 65536. rewrite lor_shiftl by wrap_lia.
    change (2 ^ 24) with 16777216. lia. }
  rewrite Hj. list_eq; wrap_lia.
Qed.

Lemma st16_segment pre o0 o1 post v i :
  i = zlen pre -> st16 (pre ++ [o0; o1] ++ post) i v = Some (pre ++ le16 v ++ post).
Proof. intros ->. by apply store_segment. Qed.

Lemma set_head_eq pre h0 h1 h2 h3 post code size :
  length pre = 4%nat -> 0 <= code < 65536 -> 0 <= size < 65536 ->
  set_head (pre ++ [h0; h1; h2; h3] ++ post) code size
  = Some (pre ++ be16 code ++ be16 size ++ post).
Proof.
  intros Hp Hc Hs. unfold set_head.
  change ([h0; h1; h2; h3] ++ post) with ([h0; h1] ++ [h2; h3] ++ post).
  rewrite st16_segment, obind_Some, le16_cpu2be16 by (done || (unfold zlen; by rewrite Hp)).
  rewrite (app_assoc pre (be16 code)), st16_segment, le16_cpu2be16
    by (done || (unfold zlen; by rewrite length_app, Hp)).
  by rewrite <- app_assoc.
Qed.

Lemma uart_body_crc code data rest :
  bytes data -> bytes rest -> zlen data + zlen rest < 65536 ->
  crc_16_l_calc ((be16 code ++ be16 (zlen data) ++ data) ++ rest) (4 + zlen data)
  = Some (crc16_ref (be16 code ++ be16 (zlen data) ++ data) 0).
Proof.
  intros Hd Hr Hz. pose proof (zlen_nonneg data). pose proof (zlen_nonneg rest).
  assert (Hl : zlen (be16 code ++ be16 (zlen data) ++ data) = 4 + zlen data) by len_lia.
  rewrite crc_16_l_calc_ref.
  - rewrite <- Hl. unfold zlen at 1. by rewrite Nat2Z.id, take_app_length.
  - apply bytes_app. split; [|done]. repeat (apply bytes_app; split); auto with cint.
  - rewrite zlen_app, Hl. lia.
  - rewrite zlen_app, Hl. lia.
Qed.

Lemma setup_uart_eq pre h0 h1 h2 h3 data t0 t1 rest code :
  length pre = 4%nat -> bytes data -> bytes ([t0; t1] ++ rest) ->
  zlen data + zlen rest < 65534 -> 0 <= code < 65536 ->
  setup_uart (pre ++ [h0; h1; h2; h3] ++ data ++ [t0; t1] ++ rest) code (zlen data)
  = Some (pre ++ uart_packet code data ++ rest, zlen data + 6).
Proof.
  intros Hp Hd Hr Hz Hc. unfold setup_uart, pkt_header_tag_size.
  pose proof (zlen_nonneg data). pose proof (zlen_nonneg rest).
  rewrite set_head_eq, obind_Some by (done || lia).
  replace (drop 4 (pre ++ be16 code ++ be16 (zlen data) ++ data ++ [t0; t1] ++ rest))
    with ((be16 code ++ be16 (zlen data) ++ data) ++ [t0; t1] ++ rest).
  2: { rewrite <- Hp, drop_app_length. by rewrite <- !app_assoc. }
  rewrite uart_body_crc, obind_Some by (done || len_lia).
  set (body := be16 code ++ be16 (zlen data) ++ data).
  assert (Hb : 0 <= crc16_ref body 0 < 65536) by by apply crc16_ref_range.
  replace (pre ++ be16 code ++ be16 (zlen data) ++ data ++ [t0; t1] ++ rest)
    with ((pre ++ body) ++ [t0; t1] ++ rest) by (unfold body; by rewrite <- !app_assoc).
  rewrite st16_segment, obind_Some, le16_cpu2be16; [|done|].
  2: { unfold body. len_lia. }
  unfold uart_packet. fold body. rewrite <- !app_assoc. f_equal. f_equal. lia.
Qed.

(** the four data requests on the UART: [setup_packet] lays the type, the
    length and the data out high byte first behind four bytes it does not
    touch, appends their CRC, changes nothing after it, returns the packet's
    length, and the packet passes the receiver's CRC test. *)
Theorem setup_packet_uart m pre h0 h1 h2 h3 data t0 t1 rest :
  m = BSL_CMD_START_DATA \/ m = BSL_CMD_MIDST_DATA \/ m = BSL_CMD_END_DATA \/ m = BSL_CMD_EXEC_DATA ->
  length pre = 4%nat -> bytes data -> bytes ([t0; t1] ++ rest) ->
  zlen data + zlen rest < 65000 ->
  setup_packet m (pre ++ [h0; h1; h2; h3] ++ data ++ [t0; t1] ++ rest) 8 (zlen data) BSL_UART_PACKET
    = Some (pre ++ uart_packet (cmd_code m) data ++ rest, zlen (uart_packet (cmd_code m) data)) /\
  crc_16_l_calc (uart_packet (cmd_code m) data) (zlen (uart_packet (cmd_code m) data)) = Some 0.
Proof.
  intros Hm Hp Hd Hr Hz. pose proof (zlen_nonneg data). pose proof (zlen_nonneg rest).
  assert (Hl : zlen (uart_packet (cmd_code m) data) = zlen data + 6).
  { unfold uart_packet. len_lia. }
  assert (Hs : setup_packet m (pre ++ [h0; h1; h2; h3] ++ data ++ [t0; t1] ++ rest) 8 (zlen data) 0
    = setup_uart (pre ++ [h0; h1; h2; h3] ++ data ++ [t0; t1] ++ rest) (cmd_code m) (zlen data)).
  { by destruct Hm as [-> | [-> | [-> | ->] ] ]. }
  unfold BSL_UART_PACKET. rewrite Hs, setup_uart_eq, Hl; try done; try lia.
  2: { destruct Hm as [-> | [-> | [-> | ->] ] ]; simpl; lia. }
  split; [done|]. unfold uart_packet.
  pose proof (uart_body_crc (cmd_code m) data [] Hd) as Hc. rewrite app_nil_r in Hc.
  set (body := be16 (cmd_code m) ++ be16 (zlen data) ++ data) in *.
  assert (Hbl : zlen body = 4 + zlen data) by (unfold body; len_lia).
  replace (zlen data + 6) with (zlen body + 2) by lia.
  apply crc_16_l_calc_append.
  - unfold body. repeat (apply bytes_app; split); auto with cint.
  - lia.
  - rewrite Hbl. apply Hc; [constructor|]. change (zlen (@nil Z)) with 0. lia.
Qed.

Lemma setup_packet_uart_witness :
  crc_16_l_calc (uart_packet 2 [7; 8; 9]) 9 = Some 0.
Proof.
  destruct (setup_packet_uart BSL_CMD_MIDST_DATA [0; 0; 0; 0] 0 0 0 0 [7; 8; 9] 0 0 [])
    as [_ H]; [auto|done|by_bytes|by_bytes|vm_compute; reflexivity|exact H].
Defined.

Lemma boot_checksum_app src rest :
  boot_checksum (src ++ rest) (zlen src) = Some (csum src).
Proof.
  unfold csum. rewrite !boot_checksum_sum. pose proof (zlen_nonneg src).
  rewrite (byte_sum_app (length src)) by lia.
  by destruct (byte_sum_is_Some (length src) src (zlen src) 0) as [x ->]; [lia|lia|].
Qed.

Lemma fold_sum_range s : 0 <= fold_sum s < 65536.
Proof. apply u16_range. Qed.

Lemma csum_range l : 0 <= csum l < 65536.
Proof.
  unfold csum. rewrite boot_checksum_sum. destruct (byte_sum l (zlen l) 0); simpl; [|lia].
  apply fold_sum_range.
Qed.

Lemma set_checksums_eq s0 s1 m0 m1 o0 o1 o2 o3 data rest size :
  size = zlen data ->
  set_checksums ([s0; s1; m0; m1; o0; o1; o2; o3] ++ data ++ rest) 8 size
  = Some (([s0; s1; m0; m1] ++ le16 (csum data) ++ le16 (csum ([s0; s1; m0; m1] ++ le16 (csum data))))
          ++ data ++ rest).
Proof.
  intros ->. unfold set_checksums, checksum_at. change (Z.to_nat 8) with 8%nat.
  change (drop 8 ([s0; s1; m0; m1; o0; o1; o2; o3] ++ data ++ rest)) with (data ++ rest).
  rewrite boot_checksum_app, obind_Some.
  change ([s0; s1; m0; m1; o0; o1; o2; o3] ++ data ++ rest)
    with ([s0; s1; m0; m1] ++ [o0; o1] ++ [o2; o3] ++ data ++ rest).
  rewrite st16_segment, obind_Some by done. change (drop (Z.to_nat 0) ?l) with l.
  rewrite (app_assoc [s0; s1; m0; m1]).
  set (h := [s0; s1; m0; m1] ++ le16 (csum data)).
  change 6 with (zlen h) at 1. rewrite boot_checksum_app, obind_Some.
  rewrite st16_segment by done. reflexivity.
Qed.

(** START_DATA, EXEC_DATA and (with data) MIDST_DATA on the SPI bus:
    [setup_packet] writes an eight-byte header with the checksum of the data
    and a checksum of the header in front of the data, which it leaves as it
    is, and the header passes the receiver's test. *)
Theorem setup_packet_spi m h0 h1 h2 h3 h4 h5 h6 h7 data rest :
  m = BSL_CMD_START_DATA \/ m = BSL_CMD_MIDST_DATA \/ m = BSL_CMD_EXEC_DATA ->
  data <> [] ->
  setup_packet m ([h0; h1; h2; h3; h4; h5; h6; h7] ++ data ++ rest) 8 (zlen data) BSL_SPI_PACKET
    = Some (spi_header (cmd_code m) (zlen data) data ++ data ++ rest, zlen data + 8) /\
  boot_checksum (spi_header (cmd_code m) (zlen data) data) 8 = Some 0.
Proof.
  intros Hm Hne.
  assert (Hz : (zlen data =? 0) = false).
  { destruct data; [done|]. rewrite zlen_cons. pose proof (zlen_nonneg data). lia. }
  assert (Hc : u16 (cmd_code m) = cmd_code m).
  { by destruct Hm as [-> | [-> | ->] ]. }
  split.
  - assert (Hs : setup_packet m ([h0; h1; h2; h3; h4; h5; h6; h7] ++ data ++ rest) 8 (zlen data) 1
      = (b ← st16 ([] ++ [h0; h1] ++ [h2; h3; h4; h5; h6; h7] ++ data ++ rest) 0 (zlen data);
         b ← st16 b 2 (u16 (cmd_code m));
         b ← set_checksums b 8 (zlen data);
         Some (b, zlen data + 8))).
    { destruct Hm as [-> | [-> | ->] ]; cbn [setup_packet Z.eqb BSL_UART_PACKET]; rewrite ?Hz; done. }
    unfold BSL_SPI_PACKET. rewrite Hs, st16_segment, obind_Some, Hc by done.
    change ([] ++ le16 (zlen data) ++ [h2; h3; h4; h5; h6; h7] ++ data ++ rest)
      with (le16 (zlen data) ++ [h2; h3] ++ [h4; h5; h6; h7] ++ data ++ rest).
    rewrite st16_segment, obind_Some by done.
    change (le16 (zlen data) ++ le16 (cmd_code m) ++ [h4; h5; h6; h7] ++ data ++ rest)
      with (([u8 (zlen data); u8 (Z.shiftr (zlen data) 8); u8 (cmd_code m);
             u8 (Z.shiftr (cmd_code m) 8); h4; h5; h6; h7]) ++ data ++ rest).
    rewrite set_checksums_eq, obind_Some by done. done.
  - unfold spi_header. set (h := le16 _ ++ le16 _ ++ le16 _).
    change 8 with (zlen h + 2). apply boot_checksum_append.
    + unfold h. repeat (apply bytes_app; split); auto with cint.
    + reflexivity.
    + reflexivity.
    + rewrite <- (app_nil_r h) at 1. apply boot_checksum_app.
Qed.

Lemma setup_packet_spi_witness :
  boot_checksum (spi_header 4 4 [1; 2; 3; 4]) 8 = Some 0.
Proof.
  destruct (setup_packet_spi BSL_CMD_EXEC_DATA 0 0 0 0 0 0 0 0 [1; 2; 3; 4] []) as [_ H];
    [auto|discriminate|exact H].
Defined.

(** ** The device *)

(** The bytes that arrive, in order. *)
Definition payload (e : rx_event) : list Z :=
  match e with RxErr _ => [] | RxData d => d end.
Definition stream (evs : list rx_event) : list Z := flat_map payload evs.

Definition set_rx (l : link) (evs : list rx_event) : link :=
  Link (send_buffer l) (tx l) (sent l) evs.

(** Both ways of testing [retval] count exactly the bytes read. *)
Definition counts (took : Z -> bool) : Prop :=
  (forall r, 0 < r -> took r = true) /\ (forall r, r < 0 -> took r = false).

Lemma gt0_counts : counts gt0.
Proof. unfold counts, gt0. split; intros; lia. Qed.
Lemma ge0_counts : counts ge0.
Proof. unfold counts, ge0. split; intros; lia. Qed.

Lemma read_loop_enough fuel took pre old post l :
  counts took -> (length (rx l) < fuel)%nat -> (0 < length old)%nat ->
  (length old <= length (stream (rx l)))%nat ->
  exists evs retval,
    read_loop fuel took (pre ++ old ++ post) (zlen pre) (zlen old) l
    = Ret (pre ++ take (length old) (stream (rx l)) ++ post, zlen pre + zlen old, retval)
          (set_rx l evs) /\
    0 < retval /\ stream evs = drop (length old) (stream (rx l)).
Proof.
  intros [Ht1 Ht2]. revert pre old l. induction fuel as [|fuel IH]; intros pre old l Hf Ho Hs; [lia|].
  destruct l as [sb txs log [|[r|d] evs]]; cbn [rx] in *; [simpl in Hs; lia| |].
  - (* an error or nothing *)
    cbn [read_loop]. unfold bind at 1. unfold read at 1. cbn [rx send_buffer tx sent].
    assert (Hz : (if took (Z.min r 0) then (zlen pre + Z.min r 0, zlen old - Z.min r 0)
                  else (zlen pre, zlen old)) = (zlen pre, zlen old)).
    { destruct (decide (r < 0)); [by rewrite Z.min_l, Ht2 by lia|].
      rewrite Z.min_r by lia. destruct (took 0); out_eq. }
    rewrite Hz. rewrite (proj2 (Z.eqb_neq (zlen old) 0)) by (unfold zlen; lia). cbn [negb].
    apply (IH pre old (Link sb txs log evs)); cbn; [simpl in Hf; lia|done|done].
  - cbn [read_loop]. unfold bind at 1. unfold read at 1. cbn [rx send_buffer tx sent].
    change (stream (RxData d :: evs)) with (d ++ stream evs) in *.
    replace (Z.to_nat (zlen old)) with (length old) by (unfold zlen; lia).
    set (got := take (length old) d).
    assert (Hgot : length got = Nat.min (length old) (length d)) by apply length_take.
    rewrite (store_into pre old) by lia.
    destruct (decide (got = [])) as [Hnil|Hne].
    + (* an empty read *)
      assert (d = []) as -> by (destruct d; [done|]; rewrite Hnil in Hgot; simpl in Hgot; lia).
      rewrite Hnil. cbn [length app take drop zlen Z.of_nat]. change (zlen (@nil Z)) with 0.
      replace (if took 0 then (zlen pre + 0, zlen old - 0) else (zlen pre, zlen old))
        with (zlen pre, zlen old) by (destruct (took 0); out_eq).
      rewrite (proj2 (Z.eqb_neq (zlen old) 0)) by (unfold zlen; lia). cbn [negb Nat.leb].
      apply (IH pre old (Link sb txs log evs)); cbn; [simpl in Hf; lia|done|done].
    + assert (Hpos : (0 < length got)%nat) by (destruct got; [done|simpl; lia]).
      rewrite Ht1 by (unfold zlen; lia).
      destruct (Nat.leb_spec (length d) (length old)) as [Hd|Hd].
      * (* the whole chunk *)
        assert (got = d) as -> by (unfold got; by apply take_ge).
        destruct (decide (length d = length old)) as [He|He].
        -- replace (zlen old - zlen d) with 0 by (unfold zlen; lia). cbn [Z.eqb negb].
           exists evs, (zlen d). split; [|split; [unfold zlen; lia|by rewrite <- He, drop_app_length]].
           rewrite (drop_ge old), (take_app_le d), (take_ge d) by lia.
           unfold ret. f_equal. out_eq.
        -- rewrite (proj2 (Z.eqb_neq _ 0)) by (unfold zlen; lia). cbn [negb].
           destruct (IH (pre ++ d) (drop (length d) old) (Link sb txs log evs))
             as (evs' & rv & H1 & H2 & H3); cbn [rx]; [simpl in Hf; lia|rewrite length_drop; lia| |].
           { rewrite length_app in Hs. rewrite length_drop. lia. }
           cbn [rx] in *. exists evs', rv. split; [|split; [done|]].
           ++ rewrite <- !app_assoc in H1.
              replace (zlen (pre ++ d)) with (zlen pre + zlen d) in H1 by by rewrite zlen_app.
              replace (zlen (drop (length d) old)) with (zlen old - zlen d) in H1
                by (unfold zlen; rewrite length_drop; lia).
              rewrite H1. unfold set_rx. cbn. f_equal. rewrite take_app_ge by lia.
              rewrite length_drop, <- app_assoc. out_eq.
           ++ rewrite H3, length_drop, drop_app_ge by lia. done.
      * (* part of it *)
        assert (Hg : length got = length old) by lia.
        replace (zlen old - zlen got) with 0 by (unfold zlen; lia). cbn [Z.eqb negb].
        exists (RxData (drop (length old) d) :: evs), (zlen got).
        split; [|split; [unfold zlen; lia|]].
        -- unfold ret, set_rx. cbn. rewrite Hg, drop_all, take_app_le by lia. f_equal. out_eq.
        -- cbn. fold (stream evs). by rewrite drop_app_le by lia.
Qed.

Lemma read_loop_short fuel took pre old post l :
  counts took -> (length (rx l) < fuel)%nat -> (length (stream (rx l)) < length old)%nat ->
  read_loop fuel took (pre ++ old ++ post) (zlen pre) (zlen old) l = Bad Blocked.
Proof.
  intros [Ht1 Ht2]. revert pre old l. induction fuel as [|fuel IH]; intros pre old l Hf Hs; [lia|].
  destruct l as [sb txs log [|[r|d] evs]]; cbn [rx] in *; [done| |].
  - cbn [read_loop]. unfold bind at 1. unfold read at 1. cbn [rx send_buffer tx sent].
    assert (Hz : (if took (Z.min r 0) then (zlen pre + Z.min r 0, zlen old - Z.min r 0)
                  else (zlen pre, zlen old)) = (zlen pre, zlen old)).
    { destruct (decide (r < 0)); [by rewrite Z.min_l, Ht2 by lia|].
      rewrite Z.min_r by lia. destruct (took 0); out_eq. }
    rewrite Hz, (proj2 (Z.eqb_neq (zlen old) 0)) by (unfold zlen; lia). cbn [negb].
    apply IH; cbn; [simpl in Hf; lia|done].
  - cbn [read_loop]. unfold bind at 1. unfold read at 1. cbn [rx send_buffer tx sent].
    change (stream (RxData d :: evs)) with (d ++ stream evs) in *. rewrite length_app in Hs.
    rewrite take_ge, (proj2 (Nat.leb_le (length d) (Z.to_nat (zlen old)))) by (unfold zlen; lia).
    rewrite (store_into pre old) by lia.
    assert (Hz : (if took (zlen d) then (zlen pre + zlen d, zlen old - zlen d)
                  else (zlen pre, zlen old))
                 = (zlen (pre ++ d), zlen (drop (length d) old))).
    { destruct d as [|x d].
      - cbn [length]. rewrite app_nil_r, skipn_0. change (zlen (@nil Z)) with 0. destruct (took 0); out_eq.
      - rewrite Ht1 by (rewrite zlen_cons; pose proof (zlen_nonneg d); lia).
        simpl in Hs. unfold zlen. rewrite length_app, length_drop. out_eq. }
    rewrite Hz, (proj2 (Z.eqb_neq (zlen (drop _ _)) 0))
      by (unfold zlen; rewrite length_drop; lia). cbn [negb].
    rewrite app_assoc. apply IH; cbn [rx]; [simpl in Hf; lia|rewrite length_drop; lia].
Qed.

Definition reply_size (flag : Z) : nat := if flag =? 0 then 8%nat else 6%nat.

Lemma read_reply_enough took old post flag l :
  counts took -> length old = reply_size flag ->
  (reply_size flag <= length (stream (rx l)))%nat ->
  exists evs retval,
    read_reply took (old ++ post) flag l
    = Ret (take (reply_size flag) (stream (rx l)) ++ post, Z.of_nat (reply_size flag), retval)
          (set_rx l evs) /\
    0 < retval /\ stream evs = drop (reply_size flag) (stream (rx l)).
Proof.
  intros Ht Ho Hs. unfold read_reply, bind, gets.
  assert (Hsz : (if flag =? 0 then 8 else 6) = zlen old).
  { unfold zlen. rewrite Ho. unfold reply_size. by destruct (flag =? 0). }
  rewrite Hsz, <- Ho.
  apply (read_loop_enough _ took [] old post l); [done|unfold rx_fuel; lia| |by rewrite Ho].
  rewrite Ho. unfold reply_size. destruct (flag =? 0); lia.
Qed.

(** the read loop is indifferent to how a reply arrives: split into any
    chunks, with failed and empty reads between them, the first 8 bytes (6 on
    the SPI bus) of what arrives are stored at the start of the buffer, the
    last [retval] is positive, and the bytes after them stay unread; when
    fewer arrive the function never returns. *)
Theorem read_reply_chunks took old post flag l :
  counts took -> length old = reply_size flag ->
  ((reply_size flag <= length (stream (rx l)))%nat ->
   exists evs retval,
     read_reply took (old ++ post) flag l
     = Ret (take (reply_size flag) (stream (rx l)) ++ post, Z.of_nat (reply_size flag), retval)
           (set_rx l evs) /\
     0 < retval /\ stream evs = drop (reply_size flag) (stream (rx l))) /\
  ((length (stream (rx l)) < reply_size flag)%nat ->
   read_reply took (old ++ post) flag l = Bad Blocked).
Proof.
  intros Ht Ho. split; [by apply read_reply_enough|].
  intros Hs. unfold read_reply, bind, gets.
  assert (Hsz : (if flag =? 0 then 8 else 6) = zlen old).
  { unfold zlen. rewrite Ho. unfold reply_size. by destruct (flag =? 0). }
  rewrite Hsz. apply (read_loop_short _ took [] old post l); [done|unfold rx_fuel; lia|by rewrite Ho].
Qed.

Lemma read_reply_chunks_witness :
  exists evs retval,
    read_reply gt0 (replicate 32 0) 1
      (Link [] [] [] [RxData [0; 0x80; 0]; RxErr (-1); RxData []; RxData [1; 2; 3; 4]])
    = Ret ([0; 0x80; 0; 1; 2; 3] ++ replicate 26 0, 6, retval)
          (set_rx (Link [] [] [] []) evs) /\
    0 < retval /\ stream evs = [4].
Proof.
  destruct (read_reply_chunks gt0 (replicate 6 0) (replicate 26 0) 1
    (Link [] [] [] [RxData [0; 0x80; 0]; RxErr (-1); RxData []; RxData [1; 2; 3; 4]])
    gt0_counts eq_refl) as [H _]. apply H. vm_compute. lia.
Defined.

(** ** Requests *)

Lemma translate_packet_app dest src rest :
  translate_packet dest (src ++ rest) (zlen src) = translate_packet dest src (zlen src).
Proof.
  unfold translate_packet. rewrite zlen_app. pose proof (zlen_nonneg rest).
  rewrite !(proj2 (Z.ltb_ge _ _)) by lia. unfold zlen. by rewrite Nat2Z.id, take_app_length, firstn_all.
Qed.

(** A device that takes the whole frame at once. *)
Lemma send_uart_ok pre packet rest sb r txs log evs :
  length pre = 4%nat -> zlen (frame packet) <= zlen sb -> zlen (frame packet) <= r ->
  send_uart (pre ++ packet ++ rest) (zlen packet) (Link sb (r :: txs) log evs)
  = Ret (zlen (frame packet))
        (Link (frame packet ++ drop (length (frame packet)) sb) txs (log ++ [frame packet]) evs).
Proof.
  intros Hp Hsb Hr. unfold send_uart, bind, gets, lift, set_send_buffer, modify. cbn [send_buffer].
  rewrite <- Hp, drop_app_length, translate_packet_app, translate_packet_frame_eq by done.
  cbn [tx sent rx send_buffer length write_loop]. unfold bind, gets, write. cbn [tx sent rx send_buffer].
  set (f := frame packet) in *.
  rewrite (proj2 (Z.ltb_ge _ _)) by (rewrite zlen_app; pose proof (zlen_nonneg (drop (length f) sb)); lia).
  pose proof (frame_zlen packet) as Hf. fold f in Hf. pose proof (zlen_nonneg packet).
  assert (Hg : (zlen f >? 0) = true) by (apply Z.gtb_lt; lia).
  rewrite Z.min_r by lia. rewrite !Hg, Z.sub_diag. cbn [Z.gtb Z.compare].
  unfold ret. unfold zlen at 2. by rewrite Nat2Z.id, take_app_length.
Qed.

Lemma un_step_prefix cs st : exists t, (foldl un_step st cs).1 = st.1 ++ t.
Proof.
  revert st. induction cs as [|c cs IH]; intros st; simpl; [exists []; by rewrite app_nil_r|].
  destruct (IH (un_step st c)) as [t ->]. unfold un_step. case_match; cbn [fst]; [by exists t|].
  exists ([st.2] ++ t). by rewrite <- app_assoc.
Qed.

(** The type of a framed reply of eight bytes; its CRC does not matter. *)
Lemma reply_type_uart d0 d1 x y c0 c1 post l :
  bytes [d0; d1] -> 0x7E ∉ [d0; d1; x; y; c0; c1] -> d0 <> 0x7D -> d1 <> 0x7D ->
  (16 <= length (send_buffer l))%nat -> zlen (send_buffer l) < 2 ^ 32 ->
  exists sb, length sb = length (send_buffer l) /\
    reply_type ([0x7E; d0; d1; x; y; c0; c1; 0x7E] ++ post) 8 0 l
    = Ret (256 * d0 + d1) (Link sb (tx l) (sent l) (rx l)).
Proof.
  intros Hb Hn H0 H1 Hl Hz. unfold reply_type. change (0 =? 0) with true. cbn iota.
  destruct (send_buffer l) as [|r0 [|r1 [|r2 rest]]] eqn:Hsb; [simpl in Hl; lia..|].
  destruct (un_step_loop [d1; x; y; c0; c1] [0x7E] [] d0 (r1 :: r2 :: rest)) as (rest' & Hlen & Hu).
  { set_solver. }
  { simpl in *. lia. }
  destruct (un_step_prefix [y; c0; c1] ([d0; d1], x)) as [t Ht].
  assert (Hst : foldl un_step ([], d0) [d1; x; y; c0; c1] = foldl un_step ([d0; d1], x) [y; c0; c1]).
  { cbn [foldl]. unfold un_step at 4 5. cbn [fst snd]. apply Z.eqb_neq in H0 as ->. cbn [fst snd app].
    by apply Z.eqb_neq in H1 as ->. }
  rewrite Hst in Hu, Hlen. set (st := foldl un_step ([d0; d1], x) [y; c0; c1]) in *.
  cbn [fst] in Ht.
  assert (Huu : untranslate_packet (r0 :: r1 :: r2 :: rest) ([0x7E; d0; d1; x; y; c0; c1; 0x7E] ++ post) 8
    = Some (st.1 ++ st.2 :: rest', zlen st.1 + 1)).
  { unfold untranslate_packet. rewrite zlen_app, (proj2 (Z.ltb_ge _ _)) by len_lia.
    change (take (Z.to_nat 8) ([0x7E; d0; d1; x; y; c0; c1; 0x7E] ++ post))
      with (0x7E :: d0 :: ([d1; x; y; c0; c1] ++ [0x7E])).
    cbn [untranslate_loop]. change (0x7E =? 0x7e) with true. cbn iota.
    assert (Hd : (d0 =? 0x7e) = false) by (apply Z.eqb_neq; set_solver). rewrite Hd. cbn [negb].
    rewrite aset_Some, obind_Some by len_lia.
    change (<[Z.to_nat 0:=d0]> (r0 :: r1 :: r2 :: rest)) with ([] ++ d0 :: r1 :: r2 :: rest).
    change (0 + 1) with (zlen (@nil Z) + 1). rewrite Hu. cbn [untranslate_loop].
    change (0x7E =? 0x7E) with true. cbn iota.
    destruct (crc_16_l_calc_is_Some (st.1 ++ st.2 :: rest') (zlen st.1 + 1 - 2)) as [crc ->];
      [| |by rewrite obind_Some].
    - unfold zlen. rewrite Ht, !length_app. simpl. lia.
    - unfold zlen in *. rewrite length_app in Hlen. simpl in Hlen, Hz. lia. }
  exists (st.1 ++ st.2 :: rest'). split; [by rewrite Hlen|].
  unfold bind, gets, lift, set_send_buffer, modify, ret. rewrite Hsb, Huu. cbn [fst].
  rewrite Ht. cbn [app aget Z.leb Z.to_nat lookup list_lookup].
  apply Forall_cons in Hb as [Hb0 Hb]. apply Forall_cons in Hb as [Hb1 _].
  unfold aget. cbn. f_equal. rewrite lor_shiftl8 by done. unfold byte in *. rewrite u16_small; lia.
Qed.

Lemma untranslate_no_flag src dest n : 0x7E ∉ src -> untranslate_loop src dest n 0 = Some (dest, n).
Proof.
  induction src as [|c src IH]; intros H; [done|]. apply not_elem_of_cons in H as [Hc H].
  cbn [untranslate_loop]. rewrite (proj2 (Z.eqb_neq c 0x7e)) by congruence. by apply IH.
Qed.

(** A reply with no flag leaves the request's own frame in [send_buffer]. *)
Lemma reply_type_no_flag raw l d1 rest :
  (8 <= length raw)%nat -> 0x7E ∉ take 8 raw -> send_buffer l = 0x7E :: d1 :: rest -> byte d1 ->
  reply_type raw 8 0 l = Ret (0x7E * 256 + d1) (Link (send_buffer l) (tx l) (sent l) (rx l)).
Proof.
  intros Hl Hn Hsb Hb. unfold reply_type, bind, gets, lift, set_send_buffer, modify, ret.
  change (0 =? 0) with true. cbn iota. unfold untranslate_packet.
  rewrite (proj2 (Z.ltb_ge _ _)) by len_lia. change (Z.to_nat 8) with 8%nat.
  rewrite untranslate_no_flag by done. cbn [fst]. rewrite Hsb. unfold aget. cbn.
  f_equal. change 32256 with (Z.shiftl 126 8). rewrite lor_shiftl8 by done.
  unfold byte in Hb. rewrite u16_small; lia.
Qed.

(** The frame of a packet has at least two bytes, the first a flag. *)
Lemma frame_head p : exists d1 t, frame p = 0x7E :: d1 :: t /\ (bytes p -> byte d1).
Proof.
  unfold frame. destruct p as [|c p]; [by exists 0x7E, []|].
  cbn [esc flat_map]. unfold escape.
  destruct (c =? 126); [by eexists _, _|]. destruct (c =? 125); [by eexists _, _|].
  exists c, (esc p ++ [0x7E]). split; [done|]. by intros [? _]%Forall_cons.
Qed.

(** What follows the transmission of a framed request. *)
Lemma finish_uart took acks old post packet rest txs log evs retval :
  counts took -> length old = 8%nat -> bytes packet -> 0 < retval ->
  (16 <= length (frame packet ++ rest))%nat -> zlen (frame packet ++ rest) < 2 ^ 32 ->
  (8 <= length (stream evs))%nat ->
  let l := Link (frame packet ++ rest) txs log evs in
  exists l', sent l' = log /\ tx l' = txs /\ stream (rx l') = drop 8 (stream evs) /\
    (0x7E ∉ take 8 (stream evs) -> (forall d, byte d -> acks (0x7E * 256 + d) = false) ->
     finish took acks (old ++ post) 0 retval l = Ret (-1) l') /\
    (forall d0 d1 x y c0 c1, take 8 (stream evs) = [0x7E; d0; d1; x; y; c0; c1; 0x7E] ->
     bytes [d0; d1] -> 0x7E ∉ [d0; d1; x; y; c0; c1] -> d0 <> 0x7D -> d1 <> 0x7D ->
     exists sb, length sb = length (frame packet ++ rest) /\ finish took acks (old ++ post) 0 retval l
       = Ret (if acks (256 * d0 + d1) then 0 else -1) (Link sb txs log (rx l'))).
Proof.
  intros Ht Ho Hp Hr Hsb Hz Hs. set (l := Link _ _ _ _).
  assert (Hrx : rx l = evs) by done. cbn zeta.
  destruct (read_reply_enough took old post 0 l) as (evs' & rv & Hread & Hrv & Hst); [done|done|done|].
  exists (set_rx l evs'). split; [done|]. split; [done|]. split; [done|].
  unfold finish, bind. rewrite (proj2 (Z.gtb_lt retval 0)), Hread by done.
  rewrite (proj2 (Z.gtb_lt rv 0)) by done. change (reply_size 0) with 8%nat in *.
  change (Z.of_nat 8) with 8. rewrite Hrx in *. split.
  - intros Hn Hack. destruct (frame_head packet) as (d1 & t & Hf & Hb).
    rewrite (reply_type_no_flag _ _ d1 (t ++ rest)).
    + by rewrite Hack by by apply Hb.
    + rewrite length_app, length_take. lia.
    + rewrite take_app_le, take_take by (rewrite length_take; lia). done.
    + cbn [set_rx send_buffer l]. by rewrite Hf.
    + by apply Hb.
  - intros d0 d1 x y c0 c1 Htk Hb Hn H0 H1. rewrite Htk.
    destruct (reply_type_uart d0 d1 x y c0 c1 post (set_rx l evs')) as (sb & Hlen & ->);
      [done|done|done|done|done|done|].
    exists sb. split; [exact Hlen|]. cbn [set_rx tx sent rx l]. by destruct (acks _).
Qed.

Lemma be32_zlen v : zlen (be32 v) = 4.
Proof. done. Qed.

(** The buffer and size [send_start_message] builds. *)
Lemma start_packet size addr :
  0 <= size < 2 ^ 31 -> 0 <= addr < 2 ^ 32 ->
  (b ← st32 raw_buffer_0 8 (cpu2be32 (u32 addr)); b ← st32 b 12 (cpu2be32 size);
   setup_packet BSL_CMD_START_DATA b 8 8 0)
  = Some ([0; 0; 0; 0] ++ uart_packet 1 (be32 addr ++ be32 size) ++ replicate 14 0, 14).
Proof.
  intros Hs Ha. rewrite u32_small by lia. unfold st32. rewrite !le32_cpu2be32 by lia.
  change raw_buffer_0 with (replicate 8 0 ++ replicate 4 0 ++ replicate 20 0).
  rewrite store_segment, obind_Some by done.
  change (replicate 8 0 ++ be32 addr ++ replicate 20 0)
    with ((replicate 8 0 ++ be32 addr) ++ replicate 4 0 ++ replicate 16 0).
  rewrite store_segment, obind_Some by done.
  change ((replicate 8 0 ++ be32 addr) ++ be32 size ++ replicate 16 0)
    with ([0; 0; 0; 0] ++ [0; 0; 0; 0] ++ (be32 addr ++ be32 size) ++ [0; 0] ++ replicate 14 0).
  change (setup_packet BSL_CMD_START_DATA ?b 8 8 0) with (setup_uart b 1 (zlen (be32 addr ++ be32 size))).
  apply setup_uart_eq; [done| |by_bytes|done|done].
  apply bytes_app; split; auto with cint.
Qed.

(** a START request on a healthy UART. The packet that carries address and
    size is framed and sent once, whole; the request succeeds when the reply
    frame has type ACK (0x80) or 0, whatever its CRC bytes are (they are not
    tested), fails for any other type, and fails when the reply has no flag
    byte, although then the bytes it looks at are its own. *)
Theorem send_start_message_uart size addr sb r txs log evs :
  0 <= size < 2 ^ 31 -> 0 <= addr < 2 ^ 32 ->
  zlen sb = send_buffer_size -> 30 <= r -> (8 <= length (stream evs))%nat ->
  let packet := uart_packet 1 (be32 addr ++ be32 size) in
  exists evs', stream evs' = drop 8 (stream evs) /\
    (0x7E ∉ take 8 (stream evs) ->
     exists l', send_start_message size addr 0 (Link sb (r :: txs) log evs) = Ret (-1) l') /\
    (forall d0 d1 x y c0 c1, take 8 (stream evs) = [0x7E; d0; d1; x; y; c0; c1; 0x7E] ->
     bytes [d0; d1] -> 0x7E ∉ [d0; d1; x; y; c0; c1] -> d0 <> 0x7D -> d1 <> 0x7D ->
     exists sb', send_start_message size addr 0 (Link sb (r :: txs) log evs)
       = Ret (if (256 * d0 + d1 =? 0x80) || (256 * d0 + d1 =? 0) then 0 else -1)
             (Link sb' txs (log ++ [frame packet]) evs')).
Proof.
  intros Hs Ha Hsb Hr Hev packet.
  assert (Hpl : zlen packet = 14) by (unfold packet, uart_packet; len_lia).
  pose proof (frame_zlen packet) as Hf. unfold send_buffer_size in Hsb.
  assert (Hp : bytes packet).
  { unfold packet, uart_packet. repeat (apply bytes_app; split); auto with cint. }
  assert (Hm : forall k : list Z * Z -> M link Z,
    (raw <- lift OutOfBounds (st32 raw_buffer_0 8 (cpu2be32 (u32 addr))) ;;
     raw <- lift OutOfBounds (st32 raw 12 (cpu2be32 size)) ;;
     p <- lift OutOfBounds (setup_packet BSL_CMD_START_DATA raw 8 8 0) ;; k p)
      (Link sb (r :: txs) log evs)
    = k ([0; 0; 0; 0] ++ packet ++ replicate 14 0, 14) (Link sb (r :: txs) log evs)).
  { intros k. pose proof (start_packet size addr Hs Ha) as H. unfold bind, lift.
    destruct (st32 raw_buffer_0 8 _) as [b|]; [|done]. rewrite obind_Some in H.
    destruct (st32 b 12 _) as [b'|]; [|done]. rewrite obind_Some in H. by rewrite H. }
  destruct (finish_uart gt0 ack_or_0 ([0; 0; 0; 0] ++ take 4 packet) (drop 4 packet ++ replicate 14 0)
    packet (drop (length (frame packet)) sb) txs (log ++ [frame packet]) evs (zlen (frame packet)))
    as (l' & _ & _ & Hl3 & Hno & Hyes).
  { apply gt0_counts. }
  { done. }
  { done. }
  { lia. }
  { rewrite length_app, length_drop. unfold zlen in *. lia. }
  { unfold zlen in *. rewrite length_app, length_drop. lia. }
  { done. }
  assert (Hrun : send_start_message size addr 0 (Link sb (r :: txs) log evs)
    = finish gt0 ack_or_0 (([0; 0; 0; 0] ++ take 4 packet) ++ drop 4 packet ++ replicate 14 0) 0
        (zlen (frame packet))
        (Link (frame packet ++ drop (length (frame packet)) sb) txs (log ++ [frame packet]) evs)).
  { unfold send_start_message. rewrite Hm. change (0 =? 0) with true. cbn iota.
    rewrite <- Hpl at 1. unfold bind. rewrite send_uart_ok by (done || lia).
    reflexivity. }
  exists (rx l'). split; [done|]. rewrite Hrun. split.
  - intros Hn. exists l'. apply Hno; [done|]. intros d Hd. unfold ack_or_0, BSL_REP_ACK, byte in *.
    by rewrite !(proj2 (Z.eqb_neq _ _)) by lia.
  - intros d0 d1 x y c0 c1 H1 H2 H3 H4 H5.
    destruct (Hyes d0 d1 x y c0 c1) as (sb' & _ & ->); [done..|]. by exists sb'.
Qed.

Lemma send_start_message_uart_witness :
  exists sb' evs',
    send_start_message 1000 0x80000000 0
      (Link (replicate 4000 0) [100] []
         [RxData [0x7e; 0; 0x80; 0]; RxErr (-1); RxData [0; 1; 2; 0x7e; 9]])
    = Ret (if (256 * 0 + 0x80 =? 0x80) || (256 * 0 + 0x80 =? 0) then 0 else -1)
          (Link sb' [] ([] ++ [frame (uart_packet 1 (be32 0x80000000 ++ be32 1000))]) evs').
Proof.
  destruct (send_start_message_uart 1000 0x80000000 (replicate 4000 0) 100 [] []
    [RxData [0x7e; 0; 0x80; 0]; RxErr (-1); RxData [0; 1; 2; 0x7e; 9]])
    as (evs' & _ & _ & H); [lia|lia|vm_compute; reflexivity|lia|vm_compute; lia|].
  assert (H1 : 0x7E ∉ [0; 0x80; 0; 0; 1; 2]).
  { clear H. set_solver. }
  assert (H2 : bytes [0; 0x80]).
  { clear H. by_bytes. }
  specialize (H 0 0x80 0 0 1 2 eq_refl H2 H1 ltac:(lia) ltac:(lia)).
  destruct H as [sb' H]. exists sb', evs'. exact H.
Defined.

(** the write loop after a partial write: when the device takes [k] bytes
    of a frame, neither all of it nor all but the last byte, the next [write]
    starts again at the beginning of [send_buffer]; the loop ends with every
    byte counted, and the device has been given something that is not the
    frame. *)
Theorem write_loop_partial src post k fuel txs log evs :
  0 < k < zlen (frame src) - 1 ->
  write_loop (S (S fuel)) (zlen (frame src))
    (Link (frame src ++ post) (k :: zlen (frame src) - k :: txs) log evs)
  = Ret (zlen (frame src) - k)
      (Link (frame src ++ post) txs
         (log ++ [frame src; take (Z.to_nat (zlen (frame src) - k)) (frame src)]) evs) /\
  take (Z.to_nat k) (frame src) ++ take (Z.to_nat (zlen (frame src) - k)) (frame src) <> frame src.
Proof.
  intros Hk. pose proof (zlen_nonneg post). split.
  - cbn [write_loop]. unfold bind, gets, write. cbn [tx sent rx send_buffer].
    rewrite (proj2 (Z.ltb_ge _ _)) by (rewrite zlen_app; lia).
    rewrite Z.min_l by lia. assert (Hg : (k >? 0) = true) by lia. rewrite !Hg.
    assert (Hg' : (zlen (frame src) - k >? 0) = true) by lia. rewrite Hg'.
    cbn [tx sent rx send_buffer].
    rewrite (proj2 (Z.ltb_ge _ _)) by (rewrite zlen_app; lia).
    rewrite Z.min_id, !Hg', Z.sub_diag. cbn [Z.gtb Z.compare]. unfold ret. f_equal. f_equal.
    rewrite <- app_assoc. f_equal. cbn [app].
    rewrite (take_app_le _ _ (Z.to_nat (zlen (frame src) - k))) by len_lia.
    assert (Ht : take (Z.to_nat (zlen (frame src))) (frame src ++ post) = frame src).
    { unfold zlen. by rewrite Nat2Z.id, take_app_length. }
    by rewrite Ht.
  - intros E0.
    assert (E : (take (Z.to_nat k) (frame src) ++ take (Z.to_nat (zlen (frame src) - k)) (frame src))
                  !! Z.to_nat k = frame src !! Z.to_nat k) by by rewrite E0.
    clear E0.
    rewrite lookup_app_r in E by (rewrite length_take; len_lia).
    replace (Z.to_nat k - length (take (Z.to_nat k) (frame src)))%nat with 0%nat in E
      by (rewrite length_take; len_lia).
    rewrite lookup_take_lt in E by lia. change (frame src !! 0%nat) with (Some 0x7E) in E.
    symmetry in E. unfold frame in E, Hk.
    replace (Z.to_nat k) with (S (Z.to_nat k - 1)) in E by lia.
    change ((0x7E :: esc src ++ [0x7E]) !! S (Z.to_nat k - 1))
      with ((esc src ++ [0x7E]) !! (Z.to_nat k - 1)%nat) in E.
    rewrite lookup_app_l in E by len_lia.
    apply (esc_no_flag src). by eapply list_elem_of_lookup_2.
Qed.

Lemma write_loop_partial_witness :
  take 2 (frame [1; 2; 3]) ++ take 3 (frame [1; 2; 3]) <> frame [1; 2; 3].
Proof.
  destruct (write_loop_partial [1; 2; 3] [] 2 0 [] [] []) as [_ H]; [vm_compute; split; reflexivity|exact H].
Defined.
