(* ===== verification/JpegTables.v ===== *)
(** * Tables of the JPEG codec

    src/common/libs/libcamera/jpeg_fw_8825/src/jpegcodec_table.c: the default
    quantization tables and their fixed-point reciprocals, the default Huffman
    tables, the zigzag order, and the register values derived from them, as
    the source lists them; and how these tables depend on each other. *)
From stdpp Require Import base list.
From Stdlib Require Import ZArith Lia.
From S2P Require Import Prelude.

(** ** Definitions *)

Definition NUM_HUFF_TBLS : Z := 4.
Definition MAX_BITS_SIZE : Z := 16.
Definition AC_SYMBOL_NUM : Z := 256.
Definition DC_SYMBOL_NUM : Z := 12.
Definition JPEG_FW_LUM_ID : Z := 0.
Definition JPEG_FW_CHR_ID : Z := 1.

(** One table per quality, from 70 to 95. *)
Definition jpeg_fw_lum_quant_tbl_default : list (list Z) :=
  [
   [
    10; 7; 6; 10; 14; 24; 31; 37; 7; 7; 8; 11; 16; 35; 36; 33;
    8; 8; 10; 14; 24; 34; 41; 34; 8; 10; 13; 17; 31; 52; 48; 37;
    11; 13; 22; 34; 41; 65; 62; 46; 14; 21; 33; 38; 49; 62; 68; 55;
    29; 38; 47; 52; 62; 73; 72; 61; 43; 55; 57; 59; 67; 60; 62; 59
   ];
   [
    6; 4; 4; 6; 10; 16; 20; 24; 5; 5; 6; 8; 10; 23; 24; 22;
    6; 5; 6; 10; 16; 23; 28; 22; 6; 7; 9; 12; 20; 35; 32; 25;
    7; 9; 15; 22; 27; 44; 41; 31; 10; 14; 22; 26; 32; 42; 45; 37;
    20; 26; 31; 35; 41; 48; 48; 40; 29; 37; 38; 39; 45; 40; 41; 40
   ];
   [
    5; 3; 3; 5; 7; 12; 15; 18; 4; 4; 4; 6; 8; 17; 18; 17;
    4; 4; 5; 7; 12; 17; 18; 17; 4; 5; 7; 9; 15; 26; 24; 19;
    5; 7; 11; 17; 20; 33; 31; 23; 7; 11; 17; 19; 24; 31; 34; 28;
    15; 19; 23; 26; 31; 36; 36; 30; 22; 28; 29; 29; 34; 30; 31; 30
   ];
   [
    3; 2; 2; 3; 5; 8; 10; 12; 2; 2; 3; 4; 5; 12; 12; 11;
    3; 3; 3; 5; 8; 11; 14; 11; 3; 3; 4; 6; 10; 17; 16; 12;
    4; 4; 7; 11; 14; 22; 21; 15; 5; 7; 11; 13; 16; 21; 23; 18;
    10; 13; 16; 17; 21; 24; 24; 20; 14; 18; 19; 20; 22; 20; 21; 20
   ];
   [
    2; 1; 1; 2; 2; 4; 5; 6; 1; 1; 1; 2; 3; 6; 6; 6;
    1; 1; 2; 2; 4; 6; 7; 6; 1; 2; 2; 3; 5; 9; 8; 6;
    2; 2; 4; 6; 7; 11; 10; 8; 2; 4; 6; 6; 8; 10; 11; 9;
    5; 6; 8; 9; 10; 12; 12; 10; 7; 9; 10; 10; 11; 10; 10; 10
   ]
  ].

Definition jpeg_fw_chr_quant_tbl_default : list (list Z) :=
  [
   [
    10; 7; 6; 10; 14; 24; 31; 37; 7; 7; 8; 11; 16; 35; 36; 33;
    8; 8; 10; 14; 24; 34; 41; 34; 8; 10; 13; 17; 31; 52; 48; 37;
    11; 13; 22; 34; 41; 65; 62; 46; 14; 21; 33; 38; 49; 62; 68; 55;
    29; 38; 47; 52; 62; 73; 72; 61; 43; 55; 57; 59; 67; 60; 62; 59
   ];
   [
    6; 4; 4; 6; 10; 16; 20; 24; 5; 5; 6; 8; 10; 23; 24; 22;
    6; 5; 6; 10; 16; 23; 28; 22; 6; 7; 9; 12; 20; 35; 32; 25;
    7; 9; 15; 22; 27; 44; 41; 31; 10; 14; 22; 26; 32; 42; 45; 37;
    20; 26; 31; 35; 41; 48; 48; 40; 29; 37; 38; 39; 45; 40; 41; 40
   ];
   [
    5; 3; 3; 5; 7; 12; 15; 18; 4; 4; 4; 6; 8; 17; 18; 17;
    4; 4; 5; 7; 12; 17; 18; 17; 4; 5; 7; 9; 15; 26; 24; 19;
    5; 7; 11; 17; 20; 33; 31; 23; 7; 11; 17; 19; 24; 31; 34; 28;
    15; 19; 23; 26; 31; 36; 36; 30; 22; 28; 29; 29; 34; 30; 31; 30
   ];
   [
    3; 2; 2; 3; 5; 8; 10; 12; 2; 2; 3; 4; 5; 12; 12; 11;
    3; 3; 3; 5; 8; 11; 14; 11; 3; 3; 4; 6; 10; 17; 16; 12;
    4; 4; 7; 11; 14; 22; 21; 15; 5; 7; 11; 13; 16; 21; 23; 18;
    10; 13; 16; 17; 21; 24; 24; 20; 14; 18; 19; 20; 22; 20; 21; 20
   ];
   [
    2; 1; 1; 2; 2; 4; 5; 6; 1; 1; 1; 2; 3; 6; 6; 6;
    1; 1; 2; 2; 4; 6; 7; 6; 1; 2; 2; 3; 5; 9; 8; 6;
    2; 2; 4; 6; 7; 11; 10; 8; 2; 4; 6; 6; 8; 10; 11; 9;
    5; 6; 8; 9; 10; 12; 12; 10; 7; 9; 10; 10; 11; 10; 10; 10
   ]
  ].

Definition jpeg_fw_lum_dc_bits_default : list Z :=
  [
    0; 0; 1; 5; 1; 1; 1; 1; 1; 1; 0; 0; 0; 0; 0; 0;
    0
  ].

Definition jpeg_fw_lum_dc_huffvalue_default : list Z :=
  [
    0; 1; 2; 3; 4; 5; 6; 7; 8; 9; 10; 11
  ].

Definition jpeg_fw_lum_ac_bits_default : list Z :=
  [
    0; 0; 2; 1; 3; 3; 2; 4; 3; 5; 5; 4; 4; 0; 0; 1;
    125
  ].

Definition jpeg_fw_lum_ac_huffvalue_default : list Z :=
  [
    0x1; 0x2; 0x3; 0x0; 0x4; 0x11; 0x5; 0x12; 0x21; 0x31; 0x41; 0x6;
    0x13; 0x51; 0x61; 0x7; 0x22; 0x71; 0x14; 0x32; 0x81; 0x91; 0xa1; 0x8;
    0x23; 0x42; 0xb1; 0xc1; 0x15; 0x52; 0xd1; 0xf0; 0x24; 0x33; 0x62; 0x72;
    0x82; 0x9; 0xa; 0x16; 0x17; 0x18; 0x19; 0x1a; 0x25; 0x26; 0x27; 0x28;
    0x29; 0x2a; 0x34; 0x35; 0x36; 0x37; 0x38; 0x39; 0x3a; 0x43; 0x44; 0x45;
    0x46; 0x47; 0x48; 0x49; 0x4a; 0x53; 0x54; 0x55; 0x56; 0x57; 0x58; 0x59;
    0x5a; 0x63; 0x64; 0x65; 0x66; 0x67; 0x68; 0x69; 0x6a; 0x73; 0x74; 0x75;
    0x76; 0x77; 0x78; 0x79; 0x7a; 0x83; 0x84; 0x85; 0x86; 0x87; 0x88; 0x89;
    0x8a; 0x92; 0x93; 0x94; 0x95; 0x96; 0x97; 0x98; 0x99; 0x9a; 0xa2; 0xa3;
    0xa4; 0xa5; 0xa6; 0xa7; 0xa8; 0xa9; 0xaa; 0xb2; 0xb3; 0xb4; 0xb5; 0xb6;
    0xb7; 0xb8; 0xb9; 0xba; 0xc2; 0xc3; 0xc4; 0xc5; 0xc6; 0xc7; 0xc8; 0xc9;
    0xca; 0xd2; 0xd3; 0xd4; 0xd5; 0xd6; 0xd7; 0xd8; 0xd9; 0xda; 0xe1; 0xe2;
    0xe3; 0xe4; 0xe5; 0xe6; 0xe7; 0xe8; 0xe9; 0xea; 0xf1; 0xf2; 0xf3; 0xf4;
    0xf5; 0xf6; 0xf7; 0xf8; 0xf9; 0xfa; 0x0; 0x0; 0x0; 0x0; 0x0; 0x0;
    0x0; 0x0; 0x0; 0x0; 0x0; 0x0; 0x0; 0x0; 0x0; 0x0; 0x0; 0x0;
    0x0; 0x0; 0x0; 0x0; 0x0; 0x0; 0x0; 0x0; 0x0; 0x0; 0x0; 0x0;
    0x0; 0x0; 0x0; 0x0; 0x0; 0x0; 0x0; 0x0; 0x0; 0x0; 0x0; 0x0;
    0x0; 0x0; 0x0; 0x0; 0x0; 0x0; 0x0; 0x0; 0x0; 0x0; 0x0; 0x0;
    0x0; 0x0; 0x0; 0x0; 0x0; 0x0; 0x0; 0x0; 0x0; 0x0; 0x0; 0x0;
    0x0; 0x0; 0x0; 0x0; 0x0; 0x0; 0x0; 0x0; 0x0; 0x0; 0x0; 0x0;
    0x0; 0x0; 0x0; 0x0; 0x0; 0x0; 0x0; 0x0; 0x0; 0x0; 0x0; 0x0;
    0x0; 0x0; 0x0; 0x0
  ].

Definition jpeg_fw_chr_dc_bits_default : list Z :=
  [
    0; 0; 3; 1; 1; 1; 1; 1; 1; 1; 1; 1; 0; 0; 0; 0;
    0
  ].

Definition jpeg_fw_chr_dc_huffvalue_default : list Z :=
  [
    0; 1; 2; 3; 4; 5; 6; 7; 8; 9; 10; 11
  ].

Definition jpeg_fw_chr_ac_bits_default : list Z :=
  [
    0; 0; 2; 1; 2; 4; 4; 3; 4; 7; 5; 4; 4; 0; 1; 2;
    119
  ].

Definition jpeg_fw_chr_ac_huffvalue_default : list Z :=
  [
    0x0; 0x1; 0x2; 0x3; 0x11; 0x4; 0x5; 0x21; 0x31; 0x6; 0x12; 0x41;
    0x51; 0x7; 0x61; 0x71; 0x13; 0x22; 0x32; 0x81; 0x8; 0x14; 0x42; 0x91;
    0xa1; 0xb1; 0xc1; 0x9; 0x23; 0x33; 0x52; 0xf0; 0x15; 0x62; 0x72; 0xd1;
    0xa; 0x16; 0x24; 0x34; 0xe1; 0x25; 0xf1; 0x17; 0x18; 0x19; 0x1a; 0x26;
    0x27; 0x28; 0x29; 0x2a; 0x35; 0x36; 0x37; 0x38; 0x39; 0x3a; 0x43; 0x44;
    0x45; 0x46; 0x47; 0x48; 0x49; 0x4a; 0x53; 0x54; 0x55; 0x56; 0x57; 0x58;
    0x59; 0x5a; 0x63; 0x64; 0x65; 0x66; 0x67; 0x68; 0x69; 0x6a; 0x73; 0x74;
    0x75; 0x76; 0x77; 0x78; 0x79; 0x7a; 0x82; 0x83; 0x84; 0x85; 0x86; 0x87;
    0x88; 0x89; 0x8a; 0x92; 0x93; 0x94; 0x95; 0x96; 0x97; 0x98; 0x99; 0x9a;
    0xa2; 0xa3; 0xa4; 0xa5; 0xa6; 0xa7; 0xa8; 0xa9; 0xaa; 0xb2; 0xb3; 0xb4;
    0xb5; 0xb6; 0xb7; 0xb8; 0xb9; 0xba; 0xc2; 0xc3; 0xc4; 0xc5; 0xc6; 0xc7;
    0xc8; 0xc9; 0xca; 0xd2; 0xd3; 0xd4; 0xd5; 0xd6; 0xd7; 0xd8; 0xd9; 0xda;
    0xe2; 0xe3; 0xe4; 0xe5; 0xe6; 0xe7; 0xe8; 0xe9; 0xea; 0xf2; 0xf3; 0xf4;
    0xf5; 0xf6; 0xf7; 0xf8; 0xf9; 0xfa; 0x0; 0x0; 0x0; 0x0; 0x0; 0x0;
    0x0; 0x0; 0x0; 0x0; 0x0; 0x0; 0x0; 0x0; 0x0; 0x0; 0x0; 0x0;
    0x0; 0x0; 0x0; 0x0; 0x0; 0x0; 0x0; 0x0; 0x0; 0x0; 0x0; 0x0;
    0x0; 0x0; 0x0; 0x0; 0x0; 0x0; 0x0; 0x0; 0x0; 0x0; 0x0; 0x0;
    0x0; 0x0; 0x0; 0x0; 0x0; 0x0; 0x0; 0x0; 0x0; 0x0; 0x0; 0x0;
    0x0; 0x0; 0x0; 0x0; 0x0; 0x0; 0x0; 0x0; 0x0; 0x0; 0x0; 0x0;
    0x0; 0x0; 0x0; 0x0; 0x0; 0x0; 0x0; 0x0; 0x0; 0x0; 0x0; 0x0;
    0x0; 0x0; 0x0; 0x0; 0x0; 0x0; 0x0; 0x0; 0x0; 0x0; 0x0; 0x0;
    0x0; 0x0; 0x0; 0x0
  ].

Definition jpeg_fw_zigzag_order : list Z :=
  [
    0; 1; 8; 16; 9; 2; 3; 10; 17; 24; 32; 25; 18; 11; 4; 5;
    12; 19; 26; 33; 40; 48; 41; 34; 27; 20; 13; 6; 7; 14; 21; 28;
    35; 42; 49; 56; 57; 50; 43; 36; 29; 22; 15; 23; 30; 37; 44; 51;
    58; 59; 52; 45; 38; 31; 39; 46; 53; 60; 61; 54; 47; 55; 62; 63;
    63; 63; 63; 63; 63; 63; 63; 63; 63; 63; 63; 63; 63; 63; 63; 63
  ].

Definition jpeg_fw_hufftab_dcLuma : list Z :=
  [
    0x2; 0x20003; 0x30003; 0x40003; 0x50003; 0x60003; 0xe0004; 0x1e0005; 0x3e0006; 0x7e0007; 0xfe0008; 0x1fe0009
  ].

Definition jpeg_fw_hufftab_dcChroam : list Z :=
  [
    0x2; 0x10002; 0x20002; 0x60003; 0xe0004; 0x1e0005; 0x3e0006; 0x7e0007; 0xfe0008; 0x1fe0009; 0x3fe000a; 0x7fe000b
  ].

(** Multipliers and shifts that replace the division by a quantizer. *)
Definition jpeg_fw_new_lum_quant_tbl_default : list (list Z) :=
  [
   [
    3277; 2341; 2731; 3277; 2341; 2731; 2114; 3542; 2341; 2341; 2048; 2979; 2048; 3745; 3641; 3972;
    2048; 2048; 3277; 2341; 2731; 3855; 3197; 3855; 2048; 3277; 2521; 3855; 2114; 2521; 2731; 3542;
    2979; 2521; 2979; 3855; 3197; 4033; 2114; 2849; 2341; 3121; 3972; 3449; 2675; 2114; 3855; 2383;
    2260; 3449; 2789; 2521; 2114; 3591; 3641; 2149; 3048; 2383; 2300; 2222; 3913; 2185; 2114; 2222
   ];
   [
    2731; 2048; 2048; 2731; 3277; 2048; 3277; 2731; 3277; 3277; 2731; 2048; 3277; 2849; 2731; 2979;
    2731; 3277; 2731; 3277; 2048; 2849; 2341; 2979; 2731; 2341; 3641; 2731; 3277; 3745; 2048; 2621;
    2341; 3641; 2185; 2979; 2427; 2979; 3197; 2114; 3277; 2341; 2979; 2521; 2048; 1560; 2913; 3542;
    3277; 2521; 2114; 3745; 3197; 2731; 2731; 3277; 2260; 3542; 3449; 1680; 2913; 3277; 3197; 3277
   ];
   [
    3277; 2731; 2731; 3277; 2341; 2731; 2185; 3641; 2048; 2048; 2048; 2731; 2048; 3855; 3641; 3855;
    2048; 2048; 3277; 2341; 2731; 3855; 3641; 3855; 2048; 3277; 2341; 3641; 2185; 2521; 2731; 3449;
    3277; 2341; 2979; 3855; 3277; 3972; 2114; 2849; 2341; 2979; 3855; 3449; 2731; 2114; 3855; 2341;
    2185; 3449; 2849; 2521; 2114; 3641; 3641; 2185; 2979; 2341; 2260; 2260; 3855; 2185; 2114; 2185
   ];
   [
    2731; 2048; 2048; 2731; 3277; 2048; 3277; 2731; 2048; 2048; 2731; 2048; 3277; 2731; 2731; 2979;
    2731; 2731; 2731; 3277; 2048; 2979; 2341; 2979; 2731; 2731; 2048; 2731; 3277; 3855; 2048; 2731;
    2048; 2048; 2341; 2979; 2341; 2979; 3121; 2185; 3277; 2341; 2979; 2521; 2048; 3121; 2849; 3641;
    3277; 2521; 2048; 3855; 3121; 2731; 2731; 3277; 2341; 3641; 3449; 3277; 2979; 3277; 3121; 3277
   ];
   [
    2048; 2048; 2048; 2048; 2048; 2048; 3277; 2731; 2048; 2048; 2048; 2048; 2731; 2731; 2731; 2731;
    2048; 2048; 2048; 2048; 2048; 2731; 2341; 2731; 2048; 2048; 2048; 2731; 3277; 3641; 2048; 2731;
    2048; 2048; 2048; 2731; 2341; 2979; 3277; 2048; 2048; 2048; 2731; 2731; 2048; 3277; 2979; 3641;
    3277; 2731; 2048; 3641; 3277; 2731; 2731; 3277; 2341; 3641; 3277; 3277; 2979; 3277; 3277; 3277
   ]
  ].

Definition jpeg_fw_new_lum_quant_tbl_default_shift : list (list Z) :=
  [
   [
    15; 14; 14; 15; 15; 16; 16; 17; 14; 14; 14; 15; 15; 17; 17; 17;
    14; 14; 15; 15; 16; 17; 17; 17; 14; 15; 15; 16; 16; 17; 17; 17;
    15; 15; 16; 17; 17; 18; 17; 17; 15; 16; 17; 17; 17; 17; 18; 17;
    16; 17; 17; 17; 17; 18; 18; 17; 17; 17; 17; 17; 18; 17; 17; 17
   ];
   [
    14; 13; 13; 14; 15; 15; 16; 16; 14; 14; 14; 14; 15; 16; 16; 16;
    14; 14; 14; 15; 15; 16; 16; 16; 14; 14; 15; 15; 16; 17; 16; 16;
    14; 15; 15; 16; 16; 17; 17; 16; 15; 15; 16; 16; 16; 16; 17; 17;
    16; 16; 16; 17; 17; 17; 17; 17; 16; 17; 17; 16; 17; 17; 17; 17
   ];
   [
    14; 13; 13; 14; 14; 15; 15; 16; 13; 13; 13; 14; 14; 16; 16; 16;
    13; 13; 14; 14; 15; 16; 16; 16; 13; 14; 14; 15; 15; 16; 16; 16;
    14; 14; 15; 16; 16; 17; 16; 16; 14; 15; 16; 16; 16; 16; 17; 16;
    15; 16; 16; 16; 16; 17; 17; 16; 16; 16; 16; 16; 17; 16; 16; 16
   ];
   [
    13; 12; 12; 13; 14; 14; 15; 15; 12; 12; 13; 13; 14; 15; 15; 15;
    13; 13; 13; 14; 14; 15; 15; 15; 13; 13; 13; 14; 15; 16; 15; 15;
    13; 13; 14; 15; 15; 16; 16; 15; 14; 14; 15; 15; 15; 16; 16; 16;
    15; 15; 15; 16; 16; 16; 16; 16; 15; 16; 16; 16; 16; 16; 16; 16
   ];
   [
    12; 11; 11; 12; 12; 13; 14; 14; 11; 11; 11; 12; 13; 14; 14; 14;
    11; 11; 12; 12; 13; 14; 14; 14; 11; 12; 12; 13; 14; 15; 14; 14;
    12; 12; 13; 14; 14; 15; 15; 14; 12; 13; 14; 14; 14; 15; 15; 15;
    14; 14; 14; 15; 15; 15; 15; 15; 14; 15; 15; 15; 15; 15; 15; 15
   ]
  ].

Definition jpeg_fw_new_chr_quant_tbl_default : list (list Z) :=
  [
   [
    3277; 2341; 2731; 3277; 2341; 2731; 2114; 3542; 2341; 2341; 2048; 2979; 2048; 3745; 3641; 3972;
    2048; 2048; 3277; 2341; 2731; 3855; 3197; 3855; 2048; 3277; 2521; 3855; 2114; 2521; 2731; 3542;
    2979; 2521; 2979; 3855; 3197; 4033; 2114; 2849; 2341; 3121; 3972; 3449; 2675; 2114; 3855; 2383;
    2260; 3449; 2789; 2521; 2114; 3591; 3641; 2149; 3048; 2383; 2300; 2222; 3913; 2185; 2114; 2222
   ];
   [
    2731; 2048; 2048; 2731; 3277; 2048; 3277; 2731; 3277; 3277; 2731; 2048; 3277; 2849; 2731; 2979;
    2731; 3277; 2731; 3277; 2048; 2849; 2341; 2979; 2731; 2341; 3641; 2731; 3277; 3745; 2048; 2621;
    2341; 3641; 2185; 2979; 2427; 2979; 3197; 2114; 3277; 2341; 2979; 2521; 2048; 1560; 2913; 3542;
    3277; 2521; 2114; 3745; 3197; 2731; 2731; 3277; 2260; 3542; 3449; 1680; 2913; 3277; 3197; 3277
   ];
   [
    3277; 2731; 2731; 3277; 2341; 2731; 2185; 3641; 2048; 2048; 2048; 2731; 2048; 3855; 3641; 3855;
    2048; 2048; 3277; 2341; 2731; 3855; 3641; 3855; 2048; 3277; 2341; 3641; 2185; 2521; 2731; 3449;
    3277; 2341; 2979; 3855; 3277; 3972; 2114; 2849; 2341; 2979; 3855; 3449; 2731; 2114; 3855; 2341;
    2185; 3449; 2849; 2521; 2114; 3641; 3641; 2185; 2979; 2341; 2260; 2260; 3855; 2185; 2114; 2185
   ];
   [
    2731; 2048; 2048; 2731; 3277; 2048; 3277; 2731; 2048; 2048; 2731; 2048; 3277; 2731; 2731; 2979;
    2731; 2731; 2731; 3277; 2048; 2979; 2341; 2979; 2731; 2731; 2048; 2731; 3277; 3855; 2048; 2731;
    2048; 2048; 2341; 2979; 2341; 2979; 3121; 2185; 3277; 2341; 2979; 2521; 2048; 3121; 2849; 3641;
    3277; 2521; 2048; 3855; 3121; 2731; 2731; 3277; 2341; 3641; 3449; 3277; 2979; 3277; 3121; 3277
   ];
   [
    2048; 2048; 2048; 2048; 2048; 2048; 3277; 2731; 2048; 2048; 2048; 2048; 2731; 2731; 2731; 2731;
    2048; 2048; 2048; 2048; 2048; 2731; 2341; 2731; 2048; 2048; 2048; 2731; 3277; 3641; 2048; 2731;
    2048; 2048; 2048; 2731; 2341; 2979; 3277; 2048; 2048; 2048; 2731; 2731; 2048; 3277; 2979; 3641;
    3277; 2731; 2048; 3641; 3277; 2731; 2731; 3277; 2341; 3641; 3277; 3277; 2979; 3277; 3277; 3277
   ]
  ].

Definition jpeg_fw_new_chr_quant_tbl_default_shift : list (list Z) :=
  [
   [
    15; 14; 14; 15; 15; 16; 16; 17; 14; 14; 14; 15; 15; 17; 17; 17;
    14; 14; 15; 15; 16; 17; 17; 17; 14; 15; 15; 16; 16; 17; 17; 17;
    15; 15; 16; 17; 17; 18; 17; 17; 15; 16; 17; 17; 17; 17; 18; 17;
    16; 17; 17; 17; 17; 18; 18; 17; 17; 17; 17; 17; 18; 17; 17; 17
   ];
   [
    14; 13; 13; 14; 15; 15; 16; 16; 14; 14; 14; 14; 15; 16; 16; 16;
    14; 14; 14; 15; 15; 16; 16; 16; 14; 14; 15; 15; 16; 17; 16; 16;
    14; 15; 15; 16; 16; 17; 17; 16; 15; 15; 16; 16; 16; 16; 17; 17;
    16; 16; 16; 17; 17; 17; 17; 17; 16; 17; 17; 16; 17; 17; 17; 17
   ];
   [
    14; 13; 13; 14; 14; 15; 15; 16; 13; 13; 13; 14; 14; 16; 16; 16;
    13; 13; 14; 14; 15; 16; 16; 16; 13; 14; 14; 15; 15; 16; 16; 16;
    14; 14; 15; 16; 16; 17; 16; 16; 14; 15; 16; 16; 16; 16; 17; 16;
    15; 16; 16; 16; 16; 17; 17; 16; 16; 16; 16; 16; 17; 16; 16; 16
   ];
   [
    13; 12; 12; 13; 14; 14; 15; 15; 12; 12; 13; 13; 14; 15; 15; 15;
    13; 13; 13; 14; 14; 15; 15; 15; 13; 13; 13; 14; 15; 16; 15; 15;
    13; 13; 14; 15; 15; 16; 16; 15; 14; 14; 15; 15; 15; 16; 16; 16;
    15; 15; 15; 16; 16; 16; 16; 16; 15; 16; 16; 16; 16; 16; 16; 16
   ];
   [
    12; 11; 11; 12; 12; 13; 14; 14; 11; 11; 11; 12; 13; 14; 14; 14;
    11; 11; 12; 12; 13; 14; 14; 14; 11; 12; 12; 13; 14; 15; 14; 14;
    12; 12; 13; 14; 14; 15; 15; 14; 12; 13; 14; 14; 14; 15; 15; 15;
    14; 14; 14; 15; 15; 15; 15; 15; 14; 15; 15; 15; 15; 15; 15; 15
   ]
  ].

Definition jpeg_fw_ASIC_DCT_Matrix : list Z :=
  [
    0; 32; 16; 48; 8; 40; 24; 56; 4; 36; 20; 52; 12; 44; 28; 60;
    2; 34; 18; 50; 10; 42; 26; 58; 6; 38; 22; 54; 14; 46; 30; 62;
    1; 33; 17; 49; 9; 41; 25; 57; 5; 37; 21; 53; 13; 45; 29; 61;
    3; 35; 19; 51; 11; 43; 27; 59; 7; 39; 23; 55; 15; 47; 31; 63
  ].

Definition jpeg_fw_vld_default_max_code : list Z :=
  [
    0x7f807fe0; 0x7ff37ff7; 0x0; 0x0; 0x6; 0xe; 0x1e; 0x3e;
    0x7e; 0xfe; 0x1fe; 0x3fe; 0x7fc; 0xff8; 0x1ff0; 0x3fe0;
    0x7fc0; 0xff80; 0x0; 0x2; 0x6; 0xe; 0x1e; 0x3e;
    0x7e; 0xfe; 0x1fe; 0x3fe; 0x7fe; 0xffe; 0x1ffc; 0x3ff8;
    0x7ff0; 0xffe0; 0x0; 0x100; 0x402; 0xc03; 0x1c06; 0x3b09;
    0x7b0b; 0xfa0f; 0x1fa12; 0x3fa17; 0x7f91c; 0xff720; 0x1ff000; 0x3fe000;
    0x7fc024; 0xfffe25; 0x0; 0x100; 0x402; 0xb03; 0x1b05; 0x3b09;
    0x7a0d; 0xf910; 0x1fa14; 0x3fa1b; 0x7f920; 0xff724; 0x1ff000; 0x3fe028;
    0x7fc329; 0xfffe2b
  ].

Definition jpeg_fw_vld_default_huffTab : list Z :=
  [
    0x1; 0x102; 0x203; 0x1000300; 0x2001104; 0x411; 0x3010505; 0x22112; 0x33121; 0x40631;
    0x51241; 0x4106; 0x5113; 0x751; 0x4066161; 0x7107; 0x1322; 0x2271; 0x3214; 0x8132;
    0x881; 0x1491; 0x42a1; 0x9108; 0xa123; 0xb142; 0x507c1b1; 0x9c1; 0x2315; 0x3352;
    0x52d1; 0xf0f0; 0x1524; 0x6233; 0x7262; 0xd172; 0xa82; 0x1609; 0x608240a; 0x3416;
    0xe117; 0x2518; 0xf119; 0x171a; 0x1825; 0x1926; 0x1a27; 0x2628; 0x2729; 0x282a;
    0x7092934; 0x2a35; 0x3536; 0x3637; 0x3738; 0x3839; 0x393a; 0x3a43; 0x4344; 0x4445;
    0x4546; 0x4647; 0x80a4748; 0x4849; 0x494a; 0x4a53; 0x5354; 0x5455; 0x5556; 0x5657;
    0x5758; 0x5859; 0x595a; 0x5a63; 0x90b6364; 0x6465; 0x6566; 0x6667; 0x6768; 0x6869;
    0x696a; 0x6a73; 0x7374; 0x7475; 0x7576; 0x7677; 0xa007778; 0x7879; 0x797a; 0x7a83;
    0x8284; 0x8385; 0x8486; 0x8587; 0x8688; 0x8789; 0x888a; 0x8992; 0xb008a93; 0x9294;
    0x9395; 0x9496; 0x9597; 0x9698; 0x9799; 0x989a; 0x99a2; 0x9aa3; 0xa2a4; 0xa3a5;
    0xa4a6; 0xa5a7; 0xa6a8; 0xa7a9; 0xa8aa; 0xa9b2; 0xaab3; 0xb2b4; 0xb3b5; 0xb4b6;
    0xb5b7; 0xb6b8; 0xb7b9; 0xb8ba; 0xb9c2; 0xbac3; 0xc2c4; 0xc3c5; 0xc4c6; 0xc5c7;
    0xc6c8; 0xc7c9; 0xc8ca; 0xc9d2; 0xcad3; 0xd2d4; 0xd3d5; 0xd4d6; 0xd5d7; 0xd6d8;
    0xd7d9; 0xd8da; 0xd9e1; 0xdae2; 0xe2e3; 0xe3e4; 0xe4e5; 0xe5e6; 0xe6e7; 0xe7e8;
    0xe8e9; 0xe9ea; 0xeaf1; 0xf2f2; 0xf3f3; 0xf4f4; 0xf5f5; 0xf6f6; 0xf7f7; 0xf8f8;
    0xf9f9; 0xfafa
  ].

Definition g_huffTab_init : list Z :=
  [
    0x1; 0x102; 0x203; 0x1000300; 0x2001104; 0x411; 0x3010505; 0x22112; 0x33121; 0x40631;
    0x51241; 0x4106; 0x5113; 0x751; 0x4066161; 0x7107; 0x1322; 0x2271; 0x3214; 0x8132;
    0x881; 0x1491; 0x42a1; 0x9108; 0xa123; 0xb142; 0x507c1b1; 0x9c1; 0x2315; 0x3352;
    0x52d1; 0xf0f0; 0x1524; 0x6233; 0x7262; 0xd172; 0xa82; 0x1609; 0x608240a; 0x3416;
    0xe117; 0x2518; 0xf119; 0x171a; 0x1825; 0x1926; 0x1a27; 0x2628; 0x2729; 0x282a;
    0x7092934; 0x2a35; 0x3536; 0x3637; 0x3738; 0x3839; 0x393a; 0x3a43; 0x4344; 0x4445;
    0x4546; 0x4647; 0x80a4748; 0x4849; 0x494a; 0x4a53; 0x5354; 0x5455; 0x5556; 0x5657;
    0x5758; 0x5859; 0x595a; 0x5a63; 0x90b6364; 0x6465; 0x6566; 0x6667; 0x6768; 0x6869;
    0x696a; 0x6a73; 0x7374; 0x7475; 0x7576; 0x7677; 0xa007778; 0x7879; 0x797a; 0x7a83;
    0x8284; 0x8385; 0x8486; 0x8587; 0x8688; 0x8789; 0x888a; 0x8992; 0xb008a93; 0x9294;
    0x9395; 0x9496; 0x9597; 0x9698; 0x9799; 0x989a; 0x99a2; 0x9aa3; 0xa2a4; 0xa3a5;
    0xa4a6; 0xa5a7; 0xa6a8; 0xa7a9; 0xa8aa; 0xa9b2; 0xaab3; 0xb2b4; 0xb3b5; 0xb4b6;
    0xb5b7; 0xb6b8; 0xb7b9; 0xb8ba; 0xb9c2; 0xbac3; 0xc2c4; 0xc3c5; 0xc4c6; 0xc5c7;
    0xc6c8; 0xc7c9; 0xc8ca; 0xc9d2; 0xcad3; 0xd2d4; 0xd3d5; 0xd4d6; 0xd5d7; 0xd6d8;
    0xd7d9; 0xd8da; 0xd9e1; 0xdae2; 0xe2e3; 0xe3e4; 0xe4e5; 0xe5e6; 0xe6e7; 0xe7e8;
    0xe8e9; 0xe9ea; 0xeaf1; 0xf2f2; 0xf3f3; 0xf4f4; 0xf5f5; 0xf6f6; 0xf7f7; 0xf8f8;
    0xf9f9; 0xfafa
  ].

Definition g_huff_tab_enc : list Z :=
  [
    0x40000000; 0x80004000; 0xa0008000; 0xc000b000; 0xc800d000; 0xe000f000;
    0xf000f800; 0xfa00fd80; 0xfd80ff82; 0xff40ff83; 0xb000c000; 0xe400d800;
    0xf600f200; 0xfa80fb00; 0xfec0fec0; 0xff50ff84; 0xff88ff85; 0xff89ff86;
    0xff8aff87; 0xff8bff88; 0xd000e000; 0xf700f900; 0xfdc0fdc0; 0xff60ff40;
    0xff84ff89; 0xff8cff8a; 0xff8dff8b; 0xff8eff8c; 0xff8fff8d; 0xff90ff8e;
    0xd800e800; 0xf800fb80; 0xfe00ff50; 0xff70ff8f; 0xff91ff90; 0xff92ff91;
    0xff93ff92; 0xff94ff93; 0xff95ff94; 0xff96ff95; 0xe800ec00; 0xfb00fe00;
    0xff97ff96; 0xff98ff97; 0xff99ff98; 0xff9aff99; 0xff9bff9a; 0xff9cff9b;
    0xff9dff9c; 0xff9eff9d; 0xec00f400; 0xfe40fee0; 0xff9fff9e; 0xffa0ff9f;
    0xffa1ffa0; 0xffa2ffa1; 0xffa3ffa2; 0xffa4ffa3; 0xffa5ffa4; 0xffa6ffa5;
    0xf200f600; 0xfee0ff60; 0xffa7ffa6; 0xffa8ffa7; 0xffa9ffa8; 0xffaaffa9;
    0xffabffaa; 0xffacffab; 0xffadffac; 0xffaeffad; 0xf400fa00; 0xff00ff70;
    0xffafffae; 0xffb0ffaf; 0xffb1ffb0; 0xffb2ffb1; 0xffb3ffb2; 0xffb4ffb3;
    0xffb5ffb4; 0xffb6ffb5; 0xf900fc00; 0xffb7ff80; 0xffb8ffb6; 0xffb9ffb7;
    0xffbaffb8; 0xffbbffb9; 0xffbcffba; 0xffbdffbb; 0xffbeffbc; 0xffbfffbd;
    0xfb80fc80; 0xffc0ffbe; 0xffc1ffbf; 0xffc2ffc0; 0xffc3ffc1; 0xffc4ffc2;
    0xffc5ffc3; 0xffc6ffc4; 0xffc7ffc5; 0xffc8ffc6; 0xfc00fd00; 0xffc9ffc7;
    0xffcaffc8; 0xffcbffc9; 0xffccffca; 0xffcdffcb; 0xffceffcc; 0xffcfffcd;
    0xffd0ffce; 0xffd1ffcf; 0xfc80fe40; 0xffd2ffd0; 0xffd3ffd1; 0xffd4ffd2;
    0xffd5ffd3; 0xffd6ffd4; 0xffd7ffd5; 0xffd8ffd6; 0xffd9ffd7; 0xffdaffd8;
    0xfd00fe80; 0xffdbffd9; 0xffdcffda; 0xffddffdb; 0xffdeffdc; 0xffdfffdd;
    0xffe0ffde; 0xffe1ffdf; 0xffe2ffe0; 0xffe3ffe1; 0xff20ff00; 0xffe4ffe2;
    0xffe5ffe3; 0xffe6ffe4; 0xffe7ffe5; 0xffe8ffe6; 0xffe9ffe7; 0xffeaffe8;
    0xffebffe9; 0xffecffea; 0xff80ffeb; 0xffedffec; 0xffeeffed; 0xffefffee;
    0xfff0ffef; 0xfff1fff0; 0xfff2fff1; 0xfff3fff2; 0xfff4fff3; 0xfff5fff4;
    0xff86fff5; 0xfff6fff6; 0xfff7fff7; 0xfff8fff8; 0xfff9fff9; 0xfffafffa;
    0xfffbfffb; 0xfffcfffc; 0xfffdfffd; 0xfffefffe; 0x0; 0x0
  ].

(** ** Reference definitions *)

(** [n] consecutive codes of length [len] from [code] on, for the first
    symbols of [vals]. *)
Fixpoint number_codes (n : nat) (len code : Z) (vals : list Z) : list (Z * Z * Z) :=
  match n, vals with
  | S n, v :: vals => (v, code, len) :: number_codes n len (code + 1) vals
  | _, _ => []
  end.

(** The canonical Huffman code of a table: [bits] holds the number of codes
    of length [len], [len + 1] and so on, [code] is the first code of length
    [len]. The result lists symbol, code and length. *)
Fixpoint canonical (len code : Z) (bits vals : list Z) : list (Z * Z * Z) :=
  match bits with
  | [] => []
  | n :: bits =>
      number_codes (Z.to_nat n) len code vals
      ++ canonical (len + 1) (2 * (code + n)) bits (drop (Z.to_nat n) vals)
  end.

Definition canonical_table (bits vals : list Z) : list (Z * Z * Z) :=
  canonical 1 0 (drop 1 bits) vals.

(** The code and length of a symbol. *)
Definition code_of (tbl : list (Z * Z * Z)) (sym : Z) : option (Z * Z) :=
  match List.find (fun e => e.1.1 =? sym) tbl with
  | Some (_, code, len) => Some (code, len)
  | None => None
  end.

(** [a] is a prefix of [b] as bit strings. *)
Definition is_prefix (a b : Z * Z) : bool :=
  (a.2 <=? b.2) && (Z.shiftr b.1 (b.2 - a.2) =? a.1).

(** A code left-justified in 16 bits. *)
Definition left16 (c : Z * Z) : Z := Z.shiftl c.1 (16 - c.2).

Definition rounded_reciprocal (q m s : Z) : bool :=
  (m <? 4096) && (2 ^ s <=? q * m + q / 2) && (q * m - q / 2 <=? 2 ^ s).

Definition bitrev6 (i : Z) : Z :=
  Z.shiftl (Z.land i 1) 5 + Z.shiftl (Z.land (Z.shiftr i 1) 1) 4
  + Z.shiftl (Z.land (Z.shiftr i 2) 1) 3 + Z.shiftl (Z.land (Z.shiftr i 3) 1) 2
  + Z.shiftl (Z.land (Z.shiftr i 4) 1) 1 + Z.land (Z.shiftr i 5) 1.

(** ** Finite checks *)

Lemma upto_lookup n i : 0 <= i < Z.of_nat n -> i ∈ upto n.
Proof.
  intros H. unfold upto. apply list_elem_of_fmap. exists (Z.to_nat i). split; [lia|].
  apply elem_of_seq. lia.
Qed.

(** Deciding a property of the indices below [n] by running it. *)
Lemma upto_forallb n (f : Z -> bool) i :
  forallb f (upto n) = true -> 0 <= i < Z.of_nat n -> f i = true.
Proof.
  intros H Hi. apply upto_lookup in Hi. rewrite List.forallb_forall in H. apply H.
  by apply list_elem_of_In.
Qed.

(** ** Zigzag order and DCT order *)

Lemma zigzag_range k : 0 <= k < 64 -> exists z, aget jpeg_fw_zigzag_order k = Some z /\ 0 <= z < 64.
Proof.
  intros Hk.
  pose proof (upto_forallb 64 (fun k => match aget jpeg_fw_zigzag_order k with
    | Some z => (0 <=? z) && (z <? 64) | None => false end) k) as H.
  specialize (H ltac:(vm_compute; done) ltac:(lia)). cbn beta in H.
  destruct (aget jpeg_fw_zigzag_order k) as [z|]; [|done]. exists z. split; [done|]. lia.
Qed.

(** The position of a coefficient in zigzag order. *)
Definition unzigzag (z : Z) : Z :=
  match List.find (fun k => bool_decide (aget jpeg_fw_zigzag_order k = Some z)) (upto 64) with
  | Some k => k
  | None => 64
  end.

Lemma unzigzag_zigzag z :
  0 <= z < 64 -> 0 <= unzigzag z < 64 /\ aget jpeg_fw_zigzag_order (unzigzag z) = Some z.
Proof.
  intros Hz. pose proof (upto_forallb 64 (fun z => (0 <=? unzigzag z) && (unzigzag z <? 64)
    && bool_decide (aget jpeg_fw_zigzag_order (unzigzag z) = Some z)) z) as H.
  specialize (H ltac:(vm_compute; done) ltac:(lia)).
  apply andb_true_iff in H as [H1 H2]. apply bool_decide_eq_true in H2. split; [lia|done].
Qed.

Lemma zigzag_unzigzag k z :
  0 <= k < 64 -> aget jpeg_fw_zigzag_order k = Some z -> unzigzag z = k.
Proof.
  intros Hk Hz. pose proof (upto_forallb 64 (fun k => match aget jpeg_fw_zigzag_order k with
    | Some z => unzigzag z =? k | None => false end) k) as H.
  specialize (H ltac:(vm_compute; done) ltac:(lia)). cbn beta in H. rewrite Hz in H. lia.
Qed.

Lemma dct_matrix_bitrev i :
  0 <= i < 64 -> aget jpeg_fw_ASIC_DCT_Matrix i = Some (bitrev6 i) /\
    0 <= bitrev6 i < 64 /\ bitrev6 (bitrev6 i) = i.
Proof.
  intros Hi. pose proof (upto_forallb 64 (fun i =>
    bool_decide (aget jpeg_fw_ASIC_DCT_Matrix i = Some (bitrev6 i))
    && ((0 <=? bitrev6 i) && (bitrev6 i <? 64) && (bitrev6 (bitrev6 i) =? i))) i) as H.
  specialize (H ltac:(vm_compute; done) ltac:(lia)).
  apply andb_true_iff in H as [H1 H2]. apply bool_decide_eq_true in H1. split; [done|]. lia.
Qed.

(** ** Huffman tables *)

Definition lum_dc := canonical_table jpeg_fw_lum_dc_bits_default jpeg_fw_lum_dc_huffvalue_default.
Definition lum_ac := canonical_table jpeg_fw_lum_ac_bits_default jpeg_fw_lum_ac_huffvalue_default.
Definition chr_dc := canonical_table jpeg_fw_chr_dc_bits_default jpeg_fw_chr_dc_huffvalue_default.
Definition chr_ac := canonical_table jpeg_fw_chr_ac_bits_default jpeg_fw_chr_ac_huffvalue_default.

(** No code of the table is a prefix of another. *)
Definition prefix_free (tbl : list (Z * Z * Z)) : Prop :=
  forall i j a b, tbl !! i = Some a -> tbl !! j = Some b ->
    is_prefix (a.1.2, a.2) (b.1.2, b.2) = true -> i = j.

Definition prefix_freeb (tbl : list (Z * Z * Z)) : bool :=
  forallb (fun i => forallb (fun j => match tbl !! i, tbl !! j with
    | Some a, Some b => negb (is_prefix (a.1.2, a.2) (b.1.2, b.2)) || Nat.eqb i j
    | _, _ => true
    end) (seq 0 (length tbl))) (seq 0 (length tbl)).

Lemma prefix_freeb_spec tbl : prefix_freeb tbl = true -> prefix_free tbl.
Proof.
  unfold prefix_freeb. rewrite List.forallb_forall. intros H i j a b Ha Hb Hp.
  assert (Hi : List.In i (seq 0 (length tbl))).
  { apply list_elem_of_In, elem_of_seq. apply lookup_lt_Some in Ha. lia. }
  assert (Hj : List.In j (seq 0 (length tbl))).
  { apply list_elem_of_In, elem_of_seq. apply lookup_lt_Some in Hb. lia. }
  specialize (H i Hi). rewrite List.forallb_forall in H. specialize (H j Hj).
  rewrite Ha, Hb, Hp in H. by apply Nat.eqb_eq in H.
Qed.

(** The entry of [g_huff_tab_enc] for a run of zeros and a size: both
    left-justified codes, chroma in the upper half. *)
Definition enc_entry (run size : Z) : option Z :=
  c ← code_of chr_ac (16 * run + size);
  l ← code_of lum_ac (16 * run + size);
  Some (Z.lor (Z.shiftl (left16 c) 16) (left16 l)).

Definition dc_entry (tbl : list (Z * Z * Z)) (sym : Z) : option Z :=
  c ← code_of tbl sym; Some (Z.lor (Z.shiftl c.1 16) c.2).

(** the hand-written Huffman tables agree. The default tables define
    prefix codes with the number of codes their lengths announce; the DC
    lookup tables list, for every size, its canonical code and length; the
    encoder's AC table lists, for every run of zeros and size, the chroma and
    the luma code left-justified in its two halves. *)
Theorem default_huffman_tables :
  (prefix_free lum_dc /\ prefix_free lum_ac /\ prefix_free chr_dc /\ prefix_free chr_ac) /\
  (forall sym, 0 <= sym < 12 ->
     aget jpeg_fw_hufftab_dcLuma sym = dc_entry lum_dc sym /\ is_Some (dc_entry lum_dc sym) /\
     aget jpeg_fw_hufftab_dcChroam sym = dc_entry chr_dc sym /\ is_Some (dc_entry chr_dc sym)) /\
  (forall run size, 0 <= run < 16 -> 1 <= size <= 10 ->
     aget g_huff_tab_enc (10 * run + size - 1) = enc_entry run size /\
     is_Some (enc_entry run size)).
Proof.
  split; [|split].
  - repeat split; apply prefix_freeb_spec; vm_compute; reflexivity.
  - intros sym Hs. pose proof (upto_forallb 12 (fun sym =>
      bool_decide (aget jpeg_fw_hufftab_dcLuma sym = dc_entry lum_dc sym)
      && bool_decide (is_Some (dc_entry lum_dc sym))
      && bool_decide (aget jpeg_fw_hufftab_dcChroam sym = dc_entry chr_dc sym)
      && bool_decide (is_Some (dc_entry chr_dc sym))) sym ltac:(vm_compute; done) ltac:(lia)) as H.
    repeat (apply andb_true_iff in H as [H ?%bool_decide_eq_true]).
    by apply bool_decide_eq_true in H.
  - intros run size Hr Hs.
    pose proof (upto_forallb 160 (fun i =>
      bool_decide (aget g_huff_tab_enc i = enc_entry (i / 10) (i mod 10 + 1))
      && bool_decide (is_Some (enc_entry (i / 10) (i mod 10 + 1))))
      (10 * run + size - 1) ltac:(vm_compute; done) ltac:(lia)) as H.
    cbn beta in H.
    replace ((10 * run + size - 1) / 10) with run in H by (Z.div_mod_to_equations; lia).
    replace ((10 * run + size - 1) mod 10 + 1) with size in H by (Z.div_mod_to_equations; lia).
    apply andb_true_iff in H as [H1 H2].
    apply bool_decide_eq_true in H1. apply bool_decide_eq_true in H2. by split.
Qed.

Lemma default_huffman_tables_witness :
  aget g_huff_tab_enc 37 = enc_entry 3 8.
Proof. destruct default_huffman_tables as (_ & _ & H). apply (H 3 8); lia. Defined.

(** ** Quantization *)

Definition aget2 (t : list (list Z)) (level i : Z) : option Z := l ← aget t level; aget l i.

(** The quantizer, multiplier and shift of a coefficient. *)
Definition quantizer (luma : bool) (level i : Z) : option (Z * Z * Z) :=
  q ← aget2 (if luma then jpeg_fw_lum_quant_tbl_default else jpeg_fw_chr_quant_tbl_default) level i;
  m ← aget2 (if luma then jpeg_fw_new_lum_quant_tbl_default
             else jpeg_fw_new_chr_quant_tbl_default) level i;
  s ← aget2 (if luma then jpeg_fw_new_lum_quant_tbl_default_shift
             else jpeg_fw_new_chr_quant_tbl_default_shift) level i;
  Some (q, m, s).

Definition good_quantizer (t : option (Z * Z * Z)) : bool :=
  match t with
  | Some (q, m, s) =>
      (1 <=? q) && (0 <? m) && (m <? 4096) && (11 <=? s) && (s <=? 26)
      && (2 * Z.abs (q * m - 2 ^ s) <=? q)
  | None => false
  end.

Lemma quantizers_good luma level i :
  0 <= level < 5 -> 0 <= i < 64 -> good_quantizer (quantizer luma level i) = true.
Proof.
  intros Hl Hi.
  pose proof (upto_forallb 320 (fun j => good_quantizer (quantizer true (j / 64) (j mod 64))
    && good_quantizer (quantizer false (j / 64) (j mod 64))) (64 * level + i)
    ltac:(vm_compute; done) ltac:(lia)) as H.
  cbn beta in H. replace ((64 * level + i) / 64) with level in H by (Z.div_mod_to_equations; lia).
  replace ((64 * level + i) mod 64) with i in H by (Z.div_mod_to_equations; lia).
  apply andb_true_iff in H as [H1 H2]. by destruct luma.
Qed.

(** the fixed-point quantizer. For each of the five qualities and each of
    the 64 coefficients of luma and chroma the tables hold a quantizer [q], a
    12-bit multiplier [m] and a shift [s] (at least 11, so that [s - 11] fits
    the hardware's four bits) with [m] the rounded value of [2^s / q]; and for
    every 12-bit magnitude the multiplication and shift miss the exact
    quotient by at most one. *)
Theorem quantizer_reciprocal luma level i x :
  0 <= level < 5 -> 0 <= i < 64 -> 0 <= x < 4096 ->
  exists q m s, quantizer luma level i = Some (q, m, s) /\
    1 <= q /\ 0 < m < 4096 /\ 0 <= s - 11 < 16 /\
    2 * Z.abs (q * m - 2 ^ s) <= q /\
    Z.abs (Z.shiftr (x * m) s - x / q) <= 1.
Proof.
  intros Hl Hi Hx. pose proof (quantizers_good luma level i Hl Hi) as H.
  destruct (quantizer luma level i) as [ [ [q m] s]|]; [|done]. cbn in H.
  exists q, m, s. assert (Hs : 11 <= s) by lia. split; [done|]. split; [lia|]. split; [lia|].
  split; [lia|]. split; [lia|].
  rewrite Z.shiftr_div_pow2 by lia.
  assert (Hp : 2 ^ 11 <= 2 ^ s) by (apply Z.pow_le_mono_r; lia). change (2 ^ 11) with 2048 in Hp.
  set (p := 2 ^ s) in *.
  assert (Hq : 2 * Z.abs (q * m - p) <= q /\ 1 <= q) by lia.
  clearbody p. clear H Hs.
  pose proof (Z.div_mod (x * m) p ltac:(lia)) as Ha.
  pose proof (Z.mod_pos_bound (x * m) p ltac:(lia)) as Hra.
  pose proof (Z.div_mod x q ltac:(lia)) as Hb. pose proof (Z.mod_pos_bound x q ltac:(lia)) as Hrb.
  set (a := x * m / p) in *. set (b := x / q) in *.
  set (ra := (x * m) mod p) in *. set (rb := x mod q) in *. clearbody a b ra rb.
  set (e := q * m - p) in *.
  assert (E : q * p * (a - b) = rb * p + x * e - q * ra).
  { assert (Hqa : q * (p * a) = q * (x * m - ra)) by (f_equal; lia).
    assert (Hpb : p * (q * b) = p * (x - rb)) by (f_equal; lia).
    unfold e. transitivity (q * (p * a) - p * (q * b)); [ring|]. rewrite Hqa, Hpb. ring. }
  assert (H1 : - (q * p) < x * e < q * p) by nia.
  assert (H2 : 0 <= rb * p < q * p) by nia.
  assert (H3 : 0 <= q * ra < q * p) by nia.
  assert (H4 : - (2 * (q * p)) < q * p * (a - b) < 2 * (q * p)) by lia.
  assert (0 < q * p) by nia. nia.
Qed.

Lemma quantizer_reciprocal_witness :
  exists q m s, quantizer true 1 45 = Some (q, m, s) /\ 1 <= q /\ 0 < m < 4096 /\
    0 <= s - 11 < 16 /\ 2 * Z.abs (q * m - 2 ^ s) <= q /\
    Z.abs (Z.shiftr (1000 * m) s - 1000 / q) <= 1.
Proof. apply (quantizer_reciprocal true 1 45 1000); lia. Defined.
