(* ===== verification/JpegHuff.v ===== *)
(** * Huffman tables of the JPEG decoder

    src/common/libs/libcamera/jpeg_fw_8825/src/jpegdec_vld.c: from the code
    lengths of a DHT segment to the registers and the symbol memory of the
    variable-length decoder. Register writes are collected as a list of
    offset (from VSP_VLD_REG_BASE) and value, in program order. [None] is an
    access outside an array. *)
From stdpp Require Import base list.
From Stdlib Require Import ZArith Lia.
From S2P Require Import Prelude JpegTables.

(** ** Definitions *)

Record HUFF_TBL_T := HuffTbl { bits : list Z; huffval : list Z }.

Definition DC_LEN_OFFSETS : list Z :=
  [0; 2; 6; 14; 26; 38; 50; 62; 74; 86; 98; 110; 122; 134; 146; 158].
Definition g_DC_offset : list Z := 0 :: DC_LEN_OFFSETS.

Definition VLD_DC_VALID_OFFSET : Z := 0x84.
Definition VLD_AC_VALID_OFFSET : Z := 0x88.
Definition VLD_Luma_DC_LUT_OFFSET : Z := 0x8C.
Definition VLD_Chroma_DC_LUT_OFFSET : Z := 0xCC.
Definition VLD_Luma_AC_LUT_OFFSET : Z := 0x10C.
Definition VLD_Chroma_AC_LUT_OFFSET : Z := 0x14C.

(** [for (l = 1; l <= 16; l++)] *)
Definition lengths : list Z := [1; 2; 3; 4; 5; 6; 7; 8; 9; 10; 11; 12; 13; 14; 15; 16].

(** *** JPEGFW_FixHuffTbl *)

(** [for (i = 1; i <= htbl->bits[l]; i++) huffsize[p++] = l;] *)
Fixpoint fill_size (n : nat) (l : Z) (huffsize : list Z) (p : Z) : option (list Z * Z) :=
  match n with
  | O => Some (huffsize, p)
  | S n => huffsize ← aset huffsize p (u8 l); fill_size n l huffsize (p + 1)
  end.

Fixpoint fill_sizes (ls : list Z) (bits huffsize : list Z) (p : Z) : option (list Z * Z) :=
  match ls with
  | [] => Some (huffsize, p)
  | l :: ls =>
      n ← aget bits l;
      st ← fill_size (Z.to_nat n) l huffsize p;
      fill_sizes ls bits st.1 st.2
  end.

(** [while (huffsize[p] == si) { huffcode[p] = code; p++; code++; }] *)
Fixpoint codes_of_size (fuel : nat) (huffsize : list Z) (si : Z) (huffcode : list Z) (p code : Z)
    : option (list Z * Z * Z) :=
  match fuel with
  | O => None
  | S fuel =>
      s ← aget huffsize p;
      if s =? si then
        huffcode ← aset huffcode p code;
        codes_of_size fuel huffsize si huffcode (p + 1) (u16 (code + 1))
      else Some (huffcode, p, code)
  end.

(** [while (huffsize[p])] *)
Fixpoint generate_codes (fuel : nat) (huffsize : list Z) (si : Z) (huffcode : list Z) (p code : Z)
    : option (list Z) :=
  match fuel with
  | O => None
  | S fuel =>
      s ← aget huffsize p;
      if s =? 0 then Some huffcode else
      st ← codes_of_size 258 huffsize si huffcode p code;
      let '(huffcode, p, code) := st in
      generate_codes fuel huffsize (si + 1) huffcode p (u16 (Z.shiftl code 1))
  end.

(** The decoding tables [valptr] and [maxcode]. *)
Fixpoint decoding_tables (ls : list Z) (bits huffcode valptr maxcode : list Z) (p : Z)
    : option (list Z * list Z) :=
  match ls with
  | [] => Some (valptr, maxcode)
  | l :: ls =>
      n ← aget bits l;
      if truthy n then
        valptr ← aset valptr l (u8 p);
        c ← aget huffcode (p + n - 1);
        maxcode ← aset maxcode l c;
        decoding_tables ls bits huffcode valptr maxcode (p + n)
      else
        maxcode ← aset maxcode l (-1);
        decoding_tables ls bits huffcode valptr maxcode p
  end.

Fixpoint active_base_loop (ls : list Z) (valptr maxcode active_base_max : list Z)
    : option (list Z) :=
  match ls with
  | [] => Some active_base_max
  | l :: ls =>
      mc ← aget maxcode l;
      v ← (if negb (mc =? -1) then
             base_addr ← aget valptr l;
             Some (Z.lor (Z.lor (Z.shiftl 1 31) (Z.shiftl base_addr 16)) mc)
           else if l >? 1 then
             pmc ← aget maxcode (l - 1);
             if negb (pmc =? -1) then Some ((pmc + 1) * 2)
             else pab ← aget active_base_max (l - 1); Some (Z.land pab 0xffff * 2)
           else Some 0);
      active_base_max ← aset active_base_max l v;
      active_base_loop ls valptr maxcode active_base_max
  end.

(** The new contents of the selected row of [s_active_base_max]. Entries of
    [valptr] for absent lengths are never read. *)
Definition JPEGFW_FixHuffTbl (bits active_base_max : list Z) : option (list Z) :=
  st ← fill_sizes lengths bits (replicate 257 0) 0;
  let '(huffsize, p) := st in
  huffsize ← aset huffsize p 0;
  si ← aget huffsize 0;
  huffcode ← generate_codes 18 huffsize si (replicate 257 0xFFFF) 0 0;
  t ← decoding_tables lengths bits huffcode (replicate 17 0) (replicate 17 0) 0;
  active_base_loop lengths t.1 t.2 active_base_max.

(** The four tables of the codec: luma and chroma, DC and AC. *)
Record huff_tbls := HuffTbls {
  dc_lum : HUFF_TBL_T; ac_lum : HUFF_TBL_T; dc_chr : HUFF_TBL_T; ac_chr : HUFF_TBL_T
}.

(** [s_active_base_max] *)
Record active_base := ActiveBase {
  ab_dc_lum : list Z; ab_ac_lum : list Z; ab_dc_chr : list Z; ab_ac_chr : list Z
}.

Definition JPEGFW_InitHuffTbl (t : huff_tbls) (num_components : Z) (s : active_base)
    : option active_base :=
  a0 ← JPEGFW_FixHuffTbl (bits (dc_lum t)) (ab_dc_lum s);
  a1 ← JPEGFW_FixHuffTbl (bits (ac_lum t)) (ab_ac_lum s);
  if negb (num_components =? 1) then
    a2 ← JPEGFW_FixHuffTbl (bits (dc_chr t)) (ab_dc_chr s);
    a3 ← JPEGFW_FixHuffTbl (bits (ac_chr t)) (ab_ac_chr s);
    Some (ActiveBase a0 a1 a2 a3)
  else Some (ActiveBase a0 a1 (ab_dc_chr s) (ab_ac_chr s)).

(** *** Registers *)

Fixpoint mapM_opt {A B} (f : A -> option B) (l : list A) : option (list B) :=
  match l with
  | [] => Some []
  | x :: l => y ← f x; ys ← mapM_opt f l; Some (y :: ys)
  end.

Definition configure_maxReg_DC (pMaxcode : list Z) (beChroma : bool) : option (list (Z * Z)) :=
  let offset := if beChroma then VLD_Chroma_DC_LUT_OFFSET else VLD_Luma_DC_LUT_OFFSET in
  mapM_opt (fun i =>
    m ← aget pMaxcode (i + 1); Some (offset + i * 4, Z.land m 0xffff)) (upto 16).

Definition configure_maxReg_AC (pMaxcode : list Z) (beChroma : bool) : option (list (Z * Z)) :=
  let offset := if beChroma then VLD_Chroma_AC_LUT_OFFSET else VLD_Luma_AC_LUT_OFFSET in
  mapM_opt (fun i =>
    m ← aget pMaxcode (i + 1);
    let baseAddr := Z.land (Z.shiftr m 16) 0xff in
    let maxCode := Z.land m 0xffff in
    Some (offset + i * 4, Z.lor (Z.shiftl maxCode 8) baseAddr)) (upto 16).

Fixpoint collect_valid_loop (idx : list Z) (pMax_code_base_act : list Z) (valid : Z) : option Z :=
  match idx with
  | [] => Some valid
  | i :: idx =>
      m ← aget pMax_code_base_act (i + 1);
      collect_valid_loop idx pMax_code_base_act
        (Z.lor valid (Z.shiftl (Z.shiftr m 31) (15 - i)))
  end.
Definition collect_valid_bits (pMax_code_base_act : list Z) : option Z :=
  collect_valid_loop (upto 16) pMax_code_base_act 0.

Definition JPEGFW_configure_validReg (s : active_base) : option (list (Z * Z)) :=
  valid0 ← collect_valid_bits (ab_dc_lum s);
  valid1 ← collect_valid_bits (ab_dc_chr s);
  valid2 ← collect_valid_bits (ab_ac_lum s);
  valid3 ← collect_valid_bits (ab_ac_chr s);
  Some [(VLD_DC_VALID_OFFSET, Z.lor (Z.shiftl valid0 16) valid1);
        (VLD_AC_VALID_OFFSET, Z.lor (Z.shiftl valid2 16) valid3)].

(** Returns the register writes and the new [g_huffTab]. *)
Definition JPEGFW_configure_vld_reg_jpegDec (using_default_huff_tab : bool) (s : active_base)
    (g_huffTab : list Z) : option (list (Z * Z) * list Z) :=
  if negb using_default_huff_tab then
    w0 ← JPEGFW_configure_validReg s;
    w1 ← configure_maxReg_DC (ab_dc_lum s) false;
    w2 ← configure_maxReg_DC (ab_dc_chr s) true;
    w3 ← configure_maxReg_AC (ab_ac_lum s) false;
    w4 ← configure_maxReg_AC (ab_ac_chr s) true;
    Some (w0 ++ w1 ++ w2 ++ w3 ++ w4, g_huffTab)
  else
    m0 ← aget jpeg_fw_vld_default_max_code 0;
    m1 ← aget jpeg_fw_vld_default_max_code 1;
    ws ← mapM_opt (fun i => m ← aget jpeg_fw_vld_default_max_code i;
                            Some (VLD_DC_VALID_OFFSET + i * 4, m))
           (drop 2 (upto 66));
    Some ((VLD_DC_VALID_OFFSET, m0) :: (VLD_AC_VALID_OFFSET, m1) :: ws,
          jpeg_fw_vld_default_huffTab).

(** *** The symbol memory *)

(** [for (j = 0; j < number; j++)]; returns the rest of [pHuffVal]. *)
Fixpoint build_DC_len (n : nat) (phufftab pHuffVal : list Z) (addr shift_bit : Z)
    : option (list Z * list Z) :=
  match n with
  | O => Some (phufftab, pHuffVal)
  | S n =>
      match pHuffVal with
      | [] => None
      | v :: pHuffVal =>
          old ← aget phufftab addr;
          phufftab ← aset phufftab addr (Z.lor (Z.shiftl v shift_bit) old);
          build_DC_len n phufftab pHuffVal (addr + 1) shift_bit
      end
  end.

Fixpoint build_DC_loop (ls : list Z) (phufftab pHuffVal bits : list Z) (shift_bit : Z)
    (pDCoffset : list Z) : option (list Z) :=
  match ls with
  | [] => Some phufftab
  | i :: ls =>
      number ← aget bits i;
      startAddr ← aget pDCoffset i;
      st ← build_DC_len (Z.to_nat number) phufftab pHuffVal startAddr shift_bit;
      build_DC_loop ls st.1 st.2 bits shift_bit pDCoffset
  end.

Definition build_hufftab_DC (phufftab pHuffVal bits : list Z) (beChroma : Z) (pDCoffset : list Z)
    : option (list Z) :=
  build_DC_loop lengths phufftab pHuffVal bits (if truthy beChroma then 24 else 16) pDCoffset.

Definition build_hufftab_AC (phufftab pHuffVal : list Z) (beChroma : Z) : option (list Z) :=
  let shift_bits := if truthy beChroma then 8 else 0 in
  (fix loop (idx : list Z) (tab : list Z) : option (list Z) :=
     match idx with
     | [] => Some tab
     | i :: idx =>
         old ← aget tab i;
         v ← aget pHuffVal i;
         tab ← aset tab i (Z.lor old (Z.shiftl v shift_bits));
         loop idx tab
     end) (upto 162) phufftab.

Definition JPEGFW_build_hufftab_jpegDec (t : huff_tbls) (num_components : Z) : option (list Z) :=
  let g := replicate 162 0 in
  g ← build_hufftab_DC g (huffval (dc_lum t)) (bits (dc_lum t)) JPEG_FW_LUM_ID g_DC_offset;
  g ← build_hufftab_AC g (huffval (ac_lum t)) JPEG_FW_LUM_ID;
  if negb (num_components =? 1) then
    g ← build_hufftab_DC g (huffval (dc_chr t)) (bits (dc_chr t)) JPEG_FW_CHR_ID g_DC_offset;
    build_hufftab_AC g (huffval (ac_chr t)) JPEG_FW_CHR_ID
  else Some g.

Definition default_tbls : huff_tbls :=
  HuffTbls (HuffTbl jpeg_fw_lum_dc_bits_default jpeg_fw_lum_dc_huffvalue_default)
           (HuffTbl jpeg_fw_lum_ac_bits_default jpeg_fw_lum_ac_huffvalue_default)
           (HuffTbl jpeg_fw_chr_dc_bits_default jpeg_fw_chr_dc_huffvalue_default)
           (HuffTbl jpeg_fw_chr_ac_bits_default jpeg_fw_chr_ac_huffvalue_default).

(** ** Canonical codes *)

(** A table from length [l] on is the list of the numbers of codes. *)
Fixpoint sizes (l : Z) (ns : list Z) : list Z :=
  match ns with
  | [] => []
  | n :: ns => replicate (Z.to_nat n) l ++ sizes (l + 1) ns
  end.

Fixpoint run (c : Z) (n : nat) : list Z :=
  match n with O => [] | S n => c :: run (c + 1) n end.

Fixpoint codes (c : Z) (ns : list Z) : list Z :=
  match ns with
  | [] => []
  | n :: ns => run c (Z.to_nat n) ++ codes (2 * (c + n)) ns
  end.

(** The codes of every length fit in that length (Kraft's inequality). *)
Fixpoint fits (l c : Z) (ns : list Z) : Prop :=
  match ns with
  | [] => True
  | n :: ns => 0 <= n /\ c + n <= 2 ^ l /\ fits (l + 1) (2 * (c + n)) ns
  end.

(** What the decoder's registers must hold: for a length that occurs, the
    valid bit, the index of its first symbol and its last code; for a length
    that does not, the code at which a longer one starts. *)
Fixpoint registers (c base : Z) (ns : list Z) : list Z :=
  match ns with
  | [] => []
  | n :: ns =>
      (if n =? 0 then c
       else Z.lor (Z.lor (Z.shiftl 1 31) (Z.shiftl (u8 base) 16)) (c + n - 1))
      :: registers (2 * (c + n)) (base + n) ns
  end.

Fixpoint zseq (l : Z) (n : nat) : list Z :=
  match n with O => [] | S n => l :: zseq (l + 1) n end.

Definition total (ns : list Z) : Z := foldr Z.add 0 ns.

Lemma run_length c n : length (run c n) = n.
Proof. revert c. induction n as [|n IH]; intros c; simpl; [done|]. by rewrite IH. Qed.

Lemma fits_nonneg l c ns : fits l c ns -> Forall (Z.le 0) ns.
Proof. revert l c. induction ns as [|n ns IH]; intros l c H; constructor; destruct H as (?&?&?); eauto. Qed.

Lemma sizes_zlen l ns : Forall (Z.le 0) ns -> zlen (sizes l ns) = total ns.
Proof.
  intros H. revert l. induction H as [|n ns Hn _ IH]; intros l; [done|].
  cbn [sizes total foldr]. rewrite zlen_app, IH. unfold zlen. rewrite length_replicate.
  unfold total. lia.
Qed.

Lemma codes_zlen c ns : Forall (Z.le 0) ns -> zlen (codes c ns) = total ns.
Proof.
  intros H. revert c. induction H as [|n ns Hn _ IH]; intros c; [done|].
  cbn [codes total foldr]. rewrite zlen_app, IH. unfold zlen. rewrite run_length.
  unfold total. lia.
Qed.

Lemma sizes_head l ns rest :
  1 <= l -> exists s t, sizes l ns ++ 0 :: rest = s :: t /\ (s = 0 /\ sizes l ns = [] \/ l <= s).
Proof.
  revert l. induction ns as [|n ns IH]; intros l Hl; cbn [sizes]; [by exists 0, rest; auto|].
  destruct (Z.to_nat n) as [|m]; cbn [replicate app].
  - destruct (IH (l + 1)) as (s & t & E & Hs); [lia|]. exists s, t. split; [done|]. destruct Hs as [? | ?]; [by left|right; lia].
  - eexists l, _. split; [done|]. right. lia.
Qed.

Lemma aget_middle {A} (pre : list A) x post : aget (pre ++ x :: post) (zlen pre) = Some x.
Proof. unfold zlen. rewrite aget_nat. by apply list_lookup_middle. Qed.

Lemma aset_middle {A} (pre : list A) x post y :
  aset (pre ++ x :: post) (zlen pre) y = Some (pre ++ y :: post).
Proof.
  pose proof (store_segment pre [x] post [y] _ eq_refl eq_refl) as H. cbn [store app] in H.
  by destruct (aset _ _ _).
Qed.

Lemma fill_size_segment n l pre old post :
  length old = n -> 0 <= l < 256 ->
  fill_size n l (pre ++ old ++ post) (zlen pre)
  = Some (pre ++ replicate n l ++ post, zlen pre + Z.of_nat n).
Proof.
  intros Ho Hl. revert pre old Ho. induction n as [|n IH]; intros pre old Ho; cbn [fill_size].
  { destruct old; [|done]. rewrite Z.add_0_r. done. }
  destruct old as [|x old]; [done|]. cbn [app]. rewrite u8_small, aset_middle, obind_Some by done.
  replace (zlen pre + 1) with (zlen (pre ++ [l])) by by rewrite zlen_app.
  replace (pre ++ l :: old ++ post) with ((pre ++ [l]) ++ old ++ post) by by rewrite <- app_assoc.
  rewrite IH by (simpl in Ho; lia). out_eq. by rewrite <- app_assoc.
Qed.

Lemma fill_sizes_segment ns l bpre pre old post :
  Forall (Z.le 0) ns -> 0 <= l -> l + zlen ns <= 256 -> zlen bpre = l ->
  length old = length (sizes l ns) ->
  fill_sizes (zseq l (length ns)) (bpre ++ ns) (pre ++ old ++ post) (zlen pre)
  = Some (pre ++ sizes l ns ++ post, zlen pre + total ns).
Proof.
  intros H. revert l bpre pre old. induction H as [|n ns Hn Hns IH]; intros l bpre pre old Hl Hl' Hb Ho.
  { destruct old; [|done]. cbn. rewrite Z.add_0_r. done. }
  rewrite zlen_cons in Hl'. pose proof (zlen_nonneg ns).
  cbn [zseq length fill_sizes sizes] in *. rewrite length_app, length_replicate in Ho.
  rewrite <- Hb, aget_middle, obind_Some.
  rewrite <- (take_drop (Z.to_nat n) old), <- app_assoc, fill_size_segment, obind_Some;
    [|rewrite length_take; lia|lia]. cbn [fst snd].
  replace (zlen pre + Z.of_nat (Z.to_nat n)) with (zlen (pre ++ replicate (Z.to_nat n) (zlen bpre)))
    by (unfold zlen; rewrite length_app, length_replicate; lia).
  rewrite (app_assoc pre). replace (bpre ++ n :: ns) with ((bpre ++ [n]) ++ ns) by by rewrite <- app_assoc.
  replace (zlen bpre + 1) with (zlen (bpre ++ [n])) by by rewrite zlen_app.
  rewrite (IH (zlen (bpre ++ [n])));
    [|apply zlen_nonneg|rewrite zlen_app; change (zlen [n]) with 1; lia|done|
     rewrite length_drop, zlen_app, Hb; change (zlen [n]) with 1; lia].
  f_equal. f_equal.
  - by rewrite <- !app_assoc, zlen_app.
  - unfold zlen. rewrite length_app, length_replicate. unfold total. simpl. lia.
Qed.

Lemma u16_double x : u16 (2 * u16 x) = u16 (2 * x).
Proof. wrap_lia. Qed.
Lemma u16_succ x : u16 (u16 x + 1) = u16 (x + 1).
Proof. wrap_lia. Qed.

Lemma codes_of_size_run n fuel si hpre s rest cpre old cpost c :
  (n < fuel)%nat -> s <> si -> 0 <= c -> (n <> 0%nat -> c + Z.of_nat n <= 65536) ->
  zlen hpre = zlen cpre -> length old = n ->
  codes_of_size fuel (hpre ++ replicate n si ++ s :: rest) si (cpre ++ old ++ cpost) (zlen hpre) (u16 c)
  = Some (cpre ++ run c n ++ cpost, zlen hpre + Z.of_nat n, u16 (c + Z.of_nat n)).
Proof.
  revert fuel hpre cpre old c. induction n as [|n IH]; intros fuel hpre cpre old c Hf Hs Hc Hcn Hp Ho;
    (destruct fuel as [|fuel]; [lia|]); cbn [codes_of_size replicate app].
  { rewrite aget_middle, obind_Some. rewrite (proj2 (Z.eqb_neq s si)) by done.
    destruct old; [|done]. rewrite !Z.add_0_r. done. }
  destruct old as [|x old]; [done|]. rewrite aget_middle, obind_Some, Z.eqb_refl.
  specialize (Hcn ltac:(done)). rewrite (u16_small c) by lia. rewrite Hp. cbn [app]. rewrite aset_middle, obind_Some, <- Hp.
  replace (zlen hpre + 1) with (zlen (hpre ++ [si])) by by rewrite zlen_app.
  replace (hpre ++ si :: replicate n si ++ s :: rest) with ((hpre ++ [si]) ++ replicate n si ++ s :: rest)
    by by rewrite <- app_assoc.
  replace (cpre ++ c :: old ++ cpost) with ((cpre ++ [c]) ++ old ++ cpost) by by rewrite <- app_assoc.
  rewrite IH; [|lia|done|lia|lia|rewrite !zlen_app; change (zlen [c]) with 1; change (zlen [si]) with 1; lia
    |simpl in Ho; lia].
  cbn [run]. out_eq. by rewrite <- app_assoc. f_equal; lia.
Qed.

Lemma codes_nil l c ns : Forall (Z.le 0) ns -> sizes l ns = [] -> codes c ns = [].
Proof.
  intros H E. pose proof (codes_zlen c ns H) as Hc. rewrite <- (sizes_zlen l) in Hc by done.
  rewrite E in Hc. by destruct (codes c ns).
Qed.

Lemma total_nonneg ns : Forall (Z.le 0) ns -> 0 <= total ns.
Proof. intros H. rewrite <- (sizes_zlen 0) by done. apply zlen_nonneg. Qed.

Lemma sizes_next l n ns post :
  1 <= l -> exists s rest, sizes l (n :: ns) ++ 0 :: post = replicate (Z.to_nat n) l ++ s :: rest /\ s <> l
    /\ s :: rest = sizes (l + 1) ns ++ 0 :: post.
Proof.
  intros Hl. cbn [sizes]. rewrite <- app_assoc.
  destruct (sizes_head (l + 1) ns post) as (s & t & E & Hs); [lia|].
  exists s, t. rewrite E. split_and!; [done| |done]. destruct Hs as [[-> _] |]; lia.
Qed.

Lemma generate_codes_run fuel l ns hpre hpost cpre old cpost c :
  fits l c ns -> 1 <= l -> 0 <= c -> l + zlen ns <= 17 -> total ns <= 256 ->
  (length ns < fuel)%nat -> zlen hpre = zlen cpre -> length old = length (sizes l ns) ->
  generate_codes fuel (hpre ++ sizes l ns ++ 0 :: hpost) l (cpre ++ old ++ cpost) (zlen hpre) (u16 c)
  = Some (cpre ++ codes c ns ++ cpost).
Proof.
  revert fuel l hpre cpre old c.
  induction ns as [|n ns IH]; intros fuel l hpre cpre old c Hfit Hl Hc Hl' Ht Hf Hp Ho;
    (destruct fuel as [|fuel]; [simpl in Hf; lia|]); cbn [generate_codes].
  { destruct old; [|done]. cbn [sizes app codes]. by rewrite aget_middle, obind_Some. }
  pose proof (fits_nonneg _ _ _ Hfit) as Hnn. destruct (sizes_head l (n :: ns) hpost Hl) as (s & t & E & Hs).
  rewrite E, aget_middle, obind_Some. destruct Hs as [[-> E'] | Hs].
  { rewrite E' in Ho. destruct old; [|done]. by rewrite (codes_nil l c). }
  rewrite (proj2 (Z.eqb_neq s 0)) by lia. rewrite <- E.
  destruct (sizes_next l n ns hpost Hl) as (s' & rest & E1 & Hs' & E2). rewrite E1.
  destruct Hfit as (Hn & Hcn & Hfit). inversion_clear Hnn as [|?? _ Hns].
  pose proof (total_nonneg ns Hns). cbn [total foldr] in Ht. fold (total ns) in Ht.
  rewrite zlen_cons in Hl'. pose proof (zlen_nonneg ns).
  cbn [sizes] in Ho. rewrite length_app, length_replicate in Ho.
  rewrite <- (take_drop (Z.to_nat n) old), <- app_assoc.
  assert (2 ^ l <= 2 ^ 16) by (apply Z.pow_le_mono_r; lia). change (2 ^ 16) with 65536 in *.
  rewrite (codes_of_size_run (Z.to_nat n)), obind_Some by (rewrite ?length_take; lia).
  rewrite Z2Nat.id by lia. replace (u16 (Z.shiftl (u16 (c + n)) 1)) with (u16 (2 * (c + n)))
    by (rewrite Z.shiftl_mul_pow2, (Z.mul_comm (u16 _)) by lia; symmetry; apply u16_double).
  replace (zlen hpre + n) with (zlen (hpre ++ replicate (Z.to_nat n) l))
    by (unfold zlen; rewrite length_app, length_replicate; lia).
  assert (zlen (hpre ++ replicate (Z.to_nat n) l) = zlen (cpre ++ run c (Z.to_nat n)))
    by (unfold zlen in *; rewrite !length_app, length_replicate, run_length; lia).
  simpl in Hf. rewrite E2, (app_assoc hpre), (app_assoc cpre), IH;
    [|done|lia|lia|lia|lia|lia|done|rewrite length_drop; lia].
  cbn [codes]. by rewrite <- !app_assoc.
Qed.

(** The search starts at the length of the first code. *)
Lemma generate_codes_start fuel l ns s t hpost old cpost :
  fits l 0 ns -> 1 <= l -> l + zlen ns <= 17 -> total ns <= 256 -> (length ns < fuel)%nat ->
  length old = length (sizes l ns) -> sizes l ns ++ 0 :: hpost = s :: t ->
  generate_codes fuel (sizes l ns ++ 0 :: hpost) s (old ++ cpost) 0 0 = Some (codes 0 ns ++ cpost).
Proof.
  revert l. induction ns as [|n ns IH]; intros l Hfit Hl Hl' Ht Hf Ho E.
  { destruct old; [|done]. destruct fuel; [simpl in Hf; lia|done]. }
  pose proof Hfit as (Hn & Hcn & Hfit'). destruct (decide (n = 0)) as [->|].
  { cbn [sizes codes replicate Z.to_nat run app] in *. change (2 * (0 + 0)) with 0 in *.
    rewrite zlen_cons in Hl'. apply (IH (l + 1)); try done; simpl in Hf; lia. }
  assert (s = l) as ->.
  { cbn [sizes] in E. destruct (Z.to_nat n) eqn:En; [lia|]. by injection E. }
  apply (generate_codes_run fuel l (n :: ns) [] hpost [] old cpost 0); try done; lia.
Qed.

(** *** The decoding tables *)

Fixpoint maxcodes (c : Z) (ns : list Z) : list Z :=
  match ns with
  | [] => []
  | n :: ns => (if n =? 0 then -1 else c + n - 1) :: maxcodes (2 * (c + n)) ns
  end.

Fixpoint valptrs (base : Z) (ns : list Z) : list Z :=
  match ns with
  | [] => []
  | n :: ns => (if n =? 0 then 0 else u8 base) :: valptrs (base + n) ns
  end.

Lemma run_last pre c n post :
  0 < n -> aget (pre ++ run c (Z.to_nat n) ++ post) (zlen pre + n - 1) = Some (c + n - 1).
Proof.
  intros Hn. assert (Hl : forall m c, run c (S m) = run c m ++ [c + Z.of_nat m]).
  { clear. induction m as [|m IH]; intros c; [simpl; by rewrite Z.add_0_r|].
    change (run c (S (S m))) with (c :: run (c + 1) (S m)). rewrite IH. cbn [run app].
    by replace (c + 1 + Z.of_nat m) with (c + Z.of_nat (S m)) by lia. }
  replace (Z.to_nat n) with (S (Z.to_nat (n - 1))) by lia. rewrite Hl, <- app_assoc, app_assoc.
  replace (zlen pre + n - 1) with (zlen (pre ++ run c (Z.to_nat (n - 1))))
    by (unfold zlen; rewrite length_app, run_length; lia).
  cbn [app]. rewrite aget_middle. f_equal. lia.
Qed.

Lemma zlen_snoc {A} (l : list A) x : zlen l + 1 = zlen (l ++ [x]).
Proof. by rewrite zlen_app. Qed.
Lemma app_snoc {A} (l k : list A) x : l ++ x :: k = (l ++ [x]) ++ k.
Proof. by rewrite <- app_assoc. Qed.

Lemma decoding_tables_run ns c bpre cpre cpost vpre mpre :
  Forall (Z.le 0) ns -> zlen vpre = zlen bpre -> zlen mpre = zlen bpre ->
  decoding_tables (zseq (zlen bpre) (length ns)) (bpre ++ ns) (cpre ++ codes c ns ++ cpost)
    (vpre ++ replicate (length ns) 0) (mpre ++ replicate (length ns) 0) (zlen cpre)
  = Some (vpre ++ valptrs (zlen cpre) ns, mpre ++ maxcodes c ns).
Proof.
  intros H. revert c bpre cpre vpre mpre. induction H as [|n ns Hn Hns IH]; intros c bpre cpre vpre mpre Hv Hm.
  { done. }
  cbn [length zseq decoding_tables codes replicate valptrs maxcodes].
  rewrite aget_middle, obind_Some. unfold truthy. destruct (Z.eqb_spec n 0) as [->|Hn0]; cbn [negb].
  - rewrite <- Hm, aset_middle, obind_Some, Hm. change (Z.to_nat 0) with 0%nat. cbn [run app].
    rewrite (app_snoc mpre), (app_snoc bpre), (app_snoc vpre), (zlen_snoc bpre 0), IH by len_lia.
    rewrite !Z.add_0_r. by rewrite <- !app_assoc.
  - rewrite <- Hv, aset_middle, obind_Some, Hv. rewrite <- (app_assoc (run c _)).
    rewrite run_last, obind_Some by lia. rewrite <- Hm, aset_middle, obind_Some, Hm.
    rewrite (app_snoc mpre), (app_snoc bpre), (app_snoc vpre), (zlen_snoc bpre n).
    replace (zlen cpre + n) with (zlen (cpre ++ run c (Z.to_nat n)))
      by (unfold zlen; rewrite length_app, run_length; lia).
    rewrite (app_assoc cpre), IH by len_lia. by rewrite <- !app_assoc.
Qed.

(** The entry before a length holds the first code of the length. *)
Definition starts (c : Z) (mpre apre : list Z) : Prop :=
  exists m a m' a', mpre = m' ++ [m] /\ apre = a' ++ [a] /\
    (if m =? -1 then Z.land a 0xffff * 2 = c else (m + 1) * 2 = c).

Lemma active_base_run ns l c base vpre mpre apre old :
  fits l c ns -> 1 <= l -> 0 <= c -> l + zlen ns <= 17 ->
  zlen vpre = l -> zlen mpre = l -> zlen apre = l -> length old = length ns ->
  l = 1 /\ c = 0 \/ 1 < l /\ starts c mpre apre ->
  active_base_loop (zseq l (length ns)) (vpre ++ valptrs base ns) (mpre ++ maxcodes c ns) (apre ++ old)
  = Some (apre ++ registers c base ns).
Proof.
  revert l c base vpre mpre apre old.
  induction ns as [|n ns IH]; intros l c base vpre mpre apre old Hfit Hl Hc Hl' Hv Hm Ha Ho Hst.
  { by destruct old. }
  destruct old as [|x old]; [done|]. destruct Hfit as (Hn & Hcn & Hfit).
  rewrite zlen_cons in Hl'. pose proof (zlen_nonneg ns).
  cbn [length zseq active_base_loop valptrs maxcodes registers].
  rewrite <- Hm at 1. rewrite aget_middle, obind_Some.
  assert (Hstep : forall m a, (if m =? -1 then zlen ns = 0 \/ Z.land a 0xffff * 2 = 2 * (c + n) else (m + 1) * 2 = 2 * (c + n)) ->
    active_base_loop (zseq (l + 1) (length ns)) (vpre ++ (if n =? 0 then 0 else u8 base) :: valptrs (base + n) ns)
      (mpre ++ m :: maxcodes (2 * (c + n)) ns) (apre ++ a :: old)
    = Some (apre ++ a :: registers (2 * (c + n)) (base + n) ns)).
  { intros m a Hma. destruct ns as [|n' ns'] eqn:Ens; [by destruct old|]. rewrite <- Ens in *.
    rewrite (app_snoc vpre), (app_snoc mpre), (app_snoc apre), IH; [by rewrite <- app_assoc|..];
      try done; try len_lia. right. split; [lia|]. exists m, a, mpre, apre. split_and!; [done..|].
    destruct (m =? -1); [destruct Hma; [|done]|done]. subst ns. len_lia. }
  destruct (Z.eqb_spec n 0) as [-> | Hn0].
  - rewrite Z.eqb_refl. cbn [negb]. rewrite ?Z.add_0_r in *.
    assert (Hgoal : forall v, v = c ->
      (active_base_max ← aset (apre ++ x :: old) l v;
       active_base_loop (zseq (l + 1) (length ns)) (vpre ++ 0 :: valptrs base ns)
         (mpre ++ -1 :: maxcodes (2 * c) ns) active_base_max)
      = Some (apre ++ c :: registers (2 * c) base ns)).
    { intros v ->. rewrite <- Ha at 1. rewrite aset_middle, obind_Some.
      apply (Hstep (-1) c). change (-1 =? -1) with true. cbv iota.
      destruct (decide (zlen ns = 0)); [by left|right].
      assert (2 ^ l <= 2 ^ 15) by (apply Z.pow_le_mono_r; lia). change (2 ^ 15) with 32768 in *.
      rewrite land_65535, Z.mod_small by lia. lia. }
    destruct Hst as [[-> ->] | (Hl1 & m & a & m' & a' & -> & -> & Hma)].
    { cbn [Z.gtb Z.compare Pos.compare Pos.compare_cont]. rewrite obind_Some. by apply Hgoal. }
    rewrite <- zlen_snoc in Hm, Ha.
    rewrite Z.gtb_ltb, (proj2 (Z.ltb_lt 1 l)) by lia.
    rewrite <- (app_assoc m'). cbn [app]. replace (l - 1) with (zlen m') by lia.
    rewrite aget_middle, obind_Some. destruct (m =? -1); cbn [negb].
    + rewrite <- (app_assoc a'). cbn [app]. replace (zlen m') with (zlen a') by lia.
      rewrite aget_middle, !obind_Some. rewrite (app_snoc a' (x :: old)), (app_snoc m' (_ :: _)). by apply Hgoal.
    + rewrite !obind_Some, (app_snoc m' (_ :: _)). by apply Hgoal.
  - rewrite (proj2 (Z.eqb_neq (c + n - 1) (-1))) by lia. cbn [negb].
    rewrite <- Hv at 1. rewrite aget_middle, !obind_Some. rewrite <- Ha at 1.
    rewrite aset_middle, obind_Some. apply Hstep. rewrite (proj2 (Z.eqb_neq (c + n - 1) (-1))) by lia. lia.
Qed.

(** ** The registers *)

(** C40: for every table of code lengths that satisfies Kraft's inequality and
    has at most 256 codes, JPEGFW_FixHuffTbl stays inside its arrays and
    leaves in active_base_max, for each length from 1 to 16, the canonical
    register: valid bit, index of the first symbol and last code of the
    length, or the next code to assign where the length has none. *)
Theorem FixHuffTbl_registers b0 ns a0 aold :
  length ns = 16%nat -> length aold = 16%nat -> fits 1 0 ns -> total ns <= 256 ->
  JPEGFW_FixHuffTbl (b0 :: ns) (a0 :: aold) = Some (a0 :: registers 0 0 ns).
Proof.
  intros Hl Ha Hfit Ht. pose proof (fits_nonneg _ _ _ Hfit) as Hnn. pose proof (total_nonneg ns Hnn).
  assert (Hz : zlen ns = 16) by (unfold zlen; lia).
  assert (Hs : Z.of_nat (length (sizes 1 ns)) = total ns) by apply (sizes_zlen 1 ns Hnn).
  assert (E : forall x : Z, replicate 257 x
    = [] ++ replicate (length (sizes 1 ns)) x ++ x :: replicate (256 - length (sizes 1 ns)) x).
  { intros x. cbn [app]. change (x :: replicate ?n x) with (replicate (S n) x).
    rewrite <- replicate_add. f_equal. lia. }
  assert (El : lengths = zseq 1 (length ns)) by by rewrite Hl.
  unfold JPEGFW_FixHuffTbl. rewrite El, !E.
  change 0 with (zlen (@nil Z)) at 4. change (b0 :: ns) with ([b0] ++ ns).
  rewrite (fill_sizes_segment ns 1 [b0]), obind_Some by (rewrite ?length_replicate; done || lia).
  cbn [app]. replace (zlen [] + total ns) with (zlen (sizes 1 ns)) by (unfold zlen; simpl; lia).
  rewrite aset_middle, obind_Some.
  destruct (sizes_head 1 ns (replicate (256 - length (sizes 1 ns)) 0)) as (s & t & Est & _); [lia|].
  rewrite Est at 1. change (aget (s :: t) 0) with (Some s). rewrite obind_Some.
  rewrite (generate_codes_start _ 1 ns s t), obind_Some by (rewrite ?length_replicate; done || lia).
  pose proof (decoding_tables_run ns 0 [b0] [] (0xFFFF :: replicate (256 - length (sizes 1 ns)) 0xFFFF)
    [0] [0] Hnn eq_refl eq_refl) as Hd.
  rewrite Hl in *. cbn [app] in Hd.
  change (zlen [b0]) with 1 in Hd. change (zlen []) with 0 in Hd.
  change (replicate 17 0) with (0 :: replicate 16 0). rewrite Hd, obind_Some. cbn [fst snd].
  pose proof (active_base_run ns 1 0 0 [0] [0] [a0] aold Hfit) as Hab. rewrite Hl in Hab.
  by apply Hab; auto; lia.
Qed.

Lemma FixHuffTbl_registers_witness :
  total (tail jpeg_fw_lum_ac_bits_default) = 162 /\
  JPEGFW_FixHuffTbl jpeg_fw_lum_ac_bits_default (replicate 17 0)
  = Some (0 :: registers 0 0 (tail jpeg_fw_lum_ac_bits_default)).
Proof.
  split; [reflexivity|].
  apply (FixHuffTbl_registers 0 (tail jpeg_fw_lum_ac_bits_default) 0 (replicate 16 0));
    vm_compute; repeat split; discriminate.
Defined.

(** for the default tables the two ways of programming the variable-length
    decoder agree: the register values computed from the code lengths are
    those of the precomputed table, written to the same registers in the same
    order, and the symbol memory built from the symbols is the precomputed
    one. *)
Theorem default_registers_agree g s0 :
  ab_dc_lum s0 = replicate 17 0 -> ab_ac_lum s0 = replicate 17 0 ->
  ab_dc_chr s0 = replicate 17 0 -> ab_ac_chr s0 = replicate 17 0 ->
  exists s ws,
    JPEGFW_InitHuffTbl default_tbls 3 s0 = Some s /\
    JPEGFW_configure_vld_reg_jpegDec false s g = Some (ws, g) /\
    JPEGFW_configure_vld_reg_jpegDec true s g = Some (ws, jpeg_fw_vld_default_huffTab) /\
    JPEGFW_build_hufftab_jpegDec default_tbls 3 = Some jpeg_fw_vld_default_huffTab.
Proof.
  destruct s0 as [a b c d]; cbn [ab_dc_lum ab_ac_lum ab_dc_chr ab_ac_chr]. intros -> -> -> ->.
  set (s := JPEGFW_InitHuffTbl default_tbls 3 _). vm_compute in s.
  eexists _, _. split; [reflexivity|]. clear s.
  split; [vm_compute; reflexivity|]. split; vm_compute; reflexivity.
Qed.

Lemma default_registers_agree_witness :
  exists s ws,
    JPEGFW_InitHuffTbl default_tbls 3
      (ActiveBase (replicate 17 0) (replicate 17 0) (replicate 17 0) (replicate 17 0)) = Some s /\
    JPEGFW_configure_vld_reg_jpegDec false s [] = Some (ws, []) /\
    JPEGFW_configure_vld_reg_jpegDec true s [] = Some (ws, jpeg_fw_vld_default_huffTab) /\
    JPEGFW_build_hufftab_jpegDec default_tbls 3 = Some jpeg_fw_vld_default_huffTab.
Proof. apply default_registers_agree; reflexivity. Defined.

(** ** The symbol memory *)

(** The cells the DC symbols go to: from the offset of each length on. *)
Fixpoint cells (offs ns : list Z) : list Z :=
  match offs, ns with
  | o :: offs, n :: ns => run o (Z.to_nat n) ++ cells offs ns
  | _, _ => []
  end.

Fixpoint or_at (tab addrs vals : list Z) (shift : Z) : option (list Z) :=
  match addrs with
  | [] => Some tab
  | a :: addrs =>
      match vals with
      | [] => None
      | v :: vals =>
          old ← aget tab a;
          tab ← aset tab a (Z.lor (Z.shiftl v shift) old);
          or_at tab addrs vals shift
      end
  end.

Lemma build_DC_len_or_at n tab vals addr shift rest :
  or_at tab (run addr n ++ rest) vals shift
  = (st ← build_DC_len n tab vals addr shift; or_at st.1 rest st.2 shift).
Proof.
  revert tab vals addr. induction n as [|n IH]; intros tab vals addr; [done|].
  cbn [run app or_at build_DC_len]. destruct vals as [|v vals]; [done|].
  destruct (aget tab addr) as [old|]; [|done]. rewrite !obind_Some.
  destruct (aset tab addr _) as [tab'|]; [|done]. rewrite !obind_Some. apply IH.
Qed.

Lemma build_DC_loop_or_at ns offs npre opre tab vals shift :
  length offs = length ns -> zlen npre = zlen opre ->
  build_DC_loop (zseq (zlen npre) (length ns)) tab vals (npre ++ ns) shift (opre ++ offs)
  = or_at tab (cells offs ns) vals shift.
Proof.
  revert offs npre opre tab vals. induction ns as [|n ns IH]; intros offs npre opre tab vals Hl Hp.
  { by destruct offs. }
  destruct offs as [|o offs]; [done|]. injection Hl as Hl. cbn [length zseq build_DC_loop cells].
  rewrite aget_middle, obind_Some. rewrite Hp, aget_middle, obind_Some, <- Hp.
  rewrite build_DC_len_or_at. destruct (build_DC_len _ _ _ _ _) as [[tab' vals']|]; [|done].
  rewrite !obind_Some. cbn [fst snd]. rewrite (app_snoc npre ns), (app_snoc opre offs), (zlen_snoc npre n).
  apply IH; [done|]. rewrite <- !zlen_snoc. lia.
Qed.

Lemma build_hufftab_DC_or_at tab vals b0 ns chroma :
  length ns = 16%nat ->
  build_hufftab_DC tab vals (b0 :: ns) chroma g_DC_offset
  = or_at tab (cells DC_LEN_OFFSETS ns) vals (if truthy chroma then 24 else 16).
Proof.
  intros Hl. pose proof (build_DC_loop_or_at ns DC_LEN_OFFSETS [b0] [0] tab vals
    (if truthy chroma then 24 else 16) (eq_sym Hl) eq_refl) as H.
  rewrite Hl in H. exact H.
Qed.

Lemma or_at_is_Some tab addrs vals shift :
  (length addrs <= length vals)%nat ->
  is_Some (or_at tab addrs vals shift) <-> Forall (fun a => 0 <= a < zlen tab) addrs.
Proof.
  revert tab vals. induction addrs as [|a addrs IH]; intros tab vals Hl; cbn [or_at].
  { split; [constructor|by eexists]. }
  destruct vals as [|v vals]; [simpl in Hl; lia|]. simpl in Hl. rewrite Forall_cons.
  destruct (decide (0 <= a < zlen tab)) as [Ha|Ha].
  - destruct (aget_is_Some tab a Ha) as [old ->]. rewrite obind_Some, aset_Some, obind_Some by done.
    rewrite IH by lia. unfold zlen. rewrite length_insert. unfold zlen in Ha. naive_solver.
  - assert (aget tab a = None) as ->.
    { unfold aget, zlen in *. case_match; [|done]. apply lookup_ge_None. lia. }
    split; [by intros [? [=]]|naive_solver].
Qed.

Lemma or_at_lookup tab addrs vals shift tab' :
  or_at tab addrs vals shift = Some tab' -> NoDup addrs ->
  (forall a, a ∉ addrs -> aget tab' a = aget tab a) /\
  (forall k a, addrs !! k = Some a ->
     exists v old, vals !! k = Some v /\ aget tab a = Some old /\
       aget tab' a = Some (Z.lor (Z.shiftl v shift) old)).
Proof.
  revert tab vals. induction addrs as [|a addrs IH]; intros tab vals; cbn [or_at].
  { intros [= ->] _. split; [done|]. intros k a. by rewrite lookup_nil. }
  destruct vals as [|v vals]; [done|]. destruct (aget tab a) as [old|] eqn:Eold; [|done].
  rewrite obind_Some. destruct (aset tab a _) as [tab1|] eqn:E1; [|done]. rewrite obind_Some.
  intros H [Ha Hnd]%NoDup_cons. destruct (IH _ _ H Hnd) as [IH1 IH2]. clear IH H.
  assert (Hother : forall b, b <> a -> aget tab1 b = aget tab b).
  { intros b Hb. unfold aset in E1. case_match eqn:Er; [|done]. injection E1 as <-.
    apply andb_true_iff in Er as [?%Z.leb_le ?%Z.ltb_lt].
    unfold aget. destruct (Z.leb_spec 0 b); [|done]. rewrite list_lookup_insert_ne by lia. done. }
  assert (Hsame : aget tab1 a = Some (Z.lor (Z.shiftl v shift) old)).
  { unfold aset in E1. case_match eqn:Er; [|done]. injection E1 as <-.
    apply andb_true_iff in Er as [?%Z.leb_le ?%Z.ltb_lt].
    unfold aget. rewrite (proj2 (Z.leb_le 0 a)) by lia. apply list_lookup_insert_eq. lia. }
  split.
  - intros b [Hb1 Hb2]%not_elem_of_cons. by rewrite IH1, Hother.
  - intros [|k] b; cbn [lookup list_lookup].
    + intros [= ->]. exists v, old. split_and!; [done..|]. by rewrite IH1.
    + intros Hk. destruct (IH2 k b Hk) as (v' & old' & Hv & Ho & Hr).
      exists v', old'. split_and!; [done| |done]. rewrite <- Ho. symmetry. apply Hother.
      intros ->. apply Ha. by eapply list_elem_of_lookup_2.
Qed.

Lemma elem_of_run c n x : x ∈ run c n <-> c <= x < c + Z.of_nat n.
Proof.
  revert c. induction n as [|n IH]; intros c; cbn [run].
  - rewrite elem_of_nil. lia.
  - rewrite elem_of_cons, IH. lia.
Qed.

Lemma NoDup_run c n : NoDup (run c n).
Proof.
  revert c. induction n as [|n IH]; intros c; constructor; [|apply IH]. rewrite elem_of_run. lia.
Qed.

(** The segments of the lengths follow each other, from [lo] to [last]. *)
Fixpoint caps_ok (lo : Z) (offs ns : list Z) (last : Z) : Prop :=
  match offs, ns with
  | o :: offs, n :: ns => lo <= o /\ 0 <= n /\ caps_ok (o + n) offs ns last
  | _, _ => lo <= last
  end.

Lemma cells_range offs ns lo last :
  caps_ok lo offs ns last -> lo <= last /\ Forall (fun a => lo <= a < last) (cells offs ns).
Proof.
  revert ns lo. induction offs as [|o offs IH]; intros [|n ns] lo; cbn [caps_ok cells];
    try by split; [|constructor].
  intros (Ho & Hn & Hc). destruct (IH _ _ Hc) as [Hl Hf]. split; [lia|]. apply Forall_app. split.
  - apply Forall_forall. intros x. rewrite elem_of_run. lia.
  - eapply Forall_impl; [done|]. simpl. lia.
Qed.

Lemma NoDup_cells offs ns lo last : caps_ok lo offs ns last -> NoDup (cells offs ns).
Proof.
  revert ns lo. induction offs as [|o offs IH]; intros [|n ns] lo; cbn [caps_ok cells];
    try by constructor.
  intros (Ho & Hn & Hc). destruct (cells_range _ _ _ _ Hc) as [_ Hf]. rewrite Forall_forall in Hf.
  apply NoDup_app. split_and!; [apply NoDup_run| |by eapply IH].
  intros x Hx Hx'. apply elem_of_run in Hx. apply Hf in Hx'. lia.
Qed.

(** A valid table of at most twelve symbols keeps to its segments, but for
    the last length, which has room for four. *)
Lemma dc_caps ns :
  length ns = 16%nat -> fits 1 0 ns -> total ns <= 12 ->
  caps_ok 0 DC_LEN_OFFSETS ns (Z.max 162 (158 + List.last ns 0)).
Proof.
  intros Hl Hfit Ht. do 16 (destruct ns as [|? ns]; [done|]). destruct ns; [|done].
  cbn [total foldr fits caps_ok DC_LEN_OFFSETS List.last] in *.
  repeat match goal with H : _ /\ _ |- _ => destruct H end.
  change (2 ^ 1) with 2 in *. change (2 ^ (1 + 1)) with 4 in *. change (2 ^ (1 + 1 + 1)) with 8 in *.
  split_and!; lia.
Qed.

Lemma cells_length offs ns : length offs = length ns -> Forall (Z.le 0) ns ->
  Z.of_nat (length (cells offs ns)) = total ns.
Proof.
  revert ns. induction offs as [|o offs IH]; intros [|n ns] Hl Hn; try done.
  inversion_clear Hn as [|?? Hn0 Hns]. injection Hl as Hl. cbn [cells total foldr].
  rewrite length_app, run_length. specialize (IH ns Hl Hns). unfold total in IH. lia.
Qed.

Lemma dc_cells_last ns :
  length ns = 16%nat -> 4 < List.last ns 0 -> 162 ∈ cells DC_LEN_OFFSETS ns.
Proof.
  intros Hl Hlast. do 16 (destruct ns as [|? ns]; [done|]). destruct ns; [|done].
  cbn [List.last cells DC_LEN_OFFSETS] in *. rewrite !elem_of_app, !elem_of_run. do 15 right. left. lia.
Qed.

(** for a valid DC table of at most twelve symbols, building the symbol
    memory stays inside [g_huffTab] exactly when at most four codes have
    length 16. *)
Theorem build_hufftab_DC_bounds tab vals b0 ns chroma :
  length ns = 16%nat -> fits 1 0 ns -> total ns <= 12 -> total ns <= zlen vals -> length tab = 162%nat ->
  is_Some (build_hufftab_DC tab vals (b0 :: ns) chroma g_DC_offset) <-> List.last ns 0 <= 4.
Proof.
  intros Hl Hfit Ht Hv Htab. rewrite build_hufftab_DC_or_at by done.
  pose proof (cells_length DC_LEN_OFFSETS ns (eq_sym Hl) (fits_nonneg _ _ _ Hfit)) as Hc.
  rewrite or_at_is_Some by (unfold zlen in Hv; lia). unfold zlen. rewrite Htab. split.
  - intros Hf. destruct (decide (4 < List.last ns 0)) as [Hlast|]; [|lia].
    rewrite Forall_forall in Hf. specialize (Hf 162 (dc_cells_last ns Hl Hlast)). simpl in Hf. lia.
  - intros Hlast. destruct (cells_range _ _ _ _ (dc_caps ns Hl Hfit Ht)) as [_ Hf].
    eapply Forall_impl; [exact Hf|]. simpl. lia.
Qed.

(** Twelve symbols, five of them with codes of length 16: the table is a
    valid one, and building its symbol memory writes past the array. *)
Lemma build_hufftab_DC_bounds_witness :
  let ns := [1; 1; 1; 1; 1; 1; 1; 0; 0; 0; 0; 0; 0; 0; 0; 5] in
  fits 1 0 ns /\ total ns = 12 /\
  (is_Some (build_hufftab_DC (replicate 162 0) jpeg_fw_lum_dc_huffvalue_default (0 :: ns) 1 g_DC_offset)
   <-> 5 <= 4).
Proof.
  split; [vm_compute; repeat split; discriminate|]. split; [reflexivity|].
  apply (build_hufftab_DC_bounds (replicate 162 0) jpeg_fw_lum_dc_huffvalue_default 0
    [1; 1; 1; 1; 1; 1; 1; 0; 0; 0; 0; 0; 0; 0; 0; 5]);
    vm_compute; repeat split; discriminate.
Defined.

(** for such a table (at most four codes of length 16) each symbol lands,
    in its byte of the word, in the cell its code selects, the offset of the
    code's length plus the code's index among those of that length, and every
    other cell is kept. *)
Theorem build_hufftab_DC_layout tab vals b0 ns chroma :
  length ns = 16%nat -> fits 1 0 ns -> total ns <= 12 -> total ns <= zlen vals -> length tab = 162%nat ->
  List.last ns 0 <= 4 ->
  exists tab',
    build_hufftab_DC tab vals (b0 :: ns) chroma g_DC_offset = Some tab' /\
    (forall a, a ∉ cells DC_LEN_OFFSETS ns -> aget tab' a = aget tab a) /\
    (forall k a, cells DC_LEN_OFFSETS ns !! k = Some a ->
       exists v old, vals !! k = Some v /\ aget tab a = Some old /\
         aget tab' a = Some (Z.lor (Z.shiftl v (if truthy chroma then 24 else 16)) old)).
Proof.
  intros Hl Hfit Ht Hv Htab Hlast. rewrite build_hufftab_DC_or_at by done.
  pose proof (cells_length DC_LEN_OFFSETS ns (eq_sym Hl) (fits_nonneg _ _ _ Hfit)) as Hc.
  pose proof (dc_caps ns Hl Hfit Ht) as Hcaps. destruct (cells_range _ _ _ _ Hcaps) as [_ Hf].
  assert (Hs : is_Some (or_at tab (cells DC_LEN_OFFSETS ns) vals (if truthy chroma then 24 else 16))).
  { apply or_at_is_Some; [unfold zlen in Hv; lia|]. unfold zlen. rewrite Htab.
    eapply Forall_impl; [exact Hf|]. simpl. lia. }
  destruct Hs as [tab' E]. exists tab'. split; [done|].
  apply (or_at_lookup _ _ _ _ _ E). by eapply NoDup_cells.
Qed.

Lemma build_hufftab_DC_layout_witness :
  exists tab',
    build_hufftab_DC (replicate 162 0) jpeg_fw_lum_dc_huffvalue_default
      jpeg_fw_lum_dc_bits_default JPEG_FW_LUM_ID g_DC_offset = Some tab' /\
    (exists v, jpeg_fw_lum_dc_huffvalue_default !! 11%nat = Some v /\ aget tab' 74 = Some (Z.shiftl v 16)).
Proof.
  destruct (build_hufftab_DC_layout (replicate 162 0) jpeg_fw_lum_dc_huffvalue_default 0
    (tail jpeg_fw_lum_dc_bits_default) JPEG_FW_LUM_ID) as (tab' & E & _ & H);
    [vm_compute; repeat split; discriminate..|].
  exists tab'. split; [exact E|].
  destruct (H 11%nat 74 eq_refl) as (v & old & Hv & Ho & Hr). exists v. split; [exact Hv|].
  vm_compute in Ho. injection Ho as <-. rewrite Z.lor_0_r in Hr. exact Hr.
Defined.
