(* ===== verification/JpegSource.v ===== *)
(** * The bytes and the memory of the JPEG header parser

    The interface between the parser and its input ([ByteSource] and its
    laws), the buffered reader of
    src/common/libs/libcamera/jpeg_fw_8825/src/jpegdec_bitstream.c as an
    implementation of it, with a whole stream in memory or a file behind a
    read callback, and the memory pool of jpegdec_malloc.c. *)
From stdpp Require Import base list.
From Stdlib Require Import ZArith Lia.
From S2P Require Import Prelude.

(** ** The interface *)

(** [get_char] and [skip_n_byte]: their FALSE is an early exit, since every
    caller leaves with a failure then. *)
Class ByteSource (B : Type) := {
  next : M B Z;
  skip : Z -> M B unit
}.

(** What the parser relies on: the source stands for the list of bytes still
    to come; a byte is taken from its front; the end is permanent; a skip
    that succeeds drops bytes, one that fails changes nothing. *)
Class ByteSourceLaws (B : Type) `{!ByteSource B} := {
  content : B -> list Z;
  valid : B -> Prop;
  content_bytes b : valid b -> bytes (content b);
  next_cons b c l : valid b -> content b = c :: l ->
    exists b', next b = Ret c b' /\ valid b' /\ content b' = l;
  next_nil b : valid b -> content b = [] ->
    exists b', next b = Exit b' /\ valid b' /\ content b' = [];
  skip_spec b n : valid b -> 0 <= n ->
    skip n b = Exit b \/
    exists b', skip n b = Ret tt b' /\ valid b' /\ n <= zlen (content b) /\
      content b' = drop (Z.to_nat n) (content b)
}.

(** The reference source is the list itself. *)
#[export] Instance list_source : ByteSource (list Z) := {
  next l := match l with [] => Exit [] | c :: l => Ret c l end;
  skip n l := if n <=? zlen l then Ret tt (drop (Z.to_nat n) l) else Exit l
}.

(** ** The buffered reader *)

Record bitstream := Bitstream {
  read : option (Z -> Z -> list Z);  (* offset and length to the bytes delivered *)
  s_inter_buf_bitstream : list Z;
  s_inter_buf_bitstream_len : Z;
  s_inter_buf_ptr : Z;               (* as an index of the buffer *)
  s_jremain_byte_num : Z;
  s_header_len : Z;
  s_file_offset : Z
}.

(** [jpeg_fw_codec->read(s_inter_buf_bitstream, ...)] and the bookkeeping
    after it. *)
Definition refill (r : Z -> Z -> list Z) : M bitstream unit :=
  b <- get ;;
  let data := r (s_file_offset b) (s_inter_buf_bitstream_len b) in
  buf <- lift OutOfBounds (store (s_inter_buf_bitstream b) 0 data) ;;
  modify (fun b => Bitstream (read b) buf (s_inter_buf_bitstream_len b) 0
    (zlen data) (s_header_len b) (u32 (s_file_offset b + zlen data))).

(** [if (0 == s_jremain_byte_num && PNULL != jpeg_fw_codec->read)] *)
Definition refill_if_empty : M bitstream unit :=
  b <- get ;;
  match read b with
  | Some r => if 0 =? s_jremain_byte_num b then refill r else ret tt
  | None => ret tt
  end.

(** [if (s_jremain_byte_num > 0 && PNULL != value_ptr)] *)
Definition take_char : M bitstream Z :=
  b <- get ;;
  require (s_jremain_byte_num b >? 0) ;;;
  c <- lift OutOfBounds (aget (s_inter_buf_bitstream b) (s_inter_buf_ptr b)) ;;
  modify (fun b => Bitstream (read b) (s_inter_buf_bitstream b) (s_inter_buf_bitstream_len b)
    (s_inter_buf_ptr b + 1) (s_jremain_byte_num b - 1) (u32 (s_header_len b + 1)) (s_file_offset b)) ;;;
  ret c.

Definition get_char : M bitstream Z := refill_if_empty ;;; take_char.

Definition skip_n_byte (n : Z) : M bitstream unit :=
  b <- get ;;
  require (s_jremain_byte_num b >=? n) ;;;
  modify (fun b => Bitstream (read b) (s_inter_buf_bitstream b) (s_inter_buf_bitstream_len b)
    (s_inter_buf_ptr b + n) (s_jremain_byte_num b - n) (s_header_len b) (s_file_offset b)).

(** Reads memory behind the pointer whatever is left in the buffer. *)
Definition is_res_jpg_file : M bitstream bool :=
  b <- get ;;
  let at_ptr i := lift OutOfBounds (aget (s_inter_buf_bitstream b) (s_inter_buf_ptr b + i)) in
  c0 <- at_ptr 0 ;;
  if negb (0x53 =? c0) then ret false else
  c1 <- at_ptr 1 ;;
  if negb (0x4A =? c1) then ret false else
  c2 <- at_ptr 2 ;;
  if negb (0x50 =? c2) then ret false else
  c3 <- at_ptr 3 ;;
  ret (0x47 =? c3).

(** [for (i = 0; i < unligned_byte; i++)]; [&&] is two nested tests. *)
Fixpoint unstuff (n : nat) (buf : list Z) (ptr header_len : Z) : option Z :=
  match n with
  | O => Some header_len
  | S n =>
      c ← aget buf ptr;
      header_len ← (if c =? 0xff then c1 ← aget buf (ptr + 1);
                      Some (if c1 =? 0 then u32 (header_len - 1) else header_len)
                    else Some header_len);
      unstuff n buf (ptr + 1) header_len
  end.

Definition get_header_len : M bitstream Z :=
  b <- get ;;
  let wordAlign_len := Z.shiftl (Z.shiftr (s_header_len b) 2) 2 in
  let unligned_byte := s_header_len b - wordAlign_len in
  let ptr := s_inter_buf_ptr b - unligned_byte in
  if unligned_byte >? 1 then
    h <- lift OutOfBounds (unstuff (Z.to_nat unligned_byte) (s_inter_buf_bitstream b) ptr (s_header_len b)) ;;
    modify (fun b => Bitstream (read b) (s_inter_buf_bitstream b) (s_inter_buf_bitstream_len b)
      (s_inter_buf_ptr b) (s_jremain_byte_num b) h (s_file_offset b)) ;;;
    ret h
  else ret (s_header_len b).

#[export] Instance bitstream_source : ByteSource bitstream := {
  next := get_char;
  skip := skip_n_byte
}.

(** ** The memory pool *)

Record pool := Pool {
  s_extra_mem_bfr_ptr : Z;   (* 0 for NULL *)
  s_extra_mem_size : Z;
  s_used_extra_mem : Z
}.

(** [dec_buffer_ptr->buf_ptr], an address, and [buf_size]. *)
Definition JpegDec_InitMem (buf_ptr buf_size : Z) (p : pool) : pool :=
  if (buf_ptr =? 0) || (buf_size <? 4) then p else
  let addr := u32 (Z.shiftl (Z.shiftr (u32 (buf_ptr + 3)) 2) 2) in
  let diff := u32 (addr - buf_ptr) in
  Pool addr (u32 (buf_size - diff)) 0.

Definition JpegDec_FreeMem (p : pool) : pool :=
  Pool (s_extra_mem_bfr_ptr p) (s_extra_mem_size p) 0.

Definition JpegDec_FreeNBytes (mem_size : Z) (p : pool) : pool :=
  Pool (s_extra_mem_bfr_ptr p) (s_extra_mem_size p) (u32 (s_used_extra_mem p - mem_size)).

(** The bytes of the pool that are not handed out. *)
Definition available (p : pool) : Z :=
  if s_extra_mem_bfr_ptr p =? 0 then 0 else Z.max 0 (s_extra_mem_size p - s_used_extra_mem p).

(** The object returned, as the number of its bytes that lie in the pool: the
    check of the size is an assertion, which the build defines away, so a
    request the pool cannot serve returns a pointer all the same. *)
Definition JpegDec_ExtraMemAlloc (mem_size : Z) : M pool Z :=
  p <- get ;;
  modify (fun p => Pool (s_extra_mem_bfr_ptr p) (s_extra_mem_size p)
    (u32 (s_used_extra_mem p + u32 (Z.land (mem_size + 3) (Z.lnot 3))))) ;;;
  ret (Z.min mem_size (available p)).

(** An array of [n] elements of [size] bytes, zeroed with the whole pool by
    [JpegDec_InitMem]. *)
Definition alloc_array {A} (n size : Z) (zero : A) : M pool (list A) :=
  k <- JpegDec_ExtraMemAlloc (n * size) ;;
  ret (replicate (Z.to_nat (k / size)) zero).

(** [JpegDec_InitBitream], for a stream in memory, or for a read callback,
    whose buffer is taken from the pool. *)
Definition JpegDec_InitBitream (read_bitstream : option (Z -> Z -> list Z)) (bitstream_ptr : list Z)
    (bitstream_len : Z) : M pool (outcome bitstream unit) :=
  match read_bitstream with
  | Some r =>
      let bitstream_len := 3 * 1024 in
      buf <- alloc_array bitstream_len 1 0 ;;
      ret (refill r (Bitstream (Some r) buf bitstream_len 0 bitstream_len 0 0))
  | None =>
      ret (Ret tt (Bitstream None bitstream_ptr bitstream_len 0 bitstream_len 0 0))
  end.

(** ** The reader implements the interface *)

#[export] Program Instance list_source_laws : ByteSourceLaws (list Z) := {
  content l := l;
  valid := bytes
}.
Next Obligation. done. Qed.
Next Obligation.
  intros b c l Hb E. cbn in E. subst b. exists l. split_and!; [done| |done].
  by apply Forall_cons in Hb as [_ ?].
Qed.
Next Obligation. intros b Hb E. cbn in E. subst b. by exists []. Qed.
Next Obligation.
  intros b n Hb Hn. simpl. destruct (Z.leb_spec n (zlen b)); [right|by left].
  exists (drop (Z.to_nat n) b). split_and!; [done| |done|done]. by apply Forall_drop.
Qed.

Lemma take_drop_length {A} k (l : list A) : take k l ++ drop (length (take k l)) l = l.
Proof.
  rewrite length_take. destruct (decide (k <= length l)%nat).
  - by rewrite Nat.min_l, take_drop.
  - rewrite take_ge, drop_ge by lia. apply app_nil_r.
Qed.

Section reader.
(** The file behind the callback. *)
Context (file : list Z).

(** The callback delivers bytes of the file from the offset on, at most as
    many as asked for and at least one while there are any. *)
Definition delivers (r : Z -> Z -> list Z) : Prop :=
  forall off len, 0 <= off <= zlen file -> 0 < len ->
    exists k, r off len = take k (drop (Z.to_nat off) file) /\ Z.of_nat k <= len /\
      (off < zlen file -> (0 < k)%nat).

Definition reader_content (b : bitstream) : list Z :=
  take (Z.to_nat (s_jremain_byte_num b)) (drop (Z.to_nat (s_inter_buf_ptr b)) (s_inter_buf_bitstream b))
  ++ match read b with Some _ => drop (Z.to_nat (s_file_offset b)) file | None => [] end.

Record reader_valid (b : bitstream) : Prop := ReaderValid {
  rv_ptr : 0 <= s_inter_buf_ptr b;
  rv_remain : 0 <= s_jremain_byte_num b;
  rv_end : s_inter_buf_ptr b + s_jremain_byte_num b <= zlen (s_inter_buf_bitstream b);
  rv_buf : bytes (s_inter_buf_bitstream b);
  rv_read : match read b with
            | None => True
            | Some r => delivers r /\ bytes file /\ zlen file < 4294967296 /\
                0 <= s_file_offset b <= zlen file /\
                0 < s_inter_buf_bitstream_len b <= zlen (s_inter_buf_bitstream b)
            end
}.

Lemma reader_bytes b : reader_valid b -> bytes (reader_content b).
Proof.
  intros [_ _ _ Hbuf Hr]. apply bytes_app. split; [by apply Forall_take, Forall_drop|].
  destruct (read b); [|constructor]. apply Forall_drop. naive_solver.
Qed.

(** One byte from a buffer that has some. *)
Lemma take_char_buffered b :
  reader_valid b -> 0 < s_jremain_byte_num b ->
  exists c l b', reader_content b = c :: l /\ take_char b = Ret c b' /\ reader_valid b' /\
    reader_content b' = l.
Proof.
  intros [Hp Hr He Hb Hf] Hpos. destruct b as [rd buf len ptr remain hl off]; cbn in *.
  destruct (aget_is_Some buf ptr) as [c Hc]; [lia|]. exists c.
  eexists _, (Bitstream rd buf len (ptr + 1) (remain - 1) (u32 (hl + 1)) off).
  assert (Hd : drop (Z.to_nat ptr) buf = c :: drop (Z.to_nat (ptr + 1)) buf).
  { apply aget_Some in Hc as [_ Hc]. replace (Z.to_nat (ptr + 1)) with (S (Z.to_nat ptr)) by lia.
    by apply drop_S. }
  split; [|split; [|split; [|reflexivity]]].
  - unfold reader_content. cbn. rewrite Hd.
    replace (Z.to_nat remain) with (S (Z.to_nat (remain - 1))) by lia. reflexivity.
  - unfold take_char, bind, get. destruct remain as [|p|p]; [lia| |lia].
    cbn -[aget u32]. by rewrite Hc.
  - constructor; cbn; [lia..|done|done].
Qed.

Lemma take_char_empty b : s_jremain_byte_num b = 0 -> take_char b = Exit b.
Proof. intros Hz. unfold take_char, bind, get. by rewrite Hz. Qed.

Lemma refill_spec r b :
  reader_valid b -> read b = Some r -> s_jremain_byte_num b = 0 ->
  exists b', refill r b = Ret tt b' /\ reader_valid b' /\ reader_content b' = reader_content b /\
    read b' = Some r /\ (reader_content b <> [] -> 0 < s_jremain_byte_num b').
Proof.
  intros [Hp _ He Hb Hf] Hrd Hz. destruct b as [rd buf len ptr remain hl off]; cbn in *. subst rd remain.
  destruct Hf as (Hdel & Hbf & Hlt & Hoff & Hlen). destruct (Hdel off len Hoff ltac:(lia)) as (k & Hr & Hk & Hpos).
  set (data := take k (drop (Z.to_nat off) file)) in *.
  assert (Hdl : zlen data <= len /\ zlen data <= zlen file - off).
  { unfold zlen, data in *. rewrite length_take, length_drop. lia. }
  pose proof (zlen_nonneg data) as Hdn.
  assert (Hs : store buf 0 data = Some (data ++ drop (length data) buf)).
  { pose proof (store_into [] buf [] data) as H. rewrite !app_nil_r in H. apply H. unfold zlen in *. lia. }
  assert (Hlb : length (data ++ drop (length data) buf) = length buf).
  { by apply store_length in Hs. }
  eexists. split; [|split; [|split; [|split]]].
  - unfold refill, bind, get, lift, modify. cbn. rewrite Hr, Hs. reflexivity.
  - constructor; cbn.
    + lia.
    + done.
    + unfold zlen in *. rewrite Hlb. lia.
    + apply bytes_app. split; [by apply Forall_take, Forall_drop|by apply Forall_drop].
    + split_and!; [done|done|done|rewrite u32_small by lia; lia..| |]; [lia|]. unfold zlen in *. rewrite Hlb. lia.
  - unfold reader_content. cbn. change (Z.to_nat 0) with 0%nat. cbn [take app].
    rewrite u32_small by lia. unfold zlen. rewrite Nat2Z.id, drop_0, take_app_length, take_0.
    replace (Z.to_nat (off + Z.of_nat (length data))) with (Z.to_nat off + length data)%nat by lia.
    rewrite <- drop_drop. apply take_drop_length.
  - reflexivity.
  - cbn. change (Z.to_nat 0) with 0%nat. unfold reader_content. cbn. intros Hne.
    assert (off < zlen file).
    { destruct (decide (off < zlen file)); [done|]. exfalso. apply Hne. apply drop_ge. unfold zlen in *. lia. }
    unfold zlen, data in *. rewrite length_take, length_drop. specialize (Hpos ltac:(lia)). lia.
Qed.

(** Refilling keeps what is to come, and leaves the buffer empty only at the
    end. *)
Lemma refill_if_empty_spec b :
  reader_valid b ->
  exists b', refill_if_empty b = Ret tt b' /\ reader_valid b' /\ reader_content b' = reader_content b /\
    (reader_content b <> [] -> 0 < s_jremain_byte_num b').
Proof.
  intros Hv. unfold refill_if_empty, bind, get.
  destruct (decide (s_jremain_byte_num b = 0)) as [Hz|Hz].
  - destruct (read b) as [r|] eqn:Hr.
    + destruct (refill_spec r b Hv Hr Hz) as (b' & E & ? & ? & _ & ?). rewrite Hz. by exists b'.
    + exists b. split_and!; [done..|]. unfold reader_content. by rewrite Hr, Hz, take_0.
  - exists b. split_and!; [|done..|intros _; destruct Hv; lia].
    destruct (read b); [|done]. by rewrite (proj2 (Z.eqb_neq 0 _)) by done.
Qed.

Lemma get_char_next b c l :
  reader_valid b -> reader_content b = c :: l ->
  exists b', get_char b = Ret c b' /\ reader_valid b' /\ reader_content b' = l.
Proof.
  intros Hv Hc. destruct (refill_if_empty_spec b Hv) as (b1 & E1 & Hv1 & Hc1 & Hp1).
  rewrite Hc in Hc1, Hp1. destruct (take_char_buffered b1 Hv1 (Hp1 ltac:(done))) as (c' & l' & b' & E & Hg & Hv' & Hl).
  rewrite Hc1 in E. injection E as <- <-. exists b'. split_and!; [|done..].
  unfold get_char, bind. by rewrite E1.
Qed.

Lemma get_char_end b :
  reader_valid b -> reader_content b = [] ->
  exists b', get_char b = Exit b' /\ reader_valid b' /\ reader_content b' = [].
Proof.
  intros Hv Hc. destruct (refill_if_empty_spec b Hv) as (b1 & E1 & Hv1 & Hc1 & _). rewrite Hc in Hc1.
  exists b1. split_and!; [|done..]. unfold get_char, bind. rewrite E1. apply take_char_empty.
  destruct (decide (0 < s_jremain_byte_num b1)) as [Hpos|]; [|destruct Hv1; lia].
  destruct (take_char_buffered b1 Hv1 Hpos) as (? & ? & ? & E & _). by rewrite Hc1 in E.
Qed.

Lemma skip_n_byte_spec b n :
  reader_valid b -> 0 <= n ->
  skip_n_byte n b = Exit b \/
  exists b', skip_n_byte n b = Ret tt b' /\ reader_valid b' /\ n <= zlen (reader_content b) /\
    reader_content b' = drop (Z.to_nat n) (reader_content b).
Proof.
  intros [Hp Hr He Hb Hf] Hn. unfold skip_n_byte, bind, get, require, modify.
  destruct b as [rd buf len ptr remain hl off]; cbn -[Z.geb] in *.
  destruct (Z.geb_spec remain n); [right|by left]. eexists. split; [reflexivity|].
  assert (Hl : length (take (Z.to_nat remain) (drop (Z.to_nat ptr) buf)) = Z.to_nat remain).
  { rewrite length_take, length_drop. unfold zlen in *. lia. }
  split; [|split].
  - constructor; cbn; [lia..|done|done].
  - unfold reader_content. cbn. rewrite zlen_app. unfold zlen at 1. rewrite Hl.
    pose proof (zlen_nonneg (match rd with Some _ => drop (Z.to_nat off) file | None => [] end)). lia.
  - unfold reader_content. cbn. rewrite drop_app_le by lia. f_equal.
    replace (Z.to_nat remain) with (Z.to_nat n + Z.to_nat (remain - n))%nat by lia.
    rewrite <- take_drop_commute, drop_drop. by rewrite Z2Nat.inj_add by lia.
Qed.

(** The reader as an implementation of [ByteSource]. *)
Definition bitstream_source_laws : ByteSourceLaws bitstream := {|
  content := reader_content;
  valid := reader_valid;
  content_bytes := reader_bytes;
  next_cons := get_char_next;
  next_nil := get_char_end;
  skip_spec := skip_n_byte_spec
|}.
End reader.

(** [n] calls of [get_char] in a row. *)
Fixpoint get_chars {B} `{ByteSource B} (n : nat) : M B (list Z) :=
  match n with
  | O => ret []
  | S n => c <- next ;; l <- get_chars n ;; ret (c :: l)
  end.

Lemma get_chars_content {B} `{ByteSourceLaws B} n b :
  valid b -> (n <= length (content b))%nat ->
  exists b', get_chars n b = Ret (take n (content b)) b' /\ valid b' /\ content b' = drop n (content b).
Proof.
  revert b. induction n as [|n IH]; intros b Hv Hn; [by exists b|].
  destruct (content b) as [|c l] eqn:E; [simpl in Hn; lia|].
  destruct (next_cons b c l Hv E) as (b1 & E1 & Hv1 & Hc1). cbn [get_chars].
  destruct (IH b1 Hv1) as (b2 & E2 & Hv2 & Hc2); [rewrite Hc1; simpl in Hn; lia|].
  exists b2. rewrite Hc1 in *. split_and!; [|done..].
  unfold bind. by rewrite E1, E2.
Qed.

(** ** The pool *)

Lemma JpegDec_ExtraMemAlloc_fits n p :
  s_extra_mem_bfr_ptr p <> 0 -> 0 <= s_used_extra_mem p -> 0 <= n ->
  s_used_extra_mem p + n + 3 <= s_extra_mem_size p < 4294967296 ->
  JpegDec_ExtraMemAlloc n p
  = Ret n (Pool (s_extra_mem_bfr_ptr p) (s_extra_mem_size p) (s_used_extra_mem p + (n + 3) / 4 * 4)).
Proof.
  intros Hp Hu Hn Hs. unfold JpegDec_ExtraMemAlloc, bind, get, modify, ret. cbv beta iota.
  rewrite (land_lnot_ones (n + 3) 2 ltac:(lia) : Z.land (n + 3) (Z.lnot 3) = (n + 3) / 4 * 4). f_equal.
  - unfold available. rewrite (proj2 (Z.eqb_neq _ _)) by done. lia.
  - f_equal. wrap_lia.
Qed.

(** C30: reading a file through the 3 KB buffer and the read callback gives the
    file's bytes: once the reader is set up from a pool with room for its
    buffer, whatever pieces the callback delivers, [n] calls of [get_char]
    return the first [n] bytes of the file and leave the rest to come, and
    the call after the last byte fails. *)
Theorem reader_reads_file file r p n :
  delivers file r -> bytes file -> zlen file < 4294967296 -> (n <= length file)%nat ->
  s_extra_mem_bfr_ptr p <> 0 -> 0 <= s_used_extra_mem p ->
  s_used_extra_mem p + 3075 <= s_extra_mem_size p < 4294967296 ->
  exists b0 b p',
    JpegDec_InitBitream (Some r) [] 0 p = Ret (Ret tt b0) p' /\
    s_used_extra_mem p' = s_used_extra_mem p + 3072 /\
    get_chars n b0 = Ret (take n file) b /\
    (n = length file -> exists b', get_char b = Exit b').
Proof.
  intros Hd Hb Hl Hn Hp Hu Hs.
  assert (Hbuf : exists buf, replicate 3072 0 = buf /\ bytes buf /\ length buf = 3072%nat).
  { eexists. split_and!; [reflexivity|apply Forall_replicate; unfold byte; lia|apply length_replicate]. }
  destruct Hbuf as (buf & Ebuf & Hbb & Hbl).
  set (init := Bitstream (Some r) buf 3072 0 0 0 0).
  assert (Hv : reader_valid file init).
  { pose proof (zlen_nonneg file).
    constructor; cbn [init s_inter_buf_ptr s_jremain_byte_num s_inter_buf_bitstream read s_file_offset
      s_inter_buf_bitstream_len]; unfold zlen in *; [lia..|done|]. rewrite Hbl. split_and!; [done|done|done|lia..]. }
  destruct (refill_spec file r init Hv eq_refl eq_refl) as (b0 & E0 & Hv0 & Hc0 & _ & _).
  pose (L := bitstream_source_laws file).
  assert (Hfile : reader_content file b0 = file).
  { rewrite Hc0. unfold reader_content. cbn. by rewrite take_0, drop_0. }
  destruct (@get_chars_content _ _ L n b0 Hv0) as (b & E & Hv1 & Hc1); [by cbn; rewrite Hfile|].
  cbn in E, Hv1, Hc1. rewrite Hfile in E, Hc1.
  exists b0, b. eexists. split_and!.
  - unfold JpegDec_InitBitream, alloc_array, bind. change (3 * 1024 * 1) with 3072.
    rewrite JpegDec_ExtraMemAlloc_fits by lia. change (Z.to_nat (3072 / 1)) with 3072%nat.
    rewrite Ebuf. unfold ret. f_equal. rewrite <- E0.
    change (3 * 1024) with 3072. unfold refill, bind, get, lift, init.
    cbn [s_file_offset s_inter_buf_bitstream_len s_inter_buf_bitstream]. by destruct (store _ _ _).
  - reflexivity.
  - exact E.
  - intros ->. destruct (get_char_end file b Hv1) as (b' & Eb & _); [|by exists b'].
    rewrite Hc1. by apply drop_ge.
Qed.

Lemma reader_reads_file_witness :
  exists b0 b p',
    JpegDec_InitBitream (Some (fun off len => take (Z.to_nat (Z.min len 2)) (drop (Z.to_nat off) [255; 216; 255])))
      [] 0 (Pool 4096 8192 0) = Ret (Ret tt b0) p' /\
    s_used_extra_mem p' = 3072 /\ get_chars 3 b0 = Ret [255; 216; 255] b /\
    (3%nat = 3%nat -> exists b', get_char b = Exit b').
Proof.
  apply (reader_reads_file [255; 216; 255] (fun off len =>
    take (Z.to_nat (Z.min len 2)) (drop (Z.to_nat off) [255; 216; 255])) (Pool 4096 8192 0) 3).
  - intros off len Hoff Hlen. exists (Z.to_nat (Z.min len 2)). split_and!; [done|lia|lia].
  - by_bytes.
  - reflexivity.
  - simpl. lia.
  - discriminate.
  - discriminate.
  - vm_compute. split; [discriminate|reflexivity].
Defined.
