(* ===== verification/JpegCodec.v ===== *)
(** * Data of the JPEG codec

    The markers and formats of inc/jpeg_jfif.h and vsp_global_define.h, and
    the members of [JPEG_CODEC_T] (inc/jpegcodec_def.h) and
    [JPEG_DEC_INPUT_PARA_T] (inc/jpeg_fw_def.h) that the modelled functions use,
    with a function that sets each. *)
From stdpp Require Import base list.
From Stdlib Require Import ZArith Lia.
From S2P Require Import Prelude JpegHuff.

(** ** Constants *)

Inductive JPEG_MARKER_E :=
  | M_SOF0 | M_SOF1 | M_SOF2 | M_SOF3 | M_SOF5 | M_SOF6 | M_SOF7 | M_JPG | M_SOF9 | M_SOF10
  | M_SOF11 | M_SOF13 | M_SOF14 | M_SOF15 | M_DHT | M_DAC
  | M_RST0 | M_RST1 | M_RST2 | M_RST3 | M_RST4 | M_RST5 | M_RST6 | M_RST7
  | M_SOI | M_EOI | M_SOS | M_DQT | M_DNL | M_DRI | M_DHP | M_EXP
  | M_APP0 | M_APP1 | M_TEM | M_ERROR.

Definition marker_code (m : JPEG_MARKER_E) : Z :=
  match m with
  | M_SOF0 => 0xc0 | M_SOF1 => 0xc1 | M_SOF2 => 0xc2 | M_SOF3 => 0xc3
  | M_SOF5 => 0xc5 | M_SOF6 => 0xc6 | M_SOF7 => 0xc7 | M_JPG => 0xc8
  | M_SOF9 => 0xc9 | M_SOF10 => 0xca | M_SOF11 => 0xcb | M_SOF13 => 0xcd
  | M_SOF14 => 0xce | M_SOF15 => 0xcf | M_DHT => 0xc4 | M_DAC => 0xcc
  | M_RST0 => 0xd0 | M_RST1 => 0xd1 | M_RST2 => 0xd2 | M_RST3 => 0xd3
  | M_RST4 => 0xd4 | M_RST5 => 0xd5 | M_RST6 => 0xd6 | M_RST7 => 0xd7
  | M_SOI => 0xd8 | M_EOI => 0xd9 | M_SOS => 0xda | M_DQT => 0xdb
  | M_DNL => 0xdc | M_DRI => 0xdd | M_DHP => 0xde | M_EXP => 0xdf
  | M_APP0 => 0xe0 | M_APP1 => 0xe1 | M_TEM => 0x01 | M_ERROR => 0x100
  end.

(** The markers a header must not contain. *)
Definition unexpected_markers : list JPEG_MARKER_E :=
  [M_SOF3; M_SOF5; M_SOF6; M_SOF7; M_JPG; M_SOF9; M_SOF10; M_SOF11; M_SOF13; M_SOF14; M_SOF15;
   M_DAC; M_RST0; M_RST1; M_RST2; M_RST3; M_RST4; M_RST5; M_RST6; M_RST7; M_TEM].

Definition JPEG_FW_YUV420 : Z := 0.
Definition JPEG_FW_YUV411 : Z := 1.
Definition JPEG_FW_YUV444 : Z := 2.
Definition JPEG_FW_YUV422 : Z := 3.
Definition JPEG_FW_YUV400 : Z := 4.
Definition JPEG_FW_YUV422_R : Z := 5.
Definition JPEG_FW_YUV411_R : Z := 6.

Definition JPEG_QUALITY_LOW : Z := 0.
Definition JPEG_QUALITY_MIDDLE_LOW : Z := 1.
Definition JPEG_QUALITY_MIDDLE : Z := 2.
Definition JPEG_QUALITY_MIDDLE_HIGH : Z := 3.
Definition JPEG_QUALITY_HIGH : Z := 4.

(** ** Records *)

(** Of [jpeg_component_info] the members the parser stores. *)
Record jpeg_component_info := CompInfo {
  component_id : Z;
  component_index : Z;
  h_samp_factor : Z;
  v_samp_factor : Z;
  MCU_width : Z;
  MCU_height : Z
}.

Record SAMPLE_RATIO_T := Ratio {
  h_ratio : Z;
  v_ratio : Z
}.

Record TBL_MAP_T := TblMap {
  dc_huff_tbl_id : Z;
  ac_huff_tbl_id : Z;
  quant_tbl_id : Z
}.

(** Of [JPEG_DEC_INPUT_PARA_T] the members the parser stores. *)
Record JPEG_DEC_INPUT_PARA_T := DecInput {
  di_progressive_mode : bool;
  input_width : Z;
  input_height : Z;
  di_input_mcu_info : Z;
  quant_level : Z;
  header_len : Z
}.

(** Of [JPEG_CODEC_T] the members the modelled functions use; [None] is a null pointer. *)
Record JPEG_CODEC_T := Codec {
  restart_interval : Z;
  restart_to_go : Z;
  next_restart_num : Z;
  dc_pred_y : Z;
  dc_pred_uv : Z;
  restart_mcu_cnt : Z;
  bitstream_offset : Z;
  width : Z;
  height : Z;
  c_width : Z;
  c_height : Z;
  out_width : Z;
  out_height : Z;
  ratio : list SAMPLE_RATIO_T;
  input_mcu_info : Z;
  compress_level : Z;
  RST_Count : Z;
  tbl_map : list TBL_MAP_T;
  mcu_num_x : Z;
  mcu_num_y : Z;
  mcu_height : Z;
  mcu_width : Z;
  progressive_mode : bool;
  num_components : Z;
  scale_factor : Z;
  pingpang_buf_len : Z;
  dc_huff_tbl : list (option HUFF_TBL_T);
  ac_huff_tbl : list (option HUFF_TBL_T);
  quant_tbl : list (option (list Z));
  quant_tbl_new : list (option (list Z));
  quant_tbl_shift : list (option (list Z));
  using_default_huff_tab : bool;
  using_default_quant_tab : bool;
  work_mode : Z;
  is_first_slice : bool;
  is_last_slice : bool;
  comp_id_map : list Z;
  comp_info : option (list jpeg_component_info);
  comps_in_scan : Z;
  Ss : Z;
  Se : Z;
  Ah : Z;
  Al : Z;
  input_scan_number : Z;
  is_res_file : bool
}.

(** ** Assignments to members *)

Definition dec_input_eta (i : JPEG_DEC_INPUT_PARA_T) : JPEG_DEC_INPUT_PARA_T :=
  DecInput (di_progressive_mode i) (input_width i) (input_height i) (di_input_mcu_info i)
    (quant_level i) (header_len i).

Definition codec_eta (c : JPEG_CODEC_T) : JPEG_CODEC_T :=
  Codec (restart_interval c) (restart_to_go c) (next_restart_num c) (dc_pred_y c) (dc_pred_uv c)
    (restart_mcu_cnt c) (bitstream_offset c) (width c) (height c) (c_width c) (c_height c)
    (out_width c) (out_height c) (ratio c) (input_mcu_info c) (compress_level c) (RST_Count c)
    (tbl_map c) (mcu_num_x c) (mcu_num_y c) (mcu_height c) (mcu_width c) (progressive_mode c)
    (num_components c) (scale_factor c) (pingpang_buf_len c) (dc_huff_tbl c) (ac_huff_tbl c)
    (quant_tbl c) (quant_tbl_new c) (quant_tbl_shift c) (using_default_huff_tab c)
    (using_default_quant_tab c) (work_mode c) (is_first_slice c) (is_last_slice c)
    (comp_id_map c) (comp_info c) (comps_in_scan c) (Ss c) (Se c) (Ah c) (Al c)
    (input_scan_number c) (is_res_file c).

(** The record [e], written out, with [v] in place of the member [g]. *)
Ltac with_field g v e :=
  let e := eval cbv beta delta [codec_eta dec_input_eta] in e in
  lazymatch eval pattern g in e with
  | ?f _ => let r := eval cbv beta in (f v) in exact r
  end.

Definition set_di_progressive_mode (v : bool) (i : JPEG_DEC_INPUT_PARA_T) : JPEG_DEC_INPUT_PARA_T :=
  ltac:(with_field (di_progressive_mode i) v (dec_input_eta i)).
Definition set_input_width (v : Z) (i : JPEG_DEC_INPUT_PARA_T) : JPEG_DEC_INPUT_PARA_T :=
  ltac:(with_field (input_width i) v (dec_input_eta i)).
Definition set_input_height (v : Z) (i : JPEG_DEC_INPUT_PARA_T) : JPEG_DEC_INPUT_PARA_T :=
  ltac:(with_field (input_height i) v (dec_input_eta i)).
Definition set_di_input_mcu_info (v : Z) (i : JPEG_DEC_INPUT_PARA_T) : JPEG_DEC_INPUT_PARA_T :=
  ltac:(with_field (di_input_mcu_info i) v (dec_input_eta i)).
Definition set_quant_level (v : Z) (i : JPEG_DEC_INPUT_PARA_T) : JPEG_DEC_INPUT_PARA_T :=
  ltac:(with_field (quant_level i) v (dec_input_eta i)).
Definition set_header_len (v : Z) (i : JPEG_DEC_INPUT_PARA_T) : JPEG_DEC_INPUT_PARA_T :=
  ltac:(with_field (header_len i) v (dec_input_eta i)).

Definition set_restart_interval (v : Z) (c : JPEG_CODEC_T) : JPEG_CODEC_T :=
  ltac:(with_field (restart_interval c) v (codec_eta c)).
Definition set_restart_to_go (v : Z) (c : JPEG_CODEC_T) : JPEG_CODEC_T :=
  ltac:(with_field (restart_to_go c) v (codec_eta c)).
Definition set_next_restart_num (v : Z) (c : JPEG_CODEC_T) : JPEG_CODEC_T :=
  ltac:(with_field (next_restart_num c) v (codec_eta c)).
Definition set_dc_pred_y (v : Z) (c : JPEG_CODEC_T) : JPEG_CODEC_T :=
  ltac:(with_field (dc_pred_y c) v (codec_eta c)).
Definition set_dc_pred_uv (v : Z) (c : JPEG_CODEC_T) : JPEG_CODEC_T :=
  ltac:(with_field (dc_pred_uv c) v (codec_eta c)).
Definition set_restart_mcu_cnt (v : Z) (c : JPEG_CODEC_T) : JPEG_CODEC_T :=
  ltac:(with_field (restart_mcu_cnt c) v (codec_eta c)).
Definition set_bitstream_offset (v : Z) (c : JPEG_CODEC_T) : JPEG_CODEC_T :=
  ltac:(with_field (bitstream_offset c) v (codec_eta c)).
Definition set_width (v : Z) (c : JPEG_CODEC_T) : JPEG_CODEC_T :=
  ltac:(with_field (width c) v (codec_eta c)).
Definition set_height (v : Z) (c : JPEG_CODEC_T) : JPEG_CODEC_T :=
  ltac:(with_field (height c) v (codec_eta c)).
Definition set_c_width (v : Z) (c : JPEG_CODEC_T) : JPEG_CODEC_T :=
  ltac:(with_field (c_width c) v (codec_eta c)).
Definition set_c_height (v : Z) (c : JPEG_CODEC_T) : JPEG_CODEC_T :=
  ltac:(with_field (c_height c) v (codec_eta c)).
Definition set_out_width (v : Z) (c : JPEG_CODEC_T) : JPEG_CODEC_T :=
  ltac:(with_field (out_width c) v (codec_eta c)).
Definition set_out_height (v : Z) (c : JPEG_CODEC_T) : JPEG_CODEC_T :=
  ltac:(with_field (out_height c) v (codec_eta c)).
Definition set_ratio (v : list SAMPLE_RATIO_T) (c : JPEG_CODEC_T) : JPEG_CODEC_T :=
  ltac:(with_field (ratio c) v (codec_eta c)).
Definition set_input_mcu_info (v : Z) (c : JPEG_CODEC_T) : JPEG_CODEC_T :=
  ltac:(with_field (input_mcu_info c) v (codec_eta c)).
Definition set_compress_level (v : Z) (c : JPEG_CODEC_T) : JPEG_CODEC_T :=
  ltac:(with_field (compress_level c) v (codec_eta c)).
Definition set_RST_Count (v : Z) (c : JPEG_CODEC_T) : JPEG_CODEC_T :=
  ltac:(with_field (RST_Count c) v (codec_eta c)).
Definition set_tbl_map (v : list TBL_MAP_T) (c : JPEG_CODEC_T) : JPEG_CODEC_T :=
  ltac:(with_field (tbl_map c) v (codec_eta c)).
Definition set_mcu_num_x (v : Z) (c : JPEG_CODEC_T) : JPEG_CODEC_T :=
  ltac:(with_field (mcu_num_x c) v (codec_eta c)).
Definition set_mcu_num_y (v : Z) (c : JPEG_CODEC_T) : JPEG_CODEC_T :=
  ltac:(with_field (mcu_num_y c) v (codec_eta c)).
Definition set_mcu_height (v : Z) (c : JPEG_CODEC_T) : JPEG_CODEC_T :=
  ltac:(with_field (mcu_height c) v (codec_eta c)).
Definition set_mcu_width (v : Z) (c : JPEG_CODEC_T) : JPEG_CODEC_T :=
  ltac:(with_field (mcu_width c) v (codec_eta c)).
Definition set_progressive_mode (v : bool) (c : JPEG_CODEC_T) : JPEG_CODEC_T :=
  ltac:(with_field (progressive_mode c) v (codec_eta c)).
Definition set_num_components (v : Z) (c : JPEG_CODEC_T) : JPEG_CODEC_T :=
  ltac:(with_field (num_components c) v (codec_eta c)).
Definition set_scale_factor (v : Z) (c : JPEG_CODEC_T) : JPEG_CODEC_T :=
  ltac:(with_field (scale_factor c) v (codec_eta c)).
Definition set_pingpang_buf_len (v : Z) (c : JPEG_CODEC_T) : JPEG_CODEC_T :=
  ltac:(with_field (pingpang_buf_len c) v (codec_eta c)).
Definition set_dc_huff_tbl (v : list (option HUFF_TBL_T)) (c : JPEG_CODEC_T) : JPEG_CODEC_T :=
  ltac:(with_field (dc_huff_tbl c) v (codec_eta c)).
Definition set_ac_huff_tbl (v : list (option HUFF_TBL_T)) (c : JPEG_CODEC_T) : JPEG_CODEC_T :=
  ltac:(with_field (ac_huff_tbl c) v (codec_eta c)).
Definition set_quant_tbl (v : list (option (list Z))) (c : JPEG_CODEC_T) : JPEG_CODEC_T :=
  ltac:(with_field (quant_tbl c) v (codec_eta c)).
Definition set_quant_tbl_new (v : list (option (list Z))) (c : JPEG_CODEC_T) : JPEG_CODEC_T :=
  ltac:(with_field (quant_tbl_new c) v (codec_eta c)).
Definition set_quant_tbl_shift (v : list (option (list Z))) (c : JPEG_CODEC_T) : JPEG_CODEC_T :=
  ltac:(with_field (quant_tbl_shift c) v (codec_eta c)).
Definition set_using_default_huff_tab (v : bool) (c : JPEG_CODEC_T) : JPEG_CODEC_T :=
  ltac:(with_field (using_default_huff_tab c) v (codec_eta c)).
Definition set_using_default_quant_tab (v : bool) (c : JPEG_CODEC_T) : JPEG_CODEC_T :=
  ltac:(with_field (using_default_quant_tab c) v (codec_eta c)).
Definition set_work_mode (v : Z) (c : JPEG_CODEC_T) : JPEG_CODEC_T :=
  ltac:(with_field (work_mode c) v (codec_eta c)).
Definition set_is_first_slice (v : bool) (c : JPEG_CODEC_T) : JPEG_CODEC_T :=
  ltac:(with_field (is_first_slice c) v (codec_eta c)).
Definition set_is_last_slice (v : bool) (c : JPEG_CODEC_T) : JPEG_CODEC_T :=
  ltac:(with_field (is_last_slice c) v (codec_eta c)).
Definition set_comp_id_map (v : list Z) (c : JPEG_CODEC_T) : JPEG_CODEC_T :=
  ltac:(with_field (comp_id_map c) v (codec_eta c)).
Definition set_comp_info (v : option (list jpeg_component_info)) (c : JPEG_CODEC_T) : JPEG_CODEC_T :=
  ltac:(with_field (comp_info c) v (codec_eta c)).
Definition set_comps_in_scan (v : Z) (c : JPEG_CODEC_T) : JPEG_CODEC_T :=
  ltac:(with_field (comps_in_scan c) v (codec_eta c)).
Definition set_Ss (v : Z) (c : JPEG_CODEC_T) : JPEG_CODEC_T :=
  ltac:(with_field (Ss c) v (codec_eta c)).
Definition set_Se (v : Z) (c : JPEG_CODEC_T) : JPEG_CODEC_T :=
  ltac:(with_field (Se c) v (codec_eta c)).
Definition set_Ah (v : Z) (c : JPEG_CODEC_T) : JPEG_CODEC_T :=
  ltac:(with_field (Ah c) v (codec_eta c)).
Definition set_Al (v : Z) (c : JPEG_CODEC_T) : JPEG_CODEC_T :=
  ltac:(with_field (Al c) v (codec_eta c)).
Definition set_input_scan_number (v : Z) (c : JPEG_CODEC_T) : JPEG_CODEC_T :=
  ltac:(with_field (input_scan_number c) v (codec_eta c)).
Definition set_is_res_file (v : bool) (c : JPEG_CODEC_T) : JPEG_CODEC_T :=
  ltac:(with_field (is_res_file c) v (codec_eta c)).

(** [SCI_MEMSET(jpeg_fw_codec, 0, sizeof(JPEG_CODEC_T))] *)
Definition zeroed_codec : JPEG_CODEC_T :=
  Codec 0 0 0 0 0 0 0 0 0 0 0 0 0 (replicate 3 (Ratio 0 0)) 0 0 0 (replicate 3 (TblMap 0 0 0)) 0
    0 0 0 false 0 0 0 (replicate 4 None) (replicate 4 None) (replicate 3 None)
    (replicate 3 None) (replicate 3 None) false false 0 false false (replicate 3 0) None 0 0 0 0
    0 0 false.
