(* ===== verification/JpegParse.v ===== *)
(** * The JPEG header parser

    src/common/libs/libcamera/jpeg_fw_8825/src/jpegdec_parse.c over any
    [ByteSource], and [JPEG_FWParseHead] of jpegdec_interface.c over the
    buffered reader. JPEG_FAILED and a FALSE of the readers are early exits;
    traces are left out. [fuel] bounds the loops that end with the input. *)
From stdpp Require Import base list.
From Stdlib Require Import ZArith Lia.
From S2P Require Import Prelude JpegTables JpegHuff JpegSource JpegCodec.

(** ** Definitions *)

(** The parser's state: its input, the memory pool, the caller's parameters,
    the codec and the flag [g_huff_tbl_malloced]. *)
Record parser (B : Type) := Parser {
  src : B;
  mem : pool;
  inp : JPEG_DEC_INPUT_PARA_T;
  codec : JPEG_CODEC_T;
  g_huff_tbl_malloced : bool
}.
Arguments Parser {B}.
Arguments src {B}.
Arguments mem {B}.
Arguments inp {B}.
Arguments codec {B}.
Arguments g_huff_tbl_malloced {B}.

Definition set_src {B} (b : B) (s : parser B) : parser B :=
  Parser b (mem s) (inp s) (codec s) (g_huff_tbl_malloced s).
Definition set_mem {B} (p : pool) (s : parser B) : parser B :=
  Parser (src s) p (inp s) (codec s) (g_huff_tbl_malloced s).

Section parser.
Context {B : Type} `{ByteSource B}.

Definition upd_inp (f : JPEG_DEC_INPUT_PARA_T -> JPEG_DEC_INPUT_PARA_T) : M (parser B) unit :=
  modify (fun s => Parser (src s) (mem s) (f (inp s)) (codec s) (g_huff_tbl_malloced s)).
Definition upd_codec (f : JPEG_CODEC_T -> JPEG_CODEC_T) : M (parser B) unit :=
  modify (fun s => Parser (src s) (mem s) (inp s) (f (codec s)) (g_huff_tbl_malloced s)).
Definition codec_get {A} (f : JPEG_CODEC_T -> A) : M (parser B) A := gets (fun s => f (codec s)).

(** An update of the codec that may be an access outside an object. *)
Definition try_codec (fl : fault) (f : JPEG_CODEC_T -> option JPEG_CODEC_T) : M (parser B) unit :=
  o <- codec_get f ;;
  c <- lift fl o ;;
  upd_codec (fun _ => c).

Definition parse_char : M (parser B) Z := zoom src set_src next.
Definition skip_bytes (n : Z) : M (parser B) unit := zoom src set_src (skip n).
Definition alloc {A} (n size : Z) (zero : A) : M (parser B) (list A) :=
  zoom mem set_mem (alloc_array n size zero).

Definition get_short_word : M (parser B) Z :=
  value0 <- parse_char ;;
  value1 <- parse_char ;;
  ret (u16 (Z.lor (Z.shiftl value0 8) value1)).

Definition get_word : M (parser B) Z :=
  value0 <- get_short_word ;;
  value1 <- get_short_word ;;
  ret (u32 (Z.lor (Z.shiftl value0 16) value1)).

(** *** GetNextMarker *)

(** [do { get_char(&c) } while (c != 0xFF);] *)
Fixpoint skip_non_FF (fuel : nat) : M (parser B) unit :=
  match fuel with
  | O => bad OutOfFuel
  | S fuel => c <- parse_char ;; if negb (c =? 0xFF) then skip_non_FF fuel else ret tt
  end.

(** [do { get_char(&c) } while (c == 0xFF);] *)
Fixpoint skip_FF (fuel : nat) : M (parser B) Z :=
  match fuel with
  | O => bad OutOfFuel
  | S fuel => c <- parse_char ;; if c =? 0xFF then skip_FF fuel else ret c
  end.

(** The count of bytes is only traced. *)
Fixpoint GetNextMarker (fuel : nat) : M (parser B) Z :=
  match fuel with
  | O => bad OutOfFuel
  | S fuel' =>
      skip_non_FF fuel ;;;
      c <- skip_FF fuel ;;
      if c =? 0 then GetNextMarker fuel' else ret c
  end.

(** *** GetSOF *)

(** [compptr] points to [comp_info[ci]]. *)
Definition upd_comp (ci : Z) (f : jpeg_component_info -> jpeg_component_info) : M (parser B) unit :=
  l <- codec_get comp_info ;;
  l <- lift NullPointer l ;;
  x <- lift OutOfBounds (aget l ci) ;;
  l <- lift OutOfBounds (aset l ci (f x)) ;;
  upd_codec (set_comp_info (Some l)).

Definition get_comp (ci : Z) : M (parser B) jpeg_component_info :=
  l <- codec_get comp_info ;;
  l <- lift NullPointer l ;;
  lift OutOfBounds (aget l ci).

Definition upd_tbl_map (i : Z) (f : TBL_MAP_T -> TBL_MAP_T) : M (parser B) unit :=
  try_codec OutOfBounds (fun c =>
    x ← aget (tbl_map c) i; l ← aset (tbl_map c) i (f x); Some (set_tbl_map l c)).

Definition GetSOF_component (ci : Z) : M (parser B) unit :=
  c <- parse_char ;;
  let yuv_id := s8 c in
  upd_comp ci (fun x => CompInfo (u8 yuv_id) (u8 ci) (h_samp_factor x) (v_samp_factor x)
                          (MCU_width x) (MCU_height x)) ;;;
  let yuv_id := s8 (yuv_id - 1) in
  require (negb ((yuv_id <? 0) || (yuv_id >? 2))) ;;;
  c <- parse_char ;;
  let h := Z.land (Z.shiftr c 4) 0x0F in
  let v := Z.land c 0x0F in
  upd_comp ci (fun x => CompInfo (component_id x) (component_index x) h v
                          (if ci =? 0 then h else 1) (if ci =? 0 then v else 1)) ;;;
  c <- parse_char ;;
  require (negb (c >? 2)) ;;;
  upd_tbl_map yuv_id (fun t => TblMap (dc_huff_tbl_id t) (ac_huff_tbl_id t) c).

Definition sample_ratio (x : jpeg_component_info) : Z :=
  u8 (Z.lor (Z.shiftl (h_samp_factor x) 4) (v_samp_factor x)).

(** [switch (c)] *)
Definition mcu_format (c : Z) : option Z :=
  if c =? 0x11 then Some JPEG_FW_YUV444
  else if c =? 0x21 then Some JPEG_FW_YUV422
  else if c =? 0x41 then Some JPEG_FW_YUV411
  else if c =? 0x14 then Some JPEG_FW_YUV411_R
  else if c =? 0x22 then Some JPEG_FW_YUV420
  else if c =? 0x12 then Some JPEG_FW_YUV422_R
  else None.

(** The sample format, from the ratios of the components. *)
Definition GetSOF_format (component_num : Z) : M (parser B) unit :=
  x <- get_comp 0 ;;
  let c := sample_ratio x in
  if 1 =? component_num then upd_inp (set_di_input_mcu_info JPEG_FW_YUV400) else
  match mcu_format c with
  | None => exit
  | Some f => upd_inp (set_di_input_mcu_info f)
  end ;;;
  x <- get_comp 1 ;;
  require (0x11 =? sample_ratio x) ;;;
  if component_num >? 2 then
    x <- get_comp 2 ;;
    require (0x11 =? sample_ratio x)
  else ret tt.

Definition sizeof_component_info : Z := 16.

Definition GetSOF (isProgressive : bool) : M (parser B) unit :=
  upd_inp (set_di_progressive_mode isProgressive) ;;;
  length <- get_short_word ;;
  require (negb (length <? 8)) ;;;
  c <- parse_char ;;
  require (c =? 8) ;;;
  height <- get_short_word ;;
  width <- get_short_word ;;
  upd_inp (set_input_height height) ;;;
  upd_inp (set_input_width width) ;;;
  component_num <- parse_char ;;
  require (length =? component_num * 3 + 8) ;;;
  upd_codec (set_num_components component_num) ;;;
  l <- alloc component_num sizeof_component_info (CompInfo 0 0 0 0 0 0) ;;
  upd_codec (set_comp_info (Some l)) ;;;
  forM (upto (Z.to_nat component_num)) GetSOF_component ;;;
  GetSOF_format component_num.

(** *** GetSOS *)

(** The search for the component [cc] among those of the frame. *)
Fixpoint find_component (cis : list Z) (cc i : Z) : M (parser B) unit :=
  match cis with
  | [] => ret tt
  | ci :: cis =>
      x <- get_comp ci ;;
      if cc =? component_id x then
        try_codec OutOfBounds (fun c => l ← aset (comp_id_map c) i cc; Some (set_comp_id_map l c))
      else find_component cis cc i
  end.

(** What is left of [length] is not looked at again. The trace after the loop
    reads [comp_id_map[i]]. *)
Definition GetSOS_component (i : Z) : M (parser B) unit :=
  cc <- parse_char ;;
  c <- parse_char ;;
  require (cc =? u8 (i + 1)) ;;;
  upd_tbl_map i (fun t => TblMap (Z.land (Z.shiftr c 4) 0x0F) (Z.land c 0x0F) (quant_tbl_id t)) ;;;
  n <- codec_get num_components ;;
  find_component (upto (Z.to_nat n)) cc i.

Definition GetSOS : M (parser B) unit :=
  length <- get_short_word ;;
  require (negb (length <? 3)) ;;;
  n <- parse_char ;;
  require (length - 3 =? n * 2 + 3) ;;;
  upd_codec (set_comps_in_scan n) ;;;
  forM (upto (Z.to_nat n)) GetSOS_component ;;;
  c <- parse_char ;;
  cc <- parse_char ;;
  upd_codec (fun x => set_Se cc (set_Ss c x)) ;;;
  c <- parse_char ;;
  upd_codec (fun x => set_Al (Z.land c 15) (set_Ah (Z.land (Z.shiftr c 4) 15) x)) ;;;
  upd_codec (fun x => set_input_scan_number (u8 (input_scan_number x + 1)) (set_next_restart_num 0 x)).

(** *** SkipVariable, GetDRI, GetAPP0 *)

Fixpoint discard (n : nat) : M (parser B) unit :=
  match n with
  | O => ret tt
  | S n => parse_char ;;; discard n
  end.

Definition SkipVariable : M (parser B) unit :=
  length <- get_short_word ;;
  require (negb (length <? 2)) ;;;
  discard (Z.to_nat (length - 2)).

Definition GetDRI : M (parser B) unit :=
  length <- get_short_word ;;
  require (4 =? length) ;;;
  restart_interval <- get_short_word ;;
  upd_codec (fun x => set_next_restart_num 0 (set_restart_to_go restart_interval
                        (set_restart_interval restart_interval x))).

Definition JFIF_LEN : Z := 14.

(** A segment too short for JFIF is left unread. *)
Definition GetAPP0 : M (parser B) unit :=
  length <- get_short_word ;;
  require (negb (length <? 2)) ;;;
  let length := length - 2 in
  if length >=? JFIF_LEN then
    discard (Z.to_nat JFIF_LEN) ;;;
    discard (Z.to_nat (length - JFIF_LEN))
  else ret tt.

(** *** GetHuffTbl *)

Definition malloc_huff_tbl : M (parser B) HUFF_TBL_T :=
  b <- alloc (MAX_BITS_SIZE + 1) 1 0 ;;
  v <- alloc (AC_SYMBOL_NUM + 1) 1 0 ;;
  ret (HuffTbl b v).

Definition malloc_huff_tbls : M (parser B) unit :=
  forM (upto (Z.to_nat NUM_HUFF_TBLS)) (fun i =>
    t <- malloc_huff_tbl ;;
    try_codec OutOfBounds (fun c => l ← aset (dc_huff_tbl c) i (Some t); Some (set_dc_huff_tbl l c)) ;;;
    t <- malloc_huff_tbl ;;
    try_codec OutOfBounds (fun c => l ← aset (ac_huff_tbl c) i (Some t); Some (set_ac_huff_tbl l c))) ;;;
  modify (fun s => Parser (src s) (mem s) (inp s) (codec s) true).

Definition get_huff_tbl (ac : bool) (index : Z) : M (parser B) HUFF_TBL_T :=
  l <- codec_get (if ac then ac_huff_tbl else dc_huff_tbl) ;;
  t <- lift OutOfBounds (aget l index) ;;
  lift NullPointer t.

Definition put_huff_tbl (ac : bool) (index : Z) (t : HUFF_TBL_T) : M (parser B) unit :=
  try_codec OutOfBounds (fun c =>
    if ac then l ← aset (ac_huff_tbl c) index (Some t); Some (set_ac_huff_tbl l c)
    else l ← aset (dc_huff_tbl c) index (Some t); Some (set_dc_huff_tbl l c)).

Definition default_tbl (ac : bool) (index : Z) : HUFF_TBL_T :=
  if ac then
    if index =? 0 then HuffTbl jpeg_fw_lum_ac_bits_default jpeg_fw_lum_ac_huffvalue_default
    else HuffTbl jpeg_fw_chr_ac_bits_default jpeg_fw_chr_ac_huffvalue_default
  else
    if index =? 0 then HuffTbl jpeg_fw_lum_dc_bits_default jpeg_fw_lum_dc_huffvalue_default
    else HuffTbl jpeg_fw_chr_dc_bits_default jpeg_fw_chr_dc_huffvalue_default.

(** [if (v != default) using_default_huff_tab = FALSE;] *)
Definition compare_default (v d : Z) : M (parser B) unit :=
  if negb (v =? d) then upd_codec (set_using_default_huff_tab false) else ret tt.

(** [for (i = 1; i <= 16; i++)]; returns [count]. *)
Fixpoint read_bits (ls : list Z) (ac : bool) (index count : Z) : M (parser B) Z :=
  match ls with
  | [] => ret count
  | i :: ls =>
      c <- parse_char ;;
      t <- get_huff_tbl ac index ;;
      b <- lift OutOfBounds (aset (bits t) i c) ;;
      put_huff_tbl ac index (HuffTbl b (huffval t)) ;;;
      d <- lift OutOfBounds (aget (bits (default_tbl ac index)) i) ;;
      compare_default c d ;;;
      read_bits ls ac index (u16 (count + c))
  end.

(** [for (i = 0; i < count; i++)] *)
Definition read_huffval (ac : bool) (index i : Z) : M (parser B) unit :=
  c <- parse_char ;;
  t <- get_huff_tbl ac index ;;
  v <- lift OutOfBounds (aset (huffval t) i c) ;;
  put_huff_tbl ac index (HuffTbl (bits t) v) ;;;
  d <- lift OutOfBounds (aget (huffval (default_tbl ac index)) i) ;;
  compare_default c d.

(** One table of the segment; returns [count]. *)
Definition read_huff_tbl : M (parser B) Z :=
  c <- parse_char ;;
  let index := Z.land c 0x13 in
  let ac := truthy (Z.land index 0x10) in
  let index := if ac then index - 0x10 else index in
  t <- get_huff_tbl ac index ;;
  b <- lift OutOfBounds (aset (bits t) 0 0) ;;
  put_huff_tbl ac index (HuffTbl b (huffval t)) ;;;
  count <- read_bits lengths ac index 0 ;;
  require (negb (count >? 256)) ;;;
  forM (upto (Z.to_nat count)) (read_huffval ac index) ;;;
  ret count.

(** [while (length > 0)] *)
Fixpoint huff_tbls_loop (fuel : nat) (length : Z) : M (parser B) unit :=
  match fuel with
  | O => bad OutOfFuel
  | S fuel =>
      if length >? 0 then
        count <- read_huff_tbl ;;
        require (negb (length <? 1 + 16 + count)) ;;;
        huff_tbls_loop fuel (length - (1 + 16 + count))
      else ret tt
  end.

Definition GetHuffTbl : M (parser B) unit :=
  malloced <- gets g_huff_tbl_malloced ;;
  (if negb malloced then malloc_huff_tbls else ret tt) ;;;
  length <- get_short_word ;;
  require (negb (length <? 2)) ;;;
  huff_tbls_loop (S (Z.to_nat (length - 2))) (length - 2).

(** *** GetQuantTbl *)

Definition get_quant_tbl (n : Z) : M (parser B) (list Z) :=
  l <- codec_get quant_tbl ;;
  t <- lift OutOfBounds (aget l n) ;;
  lift NullPointer t.

Definition put_quant_tbl (n : Z) (t : list Z) : M (parser B) unit :=
  try_codec OutOfBounds (fun c => l ← aset (quant_tbl c) n (Some t); Some (set_quant_tbl l c)).

(** One entry: the loop of the source reads four at a time. *)
Definition read_quant_entry (n prec j : Z) : M (parser B) unit :=
  c <- (if prec =? 0 then parse_char else get_short_word) ;;
  z <- lift OutOfBounds (aget jpeg_fw_zigzag_order j) ;;
  t <- get_quant_tbl n ;;
  t <- lift OutOfBounds (aset t z (u8 c)) ;;
  put_quant_tbl n t.

(** One table of the segment; returns its precision and whether it is the
    second table for chroma. *)
Definition read_quant_tbl : M (parser B) (Z * bool) :=
  n <- parse_char ;;
  let prec := Z.shiftr n 4 in
  let n := Z.land n 0x0F in
  require (negb (n >? 2)) ;;;
  t <- alloc 64 1 0 ;;
  put_quant_tbl n t ;;;
  forM (upto 64) (read_quant_entry n prec) ;;;
  ret (prec, n >? 1).

Fixpoint quant_tbls_loop (fuel : nat) (length : Z) (has_two_chroma_quant_tbl : bool)
    : M (parser B) bool :=
  match fuel with
  | O => bad OutOfFuel
  | S fuel =>
      if length >? 0 then
        r <- read_quant_tbl ;;
        require (negb (length <? 64 + 1 + 64 * r.1)) ;;;
        quant_tbls_loop fuel (length - (64 + 1 + 64 * r.1)) (has_two_chroma_quant_tbl || r.2)
      else ret has_two_chroma_quant_tbl
  end.

(** [if (u_tbl_ptr[j] != v_tbl_ptr[j]) return JPEG_FAILED;] *)
Definition same_chroma_entry (j : Z) : M (parser B) unit :=
  u <- get_quant_tbl 1 ;;
  v <- get_quant_tbl 2 ;;
  uj <- lift OutOfBounds (aget u j) ;;
  vj <- lift OutOfBounds (aget v j) ;;
  require (uj =? vj).

Definition GetQuantTbl : M (parser B) unit :=
  upd_codec (set_using_default_quant_tab false) ;;;
  length <- get_short_word ;;
  require (negb (length <? 2)) ;;;
  two <- quant_tbls_loop (S (Z.to_nat (length - 2))) (length - 2) false ;;
  if two then forM (upto 64) same_chroma_entry else ret tt.

(** *** ProcessTables and ParseHead *)

Definition is_marker (c : Z) (ms : list JPEG_MARKER_E) : bool :=
  existsb (fun m => c =? marker_code m) ms.

(** The segment after a marker that does not end the loop. *)
Definition process_marker (c : Z) : M (parser B) unit :=
  if is_marker c [M_SOF0; M_SOF1] then GetSOF false
  else if is_marker c [M_SOF2] then GetSOF true
  else if is_marker c [M_DHT] then GetHuffTbl
  else if is_marker c [M_DQT] then GetQuantTbl
  else if is_marker c [M_APP0] then GetAPP0
  else if is_marker c [M_DRI] then GetDRI
  else if is_marker c unexpected_markers then exit
  else SkipVariable.

Fixpoint ProcessTables (fuel : nat) : M (parser B) Z :=
  match fuel with
  | O => bad OutOfFuel
  | S fuel' =>
      c <- GetNextMarker fuel ;;
      if is_marker c [M_SOI; M_EOI; M_SOS] then ret c
      else process_marker c ;;; ProcessTables fuel'
  end.

(** [while (1)] *)
Fixpoint find_SOI (fuel : nat) : M (parser B) unit :=
  match fuel with
  | O => bad OutOfFuel
  | S fuel' =>
      c <- GetNextMarker fuel ;;
      require (negb (is_marker c [M_EOI])) ;;;
      if is_marker c [M_SOI] then ret tt else find_SOI fuel'
  end.

(** A failure of [ProcessTables] is its M_ERROR, which fails here too. *)
Definition ParseHead (fuel : nat) : M (parser B) unit :=
  find_SOI fuel ;;;
  c <- ProcessTables fuel ;;
  if is_marker c [M_SOS] then GetSOS else exit.

Definition res_format (format : Z) : option Z :=
  if format =? 0 then Some JPEG_FW_YUV420
  else if format =? 1 then Some JPEG_FW_YUV411
  else if format =? 2 then Some JPEG_FW_YUV444
  else if format =? 3 then Some JPEG_FW_YUV422
  else if format =? 4 then Some JPEG_FW_YUV400
  else None.

Definition res_quality (quant : Z) : option Z :=
  if quant =? 0 then Some JPEG_QUALITY_LOW
  else if quant =? 1 then Some JPEG_QUALITY_MIDDLE_LOW
  else if quant =? 2 then Some JPEG_QUALITY_MIDDLE
  else if quant =? 3 then Some JPEG_QUALITY_MIDDLE_HIGH
  else if quant =? 4 then Some JPEG_QUALITY_HIGH
  else None.

Definition ParseHead_Res : M (parser B) unit :=
  skip_bytes 4 ;;;
  h <- get_short_word ;;
  w <- get_short_word ;;
  upd_inp (set_input_height h) ;;;
  upd_inp (set_input_width w) ;;;
  upd_codec (set_num_components 3) ;;;
  format <- get_short_word ;;
  match res_format format with
  | None => exit
  | Some f =>
      upd_inp (set_di_input_mcu_info f) ;;;
      if format =? 4 then upd_codec (set_num_components 1) else ret tt
  end ;;;
  quant <- get_short_word ;;
  match res_quality quant with
  | None => exit
  | Some q => upd_inp (set_quant_level q)
  end.
End parser.

(** *** JPEG_FWParseHead *)

(** The codec after the memset and the assignments that follow. *)
Definition initial_codec : JPEG_CODEC_T :=
  set_restart_to_go 0x3ffff (set_restart_interval 0x3ffff
    (set_using_default_quant_tab true (set_using_default_huff_tab true zeroed_codec))).

(** The input parameters that are not state: the callback, the stream in
    memory with its length, the decoder's buffer and its size. *)
Record dec_env := DecEnv {
  read_bitstream : option (Z -> Z -> list Z);
  bitstream_ptr : list Z;
  bitstream_len : Z;
  dec_buf_ptr : Z;
  dec_buf_size : Z
}.

(** The state the two parsers start in; the pool was left by the last use. *)
Definition start (e : dec_env) (p : pool) (i : JPEG_DEC_INPUT_PARA_T)
    : outcome (parser bitstream) unit :=
  match JpegDec_InitBitream (read_bitstream e) (bitstream_ptr e) (bitstream_len e)
          (JpegDec_InitMem (dec_buf_ptr e) (dec_buf_size e) p) with
  | Ret (Ret _ b) p => Ret tt (Parser b p i initial_codec false)
  | Ret (Exit b) p => Exit (Parser b p i initial_codec false)
  | Ret (Bad f) _ | Bad f => Bad f
  | Exit p => Bad Uninitialised
  end.

(** [jpeg_dec_input->header_len] is set whether the parser succeeded or not. *)
Definition FWParseHead_body (fuel : nat) : M (parser bitstream) unit :=
  res <- zoom src set_src is_res_jpg_file ;;
  upd_codec (set_is_res_file res) ;;;
  ok <- succeeds (if res then ParseHead_Res else ParseHead fuel) ;;
  len <- (if res then ret 12 else zoom src set_src get_header_len) ;;
  upd_inp (set_header_len len) ;;;
  require ok.

Definition JPEG_FWParseHead (fuel : nat) (e : dec_env) (p : pool) (i : JPEG_DEC_INPUT_PARA_T)
    : outcome (parser bitstream) unit :=
  match start e p i with
  | Ret _ s => FWParseHead_body fuel s
  | Exit s => Exit s
  | Bad f => Bad f
  end.
