(* ===== verification/JpegParseProofs.v ===== *)
(** * The header parser and its input

    On every input: the parser cannot tell one source of bytes from another
    with the same content, which the simulation [psim] carries through it, and
    it always comes to an end. *)
From stdpp Require Import base list.
From Stdlib Require Import ZArith Lia.
From S2P Require Import Prelude JpegTables JpegHuff JpegSource JpegCodec JpegParse.

(** ** The source does not matter *)

Section source.
Context {B : Type} `{ByteSourceLaws B}.

(** The same parser state over a source and over the list it stands for. *)
Definition same_input (s1 : parser B) (s2 : parser (list Z)) : Prop :=
  valid (src s1) /\ content (src s1) = src s2 /\ mem s1 = mem s2 /\ inp s1 = inp s2 /\
  codec s1 = codec s2 /\ g_huff_tbl_malloced s1 = g_huff_tbl_malloced s2.

Abbreviation psim m1 m2 := (sim same_input m1 m2).

Lemma psim_modify (f1 : parser B -> parser B) (f2 : parser (list Z) -> parser (list Z)) :
  (forall s1 s2, same_input s1 s2 -> same_input (f1 s1) (f2 s2)) -> psim (modify f1) (modify f2).
Proof. apply sim_modify. Qed.

Lemma psim_upd_inp f : psim (upd_inp f) (upd_inp f).
Proof.
  apply sim_modify. intros s1 s2 (?&?&?&E&?&?). unfold same_input. cbn. by rewrite E.
Qed.

Lemma psim_upd_codec f : psim (upd_codec f) (upd_codec f).
Proof.
  apply sim_modify. intros s1 s2 (?&?&?&?&E&?). unfold same_input. cbn. by rewrite E.
Qed.

Lemma psim_codec_get {A} (f : JPEG_CODEC_T -> A) : psim (codec_get f) (codec_get f).
Proof. apply sim_gets. intros s1 s2 (?&?&?&?&E&?). by rewrite E. Qed.

Lemma psim_malloced : psim (gets g_huff_tbl_malloced) (gets g_huff_tbl_malloced).
Proof. apply sim_gets. by intros s1 s2 (?&?&?&?&?&?). Qed.

Lemma psim_set_malloced :
  psim (modify (fun s => Parser (src s) (mem s) (inp s) (codec s) true))
       (modify (fun s => Parser (src s) (mem s) (inp s) (codec s) true)).
Proof. apply sim_modify. intros s1 s2 (?&?&?&?&?&?). unfold same_input. naive_solver. Qed.

Lemma psim_parse_char : psim parse_char parse_char.
Proof.
  intros s1 s2 (Hv & Hc & ? & ? & ? & ?). unfold parse_char, zoom.
  destruct (src s2) as [|c l] eqn:E.
  - destruct (next_nil (src s1) Hv Hc) as (b' & En & ? & ?). rewrite En. cbn. by split_and!.
  - destruct (next_cons (src s1) c l Hv Hc) as (b' & En & ? & ?). rewrite En. cbn. by split_and!.
Qed.

Lemma psim_alloc {A} (n size : Z) (zero : A) : psim (alloc n size zero) (alloc n size zero).
Proof.
  intros s1 s2 (Hv & Hc & E & ? & ? & ?). unfold alloc, zoom. rewrite <- E.
  destruct (alloc_array n size zero (mem s1)); [split; [done|]|..|done]; by split_and!.
Qed.

Hint Resolve psim_upd_inp psim_upd_codec psim_codec_get psim_malloced psim_set_malloced
  psim_parse_char psim_alloc : csim.

(** Both sides take the same step. *)
Ltac psim_step :=
  first [ apply sim_bind; [|intros ?] | apply sim_forM; intros ? | progress eauto with csim | case_match ].
Ltac psim_auto := repeat psim_step.

Lemma psim_try_codec fl f : psim (try_codec fl f) (try_codec fl f).
Proof. unfold try_codec. psim_auto. Qed.
Hint Resolve psim_try_codec : csim.

Lemma psim_get_short_word : psim get_short_word get_short_word.
Proof. unfold get_short_word. psim_auto. Qed.
Lemma psim_upd_comp ci f : psim (upd_comp ci f) (upd_comp ci f).
Proof. unfold upd_comp. psim_auto. Qed.
Lemma psim_get_comp ci : psim (get_comp ci) (get_comp ci).
Proof. unfold get_comp. psim_auto. Qed.
Lemma psim_discard n : psim (discard n) (discard n).
Proof. induction n; cbn [discard]; psim_auto. Qed.
Hint Resolve psim_get_short_word psim_upd_comp psim_get_comp psim_discard : csim.

Lemma psim_skip_non_FF fuel : psim (skip_non_FF fuel) (skip_non_FF fuel).
Proof. induction fuel; cbn [skip_non_FF]; psim_auto. Qed.
Lemma psim_skip_FF fuel : psim (skip_FF fuel) (skip_FF fuel).
Proof. induction fuel; cbn [skip_FF]; psim_auto. Qed.
Hint Resolve psim_skip_non_FF psim_skip_FF : csim.

Lemma psim_GetNextMarker fuel : psim (GetNextMarker fuel) (GetNextMarker fuel).
Proof. induction fuel as [|fuel IH]; cbn [GetNextMarker]; psim_auto. Qed.
Hint Resolve psim_GetNextMarker : csim.

Lemma psim_GetSOF p : psim (GetSOF p) (GetSOF p).
Proof. unfold GetSOF, GetSOF_component, upd_tbl_map, GetSOF_format. psim_auto. Qed.

Lemma psim_find_component cis cc i : psim (find_component cis cc i) (find_component cis cc i).
Proof. induction cis; cbn [find_component]; psim_auto. Qed.
Hint Resolve psim_find_component : csim.

Lemma psim_GetSOS : psim GetSOS GetSOS.
Proof. unfold GetSOS, GetSOS_component, upd_tbl_map. psim_auto. Qed.

Lemma psim_GetDRI : psim GetDRI GetDRI.
Proof. unfold GetDRI. psim_auto. Qed.
Lemma psim_GetAPP0 : psim GetAPP0 GetAPP0.
Proof. unfold GetAPP0. psim_auto. Qed.
Lemma psim_SkipVariable : psim SkipVariable SkipVariable.
Proof. unfold SkipVariable. psim_auto. Qed.

Lemma psim_get_huff_tbl ac index : psim (get_huff_tbl ac index) (get_huff_tbl ac index).
Proof. unfold get_huff_tbl. psim_auto. Qed.
Lemma psim_put_huff_tbl ac index t : psim (put_huff_tbl ac index t) (put_huff_tbl ac index t).
Proof. unfold put_huff_tbl. psim_auto. Qed.
Lemma psim_compare_default v d : psim (compare_default v d) (compare_default v d).
Proof. unfold compare_default. psim_auto. Qed.
Hint Resolve psim_get_huff_tbl psim_put_huff_tbl psim_compare_default : csim.

Lemma psim_read_bits ls ac index count :
  psim (read_bits ls ac index count) (read_bits ls ac index count).
Proof. revert count. induction ls; intros count; cbn [read_bits]; psim_auto. Qed.
Hint Resolve psim_read_bits : csim.

Lemma psim_huff_tbls_loop fuel length : psim (huff_tbls_loop fuel length) (huff_tbls_loop fuel length).
Proof.
  revert length. induction fuel; intros length; cbn [huff_tbls_loop];
    unfold read_huff_tbl, read_huffval; psim_auto.
Qed.
Hint Resolve psim_huff_tbls_loop : csim.

Lemma psim_GetHuffTbl : psim GetHuffTbl GetHuffTbl.
Proof. unfold GetHuffTbl, malloc_huff_tbls, malloc_huff_tbl. psim_auto. Qed.

Lemma psim_get_quant_tbl n : psim (get_quant_tbl n) (get_quant_tbl n).
Proof. unfold get_quant_tbl. psim_auto. Qed.
Hint Resolve psim_get_quant_tbl : csim.

Lemma psim_quant_tbls_loop fuel length two :
  psim (quant_tbls_loop fuel length two) (quant_tbls_loop fuel length two).
Proof.
  revert length two. induction fuel; intros length two; cbn [quant_tbls_loop];
    unfold read_quant_tbl, read_quant_entry, put_quant_tbl; psim_auto.
Qed.
Hint Resolve psim_quant_tbls_loop : csim.

Lemma psim_GetQuantTbl : psim GetQuantTbl GetQuantTbl.
Proof. unfold GetQuantTbl, same_chroma_entry. psim_auto. Qed.
Hint Resolve psim_GetSOF psim_GetSOS psim_GetDRI psim_GetAPP0 psim_SkipVariable psim_GetHuffTbl
  psim_GetQuantTbl : csim.

Lemma psim_ProcessTables fuel : psim (ProcessTables fuel) (ProcessTables fuel).
Proof. induction fuel; cbn [ProcessTables]; unfold process_marker; psim_auto. Qed.
Lemma psim_find_SOI fuel : psim (find_SOI fuel) (find_SOI fuel).
Proof. induction fuel; cbn [find_SOI]; psim_auto. Qed.
Hint Resolve psim_ProcessTables psim_find_SOI : csim.

Lemma psim_ParseHead fuel : psim (ParseHead fuel) (ParseHead fuel).
Proof. unfold ParseHead. psim_auto. Qed.
End source.

(** ** The parser ends *)

Definition not_fuel (f : fault) : Prop := f <> OutOfFuel.

(** From a state with fewer than [n] bytes to come, [m] raises no
    [OutOfFuel], takes at least [k] bytes when it completes, and never puts
    any back. *)
Definition progress {A} (n k : nat) (Q : A -> Prop) (m : M (parser (list Z)) A) : Prop :=
  forall s, bytes (src s) -> (length (src s) < n)%nat ->
    wp not_fuel m
      (fun a s' => Q a /\ bytes (src s') /\ (length (src s') + k <= length (src s))%nat)
      (fun s' => bytes (src s') /\ (length (src s') <= length (src s))%nat) s.

Definition any {A} (a : A) : Prop := True.

Lemma progress_bind {A C} n k1 k2 (P : A -> Prop) (Q : C -> Prop) m (f : A -> M (parser (list Z)) C) :
  progress n k1 P m -> (forall a, P a -> progress (n - k1) k2 Q (f a)) ->
  progress n (k1 + k2) Q (bind m f).
Proof.
  intros Hm Hf s Hb Hl. apply wp_bind. eapply wp_mono; [by apply Hm| |done].
  intros a s1 (Ha & Hb1 & Hl1). eapply wp_mono; [apply (Hf a Ha s1 Hb1); lia| |].
  - intros c s2 (? & ? & ?). split_and!; [done..|lia].
  - intros s2 (? & ?). split; [done|lia].
Qed.

Lemma progress_weaken {A} n n' k k' (P Q : A -> Prop) m :
  progress n k P m -> (n' <= n)%nat -> (k' <= k)%nat -> (forall a, P a -> Q a) -> progress n' k' Q m.
Proof.
  intros Hm Hn Hk HPQ s Hb Hl. eapply wp_mono; [apply Hm; [done|lia]| |done].
  intros a s' (? & ? & ?). split_and!; [auto|done|lia].
Qed.

Lemma progress_ret {A} n (a : A) (Q : A -> Prop) : Q a -> progress n 0 Q (ret a).
Proof. intros Ha s Hb Hl. split_and!; [done..|]. lia. Qed.
Lemma progress_exit {A} n k (Q : A -> Prop) : progress n k Q exit.
Proof. intros s Hb Hl. by split. Qed.
Lemma progress_require n b : progress n 0 any (require b).
Proof. intros s Hb Hl. unfold require. destruct b; cbn; split_and!; done || lia. Qed.
Lemma progress_require_true n b : progress n 0 (fun _ => b = true) (require b).
Proof. intros s Hb Hl. unfold require. destruct b; cbn; split_and!; done || lia. Qed.
Lemma progress_lift {A} n fl (o : option A) : fl <> OutOfFuel -> progress n 0 any (lift fl o).
Proof. intros Hfl s Hb Hl. unfold lift. destruct o; cbn; [split_and!; done || lia|done]. Qed.
Lemma progress_upd_codec n f : progress n 0 any (upd_codec f).
Proof. intros s Hb Hl. cbn. split_and!; done || lia. Qed.
Lemma progress_upd_inp n f : progress n 0 any (upd_inp f).
Proof. intros s Hb Hl. cbn. split_and!; done || lia. Qed.
Lemma progress_codec_get {A} n (f : JPEG_CODEC_T -> A) : progress n 0 any (codec_get f).
Proof. intros s Hb Hl. cbn. split_and!; done || lia. Qed.
Lemma progress_gets {A} n (f : parser (list Z) -> A) : progress n 0 any (gets f).
Proof. intros s Hb Hl. cbn. split_and!; done || lia. Qed.
Lemma progress_malloced n :
  progress n 0 any (modify (fun s => Parser (src s) (mem s) (inp s) (codec s) true)).
Proof. intros s Hb Hl. cbn. split_and!; done || lia. Qed.

Lemma progress_parse_char n : progress n 1 byte parse_char.
Proof.
  intros s Hb Hl. unfold parse_char, zoom, wp. destruct (src s) as [|c l] eqn:E; cbn.
  - by split; [|lia].
  - apply Forall_cons in Hb as [Hc Hb]. split_and!; [done|done|lia].
Qed.

Lemma progress_alloc {A} n (k size : Z) (zero : A) : progress n 0 any (alloc k size zero).
Proof. intros s Hb Hl. cbn. split_and!; done || lia. Qed.

Lemma progress_forM {A} n k (l : list A) (body : A -> M (parser (list Z)) unit) :
  (forall x, progress n k any (body x)) -> progress n (length l * k) any (forM l body).
Proof.
  intros Hb. induction l as [|x l IH]; cbn [forM length Nat.mul]; [by apply progress_ret|].
  eapply progress_bind; [apply Hb|]. intros _ _. eapply progress_weaken; [exact IH|lia..|done].
Qed.

(** [k] and [Q] of a sequence from those of its parts. *)
Lemma progress_seq {A C} n k (P : A -> Prop) (Q : C -> Prop) m (f : A -> M (parser (list Z)) C) :
  progress n k P m -> (forall a, P a -> progress n 0 Q (f a)) -> progress n 0 Q (bind m f).
Proof.
  intros Hm Hf. eapply (progress_weaken n n (k + 0) 0 Q Q); [|lia..|done].
  eapply progress_bind; [exact Hm|]. intros a Ha. eapply progress_weaken; [by apply Hf|lia..|done].
Qed.

Create HintDb cprogress.
#[local] Hint Resolve progress_ret progress_exit progress_require progress_lift progress_upd_codec
  progress_upd_inp progress_codec_get progress_gets progress_malloced progress_parse_char
  progress_alloc : cprogress.
#[local] Hint Extern 1 (_ <> OutOfFuel) => discriminate : cprogress.
#[local] Hint Extern 1 (any _) => exact I : cprogress.

Lemma progress_forM0 {A} n (l : list A) (body : A -> M (parser (list Z)) unit) :
  (forall x, progress n 0 any (body x)) -> progress n 0 any (forM l body).
Proof. intros Hb. eapply progress_weaken; [by apply progress_forM|lia..|done]. Qed.

(** A branch in front of a sequence promises nothing. *)
Ltac branch_promises_nothing :=
  lazymatch goal with
  | |- progress _ ?k ?P (match _ with _ => _ end) => is_evar k; unify k 0%nat; unify P (@any unit)
  end.

Ltac progress_step :=
  first [ progress eauto with cprogress
        | eapply progress_forM0; intros ?
        | branch_promises_nothing
        | eapply progress_seq; [|intros ? ?]
        | case_match; cbn beta iota
        | eapply (progress_weaken _ _ _ 0 _ any); [solve [eauto with cprogress]|lia..|done] ].

Lemma progress_try_codec n fl f : fl <> OutOfFuel -> progress n 0 any (try_codec fl f).
Proof. intros Hfl. unfold try_codec. repeat progress_step. Qed.
Lemma progress_get_short_word n : progress n 0 (Z.le 0) get_short_word.
Proof.
  unfold get_short_word. repeat (eapply progress_seq; [apply progress_parse_char|intros ? ?]).
  apply progress_ret. apply u16_range.
Qed.
#[local] Hint Resolve progress_try_codec progress_get_short_word : cprogress.

Lemma progress_upd_comp n ci f : progress n 0 any (upd_comp ci f).
Proof. unfold upd_comp. repeat progress_step. Qed.
Lemma progress_get_comp n ci : progress n 0 any (get_comp ci).
Proof. unfold get_comp. repeat progress_step. Qed.
Lemma progress_discard n k : progress n 0 any (discard k).
Proof. induction k; cbn [discard]; repeat progress_step. Qed.
#[local] Hint Resolve progress_upd_comp progress_get_comp progress_discard : cprogress.

Lemma progress_GetSOF n p : progress n 0 any (GetSOF p).
Proof. unfold GetSOF, GetSOF_component, upd_tbl_map, GetSOF_format. repeat progress_step. Qed.

Lemma progress_find_component n cis cc i : progress n 0 any (find_component cis cc i).
Proof. induction cis; cbn [find_component]; repeat progress_step. Qed.
#[local] Hint Resolve progress_find_component : cprogress.

Lemma progress_GetSOS n : progress n 0 any GetSOS.
Proof. unfold GetSOS, GetSOS_component, upd_tbl_map. repeat progress_step. Qed.
Lemma progress_GetDRI n : progress n 0 any GetDRI.
Proof. unfold GetDRI. repeat progress_step. Qed.
Lemma progress_GetAPP0 n : progress n 0 any GetAPP0.
Proof. unfold GetAPP0. repeat progress_step. Qed.
Lemma progress_SkipVariable n : progress n 0 any SkipVariable.
Proof. unfold SkipVariable. repeat progress_step. Qed.

Lemma progress_get_huff_tbl n ac index : progress n 0 any (get_huff_tbl ac index).
Proof. unfold get_huff_tbl. repeat progress_step. Qed.
Lemma progress_put_huff_tbl n ac index t : progress n 0 any (put_huff_tbl ac index t).
Proof. unfold put_huff_tbl. repeat progress_step. Qed.
Lemma progress_compare_default n v d : progress n 0 any (compare_default v d).
Proof. unfold compare_default. repeat progress_step. Qed.
#[local] Hint Resolve progress_get_huff_tbl progress_put_huff_tbl progress_compare_default : cprogress.

Lemma progress_read_huffval n ac index i : progress n 0 any (read_huffval ac index i).
Proof. unfold read_huffval. repeat progress_step. Qed.
#[local] Hint Resolve progress_read_huffval : cprogress.

Lemma progress_read_bits n ls ac index count :
  0 <= count -> progress n 0 (Z.le 0) (read_bits ls ac index count).
Proof.
  revert count. induction ls as [|l ls IH]; intros count Hc; cbn [read_bits].
  { by apply progress_ret. }
  repeat (eapply progress_seq; [solve [eauto with cprogress]|intros ? ?]). apply IH. apply u16_range.
Qed.

Lemma progress_read_huff_tbl n : progress n 0 (Z.le 0) read_huff_tbl.
Proof.
  unfold read_huff_tbl.
  repeat (eapply progress_seq; [solve [eauto with cprogress | by apply progress_read_bits]|intros ? ?]).
  eapply progress_seq; [apply progress_forM0; intros ?; apply progress_read_huffval|intros _ _].
  by apply progress_ret.
Qed.

Lemma progress_huff_tbls_loop n fuel length :
  0 <= length < Z.of_nat fuel -> progress n 0 any (huff_tbls_loop fuel length).
Proof.
  revert length. induction fuel as [|fuel IH]; intros length Hl; [lia|]. cbn [huff_tbls_loop].
  case_match; [|by apply progress_ret].
  eapply progress_seq; [apply progress_read_huff_tbl|intros count Hc].
  eapply progress_seq; [apply progress_require_true|intros _ Hr%negb_true_iff%Z.ltb_ge].
  apply IH. lia.
Qed.

Lemma progress_GetHuffTbl n : progress n 0 any GetHuffTbl.
Proof.
  unfold GetHuffTbl, malloc_huff_tbls, malloc_huff_tbl.
  do 2 (eapply progress_seq; [solve [repeat progress_step]|intros ? ?]).
  eapply progress_seq; [apply progress_get_short_word|intros length ?].
  eapply progress_seq; [apply progress_require_true|intros _ Hr%negb_true_iff%Z.ltb_ge].
  apply progress_huff_tbls_loop. lia.
Qed.

Lemma progress_get_quant_tbl n i : progress n 0 any (get_quant_tbl i).
Proof. unfold get_quant_tbl. repeat progress_step. Qed.
#[local] Hint Resolve progress_get_quant_tbl : cprogress.

Lemma progress_read_quant_entry n i prec j : progress n 0 any (read_quant_entry i prec j).
Proof.
  unfold read_quant_entry, put_quant_tbl. eapply (progress_seq _ 0 (Z.le 0)).
  - case_match; [|apply progress_get_short_word].
    eapply progress_weaken; [apply (progress_parse_char n)|lia..|]. by intros c [? ?].
  - intros ? _. repeat progress_step.
Qed.

Lemma progress_read_quant_tbl n : progress n 0 (fun r => 0 <= r.1) read_quant_tbl.
Proof.
  unfold read_quant_tbl, put_quant_tbl.
  eapply progress_seq; [apply progress_parse_char|intros c [Hc _]].
  repeat (eapply progress_seq; [solve [eauto with cprogress]|intros ? ?]).
  eapply progress_seq; [apply progress_forM0; intros ?; apply progress_read_quant_entry|intros _ _].
  apply progress_ret. cbn. by apply Z.shiftr_nonneg.
Qed.

Lemma progress_quant_tbls_loop n fuel length two :
  0 <= length < Z.of_nat fuel -> progress n 0 any (quant_tbls_loop fuel length two).
Proof.
  revert length two. induction fuel as [|fuel IH]; intros length two Hl; [lia|].
  cbn [quant_tbls_loop]. case_match; [|by apply progress_ret].
  eapply progress_seq; [apply progress_read_quant_tbl|cbn beta; intros r Hc].
  eapply progress_seq; [apply progress_require_true|intros _ Hr%negb_true_iff%Z.ltb_ge].
  apply IH. lia.
Qed.

Lemma progress_GetQuantTbl n : progress n 0 any GetQuantTbl.
Proof.
  unfold GetQuantTbl, same_chroma_entry.
  eapply progress_seq; [apply progress_upd_codec|intros _ _].
  eapply progress_seq; [apply progress_get_short_word|intros length ?].
  eapply progress_seq; [apply progress_require_true|intros _ Hr%negb_true_iff%Z.ltb_ge].
  eapply progress_seq; [apply progress_quant_tbls_loop; rewrite Nat2Z.inj_succ, Z2Nat.id; lia|intros two _].
  repeat progress_step.
Qed.
#[local] Hint Resolve progress_GetSOF progress_GetSOS progress_GetDRI progress_GetAPP0
  progress_SkipVariable progress_GetHuffTbl progress_GetQuantTbl : cprogress.

Lemma progress_process_marker n c : progress n 0 any (process_marker c).
Proof. unfold process_marker. repeat (case_match; [solve [eauto with cprogress]|]). eauto with cprogress. Qed.

(** *** The loops that end with the input *)

Lemma progress_skip_non_FF fuel : progress fuel 1 any (skip_non_FF fuel).
Proof.
  induction fuel as [|fuel IH]; intros s Hb Hl; [lia|]. revert s Hb Hl.
  change (progress (S fuel) 1 any (skip_non_FF (S fuel))). cbn [skip_non_FF].
  eapply (progress_bind _ 1 0); [apply progress_parse_char|]. intros c _. rewrite Nat.sub_1_r. cbn.
  case_match; [|by apply progress_ret]. eapply progress_weaken; [exact IH|lia..|done].
Qed.

Lemma progress_skip_FF fuel : progress fuel 1 any (skip_FF fuel).
Proof.
  induction fuel as [|fuel IH]; intros s Hb Hl; [lia|]. revert s Hb Hl.
  change (progress (S fuel) 1 any (skip_FF (S fuel))). cbn [skip_FF].
  eapply (progress_bind _ 1 0); [apply progress_parse_char|]. intros c _. rewrite Nat.sub_1_r. cbn.
  case_match; [|by apply progress_ret]. eapply progress_weaken; [exact IH|lia..|done].
Qed.

Lemma progress_GetNextMarker fuel : progress fuel 2 any (GetNextMarker fuel).
Proof.
  induction fuel as [|fuel IH]; intros s Hb Hl; [lia|]. revert s Hb Hl.
  change (progress (S fuel) 2 any (GetNextMarker (S fuel))). cbn [GetNextMarker].
  eapply (progress_bind _ 1 1); [apply progress_skip_non_FF|]. intros _ _. rewrite Nat.sub_1_r. cbn [pred].
  eapply (progress_bind _ 1 0); [apply (progress_weaken (S fuel) _ 1 _ any any); [apply progress_skip_FF|lia..|done]|].
  intros c _. case_match; [|by apply progress_ret]. eapply progress_weaken; [exact IH|lia..|done].
Qed.

Lemma progress_ProcessTables fuel : progress fuel 0 any (ProcessTables fuel).
Proof.
  induction fuel as [|fuel IH]; intros s Hb Hl; [lia|]. revert s Hb Hl.
  change (progress (S fuel) 0 any (ProcessTables (S fuel))). cbn [ProcessTables].
  apply (progress_weaken (S fuel) _ (2 + 0) 0 any any); [|lia..|done].
  eapply progress_bind; [apply progress_GetNextMarker|]. intros c _.
  case_match; [by apply progress_ret|].
  eapply progress_seq; [apply progress_process_marker|intros _ _].
  eapply progress_weaken; [exact IH|lia..|done].
Qed.

Lemma progress_find_SOI fuel : progress fuel 0 any (find_SOI fuel).
Proof.
  induction fuel as [|fuel IH]; intros s Hb Hl; [lia|]. revert s Hb Hl.
  change (progress (S fuel) 0 any (find_SOI (S fuel))). cbn [find_SOI].
  apply (progress_weaken (S fuel) _ (2 + 0) 0 any any); [|lia..|done].
  eapply progress_bind; [apply progress_GetNextMarker|]. intros c _.
  eapply progress_seq; [apply progress_require|intros _ _].
  case_match; [by apply progress_ret|]. eapply progress_weaken; [exact IH|lia..|done].
Qed.

Lemma progress_ParseHead fuel : progress fuel 0 any (ParseHead fuel).
Proof.
  unfold ParseHead. eapply progress_seq; [apply progress_find_SOI|intros _ _].
  eapply progress_seq; [apply progress_ProcessTables|intros c _].
  case_match; [apply progress_GetSOS|apply progress_exit].
Qed.

(** C22: the parser ends on every input: with more fuel than there are bytes
    to come, none of its loops runs out of fuel, whatever the bytes are and
    whatever source delivers them. *)
Theorem ParseHead_terminates {B} `{ByteSourceLaws B} fuel (s : parser B) :
  valid (src s) -> (length (content (src s)) < fuel)%nat -> ParseHead fuel s <> Bad OutOfFuel.
Proof.
  intros Hv Hf E. pose proof (psim_ParseHead fuel s
    (Parser (content (src s)) (mem s) (inp s) (codec s) (g_huff_tbl_malloced s))) as Hs.
  rewrite E in Hs. specialize (Hs ltac:(by split_and!)).
  pose proof (progress_ParseHead fuel (Parser (content (src s)) (mem s) (inp s) (codec s)
    (g_huff_tbl_malloced s)) (content_bytes _ Hv) Hf) as Hp. unfold wp in Hp.
  destruct (ParseHead fuel (Parser (content _) _ _ _ _)); [done..|]. by subst f.
Qed.

(** A stream in memory: SOI, an interval of 256 MCUs, EOI. *)
Definition small_stream : parser bitstream :=
  Parser (Bitstream None [0xFF; 0xD8; 0xFF; 0xDD; 0; 4; 1; 0; 0xFF; 0xD9] 10 0 10 0 0)
    (Pool 4096 20000 0) (DecInput false 0 0 0 0 0) initial_codec false.

Lemma small_stream_valid : reader_valid [] (src small_stream).
Proof. constructor; try done. by_bytes. Qed.

Lemma ParseHead_terminates_witness : ParseHead 11 small_stream <> Bad OutOfFuel.
Proof.
  apply (@ParseHead_terminates bitstream _ (bitstream_source_laws []) 11 small_stream).
  - apply small_stream_valid.
  - apply Nat.ltb_lt. reflexivity.
Defined.
