(* ===== verification/JpegEncode.v ===== *)
(** * The JPEG encoder: setup and header

    src/common/libs/libcamera/jpeg_fw_8825/src: [JpegEnc_InitParam] and
    [JpegEnc_QTableCfg] of jpegenc_init.c, the default tables of
    jpegcodec_global.c, the register accesses of jpegenc_bitstream.c that
    append to the bitstream, the segments of jpegenc_header.c and
    [JPEG_HWWriteHead] of jpegenc_interface.c. Register writes are collected
    in order; what the polls of status registers see is a parameter. *)
From stdpp Require Import base list.
From Stdlib Require Import ZArith Lia.
From S2P Require Import Prelude JpegTables JpegHuff JpegSource JpegCodec.

(** ** Definitions *)

(** The registers written here, by their name in vsp_bsm.h, vsp_dcam.h and
    vsp_global_define.h; [VSP_MEMO0] with the offset from [VSP_MEMO0_ADDR]. *)
Inductive vsp_reg := BSM_CFG2 | BSM_WDATA | DCAM_CFG | VSP_MEMO0 (off : Z).

Record encoder := Encoder {
  enc : JPEG_CODEC_T;
  regs : list (vsp_reg * Z);
  polls : nat                (* polls made so far *)
}.

(** What [JpegEnc_InitParam] reads of [JPEG_ENC_INPUT_PARA_T]. *)
Record JPEG_ENC_INPUT_PARA_T := EncInput {
  ei_width : Z;
  ei_height : Z;
  ei_mcu_info_0 : Z;          (* yuv_0_info.input_mcu_info *)
  ei_mcu_info_1 : Z;          (* yuv_1_info.input_mcu_info *)
  ei_bitstream_buf_len : Z;
  ei_quant_level : Z;
  ei_work_mode : Z;
  ei_is_first_slice : bool;
  ei_is_last_slice : bool;
  ei_restart_interval : Z
}.

Section encoder.
(** Whether the [n]th poll sees the value it waits for before its time is
    over. *)
Context (ready : nat -> bool).

Definition upd_enc (f : JPEG_CODEC_T -> JPEG_CODEC_T) : M encoder unit :=
  modify (fun s => Encoder (f (enc s)) (regs s) (polls s)).

Definition VSP_WRITE_REG (r : vsp_reg) (v : Z) : M encoder unit :=
  modify (fun s => Encoder (enc s) (regs s ++ [(r, v)]) (polls s)).

(** True when the poll timed out. *)
Definition VSP_READ_REG_POLL : M encoder bool :=
  n <- gets polls ;;
  modify (fun s => Encoder (enc s) (regs s) (S (polls s))) ;;;
  ret (negb (ready n)).

(** [if (VSP_READ_REG_POLL(...)) return JPEG_FAILED;] *)
Definition poll_or_fail : M encoder unit :=
  timeout <- VSP_READ_REG_POLL ;;
  require (negb timeout).

(** *** jpegenc_bitstream.c *)

Definition JPEGFW_PutBits (val nbits : Z) : M encoder unit :=
  VSP_READ_REG_POLL ;;;
  VSP_WRITE_REG BSM_CFG2 (Z.shiftl nbits 24) ;;;
  VSP_WRITE_REG BSM_WDATA val.

Definition JPEGFW_PutC (ch : Z) : M encoder unit :=
  VSP_READ_REG_POLL ;;;
  VSP_WRITE_REG BSM_CFG2 (Z.shiftl 8 24) ;;;
  VSP_WRITE_REG BSM_WDATA (u8 ch).

Definition JPEGFW_PutW (w : Z) : M encoder unit :=
  VSP_READ_REG_POLL ;;;
  VSP_WRITE_REG BSM_CFG2 (Z.shiftl 16 24) ;;;
  VSP_WRITE_REG BSM_WDATA (u16 w).

Definition JPEGFW_PutW_II (w : Z) : M encoder unit :=
  let w := u16 w in
  JPEGFW_PutW (Z.lor (Z.shiftl (Z.land w 0xFF) 8) (Z.land (Z.shiftr w 8) 0xFF)).

(** The number of bits asked for is not used. *)
Definition JPEGFW_PutBits32_II (val nbits : Z) : M encoder unit :=
  let val := u32 val in
  JPEGFW_PutBits
    (Z.lor (Z.lor (Z.lor (Z.shiftl (Z.land val 0xFF) 24) (Z.shiftl (Z.land (Z.shiftr val 8) 0xFF) 16))
      (Z.shiftl (Z.land (Z.shiftr val 16) 0xFF) 8)) (Z.land (Z.shiftr val 24) 0xFF)) 32.

(** *** jpegenc_header.c *)

Definition PutMarker (mark : JPEG_MARKER_E) : M encoder unit :=
  JPEGFW_PutC 0xFF ;;;
  JPEGFW_PutC (marker_code mark).

Definition OutPutRstMarker : M encoder unit :=
  VSP_READ_REG_POLL ;;;
  c <- gets (fun s => RST_Count (enc s)) ;;
  (if c >? marker_code M_RST7 then upd_enc (set_RST_Count (marker_code M_RST0)) else ret tt) ;;;
  JPEGFW_PutC 0xFF ;;;
  c <- gets (fun s => RST_Count (enc s)) ;;
  upd_enc (set_RST_Count (u8 (c + 1))) ;;;
  JPEGFW_PutC c.

Definition PutAPP0 : M encoder unit :=
  poll_or_fail ;;;
  PutMarker M_APP0 ;;;
  JPEGFW_PutW (2 + 4 + 1 + 2 + 1 + 2 + 2 + 1 + 1) ;;;
  JPEGFW_PutC 0x4A ;;;
  JPEGFW_PutC 0x46 ;;;
  JPEGFW_PutC 0x49 ;;;
  JPEGFW_PutC 0x46 ;;;
  JPEGFW_PutC 0 ;;;
  JPEGFW_PutC 1 ;;;
  JPEGFW_PutC 1 ;;;
  JPEGFW_PutC 0 ;;;
  JPEGFW_PutW 1 ;;;
  JPEGFW_PutW 1 ;;;
  JPEGFW_PutC 0 ;;;
  JPEGFW_PutC 0.

(** A member of the encoder's codec that is an element of an array. *)
Definition enc_elem {A} (f : JPEG_CODEC_T -> list A) (i : Z) : M encoder A :=
  l <- gets (fun s => f (enc s)) ;;
  lift OutOfBounds (aget l i).

Definition PutSOF0 : M encoder unit :=
  poll_or_fail ;;;
  PutMarker M_SOF0 ;;;
  JPEGFW_PutW (3 * 3 + 2 + 5 + 1) ;;;
  JPEGFW_PutC 8 ;;;
  h <- gets (fun s => height (enc s)) ;;
  JPEGFW_PutW h ;;;
  w <- gets (fun s => width (enc s)) ;;
  JPEGFW_PutW w ;;;
  JPEGFW_PutC 3 ;;;
  forM (upto 3) (fun i =>
    JPEGFW_PutC (u8 (i + 1)) ;;;
    r <- enc_elem ratio i ;;
    JPEGFW_PutC (u8 (Z.lor (Z.shiftl (h_ratio r) 4) (v_ratio r))) ;;;
    t <- enc_elem tbl_map i ;;
    JPEGFW_PutC (u8 (quant_tbl_id t))).

Definition PutSOS : M encoder unit :=
  poll_or_fail ;;;
  PutMarker M_SOS ;;;
  JPEGFW_PutW (2 * 3 + 2 + 1 + 3) ;;;
  JPEGFW_PutC 3 ;;;
  forM (upto 3) (fun i =>
    JPEGFW_PutC (u8 (i + 1)) ;;;
    t <- enc_elem tbl_map i ;;
    JPEGFW_PutC (u8 (Z.lor (Z.shiftl (dc_huff_tbl_id t) 4) (ac_huff_tbl_id t)))) ;;;
  JPEGFW_PutC 0 ;;;
  JPEGFW_PutC 63 ;;;
  JPEGFW_PutC 0.

(** [JPEGFW_PutC(quant[zigzag[k]])] *)
Definition put_quant (quant : option (list Z)) (k : Z) : M encoder unit :=
  q <- lift NullPointer quant ;;
  z <- lift OutOfBounds (aget jpeg_fw_zigzag_order k) ;;
  v <- lift OutOfBounds (aget q z) ;;
  JPEGFW_PutC v.

Definition PutQuantTbl : M encoder unit :=
  forM (upto 2) (fun i =>
    poll_or_fail ;;;
    PutMarker M_DQT ;;;
    JPEGFW_PutW (64 + 1 + 2) ;;;
    JPEGFW_PutC i ;;;
    quant <- enc_elem quant_tbl i ;;
    poll_or_fail ;;;
    forM (upto 32) (put_quant quant) ;;;
    poll_or_fail ;;;
    forM (drop 32 (upto 64)) (put_quant quant)).

(** [for(i=1, count=0; i<=16; i++) count += bits[i];] *)
Fixpoint symbol_count (ls : list Z) (bits : list Z) (count : Z) : option Z :=
  match ls with
  | [] => Some count
  | i :: ls => n ← aget bits i; symbol_count ls bits (u16 (count + n))
  end.

(** [n] symbols from index [i] on. *)
Fixpoint put_huffvals (n : nat) (huffval : list Z) (i : Z) : M encoder unit :=
  match n with
  | O => ret tt
  | S n =>
      v <- lift OutOfBounds (aget huffval i) ;;
      JPEGFW_PutC v ;;;
      put_huffvals n huffval (i + 1)
  end.

(** [int_count] blocks of 32 symbols. *)
Fixpoint put_blocks (int_count : nat) (huffval : list Z) (i : Z) : M encoder unit :=
  match int_count with
  | O => ret tt
  | S int_count =>
      poll_or_fail ;;;
      put_huffvals 32 huffval i ;;;
      put_blocks int_count huffval (i + 32)
  end.

Definition PutOneHuffTbl (index : Z) (tbl : option HUFF_TBL_T) : M encoder unit :=
  t <- lift NullPointer tbl ;;
  count <- lift OutOfBounds (symbol_count lengths (bits t) 0) ;;
  poll_or_fail ;;;
  PutMarker M_DHT ;;;
  JPEGFW_PutW (u16 (2 + 1 + 16 + count)) ;;;
  JPEGFW_PutC index ;;;
  forM lengths (fun i => b <- lift OutOfBounds (aget (bits t) i) ;; JPEGFW_PutC b) ;;;
  let int_count := count / 32 in
  let left_count := count mod 32 in
  put_blocks (Z.to_nat int_count) (huffval t) 0 ;;;
  poll_or_fail ;;;
  put_huffvals (Z.to_nat left_count) (huffval t) (32 * int_count).

Definition PutHuffTbl : M encoder unit :=
  t <- enc_elem dc_huff_tbl JPEG_FW_LUM_ID ;;
  PutOneHuffTbl 0x00 t ;;;
  t <- enc_elem ac_huff_tbl JPEG_FW_LUM_ID ;;
  PutOneHuffTbl 0x10 t ;;;
  t <- enc_elem dc_huff_tbl JPEG_FW_CHR_ID ;;
  PutOneHuffTbl 0x01 t ;;;
  t <- enc_elem ac_huff_tbl JPEG_FW_CHR_ID ;;
  PutOneHuffTbl 0x11 t.

Definition WriteDRI : M encoder unit :=
  poll_or_fail ;;;
  restart <- gets (fun s => restart_interval (enc s)) ;;
  if truthy restart then
    PutMarker M_DRI ;;;
    JPEGFW_PutW 4 ;;;
    JPEGFW_PutW (u16 restart)
  else ret tt.

(** [JPEG_HWWriteHead], and [JPEG_HWWriteHeadForThumbnail] with the same body. *)
Definition JPEG_HWWriteHead : M encoder unit :=
  poll_or_fail ;;;
  PutMarker M_SOI ;;;
  PutAPP0 ;;;
  PutQuantTbl ;;;
  PutSOF0 ;;;
  PutHuffTbl ;;;
  WriteDRI ;;;
  PutSOS.

Definition JPEG_HWWriteHeadForThumbnail : M encoder unit :=
  poll_or_fail ;;;
  PutMarker M_SOI ;;;
  PutAPP0 ;;;
  PutQuantTbl ;;;
  PutSOF0 ;;;
  PutHuffTbl ;;;
  WriteDRI ;;;
  PutSOS.

Definition JPEG_HWWriteTailForThumbnail : M encoder unit :=
  poll_or_fail ;;;
  PutMarker M_EOI.

(** The thumbnail's words and the bytes that are left, from memory. *)
Definition WriteThumbnailData (thumbnail : list Z) : M encoder unit :=
  let words := Z.to_nat (zlen thumbnail / 4) in
  forM (upto words) (fun i =>
    b0 <- lift OutOfBounds (aget thumbnail (4 * i)) ;;
    b1 <- lift OutOfBounds (aget thumbnail (4 * i + 1)) ;;
    b2 <- lift OutOfBounds (aget thumbnail (4 * i + 2)) ;;
    b3 <- lift OutOfBounds (aget thumbnail (4 * i + 3)) ;;
    JPEGFW_PutBits32_II (b0 + 256 * b1 + 65536 * b2 + 16777216 * b3) 32) ;;;
  forM (upto (Z.to_nat (zlen thumbnail mod 4))) (fun j =>
    b <- lift OutOfBounds (aget thumbnail (4 * Z.of_nat words + j)) ;;
    JPEGFW_PutC b).

(** *** Setup *)

Definition JPEGFW_InitHuffTblWithDefaultValue : M encoder unit :=
  upd_enc (fun c =>
    match tbl_map c with
    | [y; u; v] =>
        set_tbl_map [TblMap JPEG_FW_LUM_ID JPEG_FW_LUM_ID (quant_tbl_id y);
                     TblMap JPEG_FW_CHR_ID JPEG_FW_CHR_ID (quant_tbl_id u);
                     TblMap JPEG_FW_CHR_ID JPEG_FW_CHR_ID (quant_tbl_id v)] c
    | _ => c
    end).

(** Two entries of a quantizer, as the hardware's word. *)
Definition qtable_entry (tbl shift : list Z) (index : Z) : option Z :=
  q ← aget tbl index;
  s ← aget shift index;
  Some (u16 (Z.lor (Z.shiftl q 4) (u16 (s - 11)))).

Definition qtable_word (tbl shift : list Z) (i : Z) : option Z :=
  index1 ← aget jpeg_fw_ASIC_DCT_Matrix i;
  index2 ← aget jpeg_fw_ASIC_DCT_Matrix (i + 1);
  tmp1 ← qtable_entry tbl shift index1;
  tmp2 ← qtable_entry tbl shift index2;
  Some (Z.lor (Z.shiftl tmp2 16) (Z.land tmp1 0xFFFF)).

Definition select_tables (level : Z) (c : JPEG_CODEC_T) : option JPEG_CODEC_T :=
  lum ← aget jpeg_fw_lum_quant_tbl_default level;
  chr ← aget jpeg_fw_chr_quant_tbl_default level;
  lum_new ← aget jpeg_fw_new_lum_quant_tbl_default level;
  chr_new ← aget jpeg_fw_new_chr_quant_tbl_default level;
  lum_shift ← aget jpeg_fw_new_lum_quant_tbl_default_shift level;
  chr_shift ← aget jpeg_fw_new_chr_quant_tbl_default_shift level;
  Some (set_quant_tbl_shift [Some lum_shift; Some chr_shift; None]
    (set_quant_tbl_new [Some lum_new; Some chr_new; None]
      (set_quant_tbl [Some lum; Some chr; None] c))).

Definition set_quant_ids (c : JPEG_CODEC_T) : JPEG_CODEC_T :=
  match tbl_map c with
  | [y; u; v] =>
      set_tbl_map [TblMap (dc_huff_tbl_id y) (ac_huff_tbl_id y) JPEG_FW_LUM_ID;
                   TblMap (dc_huff_tbl_id u) (ac_huff_tbl_id u) JPEG_FW_CHR_ID;
                   TblMap (dc_huff_tbl_id v) (ac_huff_tbl_id v) JPEG_FW_CHR_ID] c
  | _ => c
  end.

Definition JpegEnc_QTableCfg : M encoder unit :=
  upd_enc set_quant_ids ;;;
  level <- gets (fun s => compress_level (enc s)) ;;
  c <- gets enc ;;
  c <- lift OutOfBounds (select_tables level c) ;;
  upd_enc (fun _ => c) ;;;
  VSP_WRITE_REG DCAM_CFG (Z.lor (Z.shiftl 1 4) (Z.shiftl 1 3)) ;;;
  VSP_READ_REG_POLL ;;;
  forM (upto 2) (fun tbl_id =>
    tbl <- enc_elem quant_tbl_new tbl_id ;;
    tbl <- lift NullPointer tbl ;;
    shift <- enc_elem quant_tbl_shift tbl_id ;;
    shift <- lift NullPointer shift ;;
    forM (upto 32) (fun k =>
      w <- lift OutOfBounds (qtable_word tbl shift (2 * k)) ;;
      VSP_WRITE_REG (VSP_MEMO0 (4 * (32 * tbl_id + k))) w)) ;;;
  VSP_WRITE_REG DCAM_CFG (Z.lor (Z.shiftl 0 4) (Z.shiftl 1 3)) ;;;
  VSP_READ_REG_POLL ;;;
  ret tt.

Definition JPEG_QUALITY_MAX : Z := 5.

(** [switch(jpeg_fw_codec->input_mcu_info)] *)
Definition enc_ratios (mcu_info : Z) : option (list SAMPLE_RATIO_T) :=
  if mcu_info =? JPEG_FW_YUV420 then Some [Ratio 2 2; Ratio 1 1; Ratio 1 1]
  else if mcu_info =? JPEG_FW_YUV422 then Some [Ratio 2 1; Ratio 1 1; Ratio 1 1]
  else None.

Definition max_ratio (f : SAMPLE_RATIO_T -> Z) (l : list SAMPLE_RATIO_T) : Z :=
  foldr (fun r m => Z.max (f r) m) 0 l.

(** The MCU grid of an image. *)
Definition set_mcu_grid (v_ratio_max h_ratio_max : Z) (c : JPEG_CODEC_T) : JPEG_CODEC_T :=
  let mh := u16 (8 * v_ratio_max) in
  let mw := u16 (8 * h_ratio_max) in
  let nx := u16 ((width c + mw - 1) / mw) in
  let ny := u16 ((height c + mh - 1) / mh) in
  set_c_height (u16 (ny * mh)) (set_c_width (u16 (nx * mw))
    (set_mcu_num_y ny (set_mcu_num_x nx (set_mcu_width mw (set_mcu_height mh c))))).

Definition unsupported (mcu_info : Z) : bool :=
  negb (mcu_info =? JPEG_FW_YUV422) && negb (mcu_info =? JPEG_FW_YUV420).

(** The buffers' addresses are left out. *)
Definition load_params (p : JPEG_ENC_INPUT_PARA_T) : JPEG_CODEC_T :=
  set_pingpang_buf_len (ei_bitstream_buf_len p)
  (set_compress_level (ei_quant_level p)
  (set_height (u16 (ei_height p))
  (set_width (u16 (ei_width p))
  (set_input_mcu_info (u8 (ei_mcu_info_0 p))
  (set_is_last_slice (ei_is_last_slice p)
  (set_is_first_slice (ei_is_first_slice p)
  (set_work_mode (u8 (ei_work_mode p))
  (set_RST_Count (marker_code M_RST0) zeroed_codec)))))))).

Definition JpegEnc_InitParam (p : JPEG_ENC_INPUT_PARA_T) : M encoder unit :=
  require (negb (unsupported (ei_mcu_info_0 p) && unsupported (ei_mcu_info_1 p))) ;;;
  level <- gets (fun s => compress_level (enc s)) ;;
  require (negb (level >? JPEG_QUALITY_MAX)) ;;;
  require (negb ((ei_width p <? 1) || (ei_height p <? 1))) ;;;
  upd_enc (fun _ => load_params p) ;;;
  upd_enc (set_dc_huff_tbl
    [Some (HuffTbl jpeg_fw_lum_dc_bits_default jpeg_fw_lum_dc_huffvalue_default);
     Some (HuffTbl jpeg_fw_chr_dc_bits_default jpeg_fw_chr_dc_huffvalue_default); None; None]) ;;;
  upd_enc (set_ac_huff_tbl
    [Some (HuffTbl jpeg_fw_lum_ac_bits_default jpeg_fw_lum_ac_huffvalue_default);
     Some (HuffTbl jpeg_fw_chr_ac_bits_default jpeg_fw_chr_ac_huffvalue_default); None; None]) ;;;
  upd_enc (fun c => set_next_restart_num 0 (set_restart_to_go 0
                      (set_restart_interval (ei_restart_interval p) c))) ;;;
  mcu_info <- gets (fun s => input_mcu_info (enc s)) ;;
  match enc_ratios mcu_info with
  | None => exit
  | Some l =>
      upd_enc (set_ratio l) ;;;
      upd_enc (set_mcu_grid (max_ratio v_ratio l) (max_ratio h_ratio l))
  end.

(** [JPEG_HWEncInit] up to the configuration of the other hardware modules. *)
Definition JPEG_HWEncInit (p : JPEG_ENC_INPUT_PARA_T) : M encoder unit :=
  upd_enc (fun c => set_is_last_slice (ei_is_last_slice p) (set_is_first_slice (ei_is_first_slice p) c)) ;;;
  (if ei_is_first_slice p then JpegEnc_InitParam p else ret tt) ;;;
  JPEGFW_InitHuffTblWithDefaultValue ;;;
  JpegEnc_QTableCfg.
End encoder.
