(* ===== verification/JpegEncodeProofs.v ===== *)
(** * What the JPEG encoder writes

    The bitstream unit as an interface, the segments of a header as byte
    lists, and the theorem that the encoder, once set up, hands the unit
    exactly those segments. *)
From stdpp Require Import base list.
From Stdlib Require Import ZArith Lia.
From S2P Require Import Prelude JpegTables JpegHuff JpegSource JpegCodec JpegEncode.

(** ** The bitstream unit *)

(** The hardware turns register writes into bytes of the stream: a write of
    the data register appends as many bits as the configuration register
    asked for, most significant first; other registers append nothing. *)
Class BitstreamUnit := {
  appended : list (vsp_reg * Z) -> list Z;
  appended_8 tr v : byte v ->
    appended (tr ++ [(BSM_CFG2, Z.shiftl 8 24); (BSM_WDATA, v)]) = appended tr ++ [v];
  appended_16 tr v : 0 <= v < 65536 ->
    appended (tr ++ [(BSM_CFG2, Z.shiftl 16 24); (BSM_WDATA, v)]) = appended tr ++ be16 v;
  appended_32 tr v : 0 <= v < 4294967296 ->
    appended (tr ++ [(BSM_CFG2, Z.shiftl 32 24); (BSM_WDATA, v)]) = appended tr ++ be32 v;
  appended_other tr r v : r <> BSM_CFG2 -> r <> BSM_WDATA -> appended (tr ++ [(r, v)]) = appended tr
}.

(** A unit that obeys the interface: the number of bits and the bytes. *)
Definition unit_step (st : Z * list Z) (w : vsp_reg * Z) : Z * list Z :=
  match w with
  | (BSM_CFG2, v) => (Z.shiftr v 24, st.2)
  | (BSM_WDATA, v) =>
      (st.1, st.2 ++ (if st.1 =? 8 then [u8 v] else if st.1 =? 16 then be16 v else be32 v))
  | _ => st
  end.

#[export] Program Instance simple_unit : BitstreamUnit := {
  appended tr := (fold_left unit_step tr (0, [])).2
}.
Next Obligation. intros tr v Hv. cbv beta. rewrite fold_left_app. cbn -[u8]. by rewrite u8_small. Qed.
Next Obligation. intros tr v Hv. cbv beta. by rewrite fold_left_app. Qed.
Next Obligation. intros tr v Hv. cbv beta. by rewrite fold_left_app. Qed.
Next Obligation. intros tr [] v H1 H2; cbv beta; by rewrite fold_left_app. Qed.

(** ** The segments *)

Definition in_zigzag (q : list Z) : list Z :=
  omap (fun z => aget q z) (take 64 jpeg_fw_zigzag_order).

Definition app0_segment : list Z :=
  [0xFF; 0xE0] ++ be16 16 ++ [0x4A; 0x46; 0x49; 0x46; 0; 1; 1; 0] ++ be16 1 ++ be16 1 ++ [0; 0].

Definition dqt_segment (id : Z) (q : list Z) : list Z :=
  [0xFF; 0xDB] ++ be16 67 ++ [id] ++ in_zigzag q.

Definition sof0_segment (w h : Z) (comps : list (Z * Z * Z)) : list Z :=
  [0xFF; 0xC0] ++ be16 17 ++ [8] ++ be16 h ++ be16 w ++ [3]
  ++ concat (map (fun c => [c.1.1; c.1.2; c.2]) comps).

Definition dht_segment (id : Z) (t : HUFF_TBL_T) : list Z :=
  let n := total (tail (bits t)) in
  [0xFF; 0xC4] ++ be16 (19 + n) ++ [id] ++ tail (bits t) ++ take (Z.to_nat n) (huffval t).

Definition dri_segment (n : Z) : list Z :=
  if n =? 0 then [] else [0xFF; 0xDD] ++ be16 4 ++ be16 (u16 n).

Definition sos_segment (comps : list (Z * Z)) : list Z :=
  [0xFF; 0xDA] ++ be16 12 ++ [3] ++ concat (map (fun c => [c.1; c.2]) comps) ++ [0; 63; 0].

(** The tables of a codec as they must be for a header. *)
Record header_tables := HeaderTables {
  ht_quant : list Z * list Z;
  ht_dc : HUFF_TBL_T * HUFF_TBL_T;
  ht_ac : HUFF_TBL_T * HUFF_TBL_T
}.

Definition frame_comps (c : JPEG_CODEC_T) : list (Z * Z * Z) :=
  (fun '(i, (r, t)) =>
     (i, u8 (Z.lor (Z.shiftl (h_ratio r) 4) (v_ratio r)), u8 (quant_tbl_id t)))
  <$> zip [1; 2; 3] (zip (ratio c) (tbl_map c)).

Definition scan_comps (c : JPEG_CODEC_T) : list (Z * Z) :=
  (fun '(i, t) => (i, u8 (Z.lor (Z.shiftl (dc_huff_tbl_id t) 4) (ac_huff_tbl_id t))))
  <$> zip [1; 2; 3] (tbl_map c).

Definition header (c : JPEG_CODEC_T) (t : header_tables) : list Z :=
  [0xFF; 0xD8] ++ app0_segment
  ++ dqt_segment 0 (ht_quant t).1 ++ dqt_segment 1 (ht_quant t).2
  ++ sof0_segment (width c) (height c) (frame_comps c)
  ++ dht_segment 0x00 (ht_dc t).1 ++ dht_segment 0x10 (ht_ac t).1
  ++ dht_segment 0x01 (ht_dc t).2 ++ dht_segment 0x11 (ht_ac t).2
  ++ dri_segment (restart_interval c) ++ sos_segment (scan_comps c).

(** A Huffman table in an array of the source: seventeen numbers of codes,
    with at most 256 symbols, which are there. *)
Record huff_tbl_ok (t : HUFF_TBL_T) : Prop := HuffTblOk {
  ho_bits : length (bits t) = 17%nat;
  ho_bytes : bytes (bits t);
  ho_vals : bytes (huffval t);
  ho_total : total (tail (bits t)) <= 256;
  ho_enough : total (tail (bits t)) <= zlen (huffval t)
}.

Record has_tables (c : JPEG_CODEC_T) (t : header_tables) : Prop := HasTables {
  hs_ratio : length (ratio c) = 3%nat;
  hs_map : length (tbl_map c) = 3%nat;
  hs_size : 0 <= width c < 65536 /\ 0 <= height c < 65536;
  hs_quant : exists q, quant_tbl c = [Some (ht_quant t).1; Some (ht_quant t).2; q];
  hs_quant_len : length (ht_quant t).1 = 64%nat /\ length (ht_quant t).2 = 64%nat;
  hs_quant_bytes : bytes (ht_quant t).1 /\ bytes (ht_quant t).2;
  hs_dc : exists l, dc_huff_tbl c = Some (ht_dc t).1 :: Some (ht_dc t).2 :: l;
  hs_ac : exists l, ac_huff_tbl c = Some (ht_ac t).1 :: Some (ht_ac t).2 :: l;
  hs_huff : Forall huff_tbl_ok [(ht_dc t).1; (ht_dc t).2; (ht_ac t).1; (ht_ac t).2]
}.

(** ** The encoder appends the segments *)

(** An array read through its indices. *)
Lemma concat_upto {A} (f : A -> option Z) (l : list A) n :
  (n <= length l)%nat ->
  concat (map (fun k => match (z ← aget l k; f z) with Some v => [v] | None => [] end) (upto n))
  = omap f (take n l).
Proof.
  intros Hn. cut (forall l' pre post, pre ++ l' ++ post = l ->
    concat (map (fun k => match (z ← aget l k; f z) with Some v => [v] | None => [] end)
      (Z.of_nat <$> seq (length pre) (length l'))) = omap f l').
  { intros H. rewrite <- (H (take n l) [] (drop n l)) by apply take_drop.
    by rewrite length_take, Nat.min_l. }
  induction l' as [|x l' IH]; intros pre post E; [done|].
  cbn [length seq fmap list_fmap map concat omap list_omap].
  specialize (IH (pre ++ [x]) post). rewrite length_app, Nat.add_1_r in IH.
  rewrite IH by (by rewrite <- app_assoc).
  assert (Ex : aget l (Z.of_nat (length pre)) = Some x) by (rewrite <- E; apply aget_middle).
  rewrite Ex, obind_Some. by destruct (f x).
Qed.

Create HintDb cemit.

Section emits.
Context `{BitstreamUnit} (ready : nat -> bool) (c : JPEG_CODEC_T).

Definition out (s : encoder) : list Z := appended (regs s).

(** From a state with the codec [c], [m] appends [l] and keeps the codec; it
    fails only when a poll times out, and has appended a part of [l] then. *)
Definition emits {A} (l : list Z) (m : M encoder A) : Prop :=
  forall s, enc s = c ->
    wp no_fault m (fun _ s' => enc s' = c /\ out s' = out s ++ l)
      (fun s' => (exists n, ready n = false) /\ enc s' = c /\ exists k, out s' = out s ++ take k l) s.

Lemma emits_ret {A} (a : A) : emits [] (ret a).
Proof. intros s Hs. cbn. split; [done|]. by rewrite app_nil_r. Qed.

Lemma emits_bind {A C} l1 l2 (m : M encoder A) (k : A -> M encoder C) :
  emits l1 m -> (forall a, emits l2 (k a)) -> emits (l1 ++ l2) (bind m k).
Proof.
  intros Hm Hk s Hs. apply wp_bind. eapply wp_mono; [by apply Hm| |].
  - intros a s1 [Hs1 Ho1]. eapply wp_mono; [by apply Hk| |].
    + intros b s2 [Hs2 Ho2]. split; [done|]. by rewrite Ho2, Ho1, app_assoc.
    + intros s2 (Hr & Hs2 & k' & Ho2). split_and!; [done..|]. exists (length l1 + k')%nat.
      by rewrite Ho2, Ho1, take_app_add', app_assoc.
  - intros s1 (Hr & Hs1 & k' & Ho1). split_and!; [done..|]. exists (Nat.min k' (length l1)).
    rewrite Ho1. f_equal. rewrite take_app_le by lia. rewrite <- take_take. by rewrite (take_ge l1 (length l1)).
Qed.

Lemma emits_seq {A C} l2 (m : M encoder A) (k : A -> M encoder C) :
  emits [] m -> (forall a, emits l2 (k a)) -> emits l2 (bind m k).
Proof. intros Hm Hk. by apply (emits_bind [] l2). Qed.

Lemma emits_gets {A C} l (f : JPEG_CODEC_T -> A) (k : A -> M encoder C) :
  emits l (k (f c)) -> emits l (bind (gets (fun s => f (enc s))) k).
Proof. intros Hk s Hs. unfold wp, bind, gets. rewrite Hs. by apply Hk. Qed.

Lemma emits_lift {A C} l fl (o : option A) a (k : A -> M encoder C) :
  o = Some a -> emits l (k a) -> emits l (bind (lift fl o) k).
Proof. intros -> Hk s Hs. by apply Hk. Qed.

Lemma emits_elem {A C} l (f : JPEG_CODEC_T -> list A) i a (k : A -> M encoder C) :
  aget (f c) i = Some a -> emits l (k a) -> emits l (bind (enc_elem f i) k).
Proof. intros E Hk s Hs. unfold enc_elem, bind, gets, lift, wp. rewrite Hs, E. by apply Hk. Qed.

Lemma emits_forM {A} (f : A -> list Z) (xs : list A) (body : A -> M encoder unit) :
  (forall x, x ∈ xs -> emits (f x) (body x)) -> emits (concat (map f xs)) (forM xs body).
Proof.
  induction xs as [|x xs IH]; intros Hb; [apply emits_ret|]. cbn [map concat forM].
  apply emits_bind; [apply Hb; left|]. intros _. apply IH. intros y Hy. apply Hb. by right.
Qed.

Lemma emits_poll : emits [] (VSP_READ_REG_POLL ready).
Proof. intros s Hs. cbn. split; [done|]. by rewrite app_nil_r. Qed.

Lemma emits_poll_or_fail : emits [] (poll_or_fail ready).
Proof.
  intros s Hs. unfold poll_or_fail, VSP_READ_REG_POLL, bind, gets, modify, ret, require, wp.
  destruct (ready (polls s)) eqn:E; cbn.
  - split; [done|]. by rewrite app_nil_r.
  - split_and!; [by eexists|done|]. exists 0%nat. by rewrite app_nil_r.
Qed.

Lemma emits_PutC v : byte v -> emits [v] (JPEGFW_PutC ready v).
Proof.
  intros Hv s Hs. cbn -[u8]. split; [done|]. unfold out. cbn -[u8].
  rewrite <- app_assoc. cbn [app]. rewrite u8_small by done. by rewrite appended_8.
Qed.

Lemma emits_PutW v : 0 <= v < 65536 -> emits (be16 v) (JPEGFW_PutW ready v).
Proof.
  intros Hv s Hs. cbn -[u16 be16]. split; [done|]. unfold out. cbn -[u16 be16].
  rewrite <- app_assoc. cbn [app]. rewrite u16_small by done. by rewrite appended_16.
Qed.

Lemma emits_PutMarker m :
  m <> M_ERROR -> emits [0xFF; marker_code m] (PutMarker ready m).
Proof.
  intros Hm. unfold PutMarker. apply (emits_bind [0xFF]); [by apply emits_PutC|]. intros _.
  apply emits_PutC. by destruct m.
Qed.

Hint Resolve emits_ret emits_poll emits_poll_or_fail emits_PutC emits_PutW : cemit.
Hint Extern 1 (byte _) => (unfold byte; lia) : cemit.
Hint Extern 1 (byte (u8 _)) => apply u8_byte : cemit.

(** The next byte or word. *)
Lemma emits_PutC_then {A} v l (k : M encoder A) :
  byte v -> emits l k -> emits (v :: l) (JPEGFW_PutC ready v ;;; k).
Proof. intros Hv Hk. apply (emits_bind [v]); auto using emits_PutC. Qed.
Lemma emits_PutW_then {A} v l (k : M encoder A) :
  0 <= v < 65536 -> emits l k -> emits (be16 v ++ l) (JPEGFW_PutW ready v ;;; k).
Proof. intros Hv Hk. apply emits_bind; auto using emits_PutW. Qed.
Lemma emits_PutMarker_then {A} m l (k : M encoder A) :
  m <> M_ERROR -> emits l k -> emits ([0xFF; marker_code m] ++ l) (PutMarker ready m ;;; k).
Proof. intros Hm Hk. apply emits_bind; auto using emits_PutMarker. Qed.

Lemma emits_PutAPP0 : emits app0_segment (PutAPP0 ready).
Proof.
  unfold PutAPP0. apply emits_seq; [apply emits_poll_or_fail|intros _].
  apply (emits_PutMarker_then M_APP0); [done|]. apply emits_PutW_then; [lia|].
  do 8 (apply emits_PutC_then; [auto with cemit|]).
  do 2 (apply emits_PutW_then; [lia|]).
  apply emits_PutC_then; [auto with cemit|]. by apply emits_PutC.
Qed.

Definition zz (q : list Z) (k : Z) : list Z :=
  match z ← aget jpeg_fw_zigzag_order k; aget q z with Some v => [v] | None => [] end.

Lemma zz_zigzag q : concat (map (zz q) (upto 64)) = in_zigzag q.
Proof. apply (concat_upto (aget q) jpeg_fw_zigzag_order 64). simpl. lia. Qed.

Lemma emits_put_quant q k :
  length q = 64%nat -> bytes q -> k ∈ upto 64 -> emits (zz q k) (put_quant ready (Some q) k).
Proof.
  intros Hq Hb (n & -> & Hn%elem_of_seq)%list_elem_of_fmap.
  destruct (zigzag_range (Z.of_nat n)) as (z & Ez & Hz); [lia|].
  destruct (aget_is_Some q z) as [v Ev]; [unfold zlen; lia|].
  unfold put_quant, zz. rewrite Ez, obind_Some, Ev.
  eapply emits_lift; [done|]. eapply emits_lift; [done|]. eapply emits_lift; [done|].
  apply emits_PutC. apply aget_Some in Ev as [_ Ev]. by eapply bytes_lookup.
Qed.

Lemma emits_put_quants q ks :
  length q = 64%nat -> bytes q -> (forall k, k ∈ ks -> k ∈ upto 64) ->
  emits (concat (map (zz q) ks)) (forM ks (put_quant ready (Some q))).
Proof. intros Hq Hb Hk. apply emits_forM. intros k Hin. apply emits_put_quant; auto. Qed.

Lemma emits_PutQuantTbl q0 q1 q2 :
  quant_tbl c = [Some q0; Some q1; q2] -> length q0 = 64%nat -> length q1 = 64%nat ->
  bytes q0 -> bytes q1 ->
  emits (dqt_segment 0 q0 ++ dqt_segment 1 q1) (PutQuantTbl ready).
Proof.
  intros Hq Hl0 Hl1 Hb0 Hb1. unfold PutQuantTbl.
  set (sel := fun i => dqt_segment i (if i =? 0 then q0 else q1)).
  assert (E : dqt_segment 0 q0 ++ dqt_segment 1 q1 = concat (map sel (upto 2)))
    by (cbn [upto seq fmap list_fmap map concat sel]; by rewrite app_nil_r).
  rewrite E. apply emits_forM. intros i Hi.
  assert (Hi' : byte i /\ aget (quant_tbl c) i = Some (Some (if i =? 0 then q0 else q1))).
  { rewrite Hq. apply elem_of_cons in Hi as [-> | [-> | [] %not_elem_of_nil] %elem_of_cons]; by split. }
  destruct Hi' as [Hbi Eq]. unfold sel. set (q := if i =? 0 then q0 else q1) in *.
  assert (Hlq : length q = 64%nat /\ bytes q) by (unfold q; by destruct (i =? 0)).
  destruct Hlq as [Hlq Hbq]. unfold dqt_segment.
  apply emits_seq; [apply emits_poll_or_fail|intros _].
  apply (emits_PutMarker_then M_DQT); [done|]. apply emits_PutW_then; [lia|].
  apply emits_PutC_then; [done|]. eapply emits_elem; [exact Eq|].
  apply emits_seq; [apply emits_poll_or_fail|intros _].
  rewrite <- zz_zigzag. change (upto 64) with (upto 32 ++ drop 32 (upto 64)).
  rewrite map_app, concat_app. apply emits_bind.
  { apply emits_put_quants; [done..|]. intros k (n & -> & Hn%elem_of_seq)%list_elem_of_fmap.
    apply list_elem_of_fmap_2, elem_of_seq. lia. }
  intros _. apply emits_seq; [apply emits_poll_or_fail|intros _].
  apply emits_put_quants; [done..|]. intros k Hk.
  change (upto 64) with (upto 32 ++ drop 32 (upto 64)). apply elem_of_app. by right.
Qed.

Lemma emits_PutSOF0 :
  length (ratio c) = 3%nat -> length (tbl_map c) = 3%nat -> 0 <= width c < 65536 ->
  0 <= height c < 65536 -> emits (sof0_segment (width c) (height c) (frame_comps c)) (PutSOF0 ready).
Proof.
  intros Hr Ht Hw Hh. unfold PutSOF0, sof0_segment, frame_comps.
  destruct (ratio c) as [|r0 [|r1 [|r2 []]]] eqn:Er; try done.
  destruct (tbl_map c) as [|t0 [|t1 [|t2 []]]] eqn:Et; try done.
  apply emits_seq; [apply emits_poll_or_fail|intros _].
  apply (emits_PutMarker_then M_SOF0); [done|]. apply emits_PutW_then; [lia|].
  apply emits_PutC_then; [done|].
  apply emits_gets, emits_PutW_then; [lia|]. apply emits_gets, emits_PutW_then; [lia|].
  apply emits_PutC_then; [done|]. change (upto 3) with [0; 1; 2]. cbn [zip fmap list_fmap map concat forM].
  repeat (apply emits_bind; [|intros _; cbn beta]); [| | |apply emits_ret];
    (apply emits_PutC_then; [apply u8_byte|]);
    (eapply emits_elem; [rewrite Er; reflexivity|]);
    (apply emits_PutC_then; [apply u8_byte|]);
    (eapply emits_elem; [rewrite Et; reflexivity|]); apply emits_PutC, u8_byte.
Qed.

Lemma emits_PutSOS :
  length (tbl_map c) = 3%nat -> emits (sos_segment (scan_comps c)) (PutSOS ready).
Proof.
  intros Ht. unfold PutSOS, sos_segment, scan_comps.
  destruct (tbl_map c) as [|t0 [|t1 [|t2 []]]] eqn:Et; try done.
  apply emits_seq; [apply emits_poll_or_fail|intros _].
  apply (emits_PutMarker_then M_SOS); [done|]. apply emits_PutW_then; [lia|].
  apply emits_PutC_then; [done|]. change (upto 3) with [0; 1; 2]. cbn [zip fmap list_fmap map concat forM].
  apply emits_bind.
  - repeat (apply emits_bind; [|intros _; cbn beta]); [| | |apply emits_ret];
      (apply emits_PutC_then; [apply u8_byte|]);
      (eapply emits_elem; [rewrite Et; reflexivity|]); apply emits_PutC, u8_byte.
  - intros _. do 2 (apply emits_PutC_then; [auto with cemit|]). by apply emits_PutC.
Qed.

Lemma emits_put_huffvals n v i :
  bytes v -> 0 <= i -> i + Z.of_nat n <= zlen v ->
  emits (take n (drop (Z.to_nat i) v)) (put_huffvals ready n v i).
Proof.
  intros Hv. revert i. induction n as [|n IH]; intros i Hi Hn; cbn [put_huffvals].
  { rewrite take_0. apply emits_ret. }
  destruct (aget_is_Some v i) as [x Ex]; [lia|]. eapply emits_lift; [exact Ex|].
  apply aget_Some in Ex as [_ Ex]. rewrite (drop_S _ x) by done. cbn [take firstn].
  apply emits_PutC_then; [by eapply bytes_lookup|].
  replace (S (Z.to_nat i)) with (Z.to_nat (i + 1)) by lia. apply IH; lia.
Qed.

Lemma emits_put_blocks k v i :
  bytes v -> 0 <= i -> i + 32 * Z.of_nat k <= zlen v ->
  emits (take (32 * k) (drop (Z.to_nat i) v)) (put_blocks ready k v i).
Proof.
  intros Hv. revert i. induction k as [|k IH]; intros i Hi Hn; cbn [put_blocks].
  { rewrite Nat.mul_0_r, take_0. apply emits_ret. }
  apply emits_seq; [apply emits_poll_or_fail|intros _].
  replace (32 * S k)%nat with (32 + 32 * k)%nat by lia.
  rewrite <- (take_drop 32 (drop (Z.to_nat i) v)) at 1. rewrite take_app_add'
    by (rewrite length_take, length_drop; unfold zlen in Hn; lia).
  apply emits_bind; [apply emits_put_huffvals; lia || done|]. intros _. rewrite drop_drop.
  replace (Z.to_nat i + 32)%nat with (Z.to_nat (i + 32)) by lia. apply IH; lia.
Qed.

Lemma symbol_count_total ns l bpre n :
  Forall (Z.le 0) ns -> zlen bpre = l -> 0 <= n -> n + total ns < 65536 ->
  symbol_count (zseq l (length ns)) (bpre ++ ns) n = Some (n + total ns).
Proof.
  intros Hnn. revert l bpre n. induction Hnn as [|m ns Hm Hns IH]; intros l bpre n Hl Hn Ht.
  { cbn. by rewrite Z.add_0_r. }
  cbn [length zseq symbol_count total foldr] in *. fold (total ns) in *.
  pose proof (total_nonneg ns Hns). rewrite <- Hl at 1. rewrite aget_middle, obind_Some.
  rewrite u16_small by lia. rewrite (app_snoc bpre), IH by (rewrite <- ?zlen_snoc; lia).
  f_equal. lia.
Qed.

Lemma emits_put_counts l0 ns bpre :
  bytes ns -> zlen bpre = l0 ->
  emits ns (forM (zseq l0 (length ns))
    (fun i => b <- lift OutOfBounds (aget (bpre ++ ns) i) ;; JPEGFW_PutC ready b)).
Proof.
  intros Hb. revert l0 bpre. induction Hb as [|m ns Hm Hns IH]; intros l0 bpre Hl; [apply emits_ret|].
  cbn [length zseq forM]. apply (emits_bind [m]).
  - rewrite <- Hl. eapply emits_lift; [apply aget_middle|]. by apply emits_PutC.
  - intros _. rewrite (app_snoc bpre). apply IH. rewrite <- zlen_snoc. lia.
Qed.

Lemma emits_PutOneHuffTbl id t :
  byte id -> huff_tbl_ok t -> emits (dht_segment id t) (PutOneHuffTbl ready id (Some t)).
Proof.
  intros Hid [Hb Hbb Hbv Ht Hv]. unfold PutOneHuffTbl, dht_segment.
  destruct t as [b v]; cbn [bits huffval] in *. destruct b as [|b0 ns]; [done|]. cbn [tail] in *.
  injection Hb as Hl. apply Forall_cons in Hbb as [_ Hbn].
  assert (Hnn : Forall (Z.le 0) ns) by (eapply Forall_impl; [exact Hbn|]; by intros x [? ?]).
  pose proof (total_nonneg ns Hnn).
  assert (El : lengths = zseq 1 (length ns)) by by rewrite Hl.
  eapply emits_lift; [done|]. cbn [bits huffval]. rewrite El.
  eapply emits_lift; [apply (symbol_count_total ns 1 [b0] 0); [done|done|lia|lia]|].
  apply emits_seq; [apply emits_poll_or_fail|intros _].
  apply (emits_PutMarker_then M_DHT); [done|].
  rewrite Z.add_0_l. change (2 + 1 + 16) with 19. rewrite u16_small by lia.
  apply emits_PutW_then; [lia|]. apply emits_PutC_then; [done|].
  apply emits_bind; [by apply (emits_put_counts 1 ns [b0])|]. intros _. cbn zeta.
  set (n := total ns) in *.
  assert (Hn : n = 32 * (n / 32) + n mod 32) by (apply Z.div_mod; lia).
  assert (0 <= n / 32 /\ 0 <= n mod 32 < 32) by (Z.div_mod_to_equations; lia).
  replace (Z.to_nat n) with (32 * Z.to_nat (n / 32) + Z.to_nat (n mod 32))%nat by lia.
  rewrite <- (take_drop (32 * Z.to_nat (n / 32)) v) at 1.
  rewrite take_app_add' by (rewrite length_take; unfold zlen in Hv; lia).
  apply emits_bind; [apply (emits_put_blocks _ v 0); [done|lia|lia]|]. intros _.
  apply emits_seq; [apply emits_poll_or_fail|intros _].
  replace (32 * Z.to_nat (n / 32))%nat with (Z.to_nat (32 * (n / 32))) by lia.
  apply emits_put_huffvals; [done|lia|lia].
Qed.

Lemma emits_WriteDRI : emits (dri_segment (restart_interval c)) (WriteDRI ready).
Proof.
  unfold WriteDRI, dri_segment. apply emits_seq; [apply emits_poll_or_fail|intros _].
  apply emits_gets. unfold truthy. destruct (restart_interval c =? 0); [apply emits_ret|]. cbn [negb].
  apply (emits_PutMarker_then M_DRI); [done|]. apply emits_PutW_then; [lia|].
  apply emits_PutW, u16_range.
Qed.

Lemma emits_PutHuffTbl t :
  has_tables c t ->
  emits (dht_segment 0x00 (ht_dc t).1 ++ dht_segment 0x10 (ht_ac t).1
    ++ dht_segment 0x01 (ht_dc t).2 ++ dht_segment 0x11 (ht_ac t).2) (PutHuffTbl ready).
Proof.
  intros Hh. destruct (hs_dc _ _ Hh) as [dl Hd], (hs_ac _ _ Hh) as [al Ha]. pose proof (hs_huff _ _ Hh) as Hok.
  rewrite !Forall_cons in Hok. destruct Hok as (H1 & H2 & H3 & H4 & _). unfold PutHuffTbl.
  eapply emits_elem; [rewrite Hd; reflexivity|]. apply emits_bind; [by apply emits_PutOneHuffTbl|intros _].
  eapply emits_elem; [rewrite Ha; reflexivity|]. apply emits_bind; [by apply emits_PutOneHuffTbl|intros _].
  eapply emits_elem; [rewrite Hd; reflexivity|]. apply emits_bind; [by apply emits_PutOneHuffTbl|intros _].
  eapply emits_elem; [rewrite Ha; reflexivity|]. by apply emits_PutOneHuffTbl.
Qed.

Lemma emits_header t : has_tables c t -> emits (header c t) (JPEG_HWWriteHead ready).
Proof.
  intros Hh. pose proof Hh as [Hr Hm [Hw Hht] [q Hq] [Hl0 Hl1] [Hb0 Hb1] _ _ _].
  unfold JPEG_HWWriteHead, header. apply emits_seq; [apply emits_poll_or_fail|intros _].
  apply (emits_PutMarker_then M_SOI); [done|]. apply emits_bind; [apply emits_PutAPP0|intros _].
  rewrite (app_assoc (dqt_segment 0 _)). apply emits_bind; [by eapply emits_PutQuantTbl|intros _].
  apply emits_bind; [by apply emits_PutSOF0|intros _].
  rewrite !(app_assoc (dht_segment _ _)). rewrite <- !(app_assoc (dht_segment _ _)).
  rewrite (app_assoc (dht_segment 0x01 _)), (app_assoc (dht_segment 0x10 _)), (app_assoc (dht_segment 0x00 _)).
  apply emits_bind; [by apply emits_PutHuffTbl|intros _].
  apply emits_bind; [apply emits_WriteDRI|intros _]. by apply emits_PutSOS.
Qed.
End emits.

(** the header of the encoder: from a codec with its tables in place,
    [JPEG_HWWriteHead] makes the bitstream unit append the marker segments of
    a JPEG file, SOI, APP0, two DQT, SOF0, four DHT, a DRI when there is a
    restart interval, and SOS, with the codec's size, sampling ratios and
    tables, and changes nothing in the codec. It fails only when the unit
    does not get ready in time, and has then appended the beginning of the
    same bytes. *)
Theorem WriteHead_segments `{BitstreamUnit} ready t s :
  has_tables (enc s) t ->
  match JPEG_HWWriteHead ready s with
  | Ret _ s' => enc s' = enc s /\ appended (regs s') = appended (regs s) ++ header (enc s) t
  | Exit s' => (exists n, ready n = false) /\ enc s' = enc s /\
      exists k, appended (regs s') = appended (regs s) ++ take k (header (enc s) t)
  | Bad _ => False
  end.
Proof. intros Ht. exact (emits_header ready (enc s) t Ht s eq_refl). Qed.

(** ** Setup *)

(** The tables the setup selects for a quality. *)
Definition level_tables (level : Z) (t : header_tables) : Prop :=
  aget jpeg_fw_lum_quant_tbl_default level = Some (ht_quant t).1 /\
  aget jpeg_fw_chr_quant_tbl_default level = Some (ht_quant t).2 /\
  ht_dc t = (HuffTbl jpeg_fw_lum_dc_bits_default jpeg_fw_lum_dc_huffvalue_default,
             HuffTbl jpeg_fw_chr_dc_bits_default jpeg_fw_chr_dc_huffvalue_default) /\
  ht_ac t = (HuffTbl jpeg_fw_lum_ac_bits_default jpeg_fw_lum_ac_huffvalue_default,
             HuffTbl jpeg_fw_chr_ac_bits_default jpeg_fw_chr_ac_huffvalue_default).

Definition huff_tbl_okb (t : HUFF_TBL_T) : bool :=
  (length (bits t) =? 17)%nat && forallb byteb (bits t) && forallb byteb (huffval t)
  && (total (tail (bits t)) <=? 256) && (total (tail (bits t)) <=? zlen (huffval t)).

Lemma huff_tbl_okb_ok t : huff_tbl_okb t = true -> huff_tbl_ok t.
Proof.
  unfold huff_tbl_okb. intros [[[[H1 H2]%andb_true_iff H3]%andb_true_iff H4]%andb_true_iff H5]%andb_true_iff.
  constructor; [by apply Nat.eqb_eq|by apply bytes_forallb..|lia|lia].
Qed.

Definition tables_of (lum chr : list Z) : header_tables :=
  HeaderTables (lum, chr)
    (HuffTbl jpeg_fw_lum_dc_bits_default jpeg_fw_lum_dc_huffvalue_default,
     HuffTbl jpeg_fw_chr_dc_bits_default jpeg_fw_chr_dc_huffvalue_default)
    (HuffTbl jpeg_fw_lum_ac_bits_default jpeg_fw_lum_ac_huffvalue_default,
     HuffTbl jpeg_fw_chr_ac_bits_default jpeg_fw_chr_ac_huffvalue_default).

Lemma default_huff_ok lum chr :
  Forall huff_tbl_ok [(ht_dc (tables_of lum chr)).1; (ht_dc (tables_of lum chr)).2;
    (ht_ac (tables_of lum chr)).1; (ht_ac (tables_of lum chr)).2].
Proof.
  repeat (apply List.Forall_cons; [apply huff_tbl_okb_ok; vm_compute; reflexivity|]). apply List.Forall_nil.
Qed.

(** The six tables of a quality exist and have their sizes. *)
Definition level_row (t : list (list Z)) (level : Z) : bool :=
  match aget t level with
  | Some l => (length l =? 64)%nat && forallb byteb (take 64 l)
  | None => false
  end.

Lemma level_row_ok t level :
  level_row t level = true -> exists l, aget t level = Some l /\ length l = 64%nat /\ bytes l.
Proof.
  unfold level_row. destruct (aget t level) as [l|]; [|done]. intros [H1%Nat.eqb_eq H2]%andb_true_iff.
  exists l. split_and!; [done..|]. apply bytes_forallb. by rewrite take_ge in H2 by lia.
Qed.

Lemma select_tables_level level c :
  0 <= level < 5 ->
  exists lum chr ln cn ls cs,
    select_tables level c = Some (set_quant_tbl_shift [Some ls; Some cs; None]
      (set_quant_tbl_new [Some ln; Some cn; None] (set_quant_tbl [Some lum; Some chr; None] c))) /\
    aget jpeg_fw_lum_quant_tbl_default level = Some lum /\ length lum = 64%nat /\ bytes lum /\
    aget jpeg_fw_chr_quant_tbl_default level = Some chr /\ length chr = 64%nat /\ bytes chr /\
    aget jpeg_fw_new_lum_quant_tbl_default level = Some ln /\
    aget jpeg_fw_new_chr_quant_tbl_default level = Some cn /\
    aget jpeg_fw_new_lum_quant_tbl_default_shift level = Some ls /\
    aget jpeg_fw_new_chr_quant_tbl_default_shift level = Some cs.
Proof.
  intros Hl.
  destruct (level_row_ok jpeg_fw_lum_quant_tbl_default level) as (lum & E1 & ? & ?).
  { apply (upto_forallb 5 (level_row _)); [vm_compute; reflexivity|lia]. }
  destruct (level_row_ok jpeg_fw_chr_quant_tbl_default level) as (chr & E2 & ? & ?).
  { apply (upto_forallb 5 (level_row _)); [vm_compute; reflexivity|lia]. }
  destruct (aget_is_Some jpeg_fw_new_lum_quant_tbl_default level) as [ln E3]; [done|].
  destruct (aget_is_Some jpeg_fw_new_chr_quant_tbl_default level) as [cn E4]; [done|].
  destruct (aget_is_Some jpeg_fw_new_lum_quant_tbl_default_shift level) as [ls E5]; [done|].
  destruct (aget_is_Some jpeg_fw_new_chr_quant_tbl_default_shift level) as [cs E6]; [done|].
  exists lum, chr, ln, cn, ls, cs. split_and!; try done.
  unfold select_tables. by rewrite E1, E2, E3, E4, E5, E6.
Qed.

(** *** The words of the quantizers *)

(** The half word for coefficient position [i] of the hardware's order. *)
Definition half (words : list Z) (i : Z) : option Z :=
  w ← aget words (i / 2); Some ((w / 65536 ^ (i mod 2)) mod 65536).

(** It holds the multiplier and the shift of the coefficient the hardware
    has there. *)
Definition half_ok (luma : bool) (level : Z) (w : Z) (i : Z) : bool :=
  match (j ← aget jpeg_fw_ASIC_DCT_Matrix i; quantizer luma level j) with
  | Some (q, m, s) => ((w / 65536 ^ (i mod 2)) mod 65536 =? 16 * m + (s - 11))
  | None => false
  end.

Definition word_ok (luma : bool) (level k : Z) : bool :=
  match (tbl ← aget (if luma then jpeg_fw_new_lum_quant_tbl_default
                     else jpeg_fw_new_chr_quant_tbl_default) level;
         shift ← aget (if luma then jpeg_fw_new_lum_quant_tbl_default_shift
                       else jpeg_fw_new_chr_quant_tbl_default_shift) level;
         qtable_word tbl shift (2 * k)) with
  | Some w => half_ok luma level w (2 * k) && half_ok luma level w (2 * k + 1)
  | None => false
  end.

Lemma words_ok luma level k : 0 <= level < 5 -> 0 <= k < 32 -> word_ok luma level k = true.
Proof.
  intros Hl Hk.
  pose proof (upto_forallb 160 (fun j => word_ok true (j / 32) (j mod 32) && word_ok false (j / 32) (j mod 32))
    (32 * level + k) ltac:(vm_compute; done) ltac:(lia)) as H.
  cbn beta in H. replace ((32 * level + k) / 32) with level in H by (Z.div_mod_to_equations; lia).
  replace ((32 * level + k) mod 32) with k in H by (Z.div_mod_to_equations; lia).
  apply andb_true_iff in H as [H1 H2]. by destruct luma.
Qed.

Lemma values_list {A} (f : Z -> option A) n :
  (forall k, (k < n)%nat -> is_Some (f (Z.of_nat k))) ->
  exists ws, length ws = n /\ forall k, (k < n)%nat -> f (Z.of_nat k) = ws !! k.
Proof.
  induction n as [|n IH]; intros Hf.
  { exists []. split; [done|]. intros k Hk. lia. }
  destruct IH as (ws & Hl & Hw); [intros k Hk; apply Hf; lia|].
  destruct (Hf n) as [w Hn]; [lia|]. exists (ws ++ [w]). split; [rewrite length_app; simpl; lia|].
  intros k Hk. destruct (decide (k = n)) as [->|].
  - rewrite Hn, lookup_app_r, Hl, Nat.sub_diag by lia. done.
  - rewrite lookup_app_l by lia. apply Hw. lia.
Qed.

Definition table_writes (tbl_id : Z) (words : list Z) : list (vsp_reg * Z) :=
  imap (fun k w => (VSP_MEMO0 (4 * (32 * tbl_id + Z.of_nat k)), w)) words.

Lemma write_words_spec tbl_id tbl shift ws s :
  length ws = 32%nat -> (forall k, (k < 32)%nat -> qtable_word tbl shift (2 * Z.of_nat k) = ws !! k) ->
  wp no_fault (forM (upto 32) (fun k =>
      w <- lift OutOfBounds (qtable_word tbl shift (2 * k)) ;;
      VSP_WRITE_REG (VSP_MEMO0 (4 * (32 * tbl_id + k))) w))
    (fun _ s' => enc s' = enc s /\ regs s' = regs s ++ table_writes tbl_id ws) (fun _ => False) s.
Proof.
  intros Hl Hw. eapply wp_mono; [apply (wp_forM_upto 32 _ (fun n s' => enc s' = enc s /\
    regs s' = regs s ++ table_writes tbl_id (take n ws)) (fun _ => False))| |done].
  - split; [done|]. by rewrite take_0, app_nil_r.
  - intros k s1 Hk [He Hr]. destruct (lookup_lt_is_Some_2 ws k) as [w Ew]; [lia|].
    rewrite (Hw k Hk), Ew. split; [exact He|]. cbn [VSP_WRITE_REG modify regs]. rewrite Hr, <- app_assoc. f_equal.
    rewrite (take_S_r _ _ w) by done. unfold table_writes. rewrite imap_app, imap_cons, imap_nil.
    by rewrite length_take, Nat.min_l, Nat.add_0_r by lia.
  - cbn beta. intros _ s1 [He Hr]. by rewrite take_ge in Hr by lia.
Qed.

Lemma half_of_word words i w :
  0 <= i -> words !! Z.to_nat (i / 2) = Some w ->
  half words i = Some ((w / 65536 ^ (i mod 2)) mod 65536).
Proof.
  intros Hi Hw. unfold half. rewrite <- (Z2Nat.id (i / 2)) at 1 by (apply Z.div_pos; lia).
  by rewrite aget_nat, Hw.
Qed.

(** The words of one table. *)
Lemma table_words (luma : bool) level tbl shift :
  0 <= level < 5 ->
  aget (if luma then jpeg_fw_new_lum_quant_tbl_default else jpeg_fw_new_chr_quant_tbl_default) level
    = Some tbl ->
  aget (if luma then jpeg_fw_new_lum_quant_tbl_default_shift
        else jpeg_fw_new_chr_quant_tbl_default_shift) level = Some shift ->
  exists ws, length ws = 32%nat /\
    (forall k, (k < 32)%nat -> qtable_word tbl shift (2 * Z.of_nat k) = ws !! k) /\
    forall i, 0 <= i < 64 -> exists j q m s, aget jpeg_fw_ASIC_DCT_Matrix i = Some j /\
      quantizer luma level j = Some (q, m, s) /\ half ws i = Some (16 * m + (s - 11)).
Proof.
  intros Hl Et Es.
  assert (Hk : forall k, 0 <= k < 32 -> exists w, qtable_word tbl shift (2 * k) = Some w /\
    half_ok luma level w (2 * k) = true /\ half_ok luma level w (2 * k + 1) = true).
  { intros k Hk. pose proof (words_ok luma level k Hl Hk) as H. unfold word_ok in H.
    rewrite Et, obind_Some, Es, obind_Some in H. destruct (qtable_word tbl shift (2 * k)) as [w|]; [|done].
    exists w. apply andb_true_iff in H. naive_solver. }
  destruct (values_list (fun k => qtable_word tbl shift (2 * k)) 32) as (ws & Hws & Hw).
  { intros k Hk'. destruct (Hk (Z.of_nat k)) as (w & -> & _); [lia|by eexists]. }
  exists ws. split_and!; [done|done|]. intros i Hi.
  destruct (Hk (i / 2)) as (w & Ew & H1 & H2); [Z.div_mod_to_equations; lia|].
  assert (Eh : half ws i = Some ((w / 65536 ^ (i mod 2)) mod 65536)).
  { apply half_of_word; [lia|]. rewrite <- Hw by (Z.div_mod_to_equations; lia).
    rewrite Z2Nat.id by (Z.div_mod_to_equations; lia). done. }
  assert (Hok : half_ok luma level w i = true).
  { destruct (decide (i mod 2 = 0)) as [E|E].
    - replace i with (2 * (i / 2)) by (Z.div_mod_to_equations; lia). done.
    - replace i with (2 * (i / 2) + 1) by (Z.div_mod_to_equations; lia). done. }
  unfold half_ok in Hok. destruct (aget jpeg_fw_ASIC_DCT_Matrix i) as [j|]; [|done].
  rewrite obind_Some in Hok. destruct (quantizer luma level j) as [ [ [q m] s]|] eqn:Eq; [|done].
  exists j, q, m, s. rewrite Eh. split_and!; [done|exact Eq|]. f_equal. by apply Z.eqb_eq.
Qed.

(** *** Steps of the setup *)

Section steps.
Context (ready : nat -> bool) {F : fault -> Prop}.
Implicit Types (s : encoder) (E : encoder -> Prop).

Lemma wp_upd_enc f Q E s :
  Q tt (Encoder (f (enc s)) (regs s) (polls s)) -> wp F (upd_enc f) Q E s.
Proof. done. Qed.
Lemma wp_write_reg r v Q E s :
  Q tt (Encoder (enc s) (regs s ++ [(r, v)]) (polls s)) -> wp F (VSP_WRITE_REG r v) Q E s.
Proof. done. Qed.
Lemma wp_poll Q E s :
  Q (negb (ready (polls s))) (Encoder (enc s) (regs s) (S (polls s))) ->
  wp F (VSP_READ_REG_POLL ready) Q E s.
Proof. done. Qed.
Lemma wp_elem {A} (f : JPEG_CODEC_T -> list A) i a (Q : A -> encoder -> Prop) E s :
  aget (f (enc s)) i = Some a -> Q a s -> wp F (enc_elem f i) Q E s.
Proof. intros Ea HQ. unfold enc_elem, wp, bind, gets, lift. by rewrite Ea. Qed.
End steps.

Ltac enc_step :=
  first [ apply wp_upd_enc | apply wp_write_reg | apply wp_poll | wp_step ]; cbn [enc regs polls].

Lemma QTableCfg_spec ready s :
  0 <= compress_level (enc s) < 5 ->
  exists lum chr ln cn ls cs lw cw,
    wp no_fault (JpegEnc_QTableCfg ready) (fun _ s' =>
      enc s' = set_quant_tbl_shift [Some ls; Some cs; None]
        (set_quant_tbl_new [Some ln; Some cn; None]
          (set_quant_tbl [Some lum; Some chr; None] (set_quant_ids (enc s)))) /\
      regs s' = regs s ++ (DCAM_CFG, 24) :: table_writes 0 lw ++ table_writes 1 cw ++ [(DCAM_CFG, 8)])
      (fun _ => False) s /\
    level_tables (compress_level (enc s)) (tables_of lum chr) /\
    length lum = 64%nat /\ bytes lum /\ length chr = 64%nat /\ bytes chr /\
    length lw = 32%nat /\ length cw = 32%nat /\
    forall (luma : bool) i, 0 <= i < 64 -> exists j q m sh, aget jpeg_fw_ASIC_DCT_Matrix i = Some j /\
      quantizer luma (compress_level (enc s)) j = Some (q, m, sh) /\
      half (if luma then lw else cw) i = Some (16 * m + (sh - 11)).
Proof.
  intros Hl. assert (El : compress_level (set_quant_ids (enc s)) = compress_level (enc s)).
  { unfold set_quant_ids. by destruct (tbl_map (enc s)) as [|y [|u [|v [|? ?]]]]. }
  set (level := compress_level (enc s)) in *.
  destruct (select_tables_level level (set_quant_ids (enc s)) Hl)
    as (lum & chr & ln & cn & ls & cs & Hsel & E1 & Hl1 & Hb1 & E2 & Hl2 & Hb2 & E3 & E4 & E5 & E6).
  destruct (table_words true level ln ls Hl E3 E5) as (lw & Hlw & Hw1 & Hh1).
  destruct (table_words false level cn cs Hl E4 E6) as (cw & Hcw & Hw2 & Hh2).
  exists lum, chr, ln, cn, ls, cs, lw, cw. split; [|split_and!; try done; intros []; auto].
  unfold JpegEnc_QTableCfg. do 2 enc_step. do 2 enc_step. rewrite El. do 2 enc_step.
  enc_step. eapply wp_lift_Some; [exact Hsel|]. do 2 enc_step. set (c := set_quant_tbl_shift _ _).
  change (Z.lor (Z.shiftl 1 4) (Z.shiftl 1 3)) with 24. change (Z.lor (Z.shiftl 0 4) (Z.shiftl 1 3)) with 8.
  do 4 enc_step. change (upto 2) with [0; 1]. cbn [forM]. enc_step.
  assert (Htbl : forall id tbl shift ws s1, enc s1 = c -> length ws = 32%nat ->
    (forall k, (k < 32)%nat -> qtable_word tbl shift (2 * Z.of_nat k) = ws !! k) ->
    aget (quant_tbl_new c) id = Some (Some tbl) -> aget (quant_tbl_shift c) id = Some (Some shift) ->
    wp no_fault (tbl <- enc_elem quant_tbl_new id ;; tbl <- lift NullPointer tbl ;;
      shift <- enc_elem quant_tbl_shift id ;; shift <- lift NullPointer shift ;;
      forM (upto 32) (fun k => w <- lift OutOfBounds (qtable_word tbl shift (2 * k)) ;;
        VSP_WRITE_REG (VSP_MEMO0 (4 * (32 * id + k))) w))
      (fun _ s2 => enc s2 = c /\ regs s2 = regs s1 ++ table_writes id ws) (fun _ => False) s1).
  { intros id tbl shift ws s1 Hs1 Hws Hw En Es. enc_step. eapply wp_elem; [by rewrite Hs1|].
    enc_step. eapply wp_lift_Some; [done|]. enc_step. eapply wp_elem; [by rewrite Hs1|].
    enc_step. eapply wp_lift_Some; [done|]. rewrite <- Hs1. by apply write_words_spec. }
  enc_step. eapply wp_mono; [by eapply (Htbl 0 ln ls lw)| |done]. cbn beta. intros _ s1 [He1 Hr1].
  enc_step. eapply wp_mono; [by eapply (Htbl 1 cn cs cw)| |done]. cbn beta. intros _ s2 [He2 Hr2].
  do 5 enc_step. enc_step. split; [exact He2|]. rewrite Hr2, Hr1. cbn [regs]. by rewrite <- !app_assoc.
Qed.

(** the quantizer words: for each of the five qualities the setup writes
    32 words per table to the hardware's table memory, between the two writes
    that hand the memory to software and back; the half word at each of the
    64 positions, read in the order of the hardware's matrix, holds the
    multiplier of that coefficient in its upper twelve bits and its shift
    minus 11 in the lower four. *)
Theorem QTableCfg_quantizers ready s :
  0 <= compress_level (enc s) < 5 ->
  exists lw cw s', JpegEnc_QTableCfg ready s = Ret tt s' /\
    regs s' = regs s ++ (DCAM_CFG, 24) :: table_writes 0 lw ++ table_writes 1 cw ++ [(DCAM_CFG, 8)] /\
    length lw = 32%nat /\ length cw = 32%nat /\
    forall (luma : bool) i, 0 <= i < 64 -> exists j q m sh, aget jpeg_fw_ASIC_DCT_Matrix i = Some j /\
      quantizer luma (compress_level (enc s)) j = Some (q, m, sh) /\
      half (if luma then lw else cw) i = Some (16 * m + (sh - 11)).
Proof.
  intros Hl. destruct (QTableCfg_spec ready s Hl)
    as (lum & chr & ln & cn & ls & cs & lw & cw & Hwp & _ & _ & _ & _ & _ & H1 & H2 & H3).
  destruct (wp_total _ _ _ Hwp) as ([] & s' & E & _ & Hr). by exists lw, cw, s'.
Qed.

Lemma QTableCfg_quantizers_witness :
  let s := Encoder (set_compress_level 4 (set_tbl_map [] zeroed_codec)) [] 0 in
  exists lw cw s', JpegEnc_QTableCfg (fun _ => true) s = Ret tt s' /\
    regs s' = regs s ++ (DCAM_CFG, 24) :: table_writes 0 lw ++ table_writes 1 cw ++ [(DCAM_CFG, 8)] /\
    length lw = 32%nat /\ length cw = 32%nat /\
    exists j q m sh, aget jpeg_fw_ASIC_DCT_Matrix 63 = Some j /\
      quantizer false 4 j = Some (q, m, sh) /\ half cw 63 = Some (16 * m + (sh - 11)).
Proof.
  cbv zeta. destruct (QTableCfg_quantizers (fun _ => true)
    (Encoder (set_compress_level 4 (set_tbl_map [] zeroed_codec)) [] 0)) as (lw & cw & s' & E & Hr & H1 & H2 & H3).
  { cbn. lia. }
  exists lw, cw, s'. split_and!; try assumption. apply (H3 false 63). lia.
Defined.

(** The codec the setup leaves, up to the quantizers. *)
Definition grid_ok (c : JPEG_CODEC_T) : Prop :=
  mcu_num_x c = (width c + mcu_width c - 1) / mcu_width c /\
  mcu_num_y c = (height c + mcu_height c - 1) / mcu_height c /\
  c_width c = u16 (mcu_num_x c * mcu_width c) /\ c_height c = u16 (mcu_num_y c * mcu_height c).

Record configured (p : JPEG_ENC_INPUT_PARA_T) (c : JPEG_CODEC_T) : Prop := Configured {
  cf_width : width c = ei_width p;
  cf_height : height c = ei_height p;
  cf_ratio : ratio c = [Ratio 2 (if ei_mcu_info_0 p =? JPEG_FW_YUV420 then 2 else 1); Ratio 1 1; Ratio 1 1];
  cf_mcu : mcu_width c = 16 /\ mcu_height c = (if ei_mcu_info_0 p =? JPEG_FW_YUV420 then 16 else 8);
  cf_grid : grid_ok c;
  cf_restart : restart_interval c = ei_restart_interval p;
  cf_level : compress_level c = ei_quant_level p;
  cf_map : length (tbl_map c) = 3%nat;
  cf_dc : dc_huff_tbl c = [Some (ht_dc (tables_of [] [])).1; Some (ht_dc (tables_of [] [])).2; None; None];
  cf_ac : ac_huff_tbl c = [Some (ht_ac (tables_of [] [])).1; Some (ht_ac (tables_of [] [])).2; None; None]
}.

Lemma InitParam_spec p s :
  ei_mcu_info_0 p = JPEG_FW_YUV420 \/ ei_mcu_info_0 p = JPEG_FW_YUV422 ->
  1 <= ei_width p < 65536 -> 1 <= ei_height p < 65536 -> compress_level (enc s) <= 5 ->
  wp no_fault (JpegEnc_InitParam p) (fun _ s' => configured p (enc s') /\ regs s' = regs s)
    (fun _ => False) s.
Proof.
  intros Hm Hw Hh Hl. unfold JpegEnc_InitParam.
  enc_step. apply wp_require; [intros _|].
  2: { intros [H _]%negb_false_iff%andb_true_iff. unfold unsupported in H. by destruct Hm as [Hm|Hm]; rewrite Hm in H. }
  do 2 enc_step. enc_step. apply wp_require; [intros _|intros H; unfold JPEG_QUALITY_MAX in H; lia].
  enc_step. apply wp_require; [intros _|intros H; lia]. do 8 enc_step. do 2 enc_step.
  destruct p as [w h m0 m1 bl lv wm fs lst ri]. cbn [ei_mcu_info_0 ei_width ei_height] in *.
  match goal with |- context [enc_ratios ?x] =>
    assert (Er : enc_ratios x = Some [Ratio 2 (if m0 =? JPEG_FW_YUV420 then 2 else 1); Ratio 1 1; Ratio 1 1])
      by (destruct Hm as [-> | ->]; reflexivity) end.
  rewrite Er. cbv beta iota. enc_step. split; [|reflexivity].
  assert (Hv : (if m0 =? JPEG_FW_YUV420 then 2 else 1) = 1 \/ (if m0 =? JPEG_FW_YUV420 then 2 else 1) = 2)
    by (destruct (m0 =? JPEG_FW_YUV420); auto).
  assert (E16 : (if m0 =? JPEG_FW_YUV420 then 16 else 8) = 8 * (if m0 =? JPEG_FW_YUV420 then 2 else 1))
    by by destruct (m0 =? JPEG_FW_YUV420).
  constructor; cbn [ei_mcu_info_0 ei_width ei_height ei_restart_interval ei_quant_level]; rewrite ?E16;
    set (v := if m0 =? JPEG_FW_YUV420 then 2 else 1) in *; clearbody v;
    try reflexivity; try (apply u16_small; lia).
  - destruct Hv as [-> | ->]; by split.
  - unfold grid_ok. destruct Hv as [-> | ->]; split_and!; try reflexivity; apply u16_small;
      match goal with |- context [width ?c] => change (width c) with (u16 w) | |- context [height ?c] => change (height c) with (u16 h) end;
      cbn -[u16 Z.mul Z.div]; rewrite ?(u16_small w), ?(u16_small h) by lia;
      rewrite ?(u16_small (8 * _)) by lia; Z.div_mod_to_equations; lia.
Qed.

Lemma list_of_3 {A} (l : list A) : length l = 3%nat -> exists a b c, l = [a; b; c].
Proof. destruct l as [|a [|b [|c []]]]; try done. by exists a, b, c. Qed.

Lemma HWEncInit_spec ready p s :
  ei_is_first_slice p = true ->
  ei_mcu_info_0 p = JPEG_FW_YUV420 \/ ei_mcu_info_0 p = JPEG_FW_YUV422 ->
  1 <= ei_width p < 65536 -> 1 <= ei_height p < 65536 ->
  0 <= ei_quant_level p < 5 -> compress_level (enc s) <= 5 ->
  wp no_fault (JPEG_HWEncInit ready p) (fun _ s' => exists t,
    configured p (enc s') /\ has_tables (enc s') t /\ level_tables (ei_quant_level p) t /\
    tbl_map (enc s') = [TblMap 0 0 0; TblMap 1 1 1; TblMap 1 1 1]) (fun _ => False) s.
Proof.
  intros Hf Hm Hw Hh Hq Hl.
  unfold JPEG_HWEncInit. rewrite Hf. do 3 enc_step.
  eapply wp_mono; [apply InitParam_spec; [done..|exact Hl]| |done]. cbn beta. intros _ s1 [Hc _].
  enc_step. unfold JPEGFW_InitHuffTblWithDefaultValue. enc_step.
  destruct (list_of_3 _ (cf_map _ _ Hc)) as (y & u & v & Em). rewrite Em.
  set (s2 := Encoder _ _ _). assert (El : compress_level (enc s2) = ei_quant_level p) by apply (cf_level _ _ Hc).
  destruct (QTableCfg_spec ready s2) as (lum & chr & ln & cn & ls & cs & lw & cw & Hwp & Hlt & H1 & H2 & H3 & H4 & _);
    [by rewrite El|].
  eapply wp_mono; [exact Hwp| |done]. cbn beta. intros _ s3 [He _]. exists (tables_of lum chr).
  rewrite El in Hlt. rewrite He. unfold set_quant_ids, s2. cbn [enc tbl_map set_tbl_map].
  destruct Hc as [W Hg R MC G RI L _ D A]. split_and!.
  - by constructor.
  - constructor; cbn; rewrite ?R, ?W, ?Hg; try done; [lia|by eexists|by eexists; rewrite D|by eexists; rewrite A|].
    apply (default_huff_ok lum chr).
  - done.
  - done.
Qed.

(** the setup of the encoder. For a first slice in 4:2:0 or 4:2:2, with
    sides from 1 to 65535 and one of the five qualities, [JPEG_HWEncInit]
    succeeds and leaves a codec that is ready for a header: the image's size
    and sampling ratios, the grid of its MCUs, the default Huffman tables,
    the two quantization tables of the quality, and the maps from components
    to tables (luma to table 0, both chromas to table 1). *)
Theorem HWEncInit_ready ready p s :
  ei_is_first_slice p = true ->
  ei_mcu_info_0 p = JPEG_FW_YUV420 \/ ei_mcu_info_0 p = JPEG_FW_YUV422 ->
  1 <= ei_width p < 65536 -> 1 <= ei_height p < 65536 ->
  0 <= ei_quant_level p < 5 -> compress_level (enc s) <= 5 ->
  exists s' t, JPEG_HWEncInit ready p s = Ret tt s' /\
    configured p (enc s') /\ has_tables (enc s') t /\ level_tables (ei_quant_level p) t /\
    tbl_map (enc s') = [TblMap 0 0 0; TblMap 1 1 1; TblMap 1 1 1].
Proof.
  intros Hf Hm Hw Hh Hq Hl. destruct (wp_total _ _ _ (HWEncInit_spec ready p s Hf Hm Hw Hh Hq Hl))
    as ([] & s' & E & t & ?). by exists s', t.
Qed.

Lemma HWEncInit_ready_witness :
  let p := EncInput 640 480 0 0 1000 3 0 true false 0 in
  exists s' t, JPEG_HWEncInit (fun _ => true) p (Encoder zeroed_codec [] 0) = Ret tt s' /\
    configured p (enc s') /\ has_tables (enc s') t /\ level_tables 3 t /\
    tbl_map (enc s') = [TblMap 0 0 0; TblMap 1 1 1; TblMap 1 1 1].
Proof.
  apply (HWEncInit_ready (fun _ => true) (EncInput 640 480 0 0 1000 3 0 true false 0) (Encoder zeroed_codec [] 0));
    cbn; [done|by left|lia..].
Defined.

Lemma WriteHead_segments_witness :
  exists s t, has_tables (enc s) t /\
  match JPEG_HWWriteHead (fun _ => true) s with
  | Ret _ s' => enc s' = enc s /\ appended (regs s') = appended (regs s) ++ header (enc s) t
  | Exit s' => (exists n : nat, true = false) /\ enc s' = enc s /\
      exists k, appended (regs s') = appended (regs s) ++ take k (header (enc s) t)
  | Bad _ => False
  end.
Proof.
  destruct (wp_total _ _ _ (HWEncInit_spec (fun _ => true) (EncInput 640 480 0 0 1000 3 0 true false 0)
    (Encoder zeroed_codec [] 0) eq_refl (or_introl eq_refl) ltac:(cbn; lia) ltac:(cbn; lia) ltac:(cbn; lia)
    ltac:(cbn; lia))) as (_ & s & _ & t & _ & Ht & _). exists s, t. split; [exact Ht|].
  exact (WriteHead_segments (fun _ => true) t s Ht).
Defined.

Lemma wp_exits {S A} E (m : M S A) s :
  wp no_fault m (fun _ _ => False) E s -> exists s', m s = Exit s'.
Proof. unfold wp. destruct (m s) as [ |s'| ]; [done|by exists s'|by intros []]. Qed.

(** the check of the quality looks at the codec of the last encoding
    instead of at the new parameters: a quality out of range is accepted, and
    the setup then reads outside the quantization tables; and it makes the
    check fail for the encoding after it, whatever its quality is. *)
Theorem InitParam_stale_quality ready p s :
  ei_is_first_slice p = true ->
  ei_mcu_info_0 p = JPEG_FW_YUV420 \/ ei_mcu_info_0 p = JPEG_FW_YUV422 ->
  1 <= ei_width p < 65536 -> 1 <= ei_height p < 65536 -> 5 <= ei_quant_level p ->
  (compress_level (enc s) <= 5 -> JPEG_HWEncInit ready p s = Bad OutOfBounds) /\
  (5 < compress_level (enc s) -> exists s', JPEG_HWEncInit ready p s = Exit s').
Proof.
  intros Hf Hm Hw Hh Hq. split; intros Hl.
  - assert (Hwp : wp (fun f => f = OutOfBounds) (JPEG_HWEncInit ready p) (fun _ _ => False) (fun _ => False) s).
    { unfold JPEG_HWEncInit. rewrite Hf. do 3 enc_step.
      pose proof (InitParam_spec p (Encoder (set_is_last_slice (ei_is_last_slice p)
        (set_is_first_slice true (enc s))) (regs s) (polls s)) Hm Hw Hh Hl) as Hi.
      apply wp_total in Hi as ([] & s1 & E & Hc & _). unfold wp at 1. rewrite E.
      fold (wp (S := encoder) (A := unit)).
      change (wp (fun f => f = OutOfBounds) (JPEGFW_InitHuffTblWithDefaultValue ;;; JpegEnc_QTableCfg ready)
        (fun _ _ => False) (fun _ => False) s1).
      enc_step. unfold JPEGFW_InitHuffTblWithDefaultValue. enc_step.
      destruct (list_of_3 _ (cf_map _ _ Hc)) as (y & u & v & Em). rewrite Em.
      unfold JpegEnc_QTableCfg. do 6 enc_step. enc_step.
      assert (El : compress_level (set_quant_ids (set_tbl_map
        [TblMap JPEG_FW_LUM_ID JPEG_FW_LUM_ID (quant_tbl_id y); TblMap JPEG_FW_CHR_ID JPEG_FW_CHR_ID (quant_tbl_id u);
         TblMap JPEG_FW_CHR_ID JPEG_FW_CHR_ID (quant_tbl_id v)] (enc s1))) = ei_quant_level p)
        by apply (cf_level _ _ Hc).
      rewrite El. apply wp_lift; [|done]. intros c. unfold select_tables.
      assert (En : aget jpeg_fw_lum_quant_tbl_default (ei_quant_level p) = None); [|by rewrite En].
      unfold aget. rewrite (proj2 (Z.leb_le 0 _)) by lia. apply lookup_ge_None_2. cbn. lia. }
    unfold wp in Hwp. destruct (JPEG_HWEncInit ready p s) as [ | |f]; [done..|]. by rewrite Hwp.
  - apply (wp_exits (fun _ => True)). unfold JPEG_HWEncInit. rewrite Hf. do 3 enc_step.
    unfold JpegEnc_InitParam. enc_step. apply wp_require; [intros _|done]. do 2 enc_step.
    enc_step. apply wp_require; [intros H|done]. unfold JPEG_QUALITY_MAX in H. cbn in H. lia.
Qed.

Lemma InitParam_stale_quality_witness :
  let p := EncInput 640 480 0 0 1000 9 0 true false 0 in
  JPEG_HWEncInit (fun _ => true) p (Encoder zeroed_codec [] 0) = Bad OutOfBounds.
Proof.
  apply (InitParam_stale_quality (fun _ => true) (EncInput 640 480 0 0 1000 9 0 true false 0)
    (Encoder zeroed_codec [] 0)); cbn; [done|by left|lia..].
Defined.
