(* ===== verification/JpegRoundtrip.v ===== *)
(** * Encoder and parser

    The header parser reads back every header the encoder writes: one run of
    the parser per segment, then the whole header, then the composition with
    the encoder's setup. *)
From stdpp Require Import base list sets.
From Stdlib Require Import ZArith Lia.
From S2P Require Import Prelude JpegTables JpegHuff JpegSource JpegCodec JpegParse.
From S2P Require Import JpegParseProofs JpegEncode JpegEncodeProofs.


(** ** Running the parser *)

Lemma run_bind {S A B} (m : M S A) (k : A -> M S B) s a s' r :
  m s = Ret a s' -> k a s' = r -> bind m k s = r.
Proof. intros E <-. by apply bind_Ret. Qed.

Lemma run_require {S} b (s : S) : b = true -> require b s = Ret tt s.
Proof. by intros ->. Qed.

Lemma run_lift {S A} fl (o : option A) a (s : S) : o = Some a -> lift fl o s = Ret a s.
Proof. by intros ->. Qed.

Lemma run_forM_upto {S} n body (St : nat -> S) :
  (forall j, (j < n)%nat -> body (Z.of_nat j) (St j) = Ret tt (St (Datatypes.S j))) ->
  forM (upto n) body (St 0%nat) = Ret tt (St n).
Proof.
  intros Hb. cut (forall r j, (j + r = n)%nat -> forM (Z.of_nat <$> seq j r) body (St j) = Ret tt (St n)).
  { intros H. by apply (H n 0%nat). }
  induction r as [|r IH]; intros j Hj; cbn [seq fmap list_fmap forM]; [by replace n with j by lia|].
  eapply run_bind; [apply Hb; lia|]. apply IH. lia.
Qed.

(** The pool after [n] more bytes, and room for them. *)
Definition pool_after (p : pool) (n : Z) : pool :=
  Pool (s_extra_mem_bfr_ptr p) (s_extra_mem_size p) (s_used_extra_mem p + n).

Definition room (p : pool) (n : Z) : Prop :=
  s_extra_mem_bfr_ptr p <> 0 /\ 0 <= s_used_extra_mem p /\
  s_used_extra_mem p + n + 3 <= s_extra_mem_size p < 4294967296.

Lemma room_after p a b : 0 <= a -> room p (a + b) -> room (pool_after p a) b.
Proof. unfold room. cbn. lia. Qed.
Lemma room_at p a b n : room p n -> 0 <= a -> a + b <= n -> room (pool_after p a) b.
Proof. unfold room. cbn. lia. Qed.
Lemma room_le p a b : a <= b -> room p b -> room p a.
Proof. unfold room. lia. Qed.
Lemma pool_after_after p a b : pool_after (pool_after p a) b = pool_after p (a + b).
Proof. unfold pool_after. cbn. f_equal. lia. Qed.

Implicit Types (l : list Z) (m : pool) (i : JPEG_DEC_INPUT_PARA_T) (k : JPEG_CODEC_T) (g : bool).

Lemma run_char c l m i k g : parse_char (Parser (c :: l) m i k g) = Ret c (Parser l m i k g).
Proof. done. Qed.

Lemma run_upd_codec f l m i k g :
  upd_codec f (Parser l m i k g) = Ret tt (Parser l m i (f k) g).
Proof. done. Qed.

Lemma run_upd_inp f l m i k g : upd_inp f (Parser l m i k g) = Ret tt (Parser l m (f i) k g).
Proof. done. Qed.

Lemma run_codec_get {A} (f : JPEG_CODEC_T -> A) l m i k g :
  codec_get f (Parser l m i k g) = Ret (f k) (Parser l m i k g).
Proof. done. Qed.

Lemma run_short v l m i k g :
  0 <= v < 65536 -> get_short_word (Parser (be16 v ++ l) m i k g) = Ret v (Parser l m i k g).
Proof.
  intros Hv. unfold get_short_word. eapply run_bind; [apply run_char|]. eapply run_bind; [apply run_char|].
  unfold ret. f_equal. rewrite be16_join by done. by apply u16_small.
Qed.

Lemma run_alloc {A} n size (zero : A) l m i k g :
  0 <= n -> 0 < size -> room m (n * size) ->
  alloc n size zero (Parser l m i k g)
  = Ret (replicate (Z.to_nat n) zero) (Parser l (pool_after m ((n * size + 3) / 4 * 4)) i k g).
Proof.
  intros Hn Hs (Hp & Hu & Hr). unfold alloc, zoom, alloc_array. cbn [mem].
  erewrite bind_Ret by (apply JpegDec_ExtraMemAlloc_fits; nia). cbn. by rewrite Z.div_mul by lia.
Qed.

Lemma run_discard n l1 l m i k g :
  length l1 = n -> discard n (Parser (l1 ++ l) m i k g) = Ret tt (Parser l m i k g).
Proof.
  revert l1. induction n as [|n IH]; intros [|c l1] Hn; try done.
  cbn [discard app]. eapply run_bind; [apply run_char|]. apply IH. by injection Hn.
Qed.
Create HintDb crun.
#[export] Hint Resolve run_char run_short run_alloc run_discard run_require run_lift : crun.

(** The next command, which the goal's state runs by computation or by a lemma. *)
Ltac run_as H := eapply run_bind; [solve [apply H; try done; try lia]|cbv beta].
Ltac run_one := eapply run_bind; [first [apply run_char|apply run_upd_codec|apply run_upd_inp|apply run_codec_get|reflexivity|solve [eauto with crun]]|cbv beta].

(** ** The segments *)

(** Writing an array from the front. *)
Lemma fill_step {A} (xs ys : list A) j x :
  length xs = length ys \/ (j < length ys)%nat -> xs !! j = Some x ->
  <[j := x]> (take j xs ++ drop j ys) = take (S j) xs ++ drop (S j) ys.
Proof.
  intros Hl Hx. pose proof (lookup_lt_Some _ _ _ Hx) as Hj.
  assert (Ht : length (take j xs) = j) by (rewrite length_take; lia).
  rewrite insert_app_r_alt by lia. rewrite Ht, Nat.sub_diag.
  rewrite (take_S_r _ _ x) by done. rewrite <- app_assoc. f_equal.
  destruct (lookup_lt_is_Some_2 ys j) as [y Hy]; [lia|]. by rewrite (drop_S ys y j) by done.
Qed.

(** *** Quantization tables *)

Definition with_quant (n : Z) (t : list Z) (k : JPEG_CODEC_T) : JPEG_CODEC_T :=
  set_quant_tbl (<[Z.to_nat n := Some t]> (quant_tbl k)) k.

Lemma with_quant_twice n t u k : with_quant n t (with_quant n u k) = with_quant n t k.
Proof. unfold with_quant. cbn. by rewrite list_insert_insert_eq. Qed.

Lemma zlen_with_quant n t k : zlen (quant_tbl (with_quant n t k)) = zlen (quant_tbl k).
Proof. unfold zlen, with_quant. cbn. by rewrite length_insert. Qed.

Lemma run_put_quant_tbl n t l m i k g :
  0 <= n < zlen (quant_tbl k) ->
  put_quant_tbl n t (Parser l m i k g) = Ret tt (Parser l m i (with_quant n t k) g).
Proof.
  intros Hn. unfold put_quant_tbl, try_codec. run_one.
  rewrite aset_Some, obind_Some by done. run_one. done.
Qed.

Lemma run_get_quant_tbl n t l m i k g :
  0 <= n < zlen (quant_tbl k) ->
  get_quant_tbl n (Parser l m i (with_quant n t k) g) = Ret t (Parser l m i (with_quant n t k) g).
Proof.
  intros Hn. unfold get_quant_tbl. run_one. unfold with_quant at 1. cbn [quant_tbl set_quant_tbl].
  eapply run_bind; [apply (run_lift _ _ (Some t))|reflexivity].
  unfold aget. rewrite (proj2 (Z.leb_le _ _)) by lia. apply list_lookup_insert_eq. unfold zlen in *. lia.
Qed.

Definition zigzag_nats : list nat := Z.to_nat <$> take 64 jpeg_fw_zigzag_order.

Lemma in_zigzag_nats q : length q = 64%nat -> in_zigzag q = (fun z => nth z q 0) <$> zigzag_nats.
Proof.
  intros Hq. unfold in_zigzag, zigzag_nats.
  assert (Hz : Forall (fun z => 0 <= z < 64) (take 64 jpeg_fw_zigzag_order)).
  { apply List.Forall_forall. intros z Hz. assert (H : forallb (fun z => (0 <=? z) && (z <? 64)) (take 64 jpeg_fw_zigzag_order) = true)
      by by vm_compute. rewrite List.forallb_forall in H. specialize (H z Hz). lia. }
  induction Hz as [|z zs Hz _ IH]; [done|]. cbn [omap list_omap fmap list_fmap].
  destruct (aget_is_Some q z) as [v Hv]; [unfold zlen; lia|]. rewrite Hv, IH. f_equal.
  apply aget_Some in Hv as [_ Hv]. symmetry. by apply nth_lookup_Some.
Qed.

(** The table after the first entries have been read. *)
Definition dequant (q : list Z) (zs : list nat) : list Z :=
  fold_left (fun t z => <[z := nth z q 0]> t) zs (replicate 64 0).

Lemma length_dequant q zs : length (dequant q zs) = 64%nat.
Proof.
  unfold dequant. rewrite <- (length_replicate 64 0) at 2. generalize (replicate 64 0).
  induction zs as [|z zs IH]; intros t; [done|]. cbn. by rewrite IH, length_insert.
Qed.

Lemma dequant_snoc q zs z : dequant q (zs ++ [z]) = <[z := nth z q 0]> (dequant q zs).
Proof. unfold dequant. by rewrite fold_left_app. Qed.

Lemma dequant_lookup q zs z :
  z ∈ zs -> (z < 64)%nat -> dequant q zs !! z = Some (nth z q 0).
Proof.
  intros Hin Hz. induction zs as [|y zs IH] using rev_ind; [by apply not_elem_of_nil in Hin|].
  rewrite dequant_snoc. pose proof (length_dequant q zs) as Hl.
  destruct (decide (y = z)) as [->|Hne]; [apply list_lookup_insert_eq; lia|].
  rewrite list_lookup_insert_ne by done. apply IH.
  apply elem_of_app in Hin as [?|Hin]; [done|]. by apply list_elem_of_singleton in Hin.
Qed.

Lemma dequant_all q : length q = 64%nat -> dequant q zigzag_nats = q.
Proof.
  intros Hq. apply list_eq_same_length with 64%nat; [done|apply length_dequant|].
  intros z x y Hz Hx Hy. rewrite dequant_lookup in Hx; [|..|done].
  - injection Hx as <-. by apply nth_lookup_Some.
  - assert (H : forallb (fun z => bool_decide (z ∈ zigzag_nats)) (seq 0 64) = true) by by vm_compute.
    rewrite List.forallb_forall in H. specialize (H z). rewrite List.in_seq in H. specialize (H ltac:(lia)).
    by apply bool_decide_eq_true in H.
Qed.

Lemma zigzag_nats_lookup (j : nat) z :
  (j < 64)%nat -> aget jpeg_fw_zigzag_order (Z.of_nat j) = Some z -> zigzag_nats !! j = Some (Z.to_nat z).
Proof.
  intros Hj Ez. unfold zigzag_nats. rewrite list_lookup_fmap, lookup_take_lt by done.
  by rewrite <- aget_nat, Ez.
Qed.

Lemma length_zigzag_nats : length zigzag_nats = 64%nat.
Proof. done. Qed.

Lemma length_in_zigzag q : length q = 64%nat -> length (in_zigzag q) = 64%nat.
Proof. intros Hq. by rewrite in_zigzag_nats, length_fmap. Qed.

Lemma in_zigzag_bytes q : bytes q -> bytes (in_zigzag q).
Proof.
  intros Hq. unfold in_zigzag. generalize (take 64 jpeg_fw_zigzag_order). intros zs.
  induction zs as [|z zs IH]; [constructor|]. cbn [omap list_omap].
  destruct (aget q z) as [v|] eqn:E; [|done]. constructor; [|done].
  apply aget_Some in E as [_ E]. by apply (bytes_lookup q (Z.to_nat z)).
Qed.

Local Opaque dequant zigzag_nats in_zigzag.

Lemma run_quant_entry n (j : nat) q l m i k g :
  0 <= n < zlen (quant_tbl k) -> length q = 64%nat -> bytes q -> (j < 64)%nat ->
  read_quant_entry n 0 (Z.of_nat j)
    (Parser (drop j (in_zigzag q) ++ l) m i (with_quant n (dequant q (take j zigzag_nats)) k) g)
  = Ret tt (Parser (drop (S j) (in_zigzag q) ++ l) m i (with_quant n (dequant q (take (S j) zigzag_nats)) k) g).
Proof.
  intros Hn Hq Hb Hj. destruct (zigzag_range (Z.of_nat j)) as (z & Ez & Hz); [lia|].
  pose proof (zigzag_nats_lookup j z Hj Ez) as En.
  assert (Eq : in_zigzag q !! j = Some (nth (Z.to_nat z) q 0))
    by by rewrite in_zigzag_nats, list_lookup_fmap, En.
  assert (Hv : byte (nth (Z.to_nat z) q 0)).
  { destruct (lookup_lt_is_Some_2 q (Z.to_nat z)) as [v Hv]; [lia|]. rewrite (nth_lookup_Some _ _ _ _ Hv).
    by eapply bytes_lookup. }
  unfold read_quant_entry. rewrite (drop_S _ _ _ Eq). cbn [Z.eqb app]. run_one.
  eapply run_bind; [by apply run_lift|]. eapply run_bind; [by apply run_get_quant_tbl|]. cbv beta.
  eapply run_bind; [apply run_lift, aset_Some|].
  { unfold zlen. rewrite length_dequant. lia. }
  rewrite run_put_quant_tbl by by rewrite zlen_with_quant.
  rewrite with_quant_twice, (take_S_r _ _ _ En), dequant_snoc. by rewrite u8_small.
Qed.

(** The codec and the pool after a quantization table. *)
Lemma run_GetQuantTbl n q l m i k g :
  n = 0 \/ n = 1 -> length (quant_tbl k) = 3%nat -> length q = 64%nat -> bytes q -> room m 64 ->
  GetQuantTbl (Parser (drop 2 (dqt_segment n q) ++ l) m i k g)
  = Ret tt (Parser l (pool_after m 64) i (with_quant n q (set_using_default_quant_tab false k)) g).
Proof.
  intros Hn Hk Hq Hb Hm. set (k1 := set_using_default_quant_tab false k).
  assert (Hn3 : 0 <= n < zlen (quant_tbl k1)) by (unfold zlen; change (quant_tbl k1) with (quant_tbl k); lia).
  assert (Ht : read_quant_tbl (Parser (n :: in_zigzag q ++ l) m i k1 g)
    = Ret (0, false) (Parser l (pool_after m 64) i (with_quant n q k1) g)).
  { unfold read_quant_tbl. run_one.
    assert (Hp : Z.shiftr n 4 = 0 /\ Z.land n 15 = n /\ (n >? 1) = false) by by destruct Hn as [-> | ->].
    destruct Hp as (-> & -> & Hgt). eapply run_bind; [apply run_require; lia|].
    eapply run_bind; [by apply run_alloc|]. eapply run_bind; [by apply run_put_quant_tbl|].
    change (pool_after m ((64 * 1 + 3) / 4 * 4)) with (pool_after m 64).
    eapply run_bind; [|by rewrite Hgt].
    pose proof (run_forM_upto 64 (read_quant_entry n 0) (fun j => Parser (drop j (in_zigzag q) ++ l)
      (pool_after m 64) i (with_quant n (dequant q (take j zigzag_nats)) k1) g)) as H.
    cbn beta in H. rewrite (drop_ge (in_zigzag q) 64) in H by (rewrite length_in_zigzag by done; lia).
    rewrite (take_ge zigzag_nats 64) in H by (rewrite length_zigzag_nats; lia). rewrite dequant_all in H by done.
    apply H. intros j Hj. by apply run_quant_entry. }
  unfold GetQuantTbl. run_one. fold k1.
  change (drop 2 (dqt_segment n q) ++ l) with (be16 67 ++ n :: in_zigzag q ++ l).
  eapply run_bind; [apply run_short; lia|]. run_one.
  change (S (Z.to_nat (67 - 2))) with 66%nat. cbn [quant_tbls_loop app].
  eapply (run_bind _ _ _ false); [|reflexivity]. eapply run_bind; [apply Ht|]. reflexivity.
Qed.

(** *** Huffman tables *)

Definition huff_tbls (ac : bool) (k : JPEG_CODEC_T) : list (option HUFF_TBL_T) :=
  if ac then ac_huff_tbl k else dc_huff_tbl k.

(** The codec while the table [n] of a kind is read. *)
Definition reading (ac : bool) (n : Z) (t : HUFF_TBL_T) (b : bool) (k : JPEG_CODEC_T) : JPEG_CODEC_T :=
  set_using_default_huff_tab b
    (if ac then set_ac_huff_tbl (<[Z.to_nat n := Some t]> (ac_huff_tbl k)) k
     else set_dc_huff_tbl (<[Z.to_nat n := Some t]> (dc_huff_tbl k)) k).

Lemma reading_twice ac n t b t' b' k : reading ac n t b (reading ac n t' b' k) = reading ac n t b k.
Proof. unfold reading. destruct ac; cbn; by rewrite list_insert_insert_eq. Qed.

Lemma reading_same ac n t k :
  0 <= n -> huff_tbls ac k !! Z.to_nat n = Some (Some t) -> reading ac n t (using_default_huff_tab k) k = k.
Proof. intros Hn Ht. unfold reading. destruct k, ac; cbn in *; by rewrite list_insert_id. Qed.

Lemma zlen_reading ac n t b k : zlen (huff_tbls ac (reading ac n t b k)) = zlen (huff_tbls ac k).
Proof. unfold zlen, reading, huff_tbls. destruct ac; cbn; by rewrite length_insert. Qed.

Lemma total_app xs ys : total (xs ++ ys) = total xs + total ys.
Proof. induction xs as [|x xs IH]; cbn; [done|]. unfold total in *. cbn. lia. Qed.

Lemma bytes_nonneg l : bytes l -> Forall (Z.le 0) l.
Proof. intros H. eapply Forall_impl; [exact H|]. unfold byte. lia. Qed.

(** The sum of the numbers of codes does not wrap. *)
Lemma u16_total ns j c :
  bytes ns -> ns !! j = Some c -> total ns < 65536 ->
  u16 (total (take j ns) + c) = total (take (S j) ns).
Proof.
  intros Hb%bytes_nonneg Hc Ht. rewrite (take_S_r _ _ _ Hc), total_app. cbn [total foldr].
  rewrite Z.add_0_r. apply u16_small. rewrite <- (take_drop_middle _ _ _ Hc), total_app in Ht.
  change (total (c :: drop (S j) ns)) with (c + total (drop (S j) ns)) in Ht.
  pose proof (total_nonneg _ (Forall_take _ j _ Hb)). pose proof (total_nonneg _ (Forall_drop _ (S j) _ Hb)).
  pose proof (Forall_lookup_1 _ _ _ _ Hb Hc). lia.
Qed.

Section huff.
Context (ac : bool) (n : Z) (k : JPEG_CODEC_T) (Hn : 0 <= n < zlen (huff_tbls ac k)).
Context (l : list Z) (m : pool) (i : JPEG_DEC_INPUT_PARA_T) (g : bool).

Lemma run_get_huff_tbl l1 t b :
  get_huff_tbl ac n (Parser l1 m i (reading ac n t b k) g) = Ret t (Parser l1 m i (reading ac n t b k) g).
Proof.
  unfold get_huff_tbl. run_one. fold (huff_tbls ac). eapply run_bind; [apply (run_lift _ _ (Some t))|reflexivity].
  unfold aget, reading, huff_tbls in *. rewrite (proj2 (Z.leb_le _ _)) by lia.
  destruct ac; apply list_lookup_insert_eq; unfold zlen in *; lia.
Qed.

Lemma run_put_huff_tbl l1 t t' b :
  put_huff_tbl ac n t' (Parser l1 m i (reading ac n t b k) g)
  = Ret tt (Parser l1 m i (reading ac n t' b k) g).
Proof.
  unfold put_huff_tbl, try_codec. run_one.
  assert (E : (if ac then l ← aset (ac_huff_tbl (reading ac n t b k)) n (Some t'); Some (set_ac_huff_tbl l (reading ac n t b k))
    else l ← aset (dc_huff_tbl (reading ac n t b k)) n (Some t'); Some (set_dc_huff_tbl l (reading ac n t b k)))
    = Some (reading ac n t' b k)).
  { pose proof Hn as H. rewrite <- (zlen_reading ac n t b k) in H. unfold huff_tbls in H.
    destruct ac; rewrite aset_Some, obind_Some by done; unfold reading; cbn; by rewrite list_insert_insert_eq. }
  rewrite E. run_one. done.
Qed.

Lemma run_compare_default l1 v d t b :
  compare_default v d (Parser l1 m i (reading ac n t b k) g)
  = Ret tt (Parser l1 m i (reading ac n t (b && (v =? d)) k) g).
Proof.
  unfold compare_default. destruct (v =? d); [by rewrite andb_true_r|]. rewrite andb_false_r.
  unfold reading. by destruct ac.
Qed.

(** The comparison with the default values, entry by entry. *)
Definition agree (j : nat) (xs ds : list Z) : bool :=
  forallb (fun p => p.1 =? p.2) (zip (take j xs) ds).

Lemma agree_S j xs ds x d :
  xs !! j = Some x -> ds !! j = Some d -> agree (S j) xs ds = agree j xs ds && (x =? d).
Proof.
  unfold agree. revert xs ds. induction j as [|j IH]; intros [|x0 xs] [|d0 ds] Hx Hd; try done.
  - injection Hx as ->. injection Hd as ->. cbn. by rewrite take_0, andb_true_r.
  - cbn. cbn in Hx, Hd. rewrite <- andb_assoc. f_equal. by apply IH.
Qed.

Lemma agree_full xs ds :
  (length xs <= length ds)%nat -> (agree (length xs) xs ds = true <-> xs = take (length xs) ds).
Proof.
  unfold agree. rewrite firstn_all. revert ds.
  induction xs as [|x xs IH]; intros [|d ds] Hl; cbn in *; try done; [lia|].
  rewrite andb_true_iff, Z.eqb_eq, IH by lia. split; [intros [-> E]; by f_equal|by intros [= -> E]].
Qed.

Local Abbreviation st := (fun l1 b v f => Parser l1 m i (reading ac n (HuffTbl b v) f k) g).

(** The numbers of codes of the lengths 1 to 16. *)
Lemma run_read_bits ns b0 v f :
  length ns = 16%nat -> length b0 = 17%nat -> bytes ns -> total ns <= 256 ->
  length (bits (default_tbl ac n)) = 17%nat -> bits (default_tbl ac n) !! 0%nat = Some 0 ->
  read_bits lengths ac n 0 (st (ns ++ l) (0 :: tail b0) v f)
  = Ret (total ns) (st l (0 :: ns) v (f && agree 17 (0 :: ns) (bits (default_tbl ac n)))).
Proof.
  intros Hl Hb0 Hb Ht Hd Hd0. set (ds := bits (default_tbl ac n)) in *.
  cut (forall r j, (j + r = 16)%nat ->
    read_bits (Z.of_nat <$> seq (S j) r) ac n (total (take j ns))
      (st (drop j ns ++ l) (take (S j) (0 :: ns) ++ drop (S j) b0) v (f && agree (S j) (0 :: ns) ds))
    = Ret (total ns) (st l (0 :: ns) v (f && agree 17 (0 :: ns) ds))).
  { intros H. specialize (H 16%nat 0%nat eq_refl). cbn [Nat.add] in H.
    assert (E1 : agree 1 (0 :: ns) ds = true).
    { unfold ds in *. destruct (bits (default_tbl ac n)) as [|d ds']; [done|]. by injection Hd0 as ->. }
    rewrite E1, andb_true_r, drop_0, take_0 in H. destruct b0 as [|x0 b0]; [done|]. exact H. }
  induction r as [|r IH]; intros j Hj; cbn [seq fmap list_fmap read_bits].
  - replace j with 16%nat by lia. rewrite !firstn_all2 by (simpl; lia). rewrite !skipn_all2 by lia.
    rewrite app_nil_r. done.
  - destruct (lookup_lt_is_Some_2 ns j) as [c Hc]; [lia|].
    destruct (lookup_lt_is_Some_2 ds (S j)) as [d Hds]; [lia|].
    assert (Hcb : byte c) by by eapply bytes_lookup.
    rewrite (drop_S _ _ _ Hc). cbn [app]. run_one. eapply run_bind; [apply run_get_huff_tbl|]. cbv beta.
    cbn [bits huffval].
    assert (Hlen : length (take (S j) (0 :: ns) ++ drop (S j) b0) = 17%nat).
    { rewrite length_app, length_take, length_drop. simpl. lia. }
    eapply run_bind; [apply run_lift, aset_nat; lia|]. cbv beta. rewrite (fill_step _ _ _ c) by (simpl; auto; lia).
    eapply run_bind; [apply run_put_huff_tbl|]. cbv beta.
    eapply run_bind; [apply run_lift; rewrite aget_nat; exact Hds|]. cbv beta.
    eapply run_bind; [apply run_compare_default|]. cbv beta.
    assert (Etot : u16 (total (take j ns) + c) = total (take (S j) ns)).
    { apply u16_total; [done..|lia]. }
    rewrite Etot, <- andb_assoc, <- (agree_S (S j) (0 :: ns) ds c d) by done. apply IH. lia.
Qed.

(** The symbols; the array behind them keeps what it held. *)
Lemma run_read_huffvals vs b v f :
  (length vs <= length v)%nat -> (length vs <= length (huffval (default_tbl ac n)))%nat ->
  forM (upto (length vs)) (read_huffval ac n) (st (vs ++ l) b v f)
  = Ret tt (st l b (vs ++ drop (length vs) v) (f && agree (length vs) vs (huffval (default_tbl ac n)))).
Proof.
  intros Hv Hd. set (ds := huffval (default_tbl ac n)) in *.
  pose proof (run_forM_upto (length vs) (read_huffval ac n) (fun j => Parser (drop j vs ++ l) m i
    (reading ac n (HuffTbl b (take j vs ++ drop j v)) (f && agree j vs ds) k) g)) as H.
  cbn beta in H. rewrite (skipn_all vs), (firstn_all vs) in H. rewrite !drop_0, take_0 in H.
  change (agree 0 vs ds) with true in H. rewrite andb_true_r in H. apply H. clear H. intros j Hj.
  destruct (lookup_lt_is_Some_2 vs j) as [c Hc]; [done|].
  destruct (lookup_lt_is_Some_2 ds j) as [d Hds]; [lia|].
  rewrite (drop_S _ _ _ Hc). cbn [app]. unfold read_huffval. run_one.
  eapply run_bind; [apply run_get_huff_tbl|]. cbv beta. cbn [bits huffval].
  eapply run_bind; [apply run_lift, aset_nat; rewrite length_app, length_take, length_drop; lia|]. cbv beta.
  rewrite (fill_step _ _ _ c) by (done || lia).
  eapply run_bind; [apply run_put_huff_tbl|]. cbv beta.
  eapply run_bind; [apply run_lift; rewrite aget_nat; exact Hds|]. cbv beta.
  rewrite run_compare_default. by rewrite (agree_S j vs ds c d), andb_assoc.
Qed.
End huff.

(** The number of symbols a table can have: the code compares with the
    default table of its kind, and reads behind that one otherwise. *)
Definition max_symbols (ac : bool) : Z := if ac then 256 else 12.

Definition is_default (ac : bool) (n : Z) (t : HUFF_TBL_T) : bool :=
  agree 17 (0 :: tail (bits t)) (bits (default_tbl ac n))
  && agree (Z.to_nat (total (tail (bits t)))) (huffval t) (huffval (default_tbl ac n)).

(** The table the parser makes of [t] in the arrays of [t0]. *)
Definition read_into (t0 t : HUFF_TBL_T) : HUFF_TBL_T :=
  let n := Z.to_nat (total (tail (bits t))) in
  HuffTbl (0 :: tail (bits t)) (take n (huffval t) ++ drop n (huffval t0)).

Lemma default_tbl_shape ac n :
  length (bits (default_tbl ac n)) = 17%nat /\ bits (default_tbl ac n) !! 0%nat = Some 0 /\
  length (huffval (default_tbl ac n)) = Z.to_nat (max_symbols ac).
Proof. unfold default_tbl. by destruct ac, (n =? 0). Qed.

Lemma run_GetHuffTbl (ac : bool) n t t0 l m i k :
  n = 0 \/ n = 1 -> 2 <= zlen (huff_tbls ac k) -> huff_tbls ac k !! Z.to_nat n = Some (Some t0) ->
  length (bits t0) = 17%nat -> length (huffval t0) = 257%nat ->
  huff_tbl_ok t -> total (tail (bits t)) <= max_symbols ac ->
  GetHuffTbl (Parser (drop 2 (dht_segment ((if ac then 0x10 else 0) + n) t) ++ l) m i k true)
  = Ret tt (Parser l m i (reading ac n (read_into t0 t) (using_default_huff_tab k && is_default ac n t) k) true).
Proof.
  intros Hn Hk Ht0 Hb0 Hv0 [Hb Hbb Hvb Htot Hen] Hmax.
  set (ns := tail (bits t)) in *. set (cnt := total ns) in *. assert (Hns : length ns = 16%nat).
  { unfold ns. destruct (bits t); [done|]. by injection Hb. }
  assert (Hnb : bytes ns).
  { unfold ns. destruct (bits t); [done|]. by apply Forall_cons in Hbb as [_ ?]. }
  assert (Hcnt : 0 <= cnt <= 256) by (split; [by apply total_nonneg, bytes_nonneg|exact Htot]).
  assert (Hk0 : 0 <= n < zlen (huff_tbls ac k)) by (destruct Hn as [-> | ->]; lia).
  destruct (default_tbl_shape ac n) as (Hd1 & Hd2 & Hd3).
  set (vs := take (Z.to_nat cnt) (huffval t)). assert (Hvs : length vs = Z.to_nat cnt).
  { unfold vs. rewrite length_take. unfold zlen, cnt, ns in *. lia. }
  assert (Hin : Z.land ((if ac then 0x10 else 0) + n) 0x13 = (if ac then 0x10 else 0) + n)
    by by destruct ac, Hn as [-> | ->].
  assert (Hac : truthy (Z.land ((if ac then 0x10 else 0) + n) 0x10) = ac) by by destruct ac, Hn as [-> | ->].
  assert (Hix : (if ac then (if ac then 0x10 else 0) + n - 0x10 else (if ac then 0x10 else 0) + n) = n)
    by (destruct ac; lia).
  assert (Hone : read_huff_tbl (Parser (((if ac then 0x10 else 0) + n) :: ns ++ vs ++ l) m i k true)
    = Ret cnt (Parser l m i (reading ac n (read_into t0 t) (using_default_huff_tab k && is_default ac n t) k) true)).
  { rewrite <- (reading_same ac n t0 k) at 1 by (done || lia). unfold read_huff_tbl. run_one.
    rewrite Hin, Hac, Hix. eapply run_bind; [by apply run_get_huff_tbl|]. cbv beta.
    eapply run_bind; [apply run_lift, aset_Some; unfold zlen; lia|]. cbv beta.
    eapply run_bind; [by apply run_put_huff_tbl|]. cbv beta.
    replace (<[Z.to_nat 0:=0]> (bits t0)) with (0 :: tail (bits t0)) by by destruct (bits t0).
    eapply run_bind; [by apply run_read_bits|]. cbv beta. fold cnt.
    eapply run_bind; [apply run_require; lia|]. cbv beta. rewrite <- Hvs.
    eapply run_bind; [apply run_read_huffvals; [done|rewrite Hvs; lia..]|]. unfold ret. f_equal.
    unfold read_into, is_default. rewrite Hvs, andb_assoc.
    assert (Ea : forall ds, agree (Z.to_nat cnt) vs ds = agree (Z.to_nat cnt) (huffval t) ds)
      by (intros ds; unfold agree, vs; by rewrite take_take, Nat.min_id). by rewrite Ea. }
  unfold GetHuffTbl. eapply run_bind; [reflexivity|]. cbn [negb g_huff_tbl_malloced]. run_one.
  change (drop 2 (dht_segment ((if ac then 0x10 else 0) + n) t) ++ l)
    with ((be16 (19 + cnt) ++ (((if ac then 0x10 else 0) + n) :: ns ++ vs)) ++ l).
  rewrite <- !app_assoc. eapply run_bind; [apply run_short; lia|]. cbv beta.
  eapply run_bind; [apply run_require; lia|]. cbn [app]. rewrite <- app_assoc.
  replace (19 + cnt - 2) with (17 + cnt) by lia. remember (17 + cnt) as len eqn:Elen.
  cbn [huff_tbls_loop]. rewrite (proj2 (Z.gtb_lt len 0)) by lia.
  eapply run_bind; [exact Hone|]. cbv beta. eapply run_bind; [apply run_require; lia|]. cbv beta.
  replace (len - (1 + 16 + cnt)) with 0 by lia. by destruct (Z.to_nat len) eqn:?; [lia|].
Qed.

(** The arrays of the tables are taken from the pool before the first one. *)
Definition empty_tbl : HUFF_TBL_T := HuffTbl (replicate 17 0) (replicate 257 0).

Definition empty_tbls (k : JPEG_CODEC_T) : JPEG_CODEC_T :=
  set_ac_huff_tbl (replicate 4 (Some empty_tbl)) (set_dc_huff_tbl (replicate 4 (Some empty_tbl)) k).

Lemma run_malloc_huff_tbl l m i k g :
  room m 280 ->
  malloc_huff_tbl (Parser l m i k g) = Ret empty_tbl (Parser l (pool_after m 280) i k g).
Proof.
  intros Hm. unfold malloc_huff_tbl. eapply run_bind; [apply run_alloc; [done|done|by eapply room_le; [|exact Hm]]|].
  cbv beta. change ((_ * 1 + 3) / 4 * 4) with 20.
  eapply run_bind; [apply run_alloc; [done|done|by eapply room_le; [|apply (room_after m 20 260); [|exact Hm] ] ]|]. cbv beta.
  by rewrite pool_after_after.
Qed.

Lemma set_nth_tbl ac (j : nat) k t l m i g :
  (j < length (huff_tbls ac k))%nat ->
  try_codec OutOfBounds (fun c => if ac then l ← aset (ac_huff_tbl c) (Z.of_nat j) (Some t); Some (set_ac_huff_tbl l c)
    else l ← aset (dc_huff_tbl c) (Z.of_nat j) (Some t); Some (set_dc_huff_tbl l c)) (Parser l m i k g)
  = Ret tt (Parser l m i (reading ac (Z.of_nat j) t (using_default_huff_tab k) k) g).
Proof.
  intros Hj. unfold try_codec, huff_tbls in *. run_one.
  destruct ac; rewrite aset_nat, obind_Some by done; run_one; unfold reading; cbn; rewrite Nat2Z.id; by destruct k.
Qed.

Lemma run_malloc_huff_tbls l m i k g :
  room m 2240 -> length (dc_huff_tbl k) = 4%nat -> length (ac_huff_tbl k) = 4%nat ->
  malloc_huff_tbls (Parser l m i k g) = Ret tt (Parser l (pool_after m 2240) i (empty_tbls k) true).
Proof.
  intros Hm Hd Ha. unfold malloc_huff_tbls.
  apply (run_bind _ _ _ tt (Parser l (pool_after m 2240) i (empty_tbls k) g)); [|reflexivity].
  set (E := Some empty_tbl).
  set (St := fun j : nat => Parser l (pool_after m (560 * Z.of_nat j)) i
    (set_ac_huff_tbl (replicate j E ++ drop j (ac_huff_tbl k))
      (set_dc_huff_tbl (replicate j E ++ drop j (dc_huff_tbl k)) k)) g).
  assert (H0 : St 0%nat = Parser l m i k g).
  { unfold St. cbn [replicate app]. rewrite !drop_0. destruct m, k. unfold pool_after. cbn. by rewrite Z.add_0_r. }
  rewrite <- H0. assert (H4 : St 4%nat = Parser l (pool_after m 2240) i (empty_tbls k) g).
  { unfold St. rewrite !(skipn_all2 (n := 4)) by lia. by rewrite !app_nil_r. }
  rewrite (run_forM_upto 4 _ St); [by rewrite H4|]. intros j Hj.
  assert (Hroom : forall a, a <= 560 -> room (pool_after m (560 * Z.of_nat j)) a).
  { intros a Hl. apply room_after; [lia|]. eapply room_le; [|exact Hm]. lia. }
  assert (Hstep : forall lst : list (option HUFF_TBL_T), length lst = 4%nat ->
    <[j := E]> (replicate j E ++ drop j lst) = replicate (S j) E ++ drop (S j) lst).
  { intros lst Hl. pose proof (fill_step (replicate 4 E) lst j E) as H.
    rewrite !take_replicate, !Nat.min_l in H by lia. apply H; [right; lia|].
    apply lookup_replicate. split; [done|lia]. }
  unfold St at 1. eapply run_bind; [apply run_malloc_huff_tbl, Hroom; lia|]. cbv beta.
  eapply run_bind; [apply (set_nth_tbl false j); cbn; rewrite length_app, length_replicate, length_drop; lia|].
  cbv beta. eapply run_bind; [apply run_malloc_huff_tbl, (room_after _ 280 280), Hroom; lia|]. cbv beta.
  rewrite (set_nth_tbl true j) by (cbn; rewrite length_app, length_replicate, length_drop; lia).
  unfold St, reading. cbn [dc_huff_tbl ac_huff_tbl set_dc_huff_tbl set_ac_huff_tbl set_using_default_huff_tab using_default_huff_tab].
  rewrite !Nat2Z.id, !Hstep, !pool_after_after by done.
  replace (560 * Z.of_nat j + (280 + 280)) with (560 * Z.of_nat (S j)) by lia. reflexivity.
Qed.

Lemma GetHuffTbl_malloc l m i k :
  room m 2240 -> length (dc_huff_tbl k) = 4%nat -> length (ac_huff_tbl k) = 4%nat ->
  GetHuffTbl (Parser l m i k false) = GetHuffTbl (Parser l (pool_after m 2240) i (empty_tbls k) true).
Proof.
  intros Hm Hd Ha. unfold GetHuffTbl. erewrite bind_Ret by reflexivity. cbv beta. cbn [g_huff_tbl_malloced negb].
  erewrite bind_Ret by by apply run_malloc_huff_tbls. reflexivity.
Qed.

(** *** The other segments *)

Lemma run_GetAPP0 l m i k g :
  GetAPP0 (Parser (drop 2 app0_segment ++ l) m i k g) = Ret tt (Parser l m i k g).
Proof. reflexivity. Qed.

Definition with_restart (n : Z) (k : JPEG_CODEC_T) : JPEG_CODEC_T :=
  set_next_restart_num 0 (set_restart_to_go n (set_restart_interval n k)).

Lemma run_GetDRI n l m i k g :
  n <> 0 ->
  GetDRI (Parser (drop 2 (dri_segment n) ++ l) m i k g) = Ret tt (Parser l m i (with_restart (u16 n) k) g).
Proof.
  intros Hn. unfold dri_segment. rewrite (proj2 (Z.eqb_neq _ _) Hn).
  change (drop 2 _ ++ l) with (be16 4 ++ be16 (u16 n) ++ l). unfold GetDRI.
  eapply run_bind; [apply run_short; lia|]. cbv beta. eapply run_bind; [by apply run_require|]. cbv beta.
  eapply run_bind; [apply run_short, u16_range|]. reflexivity.
Qed.

(** The three components of a frame: the ratio of the first one, 1x1 for the
    others, and the quantization tables. *)
Definition frame_info (h v : Z) : list jpeg_component_info :=
  [CompInfo 1 0 h v h v; CompInfo 2 1 1 1 1 1; CompInfo 3 2 1 1 1 1].

Definition with_quant_id (q : Z) (t : TBL_MAP_T) : TBL_MAP_T :=
  TblMap (dc_huff_tbl_id t) (ac_huff_tbl_id t) q.

Lemma run_GetSOF_component (ci : Z) id r q l cs x t m i k g :
  comp_info k = Some cs -> aget cs ci = Some x -> aget (tbl_map k) (id - 1) = Some t ->
  1 <= id <= 3 -> 0 <= q <= 2 ->
  let y := CompInfo id (u8 ci) (Z.land (Z.shiftr r 4) 0x0F) (Z.land r 0x0F)
    (if ci =? 0 then Z.land (Z.shiftr r 4) 0x0F else 1) (if ci =? 0 then Z.land r 0x0F else 1) in
  GetSOF_component ci (Parser (id :: r :: q :: l) m i k g)
  = Ret tt (Parser l m i (set_tbl_map (<[Z.to_nat (id - 1) := with_quant_id q t]> (tbl_map k))
      (set_comp_info (Some (<[Z.to_nat ci := y]> cs)) k)) g).
Proof.
  intros Hcs Hx Ht Hid Hq y. unfold GetSOF_component. run_one.
  assert (Hs : s8 id = id /\ u8 id = id /\ s8 (id - 1) = id - 1).
  { destruct (decide (id = 1)) as [-> |]; [done|]. destruct (decide (id = 2)) as [-> |]; [done|].
    by replace id with 3 by lia. }
  destruct Hs as (-> & -> & ->).
  assert (Hci : 0 <= ci < zlen cs).
  { apply aget_Some in Hx as [? Hx%lookup_lt_Some]. unfold zlen. lia. }
  assert (Hupd : forall f x l0 cs k, comp_info k = Some cs -> aget cs ci = Some x ->
    upd_comp ci f (Parser l0 m i k g)
    = Ret tt (Parser l0 m i (set_comp_info (Some (<[Z.to_nat ci := f x]> cs)) k) g)).
  { clear. intros f x l0 cs k Hcs Hx. unfold upd_comp. run_one. rewrite Hcs. eapply run_bind; [by apply run_lift|]. cbv beta.
    eapply run_bind; [by apply run_lift|]. cbv beta.
    apply aget_Some in Hx as [? Hx%lookup_lt_Some].
    eapply run_bind; [apply run_lift, aset_Some; unfold zlen; lia|]. reflexivity. }
  eapply run_bind; [by eapply Hupd|]. cbv beta.
  eapply run_bind; [apply run_require; lia|]. cbv beta. run_one.
  eapply run_bind; [eapply Hupd; [reflexivity|]|].
  { apply aget_Some. split; [lia|]. apply list_lookup_insert_eq. unfold zlen in *. lia. }
  cbv beta. run_one. eapply run_bind; [apply run_require; lia|]. cbv beta.
  unfold upd_tbl_map, try_codec. run_one. cbn [tbl_map set_comp_info]. rewrite Ht, obind_Some.
  apply aget_Some in Ht as [? Ht%lookup_lt_Some].
  rewrite aset_Some, obind_Some by (unfold zlen; lia). run_one. rewrite run_upd_codec.
  by rewrite list_insert_insert_eq.
Qed.

Lemma mcu_format_ratio r f :
  mcu_format r = Some f -> List.In r [0x11; 0x21; 0x41; 0x14; 0x22; 0x12].
Proof.
  unfold mcu_format. repeat (case_match; [lazymatch goal with H : (r =? _) = true |- _ =>
    apply Z.eqb_eq in H; subst r end; simpl; tauto|]). done.
Qed.

Definition with_frame (w h f : Z) (i : JPEG_DEC_INPUT_PARA_T) : JPEG_DEC_INPUT_PARA_T :=
  set_di_input_mcu_info f (set_input_width w (set_input_height h (set_di_progressive_mode false i))).

Lemma run_GetSOF w h r f q0 q1 q2 t0 t1 t2 l m i k g :
  0 <= w < 65536 -> 0 <= h < 65536 -> mcu_format r = Some f ->
  0 <= q0 <= 2 -> 0 <= q1 <= 2 -> 0 <= q2 <= 2 -> tbl_map k = [t0; t1; t2] -> room m 48 ->
  GetSOF false (Parser (drop 2 (sof0_segment w h [(1, r, q0); (2, 0x11, q1); (3, 0x11, q2)]) ++ l) m i k g)
  = Ret tt (Parser l (pool_after m 48) (with_frame w h f i)
      (set_tbl_map [with_quant_id q0 t0; with_quant_id q1 t1; with_quant_id q2 t2]
        (set_comp_info (Some (frame_info (Z.land (Z.shiftr r 4) 0x0F) (Z.land r 0x0F))) (set_num_components 3 k))) g).
Proof.
  intros Hw Hh Hf Hq0 Hq1 Hq2 Ht Hm. unfold GetSOF, with_frame.
  change (drop 2 (sof0_segment w h [(1, r, q0); (2, 0x11, q1); (3, 0x11, q2)]) ++ l)
    with (be16 17 ++ 8 :: be16 h ++ be16 w ++ 3 :: 1 :: r :: q0 :: 2 :: 0x11 :: q1 :: 3 :: 0x11 :: q2 :: l).
  run_one. eapply run_bind; [apply run_short; lia|]. cbv beta. eapply run_bind; [by apply run_require|]. cbv beta.
  run_one. eapply run_bind; [by apply run_require|]. cbv beta.
  eapply run_bind; [by apply run_short|]. cbv beta. eapply run_bind; [by apply run_short|]. cbv beta.
  do 3 run_one. eapply run_bind; [by apply run_require|]. cbv beta. run_one.
  eapply run_bind; [by apply run_alloc|]. cbv beta. run_one.
  change (upto (Z.to_nat 3)) with [0; 1; 2]. cbn [forM]. eapply run_bind.
  { eapply run_bind; [eapply run_GetSOF_component; [reflexivity|reflexivity|cbn; rewrite Ht; reflexivity|lia|lia]|]. cbv beta.
    eapply run_bind; [eapply run_GetSOF_component; [reflexivity|reflexivity|cbn; rewrite Ht; reflexivity|lia|lia]|]. cbv beta.
    eapply run_bind; [eapply run_GetSOF_component; [reflexivity|reflexivity|cbn; rewrite Ht; reflexivity|lia|lia]|]. reflexivity. }
  cbn [tbl_map set_tbl_map set_comp_info set_num_components]. rewrite Ht.
  assert (Hmid : GetSOF_format 3 (Parser l (pool_after m 48) (set_input_width w (set_input_height h (set_di_progressive_mode false i)))
    (set_tbl_map [with_quant_id q0 t0; with_quant_id q1 t1; with_quant_id q2 t2]
      (set_comp_info (Some (frame_info (Z.land (Z.shiftr r 4) 0x0F) (Z.land r 0x0F))) (set_num_components 3 k))) g)
    = Ret tt (Parser l (pool_after m 48) (with_frame w h f i)
      (set_tbl_map [with_quant_id q0 t0; with_quant_id q1 t1; with_quant_id q2 t2]
        (set_comp_info (Some (frame_info (Z.land (Z.shiftr r 4) 0x0F) (Z.land r 0x0F))) (set_num_components 3 k))) g)).
  { pose proof (mcu_format_ratio r f Hf) as Hr. unfold with_frame.
    repeat (destruct Hr as [<- | Hr]; [by injection Hf as <-|]). done. }
  exact Hmid.
Qed.

Definition with_huff_ids (b : Z) (t : TBL_MAP_T) : TBL_MAP_T :=
  TblMap (Z.land (Z.shiftr b 4) 0x0F) (Z.land b 0x0F) (quant_tbl_id t).

Definition with_scan (k : JPEG_CODEC_T) : JPEG_CODEC_T :=
  set_next_restart_num 0 (set_input_scan_number (u8 (input_scan_number k + 1))
    (set_Al 0 (set_Ah 0 (set_Se 63 (set_Ss 0 k))))).

Lemma run_GetSOS h v b0 b1 b2 t0 t1 t2 x0 x1 x2 l m i k g :
  tbl_map k = [t0; t1; t2] -> comp_info k = Some (frame_info h v) -> num_components k = 3 ->
  comp_id_map k = [x0; x1; x2] ->
  GetSOS (Parser (drop 2 (sos_segment [(1, b0); (2, b1); (3, b2)]) ++ l) m i k g)
  = Ret tt (Parser l m i (with_scan (set_comp_id_map [1; 2; 3]
      (set_tbl_map [with_huff_ids b0 t0; with_huff_ids b1 t1; with_huff_ids b2 t2] (set_comps_in_scan 3 k)))) g).
Proof.
  intros Ht Hc Hn Hx. unfold GetSOS.
  change (drop 2 (sos_segment [(1, b0); (2, b1); (3, b2)]) ++ l)
    with (be16 12 ++ 3 :: 1 :: b0 :: 2 :: b1 :: 3 :: b2 :: 0 :: 63 :: 0 :: l).
  eapply run_bind; [apply run_short; lia|]. cbv beta. eapply run_bind; [by apply run_require|]. cbv beta.
  run_one. eapply run_bind; [by apply run_require|]. cbv beta. run_one.
  assert (Hcomp : forall (j : Z) c l0 ts xs k0, List.In j [0; 1; 2] ->
    length ts = 3%nat -> length xs = 3%nat ->
    comp_info k0 = Some (frame_info h v) -> num_components k0 = 3 ->
    GetSOS_component j (Parser ((j + 1) :: c :: l0) m i (set_comp_id_map xs (set_tbl_map ts k0)) g)
    = Ret tt (Parser l0 m i (set_comp_id_map (<[Z.to_nat j := j + 1]> xs)
        (set_tbl_map (alter (with_huff_ids c) (Z.to_nat j) ts) k0)) g)).
  { clear. intros j c l0 [|u0 [|u1 [|u2 []]]] [|y0 [|y1 [|y2 []]]] k0 Hj Hts Hxs Hci Hnc; try done.
    destruct k0. cbn in Hci, Hnc. subst. by destruct Hj as [<- | [<- | [<- | [] ] ] ]. }
  assert (Hstart : forall k0 ts xs, tbl_map k0 = ts -> comp_id_map k0 = xs -> set_comp_id_map xs (set_tbl_map ts k0) = k0)
    by (intros [] ts xs <- <-; reflexivity).
  rewrite <- (Hstart (set_comps_in_scan 3 k) _ _ Ht Hx). change (upto (Z.to_nat 3)) with [0; 1; 2]. cbn [forM].
  eapply run_bind.
  { do 3 (eapply run_bind; [apply Hcomp; done || (simpl; tauto)|]; cbv beta). reflexivity. }
  cbv beta. do 3 run_one. cbn [alter list_alter]. reflexivity.
Qed.

(** *** Markers *)

Lemma run_GetNextMarker f c l m i k g :
  c <> 0 -> c <> 0xFF ->
  GetNextMarker (S f) (Parser (0xFF :: c :: l) m i k g) = Ret c (Parser l m i k g).
Proof.
  intros H0 HF. cbn [GetNextMarker skip_non_FF]. eapply run_bind; [run_one; reflexivity|]. cbv beta.
  eapply run_bind.
  { cbn [skip_FF]. run_one. by rewrite (proj2 (Z.eqb_neq _ _) HF). }
  cbv beta. by rewrite (proj2 (Z.eqb_neq _ _) H0).
Qed.

(** One segment: its marker and its body. *)
Lemma run_segment f c body l m i k g s' :
  c <> 0 -> c <> 0xFF -> is_marker c [M_SOI; M_EOI; M_SOS] = false ->
  process_marker c (Parser (body ++ l) m i k g) = Ret tt s' ->
  ProcessTables (S f) (Parser ((0xFF :: c :: body) ++ l) m i k g) = ProcessTables f s'.
Proof.
  intros H0 HF Hm Hp. cbn [ProcessTables]. erewrite bind_Ret by by apply run_GetNextMarker.
  cbv beta. rewrite Hm. by erewrite bind_Ret by exact Hp.
Qed.

(** The segments, with their markers. *)
Lemma segment_APP0 f l m i k g :
  ProcessTables (S f) (Parser (app0_segment ++ l) m i k g) = ProcessTables f (Parser l m i k g).
Proof. by apply (run_segment f 0xE0 (drop 2 app0_segment)). Qed.

Lemma segment_DQT f n q l m i k g :
  n = 0 \/ n = 1 -> length (quant_tbl k) = 3%nat -> length q = 64%nat -> bytes q -> room m 64 ->
  ProcessTables (S f) (Parser (dqt_segment n q ++ l) m i k g)
  = ProcessTables f (Parser l (pool_after m 64) i (with_quant n q (set_using_default_quant_tab false k)) g).
Proof.
  intros. apply (run_segment f 0xDB (drop 2 (dqt_segment n q))); [done..|]. by apply run_GetQuantTbl.
Qed.

Lemma segment_SOF0 f w h r fmt q0 q1 q2 t0 t1 t2 l m i k g :
  0 <= w < 65536 -> 0 <= h < 65536 -> mcu_format r = Some fmt ->
  0 <= q0 <= 2 -> 0 <= q1 <= 2 -> 0 <= q2 <= 2 -> tbl_map k = [t0; t1; t2] -> room m 48 ->
  ProcessTables (S f) (Parser (sof0_segment w h [(1, r, q0); (2, 0x11, q1); (3, 0x11, q2)] ++ l) m i k g)
  = ProcessTables f (Parser l (pool_after m 48) (with_frame w h fmt i)
      (set_tbl_map [with_quant_id q0 t0; with_quant_id q1 t1; with_quant_id q2 t2]
        (set_comp_info (Some (frame_info (Z.land (Z.shiftr r 4) 0x0F) (Z.land r 0x0F))) (set_num_components 3 k))) g).
Proof.
  intros. apply (run_segment f 0xC0 (drop 2 (sof0_segment w h [(1, r, q0); (2, 0x11, q1); (3, 0x11, q2)]))); [done..|].
  by apply run_GetSOF.
Qed.

Lemma segment_DHT f (ac : bool) n t t0 l m i k :
  n = 0 \/ n = 1 -> 2 <= zlen (huff_tbls ac k) -> huff_tbls ac k !! Z.to_nat n = Some (Some t0) ->
  length (bits t0) = 17%nat -> length (huffval t0) = 257%nat ->
  huff_tbl_ok t -> total (tail (bits t)) <= max_symbols ac ->
  ProcessTables (S f) (Parser (dht_segment ((if ac then 0x10 else 0) + n) t ++ l) m i k true)
  = ProcessTables f
      (Parser l m i (reading ac n (read_into t0 t) (using_default_huff_tab k && is_default ac n t) k) true).
Proof.
  intros. apply (run_segment f 0xC4 (drop 2 (dht_segment ((if ac then 0x10 else 0) + n) t))); [done..|].
  by apply run_GetHuffTbl.
Qed.

(** The first one takes the arrays of all of them from the pool. *)
Lemma segment_DHT_first f t l m i k :
  length (dc_huff_tbl k) = 4%nat -> length (ac_huff_tbl k) = 4%nat -> room m 2240 ->
  huff_tbl_ok t -> total (tail (bits t)) <= 12 ->
  ProcessTables (S f) (Parser (dht_segment 0 t ++ l) m i k false)
  = ProcessTables f (Parser l (pool_after m 2240) i
      (reading false 0 (read_into empty_tbl t) (using_default_huff_tab k && is_default false 0 t) (empty_tbls k)) true).
Proof.
  intros Hd Ha Hm Ht Hn. apply (run_segment f 0xC4 (drop 2 (dht_segment 0 t))); [done..|].
  change (process_marker 0xC4) with (GetHuffTbl (B := list Z)). rewrite GetHuffTbl_malloc by done.
  exact (run_GetHuffTbl false 0 t empty_tbl l (pool_after m 2240) i (empty_tbls k)
    (or_introl eq_refl) ltac:(done) eq_refl eq_refl eq_refl Ht Hn).
Qed.

Lemma segment_DRI f n l m i k g :
  n <> 0 ->
  ProcessTables (S f) (Parser (dri_segment n ++ l) m i k g)
  = ProcessTables f (Parser l m i (with_restart (u16 n) k) g).
Proof.
  intros Hn. assert (E : dri_segment n = 0xFF :: 0xDD :: drop 2 (dri_segment n)).
  { unfold dri_segment. by rewrite (proj2 (Z.eqb_neq _ _) Hn). }
  rewrite E. apply run_segment; [done..|]. by apply run_GetDRI.
Qed.

(** ** The whole header *)

Definition ratio_byte (r : SAMPLE_RATIO_T) : Z := u8 (Z.lor (Z.shiftl (h_ratio r) 4) (v_ratio r)).

Definition ids_ok (t : TBL_MAP_T) : Prop :=
  0 <= dc_huff_tbl_id t < 16 /\ 0 <= ac_huff_tbl_id t < 16 /\ 0 <= quant_tbl_id t <= 2.

(** A codec whose header the parser can read: a sampling format it knows,
    table numbers in range, and DC tables no larger than the default ones. *)
Record readable (c : JPEG_CODEC_T) (t : header_tables) (r : SAMPLE_RATIO_T) (fmt : Z) : Prop := Readable {
  rd_tables : has_tables c t;
  rd_ratio : ratio c = [r; Ratio 1 1; Ratio 1 1];
  rd_format : mcu_format (ratio_byte r) = Some fmt;
  rd_ids : Forall ids_ok (tbl_map c);
  rd_dc : total (tail (bits (ht_dc t).1)) <= 12 /\ total (tail (bits (ht_dc t).2)) <= 12
}.

(** What the parser's parameters and codec say about the header of [c]. *)
Record describes (i : JPEG_DEC_INPUT_PARA_T) (k : JPEG_CODEC_T) (c : JPEG_CODEC_T) (t : header_tables)
    (r : SAMPLE_RATIO_T) (fmt : Z) : Prop := Describes {
  ds_size : input_width i = width c /\ input_height i = height c;
  ds_format : di_input_mcu_info i = fmt /\ di_progressive_mode i = false;
  ds_comps : num_components k = 3 /\ comps_in_scan k = 3 /\ comp_id_map k = [1; 2; 3];
  ds_info : comp_info k = Some (frame_info (Z.land (Z.shiftr (ratio_byte r) 4) 15) (Z.land (ratio_byte r) 15));
  ds_map : tbl_map k = tbl_map c;
  ds_quant : quant_tbl k = [Some (ht_quant t).1; Some (ht_quant t).2; None];
  ds_dc : dc_huff_tbl k = [Some (read_into empty_tbl (ht_dc t).1); Some (read_into empty_tbl (ht_dc t).2);
                           Some empty_tbl; Some empty_tbl];
  ds_ac : ac_huff_tbl k = [Some (read_into empty_tbl (ht_ac t).1); Some (read_into empty_tbl (ht_ac t).2);
                           Some empty_tbl; Some empty_tbl];
  ds_restart : restart_interval k = (if restart_interval c =? 0 then 0x3ffff else u16 (restart_interval c));
  ds_default : using_default_quant_tab k = false /\
    using_default_huff_tab k = is_default false 0 (ht_dc t).1 && is_default true 0 (ht_ac t).1
      && is_default false 1 (ht_dc t).2 && is_default true 1 (ht_ac t).2
}.

Lemma ids_byte dc ac q t :
  0 <= dc < 16 -> 0 <= ac < 16 ->
  with_huff_ids (u8 (Z.lor (Z.shiftl dc 4) ac)) (with_quant_id q t) = TblMap dc ac q.
Proof.
  intros Hd Ha. unfold with_huff_ids. cbn [quant_tbl_id with_quant_id].
  rewrite lor_shiftl by lia. rewrite u8_small by lia. change 0x0F with 15.
  rewrite !land_15, shiftr4. f_equal; Z.div_mod_to_equations; lia.
Qed.

(** The codec before the scan header. *)
Definition tables_codec (c : JPEG_CODEC_T) (t : header_tables) (r : SAMPLE_RATIO_T) (ids : list TBL_MAP_T)
    : JPEG_CODEC_T :=
  let k0 := set_using_default_quant_tab false
    (set_quant_tbl [Some (ht_quant t).1; Some (ht_quant t).2; None] initial_codec) in
  let k1 := set_tbl_map ids (set_comp_info
    (Some (frame_info (Z.land (Z.shiftr (ratio_byte r) 4) 15) (Z.land (ratio_byte r) 15))) (set_num_components 3 k0)) in
  let k2 := set_using_default_huff_tab (is_default false 0 (ht_dc t).1 && is_default true 0 (ht_ac t).1
      && is_default false 1 (ht_dc t).2 && is_default true 1 (ht_ac t).2)
    (set_ac_huff_tbl [Some (read_into empty_tbl (ht_ac t).1); Some (read_into empty_tbl (ht_ac t).2);
                      Some empty_tbl; Some empty_tbl]
      (set_dc_huff_tbl [Some (read_into empty_tbl (ht_dc t).1); Some (read_into empty_tbl (ht_dc t).2);
                        Some empty_tbl; Some empty_tbl] k1)) in
  if restart_interval c =? 0 then k2 else with_restart (u16 (restart_interval c)) k2.

Lemma run_tables f c t r fmt y u v l m i :
  readable c t r fmt -> tbl_map c = [y; u; v] -> room m 2416 ->
  ProcessTables (10 + f) (Parser (app0_segment
      ++ dqt_segment 0 (ht_quant t).1 ++ dqt_segment 1 (ht_quant t).2
      ++ sof0_segment (width c) (height c)
           [(1, ratio_byte r, quant_tbl_id y); (2, 0x11, quant_tbl_id u); (3, 0x11, quant_tbl_id v)]
      ++ dht_segment 0x00 (ht_dc t).1 ++ dht_segment 0x10 (ht_ac t).1
      ++ dht_segment 0x01 (ht_dc t).2 ++ dht_segment 0x11 (ht_ac t).2
      ++ dri_segment (restart_interval c) ++ l) m i initial_codec false)
  = ProcessTables (if restart_interval c =? 0 then 2 + f else 1 + f)
      (Parser l (pool_after m 2416) (with_frame (width c) (height c) fmt i)
        (tables_codec c t r [with_quant_id (quant_tbl_id y) (TblMap 0 0 0);
          with_quant_id (quant_tbl_id u) (TblMap 0 0 0); with_quant_id (quant_tbl_id v) (TblMap 0 0 0)]) true).
Proof.
  intros [[_ _ Hs _ [Hq0 Hq1] [Hb0 Hb1] _ _ Hh] _ Hf Hids [Hd0 Hd1]] Em Hm.
  apply List.Forall_cons_iff in Hh as [H1 [H2 [H3 [H4 _]%List.Forall_cons_iff]%List.Forall_cons_iff]%List.Forall_cons_iff].
  rewrite Em in Hids. apply List.Forall_cons_iff in Hids as [Hy [Hu [Hv _]%List.Forall_cons_iff]%List.Forall_cons_iff].
  unfold ids_ok in *. cbn [Nat.add].
  rewrite segment_APP0, segment_DQT by (done || auto || (eapply room_le; [|exact Hm]; lia)).
  rewrite segment_DQT by (done || auto || (eapply room_at; [exact Hm|lia..])). rewrite pool_after_after.
  rewrite (segment_SOF0 _ _ _ _ fmt _ _ _ (TblMap 0 0 0) (TblMap 0 0 0) (TblMap 0 0 0))
    by (lia || done || (eapply room_at; [exact Hm|lia..])). rewrite pool_after_after.
  rewrite segment_DHT_first by (done || (eapply room_at; [exact Hm|lia..])). rewrite pool_after_after.
  rewrite (segment_DHT _ true 0 _ empty_tbl) by (done || auto || apply H3).
  rewrite (segment_DHT _ false 1 _ empty_tbl) by (done || auto).
  rewrite (segment_DHT _ true 1 _ empty_tbl) by (done || auto || apply H4).
  unfold tables_codec. destruct (Z.eqb_spec (restart_interval c) 0) as [Hz|Hz].
  - unfold dri_segment. rewrite (proj2 (Z.eqb_eq _ _) Hz). reflexivity.
  - rewrite segment_DRI by done. reflexivity.
Qed.

Lemma run_ParseHead f c t r fmt l m i :
  readable c t r fmt -> room m 2416 ->
  exists s', ParseHead (13 + f) (Parser (header c t ++ l) m i initial_codec false) = Ret tt s' /\
    src s' = l /\ mem s' = pool_after m 2416 /\ describes (inp s') (codec s') c t r fmt.
Proof.
  intros Hr Hm. destruct (list_of_3 _ (hs_map _ _ (rd_tables _ _ _ _ Hr))) as (y & u & v & Em).
  pose proof (rd_ids _ _ _ _ Hr) as Hids. rewrite Em in Hids.
  apply List.Forall_cons_iff in Hids as [Hy [Hu [Hv _]%List.Forall_cons_iff]%List.Forall_cons_iff].
  set (b := fun x => u8 (Z.lor (Z.shiftl (dc_huff_tbl_id x) 4) (ac_huff_tbl_id x))).
  assert (Hdr : header c t ++ l = [0xFF; 0xD8] ++ (app0_segment
      ++ dqt_segment 0 (ht_quant t).1 ++ dqt_segment 1 (ht_quant t).2
      ++ sof0_segment (width c) (height c)
           [(1, ratio_byte r, quant_tbl_id y); (2, 0x11, quant_tbl_id u); (3, 0x11, quant_tbl_id v)]
      ++ dht_segment 0x00 (ht_dc t).1 ++ dht_segment 0x10 (ht_ac t).1
      ++ dht_segment 0x01 (ht_dc t).2 ++ dht_segment 0x11 (ht_ac t).2
      ++ dri_segment (restart_interval c) ++ sos_segment [(1, b y); (2, b u); (3, b v)] ++ l)).
  { unfold header, frame_comps, scan_comps. rewrite Em, (rd_ratio _ _ _ _ Hr), <- !app_assoc.
    cbn [zip zip_with fmap list_fmap h_ratio v_ratio]. unfold ids_ok in *.
    by rewrite !(u8_small (quant_tbl_id _)) by lia. }
  rewrite Hdr. unfold ParseHead. change (13 + f)%nat with (S (12 + f)).
  erewrite bind_Ret; [|cbn [find_SOI app]; eapply run_bind; [by apply run_GetNextMarker|reflexivity]]. cbv beta.
  erewrite bind_Ret; [|change (S (12 + f)) with (10 + (3 + f))%nat; rewrite (run_tables _ c t r fmt y u v) by done].
  2: { instantiate (1 := Parser (drop 2 (sos_segment [(1, b y); (2, b u); (3, b v)]) ++ l) (pool_after m 2416)
         (with_frame (width c) (height c) fmt i) (tables_codec c t r [with_quant_id (quant_tbl_id y) (TblMap 0 0 0);
           with_quant_id (quant_tbl_id u) (TblMap 0 0 0); with_quant_id (quant_tbl_id v) (TblMap 0 0 0)]) true).
       instantiate (1 := 0xDA). by destruct (restart_interval c =? 0). }
  cbv beta. change (is_marker 0xDA [M_SOS]) with true. cbv iota.
  eexists. split; [eapply run_GetSOS; unfold tables_codec; by destruct (restart_interval c =? 0)|].
  split; [done|]. split; [done|]. cbn [inp codec]. unfold ids_ok in *. unfold b. rewrite !ids_byte by lia.
  unfold tables_codec, with_restart, with_scan. constructor; try done; cbn; try by destruct (restart_interval c =? 0).
  rewrite Em. destruct y, u, v. by destruct (restart_interval c =? 0).
Qed.

(** A run over the list of bytes is a run over every source of them. *)
Lemma run_over_source {B} `{ByteSourceLaws B} fuel (s : parser B) s2 :
  valid (src s) ->
  ParseHead fuel (Parser (content (src s)) (mem s) (inp s) (codec s) (g_huff_tbl_malloced s)) = Ret tt s2 ->
  exists s1, ParseHead fuel s = Ret tt s1 /\ same_input s1 s2.
Proof.
  intros Hv E. pose proof (psim_ParseHead fuel s
    (Parser (content (src s)) (mem s) (inp s) (codec s) (g_huff_tbl_malloced s))) as Hsim.
  rewrite E in Hsim. specialize (Hsim ltac:(by split_and!)).
  destruct (ParseHead fuel s) as [[] s1| |]; [|done..]. exists s1. by destruct Hsim.
Qed.

(** C21: the header parser reads back every header of the encoder. From any
    lawful source whose next bytes are the header of a readable codec (a
    sampling format the parser knows, table numbers in range, DC tables of at
    most twelve symbols), with room for the tables in the pool, the parser
    succeeds, stops right behind the header, has taken 2416 bytes of the pool,
    and describes the codec: its size and format, components, table maps,
    quantization tables in natural order, Huffman tables, restart interval,
    and whether the Huffman tables are the default ones. *)
Theorem ParseHead_reads_header {B} `{ByteSourceLaws B} fuel c t r fmt rest (s : parser B) :
  valid (src s) -> content (src s) = header c t ++ rest ->
  codec s = initial_codec -> g_huff_tbl_malloced s = false -> room (mem s) 2416 ->
  readable c t r fmt -> (13 <= fuel)%nat ->
  exists s', ParseHead fuel s = Ret tt s' /\ valid (src s') /\ content (src s') = rest /\
    mem s' = pool_after (mem s) 2416 /\ describes (inp s') (codec s') c t r fmt.
Proof.
  intros Hv Hc Hk Hg Hm Hr Hf. replace fuel with (13 + (fuel - 13))%nat by lia.
  destruct (run_ParseHead (fuel - 13) c t r fmt rest (mem s) (inp s) Hr Hm) as (s2 & E & Hs2 & Hm2 & Hd).
  rewrite <- Hc, <- Hk, <- Hg in E. destruct (run_over_source _ s s2 Hv E)
    as (s1 & E1 & Hv1 & Hc1 & Hm1 & Hi1 & Hk1 & _). exists s1. rewrite Hc1, Hm1, Hi1, Hk1. by split_and!.
Qed.

Lemma default_tbls_default :
  is_default false 0 (default_tbl false 0) && is_default true 0 (default_tbl true 0)
  && is_default false 1 (default_tbl false 1) && is_default true 1 (default_tbl true 1) = true.
Proof. vm_compute. reflexivity. Qed.

(** The header the encoder writes after its setup can be read. *)
Lemma encoded_readable ready p s :
  ei_is_first_slice p = true ->
  ei_mcu_info_0 p = JPEG_FW_YUV420 \/ ei_mcu_info_0 p = JPEG_FW_YUV422 ->
  1 <= ei_width p < 65536 -> 1 <= ei_height p < 65536 ->
  0 <= ei_quant_level p < 5 -> compress_level (enc s) <= 5 ->
  exists e1 t r, JPEG_HWEncInit ready p s = Ret tt e1 /\ configured p (enc e1) /\
    level_tables (ei_quant_level p) t /\
    tbl_map (enc e1) = [TblMap 0 0 0; TblMap 1 1 1; TblMap 1 1 1] /\
    readable (enc e1) t r (ei_mcu_info_0 p).
Proof.
  intros Hf Hm Hw Hh Hq Hl. destruct (wp_total _ _ _ (HWEncInit_spec ready p s Hf Hm Hw Hh Hq Hl))
    as ([] & e1 & E & t & Hc & Ht & Hlt & Hmap).
  exists e1, t, (Ratio 2 (if ei_mcu_info_0 p =? JPEG_FW_YUV420 then 2 else 1)).
  split_and!; [done..|]. destruct Hlt as (_ & _ & Hdc & Hac). constructor.
  - done.
  - apply Hc.
  - by destruct Hm as [-> | ->].
  - rewrite Hmap. repeat (apply List.Forall_cons; [unfold ids_ok; cbn; lia|]). apply List.Forall_nil.
  - rewrite Hdc. by split.
Qed.

Lemma bytes_tail l : bytes l -> bytes (tail l).
Proof. destruct l; [done|]. by intros [_ ?]%Forall_cons. Qed.

Lemma concat_bytes {A} (f : A -> list Z) xs : (forall x, x ∈ xs -> bytes (f x)) -> bytes (concat (map f xs)).
Proof.
  induction xs as [|x xs IH]; intros Hf; [constructor|]. cbn. apply bytes_app.
  split; [apply Hf; left|]. apply IH. intros y Hy. apply Hf. by right.
Qed.

Lemma dht_segment_bytes id t : byte id -> huff_tbl_ok t -> bytes (dht_segment id t).
Proof.
  intros Hi [_ Hb Hv _ _]. unfold dht_segment. repeat (apply bytes_app; split); auto using be16_bytes, bytes_tail;
    [by_bytes|by constructor|by apply Forall_take].
Qed.

Lemma dqt_segment_bytes id q : byte id -> bytes q -> bytes (dqt_segment id q).
Proof.
  intros Hi Hq. unfold dqt_segment. repeat (apply bytes_app; split); auto using be16_bytes, in_zigzag_bytes;
    [by_bytes|by constructor].
Qed.

Lemma header_bytes c t : has_tables c t -> bytes (header c t).
Proof.
  intros [_ _ _ _ _ [Hq0 Hq1] _ _ Hh].
  apply List.Forall_cons_iff in Hh as [H1 [H2 [H3 [H4 _]%List.Forall_cons_iff]%List.Forall_cons_iff]%List.Forall_cons_iff].
  assert (Hsof : bytes (sof0_segment (width c) (height c) (frame_comps c))).
  { unfold sof0_segment. repeat (apply bytes_app; split); auto using be16_bytes; try by_bytes.
    unfold frame_comps. apply concat_bytes. intros x ([i [r q] ] & -> & Hx)%list_elem_of_fmap.
    apply elem_of_zip_l in Hx. repeat constructor; try apply u8_byte; set_unfold; unfold byte; lia. }
  assert (Hdri : bytes (dri_segment (restart_interval c))).
  { unfold dri_segment. destruct (_ =? 0); [constructor|].
    repeat (apply bytes_app; split); auto using be16_bytes; by_bytes. }
  assert (Hsos : bytes (sos_segment (scan_comps c))).
  { unfold sos_segment. repeat (apply bytes_app; split); auto using be16_bytes; try by_bytes.
    unfold scan_comps. apply concat_bytes. intros x ([i q] & -> & Hx)%list_elem_of_fmap.
    apply elem_of_zip_l in Hx. repeat constructor; try apply u8_byte; set_unfold; unfold byte; lia. }
  unfold header. do 2 (apply bytes_app; split; [by_bytes|]).
  do 2 (apply bytes_app; split; [by apply dqt_segment_bytes|]). apply bytes_app; split; [exact Hsof|].
  do 4 (apply bytes_app; split; [by apply dht_segment_bytes|]). by apply bytes_app.
Qed.

(** With the hardware ready, the header is written as a whole. *)
Lemma WriteHead_ready `{BitstreamUnit} t s :
  has_tables (enc s) t ->
  exists s', JPEG_HWWriteHead (fun _ => true) s = Ret tt s' /\
    appended (regs s') = appended (regs s) ++ header (enc s) t.
Proof.
  intros Ht. assert (Hwp : wp no_fault (JPEG_HWWriteHead (fun _ => true))
    (fun _ s' => enc s' = enc s /\ out s' = out s ++ header (enc s) t) (fun _ => False) s).
  { eapply wp_mono; [apply (emits_header _ (enc s) t Ht s eq_refl)|done|].
    cbv beta. intros s' [[n Hn] _]. discriminate Hn. }
  apply wp_total in Hwp as ([] & s' & E & _ & Ho). by exists s'.
Qed.

(** C1: from the application's parameters through the encoder and back. For
    the first slice of an image of 1 to 65535 pixels each way, in both formats
    of the encoder, at each of the qualities 0 to 4, with a restart interval
    from 0 (what jpegenc_api.c:109 always sets) to 65535, the hardware being
    ready and the encoder's previous compress_level at most 5 (it is 0 at the
    start; a larger one keeps the quality from being taken,
    jpegenc_init.c:357): the setup and the writing of the header succeed, and
    a parser in its initial state, with 2416 bytes of memory and a fuel of at
    least 13, that is given the bytes of that header finds the size, the
    format, the restart interval (0x3ffff, none, for 0), the quantization
    tables of the quality and the map from components to tables, and that the
    Huffman tables are the default ones, for which the decoder takes its
    precomputed setup. *)
Theorem encode_then_parse `{BitstreamUnit} {B} `{ByteSourceLaws B} p e0 :
  ei_is_first_slice p = true ->
  ei_mcu_info_0 p = JPEG_FW_YUV420 \/ ei_mcu_info_0 p = JPEG_FW_YUV422 ->
  1 <= ei_width p < 65536 -> 1 <= ei_height p < 65536 ->
  0 <= ei_quant_level p < 5 -> compress_level (enc e0) <= 5 -> 0 <= ei_restart_interval p < 65536 ->
  exists e1 e2 hdr,
    JPEG_HWEncInit (fun _ => true) p e0 = Ret tt e1 /\
    JPEG_HWWriteHead (fun _ => true) e1 = Ret tt e2 /\
    appended (regs e2) = appended (regs e1) ++ hdr /\ bytes hdr /\
    forall fuel rest (s : parser B),
      valid (src s) -> content (src s) = hdr ++ rest -> codec s = initial_codec ->
      g_huff_tbl_malloced s = false -> room (mem s) 2416 -> (13 <= fuel)%nat ->
      exists s', ParseHead fuel s = Ret tt s' /\ content (src s') = rest /\
        input_width (inp s') = ei_width p /\ input_height (inp s') = ei_height p /\
        di_input_mcu_info (inp s') = ei_mcu_info_0 p /\
        restart_interval (codec s') = (if ei_restart_interval p =? 0 then 0x3ffff else ei_restart_interval p) /\
        tbl_map (codec s') = [TblMap 0 0 0; TblMap 1 1 1; TblMap 1 1 1] /\
        (exists lum chr, aget jpeg_fw_lum_quant_tbl_default (ei_quant_level p) = Some lum /\
          aget jpeg_fw_chr_quant_tbl_default (ei_quant_level p) = Some chr /\
          quant_tbl (codec s') = [Some lum; Some chr; None]) /\
        using_default_huff_tab (codec s') = true.
Proof.
  intros Hf Hm Hw Hh Hq Hl Hri.
  destruct (encoded_readable (fun _ => true) p e0 Hf Hm Hw Hh Hq Hl)
    as (e1 & t & r & E1 & Hc & (Hlum & Hchr & Hdc & Hac) & Hmap & Hr).
  destruct (WriteHead_ready t e1 (rd_tables _ _ _ _ Hr)) as (e2 & E2 & Ho).
  exists e1, e2, (header (enc e1) t). split; [exact E1|]. split; [exact E2|]. split; [exact Ho|].
  split; [apply header_bytes, Hr|].
  intros fuel rest s Hv Hs Hk Hg Hroom Hfuel. replace fuel with (13 + (fuel - 13))%nat by lia.
  destruct (run_ParseHead (fuel - 13) _ t r _ rest (mem s) (inp s) Hr Hroom) as (s2 & E & Hs2 & _ & Hd).
  rewrite <- Hs, <- Hk, <- Hg in E. destruct (run_over_source _ s s2 Hv E) as (s1 & Es & _ & Hc1 & _ & Hi1 & Hk1 & _).
  exists s1. rewrite Hc1, Hi1, Hk1. destruct Hd as [ [Hdw Hdh] [Hdf _] _ _ Hdm Hdq _ _ Hdr [_ Hdd] ].
  destruct Hc as [Hcw Hch _ _ _ Hcr _ _ _ _].
  split_and!; [done|done|by rewrite Hdw, Hcw|by rewrite Hdh, Hch|done|..].
  - rewrite Hdr, Hcr. destruct (Z.eqb_spec (ei_restart_interval p) 0); [done|]. apply u16_small. lia.
  - by rewrite Hdm.
  - by exists (ht_quant t).1, (ht_quant t).2.
  - rewrite Hdd, Hdc, Hac. apply default_tbls_default.
Qed.

(** A stream for the parser, behind a reader. *)
Definition stream_of (l : list Z) : parser (list Z) :=
  Parser l (Pool 4096 20000 0) (DecInput false 0 0 0 0 0) initial_codec false.

Definition vga : JPEG_ENC_INPUT_PARA_T := EncInput 640 480 0 0 1000 3 0 true false 0.

Lemma vga_room : room (Pool 4096 20000 0) 2416.
Proof. unfold room. cbn. lia. Qed.

Lemma encode_then_parse_witness :
  exists hdr s', ParseHead 13 (stream_of (hdr ++ [0])) = Ret tt s' /\ src s' = [0] /\
    input_width (inp s') = 640 /\ input_height (inp s') = 480 /\ restart_interval (codec s') = 0x3ffff.
Proof.
  destruct (encode_then_parse (B := list Z) vga (Encoder zeroed_codec [] 0)) as (e1 & e2 & hdr & _ & _ & _ & Hb & H).
  1-7: cbn; done || lia || by left.
  assert (Hv : bytes (hdr ++ [0])) by (apply bytes_app; split; [exact Hb|by_bytes]).
  destruct (H 13%nat [0] (stream_of (hdr ++ [0])) Hv eq_refl eq_refl eq_refl vga_room ltac:(lia))
    as (s' & ? & ? & ? & ? & ? & ? & _).
  by exists hdr, s'.
Defined.

Lemma ParseHead_reads_header_witness :
  exists c t r fmt s', readable c t r fmt /\
    ParseHead 13 (stream_of (header c t ++ [0])) = Ret tt s' /\ src s' = [0] /\
    describes (inp s') (codec s') c t r fmt.
Proof.
  destruct (encoded_readable (fun _ => true) vga (Encoder zeroed_codec [] 0)) as (e1 & t & r & E & _ & _ & _ & Hr).
  1-6: cbn; done || lia || by left.
  exists (enc e1), t, r, (ei_mcu_info_0 vga).
  assert (Hv : bytes (header (enc e1) t ++ [0])).
  { apply bytes_app. split; [apply header_bytes, Hr|by_bytes]. }
  destruct (@ParseHead_reads_header (list Z) _ list_source_laws 13 (enc e1) t r (ei_mcu_info_0 vga) [0]
    (stream_of (header (enc e1) t ++ [0])) Hv eq_refl eq_refl eq_refl vga_room Hr ltac:(lia)) as (s' & E1 & _ & E2 & _ & E3).
  by exists s'.
Defined.
