(* ===== verification/CmrMsg.v ===== *)
(** * The camera's message queue

    src/common/libs/libcamera/sc8825/src/cmr_msg.c: a ring buffer with a
    mutex and a counting semaphore. The operations as a caller runs them
    alone, an abstract queue they implement, and the threads of a process as
    a step relation, in which the parts of the operations interleave. *)
From stdpp Require Import base list relations.
From Stdlib Require Import ZArith Lia.
From S2P Require Import Prelude.

(** ** Definitions *)

Record cmr_msg := Msg {
  msg_type : Z;
  sub_msg_type : Z;
  data : Z;
  alloc_flag : Z
}.

(** [msg_head] is the array behind the pointer; the other two pointers are
    indices of it. The mutex is held or not, the semaphore is its value. *)
Record cmr_msg_cxt := MsgCxt {
  mutex : bool;
  msg_sem : Z;
  msg_count : Z;
  msg_number : Z;
  msg_magic : Z;
  msg_head : list cmr_msg;
  msg_write : Z;
  msg_read : Z
}.

Definition CMR_MSG_MAGIC_CODE : Z := 0xEFFEA55A.
Definition CMR_MSG_SUCCESS : Z := 0.
Definition CMR_MSG_PARAM_ERR : Z := 1.
Definition CMR_MSG_INVALID_HANDLE : Z := 2.
Definition CMR_MSG_NO_OTHER_MSG : Z := 3.
Definition CMR_MSG_NO_MEM : Z := 4.
Definition CMR_MSG_OVERFLOW : Z := 5.
Definition CMR_MSG_UNDERFLOW : Z := 6.

(** A struct of four words. *)
Definition sizeof_cmr_msg : Z := 16.

(** *** cmr_msg_queue_create. What [malloc] gives: whether there is memory
    for the context, and the array for a number of bytes. The product of the
    size is taken modulo 2^32. *)
Definition cmr_msg_queue_create (cxt_mem : bool) (malloc : Z -> option (list cmr_msg)) (count : Z)
    : Z * option cmr_msg_cxt :=
  if 0 =? count then (- CMR_MSG_PARAM_ERR, None) else
  if negb cxt_mem then (- CMR_MSG_NO_MEM, None) else
  match malloc (u32 (count * sizeof_cmr_msg)) with
  | None => (- CMR_MSG_NO_MEM, None)
  | Some head => (CMR_MSG_SUCCESS, Some (MsgCxt false 0 count 0 CMR_MSG_MAGIC_CODE head 0 0))
  end.

(** *** The parts of the operations. *)

Definition set_sem (n : Z) (c : cmr_msg_cxt) : cmr_msg_cxt :=
  MsgCxt (mutex c) n (msg_count c) (msg_number c) (msg_magic c) (msg_head c) (msg_write c) (msg_read c).

Definition sem_wait : M cmr_msg_cxt unit :=
  n <- gets msg_sem ;;
  if n >? 0 then modify (set_sem (n - 1)) else bad Blocked.

Definition sem_trywait : M cmr_msg_cxt bool :=
  n <- gets msg_sem ;;
  if n >? 0 then modify (set_sem (n - 1)) ;;; ret true else ret false.

Definition sem_post : M cmr_msg_cxt unit := modify (fun c => set_sem (msg_sem c + 1) c).

Definition set_mutex (b : bool) (c : cmr_msg_cxt) : cmr_msg_cxt :=
  MsgCxt b (msg_sem c) (msg_count c) (msg_number c) (msg_magic c) (msg_head c) (msg_write c) (msg_read c).

Definition lock : M cmr_msg_cxt unit :=
  b <- gets mutex ;;
  if b then bad Blocked else modify (set_mutex true).

Definition unlock : M cmr_msg_cxt unit := modify (set_mutex false).

Definition set_number (n : Z) : M cmr_msg_cxt unit :=
  modify (fun c => MsgCxt (mutex c) (msg_sem c) (msg_count c) n (msg_magic c)
                     (msg_head c) (msg_write c) (msg_read c)).

Definition set_read (r : Z) : M cmr_msg_cxt unit :=
  modify (fun c => MsgCxt (mutex c) (msg_sem c) (msg_count c) (msg_number c) (msg_magic c)
                     (msg_head c) (msg_write c) r).

Definition set_write (w : Z) : M cmr_msg_cxt unit :=
  modify (fun c => MsgCxt (mutex c) (msg_sem c) (msg_count c) (msg_number c) (msg_magic c)
                     (msg_head c) w (msg_read c)).

(** [*message = *msg_cxt->msg_read++] and the wrap of the pointer *)
Definition take_message : M cmr_msg_cxt cmr_msg :=
  c <- get ;;
  m <- lift OutOfBounds (aget (msg_head c) (msg_read c)) ;;
  let r := msg_read c + 1 in
  set_read (if r >? msg_count c - 1 then 0 else r) ;;;
  ret m.

(** [cmr_msg_get] between lock and unlock; [None] is a message that was not
    written. *)
Definition get_locked : M cmr_msg_cxt (Z * option cmr_msg) :=
  c <- get ;;
  if msg_number c =? 0 then
    unlock ;;;
    ret (CMR_MSG_UNDERFLOW, None)
  else
    m <- (if negb (msg_read c =? msg_write c) then m <- take_message ;; ret (Some m) else ret None) ;;
    set_number (u32 (msg_number c - 1)) ;;;
    unlock ;;;
    ret (CMR_MSG_SUCCESS, m).

(** [cmr_msg_peak] after the lock: the early return leaves the mutex held. *)
Definition peak_locked : M cmr_msg_cxt (Z * option cmr_msg) :=
  c <- get ;;
  if negb (msg_read c =? msg_write c) then
    m <- take_message ;;
    set_number (u32 (msg_number c - 1)) ;;;
    unlock ;;;
    ret (CMR_MSG_SUCCESS, Some m)
  else ret (- CMR_MSG_NO_OTHER_MSG, None).

(** The parts of [cmr_msg_post] under the lock:
    [*msg_cxt->msg_write++ = *message] *)
Definition post_store (message : cmr_msg) : M cmr_msg_cxt unit :=
  c <- get ;;
  head <- lift OutOfBounds (aset (msg_head c) (msg_write c) message) ;;
  modify (fun c => MsgCxt (mutex c) (msg_sem c) (msg_count c) (msg_number c) (msg_magic c)
                     head (msg_write c + 1) (msg_read c)).

Definition post_wrap : M cmr_msg_cxt unit :=
  c <- get ;;
  if msg_write c >? msg_count c - 1 then set_write 0 else ret tt.

Definition post_restore (ori_node : Z) : M cmr_msg_cxt unit :=
  c <- get ;;
  if msg_write c =? msg_read c then set_write ori_node else ret tt.

Definition post_count : M cmr_msg_cxt unit :=
  c <- get ;;
  set_number (u32 (msg_number c + 1)).

Definition post_locked (ori_node : Z) (message : cmr_msg) : M cmr_msg_cxt Z :=
  c <- get ;;
  if msg_number c >=? msg_count c then
    unlock ;;;
    ret CMR_MSG_OVERFLOW
  else
    post_store message ;;;
    post_wrap ;;;
    post_restore ori_node ;;;
    post_count ;;;
    unlock ;;;
    ret CMR_MSG_SUCCESS.

(** *** The operations. The handle is 0 or the context's address; a NULL
    message is [None]. *)

Definition cmr_msg_get (queue_handle : Z) (message : option cmr_msg)
    : M cmr_msg_cxt (Z * option cmr_msg) :=
  match message with
  | None => ret (- CMR_MSG_PARAM_ERR, message)
  | Some _ =>
      if 0 =? queue_handle then ret (- CMR_MSG_PARAM_ERR, message) else
      magic <- gets msg_magic ;;
      if negb (magic =? CMR_MSG_MAGIC_CODE) then ret (CMR_MSG_INVALID_HANDLE, message) else
      sem_wait ;;;
      lock ;;;
      r <- get_locked ;;
      ret (r.1, match r.2 with Some m => Some m | None => message end)
  end.

(** The write pointer is read before the handle is looked at. *)
Definition cmr_msg_post (queue_handle : Z) (message : option cmr_msg) : M cmr_msg_cxt Z :=
  if 0 =? queue_handle then bad NullPointer else
  ori_node <- gets msg_write ;;
  match message with
  | None => ret (- CMR_MSG_PARAM_ERR)
  | Some m =>
      magic <- gets msg_magic ;;
      if negb (magic =? CMR_MSG_MAGIC_CODE) then ret CMR_MSG_INVALID_HANDLE else
      lock ;;;
      r <- post_locked ori_node m ;;
      (if r =? CMR_MSG_SUCCESS then sem_post else ret tt) ;;;
      ret r
  end.

Definition cmr_msg_peak (queue_handle : Z) (message : option cmr_msg)
    : M cmr_msg_cxt (Z * option cmr_msg) :=
  match message with
  | None => ret (- CMR_MSG_PARAM_ERR, message)
  | Some _ =>
      if 0 =? queue_handle then ret (- CMR_MSG_PARAM_ERR, message) else
      magic <- gets msg_magic ;;
      if negb (magic =? CMR_MSG_MAGIC_CODE) then ret (CMR_MSG_INVALID_HANDLE, message) else
      ok <- sem_trywait ;;
      if negb ok then ret (- CMR_MSG_NO_OTHER_MSG, message) else
      lock ;;;
      r <- peak_locked ;;
      ret (r.1, match r.2 with Some m => Some m | None => message end)
  end.

(** Zeroed before it is freed. *)
Definition cmr_msg_queue_destroy (queue_handle : Z) : M cmr_msg_cxt Z :=
  if 0 =? queue_handle then ret (- CMR_MSG_PARAM_ERR) else
  magic <- gets msg_magic ;;
  if negb (magic =? CMR_MSG_MAGIC_CODE) then ret CMR_MSG_INVALID_HANDLE else
  modify (fun _ => MsgCxt false 0 0 0 0 [] 0 0) ;;;
  ret CMR_MSG_SUCCESS.

(** ** The ring *)

(** An index of the array, for [i] below twice its size. *)
Definition slot (count i : Z) : Z := if i <? count then i else i - count.

(** The elements [items] lie in the ring from the read pointer on, up to the
    write pointer; one element of the array always stays free. *)
Record ring (c : cmr_msg_cxt) (items : list cmr_msg) : Prop := Ring {
  rg_head : zlen (msg_head c) = msg_count c;
  rg_count : zlen items < msg_count c < 4294967296;
  rg_read : 0 <= msg_read c < msg_count c;
  rg_write : msg_write c = slot (msg_count c) (msg_read c + zlen items);
  rg_items k m : aget items k = Some m ->
    aget (msg_head c) (slot (msg_count c) (msg_read c + k)) = Some m
}.

(** Index arithmetic: the two cases of every wrap. *)
Ltac slot_lia :=
  unfold slot in *;
  repeat match goal with
  | |- context [?a <? ?b] => destruct (Z.ltb_spec a b)
  | |- context [?a >? ?b] => destruct (Z.gtb_spec a b)
  | H : context [?a <? ?b] |- _ => destruct (Z.ltb_spec a b)
  end; lia.

Lemma slot_range count i : 0 <= i < 2 * count -> 0 <= slot count i < count.
Proof. slot_lia. Qed.

Lemma ring_write c items : ring c items -> 0 <= msg_write c < msg_count c.
Proof. intros [_ ? ? -> _]. apply slot_range. pose proof (zlen_nonneg items). lia. Qed.

Lemma ring_empty c items : ring c items -> (msg_read c =? msg_write c) = bool_decide (items = []).
Proof.
  intros [_ Hc Hr -> _]. pose proof (zlen_nonneg items). destruct items as [|x l].
  - rewrite bool_decide_true by done. apply Z.eqb_eq. unfold zlen in *. cbn in *. slot_lia.
  - rewrite bool_decide_false by done. apply Z.eqb_neq. rewrite zlen_cons in *. pose proof (zlen_nonneg l).
    slot_lia.
Qed.

(** Taking the first element. *)
Lemma ring_take c x l :
  ring c (x :: l) ->
  exists c', take_message c = Ret x c' /\ ring c' l /\
    c' = MsgCxt (mutex c) (msg_sem c) (msg_count c) (msg_number c) (msg_magic c) (msg_head c) (msg_write c)
           (slot (msg_count c) (msg_read c + 1)).
Proof.
  intros [Hh Hc Hr Hw Hi]. rewrite zlen_cons in *. pose proof (zlen_nonneg l).
  assert (Ex : aget (msg_head c) (msg_read c) = Some x).
  { specialize (Hi 0 x eq_refl). unfold slot in Hi. by rewrite Z.add_0_r, (proj2 (Z.ltb_lt _ _)) in Hi by lia. }
  assert (Er : (if msg_read c + 1 >? msg_count c - 1 then 0 else msg_read c + 1)
    = slot (msg_count c) (msg_read c + 1)) by (slot_lia).
  eexists. split; [|split; [|reflexivity]].
  - unfold take_message, bind, get, lift, set_read, modify. rewrite Ex. cbv beta iota zeta. by rewrite Er.
  - constructor; cbn.
    + done.
    + lia.
    + apply slot_range. lia.
    + rewrite Hw. slot_lia.
    + intros k m Hk. pose proof (aget_range _ _ _ Hk) as Hkr.
      assert (Hk1 : aget (x :: l) (k + 1) = Some m).
      { apply aget_Some in Hk as [? Hk]. apply aget_Some. split; [lia|]. by replace (Z.to_nat (k + 1)) with (S (Z.to_nat k)) by lia. }
      rewrite <- (Hi _ _ Hk1). f_equal. slot_lia.
Qed.

Lemma aget_insert {A} (l : list A) i j x :
  0 <= i -> aget (<[Z.to_nat i := x]> l) j = if i =? j then (if j <? zlen l then Some x else None) else aget l j.
Proof.
  intros Hi. unfold aget, zlen. destruct (Z.eqb_spec i j) as [->|Hne].
  - rewrite (proj2 (Z.leb_le _ _)) by lia. destruct (Z.ltb_spec j (Z.of_nat (length l))).
    + apply list_lookup_insert_eq. lia.
    + apply lookup_ge_None_2. rewrite length_insert. lia.
  - destruct (Z.leb_spec 0 j); [|done]. apply list_lookup_insert_ne. lia.
Qed.

(** Storing an element: there is a place, and the pointer moves on to it. *)
Definition stored (m : cmr_msg) (c : cmr_msg_cxt) : cmr_msg_cxt :=
  MsgCxt (mutex c) (msg_sem c) (msg_count c) (msg_number c) (msg_magic c)
    (<[Z.to_nat (msg_write c) := m]> (msg_head c)) (msg_write c + 1) (msg_read c).

Definition with_write (w : Z) (c : cmr_msg_cxt) : cmr_msg_cxt :=
  MsgCxt (mutex c) (msg_sem c) (msg_count c) (msg_number c) (msg_magic c) (msg_head c) w (msg_read c).

Lemma post_store_ring c items m : ring c items -> post_store m c = Ret tt (stored m c).
Proof.
  intros Hr. pose proof (ring_write c items Hr) as Hw. pose proof (rg_head _ _ Hr) as Hh.
  unfold post_store, bind, get, lift, modify, aset. rewrite (proj2 (Z.leb_le _ _)) by lia.
  rewrite (proj2 (Z.ltb_lt _ _)) by (unfold zlen in *; lia). reflexivity.
Qed.

Lemma post_wrap_stored c items m :
  ring c items ->
  post_wrap (stored m c) = Ret tt (with_write (slot (msg_count c) (msg_write c + 1)) (stored m c)).
Proof.
  intros Hr. pose proof (ring_write c items Hr) as Hw. unfold post_wrap, bind, get, stored, with_write, slot. cbn.
  destruct (Z.gtb_spec (msg_write c + 1) (msg_count c - 1)), (Z.ltb_spec (msg_write c + 1) (msg_count c)); try lia.
  - unfold set_write, modify. do 2 f_equal. lia.
  - reflexivity.
Qed.

(** With room, the element is added; without, the pointer goes back and the
    element is out of the ring. *)
Lemma ring_put c items m :
  ring c items -> zlen items + 1 < msg_count c ->
  ring (with_write (slot (msg_count c) (msg_write c + 1)) (stored m c)) (items ++ [m]) /\
  (slot (msg_count c) (msg_write c + 1) =? msg_read c) = false.
Proof.
  intros [Hh Hc Hr Hw Hi] Hl. pose proof (zlen_nonneg items). split.
  - constructor; cbn; rewrite ?zlen_app.
    + unfold zlen. rewrite length_insert. exact Hh.
    + unfold zlen at 2. cbn. lia.
    + done.
    + unfold zlen at 2. cbn. rewrite Hw. slot_lia.
    + intros k m' Hk. pose proof (aget_range _ _ _ Hk) as Hkr. rewrite zlen_app in Hkr.
      unfold zlen in Hkr at 2. cbn in Hkr.
      assert (Hwr : 0 <= msg_write c) by (rewrite Hw; slot_lia).
      rewrite aget_insert by done. apply aget_Some in Hk as [Hk0 Hk].
      destruct (decide (k = zlen items)) as [->|Hne].
      * rewrite Hw, Z.eqb_refl. unfold zlen in Hk. rewrite Nat2Z.id, list_lookup_middle in Hk by done.
        injection Hk as <-. rewrite (proj2 (Z.ltb_lt _ _)); [done|]. rewrite Hh. slot_lia.
      * rewrite (proj2 (Z.eqb_neq _ _)) by (rewrite Hw; slot_lia).
        apply Hi. apply aget_Some. split; [done|]. rewrite lookup_app_l in Hk; [done|]. unfold zlen in *. lia.
  - apply Z.eqb_neq. rewrite Hw. slot_lia.
Qed.

Lemma ring_full c items m :
  ring c items -> zlen items + 1 = msg_count c ->
  ring (with_write (msg_write c) (stored m c)) items /\
  (slot (msg_count c) (msg_write c + 1) =? msg_read c) = true.
Proof.
  intros [Hh Hc Hr Hw Hi] Hl. pose proof (zlen_nonneg items). split.
  - constructor; cbn; try done.
    + unfold zlen. rewrite length_insert. exact Hh.
    + intros k m' Hk. pose proof (aget_range _ _ _ Hk) as Hkr.
      assert (Hwr : 0 <= msg_write c) by (rewrite Hw; slot_lia).
      rewrite aget_insert by done.
      rewrite (proj2 (Z.eqb_neq _ _)) by (rewrite Hw; slot_lia). by apply Hi.
  - apply Z.eqb_eq. rewrite Hw. slot_lia.
Qed.

(** ** The abstract queue *)

(** The messages that will be delivered, and whether one was accepted and
    dropped that the count still includes. *)
Record queue := Queue {
  items : list cmr_msg;
  lost : bool
}.

Definition total (q : queue) : Z := zlen (items q) + Z.b2z (lost q).

Definition spec_post (count : Z) (m : cmr_msg) (q : queue) : Z * queue :=
  if total q >=? count then (CMR_MSG_OVERFLOW, q)
  else if zlen (items q) + 1 <? count then (CMR_MSG_SUCCESS, Queue (items q ++ [m]) (lost q))
  else (CMR_MSG_SUCCESS, Queue (items q) true).

(** [None] when a reader has to wait; no message for the one that was dropped. *)
Definition spec_get (q : queue) : option (option cmr_msg * queue) :=
  match items q with
  | m :: l => Some (Some m, Queue l (lost q))
  | [] => if lost q then Some (None, Queue [] false) else None
  end.

(** A context at rest, between operations. *)
Record represents (c : cmr_msg_cxt) (q : queue) : Prop := Represents {
  rp_ring : ring c (items q);
  rp_number : msg_number c = total q;
  rp_total : total q <= msg_count c;
  rp_sem : msg_sem c = total q;
  rp_mutex : mutex c = false;
  rp_magic : msg_magic c = CMR_MSG_MAGIC_CODE
}.

Lemma queue_total_nonneg q : 0 <= total q.
Proof. unfold total. pose proof (zlen_nonneg (items q)). destruct (lost q); cbn; lia. Qed.

(** The parts under the lock, on a context whose ring holds [l]. *)
Lemma post_locked_ring c l m :
  ring c l -> 0 <= msg_number c < msg_count c ->
  exists c', post_locked (msg_write c) m c = Ret CMR_MSG_SUCCESS c' /\
    ring c' (if zlen l + 1 <? msg_count c then l ++ [m] else l) /\
    msg_number c' = msg_number c + 1 /\ mutex c' = false /\
    msg_count c' = msg_count c /\ msg_magic c' = msg_magic c /\ msg_sem c' = msg_sem c.
Proof.
  intros Hr Hn. unfold post_locked, bind at 1, get at 1.
  destruct (Z.geb_spec (msg_number c) (msg_count c)) as [|_]; [lia|].
  erewrite bind_Ret by by eapply post_store_ring. cbv beta.
  erewrite bind_Ret by by eapply post_wrap_stored. cbv beta.
  pose proof (rg_count _ _ Hr) as Hc.
  assert (Hs : u32 (msg_number c + 1) = msg_number c + 1) by (apply u32_small; lia).
  destruct (Z.ltb_spec (zlen l + 1) (msg_count c)) as [Hl|Hl].
  - destruct (ring_put c l m Hr Hl) as [Hr' Hne].
    eexists. split; [unfold post_restore, bind, get, with_write, stored; cbn; rewrite Hne; cbn; by rewrite Hs|].
    split; [|done]. cbn. destruct Hr'. by constructor.
  - destruct (ring_full c l m Hr) as [Hr' Heq]; [lia|].
    eexists. split; [unfold post_restore, bind, get, with_write, stored; cbn; rewrite Heq; cbn; by rewrite Hs|].
    split; [|done]. cbn. destruct Hr'. by constructor.
Qed.

Lemma get_locked_ring c l :
  ring c l -> 0 < msg_number c < 4294967296 ->
  exists c', get_locked c = Ret (CMR_MSG_SUCCESS, hd_error l) c' /\ ring c' (tail l) /\
    msg_number c' = msg_number c - 1 /\ mutex c' = false /\
    msg_count c' = msg_count c /\ msg_magic c' = msg_magic c /\ msg_sem c' = msg_sem c /\
    msg_write c' = msg_write c.
Proof.
  intros Hr Hn. unfold get_locked, bind at 1, get at 1. rewrite (proj2 (Z.eqb_neq _ 0)) by lia.
  rewrite (ring_empty c l Hr).
  assert (Hs : u32 (msg_number c - 1) = msg_number c - 1) by (apply u32_small; lia).
  destruct l as [|x l]; cbn [negb bool_decide].
  - rewrite bool_decide_true by done. eexists. split; [unfold bind, ret, set_number, modify, unlock; cbn; by rewrite Hs|].
    split; [|done]. cbn. destruct Hr. by constructor.
  - rewrite bool_decide_false by done. destruct (ring_take c x l Hr) as (c1 & E & Hr1 & Ec).
    cbn [negb]. erewrite bind_Ret by (erewrite bind_Ret by exact E; reflexivity). cbv beta.
    eexists. split; [unfold bind, ret, set_number, modify, unlock; cbn; by rewrite Hs|].
    subst c1. cbn in *. split; [|done]. destruct Hr1. by constructor.
Qed.

Lemma peak_locked_ring c l :
  ring c l -> 0 < msg_number c < 4294967296 ->
  match l with
  | [] => peak_locked c = Ret (- CMR_MSG_NO_OTHER_MSG, None) c
  | _ :: _ => peak_locked c = get_locked c
  end.
Proof.
  intros Hr Hn. unfold peak_locked, get_locked. destruct l as [|x l].
  - erewrite bind_Ret by reflexivity. cbv beta. by rewrite (ring_empty c [] Hr), bool_decide_true.
  - erewrite !(bind_Ret get) by reflexivity. cbv beta. rewrite (ring_empty c _ Hr), bool_decide_false by done.
    rewrite (proj2 (Z.eqb_neq _ 0)) by lia. cbn [negb]. rewrite bind_assoc.
    unfold bind, ret. by destruct (take_message c).
Qed.

(** The way into the section under the lock, when nothing is in the way. *)
Definition entered (c : cmr_msg_cxt) : cmr_msg_cxt := set_mutex true (set_sem (msg_sem c - 1) c).

Definition at_rest (c : cmr_msg_cxt) : Prop := mutex c = false /\ msg_magic c = CMR_MSG_MAGIC_CODE.

Lemma ring_entered c l : ring c l -> ring (entered c) l.
Proof. intros []. by constructor. Qed.
Lemma ring_locked c l : ring c l -> ring (set_mutex true c) l.
Proof. intros []. by constructor. Qed.

Definition answer (b : cmr_msg) (r : Z * option cmr_msg) : Z * option cmr_msg :=
  (r.1, match r.2 with Some m => Some m | None => Some b end).

Lemma sem_wait_run c : 0 < msg_sem c -> sem_wait c = Ret tt (set_sem (msg_sem c - 1) c).
Proof. intros Hs. unfold sem_wait, bind, gets. by rewrite (proj2 (Z.gtb_lt (msg_sem c) 0)). Qed.
Lemma sem_trywait_run c : 0 < msg_sem c -> sem_trywait c = Ret true (set_sem (msg_sem c - 1) c).
Proof. intros Hs. unfold sem_trywait, bind, gets. by rewrite (proj2 (Z.gtb_lt (msg_sem c) 0)). Qed.
Lemma lock_run c : mutex c = false -> lock c = Ret tt (set_mutex true c).
Proof. intros Hm. unfold lock, bind, gets. by rewrite Hm. Qed.

Lemma get_enters c h b :
  at_rest c -> h <> 0 -> 0 < msg_sem c ->
  cmr_msg_get h (Some b) c = (r <- get_locked ;; ret (answer b r)) (entered c).
Proof.
  intros [Hm Hg] Hh Hs. unfold cmr_msg_get. rewrite (proj2 (Z.eqb_neq 0 h)) by lia.
  erewrite bind_Ret by reflexivity. cbv beta. rewrite Hg, Z.eqb_refl. cbn [negb].
  erewrite bind_Ret by by apply sem_wait_run. cbv beta. by erewrite bind_Ret by by apply lock_run.
Qed.

Lemma get_blocks c h b :
  msg_magic c = CMR_MSG_MAGIC_CODE -> h <> 0 -> msg_sem c = 0 -> cmr_msg_get h (Some b) c = Bad Blocked.
Proof.
  intros Hg Hh Hs. unfold cmr_msg_get. rewrite (proj2 (Z.eqb_neq 0 h)) by lia.
  erewrite bind_Ret by reflexivity. cbv beta. rewrite Hg, Z.eqb_refl. cbn [negb].
  unfold sem_wait. rewrite bind_assoc. erewrite bind_Ret by reflexivity. cbv beta. by rewrite Hs.
Qed.

Lemma peak_none c h b :
  msg_magic c = CMR_MSG_MAGIC_CODE -> h <> 0 -> msg_sem c = 0 ->
  cmr_msg_peak h (Some b) c = Ret (- CMR_MSG_NO_OTHER_MSG, Some b) c.
Proof.
  intros Hg Hh Hs. unfold cmr_msg_peak. rewrite (proj2 (Z.eqb_neq 0 h)) by lia.
  erewrite bind_Ret by reflexivity. cbv beta. rewrite Hg, Z.eqb_refl. cbn [negb].
  unfold sem_trywait. rewrite bind_assoc. erewrite bind_Ret by reflexivity. cbv beta. by rewrite Hs.
Qed.

Lemma peak_enters c h b :
  at_rest c -> h <> 0 -> 0 < msg_sem c ->
  cmr_msg_peak h (Some b) c = (r <- peak_locked ;; ret (answer b r)) (entered c).
Proof.
  intros [Hm Hg] Hh Hs. unfold cmr_msg_peak. rewrite (proj2 (Z.eqb_neq 0 h)) by lia.
  erewrite bind_Ret by reflexivity. cbv beta. rewrite Hg, Z.eqb_refl. cbn [negb].
  erewrite bind_Ret by by apply sem_trywait_run. cbv beta. cbn [negb]. by erewrite bind_Ret by by apply lock_run.
Qed.

Lemma post_enters c h m :
  at_rest c -> h <> 0 ->
  cmr_msg_post h (Some m) c
  = (r <- post_locked (msg_write c) m ;; (if r =? CMR_MSG_SUCCESS then sem_post else ret tt) ;;; ret r)
      (set_mutex true c).
Proof.
  intros [Hm Hg] Hh. unfold cmr_msg_post. rewrite (proj2 (Z.eqb_neq 0 h)) by lia.
  erewrite !bind_Ret by reflexivity. cbv beta. rewrite Hg, Z.eqb_refl. cbn [negb].
  by erewrite bind_Ret by by apply lock_run.
Qed.

Lemma refine_post c q h m :
  represents c q -> h <> 0 ->
  exists c', cmr_msg_post h (Some m) c = Ret (spec_post (msg_count c) m q).1 c' /\
    represents c' (spec_post (msg_count c) m q).2 /\ msg_count c' = msg_count c.
Proof.
  intros [Hr Hn Ht Hs Hm Hg] Hh. pose proof (queue_total_nonneg q) as Hq. pose proof (rg_count _ _ Hr) as Hc.
  assert (Hrest : at_rest c) by done.
  rewrite post_enters by done. unfold spec_post.
  destruct (Z.geb_spec (total q) (msg_count c)) as [Hfull|Hfull].
  - exists c. split; [|by split; [constructor|]]. unfold post_locked.
    erewrite bind_Ret by (erewrite bind_Ret by reflexivity; cbn [msg_number msg_count set_mutex];
      rewrite Hn, (proj2 (Z.geb_le _ _)) by lia; reflexivity).
    cbn. by rewrite <- Hm; destruct c.
  - destruct (post_locked_ring (set_mutex true c) (items q) m) as (c' & E & Hr' & Hn' & Hm' & Hc' & Hg' & Hs');
      [by apply ring_locked|cbn; lia|]. cbn in E, Hr', Hn', Hc', Hg', Hs'.
    exists (set_sem (msg_sem c' + 1) c'). erewrite bind_Ret by exact E. cbv beta.
    destruct (Z.ltb_spec (zlen (items q) + 1) (msg_count c)) as [Hl|Hl].
    all: split; [done|]; split; [|done]; unfold total in *; cbn [items lost snd] in *.
    + constructor; cbn; [by destruct Hr'; constructor|..|done|congruence]; unfold total; cbn [items lost];
        rewrite ?zlen_app; change (zlen [m]) with 1; lia.
    + constructor; cbn; [by destruct Hr'; constructor|..|done|congruence]; unfold total; cbn [items lost Z.b2z];
        destruct (lost q); cbn in *; lia.
Qed.

Lemma refine_get c q h b :
  represents c q -> h <> 0 ->
  match spec_get q with
  | Some (o, q') => exists c', cmr_msg_get h (Some b) c = Ret (CMR_MSG_SUCCESS, Some (default b o)) c' /\
      represents c' q' /\ msg_count c' = msg_count c
  | None => cmr_msg_get h (Some b) c = Bad Blocked
  end.
Proof.
  intros [Hr Hn Ht Hs Hm Hg] Hh. pose proof (queue_total_nonneg q) as Hq. pose proof (rg_count _ _ Hr) as Hc.
  assert (Hrest : at_rest c) by done.
  unfold spec_get. destruct q as [l ls]. cbn [items lost] in *.
  assert (Hget : 0 < total (Queue l ls) -> forall q', items q' = tail l -> total q' = total (Queue l ls) - 1 ->
    exists c', cmr_msg_get h (Some b) c = Ret (CMR_MSG_SUCCESS, Some (default b (hd_error l))) c' /\
      represents c' q' /\ msg_count c' = msg_count c).
  { intros Hpos q' Hi Hq'. rewrite get_enters by (done || lia).
    destruct (get_locked_ring (entered c) l (ring_entered c l Hr)) as (c' & E & Hr' & Hn' & Hm' & Hc' & Hg' & Hs' & _);
      [cbn; lia|]. cbn in Hr', Hn', Hc', Hg', Hs'. exists c'. erewrite bind_Ret by exact E.
    split; [by destruct l|]. split; [|done]. constructor; [by rewrite Hi|lia..|done|congruence]. }
  destruct l as [|x l]; [destruct ls|].
  - by apply Hget.
  - by apply get_blocks.
  - apply Hget; [|done|]; unfold total in *; cbn [items lost] in *; rewrite zlen_cons in *;
      pose proof (zlen_nonneg l); destruct ls; cbn in *; lia.
Qed.

Lemma refine_peak c q h b :
  represents c q -> h <> 0 ->
  match spec_get q with
  | Some (Some m, q') => exists c', cmr_msg_peak h (Some b) c = Ret (CMR_MSG_SUCCESS, Some m) c' /\
      represents c' q' /\ msg_count c' = msg_count c
  | Some (None, _) => exists c', cmr_msg_peak h (Some b) c = Ret (- CMR_MSG_NO_OTHER_MSG, Some b) c' /\
      mutex c' = true
  | None => cmr_msg_peak h (Some b) c = Ret (- CMR_MSG_NO_OTHER_MSG, Some b) c
  end.
Proof.
  intros [Hr Hn Ht Hs Hm Hg] Hh. pose proof (queue_total_nonneg q) as Hq. pose proof (rg_count _ _ Hr) as Hc.
  assert (Hrest : at_rest c) by done.
  unfold spec_get. destruct q as [l ls]. cbn [items lost] in *.
  destruct l as [|x l]; [destruct ls|].
  - rewrite peak_enters by (done || (rewrite Hs; unfold total, zlen; cbn; lia)).
    pose proof (peak_locked_ring (entered c) [] (ring_entered c _ Hr)) as Hp. cbn in Hp.
    erewrite bind_Ret by (apply Hp; rewrite Hn; unfold total, zlen in *; cbn in *; lia). by eexists.
  - by apply peak_none.
  - assert (Hpos : 0 < total (Queue (x :: l) ls)).
    { unfold total. cbn [items lost]. rewrite zlen_cons. pose proof (zlen_nonneg l). destruct ls; cbn; lia. }
    rewrite peak_enters by (done || lia).
    pose proof (peak_locked_ring (entered c) (x :: l) (ring_entered c _ Hr)) as Hp. cbv iota in Hp.
    destruct (get_locked_ring (entered c) (x :: l) (ring_entered c _ Hr)) as (c' & E & Hr' & Hn' & Hm' & Hc' & Hg' & Hs' & _);
      [cbn; lia|]. cbn in Hr', Hn', Hc', Hg', Hs'. exists c'.
    erewrite bind_Ret by (rewrite Hp by (cbn; lia); exact E).
    split; [done|]. split; [|done]. unfold total in *. cbn [items lost] in *. rewrite zlen_cons in *.
    constructor; unfold total; cbn [items lost]; [done|lia..|done|congruence].
Qed.

(** C33: the operations, called with nobody else in the queue, implement an
    abstract queue, on every branch. A post is refused with OVERFLOW when
    the count is reached, appends its message while fewer than [count - 1]
    wait, and otherwise reports success but drops it. A get waits while
    nothing is counted, and returns the messages in order; for the dropped
    one it reports success and leaves the caller's buffer as it was. A peak
    does the same without waiting, except that for the dropped message it
    reports that there is none and keeps the mutex. *)
Theorem queue_refines c q h :
  represents c q -> h <> 0 ->
  (forall m, exists c', cmr_msg_post h (Some m) c = Ret (spec_post (msg_count c) m q).1 c' /\
     represents c' (spec_post (msg_count c) m q).2 /\ msg_count c' = msg_count c) /\
  (forall b, match spec_get q with
    | Some (o, q') => exists c', cmr_msg_get h (Some b) c = Ret (CMR_MSG_SUCCESS, Some (default b o)) c' /\
        represents c' q' /\ msg_count c' = msg_count c
    | None => cmr_msg_get h (Some b) c = Bad Blocked
    end) /\
  (forall b, match spec_get q with
    | Some (Some m, q') => exists c', cmr_msg_peak h (Some b) c = Ret (CMR_MSG_SUCCESS, Some m) c' /\
        represents c' q' /\ msg_count c' = msg_count c
    | Some (None, _) => exists c', cmr_msg_peak h (Some b) c = Ret (- CMR_MSG_NO_OTHER_MSG, Some b) c' /\
        mutex c' = true
    | None => cmr_msg_peak h (Some b) c = Ret (- CMR_MSG_NO_OTHER_MSG, Some b) c
    end).
Proof.
  intros Hr Hh. split; [|split]; intros ?;
    [by apply refine_post|by apply refine_get|by apply refine_peak].
Qed.

(** A new queue is empty. *)
Lemma create_represents malloc count head :
  0 < count < 268435456 -> malloc (count * sizeof_cmr_msg) = Some head -> zlen head = count ->
  exists c, cmr_msg_queue_create true malloc count = (CMR_MSG_SUCCESS, Some c) /\
    represents c (Queue [] false) /\ msg_count c = count.
Proof.
  intros Hc Hm Hh. unfold cmr_msg_queue_create. rewrite (proj2 (Z.eqb_neq 0 count)) by lia. cbn [negb].
  rewrite u32_small by (unfold sizeof_cmr_msg; lia). rewrite Hm. eexists. split; [done|]. split; [|done].
  constructor; cbn; try done; [|unfold total, zlen; cbn; lia].
  constructor; cbn; unfold zlen in *; cbn; try done; try lia; [slot_lia|].
  intros k m [_ ?]%aget_Some. by rewrite lookup_nil in *.
Qed.

Definition a_msg (n : Z) : cmr_msg := Msg n 0 0 0.

Lemma queue_refines_witness :
  exists c, represents c (Queue [] false) /\ msg_count c = 5 /\
    exists c', cmr_msg_post 64 (Some (a_msg 1)) c = Ret CMR_MSG_SUCCESS c' /\
      represents c' (Queue [a_msg 1] false).
Proof.
  destruct (create_represents (fun _ => Some (replicate 5 (a_msg 0))) 5 (replicate 5 (a_msg 0)))
    as (c & _ & Hr & Hc); [lia|done|done|]. exists c. split; [exact Hr|]. split; [exact Hc|].
  destruct (queue_refines c (Queue [] false) 64 Hr ltac:(done)) as [H _].
  destruct (H (a_msg 1)) as (c' & E & Hr' & _). rewrite Hc in E, Hr'. by exists c'.
Defined.

(** ** What a full queue does to its reader *)

Fixpoint post_all (h : Z) (ms : list cmr_msg) : M cmr_msg_cxt (list Z) :=
  match ms with
  | [] => ret []
  | m :: ms => r <- cmr_msg_post h (Some m) ;; l <- post_all h ms ;; ret (r :: l)
  end.

(** A reader thread: it gets into the same variable again and again, and
    handles what is there. *)
Fixpoint consume (h : Z) (n : nat) (b : cmr_msg) : M cmr_msg_cxt (list cmr_msg) :=
  match n with
  | O => ret []
  | S n =>
      r <- cmr_msg_get h (Some b) ;;
      if negb (r.1 =? CMR_MSG_SUCCESS) then ret [] else
      let b := default b r.2 in
      l <- consume h n b ;;
      ret (b :: l)
  end.

Lemma post_all_fits h ms c q :
  represents c q -> h <> 0 -> zlen (items q) + zlen ms < msg_count c -> lost q = false ->
  exists c', post_all h ms c = Ret (replicate (length ms) CMR_MSG_SUCCESS) c' /\
    represents c' (Queue (items q ++ ms) false) /\ msg_count c' = msg_count c.
Proof.
  revert c q. induction ms as [|m ms IH]; intros c q Hr Hh Hl Hq.
  - exists c. rewrite app_nil_r. destruct q. cbn in Hq. subst. by split_and!.
  - rewrite zlen_cons in Hl. pose proof (zlen_nonneg ms). destruct (refine_post c q h m Hr Hh) as (c1 & E1 & Hr1 & Hc1).
    unfold spec_post, total in E1, Hr1. rewrite Hq in E1, Hr1. cbn [Z.b2z] in E1, Hr1.
    destruct (Z.geb_spec (zlen (items q) + 0) (msg_count c)) as [|_]; [lia|].
    rewrite (proj2 (Z.ltb_lt _ _)) in E1, Hr1 by lia.
    destruct (IH c1 _ Hr1 Hh) as (c' & E & Hr' & Hc'); cbn [items lost fst snd]; [|done|].
    { rewrite zlen_app, Hc1. unfold zlen at 2. cbn. lia. }
    exists c'. cbn [items snd] in Hr'. rewrite <- app_assoc in Hr'. split_and!; [|done|congruence].
    cbn [post_all]. erewrite bind_Ret by exact E1. by erewrite bind_Ret by exact E.
Qed.

Lemma consume_S h n b c x c1 :
  cmr_msg_get h (Some b) c = Ret (CMR_MSG_SUCCESS, Some x) c1 ->
  consume h (S n) b c = (l <- consume h n x ;; ret (x :: l)) c1.
Proof. intros E. cbn [consume]. by erewrite bind_Ret by exact E. Qed.

Lemma consume_items h l ls b c :
  represents c (Queue l ls) -> h <> 0 ->
  exists c', represents c' (Queue [] ls) /\ msg_count c' = msg_count c /\
    forall n, consume h (length l + n) b c
      = match consume h n (List.last l b) c' with
        | Ret k c2 => Ret (l ++ k) c2 | Exit c2 => Exit c2 | Bad f => Bad f end.
Proof.
  revert c b. induction l as [|x l IH]; intros c b Hr Hh.
  - exists c. split_and!; [done..|]. intros n. cbn. by destruct (consume h n b c).
  - pose proof (refine_get c _ h b Hr Hh) as (c1 & E1 & Hr1 & Hc1).
    destruct (IH c1 x Hr1 Hh) as (c' & Hr' & Hc' & H). exists c'. split_and!; [done|congruence|]. intros n.
    cbn [length Nat.add]. rewrite (consume_S _ _ _ _ _ _ E1). unfold bind, id. cbn [from_option]. rewrite H.
    assert (El : List.last (x :: l) b = List.last l x).
    { destruct l as [|y l]; [done|]. cbn. clear. revert y. induction l as [|z l IH]; intros y; [done|]. apply IH. }
    rewrite El. by destruct (consume h n (List.last l x) c').
Qed.

(** a burst that fills the queue. Of as many posts as the queue has
    places, every one reports success, but the last message is dropped; the
    get that its count lets through reports success too and leaves the
    reader's variable alone, so that the reader handles the last message it
    got a second time. *)
Theorem burst_repeats_last c h ms m b :
  represents c (Queue [] false) -> h <> 0 -> zlen ms + 1 = msg_count c ->
  exists c1 c2,
    post_all h (ms ++ [m]) c = Ret (replicate (length ms + 1) CMR_MSG_SUCCESS) c1 /\
    consume h (length ms + 1) b c1 = Ret (ms ++ [List.last ms b]) c2.
Proof.
  intros Hr Hh Hl. destruct (post_all_fits h ms c _ Hr Hh) as (c1 & E1 & Hr1 & Hc1); cbn [items lost] in *;
    [unfold zlen in *; cbn; lia|done|].
  destruct (refine_post c1 _ h m Hr1 Hh) as (c2 & E2 & Hr2 & Hc2).
  unfold spec_post, total in E2, Hr2. cbn [items lost Z.b2z app] in E2, Hr2.
  destruct (Z.geb_spec (zlen ms + 0) (msg_count c1)) as [|_]; [lia|].
  rewrite (proj2 (Z.ltb_ge _ _)) in E2, Hr2 by lia. cbn [fst snd] in E2, Hr2.
  destruct (consume_items h ms true b c2 Hr2 Hh) as (c3 & Hr3 & Hc3 & H).
  pose proof (refine_get c3 _ h (List.last ms b) Hr3 Hh) as (c4 & E4 & _). cbn [spec_get items lost default] in E4.
  exists c2, c4. split.
  - assert (Ha : forall ms c c1, post_all h ms c = Ret (replicate (length ms) CMR_MSG_SUCCESS) c1 ->
      forall c2, cmr_msg_post h (Some m) c1 = Ret CMR_MSG_SUCCESS c2 ->
      post_all h (ms ++ [m]) c = Ret (replicate (length ms + 1) CMR_MSG_SUCCESS) c2).
    { clear. induction ms as [|x ms IH]; intros c c1 E c2 E2; cbn [post_all app] in *.
      - injection E as <-. unfold bind, ret. by rewrite E2.
      - unfold bind in E. destruct (cmr_msg_post h (Some x) c) as [r c0| |] eqn:Ex; [|done..].
        destruct (post_all h ms c0) as [l c0'| |] eqn:El; [|done..]. injection E as -> -> <-.
        erewrite bind_Ret by exact Ex. by erewrite bind_Ret by by eapply IH. }
    by eapply Ha.
  - rewrite H. by rewrite (consume_S _ _ _ _ _ _ E4).
Qed.

Lemma burst_repeats_last_witness :
  exists c c1 c2, represents c (Queue [] false) /\ msg_count c = 3 /\
    post_all 64 [a_msg 1; a_msg 2; a_msg 3] c = Ret [CMR_MSG_SUCCESS; CMR_MSG_SUCCESS; CMR_MSG_SUCCESS] c1 /\
    consume 64 3 (a_msg 0) c1 = Ret [a_msg 1; a_msg 2; a_msg 2] c2.
Proof.
  destruct (create_represents (fun _ => Some (replicate 3 (a_msg 0))) 3 (replicate 3 (a_msg 0)))
    as (c & _ & Hr & Hc); [lia|done|done|]. exists c.
  destruct (burst_repeats_last c 64 [a_msg 1; a_msg 2] (a_msg 3) (a_msg 0) Hr ltac:(done)) as (c1 & c2 & H1 & H2);
    [by rewrite Hc|]. by exists c1, c2.
Defined.
