(* ===== verification/CmrThreads.v ===== *)
(** * Threads on the camera's message queue

    The operations of cmr_msg.c cut at the points where other threads can
    come in: the semaphore, the mutex, and the statements that change the
    write pointer, which cmr_msg_post reads before it takes the mutex. *)
From stdpp Require Import base list relations.
From Stdlib Require Import ZArith Lia.
From S2P Require Import Prelude CmrMsg.

(** ** Definitions *)

(** Where a thread is. *)
Inductive thread :=
  | Idle
  | Posting (message : cmr_msg) (ori_node : Z)   (* the write pointer is read, the mutex not taken *)
  | Wrapping (ori_node : Z)                      (* the message is stored *)
  | Restoring (ori_node : Z)
  | Counting
  | Signalling                                   (* the mutex is released, the semaphore not raised *)
  | Woken (peak : bool).                         (* past the semaphore, before the mutex *)

(** The process, with a record of the messages accepted and of those handed
    to readers, the codes the readers got, and whether a reader left with
    the mutex. *)
Record process := Process {
  cxt : cmr_msg_cxt;
  threads : list thread;
  posted : list cmr_msg;
  taken : list cmr_msg;
  codes : list Z;
  orphan : bool
}.

Inductive label :=
  | l_post (i : nat) (m : cmr_msg)
  | l_store (i : nat)
  | l_wrap (i : nat)
  | l_restore (i : nat)
  | l_count (i : nat)
  | l_signal (i : nat)
  | l_wait (i : nat)
  | l_trywait (i : nat)
  | l_section (i : nat).

Definition on_cxt {A} (m : M cmr_msg_cxt A) : M process A :=
  zoom cxt (fun c s => Process c (threads s) (posted s) (taken s) (codes s) (orphan s)) m.

Definition thread_of (i : nat) : M process thread :=
  ts <- gets threads ;;
  lift Blocked (ts !! i).

Definition goto (i : nat) (t : thread) : M process unit :=
  modify (fun s => Process (cxt s) (<[i := t]> (threads s)) (posted s) (taken s) (codes s) (orphan s)).

Definition log_posted (m : cmr_msg) : M process unit :=
  modify (fun s => Process (cxt s) (threads s) (posted s ++ [m]) (taken s) (codes s) (orphan s)).

(** A reader that got no message from a peak still holds the mutex. *)
Definition log_taken (peak : bool) (r : Z * option cmr_msg) : M process unit :=
  modify (fun s => Process (cxt s) (threads s) (posted s) (taken s ++ option_list r.2) (codes s ++ [r.1])
    (orphan s || (peak && negb (r.1 =? CMR_MSG_SUCCESS)))).

(** One step of thread [i], on a queue whose handle is good. [Blocked]: it
    cannot take that step now. *)
Definition act (l : label) : M process unit :=
  match l with
  | l_post i m =>
      t <- thread_of i ;;
      match t with
      | Idle => c <- gets cxt ;; goto i (Posting m (msg_write c))
      | _ => bad Blocked
      end
  | l_store i =>
      t <- thread_of i ;;
      match t with
      | Posting m ori_node =>
          on_cxt lock ;;;
          c <- gets cxt ;;
          if msg_number c >=? msg_count c then on_cxt unlock ;;; goto i Idle
          else on_cxt (post_store m) ;;; log_posted m ;;; goto i (Wrapping ori_node)
      | _ => bad Blocked
      end
  | l_wrap i =>
      t <- thread_of i ;;
      match t with
      | Wrapping ori_node => on_cxt post_wrap ;;; goto i (Restoring ori_node)
      | _ => bad Blocked
      end
  | l_restore i =>
      t <- thread_of i ;;
      match t with
      | Restoring ori_node => on_cxt (post_restore ori_node) ;;; goto i Counting
      | _ => bad Blocked
      end
  | l_count i =>
      t <- thread_of i ;;
      match t with
      | Counting => on_cxt (post_count ;;; unlock) ;;; goto i Signalling
      | _ => bad Blocked
      end
  | l_signal i =>
      t <- thread_of i ;;
      match t with
      | Signalling => on_cxt sem_post ;;; goto i Idle
      | _ => bad Blocked
      end
  | l_wait i =>
      t <- thread_of i ;;
      match t with
      | Idle => on_cxt sem_wait ;;; goto i (Woken false)
      | _ => bad Blocked
      end
  | l_trywait i =>
      t <- thread_of i ;;
      match t with
      | Idle => ok <- on_cxt sem_trywait ;; goto i (if ok then Woken true else Idle)
      | _ => bad Blocked
      end
  | l_section i =>
      t <- thread_of i ;;
      match t with
      | Woken peak =>
          r <- on_cxt (lock ;;; if peak then peak_locked else get_locked) ;;
          log_taken peak r ;;;
          goto i Idle
      | _ => bad Blocked
      end
  end.

Inductive step (s s' : process) : Prop :=
  | step_act l : act l s = Ret tt s' -> step s s'.

(** Steps in which only thread 0 posts. *)
Definition one_poster (l : label) : bool :=
  match l with l_post (S _) _ => false | _ => true end.

Inductive step1 (s s' : process) : Prop :=
  | step1_act l : one_poster l = true -> act l s = Ret tt s' -> step1 s s'.

(** A queue of [count] places and [n] threads. *)
Definition new_process (count : Z) (head : list cmr_msg) (n : nat) : process :=
  Process (MsgCxt false 0 count 0 CMR_MSG_MAGIC_CODE head 0 0) (replicate n Idle) [] [] [] false.

Fixpoint run (ls : list label) : M process unit :=
  match ls with
  | [] => ret tt
  | l :: ls => act l ;;; run ls
  end.

(** ** Two posters *)

(** two threads that post. The one that reads the write pointer between
    the other one's increment and wrap remembers an address behind the
    array; when its own message fills the queue it makes that the write
    pointer, and after a message is taken the next post stores outside the
    array. *)
Theorem two_posters_overflow :
  exists ls, run ls (new_process 3 (replicate 3 (a_msg 0)) 3) = Bad OutOfBounds.
Proof.
  exists ([l_post 0 (a_msg 1); l_store 0; l_wrap 0; l_restore 0; l_count 0; l_signal 0;
     l_post 0 (a_msg 2); l_store 0; l_wrap 0; l_restore 0; l_count 0; l_signal 0;
     l_wait 2; l_section 2;
     l_post 0 (a_msg 3); l_store 0; l_post 1 (a_msg 4); l_wrap 0; l_restore 0; l_count 0; l_signal 0;
     l_store 1; l_wrap 1; l_restore 1; l_count 1; l_signal 1;
     l_wait 2; l_section 2; l_post 0 (a_msg 5); l_store 0]).
  vm_compute. reflexivity.
Qed.

(** ** One poster, any number of readers *)

Definition is_woken (t : thread) : bool := match t with Woken _ => true | _ => false end.
Definition signalling (t : thread) : bool := match t with Signalling => true | _ => false end.
Definition in_section (t : thread) : bool :=
  match t with Wrapping _ | Restoring _ | Counting => true | _ => false end.
(** What a thread that does not post can be. *)
Definition reader (t : thread) : bool := match t with Idle | Woken _ => true | _ => false end.

Definition woken (ts : list thread) : Z := foldr (fun t n => Z.b2z (is_woken t) + n) 0 ts.

Lemma woken_insert ts i t t' :
  ts !! i = Some t -> woken (<[i := t']> ts) = woken ts - Z.b2z (is_woken t) + Z.b2z (is_woken t').
Proof.
  revert i. induction ts as [|t0 ts IH]; intros [|i] Hi; try done; cbn in Hi.
  - injection Hi as ->. cbn. lia.
  - change (Z.b2z (is_woken t0) + woken (<[i:=t']> ts)
      = Z.b2z (is_woken t0) + woken ts - Z.b2z (is_woken t) + Z.b2z (is_woken t')). rewrite (IH i Hi). lia.
Qed.

Lemma woken_nonneg ts : 0 <= woken ts.
Proof.
  induction ts as [|t ts IH]; [done|]. change (0 <= Z.b2z (is_woken t) + woken ts).
  destruct (is_woken t); cbn [Z.b2z]; lia.
Qed.

(** The context while the poster is at [t]: the queue before the message
    that is being stored, if one is. *)
Inductive phase (c : cmr_msg_cxt) (q : queue) : thread -> list cmr_msg -> Prop :=
  | ph_stable t : in_section t = false -> ring c (items q) -> msg_number c = total q ->
      (forall m ori, t = Posting m ori -> ori = msg_write c) -> phase c q t []
  | ph_wrapping c0 m : ring c0 (items q) -> msg_number c0 = total q -> total q < msg_count c0 ->
      c = stored m c0 -> phase c q (Wrapping (msg_write c0)) [m]
  | ph_restoring c0 m : ring c0 (items q) -> msg_number c0 = total q -> total q < msg_count c0 ->
      c = with_write (slot (msg_count c0) (msg_write c0 + 1)) (stored m c0) ->
      phase c q (Restoring (msg_write c0)) [m]
  | ph_counting : ring c (items q) -> msg_number c + 1 = total q -> phase c q Counting [].

Record inv (s : process) : Prop := Inv {
  iv_poster : exists t q pend, threads s !! 0%nat = Some t /\ phase (cxt s) q t pend /\
    total q <= msg_count (cxt s) /\
    mutex (cxt s) = in_section t || orphan s /\ (in_section t = true -> orphan s = false) /\
    msg_sem (cxt s) + woken (threads s) + Z.b2z (signalling t) + Z.b2z (orphan s) = msg_number (cxt s) /\
    (taken s ++ items q ++ pend) `sublist_of` posted s;
  iv_readers : forall i t, threads s !! S i = Some t -> reader t = true;
  iv_sem : 0 <= msg_sem (cxt s);
  iv_codes : CMR_MSG_UNDERFLOW ∉ codes s
}.

Lemma inv_start count head n :
  0 < count < 4294967296 -> zlen head = count -> inv (new_process count head (S n)).
Proof.
  intros Hc Hh. constructor.
  - exists Idle, (Queue [] false), []. split_and!; try done.
    + apply ph_stable; try done. constructor; cbn; try done; unfold zlen in *; cbn; try lia; [slot_lia|].
      intros k m [_ ?]%aget_Some. by rewrite lookup_nil in *.
    + cbn. unfold total, zlen. cbn. lia.
    + cbn [cxt new_process msg_sem threads replicate]. change (woken (Idle :: replicate n Idle)) with (woken (replicate n Idle)).
      enough (H : woken (replicate n Idle) = 0) by by rewrite H. clear. by induction n.
  - intros i t Hi. cbn in Hi. apply lookup_replicate in Hi as [-> _]. done.
  - done.
  - apply not_elem_of_nil.
Qed.

Definition waits (f : fault) : Prop := f = Blocked.

Lemma wp_run {S A} F (m : M S A) (Q : A -> S -> Prop) E s a s' : m s = Ret a s' -> Q a s' -> wp F m Q E s.
Proof. unfold wp. by intros ->. Qed.

Lemma wp_thread_of i Q E s :
  (forall t, threads s !! i = Some t -> Q t s) -> wp waits (thread_of i) Q E s.
Proof. intros H. unfold thread_of. wp_step. wp_step. apply wp_lift; [exact H|done]. Qed.

Lemma wp_goto i t (Q : unit -> process -> Prop) E s :
  Q tt (Process (cxt s) (<[i := t]> (threads s)) (posted s) (taken s) (codes s) (orphan s)) ->
  wp waits (goto i t) Q E s.
Proof. done. Qed.

Lemma wp_on_cxt {A} (m : M cmr_msg_cxt A) (Q : A -> process -> Prop) E s a c' :
  m (cxt s) = Ret a c' -> Q a (Process c' (threads s) (posted s) (taken s) (codes s) (orphan s)) ->
  wp waits (on_cxt m) Q E s.
Proof. intros Em HQ. apply wp_zoom. by eapply wp_run. Qed.

(** The lock either blocks or is free and taken. *)
Lemma wp_lock (Q : unit -> process -> Prop) E s :
  (mutex (cxt s) = false -> Q tt (Process (set_mutex true (cxt s)) (threads s) (posted s) (taken s) (codes s) (orphan s))) ->
  wp waits (on_cxt lock) Q E s.
Proof. intros HQ. unfold on_cxt, wp, zoom, lock, bind, gets. destruct (mutex (cxt s)); [done|by apply HQ]. Qed.

(** The thread at 0 is the poster; the others only read. *)
Lemma inv_role s i t : inv s -> threads s !! i = Some t -> i = 0%nat \/ (i <> 0%nat /\ reader t = true).
Proof. intros Hi Ht. destruct i; [by left|right]. split; [done|]. by eapply iv_readers. Qed.

Ltac at_thread H := apply wp_bind, wp_thread_of; intros t H; destruct t; try done.

Lemma readers_insert s i t :
  inv s -> (i = 0%nat \/ reader t = true) ->
  forall j u, <[i := t]> (threads s) !! S j = Some u -> reader u = true.
Proof.
  intros Hi Hr j u [(-> & <- & _)|[_ Hu] ]%list_lookup_insert_Some.
  - by destruct Hr.
  - by eapply iv_readers.
Qed.

Lemma lookup_insert_self (ts : list thread) i t u : ts !! i = Some t -> <[i := u]> ts !! i = Some u.
Proof. intros H. apply list_lookup_insert_eq. by eapply lookup_lt_Some. Qed.

Ltac count_lia Ht :=
  rewrite (woken_insert _ _ _ _ Ht); cbn [is_woken signalling Z.b2z msg_sem msg_number set_mutex set_sem stored with_write] in *; lia.

(** The poster's state, with what it says about the context. *)
Ltac poster Hi Ht :=
  destruct (iv_poster _ Hi) as (t & q & pend & Ht' & Hp & Htot & Hmu & Hor & Hsum & Hsub);
  rewrite Ht in Ht'; injection Ht' as <-; inversion Hp; subst; try done.

Ltac parts := constructor; cbn [cxt threads posted taken codes orphan].

Lemma inv_post i m s : inv s -> one_poster (l_post i m) = true -> wp waits (act (l_post i m)) (fun _ => inv) (fun _ => False) s.
Proof.
  intros Hi Hl. destruct i as [|i]; [|done]. unfold act. at_thread Ht. wp_step. wp_step. apply wp_goto.
  poster Hi Ht. parts.
  - exists (Posting m (msg_write (cxt s))), q, []. split_and!; try done.
    + by eapply lookup_insert_self.
    + apply ph_stable; try done. by intros ? ? [= -> ->].
    + count_lia Ht.
  - by apply (readers_insert s 0); [|left].
  - apply Hi.
  - apply Hi.
Qed.

Lemma ring_with_mutex b c l : ring c l -> ring (set_mutex b c) l.
Proof. intros []. by constructor. Qed.
Lemma ring_with_sem n c l : ring c l -> ring (set_sem n c) l.
Proof. intros []. by constructor. Qed.

Lemma total_lt q count : total q < count -> zlen (items q) < count.
Proof. unfold total. destruct (lost q); cbn; lia. Qed.

Lemma inv_store i s : inv s -> wp waits (act (l_store i)) (fun _ => inv) (fun _ => False) s.
Proof.
  intros Hi. unfold act. at_thread Ht.
  destruct (inv_role _ _ _ Hi Ht) as [->|[_ ?] ]; [|done]. poster Hi Ht.
  wp_step. apply wp_lock. intros Hm. wp_step. wp_step. cbn [cxt].
  rewrite Hm in Hmu. cbn in Hmu. symmetry in Hmu.
  assert (Hori : ori_node = msg_write (cxt s)) by eauto. subst ori_node.
  destruct (Z.geb_spec (msg_number (set_mutex true (cxt s))) (msg_count (set_mutex true (cxt s)))) as [Hf|Hf]; cbn in Hf.
  - wp_step. eapply wp_on_cxt; [reflexivity|]. apply wp_goto. parts; [|by apply (readers_insert s 0); [|left]|apply Hi|apply Hi].
    exists Idle, q, []. split_and!; [by eapply lookup_insert_self| |done|by rewrite Hmu|done|count_lia Ht|done].
    apply ph_stable; [done| |done|done]. by do 2 apply ring_with_mutex.
  - wp_step. eapply wp_on_cxt; [by eapply post_store_ring, ring_locked|]. wp_step. unfold log_posted. wp_step. apply wp_goto.
    parts; [|by apply (readers_insert s 0); [|left]|apply Hi|apply Hi].
    exists (Wrapping (msg_write (cxt s))), q, [message].
    split_and!; [by eapply lookup_insert_self| |done|by rewrite Hmu|done|count_lia Ht|].
    + apply (ph_wrapping _ _ (set_mutex true (cxt s))); [by apply ring_locked|done|cbn; lia|done].
    + rewrite app_assoc. apply sublist_app; [by rewrite app_nil_r in Hsub|done].
Qed.

Ltac poster_moves := parts; [|by apply (readers_insert _ 0); [|left]|assumption || (cbn; lia)|by eapply iv_codes].

(** The messages on their way: a step of the poster keeps them. *)
Lemma inv_wrap i s : inv s -> wp waits (act (l_wrap i)) (fun _ => inv) (fun _ => False) s.
Proof.
  intros Hi. unfold act. at_thread Ht. destruct (inv_role _ _ _ Hi Ht) as [->|[_ ?] ]; [|done]. poster Hi Ht.
  match goal with E : cxt s = stored m c0 |- _ => rename E into Ec end.
  wp_step. eapply wp_on_cxt; [rewrite Ec; by eapply post_wrap_stored|]. apply wp_goto.
  pose proof (iv_sem _ Hi) as Hsem. rewrite Ec in *. poster_moves.
  exists (Restoring (msg_write c0)), q, [m]. split_and!; [by eapply lookup_insert_self|by eapply ph_restoring|done|done|done| |done].
  count_lia Ht.
Qed.

Lemma inv_restore i s : inv s -> wp waits (act (l_restore i)) (fun _ => inv) (fun _ => False) s.
Proof.
  intros Hi. unfold act. at_thread Ht. destruct (inv_role _ _ _ Hi Ht) as [->|[_ ?] ]; [|done]. poster Hi Ht.
  match goal with E : cxt s = _ |- _ => rename E into Ec end.
  match goal with R : ring c0 _ |- _ => pose proof (rg_count _ _ R) as Hc; rename R into Hr end.
  pose proof (iv_sem _ Hi) as Hsem. wp_step. rewrite Ec in *. cbn [with_write stored msg_sem msg_count mutex] in *.
  destruct (Z.ltb_spec (zlen (items q) + 1) (msg_count c0)) as [Hl|Hl].
  - destruct (ring_put c0 (items q) m Hr Hl) as [Hr' Hne].
    eapply wp_on_cxt; [unfold post_restore, bind, get; cbn; rewrite Ec; cbn; by rewrite Hne|]. apply wp_goto. poster_moves.
    exists Counting, (Queue (items q ++ [m]) (lost q)), [].
    split_and!; [by eapply lookup_insert_self| | |done|done|count_lia Ht|by rewrite app_nil_r].
    + apply ph_counting; [done|]. unfold total in *. cbn [items lost]. rewrite zlen_app. change (zlen [m]) with 1. cbn. lia.
    + unfold total in *. cbn [items lost]. rewrite zlen_app. change (zlen [m]) with 1. cbn. lia.
  - destruct (ring_full c0 (items q) m Hr) as [Hr' Heq]; [lia|].
    eapply wp_on_cxt; [unfold post_restore, bind, get; cbn; rewrite Ec; cbn; by rewrite Heq|]. apply wp_goto. poster_moves.
    assert (lost q = false) as Hlost by (unfold total in *; destruct (lost q); cbn in *; [lia|done]).
    exists Counting, (Queue (items q) true), [].
    split_and!; [by eapply lookup_insert_self| | |done|done|count_lia Ht|].
    + apply ph_counting; [done|]. unfold total in *. rewrite Hlost in *. cbn in *. lia.
    + unfold total in *. rewrite Hlost in *. cbn in *. lia.
    + etrans; [|exact Hsub]. rewrite app_nil_r, app_assoc. apply sublist_inserts_r. done.
Qed.

Lemma inv_count i s : inv s -> wp waits (act (l_count i)) (fun _ => inv) (fun _ => False) s.
Proof.
  intros Hi. unfold act. at_thread Ht. destruct (inv_role _ _ _ Hi Ht) as [->|[_ ?] ]; [|done]. poster Hi Ht.
  pose proof (iv_sem _ Hi) as Hsem.
  match goal with R : ring (cxt s) _ |- _ => pose proof (rg_count _ _ R) as Hc; rename R into Hr end.
  assert (Hs : u32 (msg_number (cxt s) + 1) = msg_number (cxt s) + 1)
    by (apply u32_small; pose proof (queue_total_nonneg q); pose proof (woken_nonneg (threads s)); destruct (orphan s); cbn in Hsum; lia).
  wp_step. eapply wp_on_cxt; [reflexivity|]. apply wp_goto. cbn [cxt]. rewrite Hs.
  assert (Hor0 : orphan s = false) by by apply Hor.
  poster_moves. exists Signalling, q, []. cbn [mutex set_mutex in_section orb].
  split_and!; [by eapply lookup_insert_self| |done|done|done|count_lia Ht|done].
  apply ph_stable; [done|by destruct Hr; constructor|cbn; lia|done].
Qed.

Lemma phase_sem n c q t pend : phase c q t pend -> phase (set_sem n c) q t pend.
Proof.
  intros [t0 ????|c0 m ????|c0 m ????|??].
  - apply ph_stable; [done|by apply ring_with_sem|done|done].
  - apply (ph_wrapping _ _ (set_sem n c0)); [by apply ring_with_sem|done..|by subst].
  - apply (ph_restoring _ _ (set_sem n c0)); [by apply ring_with_sem|done..|by subst].
  - apply ph_counting; [by apply ring_with_sem|done].
Qed.

Lemma inv_signal i s : inv s -> wp waits (act (l_signal i)) (fun _ => inv) (fun _ => False) s.
Proof.
  intros Hi. unfold act. at_thread Ht. destruct (inv_role _ _ _ Hi Ht) as [->|[_ ?] ]; [|done]. poster Hi Ht.
  pose proof (iv_sem _ Hi) as Hsem. wp_step. eapply wp_on_cxt; [reflexivity|]. apply wp_goto. poster_moves.
  exists Idle, q, []. split_and!; [by eapply lookup_insert_self| |done|done|done|count_lia Ht|done].
  apply phase_sem. by apply ph_stable.
Qed.

(** A thread outside the operations of a poster moves. *)
Lemma inv_poster_moves s i t t' :
  inv s -> threads s !! i = Some t -> reader t = true -> reader t' = true ->
  exists u q pend, <[i := t']> (threads s) !! 0%nat = Some u /\ phase (cxt s) q u pend /\
    total q <= msg_count (cxt s) /\
    mutex (cxt s) = in_section u || orphan s /\ (in_section u = true -> orphan s = false) /\
    msg_sem (cxt s) + woken (<[i := t']> (threads s)) - Z.b2z (is_woken t') + Z.b2z (is_woken t)
      + Z.b2z (signalling u) + Z.b2z (orphan s) = msg_number (cxt s) /\
    (taken s ++ items q ++ pend) `sublist_of` posted s.
Proof.
  intros Hi Ht Hr Hr'. destruct (iv_poster _ Hi) as (u & q & pend & Hu & Hp & Htot & Hmu & Hor & Hsum & Hsub).
  rewrite (woken_insert _ _ _ _ Ht). destruct i as [|i].
  - rewrite Ht in Hu. injection Hu as <-. exists t', q, pend.
    assert (Hq : forall t, reader t = true -> in_section t = false /\ signalling t = false) by by intros [].
    destruct (Hq _ Hr) as [E1 E2], (Hq _ Hr') as [E1' E2']. rewrite E1, E2 in *. rewrite E1', E2' in *.
    split_and!; [by eapply lookup_insert_self| |done|done|done|lia|done].
    inversion Hp; subst; try done. apply ph_stable; try done. by intros ?? ->.
  - exists u, q, pend. split_and!; [by rewrite list_lookup_insert_ne|done|done|done|done|lia|done].
Qed.

Lemma readers_move s i t t' :
  inv s -> threads s !! i = Some t -> reader t' = true ->
  forall j u, <[i := t']> (threads s) !! S j = Some u -> reader u = true.
Proof. intros Hi _ Hr. apply readers_insert; [done|by right]. Qed.

Lemma inv_wait_gen s i peak n :
  inv s -> threads s !! i = Some Idle -> 0 <= n -> n + 1 = msg_sem (cxt s) ->
  inv (Process (set_sem n (cxt s)) (<[i := Woken peak]> (threads s)) (posted s) (taken s) (codes s) (orphan s)).
Proof.
  intros Hi Ht Hn Hs. parts; [|by eapply readers_move|done|apply Hi].
  destruct (inv_poster_moves s i Idle (Woken peak)) as (u & q & pend & Hu & Hp & Htot & Hmu & Hor & Hsum & Hsub); try done.
  exists u, q, pend. split_and!; [done|by apply phase_sem|done|done|done| |done].
  cbn [set_sem msg_sem msg_number is_woken Z.b2z] in *. lia.
Qed.

Lemma inv_wait i s : inv s -> wp waits (act (l_wait i)) (fun _ => inv) (fun _ => False) s.
Proof.
  intros Hi. unfold act. at_thread Ht. wp_step. apply wp_zoom. unfold sem_wait. wp_step. wp_step.
  destruct (Z.gtb_spec (msg_sem (cxt s)) 0) as [Hs|Hs]; [|done]. wp_step. apply wp_goto.
  cbn [cxt threads posted taken codes orphan]. apply inv_wait_gen; [done|done|lia..].
Qed.

Lemma inv_trywait i s : inv s -> wp waits (act (l_trywait i)) (fun _ => inv) (fun _ => False) s.
Proof.
  intros Hi. unfold act. at_thread Ht. wp_step. apply wp_zoom. unfold sem_trywait. wp_step. wp_step.
  destruct (Z.gtb_spec (msg_sem (cxt s)) 0) as [Hs|Hs].
  - wp_step. wp_step. wp_step. apply wp_goto.
    cbn [cxt threads posted taken codes orphan]. apply inv_wait_gen; [done|done|lia..].
  - wp_step. apply wp_goto. cbn [cxt threads posted taken codes orphan].
    rewrite list_insert_id by done. by destruct s, Hi.
Qed.

Lemma woken_at ts i t : ts !! i = Some t -> Z.b2z (is_woken t) <= woken ts.
Proof. intros H. pose proof (woken_insert ts i t Idle H). pose proof (woken_nonneg (<[i:=Idle]> ts)). cbn in *. lia. Qed.

(** What a reader does to the queue. *)
Lemma section_run c q (peak : bool) :
  ring c (items q) -> msg_number c = total q -> 0 < total q <= msg_count c -> mutex c = false ->
  (exists x l c', items q = x :: l /\
     (lock ;;; if peak then peak_locked else get_locked) c = Ret (CMR_MSG_SUCCESS, Some x) c' /\
     ring c' l /\ msg_number c' = msg_number c - 1 /\ mutex c' = false /\ msg_count c' = msg_count c /\
     msg_sem c' = msg_sem c /\ msg_write c' = msg_write c) \/
  (items q = [] /\ lost q = true /\ peak = false /\ exists c',
     (lock ;;; if peak then peak_locked else get_locked) c = Ret (CMR_MSG_SUCCESS, None) c' /\
     ring c' [] /\ msg_number c' = 0 /\ mutex c' = false /\ msg_count c' = msg_count c /\
     msg_sem c' = msg_sem c /\ msg_write c' = msg_write c) \/
  (items q = [] /\ lost q = true /\ peak = true /\
     (lock ;;; if peak then peak_locked else get_locked) c = Ret (- CMR_MSG_NO_OTHER_MSG, None) (set_mutex true c)).
Proof.
  intros Hr Hn Ht Hm. pose proof (rg_count _ _ Hr) as Hc. pose proof (ring_locked c _ Hr) as Hr1.
  erewrite bind_Ret by by apply lock_run. cbv beta.
  assert (Hn1 : 0 < msg_number (set_mutex true c) < 4294967296) by (cbn; lia).
  destruct (get_locked_ring _ _ Hr1 Hn1) as (c' & E & Hr' & Hn' & Hm' & Hc' & _ & Hs' & Hw').
  pose proof (peak_locked_ring _ _ Hr1 Hn1) as Hp. cbn in Hn', Hc', Hs', Hw'.
  assert (Hlost : items q = [] -> lost q = true /\ total q = 1).
  { unfold total in *. intros E0. rewrite E0 in *. destruct (lost q); [done|]. unfold zlen in Ht; cbn in Ht. lia. }
  destruct (items q) as [|x l]; [right|left].
  - destruct (Hlost eq_refl) as [Hl H1]. destruct peak; [by right|left].
    split_and!; [done..|]. exists c'. by split_and!; try lia.
  - exists x, l, c'. split; [done|]. split; [|by split_and!]. destruct peak; [by rewrite Hp|done].
Qed.

Lemma inv_section i s : inv s -> wp waits (act (l_section i)) (fun _ => inv) (fun _ => False) s.
Proof.
  intros Hi. unfold act. at_thread Ht. wp_step. apply wp_zoom.
  destruct (inv_poster_moves s i (Woken peak) Idle) as (u & q & pend & Hu & Hp & Htot & Hmu & Hor & Hsum & Hsub); try done.
  pose proof (iv_sem _ Hi) as Hsem. pose proof (iv_codes _ Hi) as Hcodes.
  pose proof (woken_nonneg (<[i:=Idle]> (threads s))) as Hwo.
  destruct (mutex (cxt s)) eqn:Hm; [by unfold wp, lock, bind, gets; rewrite Hm|].
  symmetry in Hmu. apply orb_false_iff in Hmu as [Hin Horph]. rewrite Horph in *.
  inversion Hp as [t0 _ Hr Hn Hori| | |]; subst; try done.
  assert (Hpos : 0 < total q <= msg_count (cxt s)).
  { cbn [is_woken Z.b2z] in Hsum. destruct (signalling u); cbn in Hsum; lia. }
  destruct (section_run (cxt s) q peak Hr Hn Hpos Hm)
    as [(x & l & c' & El & E & Hr' & Hn' & Hm' & Hc' & Hs' & Hw')
       |[(El & Hl & -> & c' & E & Hr' & Hn' & Hm' & Hc' & Hs' & Hw')|(El & Hl & -> & E)] ];
    unfold wp; rewrite E; cbn [bind log_taken modify goto cxt threads posted taken codes orphan fst snd option_list].
  all: unfold total in *; rewrite El in *; rewrite ?zlen_cons in *.
  - parts; [|by eapply readers_move|by rewrite Hs'|rewrite not_elem_of_app; split; [done|by rewrite list_elem_of_singleton] ].
    exists u, (Queue l (lost q)), []. unfold total. cbn [items lost].
    replace (false || (peak && negb (CMR_MSG_SUCCESS =? CMR_MSG_SUCCESS))) with false by (by destruct peak).
    split_and!; [done|apply ph_stable; [done|done|unfold total; cbn; lia|intros m ori Eu; rewrite Hw'; by eapply Hori]
      |lia|by rewrite Hm', Hin|done|cbn in *; lia|by rewrite <- app_assoc].
  - parts; [|by eapply readers_move|by rewrite Hs'|rewrite not_elem_of_app; split; [done|by rewrite list_elem_of_singleton] ].
    exists u, (Queue [] false), []. unfold total, zlen in *. rewrite Hl in *. cbn [items lost andb orb].
    split_and!; [done|apply ph_stable; [done|done|unfold total, zlen; cbn; lia|intros m ori Eu; rewrite Hw'; by eapply Hori]
      |cbn; lia|by rewrite Hm', Hin|done|cbn in *; lia|by rewrite app_nil_r].
  - parts; [|by eapply readers_move|done|rewrite not_elem_of_app; split; [done|by rewrite list_elem_of_singleton] ].
    exists u, q, []. unfold total, zlen in *. rewrite Hl, El in *. change (- CMR_MSG_NO_OTHER_MSG =? CMR_MSG_SUCCESS) with false. cbn [andb orb negb].
    split_and!; [done|apply ph_stable; [done|rewrite El; by apply ring_locked|unfold total, zlen; rewrite Hl, El; cbn in *; lia|done]
      |cbn in *; lia|by rewrite Hin|by rewrite Hin|cbn in *; lia|by rewrite app_nil_r].
Qed.

Lemma inv_act l s : inv s -> one_poster l = true -> wp waits (act l) (fun _ => inv) (fun _ => False) s.
Proof.
  intros Hi Hl. destruct l; [by apply inv_post|by apply inv_store|by apply inv_wrap|by apply inv_restore
    |by apply inv_count|by apply inv_signal|by apply inv_wait|by apply inv_trywait|by apply inv_section].
Qed.

Lemma inv_reachable s s' : inv s -> rtc step1 s s' -> inv s'.
Proof.
  intros Hi. induction 1 as [|s s1 s' [l Hl E] _ IH]; [done|]. apply IH.
  pose proof (inv_act l s Hi Hl) as H. unfold wp in H. by rewrite E in H.
Qed.

Lemma inv_number s : inv s -> 0 <= msg_number (cxt s) <= msg_count (cxt s).
Proof.
  intros Hi. destruct (iv_poster _ Hi) as (t & q & pend & _ & Hp & Htot & _ & _ & Hsum & _).
  pose proof (iv_sem _ Hi). pose proof (woken_nonneg (threads s)). split.
  - destruct (signalling t), (orphan s); cbn [Z.b2z] in Hsum; lia.
  - inversion Hp as [| ? ? ? ? ? E| ? ? ? ? ? E|]; subst; try rewrite E in *; cbn in *; lia.
Qed.

(** C34: one thread posts and any number of others get and peak, their steps
    interleaved in every way the semaphore and the mutex allow. Whatever
    they do, what the readers were given is in the order of the posts, with
    no message twice; no get reports an underflow; the count stays between 0
    and the number of places; and no step accesses memory outside the array:
    a thread that cannot go on is one that waits. *)
Theorem one_poster_safe count head n s :
  0 < count < 4294967296 -> zlen head = count ->
  rtc step1 (new_process count head (S n)) s ->
  taken s `sublist_of` posted s /\
  (CMR_MSG_UNDERFLOW ∉ codes s) /\
  0 <= msg_number (cxt s) <= msg_count (cxt s) /\
  (forall l, one_poster l = true -> act l s = Bad Blocked \/ exists s', act l s = Ret tt s').
Proof.
  intros Hc Hh Hs. assert (Hi : inv s) by (eapply inv_reachable; [by apply inv_start|done]).
  split_and!.
  - destruct (iv_poster _ Hi) as (t & q & pend & _ & _ & _ & _ & _ & _ & Hsub).
    etrans; [|exact Hsub]. by apply sublist_inserts_r.
  - apply Hi.
  - by apply inv_number.
  - by apply inv_number.
  - intros l Hl. pose proof (inv_act l s Hi Hl) as H. unfold wp in H.
    destruct (act l s) as [[] s'|s'|f]; [right; by exists s'|done|left; by rewrite H].
Qed.

Lemma run_steps ls s s' : Forall (fun l => one_poster l = true) ls -> run ls s = Ret tt s' -> rtc step1 s s'.
Proof.
  revert s. induction ls as [|l ls IH]; intros s Hl E; cbn [run] in E.
  - injection E as <-. done.
  - apply Forall_cons in Hl as [Hl Hls]. unfold bind in E. destruct (act l s) as [[] s1| |] eqn:E1; [|done..].
    eapply rtc_l; [by econstructor|by apply IH].
Qed.

Lemma run_any ls s s' : run ls s = Ret tt s' -> rtc step s s'.
Proof.
  revert s. induction ls as [|l ls IH]; intros s E; cbn [run] in E.
  - injection E as <-. done.
  - unfold bind in E. destruct (act l s) as [[] s1| |] eqn:E1; [|done..].
    eapply rtc_l; [by econstructor|by apply IH].
Qed.

(** Two posts, a get that comes between the steps of the second. *)
Definition some_steps : list label :=
  [l_post 0 (a_msg 1); l_store 0; l_wrap 0; l_restore 0; l_count 0; l_signal 0;
   l_post 0 (a_msg 2); l_wait 1; l_store 0; l_wrap 0; l_restore 0; l_count 0; l_section 1].

Lemma one_poster_safe_witness :
  exists s, run some_steps (new_process 4 (replicate 4 (a_msg 0)) 2) = Ret tt s /\
    taken s = [a_msg 1] /\ taken s `sublist_of` posted s.
Proof.
  eexists. split; [vm_compute; reflexivity|]. split; [done|].
  eapply (one_poster_safe 4 (replicate 4 (a_msg 0)) 1); [done|done|].
  eapply (run_steps some_steps); [by repeat constructor|vm_compute; reflexivity].
Defined.

(** ** The mutex *)

(** The mutex is held and no thread is in the part that releases it. *)
Definition abandoned (s : process) : Prop :=
  mutex (cxt s) = true /\ Forall (fun t => in_section t = false) (threads s).

(** What can be seen of the queue. *)
Definition contents (s : process) : list cmr_msg * list cmr_msg * list Z * Z :=
  (posted s, taken s, codes s, msg_number (cxt s)).

Lemma abandoned_goto s i t n :
  abandoned s -> in_section t = false ->
  let s' := Process (set_sem n (cxt s)) (<[i := t]> (threads s)) (posted s) (taken s) (codes s) (orphan s) in
  abandoned s' /\ contents s' = contents s.
Proof. intros [Hm Hts] Ht. split; [|done]. split; [done|by apply Forall_insert]. Qed.

Lemma abandoned_moves s i t :
  abandoned s -> in_section t = false ->
  let s' := Process (cxt s) (<[i := t]> (threads s)) (posted s) (taken s) (codes s) (orphan s) in
  abandoned s' /\ contents s' = contents s.
Proof. intros [Hm Hts] Ht. split; [|done]. split; [done|by apply Forall_insert]. Qed.

Lemma abandoned_act l s :
  abandoned s -> wp waits (act l) (fun _ s' => abandoned s' /\ contents s' = contents s) (fun _ => False) s.
Proof.
  intros Ha. pose proof Ha as [Hm Hts].
  assert (Hin : forall i t, threads s !! i = Some t -> in_section t = false)
    by (intros i t Ht; by eapply (Forall_lookup_1 _ _ _ _ Hts)).
  destruct l as [i m|i|i|i|i|i|i|i|i]; unfold act; at_thread Ht; try by apply Hin in Ht.
  - wp_step. wp_step. apply wp_goto. by apply abandoned_moves.
  - wp_step. apply wp_lock. by rewrite Hm.
  - wp_step. eapply wp_on_cxt; [reflexivity|]. apply wp_goto. cbn [cxt threads posted taken codes orphan]. by apply (abandoned_goto s).
  - wp_step. apply wp_zoom. unfold sem_wait. wp_step. wp_step. destruct (_ >? 0); [|done].
    wp_step. apply wp_goto. cbn [cxt threads posted taken codes orphan]. by apply (abandoned_goto s).
  - wp_step. apply wp_zoom. unfold sem_trywait. wp_step. wp_step. destruct (_ >? 0); repeat wp_step; apply wp_goto.
    + cbn [cxt threads posted taken codes orphan]. by apply (abandoned_goto s).
    + by apply (abandoned_moves s).
  - wp_step. apply wp_zoom. wp_step. unfold lock. wp_step. wp_step. by rewrite Hm.
Qed.

(** a mutex that was left held stays held: whatever threads run, no
    message is ever put in the queue or taken out of it again. A peak that
    meets a dropped message leaves it so. *)
Theorem abandoned_forever s s' :
  abandoned s -> rtc step s s' -> abandoned s' /\ contents s' = contents s.
Proof.
  intros Ha. induction 1 as [s|s s1 s' [l E] _ IH]; [done|].
  pose proof (abandoned_act l s Ha) as H. unfold wp in H. rewrite E in H. destruct H as [H1 H2].
  rewrite <- H2. by apply IH.
Qed.

(** A queue of one place: the message is dropped at once. *)
Lemma abandoned_forever_witness :
  exists s, run [l_post 0 (a_msg 1); l_store 0; l_wrap 0; l_restore 0; l_count 0; l_signal 0; l_trywait 1; l_section 1]
      (new_process 1 [a_msg 0] 2) = Ret tt s /\
    threads s = [Idle; Idle] /\ forall s', rtc step s s' -> mutex (cxt s') = true /\ taken s' = [].
Proof.
  eexists. split; [vm_compute; reflexivity|]. split; [done|]. intros s' H.
  eapply abandoned_forever in H as [ [Hm _] Hc]; [|split; [done|by repeat constructor] ].
  split; [exact Hm|]. by injection Hc.
Defined.

Lemma run_app ls ks s s1 : run ls s = Ret tt s1 -> run (ls ++ ks) s = run ks s1.
Proof.
  revert s. induction ls as [|l ls IH]; intros s E; cbn [run app] in *; [by injection E as ->|].
  unfold bind in *. destruct (act l s) as [[] s2| |]; [by apply IH|done..].
Qed.

(** The steps of a poster that holds the mutex. *)
Lemma act_wrap s i o :
  threads s !! i = Some (Wrapping o) -> exists s', act (l_wrap i) s = Ret tt s' /\ threads s' !! i = Some (Restoring o).
Proof.
  intros Ht. unfold act, thread_of, bind, gets, lift. rewrite Ht. unfold on_cxt, zoom, post_wrap, bind, get.
  destruct (msg_write (cxt s) >? msg_count (cxt s) - 1); eexists; (split; [reflexivity|by eapply lookup_insert_self]).
Qed.
Lemma act_restore s i o :
  threads s !! i = Some (Restoring o) -> exists s', act (l_restore i) s = Ret tt s' /\ threads s' !! i = Some Counting.
Proof.
  intros Ht. unfold act, thread_of, bind, gets, lift. rewrite Ht. unfold on_cxt, zoom, post_restore, bind, get.
  destruct (msg_write (cxt s) =? msg_read (cxt s)); eexists; (split; [reflexivity|by eapply lookup_insert_self]).
Qed.
Lemma act_count s i :
  threads s !! i = Some Counting -> exists s', act (l_count i) s = Ret tt s' /\ mutex (cxt s') = false.
Proof. intros Ht. unfold act, thread_of, bind, gets, lift. rewrite Ht. by eexists. Qed.

Lemma section_releases s i t :
  threads s !! i = Some t -> in_section t = true ->
  exists ls s', (length ls <= 3)%nat /\ run ls s = Ret tt s' /\ mutex (cxt s') = false.
Proof.
  assert (H3 : forall s, threads s !! i = Some Counting -> exists s', run [l_count i] s = Ret tt s' /\ mutex (cxt s') = false).
  { intros s0 Ht. destruct (act_count s0 i Ht) as (s1 & E & Hm). exists s1. cbn [run]. by erewrite bind_Ret by exact E. }
  assert (H2 : forall s o, threads s !! i = Some (Restoring o) ->
    exists s', run [l_restore i; l_count i] s = Ret tt s' /\ mutex (cxt s') = false).
  { intros s0 o Ht. destruct (act_restore s0 i o Ht) as (s1 & E & Ht1). destruct (H3 _ Ht1) as (s' & E' & Hm).
    exists s'. cbn [run]. by erewrite bind_Ret by exact E. }
  intros Ht Hin. destruct t; try done.
  - destruct (act_wrap s i _ Ht) as (s1 & E & Ht1). destruct (H2 _ _ Ht1) as (s' & E' & Hm).
    exists [l_wrap i; l_restore i; l_count i], s'. split; [cbn; lia|]. split; [|done]. cbn [run]. by erewrite bind_Ret by exact E.
  - destruct (H2 _ _ Ht) as (s' & E' & Hm). exists [l_restore i; l_count i], s'. split; [cbn; lia|done].
  - destruct (H3 _ Ht) as (s' & E' & Hm). exists [l_count i], s'. split; [cbn; lia|done].
Qed.

(** C35: unless a peak has left with it, the mutex is never lost: from every
    state that one poster and any number of readers reach, at most three
    steps lead to one in which it is free. *)
Theorem mutex_released count head n s :
  0 < count < 4294967296 -> zlen head = count ->
  rtc step1 (new_process count head (S n)) s -> orphan s = false ->
  exists ls s', (length ls <= 3)%nat /\ run ls s = Ret tt s' /\ mutex (cxt s') = false.
Proof.
  intros Hc Hh Hs Ho. assert (Hi : inv s) by (eapply inv_reachable; [by apply inv_start|done]).
  destruct (iv_poster _ Hi) as (t & q & pend & Ht & _ & _ & Hmu & _). rewrite Ho, orb_false_r in Hmu.
  destruct (in_section t) eqn:Hin; [by eapply section_releases|]. exists [], s. split; [cbn; lia|done].
Qed.

Lemma mutex_released_witness :
  exists s, run [l_post 0 (a_msg 1); l_store 0] (new_process 4 (replicate 4 (a_msg 0)) 2) = Ret tt s /\
    mutex (cxt s) = true /\
    exists ls s', (length ls <= 3)%nat /\ run ls s = Ret tt s' /\ mutex (cxt s') = false.
Proof.
  eexists. split; [vm_compute; reflexivity|]. split; [done|].
  eapply (mutex_released 4 (replicate 4 (a_msg 0)) 1); [done|done| |done].
  eapply (run_steps [l_post 0 (a_msg 1); l_store 0]); [by repeat constructor|vm_compute; reflexivity].
Defined.
