(* ===== verification/ExifTypes.v ===== *)
(** * The data of the EXIF writer

    src/common/libs/libcamera/sc8825/inc/jpeg_exif_header.h and
    src/common/libs/libcamera/jpeg_fw_8825/inc/jpeg_exif_type.h. A member with
    a bit in the [valid] member of its struct is an option, a pointer to a
    struct that may be NULL too. Where the writer does not look at the bit
    that belongs to a member, the bit is a member of its own. *)
From stdpp Require Import base list vector.
From Stdlib Require Import ZArith.
From S2P Require Import Prelude.

(** ** Types and tags *)

Definition EXIF_BYTE : Z := 1.
Definition EXIF_ASCII : Z := 2.
Definition EXIF_SHORT : Z := 3.
Definition EXIF_LONG : Z := 4.
Definition EXIF_RATIONAL : Z := 5.
Definition EXIF_UNDEFINED : Z := 7.
Definition EXIF_SLONG : Z := 9.
Definition EXIF_SRATIONAL : Z := 10.

Definition IFD_GPSVERSIONID : Z := 0x00.
Definition IFD_GPSLATITUDEREF : Z := 0x01.
Definition IFD_GPSLATITUDE : Z := 0x02.
Definition IFD_GPSLONGITUDEREF : Z := 0x03.
Definition IFD_GPSLONGITUDE : Z := 0x04.
Definition IFD_GPSALTITUDEREF : Z := 0x05.
Definition IFD_GPSALTITUDE : Z := 0x06.
Definition IFD_GPSTIMESTAMP : Z := 0x07.
Definition IFD_GPSSATELLITES : Z := 0x08.
Definition IFD_GPSSTATUS : Z := 0x09.
Definition IFD_GPSMEASUREMODE : Z := 0x0a.
Definition IFD_GPSDOP : Z := 0x0b.
Definition IFD_GPSSPEEDREF : Z := 0x0c.
Definition IFD_GPSSPEED : Z := 0x0d.
Definition IFD_GPSTRACKREF : Z := 0x0e.
Definition IFD_GPSTRACK : Z := 0x0f.
Definition IFD_GPSIMGDIRECTIONREF : Z := 0x10.
Definition IFD_GPSIMGDIRECTION : Z := 0x11.
Definition IFD_GPSMAPDATUM : Z := 0x12.
Definition IFD_GPSDESTLATITUDEREF : Z := 0x13.
Definition IFD_GPSDESTLATITUDE : Z := 0x14.
Definition IFD_GPSDESTLONGITUDEREF : Z := 0x15.
Definition IFD_GPSDESTLONGITUDE : Z := 0x16.
Definition IFD_GPSDESTBEARINGREF : Z := 0x17.
Definition IFD_GPSDESTBEARING : Z := 0x18.
Definition IFD_GPSDESTDISTANCEREF : Z := 0x19.
Definition IFD_GPSDESTDISTANCE : Z := 0x1a.
Definition IFD_GPSPROCESSINGMETHOD : Z := 0x1b.
Definition IFD_GPSAREAINFORMATION : Z := 0x1c.
Definition IFD_GPSDATESTAMP : Z := 0x1d.
Definition IFD_GPSDIFFERENTIAL : Z := 0x1e.
Definition IFD_IMAGEWIDTH : Z := 0x100.
Definition IFD_IMAGELENGTH : Z := 0x101.
Definition IFD_COMPRESSION : Z := 0x103.
Definition IFD_IMAGEDESCRIPTION : Z := 0x10e.
Definition IFD_MAKE : Z := 0x10f.
Definition IFD_MODEL : Z := 0x110.
Definition IFD_ORIENTATION : Z := 0x112.
Definition IFD_XRESOLUTION : Z := 0x11a.
Definition IFD_YRESOLUTION : Z := 0x11b.
Definition IFD_RESOLUTIONUNIT : Z := 0x128.
Definition IFD_TRANSFERFUNCTION : Z := 0x12d.
Definition IFD_SOFTWARE : Z := 0x131.
Definition IFD_DATETIME : Z := 0x132.
Definition IFD_ARTIST : Z := 0x13b.
Definition IFD_WHITEPOINT : Z := 0x13e.
Definition IFD_PRIMARYCHROMATICITIES : Z := 0x13f.
Definition IFD_JPEGINTERCHANGEFORMAT : Z := 0x201.
Definition IFD_JPEGINTERCHANGEFORMATLENGTH : Z := 0x202.
Definition IFD_YCBCRCOEFFICIENTS : Z := 0x211.
Definition IFD_YCBCRPOSITION : Z := 0x213.
Definition IFD_REFERENCEBLACKWHITE : Z := 0x214.
Definition IFD_COPYRIGHT : Z := 0x8298.
Definition IFD_EXIFIFDPOINTER : Z := 0x8769.
Definition IFD_GPSIFDPOINTER : Z := 0x8825.
Definition IFD_EXPOSURETIME : Z := 0x829a.
Definition IFD_FNUMBER : Z := 0x829d.
Definition IFD_EXPOSUREPROGRAM : Z := 0x8822.
Definition IFD_SPECTRALSENSITIVITY : Z := 0x8824.
Definition IFD_ISOSPEEDRATINGS : Z := 0x8827.
Definition IFD_OECF : Z := 0x8828.
Definition IFD_EXIFVERSION : Z := 0x9000.
Definition IFD_DATETIMEORIGINAL : Z := 0x9003.
Definition IFD_DATETIMEDIGITILIZED : Z := 0x9004.
Definition IFD_COMPONENTSCONFIGURATION : Z := 0x9101.
Definition IFD_COMPRESSEDBITSPERPIXEL : Z := 0x9102.
Definition IFD_SHUTTERSPEEDVALUE : Z := 0x9201.
Definition IFD_APERTUREVALUE : Z := 0x9202.
Definition IFD_BRIGHTNESSVALUE : Z := 0x9203.
Definition IFD_EXPOSUREBIASVALUE : Z := 0x9204.
Definition IFD_MAXAPERTUREVALUE : Z := 0x9205.
Definition IFD_SUBJECTDISTANCE : Z := 0x9206.
Definition IFD_METERINGMODE : Z := 0x9207.
Definition IFD_LIGHTSOURCE : Z := 0x9208.
Definition IFD_FLASH : Z := 0x9209.
Definition IFD_FOCALLENGTH : Z := 0x920a.
Definition IFD_SUBJECTAREA : Z := 0x9214.
Definition IFD_MAKERNOTE : Z := 0x927c.
Definition IFD_USERCOMMENT : Z := 0x9286.
Definition IFD_SUBSECTIME : Z := 0x9290.
Definition IFD_SUBSECTIMEORIGINAL : Z := 0x9291.
Definition IFD_SUBSECTIMEDIGITILIZED : Z := 0x9292.
Definition IFD_FLASHPIXVERSION : Z := 0xa000.
Definition IFD_COLORSPACE : Z := 0xa001.
Definition IFD_PIXELXDIMENSION : Z := 0xa002.
Definition IFD_PIXELYDIMENSION : Z := 0xa003.
Definition IFD_RELATEDSOUNDFILE : Z := 0xa004.
Definition IFD_INTEROPERABILITYIFDPOINTER : Z := 0xa005.
Definition IFD_FLASHENERGY : Z := 0xa20b.
Definition IFD_SPATIALFREQUENCYRESPONSE : Z := 0xa20c.
Definition IFD_FOCALPLANEXRESOLUTION : Z := 0xa20e.
Definition IFD_FOCALPLANEYRESOLUTION : Z := 0xa20f.
Definition IFD_FOCALPLANERESOLUTIONUNIT : Z := 0xa210.
Definition IFD_SUBJECTLOCATION : Z := 0xa214.
Definition IFD_EXPOSUREINDEX : Z := 0xa215.
Definition IFD_SENSINGMETHOD : Z := 0xa217.
Definition IFD_FILESOURCE : Z := 0xa300.
Definition IFD_SCENETYPE : Z := 0xa301.
Definition IFD_CFAPATTERN : Z := 0xa302.
Definition IFD_CUSTOMRENDERED : Z := 0xa401.
Definition IFD_EXPOSUREMODE : Z := 0xa402.
Definition IFD_WHITEBALANCE : Z := 0xa403.
Definition IFD_DIGITALZOOMRATIO : Z := 0xa404.
Definition IFD_FOCALLENGTHIN35MMFILM : Z := 0xa405.
Definition IFD_SCENECAPTURETYPE : Z := 0xa406.
Definition IFD_GAINCONTROL : Z := 0xa407.
Definition IFD_CONTRAST : Z := 0xa408.
Definition IFD_SATURATION : Z := 0xa409.
Definition IFD_SHARPNESS : Z := 0xa40a.
Definition IFD_DEVICESETTINGDESCRIPTION : Z := 0xa40b.
Definition IFD_SUBJECTDISTANCERANGE : Z := 0xa40c.
Definition IFD_IMAGEUNIQUEID : Z := 0xa420.
Definition IFD_INTEROPERABILITYINDEX : Z := 0x0001.
Definition IFD_INTEROPERABILITYVERSION : Z := 0x0002.

(** ** Structs *)

Record EXIF_RATIONAL_T := Rational {
  numerator : Z;
  denominator : Z
}.

Record EXIF_SRATIONAL_T := SRational {
  snumerator : Z;
  sdenominator : Z
}.

Record EXIF_CUSTOM_T := Custom {
  custom_type : Z;
  custom_ptr : vec Z 256;
  custom_count : Z;
  custom_size : Z
}.

Record EXIF_PRI_BASIC_T := PriBasic {
  YCbCrPositioning : Z;
  XResolution : EXIF_RATIONAL_T;
  YResolution : EXIF_RATIONAL_T;
  ResolutionUnit : Z;
  ImageWidth : Z;
  ImageLength : Z
}.

Record EXIF_PRI_DATA_STRUCT_T := PriDataStruct {
  Orientation : option Z;
  Reserved : option Z
}.

Record EXIF_PRI_DATA_CHAR_T := PriDataChar {
  TransferFunction : option (vec Z 768);
  WhitePoint : option (vec EXIF_RATIONAL_T 2);
  PrimaryChromaticities : option (vec EXIF_RATIONAL_T 6);
  YCbCrCoefficients : option (vec EXIF_RATIONAL_T 3);
  ReferenceBlackWhite : option (vec EXIF_RATIONAL_T 6)
}.

Record EXIF_PRI_DESC_T := PriDesc {
  DateTime : option (vec Z 20);
  ImageDescription : option (vec Z 256);
  Make : option (vec Z 256);
  Model : option (vec Z 256);
  Software : option (vec Z 256);
  Artist : option (vec Z 256);
  Copyright : option (vec Z 256)
}.

Record EXIF_PRIMARY_INFO_T := PrimaryInfo {
  pri_basic : EXIF_PRI_BASIC_T;
  data_struct_ptr : option EXIF_PRI_DATA_STRUCT_T;
  data_char_ptr : option EXIF_PRI_DATA_CHAR_T;
  img_desc_ptr : option EXIF_PRI_DESC_T;
  reserved : Z
}.

Record EXIF_SPEC_BASIC_T := SpecBasic {
  ColorSpace : Z;
  ComponentsConfiguration : vec Z 4;
  PixelXDimension : Z;
  PixelYDimension : Z
}.

Record EXIF_SPEC_VERSION_T := SpecVersion {
  ExifVersion : vec Z 4;
  FlashpixVersion : vec Z 4
}.

Record EXIF_SPEC_IMG_CONFIG_T := SpecImgConfig {
  CompressedBitsPerPixel : option EXIF_RATIONAL_T
}.

Record EXIF_SPEC_USER_T := SpecUser {
  valid_MakerNote : bool;
  MakerNote : EXIF_CUSTOM_T;
  valid_UserComment : bool;
  UserComment : EXIF_CUSTOM_T
}.

Record EXIF_SPEC_RELATED_FILE_T := SpecRelatedFile {
  RelatedSoundFile : option (vec Z 13)
}.

Record EXIF_SPEC_DATE_TIME_T := SpecDateTime {
  DateTimeOriginal : option (vec Z 20);
  DateTimeDigitized : option (vec Z 20);
  SubSecTime : option (vec Z 256);
  SubSecTimeOriginal : option (vec Z 256);
  SubSecTimeDigitized : option (vec Z 256)
}.

Record EXIF_SPEC_PIC_TAKING_COND_T := SpecPicTakingCond {
  ExposureTime : option EXIF_RATIONAL_T;
  FNumber : option EXIF_RATIONAL_T;
  ExposureProgram : option Z;
  SpectralSensitivity : option (vec Z 256);
  ISOSpeedRatings : option EXIF_CUSTOM_T;
  OECF : option EXIF_CUSTOM_T;
  ShutterSpeedValue : option EXIF_SRATIONAL_T;
  ApertureValue : option EXIF_RATIONAL_T;
  BrightnessValue : option EXIF_SRATIONAL_T;
  ExposureBiasValue : option EXIF_SRATIONAL_T;
  MaxApertureValue : option EXIF_RATIONAL_T;
  SubjectDistance : option EXIF_RATIONAL_T;
  MeteringMode : option Z;
  LightSource : option Z;
  Flash : option Z;
  FocalLength : option EXIF_RATIONAL_T;
  SubjectArea : option EXIF_CUSTOM_T;
  FlashEnergy : option EXIF_RATIONAL_T;
  SpatialFrequencyResponse : option EXIF_CUSTOM_T;
  FocalPlaneXResolution : option EXIF_RATIONAL_T;
  FocalPlaneYResolution : option EXIF_RATIONAL_T;
  FocalPlaneResolutionUnit : option Z;
  SubjectLocation : option (vec Z 2);
  ExposureIndex : option EXIF_RATIONAL_T;
  SensingMethod : option Z;
  FileSource : option Z;
  SceneType : option Z;
  CFAPattern : option EXIF_CUSTOM_T;
  CustomRendered : option Z;
  ExposureMode : option Z;
  WhiteBalance : option Z;
  DigitalZoomRatio : option EXIF_RATIONAL_T;
  FocalLengthIn35mmFilm : option Z;
  SceneCaptureType : option Z;
  GainControl : option Z;
  Contrast : option Z;
  Saturation : option Z;
  Sharpness : option Z;
  DeviceSettingDescription : option EXIF_CUSTOM_T;
  SubjectDistanceRange : option Z
}.

Record EXIF_SPEC_OTHER_T := SpecOther {
  ImageUniqueID : option (vec Z 33)
}.

Record EXIF_SPECIFIC_INFO_T := SpecificInfo {
  spec_basic : EXIF_SPEC_BASIC_T;
  version_ptr : option EXIF_SPEC_VERSION_T;
  img_config_ptr : option EXIF_SPEC_IMG_CONFIG_T;
  user_ptr : option EXIF_SPEC_USER_T;
  related_file_ptr : option EXIF_SPEC_RELATED_FILE_T;
  date_time_ptr : option EXIF_SPEC_DATE_TIME_T;
  pic_taking_cond_ptr : option EXIF_SPEC_PIC_TAKING_COND_T;
  other_ptr : option EXIF_SPEC_OTHER_T
}.

Record EXIF_GPS_INFO_T := GpsInfo {
  GPSVersionID : option (vec Z 4);
  GPSLatitudeRef : option (vec Z 2);
  GPSLatitude : option (vec EXIF_RATIONAL_T 3);
  GPSLongitudeRef : option (vec Z 2);
  GPSLongitude : option (vec EXIF_RATIONAL_T 3);
  GPSAltitudeRef : option Z;
  GPSAltitude : option EXIF_RATIONAL_T;
  GPSTimeStamp : option (vec EXIF_RATIONAL_T 3);
  GPSSatellites : option (vec Z 256);
  GPSStatus : option (vec Z 2);
  GPSMeasureMode : option (vec Z 2);
  GPSDOP : option EXIF_RATIONAL_T;
  GPSSpeedRef : option (vec Z 2);
  GPSSpeed : option EXIF_RATIONAL_T;
  GPSTrackRef : option (vec Z 2);
  GPSTrack : option EXIF_RATIONAL_T;
  GPSImgDirectionRef : option (vec Z 2);
  GPSImgDirection : option EXIF_RATIONAL_T;
  GPSMapDatum : option (vec Z 256);
  GPSDestLatitudeRef : option (vec Z 2);
  GPSDestLatitude : option (vec EXIF_RATIONAL_T 3);
  GPSDestLongitudeRef : option (vec Z 2);
  valid_GPSDestLongitude : bool;
  GPSDestLongitude : vec EXIF_RATIONAL_T 3;
  GPSDestBearingRef : option (vec Z 2);
  GPSDestBearing : option EXIF_RATIONAL_T;
  GPSDestDistanceRef : option (vec Z 2);
  GPSDestDistance : option EXIF_RATIONAL_T;
  GPSProcessingMethod : option EXIF_CUSTOM_T;
  GPSAreaInformation : option EXIF_CUSTOM_T;
  GPSDateStamp : option (vec Z 11);
  GPSDifferential : option Z
}.

Record EXIF_INTEROPERABILITY_INFO_T := InteroperabilityInfo {
  InteroperabilityIndex : option EXIF_CUSTOM_T
}.

Record JINF_EXIF_INFO_T := ExifInfo {
  primary : EXIF_PRIMARY_INFO_T;
  spec_ptr : option EXIF_SPECIFIC_INFO_T;
  gps_ptr : option EXIF_GPS_INFO_T;
  inter_ptr : option EXIF_INTEROPERABILITY_INFO_T
}.

