(* ===== verification/ExifStream.v ===== *)
(** * The write stream of the EXIF writer

    The write functions of src/common/libs/libcamera/jpeg_fw_8825/src/jpeg_stream.c:
    positioned writes of big-endian values into a buffer, and what they do
    to the bytes of a buffer that is large enough. *)
From stdpp Require Import base list.
From Stdlib Require Import ZArith Lia.
From S2P Require Import Prelude.

(** ** Definitions *)

(** [write_ptr] is NULL or an index of [write_buf], whose length is
    [write_buf_size]. The callback gets an offset and bytes, and says how many
    it took; [file_writes] records its calls. *)
Record JPEG_WRITE_STREAM_CONTEXT_T := WriteStream {
  write_buf : list Z;
  write_ptr : option Z;
  write_file_func : option (Z -> list Z -> Z);
  write_file_size : Z;
  file_writes : list (Z * list Z)
}.

Definition write_buf_size (s : JPEG_WRITE_STREAM_CONTEXT_T) : Z := zlen (write_buf s).

Definition set_write_ptr (p : Z) : M JPEG_WRITE_STREAM_CONTEXT_T unit :=
  modify (fun s => WriteStream (write_buf s) (Some p) (write_file_func s) (write_file_size s) (file_writes s)).

Definition Jpeg_WriteStreamToFile : M JPEG_WRITE_STREAM_CONTEXT_T bool :=
  s <- get ;;
  match write_file_func s with
  | Some f =>
      let write_size := match write_ptr s with Some p => if p >? 0 then p else 0 | None => 0 end in
      let data := take (Z.to_nat write_size) (write_buf s) in
      let actual_write_size := f (write_file_size s) data in
      modify (fun s => WriteStream (write_buf s) (Some 0) (write_file_func s)
        (u32 (write_file_size s + actual_write_size)) (file_writes s ++ [(write_file_size s, data)])) ;;;
      ret (actual_write_size =? write_size)
  | None => ret false
  end.

Definition Jpeg_SetWritePos (offset : Z) : M JPEG_WRITE_STREAM_CONTEXT_T bool :=
  s <- get ;;
  match write_file_func s with
  | Some _ =>
      if (offset <? write_file_size s) || (offset >=? u32 (write_file_size s + write_buf_size s)) then
        ok <- Jpeg_WriteStreamToFile ;;
        if negb ok then ret false else
        modify (fun s => WriteStream (write_buf s) (Some 0) (write_file_func s) offset (file_writes s)) ;;;
        ret true
      else set_write_ptr (offset - write_file_size s) ;;; ret true
  | None =>
      if offset >? write_buf_size s then ret false else
      set_write_ptr offset ;;; ret true
  end.

Definition Jpeg_GetWritePos : M JPEG_WRITE_STREAM_CONTEXT_T Z :=
  s <- get ;;
  let write_pos := match write_ptr s with
    | Some p => if (p >=? 0) && (p <=? write_buf_size s) then p else 0
    | None => 0
    end in
  ret (match write_file_func s with Some _ => u32 (write_pos + write_file_size s) | None => write_pos end).

(** [*context_ptr->write_ptr++ = c] *)
Definition poke (c : Z) : M JPEG_WRITE_STREAM_CONTEXT_T unit :=
  s <- get ;;
  p <- lift NullPointer (write_ptr s) ;;
  buf <- lift OutOfBounds (aset (write_buf s) p c) ;;
  modify (fun s => WriteStream buf (Some (p + 1)) (write_file_func s) (write_file_size s) (file_writes s)).

(** The position is compared as it was before the buffer was flushed. *)
Definition Jpeg_WriteC (c : Z) : M JPEG_WRITE_STREAM_CONTEXT_T bool :=
  s <- get ;;
  (match write_ptr s with None => set_write_ptr 0 | Some _ => ret tt end) ;;;
  let p := default 0 (write_ptr s) in
  ok <- (if p >=? write_buf_size s then Jpeg_WriteStreamToFile else ret true) ;;
  if negb ok then ret false else
  if p + 1 >? write_buf_size s then ret false else
  poke (u8 c) ;;;
  ret true.

Definition Jpeg_WriteW (w : Z) : M JPEG_WRITE_STREAM_CONTEXT_T bool :=
  ok <- Jpeg_WriteC (u8 (Z.shiftr w 8)) ;;
  if negb ok then ret false else Jpeg_WriteC (u8 w).

Definition Jpeg_WriteL (l : Z) : M JPEG_WRITE_STREAM_CONTEXT_T bool :=
  s <- get ;;
  match write_ptr s with
  | None => ret false
  | Some p =>
      if p + 4 >? write_buf_size s then ret false else
      poke (u8 (Z.shiftr l 24)) ;;;
      poke (u8 (Z.shiftr l 16)) ;;;
      poke (u8 (Z.shiftr l 8)) ;;;
      poke (u8 l) ;;;
      ret true
  end.

Fixpoint write_all (block : list Z) : M JPEG_WRITE_STREAM_CONTEXT_T bool :=
  match block with
  | [] => ret true
  | c :: block =>
      ok <- Jpeg_WriteC c ;;
      if negb ok then ret false else write_all block
  end.

Definition Jpeg_WriteBlock (block : list Z) : M JPEG_WRITE_STREAM_CONTEXT_T bool :=
  s <- get ;;
  match write_ptr s with
  | None => ret false
  | Some _ => write_all block
  end.

(** [JPEG_WRITE_DATA(f, context_ptr, data, return FALSE)] *)
Definition checked (m : M JPEG_WRITE_STREAM_CONTEXT_T bool) : M JPEG_WRITE_STREAM_CONTEXT_T unit :=
  ok <- m ;;
  require ok.

(** ** Writes that fit *)

(** A stream in memory. *)
Definition in_memory (buf : list Z) (p : Z) (s : JPEG_WRITE_STREAM_CONTEXT_T) : JPEG_WRITE_STREAM_CONTEXT_T :=
  WriteStream buf (Some p) None (write_file_size s) (file_writes s).

Section memory.
Context (s0 : JPEG_WRITE_STREAM_CONTEXT_T).
Implicit Types (buf : list Z) (p : Z).
Abbreviation mem buf p := (in_memory buf p s0).

Lemma SetWritePos_mem buf p o : o <= zlen buf -> Jpeg_SetWritePos o (mem buf p) = Ret true (mem buf o).
Proof.
  intros Ho. unfold Jpeg_SetWritePos, bind, get, write_buf_size. cbn.
  destruct (Z.gtb_spec o (zlen buf)); [lia|done].
Qed.

Lemma GetWritePos_mem buf p : 0 <= p <= zlen buf -> Jpeg_GetWritePos (mem buf p) = Ret p (mem buf p).
Proof.
  intros Hp. unfold Jpeg_GetWritePos, bind, get, write_buf_size. cbn.
  by rewrite (proj2 (Z.geb_le _ _)), (proj2 (Z.leb_le _ _)) by lia.
Qed.

Lemma poke_mem buf p c : 0 <= p < zlen buf -> poke c (mem buf p) = Ret tt (mem (put buf p [c]) (p + 1)).
Proof. intros Hp. unfold poke, bind, get, lift. cbn. by rewrite aset_put. Qed.

Lemma WriteC_mem buf p c :
  0 <= p < zlen buf -> Jpeg_WriteC c (mem buf p) = Ret true (mem (put buf p [u8 c]) (p + 1)).
Proof.
  intros Hp. unfold Jpeg_WriteC. do 2 (erewrite bind_Ret by reflexivity; cbv beta).
  cbn [default write_ptr in_memory]. unfold write_buf_size. cbn [write_buf in_memory]. unfold id.
  destruct (Z.geb_spec p (zlen buf)), (Z.gtb_spec (p + 1) (zlen buf)); try lia.
  erewrite bind_Ret by reflexivity. cbn [negb]. by erewrite bind_Ret by by apply poke_mem.
Qed.

Lemma u8_u8 v : u8 (u8 v) = u8 v.
Proof. apply u8_small, u8_range. Qed.

Lemma WriteW_mem buf p w :
  0 <= p -> p + 2 <= zlen buf -> Jpeg_WriteW w (mem buf p) = Ret true (mem (put buf p (be16 w)) (p + 2)).
Proof.
  intros Hp Hl. unfold Jpeg_WriteW. erewrite bind_Ret by by apply WriteC_mem; lia. cbn [negb].
  rewrite WriteC_mem by (rewrite ?zlen_put by (unfold zlen in *; cbn; lia); lia). rewrite !u8_u8.
  change (p + 1) with (p + zlen [u8 (Z.shiftr w 8)]) at 1. rewrite put_put by (unfold zlen in *; cbn; lia).
  do 2 f_equal. lia.
Qed.

Lemma WriteL_mem buf p l :
  0 <= p -> p + 4 <= zlen buf -> Jpeg_WriteL l (mem buf p) = Ret true (mem (put buf p (be32 l)) (p + 4)).
Proof.
  intros Hp Hl. unfold Jpeg_WriteL. erewrite bind_Ret by reflexivity. cbn [write_ptr in_memory].
  unfold write_buf_size. cbn [write_buf in_memory]. destruct (Z.gtb_spec (p + 4) (zlen buf)); [lia|].
  assert (Hstep : forall bs c, p + zlen bs + 1 <= zlen buf ->
    poke c (mem (put buf p bs) (p + zlen bs)) = Ret tt (mem (put buf p (bs ++ [c])) (p + zlen (bs ++ [c])))).
  { intros bs c Hf. pose proof (zlen_nonneg bs). rewrite poke_mem by (rewrite ?zlen_put; lia).
    rewrite put_put by (unfold zlen in *; cbn; lia). rewrite zlen_app. change (zlen [c]) with 1. do 2 f_equal. lia. }
  erewrite bind_Ret by by apply poke_mem; lia.
  pose proof (Hstep [u8 (Z.shiftr l 24)]) as H1. change (zlen [u8 (Z.shiftr l 24)]) with 1 in H1.
  erewrite bind_Ret by by apply H1; lia.
  erewrite bind_Ret by by apply Hstep; unfold zlen in *; cbn; lia.
  by erewrite bind_Ret by by apply Hstep; unfold zlen in *; cbn; lia.
Qed.

Lemma write_all_mem buf p bs :
  bytes bs -> 0 <= p -> p + zlen bs <= zlen buf ->
  write_all bs (mem buf p) = Ret true (mem (put buf p bs) (p + zlen bs)).
Proof.
  revert buf p. induction bs as [|b bs IH]; intros buf p Hb Hp Hl.
  - cbn [write_all]. change (zlen (@nil Z)) with 0 in *. rewrite put_nil by lia. by rewrite Z.add_0_r.
  - apply Forall_cons in Hb as [Hb Hbs]. rewrite zlen_cons in *. pose proof (zlen_nonneg bs). cbn [write_all].
    erewrite bind_Ret by by apply WriteC_mem; lia. cbn [negb]. rewrite (u8_small b Hb).
    rewrite IH by (done || (rewrite ?zlen_put by (unfold zlen in *; cbn; lia); lia)).
    change (p + 1) with (p + zlen [b]) at 1. rewrite put_put by (unfold zlen in *; cbn; lia). do 2 f_equal. lia.
Qed.

Lemma checked_mem {A} (m : M JPEG_WRITE_STREAM_CONTEXT_T bool) (k : unit -> M JPEG_WRITE_STREAM_CONTEXT_T A) s s' :
  m s = Ret true s' -> bind (checked m) k s = k tt s'.
Proof. intros E. unfold checked. rewrite bind_assoc. by erewrite bind_Ret by exact E. Qed.

(** A write right after another one. *)
Lemma WriteC_put buf p a c :
  0 <= p -> p + zlen a + 1 <= zlen buf ->
  Jpeg_WriteC c (mem (put buf p a) (p + zlen a)) = Ret true (mem (put buf p (a ++ [u8 c])) (p + zlen (a ++ [u8 c]))).
Proof.
  intros Hp Hl. pose proof (zlen_nonneg a). rewrite WriteC_mem by (rewrite ?zlen_put; lia).
  rewrite put_put by len_lia. rewrite zlen_app. do 2 f_equal. len_lia.
Qed.

Lemma WriteW_put buf p a w :
  0 <= p -> p + zlen a + 2 <= zlen buf ->
  Jpeg_WriteW w (mem (put buf p a) (p + zlen a)) = Ret true (mem (put buf p (a ++ be16 w)) (p + zlen (a ++ be16 w))).
Proof.
  intros Hp Hl. pose proof (zlen_nonneg a). rewrite WriteW_mem by (rewrite ?zlen_put; lia).
  rewrite put_put by len_lia. rewrite zlen_app. do 2 f_equal. len_lia.
Qed.

Lemma WriteL_put buf p a l :
  0 <= p -> p + zlen a + 4 <= zlen buf ->
  Jpeg_WriteL l (mem (put buf p a) (p + zlen a)) = Ret true (mem (put buf p (a ++ be32 l)) (p + zlen (a ++ be32 l))).
Proof.
  intros Hp Hl. pose proof (zlen_nonneg a). rewrite WriteL_mem by (rewrite ?zlen_put; lia).
  rewrite put_put by len_lia. rewrite zlen_app. do 2 f_equal. len_lia.
Qed.

(** A write at the position that was set. *)
Lemma start_put buf p : 0 <= p <= zlen buf -> mem buf p = mem (put buf p []) (p + zlen (@nil Z)).
Proof. intros Hp. rewrite put_nil by done. by rewrite Z.add_0_r. Qed.

(** A loop whose [k]-th round writes [g k]. *)
Lemma forM_put (body : Z -> M JPEG_WRITE_STREAM_CONTEXT_T unit) (g : Z -> list Z) sz n buf p :
  (forall k, zlen (g k) = sz) -> 0 <= p -> p + Z.of_nat n * sz <= zlen buf ->
  (forall k buf p, 0 <= k < Z.of_nat n -> 0 <= p -> p + sz <= zlen buf ->
    body k (mem buf p) = Ret tt (mem (put buf p (g k)) (p + sz))) ->
  forM (upto n) body (mem buf p) = Ret tt (mem (put buf p (concat (g <$> upto n))) (p + Z.of_nat n * sz)).
Proof.
  intros Hg Hp Hl Hb. assert (Hsz : 0 <= sz) by (rewrite <- (Hg 0); apply zlen_nonneg).
  assert (Hlen : forall l, zlen (concat (g <$> l)) = Z.of_nat (length l) * sz).
  { intros l. induction l as [|k l IH]; [done|]. cbn [fmap list_fmap concat length]. rewrite zlen_app, Hg.
    change (map g l) with (g <$> l). rewrite IH. lia. }
  induction n as [|n IH].
  - cbn. rewrite put_nil by lia. do 2 f_equal. lia.
  - unfold upto in *. rewrite seq_S, fmap_app, forM_app. cbn [fmap list_fmap].
    unfold bind at 1. rewrite IH; [|lia|intros; apply Hb; lia].
    assert (Hz : zlen (concat (g <$> (Z.of_nat <$> seq 0 n))) = Z.of_nat n * sz)
      by (rewrite Hlen, length_fmap, length_seq; done).
    cbn [forM]. erewrite bind_Ret by (apply Hb; rewrite ?zlen_put; lia). unfold ret.
    rewrite fmap_app, concat_app. cbn [fmap list_fmap concat map]. rewrite app_nil_r.
    rewrite <- Hz at 1. rewrite put_put by (rewrite ?Hg; lia). do 2 f_equal. lia.
Qed.
End memory.
