(* ===== verification/ExifWriter.v ===== *)
(** * The EXIF writer

    src/common/libs/libcamera/jpeg_fw_8825/src/exif_writer.c: the directories
    of an APP1 segment, written through the stream of ExifStream.v. The
    guarded blocks of the source, which differ in the member they write, are
    the rows of tables here, in the source's order; every block does what
    [write_field] does. *)
From stdpp Require Import base list vector.
From Stdlib Require Import ZArith Lia.
From S2P Require Import Prelude ExifTypes ExifStream.

(** ** Directory entries *)

(** The value of a member as the memory of the (little-endian) processor. *)
Definition mem_bytes {n} (v : vec Z n) : list Z := u8 <$> vec_to_list v.
Definition mem_shorts {n} (v : vec Z n) : list Z := concat (le16 <$> vec_to_list v).
Definition mem_rational (r : EXIF_RATIONAL_T) : list Z := le32 (numerator r) ++ le32 (denominator r).
Definition mem_srational (r : EXIF_SRATIONAL_T) : list Z := le32 (snumerator r) ++ le32 (sdenominator r).
Definition mem_rationals {n} (v : vec EXIF_RATIONAL_T n) : list Z := concat (mem_rational <$> vec_to_list v).

(** The characters before the terminating one. *)
Fixpoint _GetAsciiStringSize (string : list Z) : option Z :=
  match string with
  | [] => None
  | c :: string => if c =? 0 then Some 0 else n ← _GetAsciiStringSize string; Some (n + 1)
  end.

Definition JPEG_ALIGN_4 (v : Z) : Z := u32 (Z.shiftl (Z.shiftr (u32 (v + 3)) 2) 2).

(** [value_offset] is the memory of the union, [value_ptr] the memory from
    the pointer on. *)
Record IFD_INFO_T := IFD {
  tag : Z;
  type : Z;
  count : Z;
  value_offset : list Z;
  value_ptr : list Z
}.

Definition set_value_offset (v : list Z) (i : IFD_INFO_T) : IFD_INFO_T :=
  IFD (tag i) (type i) (count i) v (value_ptr i).

(** What [Jpeg_WriteIFD] makes of the union. *)
Definition offset_value (i : IFD_INFO_T) : option Z :=
  let long_value := load32 (value_offset i) 0 in
  if (type i =? EXIF_BYTE) || (type i =? EXIF_ASCII) || (type i =? EXIF_UNDEFINED) then
    if count i <=? 4 then
      b0 ← aget (value_offset i) 0; b1 ← aget (value_offset i) 1;
      b2 ← aget (value_offset i) 2; b3 ← aget (value_offset i) 3;
      Some (Z.lor (Z.lor (Z.lor (Z.shiftl b0 24) (Z.shiftl b1 16)) (Z.shiftl b2 8)) b3)
    else long_value
  else if type i =? EXIF_SHORT then
    if count i <=? 2 then
      s0 ← load16 (value_offset i) 0; s1 ← load16 (value_offset i) 2;
      Some (Z.lor (Z.shiftl s0 16) s1)
    else long_value
  else long_value.

Definition Jpeg_WriteIFD (i : IFD_INFO_T) : M JPEG_WRITE_STREAM_CONTEXT_T unit :=
  checked (Jpeg_WriteW (tag i)) ;;;
  checked (Jpeg_WriteW (type i)) ;;;
  checked (Jpeg_WriteL (count i)) ;;;
  v <- lift OutOfBounds (offset_value i) ;;
  checked (Jpeg_WriteL v).

(** The four writers return the new values of [*ifd_offset_ptr] and
    [*value_offset_ptr]. *)
Definition write_header (i : IFD_INFO_T) (ifd_offset : Z) : M JPEG_WRITE_STREAM_CONTEXT_T Z :=
  checked (Jpeg_SetWritePos ifd_offset) ;;;
  Jpeg_WriteIFD i ;;;
  Jpeg_GetWritePos.

(** [ok] says whether the values were written out. *)
Definition aligned_pos : M JPEG_WRITE_STREAM_CONTEXT_T Z :=
  p <- Jpeg_GetWritePos ;;
  ret (JPEG_ALIGN_4 p).

Definition Jpeg_WriteRationalIFD (i : IFD_INFO_T) (ifd_offset value_offset : Z) : M JPEG_WRITE_STREAM_CONTEXT_T (Z * Z) :=
  ifd_offset <- write_header i ifd_offset ;;
  checked (Jpeg_SetWritePos value_offset) ;;;
  forM (upto (Z.to_nat (count i))) (fun k =>
    n <- lift OutOfBounds (load32 (value_ptr i) (8 * k)) ;;
    checked (Jpeg_WriteL n) ;;;
    d <- lift OutOfBounds (load32 (value_ptr i) (8 * k + 4)) ;;
    checked (Jpeg_WriteL d)) ;;;
  value_offset <- aligned_pos ;;
  ret (ifd_offset, value_offset).

Definition Jpeg_WriteLongIFD (i : IFD_INFO_T) (ifd_offset vo : Z) : M JPEG_WRITE_STREAM_CONTEXT_T (Z * Z) :=
  i <- (if count i <=? 1 then
          v <- lift OutOfBounds (load32 (value_ptr i) 0) ;;
          ret (set_value_offset (le32 v) i)
        else ret i) ;;
  ifd_offset <- write_header i ifd_offset ;;
  if count i >? 1 then
    checked (Jpeg_SetWritePos vo) ;;;
    forM (upto (Z.to_nat (count i))) (fun k =>
      v <- lift OutOfBounds (load32 (value_ptr i) (4 * k)) ;;
      checked (Jpeg_WriteL v)) ;;;
    vo <- aligned_pos ;;
    ret (ifd_offset, vo)
  else ret (ifd_offset, vo).

(** In the loops of the next two a failed write returns [JPEG_FAILED], which
    is not [FALSE]: the caller takes it for success, and the offsets stay as
    they were. *)
Definition Jpeg_WriteShortIFD (i : IFD_INFO_T) (ifd_offset vo : Z) : M JPEG_WRITE_STREAM_CONTEXT_T (Z * Z) :=
  i <- (if count i <=? 2 then
          s0 <- lift OutOfBounds (load16 (value_ptr i) 0) ;;
          s1 <- (if count i =? 2 then lift OutOfBounds (load16 (value_ptr i) 2) else ret 0) ;;
          ret (set_value_offset (le16 s0 ++ le16 s1) i)
        else ret i) ;;
  new_offset <- write_header i ifd_offset ;;
  if count i >? 2 then
    checked (Jpeg_SetWritePos vo) ;;;
    ok <- succeeds (forM (upto (Z.to_nat (count i))) (fun k =>
      v <- lift OutOfBounds (load16 (value_ptr i) (2 * k)) ;;
      checked (Jpeg_WriteW v))) ;;
    if negb ok then ret (ifd_offset, vo) else
    vo <- aligned_pos ;;
    ret (new_offset, vo)
  else ret (new_offset, vo).

(** The first bytes of the union, its other bytes as they were. *)
Definition copy_bytes (n : Z) (i : IFD_INFO_T) : option (list Z) :=
  let bs := take (Z.to_nat n) (value_ptr i) in
  if zlen bs =? n then Some (bs ++ drop (Z.to_nat n) (value_offset i)) else None.

Definition Jpeg_WriteByteIFD (i : IFD_INFO_T) (ifd_offset vo : Z) : M JPEG_WRITE_STREAM_CONTEXT_T (Z * Z) :=
  i <- (if count i <=? 4 then
          v <- lift OutOfBounds (copy_bytes (count i) i) ;;
          ret (set_value_offset v i)
        else ret i) ;;
  new_offset <- write_header i ifd_offset ;;
  if count i >? 4 then
    checked (Jpeg_SetWritePos vo) ;;;
    ok <- succeeds (forM (upto (Z.to_nat (count i))) (fun k =>
      v <- lift OutOfBounds (aget (value_ptr i) k) ;;
      checked (Jpeg_WriteC v))) ;;
    if negb ok then ret (ifd_offset, vo) else
    vo <- aligned_pos ;;
    ret (new_offset, vo)
  else ret (new_offset, vo).

(** ** Directories *)

Inductive ifd_writer := w_byte | w_short | w_long | w_rational.

Definition write_ifd (w : ifd_writer) : IFD_INFO_T -> Z -> Z -> M JPEG_WRITE_STREAM_CONTEXT_T (Z * Z) :=
  match w with
  | w_byte => Jpeg_WriteByteIFD
  | w_short => Jpeg_WriteShortIFD
  | w_long => Jpeg_WriteLongIFD
  | w_rational => Jpeg_WriteRationalIFD
  end.

(** A block of the source: what it stores in [ifd_info] and the writer it
    calls. No count: the length of the string and its terminating character. *)
Record field := Field {
  f_tag : Z;
  f_type : Z;
  f_count : option Z;
  f_ptr : list Z;
  f_writer : ifd_writer
}.

(** The local variables of a directory writer. *)
Record cursor := Cursor {
  ifd_offset : Z;
  ifd_value_offset : Z;
  entries : Z
}.

Definition field_count (f : field) : option Z :=
  match f_count f with
  | Some n => Some n
  | None => n ← _GetAsciiStringSize (f_ptr f); Some (n + 1)
  end.

Definition write_field (ifh_offset : Z) (f : field) (c : cursor) : M JPEG_WRITE_STREAM_CONTEXT_T cursor :=
  n <- lift OutOfBounds (field_count f) ;;
  r <- write_ifd (f_writer f)
         (IFD (f_tag f) (f_type f) n (le32 (u32 (ifd_value_offset c - ifh_offset))) (f_ptr f))
         (ifd_offset c) (ifd_value_offset c) ;;
  ret (Cursor r.1 r.2 (entries c + 1)).

Fixpoint write_fields (ifh_offset : Z) (fs : list field) (c : cursor) : M JPEG_WRITE_STREAM_CONTEXT_T cursor :=
  match fs with
  | [] => ret c
  | f :: fs => c <- write_field ifh_offset f c ;; write_fields ifh_offset fs c
  end.

Definition IFD_HEAD_LENGTH : Z := 12.

(** The number of entries is first written as the largest one possible. *)
Definition begin_ifd (max_entries begin_offset : Z) : M JPEG_WRITE_STREAM_CONTEXT_T cursor :=
  _ <- Jpeg_SetWritePos begin_offset ;;
  checked (Jpeg_WriteW max_entries) ;;;
  ifd_offset <- Jpeg_GetWritePos ;;
  ret (Cursor ifd_offset (JPEG_ALIGN_4 (u32 (ifd_offset + max_entries * IFD_HEAD_LENGTH + 4))) 0).

(** The offset of the next directory, and the number of entries written. *)
Definition end_ifd (next begin_offset : Z) (c : cursor) : M JPEG_WRITE_STREAM_CONTEXT_T Z :=
  _ <- Jpeg_SetWritePos (ifd_offset c) ;;
  checked (Jpeg_WriteL next) ;;;
  _ <- Jpeg_SetWritePos begin_offset ;;
  checked (Jpeg_WriteW (entries c)) ;;;
  ret (ifd_value_offset c).

(** The entry that points to a directory, and the directory after it. *)
Definition write_pointer (ifh_offset t : Z) (sub : Z -> M JPEG_WRITE_STREAM_CONTEXT_T Z) (c : cursor)
    : M JPEG_WRITE_STREAM_CONTEXT_T cursor :=
  let vo := JPEG_ALIGN_4 (ifd_value_offset c) in
  let offset := le32 (u32 (vo - ifh_offset)) in
  r <- Jpeg_WriteLongIFD (IFD t EXIF_LONG 1 offset offset) (ifd_offset c) vo ;;
  e <- sub r.2 ;;
  ret (Cursor r.1 e (entries c + 1)).

(** ** The tables *)

(** A member [custom] of any size. *)
Definition custom_field (t ty : Z) (w : ifd_writer) (c : EXIF_CUSTOM_T) : option field :=
  if custom_count c >? 0 then Some (Field t ty (Some (custom_count c)) (mem_bytes (custom_ptr c)) w) else None.
Definition string_field {n} (t : Z) (v : vec Z n) : field := Field t EXIF_ASCII None (mem_bytes v) w_byte.
Definition bytes_field {n} (t ty : Z) (v : vec Z n) : field := Field t ty (Some (Z.of_nat n)) (mem_bytes v) w_byte.
Definition byte_field (t ty v : Z) : field := Field t ty (Some 1) [u8 v] w_byte.
Definition short_field (t v : Z) : field := Field t EXIF_SHORT (Some 1) (le16 v) w_short.
Definition shorts_field {n} (t : Z) (v : vec Z n) : field := Field t EXIF_SHORT (Some (Z.of_nat n)) (mem_shorts v) w_short.
Definition long_field (t v : Z) : field := Field t EXIF_LONG (Some 1) (le32 v) w_long.
Definition rational_field (t : Z) (r : EXIF_RATIONAL_T) : field := Field t EXIF_RATIONAL (Some 1) (mem_rational r) w_rational.
Definition srational_field (t : Z) (r : EXIF_SRATIONAL_T) : field := Field t EXIF_SRATIONAL (Some 1) (mem_srational r) w_rational.
Definition rationals_field {n} (t : Z) (v : vec EXIF_RATIONAL_T n) : field :=
  Field t EXIF_RATIONAL (Some (Z.of_nat n)) (mem_rationals v) w_rational.

(** A block guarded by a pointer to a struct and the bit of a member. *)
Definition member {A B} (p : option A) (m : A -> option B) (f : B -> field) : option field :=
  match p with
  | Some a => match m a with Some b => Some (f b) | None => None end
  | None => None
  end.
Definition custom_member {A} (p : option A) (m : A -> option EXIF_CUSTOM_T) (f : EXIF_CUSTOM_T -> option field) : option field :=
  match p with
  | Some a => match m a with Some c => f c | None => None end
  | None => None
  end.

Definition exif_version : vec Z 4 := [# 48; 50; 50; 48].
Definition flashpix_version : vec Z 4 := [# 48; 49; 48; 48].

Definition spec_exposure (spec : EXIF_SPECIFIC_INFO_T) : list (option field) :=
  let pic := pic_taking_cond_ptr spec in
  [ member pic ExposureTime (rational_field IFD_EXPOSURETIME);
    member pic FNumber (rational_field IFD_FNUMBER);
    member pic ExposureProgram (short_field IFD_EXPOSUREPROGRAM);
    member pic SpectralSensitivity (string_field IFD_SPECTRALSENSITIVITY);
    custom_member pic ISOSpeedRatings (custom_field IFD_ISOSPEEDRATINGS EXIF_SHORT w_short);
    custom_member pic OECF (custom_field IFD_OECF EXIF_UNDEFINED w_byte);
    Some (bytes_field IFD_EXIFVERSION EXIF_UNDEFINED exif_version) ].

Definition spec_dates (spec : EXIF_SPECIFIC_INFO_T) : list (option field) :=
  let pic := pic_taking_cond_ptr spec in
  let date_time := date_time_ptr spec in
  let config := img_config_ptr spec in
  let basic := spec_basic spec in
  [ member date_time DateTimeOriginal (bytes_field IFD_DATETIMEORIGINAL EXIF_ASCII);
    member date_time DateTimeDigitized (bytes_field IFD_DATETIMEDIGITILIZED EXIF_ASCII);
    Some (bytes_field IFD_COMPONENTSCONFIGURATION EXIF_UNDEFINED (ComponentsConfiguration basic));
    member config CompressedBitsPerPixel (rational_field IFD_COMPRESSEDBITSPERPIXEL);
    member pic ShutterSpeedValue (srational_field IFD_SHUTTERSPEEDVALUE);
    member pic ApertureValue (rational_field IFD_APERTUREVALUE);
    member pic BrightnessValue (srational_field IFD_BRIGHTNESSVALUE);
    member pic ExposureBiasValue (srational_field IFD_EXPOSUREBIASVALUE) ].

Definition spec_lens (spec : EXIF_SPECIFIC_INFO_T) : list (option field) :=
  let pic := pic_taking_cond_ptr spec in
  let user := user_ptr spec in
  [ member pic MaxApertureValue (rational_field IFD_MAXAPERTUREVALUE);
    member pic SubjectDistance (rational_field IFD_SUBJECTDISTANCE);
    member pic MeteringMode (short_field IFD_METERINGMODE);
    member pic LightSource (short_field IFD_LIGHTSOURCE);
    member pic Flash (short_field IFD_FLASH);
    member pic FocalLength (rational_field IFD_FOCALLENGTH);
    custom_member pic SubjectArea (custom_field IFD_SUBJECTAREA EXIF_SHORT w_rational);
    custom_member user (fun u => Some (MakerNote u)) (custom_field IFD_MAKERNOTE EXIF_UNDEFINED w_byte) ].

Definition spec_user (spec : EXIF_SPECIFIC_INFO_T) : list (option field) :=
  let date_time := date_time_ptr spec in
  let user := user_ptr spec in
  let basic := spec_basic spec in
  [ custom_member user (fun u => Some (UserComment u)) (custom_field IFD_USERCOMMENT EXIF_UNDEFINED w_byte);
    member date_time SubSecTime (string_field IFD_SUBSECTIME);
    member date_time SubSecTimeOriginal (string_field IFD_SUBSECTIMEORIGINAL);
    member date_time SubSecTimeDigitized (string_field IFD_SUBSECTIMEDIGITILIZED);
    Some (bytes_field IFD_FLASHPIXVERSION EXIF_UNDEFINED flashpix_version);
    Some (short_field IFD_COLORSPACE (ColorSpace basic));
    Some (long_field IFD_PIXELXDIMENSION (PixelXDimension basic)) ].

Definition spec_image (spec : EXIF_SPECIFIC_INFO_T) : list (option field) :=
  let rel_file := related_file_ptr spec in
  let basic := spec_basic spec in
  [ Some (long_field IFD_PIXELYDIMENSION (PixelYDimension basic));
    member rel_file RelatedSoundFile (bytes_field IFD_RELATEDSOUNDFILE EXIF_ASCII) ].

Definition spec_fields_1 (spec : EXIF_SPECIFIC_INFO_T) : list field :=
  omap id (spec_exposure spec ++ spec_dates spec ++ spec_lens spec ++ spec_user spec ++ spec_image spec).

Definition spec_focal_plane (spec : EXIF_SPECIFIC_INFO_T) : list (option field) :=
  let pic := pic_taking_cond_ptr spec in
  [ member pic FlashEnergy (rational_field IFD_FLASHENERGY);
    custom_member pic SpatialFrequencyResponse (custom_field IFD_SPATIALFREQUENCYRESPONSE EXIF_UNDEFINED w_byte);
    member pic FocalPlaneXResolution (rational_field IFD_FOCALPLANEXRESOLUTION);
    member pic FocalPlaneYResolution (rational_field IFD_FOCALPLANEYRESOLUTION);
    member pic FocalPlaneResolutionUnit (short_field IFD_FOCALPLANERESOLUTIONUNIT);
    member pic SubjectLocation (shorts_field IFD_SUBJECTLOCATION);
    member pic ExposureIndex (rational_field IFD_EXPOSUREINDEX);
    member pic SensingMethod (short_field IFD_SENSINGMETHOD) ].

Definition spec_scene (spec : EXIF_SPECIFIC_INFO_T) : list (option field) :=
  let pic := pic_taking_cond_ptr spec in
  [ member pic FileSource (byte_field IFD_FILESOURCE EXIF_UNDEFINED);
    member pic SceneType (byte_field IFD_SCENETYPE EXIF_UNDEFINED);
    custom_member pic CFAPattern (custom_field IFD_CFAPATTERN EXIF_UNDEFINED w_byte);
    member pic CustomRendered (short_field IFD_CUSTOMRENDERED);
    member pic ExposureMode (short_field IFD_EXPOSUREMODE);
    member pic WhiteBalance (short_field IFD_WHITEBALANCE);
    member pic DigitalZoomRatio (rational_field IFD_DIGITALZOOMRATIO);
    member pic FocalLengthIn35mmFilm (short_field IFD_FOCALLENGTHIN35MMFILM);
    member pic SceneCaptureType (short_field IFD_SCENECAPTURETYPE) ].

Definition spec_gain (spec : EXIF_SPECIFIC_INFO_T) : list (option field) :=
  let pic := pic_taking_cond_ptr spec in
  let other := other_ptr spec in
  [ member pic GainControl (short_field IFD_GAINCONTROL);
    member pic Contrast (short_field IFD_CONTRAST);
    member pic Saturation (short_field IFD_SATURATION);
    member pic Sharpness (short_field IFD_SHARPNESS);
    custom_member pic DeviceSettingDescription (custom_field IFD_DEVICESETTINGDESCRIPTION EXIF_UNDEFINED w_byte);
    member pic SubjectDistanceRange (short_field IFD_SUBJECTDISTANCERANGE);
    member other ImageUniqueID (bytes_field IFD_IMAGEUNIQUEID EXIF_ASCII) ].

Definition spec_fields_2 (spec : EXIF_SPECIFIC_INFO_T) : list field :=
  omap id (spec_focal_plane spec ++ spec_scene spec ++ spec_gain spec).

Definition gps_position (gps : EXIF_GPS_INFO_T) : list (option field) :=
  [ member (Some gps) GPSVersionID (bytes_field IFD_GPSVERSIONID EXIF_BYTE);
    member (Some gps) GPSLatitudeRef (bytes_field IFD_GPSLATITUDEREF EXIF_ASCII);
    member (Some gps) GPSLatitude (rationals_field IFD_GPSLATITUDE);
    member (Some gps) GPSLongitudeRef (bytes_field IFD_GPSLONGITUDEREF EXIF_ASCII);
    member (Some gps) GPSLongitude (rationals_field IFD_GPSLONGITUDE);
    member (Some gps) GPSAltitudeRef (byte_field IFD_GPSALTITUDEREF EXIF_BYTE);
    member (Some gps) GPSAltitude (rational_field IFD_GPSALTITUDE);
    member (Some gps) GPSTimeStamp (rationals_field IFD_GPSTIMESTAMP);
    member (Some gps) GPSSatellites (string_field IFD_GPSSATELLITES) ].

Definition gps_status (gps : EXIF_GPS_INFO_T) : list (option field) :=
  [ member (Some gps) GPSStatus (bytes_field IFD_GPSSTATUS EXIF_ASCII);
    member (Some gps) GPSMeasureMode (bytes_field IFD_GPSMEASUREMODE EXIF_ASCII);
    member (Some gps) GPSDOP (rational_field IFD_GPSDOP);
    member (Some gps) GPSSpeedRef (bytes_field IFD_GPSSPEEDREF EXIF_ASCII);
    member (Some gps) GPSSpeed (rational_field IFD_GPSSPEED);
    member (Some gps) GPSTrackRef (bytes_field IFD_GPSTRACKREF EXIF_ASCII);
    member (Some gps) GPSTrack (rational_field IFD_GPSTRACK);
    member (Some gps) GPSImgDirectionRef (bytes_field IFD_GPSIMGDIRECTIONREF EXIF_ASCII);
    member (Some gps) GPSImgDirection (rational_field IFD_GPSIMGDIRECTION) ].

Definition gps_destination (gps : EXIF_GPS_INFO_T) : list (option field) :=
  [ member (Some gps) GPSMapDatum (string_field IFD_GPSMAPDATUM);
    member (Some gps) GPSDestLatitudeRef (bytes_field IFD_GPSDESTLATITUDEREF EXIF_ASCII);
    member (Some gps) GPSDestLatitude (rationals_field IFD_GPSDESTLATITUDE);
    member (Some gps) GPSDestLongitudeRef (bytes_field IFD_GPSDESTLONGITUDEREF EXIF_ASCII);
    member (Some gps) GPSDestLatitude (fun _ => rationals_field IFD_GPSDESTLONGITUDE (GPSDestLongitude gps));
    member (Some gps) GPSDestBearingRef (bytes_field IFD_GPSDESTBEARINGREF EXIF_ASCII);
    member (Some gps) GPSDestBearing (rational_field IFD_GPSDESTBEARING);
    member (Some gps) GPSDestDistanceRef (bytes_field IFD_GPSDESTDISTANCEREF EXIF_ASCII);
    member (Some gps) GPSDestDistance (rational_field IFD_GPSDESTDISTANCE) ].

Definition gps_method (gps : EXIF_GPS_INFO_T) : list (option field) :=
  [ custom_member (Some gps) GPSProcessingMethod (custom_field IFD_GPSPROCESSINGMETHOD EXIF_UNDEFINED w_byte);
    custom_member (Some gps) GPSAreaInformation (custom_field IFD_GPSAREAINFORMATION EXIF_UNDEFINED w_byte);
    member (Some gps) GPSDateStamp (bytes_field IFD_GPSDATESTAMP EXIF_ASCII);
    member (Some gps) GPSDifferential (short_field IFD_GPSDIFFERENTIAL) ].

Definition gps_fields (gps : EXIF_GPS_INFO_T) : list field :=
  omap id (gps_position gps ++ gps_status gps ++ gps_destination gps ++ gps_method gps).

Definition primary_description (primary : EXIF_PRIMARY_INFO_T) : list (option field) :=
  let data_struct := data_struct_ptr primary in
  let img_desc := img_desc_ptr primary in
  let basic := pri_basic primary in
  [ member data_struct Reserved (short_field IFD_COMPRESSION);
    member img_desc ImageDescription (string_field IFD_IMAGEDESCRIPTION);
    member img_desc Make (string_field IFD_MAKE);
    member img_desc Model (string_field IFD_MODEL);
    member data_struct Orientation (short_field IFD_ORIENTATION);
    Some (rational_field IFD_XRESOLUTION (XResolution basic));
    Some (rational_field IFD_YRESOLUTION (YResolution basic));
    Some (short_field IFD_RESOLUTIONUNIT (ResolutionUnit basic)) ].

Definition primary_origin (primary : EXIF_PRIMARY_INFO_T) : list (option field) :=
  let data_char := data_char_ptr primary in
  let img_desc := img_desc_ptr primary in
  [ member data_char TransferFunction (shorts_field IFD_TRANSFERFUNCTION);
    member img_desc Software (string_field IFD_SOFTWARE);
    member img_desc DateTime (bytes_field IFD_DATETIME EXIF_ASCII);
    member img_desc Artist (string_field IFD_ARTIST);
    member data_char WhitePoint (rationals_field IFD_WHITEPOINT);
    member data_char PrimaryChromaticities (rationals_field IFD_PRIMARYCHROMATICITIES) ].

Definition primary_picture (primary : EXIF_PRIMARY_INFO_T) : list (option field) :=
  let data_char := data_char_ptr primary in
  let img_desc := img_desc_ptr primary in
  let basic := pri_basic primary in
  [ member data_char YCbCrCoefficients (rationals_field IFD_YCBCRCOEFFICIENTS);
    Some (short_field IFD_YCBCRPOSITION (YCbCrPositioning basic));
    Some (Field IFD_IMAGEWIDTH EXIF_LONG (Some 1) (le32 (ImageWidth basic)) w_short);
    Some (Field IFD_IMAGELENGTH EXIF_LONG (Some 1) (le32 (ImageLength basic)) w_short);
    member data_char ReferenceBlackWhite (rationals_field IFD_REFERENCEBLACKWHITE);
    member img_desc Copyright (string_field IFD_COPYRIGHT) ].

Definition inter_fields (inter : EXIF_INTEROPERABILITY_INFO_T) : list field :=
  omap id [ custom_member (Some inter) InteroperabilityIndex (custom_field IFD_INTEROPERABILITYINDEX EXIF_ASCII w_byte) ].

(** ** The directories of the file *)

Definition Jpeg_WriteExifInteroperabilityInfo (inter : EXIF_INTEROPERABILITY_INFO_T) (ifh_offset begin_offset : Z)
    : M JPEG_WRITE_STREAM_CONTEXT_T Z :=
  c <- begin_ifd 1 begin_offset ;;
  c <- write_fields ifh_offset (inter_fields inter) c ;;
  end_ifd 0 begin_offset c.

Definition Jpeg_WriteExifSpecInfo (spec : EXIF_SPECIFIC_INFO_T) (inter : option EXIF_INTEROPERABILITY_INFO_T)
    (ifh_offset begin_offset : Z) : M JPEG_WRITE_STREAM_CONTEXT_T Z :=
  c <- begin_ifd 57 begin_offset ;;
  c <- write_fields ifh_offset (spec_fields_1 spec) c ;;
  c <- match inter with
       | Some inter => write_pointer ifh_offset IFD_INTEROPERABILITYIFDPOINTER
           (Jpeg_WriteExifInteroperabilityInfo inter ifh_offset) c
       | None => ret c
       end ;;
  c <- write_fields ifh_offset (spec_fields_2 spec) c ;;
  end_ifd 0 begin_offset c.

Definition Jpeg_WriteExifGPSInfo (gps : EXIF_GPS_INFO_T) (ifh_offset begin_offset : Z)
    : M JPEG_WRITE_STREAM_CONTEXT_T Z :=
  c <- begin_ifd 31 begin_offset ;;
  c <- write_fields ifh_offset (gps_fields gps) c ;;
  end_ifd 0 begin_offset c.

(** The two entries of the thumbnail; its offset is not known yet. *)
Definition thumbnail_fields (thumbnail : list Z) : list field :=
  if zlen thumbnail >? 0 then
    [ long_field IFD_JPEGINTERCHANGEFORMAT 0; long_field IFD_JPEGINTERCHANGEFORMATLENGTH (zlen thumbnail) ]
  else [].

(** The thumbnail after the directory, and its offset. *)
Definition write_thumbnail (ifh_offset thumbnail_ifd_offset : Z) (thumbnail : list Z) (c : cursor)
    : M JPEG_WRITE_STREAM_CONTEXT_T cursor :=
  if zlen thumbnail >? 0 then
    let thumbnail_offset := le32 (u32 (ifd_value_offset c - ifh_offset)) in
    _ <- Jpeg_SetWritePos (ifd_value_offset c) ;;
    checked (Jpeg_WriteBlock thumbnail) ;;;
    vo <- Jpeg_GetWritePos ;;
    _ <- Jpeg_SetWritePos thumbnail_ifd_offset ;;
    r <- Jpeg_WriteLongIFD (IFD IFD_JPEGINTERCHANGEFORMAT EXIF_LONG 1 thumbnail_offset thumbnail_offset)
           thumbnail_ifd_offset vo ;;
    ret (Cursor (ifd_offset c) r.2 (entries c))
  else ret c.

(** No thumbnail is an empty one. *)
Definition Jpeg_WriteExifIFD (primary : EXIF_PRIMARY_INFO_T) (spec : option EXIF_SPECIFIC_INFO_T)
    (gps : option EXIF_GPS_INFO_T) (inter : option EXIF_INTEROPERABILITY_INFO_T) (thumbnail : list Z)
    (is_next_ifd_exist : bool) (ifh_offset begin_offset : Z) : M JPEG_WRITE_STREAM_CONTEXT_T Z :=
  c <- begin_ifd 24 begin_offset ;;
  c <- write_fields ifh_offset (omap id (primary_description primary ++ primary_origin primary)) c ;;
  let thumbnail_ifd_offset := ifd_offset c in
  c <- write_fields ifh_offset (thumbnail_fields thumbnail) c ;;
  c <- write_fields ifh_offset (omap id (primary_picture primary)) c ;;
  c <- match spec with
       | Some spec => write_pointer ifh_offset IFD_EXIFIFDPOINTER (Jpeg_WriteExifSpecInfo spec inter ifh_offset) c
       | None => ret c
       end ;;
  c <- match gps with
       | Some gps => write_pointer ifh_offset IFD_GPSIFDPOINTER (Jpeg_WriteExifGPSInfo gps ifh_offset) c
       | None => ret c
       end ;;
  c <- write_thumbnail ifh_offset thumbnail_ifd_offset thumbnail c ;;
  end_ifd (if is_next_ifd_exist then u32 (ifd_value_offset c - ifh_offset) else 0) begin_offset c.

Definition EXIF_BIG_ENDIAN : Z := 0x4D4D.
Definition EXIF_IFH_FIX_VALUE : Z := 0x002a.

Definition Jpeg_WriteIFH (begin_offset : Z) : M JPEG_WRITE_STREAM_CONTEXT_T Z :=
  _ <- Jpeg_SetWritePos begin_offset ;;
  checked (Jpeg_WriteW EXIF_BIG_ENDIAN) ;;;
  checked (Jpeg_WriteW EXIF_IFH_FIX_VALUE) ;;;
  checked (Jpeg_WriteL 8) ;;;
  Jpeg_GetWritePos.

Definition Jpeg_WriteSOIMarker (begin_offset : Z) : M JPEG_WRITE_STREAM_CONTEXT_T Z :=
  _ <- Jpeg_SetWritePos begin_offset ;;
  checked (Jpeg_WriteC 0xFF) ;;;
  checked (Jpeg_WriteC 0xD8) ;;;
  Jpeg_GetWritePos.

Definition exif_id : list Z := [69; 120; 105; 102; 0; 0].

Definition Jpeg_WriteAPP1Header (begin_offset app1_length : Z) : M JPEG_WRITE_STREAM_CONTEXT_T Z :=
  _ <- Jpeg_SetWritePos begin_offset ;;
  checked (Jpeg_WriteC 0xFF) ;;;
  checked (Jpeg_WriteC 0xE1) ;;;
  checked (Jpeg_WriteW app1_length) ;;;
  forM exif_id (fun c => checked (Jpeg_WriteC c)) ;;;
  Jpeg_GetWritePos.

(** The members of the thumbnail's directory; the others are zero. *)
Definition ifd1_primary : EXIF_PRIMARY_INFO_T :=
  PrimaryInfo (PriBasic 1 (Rational 72 1) (Rational 72 1) 2 0 0)
    (Some (PriDataStruct (Some 1) (Some 6))) None None 0.

(** After the checks of the arguments; the size of the segment. *)
Definition WriteAPP1_body (exif_info : JINF_EXIF_INFO_T) (thumbnail : list Z) : M JPEG_WRITE_STREAM_CONTEXT_T Z :=
  let ifh_offset := 10 in
  begin_offset <- Jpeg_WriteIFH ifh_offset ;;
  let is_ifd1_exist := zlen thumbnail >? 0 in
  end_offset <- Jpeg_WriteExifIFD (primary exif_info) (spec_ptr exif_info) (gps_ptr exif_info) (inter_ptr exif_info)
                  [] is_ifd1_exist ifh_offset begin_offset ;;
  end_offset <- (if is_ifd1_exist then
                   Jpeg_WriteExifIFD ifd1_primary None None None thumbnail false ifh_offset end_offset
                 else ret end_offset) ;;
  let app1_length := u16 (u16 end_offset - 2) in
  _ <- Jpeg_WriteAPP1Header 0 app1_length ;;
  ret (app1_length + 2).

Definition JPEG_SUCCESS : Z := 0.
Definition JPEGE_INVALID_ARGUMENT : Z := -3.
Definition JPEG_MEMORY_NOT_ENOUGH : Z := 2.
Definition JPEG_FAILED : Z := 0xff.

(** A function that returns a code and, when it succeeds, a result. *)
Definition code_of {S A} (m : M S A) : M S (Z * option A) := fun s =>
  match m s with
  | Ret a s' => Ret (JPEG_SUCCESS, Some a) s'
  | Exit s' => Ret (JPEG_FAILED, None) s'
  | Bad f => Bad f
  end.

(** The state is the target buffer; [target_buf] says whether there is one. *)
Definition Jpeg_WriteAPP1 (target_buf : bool) (exif_info : option JINF_EXIF_INFO_T) (thumbnail : list Z)
    : M (list Z) (Z * option Z) :=
  match exif_info with
  | None => ret (JPEGE_INVALID_ARGUMENT, None)
  | Some exif_info =>
      buf <- get ;;
      if negb target_buf || (zlen buf <? 10) then ret (JPEG_MEMORY_NOT_ENOUGH, None) else
      zoom (fun buf => WriteStream buf (Some 0) None 0 []) (fun s _ => write_buf s)
        (code_of (WriteAPP1_body exif_info thumbnail))
  end.

(** ** A file with an APP1 segment *)

(** Pointers into the target buffer, which also holds the picture, are
    indices; [temp_buf_ptr] and [target_buf_ptr] say whether there is one.
    The callback takes an offset and bytes; it says whether it succeeded and
    how many bytes it took. *)
Record JINF_WEXIF_IN_PARAM_T := WExifInParam {
  exif_info_ptr : option JINF_EXIF_INFO_T;
  src_jpeg_buf_ptr : option Z;
  src_jpeg_size : Z;
  thumbnail_buf : list Z;
  temp_buf_ptr : bool;
  target_buf_ptr : bool;
  wrtie_file_func : option (Z -> list Z -> bool * Z)
}.

(** The buffers, and the calls of the callback. *)
Record wexif := WExif {
  temp_buf : list Z;
  target : list Z;
  file : list (Z * list Z)
}.

Definition write_app1 (p : JINF_WEXIF_IN_PARAM_T) : M wexif (Z * option Z) :=
  zoom temp_buf (fun b s => WExif b (target s) (file s))
    (Jpeg_WriteAPP1 (temp_buf_ptr p) (exif_info_ptr p) (thumbnail_buf p)).

(** The code, and the place and size of the result. *)
Definition JPEG_AddExifToMemory (p : JINF_WEXIF_IN_PARAM_T) (src : Z) : M wexif (Z * option (Z * Z)) :=
  r <- write_app1 p ;;
  match r with
  | (_, None) => ret (r.1, None)
  | (_, Some app1_size) =>
      let free_buf_size := u32 src in
      if free_buf_size <? app1_size then ret (JPEG_MEMORY_NOT_ENOUGH, None) else
      s <- get ;;
      let out := src - app1_size in
      app1 <- lift OutOfBounds (slice (temp_buf s) 0 app1_size) ;;
      t <- lift OutOfBounds (store (target s) out ([0xFF; 0xD8] ++ app1)) ;;
      modify (fun s => WExif (temp_buf s) t (file s)) ;;;
      ret (JPEG_SUCCESS, Some (out, u32 (app1_size + src_jpeg_size p)))
  end.

Definition call_write (f : Z -> list Z -> bool * Z) (offset : Z) (data : list Z) : M wexif Z :=
  let r := f offset data in
  modify (fun s => WExif (temp_buf s) (target s) (file s ++ [(offset, data)])) ;;;
  require (r.1 && (zlen data =? r.2)) ;;;
  ret r.2.

Definition JPEG_AddExifToFile (p : JINF_WEXIF_IN_PARAM_T) (f : Z -> list Z -> bool * Z) : M wexif Z :=
  r <- write_app1 p ;;
  match r with
  | (_, None) => ret r.1
  | (_, Some app1_size) =>
      r <- code_of (
        n1 <- call_write f 0 [0xFF; 0xD8] ;;
        s <- get ;;
        app1 <- lift OutOfBounds (slice (temp_buf s) 0 app1_size) ;;
        n2 <- call_write f n1 app1 ;;
        src <- lift NullPointer (src_jpeg_buf_ptr p) ;;
        jpeg <- lift OutOfBounds (slice (target s) (src + 2) (u32 (src_jpeg_size p - 2))) ;;
        call_write f (u32 (n1 + n2)) jpeg) ;;
      ret r.1
  end.

Definition JINF_SUCCESS : Z := 0.
Definition JINF_MEMORY_NOT_ENOUGH : Z := 3.
Definition JINF_FAILED : Z := 0xff.

Definition jinf_code (code : Z) : Z := if code =? JPEG_SUCCESS then JINF_SUCCESS else JINF_FAILED.

(** The code, and [*out_param_ptr] where it is written. *)
Definition IMGJPEG_WriteExif (in_param : option JINF_WEXIF_IN_PARAM_T) : M wexif (Z * option (Z * Z)) :=
  match in_param with
  | None => ret (JPEGE_INVALID_ARGUMENT, None)
  | Some p =>
      match exif_info_ptr p, src_jpeg_buf_ptr p, temp_buf_ptr p with
      | None, None, false => ret (JPEGE_INVALID_ARGUMENT, None)
      | _, _, _ =>
          match wrtie_file_func p with
          | Some f => code <- JPEG_AddExifToFile p f ;; ret (jinf_code code, None)
          | None =>
              if negb (target_buf_ptr p) then ret (JPEGE_INVALID_ARGUMENT, None) else
              match src_jpeg_buf_ptr p with
              | None => ret (JINF_MEMORY_NOT_ENOUGH, None)
              | Some src =>
                  if src <=? 0 then ret (JINF_MEMORY_NOT_ENOUGH, None) else
                  r <- JPEG_AddExifToMemory p src ;;
                  ret (jinf_code r.1, r.2)
              end
          end
      end
  end.

(** ** Date and time *)

Record JINF_DATE_T := Date { year : Z; month : Z; day : Z }.
Record JINF_TIME_T := Time { hour : Z; minute : Z; second : Z }.

(** The digits of a number of at most five, and [%0wd]. *)
Fixpoint digits (fuel : nat) (n : Z) : list Z :=
  match fuel with
  | O => []
  | S fuel => if n <? 10 then [48 + n] else digits fuel (n / 10) ++ [48 + n mod 10]
  end.
Definition padded (w : nat) (n : Z) : list Z :=
  let d := digits 5 n in
  replicate (w - length d) 48 ++ d.

Definition date_time_string (d : JINF_DATE_T) (t : JINF_TIME_T) : list Z :=
  padded 4 (year d) ++ [58] ++ padded 2 (month d) ++ [58] ++ padded 2 (day d) ++ [32]
  ++ padded 2 (hour t) ++ [58] ++ padded 2 (minute t) ++ [58] ++ padded 2 (second t).

(** The state is the string's buffer. *)
Definition IMGJPEG_FormatDateTime (d : JINF_DATE_T) (t : JINF_TIME_T) : M (list Z) Z :=
  buf <- get ;;
  if zlen buf <? 20 then ret JINF_MEMORY_NOT_ENOUGH else
  buf <- lift OutOfBounds (store buf 0 (date_time_string d t ++ [0])) ;;
  modify (fun _ => buf) ;;;
  ret JINF_SUCCESS.
