(* ===== verification/ExifProofs.v ===== *)
(** * What the EXIF writer writes

    A reader for the directories of an EXIF segment, written from the format,
    and the proof that it finds in the output of ExifWriter.v every member
    that was to be written, with its value. *)
From stdpp Require Import base list vector.
From Stdlib Require Import ZArith Lia.
From S2P Require Import Prelude ExifTypes ExifStream ExifWriter.

(** ** The format *)

(** Numbers in a file (big-endian) and in memory (little-endian). *)
Definition be_join (bs : list Z) : Z := foldl (fun v b => v * 256 + b) 0 bs.
Definition le_join (bs : list Z) : Z := foldr (fun b v => b + 256 * v) 0 bs.
Definition load_be (sz : Z) (l : list Z) (i : Z) : option Z := be_join <$> slice l i sz.
Definition load_le (sz : Z) (l : list Z) (i : Z) : option Z := le_join <$> slice l i sz.

(** The values of an entry are numbers of one, two or four bytes; a rational
    is two of them. *)
Definition is_rational (ty : Z) : bool := (ty =? EXIF_RATIONAL) || (ty =? EXIF_SRATIONAL).
Definition elem_size (ty : Z) : Z :=
  if (ty =? EXIF_BYTE) || (ty =? EXIF_ASCII) || (ty =? EXIF_UNDEFINED) then 1
  else if ty =? EXIF_SHORT then 2 else 4.
Definition elem_count (ty n : Z) : Z := if is_rational ty then 2 * n else n.

Record entry := Entry {
  e_tag : Z;
  e_type : Z;
  e_count : Z;
  e_values : list Z
}.

#[export] Instance entry_eq_dec : EqDecision entry.
Proof. solve_decision. Defined.

Definition elements (load : Z -> list Z -> Z -> option Z) (ty n : Z) (l : list Z) (at_ : Z) : option (list Z) :=
  mapM (fun k => load (elem_size ty) l (at_ + elem_size ty * k)) (upto (Z.to_nat (elem_count ty n))).

(** The entry at [p]: values of at most four bytes are in the entry, others
    at an offset from the header. *)
Definition read_entry (buf : list Z) (ifh p : Z) : option entry :=
  t ← load_be 2 buf p;
  ty ← load_be 2 buf (p + 2);
  n ← load_be 4 buf (p + 4);
  at_ ← (if elem_size ty * elem_count ty n <=? 4 then Some (p + 8)
         else offset ← load_be 4 buf (p + 8); Some (ifh + offset));
  vs ← elements load_be ty n buf at_;
  Some (Entry t ty n vs).

(** A directory: its entries, and the offset of the next one. *)
Definition read_ifd (buf : list Z) (ifh begin : Z) : option (list entry * Z) :=
  n ← load_be 2 buf begin;
  es ← mapM (fun k => read_entry buf ifh (begin + 2 + 12 * k)) (upto (Z.to_nat n));
  next ← load_be 4 buf (begin + 2 + 12 * n);
  Some (es, next).

(** The entry a block is to write. *)
Definition entry_of (f : field) : option entry :=
  n ← field_count f;
  vs ← elements load_le (f_type f) n (f_ptr f) 0;
  Some (Entry (f_tag f) (f_type f) n vs).

(** ** Bytes at a place *)

Definition has (l : list Z) (i : Z) (bs : list Z) : Prop :=
  0 <= i /\ forall k b, aget bs k = Some b -> aget l (i + k) = Some b.

Lemma has_range l i bs : has l i bs -> bs <> [] -> i + zlen bs <= zlen l.
Proof.
  intros [Hi H] Hne. destruct (decide (zlen bs <= 0)) as [Hz|Hz]; [unfold zlen in Hz; destruct bs; [done|cbn in Hz; lia]|].
  destruct (aget_is_Some bs (zlen bs - 1)) as [b Hb]; [lia|]. apply H in Hb.
  destruct (decide (i + zlen bs <= zlen l)) as [|Hn]; [done|]. rewrite aget_None in Hb by lia. done.
Qed.

Lemma has_slice l i bs : has l i bs -> slice l i (zlen bs) = Some bs.
Proof.
  intros Hh. destruct bs as [|x bs].
  - unfold slice. change (zlen (@nil Z)) with 0. cbn. destruct Hh as [Hi _].
    by rewrite (proj2 (Z.leb_le _ _)) by lia.
  - pose proof (has_range _ _ _ Hh ltac:(done)) as Hr. destruct Hh as [Hi H].
    set (bs' := x :: bs) in *. unfold slice.
    assert (E : take (Z.to_nat (zlen bs')) (drop (Z.to_nat i) l) = bs').
    { apply list_eq. intros k. unfold zlen in *. destruct (decide (k < length bs')%nat) as [Hk|Hk].
      - rewrite lookup_take_lt by lia. rewrite lookup_drop. destruct (lookup_lt_is_Some_2 bs' k Hk) as [b Hb].
        rewrite Hb. specialize (H (Z.of_nat k) b). rewrite aget_nat in H. specialize (H Hb).
        unfold aget in H. rewrite (proj2 (Z.leb_le _ _)) in H by lia. rewrite <- H. f_equal. lia.
      - rewrite lookup_take_ge by lia. symmetry. apply lookup_ge_None_2. lia. }
    rewrite E. by rewrite (proj2 (Z.leb_le _ _)), Z.eqb_refl by lia.
Qed.

Lemma has_app l i a b : has l i (a ++ b) <-> has l i a /\ has l (i + zlen a) b.
Proof.
  pose proof (zlen_nonneg a) as Hz. split.
  - intros [Hi H]. split; split; try lia; intros k x Hk.
    + apply H. pose proof Hk as [Hk0 _]%aget_Some. rewrite aget_app by lia.
      destruct (Z.ltb_spec k (zlen a)); [done|]. rewrite aget_None in Hk by lia. done.
    + rewrite <- Z.add_assoc. apply H. pose proof Hk as [Hk0 _]%aget_Some. rewrite aget_app by lia.
      rewrite (proj2 (Z.ltb_ge _ _)) by lia. rewrite <- Hk. f_equal. lia.
  - intros [ [Hi Ha] [_ Hb] ]. split; [done|]. intros k x Hk. pose proof Hk as [Hk0 _]%aget_Some.
    rewrite aget_app in Hk by lia. destruct (Z.ltb_spec k (zlen a)); [by apply Ha|].
    apply Hb in Hk. rewrite <- Hk. f_equal. lia.
Qed.

Lemma has_put buf p bs : 0 <= p -> p + zlen bs <= zlen buf -> has (put buf p bs) p bs.
Proof.
  intros Hp Hl. split; [done|]. intros k b Hk. rewrite aget_put by done.
  destruct (decide (0 <= k < zlen bs)) as [Hr|Hr].
  - rewrite (proj2 (Z.leb_le _ _)), (proj2 (Z.ltb_lt _ _)) by lia. cbn. rewrite <- Hk. f_equal. lia.
  - rewrite aget_None in Hk by lia. done.
Qed.

(** [buf'] is [buf] on an interval. *)
Definition same_on (a b : Z) (buf buf' : list Z) : Prop :=
  forall i, a <= i < b -> aget buf' i = aget buf i.

Lemma has_same a b buf buf' i bs : same_on a b buf buf' -> a <= i -> i + zlen bs <= b -> has buf i bs -> has buf' i bs.
Proof.
  intros Hs Ha Hb [Hi H]. split; [done|]. intros k x Hk.
  destruct (decide (0 <= k < zlen bs)) as [Hr|Hr]; [|by rewrite aget_None in Hk by lia].
  rewrite Hs by lia. by apply H.
Qed.

Lemma same_on_put a b buf p bs :
  0 <= p -> p + zlen bs <= zlen buf -> b <= p \/ p + zlen bs <= a -> same_on a b buf (put buf p bs).
Proof.
  intros Hp Hl Hd i Hi. rewrite aget_put by done.
  destruct (Z.leb_spec p i), (Z.ltb_spec i (p + zlen bs)); cbn [andb]; try done. lia.
Qed.

Lemma same_on_trans a b x y z : same_on a b x y -> same_on a b y z -> same_on a b x z.
Proof. intros H1 H2 i Hi. rewrite H2, H1 by done. done. Qed.
Lemma same_on_sub a b c d x y : same_on a b x y -> a <= c -> d <= b -> same_on c d x y.
Proof. intros H ?? i ?. apply H. lia. Qed.
Lemma same_on_sym a b x y : same_on a b x y -> same_on a b y x.
Proof. intros H i Hi. by rewrite H. Qed.

(** ** Numbers *)

Lemma be_join_8 v : be_join [u8 v] = u8 v.
Proof. done. Qed.
Lemma be_join_16 v : be_join (be16 v) = u16 v.
Proof. unfold be_join, be16. cbn [foldl]. rewrite shiftr8. wrap_lia. Qed.
Lemma be_join_32 v : be_join (be32 v) = u32 v.
Proof. unfold be_join, be32. cbn [foldl]. rewrite shiftr8, shiftr16, shiftr24. wrap_lia. Qed.
Lemma le_join_16 v : le_join (le16 v) = u16 v.
Proof. unfold le_join, le16. cbn [foldr]. rewrite shiftr8. wrap_lia. Qed.
Lemma le_join_32 v : le_join (le32 v) = u32 v.
Proof. unfold le_join, le32. cbn [foldr]. rewrite shiftr8, shiftr16, shiftr24. wrap_lia. Qed.

Lemma slice_cons l i n : 0 <= n ->
  slice l i (1 + n) = (a ← aget l i; bs ← slice l (i + 1) n; Some (a :: bs)).
Proof.
  intros Hn. unfold slice, aget. destruct (Z.leb_spec 0 i) as [Hi|Hi]; [|by rewrite andb_false_l].
  rewrite (proj2 (Z.leb_le 0 (i + 1))) by lia. cbn [andb].
  replace (Z.to_nat (i + 1)) with (S (Z.to_nat i)) by lia. replace (Z.to_nat (1 + n)) with (S (Z.to_nat n)) by lia.
  destruct (l !! Z.to_nat i) as [a|] eqn:E.
  - rewrite (drop_S l a _ E). cbn [firstn]. rewrite !obind_Some, zlen_cons.
    destruct (Z.eqb_spec (1 + zlen (take (Z.to_nat n) (drop (S (Z.to_nat i)) l))) (1 + n)),
      (Z.eqb_spec (zlen (take (Z.to_nat n) (drop (S (Z.to_nat i)) l))) n); (done || lia).
  - apply lookup_ge_None in E. rewrite (drop_ge l) by lia. cbn. destruct (Z.eqb_spec (zlen (@nil Z)) (1 + n)) as [Hz|]; [|done].
    unfold zlen in Hz. cbn in Hz. lia.
Qed.

Lemma slice_0 l i : 0 <= i -> slice l i 0 = Some [].
Proof. intros Hi. unfold slice. cbn. by rewrite (proj2 (Z.leb_le 0 i)) by done. Qed.

Lemma slice_1 l i : slice l i 1 = (a ← aget l i; Some [a]).
Proof.
  change 1 with (1 + 0) at 1. rewrite slice_cons by lia. destruct (aget l i) as [a|] eqn:E; [|done].
  rewrite !obind_Some. apply aget_Some in E as [? _]. by rewrite slice_0 by lia.
Qed.

Lemma aget_byte l i a : bytes l -> aget l i = Some a -> byte a.
Proof. intros Hb [_ H]%aget_Some. by eapply bytes_lookup. Qed.

(** The source's accesses to memory are little-endian. *)
Lemma load16_le l i : bytes l -> load16 l i = load_le 2 l i.
Proof.
  intros Hb. unfold load16, load_le. change 2 with (1 + 1) at 1. rewrite slice_cons, slice_1 by lia.
  destruct (aget l i) as [a|] eqn:Ea; [|done]. rewrite !obind_Some.
  destruct (aget l (i + 1)) as [b|] eqn:Eb; [|done]. rewrite !obind_Some. cbn. f_equal.
  rewrite Z.lor_comm, lor_shiftl8 by by eapply aget_byte. lia.
Qed.

Lemma load32_le l i : bytes l -> load32 l i = load_le 4 l i.
Proof.
  intros Hb. unfold load32, load_le. change 4 with (1 + (1 + (1 + 1))) at 1. rewrite !slice_cons, slice_1 by lia.
  rewrite <- !Z.add_assoc. change (1 + (1 + 1)) with 3. change (1 + 1) with 2.
  destruct (aget l i) as [a|] eqn:Ea; [|done]. rewrite !obind_Some.
  destruct (aget l (i + 1)) as [b|] eqn:Eb; [|done]. rewrite !obind_Some.
  destruct (aget l (i + 2)) as [c|] eqn:Ec; [|done]. rewrite !obind_Some.
  destruct (aget l (i + 3)) as [d|] eqn:Ed; [|done]. rewrite !obind_Some. cbn. f_equal.
  apply aget_byte in Ea, Eb, Ec, Ed; [|done..]. unfold byte in *.
  rewrite (Z.lor_comm a), (lor_shiftl b a 8) by lia. rewrite (Z.lor_comm _ (Z.shiftl c 16)), (lor_shiftl c _ 16) by lia.
  rewrite (Z.lor_comm _ (Z.shiftl d 24)), (lor_shiftl d _ 24) by lia. lia.
Qed.

Lemma has_load_8 l i v : has l i [u8 v] -> load_be 1 l i = Some (u8 v).
Proof. intros H%has_slice. unfold load_be. change (zlen [u8 v]) with 1 in H. by rewrite H. Qed.
Lemma has_load_16 l i v : has l i (be16 v) -> load_be 2 l i = Some (u16 v).
Proof. intros H%has_slice. unfold load_be. change (zlen (be16 v)) with 2 in H. rewrite H. cbn [fmap option_fmap option_map]. by rewrite be_join_16. Qed.
Lemma has_load_32 l i v : has l i (be32 v) -> load_be 4 l i = Some (u32 v).
Proof. intros H%has_slice. unfold load_be. change (zlen (be32 v)) with 4 in H. rewrite H. cbn [fmap option_fmap option_map]. by rewrite be_join_32. Qed.

Lemma le_join_range bs : bytes bs -> 0 <= le_join bs < 256 ^ zlen bs.
Proof.
  induction 1 as [|b bs Hb _ IH]; [done|]. cbn [le_join foldr]. rewrite zlen_cons.
  change (foldr (fun b v => b + 256 * v) 0 bs) with (le_join bs). pose proof (zlen_nonneg bs).
  rewrite Z.pow_add_r by lia. change (256 ^ 1) with 256. unfold byte in Hb. lia.
Qed.

Lemma load_le_range sz l i v : bytes l -> load_le sz l i = Some v -> 0 <= v < 256 ^ sz.
Proof.
  unfold load_le. intros Hb. destruct (slice l i sz) as [bs|] eqn:E; [|done]. intros [= <-].
  apply slice_Some in E as (Eb & _ & <-). apply le_join_range. rewrite Eb. by apply Forall_take, Forall_drop.
Qed.

(** ** One entry *)

(** The values as the file has them. *)
Definition be_bytes (sz v : Z) : list Z :=
  if sz =? 1 then [u8 v] else if sz =? 2 then be16 v else be32 v.
Definition image (sz m : Z) (l : list Z) : list Z :=
  concat ((fun k => be_bytes sz (default 0 (load_le sz l (sz * k)))) <$> upto (Z.to_nat m)).

Lemma zlen_be_bytes sz v : sz = 1 \/ sz = 2 \/ sz = 4 -> zlen (be_bytes sz v) = sz.
Proof. by intros [->|[->| ->] ]. Qed.

Lemma elem_size_cases ty : elem_size ty = 1 \/ elem_size ty = 2 \/ elem_size ty = 4.
Proof. unfold elem_size. repeat case_match; auto. Qed.

Lemma has_be_bytes sz l i v :
  sz = 1 \/ sz = 2 \/ sz = 4 -> 0 <= v < 256 ^ sz -> has l i (be_bytes sz v) -> load_be sz l i = Some v.
Proof.
  intros [->|[->| ->] ] Hv H; cbn [be_bytes Z.eqb] in H.
  - rewrite (has_load_8 _ _ _ H). by rewrite u8_small.
  - apply has_load_16 in H. rewrite H. by rewrite u16_small.
  - apply has_load_32 in H. rewrite H. by rewrite u32_small.
Qed.

Lemma zlen_concat {A} (g : A -> list Z) sz l : (forall k, zlen (g k) = sz) -> zlen (concat (g <$> l)) = zlen l * sz.
Proof.
  intros Hg. induction l as [|k l IH]; [done|]. cbn [fmap list_fmap concat]. rewrite zlen_app, zlen_cons, Hg.
  change (map g l) with (g <$> l). rewrite IH. lia.
Qed.

Lemma zlen_upto n : zlen (upto n) = Z.of_nat n.
Proof. unfold zlen, upto. by rewrite length_fmap, length_seq. Qed.

Lemma zlen_image sz m l : sz = 1 \/ sz = 2 \/ sz = 4 -> 0 <= m -> zlen (image sz m l) = sz * m.
Proof.
  intros Hs Hm. unfold image. rewrite (zlen_concat _ sz) by (intros; by apply zlen_be_bytes). rewrite zlen_upto. lia.
Qed.

Lemma upto_S n : upto (S n) = upto n ++ [Z.of_nat n].
Proof. unfold upto. by rewrite seq_S, fmap_app. Qed.

Lemma has_concat (g : Z -> list Z) sz n l i k :
  (forall k, zlen (g k) = sz) -> has l i (concat (g <$> upto n)) -> 0 <= k < Z.of_nat n -> has l (i + sz * k) (g k).
Proof.
  intros Hg. induction n as [|n IH]; [lia|]. rewrite upto_S, fmap_app, concat_app. cbn [fmap list_fmap concat].
  rewrite app_nil_r, has_app, (zlen_concat _ sz), zlen_upto by done. intros [H1 H2] Hk.
  destruct (decide (k = Z.of_nat n)) as [->|]; [|apply IH; [done|lia] ].
  by replace (i + sz * Z.of_nat n) with (i + Z.of_nat n * sz) by lia.
Qed.

Lemma mapM_upto_ext {A} (f g : Z -> option A) n :
  (forall k, 0 <= k < Z.of_nat n -> f k = g k) -> mapM f (upto n) = mapM g (upto n).
Proof.
  intros H. assert (Hin : Forall (fun k => f k = g k) (upto n)).
  { apply Forall_forall. intros k Hk. unfold upto in Hk. apply list_elem_of_fmap in Hk as (j & -> & Hj).
    apply elem_of_seq in Hj. apply H. lia. }
  induction Hin as [|k l E _ IH]; [done|]. cbn [mapM]. rewrite E. destruct (g k); [|done]. cbn. by rewrite IH.
Qed.

Lemma mapM_upto_Some {A} (f : Z -> option A) n vs k :
  mapM f (upto n) = Some vs -> 0 <= k < Z.of_nat n -> is_Some (f k).
Proof.
  intros H%mapM_Some_1 Hk. assert (Hl : upto n !! Z.to_nat k = Some k).
  { unfold upto. rewrite list_lookup_fmap, lookup_seq_lt by lia. cbn. f_equal. lia. }
  destruct (Forall2_lookup_l _ _ _ _ _ H Hl) as (v & _ & Hv). by exists v.
Qed.

(** The numbers read where the image of a value lies are those of the value. *)
Lemma elements_image ty n l vs buf at_ :
  bytes l -> elements load_le ty n l 0 = Some vs -> has buf at_ (image (elem_size ty) (elem_count ty n) l) ->
  elements load_be ty n buf at_ = Some vs.
Proof.
  intros Hb E Hh. pose proof (elem_size_cases ty) as Hs. rewrite <- E. unfold elements in *.
  apply mapM_upto_ext. intros k Hk. destruct (mapM_upto_Some _ _ _ k E Hk) as [v Hv]. rewrite Hv.
  apply has_be_bytes; [done|by eapply load_le_range|].
  pose proof (has_concat _ (elem_size ty) _ _ _ k ltac:(intros; by apply zlen_be_bytes) Hh Hk) as H.
  cbv beta in H. rewrite Z.add_0_l in Hv. by rewrite Hv in H.
Qed.

Definition header (i : IFD_INFO_T) (v : Z) : list Z := be16 (tag i) ++ be16 (type i) ++ be32 (count i) ++ be32 v.

Lemma write_header_mem s i v buf p io :
  offset_value i = Some v -> 0 <= io -> io + 12 <= zlen buf ->
  write_header i io (in_memory buf p s) = Ret (io + 12) (in_memory (put buf io (header i v)) (io + 12) s).
Proof.
  intros Hv Hio Hl. unfold write_header, Jpeg_WriteIFD.
  erewrite checked_mem by by apply SetWritePos_mem; lia. rewrite (start_put s buf io) by lia.
  rewrite bind_assoc. erewrite checked_mem by by apply WriteW_put; len_lia.
  rewrite bind_assoc. erewrite checked_mem by by apply WriteW_put; len_lia.
  rewrite bind_assoc. erewrite checked_mem by by apply WriteL_put; len_lia.
  rewrite bind_assoc. rewrite Hv. erewrite bind_Ret by reflexivity. cbv beta.
  erewrite checked_mem by by apply WriteL_put; len_lia. rewrite !app_nil_l, <- !app_assoc.
  change (be16 (tag i) ++ _) with (header i v). change (zlen (header i v)) with 12.
  rewrite GetWritePos_mem; [done|]. rewrite zlen_put by (change (zlen (header i v)) with 12; lia). lia.
Qed.

(** [io] and [vo] are where the entry and its value go. What reads the entry
    depends on nothing else. *)
Definition unchanged (io vo vo' : Z) (buf buf' : list Z) : Prop :=
  forall i, ~ io <= i < io + 12 -> ~ vo <= i < vo' -> aget buf' i = aget buf i.

Definition entry_at (buf : list Z) (ifh io vo vo' : Z) (e : entry) : Prop :=
  forall buf', same_on io (io + 12) buf buf' -> same_on vo vo' buf buf' -> read_entry buf' ifh io = Some e.

(** What there is of an entry in the memory. *)
Record described (i : IFD_INFO_T) (e : entry) : Prop := Described {
  d_tag : 0 <= tag i < 65536;
  d_type : 0 <= type i < 65536;
  d_count : 0 < count i < 65536;
  d_bytes : bytes (value_ptr i);
  d_values : exists vs, elements load_le (type i) (count i) (value_ptr i) 0 = Some vs /\
    e = Entry (tag i) (type i) (count i) vs
}.

Definition value_image (i : IFD_INFO_T) : list Z :=
  image (elem_size (type i)) (elem_count (type i) (count i)) (value_ptr i).
Definition value_size (i : IFD_INFO_T) : Z := elem_size (type i) * elem_count (type i) (count i).

Lemma elem_count_pos ty n : 0 < n -> n <= elem_count ty n.
Proof. unfold elem_count. case_match; lia. Qed.

Lemma zlen_value_image i : 0 < count i -> zlen (value_image i) = value_size i.
Proof.
  intros H. apply zlen_image; [apply elem_size_cases|]. pose proof (elem_count_pos (type i) _ H). lia.
Qed.

Lemma read_header buf ifh io i e v :
  described i e -> has buf io (header i v) ->
  has buf (if value_size i <=? 4 then io + 8 else ifh + u32 v) (value_image i) ->
  read_entry buf ifh io = Some e.
Proof.
  intros [Ht Hty Hc Hb (vs & Hvs & ->)] Hh Hi. unfold header in Hh. rewrite !has_app in Hh.
  destruct Hh as (H1 & H2 & H3 & H4). change (zlen (be16 (tag i))) with 2 in *. change (zlen (be16 (type i))) with 2 in *.
  change (zlen (be32 (count i))) with 4 in *. rewrite <- !Z.add_assoc in *. change (2 + 2) with 4 in *.
  change (4 + 4) with 8 in *. change (2 + (2 + 4)) with 8 in *.
  apply has_load_16 in H1, H2. apply has_load_32 in H3, H4. unfold read_entry. rewrite H1, H2, H3, H4.
  rewrite !obind_Some, !u16_small, u32_small by lia. fold (value_size i).
  destruct (value_size i <=? 4); rewrite obind_Some; by erewrite elements_image by done.
Qed.

Lemma entry_inline buf ifh io vo i e v rest :
  described i e -> value_size i <= 4 -> be32 v = value_image i ++ rest -> 0 <= io -> io + 12 <= zlen buf ->
  let buf' := put buf io (header i v) in
  zlen buf' = zlen buf /\ unchanged io vo vo buf buf' /\ entry_at buf' ifh io vo vo e.
Proof.
  intros Hd Hs Hv Hio Hl buf'. assert (Hz : zlen (header i v) = 12) by done.
  split; [by apply zlen_put; lia|]. split.
  - intros k Hk _. apply (same_on_put k (k + 1)); lia.
  - intros b Hb _. assert (Hh : has b io (header i v)).
    { eapply has_same; [exact Hb|lia|lia|]. apply has_put; lia. }
    eapply read_header; [done..|]. rewrite (proj2 (Z.leb_le _ _)) by lia.
    unfold header in Hh. rewrite !has_app in Hh. destruct Hh as (_ & _ & _ & Hh). rewrite Hv, has_app in Hh.
    destruct Hh as [Hh _]. rewrite <- !Z.add_assoc in Hh. exact Hh.
Qed.

Lemma entry_outline buf ifh io vo vo' i e :
  described i e -> 4 < value_size i -> 0 <= io -> io + 12 <= vo -> vo + value_size i <= vo' ->
  vo' <= zlen buf -> ifh <= vo -> vo - ifh < 4294967296 ->
  let buf' := put (put buf io (header i (u32 (vo - ifh)))) vo (value_image i) in
  zlen buf' = zlen buf /\ unchanged io vo vo' buf buf' /\ entry_at buf' ifh io vo vo' e.
Proof.
  intros Hd Hs Hio Hiv Hvo Hl Hifh Hu buf'. set (v := u32 (vo - ifh)) in *.
  assert (Hz : zlen (header i v) = 12) by done.
  assert (Hi : zlen (value_image i) = value_size i) by (apply zlen_value_image; by destruct Hd; lia).
  assert (Hz1 : zlen (put buf io (header i v)) = zlen buf) by (apply zlen_put; lia).
  split; [unfold buf'; rewrite zlen_put; lia|]. split.
  - intros k Hk1 Hk2. eapply (same_on_trans k (k + 1)); [apply same_on_put|apply same_on_put|]; lia.
  - intros b Hb1 Hb2. assert (Hh : has b io (header i v)).
    { eapply has_same; [exact Hb1|lia|lia|]. eapply has_same; [apply (same_on_put io (io + 12))|lia|lia|apply has_put]; lia. }
    eapply read_header; [done..|]. rewrite (proj2 (Z.leb_gt _ _)) by lia.
    replace (ifh + u32 v) with vo by (unfold v; rewrite !u32_small by (rewrite ?u32_small by lia; lia); lia).
    eapply has_same; [exact Hb2|lia|lia|]. apply has_put; lia.
Qed.

(** ** The four writers *)

Lemma align_bounds p : 0 <= p < 4294967000 -> p <= JPEG_ALIGN_4 p <= p + 3 /\ JPEG_ALIGN_4 p mod 4 = 0.
Proof.
  intros Hp. unfold JPEG_ALIGN_4. rewrite Z.shiftr_div_pow2, Z.shiftl_mul_pow2 by lia. change (2 ^ 2) with 4.
  rewrite (u32_small (p + 3)) by lia. rewrite u32_small by (Z.div_mod_to_equations; lia).
  Z.div_mod_to_equations. lia.
Qed.

Definition value_end (i : IFD_INFO_T) (vo : Z) : Z :=
  if value_size i <=? 4 then vo else JPEG_ALIGN_4 (vo + value_size i).

(** The writer is the one for the type. An image's width is a long written
    by the writer of shorts, which is right for one that fits. *)
Definition suits (w : ifd_writer) (i : IFD_INFO_T) : Prop :=
  match w with
  | w_byte => elem_size (type i) = 1
  | w_short => type i = EXIF_SHORT \/
      type i = EXIF_LONG /\ count i = 1 /\ load_le 2 (value_ptr i) 2 = Some 0
  | w_long => type i = EXIF_LONG /\ count i = 1
  | w_rational => is_rational (type i) = true
  end.

Section values.
Context (i : IFD_INFO_T) (e : entry) (Hd : described i e).

Lemma load_value k : 0 <= k < elem_count (type i) (count i) ->
  exists v, load_le (elem_size (type i)) (value_ptr i) (elem_size (type i) * k) = Some v.
Proof.
  intros Hk. destruct Hd as [_ _ _ _ (vs & Hvs & _)]. unfold elements in Hvs.
  destruct (mapM_upto_Some _ _ _ k Hvs) as [v Hv]; [lia|]. exists v. by rewrite Z.add_0_l in Hv.
Qed.

Lemma value_bytes : bytes (value_ptr i).
Proof. by destruct Hd. Qed.

(** A loop that writes one number at a time. *)
Lemma write_values s (w : Z -> M JPEG_WRITE_STREAM_CONTEXT_T bool) (ld : list Z -> Z -> option Z) buf vo :
  let sz := elem_size (type i) in
  is_rational (type i) = false ->
  (forall l k, bytes l -> ld l k = load_le sz l k) ->
  (forall v buf p, 0 <= v < 256 ^ sz -> 0 <= p -> p + sz <= zlen buf ->
    w v (in_memory buf p s) = Ret true (in_memory (put buf p (be_bytes sz v)) (p + sz) s)) ->
  0 <= vo -> vo + value_size i <= zlen buf ->
  forM (upto (Z.to_nat (count i))) (fun k => v <- lift OutOfBounds (ld (value_ptr i) (sz * k)) ;; checked (w v))
    (in_memory buf vo s)
  = Ret tt (in_memory (put buf vo (value_image i)) (vo + value_size i) s).
Proof.
  intros sz Hr Hld Hw Hvo Hl. pose proof (d_count _ _ Hd) as Hc. pose proof value_bytes as Hb.
  assert (Hm : elem_count (type i) (count i) = count i) by (unfold elem_count; by rewrite Hr).
  unfold value_image, image, value_size in *. fold sz in Hl |- *. rewrite Hm in *.
  rewrite (forM_put s _ (fun k => be_bytes sz (default 0 (load_le sz (value_ptr i) (sz * k)))) sz).
  - do 2 f_equal. lia.
  - intros k. apply zlen_be_bytes, elem_size_cases.
  - done.
  - lia.
  - intros k buf' p Hk Hp Hpl. rewrite Hld by done. destruct (load_value k) as [v Hv]; [lia|].
    fold sz in Hv. rewrite Hv. erewrite bind_Ret by reflexivity. cbv beta. unfold checked.
    erewrite bind_Ret by (apply Hw; [by eapply load_le_range|done..]). done.
Qed.

Lemma concat_pairs (g : Z -> list Z) n :
  concat ((fun k => g (2 * k) ++ g (2 * k + 1)) <$> upto n) = concat (g <$> upto (2 * n)).
Proof.
  induction n as [|n IH]; [done|]. replace (2 * S n)%nat with (S (S (2 * n))) by lia. rewrite !upto_S.
  rewrite !fmap_app, !concat_app, IH. cbn [fmap list_fmap concat]. rewrite !app_nil_r, <- app_assoc.
  do 3 f_equal; f_equal; lia.
Qed.

Lemma write_rationals s buf vo :
  is_rational (type i) = true -> 0 <= vo -> vo + value_size i <= zlen buf ->
  forM (upto (Z.to_nat (count i))) (fun k =>
    n <- lift OutOfBounds (load32 (value_ptr i) (8 * k)) ;;
    checked (Jpeg_WriteL n) ;;;
    d <- lift OutOfBounds (load32 (value_ptr i) (8 * k + 4)) ;;
    checked (Jpeg_WriteL d)) (in_memory buf vo s)
  = Ret tt (in_memory (put buf vo (value_image i)) (vo + value_size i) s).
Proof.
  intros Hr Hvo Hl. pose proof (d_count _ _ Hd) as Hc. pose proof value_bytes as Hb.
  assert (Hsz : elem_size (type i) = 4).
  { unfold is_rational in Hr. apply orb_true_iff in Hr as [->%Z.eqb_eq| ->%Z.eqb_eq]; done. }
  assert (Hm : elem_count (type i) (count i) = 2 * count i) by (unfold elem_count; by rewrite Hr).
  unfold value_image, image, value_size in *. rewrite Hm, Hsz in *.
  set (g := fun k => be_bytes 4 (default 0 (load_le 4 (value_ptr i) (4 * k)))).
  assert (Hg : forall k, zlen (g k) = 4) by (intros; apply zlen_be_bytes; auto).
  rewrite (forM_put s _ (fun k => g (2 * k) ++ g (2 * k + 1)) 8).
  - rewrite concat_pairs. replace (2 * Z.to_nat (count i))%nat with (Z.to_nat (2 * count i)) by lia. do 2 f_equal. lia.
  - intros k. rewrite zlen_app, !Hg. done.
  - done.
  - lia.
  - intros k b p Hk Hp Hpl. rewrite !load32_le by done.
    destruct (load_value (2 * k)) as [v Hv]; [lia|]. destruct (load_value (2 * k + 1)) as [w Hw]; [lia|].
    rewrite Hsz in Hv, Hw. replace (8 * k) with (4 * (2 * k)) by lia.
    replace (4 * (2 * k) + 4) with (4 * (2 * k + 1)) by lia.
    unfold g. rewrite Hv, Hw. cbn [default]. unfold id. change (be_bytes 4) with be32.
    erewrite bind_Ret by reflexivity. cbv beta. rewrite (start_put s b p) by lia.
    erewrite checked_mem by by apply WriteL_put; len_lia. erewrite bind_Ret by reflexivity. cbv beta.
    unfold checked. erewrite bind_Ret by by apply WriteL_put; len_lia. done.
Qed.
End values.

(** Four bytes as a number of the file. *)
Lemma be32_bytes4 a b c d :
  byte a -> byte b -> byte c -> byte d ->
  be32 (Z.lor (Z.lor (Z.lor (Z.shiftl a 24) (Z.shiftl b 16)) (Z.shiftl c 8)) d) = [a; b; c; d].
Proof.
  unfold byte. intros Ha Hb Hc Hd.
  assert (E : Z.lor (Z.lor (Z.lor (Z.shiftl a 24) (Z.shiftl b 16)) (Z.shiftl c 8)) d
    = ((a * 256 + b) * 256 + c) * 256 + d).
  { rewrite <- (lor_shiftl8 _ d), <- (lor_shiftl8 _ c), <- (lor_shiftl8 _ b) by done.
    rewrite !Z.shiftl_lor, !Z.shiftl_shiftl by lia. done. }
  rewrite E. unfold be32. rewrite shiftr24, shiftr16, shiftr8. list_eq; wrap_lia.
Qed.

Lemma be32_halves a b : 0 <= a < 65536 -> 0 <= b < 65536 -> be32 (Z.lor (Z.shiftl a 16) b) = be16 a ++ be16 b.
Proof.
  intros Ha Hb. rewrite lor_shiftl by lia. change (2 ^ 16) with 65536. unfold be32, be16. cbn [app].
  rewrite !shiftr8, shiftr24, shiftr16. list_eq; wrap_lia.
Qed.

Lemma size_1_not_rational ty : elem_size ty = 1 -> is_rational ty = false.
Proof.
  intros Hs. unfold is_rational.
  destruct (Z.eqb_spec ty EXIF_RATIONAL); [by subst|]. destruct (Z.eqb_spec ty EXIF_SRATIONAL); by subst.
Qed.

Section inline.
Context (i : IFD_INFO_T) (e : entry) (Hd : described i e).

Lemma bytes_value : elem_size (type i) = 1 ->
  value_image i = take (Z.to_nat (count i)) (value_ptr i) /\ count i <= zlen (value_ptr i).
Proof.
  intros Hs. pose proof (d_count _ _ Hd) as Hc. pose proof (value_bytes i e Hd) as Hb.
  assert (Hm : elem_count (type i) (count i) = count i) by (unfold elem_count; by rewrite size_1_not_rational).
  assert (Hl : count i <= zlen (value_ptr i)).
  { destruct (load_value i e Hd (count i - 1)) as [v Hv]; [lia|]. rewrite Hs in Hv. unfold load_le in Hv.
    rewrite slice_1 in Hv. destruct (aget (value_ptr i) (1 * (count i - 1))) as [x|] eqn:E; [|done].
    apply aget_range in E. lia. }
  split; [|done]. unfold value_image, image. rewrite Hs, Hm. clear Hm Hd.
  set (l := value_ptr i) in *. set (n := Z.to_nat (count i)). assert (Hn : Z.of_nat n <= zlen l) by lia.
  clearbody n l. induction n as [|n IH]; [done|]. rewrite upto_S, fmap_app, concat_app, IH by lia.
  cbn [fmap list_fmap concat]. rewrite app_nil_r. destruct (aget_is_Some l (Z.of_nat n)) as [x Hx]; [lia|].
  pose proof (aget_byte _ _ _ Hb Hx) as Hxb. rewrite Z.mul_1_l. unfold load_le. rewrite slice_1, Hx.
  cbn. rewrite Z.mul_0_r, Z.add_0_r, (u8_small x) by done. rewrite aget_nat in Hx. by erewrite take_S_r.
Qed.

Lemma size_1_type : elem_size (type i) = 1 ->
  (type i =? EXIF_BYTE) || (type i =? EXIF_ASCII) || (type i =? EXIF_UNDEFINED) = true.
Proof. unfold elem_size. destruct (_ || _ || _); [done|]. by destruct (_ =? _). Qed.

Lemma byte_inline : elem_size (type i) = 1 -> count i <= 4 -> bytes (value_offset i) -> zlen (value_offset i) = 4 ->
  exists u w rest, copy_bytes (count i) i = Some u /\ offset_value (set_value_offset u i) = Some w /\
    be32 w = value_image i ++ rest.
Proof.
  intros Hs Hc Hub Hul. destruct (bytes_value Hs) as [Hi Hl]. pose proof (d_count _ _ Hd) as Hpos.
  pose proof (value_bytes i e Hd) as Hb. rewrite Hi.
  set (bs := take (Z.to_nat (count i)) (value_ptr i)). set (rest := drop (Z.to_nat (count i)) (value_offset i)).
  assert (Hbs : zlen bs = count i) by (unfold bs, zlen in *; rewrite length_take; lia).
  assert (Hall : bytes (bs ++ rest)) by (apply Forall_app; split; [by apply Forall_take|by apply Forall_drop]).
  assert (Hlen : zlen (bs ++ rest) = 4) by (rewrite zlen_app, Hbs; unfold rest, zlen in *; rewrite length_drop; lia).
  unfold copy_bytes. fold bs rest. rewrite Hbs, Z.eqb_refl. unfold offset_value. cbn [type count value_offset set_value_offset].
  rewrite (size_1_type Hs). rewrite (proj2 (Z.leb_le _ _)) by lia.
  destruct (bs ++ rest) as [|a [|b [|c [|d [|] ] ] ] ] eqn:E; try done; try (unfold zlen in Hlen; cbn in Hlen; lia).
  unfold bytes in Hall. rewrite !Forall_cons in Hall. destruct Hall as (Ha & Hb' & Hc' & Hd' & _).
  exists [a; b; c; d]. cbn. eexists _, rest. split_and!; [done..|]. rewrite E. by apply be32_bytes4.
Qed.

Lemma load16_le16 a b : 0 <= a < 65536 -> 0 <= b < 65536 ->
  load16 (le16 a ++ le16 b) 0 = Some a /\ load16 (le16 a ++ le16 b) 2 = Some b.
Proof.
  intros Ha Hb. rewrite !load16_le by (apply Forall_app; split; apply le16_bytes).
  unfold load_le. change (slice (le16 a ++ le16 b) 0 2) with (Some (le16 a)).
  change (slice (le16 a ++ le16 b) 2 2) with (Some (le16 b)). cbn [fmap option_fmap option_map].
  by rewrite !le_join_16, !u16_small.
Qed.

Lemma short_image : type i = EXIF_SHORT ->
  value_image i = concat ((fun k => be16 (default 0 (load16 (value_ptr i) (2 * k)))) <$> upto (Z.to_nat (count i))) /\
  forall k, 0 <= k < count i -> exists v, load16 (value_ptr i) (2 * k) = Some v /\ 0 <= v < 65536.
Proof.
  intros Ht. pose proof (value_bytes i e Hd) as Hb. unfold value_image, image. split.
  - rewrite Ht. cbn [elem_size elem_count is_rational]. change (elem_size EXIF_SHORT) with 2.
    change (elem_count EXIF_SHORT (count i)) with (count i). f_equal. apply list_fmap_ext. intros _ k _.
    by rewrite load16_le.
  - intros k Hk. destruct (load_value i e Hd k) as [v Hv]; [by rewrite Ht|]. rewrite Ht in Hv.
    change (elem_size EXIF_SHORT) with 2 in Hv. exists v. rewrite load16_le by done. split; [done|].
    by apply load_le_range in Hv.
Qed.

Lemma short_inline : type i = EXIF_SHORT -> count i <= 2 ->
  exists s0 s1 w rest, load16 (value_ptr i) 0 = Some s0 /\
    (if count i =? 2 then load16 (value_ptr i) 2 else Some 0) = Some s1 /\
    offset_value (set_value_offset (le16 s0 ++ le16 s1) i) = Some w /\ be32 w = value_image i ++ rest.
Proof.
  intros Ht Hc. pose proof (d_count _ _ Hd) as Hpos. destruct (short_image Ht) as [Hi Hv]. rewrite Hi.
  destruct (Hv 0) as (s0 & E0 & H0); [lia|]. rewrite Z.mul_0_r in E0. exists s0. rewrite E0.
  assert (Hoff : forall s1, 0 <= s1 < 65536 ->
    offset_value (set_value_offset (le16 s0 ++ le16 s1) i) = Some (Z.lor (Z.shiftl s0 16) s1)).
  { intros s1 H1. unfold offset_value. cbn [type count value_offset set_value_offset]. rewrite Ht. cbn [orb Z.eqb].
    change (EXIF_SHORT =? EXIF_BYTE) with false. change (EXIF_SHORT =? EXIF_ASCII) with false.
    change (EXIF_SHORT =? EXIF_UNDEFINED) with false. change (EXIF_SHORT =? EXIF_SHORT) with true. cbn [orb].
    rewrite (proj2 (Z.leb_le _ _)) by lia. destruct (load16_le16 s0 s1) as [-> ->]; done. }
  destruct (Z.eqb_spec (count i) 2) as [E2|E2].
  - destruct (Hv 1) as (s1 & E1 & H1); [lia|]. change (2 * 1) with 2 in E1. rewrite E1.
    exists s1. eexists _, []. split_and!; [done|done|by apply Hoff|]. rewrite be32_halves by done. rewrite E2.
    change (upto (Z.to_nat 2)) with [0; 1]. cbn [fmap list_fmap concat]. change (2 * 0) with 0. change (2 * 1) with 2.
    by rewrite E0, E1, !app_nil_r.
  - exists 0. eexists _, [0; 0]. split_and!; [done|done|by apply Hoff|]. rewrite be32_halves by done.
    replace (count i) with 1 by lia. change (upto (Z.to_nat 1)) with [0]. cbn [fmap list_fmap concat].
    change (2 * 0) with 0. by rewrite E0, app_nil_r.
Qed.

Lemma long_image : type i = EXIF_LONG -> count i = 1 ->
  exists v, load32 (value_ptr i) 0 = Some v /\ 0 <= v < 4294967296 /\ value_image i = be32 v.
Proof.
  intros Ht Hc. pose proof (value_bytes i e Hd) as Hb. destruct (load_value i e Hd 0) as [v Hv]; [by rewrite Ht, Hc|].
  rewrite Ht in Hv. change (elem_size EXIF_LONG) with 4 in Hv. exists v. rewrite load32_le by done.
  split; [done|]. split; [by apply load_le_range in Hv|]. unfold value_image, image. rewrite Ht, Hc.
  change (upto (Z.to_nat (elem_count EXIF_LONG 1))) with [0]. change (elem_size EXIF_LONG) with 4.
  cbn [fmap list_fmap concat]. rewrite Hv, app_nil_r. done.
Qed.

Lemma offset_value_long u : type i = EXIF_LONG -> offset_value (set_value_offset u i) = load32 u 0.
Proof. intros Ht. unfold offset_value. cbn [type value_offset set_value_offset]. by rewrite Ht. Qed.

Lemma load32_le32 v : load32 (le32 v) 0 = Some (u32 v).
Proof.
  rewrite load32_le by apply le32_bytes. unfold load_le. change (slice (le32 v) 0 4) with (Some (le32 v)).
  cbn [fmap option_fmap option_map]. by rewrite le_join_32.
Qed.

(** The width of an image: the low half, with the high one zero. *)
Lemma long_as_short : type i = EXIF_LONG -> count i = 1 -> load_le 2 (value_ptr i) 2 = Some 0 ->
  exists s0 w, load16 (value_ptr i) 0 = Some s0 /\
    offset_value (set_value_offset (le16 s0 ++ le16 0) i) = Some w /\ be32 w = value_image i.
Proof.
  intros Ht Hc H2. pose proof (value_bytes i e Hd) as Hb. destruct (long_image Ht Hc) as (v & Hv & Hvr & ->).
  rewrite <- load16_le in H2 by done. unfold load32 in Hv. unfold load16 in *.
  destruct (aget (value_ptr i) 0) as [a|] eqn:Ea; [|done]. rewrite !obind_Some in Hv |- *.
  change (0 + 1) with 1 in *. change (0 + 2) with 2 in *. change (0 + 3) with 3 in *. change (2 + 1) with 3 in *.
  destruct (aget (value_ptr i) 1) as [b|] eqn:Eb; [|done]. rewrite !obind_Some in Hv |- *.
  destruct (aget (value_ptr i) 2) as [c|] eqn:Ec; [|done]. rewrite !obind_Some in Hv, H2.
  destruct (aget (value_ptr i) 3) as [d|] eqn:Ed; [|done]. rewrite !obind_Some in Hv, H2.
  apply aget_byte in Ea, Eb, Ec, Ed; [|done..]. injection H2 as H2. apply Z.lor_eq_0_iff in H2 as [-> Hd0].
  unfold byte in *.
  assert (d = 0) as -> by (rewrite Z.shiftl_mul_pow2 in Hd0 by lia; lia).
  change (Z.shiftl 0 24) with 0 in Hv. change (Z.shiftl 0 16) with 0 in Hv. rewrite !Z.lor_0_r in Hv. injection Hv as Hv.
  exists v, v. rewrite Hv. split; [done|]. split; [|done]. rewrite offset_value_long by done.
  assert (0 <= v < 65536).
  { rewrite <- Hv, Z.lor_comm, (lor_shiftl b a 8) by lia. lia. }
  assert (E : le16 v ++ le16 0 = le32 v).
  { unfold le16, le32. cbn [app]. rewrite !shiftr8, shiftr16, shiftr24. list_eq; wrap_lia. }
  by rewrite E, load32_le32, u32_small.
Qed.
End inline.

(** ** One block *)

(** What a writer did: an entry at [io], its value from [vo] on. *)
Definition wrote (ifh io vo : Z) (i : IFD_INFO_T) (e : entry) (buf : list Z)
    (r : outcome JPEG_WRITE_STREAM_CONTEXT_T (Z * Z)) (s : JPEG_WRITE_STREAM_CONTEXT_T) : Prop :=
  exists buf' p', r = Ret (io + 12, value_end i vo) (in_memory buf' p' s) /\
    zlen buf' = zlen buf /\ unchanged io vo (value_end i vo) buf buf' /\ entry_at buf' ifh io vo (value_end i vo) e.

Section block.
Context (ifh io vo : Z) (i : IFD_INFO_T) (e : entry) (buf : list Z) (p : Z) (s : JPEG_WRITE_STREAM_CONTEXT_T).
Hypothesis (Hd : described i e) (Hu : value_offset i = le32 (u32 (vo - ifh)))
  (Hio : 0 <= io) (Hiv : io + 12 <= vo) (Hvo : vo + value_size i + 3 <= zlen buf) (Hbuf : zlen buf < 4294967000)
  (Hifh : 0 <= ifh <= vo).

Lemma value_size_pos : 0 < value_size i.
Proof.
  unfold value_size. pose proof (d_count _ _ Hd) as Hc. pose proof (elem_count_pos (type i) _ (proj1 Hc)).
  destruct (elem_size_cases (type i)) as [->|[->| ->] ]; lia.
Qed.

(** The header alone. *)
Lemma wrote_inline u v rest (k : Z -> M JPEG_WRITE_STREAM_CONTEXT_T (Z * Z)) :
  value_size i <= 4 -> offset_value (set_value_offset u i) = Some v -> be32 v = value_image i ++ rest ->
  (forall s', k (io + 12) s' = Ret (io + 12, vo) s') ->
  wrote ifh io vo i e buf ((n <- write_header (set_value_offset u i) io ;; k n) (in_memory buf p s)) s.
Proof.
  intros Hs Ho Hv Hk. pose proof value_size_pos.
  erewrite bind_Ret by by apply write_header_mem; [|lia..]. rewrite Hk.
  assert (Hend : value_end i vo = vo) by (unfold value_end; by rewrite (proj2 (Z.leb_le _ _)) by lia).
  exists (put buf io (header i v)), (io + 12). rewrite Hend. split; [done|].
  apply (entry_inline buf ifh io vo i e v rest); (done || lia).
Qed.

(** The header, the values, and the new end. *)
Lemma wrote_outline (loop : M JPEG_WRITE_STREAM_CONTEXT_T unit) (k : Z -> M JPEG_WRITE_STREAM_CONTEXT_T (Z * Z)) :
  4 < value_size i -> offset_value i = Some (u32 (vo - ifh)) ->
  (forall buf', zlen buf' = zlen buf -> loop (in_memory buf' vo s)
     = Ret tt (in_memory (put buf' vo (value_image i)) (vo + value_size i) s)) ->
  (forall buf', zlen buf' = zlen buf -> k (io + 12) (in_memory buf' (io + 12) s)
     = (checked (Jpeg_SetWritePos vo) ;;; loop ;;; e <- aligned_pos ;; ret (io + 12, e)) (in_memory buf' (io + 12) s)) ->
  wrote ifh io vo i e buf ((n <- write_header i io ;; k n) (in_memory buf p s)) s.
Proof.
  intros Hs Ho Hloop Hk. pose proof (zlen_value_image i (proj1 (d_count _ _ Hd))) as Hz.
  assert (Hh : forall v, zlen (header i v) = 12) by done.
  erewrite bind_Ret by by apply write_header_mem; [|lia..].
  assert (Hz1 : zlen (put buf io (header i (u32 (vo - ifh)))) = zlen buf) by (apply zlen_put; rewrite ?Hh; lia).
  rewrite Hk by done. erewrite checked_mem by by apply SetWritePos_mem; lia.
  erewrite bind_Ret by by apply Hloop. cbv beta.
  assert (Hz2 : zlen (put (put buf io (header i (u32 (vo - ifh)))) vo (value_image i)) = zlen buf)
    by (rewrite zlen_put; lia).
  unfold aligned_pos. rewrite bind_assoc. erewrite bind_Ret by by apply GetWritePos_mem; lia.
  assert (Hend : value_end i vo = JPEG_ALIGN_4 (vo + value_size i))
    by (unfold value_end; by rewrite (proj2 (Z.leb_gt _ _)) by lia).
  pose proof (align_bounds (vo + value_size i)) as Hal.
  eexists _, _. rewrite Hend. split; [reflexivity|]. apply entry_outline; (done || lia).
Qed.
End block.

Lemma value_size_short i : elem_size (type i) = 2 -> value_size i = 2 * count i.
Proof.
  intros Hs. unfold value_size. rewrite Hs. unfold elem_count.
  destruct (is_rational (type i)) eqn:Hr; [|done]. unfold is_rational in Hr.
  by apply orb_true_iff in Hr as [E%Z.eqb_eq|E%Z.eqb_eq]; rewrite E in Hs.
Qed.

Lemma offset_value_outline i vo :
  value_offset i = le32 (u32 vo) -> 4 < value_size i -> 0 < count i ->
  offset_value i = Some (u32 vo).
Proof.
  intros Hu Hs Hc. assert (E : load32 (value_offset i) 0 = Some (u32 vo))
    by (rewrite Hu, load32_le32; f_equal; apply u32_small, u32_range).
  unfold offset_value. rewrite E. destruct ((type i =? EXIF_BYTE) || _ || _) eqn:Eb.
  - assert (Hs1 : elem_size (type i) = 1) by (unfold elem_size; by rewrite Eb).
    unfold value_size in Hs. rewrite Hs1 in Hs. unfold elem_count in Hs. rewrite size_1_not_rational in Hs by done.
    by rewrite (proj2 (Z.leb_gt _ _)) by lia.
  - destruct (Z.eqb_spec (type i) EXIF_SHORT) as [Et|]; [|done]. rewrite value_size_short in Hs by by rewrite Et.
    by rewrite (proj2 (Z.leb_gt _ _)) by lia.
Qed.

(** A loop whose failure is looked at, when it does not fail. *)
Lemma succeeds_loop {A} s (loop : M JPEG_WRITE_STREAM_CONTEXT_T unit) (a : A) (k : Z -> M JPEG_WRITE_STREAM_CONTEXT_T A)
    buf buf2 q q2 vo :
  loop (in_memory buf vo s) = Ret tt (in_memory buf2 q2 s) -> vo <= zlen buf ->
  (checked (Jpeg_SetWritePos vo) ;;;
   ok <- succeeds loop ;; if negb ok then ret a else e <- aligned_pos ;; k e) (in_memory buf q s)
  = (checked (Jpeg_SetWritePos vo) ;;; loop ;;; e <- aligned_pos ;; k e) (in_memory buf q s).
Proof.
  intros Hl Hvo. erewrite !checked_mem by by apply SetWritePos_mem; lia.
  cbv beta. unfold bind at 1. unfold succeeds at 1. rewrite Hl. cbn [negb]. symmetry. by erewrite bind_Ret by exact Hl.
Qed.

Lemma forM_ext {S A} (l : list A) (b1 b2 : A -> M S unit) s :
  (forall x s, b1 x s = b2 x s) -> forM l b1 s = forM l b2 s.
Proof.
  intros H. revert s. induction l as [|x l IH]; intros s; [done|]. cbn [forM]. unfold bind. rewrite H.
  by destruct (b2 x s).
Qed.

(** A long is in its entry, whatever the union held. *)
Lemma write_long_wrote ifh io vo i e buf p s :
  described i e -> type i = EXIF_LONG /\ count i = 1 ->
  0 <= io -> io + 12 <= vo -> vo + value_size i + 3 <= zlen buf -> zlen buf < 4294967000 -> 0 <= ifh <= vo ->
  wrote ifh io vo i e buf (Jpeg_WriteLongIFD i io vo (in_memory buf p s)) s.
Proof.
  intros Hd [Hty Hc1] Hio Hiv Hvo Hbuf Hifh. unfold Jpeg_WriteLongIFD.
  destruct (long_image i e Hd Hty Hc1) as (v & E & Hv & Ei).
  rewrite Hc1. change (1 <=? 1) with true. cbv iota.
  assert (Hn : value_size i = 4) by (unfold value_size; by rewrite Hty, Hc1).
  erewrite bind_Ret by (rewrite E; reflexivity). cbv beta.
  eapply wrote_inline with (v := v) (rest := []); try (done || lia).
  - rewrite offset_value_long by done. by rewrite load32_le32, u32_small.
  - by rewrite app_nil_r.
  - intros s'. cbn [count set_value_offset]. by rewrite Hc1.
Qed.

(** Every writer, on a member it suits. *)
Lemma write_ifd_wrote w ifh io vo i e buf p s :
  described i e -> suits w i -> value_offset i = le32 (u32 (vo - ifh)) ->
  0 <= io -> io + 12 <= vo -> vo + value_size i + 3 <= zlen buf -> zlen buf < 4294967000 -> 0 <= ifh <= vo ->
  wrote ifh io vo i e buf (write_ifd w i io vo (in_memory buf p s)) s.
Proof.
  intros Hd Hw Hu Hio Hiv Hvo Hbuf Hifh. pose proof (d_count _ _ Hd) as Hc.
  pose proof (value_size_pos i e Hd) as Hpos.
  assert (Hub : bytes (value_offset i) /\ zlen (value_offset i) = 4) by (rewrite Hu; split; [apply le32_bytes|done]).
  assert (Houtl : 4 < value_size i -> offset_value i = Some (u32 (vo - ifh))) by (intros; apply offset_value_outline; (done || lia)).
  destruct Hub as [Hub Hul]. destruct w; cbn [suits write_ifd] in *.
  - assert (Hr : is_rational (type i) = false) by by apply size_1_not_rational.
    assert (Hn : value_size i = count i) by (unfold value_size, elem_count; rewrite Hw, Hr; lia).
    unfold Jpeg_WriteByteIFD. destruct (Z.leb_spec (count i) 4) as [H4|H4].
    + destruct (byte_inline i e Hd Hw H4 Hub Hul) as (u & v & rest & E1 & E2 & E3).
      erewrite bind_Ret by (rewrite E1; reflexivity). cbv beta.
      eapply wrote_inline with (v := v) (rest := rest); try (done || lia).
      intros s'. cbn [count set_value_offset]. destruct (Z.gtb_spec (count i) 4); [lia|done].
    + erewrite bind_Ret by reflexivity. cbv beta.
      assert (Hloop : forall buf', zlen buf' = zlen buf ->
        forM (upto (Z.to_nat (count i))) (fun k => v <- lift OutOfBounds (aget (value_ptr i) k) ;; checked (Jpeg_WriteC v))
          (in_memory buf' vo s) = Ret tt (in_memory (put buf' vo (value_image i)) (vo + value_size i) s)).
      { intros buf' Hl'. rewrite <- (write_values i e Hd s Jpeg_WriteC aget); try (done || lia).
        - apply forM_ext. intros k s'. by rewrite Hw, Z.mul_1_l.
        - intros l k _. rewrite Hw. unfold load_le. rewrite slice_1. destruct (aget l k); [cbn; f_equal; lia|done].
        - rewrite Hw. intros v b q Hv Hq Hl. by apply WriteC_mem; lia. }
      eapply wrote_outline; try (done || lia); [by apply Houtl; lia|].
      intros buf' Hl'. destruct (Z.gtb_spec (count i) 4); [|lia].
      eapply succeeds_loop; [by apply Hloop|lia].
  - unfold Jpeg_WriteShortIFD. destruct Hw as [Hty|(Hty & Hc1 & H2)].
    + assert (Hs2 : elem_size (type i) = 2) by by rewrite Hty.
      pose proof (value_size_short i Hs2) as Hn. destruct (Z.leb_spec (count i) 2) as [Hle|Hle].
      * destruct (short_inline i e Hd Hty Hle) as (s0 & s1 & v & rest & E0 & E1 & E2 & E3).
        erewrite bind_Ret by (rewrite E0; erewrite bind_Ret by reflexivity; cbv beta;
          erewrite bind_Ret by (destruct (count i =? 2); [rewrite E1; reflexivity|injection E1 as <-; reflexivity]); reflexivity).
        cbv beta. eapply wrote_inline with (v := v) (rest := rest); try (done || lia).
        intros s'. cbn [count set_value_offset]. destruct (Z.gtb_spec (count i) 2); [lia|done].
      * erewrite bind_Ret by reflexivity. cbv beta.
        assert (Hloop : forall buf', zlen buf' = zlen buf ->
          forM (upto (Z.to_nat (count i))) (fun k => v <- lift OutOfBounds (load16 (value_ptr i) (2 * k)) ;; checked (Jpeg_WriteW v))
            (in_memory buf' vo s) = Ret tt (in_memory (put buf' vo (value_image i)) (vo + value_size i) s)).
        { intros buf' Hl'. rewrite <- (write_values i e Hd s Jpeg_WriteW load16); try (done || lia).
          - apply forM_ext. intros k s'. by rewrite Hs2.
          - by rewrite Hty.
          - intros l k Hl. rewrite Hs2. by apply load16_le.
          - rewrite Hs2. intros v b q Hv Hq Hl. by apply WriteW_mem; lia. }
        eapply wrote_outline; try (done || lia); [by apply Houtl; lia|].
        intros buf' Hl'. destruct (Z.gtb_spec (count i) 2); [|lia].
        eapply succeeds_loop; [by apply Hloop|lia].
    + rewrite Hc1. change (1 <=? 2) with true. change (1 =? 2) with false. cbv iota.
      destruct (long_as_short i e Hd Hty Hc1 H2) as (s0 & v & E0 & E1 & E2).
      assert (Hn : value_size i = 4) by (unfold value_size; by rewrite Hty, Hc1).
      erewrite bind_Ret by (rewrite E0; reflexivity). cbv beta.
      eapply wrote_inline with (v := v) (rest := []); try (done || lia); [by rewrite app_nil_r|].
      intros s'. cbn [count set_value_offset]. by rewrite Hc1.
  - by apply write_long_wrote.
  - unfold Jpeg_WriteRationalIFD.
    assert (Hn : 4 < value_size i).
    { unfold value_size, elem_count. rewrite Hw. unfold is_rational in Hw.
      apply orb_true_iff in Hw as [E%Z.eqb_eq|E%Z.eqb_eq]; rewrite E; [change (elem_size EXIF_RATIONAL) with 4|change (elem_size EXIF_SRATIONAL) with 4]; lia. }
    eapply wrote_outline; try (done || lia); [by apply Houtl|].
    intros buf' Hl'. by apply (write_rationals i e Hd); [|lia..].
Qed.
