(* ===== verification/ExifDirProofs.v ===== *)
(** * Directories of an EXIF segment

    What ExifWriter.v leaves in the buffer while it builds a directory, and
    the directories that the reader of ExifProofs.v finds there afterwards. *)
From stdpp Require Import base list vector.
From Stdlib Require Import ZArith Lia.
From S2P Require Import Prelude ExifTypes ExifStream ExifWriter ExifProofs.

(** ** Members that can be written *)

Definition info (ifh vo n : Z) (f : field) : IFD_INFO_T :=
  IFD (f_tag f) (f_type f) n (le32 (u32 (vo - ifh))) (f_ptr f).

(** The memory holds the member, and the writer is the one for its type. *)
Record storable (f : field) (e : entry) : Prop := Storable {
  st_tag : 0 <= f_tag f < 65536;
  st_type : 0 <= f_type f < 65536;
  st_bytes : bytes (f_ptr f);
  st_count : exists n, field_count f = Some n /\ 0 < n < 65536 /\ suits (f_writer f) (info 0 0 n f);
  st_entry : entry_of f = Some e
}.

Definition entry_size (e : entry) : Z := elem_size (e_type e) * elem_count (e_type e) (e_count e).

(** The room the values of some entries take at most. *)
Fixpoint room (es : list entry) : Z :=
  match es with
  | [] => 0
  | e :: es => entry_size e + 3 + room es
  end.

Lemma storable_info ifh vo f e :
  storable f e -> exists n, field_count f = Some n /\ described (info ifh vo n f) e /\
    suits (f_writer f) (info ifh vo n f) /\ value_size (info ifh vo n f) = entry_size e.
Proof.
  intros [Ht Hty Hb (n & Hn & Hr & Hs) He]. exists n. split; [done|]. unfold entry_of in He.
  rewrite Hn, obind_Some in He. destruct (elements load_le (f_type f) n (f_ptr f) 0) as [vs|] eqn:E; [|done].
  injection He as <-. split_and!; [|by destruct (f_writer f)|done].
  split; [done..|]. exists vs. by split.
Qed.

Lemma entry_size_nonneg e : 0 <= e_count e -> 0 <= entry_size e.
Proof.
  intros H. unfold entry_size, elem_count. destruct (elem_size_cases (e_type e)) as [->|[->| ->] ]; case_match; lia.
Qed.

Lemma storable_size f e : storable f e -> 0 <= entry_size e.
Proof.
  intros [_ _ _ (n & Hn & Hr & _) He]. unfold entry_of in He. rewrite Hn, obind_Some in He.
  destruct (elements _ _ _ _ _); [|done]. injection He as <-. apply entry_size_nonneg. cbn. lia.
Qed.

Lemma room_nonneg fs es : Forall2 storable fs es -> 0 <= room es.
Proof. induction 1 as [|f e fs es Hf _ IH]; cbn [room]; [done|]. apply storable_size in Hf. lia. Qed.

(** ** A directory under construction *)

(** Nothing changed outside [b, b'). *)
Definition outside (b b' : Z) (buf buf' : list Z) : Prop :=
  forall i, i < b \/ b' <= i -> aget buf' i = aget buf i.

Lemma outside_refl b b' buf : outside b b' buf buf.
Proof. done. Qed.
Lemma outside_trans b b1 b2 x y z : b1 <= b2 -> outside b b1 x y -> outside b b2 y z -> outside b b2 x z.
Proof. intros Hb H1 H2 i Hi. rewrite H2, H1 by lia. done. Qed.
Lemma outside_same b b' c d x y : outside b b' x y -> d <= b \/ b' <= c -> same_on c d x y.
Proof. intros H Hd i Hi. apply H. lia. Qed.
Lemma outside_put b b' buf p bs :
  0 <= p -> p + zlen bs <= zlen buf -> b <= p -> p + zlen bs <= b' -> outside b b' buf (put buf p bs).
Proof. intros Hp Hl Hb Hb' i Hi. apply (same_on_put i (i + 1)); lia. Qed.

(** The cursor [c] of a directory at [b] with room for [m] entries: the
    entries [es] are there, so is what [Q] says of the values, and outside the
    directory the buffer is as it was. *)
Record building (ifh b m : Z) (buf0 : list Z) (c : cursor) (es : list entry) (Q : list Z -> Prop) (buf : list Z)
    : Prop := Building {
  bd_entries : entries c = zlen es;
  bd_max : zlen es <= m;
  bd_io : ifd_offset c = b + 2 + 12 * zlen es;
  bd_vo : b + 6 + 12 * m <= ifd_value_offset c <= zlen buf;
  bd_len : zlen buf = zlen buf0;
  bd_out : outside b (ifd_value_offset c) buf0 buf;
  bd_es : forall k e, aget es k = Some e -> exists va vb,
    b + 6 + 12 * m <= va <= vb /\ vb <= ifd_value_offset c /\ entry_at buf ifh (b + 2 + 12 * k) va vb e;
  bd_Q : forall buf', same_on (b + 6 + 12 * m) (ifd_value_offset c) buf buf' -> Q buf'
}.

(** An operation on the cursor leaves it at [lim] or before. *)
Definition built (ifh b m : Z) (buf0 : list Z) (lim : Z) (es : list entry) (Q : list Z -> Prop)
    (s : JPEG_WRITE_STREAM_CONTEXT_T) (r : outcome JPEG_WRITE_STREAM_CONTEXT_T cursor) : Prop :=
  exists c buf p, r = Ret c (in_memory buf p s) /\ building ifh b m buf0 c es Q buf /\ ifd_value_offset c <= lim.

Lemma entry_at_same buf buf' ifh io va vb e :
  entry_at buf ifh io va vb e -> same_on io (io + 12) buf buf' -> same_on va vb buf buf' -> entry_at buf' ifh io va vb e.
Proof. intros H H1 H2 b Hb1 Hb2. apply H; by eapply same_on_trans. Qed.

Section directory.
Context (ifh b m : Z) (buf0 : list Z) (s : JPEG_WRITE_STREAM_CONTEXT_T).
Hypothesis (Hifh : 0 <= ifh <= b) (Hm : 0 <= m < 65536) (Hbuf : zlen buf0 < 4294967000).
Abbreviation built := (built ifh b m buf0).
Abbreviation building := (building ifh b m buf0).

Lemma built_bind {A} (P : outcome JPEG_WRITE_STREAM_CONTEXT_T A -> Prop) lim es Q
    (op : M JPEG_WRITE_STREAM_CONTEXT_T cursor) (k : cursor -> M JPEG_WRITE_STREAM_CONTEXT_T A) s0 :
  built lim es Q s (op s0) ->
  (forall c buf p, building c es Q buf -> ifd_value_offset c <= lim -> P (k c (in_memory buf p s))) ->
  P ((c <- op ;; k c) s0).
Proof. intros (c & buf & p & E & Hb & Hl) Hk. erewrite bind_Ret by exact E. by apply Hk. Qed.

(** One entry is written, at the end or in place of an older one. *)
Lemma building_entry c es Q buf buf' es' j e va vb vo' :
  building c es Q buf -> zlen buf' = zlen buf -> 0 <= j < m -> zlen es' <= m ->
  (forall k x, aget es' k = Some x -> k <> j -> aget es k = Some x) ->
  (forall x, aget es' j = Some x -> x = e) ->
  (forall i, i < ifd_value_offset c \/ vo' <= i -> ~ b + 2 + 12 * j <= i < b + 2 + 12 * j + 12 -> aget buf' i = aget buf i) ->
  entry_at buf' ifh (b + 2 + 12 * j) va vb e -> b + 6 + 12 * m <= va <= vb -> vb <= vo' ->
  ifd_value_offset c <= vo' <= zlen buf ->
  building (Cursor (b + 2 + 12 * zlen es') vo' (zlen es')) es' Q buf'.
Proof.
  intros [Hn Hmax Hio Hvo Hlen Hout Hes HQ] Hz Hj Hm' Hk Hx Hsame He Hva Hvb Hvo'.
  split; cbn; [done..|lia|lia| | |].
  - intros i Hi. rewrite Hsame by lia. apply Hout. lia.
  - intros k x Hkx. destruct (decide (k = j)) as [->|Hne].
    + apply Hx in Hkx as ->. exists va, vb. done.
    + apply Hk in Hkx; [|done]. pose proof (aget_range _ _ _ Hkx) as Hr.
      destruct (Hes k x Hkx) as (a & a' & Ha & Ha' & Hat). exists a, a'. split; [done|]. split; [lia|].
      eapply entry_at_same; [done|intros i Hi; apply Hsame; lia..].
  - intros buf2 H2. apply HQ. intros i Hi. rewrite H2 by lia. apply Hsame; lia.
Qed.

Lemma aget_snoc {A} (l : list A) x k : 0 <= k ->
  aget (l ++ [x]) k = if k <? zlen l then aget l k else if k =? zlen l then Some x else None.
Proof.
  intros Hk. rewrite aget_app by done. destruct (Z.ltb_spec k (zlen l)); [done|].
  destruct (Z.eqb_spec k (zlen l)) as [->|]; [by rewrite Z.sub_diag|].
  apply aget_None. change (zlen [x]) with 1. lia.
Qed.

Lemma building_snoc c es Q buf i e :
  building c es Q buf -> zlen es < m -> forall r,
  wrote ifh (ifd_offset c) (ifd_value_offset c) i e buf r s -> value_size i + ifd_value_offset c + 3 <= zlen buf ->
  0 < value_size i ->
  exists buf' p', r = Ret (ifd_offset c + 12, value_end i (ifd_value_offset c)) (in_memory buf' p' s) /\
    building (Cursor (ifd_offset c + 12) (value_end i (ifd_value_offset c)) (entries c + 1)) (es ++ [e]) Q buf'.
Proof.
  intros Hb Hlt r (buf' & p' & E & Hz & Hu & Hat) Hfit Hpos. pose proof (bd_io _ _ _ _ _ _ _ _ Hb) as Hio.
  pose proof (bd_vo _ _ _ _ _ _ _ _ Hb) as Hvo. pose proof (bd_entries _ _ _ _ _ _ _ _ Hb) as Hn.
  pose proof (bd_len _ _ _ _ _ _ _ _ Hb) as Hlen. pose proof (zlen_nonneg es) as Hes0.
  assert (Hend : ifd_value_offset c <= value_end i (ifd_value_offset c) <= ifd_value_offset c + value_size i + 3).
  { unfold value_end. destruct (Z.leb_spec (value_size i) 4); [lia|].
    pose proof (align_bounds (ifd_value_offset c + value_size i)). lia. }
  exists buf', p'. split; [done|].
  assert (E1 : ifd_offset c + 12 = b + 2 + 12 * zlen (es ++ [e])) by (rewrite zlen_app; change (zlen [e]) with 1; lia).
  assert (E2 : entries c + 1 = zlen (es ++ [e])) by (rewrite zlen_app; change (zlen [e]) with 1; lia).
  rewrite E1, E2. eapply (building_entry c es Q buf buf' (es ++ [e]) (zlen es) e); rewrite <- ?Hio; try done; try lia.
  - intros k x Hk Hne. pose proof (aget_range _ _ _ Hk) as Hr. rewrite aget_snoc in Hk by lia.
    destruct (Z.ltb_spec k (zlen es)); [done|]. by rewrite (proj2 (Z.eqb_neq _ _)) in Hk.
  - intros x Hx. rewrite aget_snoc, Z.ltb_irrefl, Z.eqb_refl in Hx by lia. by injection Hx.
  - intros k Hk Hne. apply Hu; lia.
Qed.

(** A member. *)
Lemma write_field_built c es Q buf p f e :
  building c es Q buf -> zlen es < m -> storable f e -> ifd_value_offset c + entry_size e + 3 <= zlen buf0 ->
  built (ifd_value_offset c + entry_size e + 3) (es ++ [e]) Q s (write_field ifh f c (in_memory buf p s)).
Proof.
  intros Hb Hlt Hf Hfit. destruct (storable_info ifh (ifd_value_offset c) f e Hf) as (n & Hn & Hd & Hs & Hv).
  pose proof (bd_io _ _ _ _ _ _ _ _ Hb) as Hio. pose proof (bd_vo _ _ _ _ _ _ _ _ Hb) as Hvo.
  pose proof (bd_len _ _ _ _ _ _ _ _ Hb) as Hlen. pose proof (zlen_nonneg es) as Hes0.
  pose proof (value_size_pos _ _ Hd) as Hpos.
  unfold write_field. rewrite Hn. erewrite bind_Ret by reflexivity. cbv beta. fold (info ifh (ifd_value_offset c) n f).
  assert (Hw : wrote ifh (ifd_offset c) (ifd_value_offset c) (info ifh (ifd_value_offset c) n f) e buf
    (write_ifd (f_writer f) (info ifh (ifd_value_offset c) n f) (ifd_offset c) (ifd_value_offset c) (in_memory buf p s)) s)
    by (apply write_ifd_wrote; (done || lia)).
  destruct (building_snoc c es Q buf _ e Hb Hlt _ Hw) as (buf' & p' & E & Hb'); [lia..|].
  erewrite bind_Ret by exact E. eexists _, buf', p'. split; [reflexivity|]. split; [exact Hb'|]. cbn.
  unfold value_end. destruct (Z.leb_spec (value_size (info ifh (ifd_value_offset c) n f)) 4); [lia|].
  pose proof (align_bounds (ifd_value_offset c + value_size (info ifh (ifd_value_offset c) n f))). lia.
Qed.

(** The members of a table. *)
Lemma write_fields_built fs es' : Forall2 storable fs es' -> forall c es Q buf p,
  building c es Q buf -> zlen es + zlen es' <= m -> ifd_value_offset c + room es' <= zlen buf0 ->
  built (ifd_value_offset c + room es') (es ++ es') Q s (write_fields ifh fs c (in_memory buf p s)).
Proof.
  induction 1 as [|f e fs es' Hf Hfs IH]; intros c es Q buf p Hb Hle Hfit; cbn [write_fields room] in *.
  - rewrite app_nil_r. exists c, buf, p. split; [done|]. split; [done|lia].
  - rewrite zlen_cons in Hle. pose proof (room_nonneg _ _ Hfs). pose proof (zlen_nonneg es').
    eapply built_bind; [apply write_field_built; [done|lia|done|lia]|].
    intros c' buf' p' Hb' Hl'. destruct (IH c' (es ++ [e]) Q buf' p' Hb') as (c2 & buf2 & p2 & E & Hb2 & Hl2);
      [rewrite zlen_app; change (zlen [e]) with 1; lia|lia|].
    exists c2, buf2, p2. split; [done|]. rewrite <- app_assoc in Hb2. split; [done|lia].
Qed.

Lemma building_extend c es Q R buf buf' v2 :
  building c es Q buf -> zlen buf' = zlen buf -> outside (ifd_value_offset c) v2 buf buf' ->
  ifd_value_offset c <= v2 <= zlen buf ->
  (forall buf2, same_on (ifd_value_offset c) v2 buf' buf2 -> R buf2) ->
  building (Cursor (ifd_offset c) v2 (entries c)) es (fun buf => Q buf /\ R buf) buf'.
Proof.
  intros [Hn Hmax Hio Hvo Hlen Hout Hes HQ] Hz Ho Hv HR. split; cbn; [done..|lia|lia| | |].
  - intros i Hi. rewrite Ho by lia. apply Hout. lia.
  - intros k x Hkx. destruct (Hes k x Hkx) as (a & a' & Ha & Ha' & Hat). exists a, a'. split; [done|]. split; [lia|].
    pose proof (aget_range _ _ _ Hkx) as Hr.
    eapply entry_at_same; [done|intros i Hi; apply Ho; lia..].
  - intros buf2 H2. split; [|apply HR; intros i Hi; apply H2; lia].
    apply HQ. intros i Hi. rewrite H2 by lia. apply Ho. lia.
Qed.

Lemma building_Q c es (Q Q' : list Z -> Prop) buf :
  (forall buf, Q buf -> Q' buf) -> building c es Q buf -> building c es Q' buf.
Proof. intros H [? ? ? ? ? ? ? HQ]. split; auto. Qed.

Lemma begin_ifd_built p :
  b + 9 + 12 * m <= zlen buf0 ->
  built (b + 9 + 12 * m) [] (fun _ => True) s (begin_ifd m b (in_memory buf0 p s)).
Proof.
  intros Hfit. unfold begin_ifd. erewrite bind_Ret by by apply SetWritePos_mem; lia.
  assert (Hz : zlen (put buf0 b (be16 m)) = zlen buf0) by (apply zlen_put; len_lia).
  erewrite checked_mem by by apply WriteW_mem; lia.
  erewrite bind_Ret by by apply GetWritePos_mem; lia. unfold IFD_HEAD_LENGTH.
  rewrite (u32_small (b + 2 + m * 12 + 4)) by lia. pose proof (align_bounds (b + 2 + m * 12 + 4)) as Hal.
  eexists _, _, _. split; [reflexivity|]. split; [|cbn; lia]. split; cbn; try done; try lia.
  - change (zlen (@nil entry)) with 0. lia.
  - change (zlen (@nil entry)) with 0. lia.
  - apply outside_put; len_lia.
  - intros k e Hk%aget_range. change (zlen (@nil entry)) with 0 in Hk. lia.
Qed.

(** A directory that is done. *)
Definition directory (es : list entry) (next : Z) (Q : list Z -> Prop) (buf : list Z) : Prop :=
  read_ifd buf ifh b = Some (es, next) /\ Q buf.

Lemma mapM_upto_list {A} (f : Z -> option A) l :
  (forall k x, aget l k = Some x -> f k = Some x) -> mapM f (upto (length l)) = Some l.
Proof.
  intros H. apply mapM_Some_2. apply Forall2_same_length_lookup_2; [unfold upto; by rewrite length_fmap, length_seq|].
  intros n k x Hk Hx. unfold upto in Hk. apply list_lookup_fmap_Some in Hk as (j & -> & Hj).
  apply lookup_seq in Hj as [-> _]. apply H. by rewrite aget_nat.
Qed.

Lemma end_ifd_written next c es Q buf p :
  building c es Q buf ->
  exists buf' p', end_ifd next b c (in_memory buf p s) = Ret (ifd_value_offset c) (in_memory buf' p' s) /\
    zlen buf' = zlen buf0 /\ outside b (ifd_value_offset c) buf0 buf' /\
    forall buf2, same_on b (ifd_value_offset c) buf' buf2 -> directory es (u32 next) Q buf2.
Proof.
  intros [Hn Hmax Hio Hvo Hlen Hout Hes HQ]. pose proof (zlen_nonneg es) as Hes0. unfold end_ifd.
  set (io := ifd_offset c) in *. assert (Hz1 : zlen (put buf io (be32 next)) = zlen buf) by (apply zlen_put; len_lia).
  assert (Hz2 : zlen (put (put buf io (be32 next)) b (be16 (entries c))) = zlen buf) by (rewrite zlen_put; len_lia).
  erewrite bind_Ret by by apply SetWritePos_mem; lia. erewrite checked_mem by by apply WriteL_mem; lia.
  erewrite bind_Ret by by apply SetWritePos_mem; lia. erewrite checked_mem by by apply WriteW_mem; lia.
  eexists _, _. split; [reflexivity|]. split; [lia|].
  assert (Hs : forall i, ~ io <= i < io + 4 -> ~ b <= i < b + 2 ->
    aget (put (put buf io (be32 next)) b (be16 (entries c))) i = aget buf i).
  { intros i H1 H2. eapply (same_on_trans i (i + 1)); [apply same_on_put|apply same_on_put|]; len_lia. }
  assert (H1 : has (put (put buf io (be32 next)) b (be16 (entries c))) b (be16 (entries c))) by (apply has_put; len_lia).
  assert (H2 : has (put (put buf io (be32 next)) b (be16 (entries c))) io (be32 next)).
  { eapply has_same; [apply (same_on_put io (io + 4)); len_lia|lia|len_lia|apply has_put; len_lia]. }
  generalize dependent (put (put buf io (be32 next)) b (be16 (entries c))). intros buf' Hz2 Hs H1 H2. split.
  - intros i Hi. rewrite Hs by lia. apply Hout. lia.
  - intros buf2 Hb2. split.
    + unfold read_ifd. erewrite has_load_16 by (eapply has_same; [exact Hb2|lia|len_lia|exact H1]).
      rewrite u16_small, obind_Some by lia. rewrite Hn. replace (Z.to_nat (zlen es)) with (length es) by (unfold zlen; lia). rewrite mapM_upto_list.
      * rewrite obind_Some. rewrite <- Hio. fold io.
        erewrite has_load_32 by (eapply has_same; [exact Hb2|lia|len_lia|exact H2]). done.
      * intros k x Hk. pose proof (aget_range _ _ _ Hk) as Hr. destruct (Hes k x Hk) as (a & a' & Ha & Ha' & Hat).
        apply Hat; intros i Hi; rewrite Hb2 by lia; apply Hs; lia.
    + apply HQ. intros i Hi. rewrite Hb2 by lia. apply Hs; lia.
Qed.
End directory.

(** From [b] on, at most [size] bytes are written, none before [b] or after
    the place that is returned, and then [S] holds and depends on nothing
    else. *)
Definition dir_done (S : Z -> list Z -> Prop) (size : Z) (buf : list Z) (s : JPEG_WRITE_STREAM_CONTEXT_T) (b : Z)
    (r : outcome JPEG_WRITE_STREAM_CONTEXT_T Z) : Prop :=
  exists b' buf' p', r = Ret b' (in_memory buf' p' s) /\ zlen buf' = zlen buf /\
    b <= b' <= b + size /\ outside b b' buf buf' /\ forall buf2, same_on b b' buf' buf2 -> S b' buf2.

(** What a directory's function promises to the one that calls it. *)
Definition writes_dir (ifh : Z) (S : list Z -> Z -> Prop) (size : Z) (w : Z -> M JPEG_WRITE_STREAM_CONTEXT_T Z) : Prop :=
  forall buf p s b, 0 <= ifh <= b -> b + size <= zlen buf -> zlen buf < 4294967000 ->
  dir_done (fun _ buf2 => S buf2 b) size buf s b (w b (in_memory buf p s)).

Lemma end_ifd_done S ifh b m buf0 s next c es Q buf p size :
  0 <= ifh <= b -> 0 <= m < 65536 -> building ifh b m buf0 c es Q buf -> ifd_value_offset c <= b + size ->
  (forall buf2, directory ifh b es (u32 next) Q buf2 -> S (ifd_value_offset c) buf2) ->
  dir_done S size buf0 s b (end_ifd next b c (in_memory buf p s)).
Proof.
  intros Hifh Hm Hb Hl HS. pose proof (bd_vo _ _ _ _ _ _ _ _ Hb) as Hvo.
  destruct (end_ifd_written ifh b m buf0 s Hifh Hm next c es Q buf p Hb) as (buf' & p' & E & Hz & Ho & Hd).
  exists (ifd_value_offset c), buf', p'. split_and!; [done|done|lia|lia|done|]. intros buf2 H2. by apply HS, Hd.
Qed.

Section pointer.
Context (ifh b m : Z) (buf0 : list Z) (s : JPEG_WRITE_STREAM_CONTEXT_T).
Hypothesis (Hifh : 0 <= ifh <= b) (Hm : 0 <= m < 65536) (Hbuf : zlen buf0 < 4294967000).

(** An entry with an offset, of something at [v]. *)
Definition pointer (t v : Z) : entry := Entry t EXIF_LONG 1 [v].

Lemma described_pointer t v : 0 <= t < 65536 -> 0 <= v < 4294967296 ->
  described (IFD t EXIF_LONG 1 (le32 v) (le32 v)) (pointer t v).
Proof.
  intros Ht Hv. split; cbn; [done|done|lia|apply le32_bytes|]. exists [v]. split; [|done].
  unfold elements. change (upto (Z.to_nat (elem_count EXIF_LONG 1))) with [0]. change (elem_size EXIF_LONG) with 4.
  cbn [mapM]. change (0 + 4 * 0) with 0. rewrite <- load32_le by apply le32_bytes. by rewrite load32_le32, u32_small.
Qed.

Lemma write_pointer_built c es Q buf p t sub S size :
  building ifh b m buf0 c es Q buf -> zlen es < m -> 0 <= t < 65536 -> writes_dir ifh S size sub ->
  7 <= size -> ifd_value_offset c + 3 + size <= zlen buf0 ->
  let vo := JPEG_ALIGN_4 (ifd_value_offset c) in
  built ifh b m buf0 (ifd_value_offset c + 3 + size) (es ++ [pointer t (vo - ifh)]) (fun buf => Q buf /\ S buf vo) s
    (write_pointer ifh t sub c (in_memory buf p s)).
Proof.
  intros Hb Hlt Ht Hsub Hsz Hfit vo. pose proof (bd_io _ _ _ _ _ _ _ _ Hb) as Hio. pose proof (bd_vo _ _ _ _ _ _ _ _ Hb) as Hvo.
  pose proof (bd_len _ _ _ _ _ _ _ _ Hb) as Hlen. pose proof (zlen_nonneg es) as Hes0.
  pose proof (align_bounds (ifd_value_offset c) ltac:(lia)) as Hal. fold vo in Hal.
  assert (Hb1 : building ifh b m buf0 (Cursor (ifd_offset c) vo (entries c)) es Q buf).
  { eapply building_Q; [|eapply (building_extend ifh b m buf0) with (c := c) (R := fun _ => True) (buf := buf)]; try done; try lia. by intros ? []. }
  unfold write_pointer. fold vo. set (off := le32 (u32 (vo - ifh))).
  assert (Hw : wrote ifh (ifd_offset c) vo (IFD t EXIF_LONG 1 off off) (pointer t (vo - ifh)) buf
    (Jpeg_WriteLongIFD (IFD t EXIF_LONG 1 off off) (ifd_offset c) vo (in_memory buf p s)) s).
  { apply write_long_wrote; cbn; try done; try lia.
    - unfold off. rewrite u32_small by lia. apply described_pointer; lia.
    - change (value_size _) with 4. lia. }
  destruct (building_snoc ifh b m buf0 s Hifh Hbuf _ es Q buf _ _ Hb1 ltac:(lia) _ Hw) as (buf1 & p1 & E1 & Hb2);
    [change (value_size _) with 4; cbn [ifd_value_offset]; lia|done|].
  erewrite bind_Ret by exact E1. cbn [fst snd ifd_value_offset ifd_offset entries] in *.
  change (value_end _ vo) with vo in *. pose proof (bd_len _ _ _ _ _ _ _ _ Hb2) as Hlen2.
  destruct (Hsub buf1 p1 s vo) as (e & buf2 & p2 & E2 & Hz2 & He & Ho2 & HS); [lia..|].
  erewrite bind_Ret by exact E2. eexists _, buf2, p2. split; [reflexivity|]. split; [|cbn; lia].
  eapply (building_extend ifh b m buf0) with (c := Cursor _ _ _) (R := fun buf => S buf vo) (buf := buf1); cbn; try done; try lia.
Qed.

(** The thumbnail, and the entry that was to have its offset. *)
Lemma write_thumbnail_built c es1 e es2 Q buf p th :
  building ifh b m buf0 c (es1 ++ e :: es2) Q buf -> bytes th -> 0 < zlen th ->
  ifd_value_offset c + zlen th + 7 <= zlen buf0 ->
  let es := es1 ++ pointer IFD_JPEGINTERCHANGEFORMAT (ifd_value_offset c - ifh) :: es2 in
  built ifh b m buf0 (ifd_value_offset c + zlen th) es (fun buf => Q buf /\ slice buf (ifd_value_offset c) (zlen th) = Some th) s
    (write_thumbnail ifh (b + 2 + 12 * zlen es1) th c (in_memory buf p s)).
Proof.
  intros Hb Hth Hpos Hfit es. pose proof (bd_io _ _ _ _ _ _ _ _ Hb) as Hio. pose proof (bd_vo _ _ _ _ _ _ _ _ Hb) as Hvo.
  pose proof (bd_len _ _ _ _ _ _ _ _ Hb) as Hlen. pose proof (zlen_nonneg es1) as Hes1. pose proof (zlen_nonneg es2) as Hes2.
  pose proof (bd_max _ _ _ _ _ _ _ _ Hb) as Hmax. pose proof (bd_entries _ _ _ _ _ _ _ _ Hb) as Hn.
  assert (Hes : zlen es = zlen (es1 ++ e :: es2)) by (unfold es; rewrite !zlen_app, !zlen_cons; done).
  assert (Hj : zlen es1 < m) by (rewrite zlen_app, zlen_cons in Hmax; lia).
  unfold write_thumbnail. rewrite (proj2 (Z.gtb_lt _ _)) by done. set (vo := ifd_value_offset c) in *.
  set (off := le32 (u32 (vo - ifh))). erewrite bind_Ret by by apply SetWritePos_mem; lia.
  assert (Hz1 : zlen (put buf vo th) = zlen buf) by (apply zlen_put; lia).
  erewrite checked_mem by (unfold Jpeg_WriteBlock; erewrite bind_Ret by reflexivity; cbn [write_ptr in_memory];
    apply write_all_mem; [done|lia..]).
  erewrite bind_Ret by by apply GetWritePos_mem; lia. erewrite bind_Ret by by apply SetWritePos_mem; lia.
  assert (Hb1 : building ifh b m buf0 (Cursor (ifd_offset c) (vo + zlen th) (entries c)) (es1 ++ e :: es2)
    (fun buf => Q buf /\ slice buf vo (zlen th) = Some th) (put buf vo th)).
  { eapply (building_extend ifh b m buf0) with (c := c) (buf := buf); try done; fold vo; try lia.
    - apply outside_put; lia.
    - intros b2 H2. apply has_slice. eapply has_same; [exact H2|lia..|]. apply has_put; lia. }
  set (tio := b + 2 + 12 * zlen es1).
  destruct (write_long_wrote ifh tio (vo + zlen th) (IFD IFD_JPEGINTERCHANGEFORMAT EXIF_LONG 1 off off)
    (pointer IFD_JPEGINTERCHANGEFORMAT (vo - ifh)) (put buf vo th) tio s) as (buf2 & p2 & E & Hz2 & Hu & Hat);
    [|done|unfold tio; lia|unfold tio; lia|change (value_size _) with 4; lia|lia|lia|].
  { unfold off. rewrite u32_small by lia. apply described_pointer; [done|lia]. }
  erewrite bind_Ret by exact E. change (value_end _ (vo + zlen th)) with (vo + zlen th) in *.
  exists (Cursor (ifd_offset c) (vo + zlen th) (entries c)), buf2, p2. split; [done|]. split; [|cbn; lia].
  rewrite Hio, Hn, <- Hes. eapply (building_entry ifh b m buf0) with (j := zlen es1); [exact Hb1|..]; cbn; try done; try lia.
  - intros k x Hk Hne. pose proof (aget_range _ _ _ Hk) as Hr. unfold es in Hk. rewrite aget_app in Hk |- * by lia.
    destruct (Z.ltb_spec k (zlen es1)); [done|]. rewrite <- Hk. unfold aget. rewrite (proj2 (Z.leb_le _ _)) by lia.
    by replace (Z.to_nat (k - zlen es1)) with (Datatypes.S (Z.to_nat (k - zlen es1 - 1))) by lia.
  - intros x Hx. unfold es in Hx. rewrite aget_app, Z.ltb_irrefl, Z.sub_diag in Hx by lia. cbn in Hx. by injection Hx.
  - intros i Hi Hni. apply Hu; [done|lia].
Qed.
End pointer.
