(* ===== verification/ExifTables.v ===== *)
(** * The tables of the EXIF writer

    Every member that the tables of ExifWriter.v list can be written, when
    the strings of the structs end and what has a size fits its buffer; and
    the room a table takes. *)
From stdpp Require Import base list vector.
From Stdlib Require Import ZArith Lia.
From S2P Require Import Prelude ExifTypes ExifStream ExifWriter ExifProofs ExifDirProofs.

(** ** The structs *)

(** [P] of a member that is valid. *)
Definition of_valid {A} (P : A -> Prop) (o : option A) : Prop :=
  match o with Some a => P a | None => True end.

Definition terminated {n} (v : vec Z n) : Prop := 0 ∈ mem_bytes v.
(** [sz] bytes per element of a buffer of 256. *)
Definition custom_fits (sz : Z) (c : EXIF_CUSTOM_T) : Prop := 0 <= custom_count c /\ sz * custom_count c <= 256.

Record valid_desc (d : EXIF_PRI_DESC_T) : Prop := ValidDesc {
  v_ImageDescription : of_valid terminated (ImageDescription d);
  v_Make : of_valid terminated (Make d);
  v_Model : of_valid terminated (Model d);
  v_Software : of_valid terminated (Software d);
  v_Artist : of_valid terminated (Artist d);
  v_Copyright : of_valid terminated (Copyright d)
}.

Record valid_primary (p : EXIF_PRIMARY_INFO_T) : Prop := ValidPrimary {
  v_ImageWidth : 0 <= ImageWidth (pri_basic p) < 65536;
  v_ImageLength : 0 <= ImageLength (pri_basic p) < 65536;
  v_desc : of_valid valid_desc (img_desc_ptr p)
}.

(** [SubjectArea] is a list of shorts that the writer of rationals gets. *)
Record valid_pic (p : EXIF_SPEC_PIC_TAKING_COND_T) : Prop := ValidPic {
  v_SpectralSensitivity : of_valid terminated (SpectralSensitivity p);
  v_ISOSpeedRatings : of_valid (custom_fits 2) (ISOSpeedRatings p);
  v_OECF : of_valid (custom_fits 1) (OECF p);
  v_SubjectArea : of_valid (fun c => custom_count c = 0) (SubjectArea p);
  v_SpatialFrequencyResponse : of_valid (custom_fits 1) (SpatialFrequencyResponse p);
  v_CFAPattern : of_valid (custom_fits 1) (CFAPattern p);
  v_DeviceSettingDescription : of_valid (custom_fits 1) (DeviceSettingDescription p)
}.

Record valid_date_time (d : EXIF_SPEC_DATE_TIME_T) : Prop := ValidDateTime {
  v_SubSecTime : of_valid terminated (SubSecTime d);
  v_SubSecTimeOriginal : of_valid terminated (SubSecTimeOriginal d);
  v_SubSecTimeDigitized : of_valid terminated (SubSecTimeDigitized d)
}.

(** The bits of the two members are not looked at. *)
Record valid_user (u : EXIF_SPEC_USER_T) : Prop := ValidUser {
  v_MakerNote : custom_fits 1 (MakerNote u);
  v_UserComment : custom_fits 1 (UserComment u)
}.

Record valid_spec (s : EXIF_SPECIFIC_INFO_T) : Prop := ValidSpec {
  v_pic : of_valid valid_pic (pic_taking_cond_ptr s);
  v_date_time : of_valid valid_date_time (date_time_ptr s);
  v_user : of_valid valid_user (user_ptr s)
}.

Record valid_gps (g : EXIF_GPS_INFO_T) : Prop := ValidGps {
  v_GPSSatellites : of_valid terminated (GPSSatellites g);
  v_GPSMapDatum : of_valid terminated (GPSMapDatum g);
  v_GPSProcessingMethod : of_valid (custom_fits 1) (GPSProcessingMethod g);
  v_GPSAreaInformation : of_valid (custom_fits 1) (GPSAreaInformation g)
}.

Record valid_info (i : JINF_EXIF_INFO_T) : Prop := ValidInfo {
  v_primary : valid_primary (primary i);
  v_spec : of_valid valid_spec (spec_ptr i);
  v_gps : of_valid valid_gps (gps_ptr i);
  v_inter : of_valid (fun n => of_valid (custom_fits 1) (InteroperabilityIndex n)) (inter_ptr i)
}.

(** ** One row *)

(** The tags that are not a member's but a place's. *)
Definition place_tags : list Z :=
  [ IFD_EXIFIFDPOINTER; IFD_GPSIFDPOINTER; IFD_INTEROPERABILITYIFDPOINTER;
    IFD_JPEGINTERCHANGEFORMAT; IFD_JPEGINTERCHANGEFORMATLENGTH ].
Definition plain (t : Z) : bool := forallb (fun p => negb (t =? p)) place_tags.

Definition fits (n : Z) (f : field) : Prop :=
  exists e, storable f e /\ entry_size e <= n /\ plain (f_tag f) = true.
Definition row_ok (o : option field) (n : Z) : Prop := of_valid (fits n) o.

Lemma elements_is_Some ty n l :
  0 <= n -> elem_size ty * elem_count ty n <= zlen l -> is_Some (elements load_le ty n l 0).
Proof.
  intros Hn Hl. unfold elements. apply mapM_is_Some_2, Forall_forall. intros k Hk.
  unfold upto in Hk. apply list_elem_of_fmap in Hk as (j & -> & Hj). apply elem_of_seq in Hj.
  assert (Hs : 1 <= elem_size ty) by (destruct (elem_size_cases ty) as [->|[->| ->] ]; lia).
  unfold compose, load_le. destruct (slice_is_Some l (0 + elem_size ty * Z.of_nat j) (elem_size ty)) as [bs ->]; [nia..|].
  by eexists.
Qed.

(** What a row has to show. *)
Lemma fits_intro f n cnt :
  plain (f_tag f) = true -> 0 <= f_tag f < 65536 -> 0 <= f_type f < 65536 -> bytes (f_ptr f) ->
  field_count f = Some cnt -> 0 < cnt < 65536 -> suits (f_writer f) (info 0 0 cnt f) ->
  elem_size (f_type f) * elem_count (f_type f) cnt <= zlen (f_ptr f) ->
  elem_size (f_type f) * elem_count (f_type f) cnt <= n -> fits n f.
Proof.
  intros Hp Ht Hty Hb Hc Hr Hs Hz Hn. destruct (elements_is_Some (f_type f) cnt (f_ptr f)) as [vs Hvs]; [lia|done|].
  exists (Entry (f_tag f) (f_type f) cnt vs). split; [|done]. split; [done..|eauto|].
  unfold entry_of. by rewrite Hc, obind_Some, Hvs.
Qed.

(** Closed facts about a tag. *)
Definition tag_ok (t : Z) : bool := plain t && (0 <=? t) && (t <? 65536).
Lemma tag_ok_spec t : tag_ok t = true -> plain t = true /\ 0 <= t < 65536.
Proof. intros [ [H1 H2%Z.leb_le]%andb_true_iff H3%Z.ltb_lt]%andb_true_iff. done. Qed.

Lemma mem_bytes_bytes {n} (v : vec Z n) : bytes (mem_bytes v).
Proof. apply Forall_fmap, Forall_forall. intros x _. apply u8_byte. Qed.
Lemma zlen_mem_bytes {n} (v : vec Z n) : zlen (mem_bytes v) = Z.of_nat n.
Proof. unfold zlen, mem_bytes. by rewrite length_fmap, length_vec_to_list. Qed.

Lemma bytes_concat {A} (g : A -> list Z) l : (forall x, bytes (g x)) -> bytes (concat (g <$> l)).
Proof. intros H. induction l as [|x l IH]; [constructor|]. cbn [fmap list_fmap concat]. apply bytes_app. by split. Qed.
Lemma mem_rational_bytes r : bytes (mem_rational r).
Proof. apply Forall_app. split; apply le32_bytes. Qed.
Lemma mem_srational_bytes r : bytes (mem_srational r).
Proof. apply Forall_app. split; apply le32_bytes. Qed.
Lemma zlen_mem_shorts {n} (v : vec Z n) : zlen (mem_shorts v) = 2 * Z.of_nat n.
Proof. unfold mem_shorts. rewrite (zlen_concat _ 2) by done. unfold zlen. rewrite length_vec_to_list. lia. Qed.
Lemma zlen_mem_rationals {n} (v : vec EXIF_RATIONAL_T n) : zlen (mem_rationals v) = 8 * Z.of_nat n.
Proof. unfold mem_rationals. rewrite (zlen_concat _ 8) by done. unfold zlen. rewrite length_vec_to_list. lia. Qed.

Lemma ascii_size l : 0 ∈ l -> exists n, _GetAsciiStringSize l = Some n /\ 0 <= n < zlen l.
Proof.
  induction l as [|c l IH]; [intros H; by inversion H|]. intros H. cbn [_GetAsciiStringSize]. rewrite zlen_cons.
  pose proof (zlen_nonneg l) as Hz. destruct (Z.eqb_spec c 0) as [|Hc]; [exists 0; split; [done|lia]|].
  apply elem_of_cons in H as [|H]; [lia|]. destruct (IH H) as (n & -> & Hn). exists (n + 1). split; [done|lia].
Qed.

Lemma fits_string {n} t (v : vec Z n) : tag_ok t = true -> Z.of_nat n < 65536 -> terminated v -> fits (Z.of_nat n) (string_field t v).
Proof.
  intros [Hp Ht]%tag_ok_spec Hn Hv. destruct (ascii_size _ Hv) as (k & Hk & Hr). rewrite zlen_mem_bytes in Hr.
  apply (fits_intro _ _ (k + 1)); cbn [f_tag f_type f_ptr f_writer string_field]; try done.
  - apply mem_bytes_bytes.
  - unfold field_count. cbn [f_count f_ptr string_field]. by rewrite Hk.
  - lia.
  - change (elem_size EXIF_ASCII) with 1. change (elem_count EXIF_ASCII (k + 1)) with (k + 1). rewrite zlen_mem_bytes. lia.
  - change (elem_size EXIF_ASCII) with 1. change (elem_count EXIF_ASCII (k + 1)) with (k + 1). lia.
Qed.

Lemma size_1_count ty n : elem_size ty = 1 -> elem_count ty n = n.
Proof. intros H. unfold elem_count. by rewrite size_1_not_rational. Qed.

Lemma fits_bytes {n} t ty (v : vec Z n) :
  tag_ok t = true -> (0 <? Z.of_nat n) && (Z.of_nat n <? 65536) && (elem_size ty =? 1) && (0 <=? ty) && (ty <? 65536) = true ->
  fits (Z.of_nat n) (bytes_field t ty v).
Proof.
  intros [Hp Ht]%tag_ok_spec H. rewrite !andb_true_iff, !Z.ltb_lt, Z.eqb_eq, Z.leb_le in H.
  destruct H as [ [ [ [Hn Hn'] Hs] Hty] Hty'].
  apply (fits_intro _ _ (Z.of_nat n)); cbn [f_tag f_type f_ptr f_writer bytes_field]; rewrite ?size_1_count, ?Hs, ?zlen_mem_bytes by done; try (done || lia).
  apply mem_bytes_bytes.
Qed.

Lemma fits_byte t ty v :
  tag_ok t = true -> (elem_size ty =? 1) && (0 <=? ty) && (ty <? 65536) = true -> fits 1 (byte_field t ty v).
Proof.
  intros [Hp Ht]%tag_ok_spec H. rewrite !andb_true_iff, !Z.ltb_lt, Z.eqb_eq, Z.leb_le in H. destruct H as [ [Hs Hty] Hty'].
  apply (fits_intro _ _ 1); cbn [f_tag f_type f_ptr f_writer byte_field]; rewrite ?size_1_count, ?Hs by done; try done.
  constructor; [apply u8_byte|constructor].
Qed.

Lemma fits_short t v : tag_ok t = true -> fits 2 (short_field t v).
Proof.
  intros [Hp Ht]%tag_ok_spec. apply (fits_intro _ _ 1); cbn [f_tag f_type f_ptr f_writer short_field]; try done.
  - apply le16_bytes.
  - by left.
Qed.

Lemma fits_shorts {n} t (v : vec Z n) :
  tag_ok t = true -> (0 <? Z.of_nat n) && (Z.of_nat n <? 65536) = true -> fits (2 * Z.of_nat n) (shorts_field t v).
Proof.
  intros [Hp Ht]%tag_ok_spec [Hn%Z.ltb_lt Hn'%Z.ltb_lt]%andb_true_iff.
  apply (fits_intro _ _ (Z.of_nat n)); cbn [f_tag f_type f_ptr f_writer shorts_field]; try done.
  - apply bytes_concat. intros. apply le16_bytes.
  - by left.
  - rewrite zlen_mem_shorts. change (elem_size EXIF_SHORT) with 2. by change (elem_count EXIF_SHORT (Z.of_nat n)) with (Z.of_nat n).
Qed.

Lemma fits_long t v : tag_ok t = true -> fits 4 (long_field t v).
Proof. intros [Hp Ht]%tag_ok_spec. apply (fits_intro _ _ 1); cbn [f_tag f_type f_ptr f_writer long_field]; try done. apply le32_bytes. Qed.

Lemma fits_rational t r : tag_ok t = true -> fits 8 (rational_field t r).
Proof. intros [Hp Ht]%tag_ok_spec. apply (fits_intro _ _ 1); cbn [f_tag f_type f_ptr f_writer rational_field]; try done. apply mem_rational_bytes. Qed.

Lemma fits_srational t r : tag_ok t = true -> fits 8 (srational_field t r).
Proof. intros [Hp Ht]%tag_ok_spec. apply (fits_intro _ _ 1); cbn [f_tag f_type f_ptr f_writer srational_field]; try done. apply mem_srational_bytes. Qed.

Lemma fits_rationals {n} t (v : vec EXIF_RATIONAL_T n) :
  tag_ok t = true -> (0 <? Z.of_nat n) && (Z.of_nat n <? 65536) = true -> fits (8 * Z.of_nat n) (rationals_field t v).
Proof.
  intros [Hp Ht]%tag_ok_spec [Hn%Z.ltb_lt Hn'%Z.ltb_lt]%andb_true_iff.
  assert (E : elem_size EXIF_RATIONAL * elem_count EXIF_RATIONAL (Z.of_nat n) = 8 * Z.of_nat n).
  { change (elem_size EXIF_RATIONAL) with 4. change (elem_count EXIF_RATIONAL (Z.of_nat n)) with (2 * Z.of_nat n). lia. }
  apply (fits_intro _ _ (Z.of_nat n)); cbn [f_tag f_type f_ptr f_writer rationals_field]; rewrite ?E, ?zlen_mem_rationals; try done.
  apply bytes_concat. intros. apply mem_rational_bytes.
Qed.

(** An image's width is a long that the writer of shorts gets. *)
Lemma fits_width t v : tag_ok t = true -> 0 <= v < 65536 -> fits 4 (Field t EXIF_LONG (Some 1) (le32 v) w_short).
Proof.
  intros [Hp Ht]%tag_ok_spec Hv. apply (fits_intro _ _ 1); cbn [f_tag f_type f_ptr f_writer]; try done.
  - apply le32_bytes.
  - right. split; [done|]. split; [done|]. cbn [value_ptr info f_ptr]. unfold load_le.
    change (slice (le32 v) 2 2) with (Some [u8 (Z.shiftr v 16); u8 (Z.shiftr v 24)]).
    cbn [fmap option_fmap option_map]. rewrite shiftr16, shiftr24. unfold le_join. cbn [foldr]. f_equal. wrap_lia.
Qed.

Lemma row_custom t ty w c :
  tag_ok t = true -> (elem_size ty =? 1) && (0 <=? ty) && (ty <? 65536) = true -> w = w_byte -> custom_fits 1 c ->
  row_ok (custom_field t ty w c) 256.
Proof.
  intros [Hp Ht]%tag_ok_spec H -> [Hc1 Hc2]. rewrite !andb_true_iff, !Z.ltb_lt, Z.eqb_eq, Z.leb_le in H.
  destruct H as [ [Hs Hty] Hty']. unfold row_ok, custom_field. destruct (Z.gtb_spec (custom_count c) 0); [|done]. cbn [of_valid].
  apply (fits_intro _ _ (custom_count c)); cbn [f_tag f_type f_ptr f_writer]; rewrite ?size_1_count, ?Hs, ?zlen_mem_bytes by done; try (done || lia).
  apply mem_bytes_bytes.
Qed.

Lemma row_custom_shorts t c :
  tag_ok t = true -> custom_fits 2 c -> row_ok (custom_field t EXIF_SHORT w_short c) 256.
Proof.
  intros [Hp Ht]%tag_ok_spec [Hc1 Hc2]. unfold row_ok, custom_field. destruct (Z.gtb_spec (custom_count c) 0); [|done]. cbn [of_valid].
  apply (fits_intro _ _ (custom_count c)); cbn [f_tag f_type f_ptr f_writer]; rewrite ?zlen_mem_bytes; try (done || lia).
  - apply mem_bytes_bytes.
  - by left.
Qed.

(** ** Whole tables *)

Create HintDb exif_rows.
#[export] Hint Resolve fits_bytes fits_byte fits_short fits_shorts fits_long fits_rational fits_srational fits_rationals : exif_rows.

(** The rows of a table and the sizes of their values. *)
Record table_ok (rows : list (option field)) (k n : Z) : Prop := TableOk {
  tab_entries : exists es, Forall2 storable (omap id rows) es /\ room es <= n;
  tab_plain : Forall (fun f => plain (f_tag f) = true) (omap id rows);
  tab_count : zlen (omap id rows) <= k
}.

Lemma table_nil : table_ok [] 0 0.
Proof. split; [by exists []|constructor|done]. Qed.

Lemma table_cons o rows n k r :
  row_ok o n -> 0 <= n -> table_ok rows k r -> table_ok (o :: rows) (1 + k) (n + 3 + r).
Proof.
  intros Ho Hn [(es & Hes & Hr) Hp Hk]. destruct o as [f|]; cbn [omap list_omap id] in *.
  - destruct Ho as (e & He & Hs & Hf). split.
    + exists (e :: es). split; [by constructor|]. cbn [room]. lia.
    + by constructor.
    + change (omap id (Some f :: rows)) with (f :: omap id rows). rewrite zlen_cons. lia.
  - split; [exists es; split; [done|lia]|done|]. change (omap id (None :: rows)) with (omap id rows). lia.
Qed.

Lemma table_app rows1 rows2 k1 k2 n1 n2 :
  table_ok rows1 k1 n1 -> table_ok rows2 k2 n2 -> table_ok (rows1 ++ rows2) (k1 + k2) (n1 + n2).
Proof.
  intros [(es1 & H1 & Hr1) Hp1 Hk1] [(es2 & H2 & Hr2) Hp2 Hk2].
  assert (E : omap id (rows1 ++ rows2) = omap id rows1 ++ omap id rows2) by apply omap_app.
  split; rewrite E.
  - exists (es1 ++ es2). split; [by apply Forall2_app|].
    assert (Hr : room (es1 ++ es2) = room es1 + room es2)
      by (clear; induction es1 as [|e es1 IH]; cbn [room app]; [done|rewrite IH; lia]). lia.
  - by apply Forall_app.
  - rewrite zlen_app. lia.
Qed.

Lemma table_le rows k k' n n' : table_ok rows k n -> k <= k' -> n <= n' -> table_ok rows k' n'.
Proof. intros [(es & H & Hr) ? ?]. split; [exists es; split; [done|lia]|done|lia]. Qed.

Lemma row_member {A B} (p : option A) (m : A -> option B) f n :
  (forall a b, p = Some a -> m a = Some b -> fits n (f b)) -> row_ok (member p m f) n.
Proof. intros H. unfold member. destruct p as [a|]; [|done]. destruct (m a) as [b|] eqn:E; [|done]. by eapply H. Qed.
Lemma row_custom_member {A} (p : option A) (m : A -> option EXIF_CUSTOM_T) f n :
  (forall a b, p = Some a -> m a = Some b -> row_ok (f b) n) -> row_ok (custom_member p m f) n.
Proof. intros H. unfold custom_member. destruct p as [a|]; [|done]. destruct (m a) as [b|] eqn:E; [|done]. by eapply H. Qed.
Lemma row_Some f n : fits n f -> row_ok (Some f) n.
Proof. done. Qed.

Lemma row_custom_none t ty w c : custom_count c = 0 -> row_ok (custom_field t ty w c) 0.
Proof. intros E. unfold row_ok, custom_field. by rewrite E. Qed.

(** Each row by its constructor; the structs promise the rest. *)
Lemma of_valid_Some {A} (P : A -> Prop) o a : of_valid P o -> o = Some a -> P a.
Proof. by intros H ->. Qed.

Ltac promised :=
  repeat match goal with
         | E : ?o = Some ?a, H : of_valid _ ?o |- _ => pose proof (of_valid_Some _ _ _ H E); clear H
         end; simplify_eq;
  try match goal with
      | H : valid_desc _ |- _ => destruct H
      | H : valid_pic _ |- _ => destruct H
      | H : valid_date_time _ |- _ => destruct H
      | H : valid_user _ |- _ => destruct H
      end;
  repeat match goal with
         | E : ?o = Some ?a, H : of_valid _ ?o |- _ => pose proof (of_valid_Some _ _ _ H E); clear H
         end; cbv beta in *; done.
Ltac row :=
  lazymatch goal with
  | |- row_ok (member _ _ (string_field _)) _ =>
      apply row_member; intros; apply fits_string; [reflexivity|reflexivity|promised]
  | |- row_ok (member _ _ _) _ => apply row_member; intros; eauto with exif_rows
  | |- row_ok (custom_member _ _ (custom_field _ EXIF_SHORT w_short)) _ =>
      apply row_custom_member; intros; apply row_custom_shorts; [reflexivity|promised]
  | |- row_ok (custom_member _ _ (custom_field _ EXIF_SHORT w_rational)) _ =>
      apply row_custom_member; intros; apply row_custom_none; promised
  | |- row_ok (custom_member _ _ _) _ =>
      apply row_custom_member; intros; apply row_custom; [reflexivity|reflexivity|reflexivity|promised]
  | |- row_ok (Some (Field _ _ _ _ _)) _ => apply row_Some, fits_width; [reflexivity|done]
  | |- row_ok (Some _) _ => apply row_Some; eauto with exif_rows
  end.
Ltac rows := eapply table_le; [repeat (apply table_cons; [row|lia|]); apply table_nil|lia|lia].

Section tables.
Context (p : EXIF_PRIMARY_INFO_T) (Hp : valid_primary p).

Lemma primary_description_ok : table_ok (primary_description p) 8 1000.
Proof. destruct Hp as [Hw Hl Hd]. rows. Qed.
Lemma primary_origin_ok : table_ok (primary_origin p) 6 2300.
Proof. destruct Hp as [Hw Hl Hd]. rows. Qed.
Lemma primary_picture_ok : table_ok (primary_picture p) 6 1000.
Proof. destruct Hp as [Hw Hl Hd]. rows. Qed.
End tables.

Section spec_tables.
Context (sp : EXIF_SPECIFIC_INFO_T) (Hs : valid_spec sp).

Lemma spec_exposure_ok : table_ok (spec_exposure sp) 7 900.
Proof. destruct Hs. rows. Qed.
Lemma spec_dates_ok : table_ok (spec_dates sp) 8 200.
Proof. rows. Qed.
Lemma spec_lens_ok : table_ok (spec_lens sp) 8 400.
Proof. destruct Hs. rows. Qed.
Lemma spec_user_ok : table_ok (spec_user sp) 7 1100.
Proof. destruct Hs. rows. Qed.
Lemma spec_image_ok : table_ok (spec_image sp) 2 100.
Proof. rows. Qed.
Lemma spec_focal_plane_ok : table_ok (spec_focal_plane sp) 8 400.
Proof. destruct Hs. rows. Qed.
Lemma spec_scene_ok : table_ok (spec_scene sp) 9 400.
Proof. destruct Hs. rows. Qed.
Lemma spec_gain_ok : table_ok (spec_gain sp) 7 400.
Proof. destruct Hs. rows. Qed.

Lemma spec_1_ok : table_ok (spec_exposure sp ++ spec_dates sp ++ spec_lens sp ++ spec_user sp ++ spec_image sp) 32 2700.
Proof.
  eapply table_le; [apply table_app; [apply spec_exposure_ok|apply table_app; [apply spec_dates_ok|apply table_app;
    [apply spec_lens_ok|apply table_app; [apply spec_user_ok|apply spec_image_ok] ] ] ]|lia|lia].
Qed.
Lemma spec_2_ok : table_ok (spec_focal_plane sp ++ spec_scene sp ++ spec_gain sp) 24 1200.
Proof.
  eapply table_le; [apply table_app; [apply spec_focal_plane_ok|apply table_app; [apply spec_scene_ok|apply spec_gain_ok] ]|lia|lia].
Qed.
End spec_tables.

Section gps_tables.
Context (g : EXIF_GPS_INFO_T) (Hg : valid_gps g).

(** The longitude of the destination has the bit of its latitude. *)
Lemma gps_ok : table_ok (gps_position g ++ gps_status g ++ gps_destination g ++ gps_method g) 31 1700.
Proof.
  destruct Hg.
  assert (H1 : table_ok (gps_position g) 9 500) by rows. assert (H2 : table_ok (gps_status g) 9 100) by rows.
  assert (H3 : table_ok (gps_destination g) 9 500) by rows. assert (H4 : table_ok (gps_method g) 4 560) by rows.
  eapply table_le; [by repeat apply table_app; [exact H1|exact H2|exact H3|exact H4]|lia|lia].
Qed.
End gps_tables.

Lemma inter_ok n : of_valid (custom_fits 1) (InteroperabilityIndex n) ->
  table_ok [ custom_member (Some n) InteroperabilityIndex (custom_field IFD_INTEROPERABILITYINDEX EXIF_ASCII w_byte) ] 1 259.
Proof. intros H. rows. Qed.

Lemma primary_12_ok p : valid_primary p -> table_ok (primary_description p ++ primary_origin p) 14 3300.
Proof. intros H. eapply table_le; [apply table_app; [by apply primary_description_ok|by apply primary_origin_ok]|lia|lia]. Qed.

(** The thumbnail's directory. *)
Lemma ifd1_valid : valid_primary ifd1_primary.
Proof. by split. Qed.
