(* ===== verification/ExifReadProofs.v ===== *)
(** * Reading an EXIF segment back

    The reader of a whole segment, and the proof that it finds in the output
    of [Jpeg_WriteAPP1] what the structs hold; the file with the segment. *)
From stdpp Require Import base list vector.
From Stdlib Require Import ZArith Lia.
From S2P Require Import Prelude ExifTypes ExifStream ExifWriter ExifProofs ExifDirProofs ExifTables.

(** ** The reader *)

Definition with_tag (t : Z) (es : list entry) : list entry := List.filter (fun e => e_tag e =? t) es.
Definition members (es : list entry) : list entry := List.filter (fun e => plain (e_tag e)) es.

(** The directory that the entry of a tag points to, if there is one. *)
Definition sub {A} (read : Z -> option A) (ifh t : Z) (es : list entry) : option (option A) :=
  match with_tag t es with
  | [] => Some None
  | [Entry _ _ _ [v]] => a ← read (ifh + v); Some (Some a)
  | _ => None
  end.

(** The bytes that two entries give the place and the number of. *)
Definition read_thumbnail (buf : list Z) (ifh : Z) (es : list entry) : option (list Z) :=
  match with_tag IFD_JPEGINTERCHANGEFORMAT es, with_tag IFD_JPEGINTERCHANGEFORMATLENGTH es with
  | [], [] => Some []
  | [Entry _ _ _ [v] ], [Entry _ _ _ [n] ] => slice buf (ifh + v) n
  | _, _ => None
  end.

Definition read_plain (buf : list Z) (ifh b : Z) : option (list entry) :=
  r ← read_ifd buf ifh b; Some (members r.1).

Definition read_spec (buf : list Z) (ifh b : Z) : option (list entry * option (list entry)) :=
  r ← read_ifd buf ifh b;
  inter ← sub (read_plain buf ifh) ifh IFD_INTEROPERABILITYIFDPOINTER r.1;
  Some (members r.1, inter).

Record image := Image {
  i_members : list entry;
  i_spec : option (list entry * option (list entry));
  i_gps : option (list entry);
  i_thumbnail : list Z
}.

Definition read_image (buf : list Z) (ifh b : Z) : option (image * Z) :=
  r ← read_ifd buf ifh b;
  spec ← sub (read_spec buf ifh) ifh IFD_EXIFIFDPOINTER r.1;
  gps ← sub (read_plain buf ifh) ifh IFD_GPSIFDPOINTER r.1;
  th ← read_thumbnail buf ifh r.1;
  Some (Image (members r.1) spec gps th, r.2).

(** A header and one or two images. *)
Definition read_tiff (buf : list Z) (ifh : Z) : option (image * option image) :=
  order ← load_be 2 buf ifh;
  fixed ← load_be 2 buf (ifh + 2);
  o ← load_be 4 buf (ifh + 4);
  if negb ((order =? EXIF_BIG_ENDIAN) && (fixed =? EXIF_IFH_FIX_VALUE)) then None else
  r ← read_image buf ifh (ifh + o);
  if r.2 =? 0 then Some (r.1, None) else
  r1 ← read_image buf ifh (ifh + r.2);
  Some (r.1, Some r1.1).

(** A segment: marker, length, identifier, and the rest in its [length]. *)
Definition read_app1 (buf : list Z) : option (image * option image) :=
  marker ← load_be 2 buf 0;
  len ← load_be 2 buf 2;
  id ← slice buf 4 6;
  segment ← slice buf 0 (len + 2);
  if (marker =? 0xFFE1) && bool_decide (id = exif_id) then read_tiff segment 10 else None.

(** ** What is to be read *)

Definition maybe {A B} (f : A -> option B) (o : option A) : option (option B) :=
  match o with Some a => b ← f a; Some (Some b) | None => Some None end.

Definition spec_of (sp : EXIF_SPECIFIC_INFO_T) (inter : option EXIF_INTEROPERABILITY_INFO_T)
    : option (list entry * option (list entry)) :=
  es ← mapM entry_of (spec_fields_1 sp ++ spec_fields_2 sp);
  i ← maybe (fun n => mapM entry_of (inter_fields n)) inter;
  Some (es, i).

Definition image_of (p : EXIF_PRIMARY_INFO_T) (sp : option EXIF_SPECIFIC_INFO_T) (g : option EXIF_GPS_INFO_T)
    (inter : option EXIF_INTEROPERABILITY_INFO_T) (th : list Z) : option image :=
  es ← mapM entry_of (omap id (primary_description p ++ primary_origin p) ++ omap id (primary_picture p));
  s ← maybe (fun sp => spec_of sp inter) sp;
  gs ← maybe (fun g => mapM entry_of (gps_fields g)) g;
  Some (Image es s gs th).

Definition tiff_of (i : JINF_EXIF_INFO_T) (th : list Z) : option (image * option image) :=
  a ← image_of (primary i) (spec_ptr i) (gps_ptr i) (inter_ptr i) [];
  if zlen th >? 0 then b ← image_of ifd1_primary None None None th; Some (a, Some b) else Some (a, None).

(** ** Tags *)

Lemma with_tag_app t a b : with_tag t (a ++ b) = with_tag t a ++ with_tag t b.
Proof. apply List.filter_app. Qed.
Lemma members_app a b : members (a ++ b) = members a ++ members b.
Proof. apply List.filter_app. Qed.

Definition all_plain (es : list entry) : Prop := Forall (fun e => plain (e_tag e) = true) es.
Definition tagged (ts : list Z) (es : list entry) : Prop := Forall (fun e => e_tag e ∈ ts) es.

Lemma members_plain es : all_plain es -> members es = es.
Proof. unfold members. induction 1 as [|e es He _ IH]; cbn [List.filter]; [done|]. by rewrite He, IH. Qed.
Lemma members_tagged ts es : tagged ts es -> Forall (fun t => plain t = false) ts -> members es = [].
Proof.
  intros He Ht. rewrite Forall_forall in Ht. unfold members. induction He as [|e es He _ IH]; cbn [List.filter]; [done|].
  by rewrite (Ht _ He).
Qed.
Lemma with_tag_plain t es : all_plain es -> plain t = false -> with_tag t es = [].
Proof.
  intros He Ht. unfold with_tag. induction He as [|e es He _ IH]; cbn [List.filter]; [done|].
  destruct (Z.eqb_spec (e_tag e) t); [congruence|done].
Qed.
Lemma with_tag_tagged t ts es : tagged ts es -> t ∉ ts -> with_tag t es = [].
Proof.
  intros He. unfold with_tag. induction He as [|e es He _ IH]; cbn [List.filter]; [done|].
  intros Ht. rewrite IH by done. destruct (Z.eqb_spec (e_tag e) t) as [Heq|]; [by rewrite Heq in He|done].
Qed.

Lemma sub_only {A} (read : Z -> option A) ifh t a ps b :
  with_tag t a = [] -> with_tag t b = [] -> sub read ifh t (a ++ ps ++ b) = sub read ifh t ps.
Proof. intros Ha Hb. unfold sub. by rewrite !with_tag_app, Ha, Hb, app_nil_r. Qed.

Lemma storable_entry_of fs es : Forall2 storable fs es -> mapM entry_of fs = Some es.
Proof. intros H. apply mapM_Some_2. eapply Forall2_impl; [exact H|]. by intros f e [? ? ? ? ?]. Qed.

Lemma storable_e_tag f e : storable f e -> e_tag e = f_tag f.
Proof.
  intros [_ _ _ (n & Hn & _) He]. unfold entry_of in He. rewrite Hn, obind_Some in He.
  destruct (elements _ _ _ _ _); [|done]. by injection He as <-.
Qed.

Lemma storable_plain fs es :
  Forall2 storable fs es -> Forall (fun f => plain (f_tag f) = true) fs -> all_plain es.
Proof.
  induction 1 as [|f e fs es Hf _ IH]; [constructor|]. intros [Hp Hps]%Forall_cons.
  constructor; [by rewrite (storable_e_tag f e)|by apply IH].
Qed.

(** A table, as entries. *)
Lemma table_entries rows k n : table_ok rows k n -> exists es,
  Forall2 storable (omap id rows) es /\ mapM entry_of (omap id rows) = Some es /\ all_plain es /\ zlen es <= k /\ room es <= n /\ 0 <= room es.
Proof.
  intros [(es & Hes & Hr) Hp Hk]. exists es. split; [done|]. split; [by apply storable_entry_of|].
  split; [by eapply storable_plain|]. split_and!; [|done|by eapply room_nonneg].
  apply Forall2_length in Hes. unfold zlen in *. lia.
Qed.

(** ** The directories of members alone *)

Section directories.
Context (ifh : Z).

Lemma plain_dir rows m n : 0 <= m < 65536 -> table_ok rows m n -> exists es,
  mapM entry_of (omap id rows) = Some es /\
  writes_dir ifh (fun buf b => read_plain buf ifh b = Some es) (9 + 12 * m + n) (fun b =>
    c <- begin_ifd m b ;; c <- write_fields ifh (omap id rows) c ;; end_ifd 0 b c).
Proof.
  intros Hm (es & Hst & Hmap & Hpl & Hk & Hr & Hr0)%table_entries. exists es. split; [done|].
  intros buf p s b Hifh Hfit Hbuf.
  eapply (built_bind ifh b m buf s); [apply begin_ifd_built; (done || lia)|]. intros c1 buf1 p1 Hb1 Hl1.
  eapply (built_bind ifh b m buf s); [eapply write_fields_built; (done || lia)|]. intros c2 buf2 p2 Hb2 Hl2.
  eapply end_ifd_done; [done|done|exact Hb2|lia|]. intros buf3 [Hrd _]. unfold read_plain. rewrite Hrd, obind_Some.
  cbn [fst app]. by rewrite members_plain.
Qed.

Lemma inter_dir n : of_valid (custom_fits 1) (InteroperabilityIndex n) -> exists es,
  mapM entry_of (inter_fields n) = Some es /\
  writes_dir ifh (fun buf b => read_plain buf ifh b = Some es) 280 (Jpeg_WriteExifInteroperabilityInfo n ifh).
Proof. intros H. by apply (plain_dir _ 1 259), inter_ok. Qed.

Lemma gps_dir g : valid_gps g -> exists es,
  mapM entry_of (gps_fields g) = Some es /\
  writes_dir ifh (fun buf b => read_plain buf ifh b = Some es) 2081 (Jpeg_WriteExifGPSInfo g ifh).
Proof. intros H. by apply (plain_dir _ 31 1700), gps_ok. Qed.

(** A directory that may be there, and the entry that points to it. *)
Definition reads_as {A B} (o : option A) (x : option B) (w : A -> Z -> M JPEG_WRITE_STREAM_CONTEXT_T Z)
    (read : list Z -> Z -> option B) (size : Z) : Prop :=
  match o, x with
  | Some a, Some y => writes_dir ifh (fun buf b => read buf b = Some y) size (w a)
  | None, None => True
  | _, _ => False
  end.

Lemma with_tag_pointer t v : with_tag t [pointer t v] = [pointer t v].
Proof. unfold with_tag. cbn [List.filter pointer e_tag]. by rewrite Z.eqb_refl. Qed.

Lemma optional_pointer {A B} (o : option A) (x : option B) w (read : list Z -> Z -> option B) size b m buf0 s c es Q buf p t :
  reads_as o x w read size -> 0 <= ifh <= b -> 0 <= m < 65536 -> zlen buf0 < 4294967000 ->
  building ifh b m buf0 c es Q buf -> zlen es < m -> 0 <= t < 65536 -> 7 <= size ->
  ifd_value_offset c + 3 + size <= zlen buf0 ->
  exists ps, zlen ps <= 1 /\ tagged [t] ps /\
    built ifh b m buf0 (ifd_value_offset c + 3 + size) (es ++ ps) (fun buf => Q buf /\ sub (read buf) ifh t ps = Some x) s
      (match o with Some a => write_pointer ifh t (w a) c | None => ret c end (in_memory buf p s)).
Proof.
  intros Hr Hifh Hm Hbuf Hb Hlt Ht Hsz Hfit. pose proof (bd_vo _ _ _ _ _ _ _ _ Hb) as Hvo.
  unfold reads_as in Hr. destruct o as [a|], x as [y|]; try done.
  - exists [pointer t (JPEG_ALIGN_4 (ifd_value_offset c) - ifh)]. split; [done|]. split; [repeat constructor|].
    destruct (write_pointer_built ifh b m buf0 s Hifh Hm Hbuf c es Q buf p t (w a) _ size Hb Hlt Ht Hr Hsz Hfit)
      as (c' & buf' & p' & E & Hb' & Hl).
    exists c', buf', p'. split; [done|]. split; [|done]. eapply building_Q; [|exact Hb'].
    intros bf [HQ Hrd]. split; [done|]. unfold sub. rewrite with_tag_pointer. unfold pointer.
    replace (ifh + (JPEG_ALIGN_4 (ifd_value_offset c) - ifh)) with (JPEG_ALIGN_4 (ifd_value_offset c)) by lia.
    by rewrite Hrd.
  - exists []. split; [done|]. split; [constructor|]. rewrite app_nil_r. exists c, buf, p. split; [done|]. split; [|lia].
    eapply building_Q; [|exact Hb]. by intros.
Qed.

Lemma spec_dir sp inter : valid_spec sp ->
  of_valid (fun n => of_valid (custom_fits 1) (InteroperabilityIndex n)) inter -> exists es,
  spec_of sp inter = Some es /\
  writes_dir ifh (fun buf b => read_spec buf ifh b = Some es) 4880 (Jpeg_WriteExifSpecInfo sp inter ifh).
Proof.
  intros Hsp Hinter. destruct (table_entries _ _ _ (spec_1_ok sp Hsp)) as (es1 & Hst1 & _ & Hpl1 & Hk1 & Hr1 & Hr1').
  destruct (table_entries _ _ _ (spec_2_ok sp Hsp)) as (es2 & Hst2 & _ & Hpl2 & Hk2 & Hr2 & Hr2').
  assert (Hx : exists x, maybe (fun n => mapM entry_of (inter_fields n)) inter = Some x /\
    reads_as inter x (fun n => Jpeg_WriteExifInteroperabilityInfo n ifh) (fun buf => read_plain buf ifh) 280).
  { destruct inter as [n|]; [|by exists None]. destruct (inter_dir n Hinter) as (ei & Hei & Hw). exists (Some ei).
    cbn [maybe]. by rewrite Hei. }
  destruct Hx as (x & Hx & Hrx). exists (es1 ++ es2, x). split.
  { unfold spec_of. erewrite storable_entry_of by by apply Forall2_app. by rewrite obind_Some, Hx. }
  intros buf p s b Hifh Hfit Hbuf. unfold Jpeg_WriteExifSpecInfo.
  eapply (built_bind ifh b 57 buf s); [apply begin_ifd_built; (done || lia)|]. intros c1 buf1 p1 Hb1 Hl1.
  eapply (built_bind ifh b 57 buf s); [eapply write_fields_built; try done; change (zlen (@nil entry)) with 0; lia|]. intros c2 buf2 p2 Hb2 Hl2.
  cbn [app] in Hb2.
  destruct (optional_pointer inter x (fun n => Jpeg_WriteExifInteroperabilityInfo n ifh) _ 280 b 57 buf s c2 es1 _ buf2 p2
    IFD_INTEROPERABILITYIFDPOINTER Hrx Hifh ltac:(done) Hbuf Hb2) as (ps & Hps & Htag & Hbuilt); [lia|done|lia|lia|].
  eapply (built_bind ifh b 57 buf s); [exact Hbuilt|]. intros c3 buf3 p3 Hb3 Hl3.
  eapply (built_bind ifh b 57 buf s); [eapply write_fields_built; try done; rewrite ?zlen_app; lia|]. intros c4 buf4 p4 Hb4 Hl4.
  eapply (end_ifd_done _ _ _ 57); [done|done|exact Hb4|lia|]. intros buf5 [Hrd [_ Hsub] ]. unfold read_spec. cbv beta in Hsub. rewrite Hrd, obind_Some.
  cbn [fst]. rewrite <- app_assoc, sub_only, Hsub, obind_Some by by apply with_tag_plain.
  rewrite !members_app, (members_plain es1), (members_plain es2), (members_tagged _ ps Htag) by (done || by repeat constructor). done.
Qed.

(** ** An image *)

Definition thumbnail_entries (v : Z) (th : list Z) : list entry :=
  if zlen th >? 0 then [pointer IFD_JPEGINTERCHANGEFORMAT v; pointer IFD_JPEGINTERCHANGEFORMATLENGTH (zlen th)] else [].

Definition thumbnail_tags : list Z := [IFD_JPEGINTERCHANGEFORMAT; IFD_JPEGINTERCHANGEFORMATLENGTH].

Lemma thumbnail_tagged v th : tagged thumbnail_tags (thumbnail_entries v th).
Proof. unfold thumbnail_entries. destruct (zlen th >? 0); [|constructor]. repeat constructor; by apply elem_of_list_In; cbn; auto. Qed.

Lemma storable_long t v : 0 <= t < 65536 -> 0 <= v < 4294967296 -> storable (long_field t v) (pointer t v).
Proof.
  intros Ht Hv. destruct (described_pointer t v Ht Hv) as [_ _ _ _ (vs & Hvs & E)]. cbn [tag type count value_ptr] in *.
  injection E as <-. split; cbn [long_field f_tag f_type f_ptr f_writer f_count]; try done.
  - apply le32_bytes.
  - by exists 1.
  - unfold entry_of. cbn [long_field field_count f_count f_type f_ptr f_tag]. by rewrite obind_Some, Hvs.
Qed.

Lemma thumbnail_fields_storable th :
  zlen th < 4294967296 -> Forall2 storable (thumbnail_fields th) (thumbnail_entries 0 th).
Proof.
  intros Hz. pose proof (zlen_nonneg th). unfold thumbnail_fields, thumbnail_entries. destruct (zlen th >? 0); [|constructor].
  constructor; [|constructor; [|constructor] ]; apply storable_long; (done || lia).
Qed.

Lemma thumbnail_room v th : room (thumbnail_entries v th) <= 14 /\ zlen (thumbnail_entries v th) <= 2.
Proof. unfold thumbnail_entries. by destruct (zlen th >? 0). Qed.

(** The thumbnail and its offset. *)
Lemma thumbnail_built th b m buf0 s c es1 es2 Q buf p :
  0 <= ifh <= b -> 0 <= m < 65536 -> zlen buf0 < 4294967000 -> bytes th ->
  building ifh b m buf0 c (es1 ++ thumbnail_entries 0 th ++ es2) Q buf ->
  ifd_value_offset c + zlen th + 7 <= zlen buf0 ->
  exists v, built ifh b m buf0 (ifd_value_offset c + zlen th) (es1 ++ thumbnail_entries v th ++ es2)
    (fun buf => Q buf /\ read_thumbnail buf ifh (thumbnail_entries v th) = Some th) s
    (write_thumbnail ifh (b + 2 + 12 * zlen es1) th c (in_memory buf p s)).
Proof.
  intros Hifh Hm Hbuf Hth Hb Hfit. unfold thumbnail_entries in *. pose proof (zlen_nonneg th) as Hz0.
  destruct (Z.gtb_spec (zlen th) 0) as [Hpos|Hz]; cbn [app] in *.
  - exists (ifd_value_offset c - ifh).
    destruct (write_thumbnail_built ifh b m buf0 s Hifh Hm Hbuf c es1 _ _ Q buf p th Hb Hth ltac:(lia) Hfit)
      as (c' & buf' & p' & E & Hb' & Hl).
    exists c', buf', p'. split; [done|]. split; [|done]. eapply building_Q; [|exact Hb'].
    intros bf [HQ Hs]. split; [done|]. unfold read_thumbnail, with_tag. cbn [List.filter pointer e_tag].
    change (IFD_JPEGINTERCHANGEFORMAT =? IFD_JPEGINTERCHANGEFORMAT) with true.
    change (IFD_JPEGINTERCHANGEFORMATLENGTH =? IFD_JPEGINTERCHANGEFORMAT) with false.
    change (IFD_JPEGINTERCHANGEFORMAT =? IFD_JPEGINTERCHANGEFORMATLENGTH) with false.
    change (IFD_JPEGINTERCHANGEFORMATLENGTH =? IFD_JPEGINTERCHANGEFORMATLENGTH) with true. cbv iota.
    cbn [pointer]. by replace (ifh + (ifd_value_offset c - ifh)) with (ifd_value_offset c) by lia.
  - exists 0. assert (Hnil : th = []) by (apply nil_length_inv; unfold zlen in *; lia). subst th.
    exists c, buf, p. split; [done|]. change (zlen (@nil Z)) with 0. split; [|lia].
    eapply building_Q; [|exact Hb]. by intros.
Qed.

Definition spec_room (sp : option EXIF_SPECIFIC_INFO_T) : Z := if sp then 4880 else 7.
Definition gps_room (g : option EXIF_GPS_INFO_T) : Z := if g then 2081 else 7.

Lemma maybe_reads_as {A B} (P : A -> Prop) (f : A -> option B) (o : option A) w (read : list Z -> Z -> option B) size :
  of_valid P o -> (forall a, P a -> exists y, f a = Some y /\ writes_dir ifh (fun buf b => read buf b = Some y) size (w a)) ->
  exists x, maybe f o = Some x /\ reads_as o x w read (if o then size else 7).
Proof.
  intros Ho H. destruct o as [a|]; [|by exists None]. destruct (H a Ho) as (y & Hy & Hw). exists (Some y).
  cbn [maybe]. by rewrite Hy.
Qed.

(** The entries of an image's directory, read. *)
Lemma image_read buf b es1 es2 ps pg v th next x y :
  read_ifd buf ifh b = Some (es1 ++ thumbnail_entries v th ++ es2 ++ ps ++ pg, next) ->
  all_plain es1 -> all_plain es2 -> tagged [IFD_EXIFIFDPOINTER] ps -> tagged [IFD_GPSIFDPOINTER] pg ->
  sub (read_spec buf ifh) ifh IFD_EXIFIFDPOINTER ps = Some x -> sub (read_plain buf ifh) ifh IFD_GPSIFDPOINTER pg = Some y ->
  read_thumbnail buf ifh (thumbnail_entries v th) = Some th ->
  read_image buf ifh b = Some (Image (es1 ++ es2) x y th, next).
Proof.
  intros Hrd H1 H2 Hps Hpg Hx Hy Hth. pose proof (thumbnail_tagged v th) as Ht. set (te := thumbnail_entries v th) in *.
  assert (Hno : forall t ts es, tagged ts es -> bool_decide (t ∈ ts) = false -> with_tag t es = []).
  { intros t ts es Htg Hb. eapply with_tag_tagged; [exact Htg|]. by eapply bool_decide_eq_false_1. }
  unfold read_image. rewrite Hrd, obind_Some. cbn [fst snd].
  assert (Es : sub (read_spec buf ifh) ifh IFD_EXIFIFDPOINTER (es1 ++ te ++ es2 ++ ps ++ pg) = Some x).
  { rewrite <- Hx, (app_assoc te), (app_assoc es1). apply sub_only; rewrite ?with_tag_app, ?(with_tag_plain _ es1), ?(with_tag_plain _ es2) by done.
    - by rewrite (Hno _ _ _ Ht).
    - by rewrite (Hno _ _ _ Hpg). }
  assert (Eg : sub (read_plain buf ifh) ifh IFD_GPSIFDPOINTER (es1 ++ te ++ es2 ++ ps ++ pg) = Some y).
  { rewrite <- Hy, <- (app_nil_r pg) at 1. rewrite (app_assoc es2), (app_assoc te), (app_assoc es1).
    apply sub_only; [|done]. rewrite !with_tag_app, (with_tag_plain _ es1), (with_tag_plain _ es2) by done.
    by rewrite (Hno _ _ _ Ht), (Hno _ _ _ Hps). }
  assert (Et : read_thumbnail buf ifh (es1 ++ te ++ es2 ++ ps ++ pg) = Some th).
  { rewrite <- Hth. unfold read_thumbnail. rewrite !with_tag_app, !(with_tag_plain _ es1), !(with_tag_plain _ es2) by done.
    by rewrite !(Hno _ _ _ Hps), !(Hno _ _ _ Hpg), !app_nil_r. }
  rewrite Es, obind_Some, Eg, obind_Some, Et, obind_Some. do 3 f_equal.
  rewrite !members_app, (members_plain es1), (members_plain es2) by done.
  by rewrite (members_tagged _ _ Ht), (members_tagged _ _ Hps), (members_tagged _ _ Hpg), !app_nil_r by by repeat constructor.
Qed.

Lemma image_done p sp g inter th is_next : valid_primary p -> of_valid valid_spec sp -> of_valid valid_gps g ->
  of_valid (fun n => of_valid (custom_fits 1) (InteroperabilityIndex n)) inter -> bytes th ->
  exists img, image_of p sp g inter th = Some img /\ forall buf q s b,
  let size := 4624 + spec_room sp + gps_room g + zlen th in
  0 <= ifh <= b -> b + size <= zlen buf -> zlen buf < 4294967000 ->
  dir_done (fun b' buf2 => read_image buf2 ifh b = Some (img, if (is_next : bool) then b' - ifh else 0)) size buf s b
    (Jpeg_WriteExifIFD p sp g inter th is_next ifh b (in_memory buf q s)).
Proof.
  intros Hp Hsp Hg Hinter Hth.
  destruct (table_entries _ _ _ (primary_12_ok p Hp)) as (es1 & Hst1 & _ & Hpl1 & Hk1 & Hr1 & Hr1').
  destruct (table_entries _ _ _ (primary_picture_ok p Hp)) as (es2 & Hst2 & _ & Hpl2 & Hk2 & Hr2 & Hr2').
  destruct (maybe_reads_as valid_spec (fun sp => spec_of sp inter) sp (fun sp => Jpeg_WriteExifSpecInfo sp inter ifh)
    (fun buf => read_spec buf ifh) 4880 Hsp) as (x & Hx & Hrx); [intros; by apply spec_dir|].
  destruct (maybe_reads_as valid_gps (fun g => mapM entry_of (gps_fields g)) g (fun g => Jpeg_WriteExifGPSInfo g ifh)
    (fun buf => read_plain buf ifh) 2081 Hg) as (y & Hy & Hry); [intros; by apply gps_dir|].
  exists (Image (es1 ++ es2) x y th). split.
  { unfold image_of. erewrite storable_entry_of by by apply Forall2_app. by rewrite obind_Some, Hx, obind_Some, Hy. }
  cbv zeta. fold (spec_room sp) in Hrx. fold (gps_room g) in Hry.
  assert (Hsr : 7 <= spec_room sp) by (by destruct sp). assert (Hgr : 7 <= gps_room g) by (by destruct g).
  pose proof (zlen_nonneg th). destruct (thumbnail_room 0 th) as [Htr Htl]. clear Hx Hy Hsp Hg Hinter Hp.
  generalize dependent (spec_room sp). intros sr Hrx Hsr. generalize dependent (gps_room g). intros gr Hry Hgr.
  intros buf q s b Hifh Hfit Hbuf.
  pose proof (room_nonneg _ _ (thumbnail_fields_storable th ltac:(lia))) as Htr'.
  unfold Jpeg_WriteExifIFD.
  eapply (built_bind ifh b 24 buf s); [apply begin_ifd_built; (done || lia)|]. intros c1 buf1 p1 Hb1 Hl1.
  eapply (built_bind ifh b 24 buf s); [eapply write_fields_built; try done; change (zlen (@nil entry)) with 0; lia|].
  intros c2 buf2 p2 Hb2 Hl2. cbn [app] in Hb2. cbv zeta.
  replace (ifd_offset c2) with (b + 2 + 12 * zlen es1) by (symmetry; apply Hb2).
  eapply (built_bind ifh b 24 buf s); [eapply write_fields_built; [done..|by apply thumbnail_fields_storable; lia|exact Hb2|lia|lia]|].
  intros c3 buf3 p3 Hb3 Hl3.
  eapply (built_bind ifh b 24 buf s); [eapply write_fields_built; [done..|exact Hst2|exact Hb3|rewrite ?zlen_app; lia|lia]|].
  intros c4 buf4 p4 Hb4 Hl4.
  destruct (optional_pointer sp x (fun sp => Jpeg_WriteExifSpecInfo sp inter ifh) _ sr b 24 buf s c4 _ _ buf4 p4
    IFD_EXIFIFDPOINTER Hrx Hifh ltac:(done) Hbuf Hb4) as (ps & Hps & Htag & Hbuilt); [rewrite !zlen_app; lia|done|lia|lia|].
  eapply (built_bind ifh b 24 buf s); [exact Hbuilt|]. clear Hbuilt. intros c5 buf5 p5 Hb5 Hl5.
  destruct (optional_pointer g y (fun g => Jpeg_WriteExifGPSInfo g ifh) _ gr b 24 buf s c5 _ _ buf5 p5
    IFD_GPSIFDPOINTER Hry Hifh ltac:(done) Hbuf Hb5) as (pg & Hpg & Htagg & Hbuilt); [rewrite !zlen_app; lia|done|lia|lia|].
  eapply (built_bind ifh b 24 buf s); [exact Hbuilt|]. clear Hbuilt. intros c6 buf6 p6 Hb6 Hl6.
  rewrite <- !app_assoc in Hb6.
  destruct (thumbnail_built th b 24 buf s c6 es1 _ _ buf6 p6 Hifh ltac:(done) Hbuf Hth Hb6) as (v & Hbuilt); [lia|].
  eapply (built_bind ifh b 24 buf s); [exact Hbuilt|]. clear Hbuilt. intros c7 buf7 p7 Hb7 Hl7.
  pose proof (bd_vo _ _ _ _ _ _ _ _ Hb7) as Hvo7. pose proof (bd_len _ _ _ _ _ _ _ _ Hb7) as Hlen7.
  eapply (end_ifd_done _ _ _ 24); [done|done|exact Hb7|lia|]. intros buf8 [Hrd [ [ [_ Hspec] Hgps] Hthumb] ].
  replace (u32 (if is_next then u32 (ifd_value_offset c7 - ifh) else 0)) with (if is_next then ifd_value_offset c7 - ifh else 0) in Hrd
    by (destruct is_next; rewrite ?u32_small by (rewrite ?u32_small by lia; lia); done).
  eapply image_read; (done || exact Hrd).
Qed.
End directories.

(** ** The segment *)

(** The room of a segment at most, and the largest thumbnail that is sure to
    fit in one. *)
Definition app1_room (th : list Z) : Z := 16300 + zlen th.

Lemma write_ifh_mem buf p s : 18 <= zlen buf ->
  exists buf' p', Jpeg_WriteIFH 10 (in_memory buf p s) = Ret 18 (in_memory buf' p' s) /\ zlen buf' = zlen buf /\
    has buf' 10 (be16 EXIF_BIG_ENDIAN ++ be16 EXIF_IFH_FIX_VALUE ++ be32 8).
Proof.
  intros Hz. unfold Jpeg_WriteIFH. erewrite bind_Ret by by apply SetWritePos_mem; lia.
  rewrite (start_put s buf 10) by lia. erewrite checked_mem by by apply WriteW_put; len_lia.
  erewrite checked_mem by by apply WriteW_put; len_lia. erewrite checked_mem by by apply WriteL_put; len_lia.
  set (h := be16 EXIF_BIG_ENDIAN ++ be16 EXIF_IFH_FIX_VALUE ++ be32 8).
  change (([] ++ be16 EXIF_BIG_ENDIAN) ++ be16 EXIF_IFH_FIX_VALUE) with (be16 EXIF_BIG_ENDIAN ++ be16 EXIF_IFH_FIX_VALUE).
  rewrite <- app_assoc. fold h. assert (Hh : zlen h = 8) by done. rewrite Hh.
  assert (Hz' : zlen (put buf 10 h) = zlen buf) by (apply zlen_put; lia).
  rewrite GetWritePos_mem by lia. eexists _, _. split; [reflexivity|]. split; [done|]. apply has_put; lia.
Qed.

Definition app1_header (len : Z) : list Z := be16 0xFFE1 ++ be16 len ++ exif_id.

Lemma write_app1_header_mem len buf p s : 10 <= zlen buf ->
  exists p', Jpeg_WriteAPP1Header 0 len (in_memory buf p s) = Ret 10 (in_memory (put buf 0 (app1_header len)) p' s).
Proof.
  intros Hz. unfold Jpeg_WriteAPP1Header. erewrite bind_Ret by by apply SetWritePos_mem; lia.
  rewrite (start_put s buf 0) by lia. erewrite checked_mem by by apply WriteC_put; len_lia.
  erewrite checked_mem by by apply WriteC_put; len_lia. erewrite checked_mem by by apply WriteW_put; len_lia.
  unfold exif_id. cbn [forM].
  do 6 (rewrite ?bind_assoc; erewrite checked_mem by by apply WriteC_put; len_lia).
  erewrite bind_Ret by reflexivity. cbv beta. rewrite <- !app_assoc. cbn [app].
  change (u8 0xFF :: u8 0xE1 :: _) with (app1_header len).
  match goal with |- context [in_memory (put buf 0 ?l) _ _] => change l with (app1_header len) end.
  change (zlen (app1_header len)) with 10. assert (Hz' : zlen (put buf 0 (app1_header len)) = zlen buf) by (apply zlen_put; (done || lia)).
  rewrite GetWritePos_mem by lia. by eexists.
Qed.

Lemma read_tiff_intro buf img next second :
  has buf 10 (be16 EXIF_BIG_ENDIAN ++ be16 EXIF_IFH_FIX_VALUE ++ be32 8) ->
  read_image buf 10 18 = Some (img, next) ->
  (next = 0 /\ second = None \/ next <> 0 /\ exists b n, read_image buf 10 (10 + next) = Some (b, n) /\ second = Some b) ->
  read_tiff buf 10 = Some (img, second).
Proof.
  intros Hh Hr Hs. rewrite !has_app in Hh. destruct Hh as (H1 & H2 & H3).
  change (10 + zlen (be16 EXIF_BIG_ENDIAN)) with (10 + 2) in *. change (10 + 2 + zlen (be16 EXIF_IFH_FIX_VALUE)) with (10 + 4) in *.
  unfold read_tiff. rewrite (has_load_16 _ _ _ H1), obind_Some, (has_load_16 _ _ _ H2), obind_Some, (has_load_32 _ _ _ H3), obind_Some.
  change (negb _) with false. cbv iota. change (10 + u32 8) with 18. rewrite Hr, obind_Some. cbn [fst snd].
  destruct Hs as [ [-> ->]|[Hn (b & n & Hb & ->)] ]; [done|]. rewrite (proj2 (Z.eqb_neq _ _)) by done.
  by rewrite Hb, obind_Some.
Qed.

Section segment.
Context (i : JINF_EXIF_INFO_T) (th : list Z) (Hi : valid_info i) (Hth : bytes th).

(** Everything but the header of the segment. *)
Lemma images_written : exists t, tiff_of i th = Some t /\ forall buf p s,
  app1_room th <= zlen buf -> zlen buf < 4294967000 ->
  has buf 10 (be16 EXIF_BIG_ENDIAN ++ be16 EXIF_IFH_FIX_VALUE ++ be32 8) ->
  exists n buf' p', 18 <= n <= app1_room th /\ zlen buf' = zlen buf /\
    (end_offset <- Jpeg_WriteExifIFD (primary i) (spec_ptr i) (gps_ptr i) (inter_ptr i) [] (zlen th >? 0) 10 18 ;;
     if zlen th >? 0 then Jpeg_WriteExifIFD ifd1_primary None None None th false 10 end_offset
     else ret end_offset) (in_memory buf p s) = Ret n (in_memory buf' p' s) /\
    forall buf2, same_on 10 n buf' buf2 -> read_tiff buf2 10 = Some t.
Proof.
  destruct Hi as [Hp Hsp Hg Hin].
  destruct (image_done 10 (primary i) (spec_ptr i) (gps_ptr i) (inter_ptr i) [] (zlen th >? 0) Hp Hsp Hg Hin) as (a & Ha & Hda); [constructor|].
  destruct (image_done 10 ifd1_primary None None None th false ifd1_valid I I I Hth) as (c & Hc & Hdc).
  assert (Hsr : spec_room (spec_ptr i) <= 4880) by (by destruct (spec_ptr i)).
  assert (Hgr : gps_room (gps_ptr i) <= 2081) by (by destruct (gps_ptr i)).
  pose proof (zlen_nonneg th) as Hz. unfold app1_room. change (zlen (@nil Z)) with 0 in Hda.
  change (spec_room None) with 7 in Hdc. change (gps_room None) with 7 in Hdc.
  assert (Hsub : forall buf b1 buf1 buf2, has buf 10 (be16 EXIF_BIG_ENDIAN ++ be16 EXIF_IFH_FIX_VALUE ++ be32 8) ->
    outside 18 b1 buf buf1 -> same_on 10 18 buf1 buf2 -> has buf2 10 (be16 EXIF_BIG_ENDIAN ++ be16 EXIF_IFH_FIX_VALUE ++ be32 8)).
  { intros buf b1 buf1 buf2 Hh Ho Hs. eapply (has_same 10 18 buf); [|done|done|done].
    eapply same_on_trans; [|exact Hs]. eapply outside_same; [exact Ho|lia]. }
  unfold tiff_of. rewrite Ha, Hc, !obind_Some. destruct (Z.gtb_spec (zlen th) 0) as [Hpos|Hnone].
  - exists (a, Some c). split; [done|]. intros buf p s Hfit Hbuf Hh.
    destruct (Hda buf p s 18) as (b1 & buf1 & p1 & E1 & Hz1 & Hb1 & Ho1 & Hr1); [lia..|].
    destruct (Hdc buf1 p1 s b1) as (b2 & buf2 & p2 & E2 & Hz2 & Hb2 & Ho2 & Hr2); [lia..|].
    exists b2, buf2, p2. split; [lia|]. split; [lia|]. split.
    { erewrite bind_Ret by exact E1. exact E2. }
    intros buf3 H3. assert (H13 : same_on 10 b1 buf1 buf3).
    { eapply same_on_trans; [eapply outside_same; [exact Ho2|lia]|]. eapply same_on_sub; [exact H3|lia..]. }
    apply (read_tiff_intro _ _ (b1 - 10)); [|apply Hr1; eapply same_on_sub; [exact H13|lia..]|].
    + eapply Hsub; [exact Hh|exact Ho1|]. intros k Hk. apply H13. lia.
    + right. split; [lia|]. exists c, 0. replace (10 + (b1 - 10)) with b1 by lia. split; [|done].
      apply Hr2. eapply same_on_sub; [exact H3|lia..].
  - exists (a, None). split; [done|]. intros buf p s Hfit Hbuf Hh.
    destruct (Hda buf p s 18) as (b1 & buf1 & p1 & E1 & Hz1 & Hb1 & Ho1 & Hr1); [lia..|].
    exists b1, buf1, p1. split; [lia|]. split; [lia|]. split.
    { by erewrite bind_Ret by exact E1. }
    intros buf3 H3. apply (read_tiff_intro _ _ 0); [|apply Hr1; eapply same_on_sub; [exact H3|lia..]|by left].
    eapply Hsub; [exact Hh|exact Ho1|]. intros k Hk. apply H3. lia.
Qed.

(** What follows a segment is not read. *)
Lemma read_app1_intro buf n rest t :
  has buf 0 (app1_header (n - 2)) -> 18 <= n < 65536 -> n <= zlen buf ->
  (forall buf2, same_on 10 n buf buf2 -> read_tiff buf2 10 = Some t) ->
  exists seg, slice buf 0 n = Some seg /\ read_app1 (seg ++ rest) = Some t.
Proof.
  intros Hh Hn Hl Hr. destruct (slice_is_Some buf 0 n) as [seg Hseg]; [lia..|]. exists seg. split; [done|].
  apply slice_Some in Hseg as (Es & _ & Ez). change (drop (Z.to_nat 0) buf) with buf in Es.
  assert (Hag : forall k, 0 <= k < n -> aget seg k = aget buf k).
  { intros k Hk. rewrite Es. unfold aget. rewrite (proj2 (Z.leb_le _ _)) by lia. by rewrite lookup_take_lt by lia. }
  assert (Hh2 : has (seg ++ rest) 0 (app1_header (n - 2))).
  { eapply (has_same 0 10 buf); [|done|done|exact Hh]. intros k Hk. rewrite aget_app by lia.
    rewrite (proj2 (Z.ltb_lt _ _)) by lia. apply Hag. lia. }
  unfold app1_header in Hh2. rewrite !has_app in Hh2. destruct Hh2 as (H1 & H2 & H3). unfold read_app1.
  rewrite (has_load_16 _ _ _ H1), obind_Some. change (load_be 2 (seg ++ rest) 2) with (load_be 2 (seg ++ rest) (0 + zlen (be16 0xFFE1))).
  rewrite (has_load_16 _ _ _ H2), obind_Some, (u16_small (n - 2)) by lia. apply has_slice in H3.
  change (0 + zlen (be16 0xFFE1) + zlen (be16 (n - 2))) with 4 in H3. change (zlen exif_id) with 6 in H3. rewrite H3, obind_Some.
  replace (n - 2 + 2) with n by lia.
  assert (Hs : slice (seg ++ rest) 0 n = Some seg).
  { unfold slice. change (drop (Z.to_nat 0) (seg ++ rest)) with (seg ++ rest). rewrite <- Ez.
    replace (Z.to_nat (zlen seg)) with (length seg) by (unfold zlen; lia). by rewrite take_app_length, Z.eqb_refl. }
  rewrite Hs, obind_Some. rewrite bool_decide_eq_true_2 by done. cbn [andb]. change (u16 0xFFE1 =? 0xFFE1) with true. cbv iota.
  apply Hr. intros k Hk. apply Hag. lia.
Qed.
End segment.
