(* ===== verification/ExifContent.v ===== *)
(** * What an EXIF segment is to hold

    The content of the directories by the EXIF 2.2 standard, with its tags and
    types, straight from the members of the structs and without the tables
    of the writer; and the proof that the writer's tables say the same. *)
From stdpp Require Import base list vector.
From Stdlib Require Import ZArith Lia.
From S2P Require Import Prelude ExifTypes ExifStream ExifWriter ExifProofs ExifDirProofs ExifTables ExifReadProofs.

(** ** Values *)

(** The types of the standard that occur. *)
Inductive value :=
  | Byte (l : list Z)
  | Ascii (l : list Z)
  | Short (l : list Z)
  | Long (l : list Z)
  | Ratio (l : list EXIF_RATIONAL_T)
  | Undefined (l : list Z)
  | SRatio (l : list EXIF_SRATIONAL_T).

Definition entry_with (t : Z) (v : value) : entry :=
  match v with
  | Byte l => Entry t 1 (zlen l) l
  | Ascii l => Entry t 2 (zlen l) l
  | Short l => Entry t 3 (zlen l) l
  | Long l => Entry t 4 (zlen l) l
  | Ratio l => Entry t 5 (zlen l) (concat ((fun r => [u32 (numerator r); u32 (denominator r)]) <$> l))
  | Undefined l => Entry t 7 (zlen l) l
  | SRatio l => Entry t 10 (zlen l) (concat ((fun r => [u32 (snumerator r); u32 (sdenominator r)]) <$> l))
  end.

(** The characters of an array; of a string, up to the first zero and with it. *)
Definition array_bytes {n} (v : vec Z n) : list Z := u8 <$> vec_to_list v.
Fixpoint to_zero (l : list Z) : list Z :=
  match l with
  | [] => []
  | c :: l => if c =? 0 then [0] else c :: to_zero l
  end.
Definition text {n} (v : vec Z n) : value := Ascii (to_zero (array_bytes v)).
Definition short (x : Z) : value := Short [u16 x].
Definition long (x : Z) : value := Long [u32 x].
Definition ratio (r : EXIF_RATIONAL_T) : value := Ratio [r].
Definition sratio (r : EXIF_SRATIONAL_T) : value := SRatio [r].
Definition shorts {n} (v : vec Z n) : value := Short (u16 <$> vec_to_list v).
Definition ratios {n} (v : vec EXIF_RATIONAL_T n) : value := Ratio (vec_to_list v).
(** Members of any size: as many bytes, or shorts, as the count says. *)
Definition custom_bytes (c : EXIF_CUSTOM_T) : list Z := take (Z.to_nat (custom_count c)) (array_bytes (custom_ptr c)).
Fixpoint shorts_in (n : nat) (l : list Z) : list Z :=
  match n, l with
  | S n, a :: b :: l => a + 256 * b :: shorts_in n l
  | _, _ => []
  end.
Definition custom_shorts (c : EXIF_CUSTOM_T) : value := Short (shorts_in (Z.to_nat (custom_count c)) (array_bytes (custom_ptr c))).

(** A member that is there: its struct and, in it, its bit. One of any size has
    no entry when its count is zero. *)
Definition have {A B} (p : option A) (m : A -> option B) (g : B -> value) : option value := a ← p; b ← m a; Some (g b).
Definition have_custom {A} (p : option A) (m : A -> option EXIF_CUSTOM_T) (g : EXIF_CUSTOM_T -> value) : option value :=
  a ← p; c ← m a; if custom_count c >? 0 then Some (g c) else None.

(** ** Directories *)

Notation rows := (list (Z * option value)).
Definition entries_of (l : rows) : list entry := omap (fun r => entry_with r.1 <$> r.2) l.

(** The main image; [Reserved] is the compression. *)
Definition image_rows_1 (p : EXIF_PRIMARY_INFO_T) : rows :=
  [ (0x103, have (data_struct_ptr p) Reserved short);
    (0x10E, have (img_desc_ptr p) ImageDescription text);
    (0x10F, have (img_desc_ptr p) Make text);
    (0x110, have (img_desc_ptr p) Model text);
    (0x112, have (data_struct_ptr p) Orientation short);
    (0x11A, Some (ratio (XResolution (pri_basic p))));
    (0x11B, Some (ratio (YResolution (pri_basic p))));
    (0x128, Some (short (ResolutionUnit (pri_basic p))));
    (0x12D, have (data_char_ptr p) TransferFunction shorts);
    (0x131, have (img_desc_ptr p) Software text);
    (0x132, have (img_desc_ptr p) DateTime (fun v => Ascii (array_bytes v)));
    (0x13B, have (img_desc_ptr p) Artist text);
    (0x13E, have (data_char_ptr p) WhitePoint ratios);
    (0x13F, have (data_char_ptr p) PrimaryChromaticities ratios) ].
Definition image_rows_2 (p : EXIF_PRIMARY_INFO_T) : rows :=
  [ (0x211, have (data_char_ptr p) YCbCrCoefficients ratios);
    (0x213, Some (short (YCbCrPositioning (pri_basic p))));
    (0x100, Some (long (ImageWidth (pri_basic p))));
    (0x101, Some (long (ImageLength (pri_basic p))));
    (0x214, have (data_char_ptr p) ReferenceBlackWhite ratios);
    (0x8298, have (img_desc_ptr p) Copyright text) ].
Definition image_rows (p : EXIF_PRIMARY_INFO_T) : rows := image_rows_1 p ++ image_rows_2 p.

(** The EXIF directory. The versions are fixed, [version_ptr] is not looked
    at; [MakerNote] and [UserComment] need no bit (exif_writer.c:916). *)
Definition spec_rows_1 (s : EXIF_SPECIFIC_INFO_T) : rows :=
  let pic := pic_taking_cond_ptr s in
  [ (0x829A, have pic ExposureTime ratio);
    (0x829D, have pic FNumber ratio);
    (0x8822, have pic ExposureProgram short);
    (0x8824, have pic SpectralSensitivity text);
    (0x8827, have_custom pic ISOSpeedRatings custom_shorts);
    (0x8828, have_custom pic OECF (fun c => Undefined (custom_bytes c)));
    (0x9000, Some (Undefined [48; 50; 50; 48]));
    (0x9003, have (date_time_ptr s) DateTimeOriginal (fun v => Ascii (array_bytes v)));
    (0x9004, have (date_time_ptr s) DateTimeDigitized (fun v => Ascii (array_bytes v)));
    (0x9101, Some (Undefined (array_bytes (ComponentsConfiguration (spec_basic s)))));
    (0x9102, have (img_config_ptr s) CompressedBitsPerPixel ratio);
    (0x9201, have pic ShutterSpeedValue sratio);
    (0x9202, have pic ApertureValue ratio);
    (0x9203, have pic BrightnessValue sratio);
    (0x9204, have pic ExposureBiasValue sratio);
    (0x9205, have pic MaxApertureValue ratio);
    (0x9206, have pic SubjectDistance ratio);
    (0x9207, have pic MeteringMode short);
    (0x9208, have pic LightSource short);
    (0x9209, have pic Flash short);
    (0x920A, have pic FocalLength ratio);
    (0x9214, have_custom pic SubjectArea custom_shorts);
    (0x927C, have_custom (user_ptr s) (fun u => Some (MakerNote u)) (fun c => Undefined (custom_bytes c)));
    (0x9286, have_custom (user_ptr s) (fun u => Some (UserComment u)) (fun c => Undefined (custom_bytes c)));
    (0x9290, have (date_time_ptr s) SubSecTime text);
    (0x9291, have (date_time_ptr s) SubSecTimeOriginal text);
    (0x9292, have (date_time_ptr s) SubSecTimeDigitized text);
    (0xA000, Some (Undefined [48; 49; 48; 48]));
    (0xA001, Some (short (ColorSpace (spec_basic s))));
    (0xA002, Some (long (PixelXDimension (spec_basic s))));
    (0xA003, Some (long (PixelYDimension (spec_basic s))));
    (0xA004, have (related_file_ptr s) RelatedSoundFile (fun v => Ascii (array_bytes v))) ].
Definition spec_rows_2 (s : EXIF_SPECIFIC_INFO_T) : rows :=
  let pic := pic_taking_cond_ptr s in
  [ (0xA20B, have pic FlashEnergy ratio);
    (0xA20C, have_custom pic SpatialFrequencyResponse (fun c => Undefined (custom_bytes c)));
    (0xA20E, have pic FocalPlaneXResolution ratio);
    (0xA20F, have pic FocalPlaneYResolution ratio);
    (0xA210, have pic FocalPlaneResolutionUnit short);
    (0xA214, have pic SubjectLocation shorts);
    (0xA215, have pic ExposureIndex ratio);
    (0xA217, have pic SensingMethod short);
    (0xA300, have pic FileSource (fun x => Undefined [u8 x]));
    (0xA301, have pic SceneType (fun x => Undefined [u8 x]));
    (0xA302, have_custom pic CFAPattern (fun c => Undefined (custom_bytes c)));
    (0xA401, have pic CustomRendered short);
    (0xA402, have pic ExposureMode short);
    (0xA403, have pic WhiteBalance short);
    (0xA404, have pic DigitalZoomRatio ratio);
    (0xA405, have pic FocalLengthIn35mmFilm short);
    (0xA406, have pic SceneCaptureType short);
    (0xA407, have pic GainControl short);
    (0xA408, have pic Contrast short);
    (0xA409, have pic Saturation short);
    (0xA40A, have pic Sharpness short);
    (0xA40B, have_custom pic DeviceSettingDescription (fun c => Undefined (custom_bytes c)));
    (0xA40C, have pic SubjectDistanceRange short);
    (0xA420, have (other_ptr s) ImageUniqueID (fun v => Ascii (array_bytes v))) ].
Definition spec_rows (s : EXIF_SPECIFIC_INFO_T) : rows := spec_rows_1 s ++ spec_rows_2 s.

(** The GPS directory. The longitude of the destination is written when its
    latitude is valid (exif_writer.c:1907). *)
Definition gps_rows (g : EXIF_GPS_INFO_T) : rows :=
  let gps := Some g in
  [ (0x00, have gps GPSVersionID (fun v => Byte (array_bytes v)));
    (0x01, have gps GPSLatitudeRef (fun v => Ascii (array_bytes v)));
    (0x02, have gps GPSLatitude ratios);
    (0x03, have gps GPSLongitudeRef (fun v => Ascii (array_bytes v)));
    (0x04, have gps GPSLongitude ratios);
    (0x05, have gps GPSAltitudeRef (fun x => Byte [u8 x]));
    (0x06, have gps GPSAltitude ratio);
    (0x07, have gps GPSTimeStamp ratios);
    (0x08, have gps GPSSatellites text);
    (0x09, have gps GPSStatus (fun v => Ascii (array_bytes v)));
    (0x0A, have gps GPSMeasureMode (fun v => Ascii (array_bytes v)));
    (0x0B, have gps GPSDOP ratio);
    (0x0C, have gps GPSSpeedRef (fun v => Ascii (array_bytes v)));
    (0x0D, have gps GPSSpeed ratio);
    (0x0E, have gps GPSTrackRef (fun v => Ascii (array_bytes v)));
    (0x0F, have gps GPSTrack ratio);
    (0x10, have gps GPSImgDirectionRef (fun v => Ascii (array_bytes v)));
    (0x11, have gps GPSImgDirection ratio);
    (0x12, have gps GPSMapDatum text);
    (0x13, have gps GPSDestLatitudeRef (fun v => Ascii (array_bytes v)));
    (0x14, have gps GPSDestLatitude ratios);
    (0x15, have gps GPSDestLongitudeRef (fun v => Ascii (array_bytes v)));
    (0x16, have gps GPSDestLatitude (fun _ => ratios (GPSDestLongitude g)));
    (0x17, have gps GPSDestBearingRef (fun v => Ascii (array_bytes v)));
    (0x18, have gps GPSDestBearing ratio);
    (0x19, have gps GPSDestDistanceRef (fun v => Ascii (array_bytes v)));
    (0x1A, have gps GPSDestDistance ratio);
    (0x1B, have_custom gps GPSProcessingMethod (fun c => Undefined (custom_bytes c)));
    (0x1C, have_custom gps GPSAreaInformation (fun c => Undefined (custom_bytes c)));
    (0x1D, have gps GPSDateStamp (fun v => Ascii (array_bytes v)));
    (0x1E, have gps GPSDifferential short) ].

Definition inter_rows (n : EXIF_INTEROPERABILITY_INFO_T) : rows :=
  [ (0x01, have_custom (Some n) InteroperabilityIndex (fun c => Ascii (custom_bytes c))) ].

(** The thumbnail's directory: compressed as a JPEG, 72 dots per inch. *)
Definition thumbnail_rows : rows :=
  [ (0x103, Some (short 6)); (0x112, Some (short 1)); (0x11A, Some (ratio (Rational 72 1))); (0x11B, Some (ratio (Rational 72 1)));
    (0x128, Some (short 2)); (0x213, Some (short 1)); (0x100, Some (long 0)); (0x101, Some (long 0)) ].

(** The content of a segment: the directories that there are, with the ones
    that they point to, and the thumbnail's behind the main image's when there is a thumbnail. *)
Definition exif_content (i : JINF_EXIF_INFO_T) (th : list Z) : image * option image :=
  (Image (entries_of (image_rows (primary i)))
     ((fun s => (entries_of (spec_rows s), (fun n => entries_of (inter_rows n)) <$> inter_ptr i)) <$> spec_ptr i)
     ((fun g => entries_of (gps_rows g)) <$> gps_ptr i) [],
   if zlen th >? 0 then Some (Image (entries_of thumbnail_rows) None None th) else None).

(** ** The writer's tables *)

(** The memory of numbers, one after the other, and what follows. *)
Lemma elements_concat {A} (enc : A -> list Z) ty n (xs : list A) rest :
  (forall x, zlen (enc x) = elem_size ty) -> elem_count ty n = zlen xs ->
  elements load_le ty n (concat (enc <$> xs) ++ rest) 0 = Some ((fun x => le_join (enc x)) <$> xs).
Proof.
  intros Henc Hn. unfold elements. rewrite Hn. unfold zlen at 1. rewrite Nat2Z.id. apply mapM_Some_2. unfold upto.
  apply Forall2_fmap_l, Forall2_fmap_r, Forall2_same_length_lookup_2; [by rewrite length_seq|].
  intros k j x Hk Hx. apply lookup_seq in Hk as [-> _]. unfold compose, load_le. cbn [Nat.add].
  rewrite <- (take_drop_middle xs k x Hx) at 1. rewrite fmap_app, fmap_cons, concat_app. cbn [concat]. rewrite <- !app_assoc.
  assert (Hl : zlen (concat (enc <$> take k xs)) = elem_size ty * Z.of_nat k).
  { rewrite (zlen_concat _ (elem_size ty)) by done. unfold zlen. rewrite length_take. apply lookup_lt_Some in Hx. lia. }
  unfold slice. rewrite Z.add_0_l, <- Hl, drop_app_length' by (unfold zlen; lia). rewrite take_app_length' by (rewrite <- (Henc x); unfold zlen; lia).
  pose proof (zlen_nonneg (concat (enc <$> take k xs))). rewrite (proj2 (Z.leb_le 0 _)), (proj2 (Z.eqb_eq _ _)) by (done || lia). done.
Qed.

Lemma elements_bytes ty n l rest : elem_size ty = 1 -> n = zlen l -> elements load_le ty n (l ++ rest) 0 = Some l.
Proof.
  intros Hs ->. pose proof (elements_concat (fun x => [x]) ty (zlen l) l rest) as H. rewrite size_1_count in H by done.
  assert (E : concat ((fun x => [x]) <$> l) = l) by (clear; induction l as [|x l IH]; [done|]; cbn [fmap list_fmap concat app]; by rewrite IH).
  rewrite E in H. rewrite H; [|by rewrite Hs|done]. f_equal. clear. induction l as [|x l IH]; [done|]. cbn [fmap list_fmap]. rewrite IH.
  f_equal. unfold le_join. cbn [foldr]. lia.
Qed.

(** A row of the writer means a row of the content. *)
Definition means (o : option field) (r : Z * option value) : Prop :=
  match o with
  | Some f => exists v, r.2 = Some v /\ entry_of f = Some (entry_with r.1 v)
  | None => r.2 = None
  end.

Lemma means_entries os rs : Forall2 means os rs -> mapM entry_of (omap id os) = Some (entries_of rs).
Proof.
  induction 1 as [|o r os rs Ho _ IH]; [done|]. unfold entries_of in *. destruct r as [t v]. destruct o as [f|]; cbn [means fst snd] in Ho.
  - destruct Ho as (w & -> & E). change (omap id (Some f :: os)) with (f :: omap id os). cbn [mapM]. rewrite E. cbn [mbind option_bind]. by rewrite IH.
  - subst v. exact IH.
Qed.

Section kinds.
Context (t : Z).

Lemma entry_counted ty n l vs v w :
  elements load_le ty n l 0 = Some vs -> Entry t ty n vs = entry_with t v -> entry_of (Field t ty (Some n) l w) = Some (entry_with t v).
Proof. intros E <-. unfold entry_of. cbn [field_count f_count f_type f_ptr f_tag]. by rewrite obind_Some, E. Qed.

Lemma entry_bytes {n} ty (v : vec Z n) : elem_size ty = 1 ->
  entry_of (bytes_field t ty v) = Some (Entry t ty (zlen (array_bytes v)) (array_bytes v)).
Proof.
  intros Hs. unfold entry_of, bytes_field. cbn [field_count f_count f_type f_ptr f_tag]. rewrite obind_Some.
  change (mem_bytes v) with (array_bytes v). assert (Hz : zlen (array_bytes v) = Z.of_nat n) by apply (zlen_mem_bytes v). rewrite Hz.
  pose proof (elements_bytes ty (Z.of_nat n) (array_bytes v) [] Hs) as E. rewrite app_nil_r in E. by rewrite E.
Qed.
Lemma entry_byte ty v : elem_size ty = 1 -> entry_of (byte_field t ty v) = Some (Entry t ty 1 [u8 v]).
Proof.
  intros Hs. unfold entry_of, byte_field. cbn [field_count f_count f_type f_ptr f_tag]. rewrite obind_Some.
  pose proof (elements_bytes ty 1 [u8 v] [] Hs) as E. rewrite app_nil_r in E. by rewrite E.
Qed.

Lemma to_zero_size l k : _GetAsciiStringSize l = Some k -> 0 <= k /\ zlen (to_zero l) = k + 1 /\ exists rest, l = to_zero l ++ rest.
Proof.
  revert k. induction l as [|c l IH]; intros k; [done|]. cbn [_GetAsciiStringSize to_zero]. destruct (Z.eqb_spec c 0) as [->|].
  - intros [= <-]. split; [done|]. split; [done|]. by exists l.
  - destruct (_GetAsciiStringSize l) as [j|]; [|done]. rewrite obind_Some. intros [= <-]. destruct (IH j eq_refl) as (H1 & H2 & rest & H3).
    split; [lia|]. split; [rewrite zlen_cons; lia|]. exists rest. cbn [app]. by rewrite <- H3.
Qed.
Lemma entry_string {n} (v : vec Z n) : terminated v -> entry_of (string_field t v) = Some (entry_with t (text v)).
Proof.
  intros H. destruct (ascii_size _ H) as (k & Hk & _). unfold entry_of, string_field, field_count. cbn [f_count f_ptr f_type f_tag].
  rewrite Hk. rewrite !obind_Some. destruct (to_zero_size _ _ Hk) as (H1 & H2 & rest & H3). rewrite H3 at 1.
  rewrite elements_bytes by done. rewrite obind_Some. cbn [entry_with text]. change (array_bytes v) with (mem_bytes v). by rewrite H2.
Qed.

Lemma entry_short x : entry_of (short_field t x) = Some (entry_with t (short x)).
Proof. apply (entry_counted _ _ _ [u16 x]); [|done]. rewrite <- le_join_16. exact (elements_concat le16 EXIF_SHORT 1 [x] [] (fun _ => eq_refl) eq_refl). Qed.
Lemma entry_long x w : entry_of (Field t EXIF_LONG (Some 1) (le32 x) w) = Some (entry_with t (long x)).
Proof. apply (entry_counted _ _ _ [u32 x]); [|done]. rewrite <- le_join_32. exact (elements_concat le32 EXIF_LONG 1 [x] [] (fun _ => eq_refl) eq_refl). Qed.
Lemma entry_rational r : entry_of (rational_field t r) = Some (entry_with t (ratio r)).
Proof.
  apply (entry_counted _ _ _ [u32 (numerator r); u32 (denominator r)]); [|done]. rewrite <- !le_join_32.
  exact (elements_concat le32 EXIF_RATIONAL 1 [numerator r; denominator r] [] (fun _ => eq_refl) eq_refl).
Qed.
Lemma entry_srational r : entry_of (srational_field t r) = Some (entry_with t (sratio r)).
Proof.
  apply (entry_counted _ _ _ [u32 (snumerator r); u32 (sdenominator r)]); [|done]. rewrite <- !le_join_32.
  exact (elements_concat le32 EXIF_SRATIONAL 1 [snumerator r; sdenominator r] [] (fun _ => eq_refl) eq_refl).
Qed.
Lemma entry_shorts {n} (v : vec Z n) : entry_of (shorts_field t v) = Some (entry_with t (shorts v)).
Proof.
  assert (Hz : zlen (vec_to_list v) = Z.of_nat n) by (unfold zlen; by rewrite length_vec_to_list).
  eapply entry_counted.
  - pose proof (elements_concat le16 EXIF_SHORT (Z.of_nat n) (vec_to_list v) [] (fun _ => eq_refl) (eq_sym Hz)) as E. rewrite app_nil_r in E. exact E.
  - cbn [entry_with shorts]. unfold zlen in *. rewrite length_fmap. rewrite Hz. f_equal. apply list_fmap_ext. intros _ x _. apply le_join_16.
Qed.
Lemma entry_rationals {n} (v : vec EXIF_RATIONAL_T n) : entry_of (rationals_field t v) = Some (entry_with t (ratios v)).
Proof.
  set (l := vec_to_list v). assert (Hz : zlen l = Z.of_nat n) by (unfold l, zlen; by rewrite length_vec_to_list).
  set (ws := concat ((fun r => [numerator r; denominator r]) <$> l)).
  assert (Hw : zlen ws = 2 * Z.of_nat n) by (unfold ws; rewrite (zlen_concat _ 2) by done; lia).
  assert (Em : mem_rationals v = concat (le32 <$> ws)).
  { unfold mem_rationals, ws. fold l. clear. induction l as [|r l IH]; [done|]. cbn [fmap list_fmap concat]. rewrite IH, fmap_app, concat_app.
    cbn [fmap list_fmap concat]. unfold mem_rational. by rewrite app_nil_r. }
  unfold rationals_field. rewrite Em. eapply entry_counted.
  - pose proof (elements_concat le32 EXIF_RATIONAL (Z.of_nat n) ws [] (fun _ => eq_refl) (eq_sym Hw)) as E. rewrite app_nil_r in E. exact E.
  - cbn [entry_with ratios]. fold l. rewrite Hz. f_equal. unfold ws. clear. induction l as [|r l IH]; [done|].
    cbn [fmap list_fmap concat app]. rewrite !le_join_32. by rewrite <- IH.
Qed.

Lemma entry_custom ty w c : elem_size ty = 1 -> custom_fits 1 c ->
  entry_of (Field t ty (Some (custom_count c)) (mem_bytes (custom_ptr c)) w) = Some (Entry t ty (zlen (custom_bytes c)) (custom_bytes c)).
Proof.
  intros Hs [H0 H1]. assert (Hz : zlen (custom_bytes c) = custom_count c).
  { unfold custom_bytes, zlen. rewrite length_take. pose proof (zlen_mem_bytes (custom_ptr c)) as E. unfold zlen in E. change (mem_bytes (custom_ptr c)) with (array_bytes (custom_ptr c)) in E. lia. }
  unfold entry_of. cbn [field_count f_count f_type f_ptr f_tag]. rewrite obind_Some, Hz.
  change (mem_bytes (custom_ptr c)) with (array_bytes (custom_ptr c)). rewrite <- (take_drop (Z.to_nat (custom_count c)) (array_bytes (custom_ptr c))).
  fold (custom_bytes c). by rewrite (elements_bytes _ _ _ _ Hs (eq_sym Hz)).
Qed.
Lemma shorts_in_elements n : forall l, (2 * n <= length l)%nat -> elements load_le EXIF_SHORT (Z.of_nat n) l 0 = Some (shorts_in n l) /\ length (shorts_in n l) = n.
Proof.
  intros l Hl. set (pairs := (fix go n (l : list Z) := match n, l with S n, a :: b :: l => (a, b) :: go n l | _, _ => [] end)).
  assert (H : exists rest, l = concat ((fun p => [p.1; p.2]) <$> pairs n l) ++ rest /\ length (pairs n l) = n /\ shorts_in n l = (fun p => le_join [p.1; p.2]) <$> pairs n l).
  { revert l Hl. induction n as [|n IH]; intros l Hl; [by exists l|]. destruct l as [|a [|b l] ]; [cbn in Hl; lia..|]. destruct (IH l) as (rest & E1 & E2 & E3); [cbn in Hl; lia|].
    exists rest. cbn [pairs shorts_in fmap list_fmap concat app length fst snd]. split; [by rewrite <- E1|]. split; [by rewrite E2|]. rewrite E3. f_equal. unfold le_join. cbn [foldr]. lia. }
  destruct H as (rest & E1 & E2 & E3). split; [|by rewrite E3, length_fmap].
  rewrite E1 at 1. rewrite E3. apply elements_concat; [done|]. change (elem_count EXIF_SHORT (Z.of_nat n)) with (Z.of_nat n). unfold zlen. by rewrite E2.
Qed.
Lemma entry_custom_shorts w c : custom_fits 2 c ->
  entry_of (Field t EXIF_SHORT (Some (custom_count c)) (mem_bytes (custom_ptr c)) w) = Some (entry_with t (custom_shorts c)).
Proof.
  intros [H0 H1]. pose proof (zlen_mem_bytes (custom_ptr c)) as Hz. destruct (shorts_in_elements (Z.to_nat (custom_count c)) (mem_bytes (custom_ptr c))) as [E El]; [unfold zlen in Hz; lia|].
  rewrite Z2Nat.id in E by done. apply (entry_counted _ _ _ _ _ _ E). cbn [entry_with custom_shorts]. f_equal.
  change (array_bytes (custom_ptr c)) with (mem_bytes (custom_ptr c)). unfold zlen. rewrite El. lia.
Qed.
End kinds.

Lemma means_member {A B} (p : option A) (m : A -> option B) f t g :
  (forall a b, p = Some a -> m a = Some b -> entry_of (f b) = Some (entry_with t (g b))) -> means (member p m f) (t, have p m g).
Proof. intros H. unfold member, have. destruct p as [a|]; [|done]. cbn [mbind option_bind]. destruct (m a) as [b|] eqn:E; [|done]. exists (g b). split; [done|]. by eapply H. Qed.
Lemma means_custom {A} (p : option A) m t ty w g :
  (forall a c, p = Some a -> m a = Some c -> 0 < custom_count c ->
     entry_of (Field t ty (Some (custom_count c)) (mem_bytes (custom_ptr c)) w) = Some (entry_with t (g c))) ->
  means (custom_member p m (custom_field t ty w)) (t, have_custom p m g).
Proof.
  intros H. unfold custom_member, have_custom. destruct p as [a|]; [|done]. cbn [mbind option_bind]. destruct (m a) as [c|] eqn:E; [|done].
  cbn [mbind option_bind]. unfold custom_field. destruct (Z.gtb_spec (custom_count c) 0); [|done]. exists (g c). split; [done|]. by eapply H.
Qed.
Lemma means_Some f t v : entry_of f = Some (entry_with t v) -> means (Some f) (t, Some v).
Proof. intros H. by exists v. Qed.

Create HintDb exif_means.
#[export] Hint Resolve entry_short entry_long entry_rational entry_srational entry_shorts entry_rationals : exif_means.
#[export] Hint Extern 1 (entry_of (bytes_field _ _ _) = _) => by apply entry_bytes : exif_means.
#[export] Hint Extern 1 (entry_of (byte_field _ _ _) = _) => by apply entry_byte : exif_means.

Ltac mean :=
  lazymatch goal with
  | |- means (member _ _ (string_field _)) _ => apply means_member; intros; apply entry_string; promised
  | |- means (member _ _ _) _ => apply means_member; intros; solve [eauto with exif_means]
  | |- means (custom_member _ _ (custom_field _ EXIF_SHORT w_short)) _ => apply means_custom; intros; apply entry_custom_shorts; promised
  | |- means (custom_member _ _ (custom_field _ EXIF_SHORT w_rational)) _ =>
      apply means_custom; intros; exfalso;
      match goal with |- False => idtac end;
      match goal with H : 0 < custom_count ?c |- _ => assert (custom_count c = 0) by promised; lia end
  | |- means (custom_member _ _ _) _ => apply means_custom; intros; apply entry_custom; [reflexivity|promised]
  | |- means (Some _) _ => apply means_Some; solve [eauto with exif_means]
  end.
Ltac all_mean := repeat (apply Forall2_cons_2; [mean|]); apply Forall2_nil_2.

Lemma image_means_1 p : valid_primary p -> Forall2 means (primary_description p ++ primary_origin p) (image_rows_1 p).
Proof. intros [Hw Hl Hd]. unfold primary_description, primary_origin, image_rows_1. cbn [app]. cbv zeta. all_mean. Qed.
Lemma image_means_2 p : valid_primary p -> Forall2 means (primary_picture p) (image_rows_2 p).
Proof. intros [Hw Hl Hd]. unfold primary_picture, image_rows_2. cbv zeta. all_mean. Qed.
Lemma spec_means_1 s : valid_spec s -> Forall2 means (spec_exposure s ++ spec_dates s ++ spec_lens s ++ spec_user s ++ spec_image s) (spec_rows_1 s).
Proof. intros [H1 H2 H3]. unfold spec_exposure, spec_dates, spec_lens, spec_user, spec_image, spec_rows_1. cbn [app]. cbv zeta. all_mean. Qed.
Lemma spec_means_2 s : valid_spec s -> Forall2 means (spec_focal_plane s ++ spec_scene s ++ spec_gain s) (spec_rows_2 s).
Proof. intros [H1 H2 H3]. unfold spec_focal_plane, spec_scene, spec_gain, spec_rows_2. cbn [app]. cbv zeta. all_mean. Qed.
Lemma gps_means g : valid_gps g -> Forall2 means (gps_position g ++ gps_status g ++ gps_destination g ++ gps_method g) (gps_rows g).
Proof. intros []. unfold gps_position, gps_status, gps_destination, gps_method, gps_rows. cbn [app]. cbv zeta. all_mean. Qed.
Lemma inter_means n : of_valid (custom_fits 1) (InteroperabilityIndex n) -> mapM entry_of (inter_fields n) = Some (entries_of (inter_rows n)).
Proof. intros H. apply means_entries. unfold inter_rows. all_mean. Qed.

(** ** The content *)

Lemma entries_of_app a b : entries_of (a ++ b) = entries_of a ++ entries_of b.
Proof. apply omap_app. Qed.

Lemma spec_content s inter : valid_spec s -> of_valid (fun n => of_valid (custom_fits 1) (InteroperabilityIndex n)) inter ->
  spec_of s inter = Some (entries_of (spec_rows s), (fun n => entries_of (inter_rows n)) <$> inter).
Proof.
  intros Hs Hi. unfold spec_of, spec_fields_1, spec_fields_2. rewrite <- omap_app.
  rewrite (means_entries _ (spec_rows s)) by (apply Forall2_app; [by apply spec_means_1|by apply spec_means_2]).
  rewrite obind_Some. destruct inter as [n|]; cbn [maybe]; [by rewrite inter_means|done].
Qed.

(** The writer's tables are the content of the structs. *)
Lemma tiff_of_content i th : valid_info i -> tiff_of i th = Some (exif_content i th).
Proof.
  intros [Hp Hs Hg Hi]. unfold tiff_of, image_of, exif_content.
  assert (Hm : forall p, valid_primary p -> mapM entry_of (omap id (primary_description p ++ primary_origin p) ++ omap id (primary_picture p)) = Some (entries_of (image_rows p))).
  { intros p H. rewrite <- omap_app. apply means_entries, Forall2_app; [by apply image_means_1|by apply image_means_2]. }
  rewrite (Hm _ Hp), (Hm _ ifd1_valid), !obind_Some.
  assert (Es : maybe (fun sp => spec_of sp (inter_ptr i)) (spec_ptr i) =
    Some ((fun s => (entries_of (spec_rows s), (fun n => entries_of (inter_rows n)) <$> inter_ptr i)) <$> spec_ptr i)).
  { destruct (spec_ptr i) as [s|]; cbn [maybe]; [by rewrite spec_content|done]. }
  assert (Eg : maybe (fun g => mapM entry_of (gps_fields g)) (gps_ptr i) = Some ((fun g => entries_of (gps_rows g)) <$> gps_ptr i)).
  { destruct (gps_ptr i) as [g|]; cbn [maybe]; [|done]. unfold gps_fields. rewrite (means_entries _ _ (gps_means g Hg)). done. }
  rewrite Es, obind_Some, Eg, obind_Some. cbn [maybe]. rewrite !obind_Some. by destruct (zlen th >? 0).
Qed.
