(* ===== verification/ExifFileProofs.v ===== *)
(** * A picture with an EXIF segment

    [Jpeg_WriteAPP1] and its callers: what is in the buffers when they
    return, and where they go wrong; the date of the picture. *)
From stdpp Require Import base list vector.
From Stdlib Require Import ZArith Lia.
From S2P Require Import Prelude ExifTypes ExifStream ExifWriter ExifProofs ExifDirProofs ExifTables ExifReadProofs ExifContent.

(** ** The segment in the buffer *)

Section app1.
Context (i : JINF_EXIF_INFO_T) (th : list Z) (Hi : valid_info i) (Hth : bytes th).

(** [n] bytes are written; [app1_length] is computed modulo 2^16. *)
Lemma WriteAPP1_done : forall buf,
  app1_room th <= zlen buf -> zlen buf < 4294967000 ->
  exists n buf', Jpeg_WriteAPP1 true (Some i) th buf = Ret (JPEG_SUCCESS, Some (u16 (u16 n - 2) + 2)) buf' /\
    18 <= n <= app1_room th /\ zlen buf' = zlen buf /\ has buf' 0 (app1_header (u16 (u16 n - 2))) /\
    forall buf2, same_on 10 n buf' buf2 -> read_tiff buf2 10 = Some (exif_content i th).
Proof.
  destruct (images_written i th Hi Hth) as (t & Ht & Hw). rewrite (tiff_of_content _ _ Hi) in Ht. injection Ht as <-. intros buf Hroom Hbuf.
  pose proof (zlen_nonneg th) as Hz0. assert (H18 : 18 <= zlen buf) by (unfold app1_room in Hroom; lia).
  set (s := WriteStream buf (Some 0) None 0 []).
  destruct (write_ifh_mem buf 0 s H18) as (buf1 & p1 & E1 & Hz1 & Hh1).
  destruct (Hw buf1 p1 s) as (n & buf2 & p2 & Hn & Hz2 & E2 & Hr); [lia..|done|].
  destruct (write_app1_header_mem (u16 (u16 n - 2)) buf2 p2 s) as (p3 & E3); [lia|].
  assert (Hh : zlen (app1_header (u16 (u16 n - 2))) = 10) by done.
  exists n, (put buf2 0 (app1_header (u16 (u16 n - 2)))). split.
  - unfold Jpeg_WriteAPP1. erewrite bind_Ret by reflexivity. cbn [negb orb].
    destruct (Z.ltb_spec (zlen buf) 10); [lia|]. unfold zoom, code_of, WriteAPP1_body.
    change (WriteStream buf (Some 0) None 0 []) with (in_memory buf 0 s).
    erewrite bind_Ret by exact E1. cbv zeta.
    rewrite <- (bind_assoc (Jpeg_WriteExifIFD _ _ _ _ _ _ _ _)). unfold bind at 1.
    unfold bind in E2 |- *.
    destruct (Jpeg_WriteExifIFD (primary i) (spec_ptr i) (gps_ptr i) (inter_ptr i) [] (zlen th >? 0) 10 18 (in_memory buf1 p1 s))
      as [e st|st|f] eqn:Ea; [|done..]. rewrite E2, E3. done.
  - split; [done|]. split; [rewrite zlen_put; lia|]. split; [apply has_put; lia|].
    intros buf3 H3. apply Hr. eapply same_on_trans; [|exact H3]. apply same_on_put; lia.
Qed.
End app1.

(** The bytes of a thumbnail that is read are in the segment. *)
Lemma read_tiff_thumbnail buf a c : read_tiff buf 10 = Some (a, Some c) -> zlen (i_thumbnail c) <= zlen buf.
Proof.
  assert (Hi : forall b im nx, read_image buf 10 b = Some (im, nx) -> zlen (i_thumbnail im) <= zlen buf).
  { intros b im nx. unfold read_image. destruct (read_ifd buf 10 b) as [r|]; [|done]. rewrite !obind_Some.
    destruct (sub (read_spec buf 10) _ _ _) as [x|]; [|done]. rewrite !obind_Some.
    destruct (sub (read_plain buf 10) _ _ _) as [y|]; [|done]. rewrite !obind_Some.
    destruct (read_thumbnail buf 10 r.1) as [th|] eqn:E; [|done]. rewrite obind_Some. intros [= <- _]. cbn [i_thumbnail].
    assert (Hs : forall v m l, slice buf v m = Some l -> zlen l <= zlen buf).
    { intros v m l (-> & _ & _)%slice_Some. unfold zlen. rewrite length_take, length_drop. lia. }
    unfold read_thumbnail in E. repeat case_match; try done; try (by eapply Hs). injection E as <-. apply zlen_nonneg. }
  unfold read_tiff. destruct (load_be 2 buf 10) as [x|]; [|done]. rewrite obind_Some.
  destruct (load_be 2 buf (10 + 2)) as [y|]; [|done]. rewrite obind_Some.
  destruct (load_be 4 buf (10 + 4)) as [o|]; [|done]. rewrite obind_Some. destruct (negb _); [done|].
  destruct (read_image buf 10 (10 + o)) as [r|]; [|done]. rewrite obind_Some. destruct (r.2 =? 0); [done|].
  destruct (read_image buf 10 (10 + r.2)) as [ [im nx]|] eqn:E; [|done]. rewrite obind_Some. intros [= _ <-]. by eapply Hi.
Qed.

Lemma tiff_of_thumbnail i th t : tiff_of i th = Some t -> 0 < zlen th -> exists a c, t = (a, Some c) /\ i_thumbnail c = th.
Proof.
  unfold tiff_of. intros E Hz. destruct (image_of (primary i) _ _ _ _) as [a|]; [|done]. rewrite obind_Some in E.
  rewrite (proj2 (Z.gtb_lt _ _)) in E by done. destruct (image_of ifd1_primary None None None th) as [c|] eqn:Ec; [|done].
  rewrite obind_Some in E. injection E as <-. exists a, c. split; [done|]. unfold image_of in Ec.
  destruct (mapM entry_of _) as [es|]; [|done]. rewrite !obind_Some in Ec. cbn [maybe] in Ec. rewrite !obind_Some in Ec.
  by injection Ec as <-.
Qed.

(** C23: Jpeg_WriteAPP1 (exif_writer.c), read back. Assumed (valid_info): the
    strings of the structs end within their arrays, the counts of members of
    any size fit their 256 bytes, the width and the length of the image have
    16 bits, and SubjectArea has no values (they are written as rationals,
    exif_writer.c:908); the buffer has at least [app1_room] bytes, which is
    enough for all tables and the thumbnail, and is below 4 GiB; and
    [app1_room] is below 64 KiB, the limit of one segment
    (exif_writer.c:2844). Then it succeeds, and a reader of the format that
    gets the bytes it says it wrote, and whatever follows them, finds
    [exif_content]: for each struct that is there its directory, with the tag,
    type and value that the EXIF standard has for each member whose bit is
    set, and the thumbnail with its directory. The content is stated without
    the tables of the writer, with what the writer does otherwise: MakerNote
    and UserComment need no bit (exif_writer.c:916), the longitude of the
    destination has the bit of its latitude (exif_writer.c:1907), the versions
    are constants, and a member of any size without bytes has no entry; the
    entries are in the order of the writer. *)
Theorem app1_read_back i th buf : valid_info i -> bytes th ->
  app1_room th <= zlen buf -> zlen buf < 4294967000 -> app1_room th < 65536 ->
  exists n buf' seg,
    Jpeg_WriteAPP1 true (Some i) th buf = Ret (JPEG_SUCCESS, Some n) buf' /\
    18 <= n <= app1_room th /\ zlen buf' = zlen buf /\
    slice buf' 0 n = Some seg /\ forall rest, read_app1 (seg ++ rest) = Some (exif_content i th).
Proof.
  intros Hi Hth Hroom Hbuf Hmax.
  destruct (WriteAPP1_done i th Hi Hth buf Hroom Hbuf) as (n & buf' & E & Hn & Hz & Hh & Hr).
  rewrite (u16_small n), (u16_small (n - 2)) in * by lia. replace (n - 2 + 2) with n in E by lia.
  destruct (slice_is_Some buf' 0 n) as [seg Hseg]; [lia..|]. exists n, buf', seg. split_and!; try done; try lia.
  intros rest. destruct (read_app1_intro buf' n rest (exif_content i th) Hh) as (seg' & Hs' & Hread); [lia|lia|done|].
  rewrite Hseg in Hs'. by injection Hs' as <-.
Qed.

(** a thumbnail of 64 KiB or more: the segment is in the buffer, but the
    size that Jpeg_WriteAPP1 returns, and the length in its header, are those
    of the segment modulo 2^16, so the file gets a part of it. *)
Theorem app1_length_wraps i th buf : valid_info i -> bytes th ->
  app1_room th <= zlen buf -> zlen buf < 4294967000 -> 65536 <= zlen th ->
  exists n m buf',
    Jpeg_WriteAPP1 true (Some i) th buf = Ret (JPEG_SUCCESS, Some m) buf' /\
    (forall buf2, same_on 10 n buf' buf2 -> read_tiff buf2 10 = Some (exif_content i th)) /\
    zlen th <= n /\ 2 <= m <= 65537 /\ (n mod 65536 < 2 \/ m = n mod 65536).
Proof.
  intros Hi Hth Hroom Hbuf Hbig. destruct (WriteAPP1_done i th Hi Hth buf Hroom Hbuf) as (n & buf' & E & Hn & Hz & Hh & Hr).
  exists n, (u16 (u16 n - 2) + 2), buf'. split_and!; try done.
  - destruct (tiff_of_thumbnail _ _ _ (tiff_of_content i th Hi)) as (a & c & Ec & Hc); [lia|]. rewrite Ec in Hr. rewrite <- Hc.
    destruct (decide (n <= zlen buf)) as [Hle|]; [|lia].
    assert (Hr2 : read_tiff (take (Z.to_nat n) buf') 10 = Some (a, Some c)).
    { apply Hr. intros k Hk. unfold aget. rewrite (proj2 (Z.leb_le _ _)) by lia. by rewrite lookup_take_lt by lia. }
    apply read_tiff_thumbnail in Hr2. unfold zlen in *. rewrite length_take in Hr2. lia.
  - pose proof (u16_range (u16 n - 2)). lia.
  - pose proof (u16_range (u16 n - 2)). lia.
  - destruct (decide (n mod 65536 < 2)) as [|Hge]; [by left|right]. unfold u16 at 1, wrap at 1.
    change (u16 n) with (n mod 65536). pose proof (Z.mod_pos_bound n 65536). change (2 ^ 16) with 65536.
    rewrite Z.mod_small by lia. lia.
Qed.

(** ** The picture *)

Lemma slice_has l i n bs : slice l i n = Some bs -> has l i bs /\ zlen bs = n.
Proof.
  intros (-> & Hi & Hz)%slice_Some. split; [|done]. split; [done|]. intros k b Hk.
  pose proof (aget_range _ _ _ Hk) as Hr. apply aget_Some in Hk as [Hk0 Hk].
  rewrite lookup_take_Some in Hk. destruct Hk as [Hk _]. rewrite lookup_drop in Hk. unfold aget.
  rewrite (proj2 (Z.leb_le _ _)) by lia. rewrite <- Hk. f_equal. lia.
Qed.

Lemma has_drop l i bs k : has l i bs -> 0 <= k -> has l (i + k) (drop (Z.to_nat k) bs).
Proof.
  intros [Hi H] Hk. split; [lia|]. intros j b Hj. pose proof Hj as [Hj0 Hj1]%aget_Some. rewrite <- Z.add_assoc. apply H.
  rewrite lookup_drop in Hj1. unfold aget. rewrite (proj2 (Z.leb_le _ _)) by lia. rewrite <- Hj1. f_equal. lia.
Qed.

(** C28: IMGJPEG_WriteExif into memory (exif_writer.c), called as jpeg_codec.c
    does: without a callback, with valid structs (valid_info), a temporary
    buffer of 21 KiB and the size of the thumbnail, a picture of at least two
    bytes in the target, which is below 4 GiB, with [app1_room] bytes in front
    of it, and a thumbnail so small that [app1_room] is below 64 KiB: it
    succeeds, and in front of the picture is now one with a segment after its
    SOI marker that reads as [exif_content] of the structs and the thumbnail;
    no other byte of the target changes. Not covered: a larger thumbnail, for
    which the call succeeds with a part of the segment (exif_writer.c:2844,
    app1_length_wraps). *)
Theorem WriteExif_inserts_segment p i src jpeg s :
  exif_info_ptr p = Some i -> src_jpeg_buf_ptr p = Some src -> temp_buf_ptr p = true -> target_buf_ptr p = true ->
  wrtie_file_func p = None -> valid_info i -> bytes (thumbnail_buf p) ->
  zlen (temp_buf s) = zlen (thumbnail_buf p) + 21 * 1024 -> app1_room (thumbnail_buf p) < 65536 ->
  app1_room (thumbnail_buf p) <= src -> zlen (target s) < 4294967296 ->
  slice (target s) src (src_jpeg_size p) = Some jpeg -> 2 <= src_jpeg_size p ->
  exists n seg s', zlen seg = n /\ (forall rest, read_app1 (seg ++ rest) = Some (exif_content i (thumbnail_buf p))) /\
    IMGJPEG_WriteExif (Some p) s = Ret (JINF_SUCCESS, Some (src - n, n + src_jpeg_size p)) s' /\
    slice (target s') (src - n) (n + src_jpeg_size p) = Some ([0xFF; 0xD8] ++ seg ++ drop 2 jpeg) /\
    forall k, k < src - n \/ src + 2 <= k -> aget (target s') k = aget (target s) k.
Proof.
  intros Hei Hsrc Htemp Htarget Hfun Hi Hth Hroom Hmax Hbefore Hlt Hjpeg Hsz.
  apply slice_has in Hjpeg as [Hj Hjz]. pose proof (zlen_nonneg (thumbnail_buf p)) as Hz0. unfold app1_room in *.
  assert (Hjr : src + src_jpeg_size p <= zlen (target s)).
  { rewrite <- Hjz. apply has_range; [done|]. intros ->. change (zlen (@nil Z)) with 0 in Hjz. lia. }
  destruct (WriteAPP1_done i (thumbnail_buf p) Hi Hth (temp_buf s)) as (n & tb & E & Hn & Hz & Hh & Hr);
    [unfold app1_room; lia|lia|]. unfold app1_room in Hn.
  rewrite (u16_small n), (u16_small (n - 2)) in * by lia. replace (n - 2 + 2) with n in E by lia.
  destruct (slice_is_Some tb 0 n) as [seg Hseg]; [lia..|]. pose proof (slice_has _ _ _ _ Hseg) as [_ Hsegz].
  set (out := [0xFF; 0xD8] ++ seg). assert (Ho : zlen out = n + 2) by (unfold out; rewrite zlen_app, Hsegz; change (zlen [255; 216]) with 2; lia).
  exists n, seg, (WExif tb (put (target s) (src - n) out) (file s)). split; [done|]. split.
  { intros rest. destruct (read_app1_intro tb n rest (exif_content i (thumbnail_buf p)) Hh) as (seg' & Hs' & Hread); [lia|lia|done|].
    rewrite Hseg in Hs'. by injection Hs' as <-. }
  assert (Hput : has (put (target s) (src - n) out) (src - n) out) by (apply has_put; lia). split.
  - unfold IMGJPEG_WriteExif. rewrite Hei, Hsrc, Hfun, Htarget. cbn [negb].
    destruct (Z.leb_spec src 0); [lia|].
    assert (Ew : JPEG_AddExifToMemory p src s = Ret (JPEG_SUCCESS, Some (src - n, n + src_jpeg_size p)) (WExif tb (put (target s) (src - n) out) (file s))).
    { unfold JPEG_AddExifToMemory, write_app1, zoom. unfold bind at 1. rewrite Htemp, Hei, E. cbv iota beta.
      rewrite (u32_small src) by lia. destruct (Z.ltb_spec src n); [lia|].
      erewrite bind_Ret by reflexivity. cbv beta zeta. cbn [temp_buf target file]. rewrite Hseg.
      erewrite bind_Ret by reflexivity. cbv beta. fold out. rewrite store_ok by lia. erewrite bind_Ret by reflexivity.
      cbv beta. erewrite bind_Ret by reflexivity. cbv beta. by rewrite u32_small by lia. }
    erewrite bind_Ret by exact Ew. done.
  - cbn [target]. split.
    + assert (Hd : zlen (drop 2 jpeg) = src_jpeg_size p - 2) by (unfold zlen in *; rewrite length_drop; lia).
      replace (n + src_jpeg_size p) with (zlen (out ++ drop 2 jpeg)) by (rewrite zlen_app; lia).
      unfold out. rewrite <- app_assoc. apply has_slice. rewrite app_assoc. fold out. apply has_app. split; [done|].
      replace (src - n + zlen out) with (src + 2) by lia. eapply (has_same (src + 2) (src + src_jpeg_size p)); [| | |exact (has_drop _ _ _ 2 Hj ltac:(lia))]; [|lia..].
      apply same_on_put; lia.
    + intros k Hk. apply (same_on_put k (k + 1)); lia.
Qed.

(** IMGJPEG_WriteExif through a callback (exif_writer.c) that takes every
    byte it gets: three consecutive writes, SOI marker, segment and the
    picture without its SOI marker; the picture itself is not touched. *)
Theorem WriteExif_writes_file p i f src jpeg s :
  exif_info_ptr p = Some i -> src_jpeg_buf_ptr p = Some src -> temp_buf_ptr p = true -> wrtie_file_func p = Some f ->
  (forall o d, f o d = (true, zlen d)) -> valid_info i -> bytes (thumbnail_buf p) ->
  zlen (temp_buf s) = zlen (thumbnail_buf p) + 21 * 1024 -> app1_room (thumbnail_buf p) < 65536 ->
  slice (target s) src (src_jpeg_size p) = Some jpeg -> 2 <= src_jpeg_size p < 4294967296 ->
  exists n seg s', zlen seg = n /\ (forall rest, read_app1 (seg ++ rest) = Some (exif_content i (thumbnail_buf p))) /\
    IMGJPEG_WriteExif (Some p) s = Ret (JINF_SUCCESS, None) s' /\ target s' = target s /\
    file s' = file s ++ [(0, [0xFF; 0xD8]); (2, seg); (2 + n, drop 2 jpeg)].
Proof.
  intros Hei Hsrc Htemp Hfun Hf Hi Hth Hroom Hmax Hjpeg Hsz.
  apply slice_has in Hjpeg as [Hj Hjz]. pose proof (zlen_nonneg (thumbnail_buf p)) as Hz0. unfold app1_room in *.
  destruct (WriteAPP1_done i (thumbnail_buf p) Hi Hth (temp_buf s)) as (n & tb & E & Hn & Hz & Hh & Hr);
    [unfold app1_room; lia|lia|]. unfold app1_room in Hn.
  rewrite (u16_small n), (u16_small (n - 2)) in * by lia. replace (n - 2 + 2) with n in E by lia.
  destruct (slice_is_Some tb 0 n) as [seg Hseg]; [lia..|]. pose proof (slice_has _ _ _ _ Hseg) as [_ Hsegz].
  assert (Hd : zlen (drop 2 jpeg) = src_jpeg_size p - 2) by (unfold zlen in *; rewrite length_drop; lia).
  assert (Htail : slice (target s) (src + 2) (u32 (src_jpeg_size p - 2)) = Some (drop 2 jpeg)).
  { rewrite u32_small, <- Hd by lia. apply has_slice, (has_drop _ _ _ 2 Hj). lia. }
  assert (Hcall : forall o d x, call_write f o d x = Ret (zlen d) (WExif (temp_buf x) (target x) (file x ++ [(o, d)]))).
  { intros o d x. unfold call_write. rewrite Hf. cbv zeta. erewrite bind_Ret by reflexivity. cbn [fst snd]. rewrite Z.eqb_refl. done. }
  exists n, seg, (WExif tb (target s) (file s ++ [(0, [0xFF; 0xD8]); (2, seg); (2 + n, drop 2 jpeg)])).
  split; [done|]. split.
  { intros rest. destruct (read_app1_intro tb n rest (exif_content i (thumbnail_buf p)) Hh) as (seg' & Hs' & Hread); [lia|lia|done|].
    rewrite Hseg in Hs'. by injection Hs' as <-. }
  split; [|done]. unfold IMGJPEG_WriteExif. rewrite Hei, Hsrc, Hfun.
  assert (Ew : JPEG_AddExifToFile p f s
    = Ret JPEG_SUCCESS (WExif tb (target s) (file s ++ [(0, [0xFF; 0xD8]); (2, seg); (2 + n, drop 2 jpeg)]))).
  { unfold JPEG_AddExifToFile, write_app1, zoom. unfold bind at 1. rewrite Htemp, Hei, E. cbv iota beta.
    unfold code_of. unfold bind at 1. erewrite bind_Ret by apply Hcall. cbv beta. erewrite bind_Ret by reflexivity. cbv beta.
    cbn [temp_buf target file]. rewrite Hseg. erewrite bind_Ret by reflexivity. cbv beta. erewrite bind_Ret by apply Hcall. cbv beta.
    rewrite Hsrc. erewrite bind_Ret by reflexivity. cbv beta. cbn [temp_buf target file]. rewrite Htail.
    erewrite bind_Ret by reflexivity. cbv beta. rewrite Hcall. cbn [temp_buf target file fst].
    change (zlen [255; 216]) with 2. rewrite Hsegz, u32_small by lia. rewrite <- !app_assoc. done. }
  erewrite bind_Ret by exact Ew. done.
Qed.

(** ** Date and time *)

Lemma digits_length fuel n : 0 <= n -> n < 10 ^ Z.of_nat fuel -> (0 < fuel)%nat ->
  bytes (digits fuel n) /\ (length (digits fuel n) <= fuel)%nat /\
  forall w, (0 < w)%nat -> (length (digits fuel n) <= w)%nat <-> n < 10 ^ Z.of_nat w.
Proof.
  revert n. induction fuel as [|fuel IH]; intros n Hn Hlt Hf; [lia|]. cbn [digits].
  destruct (Z.ltb_spec n 10) as [Hd|Hd].
  - cbn [length]. split; [repeat constructor; unfold byte; lia|]. split; [lia|]. intros w Hw. split; [|lia]. intros _.
    apply (Z.lt_le_trans _ (10 ^ 1)); [lia|]. apply Z.pow_le_mono_r; lia.
  - destruct (decide (fuel = 0%nat)) as [->|Hne]; [change (10 ^ Z.of_nat 1) with 10 in Hlt; lia|].
    rewrite Nat2Z.inj_succ, Z.pow_succ_r in Hlt by lia.
    destruct (IH (n / 10)) as (Hb & Hl & Hw); [Z.div_mod_to_equations; lia|Z.div_mod_to_equations; lia|lia|].
    rewrite length_app. cbn [length]. split.
    { apply bytes_app. split; [done|]. repeat constructor; unfold byte; Z.div_mod_to_equations; lia. }
    split; [lia|]. intros w Hw0. destruct w as [|w]; [lia|]. rewrite Nat2Z.inj_succ, Z.pow_succ_r by lia.
    destruct (decide (w = 0%nat)) as [->|Hw1].
    + change (10 ^ Z.of_nat 0) with 1. split; [|lia]. intros H. assert (Hz : (length (digits fuel (n / 10)) <= 0)%nat) by lia.
      exfalso. destruct fuel as [|fuel]; [lia|]. cbn [digits] in Hz. destruct (n / 10 <? 10); [cbn in Hz; lia|].
      rewrite length_app in Hz. cbn in Hz. lia.
    + specialize (Hw w ltac:(lia)). split; intros H.
      * assert (n / 10 < 10 ^ Z.of_nat w) by (apply Hw; lia). Z.div_mod_to_equations; lia.
      * assert ((length (digits fuel (n / 10)) <= w)%nat) by (apply Hw; Z.div_mod_to_equations; lia). lia.
Qed.

Lemma padded_length w n : 0 <= n < 65536 -> (0 < w)%nat ->
  Z.of_nat w <= zlen (padded w n) /\ (zlen (padded w n) = Z.of_nat w <-> n < 10 ^ Z.of_nat w).
Proof.
  intros Hn Hw. destruct (digits_length 5 n) as (_ & _ & H); [lia|change (10 ^ Z.of_nat 5) with 100000; lia|lia|].
  unfold padded, zlen. rewrite length_app, length_replicate. specialize (H w Hw). lia.
Qed.

(** The fields are 16 bits wide. *)
Definition date_time_range (d : JINF_DATE_T) (t : JINF_TIME_T) : Prop :=
  0 <= year d < 65536 /\ 0 <= month d < 65536 /\ 0 <= day d < 65536 /\
  0 <= hour t < 65536 /\ 0 <= minute t < 65536 /\ 0 <= second t < 65536.

(** IMGJPEG_FormatDateTime (exif_writer.c) on a buffer of 20 bytes, the
    size of the EXIF member: the text and its NUL fit exactly when the year
    has at most four digits and the other fields two; otherwise it writes
    after the end of the buffer, which only the check of the size guards. *)
Theorem FormatDateTime_fits d t buf : date_time_range d t -> zlen buf = 20 ->
  IMGJPEG_FormatDateTime d t buf =
    if (year d <? 10000) && (month d <? 100) && (day d <? 100) && (hour t <? 100) && (minute t <? 100) && (second t <? 100)
    then Ret JINF_SUCCESS (date_time_string d t ++ [0]) else Bad OutOfBounds.
Proof.
  intros (Hy & Hmo & Hda & Hh & Hmi & Hs) Hz.
  destruct (padded_length 4 _ Hy) as [L1 B1]; [lia|]. destruct (padded_length 2 _ Hmo) as [L2 B2]; [lia|].
  destruct (padded_length 2 _ Hda) as [L3 B3]; [lia|]. destruct (padded_length 2 _ Hh) as [L4 B4]; [lia|].
  destruct (padded_length 2 _ Hmi) as [L5 B5]; [lia|]. destruct (padded_length 2 _ Hs) as [L6 B6]; [lia|].
  change (10 ^ Z.of_nat 4) with 10000 in *. change (10 ^ Z.of_nat 2) with 100 in *.
  set (str := date_time_string d t ++ [0]).
  assert (Hlen : zlen str = zlen (padded 4 (year d)) + zlen (padded 2 (month d)) + zlen (padded 2 (day d))
    + zlen (padded 2 (hour t)) + zlen (padded 2 (minute t)) + zlen (padded 2 (second t)) + 6).
  { unfold str, date_time_string. rewrite !zlen_app. change (zlen [58]) with 1. change (zlen [32]) with 1. change (zlen [0]) with 1. lia. }
  unfold IMGJPEG_FormatDateTime. erewrite bind_Ret by reflexivity. cbv beta. rewrite Hz. change (20 <? 20) with false. cbv iota.
  fold str. match goal with |- _ = if ?c then _ else _ => destruct c eqn:E end.
  - rewrite !andb_true_iff, !Z.ltb_lt in E. assert (Hs20 : zlen str = 20) by lia.
    rewrite store_ok by lia. erewrite bind_Ret by reflexivity. cbv beta. erewrite bind_Ret by reflexivity. unfold ret. f_equal.
    unfold put. rewrite Hs20. rewrite (drop_ge buf) by (unfold zlen in Hz; lia). by rewrite app_nil_r.
  - assert (Hs20 : 20 < zlen str).
    { destruct (decide (zlen str <= 20)) as [Hle|]; [|lia]. rewrite !andb_false_iff, !Z.ltb_ge in E. lia. }
    unfold bind, lift. by rewrite store_None by lia.
Qed.

(** ** Where the writer goes wrong *)

(** An area of four shorts 1, 2, 3, 4 with the writer the table has for it:
    the entry's type is SHORT and its count 4, and what a reader gets are
    halves of the 32-bit numbers that were written. *)
Definition subject_area : EXIF_CUSTOM_T := Custom 0 ([# 1; 0; 2; 0; 3; 0; 4; 0] +++ vreplicate 248 0) 4 8.

Definition written_field (f : field) (size : nat) : option entry :=
  match write_field 0 f (Cursor 0 12 0) (WriteStream (replicate size 0) (Some 0) None 0 []) with
  | Ret _ s => read_entry (write_buf s) 0 0
  | _ => None
  end.

Example SubjectArea_not_read_back : exists f, custom_field IFD_SUBJECTAREA EXIF_SHORT w_rational subject_area = Some f /\
  entry_of f = Some (Entry IFD_SUBJECTAREA EXIF_SHORT 4 [1; 2; 3; 4]) /\
  written_field f 64 = Some (Entry IFD_SUBJECTAREA EXIF_SHORT 4 [2; 1; 4; 3]).
Proof. eexists. split; [reflexivity|]. split; vm_compute; reflexivity. Qed.

(** A byte that is written when the buffer is full: the buffer is flushed,
    but the byte is not stored and the function fails. *)
Lemma WriteC_flush_loses c buf f base fw :
  0 < zlen buf -> f base buf = zlen buf ->
  Jpeg_WriteC c (WriteStream buf (Some (zlen buf)) (Some f) base fw)
  = Ret false (WriteStream buf (Some 0) (Some f) (u32 (base + zlen buf)) (fw ++ [(base, buf)])).
Proof.
  intros Hz Hf. unfold Jpeg_WriteC. do 2 (erewrite bind_Ret by reflexivity; cbv beta). cbn [write_ptr default]. unfold id, write_buf_size.
  cbn [write_buf]. cbv zeta. destruct (Z.geb_spec (zlen buf) (zlen buf)); [|lia].
  assert (E : Jpeg_WriteStreamToFile (WriteStream buf (Some (zlen buf)) (Some f) base fw)
    = Ret true (WriteStream buf (Some 0) (Some f) (u32 (base + zlen buf)) (fw ++ [(base, buf)]))).
  { unfold Jpeg_WriteStreamToFile. erewrite bind_Ret by reflexivity. cbv beta. cbn [write_file_func write_ptr write_buf write_file_size].
    destruct (Z.gtb_spec (zlen buf) 0); [|lia]. replace (Z.to_nat (zlen buf)) with (length buf) by (unfold zlen; lia).
    rewrite (take_ge buf) by done. cbv zeta. rewrite Hf. erewrite bind_Ret by reflexivity. unfold ret. rewrite Z.eqb_refl. done. }
  erewrite bind_Ret by exact E. cbn [negb]. destruct (Z.gtb_spec (zlen buf + 1) (zlen buf)); [done|lia].
Qed.

(** ** Concrete runs *)

Definition example_text : vec Z 256 := [# 79; 82; 70; 79; 88] +++ vreplicate 251 0.
Definition example_spec : EXIF_SPECIFIC_INFO_T :=
  SpecificInfo (SpecBasic 1 [# 1; 2; 3; 0] 640 480) None None None None None
    (Some (SpecPicTakingCond (Some (Rational 1 60)) None (Some 2) None (Some (Custom 0 ([# 100; 0] +++ vreplicate 254 0) 1 2))
       None None None None None None None None None None None None None None None None None None None None None None None None
       None None None None None None None None None None None)) None.
Definition example_info : JINF_EXIF_INFO_T :=
  ExifInfo (PrimaryInfo (PriBasic 1 (Rational 72 1) (Rational 72 1) 2 640 480) (Some (PriDataStruct (Some 1) None)) None
      (Some (PriDesc None None (Some example_text) (Some example_text) None None None)) 0)
    (Some example_spec) None (Some (InteroperabilityInfo (Some (Custom 0 ([# 82; 57; 56] +++ vreplicate 253 0) 4 4)))).

Lemma example_text_terminated : terminated example_text.
Proof. apply (bool_decide_eq_true_1 (0 ∈ mem_bytes example_text)). vm_compute. reflexivity. Qed.

Lemma example_valid : valid_info example_info.
Proof.
  pose proof example_text_terminated. split.
  - split; cbn; [lia..|by split].
  - split; cbn; [|done|done]. by split.
  - done.
  - cbn. by split.
Qed.

Lemma bytes_replicate n b : byte b -> bytes (replicate n b).
Proof. intros H. by apply Forall_replicate. Qed.
Lemma app1_read_back_witness : exists n buf' seg,
  Jpeg_WriteAPP1 true (Some example_info) [255; 216; 255; 217] (replicate (Z.to_nat 21508) 0) = Ret (JPEG_SUCCESS, Some n) buf' /\
  18 <= n <= app1_room [255; 216; 255; 217] /\ zlen buf' = zlen (replicate (Z.to_nat 21508) 0) /\
  slice buf' 0 n = Some seg /\ forall rest, read_app1 (seg ++ rest) = Some (exif_content example_info [255; 216; 255; 217]).
Proof.
  apply (app1_read_back example_info [255; 216; 255; 217] (replicate (Z.to_nat 21508) 0));
    [exact example_valid|by_bytes|rewrite zlen_replicate by lia; unfold app1_room; change (zlen [255; 216; 255; 217]) with 4; lia|rewrite zlen_replicate by lia; lia|unfold app1_room; change (zlen [255; 216; 255; 217]) with 4; lia].
Defined.

Lemma app1_length_wraps_witness : exists n m buf',
  Jpeg_WriteAPP1 true (Some example_info) (replicate (Z.to_nat 70000) 255) (replicate (Z.to_nat 91504) 0) = Ret (JPEG_SUCCESS, Some m) buf' /\
  (forall buf2, same_on 10 n buf' buf2 -> read_tiff buf2 10 = Some (exif_content example_info (replicate (Z.to_nat 70000) 255))) /\
  zlen (replicate (Z.to_nat 70000) 255) <= n /\ 2 <= m <= 65537 /\ (n mod 65536 < 2 \/ m = n mod 65536).
Proof.
  apply (app1_length_wraps example_info (replicate (Z.to_nat 70000) 255) (replicate (Z.to_nat 91504) 0));
    [exact example_valid|by apply bytes_replicate|unfold app1_room; rewrite !zlen_replicate by lia; lia|rewrite zlen_replicate by lia; lia|
     rewrite zlen_replicate by lia; lia].
Defined.

Definition example_param : JINF_WEXIF_IN_PARAM_T :=
  WExifInParam (Some example_info) (Some 20000) 4 [255; 216; 255; 217] true true None.
Definition example_buffers : wexif :=
  WExif (replicate (Z.to_nat 21508) 0) (replicate (Z.to_nat 20000) 0 ++ [255; 216; 255; 217]) [].

Lemma has_app_r (a b : list Z) : has (a ++ b) (zlen a) b.
Proof.
  assert (H : has (a ++ b) 0 (a ++ b)) by by split.
  apply has_app in H as [_ H]. exact H.
Qed.
Lemma example_slice : slice (target example_buffers) 20000 4 = Some [255; 216; 255; 217].
Proof.
  apply (has_slice _ _ [255; 216; 255; 217]). unfold example_buffers. cbn [target].
  replace 20000 with (zlen (replicate (Z.to_nat 20000) 0)) by (rewrite zlen_replicate by lia; reflexivity).
  apply (has_app_r (replicate (Z.to_nat 20000) 0) [255; 216; 255; 217]).
Qed.

Lemma WriteExif_inserts_segment_witness : exists n seg s', zlen seg = n /\
  (forall rest, read_app1 (seg ++ rest) = Some (exif_content example_info [255; 216; 255; 217])) /\
  IMGJPEG_WriteExif (Some example_param) example_buffers = Ret (JINF_SUCCESS, Some (20000 - n, n + 4)) s' /\
  slice (target s') (20000 - n) (n + 4) = Some ([0xFF; 0xD8] ++ seg ++ drop 2 [255; 216; 255; 217]) /\
  forall k, k < 20000 - n \/ 20000 + 2 <= k -> aget (target s') k = aget (target example_buffers) k.
Proof.
  apply (WriteExif_inserts_segment example_param example_info 20000 [255; 216; 255; 217] example_buffers);
    [reflexivity..|exact example_valid|by_bytes| |reflexivity|discriminate| |exact example_slice|discriminate].
  - unfold example_buffers. cbn [temp_buf]. rewrite zlen_replicate by lia. reflexivity.
  - unfold example_buffers. cbn [target]. rewrite zlen_app, zlen_replicate by lia. reflexivity.
Defined.

Definition example_write (o : Z) (d : list Z) : bool * Z := (true, zlen d).
Definition example_file_param : JINF_WEXIF_IN_PARAM_T :=
  WExifInParam (Some example_info) (Some 20000) 4 [255; 216; 255; 217] true false (Some example_write).

Lemma WriteExif_writes_file_witness : exists n seg s', zlen seg = n /\
  (forall rest, read_app1 (seg ++ rest) = Some (exif_content example_info [255; 216; 255; 217])) /\
  IMGJPEG_WriteExif (Some example_file_param) example_buffers = Ret (JINF_SUCCESS, None) s' /\
  target s' = target example_buffers /\
  file s' = file example_buffers ++ [(0, [0xFF; 0xD8]); (2, seg); (2 + n, drop 2 [255; 216; 255; 217])].
Proof.
  apply (WriteExif_writes_file example_file_param example_info example_write 20000 [255; 216; 255; 217] example_buffers);
    [reflexivity..|exact example_valid|by_bytes| |reflexivity|exact example_slice|done].
  unfold example_buffers. cbn [temp_buf]. rewrite zlen_replicate by lia. reflexivity.
Defined.

Lemma FormatDateTime_fits_witness :
  IMGJPEG_FormatDateTime (Date 2013 7 9) (Time 8 5 59) (replicate 20 0)
    = Ret JINF_SUCCESS (date_time_string (Date 2013 7 9) (Time 8 5 59) ++ [0]) /\
  IMGJPEG_FormatDateTime (Date 10000 7 9) (Time 8 5 59) (replicate 20 0) = Bad OutOfBounds.
Proof.
  split; (rewrite FormatDateTime_fits; [reflexivity|unfold date_time_range; cbn; lia|reflexivity]).
Defined.
