(* ===== verification/ExifSafety.v ===== *)
(** * The EXIF writer on a buffer of any size

    Every function of ExifWriter.v that writes through the stream stays in
    the buffer, also when the buffer is too small and a write fails. *)
From stdpp Require Import base list vector.
From Stdlib Require Import ZArith Lia.
From S2P Require Import Prelude ExifTypes ExifStream ExifWriter ExifProofs ExifDirProofs ExifTables ExifReadProofs.

(** ** The stream *)

Section safety.
Context (n : Z).

(** A stream on a buffer of [n] bytes in memory. *)
Definition stream_ok (s : JPEG_WRITE_STREAM_CONTEXT_T) : Prop :=
  write_file_func s = None /\ zlen (write_buf s) = n /\ exists p, write_ptr s = Some p /\ 0 <= p <= n.

(** From such a stream [m] raises no fault and leaves such a stream, whether
    it completes, then with a result in [Q], or fails. *)
Definition safe {A} (m : M JPEG_WRITE_STREAM_CONTEXT_T A) (Q : A -> Prop) : Prop :=
  forall s, stream_ok s -> wp no_fault m (fun a s' => stream_ok s' /\ Q a) stream_ok s.

Lemma safe_ret {A} (a : A) (Q : A -> Prop) : Q a -> safe (ret a) Q.
Proof. intros Ha s Hs. by apply wp_ret. Qed.

Lemma safe_bind {A B} (m : M JPEG_WRITE_STREAM_CONTEXT_T A) (k : A -> M JPEG_WRITE_STREAM_CONTEXT_T B) Q R :
  safe m Q -> (forall a, Q a -> safe (k a) R) -> safe (bind m k) R.
Proof.
  intros Hm Hk s Hs. apply wp_bind. eapply wp_mono; [by apply Hm| |done]. intros a s' [Hs' Ha]. by apply Hk.
Qed.

Lemma safe_weaken {A} (m : M JPEG_WRITE_STREAM_CONTEXT_T A) (Q R : A -> Prop) : safe m Q -> (forall a, Q a -> R a) -> safe m R.
Proof. intros Hm HQ s Hs. eapply wp_mono; [by apply Hm| |done]. intros a s' [Hs' Ha]. auto. Qed.

Lemma safe_lift {A} f (o : option A) (Q : A -> Prop) : is_Some o -> (forall a, o = Some a -> Q a) -> safe (lift f o) Q.
Proof. intros [a ->] HQ s Hs. apply wp_lift; [|done]. intros x [= <-]. auto. Qed.

Lemma safe_require b : safe (require b) (fun _ => True).
Proof. intros s Hs. by apply wp_require. Qed.

Lemma safe_succeeds {A} (m : M JPEG_WRITE_STREAM_CONTEXT_T A) Q : safe m Q -> safe (succeeds m) (fun _ => True).
Proof. intros Hm s Hs. apply wp_succeeds. eapply wp_mono; [by apply Hm| |done]. by intros a s' [Hs' _]. Qed.

Lemma safe_forM {A} (l : list A) body :
  (forall x, x ∈ l -> safe (body x) (fun _ => True)) -> safe (forM l body) (fun _ => True).
Proof.
  induction l as [|x l IH]; intros Hb; cbn [forM]; [by apply safe_ret|].
  eapply safe_bind; [apply Hb; left|]. intros [] _. apply IH. intros y Hy. apply Hb. by right.
Qed.

Lemma safe_upto k body : (forall j, 0 <= j < k -> safe (body j) (fun _ => True)) -> safe (forM (upto (Z.to_nat k)) body) (fun _ => True).
Proof.
  intros Hb. apply safe_forM. intros x Hx. unfold upto in Hx. apply list_elem_of_fmap in Hx as (j & -> & Hj).
  apply elem_of_seq in Hj. apply Hb. lia.
Qed.

Lemma SetWritePos_safe o : 0 <= o -> safe (Jpeg_SetWritePos o) (fun _ => True).
Proof.
  intros Ho s (Hf & Hn & p & Hp & Hr). unfold Jpeg_SetWritePos, wp, bind, get. rewrite Hf. unfold write_buf_size.
  rewrite Hn. destruct (Z.gtb_spec o n); cbn; (split; [|done]); split; cbn; try done; (split; [done|]).
  - by exists p.
  - exists o. split; [done|lia].
Qed.

Lemma GetWritePos_safe : safe Jpeg_GetWritePos (fun p => 0 <= p).
Proof.
  intros s Hs. pose proof Hs as (Hf & Hn & p & Hp & Hr). unfold Jpeg_GetWritePos, wp, bind, get, ret. rewrite Hf, Hp.
  split; [done|]. destruct ((p >=? 0) && _); lia.
Qed.

Lemma poke_safe s p c : stream_ok s -> write_ptr s = Some p -> p < n ->
  exists s', poke c s = Ret tt s' /\ stream_ok s' /\ write_ptr s' = Some (p + 1).
Proof.
  intros (Hf & Hn & q & Hq & Hr) Hp Hlt. rewrite Hp in Hq. injection Hq as <-. unfold poke, bind, get, lift. rewrite Hp.
  rewrite aset_Some by lia. eexists. split; [reflexivity|]. split; [|done]. split; [done|]. cbn.
  split; [unfold zlen in *; by rewrite length_insert|]. exists (p + 1). split; [done|lia].
Qed.

Lemma WriteC_safe c : safe (Jpeg_WriteC c) (fun _ => True).
Proof.
  intros s Hs. pose proof Hs as (Hf & Hn & p & Hp & Hr). unfold Jpeg_WriteC, wp.
  erewrite bind_Ret by reflexivity. cbv beta. rewrite Hp. erewrite bind_Ret by reflexivity. cbv beta zeta.
  cbn [default]. unfold id, write_buf_size. rewrite Hn. destruct (Z.geb_spec p n).
  - assert (Ef : Jpeg_WriteStreamToFile s = Ret false s) by (unfold Jpeg_WriteStreamToFile, bind, get; by rewrite Hf).
    by erewrite bind_Ret by exact Ef.
  - erewrite bind_Ret by reflexivity. cbn [negb]. destruct (Z.gtb_spec (p + 1) n); [lia|].
    destruct (poke_safe s p (u8 c) Hs Hp) as (s' & E & Hs' & _); [lia|]. by erewrite bind_Ret by exact E.
Qed.

Lemma WriteW_safe w : safe (Jpeg_WriteW w) (fun _ => True).
Proof.
  eapply safe_bind; [apply WriteC_safe|]. intros [] _; [apply WriteC_safe|by apply safe_ret].
Qed.

Lemma WriteL_safe l : safe (Jpeg_WriteL l) (fun _ => True).
Proof.
  intros s Hs. pose proof Hs as (Hf & Hn & p & Hp & Hr). unfold Jpeg_WriteL, wp. erewrite bind_Ret by reflexivity. cbv beta.
  rewrite Hp. unfold write_buf_size. rewrite Hn. destruct (Z.gtb_spec (p + 4) n); [done|].
  destruct (poke_safe s p (u8 (Z.shiftr l 24)) Hs Hp) as (s1 & E1 & Hs1 & Hp1); [lia|]. erewrite bind_Ret by exact E1.
  destruct (poke_safe s1 _ (u8 (Z.shiftr l 16)) Hs1 Hp1) as (s2 & E2 & Hs2 & Hp2); [lia|]. erewrite bind_Ret by exact E2.
  destruct (poke_safe s2 _ (u8 (Z.shiftr l 8)) Hs2 Hp2) as (s3 & E3 & Hs3 & Hp3); [lia|]. erewrite bind_Ret by exact E3.
  destruct (poke_safe s3 _ (u8 l) Hs3 Hp3) as (s4 & E4 & Hs4 & Hp4); [lia|]. by erewrite bind_Ret by exact E4.
Qed.

Lemma write_all_safe bs : safe (write_all bs) (fun _ => True).
Proof.
  induction bs as [|b bs IH]; cbn [write_all]; [by apply safe_ret|].
  eapply safe_bind; [apply WriteC_safe|]. intros [] _; [exact IH|by apply safe_ret].
Qed.

Lemma WriteBlock_safe bs : safe (Jpeg_WriteBlock bs) (fun _ => True).
Proof.
  intros s Hs. unfold Jpeg_WriteBlock, wp. erewrite bind_Ret by reflexivity. cbv beta.
  pose proof Hs as (_ & _ & p & -> & _). by apply write_all_safe.
Qed.

Lemma checked_safe m : safe m (fun _ => True) -> safe (checked m) (fun _ => True).
Proof. intros Hm. eapply safe_bind; [exact Hm|]. intros b _. apply safe_require. Qed.
End safety.

Create HintDb exif_safe.
#[export] Hint Resolve SetWritePos_safe GetWritePos_safe WriteC_safe WriteW_safe WriteL_safe WriteBlock_safe checked_safe safe_require : exif_safe.
Ltac step := eapply safe_bind; [solve [eauto with exif_safe]|intros ? ?; cbv beta in *].

(** ** Directories *)

Definition both (r : Z * Z) : Prop := 0 <= r.1 /\ 0 <= r.2.
Definition cursor_ok (c : cursor) : Prop := 0 <= ifd_offset c /\ 0 <= ifd_value_offset c.

Lemma align_nonneg p : 0 <= JPEG_ALIGN_4 p.
Proof. unfold JPEG_ALIGN_4. pose proof (u32_range (Z.shiftl (Z.shiftr (u32 (p + 3)) 2) 2)). lia. Qed.
#[export] Hint Resolve align_nonneg : exif_safe.
#[export] Hint Extern 2 (0 <= _) => (discriminate || assumption) : exif_safe.

Section writers.
Context (n : Z).

Lemma offset_value_is_Some i : zlen (value_offset i) = 4 -> is_Some (offset_value i).
Proof.
  intros Hz. destruct (value_offset i) as [|a [|b [|c [|d [|] ] ] ] ] eqn:E; unfold zlen in Hz; cbn in Hz; try lia.
  unfold offset_value, load32, load16. rewrite E. repeat case_match; by eexists.
Qed.

Lemma write_header_safe i io : zlen (value_offset i) = 4 -> 0 <= io -> safe n (write_header i io) (fun p => 0 <= p).
Proof.
  intros Hz Hio. unfold write_header, Jpeg_WriteIFD. step. eapply (safe_bind _ _ _ (fun _ => True)).
  { step. step. step. eapply (safe_bind _ _ _ (fun _ => True)); [apply safe_lift; [by apply offset_value_is_Some|done]|]. eauto with exif_safe. }
  intros _ _. auto with exif_safe.
Qed.

Lemma aligned_pos_safe : safe n aligned_pos (fun p => 0 <= p).
Proof. unfold aligned_pos. step. apply safe_ret. apply align_nonneg. Qed.

(** A loop that reads and writes one number at a time. *)
Lemma loop_safe {A} k (ld : Z -> option A) w : (forall j, 0 <= j < k -> is_Some (ld j)) ->
  (forall v, safe n (w v) (fun _ => True)) ->
  safe n (forM (upto (Z.to_nat k)) (fun j => v <- lift OutOfBounds (ld j) ;; checked (w v))) (fun _ => True).
Proof.
  intros Hld Hw. apply safe_upto. intros j Hj. eapply (safe_bind _ _ _ (fun _ => True)).
  - apply safe_lift; [by apply Hld|done].
  - intros v _. by apply checked_safe.
Qed.

(** The end of the two writers that look at the failure of their loops. *)
Lemma loop_end_safe (m : M JPEG_WRITE_STREAM_CONTEXT_T unit) io vo no : safe n m (fun _ => True) -> 0 <= io -> 0 <= vo -> 0 <= no ->
  safe n (checked (Jpeg_SetWritePos vo) ;;; ok <- succeeds m ;;
    if negb ok then ret (io, vo) else vo <- aligned_pos ;; ret (no, vo)) both.
Proof.
  intros Hm Hio Hvo Hno. step. eapply safe_bind; [by eapply safe_succeeds|]. intros [] _; cbn [negb]; [|by apply safe_ret].
  eapply safe_bind; [apply aligned_pos_safe|]. intros e He. by apply safe_ret.
Qed.

Lemma write_ifd_safe w i e io vo :
  described i e -> suits w i -> zlen (value_offset i) = 4 -> 0 <= io -> 0 <= vo -> safe n (write_ifd w i io vo) both.
Proof.
  intros Hd Hw Hz Hio Hvo. pose proof (d_count _ _ Hd) as Hc. pose proof (d_bytes _ _ Hd) as Hb.
  destruct w; cbn [suits write_ifd] in *.
  - destruct (bytes_value i e Hd Hw) as [_ Hl]. unfold Jpeg_WriteByteIFD.
    eapply (safe_bind _ _ _ (fun j => zlen (value_offset j) = 4 /\ value_ptr j = value_ptr i /\ count j = count i)).
    { destruct (Z.leb_spec (count i) 4); [|by apply safe_ret].
      assert (Hcp : copy_bytes (count i) i = Some (take (Z.to_nat (count i)) (value_ptr i) ++ drop (Z.to_nat (count i)) (value_offset i))).
      { unfold copy_bytes. rewrite (proj2 (Z.eqb_eq _ _)); [done|]. unfold zlen in *. rewrite length_take. lia. }
      eapply safe_bind; [apply (safe_lift _ _ _ (fun u => zlen u = 4)); [by eexists|]|intros u Hu; by apply safe_ret].
      intros u E. rewrite Hcp in E. injection E as <-. rewrite zlen_app. unfold zlen in *. rewrite length_take, length_drop. lia. }
    intros j (Hj & Hjp & Hjc). eapply safe_bind; [by apply write_header_safe|]. intros no Hno. cbv beta in Hno.
    destruct (count j >? 4); [|by apply safe_ret]. apply loop_end_safe; [|done..]. rewrite Hjp, Hjc.
    apply (loop_safe (count i) (aget (value_ptr i)) Jpeg_WriteC); [intros k Hk; apply aget_is_Some; lia|intros; apply WriteC_safe].
  - unfold Jpeg_WriteShortIFD.
    assert (Hld : forall k, 0 <= k < count i -> is_Some (load16 (value_ptr i) (2 * k))).
    { destruct Hw as [Hty|(Hty & Hc1 & _)].
      - intros k Hk. destruct (proj2 (short_image i e Hd Hty) k Hk) as (v & -> & _). by eexists.
      - intros k Hk. rewrite Hc1 in Hk. replace (2 * k) with 0 by lia. destruct (long_image i e Hd Hty Hc1) as (v & E & _).
        unfold load32 in E. unfold load16. destruct (aget (value_ptr i) 0); [|done]. rewrite !obind_Some in E |- *.
        destruct (aget (value_ptr i) (0 + 1)); [|done]. by eexists. }
    eapply (safe_bind _ _ _ (fun j => zlen (value_offset j) = 4 /\ value_ptr j = value_ptr i /\ count j = count i)).
    { destruct (Z.leb_spec (count i) 2); [|by apply safe_ret].
      eapply (safe_bind _ _ _ (fun _ => True)); [apply safe_lift; [apply (Hld 0); lia|done]|]. intros s0 _.
      eapply (safe_bind _ _ _ (fun _ => True)); [|intros s1 _; by apply safe_ret].
      destruct (Z.eqb_spec (count i) 2); [|by apply safe_ret]. apply safe_lift; [apply (Hld 1); lia|done]. }
    intros j (Hj & Hjp & Hjc). eapply safe_bind; [by apply write_header_safe|]. intros no Hno. cbv beta in Hno.
    destruct (count j >? 2); [|by apply safe_ret]. apply loop_end_safe; [|done..]. rewrite Hjp, Hjc.
    apply (loop_safe (count i) (fun k => load16 (value_ptr i) (2 * k)) Jpeg_WriteW); [done|intros; apply WriteW_safe].
  - destruct Hw as [Hty Hc1]. destruct (long_image i e Hd Hty Hc1) as (v & E & _). unfold Jpeg_WriteLongIFD.
    rewrite Hc1. change (1 <=? 1) with true. cbv iota. rewrite E.
    eapply (safe_bind _ _ _ (fun j => j = set_value_offset (le32 v) i)).
    { eapply (safe_bind _ _ _ (fun x => x = v)); [by apply safe_lift; [by eexists|intros x [= <-] ]|]. intros x ->. by apply safe_ret. }
    intros j ->. eapply safe_bind; [by apply write_header_safe|]. intros no Hno. cbn [count set_value_offset]. rewrite Hc1.
    by apply safe_ret.
  - unfold Jpeg_WriteRationalIFD. eapply safe_bind; [by apply write_header_safe|]. intros no Hno. cbv beta in Hno. step.
    assert (Hsz : elem_size (type i) = 4).
    { unfold is_rational in Hw. apply orb_true_iff in Hw as [->%Z.eqb_eq| ->%Z.eqb_eq]; done. }
    assert (Hm : elem_count (type i) (count i) = 2 * count i) by (unfold elem_count; by rewrite Hw).
    eapply (safe_bind _ _ _ (fun _ => True)); [|intros _ _; eapply safe_bind; [apply aligned_pos_safe|intros; by apply safe_ret] ].
    apply safe_upto. intros k Hk. rewrite !load32_le by done.
    destruct (load_value i e Hd (2 * k)) as [v Hv]; [lia|]. destruct (load_value i e Hd (2 * k + 1)) as [u Hu]; [lia|].
    rewrite Hsz in Hv, Hu. replace (8 * k) with (4 * (2 * k)) by lia. replace (4 * (2 * k) + 4) with (4 * (2 * k + 1)) by lia.
    rewrite Hv, Hu. eapply (safe_bind _ _ _ (fun _ => True)); [by apply safe_lift; [by eexists|]|]. intros x _. step.
    eapply (safe_bind _ _ _ (fun _ => True)); [by apply safe_lift; [by eexists|]|]. intros y _. eauto with exif_safe.
Qed.
End writers.

Section directories.
Context (n ifh : Z).
Abbreviation safe := (safe n).

Lemma begin_ifd_safe m b : 0 <= b -> safe (begin_ifd m b) cursor_ok.
Proof. intros Hb. unfold begin_ifd. step. step. step. apply safe_ret. split; cbn; [done|apply align_nonneg]. Qed.

Lemma write_field_safe f e c : storable f e -> cursor_ok c -> safe (write_field ifh f c) cursor_ok.
Proof.
  intros Hf [Hio Hvo]. destruct (storable_info ifh (ifd_value_offset c) f e Hf) as (k & Hk & Hd & Hs & _).
  unfold write_field. rewrite Hk. eapply (safe_bind _ _ _ (fun x => x = k)); [by apply safe_lift; [by eexists|intros x [= <-] ]|].
  intros x ->. eapply safe_bind; [by eapply write_ifd_safe|]. intros r Hr. by apply safe_ret.
Qed.

Lemma write_fields_safe fs es c : Forall2 storable fs es -> cursor_ok c -> safe (write_fields ifh fs c) cursor_ok.
Proof.
  intros H. revert c. induction H as [|f e fs es Hf _ IH]; intros c Hc; cbn [write_fields]; [by apply safe_ret|].
  eapply safe_bind; [by eapply write_field_safe|]. intros c' Hc'. by apply IH.
Qed.

Lemma end_ifd_safe next b c : 0 <= b -> cursor_ok c -> safe (end_ifd next b c) (fun p => 0 <= p).
Proof. intros Hb [Hio Hvo]. unfold end_ifd. step. step. step. step. by apply safe_ret. Qed.

Lemma pointer_long_safe t v io vo : 0 <= t < 65536 -> 0 <= io -> 0 <= vo ->
  safe (Jpeg_WriteLongIFD (IFD t EXIF_LONG 1 (le32 (u32 v)) (le32 (u32 v))) io vo) both.
Proof.
  intros Ht Hio Hvo. eapply (write_ifd_safe n w_long); [apply described_pointer; [done|apply u32_range]|done..].
Qed.

Lemma write_pointer_safe t sub c : 0 <= t < 65536 -> (forall b, 0 <= b -> safe (sub b) (fun p => 0 <= p)) ->
  cursor_ok c -> safe (write_pointer ifh t sub c) cursor_ok.
Proof.
  intros Ht Hsub [Hio Hvo]. unfold write_pointer. cbv zeta.
  eapply safe_bind; [apply pointer_long_safe; [done|done|apply align_nonneg]|]. intros r [Hr1 Hr2].
  eapply safe_bind; [by apply Hsub|]. intros e He. by apply safe_ret.
Qed.

Lemma plain_dir_safe rows m k b : table_ok rows m k -> 0 <= b ->
  safe (c <- begin_ifd m b ;; c <- write_fields ifh (omap id rows) c ;; end_ifd 0 b c) (fun p => 0 <= p).
Proof.
  intros [(es & Hes & _) _ _] Hb. eapply safe_bind; [by apply begin_ifd_safe|]. intros c Hc.
  eapply safe_bind; [by eapply write_fields_safe|]. intros c' Hc'. by apply end_ifd_safe.
Qed.

Lemma optional_safe {A} (o : option A) (P : A -> Prop) (w : A -> Z -> M JPEG_WRITE_STREAM_CONTEXT_T Z) t c :
  of_valid P o -> (forall a b, P a -> 0 <= b -> safe (w a b) (fun p => 0 <= p)) -> 0 <= t < 65536 -> cursor_ok c ->
  safe (match o with Some a => write_pointer ifh t (w a) c | None => ret c end) cursor_ok.
Proof.
  intros Ho Hw Ht Hc. destruct o as [a|]; [|by apply safe_ret]. apply write_pointer_safe; [done| |done].
  intros b Hb. by apply Hw.
Qed.

Lemma spec_safe sp inter b : valid_spec sp ->
  of_valid (fun n => of_valid (custom_fits 1) (InteroperabilityIndex n)) inter -> 0 <= b ->
  safe (Jpeg_WriteExifSpecInfo sp inter ifh b) (fun p => 0 <= p).
Proof.
  intros Hsp Hin Hb. destruct (spec_1_ok sp Hsp) as [(es1 & H1 & _) _ _]. destruct (spec_2_ok sp Hsp) as [(es2 & H2 & _) _ _].
  unfold Jpeg_WriteExifSpecInfo. eapply safe_bind; [by apply begin_ifd_safe|]. intros c1 Hc1.
  eapply safe_bind; [by eapply write_fields_safe|]. intros c2 Hc2.
  eapply safe_bind; [eapply (optional_safe inter _ (fun i => Jpeg_WriteExifInteroperabilityInfo i ifh)); [exact Hin| |done|done]|].
  { intros i b' Hi Hb'. by apply (plain_dir_safe _ 1 259), Hb'; apply inter_ok. }
  intros c3 Hc3. eapply safe_bind; [by eapply write_fields_safe|]. intros c4 Hc4. by apply end_ifd_safe.
Qed.

Lemma image_safe p sp g inter th is_next b : valid_primary p -> of_valid valid_spec sp -> of_valid valid_gps g ->
  of_valid (fun n => of_valid (custom_fits 1) (InteroperabilityIndex n)) inter -> zlen th < 4294967296 -> 0 <= b ->
  safe (Jpeg_WriteExifIFD p sp g inter th is_next ifh b) (fun p => 0 <= p).
Proof.
  intros Hp Hsp Hg Hin Hth Hb. destruct (primary_12_ok p Hp) as [(es1 & H1 & _) _ _].
  destruct (primary_picture_ok p Hp) as [(es2 & H2 & _) _ _].
  pose proof (thumbnail_fields_storable th Hth) as H3. unfold Jpeg_WriteExifIFD.
  eapply safe_bind; [by apply begin_ifd_safe|]. intros c1 Hc1.
  eapply safe_bind; [by eapply write_fields_safe|]. intros c2 Hc2. cbv zeta.
  eapply safe_bind; [by eapply write_fields_safe|]. intros c3 Hc3.
  eapply safe_bind; [by eapply write_fields_safe|]. intros c4 Hc4.
  eapply safe_bind; [eapply (optional_safe sp valid_spec (fun sp => Jpeg_WriteExifSpecInfo sp inter ifh)); [done| |done|done]|].
  { intros a b' Ha Hb'. by apply spec_safe. }
  intros c5 Hc5. eapply safe_bind; [eapply (optional_safe g valid_gps (fun g => Jpeg_WriteExifGPSInfo g ifh)); [done| |done|done]|].
  { intros a b' Ha Hb'. by apply (plain_dir_safe _ 31 1700), Hb'; apply gps_ok. }
  intros c6 Hc6. eapply (safe_bind _ _ _ cursor_ok); [|intros c7 Hc7; by apply end_ifd_safe].
  destruct Hc2 as [Hio2 _]. destruct Hc6 as [Hio6 Hvo6]. unfold write_thumbnail. destruct (zlen th >? 0); [|by apply safe_ret]. cbv zeta.
  step. step. step. step. eapply safe_bind; [by apply pointer_long_safe|]. intros r [_ Hr]. by apply safe_ret.
Qed.

End directories.

Lemma body_safe n i th : valid_info i -> zlen th < 4294967296 -> safe n (WriteAPP1_body i th) (fun _ => True).
Proof.
  intros [Hp Hsp Hg Hin] Hth. unfold WriteAPP1_body. cbv zeta.
  eapply (safe_bind _ _ _ (fun p => 0 <= p)); [unfold Jpeg_WriteIFH; step; step; step; step; apply GetWritePos_safe|]. intros b Hb.
  eapply safe_bind; [by apply image_safe|]. intros e He.
  eapply (safe_bind _ _ _ (fun p => 0 <= p)); [destruct (zlen th >? 0); [apply image_safe; try done; apply ifd1_valid|by apply safe_ret]|].
  intros e' He'. eapply (safe_bind _ _ _ (fun _ => True)); [|intros; by apply safe_ret].
  unfold Jpeg_WriteAPP1Header. step. step. step. step. eapply (safe_bind _ _ _ (fun _ => True)).
  - apply safe_forM. intros c _. eauto with exif_safe.
  - intros _ _. eapply safe_weaken; [apply GetWritePos_safe|done].
Qed.

(** C29: Jpeg_WriteAPP1 (exif_writer.c) on valid structs (strings that end
    within their arrays, counts within their bounds: valid_info), a thumbnail
    of less than 4 GiB, and for a target buffer of any size, one too small
    included: it returns, with success or an error code, and has accessed no
    byte outside the buffer, the structs and the thumbnail; the length of the
    segment is set exactly when the code is JPEG_SUCCESS. Success does not say
    that every entry was written: an entry for which there was no room is
    dropped without an error (exif_writer.c:297). *)
Theorem WriteAPP1_in_bounds target i th buf : valid_info i -> zlen th < 4294967296 ->
  exists code size buf', Jpeg_WriteAPP1 target (Some i) th buf = Ret (code, size) buf' /\ zlen buf' = zlen buf /\
    (code = JPEG_SUCCESS <-> is_Some size).
Proof.
  intros Hi Hth. unfold Jpeg_WriteAPP1. erewrite bind_Ret by reflexivity. cbv beta.
  destruct (negb target || (zlen buf <? 10)) eqn:E.
  { eexists _, _, _. split; [reflexivity|]. split; [done|]. split; [done|by intros [? ?] ]. }
  apply orb_false_iff in E as [_ E%Z.ltb_ge]. unfold zoom, code_of.
  assert (Hs : stream_ok (zlen buf) (WriteStream buf (Some 0) None 0 [])).
  { split; [done|]. split; [done|]. exists 0. split; [done|lia]. }
  pose proof (body_safe (zlen buf) i th Hi Hth _ Hs) as Hw. unfold wp in Hw.
  destruct (WriteAPP1_body i th _) as [a s|s|f]; [|..|done].
  - destruct Hw as [(_ & Hz & _) _]. eexists _, _, _. split; [reflexivity|]. done.
  - destruct Hw as (_ & Hz & _). eexists _, _, _. split; [reflexivity|]. split; [done|]. split; [done|by intros [? ?] ].
Qed.

Lemma WriteAPP1_in_bounds_witness : exists code size buf',
  Jpeg_WriteAPP1 true (Some (ExifInfo ifd1_primary None None None)) [1; 2; 3] (replicate 40 0) = Ret (code, size) buf' /\
  zlen buf' = zlen (replicate 40 0) /\ (code = JPEG_SUCCESS <-> is_Some size).
Proof.
  apply (WriteAPP1_in_bounds true (ExifInfo ifd1_primary None None None) [1; 2; 3] (replicate 40 0)); [|reflexivity].
  split; [exact ifd1_valid|exact I|exact I|exact I].
Defined.
