(* ===== verification/NvDaemon.v ===== *)
(** * The NV daemon

    src/common/apps/nvm_daemon/nvitem.c: the daemon that stores the modem's
    non-volatile items. It reads requests from a pipe and keeps each kind of
    data in two copies, in partitions (CONFIG_EMMC) or files. What is on the
    disk is kept with what may still be there after a power failure: the
    contents since the last [fsync]. *)
From stdpp Require Import base list.
From Stdlib Require Import ZArith Lia.
From S2P Require Import Prelude Crc.

(** ** Definitions *)

Definition DATA_BUF_LEN : Z := 2048 * 10.
Definition FIXNV_SIZE : Z := 64 * 1024.
Definition RUNTIMENV_SIZE : Z := 256 * 1024.
Definition PRODUCTINFO_SIZE : Z := 3 * 1024.

(** The paths, which depend on CONFIG_EMMC. *)
Inductive nv_file := FIX_NV1 | FIX_NV2 | RUNTIME_NV1 | RUNTIME_NV2 | PROD_INFO1 | PROD_INFO2.

#[export] Instance nv_file_eq_dec : EqDecision nv_file.
Proof. solve_decision. Defined.

(** The content of a file, and its older contents since the last [fsync]. *)
Record stored := Stored {
  content : list Z;
  older : list (list Z)
}.

(** What [read] on the pipe gets: bytes (none: the modem has restarted), or
    an error. *)
Inductive pipe_event :=
  | PipeData (bs : list Z)
  | PipeErr (r : Z).

(** The state of the process and of what it talks to. [opens] says which of
    the next calls of [open] succeed (all, when it is used up), [writes] how
    many bytes the next calls of [write] on a file take (all, when it is used
    up); [history] is every state the disk has been in; [replies] what was
    written to the pipe; [reboots] counts calls of [check_mocor_reboot]. *)
Record nvitemd := NvItemd {
  disk : nv_file -> stored;
  history : list (nv_file -> stored);
  opens : list bool;
  writes : list Z;
  pipe : list pipe_event;
  replies : list (list Z);
  reboots : nat;
  req_header : list Z;
  fixnv_buffer : list Z;
  fixnv_buffer_offset : Z;
  phasecheck_buffer : list Z;
  phasecheck_buffer_offset : Z;
  indexvalue : Z;
  update_finxn_flag : bool
}.

Definition set_env (o : list bool) (w : list Z) (p : list pipe_event) (s : nvitemd) : nvitemd :=
  NvItemd (disk s) (history s) o w p (replies s) (reboots s) (req_header s) (fixnv_buffer s) (fixnv_buffer_offset s)
    (phasecheck_buffer s) (phasecheck_buffer_offset s) (indexvalue s) (update_finxn_flag s).
Definition set_disk (d : nv_file -> stored) (s : nvitemd) : nvitemd :=
  NvItemd d (history s ++ [d]) (opens s) (writes s) (pipe s) (replies s) (reboots s) (req_header s) (fixnv_buffer s)
    (fixnv_buffer_offset s) (phasecheck_buffer s) (phasecheck_buffer_offset s) (indexvalue s) (update_finxn_flag s).
Definition set_header (h : list Z) (s : nvitemd) : nvitemd :=
  NvItemd (disk s) (history s) (opens s) (writes s) (pipe s) (replies s) (reboots s) h (fixnv_buffer s)
    (fixnv_buffer_offset s) (phasecheck_buffer s) (phasecheck_buffer_offset s) (indexvalue s) (update_finxn_flag s).
Definition set_fixnv (b : list Z) (o : Z) (s : nvitemd) : nvitemd :=
  NvItemd (disk s) (history s) (opens s) (writes s) (pipe s) (replies s) (reboots s) (req_header s) b o
    (phasecheck_buffer s) (phasecheck_buffer_offset s) (indexvalue s) (update_finxn_flag s).
Definition set_phasecheck (b : list Z) (o : Z) (s : nvitemd) : nvitemd :=
  NvItemd (disk s) (history s) (opens s) (writes s) (pipe s) (replies s) (reboots s) (req_header s) (fixnv_buffer s)
    (fixnv_buffer_offset s) b o (indexvalue s) (update_finxn_flag s).
Definition set_index (i : Z) (s : nvitemd) : nvitemd :=
  NvItemd (disk s) (history s) (opens s) (writes s) (pipe s) (replies s) (reboots s) (req_header s) (fixnv_buffer s)
    (fixnv_buffer_offset s) (phasecheck_buffer s) (phasecheck_buffer_offset s) i (update_finxn_flag s).
Definition set_flag (f : bool) (s : nvitemd) : nvitemd :=
  NvItemd (disk s) (history s) (opens s) (writes s) (pipe s) (replies s) (reboots s) (req_header s) (fixnv_buffer s)
    (fixnv_buffer_offset s) (phasecheck_buffer s) (phasecheck_buffer_offset s) (indexvalue s) f.
Definition add_reply (r : list Z) (s : nvitemd) : nvitemd :=
  NvItemd (disk s) (history s) (opens s) (writes s) (pipe s) (replies s ++ [r]) (reboots s) (req_header s) (fixnv_buffer s)
    (fixnv_buffer_offset s) (phasecheck_buffer s) (phasecheck_buffer_offset s) (indexvalue s) (update_finxn_flag s).

(** The check loads images into another processor; here it is counted. *)
Definition check_mocor_reboot : M nvitemd unit :=
  modify (fun s => NvItemd (disk s) (history s) (opens s) (writes s) (pipe s) (replies s) (S (reboots s)) (req_header s)
    (fixnv_buffer s) (fixnv_buffer_offset s) (phasecheck_buffer s) (phasecheck_buffer_offset s) (indexvalue s)
    (update_finxn_flag s)).

(** *** Files *)

(** The daemon ends with [exit(1)] when it cannot open a file. *)
Definition open_ok : M nvitemd bool :=
  s <- get ;;
  match opens s with
  | [] => ret true
  | b :: o => modify (set_env o (writes s) (pipe s)) ;;; ret b
  end.

Definition update (d : nv_file -> stored) (f : nv_file) (x : stored) : nv_file -> stored :=
  fun g => if decide (g = f) then x else d g.

(** [bs] at [pos], after a gap of zeros when that is past the end. *)
Definition pwrite (c : list Z) (pos : Z) (bs : list Z) : list Z :=
  if decide (bs = []) then c else
  take (Z.to_nat pos) c ++ replicate (Z.to_nat (pos - zlen c)) 0 ++ bs ++ drop (Z.to_nat (pos + zlen bs)) c.

Definition write_file (f : nv_file) (pos : Z) (bs : list Z) : M nvitemd Z :=
  s <- get ;;
  let r := match writes s with [] => zlen bs | r :: _ => Z.min r (zlen bs) end in
  modify (set_env (opens s) (drop 1 (writes s)) (pipe s)) ;;;
  (if r <=? 0 then ret tt else
   let old := disk s f in
   modify (set_disk (update (disk s) f (Stored (pwrite (content old) pos (take (Z.to_nat r) bs)) (content old :: older old))))) ;;;
  ret r.

Definition fsync (f : nv_file) : M nvitemd unit :=
  s <- get ;;
  modify (set_disk (update (disk s) f (Stored (content (disk s f)) []))).

(** [sync()] *)
Definition sync : M nvitemd unit :=
  s <- get ;;
  modify (set_disk (fun f => Stored (content (disk s f)) [])).

(** *** The pipe *)

(** [read(pipe_fd, buf, n)]: what it returns, and the bytes. The run is cut
    off where it would wait for more than the script has. *)
Definition read_pipe (n : Z) : M nvitemd (Z * list Z) :=
  s <- get ;;
  match pipe s with
  | [] => exit
  | PipeErr r :: p => modify (set_env (opens s) (writes s) p) ;;; ret (Z.min r (-1), [])
  | PipeData d :: p =>
      let bs := take (Z.to_nat n) d in
      modify (set_env (opens s) (writes s) (if zlen d <=? n then p else PipeData (drop (Z.to_nat n) d) :: p)) ;;;
      ret (zlen bs, bs)
  end.

(** *** Storing one kind of data *)

Section config.
(** CONFIG_EMMC, and the addresses of the two buffers. *)
Context (emmc : bool) (fixnv_addr phasecheck_addr : Z).

(** [memset] and [read] of a file into a buffer of [n] bytes. *)
Definition load_file (f : nv_file) (n len : Z) : M nvitemd (list Z) :=
  s <- get ;;
  let c := take (Z.to_nat len) (content (disk s f)) in
  ret (c ++ replicate (Z.to_nat n - length c) 0xff).

Definition update_fixnvfile (src : nv_file) (size : Z) : M nvitemd Z :=
  s <- get ;;
  sum <- lift OutOfBounds (calc_checksum fixnv_addr (fixnv_buffer s) (size - 4)) ;;
  b <- lift OutOfBounds (store (fixnv_buffer s) (size - 4) (le16 sum)) ;;
  b <- lift OutOfBounds (store b (size - 2) (le16 ((indexvalue s + 1) mod 100))) ;;
  b <- lift OutOfBounds (store b size [0x5a; 0x5a; 0x5a; 0x5a]) ;;
  modify (set_fixnv b (fixnv_buffer_offset s)) ;;;
  ok <- open_ok ;;
  if negb ok then ret (-1) else
  _ <- write_file src 0 (take (Z.to_nat (size + 4)) b) ;;
  fsync src ;;;
  ret 1.

Definition update_backupfile (dst : nv_file) (size : Z) : M nvitemd Z :=
  ok <- open_ok ;;
  if negb ok then ret (-1) else
  s <- get ;;
  _ <- write_file dst 0 (take (Z.to_nat (size + 4)) (fixnv_buffer s)) ;;
  fsync dst ;;;
  ret 1.

(** Both callers compare the number of bytes that were written only to log
    it. The big-endian bytes of the CRC are [be32]. *)
Definition write_copies (src dst : nv_file) (bs : list Z) : M nvitemd Z :=
  ok <- open_ok ;;
  if negb ok then ret (-1) else
  _ <- write_file src 0 bs ;;
  fsync src ;;;
  ok <- open_ok ;;
  if negb ok then ret (-1) else
  _ <- write_file dst 0 bs ;;
  fsync dst ;;;
  ret 1.

Definition update_productinfofile_emmc (src dst : nv_file) (size : Z) : M nvitemd Z :=
  if decide (src = dst) then ret (-1) else
  s <- get ;;
  b <- lift OutOfBounds (store (phasecheck_buffer s) size [0x5a; 0x5a; 0x5a; 0x5a]) ;;
  crc <- lift OutOfBounds (crc32b 0xffffffff (Some b) (size + 4)) ;;
  b <- lift OutOfBounds (store b (size + 4) (be32 crc)) ;;
  modify (set_phasecheck b (phasecheck_buffer_offset s)) ;;;
  write_copies src dst (take (Z.to_nat (size + 8)) b).

Definition update_productinfofile (src dst : nv_file) (size : Z) : M nvitemd Z :=
  if decide (src = dst) then ret (-1) else
  s <- get ;;
  sum <- lift OutOfBounds (calc_checksum phasecheck_addr (phasecheck_buffer s) size) ;;
  b <- lift OutOfBounds (store (phasecheck_buffer s) size (le16 sum)) ;;
  b <- lift OutOfBounds (store b (size + 2) (le16 ((indexvalue s + 1) mod 100))) ;;
  modify (set_phasecheck b (phasecheck_buffer_offset s)) ;;;
  write_copies src dst (take (Z.to_nat (size + 4)) b).

(** *** The main loop *)

(** [continue] or [goto reopen_vbpipe] *)
Inductive next := Continue | Reopen.

(** [lseek] on a file, whose offset is a signed 32-bit number: the position
    stays where it is when that is negative. *)
Definition seek (offset : Z) : Z := if s32 offset <? 0 then 0 else offset.

(** One piece of the request's data. [pos] and [bkpos] are the positions of the
    two files of the runtime data; the result says whether the piece is done
    with: when a [write] fails it is not counted, and lost. *)
Definition store_piece (length pos bkpos : Z) (bs : list Z) : M nvitemd (bool * Z * Z) :=
  if length =? RUNTIMENV_SIZE then
    w_cnt <- write_file RUNTIME_NV1 pos bs ;;
    if w_cnt <? 0 then ret (false, pos, bkpos) else
    bk_cnt <- write_file RUNTIME_NV2 bkpos bs ;;
    if bk_cnt <? 0 then ret (false, pos + w_cnt, bkpos) else
    ret (true, pos + w_cnt, bkpos + bk_cnt)
  else
    s <- get ;;
    (if length =? FIXNV_SIZE then
       b <- lift OutOfBounds (store (fixnv_buffer s) (fixnv_buffer_offset s) bs) ;;
       modify (set_fixnv b (u32 (fixnv_buffer_offset s + zlen bs)))
     else
       b <- lift OutOfBounds (store (phasecheck_buffer s) (phasecheck_buffer_offset s) bs) ;;
       modify (set_phasecheck b (u32 (phasecheck_buffer_offset s + zlen bs)))) ;;;
    ret (true, pos, bkpos).

(** [while (total > 0)]: pieces of at most [DATA_BUF_LEN] bytes. *)
Fixpoint data_loop (fuel : nat) (length total pos bkpos : Z) : M nvitemd next :=
  match fuel with
  | O => bad OutOfFuel
  | S fuel =>
      if total <=? 0 then ret Continue else
      r <- read_pipe (if total >? DATA_BUF_LEN then DATA_BUF_LEN else total) ;;
      let r_cnt := r.1 in
      if r_cnt =? 0 then check_mocor_reboot ;;; ret Reopen
      else if r_cnt <? 0 then data_loop fuel length total pos bkpos
      else
        x <- store_piece length pos bkpos r.2 ;;
        data_loop fuel length (if x.1.1 then total - r_cnt else total) x.1.2 x.2
  end.

(** Every round takes a byte or an event from the script. *)
Definition pipe_size (p : list pipe_event) : nat :=
  foldr (fun e n => match e with PipeData d => S (List.length d) | PipeErr _ => 1%nat end + n)%nat O p.

(** [exit(1)] *)
Definition open_or_exit : M nvitemd unit :=
  ok <- open_ok ;;
  require ok.

(** A request that is too big is only logged. *)
Definition begin_fixnv (offset : Z) : M nvitemd unit :=
  open_or_exit ;;;
  b <- load_file FIX_NV1 (FIXNV_SIZE + 4) (FIXNV_SIZE + 4) ;;
  i <- lift OutOfBounds (load16 b (FIXNV_SIZE - 2)) ;;
  modify (set_fixnv b offset) ;;;
  modify (set_index i).

Definition begin_productinfo (offset : Z) : M nvitemd unit :=
  open_or_exit ;;;
  b <- load_file PROD_INFO1 (PRODUCTINFO_SIZE + 8) (PRODUCTINFO_SIZE + (if emmc then 8 else 4)) ;;
  modify (set_phasecheck b offset) ;;;
  if emmc then ret tt else
  i <- lift OutOfBounds (load16 b (PRODUCTINFO_SIZE + 2)) ;;
  modify (set_index i).

Definition sync_command : M nvitemd unit :=
  s <- get ;;
  (if update_finxn_flag s then _ <- update_backupfile FIX_NV2 FIXNV_SIZE ;; ret tt else ret tt) ;;;
  modify (set_flag false) ;;;
  sync ;;;
  h <- lift OutOfBounds (store (req_header s) 0 (le16 0)) ;;
  modify (set_header h) ;;;
  modify (add_reply h).

Definition receive (length size offset : Z) : M nvitemd next :=
  s <- get ;;
  data_loop (S (pipe_size (pipe s))) length (s32 size) (seek offset) (seek offset).

Definition data_request (type offset size : Z) : M nvitemd next :=
  if type =? 0 then
    begin_fixnv offset ;;;
    nx <- receive FIXNV_SIZE size offset ;;
    match nx with
    | Reopen => ret Reopen
    | Continue =>
        modify (set_flag true) ;;;
        _ <- update_fixnvfile FIX_NV1 FIXNV_SIZE ;;
        ret Continue
    end
  else if type =? 1 then
    open_or_exit ;;;
    open_or_exit ;;;
    nx <- receive RUNTIMENV_SIZE size offset ;;
    match nx with
    | Reopen => ret Reopen
    | Continue => fsync RUNTIME_NV1 ;;; fsync RUNTIME_NV2 ;;; ret Continue
    end
  else if type =? 2 then
    begin_productinfo offset ;;;
    nx <- receive PRODUCTINFO_SIZE size offset ;;
    match nx with
    | Reopen => ret Reopen
    | Continue =>
        _ <- (if emmc then update_productinfofile_emmc PROD_INFO1 PROD_INFO2 PRODUCTINFO_SIZE
              else update_productinfofile PROD_INFO1 PROD_INFO2 PRODUCTINFO_SIZE) ;;
        ret Continue
    end
  else ret Continue.

(** [while (1)], one round; a short read leaves the rest of the header as it
    was. *)
Definition iteration : M nvitemd next :=
  r <- read_pipe 12 ;;
  s <- get ;;
  modify (set_header (r.2 ++ drop (length r.2) (req_header s))) ;;;
  if r.1 =? 0 then check_mocor_reboot ;;; ret Reopen
  else if r.1 <? 0 then ret Continue
  else
    s <- get ;;
    type <- lift OutOfBounds (load16 (req_header s) 0) ;;
    req_type <- lift OutOfBounds (load16 (req_header s) 2) ;;
    offset <- lift OutOfBounds (load32 (req_header s) 4) ;;
    size <- lift OutOfBounds (load32 (req_header s) 8) ;;
    if req_type =? 1 then sync_command ;;; ret Continue
    else data_request type offset size.

(** [rounds] of the loop; it ends when the pipe cannot be opened again. *)
Fixpoint main_loop (rounds : nat) : M nvitemd unit :=
  match rounds with
  | O => ret tt
  | S rounds =>
      nx <- iteration ;;
      (match nx with Reopen => open_or_exit | Continue => ret tt end) ;;;
      main_loop rounds
  end.
End config.
