(* ===== verification/NvProofs.v ===== *)
(** * What the NV daemon stores

    The copies of NvDaemon.v as abstract contents that a sequence of commands
    changes, the theorem that the daemon stores them however the pipe cuts
    the requests into pieces, and what is left of them after a power
    failure. *)
From stdpp Require Import base list.
From Stdlib Require Import ZArith Lia.
From S2P Require Import Prelude Crc NvDaemon.

(** ** Power failures *)

(** What a file may hold after one: each byte is that of one of its contents
    since the last [fsync]. *)
Definition possible (x : stored) (c : list Z) : Prop :=
  forall i, exists v, v ∈ content x :: older x /\ aget c i = aget v i.

Lemma possible_synced c c' : possible (Stored c []) c' -> c' = c.
Proof.
  intros H. apply aget_ext. intros i. destruct (H i) as (v & Hv & ->). cbn in Hv.
  by apply list_elem_of_singleton in Hv as ->.
Qed.

(** ** The formats of the copies *)

Definition magic : list Z := [0x5a; 0x5a; 0x5a; 0x5a].

(** 65532 bytes, their checksum, the index, and a mark. *)
Definition fixnv_valid (c : list Z) : bool :=
  match slice c 0 (FIXNV_SIZE - 4) with
  | Some data =>
      match calc_checksum 0 data (FIXNV_SIZE - 4) with
      | Some sum => bool_decide (slice c (FIXNV_SIZE - 4) 2 = Some (le16 sum) /\ slice c FIXNV_SIZE 4 = Some magic)
      | None => false
      end
  | None => false
  end.

(** 3072 bytes; with a mark and a CRC, or with a checksum and the index. *)
Definition productinfo_valid (emmc : bool) (c : list Z) : bool :=
  if emmc then
    match slice c 0 (PRODUCTINFO_SIZE + 4) with
    | Some data =>
        match crc32b 0xffffffff (Some data) (PRODUCTINFO_SIZE + 4) with
        | Some crc => bool_decide (slice c PRODUCTINFO_SIZE 4 = Some magic /\ slice c (PRODUCTINFO_SIZE + 4) 4 = Some (be32 crc))
        | None => false
        end
    | None => false
    end
  else
    match slice c 0 PRODUCTINFO_SIZE with
    | Some data =>
        match calc_checksum 0 data PRODUCTINFO_SIZE with
        | Some sum => bool_decide (slice c PRODUCTINFO_SIZE 2 = Some (le16 sum))
        | None => false
        end
    | None => false
    end.

(** ** The abstract contents *)

(** A file in a buffer of [n] bytes, of which [len] are read. *)
Definition loaded (n len : Z) (c : list Z) : list Z :=
  let c := take (Z.to_nat len) c in
  c ++ replicate (Z.to_nat n - length c) 0xff.

(** The halfword at [i]. *)
Definition halfword (b : list Z) (i : Z) : Z := default 0 (load16 b i).
Definition next_index (i : Z) : Z := (i + 1) mod 100.
(** The checksum of the first [len] bytes. *)
Definition sum_of (b : list Z) (len : Z) : Z := default 0 (calc_checksum 0 b len).

Definition fixnv_stamp (b : list Z) (index : Z) : list Z :=
  take (Z.to_nat (FIXNV_SIZE - 4)) b ++ le16 (sum_of b (FIXNV_SIZE - 4)) ++ le16 (next_index index) ++ magic.

(** What a request makes of the first copy. *)
Definition fixnv_update (c : list Z) (off : Z) (d : list Z) : list Z :=
  let b := loaded (FIXNV_SIZE + 4) (FIXNV_SIZE + 4) c in
  fixnv_stamp (put b off d) (halfword b (FIXNV_SIZE - 2)).

(** The block that a request makes of the buffer [b]. *)
Definition productinfo_stamp (emmc : bool) (b : list Z) (i : Z) : list Z :=
  let data := take (Z.to_nat PRODUCTINFO_SIZE) b in
  if emmc then data ++ magic ++ be32 (default 0 (crc32b 0xffffffff (Some (data ++ magic)) (PRODUCTINFO_SIZE + 4)))
  else data ++ le16 (sum_of data PRODUCTINFO_SIZE) ++ le16 (next_index i).

Definition productinfo_update (emmc : bool) (c : list Z) (off : Z) (d : list Z) : list Z :=
  let b := loaded (PRODUCTINFO_SIZE + 8) (PRODUCTINFO_SIZE + (if emmc then 8 else 4)) c in
  productinfo_stamp emmc (put b off d) (halfword b (PRODUCTINFO_SIZE + 2)).

Record nv := Nv {
  fix1 : list Z;
  fix2 : list Z;
  rt1 : list Z;
  rt2 : list Z;
  pi1 : list Z;
  pi2 : list Z;
  pending : bool
}.

Inductive command :=
  | Fixnv (off : Z) (d : list Z)
  | Runtimenv (off : Z) (d : list Z)
  | Productinfo (off : Z) (d : list Z)
  | Sync (offset size : Z).

(** The second copy of the fixed items is the first one as it is at the next
    sync command. *)
Definition nv_step (emmc : bool) (a : nv) (c : command) : nv :=
  match c with
  | Fixnv off d => Nv (pwrite (fix1 a) 0 (fixnv_update (fix1 a) off d)) (fix2 a) (rt1 a) (rt2 a) (pi1 a) (pi2 a) true
  | Runtimenv off d => Nv (fix1 a) (fix2 a) (pwrite (rt1 a) off d) (pwrite (rt2 a) off d) (pi1 a) (pi2 a) (pending a)
  | Productinfo off d =>
      let p := productinfo_update emmc (pi1 a) off d in
      Nv (fix1 a) (fix2 a) (rt1 a) (rt2 a) (pwrite (pi1 a) 0 p) (pwrite (pi2 a) 0 p) (pending a)
  | Sync _ _ =>
      if pending a then
        Nv (fix1 a) (pwrite (fix2 a) 0 (take (Z.to_nat (FIXNV_SIZE + 4)) (fix1 a))) (rt1 a) (rt2 a) (pi1 a) (pi2 a) false
      else a
  end.

Definition command_ok (c : command) : Prop :=
  match c with
  | Fixnv off d => 0 <= off /\ off + zlen d <= FIXNV_SIZE /\ bytes d
  | Runtimenv off d => 0 <= off /\ off + zlen d <= RUNTIMENV_SIZE /\ bytes d
  | Productinfo off d => 0 <= off /\ off + zlen d <= PRODUCTINFO_SIZE /\ bytes d
  | Sync o z => 0 <= o < 4294967296 /\ 0 <= z < 4294967296
  end.

(** ** The pipe *)

(** The data of a request in pieces, among which reads may fail. *)
Inductive chunks : list pipe_event -> list Z -> Prop :=
  | chunks_nil : chunks [] []
  | chunks_err r p d : d <> [] -> chunks p d -> chunks (PipeErr r :: p) d
  | chunks_data bs p d : bs <> [] -> chunks p d -> chunks (PipeData bs :: p) (bs ++ d).

Definition header (type req_type offset size : Z) : list Z := le16 type ++ le16 req_type ++ le32 offset ++ le32 size.

(** The commands, as the modem sends them: it may restart between them. *)
Inductive speaks : list command -> list pipe_event -> Prop :=
  | speaks_nil : speaks [] []
  | speaks_restart cs p : speaks cs p -> speaks cs (PipeData [] :: p)
  | speaks_err cs r p : speaks cs p -> speaks cs (PipeErr r :: p)
  | speaks_sync cs p t o z : 0 <= t < 65536 -> speaks cs p -> speaks (Sync o z :: cs) (PipeData (header t 1 o z) :: p)
  | speaks_fixnv cs p off d ch : chunks ch d -> speaks cs p ->
      speaks (Fixnv off d :: cs) (PipeData (header 0 0 off (zlen d)) :: ch ++ p)
  | speaks_runtimenv cs p off d ch : chunks ch d -> speaks cs p ->
      speaks (Runtimenv off d :: cs) (PipeData (header 1 0 off (zlen d)) :: ch ++ p)
  | speaks_productinfo cs p off d ch : chunks ch d -> speaks cs p ->
      speaks (Productinfo off d :: cs) (PipeData (header 2 0 off (zlen d)) :: ch ++ p).

(** ** Bytes of files *)

Lemma zlen_loaded n len c : 0 <= len <= n -> zlen (loaded n len c) = n.
Proof. intros H. unfold loaded, zlen. rewrite length_app, length_replicate, length_take. lia. Qed.

Lemma loaded_bytes n len c : bytes c -> bytes (loaded n len c).
Proof. intros H. apply Forall_app. split; [by apply Forall_take|]. apply Forall_replicate. unfold byte. lia. Qed.

Lemma pwrite_nil c o : pwrite c o [] = c.
Proof. done. Qed.

Lemma pwrite_0 c bs : pwrite c 0 bs = bs ++ drop (length bs) c.
Proof.
  unfold pwrite. pose proof (zlen_nonneg c). destruct (decide (bs = [])) as [->|]; [done|].
  replace (Z.to_nat (0 - zlen c)) with 0%nat by lia. cbn [take replicate app].
  by replace (Z.to_nat (0 + zlen bs)) with (length bs) by (unfold zlen; lia).
Qed.

(** The part before the written bytes. *)
Lemma pwrite_parts c o : 0 <= o ->
  exists pre, zlen pre = o /\ (forall bs', bs' <> [] -> pwrite c o bs' = pre ++ bs' ++ drop (Z.to_nat (o + zlen bs')) c).
Proof.
  intros Ho. exists (take (Z.to_nat o) c ++ replicate (Z.to_nat (o - zlen c)) 0). split.
  - unfold zlen. rewrite length_app, length_take, length_replicate. unfold zlen. lia.
  - intros bs' Hb'. unfold pwrite. rewrite decide_False by done. by rewrite <- app_assoc.
Qed.

(** Two writes, one after the other. *)
Lemma pwrite_pwrite c o a b : 0 <= o -> pwrite (pwrite c o a) (o + zlen a) b = pwrite c o (a ++ b).
Proof.
  intros Ho. destruct (decide (a = [])) as [->|Ha]; [by rewrite pwrite_nil, Z.add_0_r|].
  destruct (decide (b = [])) as [->|Hb]; [by rewrite app_nil_r|].
  destruct (pwrite_parts c o Ho) as (pre & Hpre & Hc). rewrite Hc by done.
  rewrite (Hc (a ++ b)) by (by destruct a). unfold pwrite. rewrite decide_False by done.
  assert (Hl : length (pre ++ a) = Z.to_nat (o + zlen a)) by (rewrite length_app; unfold zlen in *; lia).
  set (t := drop (Z.to_nat (o + zlen a)) c). pose proof (zlen_nonneg t). rewrite !(app_assoc pre a t).
  rewrite take_app_length' by done.
  replace (Z.to_nat (o + zlen a - _)) with 0%nat by (rewrite !zlen_app; lia).
  rewrite drop_app_ge by (rewrite Hl; unfold zlen; lia). unfold t. rewrite drop_drop, Hl, zlen_app.
  cbn [replicate app]. rewrite <- !app_assoc. do 4 f_equal. unfold zlen. lia.
Qed.

Lemma pwrite_bytes c bs : bytes c -> bytes bs -> bytes (pwrite c 0 bs).
Proof. intros. rewrite pwrite_0, bytes_app. split; [done|by apply Forall_drop]. Qed.

Lemma put_bytes b off d : bytes b -> bytes d -> bytes (put b off d).
Proof. intros Hb Hd. unfold put. rewrite !bytes_app. split; [by apply Forall_take|]. split; [done|by apply Forall_drop]. Qed.

(** ** The formats *)

Lemma FIXNV_SIZE_eq : FIXNV_SIZE = 65536.
Proof. done. Qed.
Lemma RUNTIMENV_SIZE_eq : RUNTIMENV_SIZE = 262144.
Proof. done. Qed.
Lemma PRODUCTINFO_SIZE_eq : PRODUCTINFO_SIZE = 3072.
Proof. done. Qed.
#[local] Opaque FIXNV_SIZE RUNTIMENV_SIZE PRODUCTINFO_SIZE.

(** Arithmetic on the sizes. *)
Ltac size_lia :=
  pose proof FIXNV_SIZE_eq; pose proof RUNTIMENV_SIZE_eq; pose proof PRODUCTINFO_SIZE_eq;
  unfold DATA_BUF_LEN, magic in *; rewrite ?zlen_app in *; len_lia.

Lemma slice_mid pre mid post o n : zlen pre = o -> zlen mid = n -> slice (pre ++ mid ++ post) o n = Some mid.
Proof.
  intros <- <-. unfold slice, zlen. rewrite !Nat2Z.id, drop_app_length, take_app_length.
  by rewrite (proj2 (Z.leb_le _ _)), Z.eqb_refl by lia.
Qed.

Lemma slice_first mid post n : zlen mid = n -> slice (mid ++ post) 0 n = Some mid.
Proof. apply (slice_mid [] mid post 0 n eq_refl). Qed.
Lemma slice_last pre mid o n : zlen pre = o -> zlen mid = n -> slice (pre ++ mid) o n = Some mid.
Proof. intros Ho Hn. rewrite <- (app_nil_r mid) at 1. by apply slice_mid. Qed.

(** What is inside the written bytes. *)
Lemma slice_pwrite c bs o n : 0 <= o -> 0 <= n -> o + n <= zlen bs -> slice (pwrite c 0 bs) o n = slice bs o n.
Proof.
  intros Ho Hn Hl. rewrite pwrite_0. unfold slice. unfold zlen in Hl.
  by rewrite drop_app_le, take_app_le by (rewrite ?length_drop; lia).
Qed.

Lemma slice_take c m o n : 0 <= o -> 0 <= n -> o + n <= m -> slice (take (Z.to_nat m) c) o n = slice c o n.
Proof.
  intros Ho Hn Hl. unfold slice. rewrite skipn_firstn_comm, take_take.
  by replace (Z.to_nat n `min` (Z.to_nat m - Z.to_nat o))%nat with (Z.to_nat n) by lia.
Qed.

Lemma calc_checksum_take addr b len : addr mod 2 = 0 -> 0 <= len <= zlen b ->
  calc_checksum addr b len = Some (sum_of b len) /\ calc_checksum 0 (take (Z.to_nat len) b) len = Some (sum_of b len).
Proof.
  intros Ha Hl. unfold sum_of. rewrite !calc_checksum_sum by done.
  assert (E : byte_sum b len 0 = byte_sum (take (Z.to_nat len) b) len 0).
  { rewrite <- (take_drop (Z.to_nat len) b) at 1. eapply byte_sum_app; [done|].
    unfold zlen in *. rewrite length_take. lia. }
  rewrite <- E. destruct (byte_sum_is_Some _ b len 0 (le_n _) Hl) as [x ->]. done.
Qed.

Lemma sum_of_take b len n : 0 <= len <= n -> len <= zlen b -> sum_of (take (Z.to_nat n) b) len = sum_of b len.
Proof.
  intros Hl Hb. assert (Hz : 0 <= len <= zlen (take (Z.to_nat n) b)) by (unfold zlen in *; rewrite length_take; lia).
  destruct (calc_checksum_take 0 b len) as [_ H1]; [done|lia|].
  destruct (calc_checksum_take 0 _ len eq_refl Hz) as [_ H2].
  rewrite take_take, Nat.min_l in H2 by lia. congruence.
Qed.

Lemma zlen_take (b : list Z) n : 0 <= n <= zlen b -> zlen (take (Z.to_nat n) b) = n.
Proof. unfold zlen. rewrite length_take. lia. Qed.

Lemma zlen_stamp b i : FIXNV_SIZE - 4 <= zlen b -> zlen (fixnv_stamp b i) = FIXNV_SIZE + 4.
Proof. intros H. unfold fixnv_stamp. rewrite !zlen_app, zlen_take by size_lia. size_lia. Qed.

Lemma fixnv_valid_stamp c b i : FIXNV_SIZE - 4 <= zlen b -> fixnv_valid (pwrite c 0 (fixnv_stamp b i)) = true.
Proof.
  intros H. pose proof (zlen_stamp b i H) as Hz. unfold fixnv_valid. rewrite !slice_pwrite by size_lia.
  pose proof (zlen_take b (FIXNV_SIZE - 4) ltac:(size_lia)) as Ht.
  unfold fixnv_stamp. rewrite slice_first by done.
  destruct (calc_checksum_take 0 b (FIXNV_SIZE - 4)) as [_ ->]; [done|size_lia|].
  apply bool_decide_eq_true_2. split.
  - apply slice_mid; [done|size_lia].
  - rewrite !app_assoc. apply slice_last; [|done]. rewrite !zlen_app, Ht. size_lia.
Qed.

Lemma slice_fits c i n bs : 0 < n -> slice c i n = Some bs -> i + n <= zlen c.
Proof. intros Hn (-> & Hi & Hl)%slice_Some. unfold zlen in *. rewrite length_take, length_drop in Hl. lia. Qed.

Lemma fixnv_valid_length c : fixnv_valid c = true -> FIXNV_SIZE + 4 <= zlen c.
Proof.
  unfold fixnv_valid. destruct (slice c 0 _) as [data|]; [|done]. destruct (calc_checksum _ _ _); [|done].
  intros [_ H%slice_fits]%bool_decide_eq_true; lia.
Qed.

(** A copy of the first copy's block. *)
Lemma fixnv_valid_copy c c' :
  fixnv_valid c' = true -> fixnv_valid (pwrite c 0 (take (Z.to_nat (FIXNV_SIZE + 4)) c')) = true.
Proof.
  intros H. pose proof (fixnv_valid_length c' H) as Hl. pose proof (zlen_take c' (FIXNV_SIZE + 4) ltac:(size_lia)).
  revert H. unfold fixnv_valid. rewrite !slice_pwrite, !slice_take by size_lia. done.
Qed.

Lemma crc32b_take b len : bytes b -> 0 <= len <= zlen b ->
  exists crc, crc32b 0xffffffff (Some b) len = Some crc /\ crc32b 0xffffffff (Some (take (Z.to_nat len) b)) len = Some crc.
Proof.
  intros Hb Hl. eexists. rewrite !crc32b_ref_spec.
  - split; [done|]. by rewrite take_take, Nat.min_id.
  - done.
  - by apply Forall_take.
  - rewrite zlen_take by lia. lia.
  - done.
  - done.
  - lia.
Qed.

Lemma zlen_productinfo_stamp emmc b i : PRODUCTINFO_SIZE <= zlen b ->
  zlen (productinfo_stamp emmc b i) = PRODUCTINFO_SIZE + if emmc then 8 else 4.
Proof. intros H. unfold productinfo_stamp. destruct emmc; rewrite !zlen_app, zlen_take by size_lia; size_lia. Qed.

Lemma productinfo_valid_stamp emmc c b i : bytes b -> PRODUCTINFO_SIZE <= zlen b ->
  productinfo_valid emmc (pwrite c 0 (productinfo_stamp emmc b i)) = true.
Proof.
  intros Hb H. pose proof (zlen_productinfo_stamp emmc b i H) as Hz.
  pose proof (zlen_take b PRODUCTINFO_SIZE ltac:(size_lia)) as Ht. unfold productinfo_valid.
  destruct emmc; rewrite !slice_pwrite by size_lia; unfold productinfo_stamp; cbv zeta.
  - assert (Hm : zlen (take (Z.to_nat PRODUCTINFO_SIZE) b ++ magic) = PRODUCTINFO_SIZE + 4) by (rewrite zlen_app, Ht; size_lia).
    destruct (crc32b_take (take (Z.to_nat PRODUCTINFO_SIZE) b ++ magic) (PRODUCTINFO_SIZE + 4)) as (crc & Hc & _).
    { apply bytes_app. split; [by apply Forall_take|by_bytes]. }
    { size_lia. }
    rewrite app_assoc, slice_first, Hc by done. apply bool_decide_eq_true_2. split.
    + rewrite <- app_assoc. by apply slice_mid.
    + by apply slice_last.
  - rewrite slice_first by done. rewrite sum_of_take by size_lia.
    destruct (calc_checksum_take 0 b PRODUCTINFO_SIZE) as [_ ->]; [done|size_lia|].
    apply bool_decide_eq_true_2. by apply slice_mid.
Qed.

(** ** What every command keeps *)

Definition nv_content (a : nv) (f : nv_file) : list Z :=
  match f with
  | FIX_NV1 => fix1 a | FIX_NV2 => fix2 a
  | RUNTIME_NV1 => rt1 a | RUNTIME_NV2 => rt2 a
  | PROD_INFO1 => pi1 a | PROD_INFO2 => pi2 a
  end.

(** The copies that are in nobody's way are valid. *)
Record nv_ok (emmc : bool) (a : nv) : Prop := {
  ok_fix2 : fixnv_valid (fix2 a) = true;
  ok_fix1 : pending a = true -> fixnv_valid (fix1 a) = true;
  ok_pi2 : productinfo_valid emmc (pi2 a) = true;
  ok_pi1_bytes : bytes (pi1 a)
}.

Lemma productinfo_buffer (emmc : bool) c off d : bytes c -> command_ok (Productinfo off d) ->
  let b := put (loaded (PRODUCTINFO_SIZE + 8) (PRODUCTINFO_SIZE + (if emmc then 8 else 4)) c) off d in
  bytes b /\ zlen b = PRODUCTINFO_SIZE + 8.
Proof.
  intros Hc (Ho & Hd & Hb). cbv zeta.
  assert (Hz : zlen (loaded (PRODUCTINFO_SIZE + 8) (PRODUCTINFO_SIZE + (if emmc then 8 else 4)) c) = PRODUCTINFO_SIZE + 8)
    by (apply zlen_loaded; destruct emmc; size_lia).
  split; [|rewrite zlen_put; lia]. apply put_bytes; [by apply loaded_bytes|done].
Qed.

Lemma fixnv_buffer_size c off d : command_ok (Fixnv off d) ->
  zlen (put (loaded (FIXNV_SIZE + 4) (FIXNV_SIZE + 4) c) off d) = FIXNV_SIZE + 4.
Proof. intros (Ho & Hd & Hb). assert (H := zlen_loaded (FIXNV_SIZE + 4) (FIXNV_SIZE + 4) c ltac:(size_lia)). rewrite zlen_put; lia. Qed.

Lemma stamp_bytes (emmc : bool) b i : bytes b -> bytes (productinfo_stamp emmc b i).
Proof.
  intros H. unfold productinfo_stamp. assert (bytes magic) by by_bytes.
  destruct emmc; rewrite !bytes_app; (split; [by apply Forall_take|split; auto with cint]).
Qed.

(** A valid set of copies stays one. *)
Lemma nv_step_ok emmc a c : command_ok c -> nv_ok emmc a -> nv_ok emmc (nv_step emmc a c).
Proof.
  intros Hc [H2 H1 Hp Hb]. destruct c as [off d|off d|off d|o z]; cbn [nv_step].
  - constructor; cbn [fix1 fix2 rt1 rt2 pi1 pi2 pending]; [done| |done|done]. intros _. unfold fixnv_update. apply fixnv_valid_stamp.
    rewrite fixnv_buffer_size by done. size_lia.
  - by constructor.
  - destruct (productinfo_buffer emmc (pi1 a) off d Hb Hc) as [Hbb Hz].
    constructor; cbn [fix1 fix2 rt1 rt2 pi1 pi2 pending]; [done|done| |].
    + unfold productinfo_update. apply productinfo_valid_stamp; [done|size_lia].
    + unfold productinfo_update. apply pwrite_bytes; [done|by apply stamp_bytes].
  - destruct (pending a) eqn:E; [|exact (Build_nv_ok emmc a H2 (fun e => H1 (eq_trans (eq_sym E) e)) Hp Hb)]. constructor; cbn [fix1 fix2 rt1 rt2 pi1 pi2 pending]; [|discriminate|exact Hp|exact Hb].
    apply fixnv_valid_copy, H1. reflexivity.
Qed.

(** ** What the disk is worth after a power failure *)

(** Whatever a failure leaves of it, one of the two copies of the fixed items
    and one of those of the product data is valid. *)
Definition safe (emmc : bool) (d : nv_file -> stored) : Prop :=
  ((forall c, possible (d FIX_NV1) c -> fixnv_valid c = true) \/
   (forall c, possible (d FIX_NV2) c -> fixnv_valid c = true)) /\
  ((forall c, possible (d PROD_INFO1) c -> productinfo_valid emmc c = true) \/
   (forall c, possible (d PROD_INFO2) c -> productinfo_valid emmc c = true)).

Lemma safe_intro emmc d f g c c' :
  f = FIX_NV1 \/ f = FIX_NV2 -> g = PROD_INFO1 \/ g = PROD_INFO2 ->
  d f = Stored c [] -> d g = Stored c' [] -> fixnv_valid c = true -> productinfo_valid emmc c' = true -> safe emmc d.
Proof.
  intros Hf Hg Ef Eg Hc Hc'. split.
  - destruct Hf as [-> | ->]; [left|right]; rewrite Ef; by intros x ->%possible_synced.
  - destruct Hg as [-> | ->]; [left|right]; rewrite Eg; by intros x ->%possible_synced.
Qed.

(** ** The data of a request *)

Definition set_pipe (p : list pipe_event) (s : nvitemd) : nvitemd := set_env (opens s) (writes s) p s.

Lemma chunks_empty ch : chunks ch [] -> ch = [].
Proof. inversion 1 as [|r p d Hd|bs p d Hbs Hp E]; [done|done|]. by destruct bs. Qed.

Lemma pipe_size_app p q : pipe_size (p ++ q) = (pipe_size p + pipe_size q)%nat.
Proof. induction p as [|e p IH]; [done|]. unfold pipe_size in *. cbn [app foldr]. rewrite IH. destruct e; lia. Qed.

Lemma pipe_size_err r p : pipe_size (PipeErr r :: p) = S (pipe_size p).
Proof. done. Qed.
Lemma pipe_size_data d p : pipe_size (PipeData d :: p) = S (length d + pipe_size p).
Proof. done. Qed.

(** [read] gets an error or the next bytes. *)
Lemma wp_read_chunk F ch d p n s (Q : Z * list Z -> nvitemd -> Prop) E :
  chunks ch d -> d <> [] -> pipe s = ch ++ p -> 0 < n ->
  (forall r ch', r < 0 -> chunks ch' d -> (pipe_size ch' < pipe_size ch)%nat -> Q (r, []) (set_pipe (ch' ++ p) s)) ->
  (forall bs d' ch', bs <> [] -> d = bs ++ d' -> chunks ch' d' -> (pipe_size ch' < pipe_size ch)%nat ->
     Q (zlen bs, bs) (set_pipe (ch' ++ p) s)) ->
  wp F (read_pipe n) Q E s.
Proof.
  intros Hch Hd Hp Hn He Hq. unfold read_pipe. wp_step. wp_step.
  destruct Hch as [|r ch d _ Hch|bs ch d Hbs Hch]; [done| |]; rewrite Hp; cbn [app].
  - wp_step. wp_step. wp_step. apply He; [lia|done|rewrite pipe_size_err; lia].
  - wp_step. wp_step. wp_step. assert (Hl : (0 < length bs)%nat) by (destruct bs; [done|cbn; lia]).
    destruct (Z.leb_spec (zlen bs) n).
    + rewrite (take_ge bs) by (unfold zlen in *; lia). apply (Hq bs d ch); [done|done|done|rewrite pipe_size_data; lia].
    + apply (Hq (take (Z.to_nat n) bs) (drop (Z.to_nat n) bs ++ d) (PipeData (drop (Z.to_nat n) bs) :: ch)).
      * intros E0%(f_equal length). rewrite length_take in E0. cbn in E0. unfold zlen in *. lia.
      * by rewrite app_assoc, take_drop.
      * apply chunks_data; [|done]. intros E0%(f_equal length). rewrite length_drop in E0. cbn in E0. unfold zlen in *. lia.
      * rewrite !pipe_size_data, length_drop. unfold zlen in *. lia.
Qed.

(** The loop takes all the data, when every piece is stored as [I] says, which
    follows what has been taken. *)
Section data_loop.
Context (length : Z) (d0 : list Z) (I : list Z -> Z -> Z -> nvitemd -> Prop).
Hypothesis I_piece : forall x bs y pos bk s E, d0 = x ++ bs ++ y -> bs <> [] -> I x pos bk s ->
  wp no_fault (store_piece length pos bk bs)
    (fun r s' => r.1.1 = true /\ pipe s' = pipe s /\ I (x ++ bs) r.1.2 r.2 s') E s.
Hypothesis I_pipe : forall x pos bk s q, I x pos bk s -> I x pos bk (set_pipe q s).

Lemma wp_data_loop fuel x d ch p pos bk s E :
  d0 = x ++ d -> chunks ch d -> pipe s = ch ++ p -> (pipe_size ch < fuel)%nat -> I x pos bk s ->
  wp no_fault (data_loop fuel length (zlen d) pos bk)
    (fun nx s' => nx = Continue /\ pipe s' = p /\ exists pos' bk', I d0 pos' bk' s') E s.
Proof.
  revert x d ch pos bk s. induction fuel as [|fuel IH]; intros x d ch pos bk s Hd Hch Hp Hf HI; [lia|].
  cbn [data_loop]. destruct d as [|b d].
  { apply chunks_empty in Hch as ->. change (zlen (@nil Z)) with 0. rewrite Z.leb_refl. wp_step. rewrite app_nil_r in Hd. subst d0. eauto. }
  pose proof (zlen_nonneg d). rewrite (proj2 (Z.leb_gt _ _)) by (rewrite zlen_cons; lia). wp_step.
  eapply wp_read_chunk; [done|done|done| | |].
  - destruct (_ >? _); [done|]. rewrite zlen_cons. lia.
  - intros r ch' Hr Hch' Hl. cbn [fst snd]. rewrite (proj2 (Z.eqb_neq _ _)), (proj2 (Z.ltb_lt _ _)) by lia.
    eapply IH; [done|done|done|lia|by apply I_pipe].
  - intros bs d' ch' Hbs Hd' Hch' Hl. cbn [fst snd].
    assert (0 < zlen bs) by (destruct bs; [done|rewrite zlen_cons; pose proof (zlen_nonneg bs); lia]).
    rewrite (proj2 (Z.eqb_neq _ _)), (proj2 (Z.ltb_ge _ _)) by lia. wp_step.
    eapply wp_mono; [eapply (I_piece x bs d'); [by rewrite Hd, Hd'|done|by apply I_pipe]| |by intros s' Hs'; exact Hs'].
    intros [[ok pos'] bk'] s' (Hok & Hp' & HI'). cbn in Hok, HI' |- *. rewrite Hok.
    replace (zlen (b :: d) - zlen bs) with (zlen d') by (rewrite Hd', zlen_app; lia).
    eapply (IH (x ++ bs)); [by rewrite Hd, Hd', app_assoc|done|by rewrite Hp'|lia|done].
Qed.
End data_loop.

(** ** Steps of the daemon when no call fails *)

Lemma wp_open_ok F Q E s : opens s = [] -> Q true s -> wp F open_ok Q E s.
Proof. intros Ho HQ. unfold open_ok. wp_step. wp_step. by rewrite Ho. Qed.

Lemma wp_open_or_exit F Q E s : opens s = [] -> Q tt s -> wp F open_or_exit Q E s.
Proof. intros Ho HQ. unfold open_or_exit. wp_step. by apply wp_open_ok. Qed.

Definition written (x : stored) (pos : Z) (bs : list Z) : stored := Stored (pwrite (content x) pos bs) (content x :: older x).

Lemma wp_write_file F f pos bs Q E s : writes s = [] -> bs <> [] ->
  Q (zlen bs) (set_disk (update (disk s) f (written (disk s f) pos bs)) s) -> wp F (write_file f pos bs) Q E s.
Proof.
  intros Hw Hb HQ. unfold write_file. wp_step. wp_step. rewrite Hw. wp_step. wp_step. wp_step.
  assert (0 < zlen bs) by (destruct bs; [done|rewrite zlen_cons; pose proof (zlen_nonneg bs); lia]).
  rewrite (proj2 (Z.leb_gt _ _)) by done. wp_step. wp_step.
  rewrite take_ge by (unfold zlen; lia). destruct s; cbn in *. by subst.
Qed.

Lemma wp_fsync F f (Q : unit -> nvitemd -> Prop) E s :
  Q tt (set_disk (update (disk s) f (Stored (content (disk s f)) [])) s) -> wp F (fsync f) Q E s.
Proof. intros HQ. unfold fsync. wp_step. wp_step. by wp_step. Qed.

Lemma load16_halfword b i : 0 <= i -> i + 2 <= zlen b -> load16 b i = Some (halfword b i).
Proof.
  intros Hi Hl. unfold halfword, load16. destruct (aget_is_Some b i) as [x ->]; [lia|].
  destruct (aget_is_Some b (i + 1)) as [y ->]; [lia|]. done.
Qed.

(** *** The header of a request *)

Lemma load16_app a l b x : load16 l a = Some x -> load16 (l ++ b) a = Some x.
Proof.
  unfold load16. destruct (aget l a) as [u|] eqn:E1; [|done]. destruct (aget l (a + 1)) as [v|] eqn:E2; [|done].
  pose proof (aget_range _ _ _ E1). pose proof (aget_range _ _ _ E2).
  rewrite !aget_app, !(proj2 (Z.ltb_lt _ _)) by lia. by rewrite E1, E2.
Qed.

Lemma header_loads t q o z :
  load16 (header t q o z) 0 = Some (u16 t) /\ load16 (header t q o z) 2 = Some (u16 q) /\
  load32 (header t q o z) 4 = Some (u32 o) /\ load32 (header t q o z) 8 = Some (u32 z).
Proof.
  assert (H16 : forall v, Z.lor (u8 v) (Z.shiftl (u8 (Z.shiftr v 8)) 8) = u16 v).
  { intros v. rewrite Z.lor_comm, lor_shiftl8 by apply u8_byte. rewrite shiftr8. wrap_lia. }
  assert (H32 : forall v, Z.lor (Z.lor (Z.lor (u8 v) (Z.shiftl (u8 (Z.shiftr v 8)) 8)) (Z.shiftl (u8 (Z.shiftr v 16)) 16))
    (Z.shiftl (u8 (Z.shiftr v 24)) 24) = u32 v).
  { intros v. rewrite H16, Z.lor_comm, (Z.lor_comm (u16 v)).
    rewrite (lor_shiftl _ (u16 v) 16) by (pose proof (u16_range v); lia).
    rewrite (lor_shiftl _ _ 24) by (pose proof (u16_range v); pose proof (u8_range (Z.shiftr v 16)); lia).
    rewrite shiftr16, shiftr24. wrap_lia. }
  rewrite <- !H16, <- !H32. repeat split.
Qed.

Lemma zlen_header t q o z : zlen (header t q o z) = 12.
Proof. done. Qed.

(** Reading a whole header. *)
Lemma wp_iteration F emmc fa pa t q o z p Q E s :
  pipe s = PipeData (header t q o z) :: p -> zlen (req_header s) = 12 ->
  0 <= t < 65536 -> 0 <= q < 65536 -> 0 <= o < 4294967296 -> 0 <= z < 4294967296 ->
  wp F (if q =? 1 then sync_command ;;; ret Continue else data_request emmc fa pa t o z) Q E
    (set_header (header t q o z) (set_pipe p s)) ->
  wp F (iteration emmc fa pa) Q E s.
Proof.
  intros Hp Hh Ht Hq Ho Hz HQ. unfold iteration. wp_step. unfold read_pipe. wp_step. wp_step. rewrite Hp.
  wp_step. wp_step. wp_step. rewrite zlen_header. change (12 <=? 12) with true. cbv iota.
  change (take (Z.to_nat 12) (header t q o z)) with (header t q o z). cbn [fst snd].
  rewrite zlen_header. change (12 =? 0) with false. change (12 <? 0) with false. cbv iota.
  wp_step. wp_step. wp_step. wp_step.
  rewrite drop_ge by (unfold zlen in Hh; change (length (header t q o z)) with 12%nat; cbn [req_header set_env]; lia).
  rewrite app_nil_r. destruct (header_loads t q o z) as (H1 & H2 & H3 & H4). wp_step. wp_step.
  wp_step. eapply wp_lift_Some; [exact H1|]. wp_step. eapply wp_lift_Some; [exact H2|].
  wp_step. eapply wp_lift_Some; [exact H3|]. wp_step. eapply wp_lift_Some; [exact H4|].
  rewrite !u16_small, !u32_small by done. exact HQ.
Qed.

(** ** Commands *)

(** The daemon between two requests, with the contents [a]. *)
Record holds (s : nvitemd) (a : nv) : Prop := {
  h_disk : forall f, disk s f = Stored (nv_content a f) [];
  h_opens : opens s = [];
  h_writes : writes s = [];
  h_flag : update_finxn_flag s = pending a;
  h_header : zlen (req_header s) = 12;
  h_buffer : pending a = true -> fixnv_buffer s = take (Z.to_nat (FIXNV_SIZE + 4)) (fix1 a)
}.

Definition answers (c : command) : list (list Z) :=
  match c with Sync o z => [header 0 1 o z] | _ => [] end.

(** Every state the disk was in on the way is safe. *)
Definition follows (emmc : bool) (s s' : nvitemd) : Prop :=
  exists h, history s' = history s ++ h /\ Forall (safe emmc) h.

Definition completed (emmc : bool) (s : nvitemd) (c : command) (a : nv) (p : list pipe_event) (s' : nvitemd) : Prop :=
  holds s' (nv_step emmc a c) /\ pipe s' = p /\ follows emmc s s' /\ replies s' = replies s ++ answers c.

Lemma update_eq d f x : update d f x f = x.
Proof. unfold update. by rewrite decide_True. Qed.
Lemma update_ne d f g x : g <> f -> update d f x g = d g.
Proof. intros. unfold update. by rewrite decide_False. Qed.

(** While the second copies are as they were, the disk is safe. *)
Lemma safe_seconds emmc a d : nv_ok emmc a ->
  d FIX_NV2 = Stored (fix2 a) [] -> d PROD_INFO2 = Stored (pi2 a) [] -> safe emmc d.
Proof.
  intros [H2 _ Hp _] E1 E2.
  apply (safe_intro emmc d FIX_NV2 PROD_INFO2 (fix2 a) (pi2 a)); [by right|by right|done|done|exact H2|exact Hp].
Qed.

(** A state of the disk one step before. *)
Lemma follows_refl emmc s : follows emmc s s.
Proof. exists []. by rewrite app_nil_r. Qed.
Lemma follows_step emmc s s' d : follows emmc s s' -> safe emmc d -> follows emmc s (set_disk d s').
Proof.
  intros (h & Hh & Hs) Hd. exists (h ++ [d]). cbn [history set_disk]. rewrite Hh, app_assoc. split; [done|].
  apply Forall_app. split; [done|]. by constructor.
Qed.

(** A block at the beginning of a file, and its [fsync]. *)
Definition block (f : nv_file) (bs : list Z) (s : nvitemd) : nvitemd :=
  let s1 := set_disk (update (disk s) f (written (disk s f) 0 bs)) s in
  set_disk (update (disk s1) f (Stored (content (disk s1 f)) [])) s1.

Lemma disk_block_eq f bs s : disk (block f bs s) f = Stored (pwrite (content (disk s f)) 0 bs) [].
Proof. unfold block. cbn [disk set_disk]. by rewrite !update_eq. Qed.
Lemma disk_block_ne f g bs s : g <> f -> disk (block f bs s) g = disk s g.
Proof. intros. unfold block. cbn [disk set_disk]. by rewrite !update_ne. Qed.

Lemma follows_block emmc s0 s f bs : follows emmc s0 s ->
  (forall d, (forall g, g <> f -> d g = disk s g) -> safe emmc d) -> follows emmc s0 (block f bs s).
Proof.
  intros Hs Hd. unfold block. apply follows_step; [apply follows_step; [done|]|]; apply Hd; intros g Hg;
    cbn [disk set_disk]; by rewrite !update_ne.
Qed.

Lemma wp_block {A} F f bs (k : M nvitemd A) Q E s : writes s = [] -> bs <> [] -> wp F k Q E (block f bs s) ->
  wp F (_ <- write_file f 0 bs ;; fsync f ;;; k) Q E s.
Proof. intros Hw Hb Hk. wp_step. apply wp_write_file; [done|done|]. wp_step. by apply wp_fsync. Qed.

Lemma holds_ext s s' a : holds s a -> disk s' = disk s -> opens s' = opens s -> writes s' = writes s ->
  update_finxn_flag s' = update_finxn_flag s -> zlen (req_header s') = 12 -> fixnv_buffer s' = fixnv_buffer s -> holds s' a.
Proof. intros [] E1 E2 E3 E4 E5 E6. constructor; by rewrite ?E1, ?E2, ?E3, ?E4, ?E5, ?E6. Qed.

(** The end of a sync command: everything is on the disk. *)
Lemma wp_sync_end emmc s0 s a t o z E :
  (forall f, disk s f = Stored (nv_content a f) []) -> opens s = [] -> writes s = [] -> pending a = false ->
  req_header s0 = header t 1 o z -> nv_ok emmc a -> follows emmc s0 s -> replies s = replies s0 ->
  wp no_fault (modify (set_flag false) ;;; sync ;;;
      h <- lift OutOfBounds (store (req_header s0) 0 (le16 0)) ;; modify (set_header h) ;;; modify (add_reply h))
    (fun _ s' => holds s' a /\ pipe s' = pipe s /\ follows emmc s0 s' /\ replies s' = replies s0 ++ [header 0 1 o z]) E s.
Proof.
  intros Hd Ho Hw Hp Hr Hok Hs Hrep. wp_step. wp_step. wp_step. unfold sync. wp_step. wp_step. wp_step.
  wp_step. eapply wp_lift_Some; [rewrite Hr; reflexivity|]. wp_step. wp_step. wp_step.
  change (le16 0 ++ _) with (header 0 1 o z). split_and!.
  - constructor; cbn [disk set_disk set_header add_reply set_flag opens writes update_finxn_flag req_header];
      [intros f; by rewrite Hd|done|done|done|done|]. rewrite Hp. discriminate.
  - done.
  - apply (follows_step emmc s0 s (fun f => Stored (content (disk s f)) [])) in Hs.
    + exact Hs.
    + apply (safe_seconds emmc a); [done|by rewrite Hd|by rewrite Hd].
  - cbn [replies add_reply set_header set_disk set_flag]. by rewrite Hrep.
Qed.

Lemma take_nonempty (b : list Z) n : 0 < n -> n <= zlen b -> take (Z.to_nat n) b <> [].
Proof. intros Hn Hl E%(f_equal zlen). rewrite zlen_take in E by lia. change (zlen (@nil Z)) with 0 in E. lia. Qed.

Lemma wp_sync_command emmc s a t o z E : holds s a -> nv_ok emmc a -> command_ok (Sync o z) -> req_header s = header t 1 o z ->
  wp no_fault (sync_command ;;; ret Continue) (fun nx s' => nx = Continue /\ completed emmc s (Sync o z) a (pipe s) s') E s.
Proof.
  intros [Hd Ho Hw Hf Hh Hb] Hok Hc Hr. pose proof (nv_step_ok emmc a (Sync o z) Hc Hok) as Hok'.
  unfold completed. cbn [nv_step] in *. unfold sync_command. wp_step. wp_step. wp_step. wp_step. rewrite Hf.
  destruct (pending a) eqn:Ep.
  - pose proof (fixnv_valid_length _ (ok_fix1 _ _ Hok Ep)) as Hl.
    wp_step. unfold update_backupfile. wp_step. apply wp_open_ok; [done|]. cbn [negb]. wp_step. wp_step.
    rewrite (Hb eq_refl), take_take, Nat.min_id.
    apply wp_block; [done|apply take_nonempty; size_lia|]. wp_step. wp_step.
    eapply wp_mono; [eapply (wp_sync_end emmc s); [|done|done| |done|exact Hok'| |]|intros ? s' H; wp_step; split; [done|exact H]|done].
    + intros [| | | | |]; rewrite ?disk_block_eq, ?disk_block_ne, Hd by done; done.
    + done.
    + apply follows_block; [apply follows_refl|]. intros d Hdf.
      apply (safe_intro emmc d FIX_NV1 PROD_INFO2 (fix1 a) (pi2 a));
        [by left|by right|by rewrite Hdf, Hd|by rewrite Hdf, Hd|exact (ok_fix1 _ _ Hok Ep)|apply Hok].
    + done.
  - wp_step. eapply wp_mono; [eapply (wp_sync_end emmc s s a t); [done|done|done|done|done|done|apply follows_refl|done]| |done].
    intros ? s' H. wp_step. split; [done|exact H].
Qed.

(** *** A request for the fixed items *)

Lemma wp_receive_fixnv off d ch p s b E :
  chunks ch d -> pipe s = ch ++ p -> 0 <= off -> off + zlen d <= FIXNV_SIZE -> zlen b = FIXNV_SIZE + 4 ->
  fixnv_buffer s = b -> fixnv_buffer_offset s = off ->
  wp no_fault (receive FIXNV_SIZE (zlen d) off)
    (fun nx s' => nx = Continue /\ s' = set_pipe p (set_fixnv (put b off d) (off + zlen d) s)) E s.
Proof.
  intros Hch Hp Ho Hd Hb Eb Eo. unfold receive. wp_step. wp_step. pose proof (zlen_nonneg d).
  replace (s32 (zlen d)) with (zlen d) by (pose proof FIXNV_SIZE_eq; wrap_lia).
  eapply wp_mono; [eapply (wp_data_loop FIXNV_SIZE d
    (fun x _ _ s' => s' = set_pipe (pipe s') (set_fixnv (put b off x) (off + zlen x) s))) with (x := []) (d := d) (ch := ch) (p := p);
    [| |reflexivity|exact Hch|exact Hp|rewrite Hp, pipe_size_app; lia|]| |].
  - intros x bs y pos bk s1 E' -> Hbs ->. pose proof (zlen_nonneg x). pose proof (zlen_nonneg y). pose proof (zlen_nonneg bs).
    rewrite !zlen_app in *. unfold store_piece. rewrite (proj2 (Z.eqb_neq FIXNV_SIZE RUNTIMENV_SIZE)) by size_lia.
    wp_step. wp_step. rewrite Z.eqb_refl. wp_step. wp_step. cbn [fixnv_buffer fixnv_buffer_offset set_pipe set_fixnv set_env].
    eapply wp_lift_Some; [apply store_ok; rewrite ?zlen_put; lia|]. wp_step. wp_step.
    rewrite put_put, u32_small by (pose proof FIXNV_SIZE_eq; lia). cbn [fst snd].
    split; [done|]. split; [done|]. by rewrite Z.add_assoc.
  - intros x pos bk s1 q ->. done.
  - rewrite put_nil by lia. change (zlen (@nil Z)) with 0. rewrite Z.add_0_r. destruct s; cbn in *. by subst.
  - intros nx s' (-> & <- & pos & bk & Hs'). split; [done|exact Hs'].
  - done.
Qed.

(** The stores of the checksum, the index and the mark. *)
Lemma stamp_put b sum index : zlen b = FIXNV_SIZE + 4 -> zlen sum = 2 -> zlen index = 2 ->
  put (put (put b (FIXNV_SIZE - 4) sum) (FIXNV_SIZE - 2) index) FIXNV_SIZE magic
  = take (Z.to_nat (FIXNV_SIZE - 4)) b ++ sum ++ index ++ magic.
Proof.
  intros Hb Hsum Hi. replace (FIXNV_SIZE - 2) with (FIXNV_SIZE - 4 + zlen sum) by lia. rewrite put_put by size_lia.
  pose proof (zlen_app sum index) as Hz. replace (put (put _ _ _) FIXNV_SIZE magic)
    with (put (put b (FIXNV_SIZE - 4) (sum ++ index)) (FIXNV_SIZE - 4 + zlen (sum ++ index)) magic) by (f_equal; lia).
  rewrite put_put by size_lia. unfold put. rewrite (drop_ge b) by size_lia. by rewrite app_nil_r, <- app_assoc.
Qed.

Lemma wp_update_fixnvfile fa b F (Q : Z -> nvitemd -> Prop) E s :
  fa mod 2 = 0 -> fixnv_buffer s = b -> zlen b = FIXNV_SIZE + 4 -> opens s = [] -> writes s = [] ->
  Q 1 (block FIX_NV1 (fixnv_stamp b (indexvalue s)) (set_fixnv (fixnv_stamp b (indexvalue s)) (fixnv_buffer_offset s) s)) ->
  wp F (update_fixnvfile fa FIX_NV1 FIXNV_SIZE) Q E s.
Proof.
  intros Hfa Eb Hb Ho Hw HQ. unfold update_fixnvfile. wp_step. wp_step. wp_step. rewrite Eb.
  eapply wp_lift_Some; [apply calc_checksum_take; [done|size_lia]|].
  wp_step. eapply wp_lift_Some; [apply store_ok; size_lia|].
  wp_step. eapply wp_lift_Some; [apply store_ok; rewrite ?zlen_put; size_lia|].
  wp_step. eapply wp_lift_Some; [apply store_ok; rewrite ?zlen_put; rewrite ?zlen_put; size_lia|].
  fold magic. fold (next_index (indexvalue s)). rewrite stamp_put by done. fold (fixnv_stamp b (indexvalue s)).
  wp_step. wp_step. wp_step. apply wp_open_ok; [done|]. cbn [negb].
  assert (Hz : zlen (fixnv_stamp b (indexvalue s)) = FIXNV_SIZE + 4) by (apply zlen_stamp; size_lia).
  rewrite take_ge by (unfold zlen in Hz; lia).
  apply wp_block; [done| |by wp_step]. intros E0. rewrite E0 in Hz. change (zlen (@nil Z)) with 0 in Hz. size_lia.
Qed.

Lemma wp_load_file F f n len Q E s : 0 <= len <= n -> Q (loaded n len (content (disk s f))) s -> wp F (load_file f n len) Q E s.
Proof. intros Hl HQ. unfold load_file. wp_step. wp_step. wp_step. exact HQ. Qed.

Lemma wp_fixnv emmc fa pa s a off d ch p E :
  fa mod 2 = 0 -> holds s a -> nv_ok emmc a -> command_ok (Fixnv off d) -> chunks ch d -> pipe s = ch ++ p ->
  wp no_fault (data_request emmc fa pa 0 off (zlen d))
    (fun nx s' => nx = Continue /\ completed emmc s (Fixnv off d) a p s') E s.
Proof.
  intros Hfa [Hd Ho Hw Hf Hh Hb] Hok Hc Hch Hp. pose proof (nv_step_ok emmc a _ Hc Hok) as Hok'.
  destruct Hc as (Hoff & Hlen & Hbytes). unfold data_request. change (0 =? 0) with true. cbv iota.
  unfold begin_fixnv. wp_step. wp_step. apply wp_open_or_exit; [done|].
  wp_step. apply wp_load_file; [size_lia|]. rewrite Hd. cbn [content nv_content].
  pose proof (zlen_loaded (FIXNV_SIZE + 4) (FIXNV_SIZE + 4) (fix1 a) ltac:(size_lia)) as Hz.
  set (b := loaded _ _ _) in *.
  wp_step. eapply wp_lift_Some; [apply load16_halfword; size_lia|]. wp_step. wp_step. wp_step.
  wp_step. eapply wp_mono; [apply (wp_receive_fixnv off d ch p _ b); try done; lia| |done].
  intros ? s1 (-> & ->). cbv beta iota. wp_step. wp_step. wp_step.
  assert (Hb' : zlen (put b off d) = FIXNV_SIZE + 4) by (rewrite zlen_put; size_lia).
  apply (wp_update_fixnvfile fa (put b off d)); [done|done|exact Hb'|done|done|]. wp_step. split; [done|].
  cbn [indexvalue set_flag set_index set_fixnv set_pipe set_env fixnv_buffer_offset].
  assert (Hs : zlen (fixnv_stamp (put b off d) (halfword b (FIXNV_SIZE - 2))) = FIXNV_SIZE + 4) by (apply zlen_stamp; size_lia).
  unfold completed. cbn [nv_step answers]. split_and!; [|done| |by rewrite app_nil_r].
  - constructor; [|done|done|done|done|].
    + intros [| | | | |]; rewrite ?disk_block_eq, ?disk_block_ne by done;
        cbn [disk set_flag set_index set_fixnv set_pipe set_env]; by rewrite Hd.
    + intros _. cbn [fix1]. change (fixnv_update (fix1 a) off d) with (fixnv_stamp (put b off d) (halfword b (FIXNV_SIZE - 2))).
      rewrite pwrite_0. unfold zlen in Hs. rewrite take_app_length' by (rewrite <- Hs; lia). done.
  - apply follows_block; [exact (follows_refl emmc s)|]. intros d' Hd'.
    apply (safe_seconds emmc a); [done|rewrite Hd' by done; apply Hd|rewrite Hd' by done; apply Hd].
Qed.

(** *** A request for the product data *)

Lemma wp_receive_productinfo off d ch p s b E :
  chunks ch d -> pipe s = ch ++ p -> 0 <= off -> off + zlen d <= PRODUCTINFO_SIZE -> zlen b = PRODUCTINFO_SIZE + 8 ->
  phasecheck_buffer s = b -> phasecheck_buffer_offset s = off ->
  wp no_fault (receive PRODUCTINFO_SIZE (zlen d) off)
    (fun nx s' => nx = Continue /\ s' = set_pipe p (set_phasecheck (put b off d) (off + zlen d) s)) E s.
Proof.
  intros Hch Hp Ho Hd Hb Eb Eo. unfold receive. wp_step. wp_step. pose proof (zlen_nonneg d).
  replace (s32 (zlen d)) with (zlen d) by (pose proof PRODUCTINFO_SIZE_eq; wrap_lia).
  eapply wp_mono; [eapply (wp_data_loop PRODUCTINFO_SIZE d
    (fun x _ _ s' => s' = set_pipe (pipe s') (set_phasecheck (put b off x) (off + zlen x) s))) with (x := []) (d := d) (ch := ch) (p := p);
    [| |reflexivity|exact Hch|exact Hp|rewrite Hp, pipe_size_app; lia|]| |].
  - intros x bs y pos bk s1 E' -> Hbs ->. pose proof (zlen_nonneg x). pose proof (zlen_nonneg y). pose proof (zlen_nonneg bs).
    rewrite !zlen_app in *. unfold store_piece.
    rewrite (proj2 (Z.eqb_neq PRODUCTINFO_SIZE RUNTIMENV_SIZE)), (proj2 (Z.eqb_neq PRODUCTINFO_SIZE FIXNV_SIZE)) by size_lia.
    wp_step. wp_step. wp_step. wp_step. cbn [phasecheck_buffer phasecheck_buffer_offset set_pipe set_phasecheck set_env].
    eapply wp_lift_Some; [apply store_ok; rewrite ?zlen_put; lia|]. wp_step. wp_step.
    rewrite put_put, u32_small by (pose proof PRODUCTINFO_SIZE_eq; lia). cbn [fst snd].
    split; [done|]. split; [done|]. by rewrite Z.add_assoc.
  - intros x pos bk s1 q ->. done.
  - rewrite put_nil by lia. change (zlen (@nil Z)) with 0. rewrite Z.add_0_r. destruct s; cbn in *. by subst.
  - intros nx s' (-> & <- & pos & bk & Hs'). split; [done|exact Hs'].
  - done.
Qed.

Lemma wp_write_copies F src dst bs (Q : Z -> nvitemd -> Prop) E s :
  opens s = [] -> writes s = [] -> bs <> [] -> Q 1 (block dst bs (block src bs s)) -> wp F (write_copies src dst bs) Q E s.
Proof.
  intros Ho Hw Hb HQ. unfold write_copies. wp_step. apply wp_open_ok; [done|]. cbn [negb]. apply wp_block; [done|done|].
  wp_step. apply wp_open_ok; [done|]. cbn [negb]. apply wp_block; [done|done|]. by wp_step.
Qed.

(** The two stores at the end of the buffer; [tail] is what they leave behind. *)
Lemma tail_put b x y tail : zlen b = PRODUCTINFO_SIZE + 8 -> zlen x + zlen y + zlen tail = 8 ->
  tail = drop (Z.to_nat (PRODUCTINFO_SIZE + zlen x + zlen y)) b ->
  put (put b PRODUCTINFO_SIZE x) (PRODUCTINFO_SIZE + zlen x) y = (take (Z.to_nat PRODUCTINFO_SIZE) b ++ x ++ y) ++ tail.
Proof.
  intros Hb Hl ->. pose proof (zlen_nonneg x). pose proof (zlen_nonneg y). pose proof (zlen_nonneg (drop (Z.to_nat (PRODUCTINFO_SIZE + zlen x + zlen y)) b)).
  rewrite put_put by size_lia. unfold put. rewrite zlen_app, Z.add_assoc, <- !app_assoc. done.
Qed.

Lemma wp_update_productinfo F (emmc : bool) pa b (Q : Z -> nvitemd -> Prop) E s :
  pa mod 2 = 0 -> phasecheck_buffer s = b -> zlen b = PRODUCTINFO_SIZE + 8 -> bytes b -> opens s = [] -> writes s = [] ->
  (forall b', let st := productinfo_stamp emmc b (indexvalue s) in
     Q 1 (block PROD_INFO2 st (block PROD_INFO1 st (set_phasecheck b' (phasecheck_buffer_offset s) s)))) ->
  wp F (if emmc then update_productinfofile_emmc PROD_INFO1 PROD_INFO2 PRODUCTINFO_SIZE
        else update_productinfofile pa PROD_INFO1 PROD_INFO2 PRODUCTINFO_SIZE) Q E s.
Proof.
  intros Hpa Eb Hb Hbytes Ho Hw HQ.
  assert (Hst := zlen_productinfo_stamp emmc b (indexvalue s) ltac:(size_lia)).
  assert (Hne : productinfo_stamp emmc b (indexvalue s) <> []).
  { intros E0. rewrite E0 in Hst. change (zlen (@nil Z)) with 0 in Hst. destruct emmc; size_lia. }
  assert (Htake : forall tail, take (Z.to_nat (PRODUCTINFO_SIZE + if emmc then 8 else 4)) (productinfo_stamp emmc b (indexvalue s) ++ tail)
    = productinfo_stamp emmc b (indexvalue s)).
  { intros tail. apply take_app_length'. unfold zlen in Hst. lia. }
  destruct emmc.
  - unfold update_productinfofile_emmc. rewrite decide_False by done. wp_step. wp_step. wp_step. rewrite Eb. fold magic.
    eapply wp_lift_Some; [apply store_ok; size_lia|].
    assert (Hz1 : zlen (put b PRODUCTINFO_SIZE magic) = PRODUCTINFO_SIZE + 8) by (rewrite zlen_put; size_lia).
    destruct (crc32b_take (put b PRODUCTINFO_SIZE magic) (PRODUCTINFO_SIZE + 4)) as (crc & Hc1 & Hc2);
      [apply put_bytes; [done|by_bytes]|size_lia|].
    wp_step. eapply wp_lift_Some; [exact Hc1|]. wp_step. eapply wp_lift_Some; [apply store_ok; size_lia|].
    assert (E0 := tail_put b magic (be32 crc) [] Hb eq_refl). change (PRODUCTINFO_SIZE + zlen magic) with (PRODUCTINFO_SIZE + 4) in E0.
    rewrite E0 by (symmetry; apply drop_ge; size_lia).
    assert (E1 : take (Z.to_nat (PRODUCTINFO_SIZE + 4)) (put b PRODUCTINFO_SIZE magic) = take (Z.to_nat PRODUCTINFO_SIZE) b ++ magic).
    { unfold put. rewrite app_assoc. apply take_app_length'. rewrite length_app, length_take. size_lia. }
    rewrite E1 in Hc2.
    assert (E2 : take (Z.to_nat PRODUCTINFO_SIZE) b ++ magic ++ be32 crc = productinfo_stamp true b (indexvalue s)).
    { unfold productinfo_stamp. cbv zeta. by rewrite Hc2. }
    rewrite E2. wp_step. wp_step. cbv zeta. rewrite (Htake []). apply wp_write_copies; [done|done|done|]. apply HQ.
  - unfold update_productinfofile. rewrite decide_False by done. wp_step. wp_step. wp_step. rewrite Eb.
    eapply wp_lift_Some; [apply calc_checksum_take; [done|size_lia]|].
    wp_step. eapply wp_lift_Some; [apply store_ok; size_lia|].
    wp_step. eapply wp_lift_Some; [apply store_ok; rewrite ?zlen_put; size_lia|].
    change (PRODUCTINFO_SIZE + 2) with (PRODUCTINFO_SIZE + zlen (le16 (sum_of b PRODUCTINFO_SIZE))).
    erewrite tail_put; [|done| |reflexivity].
    2:{ unfold zlen. rewrite length_drop. size_lia. }
    assert (E2 : take (Z.to_nat PRODUCTINFO_SIZE) b ++ le16 (sum_of b PRODUCTINFO_SIZE) ++ le16 ((indexvalue s + 1) mod 100)
      = productinfo_stamp false b (indexvalue s)).
    { unfold productinfo_stamp. cbv zeta. by rewrite sum_of_take by size_lia. }
    rewrite E2. wp_step. wp_step. rewrite Htake. apply wp_write_copies; [done|done|done|]. apply HQ.
Qed.

Lemma wp_begin_productinfo F (emmc : bool) s c off (Q : unit -> nvitemd -> Prop) E :
  opens s = [] -> content (disk s PROD_INFO1) = c ->
  let b := loaded (PRODUCTINFO_SIZE + 8) (PRODUCTINFO_SIZE + (if emmc then 8 else 4)) c in
  (forall i, emmc = true \/ i = halfword b (PRODUCTINFO_SIZE + 2) -> Q tt (set_index i (set_phasecheck b off s))) ->
  wp F (begin_productinfo emmc off) Q E s.
Proof.
  intros Ho <- b HQ. unfold begin_productinfo. wp_step. apply wp_open_or_exit; [done|].
  wp_step. apply wp_load_file; [destruct emmc; size_lia|]. fold b. wp_step. wp_step.
  assert (Hz : zlen b = PRODUCTINFO_SIZE + 8) by (apply zlen_loaded; destruct emmc; size_lia).
  destruct emmc.
  - wp_step. specialize (HQ (indexvalue s) (or_introl eq_refl)). by destruct s.
  - wp_step. eapply wp_lift_Some; [apply load16_halfword; size_lia|]. wp_step. apply HQ. by right.
Qed.

Lemma productinfo_stamp_index (emmc : bool) b i j : emmc = true \/ i = j -> productinfo_stamp emmc b i = productinfo_stamp emmc b j.
Proof. intros [-> | ->]; done. Qed.

Lemma wp_productinfo emmc fa pa s a off d ch p E :
  pa mod 2 = 0 -> holds s a -> nv_ok emmc a -> command_ok (Productinfo off d) -> chunks ch d -> pipe s = ch ++ p ->
  wp no_fault (data_request emmc fa pa 2 off (zlen d))
    (fun nx s' => nx = Continue /\ completed emmc s (Productinfo off d) a p s') E s.
Proof.
  intros Hpa [Hd Ho Hw Hf Hh Hb] Hok Hc Hch Hp. pose proof (nv_step_ok emmc a _ Hc Hok) as Hok'.
  destruct (productinfo_buffer emmc (pi1 a) off d (ok_pi1_bytes _ _ Hok) Hc) as [Hbytes Hbz].
  destruct Hc as (Hoff & Hlen & _). unfold data_request. change (2 =? 0) with false. change (2 =? 1) with false.
  change (2 =? 2) with true. cbv iota. wp_step. eapply wp_begin_productinfo; [done|by rewrite Hd|]. cbn [nv_content].
  assert (Hz := zlen_loaded (PRODUCTINFO_SIZE + 8) (PRODUCTINFO_SIZE + (if emmc then 8 else 4)) (pi1 a) ltac:(destruct emmc; size_lia)).
  set (b := loaded _ _ _) in *. intros i Hi. wp_step. set (s1 := set_index _ _).
  eapply wp_mono; [apply (wp_receive_productinfo off d ch p s1 b); try done; lia| |done].
  intros ? s2 (-> & ->). cbv beta iota. wp_step.
  apply (wp_update_productinfo _ emmc pa (put b off d)); [done|done|exact Hbz|exact Hbytes|done|done|].
  intros b' st. wp_step. split; [done|].
  assert (Est : st = productinfo_update emmc (pi1 a) off d) by (by apply productinfo_stamp_index). clearbody st. subst st.
  set (st := productinfo_update emmc (pi1 a) off d) in *.
  assert (Hdisk : forall f, disk (set_phasecheck b' (off + zlen d) (set_pipe p (set_phasecheck (put b off d) (off + zlen d) s1))) f
    = Stored (nv_content a f) []) by (intros f; apply Hd).
  unfold completed. cbn [nv_step answers]. fold st. split_and!.
  - constructor; [|done|done|done|done|].
    + intros [| | | | |]; repeat first [rewrite disk_block_eq|rewrite disk_block_ne by done]; rewrite Hdisk; done.
    + cbn. done.
  - done.
  - apply follows_block; [apply follows_block; [exact (follows_refl emmc s)|]|].
    + intros d' Hd'. apply (safe_seconds emmc a); [done|rewrite Hd' by done; apply Hd..].
    + intros d' Hd'. apply (safe_intro emmc d' FIX_NV2 PROD_INFO1 (fix2 a) (pwrite (pi1 a) 0 st)); [by right|by left| | | |].
      * rewrite Hd', disk_block_ne by done. apply Hd.
      * rewrite Hd', disk_block_eq by done. by rewrite Hdisk.
      * apply Hok.
      * apply (productinfo_valid_stamp emmc (pi1 a) (put b off d)); [exact Hbytes|size_lia].
  - by rewrite app_nil_r.
Qed.

(** *** A request for the runtime data *)

(** What the two positions and the files are when [x] of the data is stored. *)
Record runtime_inv (emmc : bool) (s : nvitemd) (a : nv) (off : Z) (x : list Z) (pos bk : Z) (s1 : nvitemd) : Prop := {
  ri_pos : pos = off + zlen x /\ bk = off + zlen x;
  ri_rt1 : content (disk s1 RUNTIME_NV1) = pwrite (rt1 a) off x;
  ri_rt2 : content (disk s1 RUNTIME_NV2) = pwrite (rt2 a) off x;
  ri_other : forall f, f <> RUNTIME_NV1 -> f <> RUNTIME_NV2 -> disk s1 f = Stored (nv_content a f) [];
  ri_follows : follows emmc s s1;
  ri_env : opens s1 = [] /\ writes s1 = [];
  ri_flag : update_finxn_flag s1 = update_finxn_flag s;
  ri_header : req_header s1 = req_header s;
  ri_buffer : fixnv_buffer s1 = fixnv_buffer s;
  ri_replies : replies s1 = replies s
}.

Lemma runtime_safe emmc s a off x pos bk s1 f y : nv_ok emmc a -> f = RUNTIME_NV1 \/ f = RUNTIME_NV2 ->
  runtime_inv emmc s a off x pos bk s1 -> follows emmc s (set_disk (update (disk s1) f y) s1).
Proof.
  intros Hok Hf H. apply follows_step; [apply H|]. apply (safe_seconds emmc a); [done|..];
    rewrite update_ne by (destruct Hf as [-> | ->]; done); by apply H.
Qed.

(** One piece into both files. *)
Lemma runtime_piece emmc s a off x bs pos bk s1 E : nv_ok emmc a -> 0 <= off -> bs <> [] ->
  runtime_inv emmc s a off x pos bk s1 ->
  wp no_fault (store_piece RUNTIMENV_SIZE pos bk bs)
    (fun r s' => r.1.1 = true /\ pipe s' = pipe s1 /\ runtime_inv emmc s a off (x ++ bs) r.1.2 r.2 s') E s1.
Proof.
  intros Hok Ho Hbs H. pose proof (zlen_nonneg bs). unfold store_piece. rewrite Z.eqb_refl.
  wp_step. apply wp_write_file; [apply H|done|]. rewrite (proj2 (Z.ltb_ge _ _)) by done.
  wp_step. apply wp_write_file; [apply H|done|]. rewrite (proj2 (Z.ltb_ge _ _)) by done. wp_step. cbn [fst snd].
  split; [done|]. split; [done|].
  pose proof (runtime_safe emmc s a off x pos bk s1 RUNTIME_NV1 (written (disk s1 RUNTIME_NV1) pos bs) Hok (or_introl eq_refl) H) as Hs.
  destruct H as [[-> ->] H1 H2 H3 _ H5 H6 H7 H8 H9].
  constructor; [rewrite zlen_app; lia| | | | |done|done|done|done|done]; cbn [disk set_disk].
  - rewrite update_ne, update_eq by done. unfold written. cbn [content]. by rewrite H1, pwrite_pwrite by done.
  - rewrite update_eq. unfold written. rewrite update_ne by done. cbn [content]. by rewrite H2, pwrite_pwrite by done.
  - intros f Hf1 Hf2. by rewrite !update_ne, H3 by done.
  - apply follows_step; [done|]. cbn [disk set_disk].
    apply (safe_seconds emmc a); [done|rewrite !update_ne by done; by apply H3..].
Qed.

Lemma wp_runtimenv emmc fa pa s a off d ch p E :
  holds s a -> nv_ok emmc a -> command_ok (Runtimenv off d) -> chunks ch d -> pipe s = ch ++ p ->
  wp no_fault (data_request emmc fa pa 1 off (zlen d))
    (fun nx s' => nx = Continue /\ completed emmc s (Runtimenv off d) a p s') E s.
Proof.
  intros [Hd Ho Hw Hf Hh Hb] Hok (Hoff & Hlen & _) Hch Hp. pose proof (zlen_nonneg d).
  unfold data_request. change (1 =? 0) with false. change (1 =? 1) with true. cbv iota.
  wp_step. apply wp_open_or_exit; [done|]. wp_step. apply wp_open_or_exit; [done|].
  wp_step. unfold receive. wp_step. wp_step.
  assert (E1 : s32 (zlen d) = zlen d) by (pose proof RUNTIMENV_SIZE_eq; wrap_lia). rewrite E1.
  assert (E2 : seek off = off).
  { unfold seek. rewrite (proj2 (Z.ltb_ge _ _)) by (pose proof RUNTIMENV_SIZE_eq; wrap_lia). pose proof RUNTIMENV_SIZE_eq. wrap_lia. }
  rewrite E2. eapply wp_mono; [eapply (wp_data_loop RUNTIMENV_SIZE d (runtime_inv emmc s a off)) with (x := []) (d := d) (ch := ch) (p := p);
    [| |reflexivity|exact Hch|exact Hp|rewrite Hp, pipe_size_app; lia|]| |done].
  - intros x bs y pos bk s1 E' _ Hbs H1. by apply runtime_piece.
  - intros x pos bk s1 q []. by constructor.
  - constructor; try done; [change (zlen (@nil Z)) with 0; lia|by rewrite Hd, pwrite_nil..|apply follows_refl].
  - intros ? s1 (-> & Hp1 & pos & bk & [_ H1 H2 H3 H4 [H5 H5'] H6 H7 H8 H9]). cbv beta iota.
    wp_step. apply wp_fsync. wp_step. apply wp_fsync. wp_step. split; [done|].
    unfold completed. cbn [nv_step answers]. split_and!; [|done| |by rewrite app_nil_r].
    + constructor; cbn [disk set_disk opens writes update_finxn_flag req_header fixnv_buffer]; [|done|done|by rewrite H6|by rewrite H7|].
      * intros [| | | | |]; rewrite ?update_eq, ?update_ne by done; rewrite ?update_ne, ?update_eq, ?H1, ?H2 by done; rewrite ?H3; done.
      * cbn [pending fix1]. intros Hpend. by rewrite H8, Hb.
    + apply follows_step; [apply follows_step; [done|]|]; apply (safe_seconds emmc a); try done;
        cbn [disk set_disk]; rewrite !update_ne by done; by apply H3.
Qed.

(** ** The daemon *)

(** A request, from its header on. *)
Lemma wp_request emmc fa pa s a c h t q off z p (E : nvitemd -> Prop) :
  holds s a -> pipe s = PipeData (header t q off z) :: p ->
  0 <= t < 65536 -> 0 <= q < 65536 -> 0 <= off < 4294967296 -> 0 <= z < 4294967296 ->
  (forall s', holds s' a -> req_header s' = header t q off z -> pipe s' = p ->
     wp no_fault (if q =? 1 then sync_command ;;; ret Continue else data_request emmc fa pa t off z)
       (fun nx s'' => nx = Continue /\ completed emmc s' c a h s'') E s') ->
  wp no_fault (iteration emmc fa pa) (fun nx s' => nx = Continue /\ completed emmc s c a h s') E s.
Proof.
  intros Hs Hp Ht Hq Ho Hz Hk. eapply wp_iteration; [exact Hp|apply Hs|done..|]. eapply wp_mono; [apply Hk| |done].
  - by eapply holds_ext.
  - done.
  - done.
  - intros nx s' (-> & H1 & H2 & H3 & H4). done.
Qed.

(** What the daemon has done at the end of its input. *)
Definition served (emmc : bool) (s : nvitemd) (cs : list command) (a : nv) (s' : nvitemd) : Prop :=
  holds s' (foldl (nv_step emmc) a cs) /\ pipe s' = [] /\ follows emmc s s' /\
  replies s' = replies s ++ concat (answers <$> cs).

Lemma served_after emmc s s1 c cs a p s' : completed emmc s c a p s1 -> served emmc s1 cs (nv_step emmc a c) s' ->
  served emmc s (c :: cs) a s'.
Proof.
  intros (_ & _ & (h1 & E1 & F1) & R1) (H & Hp & (h2 & E2 & F2) & R2). split; [done|]. split; [done|]. split.
  - exists (h1 ++ h2). rewrite E2, E1, app_assoc. split; [done|]. by apply Forall_app.
  - rewrite R2, R1. cbn. by rewrite app_assoc.
Qed.

Section main_loop.
Context (emmc : bool) (fa pa : Z) (Hfa : fa mod 2 = 0) (Hpa : pa mod 2 = 0).

(** The rest of the loop after one command. *)
Lemma wp_main_loop_command rounds s c cs a p :
  wp no_fault (iteration emmc fa pa) (fun nx s' => nx = Continue /\ completed emmc s c a p s') (fun _ => False) s ->
  (forall s', holds s' (nv_step emmc a c) -> pipe s' = p ->
     wp no_fault (main_loop emmc fa pa rounds) (fun _ _ => False) (served emmc s' cs (nv_step emmc a c)) s') ->
  wp no_fault (main_loop emmc fa pa (S rounds)) (fun _ _ => False) (served emmc s (c :: cs) a) s.
Proof.
  intros H1 H2. cbn [main_loop]. wp_step. eapply wp_mono; [exact H1| |done].
  intros ? s' (-> & Hc). wp_step. wp_step. eapply wp_mono; [apply H2; apply Hc|done|].
  intros s2 H; eapply served_after; [exact Hc|exact H].
Qed.

(** A restart of the modem, or an error, changes nothing. *)
Lemma wp_iteration_idle s a e p : holds s a -> pipe s = e :: p -> e = PipeData [] \/ (exists r, e = PipeErr r) ->
  wp no_fault (iteration emmc fa pa)
    (fun _ s' => holds s' a /\ pipe s' = p /\ history s' = history s /\ replies s' = replies s) (fun _ => False) s.
Proof.
  intros Hs Hp He. unfold iteration. wp_step. unfold read_pipe. wp_step. wp_step. rewrite Hp.
  assert (Hz : zlen (req_header s) = 12) by apply Hs.
  destruct He as [-> | [r ->] ]; wp_step; wp_step; wp_step; wp_step; wp_step; wp_step; wp_step; cbn [fst snd].
  - change (take (Z.to_nat 12) (@nil Z)) with (@nil Z). change (zlen (@nil Z) =? 0) with true. cbv iota.
    wp_step. unfold check_mocor_reboot. wp_step. wp_step. split_and!; [|done|done|done].
    by eapply holds_ext; [exact Hs|done|done|done|done| |done].
  - rewrite (proj2 (Z.eqb_neq _ _)), (proj2 (Z.ltb_lt _ _)) by lia. wp_step. split_and!; [|done|done|done].
    by eapply holds_ext; [exact Hs|done|done|done|done| |done].
Qed.

Lemma served_idle s s1 cs a s' : history s1 = history s -> replies s1 = replies s ->
  served emmc s1 cs a s' -> served emmc s cs a s'.
Proof.
  intros E1 E2 (H & Hp & (h & Eh & Fh) & R). split; [done|]. split; [done|]. split; [|by rewrite R, E2].
  exists h. by rewrite <- E1.
Qed.

Lemma wp_main_loop_idle rounds s cs a e p : holds s a -> pipe s = e :: p -> e = PipeData [] \/ (exists r, e = PipeErr r) ->
  (forall s', holds s' a -> pipe s' = p -> wp no_fault (main_loop emmc fa pa rounds) (fun _ _ => False) (served emmc s' cs a) s') ->
  wp no_fault (main_loop emmc fa pa (S rounds)) (fun _ _ => False) (served emmc s cs a) s.
Proof.
  intros Hs Hp He Hk. cbn [main_loop]. wp_step. eapply wp_mono; [by eapply wp_iteration_idle| |done].
  intros nx s' (Hs' & Hp' & E1 & E2). wp_step.
  assert (Hrest : wp no_fault (main_loop emmc fa pa rounds) (fun _ _ => False) (served emmc s cs a) s').
  { eapply wp_mono; [by apply Hk|done|]. intros s2. by apply served_idle. }
  destruct nx; [by wp_step|]. apply wp_open_or_exit; [apply Hs'|done].
Qed.

Lemma wp_main_loop rounds s a cs : holds s a -> nv_ok emmc a -> Forall command_ok cs -> speaks cs (pipe s) ->
  (length (pipe s) < rounds)%nat ->
  wp no_fault (main_loop emmc fa pa rounds) (fun _ _ => False) (served emmc s cs a) s.
Proof.
  revert s a cs. induction rounds as [|rounds IH]; intros s a cs Hs Hok Hcs Hsp Hr; [lia|].
  remember (pipe s) as q eqn:Eq. symmetry in Eq.
  assert (Hnext : forall c cs' p, Forall command_ok (c :: cs') -> speaks cs' p -> (length p < rounds)%nat ->
    wp no_fault (iteration emmc fa pa) (fun nx s' => nx = Continue /\ completed emmc s c a p s') (fun _ => False) s ->
    wp no_fault (main_loop emmc fa pa (S rounds)) (fun _ _ => False) (served emmc s (c :: cs') a) s).
  { intros c cs' p [Hc Hcs']%Forall_cons Hp Hl H. eapply wp_main_loop_command; [exact H|]. intros s' Hs' Hp'.
    apply IH; [done|by apply nv_step_ok|done|by rewrite Hp'|by rewrite Hp']. }
  destruct Hsp as [|cs p Hsp|cs r p Hsp|cs p t o z Ht Hsp|cs p off d ch Hch Hsp|cs p off d ch Hch Hsp|cs p off d ch Hch Hsp];
    cbn [length] in Hr; rewrite ?length_app in Hr.
  - cbn [main_loop]. wp_step. unfold iteration. wp_step. unfold read_pipe. wp_step. wp_step. rewrite Eq. wp_step.
    split; [done|]. split; [done|]. split; [apply follows_refl|]. by rewrite app_nil_r.
  - eapply wp_main_loop_idle; [done|done|by left|]. intros s' Hs' Hp'. apply IH; [done|done|done|by rewrite Hp'|rewrite Hp'; lia].
  - eapply wp_main_loop_idle; [done|done|right; by eexists|]. intros s' Hs' Hp'. apply IH; [done|done|done|by rewrite Hp'|rewrite Hp'; lia].
  - pose proof Hcs as [[Ho Hz] _]%Forall_cons. eapply Hnext; [done|done|lia|]. eapply wp_request; [done|exact Eq|lia..|].
    intros s' Hs' Hh <-. change (1 =? 1) with true. cbv iota. by eapply wp_sync_command.
  - pose proof Hcs as [Hc _]%Forall_cons. pose proof Hc as (Ho & Hl & _). pose proof (zlen_nonneg d).
    eapply Hnext; [done|done|lia|]. eapply wp_request; [done|exact Eq|size_lia..|].
    intros s' Hs' Hh Hp'. change (0 =? 1) with false. cbv iota. by eapply wp_fixnv.
  - pose proof Hcs as [Hc _]%Forall_cons. pose proof Hc as (Ho & Hl & _). pose proof (zlen_nonneg d).
    eapply Hnext; [done|done|lia|]. eapply wp_request; [done|exact Eq|size_lia..|].
    intros s' Hs' Hh Hp'. change (0 =? 1) with false. cbv iota. by eapply wp_runtimenv.
  - pose proof Hcs as [Hc _]%Forall_cons. pose proof Hc as (Ho & Hl & _). pose proof (zlen_nonneg d).
    eapply Hnext; [done|done|lia|]. eapply wp_request; [done|exact Eq|size_lia..|].
    intros s' Hs' Hh Hp'. change (0 =? 1) with false. cbv iota. by eapply wp_productinfo.
Qed.
End main_loop.
