(* ===== verification/NvSafety.v ===== *)
(** * The NV daemon at work

    The theorems on the daemon of NvDaemon.v: it carries out every command,
    however the pipe cuts it into pieces, and ends; at every moment a power
    failure leaves a valid copy of the data; what breaks that promise. *)
From stdpp Require Import base list.
From Stdlib Require Import ZArith Lia.
From S2P Require Import Prelude Crc NvDaemon NvProofs.

#[local] Opaque FIXNV_SIZE RUNTIMENV_SIZE PRODUCTINFO_SIZE.

(** ** A concrete daemon *)

Definition nv_image : list Z := fixnv_stamp (replicate (Z.to_nat FIXNV_SIZE) 0) 0.
Definition productinfo_image (emmc : bool) : list Z := productinfo_stamp emmc (replicate (Z.to_nat PRODUCTINFO_SIZE) 0) 0.
Definition nv_example (emmc : bool) : nv :=
  Nv nv_image nv_image [] [1; 2] (productinfo_image emmc) (productinfo_image emmc) true.
Definition daemon_example (emmc : bool) (p : list pipe_event) : nvitemd :=
  NvItemd (fun f => Stored (nv_content (nv_example emmc) f) []) [] [] [] p [] 0 (replicate 12 0)
    (take (Z.to_nat (FIXNV_SIZE + 4)) nv_image) 0 [] 0 0 true.

Lemma nv_image_valid : fixnv_valid nv_image = true.
Proof.
  rewrite <- (app_nil_r nv_image). change (nv_image ++ []) with (nv_image ++ drop (length nv_image) []).
  assert (E : drop (length nv_image) [] = @nil Z) by apply drop_nil. rewrite <- E, <- pwrite_0.
  apply fixnv_valid_stamp. rewrite zlen_replicate; size_lia.
Qed.

Lemma nv_example_ok emmc : nv_ok emmc (nv_example emmc).
Proof.
  assert (Hb : bytes (replicate (Z.to_nat PRODUCTINFO_SIZE) 0)) by (apply Forall_replicate; unfold byte; lia).
  constructor; cbn [fix1 fix2 pi1 pi2 pending nv_example].
  - apply nv_image_valid.
  - intros _. apply nv_image_valid.
  - unfold productinfo_image. set (st := productinfo_stamp _ _ _).
    assert (E : pwrite [] 0 st = st) by (by rewrite pwrite_0, drop_nil, app_nil_r). rewrite <- E.
    apply productinfo_valid_stamp; [done|]. rewrite zlen_replicate; size_lia.
  - by apply stamp_bytes.
Qed.

Lemma daemon_example_holds emmc p : holds (daemon_example emmc p) (nv_example emmc).
Proof. by constructor. Qed.

Definition script_example : list pipe_event :=
  [PipeData (header 0 0 7 3); PipeData [1; 2]; PipeErr (-1); PipeData [3]; PipeData []; PipeData (header 0 1 5 6);
   PipeErr 0; PipeData (header 1 0 4 2); PipeData [8; 9]; PipeData (header 2 0 0 1); PipeData [255]].
Definition commands_example : list command := [Fixnv 7 [1; 2; 3]; Sync 5 6; Runtimenv 4 [8; 9]; Productinfo 0 [255]].

Lemma script_example_speaks : speaks commands_example script_example.
Proof.
  apply (speaks_fixnv _ _ 7 [1; 2; 3] [PipeData [1; 2]; PipeErr (-1); PipeData [3]]).
  { apply (chunks_data [1; 2] _ [3]); [done|]. apply chunks_err; [done|]. apply (chunks_data [3] [] []); [done|constructor]. }
  apply speaks_restart, speaks_sync; [lia|]. apply speaks_err.
  apply (speaks_runtimenv _ _ 4 [8; 9] [PipeData [8; 9]]); [apply (chunks_data [8; 9] [] []); [done|constructor]|].
  apply (speaks_productinfo [] [] 0 [255] [PipeData [255]]); [apply (chunks_data [255] [] []); [done|constructor]|]. constructor.
Qed.

Lemma commands_example_ok : Forall command_ok commands_example.
Proof.
  assert (H : forall d n, forallb byteb d = true -> 0 <= n -> forall z, n + zlen d <= z -> 0 <= n /\ n + zlen d <= z /\ bytes d).
  { intros d n Hd Hn z Hz. split; [done|]. split; [done|]. by apply bytes_forallb. }
  repeat constructor; try lia; try (apply H; [done|lia|size_lia]).
Qed.

(** The checksum of zeros after two bytes. *)
Lemma byte_sum_zeros n rest sum : 0 <= sum < 4294967296 ->
  byte_sum (replicate (2 * n) 0 ++ rest) (2 * Z.of_nat n) sum = Some sum.
Proof.
  intros Hs. induction n as [|n IH]; [by destruct rest|].
  replace (2 * S n)%nat with (S (S (2 * n))) by lia. cbn [replicate app]. rewrite byte_sum_step by lia.
  change (ld16 0 0) with 0. rewrite Z.add_0_r, u32_small by done. replace (2 * Z.of_nat (S n) - 2) with (2 * Z.of_nat n) by lia. exact IH.
Qed.

Lemma sum_of_zeros b0 b1 rest : byte b0 -> byte b1 ->
  sum_of (b0 :: b1 :: replicate (2 * Z.to_nat (FIXNV_SIZE / 2 - 3)) 0 ++ rest) (FIXNV_SIZE - 4) = fold_sum (ld16 b0 b1).
Proof.
  intros H0 H1. unfold sum_of. rewrite calc_checksum_sum by done. rewrite byte_sum_step by size_lia.
  assert (Hr : 0 <= ld16 b0 b1 < 65536) by (unfold ld16, byte in *; lia).
  rewrite u32_small by lia. replace (FIXNV_SIZE - 4 - 2) with (2 * Z.of_nat (Z.to_nat (FIXNV_SIZE / 2 - 3)))
    by (pose proof FIXNV_SIZE_eq; Z.div_mod_to_equations; lia).
  by rewrite byte_sum_zeros by lia.
Qed.

Lemma nv_image_shape : exists rest, nv_image = 0 :: 0 :: replicate (2 * Z.to_nat (FIXNV_SIZE / 2 - 3)) 0 ++ rest /\ zlen rest = 8.
Proof.
  eexists. split; [|shelve]. unfold nv_image, fixnv_stamp. rewrite take_replicate, Nat.min_l by lia.
  replace (Z.to_nat (FIXNV_SIZE - 4)) with (S (S (2 * Z.to_nat (FIXNV_SIZE / 2 - 3))))
    by (pose proof FIXNV_SIZE_eq; Z.div_mod_to_equations; lia).
  cbn [replicate app]. reflexivity. Unshelve. done.
Qed.

(** One byte changes the checksum. *)
Lemma nv_image_sums :
  le16 (sum_of (put (take (Z.to_nat (FIXNV_SIZE + 4)) nv_image) 0 [1]) (FIXNV_SIZE - 4)) <> le16 (sum_of nv_image (FIXNV_SIZE - 4)).
Proof.
  assert (Hz : zlen nv_image = FIXNV_SIZE + 4) by (apply zlen_stamp; rewrite zlen_replicate; size_lia).
  rewrite take_ge by (unfold zlen in Hz; lia). destruct nv_image_shape as (rest & -> & _).
  change (put _ 0 [1]) with (1 :: 0 :: replicate (2 * Z.to_nat (FIXNV_SIZE / 2 - 3)) 0 ++ rest).
  rewrite !sum_of_zeros by (unfold byte; lia). discriminate.
Qed.

(** ** Termination *)

(** No bound of the model is too small. *)
Definition enough : fault -> Prop := fun f => f <> OutOfFuel.

Lemma wp_any_lift {S A} (o : option A) (Q : A -> S -> Prop) E s :
  (forall a, Q a s) -> wp enough (lift OutOfBounds o) Q E s.
Proof. intros H. apply wp_lift; [by intros|done]. Qed.

Lemma wp_any_open (Q : bool -> nvitemd -> Prop) E s :
  (forall b s', pipe s' = pipe s -> Q b s') -> wp enough open_ok Q E s.
Proof. intros H. unfold open_ok. wp_step. wp_step. destruct (opens s); repeat wp_step; by apply H. Qed.

Lemma wp_any_open_or_exit (Q : unit -> nvitemd -> Prop) s :
  (forall s', pipe s' = pipe s -> Q tt s') -> wp enough open_or_exit Q (fun _ => True) s.
Proof. intros H. unfold open_or_exit. wp_step. apply wp_any_open. intros b s' Hp. wp_step; [by apply H|done]. Qed.

Lemma wp_any_write f pos bs (Q : Z -> nvitemd -> Prop) E s :
  (forall r s', pipe s' = pipe s -> Q r s') -> wp enough (write_file f pos bs) Q E s.
Proof. intros H. unfold write_file. wp_step. wp_step. wp_step. wp_step. wp_step. case_match; repeat wp_step; by apply H. Qed.

Lemma wp_any_fsync f (Q : unit -> nvitemd -> Prop) E s :
  (forall s', pipe s' = pipe s -> Q tt s') -> wp enough (fsync f) Q E s.
Proof. intros H. unfold fsync. repeat wp_step. by apply H. Qed.

(** [read] shortens the script, unless it is at the end. *)
Lemma wp_any_read n (Q : Z * list Z -> nvitemd -> Prop) s : 0 < n ->
  (forall r s', (pipe_size (pipe s') < pipe_size (pipe s))%nat -> Q r s') ->
  wp enough (read_pipe n) Q (fun _ => True) s.
Proof.
  intros Hn H. unfold read_pipe. wp_step. wp_step. destruct (pipe s) as [|[d|r] p] eqn:E; repeat wp_step.
  - done.
  - apply H. cbn [pipe set_env].
    destruct (Z.leb_spec (zlen d) n); rewrite !pipe_size_data; [lia|]. rewrite length_drop. unfold zlen in *. lia.
  - apply H. cbn [pipe set_env]. rewrite pipe_size_err. lia.
Qed.

Lemma wp_any_piece length pos bk bs (Q : bool * Z * Z -> nvitemd -> Prop) E s :
  (forall r s', pipe s' = pipe s -> Q r s') -> wp enough (store_piece length pos bk bs) Q E s.
Proof.
  intros H. unfold store_piece. destruct (length =? RUNTIMENV_SIZE).
  - wp_step. apply wp_any_write. intros r s1 E1. destruct (r <? 0); [wp_step; by apply H|].
    wp_step. apply wp_any_write. intros r2 s2 E2. destruct (r2 <? 0); wp_step; apply H; congruence.
  - wp_step. wp_step. wp_step. destruct (length =? FIXNV_SIZE); wp_step; apply wp_any_lift; intros b; wp_step; wp_step; by apply H.
Qed.

(** The rest of the script after a computation that starts in [s]. *)
Definition no_longer {A} (s : nvitemd) : A -> nvitemd -> Prop := fun _ s' => (pipe_size (pipe s') <= pipe_size (pipe s))%nat.

Lemma wp_any_data_loop fuel length total pos bk s : (pipe_size (pipe s) < fuel)%nat ->
  wp enough (data_loop fuel length total pos bk) (no_longer s) (fun _ => True) s.
Proof.
  revert total pos bk s. induction fuel as [|fuel IH]; intros total pos bk s Hf; [lia|]. cbn [data_loop].
  destruct (Z.leb_spec total 0); [wp_step; unfold no_longer; lia|]. wp_step. apply wp_any_read.
  { destruct (_ >? _); unfold DATA_BUF_LEN; lia. }
  intros [r bs] s1 Hr. cbn [fst snd] in *.
  assert (Hrec : forall total pos bk s2, pipe s2 = pipe s1 ->
    wp enough (data_loop fuel length total pos bk) (no_longer s) (fun _ => True) s2).
  { intros total' pos' bk' s2 E2. eapply wp_mono; [apply IH; rewrite E2; lia| |done]. unfold no_longer. rewrite E2. lia. }
  destruct (Z.eqb_spec r 0); [unfold check_mocor_reboot; repeat wp_step; unfold no_longer; cbn [pipe]; lia|].
  destruct (r <? 0); [by apply Hrec|]. wp_step. apply wp_any_piece. intros x s2 E2. by apply Hrec.
Qed.

Lemma wp_any_receive length size off s : wp enough (receive length size off) (no_longer s) (fun _ => True) s.
Proof. unfold receive. wp_step. wp_step. apply wp_any_data_loop. lia. Qed.

Lemma wp_any_backup dst size (Q : Z -> nvitemd -> Prop) E s : (forall r s', pipe s' = pipe s -> Q r s') -> wp enough (update_backupfile dst size) Q E s.
Proof.
  intros H. unfold update_backupfile. wp_step. apply wp_any_open. intros [] s1 E1; cbn [negb]; [|wp_step; by apply H].
  wp_step. wp_step. wp_step. apply wp_any_write. intros r s2 E2. wp_step. apply wp_any_fsync. intros s3 E3. wp_step. apply H. cbn [pipe set_fixnv] in *. congruence.
Qed.

Lemma wp_any_copies src dst bs (Q : Z -> nvitemd -> Prop) E s : (forall r s', pipe s' = pipe s -> Q r s') -> wp enough (write_copies src dst bs) Q E s.
Proof.
  intros H. unfold write_copies. wp_step. apply wp_any_open. intros [] s1 E1; cbn [negb]; [|wp_step; by apply H].
  wp_step. apply wp_any_write. intros r s2 E2. wp_step. apply wp_any_fsync. intros s3 E3.
  wp_step. apply wp_any_open. intros [] s4 E4; cbn [negb]; [|wp_step; apply H; congruence].
  wp_step. apply wp_any_write. intros r2 s5 E5. wp_step. apply wp_any_fsync. intros s6 E6. wp_step. apply H. congruence.
Qed.

Lemma wp_any_update emmc fa pa size (Q : Z -> nvitemd -> Prop) E s : (forall r s', pipe s' = pipe s -> Q r s') ->
  wp enough (update_fixnvfile fa FIX_NV1 size) Q E s /\
  wp enough (if emmc : bool then update_productinfofile_emmc PROD_INFO1 PROD_INFO2 size
             else update_productinfofile pa PROD_INFO1 PROD_INFO2 size) Q E s.
Proof.
  intros H. split; [|destruct emmc].
  - unfold update_fixnvfile. wp_step. wp_step. do 4 (wp_step; apply wp_any_lift; intros ?). wp_step. wp_step.
    wp_step. apply wp_any_open. intros [] s1 E1; cbn [negb]; [|wp_step; by apply H].
    wp_step. apply wp_any_write. intros r s2 E2. wp_step. apply wp_any_fsync. intros s3 E3. wp_step. apply H. cbn [pipe set_fixnv] in *. congruence.
  - unfold update_productinfofile_emmc. rewrite decide_False by done. wp_step. wp_step.
    do 3 (wp_step; apply wp_any_lift; intros ?). wp_step. wp_step. by apply wp_any_copies.
  - unfold update_productinfofile. rewrite decide_False by done. wp_step. wp_step.
    do 3 (wp_step; apply wp_any_lift; intros ?). wp_step. wp_step. by apply wp_any_copies.
Qed.

Lemma wp_any_sync s : wp enough sync_command (no_longer s) (fun _ => True) s.
Proof.
  unfold sync_command. wp_step. wp_step. wp_step.
  eapply (wp_mono _ (fun _ s' => pipe s' = pipe s) _ (fun _ => True)); [| |done].
  - destruct (update_finxn_flag s); [|by wp_step]. wp_step. apply wp_any_backup. intros r s' E. by wp_step.
  - intros [] s1 E1. wp_step. wp_step. wp_step. unfold sync. wp_step. wp_step. wp_step.
    wp_step. apply wp_any_lift. intros h. repeat wp_step. unfold no_longer.
    cbn [pipe add_reply set_header set_disk set_flag]. by rewrite E1.
Qed.

(** [receive], and a rest that reads nothing. *)
Lemma wp_any_receive_then {A} length size off (k : next -> M nvitemd A) s s0 :
  pipe s = pipe s0 -> (forall nx s1, wp enough (k nx) (fun _ s2 => pipe s2 = pipe s1) (fun _ => True) s1) ->
  wp enough (nx <- receive length size off ;; k nx) (no_longer s0) (fun _ => True) s.
Proof.
  intros E Hk. wp_step. eapply wp_mono; [apply wp_any_receive| |done]. intros nx s1 H1.
  eapply wp_mono; [apply Hk| |done]. intros x s2 E2. unfold no_longer in *. by rewrite E2, <- E.
Qed.

Lemma wp_any_request emmc fa pa t off size s :
  wp enough (data_request emmc fa pa t off size) (no_longer s) (fun _ => True) s.
Proof.
  unfold data_request. destruct (t =? 0); [|destruct (t =? 1); [|destruct (t =? 2); [|wp_step; unfold no_longer; lia] ] ].
  - wp_step. unfold begin_fixnv. wp_step. apply wp_any_open_or_exit. intros s1 E1.
    wp_step. unfold load_file. wp_step. wp_step. wp_step. wp_step. apply wp_any_lift. intros i. wp_step. wp_step. wp_step.
    apply wp_any_receive_then; [done|]. intros [] s2; [|by wp_step].
    wp_step. wp_step. wp_step. apply (wp_any_update emmc fa pa). intros r s3 E3. by wp_step.
  - wp_step. apply wp_any_open_or_exit. intros s1 E1. wp_step. apply wp_any_open_or_exit. intros s2 E2.
    apply wp_any_receive_then; [congruence|]. intros [] s3; [|by wp_step].
    wp_step. apply wp_any_fsync. intros s4 E4. wp_step. apply wp_any_fsync. intros s5 E5. wp_step. congruence.
  - wp_step. unfold begin_productinfo. wp_step. apply wp_any_open_or_exit. intros s1 E1.
    wp_step. unfold load_file. wp_step. wp_step. wp_step. wp_step. wp_step.
    eapply (wp_mono _ (fun _ s2 => pipe s2 = pipe s) _ (fun _ => True)); [| |done].
    + destruct emmc; [by wp_step|]. wp_step. apply wp_any_lift. intros i. by wp_step.
    + intros [] s2 E2. apply wp_any_receive_then; [done|]. intros [] s3; [|by wp_step].
      wp_step. apply (wp_any_update emmc fa pa). intros r s4 E4. by wp_step.
Qed.

Lemma wp_any_iteration emmc fa pa s :
  wp enough (iteration emmc fa pa) (fun _ s' => (pipe_size (pipe s') < pipe_size (pipe s))%nat) (fun _ => True) s.
Proof.
  unfold iteration. wp_step. apply wp_any_read; [lia|]. intros r s1 H1. wp_step. wp_step. wp_step. wp_step.
  destruct (r.1 =? 0); [unfold check_mocor_reboot; by repeat wp_step|]. destruct (r.1 <? 0); [by wp_step|].
  wp_step. wp_step. do 4 (wp_step; apply wp_any_lift; intros ?). case_match.
  - wp_step. eapply wp_mono; [apply wp_any_sync| |done]. intros ? s2 H2. wp_step.
    unfold no_longer in H2. cbn [pipe set_header] in H2. lia.
  - eapply wp_mono; [apply wp_any_request| |done]. intros ? s2 H2. unfold no_longer in H2. cbn [pipe set_header] in H2. lia.
Qed.

(** the daemon's loops end on every input: whatever the pipe delivers,
    whichever calls of [open] and [write] fail, and for every header, a run
    that has as many rounds as the script has bytes and events ends in
    [exit], or writes outside a buffer. *)
Theorem nv_daemon_ends emmc fa pa rounds s : (pipe_size (pipe s) < rounds)%nat ->
  (exists s', main_loop emmc fa pa rounds s = Exit s') \/
  (exists f, main_loop emmc fa pa rounds s = Bad f /\ f <> OutOfFuel).
Proof.
  intros Hr. cut (wp enough (main_loop emmc fa pa rounds) (fun _ _ => False) (fun _ => True) s).
  { unfold wp. destruct (main_loop _ _ _ _ s) as [?|s'|f]; [done|by left; exists s'|]. intros H. right. by exists f. }
  revert s Hr. induction rounds as [|rounds IH]; intros s Hr; [lia|]. cbn [main_loop].
  wp_step. eapply wp_mono; [apply wp_any_iteration| |done]. intros nx s1 H1.
  wp_step. destruct nx; [wp_step; apply IH; lia|]. apply wp_any_open_or_exit. intros s2 E2. apply IH. rewrite E2. lia.
Qed.

Lemma nv_daemon_ends_witness :
  (exists s', main_loop true 0 0 100 (daemon_example true script_example) = Exit s') \/
  (exists f, main_loop true 0 0 100 (daemon_example true script_example) = Bad f /\ f <> OutOfFuel).
Proof. apply nv_daemon_ends. change (pipe_size script_example < 100)%nat. vm_compute. lia. Defined.

(** ** Refinement and safety *)

(** C2: the daemon refines the abstract store. Started with the contents [a]
    on the disk, it takes a script that holds the commands [cs] - their data
    in pieces of any size, read errors and restarts of the modem in between -
    to its end. The disk then has the contents that the commands make of [a],
    one after the other; all of them are beyond the reach of a power failure;
    and every sync command was answered. *)
Theorem nv_daemon_refines emmc fa pa rounds s a cs :
  fa mod 2 = 0 -> pa mod 2 = 0 -> holds s a -> nv_ok emmc a -> Forall command_ok cs -> speaks cs (pipe s) ->
  (length (pipe s) < rounds)%nat ->
  exists s', main_loop emmc fa pa rounds s = Exit s' /\
    (forall f, disk s' f = Stored (nv_content (foldl (nv_step emmc) a cs) f) []) /\
    update_finxn_flag s' = pending (foldl (nv_step emmc) a cs) /\
    replies s' = replies s ++ concat (answers <$> cs).
Proof.
  intros Hfa Hpa Hs Hok Hcs Hsp Hr. pose proof (wp_main_loop emmc fa pa Hfa Hpa rounds s a cs Hs Hok Hcs Hsp Hr) as H.
  unfold wp in H. destruct (main_loop _ _ _ _ s) as [?|s'|f]; [done| |done]. exists s'. split; [done|].
  destruct H as (Hs' & _ & _ & Hrep). split; [apply Hs'|]. split; [apply Hs'|done].
Qed.

Lemma nv_daemon_refines_witness :
  let a := foldl (nv_step true) (nv_example true) commands_example in
  exists s', main_loop true 0 0 20 (daemon_example true script_example) = Exit s' /\
    (forall f, disk s' f = Stored (nv_content a f) []) /\ update_finxn_flag s' = pending a /\ replies s' = [header 0 1 5 6].
Proof.
  apply (nv_daemon_refines true 0 0 20 (daemon_example true script_example) (nv_example true) commands_example).
  - reflexivity.
  - reflexivity.
  - apply daemon_example_holds.
  - apply nv_example_ok.
  - apply commands_example_ok.
  - apply script_example_speaks.
  - change (length script_example < 20)%nat. vm_compute. lia.
Defined.

(** C3: at every moment of such a run, whatever a power failure leaves of the
    files - each byte may be that of any content since the last [fsync] -
    one of the two copies of the fixed items is valid, with its checksum and
    its mark, and so is one of those of the product data. *)
Theorem nv_daemon_crash_safe emmc fa pa rounds s a cs :
  fa mod 2 = 0 -> pa mod 2 = 0 -> holds s a -> nv_ok emmc a -> Forall command_ok cs -> speaks cs (pipe s) ->
  (length (pipe s) < rounds)%nat ->
  exists s' h, main_loop emmc fa pa rounds s = Exit s' /\ history s' = history s ++ h /\ Forall (safe emmc) h.
Proof.
  intros Hfa Hpa Hs Hok Hcs Hsp Hr. pose proof (wp_main_loop emmc fa pa Hfa Hpa rounds s a cs Hs Hok Hcs Hsp Hr) as H.
  unfold wp in H. destruct (main_loop _ _ _ _ s) as [?|s'|f]; [done| |done]. exists s'.
  destruct H as (_ & _ & (h & E & F) & _). by exists h.
Qed.

Lemma nv_daemon_crash_safe_witness :
  exists s' h, main_loop false 0 0 20 (daemon_example false script_example) = Exit s' /\
    history s' = h /\ Forall (safe false) h.
Proof.
  apply (nv_daemon_crash_safe false 0 0 20 (daemon_example false script_example) (nv_example false) commands_example).
  - reflexivity.
  - reflexivity.
  - apply daemon_example_holds.
  - apply nv_example_ok.
  - apply commands_example_ok.
  - apply script_example_speaks.
  - change (length script_example < 20)%nat. vm_compute. lia.
Defined.

(** ** What breaks the promise *)

(** A sync command writes the buffer as it is. *)
Lemma wp_sync_any s t o z (Q : unit -> nvitemd -> Prop) E :
  opens s = [] -> writes s = [] -> update_finxn_flag s = true -> req_header s = header t 1 o z ->
  FIXNV_SIZE + 4 <= zlen (fixnv_buffer s) ->
  (forall s', pipe s' = pipe s -> (forall f, f <> FIX_NV2 -> disk s' f = Stored (content (disk s f)) []) ->
     disk s' FIX_NV2 = Stored (pwrite (content (disk s FIX_NV2)) 0 (take (Z.to_nat (FIXNV_SIZE + 4)) (fixnv_buffer s))) [] ->
     Q tt s') ->
  wp no_fault sync_command Q E s.
Proof.
  intros Ho Hw Hf Hr Hl HQ. unfold sync_command. wp_step. wp_step. wp_step. rewrite Hf. wp_step.
  unfold update_backupfile. wp_step. apply wp_open_ok; [done|]. cbn [negb]. wp_step. wp_step.
  apply wp_block; [done|apply take_nonempty; size_lia|]. wp_step. wp_step. wp_step. wp_step. wp_step.
  unfold sync. wp_step. wp_step. wp_step. wp_step. eapply wp_lift_Some; [rewrite Hr; reflexivity|]. wp_step. wp_step. wp_step.
  apply HQ; [done| |]; cbn [disk add_reply set_header set_disk set_flag].
  - intros f Hne. by rewrite disk_block_ne.
  - by rewrite disk_block_eq.
Qed.

Lemma loaded_take n c : n <= zlen c -> loaded n n c = take (Z.to_nat n) c.
Proof.
  intros H. unfold loaded. replace (Z.to_nat n - _)%nat with 0%nat; [apply app_nil_r|].
  rewrite length_take. unfold zlen in H. lia.
Qed.

(** The first pieces of a request, and then a restart of the modem. *)
Lemma wp_interrupted emmc fa pa s a off size bs p (E : nvitemd -> Prop) :
  holds s a -> FIXNV_SIZE + 4 <= zlen (fix1 a) -> 0 <= off -> off + size <= FIXNV_SIZE ->
  0 < zlen bs < size -> zlen bs <= DATA_BUF_LEN -> pipe s = PipeData bs :: PipeData [] :: p ->
  wp no_fault (data_request emmc fa pa 0 off size)
    (fun nx s' => nx = Reopen /\ pipe s' = p /\ disk s' = disk s /\ opens s' = [] /\ writes s' = [] /\
       update_finxn_flag s' = update_finxn_flag s /\ req_header s' = req_header s /\
       fixnv_buffer s' = put (take (Z.to_nat (FIXNV_SIZE + 4)) (fix1 a)) off bs) E s.
Proof.
  intros [Hd Ho Hw Hf Hh Hb] Hl Hoff Hsize Hbs Hbuf Hp. unfold data_request. change (0 =? 0) with true. cbv iota.
  unfold begin_fixnv. wp_step. wp_step. apply wp_open_or_exit; [done|].
  wp_step. apply wp_load_file; [size_lia|]. rewrite Hd. cbn [content nv_content]. rewrite loaded_take by done.
  pose proof (zlen_take (fix1 a) (FIXNV_SIZE + 4) ltac:(size_lia)) as Hz. set (b := take _ _) in *.
  wp_step. eapply wp_lift_Some; [apply load16_halfword; size_lia|]. wp_step. wp_step. wp_step.
  wp_step. unfold receive. wp_step. wp_step.
  replace (s32 size) with size by (pose proof FIXNV_SIZE_eq; wrap_lia).
  cbn [pipe set_index set_fixnv]. rewrite Hp, !pipe_size_data. cbn [data_loop].
  rewrite (proj2 (Z.leb_gt _ _)) by lia. wp_step.
  assert (Hn : zlen bs <= if size >? DATA_BUF_LEN then DATA_BUF_LEN else size) by (destruct (_ >? _); lia).
  unfold read_pipe at 1. wp_step. wp_step. cbn [pipe set_index set_fixnv]. rewrite Hp. wp_step. wp_step. wp_step.
  rewrite (proj2 (Z.leb_le _ _)) by done. rewrite take_ge by (unfold zlen in Hn; lia). cbn [fst snd].
  rewrite (proj2 (Z.eqb_neq _ _)), (proj2 (Z.ltb_ge _ _)) by lia. wp_step.
  unfold store_piece. rewrite (proj2 (Z.eqb_neq FIXNV_SIZE RUNTIMENV_SIZE)) by size_lia. wp_step. wp_step. wp_step.
  rewrite Z.eqb_refl. wp_step. eapply wp_lift_Some; [apply store_ok; cbn; lia|]. wp_step. wp_step. cbn [fst snd].
  assert (Hlen : exists n, length bs = S n) by (exists (pred (length bs)); unfold zlen in Hbs; lia).
  destruct Hlen as [n ->]. cbn [Nat.add data_loop]. rewrite (proj2 (Z.leb_gt _ _)) by lia. wp_step.
  unfold read_pipe. wp_step. wp_step. cbn [pipe set_fixnv set_env]. wp_step. wp_step. wp_step.
  rewrite take_nil. cbn [fst snd]. change (zlen (@nil Z) =? 0) with true. cbv iota.
  unfold check_mocor_reboot. wp_step. wp_step. wp_step. wp_step. split_and!; try done. cbn [pipe set_env].
  by rewrite (proj2 (Z.leb_le _ _)) by (change (zlen (@nil Z)) with 0; destruct (size - zlen bs >? _); unfold DATA_BUF_LEN; lia).
Qed.

(** The checksum of a valid copy. *)
Lemma fixnv_valid_sum c : fixnv_valid c = true -> slice c (FIXNV_SIZE - 4) 2 = Some (le16 (sum_of c (FIXNV_SIZE - 4))).
Proof.
  intros H. pose proof (fixnv_valid_length c H). revert H. unfold fixnv_valid.
  destruct (slice c 0 (FIXNV_SIZE - 4)) as [data|] eqn:E; [|done]. apply slice_Some in E as (-> & _ & _).
  change (drop (Z.to_nat 0) c) with c. destruct (calc_checksum_take 0 c (FIXNV_SIZE - 4)) as [_ ->]; [done|size_lia|].
  by intros [Hc _]%bool_decide_eq_true.
Qed.

Lemma slice_put_after b off bs i n : 0 <= off -> off + zlen bs <= i -> i <= zlen b -> slice (put b off bs) i n = slice b i n.
Proof.
  intros Ho Hi Hl. pose proof (zlen_nonneg bs). unfold slice.
  assert (E : drop (Z.to_nat i) (put b off bs) = drop (Z.to_nat i) b); [|by rewrite E].
  unfold put, zlen in *. rewrite app_assoc, drop_app_ge by (rewrite length_app, length_take; lia).
  rewrite drop_drop, length_app, length_take. f_equal. lia.
Qed.

(** a restart of the modem in the middle of a request for the fixed items
    leaves what came of it in the buffer, over the checksum of the data from
    before; when an earlier request still waits for its sync command, that
    command writes the buffer to the second copy as it is. So one interrupted
    request makes the backup invalid, unless the checksums happen to agree,
    and from then on the next torn write of the first copy leaves no valid
    one. *)
Theorem nv_daemon_interrupted emmc fa pa s a off size bs t o z :
  holds s a -> nv_ok emmc a -> pending a = true -> 0 <= off -> off + size <= FIXNV_SIZE -> 0 < zlen bs < size ->
  off + zlen bs <= FIXNV_SIZE - 4 -> zlen bs <= DATA_BUF_LEN ->
  0 <= t < 65536 -> 0 <= o < 4294967296 -> 0 <= z < 4294967296 ->
  pipe s = [PipeData (header 0 0 off size); PipeData bs; PipeData []; PipeData (header t 1 o z)] ->
  let b := put (take (Z.to_nat (FIXNV_SIZE + 4)) (fix1 a)) off bs in
  exists s', main_loop emmc fa pa 3 s = Exit s' /\
    disk s' FIX_NV1 = Stored (fix1 a) [] /\ disk s' FIX_NV2 = Stored (pwrite (fix2 a) 0 b) [] /\
    (le16 (sum_of b (FIXNV_SIZE - 4)) <> le16 (sum_of (fix1 a) (FIXNV_SIZE - 4)) ->
     fixnv_valid (content (disk s' FIX_NV2)) = false).
Proof.
  intros Hs Hok Hpend Hoff Hsize Hbs Hdata Hbuf Ht Ho Hz Hp b.
  pose proof (ok_fix1 _ _ Hok Hpend) as Hv. pose proof (fixnv_valid_length _ Hv) as Hl.
  pose proof (zlen_take (fix1 a) (FIXNV_SIZE + 4) ltac:(size_lia)) as Htk.
  assert (Hb : zlen b = FIXNV_SIZE + 4) by (subst b; rewrite zlen_put; size_lia).
  cut (wp no_fault (main_loop emmc fa pa 3) (fun _ _ => False)
    (fun s' => disk s' FIX_NV1 = Stored (fix1 a) [] /\ disk s' FIX_NV2 = Stored (pwrite (fix2 a) 0 b) []) s).
  { unfold wp. destruct (main_loop _ _ _ _ s) as [?|s'|f]; [done| |done]. intros [E1 E2]. exists s'.
    split_and!; [done..|]. intros Hne. rewrite E2. cbn [content]. apply not_true_iff_false. intros Hv2.
    apply fixnv_valid_sum in Hv. apply fixnv_valid_sum in Hv2. rewrite slice_pwrite in Hv2 by size_lia. apply Hne.
    rewrite <- (sum_of_take (pwrite _ _ _) _ (FIXNV_SIZE + 4)), pwrite_0 in Hv2 by (try rewrite pwrite_0; size_lia).
    rewrite take_app_length' in Hv2 by (unfold zlen in Hb; lia).
    unfold b at 1 in Hv2. rewrite slice_put_after, slice_take in Hv2 by size_lia. congruence. }
  cbn [main_loop]. wp_step.
  eapply wp_iteration; [exact Hp|apply Hs|lia|lia|size_lia|size_lia|]. change (0 =? 1) with false. cbv iota.
  eapply wp_mono; [eapply (wp_interrupted emmc fa pa _ a off size bs); [by eapply holds_ext|done|done|done|done|done|reflexivity]| |intros s' H; exact H].
  intros ? s1 (-> & Hp1 & Hd1 & Ho1 & Hw1 & Hf1 & Hh1 & Hb1). wp_step. apply wp_open_or_exit; [done|]. wp_step.
  eapply wp_iteration; [exact Hp1|by rewrite Hh1|done|lia|done|done|]. change (1 =? 1) with true. cbv iota. wp_step.
  destruct Hs as [Hd _ _ Hf _ _].
  eapply wp_sync_any; [done|done| |reflexivity| |].
  { cbn [update_finxn_flag set_header set_pipe set_env]. rewrite Hf1. cbn. by rewrite Hf. }
  { cbn [fixnv_buffer set_header set_pipe set_env]. rewrite Hb1. fold b. lia. }
  intros s2 Hp2 Hd2 Hd2'. wp_step. wp_step. wp_step. wp_step. unfold iteration. wp_step. unfold read_pipe. wp_step. wp_step.
  rewrite Hp2. cbn [pipe set_header set_pipe set_env]. wp_step. rewrite Hd2, Hd2' by done. cbn [disk set_header set_pipe set_env fixnv_buffer]. rewrite Hd1, Hb1. fold b.
  cbn [disk set_header set_pipe set_env]. rewrite !Hd. rewrite (take_ge b) by (unfold zlen in Hb; lia). done.
Qed.

Lemma nv_daemon_interrupted_witness :
  let s := daemon_example true [PipeData (header 0 0 0 2); PipeData [1]; PipeData []; PipeData (header 0 1 0 0)] in
  exists s', main_loop true 0 0 3 s = Exit s' /\ disk s' FIX_NV1 = Stored nv_image [] /\
    disk s' FIX_NV2 = Stored (pwrite nv_image 0 (put (take (Z.to_nat (FIXNV_SIZE + 4)) nv_image) 0 [1])) [] /\
    fixnv_valid (content (disk s' FIX_NV2)) = false.
Proof.
  intros s. destruct (nv_daemon_interrupted true 0 0 s (nv_example true) 0 2 [1] 0 0 0) as (s' & H1 & H2 & H3 & H4).
  - apply daemon_example_holds.
  - apply nv_example_ok.
  - reflexivity.
  - lia.
  - size_lia.
  - change (zlen [1]) with 1. lia.
  - change (zlen [1]) with 1. size_lia.
  - vm_compute. discriminate.
  - lia.
  - lia.
  - lia.
  - reflexivity.
  - exists s'. refine (conj H1 (conj H2 (conj H3 (H4 _)))). apply nv_image_sums.
Defined.

(** "Fixnv is too big": the daemon says so in its log and goes on. The
    data of a request for the fixed items that ends past the mark, which comes
    in one piece, is copied past the end of [fixnv_buffer]. *)
Theorem nv_daemon_too_big emmc fa pa rounds s a off d p :
  holds s a -> 0 <= off -> FIXNV_SIZE + 4 < off + zlen d -> off < 4294967296 -> 0 < zlen d <= DATA_BUF_LEN ->
  pipe s = PipeData (header 0 0 off (zlen d)) :: PipeData d :: p ->
  main_loop emmc fa pa (S rounds) s = Bad OutOfBounds.
Proof.
  intros Hs Hoff Hbig Hmax Hd Hp.
  cut (wp (fun f => f = OutOfBounds) (main_loop emmc fa pa (S rounds)) (fun _ _ => False) (fun _ => False) s).
  { unfold wp. destruct (main_loop _ _ _ _ s); [done|done|]. by intros ->. }
  cbn [main_loop]. wp_step. unfold DATA_BUF_LEN in Hd.
  eapply wp_iteration; [exact Hp|apply Hs|lia|lia|lia|lia|]. change (0 =? 1) with false. cbv iota.
  unfold data_request. change (0 =? 0) with true. cbv iota.
  wp_step. unfold begin_fixnv. wp_step. apply wp_open_or_exit; [apply Hs|].
  wp_step. apply wp_load_file; [size_lia|].
  pose proof (zlen_loaded (FIXNV_SIZE + 4) (FIXNV_SIZE + 4)) as Hz.
  wp_step. eapply wp_lift_Some; [apply load16_halfword; rewrite ?Hz; size_lia|]. wp_step. wp_step. wp_step.
  wp_step. unfold receive. wp_step. wp_step. replace (s32 (zlen d)) with (zlen d) by wrap_lia.
  cbn [pipe set_index set_fixnv set_header set_pipe set_env]. rewrite pipe_size_data. cbn [data_loop].
  rewrite (proj2 (Z.leb_gt _ _)) by lia. wp_step. unfold read_pipe. wp_step. wp_step.
  cbn [pipe set_index set_fixnv set_header set_pipe set_env]. wp_step. wp_step. wp_step.
  assert (Hn : (if zlen d >? DATA_BUF_LEN then DATA_BUF_LEN else zlen d) = zlen d).
  { destruct (Z.gtb_spec (zlen d) DATA_BUF_LEN); [unfold DATA_BUF_LEN in *; lia|done]. }
  rewrite Hn, take_ge by (unfold zlen; lia). cbn [fst snd].
  rewrite (proj2 (Z.eqb_neq _ _)), (proj2 (Z.ltb_ge _ _)) by lia. wp_step.
  unfold store_piece. rewrite (proj2 (Z.eqb_neq FIXNV_SIZE RUNTIMENV_SIZE)) by size_lia. wp_step. wp_step. wp_step.
  rewrite Z.eqb_refl. wp_step. apply wp_lift; [|done].
  cbn [fixnv_buffer fixnv_buffer_offset set_index set_fixnv set_header set_pipe set_env].
  rewrite store_None; [done|done|rewrite Hz; size_lia|lia].
Qed.

Lemma nv_daemon_too_big_witness :
  main_loop true 0 0 1 (daemon_example true [PipeData (header 0 0 65538 4); PipeData [1; 2; 3; 4]]) = Bad OutOfBounds.
Proof.
  apply (nv_daemon_too_big true 0 0 0 _ (nv_example true) 65538 [1; 2; 3; 4] []).
  - apply daemon_example_holds.
  - lia.
  - change (zlen [1; 2; 3; 4]) with 4. size_lia.
  - lia.
  - change (zlen [1; 2; 3; 4]) with 4. unfold DATA_BUF_LEN. lia.
  - reflexivity.
Defined.
