(* ===== verification/CmrMem.v ===== *)
(** * The arrangement of the capture memory

    src/common/libs/libcamera/sc8825/src/cmr_mem.c: how much memory a capture
    gets, in one or two pieces, and the places in it of the image as the
    sensor delivers it, the planes it is scaled into, the JPEG, the thumbnail
    and the buffers for scaling and rotation. *)
From stdpp Require Import base list.
From Stdlib Require Import ZArith Lia.
From S2P Require Import Prelude.

(** ** Definitions *)

(** The members that this code uses; [addr_phy] and [addr_vir] are always
    written together. *)
Record both := Both { phy : Z; vir : Z }.
Record img_size := Img_size { width : Z; height : Z }.
Record img_rect := Img_rect { start_x : Z; start_y : Z; rect_width : Z; rect_height : Z }.
Record img_frm := Img_frm {
  fmt : Z;
  buf_size : Z;
  size : img_size;
  addr_y : both;
  addr_u : both
}.

Record cmr_cap_2_frm := Cmr_cap_2_frm { major_frm : img_frm; minor_frm : img_frm }.

Record cmr_cap_mem := Cmr_cap_mem {
  cap_raw : img_frm;
  cap_yuv : img_frm;
  target_yuv : img_frm;
  target_jpeg : img_frm;
  thum_yuv : img_frm;
  thum_jpeg : img_frm;
  jpeg_tmp : img_frm;
  scale_tmp : img_frm;
  cap_yuv_rot : img_frm;
  isp_tmp : img_frm
}.

Definition zero_frm : img_frm := Img_frm 0 0 (Img_size 0 0) (Both 0 0) (Both 0 0).
Definition zero_mem : cmr_cap_mem :=
  Cmr_cap_mem zero_frm zero_frm zero_frm zero_frm zero_frm zero_frm zero_frm zero_frm zero_frm zero_frm.

(** Stores into the members of a frame, and into the frames of an image. *)
Definition set_fmt (x : Z) (f : img_frm) : img_frm := Img_frm x (buf_size f) (size f) (addr_y f) (addr_u f).
Definition set_buf_size (x : Z) (f : img_frm) : img_frm := Img_frm (fmt f) x (size f) (addr_y f) (addr_u f).
Definition set_size (x : img_size) (f : img_frm) : img_frm := Img_frm (fmt f) (buf_size f) x (addr_y f) (addr_u f).
Definition set_y (x : both) (f : img_frm) : img_frm := Img_frm (fmt f) (buf_size f) (size f) x (addr_u f).
Definition set_u (x : both) (f : img_frm) : img_frm := Img_frm (fmt f) (buf_size f) (size f) (addr_y f) x.

Definition on_cap_raw (g : img_frm -> img_frm) (m : cmr_cap_mem) : cmr_cap_mem :=
  Cmr_cap_mem (g (cap_raw m)) (cap_yuv m) (target_yuv m) (target_jpeg m) (thum_yuv m) (thum_jpeg m) (jpeg_tmp m) (scale_tmp m) (cap_yuv_rot m) (isp_tmp m).
Definition on_cap_yuv (g : img_frm -> img_frm) (m : cmr_cap_mem) : cmr_cap_mem :=
  Cmr_cap_mem (cap_raw m) (g (cap_yuv m)) (target_yuv m) (target_jpeg m) (thum_yuv m) (thum_jpeg m) (jpeg_tmp m) (scale_tmp m) (cap_yuv_rot m) (isp_tmp m).
Definition on_target_yuv (g : img_frm -> img_frm) (m : cmr_cap_mem) : cmr_cap_mem :=
  Cmr_cap_mem (cap_raw m) (cap_yuv m) (g (target_yuv m)) (target_jpeg m) (thum_yuv m) (thum_jpeg m) (jpeg_tmp m) (scale_tmp m) (cap_yuv_rot m) (isp_tmp m).
Definition on_target_jpeg (g : img_frm -> img_frm) (m : cmr_cap_mem) : cmr_cap_mem :=
  Cmr_cap_mem (cap_raw m) (cap_yuv m) (target_yuv m) (g (target_jpeg m)) (thum_yuv m) (thum_jpeg m) (jpeg_tmp m) (scale_tmp m) (cap_yuv_rot m) (isp_tmp m).
Definition on_cap_yuv_rot (g : img_frm -> img_frm) (m : cmr_cap_mem) : cmr_cap_mem :=
  Cmr_cap_mem (cap_raw m) (cap_yuv m) (target_yuv m) (target_jpeg m) (thum_yuv m) (thum_jpeg m) (jpeg_tmp m) (scale_tmp m) (g (cap_yuv_rot m)) (isp_tmp m).
(** The thumbnail's frames and the scaler's. *)
Definition on_misc (g1 g2 g3 : img_frm -> img_frm) (m : cmr_cap_mem) : cmr_cap_mem :=
  Cmr_cap_mem (cap_raw m) (cap_yuv m) (target_yuv m) (target_jpeg m) (g1 (thum_yuv m)) (g2 (thum_jpeg m)) (jpeg_tmp m) (g3 (scale_tmp m)) (cap_yuv_rot m) (isp_tmp m).

(** *** Sizes *)

Definition PIXEL_1P3_MEGA : Z := 0x180000.
Definition PIXEL_2P0_MEGA : Z := 0x200000.
Definition PIXEL_3P0_MEGA : Z := 0x300000.
Definition PIXEL_5P0_MEGA : Z := 0x500000.
Definition PIXEL_8P0_MEGA : Z := 0x800000.
Definition CMR_SLICE_HEIGHT : Z := 128.
Definition ISP_YUV_TO_RAW_GAP : Z := CMR_SLICE_HEIGHT.
Definition RAWRGB_BIT_WIDTH : Z := 10.
Definition CMR_ZOOM_FACTOR : Z := 2.
Definition CMR_JPEG_COMPRESS_FACTOR : Z := 1.
Definition JPEG_EXIF_SIZE : Z := 64 * 1024.
Definition BACK_CAMERA_ID : Z := 0.
Definition FRONT_CAMERA_ID : Z := 1.
Definition SENSOR_IMAGE_FORMAT_RAW : Z := 2.
Definition IMG_DATA_TYPE_JPEG : Z := 0.
Definition IMG_DATA_TYPE_YUV420 : Z := 2.
Definition IMG_DATA_TYPE_RAW : Z := 5.

Definition ADDR_BY_WORD (a : Z) : Z := Z.land (u32 (a + 3)) (u32 (Z.lnot 3)).
Definition CMR_JPEG_SZIE (w h : Z) : Z := u32 (w * h) / CMR_JPEG_COMPRESS_FACTOR.

Definition get_jpeg_size (width height thum_width thum_height : Z) : Z :=
  ADDR_BY_WORD (u32 (CMR_JPEG_SZIE width height + JPEG_EXIF_SIZE)).
Definition get_thum_yuv_size (width height thum_width thum_height : Z) : Z :=
  u32 (u32 (thum_width * thum_height) * 3) / 2.
Definition get_thum_jpeg_size (width height thum_width thum_height : Z) : Z :=
  ADDR_BY_WORD (CMR_JPEG_SZIE thum_width thum_height).
Definition get_scaler_tmp_size (width height thum_width thum_height : Z) : Z :=
  u32 (u32 (width * CMR_SLICE_HEIGHT) * CMR_ZOOM_FACTOR).

(** [get_size], from THUM_YUV on. *)
Definition get_size : list (Z -> Z -> Z -> Z -> Z) := [get_thum_yuv_size; get_thum_jpeg_size; get_scaler_tmp_size].

(** *** How much memory to get *)

Record cap_size_to_mem := Cap_size_to_mem { pixel_num : Z; major_size : Z; minor_size : Z }.

Definition size_tab (l : list (Z * Z)) : list cap_size_to_mem :=
  zip_with (fun p s => Cap_size_to_mem p (Z.shiftl s.1 20) (Z.shiftl s.2 20))
    [PIXEL_1P3_MEGA; PIXEL_2P0_MEGA; PIXEL_3P0_MEGA; PIXEL_5P0_MEGA; PIXEL_8P0_MEGA] l.

(** [rotation]: CONFIG_BACK_CAMERA_ROTATION, CONFIG_FRONT_CAMERA_ROTATION. *)
Definition back_cam_mem_size_tab (rotation : bool) : list cap_size_to_mem :=
  size_tab (if rotation then [(6, 0); (8, 0); (11, 0); (16, 8); (16, 16)] else [(4, 0); (5, 0); (9, 0); (16, 0); (16, 8)]).
Definition back_cam_raw_mem_size_tab (rotation : bool) : list cap_size_to_mem :=
  size_tab (if rotation then [(8, 0); (8, 1); (7, 5); (16, 8); (24, 16)] else [(6, 0); (7, 0); (8, 0); (16, 0); (24, 4)]).
Definition front_cam_mem_size_tab (rotation : bool) : list cap_size_to_mem :=
  size_tab (if rotation then [(6, 0); (8, 0); (11, 0); (16, 8); (16, 16)] else [(4, 0); (5, 0); (7, 0); (16, 0); (16, 8)]).
Definition front_cam_raw_mem_size_tab (rotation : bool) : list cap_size_to_mem :=
  size_tab (if rotation then [(8, 0); (8, 1); (7, 5); (16, 8); (24, 16)] else [(6, 0); (7, 0); (8, 0); (16, 0); (24, 4)]).
Definition raw_mem_size_tab : list cap_size_to_mem := size_tab [(4, 4); (8, 8); (16, 2); (16, 0); (16, 8)].

(** The sizes of the two pieces; [None] is the error, for a NULL pointer or an
    image that is too large. *)
Definition camera_capture_buf_size (back_rotation front_rotation : bool) (camera_id sn_fmt : Z) (image_size : option img_size)
    : option (Z * Z) :=
  image_size ← image_size;
  let size_pixel := u32 (width image_size * height image_size) in
  let mem_tab :=
    if sn_fmt =? SENSOR_IMAGE_FORMAT_RAW then
      if camera_id =? BACK_CAMERA_ID then back_cam_raw_mem_size_tab back_rotation
      else if camera_id =? FRONT_CAMERA_ID then front_cam_raw_mem_size_tab front_rotation
      else raw_mem_size_tab
    else
      if camera_id =? BACK_CAMERA_ID then back_cam_mem_size_tab back_rotation
      else if camera_id =? FRONT_CAMERA_ID then front_cam_mem_size_tab front_rotation
      else raw_mem_size_tab in
  e ← find (fun e => size_pixel <=? pixel_num e) mem_tab;
  Some (major_size e, minor_size e).

(** *** The arrangement *)

(** [capture_mem] and the local variables that follow the two pieces: where
    the used part ends and what is left. *)
Record arrange := Arrange {
  capture_mem : list cmr_cap_mem;
  major_end : Z;
  major_res : Z;
  minor_end : Z;
  minor_res : Z
}.

Definition set_mem (l : list cmr_cap_mem) (s : arrange) : arrange := Arrange l (major_end s) (major_res s) (minor_end s) (minor_res s).
Definition take_major (n : Z) : M arrange unit :=
  modify (fun s => Arrange (capture_mem s) (u32 (major_end s + n)) (u32 (major_res s - n)) (minor_end s) (minor_res s)).
Definition take_minor (n : Z) : M arrange unit :=
  modify (fun s => Arrange (capture_mem s) (major_end s) (major_res s) (u32 (minor_end s + n)) (u32 (minor_res s - n))).

(** [cap_mem->... = ...], [cap_mem] pointing to the [k]th image. *)
Definition upd (k : nat) (g : cmr_cap_mem -> cmr_cap_mem) : M arrange unit :=
  s <- get ;;
  m <- lift OutOfBounds (capture_mem s !! k) ;;
  modify (set_mem (<[k := g m]> (capture_mem s))).

(** [CMR_NO_MEM(a, b)] *)
Definition CMR_NO_MEM (a b : Z) : M arrange unit := require (negb (a >? b)).

Definition shift (a : both) (o : Z) : both := Both (u32 (phy a + o)) (u32 (vir a + o)).

(** The arguments. *)
Record request := Request {
  sn_size : img_size;
  sn_trim : img_rect;
  image_size : img_size;
  orig_fmt : Z;
  cap_size : option img_size;
  thum_size : img_size;
  need_rot : Z;
  image_cnt : Z
}.

(** The numbers that the loops after the first image still need. *)
Record layout := Layout {
  channel_size : Z;
  raw_size : Z;
  y_to_raw : Z;
  yy_to_y : Z;
  yuv_raw_size : Z
}.

Section arrange.
Context (frm : cmr_cap_2_frm) (q : request).

Definition major_at (o : Z) : both := shift (addr_y (major_frm frm)) o.
Definition minor_at (o : Z) : both := shift (addr_y (minor_frm frm)) o.

Definition image_channel : Z := u32 (width (image_size q) * height (image_size q)).
Definition sn_channel : Z := u32 (width (sn_size q) * height (sn_size q)).

(** The rows above the capture: what is recovered when the sensor delivers
    more than is captured. *)
Definition raw_yy_to_y : Z :=
  if negb (width (image_size q) =? width (sn_size q)) || negb (height (image_size q) =? height (sn_size q)) then
    u32 (ISP_YUV_TO_RAW_GAP * width (sn_size q))
  else if truthy (start_y (sn_trim q)) then
    u32 (u32 (height (sn_size q) - rect_height (sn_trim q) - start_y (sn_trim q)) * width (sn_size q))
  else 0.

(** The first image of a RAW sensor: in the major piece the luma of the target,
    over the rows of the sensor's image, then the JPEG; the chroma where there
    is room. *)
Definition first_raw : M arrange layout :=
  let channel_size := sn_channel in
  let raw_size := u32 (channel_size * RAWRGB_BIT_WIDTH) / 8 in
  let y_to_raw := u32 (ISP_YUV_TO_RAW_GAP * width (sn_size q)) in
  let yy_to_y := raw_yy_to_y in
  let uv_size := u32 (Z.shiftr channel_size 1 + Z.shiftr yy_to_y 1) in
  let useless_raw := u32 (yy_to_y * RAWRGB_BIT_WIDTH) / 8 in
  let y := addr_y (major_frm frm) in
  upd 0 (on_target_yuv (set_y y)) ;;;
  upd 0 (on_cap_yuv (set_y (shift y yy_to_y))) ;;;
  upd 0 (on_cap_raw (fun f => set_buf_size raw_size (set_y (shift (shift y yy_to_y) y_to_raw) f))) ;;;
  let yuv_raw_size := u32 (raw_size + y_to_raw + yy_to_y + Z.shiftr channel_size 1) in
  let offset := u32 (raw_size + y_to_raw + yy_to_y - useless_raw) in
  s <- get ;;
  CMR_NO_MEM offset (major_res s) ;;;
  take_major offset ;;;
  let jpeg_size := get_jpeg_size (width (image_size q)) (height (image_size q)) (width (thum_size q)) (height (thum_size q)) in
  s <- get ;;
  CMR_NO_MEM jpeg_size (major_res s) ;;;
  upd 0 (on_target_jpeg (set_y (major_at (major_end s)))) ;;;
  take_major jpeg_size ;;;
  s <- get ;;
  u <- (if uv_size <? major_res s then
          upd 0 (on_target_yuv (set_u (major_at (major_end s)))) ;;;
          take_major uv_size ;;;
          ret (major_at (major_end s))
        else
          CMR_NO_MEM uv_size (minor_res s) ;;;
          upd 0 (on_target_yuv (set_u (addr_y (minor_frm frm)))) ;;;
          take_minor uv_size ;;;
          ret (addr_y (minor_frm frm))) ;;
  upd 0 (on_cap_yuv (fun f => set_u (shift u (Z.shiftr yy_to_y 1)) f)) ;;;
  upd 0 (on_cap_yuv (fun f => set_fmt IMG_DATA_TYPE_YUV420 (set_size (sn_size q) (set_buf_size (Z.shiftr (u32 (channel_size * 3)) 1) f)))) ;;;
  ret (Layout channel_size raw_size y_to_raw yy_to_y yuv_raw_size).

(** The planes of an image that does not come as RAW data; the result is
    [yy_to_y] and [offset]. *)
Definition yuv_planes (k : nat) (y : both) : M arrange (Z * Z) :=
  let channel_size := image_channel in
  upd k (on_target_yuv (fun f => set_u (shift y channel_size) (set_y y f))) ;;;
  let offset := Z.shiftr (u32 (channel_size * 3)) 1 in
  if orig_fmt q =? IMG_DATA_TYPE_JPEG then
    let tmp := u32 (u32 (start_y (sn_trim q) + rect_height (sn_trim q)) * width (sn_size q)) in
    let yy_to_y := u32 (channel_size - tmp) in
    upd k (on_cap_yuv (fun f => set_u (shift (shift y yy_to_y) sn_channel) (set_y (shift y yy_to_y) f))) ;;;
    ret (yy_to_y, u32 (offset + u32 (u32 (height (sn_size q) - start_y (sn_trim q) - rect_height (sn_trim q)) * width (sn_size q))))
  else
    cap_size <- lift NullPointer (cap_size q) ;;
    let yy_to_y := u32 (channel_size - u32 (width cap_size * height cap_size)) in
    upd k (on_cap_yuv (fun f => set_u (shift (shift y channel_size) (Z.shiftr yy_to_y 1)) (set_y (shift y yy_to_y) f))) ;;;
    ret (yy_to_y, offset).

(** Size and format of [cap_yuv]. *)
Definition cap_yuv_members (k : nat) : M arrange unit :=
  cap_size <- lift NullPointer (cap_size q) ;;
  upd k (on_cap_yuv (fun f => set_fmt IMG_DATA_TYPE_YUV420 (set_size cap_size (set_buf_size (Z.shiftr (u32 (image_channel * 3)) 1) f)))).

Definition first_yuv : M arrange layout :=
  r <- yuv_planes 0 (addr_y (major_frm frm)) ;;
  let offset := r.2 in
  s <- get ;;
  CMR_NO_MEM offset (major_res s) ;;;
  take_major offset ;;;
  let jpeg_size := get_jpeg_size (width (image_size q)) (height (image_size q)) (width (thum_size q)) (height (thum_size q)) in
  s <- get ;;
  CMR_NO_MEM jpeg_size (major_res s) ;;;
  upd 0 (on_target_jpeg (set_y (major_at (major_end s)))) ;;;
  take_major jpeg_size ;;;
  cap_yuv_members 0 ;;;
  ret (Layout image_channel 0 0 r.1 offset).

(** Size and format of [target_yuv]. *)
Definition target_yuv_members (l : layout) (k : nat) : M arrange unit :=
  upd k (on_target_yuv (fun f =>
    set_fmt IMG_DATA_TYPE_YUV420 (set_size (image_size q) (set_buf_size (Z.shiftr (u32 (channel_size l * 3)) 1) f)))).

(** The frames of [sizes] one after the other in the major piece, until one
    does not fit; the rest of [sizes] is returned with them. *)
Fixpoint alloc_major (sizes : list Z) : M arrange (list img_frm * list Z) :=
  match sizes with
  | [] => ret ([], [])
  | n :: rest =>
      s <- get ;;
      if major_res s >=? n then
        let y := major_at (major_end s) in
        take_major n ;;;
        r <- alloc_major rest ;;
        ret (Img_frm 0 n (Img_size 0 0) y (shift y (u32 (n * 2) / 3)) :: r.1, r.2)
      else ret ([], sizes)
  end.

Fixpoint alloc_minor (sizes : list Z) : M arrange (list img_frm * list Z) :=
  match sizes with
  | [] => ret ([], [])
  | n :: rest =>
      s <- get ;;
      if minor_res s >=? n then
        let y := minor_at (minor_end s) in
        take_minor n ;;;
        r <- alloc_minor rest ;;
        ret (Img_frm 0 n (Img_size 0 0) y (shift y (u32 (n * 2) / 3)) :: r.1, r.2)
      else ret ([], sizes)
  end.

Definition misc_sizes : list Z :=
  (fun f => f (width (image_size q)) (height (image_size q)) (width (thum_size q)) (height (thum_size q))) <$> get_size.

(** The frames of the thumbnail and the scaler; [img_frame] from THUM_YUV on. *)
Definition alloc_misc : M arrange (list img_frm) :=
  r <- alloc_major misc_sizes ;;
  r' <- alloc_minor r.2 ;;
  require (match r'.2 with [] => true | _ => false end) ;;;
  ret (r.1 ++ r'.1).

Definition alloc_rot (l : layout) : M arrange unit :=
  if negb (truthy (need_rot q)) then ret tt else
  let size_pixel := Z.shiftr (u32 (channel_size l * 3)) 1 in
  let place (y : both) : M arrange unit :=
    upd 0 (on_cap_yuv_rot (fun _ => Img_frm IMG_DATA_TYPE_YUV420 size_pixel
      (Img_size (height (image_size q)) (width (image_size q))) y (shift y (channel_size l)))) in
  s <- get ;;
  if major_res s >? size_pixel then take_major size_pixel ;;; place (major_at (major_end s))
  else if minor_res s >? size_pixel then take_minor size_pixel ;;; place (minor_at (minor_end s))
  else ret tt.

(** The members of the frame that the assignments copy. *)
Definition copy_y (x f : img_frm) : img_frm := set_y (addr_y x) (set_buf_size (buf_size x) f).

Definition misc_members (img_frame : list img_frm) : M arrange unit :=
  match img_frame with
  | [t; j; c] =>
      upd 0 (on_misc (fun f => set_size (thum_size q) (set_u (addr_u t) (copy_y t f))) (copy_y j) (copy_y c))
  | _ => bad Uninitialised
  end.

(** Another image whose planes start at [y]: the RAW sensor's. *)
Definition next_raw (l : layout) (k : nat) (y : both) : M arrange unit :=
  let uv_size := Z.shiftr (channel_size l) 1 in
  let cap_y := shift y (yy_to_y l) in
  let raw_y := shift cap_y (y_to_raw l) in
  let cap_u := shift raw_y (raw_size l) in
  upd k (on_target_yuv (fun f => set_u (shift cap_u (- Z.shiftr uv_size 1)) (set_y y f))) ;;;
  upd k (on_cap_yuv (fun f => set_fmt IMG_DATA_TYPE_YUV420 (set_size (sn_size q)
    (set_buf_size (Z.shiftr (u32 (channel_size l * 3)) 1) (set_u cap_u (set_y cap_y f)))))) ;;;
  upd k (on_cap_raw (fun f => set_fmt IMG_DATA_TYPE_RAW (set_size (sn_size q) (set_buf_size (raw_size l) (set_y raw_y f))))).

(** [while (major_res >= yuv_raw_size)]: at most [n] more images, from the
    [k]th on; returns how many are missing, and the next one. *)
Fixpoint fill_major (l : layout) (n k : nat) : M arrange (nat * nat) :=
  match n with
  | O => ret (O, k)
  | S n =>
      s <- get ;;
      if major_res s >=? yuv_raw_size l then
        (if orig_fmt q =? IMG_DATA_TYPE_RAW then next_raw l k (major_at (major_end s))
         else _ <- yuv_planes k (major_at (major_end s)) ;; cap_yuv_members k) ;;;
        target_yuv_members l k ;;;
        match n with
        | O => ret (O, k)
        | _ => take_major (yuv_raw_size l) ;;; fill_major l n (S k)
        end
      else ret (S n, k)
  end.

(** The same loop for the minor piece, as it is written: images that are not
    RAW still get places in the major one, and [target_yuv] gets no size. *)
Fixpoint fill_minor (l : layout) (n k : nat) : M arrange (nat * nat) :=
  match n with
  | O => ret (O, k)
  | S n =>
      s <- get ;;
      if minor_res s >=? yuv_raw_size l then
        (if orig_fmt q =? IMG_DATA_TYPE_RAW then next_raw l k (minor_at (minor_end s))
         else _ <- yuv_planes k (major_at (major_end s)) ;; cap_yuv_members k) ;;;
        match n with
        | O => ret (O, k)
        | _ => take_minor (yuv_raw_size l) ;;; fill_minor l n (S k)
        end
      else ret (S n, k)
  end.

Definition first_image : M arrange layout :=
  upd 0 (fun _ => on_target_jpeg (set_buf_size
    (get_jpeg_size (width (image_size q)) (height (image_size q)) (width (thum_size q)) (height (thum_size q)))) zero_mem) ;;;
  l <- (if orig_fmt q =? IMG_DATA_TYPE_RAW then first_raw else first_yuv) ;;
  upd 0 (on_cap_raw (fun f => set_fmt IMG_DATA_TYPE_RAW (set_size (sn_size q) f))) ;;;
  target_yuv_members l 0 ;;;
  img_frame <- alloc_misc ;;
  alloc_rot l ;;;
  misc_members img_frame ;;;
  ret l.

Definition arrange_images : M arrange unit :=
  l <- first_image ;;
  r <- fill_major l (Z.to_nat (image_cnt q - 1)) 1 ;;
  r <- fill_minor l r.1 r.2 ;;
  require (Nat.eqb r.1 0).
End arrange.

(** The state at the beginning. *)
Definition arrange_init (frm : cmr_cap_2_frm) (mem : list cmr_cap_mem) : arrange :=
  Arrange mem 0 (buf_size (major_frm frm)) 0 (buf_size (minor_frm frm)).

(** The pointers that are checked, as options; [capture_mem] is the array
    [mem]. The result is [Ret] where the code returns 0 and [Exit] where it
    returns -1. *)
Definition camera_arrange_capture_buf (cap_2_frm : option cmr_cap_2_frm) (sn_size : option img_size) (sn_trim : option img_rect)
    (image_size : option img_size) (orig_fmt : Z) (cap_size thum_size : option img_size) (mem : list cmr_cap_mem)
    (need_rot image_cnt : Z) : outcome arrange unit :=
  match cap_2_frm, sn_size, sn_trim, image_size, thum_size with
  | Some frm, Some sn, Some trim, Some image, Some thum =>
      arrange_images frm (Request sn trim image orig_fmt cap_size thum need_rot image_cnt) (arrange_init frm mem)
  | _, _, _, _, _ => Exit (Arrange mem 0 0 0 0)
  end.
