(* ===== verification/CmrMemProofs.v ===== *)
(** * The capture buffers do not overlap

    The theorems on CmrMem.v: an arrangement that succeeds gives every buffer
    a place of its own inside the memory; which requests succeed with the
    memory that [camera_capture_buf_size] asks for, and which do not; where
    the places of further images go wrong. *)
From stdpp Require Import base list.
From Stdlib Require Import ZArith Lia.
From S2P Require Import Prelude CmrMem.

(** ** Blocks *)

Inductive piece := Major | Minor.
#[export] Instance piece_eq_dec : EqDecision piece.
Proof. solve_decision. Defined.

Record block := Block { where_ : piece; off : Z; len : Z }.

Definition apart (x y : block) : Prop := where_ x <> where_ y \/ off x + len x <= off y \/ off y + len y <= off x.
Definition used (s : arrange) (p : piece) : Z := match p with Major => major_end s | Minor => minor_end s end.
Definition room (s : arrange) (p : piece) : Z := match p with Major => major_res s | Minor => minor_res s end.
Definition total (frm : cmr_cap_2_frm) (p : piece) : Z :=
  match p with Major => buf_size (major_frm frm) | Minor => buf_size (minor_frm frm) end.
Definition base (frm : cmr_cap_2_frm) (p : piece) : both :=
  match p with Major => addr_y (major_frm frm) | Minor => addr_y (minor_frm frm) end.

#[export] Instance apart_symmetric : Symmetric apart.
Proof. intros x y [H|[H|H] ]; unfold apart; [left; congruence|by right; right|by right; left]. Qed.

(** Every two elements. *)
Definition pairwise {A} (R : A -> A -> Prop) (l : list A) : Prop :=
  forall i j x y, i <> j -> l !! i = Some x -> l !! j = Some y -> R x y.

Lemma pairwise_nil {A} (R : A -> A -> Prop) : pairwise R [].
Proof. intros i j x y _ H. done. Qed.

#[export] Instance pairwise_perm {A} (R : A -> A -> Prop) : Proper ((≡ₚ) ==> iff) (pairwise R).
Proof.
  assert (H : forall l k : list A, l ≡ₚ k -> pairwise R l -> pairwise R k).
  { intros l k [_ (f & Hf & E)]%Permutation_sym%Permutation_inj Hl i j x y Hij Hx Hy. rewrite E in Hx, Hy.
    apply (Hl (f i) (f j)); [|done|done]. intros E2. by apply Hf in E2. }
  intros l k E. split; apply H; [done|by symmetry].
Qed.

Lemma pairwise_app {A} (R : A -> A -> Prop) `{!Symmetric R} l k :
  pairwise R (l ++ k) <-> pairwise R l /\ pairwise R k /\ (forall x y, x ∈ l -> y ∈ k -> R x y).
Proof.
  split.
  - intros H. split_and!.
    + intros i j x y Hij Hx Hy. apply (H i j); [done|by apply lookup_app_l_Some..].
    + intros i j x y Hij Hx Hy. apply (H (length l + i)%nat (length l + j)%nat); [lia| |];
        rewrite lookup_app_r by lia; [rewrite <- Hx|rewrite <- Hy]; f_equal; lia.
    + intros x y [i Hx]%list_elem_of_lookup_1 [j Hy]%list_elem_of_lookup_1. pose proof (lookup_lt_Some _ _ _ Hx).
      apply (H i (length l + j)%nat); [lia|by apply lookup_app_l_Some|]. rewrite lookup_app_r by lia. rewrite <- Hy. f_equal. lia.
  - intros (Hl & Hk & Hlk) i j x y Hij Hx Hy.
    apply lookup_app_Some in Hx as [Hx|[Hx1 Hx2] ]; apply lookup_app_Some in Hy as [Hy|[Hy1 Hy2] ].
    + by apply (Hl i j).
    + apply Hlk; by eapply list_elem_of_lookup_2.
    + symmetry. apply Hlk; by eapply list_elem_of_lookup_2.
    + apply (Hk (i - length l)%nat (j - length l)%nat); [lia|done|done].
Qed.

Lemma pairwise_singleton {A} (R : A -> A -> Prop) x : pairwise R [x].
Proof. intros i j a b Hij [-> _]%list_lookup_singleton_Some [-> _]%list_lookup_singleton_Some. done. Qed.

Lemma pairwise_pair {A} (R : A -> A -> Prop) `{!Symmetric R} x y : R x y -> pairwise R [x; y].
Proof.
  intros H. apply (pairwise_app R [x] [y]). split_and!; [apply pairwise_singleton..|].
  by intros a b ->%list_elem_of_singleton ->%list_elem_of_singleton.
Qed.

(** ** The two pieces while they are given out *)

Record arena (frm : cmr_cap_2_frm) (bl : list block) (s : arrange) : Prop := {
  a_total : forall p, 0 <= used s p /\ 0 <= room s p /\ used s p + room s p = total frm p;
  a_inside : forall b, b ∈ bl -> 0 <= off b /\ 0 <= len b /\ off b + len b <= used s (where_ b);
  a_apart : pairwise apart bl
}.

Definition small (frm : cmr_cap_2_frm) : Prop := forall p, total frm p < 4294967296.

(** [n] bytes more of the piece [p] are used. *)
Definition taken (p : piece) (n : Z) (s : arrange) : arrange :=
  match p with
  | Major => Arrange (capture_mem s) (major_end s + n) (major_res s - n) (minor_end s) (minor_res s)
  | Minor => Arrange (capture_mem s) (major_end s) (major_res s) (minor_end s + n) (minor_res s - n)
  end.

Lemma arena_taken frm bl s p n : arena frm bl s -> 0 <= n <= room s p ->
  arena frm (bl ++ [Block p (used s p) n]) (taken p n s).
Proof.
  intros [Ht Hi Ha] Hn. constructor.
  - intros r. pose proof (Ht r). destruct p, r; cbn in *; lia.
  - intros b [Hb|Hb]%elem_of_app.
    + destruct (Hi b Hb) as (H1 & H2 & H3). destruct p, (where_ b); cbn in *; lia.
    + apply list_elem_of_singleton in Hb as ->. pose proof (Ht p). destruct p; cbn in *; lia.
  - apply pairwise_app; [apply _|]. split_and!; [done|apply pairwise_singleton|]. intros x y Hx ->%list_elem_of_singleton. destruct (Hi x Hx) as (H1 & H2 & H3). unfold apart. cbn.
    destruct (decide (where_ x = p)) as [<-|Hne]; [right; left; done|by left].
Qed.

Lemma arena_init frm mem : 0 <= buf_size (major_frm frm) -> 0 <= buf_size (minor_frm frm) -> arena frm [] (arrange_init frm mem).
Proof.
  intros H1 H2. constructor; [|intros b Hb; by apply not_elem_of_nil in Hb|apply pairwise_nil].
  intros []; cbn; lia.
Qed.

(** The images play no role. *)
Lemma arena_set_mem frm bl s l : arena frm bl s -> arena frm bl (set_mem l s).
Proof. intros [Ht Hi Ha]. constructor; [intros []; [apply (Ht Major)|apply (Ht Minor)]| |done]. intros b Hb. by specialize (Hi b Hb); destruct (where_ b). Qed.

Definition sum (l : list Z) : Z := foldr Z.add 0 l.

Lemma sum_nonneg l : Forall (fun n => 0 <= n) l -> 0 <= sum l.
Proof. unfold sum. induction 1; cbn; lia. Qed.
Lemma sum_cons n l : sum (n :: l) = n + sum l.
Proof. done. Qed.

Section arena.
Context (frm : cmr_cap_2_frm) (Hsmall : small frm) {F : fault -> Prop}.

Lemma wp_take_major bl s n (Q : unit -> arrange -> Prop) E : arena frm bl s -> 0 <= n <= major_res s ->
  (arena frm (bl ++ [Block Major (major_end s) n]) (taken Major n s) -> Q tt (taken Major n s)) ->
  wp F (take_major n) Q E s.
Proof.
  intros H Hn HQ. unfold take_major. wp_step. pose proof (a_total _ _ _ H Major) as (H1 & H2 & H3). cbn in H1, H2, H3.
  pose proof (Hsmall Major) as Hs. cbn in Hs. rewrite !u32_small by lia. apply HQ. by apply (arena_taken frm bl s Major).
Qed.

Lemma wp_take_minor bl s n (Q : unit -> arrange -> Prop) E : arena frm bl s -> 0 <= n <= minor_res s ->
  (arena frm (bl ++ [Block Minor (minor_end s) n]) (taken Minor n s) -> Q tt (taken Minor n s)) ->
  wp F (take_minor n) Q E s.
Proof.
  intros H Hn HQ. unfold take_minor. wp_step. pose proof (a_total _ _ _ H Minor) as (H1 & H2 & H3). cbn in H1, H2, H3.
  pose proof (Hsmall Minor) as Hs. cbn in Hs. rewrite !u32_small by lia. apply HQ. by apply (arena_taken frm bl s Minor).
Qed.

(** A frame that was placed in the block [b]. *)
Definition placed (f : img_frm) (b : block) : Prop := buf_size f = len b /\ addr_y f = shift (base frm (where_ b)) (off b).

Definition allocated (p : piece) (sizes : list Z) (bl : list block) (s : arrange) (r : list img_frm * list Z) (s' : arrange) : Prop :=
  capture_mem s' = capture_mem s /\ (r.2 = [] \/ room s p < sum sizes) /\
  exists bs, arena frm (bl ++ bs) s' /\ Forall2 placed r.1 bs /\ sizes = (len <$> bs) ++ r.2.


Lemma wp_alloc_major sizes bl s E : arena frm bl s -> Forall (fun n => 0 <= n) sizes ->
  wp F (alloc_major frm sizes) (allocated Major sizes bl s) E s.
Proof.
  intros Ha Hn. revert bl s Ha. induction Hn as [|n sizes Hn Hn' IH]; intros bl s Ha; cbn [alloc_major].
  - wp_step. split; [done|]. split; [by left|]. exists []. rewrite app_nil_r. split; [exact Ha|]. split; [constructor|done].
  - wp_step. wp_step. destruct (Z.geb_spec (major_res s) n).
    + wp_step. eapply wp_take_major; [done|lia|]. intros Ha'. wp_step.
      eapply wp_mono; [by apply IH| |done]. intros [fs rest] s' (Hm & Hr & bs & Hbs & Hf & E1). wp_step.
      split; [done|]. split; [destruct Hr as [Hr|Hr]; [by left|right; rewrite sum_cons; cbn [taken room major_res minor_res] in *; lia]|]. exists (Block Major (major_end s) n :: bs). rewrite <- app_assoc in Hbs. split; [done|]. cbn in *. split.
      * constructor; [by split|done].
      * by rewrite E1.
    + wp_step. split; [done|]. split; [right; pose proof (sum_nonneg _ Hn'); rewrite sum_cons; cbn [room]; lia|]. exists []. rewrite app_nil_r. split; [exact Ha|]. split; [constructor|done].
Qed.

Lemma wp_alloc_minor sizes bl s E : arena frm bl s -> Forall (fun n => 0 <= n) sizes ->
  wp F (alloc_minor frm sizes) (allocated Minor sizes bl s) E s.
Proof.
  intros Ha Hn. revert bl s Ha. induction Hn as [|n sizes Hn Hn' IH]; intros bl s Ha; cbn [alloc_minor].
  - wp_step. split; [done|]. split; [by left|]. exists []. rewrite app_nil_r. split; [exact Ha|]. split; [constructor|done].
  - wp_step. wp_step. destruct (Z.geb_spec (minor_res s) n).
    + wp_step. eapply wp_take_minor; [done|lia|]. intros Ha'. wp_step.
      eapply wp_mono; [by apply IH| |done]. intros [fs rest] s' (Hm & Hr & bs & Hbs & Hf & E1). wp_step.
      split; [done|]. split; [destruct Hr as [Hr|Hr]; [by left|right; rewrite sum_cons; cbn [taken room major_res minor_res] in *; lia]|]. exists (Block Minor (minor_end s) n :: bs). rewrite <- app_assoc in Hbs. split; [done|]. cbn in *. split.
      * constructor; [by split|done].
      * by rewrite E1.
    + wp_step. split; [done|]. split; [right; pose proof (sum_nonneg _ Hn'); rewrite sum_cons; cbn [room]; lia|]. exists []. rewrite app_nil_r. split; [exact Ha|]. split; [constructor|done].
Qed.
End arena.

(** ** Addresses *)

Lemma shift_shift a x y : shift (shift a x) y = shift a (x + y).
Proof. unfold shift. cbn [phy vir]. f_equal; wrap_lia. Qed.

(** The frames have addresses, and end before the end of the address space. *)
Record frames_ok (frm : cmr_cap_2_frm) : Prop := {
  f_base : forall p, 0 <= phy (base frm p) /\ 0 <= vir (base frm p);
  f_end : forall p, 0 <= total frm p /\ phy (base frm p) + total frm p < 4294967296 /\ vir (base frm p) + total frm p < 4294967296
}.

Lemma frames_small frm : frames_ok frm -> small frm.
Proof. intros H p. pose proof (f_base _ H p). pose proof (f_end _ H p). lia. Qed.

Lemma shift_0 frm p : frames_ok frm -> shift (base frm p) 0 = base frm p.
Proof.
  intros H. pose proof (f_base _ H p). pose proof (f_end _ H p). unfold shift. rewrite !Z.add_0_r, !u32_small by lia.
  by destruct (base frm p).
Qed.

Definition place (frm : cmr_cap_2_frm) (b : block) : both := shift (base frm (where_ b)) (off b).
Definition inside (x b : block) : Prop :=
  where_ x = where_ b /\ 0 <= len x /\ off b <= off x /\ off x + len x <= off b + len b.

Lemma inside_refl b : 0 <= len b -> inside b b.
Proof. intros. by repeat split; try lia. Qed.

Lemma inside_apart x y b c : inside x b -> inside y c -> apart b c -> apart x y.
Proof. unfold inside, apart. intros (E1 & ? & ? & ?) (E2 & ? & ? & ?) [Hap|Hap]; [left; congruence|right; lia]. Qed.

(** Planes in the blocks of [I], and other blocks. *)
Lemma planes_apart I O P : pairwise apart (I ++ O) -> pairwise apart P ->
  (forall x, x ∈ P -> exists b, b ∈ I /\ inside x b) -> Forall (fun b => 0 <= len b) O -> pairwise apart (P ++ O).
Proof.
  intros (_ & HO & HIO)%pairwise_app HP Hin HOl; [|apply _]. apply pairwise_app; [apply _|]. split_and!; [done|done|].
  intros x y Hx Hy. destruct (Hin x Hx) as (b & Hb & Hxb). apply (inside_apart x y b y Hxb); [|by apply HIO].
  apply inside_refl. by apply (proj1 (Forall_forall _ _) HOl).
Qed.

Lemma arena_perm frm bl bl' s : bl ≡ₚ bl' -> arena frm bl s -> arena frm bl' s.
Proof. intros E [Ht Hi Ha]. constructor; [done| |by rewrite <- E]. intros b Hb. apply Hi. by rewrite E. Qed.

(** ** The first image *)

Lemma wp_upd_0 {F} g m rest s (Q : unit -> arrange -> Prop) E : capture_mem s = m :: rest ->
  Q tt (set_mem (g m :: rest) s) -> wp F (upd 0 g) Q E s.
Proof. intros Hm HQ. unfold upd. wp_step. wp_step. wp_step. eapply wp_lift_Some; [by rewrite Hm|]. wp_step. by rewrite Hm. Qed.

Definition dim (x : Z) : Prop := 0 <= x <= 16384.
Definition area (x : img_size) : Z := width x * height x.
Definition dims (x : img_size) : Prop := dim (width x) /\ dim (height x).

Lemma area_range x : dims x -> 0 <= area x <= 268435456.
Proof. unfold dims, dim, area. nia. Qed.
Lemma area_u32 x : dims x -> u32 (width x * height x) = area x.
Proof. intros H. apply area_range in H. apply u32_small. unfold area in *. lia. Qed.

Lemma shiftr_half x : Z.shiftr x 1 = x / 2.
Proof. by rewrite Z.shiftr_div_pow2. Qed.

(** How an image lies in its blocks [I]: the planes [Y] and [U] of the target
    and [CY] and [CU] of the capture. *)
Record image_places (frm : cmr_cap_2_frm) (q : request) (I : list block) (Y U CY CU : block) (m : cmr_cap_mem) : Prop := {
  ip_target : addr_y (target_yuv m) = place frm Y /\ addr_u (target_yuv m) = place frm U;
  ip_cap : addr_y (cap_yuv m) = place frm CY /\ addr_u (cap_yuv m) = place frm CU;
  ip_target_len : len Y = area (image_size q) /\ len U = area (image_size q) / 2;
  ip_cap_len : len CY = area (size (cap_yuv m)) /\ len CU = area (size (cap_yuv m)) / 2;
  ip_target_apart : apart Y U;
  ip_cap_apart : apart CY CU;
  ip_inside : Forall (fun x => exists b, b ∈ I /\ inside x b) [Y; U; CY; CU]
}.

Definition jpeg_size (q : request) : Z :=
  get_jpeg_size (width (image_size q)) (height (image_size q)) (width (thum_size q)) (height (thum_size q)).

(** What the first part of the arrangement leaves: [n] bytes of the major
    piece are gone at most. *)
Definition first_post (frm : cmr_cap_2_frm) (q : request) (rest : list cmr_cap_mem) (n : Z) (s' : arrange) : Prop :=
  exists m I jb Y U CY CU, capture_mem s' = m :: rest /\ arena frm (I ++ [jb]) s' /\ image_places frm q I Y U CY CU m /\ placed frm (target_jpeg m) jb /\
    cap_yuv_rot m = zero_frm /\ total frm Major - n <= major_res s'.

Lemma jpeg_size_nonneg q : 0 <= jpeg_size q.
Proof. unfold jpeg_size, get_jpeg_size, ADDR_BY_WORD. apply Z.land_nonneg. left. apply u32_range. Qed.

(** The sensor delivers enough rows: what is kept above the capture fits over
    the rows that are as wide as in the RAW data. *)
Record raw_geometry (q : request) : Prop := {
  rg_dims : dims (sn_size q) /\ dims (image_size q);
  rg_area : area (image_size q) <= area (sn_size q);
  rg_pad : 5 * raw_yy_to_y q <= area (sn_size q) + 512 * width (sn_size q)
}.

Definition raw_offset (q : request) : Z :=
  area (sn_size q) * 10 / 8 + 128 * width (sn_size q) + raw_yy_to_y q - raw_yy_to_y q * 10 / 8.
Definition raw_uv (q : request) : Z := area (sn_size q) / 2 + raw_yy_to_y q / 2.

Lemma raw_yy_nonneg q : 0 <= raw_yy_to_y q.
Proof.
  unfold raw_yy_to_y. destruct (_ || _); [apply u32_range|]. destruct (truthy _); [apply u32_range|done].
Qed.

Lemma raw_offset_fits q : raw_geometry q -> raw_yy_to_y q + area (sn_size q) <= raw_offset q <= 400000000.
Proof.
  intros [ [Hs Hi] Ha Hp]. pose proof (raw_yy_nonneg q). pose proof (area_range _ Hs). destruct Hs as [Hw _]. unfold dim in Hw.
  unfold raw_offset. Z.div_mod_to_equations. lia.
Qed.

Definition raw_layout (q : request) : layout :=
  Layout (area (sn_size q)) (area (sn_size q) * 10 / 8) (128 * width (sn_size q)) (raw_yy_to_y q)
    (area (sn_size q) * 10 / 8 + 128 * width (sn_size q) + raw_yy_to_y q + area (sn_size q) / 2).

(** The image's block and the JPEG's, in the major piece. *)
Lemma wp_image_and_jpeg {F A} frm m rest n j (k : M arrange A) Q (E : arrange -> Prop) s :
  small frm -> arena frm [] s -> major_end s = 0 -> capture_mem s = m :: rest -> 0 <= n -> 0 <= j ->
  (forall s', total frm Major < n + j -> E s') ->
  (forall s', capture_mem s' = on_target_jpeg (set_y (place frm (Block Major n j))) m :: rest ->
     arena frm [Block Major 0 n; Block Major n j] s' -> major_end s' = n + j -> minor_end s' = minor_end s -> wp F k Q E s') ->
  wp F (s <- get ;; CMR_NO_MEM n (major_res s) ;;; take_major n ;;;
        s <- get ;; CMR_NO_MEM j (major_res s) ;;; upd 0 (on_target_jpeg (set_y (major_at frm (major_end s)))) ;;; take_major j ;;; k) Q E s.
Proof.
  intros Hsm Ha He Hm Hn Hj HE Hk. destruct s as [mem e r e' r']. cbn in He, Hm. subst e mem.
  pose proof (a_total _ _ _ Ha Major) as (_ & H2 & H3). cbn [used room major_end major_res] in H2, H3.
  wp_step. wp_step. wp_step. unfold CMR_NO_MEM. cbn [major_res]. wp_step; destruct (Z.gtb_spec n r); try done.
  2:{ apply HE. lia. }
  wp_step. eapply wp_take_major; [done|done|cbn; lia|]. unfold taken. cbn. rewrite Z.add_0_l. intros Ha1.
  wp_step. wp_step. wp_step. cbn [major_res]. wp_step; destruct (Z.gtb_spec j (r - n)); try done.
  2:{ apply HE. lia. }
  wp_step. eapply wp_upd_0; [reflexivity|]. wp_step. eapply wp_take_major; [done|apply arena_set_mem, Ha1|cbn; lia|].
  unfold taken. cbn. intros Ha2. by apply Hk.
Qed.

(** The chroma of the RAW sensor's image, in either piece. *)
Lemma wp_raw_chroma {F} frm m rest bl n uv (E : arrange -> Prop) s :
  frames_ok frm -> arena frm bl s -> minor_end s = 0 -> capture_mem s = m :: rest -> 0 <= uv -> major_end s = n ->
  (forall s', total frm Major <= n + uv -> E s') ->
  wp F (if uv <? major_res s then
          upd 0 (on_target_yuv (set_u (major_at frm (major_end s)))) ;;; take_major uv ;;; ret (major_at frm (major_end s))
        else
          CMR_NO_MEM uv (minor_res s) ;;; upd 0 (on_target_yuv (set_u (addr_y (minor_frm frm)))) ;;; take_minor uv ;;;
          ret (addr_y (minor_frm frm)))
    (fun u s2 => exists ub, u = place frm ub /\ capture_mem s2 = on_target_yuv (set_u u) m :: rest /\ len ub = uv /\
       arena frm (bl ++ [ub]) s2 /\ total frm Major - (n + uv) <= major_res s2) E s.
Proof.
  intros Hf Ha He' Hm Huv He HE. pose proof (frames_small _ Hf) as Hsm. pose proof (a_total _ _ _ Ha Major) as (_ & H2 & H3).
  cbn [used room] in H2, H3. destruct s as [mem e r e' r']. cbn [capture_mem major_end major_res minor_end minor_res] in *. subst mem e e'.
  destruct (Z.ltb_spec uv r).
  - wp_step. eapply wp_upd_0; [reflexivity|]. wp_step. eapply wp_take_major; [done|by apply arena_set_mem|cbn; lia|].
    intros Ha1. wp_step. exists (Block Major n uv). split_and!; [done|done|done|exact Ha1|cbn [taken set_mem major_res]; lia].
  - wp_step. unfold CMR_NO_MEM. wp_step; destruct (Z.gtb_spec uv r'); try done. 2:{ apply HE. lia. }
    wp_step. eapply wp_upd_0; [reflexivity|]. wp_step. eapply wp_take_minor; [done|by apply arena_set_mem|cbn; lia|].
    intros Ha1. wp_step. exists (Block Minor 0 uv). split_and!; [symmetry; by apply (shift_0 frm Minor)|done|done|exact Ha1|cbn [taken set_mem major_res]; lia].
Qed.

Lemma wp_first_raw {F} frm q m0 rest s (E : arrange -> Prop) :
  frames_ok frm -> raw_geometry q -> arena frm [] s -> major_end s = 0 -> minor_end s = 0 -> capture_mem s = m0 :: rest ->
  cap_yuv_rot m0 = zero_frm -> buf_size (target_jpeg m0) = jpeg_size q ->
  (forall s', total frm Major <= raw_offset q + jpeg_size q + raw_uv q -> E s') ->
  wp F (first_raw frm q)
    (fun l s' => first_post frm q rest (raw_offset q + jpeg_size q + raw_uv q) s' /\ l = raw_layout q) E s.
Proof.
  intros Hf Hg Ha He He' Hm Hrot Hbuf HE. pose proof (frames_small _ Hf) as Hsmall.
  pose proof (raw_offset_fits q Hg) as Hoff. destruct Hg as [ [Hs Hi] Harea Hpad].
  pose proof (raw_yy_nonneg q) as Hyy. pose proof (area_range _ Hs) as HrS. pose proof (area_range _ Hi) as HrI.
  pose proof (jpeg_size_nonneg q) as Hj. unfold first_raw.
  assert (Hw : 0 <= width (sn_size q) <= 16384) by apply Hs.
  assert (E1 : sn_channel q = area (sn_size q)) by (by apply area_u32). rewrite E1.
  assert (E2 : u32 (area (sn_size q) * RAWRGB_BIT_WIDTH) / 8 = area (sn_size q) * 10 / 8)
    by (unfold RAWRGB_BIT_WIDTH; by rewrite u32_small by lia). rewrite E2.
  assert (E3 : u32 (ISP_YUV_TO_RAW_GAP * width (sn_size q)) = 128 * width (sn_size q))
    by (unfold ISP_YUV_TO_RAW_GAP, CMR_SLICE_HEIGHT; by rewrite u32_small by lia). rewrite E3.
  rewrite !shiftr_half. assert (E4 : u32 (area (sn_size q) / 2 + raw_yy_to_y q / 2) = raw_uv q)
    by (unfold raw_uv; rewrite u32_small; [done|Z.div_mod_to_equations; lia]). rewrite E4.
  assert (E5 : u32 (raw_yy_to_y q * RAWRGB_BIT_WIDTH) / 8 = raw_yy_to_y q * 10 / 8)
    by (unfold RAWRGB_BIT_WIDTH; by rewrite u32_small by lia). rewrite E5.
  assert (E6 : u32 (area (sn_size q) * 10 / 8 + 128 * width (sn_size q) + raw_yy_to_y q + area (sn_size q) / 2) = yuv_raw_size (raw_layout q))
    by (cbn; rewrite u32_small; [done|Z.div_mod_to_equations; lia]). rewrite E6.
  fold (raw_offset q). rewrite (u32_small (raw_offset q)) by lia. fold (jpeg_size q). cbv zeta.
  wp_step. eapply wp_upd_0; [exact Hm|]. wp_step. eapply wp_upd_0; [reflexivity|]. wp_step. eapply wp_upd_0; [reflexivity|].
  match goal with |- context [set_mem (?m :: rest) _] => set (m1 := m) end.
  eapply wp_image_and_jpeg; [done|by repeat apply arena_set_mem|done|reflexivity|lia|done|intros s' Hs'; apply HE; unfold raw_uv; Z.div_mod_to_equations; lia|].
  intros s1 Hm1 Ha1 He1 He1'. wp_step. wp_step. wp_step.
  eapply wp_mono; [eapply (wp_raw_chroma frm _ rest _ (raw_offset q + jpeg_size q) (raw_uv q) E);
    [done|exact Ha1|by rewrite He1'|exact Hm1|unfold raw_uv; Z.div_mod_to_equations; lia|done|done]| |done].
  intros u s2 (ub & -> & Hm2 & Hub & Ha2 & Hres). wp_step. eapply wp_upd_0; [exact Hm2|]. wp_step. eapply wp_upd_0; [reflexivity|].
  wp_step. split; [|done].
  match goal with |- context [set_mem (?m :: rest) _] => exists m end.
  exists [Block Major 0 (raw_offset q); ub], (Block Major (raw_offset q) (jpeg_size q)), (Block Major 0 (area (image_size q))),
    (Block (where_ ub) (off ub) (area (image_size q) / 2)), (Block Major (raw_yy_to_y q) (area (sn_size q))),
    (Block (where_ ub) (off ub + raw_yy_to_y q / 2) (area (sn_size q) / 2)).
  assert (Ha3 : arena frm ([Block Major 0 (raw_offset q); ub] ++ [Block Major (raw_offset q) (jpeg_size q)]) s2).
  { eapply arena_perm; [|exact Ha2]. cbn. apply Permutation_skip, Permutation_swap. }
  assert (Hap : apart (Block Major 0 (raw_offset q)) ub) by (by apply (a_apart _ _ _ Ha3 0%nat 1%nat)).
  split_and!; [done|by repeat apply arena_set_mem| |done|done|exact Hres].
  set (ib := Block Major 0 (raw_offset q)) in *.
  assert (HY : forall o n, 0 <= o -> 0 <= n -> o + n <= raw_offset q -> inside (Block Major o n) ib).
  { intros o n Ho Hn Hon. unfold inside, ib. cbn [where_ off len]. split; [done|lia]. }
  assert (HU : forall o n, 0 <= o -> 0 <= n -> o + n <= raw_uv q -> inside (Block (where_ ub) (off ub + o) n) ub).
  { intros o n Ho Hn Hon. unfold inside. cbn [where_ off len]. rewrite Hub. split; [done|lia]. }
  assert (HU1 : inside (Block (where_ ub) (off ub) (area (image_size q) / 2)) ub).
  { rewrite <- (Z.add_0_r (off ub)) at 1. apply HU; unfold raw_uv; Z.div_mod_to_equations; lia. }
  assert (HU2 : inside (Block (where_ ub) (off ub + raw_yy_to_y q / 2) (area (sn_size q) / 2)) ub)
    by (apply HU; unfold raw_uv; Z.div_mod_to_equations; lia).
  assert (HY1 : inside (Block Major 0 (area (image_size q))) ib) by (apply HY; lia).
  assert (HY2 : inside (Block Major (raw_yy_to_y q) (area (sn_size q))) ib) by (apply HY; lia).
  constructor; cbn [where_ off len]; try done.
  - split; [symmetry; by apply (shift_0 frm Major)|done].
  - split; [done|]. unfold place. cbn. by rewrite shift_shift.
  - by eapply inside_apart.
  - by eapply inside_apart.
  - repeat constructor; eexists; (split; [|eassumption]); [by left|by right; left|by left|by right; left].
Qed.

(** An image that does not come as RAW data: its two planes in one block. A
    JPEG is decoded to an image as the sensor has it, of which the rows up to
    the end of the trim rectangle lie over the target. *)
Record jpeg_geometry (q : request) (c : img_size) : Prop := {
  jg_dims : dims (sn_size q);
  jg_rows : 0 <= start_y (sn_trim q) + rect_height (sn_trim q) <= height (sn_size q);
  jg_lines : (start_y (sn_trim q) + rect_height (sn_trim q)) * width (sn_size q) <= area (image_size q);
  jg_area : area c <= area (sn_size q)
}.
Record yuv_geometry (q : request) (c : img_size) : Prop := {
  yg_cap : cap_size q = Some c;
  yg_dims : dims c /\ dims (image_size q);
  yg_area : area c <= area (image_size q);
  yg_jpeg : orig_fmt q = IMG_DATA_TYPE_JPEG -> jpeg_geometry q c
}.

(** The lines of the sensor's image behind the trim rectangle, and where the
    planes of the capture begin. *)
Definition trimmed (q : request) : Z := (start_y (sn_trim q) + rect_height (sn_trim q)) * width (sn_size q).
Definition yuv_offset (q : request) : Z :=
  area (image_size q) * 3 / 2 + (if orig_fmt q =? IMG_DATA_TYPE_JPEG then area (sn_size q) - trimmed q else 0).
Definition cap_y_at (q : request) (c : img_size) : Z :=
  area (image_size q) - (if orig_fmt q =? IMG_DATA_TYPE_JPEG then trimmed q else area c).
Definition cap_u_at (q : request) (c : img_size) : Z :=
  if orig_fmt q =? IMG_DATA_TYPE_JPEG then cap_y_at q c + area (sn_size q) else area (image_size q) + cap_y_at q c / 2.
Definition yuv_layout (q : request) (c : img_size) : layout := Layout (area (image_size q)) 0 0 (cap_y_at q c) (yuv_offset q).

(** The planes fit into the block. *)
Lemma yuv_fits q c : yuv_geometry q c ->
  0 <= cap_y_at q c /\ cap_y_at q c + area c <= cap_u_at q c /\ cap_u_at q c + area c / 2 <= yuv_offset q /\
  area (image_size q) + area (image_size q) / 2 <= yuv_offset q <= 800000000.
Proof.
  intros [Hc [Hdc Hdi] Ha Hj]. pose proof (area_range _ Hdi). pose proof (area_range _ Hdc). unfold cap_u_at, cap_y_at, yuv_offset.
  destruct (Z.eqb_spec (orig_fmt q) IMG_DATA_TYPE_JPEG) as [E|E].
  - destruct (Hj E) as [Hs Hr Hl Hcs]. pose proof (area_range _ Hs). fold (trimmed q) in Hl.
    assert (0 <= trimmed q <= area (sn_size q)) by (destruct Hs as [ [? _] _]; unfold trimmed, area; nia). Z.div_mod_to_equations. lia.
  - Z.div_mod_to_equations. lia.
Qed.

(** The planes of an image whose block is at [y]. *)
Definition yuv_places (q : request) (c : img_size) (y : both) (m : cmr_cap_mem) : cmr_cap_mem :=
  on_cap_yuv (fun f => set_u (shift y (cap_u_at q c)) (set_y (shift y (cap_y_at q c)) f))
    (on_target_yuv (fun f => set_u (shift y (area (image_size q))) (set_y y f)) m).

Lemma wp_upd {F} k g m s (Q : unit -> arrange -> Prop) E : capture_mem s !! k = Some m ->
  Q tt (set_mem (<[k := g m]> (capture_mem s)) s) -> wp F (upd k g) Q E s.
Proof. intros Hm HQ. unfold upd. wp_step. wp_step. wp_step. eapply wp_lift_Some; [exact Hm|]. by wp_step. Qed.

Lemma wp_yuv_planes {F} q c k y m s (Q : Z * Z -> arrange -> Prop) E : yuv_geometry q c -> capture_mem s !! k = Some m ->
  Q (cap_y_at q c, yuv_offset q) (set_mem (<[k := yuv_places q c y m]> (capture_mem s)) s) ->
  wp F (yuv_planes q k y) Q E s.
Proof.
  intros Hg Hm HQ. pose proof (yuv_fits q c Hg) as (F1 & F2 & F3 & F4). destruct Hg as [Hc [Hdc Hdi] Ha Hj].
  unfold yuv_planes. pose proof (area_range _ Hdi) as H1. pose proof (area_range _ Hdc) as H2.
  assert (E1 : image_channel q = area (image_size q)) by (by apply area_u32). rewrite E1.
  wp_step. eapply wp_upd; [exact Hm|]. rewrite (u32_small (area (image_size q) * 3)), shiftr_half by lia.
  destruct (Z.eqb_spec (orig_fmt q) IMG_DATA_TYPE_JPEG) as [Ej|Ej].
  - destruct (Hj Ej) as [Hs Hr Hl Hcs]. pose proof (area_range _ Hs) as H3. unfold yuv_places, cap_u_at, cap_y_at, yuv_offset in *.
    rewrite Ej in *. cbn [Z.eqb IMG_DATA_TYPE_JPEG Pos.eqb] in *. fold (trimmed q) in Hl.
    assert (Hw : 0 <= width (sn_size q) <= 16384) by apply Hs. assert (Hh : 0 <= height (sn_size q) <= 16384) by apply Hs.
    assert (Ht : 0 <= trimmed q <= area (sn_size q)) by (unfold trimmed, area; nia).
    rewrite (u32_small (start_y (sn_trim q) + _)) by lia. fold (trimmed q). rewrite (u32_small (trimmed q)) by lia.
    rewrite (u32_small (area (image_size q) - trimmed q)) by lia.
    assert (Er : (height (sn_size q) - start_y (sn_trim q) - rect_height (sn_trim q)) * width (sn_size q) = area (sn_size q) - trimmed q) by (unfold trimmed, area; lia).
    assert (Ha3 : 0 <= area (image_size q) * 3 / 2) by (apply Z.div_pos; lia).
    rewrite (u32_small (height (sn_size q) - _ - _)), Er, (u32_small (area (sn_size q) - _)), (u32_small (_ / 2 + _)) by lia.
    assert (E2 : sn_channel q = area (sn_size q)) by (by apply area_u32). rewrite E2.
    wp_step. eapply wp_upd; [cbn [capture_mem set_mem]; apply list_lookup_insert_eq; by eapply lookup_lt_Some|].
    wp_step. cbn [capture_mem set_mem]. rewrite list_insert_insert_eq, shift_shift. exact HQ.
  - unfold yuv_places, cap_u_at, cap_y_at, yuv_offset in *. rewrite (proj2 (Z.eqb_neq _ _) Ej) in *. rewrite Z.add_0_r in *.
    wp_step. eapply wp_lift_Some; [exact Hc|]. rewrite (area_u32 c) by done.
    rewrite (u32_small (area (image_size q) - area c)), !shiftr_half by lia.
    wp_step. eapply wp_upd; [cbn [capture_mem set_mem]; apply list_lookup_insert_eq; by eapply lookup_lt_Some|].
    wp_step. cbn [capture_mem set_mem]. rewrite list_insert_insert_eq, shift_shift. exact HQ.
Qed.

(** An image in its block [b]. *)
Lemma yuv_image_places frm q c b m : yuv_geometry q c -> 0 <= off b -> len b = yuv_offset q -> size (cap_yuv m) = c ->
  addr_y (target_yuv m) = place frm b -> addr_u (target_yuv m) = shift (place frm b) (area (image_size q)) ->
  addr_y (cap_yuv m) = shift (place frm b) (cap_y_at q c) -> addr_u (cap_yuv m) = shift (place frm b) (cap_u_at q c) ->
  exists Y U CY CU, image_places frm q [b] Y U CY CU m.
Proof.
  intros Hg Hb Hl Hsz H1 H2 H3 H4. pose proof (yuv_fits q c Hg) as (F1 & F2 & F3 & F4). destruct Hg as [_ [Hdc Hdi] _ _].
  pose proof (area_range _ Hdi) as A1. pose proof (area_range _ Hdc) as A2. set (A := area (image_size q)) in *. set (C := area c) in *.
  assert (0 <= A / 2 /\ 0 <= C / 2) as [A3 A4] by (split; apply Z.div_pos; lia).
  assert (Hin : forall o n, 0 <= o -> 0 <= n -> o + n <= len b -> inside (Block (where_ b) (off b + o) n) b).
  { intros o n Ho Hn Hon. unfold inside. cbn [where_ off len]. split; [done|lia]. }
  exists (Block (where_ b) (off b + 0) A), (Block (where_ b) (off b + A) (A / 2)),
    (Block (where_ b) (off b + cap_y_at q c) C), (Block (where_ b) (off b + cap_u_at q c) (C / 2)).
  constructor; cbn [where_ off len]; try done.
  - rewrite H1, H2. unfold place. cbn [where_ off]. by rewrite Z.add_0_r, shift_shift.
  - rewrite H3, H4. unfold place. cbn [where_ off]. by rewrite !shift_shift.
  - by rewrite Hsz.
  - right. left. cbn [off len]. lia.
  - right. left. cbn [off len]. lia.
  - repeat constructor; exists b; (split; [by left|apply Hin]); rewrite ?Hl; lia.
Qed.

Lemma wp_first_yuv {F} frm q c m0 rest s (E : arrange -> Prop) :
  frames_ok frm -> yuv_geometry q c -> arena frm [] s -> major_end s = 0 -> capture_mem s = m0 :: rest ->
  cap_yuv_rot m0 = zero_frm -> buf_size (target_jpeg m0) = jpeg_size q ->
  (forall s', total frm Major < yuv_offset q + jpeg_size q -> E s') ->
  wp F (first_yuv frm q)
    (fun l s' => first_post frm q rest (yuv_offset q + jpeg_size q) s' /\ l = yuv_layout q c) E s.
Proof.
  intros Hf Hg Ha He Hm Hrot Hbuf HE. pose proof (jpeg_size_nonneg q) as Hj. pose proof (yuv_fits q c Hg) as (_ & _ & _ & F4).
  pose proof (area_range _ (proj2 (yg_dims _ _ Hg))) as H1. assert (Hn : 0 <= yuv_offset q) by (Z.div_mod_to_equations; lia).
  pose proof (frames_small _ Hf) as Hsm. unfold first_yuv. fold (jpeg_size q).
  wp_step. eapply (wp_yuv_planes q c 0 _ m0); [done|by rewrite Hm|]. rewrite Hm. cbn [insert list_insert fst snd]. cbv zeta.
  eapply wp_image_and_jpeg; [done|by apply arena_set_mem|done|reflexivity|exact Hn|done|done|].
  intros s1 Hm1 Ha1 He1 _. unfold cap_yuv_members. wp_step. wp_step. eapply wp_lift_Some; [apply Hg|].
  eapply wp_upd_0; [exact Hm1|]. wp_step. assert (E1 : image_channel q = area (image_size q)) by (apply area_u32, Hg). rewrite E1.
  split; [|done]. set (ib := Block Major 0 (yuv_offset q)).
  match goal with |- context [set_mem (?m :: rest) _] => exists m; destruct (yuv_image_places frm q c ib m Hg) as (Y & U & CY & CU & Hip) end;
    [done|done|done|symmetry; by apply (shift_0 frm Major)|(change (place frm ib) with (shift (base frm Major) 0); by rewrite (shift_0 frm Major))..|].
  exists [ib], (Block Major (yuv_offset q) (jpeg_size q)), Y, U, CY, CU.
  split_and!; [done|by apply arena_set_mem|exact Hip|done|done|].
  pose proof (a_total _ _ _ Ha1 Major) as (_ & _ & H3). cbn [used room] in H3. cbn [set_mem major_res]. lia.
Qed.

(** ** The buffers of the first image *)

Lemma wp_alloc_misc {F} frm q bl s (E : arrange -> Prop) : small frm -> arena frm bl s ->
  (forall s', major_res s < sum (misc_sizes q) -> E s') ->
  wp F (alloc_misc frm q) (fun fs s' => capture_mem s' = capture_mem s /\
    exists bs, arena frm (bl ++ bs) s' /\ Forall2 (placed frm) fs bs /\ misc_sizes q = len <$> bs) E s.
Proof.
  intros Hsm Ha HE. unfold alloc_misc.
  assert (Hn : Forall (fun n => 0 <= n) (misc_sizes q)).
  { unfold misc_sizes, get_size. cbn [fmap list_fmap]. unfold get_thum_yuv_size, get_thum_jpeg_size, get_scaler_tmp_size, ADDR_BY_WORD.
    apply Forall_cons; split; [apply Z.div_pos; [apply u32_range|done]|]. apply Forall_cons; split; [|apply Forall_singleton, u32_range].
    apply Z.land_nonneg. right. apply u32_range. }
  wp_step. eapply wp_mono; [by apply (wp_alloc_major frm Hsm (misc_sizes q) bl)| |done].
  intros [fs1 rest1] s1 (Hm1 & Hr1 & bs1 & Ha1 & Hf1 & E1). cbn [fst snd] in *.
  assert (Hn1 : Forall (fun n => 0 <= n) rest1) by (rewrite E1 in Hn; apply Forall_app in Hn; apply Hn).
  wp_step. eapply wp_mono; [by apply (wp_alloc_minor frm Hsm rest1 (bl ++ bs1))| |done].
  intros [fs2 rest2] s2 (Hm2 & _ & bs2 & Ha2 & Hf2 & E2). cbn [fst snd] in *. wp_step. wp_step.
  - wp_step. destruct rest2; [|done]. split; [congruence|]. exists (bs1 ++ bs2).
    rewrite app_assoc. split; [done|]. split; [by apply Forall2_app|]. rewrite app_nil_r in E2. by rewrite E1, E2, fmap_app.
  - apply HE. destruct Hr1 as [-> |?]; [|done]. destruct bs2, rest2; done.
Qed.

(** The rotation buffer, when there is room for it. *)
Definition rot_places (frm : cmr_cap_2_frm) (f : img_frm) (rbs : list block) : Prop :=
  (rbs = [] /\ f = zero_frm) \/ (exists rb, rbs = [rb] /\ placed frm f rb).

Lemma wp_alloc_rot {F} frm q l bl m rest s (E : arrange -> Prop) : small frm -> arena frm bl s ->
  capture_mem s = m :: rest -> cap_yuv_rot m = zero_frm ->
  wp F (alloc_rot frm q l) (fun _ s' => exists f rbs, capture_mem s' = on_cap_yuv_rot (fun _ => f) m :: rest /\
    rot_places frm f rbs /\ arena frm (bl ++ rbs) s') E s.
Proof.
  intros Hsm Ha Hm Hrot. unfold alloc_rot.
  assert (Hsame : exists f rbs, capture_mem s = on_cap_yuv_rot (fun _ => f) m :: rest /\ rot_places frm f rbs /\ arena frm (bl ++ rbs) s).
  { exists zero_frm, []. rewrite app_nil_r. split; [|by split; [left|] ]. rewrite Hm. destruct m. cbn in *. by rewrite Hrot. }
  destruct (negb _); [by wp_step|]. set (n := Z.shiftr _ 1).
  assert (Hn : 0 <= n) by (unfold n; rewrite shiftr_half; apply Z.div_pos; [apply u32_range|lia]).
  cbv zeta. wp_step. wp_step. destruct (Z.gtb_spec (major_res s) n); [|destruct (Z.gtb_spec (minor_res s) n); [|by wp_step] ].
  - wp_step. eapply wp_take_major; [done|done|lia|]. intros Ha1. eapply wp_upd_0; [exact Hm|].
    eexists _, [Block Major (major_end s) n]. split_and!; [reflexivity| |by apply arena_set_mem]. right. by eexists.
  - wp_step. eapply wp_take_minor; [done|done|lia|]. intros Ha1. eapply wp_upd_0; [exact Hm|].
    eexists _, [Block Minor (minor_end s) n]. split_and!; [reflexivity| |by apply arena_set_mem]. right. by eexists.
Qed.

(** All the buffers of the first image have places of their own. *)
Definition first_done (frm : cmr_cap_2_frm) (q : request) (rest : list cmr_cap_mem) (s : arrange) : Prop :=
  exists m I jb tb kb sb rbs Y U CY CU, capture_mem s = m :: rest /\ arena frm (I ++ [jb; tb; kb; sb] ++ rbs) s /\
    image_places frm q I Y U CY CU m /\ placed frm (target_jpeg m) jb /\ size (target_yuv m) = image_size q /\
    placed frm (thum_yuv m) tb /\ placed frm (thum_jpeg m) kb /\ placed frm (scale_tmp m) sb /\ rot_places frm (cap_yuv_rot m) rbs.

(** How many bytes of the major piece the first image needs at most. *)
Definition need (q : request) : Z :=
  (if orig_fmt q =? IMG_DATA_TYPE_RAW then raw_offset q + raw_uv q else yuv_offset q) + jpeg_size q + sum (misc_sizes q).

Definition geometry (q : request) (c : img_size) : Prop :=
  if orig_fmt q =? IMG_DATA_TYPE_RAW then raw_geometry q else yuv_geometry q c.
Definition layout_of (q : request) (c : img_size) : layout :=
  if orig_fmt q =? IMG_DATA_TYPE_RAW then raw_layout q else yuv_layout q c.

Lemma wp_first_image {F} frm q c m0 rest (E : arrange -> Prop) :
  frames_ok frm -> geometry q c -> (forall s', total frm Major <= need q -> E s') ->
  wp F (first_image frm q) (fun l s' => l = layout_of q c /\ first_done frm q rest s') E (arrange_init frm (m0 :: rest)).
Proof.
  intros Hf Hg HE. pose proof (frames_small _ Hf) as Hsm.
  assert (Ha : arena frm [] (arrange_init frm (m0 :: rest))) by (apply arena_init; [apply (f_end _ Hf Major)|apply (f_end _ Hf Minor)]).
  assert (Hmisc : 0 <= sum (misc_sizes q)).
  { unfold sum, misc_sizes, get_size, get_thum_yuv_size, get_thum_jpeg_size, get_scaler_tmp_size, ADDR_BY_WORD. cbn [fmap list_fmap foldr].
    pose proof (Z.land_nonneg (u32 (CMR_JPEG_SZIE (width (thum_size q)) (height (thum_size q)) + 3)) (u32 (Z.lnot 3))) as [_ H].
    pose proof (u32_range (Z.lnot 3)). specialize (H ltac:(right; lia)).
    pose proof (u32_range (u32 (width (image_size q) * CMR_SLICE_HEIGHT) * CMR_ZOOM_FACTOR)).
    pose proof (Z.div_pos (u32 (u32 (width (thum_size q) * height (thum_size q)) * 3)) 2 ltac:(apply u32_range) ltac:(lia)). lia. }
  unfold first_image. fold (jpeg_size q). wp_step. eapply wp_upd_0; [reflexivity|]. wp_step.
  eapply (wp_mono _ (fun l s' => l = layout_of q c /\ first_post frm q rest (need q - sum (misc_sizes q)) s') _ E); [| |done].
  - unfold geometry, layout_of, need in *. destruct (orig_fmt q =? IMG_DATA_TYPE_RAW).
    + eapply wp_mono; [eapply wp_first_raw; [done|done|by apply arena_set_mem|done|done|reflexivity|done|done|]| |done].
      * intros s' Hs'. apply HE. lia.
      * intros l s' (H & ->). split; [done|]. by replace (_ - _) with (raw_offset q + jpeg_size q + raw_uv q) by lia.
    + eapply wp_mono; [eapply wp_first_yuv; [done|done|by apply arena_set_mem|done|reflexivity|done|done|]| |done].
      * intros s' Hs'. apply HE. lia.
      * intros l s' (H & ->). split; [done|]. by replace (_ - _) with (yuv_offset q + jpeg_size q) by lia.
  - intros l s1 (-> & m & I & jb & Y & U & CY & CU & Hm & Ha1 & Hip & Hjpeg & Hrot & Hres).
    wp_step. eapply wp_upd_0; [exact Hm|]. wp_step. unfold target_yuv_members. eapply wp_upd_0; [reflexivity|].
    wp_step. eapply wp_mono; [eapply wp_alloc_misc; [done|repeat apply arena_set_mem; exact Ha1|]| |done].
    { intros s' Hs'. apply HE. cbn [major_res set_mem] in Hs'. lia. }
    intros fs s2 (Hm2 & bs & Ha2 & Hfs & Hlen).
    destruct bs as [|tb [|kb [|sb [|] ] ] ]; try done. pose proof (Forall2_length _ _ _ Hfs) as Hl.
    destruct fs as [|t [|k [|c0 [|] ] ] ]; try discriminate Hl.
    apply Forall2_cons in Hfs as [Ht Hfs]. apply Forall2_cons in Hfs as [Hk Hfs]. apply Forall2_cons in Hfs as [Hc0 _].
    wp_step. eapply wp_mono; [eapply wp_alloc_rot; [done|exact Ha2|exact Hm2|done]| |done].
    intros ? s3 (f & rbs & Hm3 & Hrb & Ha3). wp_step. unfold misc_members. eapply wp_upd_0; [exact Hm3|]. wp_step. split; [done|].
    match goal with |- context [set_mem (?m :: rest) _] => exists m end.
    exists I, jb, tb, kb, sb, rbs, Y, U, CY, CU. rewrite <- !app_assoc in Ha3. destruct Hip as [? ? ? ? ? ? ?].
    split_and!; [done|by apply arena_set_mem| |exact Hjpeg|done|exact Ht|exact Hk|exact Hc0|exact Hrb].
    by constructor.
Qed.

(** ** The images after the first *)

(** Any fault: the theorems on a result assume that there is one. *)
Definition any : fault -> Prop := fun _ => True.

(** The blocks that were given out, of which the last may not be accounted
    for. *)
Record placement (frm : cmr_cap_2_frm) (bl : list block) : Prop := {
  p_inside : forall b, b ∈ bl -> 0 <= off b /\ 0 <= len b /\ off b + len b <= total frm (where_ b);
  p_apart : pairwise apart bl
}.

Lemma arena_placement frm bl s : arena frm bl s -> placement frm bl.
Proof.
  intros [Ht Hi Ha]. constructor; [|done]. intros b Hb. destruct (Hi b Hb) as (H1 & H2 & H3).
  pose proof (Ht (where_ b)). lia.
Qed.

(** The RAW sensor's next image. *)
Definition raw_places (q : request) (l : layout) (y : both) (m : cmr_cap_mem) : cmr_cap_mem :=
  let cap_y := shift y (yy_to_y l) in
  let raw_y := shift cap_y (y_to_raw l) in
  let cap_u := shift raw_y (raw_size l) in
  on_cap_raw (fun f => set_fmt IMG_DATA_TYPE_RAW (set_size (sn_size q) (set_buf_size (raw_size l) (set_y raw_y f))))
    (on_cap_yuv (fun f => set_fmt IMG_DATA_TYPE_YUV420 (set_size (sn_size q)
      (set_buf_size (Z.shiftr (u32 (channel_size l * 3)) 1) (set_u cap_u (set_y cap_y f)))))
    (on_target_yuv (fun f => set_u (shift cap_u (- Z.shiftr (Z.shiftr (channel_size l) 1) 1)) (set_y y f)) m)).

Lemma wp_any_upd k g s (Q : unit -> arrange -> Prop) E :
  (forall m, capture_mem s !! k = Some m -> Q tt (set_mem (<[k := g m]> (capture_mem s)) s)) -> wp any (upd k g) Q E s.
Proof.
  intros HQ. unfold upd. wp_step. wp_step. wp_step. apply wp_lift; [|done]. intros m Hm. wp_step. by apply HQ.
Qed.

Lemma lookup_after_insert {A} (l : list A) k x y : l !! k = Some y -> <[k := x]> l !! k = Some x.
Proof. intros H. apply list_lookup_insert_eq. by eapply lookup_lt_Some. Qed.

Lemma wp_next_raw q l k y s (Q : unit -> arrange -> Prop) E :
  (forall m, capture_mem s !! k = Some m -> Q tt (set_mem (<[k := raw_places q l y m]> (capture_mem s)) s)) ->
  wp any (next_raw q l k y) Q E s.
Proof.
  intros HQ. unfold next_raw. wp_step. apply wp_any_upd. intros m Hm.
  wp_step. apply wp_any_upd. cbn [capture_mem set_mem]. intros m1 Hm1. rewrite (lookup_after_insert _ _ _ m) in Hm1 by done. injection Hm1 as <-.
  apply wp_any_upd. cbn [capture_mem set_mem]. intros m2 Hm2. rewrite list_insert_insert_eq in Hm2 |- *.
  rewrite (lookup_after_insert _ _ _ m) in Hm2 by done. injection Hm2 as <-. rewrite list_insert_insert_eq. by apply HQ.
Qed.

Lemma raw_image_places frm q b m : frames_ok frm -> raw_geometry q -> 0 <= off b -> len b = yuv_raw_size (raw_layout q) ->
  exists Y U CY CU, image_places frm q [b] Y U CY CU (raw_places q (raw_layout q) (place frm b) m).
Proof.
  intros Hf [ [Hs Hi] Harea Hpad] Hb Hl. pose proof (area_range _ Hs). pose proof (area_range _ Hi). pose proof (raw_yy_nonneg q) as Hyy.
  assert (Hw : 0 <= width (sn_size q)) by apply Hs. cbn in Hl. set (S := area (sn_size q)) in *. set (A := area (image_size q)) in *.
  set (y := raw_yy_to_y q) in *. set (g := 128 * width (sn_size q)) in *.
  assert (Hin : forall o n, 0 <= o -> 0 <= n -> o + n <= len b -> inside (Block (where_ b) (off b + o) n) b).
  { intros o n Ho Hn Hon. unfold inside. cbn [where_ off len]. split; [done|lia]. }
  exists (Block (where_ b) (off b + 0) A), (Block (where_ b) (off b + (y + g + S * 10 / 8 - S / 2 / 2)) (A / 2)),
    (Block (where_ b) (off b + y) S), (Block (where_ b) (off b + (y + g + S * 10 / 8)) (S / 2)).
  constructor; cbn [where_ off len]; try done.
  - unfold place. cbn. rewrite !shiftr_half, !shift_shift. fold S y g. split; f_equal; lia.
  - unfold place. cbn. rewrite !shift_shift. fold S y g. split; f_equal; lia.
  - right. left. cbn. Z.div_mod_to_equations; lia.
  - right. left. cbn. Z.div_mod_to_equations; lia.
  - repeat constructor; exists b; (split; [by left|apply Hin]); rewrite ?Hl; Z.div_mod_to_equations; lia.
Qed.
