(* ===== verification/CmrMemSafety.v ===== *)
(** * The results of the arrangement of the capture memory

    The images after the first one, and the theorems on the addresses that
    [camera_arrange_capture_buf] hands out, on the requests that it can serve
    with the memory that [camera_capture_buf_size] asks for, and on the ones
    where it goes wrong. *)
From stdpp Require Import base list.
From Stdlib Require Import ZArith Lia.
From S2P Require Import Prelude CmrMem CmrMemProofs.

(** ** The loops over the other images *)

(** The images from the second on lie in the blocks [bs], the [i]th of the
    rest in the [i]th block; the first image is as in [mem0]. *)
Record filled (frm : cmr_cap_2_frm) (q : request) (mem0 : list cmr_cap_mem) (bl bs : list block) (mem : list cmr_cap_mem) : Prop := {
  fl_first : mem !! 0%nat = mem0 !! 0%nat;
  fl_placement : placement frm (bl ++ bs);
  fl_image : forall i b, bs !! i = Some b ->
    exists m Y U CY CU, mem !! S i = Some m /\ image_places frm q [b] Y U CY CU m
}.

Lemma filled_snoc frm q mem0 bl bs b mem m : filled frm q mem0 bl bs mem -> placement frm (bl ++ bs ++ [b]) ->
  (S (length bs) < length mem)%nat -> (exists Y U CY CU, image_places frm q [b] Y U CY CU m) ->
  filled frm q mem0 bl (bs ++ [b]) (<[S (length bs) := m]> mem).
Proof.
  intros [H1 _ H3] Hp Hl (Y & U & CY & CU & Hi). constructor; [by destruct mem|done|].
  intros i x [Hx|[Hx1 Hx2] ]%lookup_app_Some.
  - pose proof (lookup_lt_Some _ _ _ Hx). destruct (H3 i x Hx) as (m' & Y' & U' & CY' & CU' & E & Hm').
    exists m', Y', U', CY', CU'. split; [|done]. rewrite list_lookup_insert_ne by lia. done.
  - apply list_lookup_singleton_Some in Hx2 as [Hx2 <-]. replace i with (length bs) by lia. exists m, Y, U, CY, CU. split; [|done].
    by apply list_lookup_insert_eq.
Qed.

(** After a loop that left [r.1] images of [n]: the arena, too, when some are
    missing; the last image is not counted. *)
Definition fill_post (frm : cmr_cap_2_frm) (q : request) (mem0 : list cmr_cap_mem) (bl bs : list block) (n : nat)
    (r : nat * nat) (s' : arrange) : Prop :=
  exists bs', filled frm q mem0 bl bs' (capture_mem s') /\ (length bs' + r.1 = length bs + n)%nat /\
    (r.1 <> 0%nat -> r.2 = S (length bs') /\ arena frm (bl ++ bs') s').

Section fill.
Context (frm : cmr_cap_2_frm) (q : request) (c : img_size).
Context (Hf : frames_ok frm) (Hg : geometry q c).
Context (mem0 : list cmr_cap_mem) (bl : list block).

Lemma raw_case : orig_fmt q = IMG_DATA_TYPE_RAW -> raw_geometry q /\ layout_of q c = raw_layout q.
Proof. intros E. unfold geometry, layout_of in *. by rewrite E in *. Qed.
Lemma yuv_case : orig_fmt q <> IMG_DATA_TYPE_RAW -> yuv_geometry q c /\ layout_of q c = yuv_layout q c.
Proof. intros E. unfold geometry, layout_of in *. by rewrite (proj2 (Z.eqb_neq _ _) E) in *. Qed.
Lemma size_nonneg : 0 <= yuv_raw_size (layout_of q c).
Proof.
  destruct (decide (orig_fmt q = IMG_DATA_TYPE_RAW)) as [E|E].
  - destruct (raw_case E) as [ [ [Hs _] _ _] ->]. pose proof (raw_yy_nonneg q). pose proof (area_range _ Hs). destruct Hs as [ [Hw _] _].
    cbn [yuv_raw_size raw_layout]. Z.div_mod_to_equations. lia.
  - destruct (yuv_case E) as [Hy ->]. pose proof (yuv_fits q c Hy). pose proof (area_range _ (proj2 (yg_dims _ _ Hy))). cbn [yuv_raw_size yuv_layout]. Z.div_mod_to_equations. lia.
Qed.

(** One more image, at the end of the used part of either piece. *)
Lemma wp_raw_image p bs s (Q : unit -> arrange -> Prop) E : raw_geometry q -> layout_of q c = raw_layout q ->
  filled frm q mem0 bl bs (capture_mem s) -> arena frm (bl ++ bs) s -> yuv_raw_size (raw_layout q) <= room s p ->
  (forall m, capture_mem s !! S (length bs) = Some m ->
     let b := Block p (used s p) (yuv_raw_size (raw_layout q)) in
     let mem := <[S (length bs) := raw_places q (raw_layout q) (place frm b) m]> (capture_mem s) in
     filled frm q mem0 bl (bs ++ [b]) mem -> Q tt (set_mem mem s)) ->
  wp any (next_raw q (raw_layout q) (S (length bs)) (shift (base frm p) (used s p))) Q E s.
Proof.
  intros Hrg El Hfl Ha Hr HQ. apply wp_next_raw. intros m Hm. pose proof size_nonneg as Hn. rewrite El in Hn.
  pose proof (a_total _ _ _ Ha p) as Ht. set (b := Block p (used s p) (yuv_raw_size (raw_layout q))).
  apply (HQ m Hm). apply filled_snoc; [done| |by eapply lookup_lt_Some|].
  - eapply arena_placement, arena_perm; [|eapply (arena_taken _ _ _ p); [exact Ha|split; [exact Hn|exact Hr] ] ]. by rewrite app_assoc.
  - apply raw_image_places; [done|done|cbn [off b]; lia|done].
Qed.

(** The same for one that does not come as RAW data. *)
Lemma wp_yuv_image bs s (Q : unit -> arrange -> Prop) E : yuv_geometry q c ->
  filled frm q mem0 bl bs (capture_mem s) -> arena frm (bl ++ bs) s -> yuv_offset q <= room s Major ->
  (forall mem, filled frm q mem0 bl (bs ++ [Block Major (used s Major) (yuv_offset q)]) mem -> Q tt (set_mem mem s)) ->
  wp any (_ <- yuv_planes q (S (length bs)) (major_at frm (major_end s)) ;; cap_yuv_members q (S (length bs))) Q E s.
Proof.
  intros Hy Hfl Ha Hr HQ. set (k := S (length bs)). set (b := Block Major (used s Major) (yuv_offset q)).
  destruct (capture_mem s !! k) as [m|] eqn:Hm.
  2:{ unfold wp, yuv_planes, upd, bind, get, lift. by rewrite Hm. }
  pose proof (a_total _ _ _ Ha Major) as Ht. pose proof (yuv_fits q c Hy) as (_ & _ & _ & F4). pose proof (area_range _ (proj2 (yg_dims _ _ Hy))) as A1.
  assert (Hn : 0 <= yuv_offset q) by (Z.div_mod_to_equations; lia).
  wp_step. eapply wp_yuv_planes; [exact Hy|exact Hm|]. unfold cap_yuv_members. wp_step. eapply wp_lift_Some; [apply Hy|].
  eapply wp_upd; [cbn [capture_mem set_mem]; apply list_lookup_insert_eq; by eapply lookup_lt_Some|].
  cbn [capture_mem set_mem]. rewrite list_insert_insert_eq. apply HQ. apply filled_snoc; [done| |by eapply lookup_lt_Some|].
  - eapply arena_placement, arena_perm; [|eapply (arena_taken _ _ _ Major); [exact Ha|split; [exact Hn|exact Hr] ] ]. by rewrite app_assoc.
  - eapply (yuv_image_places frm q c b); [exact Hy|cbn [off b]; lia|done..].
Qed.

(** The members that are set without effect on the places. *)
Lemma wp_target_yuv_members l bs k s (Q : unit -> arrange -> Prop) E :
  filled frm q mem0 bl bs (capture_mem s) ->
  (forall mem, filled frm q mem0 bl bs mem -> Q tt (set_mem mem s)) ->
  wp any (target_yuv_members q l (S k)) Q E s.
Proof.
  intros [H1 H2 H3] HQ. apply wp_any_upd. intros m Hm. apply HQ. constructor; [by destruct (capture_mem s)|done|].
  intros i b Hb. destruct (H3 i b Hb) as (m' & Y & U & CY & CU & E' & Hi).
  destruct (decide (i = k)) as [->|Hne].
  - rewrite (lookup_after_insert _ _ _ m) by done. rewrite Hm in E'. injection E' as <-.
    eexists _, Y, U, CY, CU. split; [reflexivity|]. destruct Hi as [? ? ? ? ? ? ?]. by constructor.
  - exists m', Y, U, CY, CU. split; [|done]. by rewrite list_lookup_insert_ne by lia.
Qed.

Lemma wp_fill_major n : forall bs s E, filled frm q mem0 bl bs (capture_mem s) -> arena frm (bl ++ bs) s ->
  wp any (fill_major frm q (layout_of q c) n (S (length bs))) (fill_post frm q mem0 bl bs n) E s.
Proof.
  pose proof (frames_small _ Hf) as Hsm. pose proof size_nonneg as Hn. induction n as [|n IH]; intros bs s E Hfl Ha; cbn [fill_major].
  { wp_step. exists bs. split; [done|]. split; [done|]. done. }
  wp_step. wp_step. destruct (Z.geb_spec (major_res s) (yuv_raw_size (layout_of q c))) as [Hroom|Hroom].
  2:{ wp_step. exists bs. split; [done|]. split; [cbn; lia|]. done. }
  set (b := Block Major (used s Major) (yuv_raw_size (layout_of q c))).
  wp_step. eapply (wp_mono _ (fun _ s1 => exists mem, filled frm q mem0 bl (bs ++ [b]) mem /\ s1 = set_mem mem s) _ E); [| |done].
  { destruct (Z.eqb_spec (orig_fmt q) IMG_DATA_TYPE_RAW) as [Eo|Eo].
    - destruct (raw_case Eo) as [Hrg El]. unfold b. rewrite El in *. apply (wp_raw_image Major bs s); [done|done|done|done|done|]. intros m _ b' mem Hfl1. by exists mem.
    - destruct (yuv_case Eo) as [Hy El]. unfold b. rewrite El in *. apply (wp_yuv_image bs s); [done|done|done|done|]. intros mem Hfl1. by exists mem. }
  intros _ s1 (mem & Hfl1 & ->). wp_step. eapply wp_target_yuv_members; [exact Hfl1|]. intros mem2 Hfl2.
  destruct n as [|n].
  - wp_step. eexists. split; [exact Hfl2|]. split; [rewrite length_app; cbn; lia|done].
  - wp_step. eapply wp_take_major; [done|by repeat apply arena_set_mem|split; [exact Hn|done]|]. intros Ha2.
    replace (S (S (length bs))) with (S (length (bs ++ [b]))) by (rewrite length_app; cbn; lia).
    eapply wp_mono; [apply IH; [exact Hfl2|by rewrite app_assoc]| |done].
    intros r s' (bs' & H1 & H2 & H3). exists bs'. split; [done|]. split; [rewrite H2, length_app; cbn; lia|done].
Qed.

(** The minor piece takes the rest of the RAW sensor's images; of other images
    it must take none. *)
Lemma wp_fill_minor n : orig_fmt q = IMG_DATA_TYPE_RAW \/ total frm Minor < yuv_raw_size (layout_of q c) ->
  forall bs s E, filled frm q mem0 bl bs (capture_mem s) -> arena frm (bl ++ bs) s ->
  wp any (fill_minor frm q (layout_of q c) n (S (length bs))) (fill_post frm q mem0 bl bs n) E s.
Proof.
  intros Hor. pose proof (frames_small _ Hf) as Hsm. pose proof size_nonneg as Hn. induction n as [|n IH]; intros bs s E Hfl Ha; cbn [fill_minor].
  { wp_step. exists bs. split; [done|]. split; [done|]. done. }
  pose proof (a_total _ _ _ Ha Minor) as Ht. cbn [used room] in Ht.
  wp_step. wp_step. destruct (Z.geb_spec (minor_res s) (yuv_raw_size (layout_of q c))) as [Hroom|Hroom].
  2:{ wp_step. exists bs. split; [done|]. split; [cbn; lia|]. done. }
  destruct Hor as [Hraw|?]; [|lia]. destruct (raw_case Hraw) as [Hrg El]. rewrite El in *. rewrite Hraw. cbn [Z.eqb].
  wp_step. apply (wp_raw_image Minor bs s); [done|done|done|done|done|]. intros m Hm b mem Hfl1.
  destruct n as [|n].
  - wp_step. eexists. split; [exact Hfl1|]. split; [rewrite length_app; cbn; lia|done].
  - wp_step. eapply wp_take_minor; [done|by repeat apply arena_set_mem|split; [exact Hn|done]|]. intros Ha2.
    replace (S (S (length bs))) with (S (length (bs ++ [b]))) by (rewrite length_app; cbn; lia).
    eapply wp_mono; [apply IH; [exact Hfl1|by rewrite app_assoc]| |done].
    intros r s' (bs' & H1 & H2 & H3). exists bs'. split; [done|]. split; [rewrite H2, length_app; cbn; lia|done].
Qed.
End fill.

(** ** The buffers and where they are *)

Definition target_planes (q : request) (m : cmr_cap_mem) : list (both * Z) :=
  [(addr_y (target_yuv m), area (image_size q)); (addr_u (target_yuv m), area (image_size q) / 2)].
Definition cap_planes (m : cmr_cap_mem) : list (both * Z) :=
  [(addr_y (cap_yuv m), area (size (cap_yuv m))); (addr_u (cap_yuv m), area (size (cap_yuv m)) / 2)].
Definition frame_buffer (f : img_frm) : both * Z := (addr_y f, buf_size f).
Definition other_buffers (m : cmr_cap_mem) : list (both * Z) :=
  frame_buffer <$> [target_jpeg m; thum_yuv m; thum_jpeg m; scale_tmp m; cap_yuv_rot m].

(** An image is in memory as it was captured, or scaled to its target, in
    place; [as_target] says which images have been scaled. *)
Definition image_buffers (q : request) (as_target : nat -> bool) (mem : list cmr_cap_mem) : list (both * Z) :=
  concat (imap (fun k m => if as_target k then target_planes q m else cap_planes m) mem).
Definition capture_buffers (q : request) (as_target : nat -> bool) (mem : list cmr_cap_mem) : list (both * Z) :=
  image_buffers q as_target mem ++ match mem with m :: _ => other_buffers m | [] => [] end.

Definition disjoint_at (proj : both -> Z) (x y : both * Z) : Prop :=
  proj x.1 + x.2 <= proj y.1 \/ proj y.1 + y.2 <= proj x.1.
Definition in_frame (proj : both -> Z) (frm : cmr_cap_2_frm) (x : both * Z) : Prop :=
  x.2 = 0 \/ exists p, proj (base frm p) <= proj x.1 /\ proj x.1 + x.2 <= proj (base frm p) + total frm p.
(** The two pieces do not overlap. *)
Definition frames_apart (proj : both -> Z) (frm : cmr_cap_2_frm) : Prop :=
  disjoint_at proj (frame_buffer (major_frm frm)) (frame_buffer (minor_frm frm)).

#[export] Instance disjoint_at_symmetric proj : Symmetric (disjoint_at proj).
Proof. intros x y [H|H]; [by right|by left]. Qed.

(** The buffer [r] is the block [b]. *)
Definition at_block (frm : cmr_cap_2_frm) (b : block) (r : both * Z) : Prop := r = (place frm b, len b).
Definition in_piece (frm : cmr_cap_2_frm) (b : block) : Prop := 0 <= off b /\ 0 <= len b /\ off b + len b <= total frm (where_ b).

Section addresses.
Context (frm : cmr_cap_2_frm) (proj : both -> Z).
Context (Hf : frames_ok frm) (Hproj : proj = phy \/ proj = vir) (Hap : frames_apart proj frm).

Lemma proj_place b : in_piece frm b -> proj (place frm b) = proj (base frm (where_ b)) + off b /\ 0 <= proj (base frm (where_ b)).
Proof.
  intros (H1 & H2 & H3). pose proof (f_base _ Hf (where_ b)) as [? ?]. pose proof (f_end _ Hf (where_ b)) as (? & ? & ?).
  unfold place, shift. destruct Hproj as [-> | ->]; cbn [phy vir]; rewrite u32_small by lia; done.
Qed.

Lemma apart_disjoint b b' : in_piece frm b -> in_piece frm b' -> apart b b' ->
  disjoint_at proj (place frm b, len b) (place frm b', len b').
Proof.
  intros Hb Hb' H. pose proof (proj_place b Hb) as [E1 _]. pose proof (proj_place b' Hb') as [E2 _].
  unfold disjoint_at. cbn [fst snd]. rewrite E1, E2. destruct Hb as (? & ? & Hb), Hb' as (? & ? & Hb').
  unfold frames_apart, disjoint_at, frame_buffer in Hap. cbn [fst snd] in Hap.
  unfold apart in H. destruct (where_ b), (where_ b'); cbn [base total] in *; destruct H as [H|H]; try congruence; lia.
Qed.

Lemma blocks_buffers bs rs : pairwise apart bs -> Forall (in_piece frm) bs -> Forall2 (at_block frm) bs rs ->
  pairwise (disjoint_at proj) rs /\ Forall (in_frame proj frm) rs /\ Forall (fun r => 0 <= proj r.1) rs.
Proof.
  intros Hp Hi Hr. split_and!.
  - intros i j x y Hij Hx Hy. destruct (Forall2_lookup_r _ _ _ _ _ Hr Hx) as (b & Hb & ->).
    destruct (Forall2_lookup_r _ _ _ _ _ Hr Hy) as (b' & Hb' & ->).
    apply apart_disjoint; [by eapply Forall_lookup_1..|by apply (Hp i j)].
  - apply Forall_lookup_2. intros i x Hx. destruct (Forall2_lookup_r _ _ _ _ _ Hr Hx) as (b & Hb & ->).
    pose proof (Forall_lookup_1 _ _ _ _ Hi Hb) as Hin. pose proof (proj_place b Hin) as [E _]. right. exists (where_ b).
    cbn [fst snd]. rewrite E. destruct Hin as (? & ? & ?). lia.
  - apply Forall_lookup_2. intros i x Hx. destruct (Forall2_lookup_r _ _ _ _ _ Hr Hx) as (b & Hb & ->).
    pose proof (Forall_lookup_1 _ _ _ _ Hi Hb) as Hin. pose proof (proj_place b Hin) as [E ?]. cbn [fst]. rewrite E.
    destruct Hin as (? & ? & ?). lia.
Qed.
End addresses.

Definition planes_in (I P : list block) : Prop := pairwise apart P /\ Forall (fun x => exists b, b ∈ I /\ inside x b) P.

(** Replacing the blocks of the images by the planes in them. *)
Lemma all_planes_apart Is Ps : Forall2 planes_in Is Ps -> forall O, Forall (fun b => 0 <= len b) (concat Is ++ O) ->
  pairwise apart (concat Is ++ O) -> pairwise apart (concat Ps ++ O).
Proof.
  induction 1 as [|I P Is Ps [Hap HP] _ IH]; intros O HO Hpw; cbn [concat] in *; [done|].
  rewrite <- app_assoc in Hpw, HO |- *. apply Forall_app in HO as [HI HO]. rewrite Permutation_app_swap_app.
  assert (HP0 : Forall (fun b => 0 <= len b) P).
  { eapply Forall_impl; [exact HP|]. intros x (b & _ & _ & Hl & _). exact Hl. }
  apply IH.
  - apply Forall_app in HO as [? ?]. by rewrite !Forall_app.
  - rewrite Permutation_app_swap_app. apply (planes_apart I); [done|done|by apply Forall_forall|done].
Qed.

Lemma inside_piece frm x b : inside x b -> in_piece frm b -> in_piece frm x.
Proof. intros (E & H1 & H2 & H3) (H4 & H5 & H6). unfold in_piece. rewrite E. lia. Qed.

Lemma all_planes_in_piece frm Is Ps : Forall2 planes_in Is Ps -> Forall (in_piece frm) (concat Is) -> Forall (in_piece frm) (concat Ps).
Proof.
  induction 1 as [|I P Is Ps [_ HP] _ IH]; intros H; cbn [concat] in *; [done|]. apply Forall_app in H as [HI H].
  apply Forall_app. split; [|by apply IH]. eapply Forall_impl; [exact HP|]. intros x (b & Hb & Hx).
  eapply inside_piece; [exact Hx|]. by apply (proj1 (Forall_forall _ _) HI).
Qed.

(** The planes of the images in one view. *)
Lemma images_planes frm q Is ms : Forall2 (fun I m => exists Y U CY CU, image_places frm q I Y U CY CU m) Is ms ->
  forall view, exists Ps, Forall2 planes_in Is Ps /\ Forall2 (at_block frm) (concat Ps) (image_buffers q view ms).
Proof.
  unfold image_buffers. induction 1 as [|I m Is ms (Y & U & CY & CU & H) _ IH]; intros view.
  { exists []. split; [constructor|constructor]. }
  destruct (IH (view ∘ S)) as (Ps & H1 & H2). destruct H as [ [T1 T2] [C1 C2] [LT1 LT2] [LC1 LC2] AT AC Hin].
  exists ((if view O then [Y; U] else [CY; CU]) :: Ps). split.
  - constructor; [|done]. split; [destruct (view O); apply pairwise_pair; (apply _ || done)|].
    apply Forall_forall. intros x Hx. apply (proj1 (Forall_forall _ _) Hin). by destruct (view O); apply elem_of_cons in Hx as [->|Hx%list_elem_of_singleton]; subst; rewrite ?elem_of_cons; tauto.
  - rewrite imap_cons. cbn [concat]. apply Forall2_app; [|done]. unfold target_planes, cap_planes.
    destruct (view O); (constructor; [|constructor; [|constructor] ]); unfold at_block; f_equal; congruence.
Qed.

(** What a successful arrangement has done. *)
Definition arranged (frm : cmr_cap_2_frm) (q : request) (s : arrange) : Prop :=
  exists I jb tb kb sb rbs Y U CY CU m bs, capture_mem s !! 0%nat = Some m /\
    image_places frm q I Y U CY CU m /\ placed frm (target_jpeg m) jb /\ size (target_yuv m) = image_size q /\
    placed frm (thum_yuv m) tb /\ placed frm (thum_jpeg m) kb /\ placed frm (scale_tmp m) sb /\
    rot_places frm (cap_yuv_rot m) rbs /\
    filled frm q (capture_mem s) (I ++ [jb; tb; kb; sb] ++ rbs) bs (capture_mem s) /\ S (length bs) = Z.to_nat (Z.max 1 (image_cnt q)).

Lemma wp_arrange_images frm q c m0 rest E : frames_ok frm -> geometry q c ->
  orig_fmt q = IMG_DATA_TYPE_RAW \/ image_cnt q <= 1 \/ total frm Minor < yuv_offset q -> (forall s, E s) ->
  wp any (arrange_images frm q) (fun _ => arranged frm q) E (arrange_init frm (m0 :: rest)).
Proof.
  intros Hf Hg Hor HE. unfold arrange_images. wp_step. eapply wp_mono; [apply (wp_first_image frm q c m0 rest E Hf Hg); intros s' _; apply HE| |done].
  intros l s (-> & m & I & jb & tb & kb & sb & rbs & Y & U & CY & CU & Hm & Ha & Hip & Hj & Hsz & Ht & Hk & Hs & Hr).
  set (bl := I ++ [jb; tb; kb; sb] ++ rbs) in *.
  assert (H0 : filled frm q (capture_mem s) bl [] (capture_mem s)).
  { constructor; [done|rewrite app_nil_r; by eapply arena_placement|done]. }
  assert (Hend : forall bs' s', filled frm q (capture_mem s) bl bs' (capture_mem s') ->
    S (length bs') = Z.to_nat (Z.max 1 (image_cnt q)) -> arranged frm q s').
  { intros bs' s' [F1 F2 F3] Hl. exists I, jb, tb, kb, sb, rbs, Y, U, CY, CU, m, bs'.
    split_and!; try done. rewrite F1, Hm. done. }
  destruct (decide (image_cnt q <= 1)) as [Hc|Hc].
  - replace (Z.to_nat (image_cnt q - 1)) with 0%nat by lia. cbn [fill_major]. wp_step. wp_step. wp_step. cbn [fill_minor fst snd].
    wp_step. wp_step; [|done]. apply (Hend [] s H0). cbn. lia.
  - assert (Hor' : orig_fmt q = IMG_DATA_TYPE_RAW \/ total frm Minor < yuv_raw_size (layout_of q c)).
    { destruct (decide (orig_fmt q = IMG_DATA_TYPE_RAW)) as [?|Hy]; [by left|right]. destruct (yuv_case q c Hg Hy) as [_ ->].
      cbn [yuv_raw_size yuv_layout]. destruct Hor as [?|[?|?] ]; [done|lia|done]. }
    wp_step. eapply wp_mono; [eapply (wp_fill_major frm q c Hf Hg (capture_mem s) bl _ [] s E); [exact H0|by rewrite app_nil_r]| |done].
    intros [n1 k1] s1 (bs1 & Hfl1 & Hl1 & Ha1). cbn [fst snd length] in *. wp_step.
    destruct n1 as [|n1].
    + cbn [fill_minor]. wp_step. wp_step; [|done]. apply (Hend bs1 s1 Hfl1). lia.
    + destruct (Ha1 ltac:(lia)) as [-> Ha2].
      eapply wp_mono; [apply (wp_fill_minor frm q c Hf Hg (capture_mem s) bl _ Hor' bs1 s1 E Hfl1 Ha2)| |done].
      intros [n2 k2] s2 (bs2 & Hfl2 & Hl2 & _). cbn [fst snd] in *. wp_step; [|done]. apply (Hend bs2 s2 Hfl2).
      assert (n2 = 0)%nat as -> by (by apply Nat.eqb_eq). lia.
Qed.

(** The rotation buffer that was not allocated is empty and at address 0. *)
Lemma rot_at_block frm f rbs : rot_places frm f rbs ->
  (rbs = [] /\ frame_buffer f = (Both 0 0, 0)) \/ Forall2 (at_block frm) rbs [frame_buffer f].
Proof.
  intros [ [-> ->]|(rb & -> & [H1 H2]) ]; [by left|]. right. constructor; [|constructor]. unfold at_block, frame_buffer. by rewrite H1, H2.
Qed.

Lemma placed_at_block frm f b : placed frm f b -> at_block frm b (frame_buffer f).
Proof. intros [H1 H2]. unfold at_block, frame_buffer. by rewrite H1, H2. Qed.

Lemma take_images mem k (m : cmr_cap_mem) : mem !! 0%nat = Some m -> take (S k) mem = m :: take k (drop 1 mem).
Proof. destruct mem; [done|]. intros [= ->]. cbn. by rewrite drop_0. Qed.

(** The blocks behind all the buffers but an empty one. *)
Lemma arranged_blocks frm q s view : arranged frm q s ->
  exists bs rs, pairwise apart bs /\ Forall (in_piece frm) bs /\ Forall2 (at_block frm) bs rs /\
    (capture_buffers q view (take (Z.to_nat (Z.max 1 (image_cnt q))) (capture_mem s)) = rs \/
     capture_buffers q view (take (Z.to_nat (Z.max 1 (image_cnt q))) (capture_mem s)) = rs ++ [(Both 0 0, 0)]).
Proof.
  intros (I & jb & tb & kb & sb & rbs & Y & U & CY & CU & m & bs & Hm & Hip & Hj & _ & Ht & Hk & Hs & Hr & [_ Hp Hi] & Hl).
  rewrite <- Hl, (take_images _ _ m) by done.
  assert (Hims : Forall2 (fun J m => exists Y U CY CU, image_places frm q J Y U CY CU m)
    (I :: ((fun b => [b]) <$> bs)) (m :: take (length bs) (drop 1 (capture_mem s)))).
  { constructor; [by exists Y, U, CY, CU|]. apply Forall2_fmap_l, Forall2_same_length_lookup_2.
    - rewrite length_take, length_drop. destruct (decide (length bs = 0)%nat) as [E|E]; [lia|].
      destruct (lookup_lt_is_Some_2 bs (length bs - 1)) as [b Hb]; [lia|].
      destruct (Hi _ _ Hb) as (m' & _ & _ & _ & _ & Hm'%lookup_lt_Some & _). lia.
    - intros i b m' Hb Hm'. destruct (Hi i b Hb) as (m'' & H). rewrite lookup_take_lt in Hm' by (by eapply lookup_lt_Some).
      rewrite lookup_drop in Hm'. destruct H as (Y' & U' & CY' & CU' & E & H). exists Y', U', CY', CU'. cbn in Hm', E. congruence. }
  destruct (images_planes frm q _ _ Hims view) as (Ps & HPs & Hbuf). destruct Hp as [Hin Hap].
  assert (Econc : concat ((fun b : block => [b]) <$> bs) = bs) by (clear; induction bs; cbn; congruence).
  set (O := [jb; tb; kb; sb] ++ rbs) in *.
  assert (Eperm : concat (I :: ((fun b => [b]) <$> bs)) ++ O ≡ₚ (I ++ O) ++ bs).
  { cbn [concat]. rewrite Econc, <- !app_assoc. by rewrite (Permutation_app_comm bs). }
  assert (Hinp : Forall (in_piece frm) (concat (I :: ((fun b => [b]) <$> bs)) ++ O)).
  { rewrite Eperm. apply Forall_forall. intros b Hb. by apply Hin. }
  exists (concat Ps ++ O), (image_buffers q view (m :: take (length bs) (drop 1 (capture_mem s))) ++
    (frame_buffer <$> [target_jpeg m; thum_yuv m; thum_jpeg m; scale_tmp m]) ++
    (match rbs with [] => [] | _ => [frame_buffer (cap_yuv_rot m)] end)).
  split_and!.
  - eapply all_planes_apart; [exact HPs| |by rewrite Eperm]. eapply Forall_impl; [exact Hinp|]. intros b (_ & Hb & _). exact Hb.
  - apply Forall_app in Hinp as [HI HO]. apply Forall_app. split; [by eapply all_planes_in_piece|done].
  - apply Forall2_app; [done|]. apply Forall2_app; [|].
    + repeat (constructor; [by apply placed_at_block|]). constructor.
    + destruct (rot_at_block _ _ _ Hr) as [ [-> _]|H]; [constructor|]. by destruct rbs.
  - unfold capture_buffers, other_buffers. destruct (rot_at_block _ _ _ Hr) as [ [-> E]|H]; [right|left].
    + cbn. rewrite E, <- !app_assoc. done.
    + by destruct rbs; [inversion H|].
Qed.

(** C4: The buffers that a successful arrangement hands out for a capture - of
    each image the planes as captured or as scaled, the JPEG, the thumbnail's,
    the scaler's and the rotation's - are pairwise disjoint and inside the two
    pieces of memory, physically and virtually. The pieces are apart and below
    4 GiB, and all sizes at most 16384 each way. The data may be RAW
    (raw_geometry: the target is not larger than the sensor's image, and 5
    times the pixels kept above the capture, raw_yy_to_y, are at most the
    pixels of the sensor's image and 512 times its width), YUV (yuv_geometry:
    the capture is not larger than the target) or JPEG (jpeg_geometry:
    moreover the trim rectangle ends within the sensor's rows, the lines up to
    its end are not more than the target, and the capture is not larger than
    the sensor's image). Several images are covered for RAW data, and for
    other data when the smaller piece has no room for an image. Not covered:
    several images that are not RAW with a smaller piece that has room for
    one; then a later image gets an address in what is left of the larger
    piece and ends behind it (cmr_mem.c:683; second_image_outside is such a
    capture). *)
Theorem capture_buffers_apart frm sn trim image orig cap thum mem rot cnt c s proj view :
  proj = phy \/ proj = vir -> frames_ok frm -> frames_apart proj frm ->
  geometry (Request sn trim image orig cap thum rot cnt) c ->
  orig = IMG_DATA_TYPE_RAW \/ cnt <= 1 \/ buf_size (minor_frm frm) < yuv_offset (Request sn trim image orig cap thum rot cnt) ->
  camera_arrange_capture_buf (Some frm) (Some sn) (Some trim) (Some image) orig cap (Some thum) mem rot cnt = Ret tt s ->
  let bufs := capture_buffers (Request sn trim image orig cap thum rot cnt) view (take (Z.to_nat (Z.max 1 cnt)) (capture_mem s)) in
  pairwise (disjoint_at proj) bufs /\ Forall (in_frame proj frm) bufs.
Proof.
  intros Hproj Hf Hap Hg Hor Hret bufs. set (q := Request _ _ _ _ _ _ _ _) in *.
  destruct mem as [|m0 rest]; [discriminate Hret|].
  pose proof (wp_arrange_images frm q c m0 rest (fun _ => True) Hf Hg Hor ltac:(done)) as H.
  unfold camera_arrange_capture_buf in Hret. fold q in Hret. unfold wp in H. rewrite Hret in H.
  destruct (arranged_blocks frm q s view H) as (bs & rs & H1 & H2 & H3 & H4).
  destruct (blocks_buffers frm proj Hf Hproj Hap bs rs H1 H2 H3) as (Hpw & Hin & H0). change (bufs = rs \/ bufs = rs ++ [(Both 0 0, 0)]) in H4. clearbody bufs. destruct H4 as [-> | ->]; [done|]. split.
  - apply pairwise_app; [apply _|]. split_and!; [done|apply pairwise_singleton|]. intros x y Hx ->%list_elem_of_singleton.
    right. cbn [fst snd]. replace (proj (Both 0 0)) with 0 by (by destruct Hproj as [-> | ->]). apply (proj1 (Forall_forall _ _) H0 x Hx).
  - apply Forall_app. split; [done|]. apply Forall_singleton. by left.
Qed.

(** ** What the memory is enough for *)

Lemma wp_arrange_one {F} frm q c m0 rest : frames_ok frm -> geometry q c -> image_cnt q <= 1 -> need q < total frm Major ->
  wp F (arrange_images frm q) (fun _ s => first_done frm q rest s) (fun _ => False) (arrange_init frm (m0 :: rest)).
Proof.
  intros Hf Hg Hc Hn. unfold arrange_images. wp_step. eapply wp_mono; [apply (wp_first_image frm q c m0 rest (fun _ => False) Hf Hg); intros s' H; lia| |done].
  intros l s (-> & Hd). replace (Z.to_nat (image_cnt q - 1)) with 0%nat by lia. cbn [fill_major]. wp_step. wp_step. wp_step. cbn [fill_minor fst snd].
  wp_step. wp_step; [exact Hd|discriminate].
Qed.

(** A bound on the need of an image by its area and width. *)
Lemma address_word a : 0 <= a < 4294967292 -> a <= ADDR_BY_WORD a <= a + 3.
Proof.
  intros Ha. unfold ADDR_BY_WORD. rewrite (u32_small (a + 3)) by lia.
  assert (E : u32 (Z.lnot 3) = Z.land (Z.lnot (Z.ones 2)) (Z.ones 32)) by done.
  rewrite E, Z.land_assoc, land_lnot_ones, Z.land_ones by lia. change (2 ^ 2) with 4. change (2 ^ 32) with 4294967296.
  Z.div_mod_to_equations. lia.
Qed.

(** The sensor delivers the image as it is captured. *)
Definition plain_request (image : img_size) (trim : img_rect) (orig : Z) (cap : option img_size) (thum : img_size) (rot cnt : Z) : request :=
  Request image trim image orig cap thum rot cnt.

Lemma plain_yy image trim orig cap thum rot cnt : start_y trim = 0 -> raw_yy_to_y (plain_request image trim orig cap thum rot cnt) = 0.
Proof. intros H. unfold raw_yy_to_y. cbn [sn_size image_size sn_trim plain_request]. by rewrite !Z.eqb_refl, H. Qed.

(** What an image needs, by its area and width and the thumbnail's area. *)
Lemma plain_need image trim orig cap thum rot cnt : orig <> IMG_DATA_TYPE_JPEG -> dims image -> dims thum -> start_y trim = 0 ->
  need (plain_request image trim orig cap thum rot cnt) <=
  (if orig =? IMG_DATA_TYPE_RAW then 11 * area image / 4 + 384 * width image else 5 * area image / 2 + 256 * width image) +
  65536 + 5 * area thum / 2 + 8.
Proof.
  intros Hnj Hi Ht Hy. pose proof (area_range _ Hi) as Ha. pose proof (area_range _ Ht) as Hta.
  assert (Hw : 0 <= width image <= 16384) by apply Hi.
  set (q := plain_request _ _ _ _ _ _ _).
  assert (Hj : jpeg_size q <= area image + 65536 + 3).
  { unfold jpeg_size, get_jpeg_size, CMR_JPEG_SZIE, CMR_JPEG_COMPRESS_FACTOR, JPEG_EXIF_SIZE. cbn [image_size q plain_request].
    rewrite area_u32, Z.div_1_r, (u32_small (area image + _)) by (done || lia). apply address_word. lia. }
  assert (Hm : sum (misc_sizes q) <= area thum * 3 / 2 + (area thum + 3) + 256 * width image).
  { unfold sum, misc_sizes, get_size. cbn [fmap list_fmap foldr image_size thum_size q plain_request].
    unfold get_thum_yuv_size, get_thum_jpeg_size, get_scaler_tmp_size, CMR_JPEG_SZIE, CMR_JPEG_COMPRESS_FACTOR, CMR_SLICE_HEIGHT, CMR_ZOOM_FACTOR.
    rewrite !area_u32, Z.div_1_r by done. pose proof (address_word (area thum)).
    rewrite (u32_small (area thum * 3)), (u32_small (width image * 128)), (u32_small (_ * 2)) by lia. lia. }
  unfold need. unfold raw_offset, raw_uv, yuv_offset, q. rewrite plain_yy by done. fold q. cbn [orig_fmt plain_request q sn_size image_size].
  rewrite (proj2 (Z.eqb_neq _ _) Hnj).
  destruct (orig =? IMG_DATA_TYPE_RAW); Z.div_mod_to_equations; lia.
Qed.

(** The classes of images for which the sizes in the tables are enough. *)
Definition enough (rotation raw : bool) (camera_id a : Z) : bool :=
  if raw then (a <=? PIXEL_2P0_MEGA) || (PIXEL_3P0_MEGA <? a)
  else (a <=? PIXEL_5P0_MEGA) && (rotation || (PIXEL_3P0_MEGA <? a) || ((camera_id =? BACK_CAMERA_ID) && (PIXEL_2P0_MEGA <? a))).

Lemma width_bound k image : 0 <= width image -> width image * width image <= 2 * area image -> 0 <= k -> 2 * area image <= k * k -> width image <= k.
Proof. nia. Qed.

Lemma enough_major rotation camera_id sn_fmt image major minor :
  camera_id = BACK_CAMERA_ID \/ camera_id = FRONT_CAMERA_ID -> dims image -> width image * width image <= 2 * area image ->
  camera_capture_buf_size rotation rotation camera_id sn_fmt (Some image) = Some (major, minor) ->
  enough rotation (sn_fmt =? SENSOR_IMAGE_FORMAT_RAW) camera_id (area image) = true ->
  (if sn_fmt =? SENSOR_IMAGE_FORMAT_RAW then 11 * area image / 4 + 384 * width image else 5 * area image / 2 + 256 * width image) +
  257552 < major.
Proof.
  intros Hid Hi Hw. unfold camera_capture_buf_size. cbn [mbind option_bind]. rewrite area_u32 by done.
  pose proof (area_range _ Hi) as Ha. assert (Hw0 : 0 <= width image) by apply Hi.
  pose proof (width_bound 1774 image Hw0 Hw ltac:(lia)) as W1. pose proof (width_bound 2048 image Hw0 Hw ltac:(lia)) as W2.
  pose proof (width_bound 2509 image Hw0 Hw ltac:(lia)) as W3. pose proof (width_bound 3239 image Hw0 Hw ltac:(lia)) as W4.
  pose proof (width_bound 4096 image Hw0 Hw ltac:(lia)) as W5. generalize dependent (area image). intros a _ Ha W1 W2 W3 W4 W5.
  unfold enough, PIXEL_2P0_MEGA, PIXEL_3P0_MEGA, PIXEL_5P0_MEGA. unfold back_cam_raw_mem_size_tab, front_cam_raw_mem_size_tab, back_cam_mem_size_tab, front_cam_mem_size_tab.
  set (r := sn_fmt =? SENSOR_IMAGE_FORMAT_RAW). clearbody r.
  destruct Hid as [-> | ->], r, rotation; cbn -[Z.mul Z.add Z.div Z.lt Z.leb Z.ltb];
  repeat (match goal with |- context [a <=? ?p] => destruct (Z.leb_spec a p) end; cbn -[Z.mul Z.add Z.div Z.lt Z.leb Z.ltb]).
  all: intros Hx He; try discriminate; injection Hx as <- <-.
  all: repeat match type of He with context [?p <? ?x] => destruct (Z.ltb_spec p x) end; cbn in He; try discriminate He.
  all: unfold PIXEL_1P3_MEGA, PIXEL_2P0_MEGA, PIXEL_3P0_MEGA, PIXEL_5P0_MEGA, PIXEL_8P0_MEGA in *; rewrite Z.shiftl_mul_pow2 by lia; change (2 ^ 20) with 1048576.
  all: Z.div_mod_to_equations; lia.
Qed.

(** C31: With the memory that [camera_capture_buf_size] asks for, the
    arrangement of one image succeeds, when the sensor delivers the image as
    it is captured: the sizes of the sensor's image, of the target and of the
    capture are the same, no rows are trimmed above it (start_y is 0), the
    data are not JPEG, and they are RAW exactly if the sensor's format, by
    which the memory was asked for, is RAW; for the back or the front camera;
    with the same rotation setting for both cameras; for the classes of
    [enough] - RAW up to 2 or above 3 megapixels; else up to 5 megapixels, and
    of these all with rotation, without it those above 3, or above 2 for the
    back camera -; for images of at most 16384 pixels each way that are at
    most twice as wide as high, thumbnails of at most 320x240 pixels, and
    pieces of memory of the sizes asked for below 4 GiB. In some of the other
    classes it fails (capture_memory_short). *)
Theorem capture_memory_suffices rotation camera_id sn_fmt image major minor frm trim orig thum m0 rest rot :
  camera_id = BACK_CAMERA_ID \/ camera_id = FRONT_CAMERA_ID ->
  camera_capture_buf_size rotation rotation camera_id sn_fmt (Some image) = Some (major, minor) ->
  enough rotation (sn_fmt =? SENSOR_IMAGE_FORMAT_RAW) camera_id (area image) = true ->
  (orig =? IMG_DATA_TYPE_RAW) = (sn_fmt =? SENSOR_IMAGE_FORMAT_RAW) -> orig <> IMG_DATA_TYPE_JPEG ->
  dims image -> width image <= 2 * height image -> start_y trim = 0 -> dims thum -> area thum <= 76800 ->
  frames_ok frm -> total frm Major = major -> total frm Minor = minor ->
  exists s, camera_arrange_capture_buf (Some frm) (Some image) (Some trim) (Some image) orig (Some image) (Some thum) (m0 :: rest) rot 1 = Ret tt s.
Proof.
  intros Hid Hbuf Hen Hraw Hjpeg Hi Hw Hy Ht Hta Hf <- <-.
  assert (Hww : width image * width image <= 2 * area image) by (destruct Hi as [ [? _] _]; unfold area; nia).
  pose proof (enough_major _ _ _ _ _ _ Hid Hi Hww Hbuf Hen) as Hmaj.
  pose proof (plain_need image trim orig (Some image) thum rot 1 Hjpeg Hi Ht Hy) as Hn. rewrite Hraw in Hn.
  set (q := plain_request image trim orig (Some image) thum rot 1) in *.
  assert (Hg : geometry q image).
  { unfold geometry. cbn [orig_fmt q plain_request]. destruct (orig =? IMG_DATA_TYPE_RAW) eqn:E.
    - constructor; cbn [sn_size image_size q plain_request]; [done|lia|]. unfold q. rewrite plain_yy by done.
      pose proof (area_range _ Hi). destruct Hi as [ [? _] _]. lia.
    - by constructor. }
  destruct (wp_total _ _ _ (wp_arrange_one frm q image m0 rest Hf Hg ltac:(done) ltac:(Z.div_mod_to_equations; lia))) as ([] & s & Hs & _).
  by exists s.
Qed.

(** Camera, format and size of images that a sensor may have. *)
Definition short_requests : list (bool * Z * Z * Z * img_size) :=
  [(false, BACK_CAMERA_ID, 0, IMG_DATA_TYPE_YUV420, Img_size 1600 1200);
   (false, FRONT_CAMERA_ID, 0, IMG_DATA_TYPE_YUV420, Img_size 1600 1200);
   (false, FRONT_CAMERA_ID, 0, IMG_DATA_TYPE_YUV420, Img_size 2048 1536);
   (false, BACK_CAMERA_ID, SENSOR_IMAGE_FORMAT_RAW, IMG_DATA_TYPE_RAW, Img_size 2048 1536);
   (true, BACK_CAMERA_ID, SENSOR_IMAGE_FORMAT_RAW, IMG_DATA_TYPE_RAW, Img_size 2048 1536);
   (false, BACK_CAMERA_ID, 0, IMG_DATA_TYPE_YUV420, Img_size 3264 2448);
   (true, BACK_CAMERA_ID, 0, IMG_DATA_TYPE_YUV420, Img_size 3264 2448)].

Definition exits {S A} (o : outcome S A) : bool := match o with Exit _ => true | _ => false end.
Lemma exits_spec {S A} (o : outcome S A) : exits o = true -> exists s, o = Exit s.
Proof. destruct o; try discriminate. by eexists. Qed.

(** For images of 2, 3 and 8 megapixels in some of the formats the memory
    that [camera_capture_buf_size] asks for is too small: the arrangement with
    it fails, wherever the memory is. *)
Theorem capture_memory_short rotation camera_id sn_fmt orig image major minor frm trim m0 rest rot cnt :
  (rotation, camera_id, sn_fmt, orig, image) ∈ short_requests -> start_y trim = 0 ->
  camera_capture_buf_size rotation rotation camera_id sn_fmt (Some image) = Some (major, minor) ->
  total frm Major = major -> total frm Minor = minor ->
  exists s, camera_arrange_capture_buf (Some frm) (Some image) (Some trim) (Some image) orig (Some image)
    (Some (Img_size 320 240)) (m0 :: rest) rot cnt = Exit s.
Proof.
  intros Hin Hy Hbuf H1 H2. apply exits_spec. destruct frm as [ [f1 b1 s1 y1 u1] [f2 b2 s2 y2 u2] ]. cbn [total major_frm minor_frm buf_size] in H1, H2.
  destruct trim as [tx ty tw th]. cbn [start_y] in Hy. subst ty.
  unfold short_requests in Hin.
  repeat (apply elem_of_cons in Hin as [Hin|Hin]; [injection Hin as -> -> -> -> ->; vm_compute in Hbuf; injection Hbuf as E1 E2; subst; vm_compute; reflexivity|]).
  by apply not_elem_of_nil in Hin.
Qed.

(** ** Concrete captures *)

(** 16 MB and 8 MB, and two RAW images of 2 megapixels. *)
Definition sample_frames : cmr_cap_2_frm :=
  Cmr_cap_2_frm (Img_frm 0 (16 * 1048576) (Img_size 0 0) (Both 0x80000000 0x40000000) (Both 0 0))
    (Img_frm 0 (8 * 1048576) (Img_size 0 0) (Both 0x90000000 0x50000000) (Both 0 0)).
Definition sample_size : img_size := Img_size 1600 1200.
Definition sample_trim : img_rect := Img_rect 0 0 1600 1200.
Definition sample_thumb : img_size := Img_size 320 240.
Definition final {S A} (o : outcome S A) (d : S) : S := match o with Ret _ s | Exit s => s | Bad _ => d end.
Definition sample_result : arrange := Eval vm_compute in
  final (camera_arrange_capture_buf (Some sample_frames) (Some sample_size) (Some sample_trim) (Some sample_size) IMG_DATA_TYPE_RAW
    (Some sample_size) (Some sample_thumb) (replicate 2 zero_mem) 1 2) (arrange_init sample_frames []).

Lemma sample_frames_ok : frames_ok sample_frames.
Proof. constructor; intros []; cbn; lia. Defined.

Lemma capture_buffers_apart_witness :
  camera_arrange_capture_buf (Some sample_frames) (Some sample_size) (Some sample_trim) (Some sample_size) IMG_DATA_TYPE_RAW
    (Some sample_size) (Some sample_thumb) (replicate 2 zero_mem) 1 2 = Ret tt sample_result /\
  let bufs := capture_buffers (Request sample_size sample_trim sample_size IMG_DATA_TYPE_RAW (Some sample_size) sample_thumb 1 2)
    (fun k => Nat.eqb k 0) (take (Z.to_nat (Z.max 1 2)) (capture_mem sample_result)) in
  pairwise (disjoint_at phy) bufs /\ Forall (in_frame phy sample_frames) bufs.
Proof.
  assert (H : camera_arrange_capture_buf (Some sample_frames) (Some sample_size) (Some sample_trim) (Some sample_size) IMG_DATA_TYPE_RAW
    (Some sample_size) (Some sample_thumb) (replicate 2 zero_mem) 1 2 = Ret tt sample_result) by (vm_compute; reflexivity). split; [exact H|].
  apply (capture_buffers_apart sample_frames sample_size sample_trim sample_size IMG_DATA_TYPE_RAW (Some sample_size) sample_thumb
    (replicate 2 zero_mem) 1 2 sample_size sample_result phy (fun k => Nat.eqb k 0)).
  - by left.
  - exact sample_frames_ok.
  - left. cbn. lia.
  - constructor; [split; unfold dims, dim; cbn; lia|vm_compute; discriminate..].
  - by left.
  - exact H.
Defined.

Definition own_frames : cmr_cap_2_frm :=
  Cmr_cap_2_frm (Img_frm 0 (7 * 1048576) (Img_size 0 0) (Both 0x80000000 0x40000000) (Both 0 0))
    (Img_frm 0 0 (Img_size 0 0) (Both 0x90000000 0x50000000) (Both 0 0)).

Lemma capture_memory_suffices_witness :
  camera_capture_buf_size false false BACK_CAMERA_ID SENSOR_IMAGE_FORMAT_RAW (Some sample_size) = Some (7 * 1048576, 0) /\
  exists s, camera_arrange_capture_buf (Some own_frames) (Some sample_size) (Some sample_trim) (Some sample_size) IMG_DATA_TYPE_RAW
    (Some sample_size) (Some sample_thumb) [zero_mem] 0 1 = Ret tt s.
Proof.
  split; [vm_compute; reflexivity|].
  apply (capture_memory_suffices false BACK_CAMERA_ID SENSOR_IMAGE_FORMAT_RAW sample_size (7 * 1048576) 0 own_frames sample_trim
    IMG_DATA_TYPE_RAW sample_thumb zero_mem [] 0); try (vm_compute; reflexivity); try (unfold dims, dim; cbn; lia).
  - done.
  - vm_compute. discriminate.
  - constructor; intros []; cbn; lia.
Defined.

Lemma capture_memory_short_witness :
  camera_capture_buf_size false false BACK_CAMERA_ID 0 (Some sample_size) = Some (5 * 1048576, 0) /\
  exists s, camera_arrange_capture_buf
    (Some (Cmr_cap_2_frm (Img_frm 0 (5 * 1048576) (Img_size 0 0) (Both 0x80000000 0x40000000) (Both 0 0)) zero_frm))
    (Some sample_size) (Some sample_trim) (Some sample_size) IMG_DATA_TYPE_YUV420 (Some sample_size)
    (Some sample_thumb) [zero_mem] 0 1 = Exit s.
Proof.
  split; [vm_compute; reflexivity|].
  apply (capture_memory_short false BACK_CAMERA_ID 0 IMG_DATA_TYPE_YUV420 sample_size (5 * 1048576) 0); try (vm_compute; reflexivity).
  left.
Defined.

(** The second image of a capture that does not come as RAW data, when only
    the minor piece has room for it: its planes start in what is left of the
    major piece, and end behind it. *)
Definition tight_frames : cmr_cap_2_frm :=
  Cmr_cap_2_frm (Img_frm 0 (6 * 1048576) (Img_size 0 0) (Both 0x80000000 0x40000000) (Both 0 0))
    (Img_frm 0 (8 * 1048576) (Img_size 0 0) (Both 0x90000000 0x50000000) (Both 0 0)).

Example second_image_outside : exists s m,
  camera_arrange_capture_buf (Some tight_frames) (Some sample_size) (Some sample_trim) (Some sample_size) IMG_DATA_TYPE_YUV420
    (Some sample_size) (Some sample_thumb) (replicate 2 zero_mem) 0 2 = Ret tt s /\
  capture_mem s !! 1%nat = Some m /\
  0x80000000 <= phy (addr_y (target_yuv m)) < 0x80000000 + 6 * 1048576 /\
  0x80000000 + 6 * 1048576 < phy (addr_u (target_yuv m)) < 0x90000000 /\ size (target_yuv m) = Img_size 0 0.
Proof.
  set (o := camera_arrange_capture_buf _ _ _ _ _ _ _ _ _ _).
  exists (final o (arrange_init tight_frames [])), (nth 1 (capture_mem (final o (arrange_init tight_frames []))) zero_mem).
  vm_compute. repeat split; discriminate.
Qed.
