(* ===== verification/ModemBoot.v ===== *)
(** * Booting the modem

    src/common/apps/modem_control/modem_boot.c: the list of images, read from
    a file; the handshake with the modem on the UART; the first loader, sent
    over the UART; the images, sent over the SPI bus. The requests are those
    of Packet.v. *)
From stdpp Require Import base list.
From Stdlib Require Import ZArith Lia.
From S2P Require Import Prelude Packet.

(** ** Definitions *)

Definition FDL_PACKET_SIZE : Z := 256.
Definition HS_PACKET_SIZE : Z := 60 * 1024.
Definition DL_FAILURE : Z := -1.
Definition DL_SUCCESS : Z := 0.
Definition UART_TIMEOUT : Z := 200.

(** A path is the list of its characters. *)
Record image_info := Image_info {
  image_path : option (list Z);
  image_size : Z;
  address : Z
}.

(** The state: the two devices, [spi] being /dev/dloader (its [send_buffer] is
    not used: there is one, with the UART), the static variables, what the
    next calls of [open] for a device or the power switch return, and what was
    written to the power switch. *)
Record boot := Boot {
  uart : link;
  spi : link;
  test_buffer : list Z;
  download_image_info : list image_info;
  modem_images_count : Z;
  uart_dev : list Z;
  boot_status : Z;
  need_shutdown : Z;
  opens : list Z;
  power : list (list Z)
}.

Definition set_uart (l : link) (s : boot) : boot :=
  Boot l (spi s) (test_buffer s) (download_image_info s) (modem_images_count s) (uart_dev s) (boot_status s) (need_shutdown s) (opens s) (power s).
Definition set_spi (l : link) (s : boot) : boot :=
  Boot (uart s) l (test_buffer s) (download_image_info s) (modem_images_count s) (uart_dev s) (boot_status s) (need_shutdown s) (opens s) (power s).
Definition set_test_buffer (b : list Z) (s : boot) : boot :=
  Boot (uart s) (spi s) b (download_image_info s) (modem_images_count s) (uart_dev s) (boot_status s) (need_shutdown s) (opens s) (power s).
Definition set_info (i : list image_info) (s : boot) : boot :=
  Boot (uart s) (spi s) (test_buffer s) i (modem_images_count s) (uart_dev s) (boot_status s) (need_shutdown s) (opens s) (power s).
Definition set_count (n : Z) (s : boot) : boot :=
  Boot (uart s) (spi s) (test_buffer s) (download_image_info s) n (uart_dev s) (boot_status s) (need_shutdown s) (opens s) (power s).
Definition set_uart_dev (p : list Z) (s : boot) : boot :=
  Boot (uart s) (spi s) (test_buffer s) (download_image_info s) (modem_images_count s) p (boot_status s) (need_shutdown s) (opens s) (power s).
Definition set_boot_status (b : Z) (s : boot) : boot :=
  Boot (uart s) (spi s) (test_buffer s) (download_image_info s) (modem_images_count s) (uart_dev s) b (need_shutdown s) (opens s) (power s).
Definition set_power (n : Z) (p : list (list Z)) (s : boot) : boot :=
  Boot (uart s) (spi s) (test_buffer s) (download_image_info s) (modem_images_count s) (uart_dev s) (boot_status s) n (opens s) p.
Definition set_opens (o : list Z) (s : boot) : boot :=
  Boot (uart s) (spi s) (test_buffer s) (download_image_info s) (modem_images_count s) (uart_dev s) (boot_status s) (need_shutdown s) o (power s).

(** The requests on each device. *)
Definition on_uart {A} : M link A -> M boot A := zoom uart set_uart.
Definition spi_link (s : boot) : link := Link (send_buffer (uart s)) (tx (spi s)) (sent (spi s)) (rx (spi s)).
Definition set_spi_link (l : link) (s : boot) : boot :=
  set_uart (Link (send_buffer l) (tx (uart s)) (sent (uart s)) (rx (uart s)))
    (set_spi (Link (send_buffer (spi s)) (tx l) (sent l) (rx l)) s).
Definition on_spi {A} : M link A -> M boot A := zoom spi_link set_spi_link.

(** [open] of a device. *)
Definition open_device : M boot Z :=
  s <- get ;;
  match opens s with
  | [] => bad Blocked
  | fd :: o => modify (set_opens o) ;;; ret fd
  end.

(** [read(fd, buffer, n)] on a file: what it returns, the bytes, and what is
    still to be read; at the end of the file it returns 0. *)
Definition fread (f : list rx_event) (n : Z) : Z * list Z * list rx_event :=
  match f with
  | [] => (0, [], [])
  | RxErr r :: f => (Z.min r 0, [], f)
  | RxData d :: f =>
      let n := Z.to_nat (u32 n) in
      (zlen (take n d), take n d, if (length d <=? n)%nat then f else RxData (drop n d) :: f)
  end.

(** *** The list of images *)

(** [fgets(line, 256, fp)]: the line with its newline, cut at 255 bytes, and
    the rest of the file. *)
Fixpoint fgets (n : nat) (f : list Z) : list Z * list Z :=
  match n, f with
  | S n, c :: f => if c =? 10 then ([c], f) else let r := fgets n f in (c :: r.1, r.2)
  | _, _ => ([], f)
  end.

(** [strlen(&line[p])] *)
Fixpoint strlen (s : list Z) : option Z :=
  match s with
  | [] => None
  | c :: s => if c =? 0 then Some 0 else n ← strlen s; Some (n + 1)
  end.
Definition strlen_at (line : list Z) (p : Z) : option Z := strlen (drop (Z.to_nat p) line).

(** [delim], " \t" *)
Definition is_delim (c : Z) : bool := (c =? 32) || (c =? 9).

Fixpoint strspn (s : list Z) : Z :=
  match s with
  | [] => 0
  | c :: s => if is_delim c then 1 + strspn s else 0
  end.
Fixpoint strcspn (s : list Z) : Z :=
  match s with
  | [] => 0
  | c :: s => if is_delim c || (c =? 0) then 0 else 1 + strcspn s
  end.

(** [strtok_r(&line[p], delim, &save)]: the line, the token's start and
    [save]; [None] inside is NULL. *)
Definition strtok_r (line : list Z) (p : Z) : option (option (list Z * Z * Z)) :=
  let start := p + strspn (drop (Z.to_nat p) line) in
  c ← aget line start;
  if c =? 0 then Some None else
  let stop := start + strcspn (drop (Z.to_nat start) line) in
  c ← aget line stop;
  if c =? 0 then Some (Some (line, start, stop)) else
  line ← aset line stop 0;
  Some (Some (line, start, stop + 1)).

Definition hex_digit (c : Z) : option Z :=
  if (48 <=? c) && (c <=? 57) then Some (c - 48)
  else if (97 <=? c) && (c <=? 102) then Some (c - 87)
  else if (65 <=? c) && (c <=? 70) then Some (c - 55)
  else None.
Fixpoint hex_digits (s : list Z) (n : Z) : Z :=
  match s with
  | [] => n
  | c :: s => match hex_digit c with Some d => hex_digits s (n * 16 + d) | None => n end
  end.
(** [0x] is skipped where a digit follows. *)
Definition skip_0x (s : list Z) : list Z :=
  match s with
  | z :: x :: d :: s' =>
      if (z =? 48) && ((x =? 120) || (x =? 88)) && (match hex_digit d with Some _ => true | None => false end) then d :: s' else s
  | _ => s
  end.
Definition is_space (c : Z) : bool := (c =? 32) || ((9 <=? c) && (c <=? 13)).
Fixpoint skip_space (s : list Z) : list Z :=
  match s with
  | [] => []
  | c :: s' => if is_space c then skip_space s' else s
  end.
(** [strtol(s, &end, 16)], a 32-bit [long]. *)
Definition strtol16 (s : list Z) : Z :=
  let clamp n := Z.max (- 2147483648) (Z.min 2147483647 n) in
  match skip_space s with
  | [] => 0
  | c :: s' =>
      if c =? 45 then clamp (- hex_digits (skip_0x s') 0)
      else if c =? 43 then clamp (hex_digits (skip_0x s') 0)
      else clamp (hex_digits (skip_0x (c :: s')) 0)
  end.

(** [strdup(&line[p])] *)
Definition string_at (line : list Z) (p : Z) : option (list Z) :=
  n ← strlen_at line p; Some (take (Z.to_nat n) (drop (Z.to_nat p) line)).

Definition max_item : Z := 7.

Inductive line_result :=
  | Skip                             (* continue *)
  | Stop                             (* break *)
  | Entry (path : list Z) (size address : Z).

(** The body of the loop over the lines up to the entry, and the line with
    what was stored in it; [None] is an access outside of [line]. *)
Definition parse_line (line : list Z) : option (line_result * list Z) :=
  n ← strlen_at line 0;
  line ← aset line (n - 1) 0;
  c ← aget line 0;
  if (c =? 35) || (c =? 0) then Some (Skip, line) else
  t ← strtok_r line 0;
  match t with
  | None => Some (Stop, line)
  | Some (line, filename, save_ptr) =>
      t ← strtok_r line save_ptr;
      match t with
      | None => Some (Stop, line)
      | Some (line, length_ptr, save_ptr) =>
          t ← strtok_r line save_ptr;
          match t with
          | None => Some (Stop, line)
          | Some (line, address_ptr, _) =>
              path ← string_at line filename;
              if (zlen line <=? length_ptr + 2) || (zlen line <=? address_ptr + 2) then None else
              Some (Entry path (strtol16 (drop (Z.to_nat (length_ptr + 2)) line))
                      (u32 (strtol16 (drop (Z.to_nat (address_ptr + 2)) line))), line)
          end
      end
  end.

(** [info[images_count] = ...] *)
Definition set_image (k : Z) (i : image_info) : M boot unit :=
  s <- get ;;
  l <- lift OutOfBounds (aset (download_image_info s) k i) ;;
  modify (set_info l).

(** The loop over the lines of [f], which ends with [images_count]. *)
Fixpoint read_lines (fuel : nat) (f line : list Z) (images_count : Z) : M boot Z :=
  match fuel with
  | O => bad OutOfFuel
  | S fuel =>
      let r := fgets 255 f in
      match r.1 with
      | [] => ret images_count
      | text =>
          line <- lift OutOfBounds (store line 0 (text ++ [0])) ;;
          p <- lift OutOfBounds (parse_line line) ;;
          match p.1 with
          | Skip => read_lines fuel r.2 p.2 images_count
          | Stop => ret images_count
          | Entry path size addr =>
              set_image images_count (Image_info (Some path) size addr) ;;;
              images_count <- (if (addr =? 0) || (size =? 0) then modify (set_uart_dev path) ;;; ret images_count
                               else ret (images_count + 1)) ;;
              if images_count >=? max_item then ret images_count else read_lines fuel r.2 p.2 images_count
          end
      end
  end.

(** [file] is the text of /modem_images.info, when it can be opened, and
    [line] what the array on the stack holds at first. *)
Definition get_modem_images_info (file : option (list Z)) (line : list Z) : M boot Z :=
  match file with
  | None => ret 0
  | Some f =>
      images_count <- read_lines (S (length f)) f line 0 ;;
      modify (set_count images_count) ;;;
      ret images_count
  end.

(** *** The handshake *)

Definition reset_modem : M boot unit :=
  modem_power_fd <- open_device ;;
  if modem_power_fd <? 0 then ret tt else
  s <- get ;;
  (if need_shutdown s =? 1 then modify (set_power (need_shutdown s) (power s ++ [[48; 0]])) else ret tt) ;;;
  modify (fun s => set_power 1 (power s ++ [[49; 0]]) s).

(** [hand_shake], and [n] bytes of it written. *)
Definition hand_shake : list Z := [0x7E; 0x7E; 0x7E; 0x7E].
Definition write_hand_shake (n : Z) : M boot unit := _ <- on_uart (write hand_shake n) ;; ret tt.

(** [read(uart_fd, &version_string[data], 1)] *)
Definition read_char (version_string : list Z) (data : Z) : M boot (list Z * Z) := on_uart (read version_string data 1).

(** Waiting for the modem's first 0x55; returns the buffer and [i]. *)
Fixpoint wait_modem (fuel : nat) (version_string : list Z) (i : Z) : M boot (list Z * Z) :=
  match fuel with
  | O => bad OutOfFuel
  | S fuel =>
      r <- read_char version_string 0 ;;
      let i := i + 1 in
      c <- lift OutOfBounds (aget r.1 0) ;;
      if (r.2 =? 1) && (c =? 0x55) then ret (r.1, i) else
      (if i mod 1000 =? 0 then write_hand_shake 3 else ret tt) ;;;
      if i <? 2000000 then wait_modem fuel r.1 i else ret (r.1, i)
  end.

(** The version string, up to the next 0x7E; returns the buffer and
    [modem_connect]. *)
Fixpoint read_version (fuel : nat) (version_string : list Z) (data modem_connect : Z) : M boot (list Z * Z) :=
  match fuel with
  | O => bad OutOfFuel
  | S fuel =>
      r <- read_char version_string data ;;
      if r.2 =? 1 then
        c <- lift OutOfBounds (aget r.1 data) ;;
        if c =? 0x7E then ret (r.1, 1)
        else if modem_connect <? UART_TIMEOUT then read_version fuel r.1 (data + 1) modem_connect else ret (r.1, modem_connect)
      else
        let modem_connect := modem_connect + 2 in
        if modem_connect <? UART_TIMEOUT then read_version fuel r.1 data modem_connect else ret (r.1, modem_connect)
  end.

(** Each read uses up an event or a byte. *)
Definition link_fuel (l : link) : nat := S (length (rx l) + length (stream (rx l))).

(** After the first 0x55: one more character, and what it starts. *)
Definition connect_char (version_string : list Z) (modem_connect : Z) : M boot (list Z * Z) :=
  write_hand_shake 1 ;;;
  r <- read_char version_string 0 ;;
  if r.2 =? 1 then
    c <- lift OutOfBounds (aget r.1 0) ;;
    if c =? 0x7E then
      n <- gets (fun s => link_fuel (uart s)) ;;
      read_version n r.1 1 0
    else
      (if c =? 0x55 then write_hand_shake 3 ;;; ret (r.1, modem_connect + 40 + 2) else ret (r.1, modem_connect + 2))
  else ret (r.1, modem_connect).

Fixpoint connect_loop (fuel : nat) (version_string : list Z) (modem_connect : Z) : M boot unit :=
  match fuel with
  | O => bad OutOfFuel
  | S fuel =>
      s <- get ;;
      let first := (modem_connect >=? UART_TIMEOUT) && (boot_status s =? 0) in
      (if first then reset_modem else ret tt) ;;;
      w <- (if first then wait_modem (link_fuel (uart s)) version_string 0 else ret (version_string, 0)) ;;
      if first && (w.2 >=? 2000000) then connect_loop fuel w.1 modem_connect else
      r <- connect_char w.1 (if first then 0 else modem_connect) ;;
      if r.2 =? 1 then ret tt else connect_loop fuel r.1 (r.2 + 2)
  end.

Definition try_to_connect_modem : M boot unit :=
  n <- gets (fun s => link_fuel (uart s)) ;;
  connect_loop n (replicate 64 0) UART_TIMEOUT.

(** *** Downloads *)

Section download.
(** The files as [open] and [read] show them, each opened anew from its
    start, and the memory that [malloc] returns. *)
Context (file : list Z -> option (list rx_event)) (malloc : Z -> option (list Z)).

Definition open_file (path : option (list Z)) : option (list rx_event) := path ≫= file.

(** [do { read_len = read(...); ... else break; } while (packet_size > 0);]
    filling [test_buffer] from [buffer] on; what is left of the file. *)
Fixpoint read_packet (fuel : nat) (f : list rx_event) (buffer packet_size : Z) : M boot (list rx_event) :=
  match fuel with
  | O => bad OutOfFuel
  | S fuel =>
      let '(read_len, bs, f) := fread f packet_size in
      s <- get ;;
      b <- lift OutOfBounds (store (test_buffer s) buffer bs) ;;
      modify (set_test_buffer b) ;;;
      if read_len >? 0 then
        if packet_size - read_len >? 0 then read_packet fuel f (buffer + read_len) (packet_size - read_len) else ret f
      else ret f
  end.

(** [for (i = image_size; i < HS_PACKET_SIZE; i++) test_buffer[i+8] = 0xFF;] *)
Definition pad_packet (image_size : Z) : M boot unit :=
  s <- get ;;
  b <- lift OutOfBounds (store (test_buffer s) (image_size + 8) (replicate (Z.to_nat (HS_PACKET_SIZE - image_size)) 0xFF)) ;;
  modify (set_test_buffer b).

(** [ret = send_data_message(channel_fd, test_buffer, HS_PACKET_SIZE, 1);]
    which builds the packet's header in [test_buffer]. *)
Definition send_packet : M boot Z :=
  s <- get ;;
  r <- on_spi (send_data_message (test_buffer s) HS_PACKET_SIZE BSL_SPI_PACKET) ;;
  modify (set_test_buffer r.1) ;;;
  ret r.2.

(** The loop over the packets, from [i] on; [i] is also the variable of the
    loop that pads. The result is [inl] for the [return] in it. *)
Fixpoint data_packets (fuel : nat) (f : list rx_event) (i count image_size : Z) : M boot bool :=
  match fuel with
  | O => bad OutOfFuel
  | S fuel =>
      if i <? count then
        f <- read_packet (S (length f)) f 8 HS_PACKET_SIZE ;;
        (if image_size <? HS_PACKET_SIZE then pad_packet image_size else ret tt) ;;;
        let '(i, image_size) := if image_size <? HS_PACKET_SIZE then (HS_PACKET_SIZE, 0) else (i, image_size - HS_PACKET_SIZE) in
        r <- send_packet ;;
        if negb (r =? DL_SUCCESS) then ret false else
        data_packets fuel f (i + 1) count image_size
      else ret true
  end.

Definition download_image (info : image_info) : M boot Z :=
  match image_path info with
  | None => ret DL_SUCCESS
  | Some path =>
      match file path with
      | None => ret DL_SUCCESS
      | Some image_fd =>
          let count := Z.quot (image_size info + HS_PACKET_SIZE - 1) HS_PACKET_SIZE in
          r <- on_spi (send_start_message (count * HS_PACKET_SIZE) (address info) BSL_SPI_PACKET) ;;
          if negb (r =? DL_SUCCESS) then ret DL_FAILURE else
          ok <- data_packets (S (Z.to_nat count)) image_fd 0 count (image_size info) ;;
          if negb ok then ret DL_FAILURE else
          on_spi (send_end_message BSL_SPI_PACKET)
      end
  end.

(** The loop over [image_count] images from the [k]th on; [r] is [ret], which
    has no value before the first image. *)
Fixpoint images_loop (image_count k : nat) (r : option Z) : M boot (option Z) :=
  match image_count with
  | O => ret r
  | S n =>
      s <- get ;;
      info <- lift OutOfBounds (download_image_info s !! k) ;;
      r <- download_image info ;;
      if negb (r =? DL_SUCCESS) then ret (Some r) else images_loop n (S k) (Some r)
  end.

Definition download_images : M boot Z :=
  s <- get ;;
  r <- images_loop (Z.to_nat (modem_images_count s - 1)) 1 None ;;
  _ <- on_spi (send_exec_message 0x400000 BSL_SPI_PACKET) ;;
  lift Uninitialised r.

(** [do { read_len = read(...); } while (size > 0);] At the end of the file
    [read] returns 0 and nothing changes: the loop then never ends, and it does
    not wait for anything. *)
Fixpoint load_loop (fuel : nat) (f : list rx_event) (buffer : list Z) (p size : Z) : M boot (list Z) :=
  match fuel with
  | O => bad OutOfFuel
  | S fuel =>
      let at_end := match f with [] => true | _ => false end in
      let '(read_len, bs, f) := fread f size in
      buffer <- lift OutOfBounds (store buffer p bs) ;;
      let '(p, size) := if read_len >? 0 then (p + read_len, size - read_len) else (p, size) in
      if size >? 0 then (if at_end : bool then bad Spins else load_loop fuel f buffer p size) else ret buffer
  end.

(** The buffer and [*length]; [None] is NULL. *)
Definition load_fdl2memory : M boot (option (list Z * Z)) :=
  s <- get ;;
  info <- lift OutOfBounds (download_image_info s !! 0%nat) ;;
  match open_file (image_path info) with
  | None => ret None
  | Some f =>
      match malloc (image_size info + 4) with
      | None => ret None
      | Some buffer =>
          buffer <- load_loop (S (length f)) f buffer 0 (image_size info) ;;
          ret (Some (buffer, image_size info))
      end
  end.

(** [while (size) { ... }], at [buffer]; every round reads 256 bytes of it. *)
Fixpoint fdl_loop (fuel : nat) (buffer : list Z) (size : Z) : M boot Z :=
  match fuel with
  | O => bad OutOfFuel
  | S fuel =>
      if size =? 0 then ret DL_SUCCESS else
      r <- on_uart (send_data_message buffer FDL_PACKET_SIZE BSL_UART_PACKET) ;;
      if r.2 =? DL_FAILURE then ret DL_FAILURE else
      fdl_loop fuel (drop (Z.to_nat FDL_PACKET_SIZE) buffer) (size - FDL_PACKET_SIZE)
  end.

Definition download_fdl : M boot Z :=
  b <- load_fdl2memory ;;
  match b with
  | None => ret DL_FAILURE
  | Some (buffer, size) =>
      s <- get ;;
      info <- lift OutOfBounds (download_image_info s !! 0%nat) ;;
      r <- on_uart (send_start_message size (address info) BSL_UART_PACKET) ;;
      if r =? DL_FAILURE then ret r else
      r <- fdl_loop (S (length buffer)) buffer size ;;
      if r =? DL_FAILURE then ret r else
      r <- on_uart (send_end_message BSL_UART_PACKET) ;;
      if r =? DL_FAILURE then ret r else
      on_uart (send_exec_message (address info) BSL_UART_PACKET)
  end.

(** *** The whole boot *)

(** [do { ... } while (ret < 0);]: every request reads from the modem. *)
Fixpoint connect_modem (fuel : nat) : M boot unit :=
  match fuel with
  | O => bad OutOfFuel
  | S fuel =>
      modify (set_boot_status 0) ;;;
      try_to_connect_modem ;;;
      modify (set_boot_status 1) ;;;
      r <- on_uart (send_connect_message BSL_UART_PACKET) ;;
      if r <? 0 then connect_modem fuel else ret tt
  end.

(** Opening /dev/dloader again, until the result is 0. *)
Fixpoint open_dloader (fuel : nat) : M boot unit :=
  match fuel with
  | O => bad OutOfFuel
  | S fuel =>
      fd <- open_device ;;
      if fd =? 0 then ret tt else open_dloader fuel
  end.

(** From [reboot_modem:] on; every round opens the UART. *)
Fixpoint boot_loop (fuel : nat) : M boot Z :=
  match fuel with
  | O => bad OutOfFuel
  | S fuel =>
      uart_fd <- open_device ;;
      if uart_fd <? 0 then ret (-1) else
      n <- gets (fun s => link_fuel (uart s)) ;;
      connect_modem n ;;;
      r <- download_fdl ;;
      if r =? DL_FAILURE then boot_loop fuel else
      try_to_connect_modem ;;;
      uart_fd <- open_device ;;
      if uart_fd <? 0 then ret (-1) else
      _ <- on_uart uart_send_change_spi_mode_message ;;
      modem_interface_fd <- open_device ;;
      (if modem_interface_fd <? 0 then n <- gets (fun s => S (length (opens s))) ;; open_dloader n else ret tt) ;;;
      r <- download_images ;;
      if r =? DL_FAILURE then boot_loop fuel else ret 0
  end.

Definition modem_boot : M boot Z :=
  n <- gets (fun s => S (length (opens s))) ;;
  boot_loop n.
End download.
