(* ===== verification/ModemBootProofs.v ===== *)
(** * The images arrive

    The theorems on the download of ModemBoot.v: what goes over the SPI bus, a
    modem that carries out the packets, and the first loader on the UART. *)
From stdpp Require Import base list.
From Stdlib Require Import ZArith Lia.
From S2P Require Import Prelude Crc Packet ModemBoot.

(** ** Requests on the SPI bus *)

Definition spi_packet (code : Z) (data : list Z) : list Z := spi_header code (zlen data) data ++ data.
(** The request to end has a size of 4 and the checksum of no data. *)
Definition end_packet : list Z := spi_header 3 4 [] ++ [0; 0; 0; 0].

(** A reply of six bytes, and whether its type is taken for success. *)
Definition is_reply (r : list Z) : Prop := length r = 6%nat /\ bytes r.
Definition acked (r : list Z) : bool := ack_or_0 (256 * nth 0 r 0 + nth 1 r 0).

(** The bus takes what is written, and [reps] arrive, in whatever pieces. *)
Record ready (l : link) (reps : list (list Z)) : Prop := {
  rd_stream : stream (rx l) = concat reps;
  rd_reply : Forall is_reply reps;
  rd_tx : (length reps <= length (tx l))%nat;
  rd_whole : Forall (fun r => HS_PACKET_SIZE + 8 <= r) (tx l)
}.

(** [m] sends the packet [p] and succeeds when the reply is good. *)
Definition requests {A} (m : M link A) (p : list Z) (res : Z -> A) : Prop :=
  forall l rep reps, ready l (rep :: reps) ->
  exists l', m l = Ret (res (if acked rep then 0 else -1)) l' /\ sent l' = sent l ++ [p] /\ ready l' reps /\ send_buffer l' = send_buffer l.

Lemma reply_type_spi raw offset l d0 d1 rest : raw = d0 :: d1 :: rest -> bytes [d0; d1] ->
  reply_type raw offset 1 l = Ret (256 * d0 + d1) l.
Proof.
  intros -> H. apply Forall_cons in H as [H0 H]. apply Forall_cons in H as [H1 _].
  unfold reply_type, bind, lift, ret. cbn. f_equal. rewrite lor_shiftl8 by done.
  unfold byte in *. rewrite u16_small; lia.
Qed.

(** What follows the transmission. *)
Lemma finish_spi took raw retval txs sb log evs rep reps :
  counts took -> (32 <= length raw)%nat -> 0 < retval -> stream evs = concat (rep :: reps) -> is_reply rep ->
  exists evs', finish took ack_or_0 raw 1 retval (Link sb txs log evs)
    = Ret (if acked rep then 0 else -1) (Link sb txs log evs') /\ stream evs' = concat reps.
Proof.
  intros Ht Hraw Hret Hst [Hlen Hb]. destruct (read_reply_enough took (take 6 raw) (drop 6 raw) 1 (Link sb txs log evs))
    as (evs' & rv & Hread & Hrv & Hst').
  - done.
  - rewrite length_take, Nat.min_l by lia. done.
  - cbn [rx]. rewrite Hst. cbn. rewrite length_app, Hlen. lia.
  - rewrite take_drop in Hread. cbn [rx] in Hread, Hst'. change (reply_size 1) with 6%nat in Hread, Hst'.
    assert (E : take 6 (stream evs) = rep) by (rewrite Hst; cbn [concat]; rewrite <- Hlen; apply take_app_length).
    rewrite E in Hread. exists evs'. split; [|rewrite Hst', Hst; cbn [concat]; rewrite <- Hlen; apply drop_app_length].
    destruct rep as [|d0 [|d1 rep] ]; try discriminate Hlen.
    unfold finish, bind. rewrite (proj2 (Z.gtb_lt retval 0)), Hread, (proj2 (Z.gtb_lt rv 0)) by done.
    erewrite reply_type_spi; [|reflexivity|]. 2:{ apply Forall_cons in Hb as [? Hb]. apply Forall_cons in Hb as [? _]. by repeat apply Forall_cons_2. }
    unfold set_rx, acked. cbn [nth]. cbn [send_buffer tx sent]. by destruct (ack_or_0 _).
Qed.

Lemma write_spi {A} (buf : list Z) n p (k : Z -> M link A) l rep reps :
  ready l (rep :: reps) -> 0 < n <= HS_PACKET_SIZE + 8 -> take (Z.to_nat n) buf = p -> n <= zlen buf ->
  exists txs, Forall (fun r => HS_PACKET_SIZE + 8 <= r) txs /\ (length reps <= length txs)%nat /\
    (retval <- write buf n ;; k retval) l = k n (Link (send_buffer l) txs (sent l ++ [p]) (rx l)).
Proof.
  intros [_ _ Htx Hw] Hn <- Hbuf. destruct (tx l) as [|r txs] eqn:E; cbn in Htx; [lia|].
  apply Forall_cons in Hw as [Hr Hw]. exists txs. split; [done|]. split; [lia|].
  unfold bind, write. rewrite (proj2 (Z.ltb_ge _ _)), E by lia. by rewrite Z.min_r by lia.
Qed.

(** A request: the packet is built, written, and the reply read. *)
Lemma request_spi {A} took buf n p raw (res : Z -> A) :
  counts took -> 0 < n <= HS_PACKET_SIZE + 8 -> take (Z.to_nat n) buf = p -> n <= zlen buf -> (32 <= length raw)%nat ->
  requests (retval <- write buf n ;; r <- finish took ack_or_0 raw 1 retval ;; ret (res r)) p res.
Proof.
  intros Ht Hn Hp Hbuf Hraw l rep reps Hl. destruct (write_spi buf n p (fun retval => r <- finish took ack_or_0 raw 1 retval ;; ret (res r)) l rep reps Hl Hn Hp Hbuf)
    as (txs & Hw & Htx & ->).
  destruct Hl as [Hst Hrep _ _]. apply Forall_cons in Hrep as [Hr Hrep].
  destruct (finish_spi took raw n txs (send_buffer l) (sent l ++ [p]) (rx l) rep reps) as (evs' & Hfin & Hst'); [done|done|lia|done|done|].
  eexists. split; [unfold bind; rewrite Hfin; reflexivity|]. cbn [sent send_buffer]. split; [done|]. split; [|done]. by constructor.
Qed.

Lemma request_spi_id took buf n p raw :
  counts took -> 0 < n <= HS_PACKET_SIZE + 8 -> take (Z.to_nat n) buf = p -> n <= zlen buf -> (32 <= length raw)%nat ->
  requests (retval <- write buf n ;; finish took ack_or_0 raw 1 retval) p (fun r => r).
Proof.
  intros Ht Hn Hp Hbuf Hraw l rep reps Hl. destruct (request_spi took buf n p raw (fun r => r) Ht Hn Hp Hbuf Hraw l rep reps Hl) as (l' & H & Hl').
  exists l'. split; [|done]. rewrite <- H. unfold bind, ret. destruct (write buf n l); [|done..]. by destruct (finish _ _ _ _ _ _).
Qed.

Lemma length_be32 v : length (be32 v) = 4%nat.
Proof. done. Qed.
Lemma length_spi_header code size data : length (spi_header code size data) = 8%nat.
Proof. done. Qed.

Lemma start_spi size addr : 0 <= size < 2 ^ 31 -> 0 <= addr < 2 ^ 32 ->
  requests (send_start_message size addr BSL_SPI_PACKET) (spi_packet 1 (be32 addr ++ be32 size)) (fun r => r).
Proof.
  intros Hs Ha l rep reps Hl.
  destruct (setup_packet_spi BSL_CMD_START_DATA 0 0 0 0 0 0 0 0 (be32 addr ++ be32 size) (replicate 16 0)) as [Hset _]; [by left|done|].
  set (p := spi_packet 1 (be32 addr ++ be32 size)).
  assert (E : send_start_message size addr BSL_SPI_PACKET l
    = (retval <- write (p ++ replicate 16 0) 16 ;; finish gt0 ack_or_0 (p ++ replicate 16 0) 1 retval) l).
  { unfold send_start_message. rewrite u32_small by lia. unfold st32. rewrite !le32_cpu2be32 by lia.
    change raw_buffer_0 with (replicate 8 0 ++ replicate 4 0 ++ replicate 20 0).
    unfold bind at 1, lift at 1. rewrite store_segment by done.
    change (replicate 8 0 ++ be32 addr ++ replicate 20 0) with ((replicate 8 0 ++ be32 addr) ++ replicate 4 0 ++ replicate 16 0).
    unfold bind at 1, lift at 1. rewrite store_segment by done.
    change ((replicate 8 0 ++ be32 addr) ++ be32 size ++ replicate 16 0)
      with ([0; 0; 0; 0; 0; 0; 0; 0] ++ (be32 addr ++ be32 size) ++ replicate 16 0).
    change (setup_packet BSL_CMD_START_DATA ?b 8 8 ?f) with (setup_packet BSL_CMD_START_DATA b 8 (zlen (be32 addr ++ be32 size)) f).
    unfold bind at 1, lift at 1. rewrite Hset. cbn [BSL_SPI_PACKET Z.eqb]. unfold p, spi_packet. by rewrite <- app_assoc. }
  rewrite E. apply request_spi_id; [apply gt0_counts|unfold HS_PACKET_SIZE; lia| | | |exact Hl].
  - apply take_app_length'. done.
  - done.
  - done.
Qed.

Lemma exec_spi addr : 0 <= addr < 2 ^ 32 ->
  requests (send_exec_message addr BSL_SPI_PACKET) (spi_packet 4 (be32 addr)) (fun r => r).
Proof.
  intros Ha l rep reps Hl.
  destruct (setup_packet_spi BSL_CMD_EXEC_DATA 0 0 0 0 0 0 0 0 (be32 addr) (replicate 20 0)) as [Hset _]; [by right; right|done|].
  set (p := spi_packet 4 (be32 addr)).
  assert (E : send_exec_message addr BSL_SPI_PACKET l
    = (retval <- write (p ++ replicate 20 0) 12 ;; finish ge0 ack_or_0 (p ++ replicate 20 0) 1 retval) l).
  { unfold send_exec_message. rewrite u32_small by lia. unfold st32. rewrite !le32_cpu2be32 by lia.
    change raw_buffer_0 with (replicate 8 0 ++ replicate 4 0 ++ replicate 20 0).
    unfold bind at 1, lift at 1. rewrite store_segment by done.
    change (replicate 8 0 ++ be32 addr ++ replicate 20 0) with ([0; 0; 0; 0; 0; 0; 0; 0] ++ be32 addr ++ replicate 20 0).
    change (setup_packet BSL_CMD_EXEC_DATA ?b 8 4 ?f) with (setup_packet BSL_CMD_EXEC_DATA b 8 (zlen (be32 addr)) f).
    unfold bind at 1, lift at 1. rewrite Hset. cbn [BSL_SPI_PACKET Z.eqb]. unfold p, spi_packet. by rewrite <- app_assoc. }
  rewrite E. apply request_spi_id; [apply ge0_counts|unfold HS_PACKET_SIZE; lia| | | |exact Hl].
  - apply take_app_length'. done.
  - done.
  - done.
Qed.

Lemma end_spi : requests (send_end_message BSL_SPI_PACKET) end_packet (fun r => r).
Proof.
  intros l rep reps Hl.
  assert (E : send_end_message BSL_SPI_PACKET l
    = (retval <- write (end_packet ++ replicate 20 0) 12 ;; finish gt0 ack_or_0 (end_packet ++ replicate 20 0) 1 retval) l).
  { unfold send_end_message. assert (Hset : setup_packet BSL_CMD_END_DATA raw_buffer_0 8 0 BSL_SPI_PACKET = Some (end_packet ++ replicate 20 0, 12))
      by (vm_compute; reflexivity). unfold bind at 1, lift at 1. by rewrite Hset. }
  rewrite E. apply request_spi_id; [apply gt0_counts|unfold HS_PACKET_SIZE; lia| | | |exact Hl].
  - apply take_app_length'. done.
  - done.
  - done.
Qed.

(** The buffer comes back with the packet's header. *)
Lemma data_spi h0 h1 h2 h3 h4 h5 h6 h7 data rest : data <> [] -> zlen data <= HS_PACKET_SIZE ->
  requests (send_data_message ([h0; h1; h2; h3; h4; h5; h6; h7] ++ data ++ rest) (zlen data) BSL_SPI_PACKET)
    (spi_packet 2 data) (fun r => (spi_header 2 (zlen data) data ++ data ++ rest, r)).
Proof.
  intros Hne Hd l rep reps Hl. assert (Hpos : 0 < zlen data) by (destruct data; [done|rewrite zlen_cons; pose proof (zlen_nonneg data); lia]).
  destruct (setup_packet_spi BSL_CMD_MIDST_DATA h0 h1 h2 h3 h4 h5 h6 h7 data rest) as [Hset _]; [by right; left|done|].
  unfold send_data_message. cbn [BSL_SPI_PACKET Z.eqb]. unfold bind at 1, lift at 1. rewrite Hset.
  change (cmd_code BSL_CMD_MIDST_DATA) with 2.
  apply (request_spi gt0 _ _ _ raw_buffer_0 (fun r => (spi_header 2 (zlen data) data ++ data ++ rest, r)));
    [apply gt0_counts|lia| | |cbn; lia|exact Hl].
  - unfold spi_packet. rewrite app_assoc. apply take_app_length'. rewrite length_app, length_spi_header. unfold zlen. lia.
  - unfold zlen. rewrite !length_app, length_spi_header. lia.
Qed.

(** ** Packets and replies *)

(** What is sent of [pkts] until the first bad reply, whether all replies were
    good, and the replies that are left. *)
Fixpoint exchange (pkts reps : list (list Z)) : list (list Z) * bool * list (list Z) :=
  match pkts, reps with
  | p :: pkts, r :: reps =>
      if acked r then let x := exchange pkts reps in (p :: x.1.1, x.1.2, x.2) else ([p], false, reps)
  | [], _ => ([], true, reps)
  | _, [] => ([], false, [])
  end.

Lemma exchange_app p1 p2 reps : (length p1 <= length reps)%nat ->
  exchange (p1 ++ p2) reps =
  let x := exchange p1 reps in
  if x.1.2 then let y := exchange p2 x.2 in (x.1.1 ++ y.1.1, y.1.2, y.2) else x.
Proof.
  revert reps. induction p1 as [|p p1 IH]; intros reps Hl; cbn [app exchange].
  { cbn. by destruct (exchange p2 reps) as [ [? ?] ?]. }
  destruct reps as [|r reps]; [cbn in Hl; lia|]. destruct (acked r); [|done]. cbn in Hl. rewrite IH by lia. cbn zeta.
  destruct (exchange p1 reps) as [ [l b] k]. cbn [fst snd]. destruct b; done.
Qed.

Lemma exchange_rest p reps : (length p <= length reps)%nat -> (exchange p reps).1.2 = true ->
  (length p + length (exchange p reps).2 = length reps)%nat /\ (exchange p reps).1.1 = p.
Proof.
  revert reps. induction p as [|q p IH]; intros reps Hl Hx; [done|]. destruct reps as [|r reps]; [done|]. cbn [exchange] in *.
  destruct (acked r); [|done]. cbn [fst snd] in *. cbn in Hl. destruct (IH reps) as [IH1 IH2]; [lia|done|]. cbn. split; [lia|congruence].
Qed.

(** A reply is left for one more request. *)
Lemma exchange_more pkts : forall reps, (length pkts + 1 <= length reps)%nat -> exists rep reps', (exchange pkts reps).2 = rep :: reps'.
Proof.
  induction pkts as [|p pkts IH]; intros [|r reps] Hl; cbn in Hl; try lia; cbn [exchange]; [by eexists _, _|].
  destruct (acked r); [apply IH; lia|]. destruct reps; [cbn in Hl; lia|by eexists _, _].
Qed.

(** What a download does not change. *)
Record kept (s s' : boot) : Prop := {
  k_uart : uart s' = uart s;
  k_info : download_image_info s' = download_image_info s;
  k_count : modem_images_count s' = modem_images_count s;
  k_buffer : length (test_buffer s') = length (test_buffer s)
}.

#[export] Instance kept_preorder : PreOrder kept.
Proof. split; [by constructor|]. intros s1 s2 s3 [? ? ? ?] [? ? ? ?]. constructor; congruence. Qed.

(** [m] sends [pkts], stops at the first bad reply, and returns [val b],
    [b] saying whether all replies were good. *)
Definition carries {A} (m : M boot A) (pkts : list (list Z)) (val : bool -> A) (s : boot) : Prop :=
  forall reps, ready (spi_link s) reps -> (length pkts <= length reps)%nat ->
  let x := exchange pkts reps in
  exists s', m s = Ret (val x.1.2) s' /\ sent (spi s') = sent (spi s) ++ x.1.1 /\ ready (spi_link s') x.2 /\ kept s s'.

(** The codes of the C functions. *)
Definition code (b : bool) : Z := if b then DL_SUCCESS else DL_FAILURE.

Lemma on_spi_request {A} (m : M link A) p res s rep reps : requests m p res -> ready (spi_link s) (rep :: reps) ->
  exists s', on_spi m s = Ret (res (code (acked rep))) s' /\ sent (spi s') = sent (spi s) ++ [p] /\
    ready (spi_link s') reps /\ kept s s' /\ test_buffer s' = test_buffer s.
Proof.
  intros Hm Hr. destruct (Hm _ _ _ Hr) as (l' & E & Hsent & Hr' & Hsb). unfold on_spi, zoom. rewrite E.
  eexists. split; [reflexivity|]. destruct s as [ [sb txu su rxu] sp tb i n d bs ns o pw]. cbn in *.
  split; [done|]. split; [by destruct Hr'|]. split; [|done]. constructor; cbn; congruence.
Qed.

Lemma carries_request {A} (m : M link A) p res s : requests m p res -> carries (on_spi m) [p] (fun b => res (code b)) s.
Proof.
  intros Hm reps Hr Hl. destruct reps as [|rep reps]; [cbn in Hl; lia|].
  destruct (on_spi_request m p res s rep reps Hm Hr) as (s' & E & Hs & Hr' & Hk & _). exists s'. rewrite E.
  cbn [exchange]. by destruct (acked rep).
Qed.

Lemma carries_bind {A B} (m : M boot A) (k : A -> M boot B) p1 p2 val val' s :
  carries m p1 val s ->
  (forall s', kept s s' -> carries (k (val true)) p2 val' s') ->
  (forall s', k (val false) s' = Ret (val' false) s') ->
  carries (bind m k) (p1 ++ p2) val' s.
Proof.
  intros Hm Hk Hbad reps Hr Hl. rewrite length_app in Hl. rewrite exchange_app by lia.
  destruct (Hm reps Hr) as (s1 & E1 & Hs1 & Hr1 & Hk1); [lia|]. cbn zeta in *.
  unfold bind. rewrite E1. destruct (exchange p1 reps) as [ [sent1 b] reps1] eqn:Ex. cbn [fst snd] in *. destruct b.
  - destruct (exchange_rest p1 reps) as [Hlen _]; [lia|by rewrite Ex|]. rewrite Ex in Hlen. cbn [snd] in Hlen.
    destruct (Hk s1 Hk1 reps1 Hr1) as (s2 & E2 & Hs2 & Hr2 & Hk2); [lia|]. exists s2.
    split; [exact E2|]. cbn zeta in Hs2. cbn [fst snd]. split; [by rewrite Hs2, Hs1, app_assoc|]. split; [done|by etrans].
  - rewrite Hbad. by exists s1.
Qed.

(** A step that sends nothing. *)
Lemma carries_eq {A} (m m' : M boot A) s s1 pkts val : m s = m' s1 -> kept s s1 -> spi s1 = spi s ->
  carries m' pkts val s1 -> carries m pkts val s.
Proof.
  intros E Hk Hspi H reps Hr Hl. assert (Hr1 : ready (spi_link s1) reps) by (unfold spi_link in *; rewrite (k_uart _ _ Hk), Hspi; exact Hr).
  destruct (H reps Hr1 Hl) as (s' & E' & Hs & Hr' & Hk'). exists s'. rewrite E. split; [done|].
  split; [by rewrite Hs, Hspi|]. split; [done|by etrans].
Qed.

Lemma carries_ret {A} (a : A) (val : bool -> A) s : a = val true -> carries (ret a) [] val s.
Proof. intros -> reps Hr _. exists s. cbn. by rewrite app_nil_r. Qed.

(** ** Reading a file *)

(** [read] delivers the bytes of the file in pieces, without an error. *)
Definition good_file (f : list rx_event) : Prop := Forall (fun e => exists c d, e = RxData (c :: d)) f.

Lemma set_test_buffer_twice b b' s : set_test_buffer b (set_test_buffer b' s) = set_test_buffer b s.
Proof. done. Qed.
Lemma set_test_buffer_same s : set_test_buffer (test_buffer s) s = s.
Proof. by destruct s. Qed.

Lemma read_packet_ok fuel : forall f off n s, good_file f -> (length f < fuel)%nat -> 0 < n < 4294967296 -> 0 <= off ->
  off + n <= zlen (test_buffer s) ->
  exists f', read_packet fuel f off n s = Ret f' (set_test_buffer (Prelude.put (test_buffer s) off (take (Z.to_nat n) (stream f))) s) /\
    good_file f' /\ stream f' = drop (Z.to_nat n) (stream f).
Proof.
  induction fuel as [|fuel IH]; intros f off n s Hf Hfuel Hn Hoff Hbuf; [lia|]. cbn [read_packet].
  destruct f as [|e f].
  - change (stream []) with (@nil Z). exists []. split; [|split; [exact (Forall_nil_2 _)|by rewrite drop_nil] ]. cbn [fread]. unfold bind, get, lift, modify, ret. cbn [store].
    rewrite take_nil, put_nil, set_test_buffer_same by lia. reflexivity.
  - apply Forall_cons in Hf as [(c & d0 & ->) Hf]. set (d := c :: d0) in *. cbn [length] in Hfuel.
    assert (Hd : (0 < length d)%nat) by (cbn; lia).
    cbn [fread]. rewrite u32_small by lia. set (m := Z.to_nat n). unfold bind at 1, get.
    assert (Hz : zlen (take m d) = Z.min n (zlen d)) by (unfold zlen, m; rewrite length_take; lia).
    assert (Hd' : 0 < zlen d) by (unfold zlen; lia).
    unfold bind at 1, lift. rewrite store_ok by lia. unfold bind at 1, modify.
    change (stream (RxData d :: f)) with (d ++ stream f).
    rewrite Hz. rewrite (proj2 (Z.gtb_lt _ 0)) by lia. destruct (Z.gtb_spec (n - Z.min n (zlen d)) 0).
    + assert (Hlen : (length d < m)%nat) by (unfold zlen, m in *; lia).
      rewrite (proj2 (Nat.leb_le _ _)) by lia. rewrite (take_ge d) by lia. rewrite Z.min_r by lia.
      destruct (IH f (off + zlen d) (n - zlen d) (set_test_buffer (Prelude.put (test_buffer s) off d) s)) as (f' & E & Hf' & Hst); [done|lia|lia|lia| |].
      { cbn [test_buffer set_test_buffer]. rewrite zlen_put by lia. lia. }
      exists f'. rewrite E. replace (Z.to_nat (n - zlen d)) with (m - length d)%nat in * by (unfold zlen, m; lia).
      split; [|split; [done|by rewrite drop_app_ge by lia] ]. cbn [test_buffer set_test_buffer]. rewrite set_test_buffer_twice.
      rewrite put_put, (take_app_ge d) by (try lia; unfold zlen, m in *; rewrite length_take; lia). reflexivity.
    + assert (Hlen : (m <= length d)%nat) by (unfold zlen, m in *; lia). unfold ret. eexists. split; [by rewrite take_app_le by lia|].
      rewrite drop_app_le by lia. destruct (Nat.leb_spec (length d) m).
      * split; [done|]. by rewrite drop_ge by lia.
      * split; [|done]. apply Forall_cons. split; [|done]. destruct (drop m d) as [|x y] eqn:E; [|by eexists _, _].
        assert (length (drop m d) = 0%nat) by (by rewrite E). rewrite length_drop in *. lia.
Qed.

Lemma put_same l p ys zs : 0 <= p -> zlen ys <= zlen zs -> p + zlen zs <= zlen l -> Prelude.put (Prelude.put l p ys) p zs = Prelude.put l p zs.
Proof.
  intros Hp Hyz Hl. unfold Prelude.put, zlen in *.
  assert (E : length (take (Z.to_nat p) l) = Z.to_nat p) by (rewrite length_take; lia).
  rewrite take_app_length' by done. do 2 f_equal. rewrite !drop_app, E. rewrite drop_ge by (rewrite E; lia). cbn [app].
  rewrite drop_ge by lia. rewrite drop_drop. cbn [app]. f_equal. lia.
Qed.

(** ** One image *)

(** The number of packets, the image filled up with 0xFF, and the packets. *)
Definition packet_count (size : Z) : Z := Z.quot (size + HS_PACKET_SIZE - 1) HS_PACKET_SIZE.
Definition padded (content : list Z) (size : Z) : list Z :=
  take (Z.to_nat size) content ++ replicate (Z.to_nat (packet_count size * HS_PACKET_SIZE - size)) 0xFF.
Fixpoint chunks (n : nat) (l : list Z) : list (list Z) :=
  match n with
  | O => []
  | S n => take (Z.to_nat HS_PACKET_SIZE) l :: chunks n (drop (Z.to_nat HS_PACKET_SIZE) l)
  end.
Definition image_packets (addr size : Z) (content : list Z) : list (list Z) :=
  spi_packet 1 (be32 addr ++ be32 (packet_count size * HS_PACKET_SIZE)) ::
  (spi_packet 2 <$> chunks (Z.to_nat (packet_count size)) (padded content size)) ++ [end_packet].

Lemma packet_count_bounds size : 0 < size -> 0 < packet_count size /\ (packet_count size - 1) * HS_PACKET_SIZE < size <= packet_count size * HS_PACKET_SIZE.
Proof.
  intros Hs. unfold packet_count. assert (HS : HS_PACKET_SIZE = 61440) by done. rewrite HS. rewrite Z.quot_div_nonneg by lia. Z.div_mod_to_equations. lia.
Qed.

Lemma packet_count_next size : HS_PACKET_SIZE < size -> packet_count (size - HS_PACKET_SIZE) = packet_count size - 1.
Proof.
  intros Hs. unfold packet_count. assert (HS : HS_PACKET_SIZE = 61440) by done. rewrite HS in *. rewrite !Z.quot_div_nonneg by lia. Z.div_mod_to_equations. lia.
Qed.

Definition buffer_ok (s : boot) : Prop := zlen (test_buffer s) = HS_PACKET_SIZE + 64.

Lemma kept_buffer_ok s s' : kept s s' -> buffer_ok s -> buffer_ok s'.
Proof. intros [_ _ _ H]. unfold buffer_ok, zlen. by rewrite H. Qed.

(** The packet in [test_buffer] is sent. *)
Lemma carries_packet s b data : zlen b = HS_PACKET_SIZE + 64 -> zlen data = HS_PACKET_SIZE ->
  test_buffer s = Prelude.put b 8 data ->
  carries send_packet [spi_packet 2 data] code s.
Proof.
  intros Hb Hd Ht. assert (HS : HS_PACKET_SIZE = 61440) by done.
  destruct b as [|h0 [|h1 [|h2 [|h3 [|h4 [|h5 [|h6 [|h7 b] ] ] ] ] ] ] ]; try (unfold zlen in Hb; cbn in Hb; lia).
  assert (Et : test_buffer s = [h0; h1; h2; h3; h4; h5; h6; h7] ++ data ++ drop (Z.to_nat HS_PACKET_SIZE) b).
  { rewrite Ht. unfold Prelude.put. rewrite Hd. reflexivity. }
  assert (Hne : data <> []) by (intros ->; discriminate Hd).
  intros reps Hr Hl. destruct reps as [|rep reps]; [cbn in Hl; lia|].
  pose proof (data_spi h0 h1 h2 h3 h4 h5 h6 h7 data (drop (Z.to_nat HS_PACKET_SIZE) b) Hne ltac:(lia)) as Hq. rewrite Hd, <- Et in Hq.
  destruct (on_spi_request _ _ _ s rep reps Hq Hr) as (s' & E & Hsent & Hr' & Hk & Htb). unfold send_packet, bind, get. rewrite E. cbn [fst snd].
  eexists. split; [cbn [exchange]; destruct (acked rep); reflexivity|]. cbn [exchange]. destruct s' as [? ? ? ? ? ? ? ? ? ?], Hk as [K1 K2 K3 K4]. cbn in *. subst.
  assert (Hlen : length ([h0; h1; h2; h3; h4; h5; h6; h7] ++ data ++ drop (Z.to_nat HS_PACKET_SIZE) b)
    = length (spi_header 2 HS_PACKET_SIZE data ++ data ++ drop (Z.to_nat HS_PACKET_SIZE) b)) by (rewrite !length_app; done).
  destruct (acked rep); (split; [done|split; [done|constructor; try done; rewrite Et; exact (eq_sym Hlen)] ]).
Qed.

Lemma test_buffer_kept b s : zlen b = zlen (test_buffer s) -> kept s (set_test_buffer b s).
Proof. intros H. constructor; try done. cbn. unfold zlen in H. lia. Qed.

Lemma pad_packet_ok n s : 0 <= n <= HS_PACKET_SIZE -> buffer_ok s ->
  pad_packet n s = Ret tt (set_test_buffer (Prelude.put (test_buffer s) (n + 8) (replicate (Z.to_nat (HS_PACKET_SIZE - n)) 0xFF)) s).
Proof.
  intros Hn Hb. unfold buffer_ok in Hb. unfold pad_packet, bind, get, lift. by rewrite store_ok by (rewrite ?zlen_replicate by lia; lia).
Qed.

(** Reading and, in the last packet, padding. *)
Lemma packet_read f size s : good_file f -> 0 < size <= zlen (stream f) -> buffer_ok s ->
  exists f' b, (f <- read_packet (S (length f)) f 8 HS_PACKET_SIZE ;;
     (if size <? HS_PACKET_SIZE then pad_packet size else ret tt) ;;; ret f) s
    = Ret f' (set_test_buffer (Prelude.put b 8 (take (Z.to_nat HS_PACKET_SIZE) (padded (stream f) size))) s) /\
    good_file f' /\ stream f' = drop (Z.to_nat HS_PACKET_SIZE) (stream f) /\ zlen b = HS_PACKET_SIZE + 64.
Proof.
  intros Hf Hsize Hb. assert (HS : HS_PACKET_SIZE = 61440) by done. pose proof (packet_count_bounds size ltac:(lia)) as [Hc1 Hc2].
  unfold buffer_ok in Hb. destruct (read_packet_ok (S (length f)) f 8 HS_PACKET_SIZE s Hf) as (f' & E & Hf' & Hst); [lia|lia|lia|lia|].
  exists f', (test_buffer s). unfold bind at 1. rewrite E. set (D := take (Z.to_nat HS_PACKET_SIZE) (stream f)).
  assert (HD : zlen D = Z.min HS_PACKET_SIZE (zlen (stream f))) by (unfold D, zlen; rewrite length_take; lia).
  split; [|done]. destruct (Z.ltb_spec size HS_PACKET_SIZE).
  - assert (Hc : packet_count size = 1) by nia. unfold bind.
    rewrite pad_packet_ok by (try lia; unfold buffer_ok; cbn [test_buffer set_test_buffer]; rewrite zlen_put by lia; lia).
    unfold ret. cbn [test_buffer set_test_buffer]. rewrite set_test_buffer_twice. do 2 f_equal.
    unfold padded. rewrite Hc, Z.mul_1_l. set (P := replicate (Z.to_nat (HS_PACKET_SIZE - size)) 0xFF).
    assert (HP : zlen P = HS_PACKET_SIZE - size) by (unfold P; rewrite zlen_replicate; lia).
    assert (ED : D = take (Z.to_nat size) (stream f) ++ drop (Z.to_nat size) D).
    { rewrite <- (take_drop (Z.to_nat size) D) at 1. f_equal. unfold D. rewrite take_take. f_equal. lia. }
    rewrite ED. set (X := take (Z.to_nat size) (stream f)) in *. set (Y := drop (Z.to_nat size) D) in *.
    assert (HX : zlen X = size) by (unfold X, zlen in *; rewrite length_take; lia).
    assert (HY : zlen X + zlen Y = zlen D) by (rewrite ED, zlen_app; done).
    rewrite (take_ge (X ++ P)) by (rewrite length_app; unfold zlen in *; lia).
    rewrite <- (Prelude.put_put _ _ X Y) by lia. replace (size + 8) with (8 + zlen X) by lia.
    rewrite put_same by (rewrite ?zlen_put by lia; lia). by rewrite Prelude.put_put by lia.
  - assert (ED : D = take (Z.to_nat HS_PACKET_SIZE) (padded (stream f) size)); [|by rewrite <- ED].
    unfold padded, D. rewrite take_app_le by (rewrite length_take; unfold zlen in *; lia). rewrite take_take. f_equal. lia.
Qed.

(** The packets of an image from some point on. *)
Lemma data_packets_carries fuel : forall f i count size s, good_file f -> 0 < size <= zlen (stream f) -> buffer_ok s ->
  packet_count size = count - i -> 0 <= i -> count <= HS_PACKET_SIZE -> count - i < Z.of_nat fuel ->
  carries (data_packets fuel f i count size) (spi_packet 2 <$> chunks (Z.to_nat (count - i)) (padded (stream f) size)) (fun b : bool => b) s.
Proof.
  assert (HS : HS_PACKET_SIZE = 61440) by done.
  induction fuel as [|fuel IH]; intros f i count size s Hf Hsize Hb Hc Hi Hcount Hfuel;
    pose proof (packet_count_bounds size ltac:(lia)) as [Hc1 Hc2]; [lia|]. cbn [data_packets]. rewrite (proj2 (Z.ltb_lt i count)) by lia.
  destruct (packet_read f size s Hf Hsize Hb) as (f' & b & E & Hf' & Hst & Hzb).
  set (data := take (Z.to_nat HS_PACKET_SIZE) (padded (stream f) size)) in *.
  assert (Hpad : zlen (padded (stream f) size) = (count - i) * HS_PACKET_SIZE).
  { unfold padded. rewrite zlen_app, zlen_replicate, Hc by lia. unfold zlen in *. rewrite length_take. lia. }
  assert (Hd : zlen data = HS_PACKET_SIZE) by (unfold data, zlen in *; rewrite length_take; rewrite HS in *; lia).
  set (s1 := set_test_buffer (Prelude.put b 8 data) s) in *.
  assert (Hk1 : kept s s1) by (apply test_buffer_kept; rewrite zlen_put by lia; unfold buffer_ok in Hb; lia).
  replace (Z.to_nat (count - i)) with (S (Z.to_nat (count - i - 1))) by lia. cbn [chunks fmap list_fmap]. fold data.
  eapply (carries_eq _ (r <- send_packet ;; if negb (r =? DL_SUCCESS) then ret false else
    data_packets fuel f' ((if size <? HS_PACKET_SIZE then HS_PACKET_SIZE else i) + 1) count (if size <? HS_PACKET_SIZE then 0 else size - HS_PACKET_SIZE)) s s1);
    [|done|by destruct s|].
  { revert E. unfold bind at 1 3. destruct (read_packet (S (length f)) f 8 HS_PACKET_SIZE s) as [f1 s0|s0|flt]; [|done..].
    unfold bind at 1 2. destruct ((if size <? HS_PACKET_SIZE then pad_packet size else ret tt) s0) as [ [] s0'|s0'|flt] eqn:Ep; [|done..].
    unfold ret at 1. intros [= -> ->]. by destruct (size <? HS_PACKET_SIZE). }
  apply (carries_bind _ _ [spi_packet 2 data] _ code); [by eapply carries_packet| |done].
  intros s2 Hk2. cbn [code negb Z.eqb DL_SUCCESS].
  destruct (Z.ltb_spec size HS_PACKET_SIZE).
  - assert (count - i = 1) by (rewrite HS in *; lia). replace (Z.to_nat (count - i - 1)) with O by lia. cbn [chunks fmap list_fmap].
    destruct fuel as [|fuel']; [lia|]. cbn [data_packets]. rewrite (proj2 (Z.ltb_ge (HS_PACKET_SIZE + 1) count)) by lia. by apply carries_ret.
  - destruct (decide (size = HS_PACKET_SIZE)) as [->|Hne].
    + assert (count - i = 1) by (rewrite HS in *; lia). replace (Z.to_nat (count - i - 1)) with O by lia. cbn [chunks fmap list_fmap].
      destruct fuel as [|fuel']; [lia|]. cbn [data_packets]. rewrite (proj2 (Z.ltb_ge (i + 1) count)) by lia. by apply carries_ret.
    + pose proof (packet_count_next size ltac:(lia)) as Hn.
      assert (Epad : drop (Z.to_nat HS_PACKET_SIZE) (padded (stream f) size) = padded (stream f') (size - HS_PACKET_SIZE)).
      { unfold padded. rewrite Hst, Hn, drop_app_le by (rewrite length_take; unfold zlen in *; lia). f_equal; [|f_equal; lia].
        rewrite take_drop_commute. f_equal. f_equal. lia. }
      rewrite Epad. replace (count - i - 1) with (count - (i + 1)) by lia.
      apply IH; [done| |by eapply kept_buffer_ok; [exact Hk2|eapply kept_buffer_ok]|lia..].
      rewrite Hst. unfold zlen in *. rewrite length_drop. lia.
Qed.

(** ** All images *)

Section files.
Context (file : list Z -> option (list rx_event)).

(** The content of an image's file; an image whose file cannot be opened is
    left out. *)
Definition image_content (info : image_info) : option (list Z) := stream <$> open_file file (image_path info).
Definition packets_of (info : image_info) : list (list Z) :=
  match image_content info with Some c => image_packets (address info) (image_size info) c | None => [] end.

(** The file is at least as long as the table says. *)
Definition image_ok (info : image_info) : Prop :=
  forall f, open_file file (image_path info) = Some f ->
  good_file f /\ 0 < image_size info <= zlen (stream f) /\ image_size info < 2 ^ 31 - HS_PACKET_SIZE /\ 0 <= address info < 2 ^ 32.

Lemma download_image_carries info s : image_ok info -> buffer_ok s -> carries (download_image file info) (packets_of info) code s.
Proof.
  intros Hok Hb. unfold packets_of, image_content, download_image. unfold image_ok, open_file in *.
  destruct (image_path info) as [path|]; cbn [mbind option_bind fmap option_fmap option_map] in *; [|by apply carries_ret].
  destruct (file path) as [f|]; cbn [fmap option_fmap option_map] in *; [|by apply carries_ret].
  destruct (Hok f eq_refl) as (Hf & Hsize & Hmax & Haddr). pose proof (packet_count_bounds (image_size info) ltac:(lia)) as [Hc1 Hc2].
  assert (HS : HS_PACKET_SIZE = 61440) by done. fold (packet_count (image_size info)). set (count := packet_count (image_size info)) in *.
  unfold image_packets. fold count.
  apply (carries_bind _ _ [_] _ code); [|intros s1 Hk1|done].
  { apply (carries_request _ _ (fun r => r)). apply start_spi; lia. }
  cbn [code negb Z.eqb DL_SUCCESS].
  apply (carries_bind _ _ _ _ (fun b : bool => b)); [|intros s2 Hk2|done].
  - pose proof (data_packets_carries (S (Z.to_nat count)) f 0 count (image_size info) s1) as H. rewrite Z.sub_0_r in H.
    apply H; [done|done|by eapply kept_buffer_ok|done|done|lia|lia].
  - cbn [negb]. apply (carries_request _ _ (fun r => r)), end_spi.
Qed.

Lemma images_loop_carries n : forall k s r, r = Some DL_SUCCESS \/ n <> O -> (n + k <= length (download_image_info s))%nat -> buffer_ok s ->
  Forall image_ok (take n (drop k (download_image_info s))) ->
  carries (images_loop file n k r) (concat (packets_of <$> take n (drop k (download_image_info s)))) (fun b => Some (code b)) s.
Proof.
  induction n as [|n IH]; intros k s r Hr Hk Hb Hok; cbn [images_loop].
  { destruct Hr as [->|?]; [by apply carries_ret|done]. }
  destruct (lookup_lt_is_Some_2 (download_image_info s) k) as [info Hinfo]; [lia|].
  rewrite (drop_S _ _ _ Hinfo) in Hok |- *. cbn [take fmap list_fmap concat] in *. apply Forall_cons in Hok as [Hinf Hok].
  eapply (carries_eq _ (r <- download_image file info ;; if negb (r =? DL_SUCCESS) then ret (Some r) else images_loop file n (S k) (Some r)) s s);
    [unfold bind, get, lift; by rewrite Hinfo|done|done|].
  apply (carries_bind _ _ _ _ code); [by apply download_image_carries| |done].
  intros s1 Hk1. cbn [code negb Z.eqb DL_SUCCESS]. rewrite <- (k_info _ _ Hk1) in Hok |- *.
  apply IH; [by left|rewrite (k_info _ _ Hk1); lia|by eapply kept_buffer_ok|done].
Qed.

(** The images of the table but the first, which is for the UART. *)
Definition listed (s : boot) : list image_info := take (Z.to_nat (modem_images_count s - 1)) (drop 1 (download_image_info s)).
Definition exec_packet : list Z := spi_packet 4 (be32 0x400000).

Lemma download_images_run s reps : 2 <= modem_images_count s <= zlen (download_image_info s) -> buffer_ok s -> Forall image_ok (listed s) ->
  let pkts := concat (packets_of <$> listed s) in
  ready (spi_link s) reps -> (length pkts + 1 <= length reps)%nat ->
  let x := exchange pkts reps in
  exists s', download_images file s = Ret (code x.1.2) s' /\ sent (spi s') = sent (spi s) ++ x.1.1 ++ [exec_packet] /\ kept s s'.
Proof.
  intros Hc Hb Hok pkts Hr Hl x. unfold download_images. unfold bind at 1, get.
  destruct (images_loop_carries (Z.to_nat (modem_images_count s - 1)) 1 s None) with (reps := reps) as (s1 & E1 & Hs1 & Hr1 & Hk1);
    [right; lia|unfold zlen in *; lia|done|done|done|fold (listed s); fold pkts; lia|].
  fold (listed s) in *. fold pkts in E1, Hs1, Hr1. fold x in E1, Hs1, Hr1. unfold bind at 1. rewrite E1.
  assert (Hrest : exists rep reps', x.2 = rep :: reps') by (by apply exchange_more).
  destruct Hrest as (rep & reps' & Ex). rewrite Ex in Hr1.
  destruct (on_spi_request _ _ (fun r => r) s1 rep reps' (exec_spi 0x400000 ltac:(lia)) Hr1) as (s2 & E2 & Hs2 & _ & Hk2 & _).
  unfold bind at 1. rewrite E2. exists s2. split; [done|]. split; [|by etrans]. rewrite Hs2, Hs1, <- app_assoc. done.
Qed.
End files.
