(* ===== verification/ModemMemory.v ===== *)
(** * A modem that carries out the packets

    What the packets of the download mean to the other side: a memory that
    they are written to. The protocol, as far as the modem is concerned, is
    the table of commands in cmd_def.h and the checksums of packet.c; the
    theorems say what the modem's memory holds after the download. *)
From stdpp Require Import base list gmap.
From Stdlib Require Import ZArith Lia.
From S2P Require Import Prelude Crc Packet ModemBoot ModemBootProofs.

(** ** The modem *)

(** Its memory, where the next data go, and where it was told to run. *)
Record modem := Modem { memory : gmap Z Z; cursor : Z; running : option Z }.

Fixpoint write_memory (m : gmap Z Z) (a : Z) (l : list Z) : gmap Z Z :=
  match l with [] => m | x :: l => write_memory (<[a := x]> m) (a + 1) l end.

Definition be (l : list Z) : Z := foldl (fun n c => n * 256 + c) 0 l.

(** A packet with wrong checksums is dropped. *)
Definition modem_packet (m : modem) (p : list Z) : modem :=
  match p with
  | s0 :: s1 :: c0 :: c1 :: d0 :: d1 :: _ :: _ :: rest =>
      let data := take (Z.to_nat (s0 + 256 * s1)) rest in
      if bool_decide (boot_checksum (take 8 p) 8 = Some 0) && (csum data =? d0 + 256 * d1) then
        match c0 + 256 * c1 with
        | 1 => Modem (memory m) (be (take 4 data)) (running m)
        | 2 => Modem (write_memory (memory m) (cursor m) data) (cursor m + zlen data) (running m)
        | 4 => Modem (memory m) (cursor m) (Some (be (take 4 data)))
        | _ => m
        end
      else m
  | _ => m
  end.
Definition modem_packets (m : modem) (ps : list (list Z)) : modem := foldl modem_packet m ps.

(** ** Memory *)

Lemma write_memory_app m a l k : write_memory m a (l ++ k) = write_memory (write_memory m a l) (a + zlen l) k.
Proof.
  revert m a. induction l as [|x l IH]; intros m a; cbn [app write_memory]; [by rewrite Z.add_0_r|].
  rewrite IH, zlen_cons. f_equal. lia.
Qed.

Lemma write_memory_lookup l : forall m a x,
  write_memory m a l !! x = if decide (a <= x < a + zlen l) then l !! Z.to_nat (x - a) else m !! x.
Proof.
  induction l as [|y l IH]; intros m a x; cbn [write_memory].
  - rewrite decide_False; [done|]. change (zlen (@nil Z)) with 0. lia.
  - rewrite IH, zlen_cons. pose proof (zlen_nonneg l). destruct (decide (x = a)) as [->|Hne].
    + rewrite decide_False, decide_True by lia. rewrite lookup_insert_eq. by replace (Z.to_nat (a - a)) with O by lia.
    + rewrite lookup_insert_ne by done. destruct (decide (a + 1 <= x < a + 1 + zlen l)).
      * rewrite decide_True by lia. by replace (Z.to_nat (x - a)) with (S (Z.to_nat (x - (a + 1)))) by lia.
      * by rewrite decide_False by lia.
Qed.

(** ** Packets *)

Lemma le16_value v : 0 <= v < 65536 -> u8 v + 256 * u8 (Z.shiftr v 8) = v.
Proof. intros H. rewrite Z.shiftr_div_pow2 by lia. wrap_lia. Qed.

Lemma be_be32 v : 0 <= v < 2 ^ 32 -> be (be32 v) = v.
Proof. intros H. unfold be, be32. cbn [foldl]. rewrite ?Z.shiftr_div_pow2 by lia. wrap_lia. Qed.

(** A well-formed packet is carried out. *)
Lemma modem_packet_ok m code size data sumdata : 0 <= code < 65536 -> 0 <= size < 65536 -> csum sumdata = csum data -> zlen data = size ->
  modem_packet m (spi_header code size sumdata ++ data) =
  match code with
  | 1 => Modem (memory m) (be (take 4 data)) (running m)
  | 2 => Modem (write_memory (memory m) (cursor m) data) (cursor m + zlen data) (running m)
  | 4 => Modem (memory m) (cursor m) (Some (be (take 4 data)))
  | _ => m
  end.
Proof.
  intros Hc Hs Hsum Hlen. unfold modem_packet.
  change (spi_header code size sumdata ++ data) with
    (u8 size :: u8 (Z.shiftr size 8) :: u8 code :: u8 (Z.shiftr code 8) :: u8 (csum sumdata) :: u8 (Z.shiftr (csum sumdata) 8) ::
     u8 (csum (le16 size ++ le16 code ++ le16 (csum sumdata))) :: u8 (Z.shiftr (csum (le16 size ++ le16 code ++ le16 (csum sumdata))) 8) :: data).
  cbv beta iota zeta. rewrite !le16_value by (done || apply csum_range). rewrite (take_ge data) by (unfold zlen in Hlen; lia). rewrite Hsum, Z.eqb_refl.
  rewrite bool_decide_true; [done|].
  change (take 8 _) with ((le16 size ++ le16 code ++ le16 (csum data)) ++ le16 (csum (le16 size ++ le16 code ++ le16 (csum data)))).
  set (h := le16 _ ++ le16 _ ++ le16 _).
  change 8 with (zlen h + 2). apply boot_checksum_append; [|reflexivity|reflexivity|].
  - unfold h. repeat (apply bytes_app; split); auto with cint.
  - rewrite <- (app_nil_r h) at 1. apply boot_checksum_app.
Qed.

Lemma modem_start m addr size : 0 <= addr < 2 ^ 32 -> modem_packet m (spi_packet 1 (be32 addr ++ be32 size)) = Modem (memory m) addr (running m).
Proof.
  intros Ha. unfold spi_packet. rewrite modem_packet_ok by done. f_equal. change (take 4 _) with (be32 addr). by apply be_be32.
Qed.

Lemma modem_data m data : zlen data < 65536 ->
  modem_packet m (spi_packet 2 data) = Modem (write_memory (memory m) (cursor m) data) (cursor m + zlen data) (running m).
Proof. intros Hd. unfold spi_packet. pose proof (zlen_nonneg data). by rewrite modem_packet_ok by (done || lia). Qed.

Lemma modem_end m : modem_packet m end_packet = m.
Proof. unfold end_packet. by rewrite modem_packet_ok. Qed.

Lemma modem_exec m addr : 0 <= addr < 2 ^ 32 -> modem_packet m (spi_packet 4 (be32 addr)) = Modem (memory m) (cursor m) (Some addr).
Proof. intros Ha. unfold spi_packet. rewrite modem_packet_ok by done. do 2 f_equal. change (take 4 _) with (be32 addr). by apply be_be32. Qed.

(** The packets of an image write it, filled up, to its address. *)
Lemma modem_chunks n : forall l m, zlen l = Z.of_nat n * HS_PACKET_SIZE ->
  modem_packets m (spi_packet 2 <$> chunks n l) = Modem (write_memory (memory m) (cursor m) l) (cursor m + zlen l) (running m).
Proof.
  assert (HS : HS_PACKET_SIZE = 61440) by done. unfold modem_packets.
  induction n as [|n IH]; intros l m Hl; cbn [chunks fmap list_fmap foldl].
  - destruct l; [|rewrite zlen_cons in Hl; pose proof (zlen_nonneg l); lia]. change (zlen (@nil Z)) with 0. rewrite Z.add_0_r. by destruct m.
  - set (d := take (Z.to_nat HS_PACKET_SIZE) l). set (k := drop (Z.to_nat HS_PACKET_SIZE) l).
    assert (Hd : zlen d = HS_PACKET_SIZE) by (unfold d, zlen in *; rewrite length_take; lia).
    assert (El : l = d ++ k) by (symmetry; apply take_drop).
    assert (Ez : zlen l = zlen d + zlen k) by (by rewrite <- zlen_app, <- El).
    assert (Ew : write_memory (memory m) (cursor m) l = write_memory (write_memory (memory m) (cursor m) d) (cursor m + zlen d) k)
      by (by rewrite <- write_memory_app, <- El).
    rewrite modem_data, IH by lia. cbn [memory cursor running]. rewrite Ew. f_equal. lia.
Qed.

Lemma modem_image m addr size content : 0 <= addr < 2 ^ 32 -> 0 < size <= zlen content ->
  exists a, modem_packets m (image_packets addr size content) = Modem (write_memory (memory m) addr (padded content size)) a (running m).
Proof.
  intros Ha Hs. pose proof (packet_count_bounds size ltac:(lia)) as [Hc1 Hc2]. assert (HS : HS_PACKET_SIZE = 61440) by done.
  unfold modem_packets, image_packets. cbn [foldl]. rewrite modem_start, foldl_app by done. cbn [foldl]. rewrite modem_end.
  pose proof (modem_chunks (Z.to_nat (packet_count size)) (padded content size) (Modem (memory m) addr (running m))) as H.
  unfold modem_packets in H. rewrite H; [by eexists|]. unfold padded. rewrite zlen_app, zlen_replicate by lia. unfold zlen in *. rewrite length_take. lia.
Qed.

(** ** The whole download *)

Lemma exchange_good pkts : forall reps, (length pkts <= length reps)%nat -> Forall (fun r => acked r = true) reps ->
  (exchange pkts reps).1 = (pkts, true).
Proof.
  induction pkts as [|p pkts IH]; intros [|r reps] Hl Hr; cbn in Hl |- *; try done; [lia|].
  apply Forall_cons in Hr as [-> Hr]. specialize (IH reps ltac:(lia) Hr). by rewrite IH.
Qed.

Lemma exchange_refused pkts : forall good bad rest, Forall (fun r => acked r = true) good -> acked bad = false -> (length good < length pkts)%nat ->
  (exchange pkts (good ++ bad :: rest)).1 = (take (S (length good)) pkts, false).
Proof.
  induction pkts as [|p pkts IH]; intros good bad rest Hg Hb Hl; [cbn in Hl; lia|].
  destruct good as [|g good]; cbn [app exchange].
  - rewrite Hb. cbn [fst length take]. by rewrite take_0.
  - apply Forall_cons in Hg as [-> Hg]. cbn in Hl. rewrite (IH good bad rest Hg Hb) by lia. done.
Qed.

Section loading.
Context (file : list Z -> option (list rx_event)).

Definition load_image (m : gmap Z Z) (info : image_info) : gmap Z Z :=
  match image_content file info with Some c => write_memory m (address info) (padded c (image_size info)) | None => m end.

Lemma image_ok_content info c : image_ok file info -> image_content file info = Some c ->
  0 < image_size info <= zlen c /\ 0 <= address info < 2 ^ 32.
Proof.
  unfold image_content, image_ok. intros Hok Hc. destruct (open_file file (image_path info)) as [f|]; [|done]. injection Hc as <-.
  by destruct (Hok f eq_refl) as (_ & ? & _ & ?).
Qed.

Lemma modem_images infos : Forall (image_ok file) infos -> forall m,
  exists a, modem_packets m (concat (packets_of file <$> infos)) = Modem (foldl load_image (memory m) infos) a (running m).
Proof.
  induction 1 as [|info infos Hok _ IH]; intros m; cbn [fmap list_fmap concat foldl]; [by exists (cursor m); destruct m|].
  unfold modem_packets. rewrite foldl_app. fold (modem_packets m (packets_of file info)).
  assert (E : exists a, modem_packets m (packets_of file info) = Modem (load_image (memory m) info) a (running m)).
  { unfold packets_of, load_image. destruct (image_content file info) as [c|] eqn:Hc; [|by exists (cursor m); destruct m].
    destruct (image_ok_content info c Hok Hc) as [Hs Ha]. by apply modem_image. }
  destruct E as [a ->]. apply (IH (Modem _ a (running m))).
Qed.

(** Where an image is in memory, and the bytes of the last one at a place. *)
Definition covers (info : image_info) (x : Z) : Prop :=
  is_Some (image_content file info) /\ address info <= x < address info + packet_count (image_size info) * HS_PACKET_SIZE.

Lemma load_image_other m info x : image_ok file info -> ~ covers info x -> load_image m info !! x = m !! x.
Proof.
  unfold covers, load_image. intros Hok Hx. destruct (image_content file info) as [f|] eqn:Hf; [|done].
  destruct (image_ok_content info f Hok Hf) as [Hs _]. pose proof (packet_count_bounds (image_size info) ltac:(lia)) as [_ Hc].
  rewrite write_memory_lookup, decide_False; [done|]. intros Hin. apply Hx. split; [done|]. unfold padded in Hin.
  rewrite zlen_app, zlen_replicate in Hin by lia. unfold zlen in *. rewrite length_take in Hin. lia.
Qed.

Lemma load_images_other infos x : Forall (image_ok file) infos -> Forall (fun i => ~ covers i x) infos -> forall m, foldl load_image m infos !! x = m !! x.
Proof.
  induction 1 as [|i infos Hi _ IH]; intros Hx m; cbn [foldl]; [done|]. apply Forall_cons in Hx as [Hx Hx'].
  rewrite IH by done. by apply load_image_other.
Qed.

Lemma load_images_byte infos k info c o m : Forall (image_ok file) infos -> infos !! k = Some info -> image_content file info = Some c ->
  0 <= o < image_size info -> (forall j i, (k < j)%nat -> infos !! j = Some i -> ~ covers i (address info + o)) ->
  foldl load_image m infos !! (address info + o) = c !! Z.to_nat o.
Proof.
  intros Hok Hk Hc Ho Hlater. rewrite <- (take_drop_middle infos k info Hk) in Hok |- *. rewrite foldl_app. cbn [foldl].
  apply Forall_app in Hok as [_ Hok]. apply Forall_cons in Hok as [Hinfo Hok]. rewrite load_images_other; [|done|].
  - unfold load_image. rewrite Hc, write_memory_lookup. destruct (image_ok_content info c Hinfo Hc) as [Hs _]. pose proof (packet_count_bounds (image_size info) ltac:(lia)) as [_ Hcount].
    assert (Hl : length (take (Z.to_nat (image_size info)) c) = Z.to_nat (image_size info)) by (rewrite length_take; unfold zlen in *; lia).
    rewrite decide_True; [|unfold padded, zlen in *; rewrite length_app, Hl; lia]. unfold padded.
    rewrite lookup_app_l by (rewrite Hl; lia). rewrite lookup_take_lt by lia. f_equal. lia.
  - apply Forall_lookup_2. intros j i Hj. rewrite lookup_drop in Hj. apply (Hlater (S k + j)%nat); [lia|done].
Qed.

(** C6: Every image that can be opened arrives. Assumed: the count of images
    is at least 2 and the table has as many; each image after the loader whose
    file can be opened has a size in the table that is positive, below 2^31 -
    HS_PACKET_SIZE, and not more than what the file has, its reads deliver
    bytes and do not fail, and its address is a 32-bit number; the bus takes
    every packet whole; and the modem answers each packet, in whatever pieces,
    with six bytes that acknowledge it, at least once more than there are
    packets. Then the download succeeds, and a modem that carries out the
    packets ends up running at 0x400000 with every image whose file was opened
    at its address, byte for byte, wherever no later image (filled up to whole
    packets) has been written over it. An image whose file cannot be opened is
    skipped without a word: the download still succeeds. Not covered: a file
    that is shorter than its size in the table or whose read fails, for which
    the packet carries what the buffer held before (modem_boot.c:295). *)
Theorem images_arrive s reps :
  2 <= modem_images_count s <= zlen (download_image_info s) -> buffer_ok s -> Forall (image_ok file) (listed s) ->
  ready (spi_link s) reps -> (length (concat (packets_of file <$> listed s)) < length reps)%nat -> Forall (fun r => acked r = true) reps ->
  exists s' log, download_images file s = Ret DL_SUCCESS s' /\ sent (spi s') = sent (spi s) ++ log /\
    forall m, running (modem_packets m log) = Some 0x400000 /\
      forall k info c o, listed s !! k = Some info -> image_content file info = Some c -> 0 <= o < image_size info ->
        (forall j i, (k < j)%nat -> listed s !! j = Some i -> ~ covers i (address info + o)) ->
        memory (modem_packets m log) !! (address info + o) = c !! Z.to_nat o.
Proof.
  intros Hc Hb Hok Hr Hl Hg. destruct (download_images_run file s reps Hc Hb Hok Hr ltac:(lia)) as (s' & E & Hs & _).
  rewrite (exchange_good _ reps) in E, Hs by (done || lia). cbn [fst snd code] in E, Hs.
  eexists s', _. split; [exact E|]. split; [exact Hs|]. intros m. destruct (modem_images (listed s) Hok m) as [a Em].
  unfold modem_packets in *. rewrite foldl_app, Em. cbn [foldl]. unfold exec_packet. rewrite modem_exec by lia. split; [done|].
  intros k info c o Hk Hi Ho Hlater. by apply (load_images_byte (listed s) k).
Qed.

(** A refused packet ends the download with an error, after the packets up
    to that one; the request to run is sent all the same, so that the modem
    runs what it has got so far. *)
Theorem images_refused s good bad rest :
  2 <= modem_images_count s <= zlen (download_image_info s) -> buffer_ok s -> Forall (image_ok file) (listed s) ->
  let pkts := concat (packets_of file <$> listed s) in
  ready (spi_link s) (good ++ bad :: rest) -> Forall (fun r => acked r = true) good -> acked bad = false ->
  (length good < length pkts < length (good ++ bad :: rest))%nat ->
  exists s', download_images file s = Ret DL_FAILURE s' /\
    sent (spi s') = sent (spi s) ++ take (S (length good)) pkts ++ [exec_packet] /\
    forall m, running (modem_packets m (take (S (length good)) pkts ++ [exec_packet])) = Some 0x400000.
Proof.
  intros Hc Hb Hok pkts Hr Hg Hbad Hl. destruct (download_images_run file s _ Hc Hb Hok Hr) as (s' & E & Hs & _); [fold pkts; lia|].
  fold pkts in E, Hs. rewrite (exchange_refused pkts good bad rest Hg Hbad) in E, Hs by lia. cbn [fst snd code] in E, Hs.
  exists s'. split; [done|]. split; [done|]. intros m. unfold modem_packets. rewrite foldl_app. cbn [foldl]. unfold exec_packet. by rewrite modem_exec by lia.
Qed.
End loading.

(** ** A concrete download *)

(** One image of five bytes, read in two pieces, for 0x400; the modem's
    replies come in pieces, too. *)
Definition sample_file (path : list Z) : option (list rx_event) :=
  if decide (path = [47; 97]) then Some [RxData [1; 2; 3]; RxData [4; 5; 6]] else None.
Definition ack : list Z := [0; 0x80; 0; 0; 0; 0].
Definition nack : list Z := [0; 0x82; 0; 0; 0; 0].
Definition sample_boot (reps : list (list Z)) : boot :=
  Boot (Link [] [] [] []) (Link [] (replicate (length reps) 70000) [] (RxErr (-1) :: (RxData <$> reps))) (replicate (Z.to_nat (HS_PACKET_SIZE + 64)) 0)
    [Image_info None 0 0; Image_info (Some [47; 97]) 5 0x400] 2 [] 0 0 [] [].

Lemma sample_ready n : ready (spi_link (sample_boot (replicate n ack))) (replicate n ack).
Proof.
  constructor.
  - cbn [spi_link sample_boot rx spi uart]. unfold stream. cbn [flat_map payload app]. induction n as [|n IH]; [done|]. cbn [replicate fmap list_fmap flat_map payload concat]. by rewrite IH.
  - apply Forall_replicate. split; [done|by_bytes].
  - cbn. by rewrite !length_replicate.
  - cbn [spi_link sample_boot tx spi]. apply Forall_replicate. unfold HS_PACKET_SIZE. lia.
Qed.

Lemma sample_image_ok reps : Forall (image_ok sample_file) (listed (sample_boot reps)).
Proof.
  apply Forall_singleton. unfold image_ok. intros f [= <-]. split; [|by repeat split].
  apply Forall_cons. split; [by eexists _, _|]. apply Forall_singleton. by eexists _, _.
Qed.

Lemma sample_buffer_ok reps : buffer_ok (sample_boot reps).
Proof. unfold buffer_ok. cbn [test_buffer sample_boot]. by rewrite zlen_replicate. Qed.

Lemma images_arrive_witness : exists s' log, download_images sample_file (sample_boot (replicate 4 ack)) = Ret DL_SUCCESS s' /\
  sent (spi s') = log /\ memory (modem_packets (Modem ∅ 0 None) log) !! 0x404 = Some 5.
Proof.
  destruct (images_arrive sample_file (sample_boot (replicate 4 ack)) (replicate 4 ack)) as (s' & log & E & Hs & Hm).
  - split; vm_compute; discriminate.
  - apply sample_buffer_ok.
  - apply sample_image_ok.
  - apply sample_ready.
  - vm_compute. lia.
  - apply Forall_replicate. reflexivity.
  - exists s', log. split; [exact E|]. split; [exact Hs|]. destruct (Hm (Modem ∅ 0 None)) as [_ H].
    apply (H 0%nat (Image_info (Some [47; 97]) 5 0x400) [1; 2; 3; 4; 5; 6] 4); [reflexivity|reflexivity|cbn; lia|].
    intros [|j] i Hj Hi; [lia|discriminate Hi].
Defined.

Lemma images_refused_witness : exists s', download_images sample_file (sample_boot [ack; nack; ack; ack]) = Ret DL_FAILURE s' /\
  length (sent (spi s')) = 3%nat.
Proof.
  destruct (images_refused sample_file (sample_boot [ack; nack; ack; ack]) [ack] nack [ack; ack]) as (s' & E & Hs & _).
  - split; vm_compute; discriminate.
  - apply sample_buffer_ok.
  - apply sample_image_ok.
  - constructor; [reflexivity| |vm_compute; lia|].
    + repeat apply Forall_cons_2; try (split; [done|by_bytes]). exact (Forall_nil_2 _).
    + cbn [spi_link sample_boot tx spi length]. apply Forall_replicate. unfold HS_PACKET_SIZE. lia.
  - apply Forall_singleton. reflexivity.
  - reflexivity.
  - split; vm_compute; lia.
  - exists s'. split; [exact E|]. rewrite Hs. reflexivity.
Defined.
