(* ===== verification/ModemUart.v ===== *)
(** * The first loader and the handshake

    The theorems on the part of ModemBoot.v that uses the UART: what
    [download_fdl] sends and when it cannot succeed, and the handshake of
    [try_to_connect_modem]. *)
From stdpp Require Import base list.
From Stdlib Require Import ZArith Lia.
From S2P Require Import Prelude Crc Packet ModemBoot ModemBootProofs.

(** ** Requests on the UART *)

(** A good reply: a frame of type ACK or 0 without escapes in its type. *)
Definition good_reply (r : list Z) : Prop :=
  exists d0 d1 x y c0 c1, r = [0x7E; d0; d1; x; y; c0; c1; 0x7E] /\ bytes [d0; d1] /\ (0x7E ∉ [d0; d1; x; y; c0; c1]) /\
    d0 <> 0x7D /\ d1 <> 0x7D /\ ack_or_0 (256 * d0 + d1) = true.

(** The UART takes whole frames, and good replies arrive. *)
Record uart_ready (l : link) (reps : list (list Z)) : Prop := {
  ur_stream : stream (rx l) = concat reps;
  ur_reply : Forall good_reply reps;
  ur_tx : (length reps <= length (tx l))%nat;
  ur_whole : Forall (fun r => send_buffer_size <= r) (tx l);
  ur_buffer : zlen (send_buffer l) = send_buffer_size
}.

(** [m] sends the packet [p], framed, and succeeds. *)
Definition uart_requests {A} (m : M link A) (p : list Z) (a : A) : Prop :=
  forall l rep reps, uart_ready l (rep :: reps) ->
  exists l', m l = Ret a l' /\ sent l' = sent l ++ [frame p] /\ uart_ready l' reps.

Lemma uart_request {A} took pre packet rest raw (k : Z -> A) :
  counts took -> length pre = 4%nat -> bytes packet -> zlen packet <= 1000 -> (8 <= length raw)%nat ->
  uart_requests (retval <- send_uart (pre ++ packet ++ rest) (zlen packet) ;; r <- finish took ack_or_0 raw 0 retval ;; ret (k r)) packet (k 0).
Proof.
  intros Ht Hpre Hp Hz Hraw l rep reps [Hst Hrep Htx Hw Hsb]. apply Forall_cons in Hrep as [Hr Hrep].
  destruct l as [sb [|r txs] log evs]; cbn [tx length rx send_buffer] in *; [lia|]. apply Forall_cons in Hw as [Hr0 Hw].
  pose proof (frame_zlen packet) as Hf. unfold send_buffer_size in *.
  unfold bind at 1. rewrite send_uart_ok by (done || lia).
  destruct Hr as (d0 & d1 & x & y & c0 & c1 & -> & Hb & Hn & H0 & H1 & Hack).
  destruct (finish_uart took ack_or_0 (take 8 raw) (drop 8 raw) packet (drop (length (frame packet)) sb) txs (log ++ [frame packet]) evs (zlen (frame packet)))
    as (l' & _ & _ & Hst' & _ & Hyes); [done|rewrite length_take; lia|done|lia| | | |].
  { rewrite length_app, length_drop. unfold zlen in *. lia. }
  { unfold zlen in *. rewrite length_app, length_drop. lia. }
  { rewrite Hst. cbn. lia. }
  destruct (Hyes d0 d1 x y c0 c1) as (sb' & Hsb' & E); [by rewrite Hst|done..|]. rewrite take_drop in E. unfold bind. rewrite E, Hack.
  eexists. split; [reflexivity|]. split; [done|]. constructor; cbn [rx tx send_buffer]; [by rewrite Hst', Hst|done|lia|done|].
  unfold zlen, send_buffer_size in *. rewrite Hsb', length_app, length_drop. lia.
Qed.

Lemma uart_request_id took pre packet rest raw :
  counts took -> length pre = 4%nat -> bytes packet -> zlen packet <= 1000 -> (8 <= length raw)%nat ->
  uart_requests (retval <- send_uart (pre ++ packet ++ rest) (zlen packet) ;; finish took ack_or_0 raw 0 retval) packet 0.
Proof.
  intros Ht Hpre Hp Hz Hraw l rep reps Hl.
  destruct (uart_request took pre packet rest raw (fun r => r) Ht Hpre Hp Hz Hraw l rep reps Hl) as (l' & H & Hl').
  exists l'. split; [|done]. rewrite <- H. unfold bind, ret. destruct (send_uart _ _ l); [|done..]. by destruct (finish _ _ _ _ _ _).
Qed.

Lemma uart_packet_bytes code data : bytes data -> bytes (uart_packet code data).
Proof. intros H. unfold uart_packet. repeat (apply bytes_app; split); auto with cint. Qed.
Lemma uart_packet_zlen code data : zlen (uart_packet code data) = zlen data + 6.
Proof. unfold uart_packet. len_lia. Qed.

(** The start, end and exec requests build their packet in a buffer of 32
    bytes. *)
Lemma start_uart size addr : 0 <= size < 2 ^ 31 -> 0 <= addr < 2 ^ 32 ->
  uart_requests (send_start_message size addr BSL_UART_PACKET) (uart_packet 1 (be32 addr ++ be32 size)) 0.
Proof.
  intros Hs Ha l rep reps Hl. pose proof (start_packet size addr Hs Ha) as H. set (p := uart_packet 1 (be32 addr ++ be32 size)) in *.
  assert (Hp : zlen p = 14) by done.
  assert (E : send_start_message size addr BSL_UART_PACKET l
    = (retval <- send_uart ([0; 0; 0; 0] ++ p ++ replicate 14 0) (zlen p) ;; finish gt0 ack_or_0 ([0; 0; 0; 0] ++ p ++ replicate 14 0) 0 retval) l).
  { unfold send_start_message, bind at 1 2 3, lift. destruct (st32 raw_buffer_0 8 _) as [b|]; [|done]. rewrite obind_Some in H.
    destruct (st32 b 12 _) as [b'|]; [|done]. rewrite obind_Some in H. unfold BSL_UART_PACKET. by rewrite H, Hp. }
  rewrite E. apply (uart_request_id gt0 [0; 0; 0; 0] p (replicate 14 0) ([0; 0; 0; 0] ++ p ++ replicate 14 0)) with (rep := rep); [apply gt0_counts|done| |lia|cbn; lia|exact Hl].
  apply uart_packet_bytes, bytes_app. split; auto with cint.
Qed.

Lemma exec_uart addr : 0 <= addr < 2 ^ 32 -> uart_requests (send_exec_message addr BSL_UART_PACKET) (uart_packet 4 (be32 addr)) 0.
Proof.
  intros Ha l rep reps Hl. set (p := uart_packet 4 (be32 addr)). assert (Hp : zlen p = 10) by done.
  destruct (setup_packet_uart BSL_CMD_EXEC_DATA [0; 0; 0; 0] 0 0 0 0 (be32 addr) 0 0 (replicate 18 0)) as [Hset _]; [by right; right; right|done|auto with cint|by_bytes|done|].
  assert (E : send_exec_message addr BSL_UART_PACKET l
    = (retval <- send_uart ([0; 0; 0; 0] ++ p ++ replicate 18 0) (zlen p) ;; finish ge0 ack_or_0 ([0; 0; 0; 0] ++ p ++ replicate 18 0) 0 retval) l).
  { unfold send_exec_message. rewrite u32_small by lia. unfold st32. rewrite !le32_cpu2be32 by lia.
    change raw_buffer_0 with (replicate 8 0 ++ replicate 4 0 ++ replicate 20 0).
    unfold bind at 1, lift at 1. rewrite store_segment by done.
    change (replicate 8 0 ++ be32 addr ++ replicate 20 0) with ([0; 0; 0; 0] ++ [0; 0; 0; 0] ++ be32 addr ++ [0; 0] ++ replicate 18 0).
    change (setup_packet BSL_CMD_EXEC_DATA ?b 8 4 ?f) with (setup_packet BSL_CMD_EXEC_DATA b 8 (zlen (be32 addr)) f).
    unfold bind at 1, lift at 1. by rewrite Hset. }
  rewrite E. apply (uart_request_id ge0 [0; 0; 0; 0] p (replicate 18 0) ([0; 0; 0; 0] ++ p ++ replicate 18 0)) with (rep := rep); [apply ge0_counts|done| |lia|cbn; lia|exact Hl].
  apply uart_packet_bytes. auto with cint.
Qed.

Lemma end_uart : uart_requests (send_end_message BSL_UART_PACKET) (uart_packet 3 []) 0.
Proof.
  intros l rep reps Hl. set (p := uart_packet 3 []).
  assert (E : send_end_message BSL_UART_PACKET l
    = (retval <- send_uart ([0; 0; 0; 0] ++ p ++ replicate 22 0) (zlen p) ;; finish gt0 ack_or_0 ([0; 0; 0; 0] ++ p ++ replicate 22 0) 0 retval) l).
  { unfold send_end_message. assert (Hset : setup_packet BSL_CMD_END_DATA raw_buffer_0 8 0 BSL_UART_PACKET = Some ([0; 0; 0; 0] ++ p ++ replicate 22 0, zlen p))
      by (vm_compute; reflexivity). unfold bind at 1, lift at 1. by rewrite Hset. }
  rewrite E. apply (uart_request_id gt0 [0; 0; 0; 0] p (replicate 22 0) ([0; 0; 0; 0] ++ p ++ replicate 22 0)) with (rep := rep); [apply gt0_counts|done|by_bytes|done|cbn; lia|exact Hl].
Qed.

Lemma data_uart data rest : bytes data -> zlen data = FDL_PACKET_SIZE ->
  uart_requests (send_data_message (data ++ rest) FDL_PACKET_SIZE BSL_UART_PACKET) (uart_packet 2 data) (data ++ rest, 0).
Proof.
  intros Hd Hz l rep reps Hl. assert (HF : FDL_PACKET_SIZE = 256) by done. set (p := uart_packet 2 data).
  assert (Hp : zlen p = 262) by (unfold p; rewrite uart_packet_zlen; lia).
  destruct (setup_packet_uart BSL_CMD_MIDST_DATA [0; 0; 0; 0] 0 0 0 0 data 0 0 (replicate 34 0)) as [Hset _]; [by right; left|done|done|by_bytes|rewrite Hz; done|].
  assert (E : send_data_message (data ++ rest) FDL_PACKET_SIZE BSL_UART_PACKET l
    = (retval <- send_uart ([0; 0; 0; 0] ++ p ++ replicate 34 0) (zlen p) ;; r <- finish gt0 ack_or_0 raw_buffer_0 0 retval ;; ret (data ++ rest, r)) l).
  { unfold send_data_message, BSL_UART_PACKET. change (0 =? 0) with true. cbn iota.
    rewrite (proj2 (Z.leb_le 0 FDL_PACKET_SIZE)), (proj2 (Z.leb_le _ (zlen (data ++ rest)))) by (rewrite ?zlen_app; pose proof (zlen_nonneg rest); lia).
    unfold bind at 1, lift at 1. cbn [andb].
    replace (take (Z.to_nat FDL_PACKET_SIZE) (data ++ rest)) with data by (symmetry; apply take_app_length'; unfold zlen in Hz; lia).
    change (replicate 300 0) with (replicate 8 0 ++ replicate 256 0 ++ replicate 36 0).
    unfold bind at 1, lift at 1. rewrite store_segment; [|done|rewrite length_replicate; unfold zlen in Hz; lia].
    change (replicate 8 0 ++ data ++ replicate 36 0) with ([0; 0; 0; 0] ++ [0; 0; 0; 0] ++ data ++ [0; 0] ++ replicate 34 0).
    unfold bind at 1, lift at 1. rewrite <- Hz. unfold BSL_UART_PACKET in Hset. rewrite Hset. reflexivity. }
  rewrite E. apply (uart_request gt0 [0; 0; 0; 0] p (replicate 34 0) raw_buffer_0 (fun r => (data ++ rest, r))) with (rep := rep);
    [apply gt0_counts|done|by apply uart_packet_bytes|lia|cbn; lia|exact Hl].
Qed.

(** ** The first loader *)

Fixpoint pieces (n : nat) (l : list Z) : list (list Z) :=
  match n with O => [] | S n => take (Z.to_nat FDL_PACKET_SIZE) l :: pieces n (drop (Z.to_nat FDL_PACKET_SIZE) l) end.
Definition loader_packets (addr size : Z) (content : list Z) : list (list Z) :=
  uart_packet 1 (be32 addr ++ be32 size) :: (uart_packet 2 <$> pieces (Z.to_nat (size / FDL_PACKET_SIZE)) content) ++
  [uart_packet 3 []; uart_packet 4 (be32 addr)].

(** [s'] comes after [s]: [n] replies were used and [ps] sent. *)
Definition uart_step (s s' : boot) (ps : list (list Z)) (reps' : list (list Z)) : Prop :=
  sent (uart s') = sent (uart s) ++ (frame <$> ps) /\ uart_ready (uart s') reps' /\ download_image_info s' = download_image_info s.

Lemma on_uart_request {A} (m : M link A) p a s rep reps : uart_requests m p a -> uart_ready (uart s) (rep :: reps) ->
  exists s', on_uart m s = Ret a s' /\ uart_step s s' [p] reps.
Proof.
  intros Hm Hr. destruct (Hm _ _ _ Hr) as (l' & E & Hs & Hr'). unfold on_uart, zoom. rewrite E.
  exists (set_uart l' s). done.
Qed.

Lemma load_loop_ok fuel : forall f buffer p size (s : boot), good_file f -> (length f < fuel)%nat -> 0 < size < 4294967296 -> size <= zlen (stream f) ->
  0 <= p -> p + size <= zlen buffer ->
  load_loop fuel f buffer p size s = Ret (Prelude.put buffer p (take (Z.to_nat size) (stream f))) s.
Proof.
  induction fuel as [|fuel IH]; intros f buffer p size s Hf Hfuel Hn Hs Hp Hb; [lia|]. cbn [load_loop].
  destruct f as [|e f]; [change (zlen (stream [])) with 0 in Hs; lia|].
  apply Forall_cons in Hf as [(c & d0 & ->) Hf]. set (d := c :: d0) in *. cbn [length] in Hfuel.
  assert (Hd : 0 < zlen d) by (unfold d, zlen; cbn; lia). cbn [fread]. rewrite u32_small by lia. set (m := Z.to_nat size) in *.
  change (stream (RxData d :: f)) with (d ++ stream f) in *. rewrite zlen_app in Hs.
  assert (Hz : zlen (take m d) = Z.min size (zlen d)) by (unfold zlen, m; rewrite length_take; lia).
  unfold bind, lift. rewrite store_ok by lia. rewrite Hz, (proj2 (Z.gtb_lt _ 0)) by lia. destruct (Z.gtb_spec (size - Z.min size (zlen d)) 0).
  - assert (Hlen : (length d < m)%nat) by (unfold zlen, m in *; lia). rewrite (proj2 (Nat.leb_le _ _)) by lia.
    rewrite (take_ge d) by lia. rewrite Z.min_r by lia. rewrite IH by (try done; rewrite ?zlen_put by lia; lia).
    replace (Z.to_nat (size - zlen d)) with (m - length d)%nat by (unfold zlen, m; lia).
    rewrite put_put, (take_app_ge d) by (try lia; unfold zlen, m in *; rewrite length_take; lia). reflexivity.
  - assert (Hlen : (m <= length d)%nat) by (unfold zlen, m in *; lia). by rewrite take_app_le by lia.
Qed.

Lemma uart_step_app s1 s2 s3 ps qs r1 r2 : uart_step s1 s2 ps r1 -> uart_step s2 s3 qs r2 -> uart_step s1 s3 (ps ++ qs) r2.
Proof.
  intros (H1 & H2 & H3) (H4 & H5 & H6). split; [by rewrite H4, H1, fmap_app, app_assoc|]. split; [done|congruence].
Qed.

Lemma fdl_loop_ok n : forall fuel buffer size s reps, size = Z.of_nat n * FDL_PACKET_SIZE -> (n < fuel)%nat -> size <= zlen buffer -> bytes (take (Z.to_nat size) buffer) ->
  uart_ready (uart s) reps -> (n <= length reps)%nat ->
  exists s', fdl_loop fuel buffer size s = Ret DL_SUCCESS s' /\ uart_step s s' (uart_packet 2 <$> pieces n buffer) (drop n reps).
Proof.
  assert (HF : FDL_PACKET_SIZE = 256) by done.
  induction n as [|n IH]; intros fuel buffer size s reps Hsize Hfuel Hb Hbytes Hr Hl; (destruct fuel as [|fuel]; [lia|]); cbn [fdl_loop].
  - rewrite (proj2 (Z.eqb_eq _ _)) by lia. exists s. split; [done|]. split; [by rewrite app_nil_r|]. by rewrite drop_0.
  - rewrite (proj2 (Z.eqb_neq _ _)) by lia. destruct reps as [|rep reps]; [cbn in Hl; lia|].
    set (d := take (Z.to_nat FDL_PACKET_SIZE) buffer). set (k := drop (Z.to_nat FDL_PACKET_SIZE) buffer).
    assert (Hd : zlen d = FDL_PACKET_SIZE) by (unfold d, zlen in *; rewrite length_take; lia).
    assert (Hdb : bytes d).
    { unfold d. apply (Forall_take byte (Z.to_nat FDL_PACKET_SIZE)) in Hbytes. rewrite take_take in Hbytes. by replace (Nat.min _ _) with (Z.to_nat FDL_PACKET_SIZE) in Hbytes by lia. }
    destruct (on_uart_request _ _ _ s rep reps (data_uart d k Hdb Hd) Hr) as (s1 & E & Hs1). unfold d, k in E. rewrite take_drop in E.
    unfold bind. rewrite E. cbn [snd Z.eqb DL_FAILURE]. destruct Hs1 as (Hsent & Hr1 & Hi).
    destruct (IH fuel k (size - FDL_PACKET_SIZE) s1 reps) as (s2 & E2 & Hs2); [lia|lia| | |done|cbn in Hl; lia|].
    { unfold k, zlen in *. rewrite length_drop. lia. }
    { unfold k. replace (take _ (drop _ buffer)) with (drop (Z.to_nat FDL_PACKET_SIZE) (take (Z.to_nat size) buffer)); [by apply Forall_drop|].
      rewrite skipn_firstn_comm. f_equal. lia. }
    exists s2. split; [exact E2|]. cbn [pieces fmap list_fmap drop]. fold d k. apply (uart_step_app s s1 s2 [_] _ reps); [done|exact Hs2].
Qed.

Lemma pieces_app n : forall l r, Z.of_nat n * FDL_PACKET_SIZE <= zlen l -> pieces n (l ++ r) = pieces n l.
Proof.
  assert (HF : FDL_PACKET_SIZE = 256) by done.
  induction n as [|n IH]; intros l r Hl; cbn [pieces]; [done|]. rewrite HF in *. unfold zlen in Hl.
  rewrite take_app_le, drop_app_le by lia. f_equal. apply IH. unfold zlen. rewrite length_drop. lia.
Qed.

(** With any other size the loop can only end with a failure. *)
Lemma fdl_loop_failure fuel : forall buffer size s r s', size mod FDL_PACKET_SIZE <> 0 -> fdl_loop fuel buffer size s = Ret r s' -> r = DL_FAILURE.
Proof.
  induction fuel as [|fuel IH]; intros buffer size s r s' Hm; cbn [fdl_loop]; [done|].
  destruct (Z.eqb_spec size 0) as [->|_]; [by rewrite Z.mod_0_l in Hm|].
  unfold bind. destruct (on_uart _ s) as [q s1|s1|flt]; [|done..]. destruct (q.2 =? DL_FAILURE); [by intros [= <- _]|].
  apply IH. unfold FDL_PACKET_SIZE in *. Z.div_mod_to_equations. lia.
Qed.

Section loader.
Context (file : list Z -> option (list rx_event)) (malloc : Z -> option (list Z)).

(** C8: The first loader arrives. Assumed: its file opens, its reads deliver
    bytes and do not fail, and it has at least as many as the table says (with
    fewer the loop that reads it spins for ever, modem_boot.c:353: see
    modem_boot_ends); this size is positive, below 2^31 - 4 and a multiple of
    256 (otherwise the sending loop passes the end, modem_boot.c:387), the
    address a 32-bit number; malloc gives a block of 4 bytes more; the UART
    takes every frame in one write (after a partial one the same bytes go out
    again, packet.c:241); and the modem answers each frame with a good reply,
    whatever the pieces it arrives in. Then the frames of the loader's packets
    - start, data in pieces of 256 bytes, end, execute - go over the UART in
    this order, and the download succeeds. *)
Theorem loader_arrives s info others f buffer reps :
  download_image_info s = info :: others -> open_file file (image_path info) = Some f ->
  good_file f -> bytes (stream f) -> 0 < image_size info <= zlen (stream f) -> image_size info < 2 ^ 31 - 4 ->
  image_size info mod FDL_PACKET_SIZE = 0 -> 0 <= address info < 2 ^ 32 ->
  malloc (image_size info + 4) = Some buffer -> zlen buffer = image_size info + 4 ->
  uart_ready (uart s) reps -> image_size info / FDL_PACKET_SIZE + 3 <= zlen reps ->
  exists s', download_fdl file malloc s = Ret DL_SUCCESS s' /\
    sent (uart s') = sent (uart s) ++ (frame <$> loader_packets (address info) (image_size info) (take (Z.to_nat (image_size info)) (stream f))).
Proof.
  intros Hinfo Hopen Hf Hbytes Hsize Hmax Hmod Haddr Hmalloc Hbuf Hr Hreps. assert (HF : FDL_PACKET_SIZE = 256) by done.
  set (size := image_size info) in *. set (content := take (Z.to_nat size) (stream f)).
  assert (Hcl : zlen content = size) by (unfold content, zlen in *; rewrite length_take; lia).
  set (b := content ++ drop (Z.to_nat size) buffer).
  assert (Hload : load_fdl2memory file malloc s = Ret (Some (b, size)) s).
  { unfold load_fdl2memory, bind at 1 2, get, lift. rewrite Hinfo. cbn [lookup list_lookup]. rewrite Hopen. fold size. rewrite Hmalloc.
    unfold bind. rewrite (load_loop_ok (S (length f)) f buffer 0 size s) by (done || lia). fold content. unfold ret, Prelude.put. cbn [Z.to_nat take app].
    by rewrite Hcl. }
  set (n := Z.to_nat (size / FDL_PACKET_SIZE)). assert (Hn : size = Z.of_nat n * FDL_PACKET_SIZE) by (unfold n; rewrite HF in *; Z.div_mod_to_equations; lia).
  assert (Hb : zlen b = size + 4) by (unfold b; rewrite zlen_app, Hcl; unfold zlen in *; rewrite length_drop; lia).
  destruct reps as [|r1 reps]; [change (zlen (@nil (list Z))) with 0 in Hreps; rewrite HF in *; Z.div_mod_to_equations; lia|].
  rewrite zlen_cons in Hreps.
  destruct (on_uart_request _ _ _ s r1 reps (start_uart size (address info) ltac:(lia) Haddr) Hr) as (s1 & E1 & Hs1).
  destruct Hs1 as (Hsent1 & Hr1 & Hi1).
  destruct (fdl_loop_ok n (S (length b)) b size s1 reps Hn) as (s2 & E2 & Hs2); [unfold zlen in *; lia|lia| |done|unfold zlen in *; unfold n; lia|].
  { unfold b. rewrite take_app_length' by (unfold zlen in Hcl; lia). by apply Forall_take. }
  destruct Hs2 as (Hsent2 & Hr2 & Hi2).
  assert (Hlen2 : (2 <= length (drop n reps))%nat) by (rewrite length_drop; unfold zlen in *; unfold n; lia).
  destruct (drop n reps) as [|r2 [|r3 reps'] ] eqn:Ed; [cbn in Hlen2; lia..|].
  destruct (on_uart_request _ _ _ s2 r2 (r3 :: reps') end_uart Hr2) as (s3 & E3 & Hsent3 & Hr3 & Hi3).
  destruct (on_uart_request _ _ _ s3 r3 reps' (exec_uart (address info) Haddr) Hr3) as (s4 & E4 & Hsent4 & _).
  exists s4. unfold download_fdl. unfold bind at 1. rewrite Hload. unfold bind at 1 2, get, lift. rewrite Hinfo. cbn [lookup list_lookup].
  unfold bind. rewrite E1. cbn [Z.eqb DL_FAILURE DL_SUCCESS]. rewrite E2. cbn [Z.eqb DL_FAILURE DL_SUCCESS]. rewrite E3. cbn [Z.eqb DL_FAILURE].
  rewrite E4. split; [done|]. rewrite Hsent4, Hsent3, Hsent2, Hsent1. unfold loader_packets. fold n.
  assert (Ep : pieces n b = pieces n content) by (apply pieces_app; lia). rewrite Ep. cbn [fmap list_fmap]. rewrite fmap_app.
  by rewrite <- !app_assoc.
Qed.

(** A first loader of any other size cannot be downloaded: the loop runs
    past the end of what was read and never comes out with success. *)
Theorem loader_size_multiple s info others s' :
  download_image_info s = info :: others -> image_size info mod FDL_PACKET_SIZE <> 0 ->
  download_fdl file malloc s <> Ret DL_SUCCESS s'.
Proof.
  intros Hinfo Hm. unfold download_fdl, bind at 1. unfold load_fdl2memory, bind at 1 2, get, lift. rewrite Hinfo. cbn [lookup list_lookup].
  destruct (open_file file (image_path info)) as [f|]; [|done]. destruct (malloc _) as [buffer|]; [|done].
  unfold bind at 1. destruct (load_loop _ _ _ _ _ s) as [b s1|s1|flt]; [|done..]. unfold ret.
  unfold bind at 1 2. destruct (download_image_info s1 !! 0%nat) as [i|]; [|done].
  unfold bind. destruct (on_uart (send_start_message _ _ _) s1) as [r s2|s2|flt]; [|done..]. destruct (Z.eqb_spec r DL_FAILURE) as [->|_]; [done|].
  destruct (fdl_loop _ _ _ s2) as [r3 s3|s3|flt] eqn:El; [|done..].
  apply fdl_loop_failure in El as ->; [|done]. done.
Qed.

End loader.

Lemma loader_size_multiple_witness :
  let s := Boot (Link [] [] [] []) (Link [] [] [] []) [] [Image_info (Some [47]) 300 0x40000000] 1 [] 0 0 [] [] in
  300 mod FDL_PACKET_SIZE <> 0 /\ forall s', download_fdl (fun _ => Some [RxData (replicate 300 1)]) (fun n => Some (replicate (Z.to_nat n) 0)) s <> Ret DL_SUCCESS s'.
Proof.
  split; [by vm_compute|]. intros s'.
  apply (loader_size_multiple _ _ _ (Image_info (Some [47]) 300 0x40000000) []); [reflexivity|by vm_compute].
Defined.

Definition ack_frame : list Z := [0x7E; 0; 0x80; 0; 0; 1; 2; 0x7E].

Lemma loader_arrives_witness :
  let s := Boot (Link (replicate 4000 0) (replicate 4 5000) [] [RxErr (-1); RxData (concat (replicate 4 ack_frame))]) (Link [] [] [] []) []
    [Image_info (Some [47]) 256 0x40000000] 1 [] 0 0 [] [] in
  exists s', download_fdl (fun _ => Some [RxData (replicate 300 1)]) (fun n => Some (replicate (Z.to_nat n) 0)) s = Ret DL_SUCCESS s' /\
    length (sent (uart s')) = 4%nat.
Proof.
  intros s. destruct (loader_arrives (fun _ => Some [RxData (replicate 300 1)]) (fun n => Some (replicate (Z.to_nat n) 0)) s
    (Image_info (Some [47]) 256 0x40000000) [] [RxData (replicate 300 1)] (replicate 260 0) (replicate 4 ack_frame)) as (s' & E & Hs).
  - reflexivity.
  - reflexivity.
  - apply Forall_singleton. by eexists _, _.
  - by_bytes.
  - split; vm_compute; [reflexivity|discriminate].
  - vm_compute. reflexivity.
  - reflexivity.
  - split; vm_compute; [discriminate|reflexivity].
  - reflexivity.
  - reflexivity.
  - constructor.
    + reflexivity.
    + apply Forall_replicate. exists 0, 0x80, 0, 0, 1, 2. split; [reflexivity|]. split; [by_bytes|]. split; [|split; [done|done] ].
      rewrite !not_elem_of_cons. repeat split; try done. apply not_elem_of_nil.
    + vm_compute. lia.
    + cbn [tx uart s]. apply Forall_replicate. vm_compute. discriminate.
    + reflexivity.
  - vm_compute. discriminate.
  - exists s'. split; [exact E|]. rewrite Hs. reflexivity.
Defined.
