(* ===== verification/ModemHandshake.v ===== *)
(** * The handshake, and the end of the boot

    How [try_to_connect_modem] reads the modem's version string, and that the
    fuel of ModemBoot.v is enough: a boot ends, waits for a device, or goes
    wrong, but does not run out of fuel. *)
From stdpp Require Import base list.
From Stdlib Require Import ZArith Lia.
From S2P Require Import Prelude Packet ModemBoot ModemBootProofs.

(** ** Characters from the UART *)

(** Reading one character of what has arrived. *)
Lemma read_char_ok buf data s c rest : good_file (rx (uart s)) -> stream (rx (uart s)) = c :: rest -> 0 <= data < zlen buf ->
  exists evs, read_char buf data s = Ret (<[Z.to_nat data := c]> buf, 1) (set_uart (set_rx (uart s) evs) s) /\
    good_file evs /\ stream evs = rest.
Proof.
  intros Hf Hst Hd. unfold read_char, on_uart, zoom, read. destruct (rx (uart s)) as [|e evs]; [discriminate Hst|].
  apply Forall_cons in Hf as [(x & d & ->) Hf]. injection Hst as -> Hst. change (Z.to_nat 1) with 1%nat. cbn [take].
  cbn [store]. rewrite aset_Some by lia. rewrite obind_Some.
  rewrite take_0. cbn [store length]. eexists. split; [reflexivity|]. destruct d as [|y d]; cbn [Nat.leb drop length].
  - done.
  - split; [|done]. apply Forall_cons. split; [by eexists _, _|done].
Qed.

Lemma read_char_overflow buf data s c rest : good_file (rx (uart s)) -> stream (rx (uart s)) = c :: rest -> zlen buf <= data ->
  read_char buf data s = Bad OutOfBounds.
Proof.
  intros Hf Hst Hd. unfold read_char, on_uart, zoom, read. destruct (rx (uart s)) as [|e evs]; [discriminate Hst|].
  apply Forall_cons in Hf as [(x & d & ->) Hf]. change (Z.to_nat 1) with 1%nat. cbn [take store]. unfold aset, zlen in *.
  by rewrite (proj2 (Z.ltb_ge data (Z.of_nat (length buf)))), andb_false_r by lia.
Qed.

Lemma aget_inserted (buf : list Z) i c : 0 <= i < zlen buf -> aget (<[Z.to_nat i := c]> buf) i = Some c.
Proof. intros H. unfold aget. rewrite (proj2 (Z.leb_le _ _)) by lia. apply list_lookup_insert_eq. unfold zlen in H. lia. Qed.

(** The version string up to the flag, when there is room for both; otherwise
    the store behind the buffer. *)
Lemma read_version_fits v : forall fuel buf data s rest, good_file (rx (uart s)) -> stream (rx (uart s)) = v ++ 0x7E :: rest -> 0x7E ∉ v ->
  0 <= data -> data + zlen v < zlen buf -> (length v < fuel)%nat ->
  exists buf' s', read_version fuel buf data 0 s = Ret (buf', 1) s'.
Proof.
  induction v as [|c v IH]; intros fuel buf data s rest Hf Hst Hv Hd Hl Hfuel; (destruct fuel as [|fuel]; [cbn in Hfuel; lia|]); cbn [read_version app] in *.
  - change (zlen (@nil Z)) with 0 in Hl. destruct (read_char_ok buf data s 0x7E rest Hf Hst ltac:(lia)) as (evs & E & _). unfold bind, lift. rewrite E. cbn [fst snd].
    rewrite aget_inserted by lia. by eexists _, _.
  - rewrite zlen_cons in Hl. pose proof (zlen_nonneg v). destruct (read_char_ok buf data s c _ Hf Hst ltac:(lia)) as (evs & E & Hf' & Hst').
    apply not_elem_of_cons in Hv as [Hc Hv]. unfold bind, lift. rewrite E. cbn [fst snd Z.eqb Pos.eqb]. rewrite aget_inserted by lia.
    rewrite (proj2 (Z.eqb_neq c 0x7E)) by congruence. change (0 <? UART_TIMEOUT) with true. cbn iota.
    apply (IH _ _ _ _ rest); [done|done|done|lia| |cbn in Hfuel; lia]. unfold zlen in *. rewrite length_insert. lia.
Qed.

Lemma read_version_overflows v : forall fuel buf data s, good_file (rx (uart s)) -> stream (rx (uart s)) = v -> 
  (exists p c rest, v = p ++ c :: rest /\ (0x7E ∉ p) /\ data + zlen p = zlen buf) -> 0 <= data -> (length v < fuel)%nat ->
  read_version fuel buf data 0 s = Bad OutOfBounds.
Proof.
  induction v as [|c v IH]; intros fuel buf data s Hf Hst (p & x & rest & E & Hp & Hl) Hd Hfuel; [by destruct p|].
  destruct fuel as [|fuel]; [lia|]. cbn [read_version]. destruct p as [|c' p]; cbn [app] in E; injection E as -> Ev.
  - change (zlen (@nil Z)) with 0 in Hl. unfold bind. by rewrite (read_char_overflow _ _ _ _ _ Hf Hst) by lia.
  - rewrite zlen_cons in Hl. pose proof (zlen_nonneg p). destruct (read_char_ok buf data s c' v Hf Hst ltac:(lia)) as (evs & E & Hf' & Hst').
    apply not_elem_of_cons in Hp as [Hc Hp]. unfold bind, lift. rewrite E. cbn [fst snd Z.eqb Pos.eqb]. rewrite aget_inserted by lia.
    rewrite (proj2 (Z.eqb_neq c' 0x7E)) by congruence. change (0 <? UART_TIMEOUT) with true. cbn iota.
    apply IH; [done|done| |lia|cbn in Hfuel; lia]. exists p, x, rest. split; [done|]. split; [done|]. unfold zlen in *. rewrite length_insert. lia.
Qed.

(** ** The handshake *)

Lemma write_hand_shake_ok s r txs n : tx (uart s) = r :: txs -> 0 <= n <= 4 ->
  exists log, write_hand_shake n s = Ret tt (set_uart (Link (send_buffer (uart s)) txs log (rx (uart s))) s).
Proof.
  intros E Hn. unfold write_hand_shake, bind, on_uart, zoom, write. change (zlen hand_shake) with 4.
  rewrite (proj2 (Z.ltb_ge 4 n)), E by lia. by eexists.
Qed.

(** The character that starts the version string, and the string. *)
Lemma connect_char_version s v rest : boot_status s <> 0 -> good_file (rx (uart s)) -> stream (rx (uart s)) = 0x7E :: v ++ 0x7E :: rest ->
  0x7E ∉ v -> tx (uart s) <> [] ->
  if zlen v <=? 62 then exists buf s', connect_char (replicate 64 0) UART_TIMEOUT s = Ret (buf, 1) s'
  else connect_char (replicate 64 0) UART_TIMEOUT s = Bad OutOfBounds.
Proof.
  intros Hb Hf Hst Hv Htx. destruct (tx (uart s)) as [|r txs] eqn:Et; [done|].
  destruct (write_hand_shake_ok s r txs 1 Et ltac:(lia)) as [log E]. set (s1 := set_uart _ s) in *.
  destruct (read_char_ok (replicate 64 0) 0 s1 0x7E (v ++ 0x7E :: rest)) as (evs & E1 & Hf1 & Hst1); [done|done|by vm_compute|].
  set (s2 := set_uart _ s1) in *.
  assert (Eq : connect_char (replicate 64 0) UART_TIMEOUT s = read_version (link_fuel (uart s2)) (<[Z.to_nat 0 := 0x7E]> (replicate 64 0)) 1 0 s2).
  { unfold connect_char, bind at 1. rewrite E. unfold bind at 1. rewrite E1. cbn [fst snd Z.eqb Pos.eqb]. rewrite aget_inserted by by vm_compute. reflexivity. }
  rewrite Eq.
  set (buf := <[Z.to_nat 0 := 0x7E]> (replicate 64 0)). assert (Hbuf : zlen buf = 64) by done.
  assert (Hfuel : (length v < link_fuel (uart s2))%nat).
  { unfold link_fuel. change (rx (uart s2)) with evs. rewrite Hst1, length_app. lia. }
  destruct (Z.leb_spec (zlen v) 62).
  - destruct (read_version_fits v (link_fuel (uart s2)) buf 1 s2 rest) as (buf' & s' & E'); [done|done|done|lia|lia|done|].
    by exists buf', s'.
  - apply (read_version_overflows (v ++ 0x7E :: rest)); [done|done| |lia|]. 
    + exists (take 63 v). destruct (drop 63 v) as [|x y] eqn:Ed.
      * exists 0x7E, rest. rewrite <- (take_drop 63 v) at 1. rewrite Ed, app_nil_r. split; [done|]. split; [|unfold zlen in *; rewrite length_take; lia].
        intros (i & Hi & _)%elem_of_take. apply Hv. by eapply list_elem_of_lookup_2.
      * exists x, (y ++ 0x7E :: rest). rewrite <- (take_drop 63 v) at 1. rewrite Ed, <- app_assoc. split; [done|]. split; [|unfold zlen in *; rewrite length_take; lia].
        intros (i & Hi & _)%elem_of_take. apply Hv. by eapply list_elem_of_lookup_2.
    + unfold link_fuel. change (rx (uart s2)) with evs. rewrite Hst1. lia.
Qed.

(** The handshake with the first loader reads a version string that ends
    with a flag when it has at most 62 characters; a longer one makes it write
    past the end of its 64-byte buffer on the stack. *)
Theorem handshake_version s v rest : boot_status s <> 0 -> good_file (rx (uart s)) -> stream (rx (uart s)) = 0x7E :: v ++ 0x7E :: rest ->
  0x7E ∉ v -> tx (uart s) <> [] ->
  if zlen v <=? 62 then exists s', try_to_connect_modem s = Ret tt s' else try_to_connect_modem s = Bad OutOfBounds.
Proof.
  intros Hb Hf Hst Hv Htx. pose proof (connect_char_version s v rest Hb Hf Hst Hv Htx) as H.
  assert (Eq : exists n, try_to_connect_modem s = (r <- connect_char (replicate 64 0) UART_TIMEOUT ;; if r.2 =? 1 then ret tt else connect_loop n r.1 (r.2 + 2)) s).
  { unfold try_to_connect_modem, bind at 1, gets, link_fuel. cbn [connect_loop]. unfold bind at 1, get.
    rewrite (proj2 (Z.eqb_neq (boot_status s) 0)), andb_false_r by done. by eexists. }
  destruct Eq as [n ->]. unfold bind. destruct (zlen v <=? 62); [|by rewrite H]. destruct H as (buf & s' & ->). by exists s'.
Qed.

Lemma handshake_version_witness :
  let s := Boot (Link [] [100] [] [RxData [0x7E; 83; 80]; RxData [82; 68; 0x7E; 1]]) (Link [] [] [] []) [] [] 0 [] 1 0 [] [] in
  (0x7E ∉ [83; 80; 82; 68]) /\ exists s', try_to_connect_modem s = Ret tt s'.
Proof.
  intros s. assert (Hv : 0x7E ∉ [83; 80; 82; 68]).
  { rewrite !not_elem_of_cons. repeat split; try done. apply not_elem_of_nil. }
  split; [exact Hv|]. apply (handshake_version s [83; 80; 82; 68] [1]); [done| |reflexivity|exact Hv|done].
  apply Forall_cons. split; [by eexists _, _|]. apply Forall_singleton. by eexists _, _.
Defined.

(** ** The fuel is enough *)

(** Neither runs out of fuel nor spins. *)
Definition not_fuel (f : fault) : Prop := f <> OutOfFuel /\ f <> Spins.

(** On a link: nothing is added to what is still to be read. *)
Definition link_ends {A} (m : M link A) : Prop :=
  forall l, wp not_fuel m (fun _ l' => (link_fuel l' <= link_fuel l)%nat) (fun _ => True) l.

Lemma wp_link_read took raw off size l (Q : list Z * Z -> link -> Prop) : 0 < size ->
  (forall raw' r l', (length (rx l') < length (rx l))%nat -> (link_fuel l' <= link_fuel l)%nat -> r <= size ->
     Q (raw', r) l') ->
  (forall raw' l', (link_fuel l' <= link_fuel l)%nat -> Q (raw', size) l') -> counts took ->
  wp not_fuel (read raw off size) Q (fun _ => True) l.
Proof.
  intros Hs H1 H2 Ht. unfold wp, read. destruct l as [sb txs log [|[r|d] evs] ]; cbn [rx send_buffer tx sent]; [done| |].
  - apply H1; cbn [rx]; [cbn; lia|unfold link_fuel; cbn; lia|lia].
  - destruct (store raw off _) as [raw'|]; [|done]. destruct (Nat.leb_spec (length d) (Z.to_nat size)).
    + rewrite take_ge by lia. apply H1; cbn [rx]; [cbn; lia| |unfold zlen; lia]. unfold link_fuel. cbn. rewrite length_app. lia.
    + replace (zlen (take (Z.to_nat size) d)) with size by (unfold zlen; rewrite length_take; lia).
      apply H2. unfold link_fuel. cbn [rx length]. change (stream (RxData ?x :: evs)) with (x ++ stream evs).
      rewrite !length_app, length_drop. lia.
Qed.

Lemma read_loop_ends fuel : forall took raw off size l, counts took -> 0 < size -> (length (rx l) < fuel)%nat ->
  wp not_fuel (read_loop fuel took raw off size) (fun _ l' => (link_fuel l' <= link_fuel l)%nat) (fun _ => True) l.
Proof.
  induction fuel as [|fuel IH]; intros took raw off size l Ht Hs Hf; [lia|]. cbn [read_loop]. apply wp_bind.
  apply (wp_link_read took); [done| | |done].
  - intros raw' r l' Hl Hm Hr. assert (Hsz : 0 <= (if took r then size - r else size)) by (destruct (took r); lia).
    replace (if took r then (off + r, size - r) else (off, size)) with (if took r then off + r else off, if took r then size - r else size) by (by destruct (took r)).
    destruct (Z.eqb_spec (if took r then size - r else size) 0); cbn [negb]; [exact Hm|].
    eapply wp_mono; [apply IH; [done|lia|lia]| |done]. intros. cbv beta in *. lia.
  - intros raw' l' Hm. rewrite (proj1 Ht) by done. rewrite Z.sub_diag. cbn [Z.eqb negb]. exact Hm.
Qed.

Lemma write_loop_ends fuel : forall n l, (length (tx l) < fuel)%nat ->
  wp not_fuel (write_loop fuel n) (fun _ l' => (link_fuel l' <= link_fuel l)%nat) (fun _ => True) l.
Proof.
  induction fuel as [|fuel IH]; intros n l Hf; [lia|]. cbn [write_loop]. apply wp_bind, wp_gets, wp_bind. unfold wp at 1, write.
  destruct (zlen (send_buffer l) <? n); [done|]. destruct (tx l) as [|r txs] eqn:E; [done|]. cbn [length] in Hf.
  match goal with |- context [if ?b then write_loop _ _ else _] => destruct b end; [|apply wp_ret; done].
  eapply wp_mono; [apply IH; cbn [tx]; lia| |done]. intros a l' H. exact H.
Qed.

Lemma write_ends buf n l : wp not_fuel (write buf n) (fun _ l' => (link_fuel l' <= link_fuel l)%nat) (fun _ => True) l.
Proof. unfold wp, write. destruct (zlen buf <? n); [done|]. by destruct (tx l). Qed.

(** Steps that touch neither device. *)
Lemma wp_lift_ends {S A} f (o : option A) (Q : A -> S -> Prop) s : not_fuel f -> (forall a, Q a s) -> wp not_fuel (lift f o) Q (fun _ => True) s.
Proof. intros Hf HQ. unfold wp, lift. by destruct o. Qed.

Lemma link_ends_bind {A B} (m : M link A) (k : A -> M link B) : link_ends m -> (forall a, link_ends (k a)) -> link_ends (bind m k).
Proof.
  intros Hm Hk l. apply wp_bind. eapply wp_mono; [apply Hm| |done]. intros a l' Hl. cbv beta in Hl. eapply wp_mono; [apply Hk| |done].
  intros b l2 H. cbv beta in *. lia.
Qed.
Lemma link_ends_ret {A} (a : A) : link_ends (ret a).
Proof. intros l. by apply wp_ret. Qed.
Lemma link_ends_lift {A} f (o : option A) : not_fuel f -> link_ends (lift f o).
Proof. intros Hf l. by apply wp_lift_ends. Qed.
Lemma link_ends_gets {A} (f : link -> A) : link_ends (gets f).
Proof. intros l. by apply wp_gets. Qed.
Lemma link_ends_buffer b : link_ends (set_send_buffer b).
Proof. intros l. by apply wp_modify. Qed.
Lemma link_ends_write buf n : link_ends (write buf n).
Proof. intros l. apply write_ends. Qed.

Lemma send_uart_ends buf n : link_ends (send_uart buf n).
Proof.
  unfold send_uart. apply link_ends_bind; [apply link_ends_gets|]. intros sb. apply link_ends_bind; [by apply link_ends_lift|].
  intros [sb' k]. apply link_ends_bind; [apply link_ends_buffer|]. intros _ l. apply wp_bind, wp_gets, write_loop_ends. lia.
Qed.

Lemma finish_ends took acks raw flag retval : counts took -> link_ends (finish took acks raw flag retval).
Proof.
  intros Ht. unfold finish. apply link_ends_bind.
  - destruct (retval >? 0); [|apply link_ends_ret]. intros l. unfold read_reply. apply wp_bind, wp_gets, read_loop_ends; [done|by destruct (flag =? 0)|unfold rx_fuel; lia].
  - intros [ [raw' off] r]. destruct (r >? 0); [|apply link_ends_ret]. apply link_ends_bind; [|intros t; destruct (acks t); apply link_ends_ret].
    unfold reply_type. apply link_ends_bind.
    + destruct (flag =? 0); [|apply link_ends_ret]. apply link_ends_bind; [apply link_ends_gets|]. intros sb.
      apply link_ends_bind; [by apply link_ends_lift|]. intros t. apply link_ends_bind; [apply link_ends_buffer|]. intros _. apply link_ends_ret.
    + intros data. apply link_ends_bind; [by apply link_ends_lift|]. intros d0. apply link_ends_bind; [by apply link_ends_lift|]. intros d1. apply link_ends_ret.
Qed.

Create HintDb ends.
#[export] Hint Resolve link_ends_ret link_ends_gets link_ends_buffer link_ends_write send_uart_ends finish_ends gt0_counts ge0_counts : ends.
#[export] Hint Extern 1 (link_ends (lift _ _)) => by apply link_ends_lift : ends.

(** The next command of a request. *)
Ltac link_ends := repeat first
  [ progress intros
  | match goal with
    | |- link_ends (bind _ _) => apply link_ends_bind
    | |- link_ends (let '(_, _) := ?p in _) => destruct p
    | |- link_ends (if ?b then _ else _) => destruct b
    end ]; eauto with ends.

Lemma send_connect_ends flag : link_ends (send_connect_message flag).
Proof. unfold send_connect_message. link_ends. Qed.
Lemma send_start_ends size addr flag : link_ends (send_start_message size addr flag).
Proof. unfold send_start_message. link_ends. Qed.
Lemma send_end_ends flag : link_ends (send_end_message flag).
Proof. unfold send_end_message. link_ends. Qed.
Lemma send_data_ends buf n flag : link_ends (send_data_message buf n flag).
Proof. unfold send_data_message. link_ends. Qed.
Lemma send_exec_ends addr flag : link_ends (send_exec_message addr flag).
Proof. unfold send_exec_message. link_ends. Qed.
Lemma change_spi_ends : link_ends uart_send_change_spi_mode_message.
Proof. unfold uart_send_change_spi_mode_message. link_ends. Qed.
#[export] Hint Resolve send_connect_ends send_start_ends send_end_ends send_data_ends send_exec_ends change_spi_ends : ends.

(** On the whole state. *)
Definition later (s s' : boot) : Prop :=
  (link_fuel (uart s') <= link_fuel (uart s))%nat /\ (length (opens s') <= length (opens s))%nat /\ download_image_info s' = download_image_info s.
#[export] Instance later_preorder : PreOrder later.
Proof. unfold later. split; [done|]. intros s1 s2 s3 (? & ? & ?) (? & ? & ?). split_and!; [lia|lia|congruence]. Qed.

Definition boot_ends {A} (m : M boot A) : Prop := forall s, wp not_fuel m (fun _ => later s) (fun _ => True) s.

Lemma boot_ends_bind {A B} (m : M boot A) (k : A -> M boot B) : boot_ends m -> (forall a, boot_ends (k a)) -> boot_ends (bind m k).
Proof.
  intros Hm Hk s. apply wp_bind. eapply wp_mono; [apply Hm| |done]. intros a s' Hl. cbv beta in Hl. eapply wp_mono; [apply Hk| |done].
  intros b s2 H. cbv beta in *. by etrans.
Qed.
(** With what the first part did. *)
Lemma wp_ends {A B} (m : M boot A) (k : A -> M boot B) s : boot_ends m ->
  (forall a s', later s s' -> wp not_fuel (k a) (fun _ => later s') (fun _ => True) s') -> wp not_fuel (bind m k) (fun _ => later s) (fun _ => True) s.
Proof.
  intros Hm Hk. apply wp_bind. eapply wp_mono; [apply Hm| |done]. intros a s' Hl. cbv beta in Hl. eapply wp_mono; [by apply Hk| |done].
  intros b s2 H. cbv beta in *. by etrans.
Qed.
Lemma boot_ends_ret {A} (a : A) : boot_ends (ret a).
Proof. intros s. by apply wp_ret. Qed.
Lemma boot_ends_lift {A} f (o : option A) : not_fuel f -> boot_ends (lift f o).
Proof. intros Hf s. by apply wp_lift_ends. Qed.
Lemma boot_ends_gets {A} (f : boot -> A) : boot_ends (gets f).
Proof. intros s. by apply wp_gets. Qed.
Lemma boot_ends_get : boot_ends get.
Proof. intros s. by apply wp_get. Qed.
Lemma boot_ends_modify f : (forall s, uart (f s) = uart s /\ opens (f s) = opens s /\ download_image_info (f s) = download_image_info s) -> boot_ends (modify f).
Proof. intros H s. apply wp_modify. destruct (H s) as (E1 & E2 & E3). unfold later. by rewrite E1, E2, E3. Qed.
Lemma boot_ends_uart {A} (m : M link A) : link_ends m -> boot_ends (on_uart m).
Proof. intros Hm s. apply wp_zoom. eapply wp_mono; [apply Hm| |done]. intros a l' Hl. by split. Qed.
Lemma boot_ends_spi {A} (m : M link A) : link_ends m -> boot_ends (on_spi m).
Proof. intros Hm s. apply wp_zoom. eapply wp_mono; [apply Hm| |done]. intros a l' _. by split. Qed.
Lemma boot_ends_open : boot_ends open_device.
Proof.
  intros s. unfold open_device. apply wp_bind, wp_get. destruct (opens s) as [|fd o] eqn:E; [done|]. apply wp_bind, wp_modify, wp_ret.
  split; [done|]. rewrite E. cbn. split; [lia|done].
Qed.

#[export] Hint Resolve boot_ends_ret boot_ends_gets boot_ends_get boot_ends_uart boot_ends_spi boot_ends_open : ends.
#[export] Hint Extern 1 (boot_ends (lift _ _)) => by apply boot_ends_lift : ends.
#[export] Hint Extern 1 (boot_ends (modify _)) => by apply boot_ends_modify : ends.

Ltac boot_ends := repeat first
  [ progress intros
  | match goal with
    | |- boot_ends (bind _ _) => apply boot_ends_bind
    | |- boot_ends (let '(_, _) := ?p in _) => destruct p
    | |- boot_ends (if ?b then _ else _) => destruct b
    | |- boot_ends (match ?o with Some _ => _ | None => _ end) => destruct o
    end ]; eauto with ends.

(** *** The handshake *)

Lemma reset_modem_ends : boot_ends reset_modem.
Proof. unfold reset_modem. boot_ends. Qed.
Lemma write_hand_shake_ends n : boot_ends (write_hand_shake n).
Proof. unfold write_hand_shake. boot_ends. Qed.
#[export] Hint Resolve reset_modem_ends write_hand_shake_ends : ends.

(** [s'] comes after [s], and something was read between. *)
Definition read_more (s s' : boot) : Prop := later s s' /\ (link_fuel (uart s') < link_fuel (uart s))%nat.

Lemma read_more_later s1 s2 s3 : read_more s1 s2 -> later s2 s3 -> read_more s1 s3.
Proof. intros [H12 Hl] H23. split; [by etrans|]. destruct H23. lia. Qed.
Lemma later_read_more s1 s2 s3 : later s1 s2 -> read_more s2 s3 -> read_more s1 s3.
Proof. intros H12 [H23 Hl]. split; [by etrans|]. destruct H12. lia. Qed.

(** Reading a character takes something away. *)
Lemma wp_read_char buf data s (Q : list Z * Z -> boot -> Prop) :
  (forall r s', read_more s s' -> Q r s') -> wp not_fuel (read_char buf data) Q (fun _ => True) s.
Proof.
  intros HQ. unfold read_char. apply wp_zoom. unfold wp, read. destruct (uart s) as [sb txs log [|[r|d] evs] ] eqn:E; cbn [rx send_buffer tx sent]; [done| |].
  - assert (Hl : (link_fuel (Link sb txs log evs) < link_fuel (Link sb txs log (RxErr r :: evs)))%nat) by (unfold link_fuel; cbn; lia).
    apply HQ. unfold read_more, later. rewrite E. cbn [uart set_uart opens download_image_info]. split_and!; [lia|done|done|lia].
  - destruct (store buf data _); [|done].
    assert (Hl : (link_fuel (Link sb txs log (if (length d <=? Z.to_nat 1)%nat then evs else RxData (drop (Z.to_nat 1) d) :: evs)) < link_fuel (Link sb txs log (RxData d :: evs)))%nat).
    2:{ apply HQ. unfold read_more, later. rewrite E. cbn [uart set_uart opens download_image_info]. split_and!; [lia|done|done|lia]. }
    unfold link_fuel. cbn [rx]. change (Z.to_nat 1) with 1%nat.
    change (stream (RxData d :: evs)) with (d ++ stream evs).
    destruct (Nat.leb_spec (length d) 1); [cbn; rewrite length_app; lia|]. change (stream (RxData ?x :: evs)) with (x ++ stream evs).
    cbn [length]. rewrite !length_app, length_drop. lia.
Qed.

Lemma wait_modem_ends fuel : forall buf i s, (link_fuel (uart s) <= fuel)%nat -> wp not_fuel (wait_modem fuel buf i) (fun _ => read_more s) (fun _ => True) s.
Proof.
  induction fuel as [|fuel IH]; intros buf i s Hf; [unfold link_fuel in Hf; lia|]. cbn [wait_modem]. apply wp_bind, wp_read_char. intros r s1 H01. apply wp_bind, wp_lift_ends; [done|]. intros c.
  destruct ((r.2 =? 1) && (c =? 0x55)); [by apply wp_ret|]. apply wp_bind.
  eapply (wp_mono _ (fun _ => later s1)); [|intros [] s2 H12|done].
  - destruct (_ =? 0); [apply write_hand_shake_ends|by apply wp_ret].
  - pose proof (read_more_later _ _ _ H01 H12) as H02. destruct (_ <? _); [|by apply wp_ret].
    eapply wp_mono; [apply IH; destruct H02; lia| |done]. intros a s3 [H _]. by eapply read_more_later.
Qed.

Lemma read_version_ends fuel : forall buf data mc s, (link_fuel (uart s) <= fuel)%nat ->
  wp not_fuel (read_version fuel buf data mc) (fun _ => later s) (fun _ => True) s.
Proof.
  induction fuel as [|fuel IH]; intros buf data mc s Hf; [unfold link_fuel in Hf; lia|]. cbn [read_version]. apply wp_bind, wp_read_char. intros r s1 [H01 Hl].
  assert (Hnext : forall data mc, wp not_fuel (read_version fuel r.1 data mc) (fun _ => later s) (fun _ => True) s1).
  { intros d k. eapply wp_mono; [apply IH; lia| |done]. intros a s2 H. cbv beta in H. by etrans. }
  destruct (r.2 =? 1).
  - apply wp_bind, wp_lift_ends; [done|]. intros c. destruct (c =? 0x7E); [by apply wp_ret|]. destruct (_ <? _); [apply Hnext|by apply wp_ret].
  - cbv zeta. destruct (_ <? _); [apply Hnext|by apply wp_ret].
Qed.

Lemma connect_char_ends buf mc s : wp not_fuel (connect_char buf mc) (fun _ => read_more s) (fun _ => True) s.
Proof.
  unfold connect_char. apply wp_bind. eapply wp_mono; [apply write_hand_shake_ends| |done]. intros [] s1 H01. cbv beta in H01.
  apply wp_bind, wp_read_char. intros r s2 H12. assert (H02 : read_more s s2) by (by eapply later_read_more).
  destruct (r.2 =? 1); [|by apply wp_ret]. apply wp_bind, wp_lift_ends; [done|]. intros c. destruct (c =? 0x7E).
  - apply wp_bind, wp_gets. eapply wp_mono; [by apply read_version_ends| |done]. intros a s3 H. by eapply read_more_later.
  - destruct (c =? 0x55); [|by apply wp_ret]. apply wp_bind. eapply wp_mono; [apply write_hand_shake_ends| |done]. intros [] s3 H. apply wp_ret. by eapply read_more_later.
Qed.

Lemma connect_loop_ends fuel : forall buf mc s, (link_fuel (uart s) <= fuel)%nat ->
  wp not_fuel (connect_loop fuel buf mc) (fun _ => read_more s) (fun _ => True) s.
Proof.
  induction fuel as [|fuel IH]; intros buf mc s Hf; [unfold link_fuel in Hf; lia|]. cbn [connect_loop]. apply wp_bind, wp_get.
  set (first := _ && _). clearbody first.
  assert (Hnext : forall s1 buf mc, read_more s s1 -> wp not_fuel (connect_loop fuel buf mc) (fun _ => read_more s) (fun _ => True) s1).
  { intros s1 b k H01. eapply wp_mono; [apply IH; destruct H01; lia| |done]. intros a s2 [H _]. by eapply read_more_later. }
  assert (Hchar : forall s1 buf mc, later s s1 -> wp not_fuel (r <- connect_char buf mc ;; if r.2 =? 1 then ret tt else connect_loop fuel r.1 (r.2 + 2)) (fun _ => read_more s) (fun _ => True) s1).
  { intros s1 b k H01. apply wp_bind. eapply wp_mono; [apply connect_char_ends| |done]. intros r s2 H12. cbv beta in H12.
    pose proof (later_read_more _ _ _ H01 H12) as H02. destruct (r.2 =? 1); [by apply wp_ret|by apply Hnext]. }
  apply wp_bind. destruct first.
  - eapply wp_mono; [apply reset_modem_ends| |done]. intros [] s1 H01. cbv beta in H01. apply wp_bind. 
    eapply wp_mono; [apply wait_modem_ends; apply H01| |done]. intros w s2 H12. cbv beta in H12.
    pose proof (later_read_more _ _ _ H01 H12) as H02. cbn [andb]. destruct (_ >=? _); [by apply Hnext|apply Hchar, H02].
  - apply wp_ret, wp_bind, wp_ret. cbn [fst snd andb]. by apply Hchar.
Qed.

Lemma try_to_connect_ends s : wp not_fuel try_to_connect_modem (fun _ => read_more s) (fun _ => True) s.
Proof. unfold try_to_connect_modem. apply wp_bind, wp_gets. by apply connect_loop_ends. Qed.

Lemma connect_modem_ends fuel : forall s, (link_fuel (uart s) <= fuel)%nat -> wp not_fuel (connect_modem fuel) (fun _ => later s) (fun _ => True) s.
Proof.
  induction fuel as [|fuel IH]; intros s Hf; [unfold link_fuel in Hf; lia|]. cbn [connect_modem]. apply wp_bind, wp_modify, wp_bind.
  eapply wp_mono; [apply try_to_connect_ends| |done]. intros [] s1 [H01 Hl]. cbn [uart set_boot_status] in Hl.
  apply wp_bind, wp_modify, wp_bind. eapply wp_mono; [apply boot_ends_uart, send_connect_ends| |done]. intros r s2 H12. cbv beta in H12.
  assert (H02 : later s s2) by (change (later s s1) in H01; etrans; [exact H01|exact H12]).
  destruct (r <? 0); [|by apply wp_ret]. eapply wp_mono; [apply IH; destruct H12 as [H12 _]; cbn [uart set_boot_status] in H12; lia| |done].
  intros [] s3 H. cbv beta in H. by etrans.
Qed.

(** *** Downloads *)

Section ends.
Context (file : list Z -> option (list rx_event)) (malloc : Z -> option (list Z)).

Lemma read_packet_ends fuel : forall f b n, (length f < fuel)%nat -> 0 < n < 4294967296 -> boot_ends (read_packet fuel f b n).
Proof.
  induction fuel as [|fuel IH]; intros f b n Hf Hn; [lia|]. cbn [read_packet].
  assert (H : let '(r, bs, f') := fread f n in r <= n /\ (n - r > 0 -> r > 0 -> (length f' < length f)%nat)).
  { destruct f as [|[r|d] f]; cbn [fread]; [lia|lia|]. rewrite u32_small by lia. destruct (Nat.leb_spec (length d) (Z.to_nat n)).
    - rewrite take_ge by lia. unfold zlen. cbn [length]. lia.
    - unfold zlen. rewrite length_take. lia. }
  destruct (fread f n) as [ [r bs] f']. destruct H as [Hr Hf']. apply boot_ends_bind; [apply boot_ends_get|]. intros s.
  apply boot_ends_bind; [eauto with ends|]. intros b'. apply boot_ends_bind; [eauto with ends|]. intros _.
  destruct (Z.gtb_spec r 0); [|apply boot_ends_ret]. destruct (Z.gtb_spec (n - r) 0); [|apply boot_ends_ret]. apply IH; lia.
Qed.

Lemma pad_packet_ends n : boot_ends (pad_packet n).
Proof. unfold pad_packet. boot_ends. Qed.
Lemma send_packet_ends : boot_ends send_packet.
Proof. unfold send_packet. boot_ends. Qed.

Lemma data_packets_ends fuel : forall f i count size, 0 <= i -> count <= HS_PACKET_SIZE -> count - i < Z.of_nat fuel -> (0 < fuel)%nat ->
  boot_ends (data_packets fuel f i count size).
Proof.
  assert (HS : HS_PACKET_SIZE = 61440) by done.
  induction fuel as [|fuel IH]; intros f i count size Hi Hc Hf Hpos; [lia|]. cbn [data_packets].
  destruct (Z.ltb_spec i count); [|apply boot_ends_ret].
  apply boot_ends_bind; [apply read_packet_ends; lia|]. intros f'.
  apply boot_ends_bind; [destruct (_ <? _); [apply pad_packet_ends|apply boot_ends_ret]|]. intros _.
  destruct (Z.ltb_spec size HS_PACKET_SIZE);
    (apply boot_ends_bind; [apply send_packet_ends|]; intros r; destruct (negb _); [apply boot_ends_ret|]; apply IH; lia).
Qed.

Definition sizes_ok (s : boot) : Prop := Forall (fun i => image_size i < 2 ^ 31) (download_image_info s).
Lemma later_sizes s s' : later s s' -> sizes_ok s -> sizes_ok s'.
Proof. intros (_ & _ & E). unfold sizes_ok. by rewrite E. Qed.

Lemma download_image_ends info : image_size info < 2 ^ 31 -> boot_ends (download_image file info).
Proof.
  intros Hs. assert (HS : HS_PACKET_SIZE = 61440) by done. unfold download_image. destruct (image_path info) as [path|]; [|apply boot_ends_ret].
  destruct (file path) as [f|]; [|apply boot_ends_ret]. cbv zeta. set (count := Z.quot _ _).
  assert (Hc : count <= HS_PACKET_SIZE).
  { unfold count. destruct (Z.le_gt_cases 0 (image_size info + HS_PACKET_SIZE - 1)).
    - rewrite HS in *. rewrite Z.quot_div_nonneg by lia. Z.div_mod_to_equations. lia.
    - pose proof (Z.quot_opp_l (- (image_size info + HS_PACKET_SIZE - 1)) HS_PACKET_SIZE ltac:(lia)) as E. rewrite Z.opp_involutive in E.
      pose proof (Z.quot_pos (- (image_size info + HS_PACKET_SIZE - 1)) HS_PACKET_SIZE ltac:(lia) ltac:(lia)). lia. }
  apply boot_ends_bind; [eauto with ends|]. intros r. destruct (negb _); [apply boot_ends_ret|].
  apply boot_ends_bind; [apply data_packets_ends; lia|]. intros ok. destruct (negb ok); eauto with ends.
Qed.

Lemma images_loop_ends n : forall k r s, sizes_ok s -> wp not_fuel (images_loop file n k r) (fun _ => later s) (fun _ => True) s.
Proof.
  induction n as [|n IH]; intros k r s Hs; cbn [images_loop]; [by apply wp_ret|]. apply wp_bind, wp_get, wp_bind.
  apply wp_lift; [|done]. intros info Hinfo. apply wp_ends.
  - apply download_image_ends. by eapply (Forall_lookup_1 _ _ _ _ Hs).
  - intros q s1 H01. destruct (negb _); [by apply wp_ret|]. apply IH. by eapply later_sizes.
Qed.

Lemma download_images_ends s : sizes_ok s -> wp not_fuel (download_images file) (fun _ => later s) (fun _ => True) s.
Proof.
  intros Hs. unfold download_images. apply wp_bind, wp_get, wp_bind. eapply wp_mono; [by apply images_loop_ends| |done]. intros r s1 H01.
  cbv beta in H01. eapply wp_mono; [apply (boot_ends_bind (on_spi (send_exec_message 0x400000 BSL_SPI_PACKET)) (fun _ => lift Uninitialised r))| |done]; eauto with ends.
  intros a s2 H. cbv beta in H. by etrans.
Qed.

(** The first loader's file is shorter than its size in the table. *)
Definition loader_short (l : list image_info) : Prop :=
  exists i f, l !! 0%nat = Some i /\ open_file file (image_path i) = Some f /\ zlen (stream f) < image_size i.
(** How a boot may fail to end. *)
Definition boot_fault (l : list image_info) (f : fault) : Prop := f <> OutOfFuel /\ (f = Spins -> loader_short l).
Lemma not_fuel_boot l f : not_fuel f -> boot_fault l f.
Proof. by intros [H1 H2]. Qed.

(** The loop spins on a file that is too short, and only then. *)
Lemma load_loop_wp fuel : forall f b p n s, (length f < fuel)%nat -> n < 4294967296 ->
  wp (fun flt => flt <> OutOfFuel /\ (flt = Spins -> zlen (stream f) < n)) (load_loop fuel f b p n) (fun _ s' => s' = s) (fun _ => True) s.
Proof.
  induction fuel as [|fuel IH]; intros f b p n s Hf Hn; [lia|]. cbn [load_loop].
  destruct f as [|[r|d] f]; cbn [fread]; apply wp_bind, wp_lift; try done; intros b' _.
  - cbn [Z.gtb Z.compare]. destruct (Z.gtb_spec n 0); [|by apply wp_ret]. apply wp_bad. split; [done|]. intros _. change (zlen (stream [])) with 0. lia.
  - destruct (Z.gtb_spec (Z.min r 0) 0); [lia|]. destruct (n >? 0); [|by apply wp_ret]. cbn [length] in Hf. apply (IH f); lia.
  - cbn [length] in Hf. change (stream (RxData d :: f)) with (d ++ stream f). pose proof (u32_range n) as Hu. destruct (Nat.leb_spec (length d) (Z.to_nat (u32 n))).
    + rewrite take_ge by lia. pose proof (zlen_nonneg d) as Hd. destruct (Z.gtb_spec (zlen d) 0).
      * destruct (Z.gtb_spec (n - zlen d) 0); [|by apply wp_ret]. eapply wp_faults; [|by apply IH; lia]. intros flt [F1 F2]. split; [done|]. intros E. specialize (F2 E). rewrite zlen_app. lia.
      * destruct (n >? 0); [|by apply wp_ret]. eapply wp_faults; [|by apply IH; lia]. intros flt [F1 F2]. split; [done|]. intros E. specialize (F2 E). rewrite zlen_app. lia.
    + assert (E : zlen (take (Z.to_nat (u32 n)) d) = u32 n) by (unfold zlen; rewrite length_take; lia). rewrite E.
      assert (Hs : (if u32 n >? 0 then n - u32 n else n) <= 0).
      { destruct (Z.leb_spec 0 n) as [H0|H0]; [rewrite u32_small by lia; destruct (Z.gtb_spec n 0); lia|]. destruct (Z.gtb_spec (u32 n) 0); lia. }
      destruct (u32 n >? 0); [destruct (Z.gtb_spec (n - u32 n) 0)|destruct (Z.gtb_spec n 0)]; (lia || by apply wp_ret).
Qed.

(** A piece is only sent when there are 256 bytes. *)
Lemma fdl_loop_ends fuel : forall b n, (length b < fuel)%nat -> boot_ends (fdl_loop fuel b n).
Proof.
  induction fuel as [|fuel IH]; intros b n Hf; [lia|]. cbn [fdl_loop]. destruct (n =? 0); [apply boot_ends_ret|].
  destruct (Z.ltb_spec (zlen b) FDL_PACKET_SIZE).
  - intros s. apply wp_bind, wp_zoom. unfold send_data_message. cbn [BSL_UART_PACKET Z.eqb]. apply wp_bind. unfold wp, lift.
    by rewrite (proj2 (Z.leb_gt FDL_PACKET_SIZE (zlen b))), andb_false_r by lia.
  - apply boot_ends_bind; [eauto with ends|]. intros r. destruct (r.2 =? DL_FAILURE); [apply boot_ends_ret|]. apply IH.
    rewrite length_drop. unfold zlen, FDL_PACKET_SIZE in *. lia.
Qed.

Lemma load_fdl2memory_wp s : sizes_ok s -> wp (boot_fault (download_image_info s)) (load_fdl2memory file malloc) (fun _ => later s) (fun _ => True) s.
Proof.
  intros Hs. unfold load_fdl2memory. apply wp_bind, wp_get, wp_bind, wp_lift; [|by intros _]. intros info Hi.
  destruct (open_file file (image_path info)) as [f|] eqn:Ef; [|by apply wp_ret]. destruct (malloc _) as [buffer|]; [|by apply wp_ret].
  pose proof (Forall_lookup_1 _ _ _ _ Hs Hi) as Hn. cbv beta in Hn. apply wp_bind.
  eapply wp_faults; [|eapply wp_mono; [apply (load_loop_wp (S (length f))); lia| |done] ].
  - intros flt [H1 H2]. split; [done|]. intros E. exists info, f. split_and!; [done|done|by apply H2].
  - intros b s' ->. by apply wp_ret.
Qed.

Lemma download_fdl_wp s : sizes_ok s -> wp (boot_fault (download_image_info s)) (download_fdl file malloc) (fun _ => later s) (fun _ => True) s.
Proof.
  intros Hs. unfold download_fdl. apply wp_bind. eapply wp_mono; [by apply load_fdl2memory_wp| |done]. intros o s1 H01. cbv beta in H01.
  eapply wp_faults; [intros f; apply not_fuel_boot|]. eapply (wp_mono _ (fun _ => later s1)); [|intros a s2 H; cbv beta in H; by etrans|done].
  destruct o as [ [b n] |]; [|by apply wp_ret]. revert s1 H01. cut (boot_ends (s0 <- get ;; info <- lift OutOfBounds (download_image_info s0 !! 0%nat) ;;
    r <- on_uart (send_start_message n (address info) BSL_UART_PACKET) ;; if r =? DL_FAILURE then ret r else
    r <- fdl_loop (S (length b)) b n ;; if r =? DL_FAILURE then ret r else r <- on_uart (send_end_message BSL_UART_PACKET) ;;
    if r =? DL_FAILURE then ret r else on_uart (send_exec_message (address info) BSL_UART_PACKET))); [by intros H s1 _; apply H|].
  apply boot_ends_bind; [eauto with ends|]. intros s0. apply boot_ends_bind; [eauto with ends|]. intros info.
  apply boot_ends_bind; [eauto with ends|]. intros r. destruct (r =? DL_FAILURE); [apply boot_ends_ret|].
  apply boot_ends_bind; [apply fdl_loop_ends; lia|]. intros r2. boot_ends.
Qed.

(** It spins on every file that is too short. *)
Theorem short_loader_spins s info f buffer : download_image_info s !! 0%nat = Some info -> open_file file (image_path info) = Some f ->
  image_size info < 2 ^ 31 -> malloc (image_size info + 4) = Some buffer -> image_size info <= zlen buffer ->
  zlen (stream f) < image_size info -> download_fdl file malloc s = Bad Spins.
Proof.
  intros Hi Ef Hs Hm Hb Hf. unfold download_fdl, load_fdl2memory. unfold bind at 1 2 3, get, lift. rewrite Hi, Ef, Hm. unfold bind at 1.
  assert (Hl : forall fuel f p n b, (length f < fuel)%nat -> zlen (stream f) < n < 4294967296 -> 0 <= p -> p + n <= zlen b -> load_loop fuel f b p n s = Bad Spins).
  { clear. induction fuel as [|fuel IH]; intros f p n b Hf Hn Hp Hb; [lia|]. cbn [load_loop].
    destruct f as [|[r|d] f]; cbn [fread length] in *; unfold bind, lift.
    - change (zlen (stream [])) with 0 in Hn. rewrite store_ok by (change (zlen (@nil Z)) with 0; lia). cbn [Z.gtb Z.compare]. by rewrite (proj2 (Z.gtb_lt n 0)) by lia.
    - change (zlen (stream (RxErr r :: f))) with (zlen (stream f)) in Hn. pose proof (zlen_nonneg (stream f)).
      rewrite store_ok by (change (zlen (@nil Z)) with 0; lia). destruct (Z.gtb_spec (Z.min r 0) 0); [lia|]. rewrite (proj2 (Z.gtb_lt n 0)) by lia.
      apply IH; [lia|lia|done|]. rewrite put_nil by lia. done.
    - change (stream (RxData d :: f)) with (d ++ stream f) in Hn. rewrite zlen_app in Hn. pose proof (zlen_nonneg (stream f)). pose proof (zlen_nonneg d) as Hd.
      rewrite u32_small by lia. rewrite (proj2 (Nat.leb_le _ _)) by (unfold zlen in *; lia). rewrite take_ge by (unfold zlen in *; lia).
      rewrite store_ok by lia. destruct (Z.gtb_spec (zlen d) 0).
      + rewrite (proj2 (Z.gtb_lt (n - zlen d) 0)) by lia. apply IH; [lia|lia|lia|]. rewrite zlen_put by lia. lia.
      + rewrite (proj2 (Z.gtb_lt n 0)) by lia. apply IH; [lia|lia|lia|]. rewrite zlen_put by lia. lia. }
  rewrite (Hl (S (length f)) f 0 (image_size info) buffer); [done|lia|lia|lia|lia].
Qed.

(** *** The boot *)

Lemma open_dloader_ends fuel : forall s, (length (opens s) < fuel)%nat -> wp not_fuel (open_dloader fuel) (fun _ => later s) (fun _ => True) s.
Proof.
  induction fuel as [|fuel IH]; intros s Hf; [lia|]. cbn [open_dloader]. unfold open_device. apply wp_bind, wp_bind, wp_get.
  destruct (opens s) as [|fd o] eqn:E; [done|]. apply wp_bind, wp_modify, wp_ret. set (s1 := set_opens o s).
  assert (H01 : later s s1) by (split; [done|]; split; [rewrite E; cbn; lia|done]).
  destruct (fd =? 0); [by apply wp_ret|]. eapply wp_mono; [apply IH; cbn in *; lia| |done]. intros [] s2 H. cbv beta in H. by etrans.
Qed.

Lemma wp_boot {A} l (m : M boot A) Q E s : wp not_fuel m Q E s -> wp (boot_fault l) m Q E s.
Proof. apply wp_faults. intros f. apply not_fuel_boot. Qed.

Lemma boot_loop_ends fuel : forall s, (length (opens s) < fuel)%nat -> sizes_ok s ->
  wp (boot_fault (download_image_info s)) (boot_loop file malloc fuel) (fun _ => later s) (fun _ => True) s.
Proof.
  induction fuel as [|fuel IH]; intros s Hf Hs; [lia|]. cbn [boot_loop]. unfold open_device at 1. apply wp_bind, wp_bind, wp_get.
  destruct (opens s) as [|fd o] eqn:E; [done|]. apply wp_bind, wp_modify, wp_ret. set (s1 := set_opens o s).
  assert (H01 : later s s1) by (split; [done|]; split; [rewrite E; cbn; lia|done]).
  assert (Hrec : forall s', later s1 s' -> wp (boot_fault (download_image_info s)) (boot_loop file malloc fuel) (fun _ => later s) (fun _ => True) s').
  { intros s' H1. replace (download_image_info s) with (download_image_info s') by (by destruct H1 as (_ & _ & ->)). eapply wp_mono; [apply IH| |done].
    - destruct H1 as (_ & H1 & _). cbn in *. lia.
    - eapply later_sizes; [|exact Hs]. by etrans.
    - intros a s2 H. cbv beta in H. etrans; [exact H01|]. by etrans. }
  destruct (fd <? 0); [by apply wp_ret|]. apply wp_bind, wp_gets, wp_bind.
  eapply wp_mono; [by apply wp_boot, connect_modem_ends| |done]. intros [] s2 H12. cbv beta in H12.
  apply wp_bind. assert (Hinfo2 : download_image_info s2 = download_image_info s) by (by destruct H12 as (_ & _ & ->)).
  assert (Hs2 : sizes_ok s2) by (unfold sizes_ok; by rewrite Hinfo2). rewrite <- Hinfo2.
  eapply wp_mono; [by apply download_fdl_wp| |done]. rewrite Hinfo2. intros r s3 H23. cbv beta in H23.
  assert (H13 : later s1 s3) by (by etrans). destruct (r =? DL_FAILURE); [by apply Hrec|].
  apply wp_bind. eapply wp_mono; [apply wp_boot, try_to_connect_ends| |done]. intros [] s4 [H34 _].
  apply wp_bind. eapply wp_mono; [apply wp_boot, boot_ends_open| |done]. intros fd2 s5 H45. cbv beta in H45.
  assert (H15 : later s1 s5) by (etrans; [exact H13|]; by etrans). destruct (fd2 <? 0); [apply wp_ret; by etrans|].
  apply wp_bind. eapply wp_mono; [apply wp_boot, boot_ends_uart, change_spi_ends| |done]. intros r6 s6 H56. cbv beta in H56.
  apply wp_bind. eapply wp_mono; [apply wp_boot, boot_ends_open| |done]. intros fd3 s7 H67. cbv beta in H67.
  assert (H17 : later s1 s7) by (etrans; [exact H15|]; by etrans).
  apply wp_bind. eapply (wp_mono _ (fun _ => later s7)); [| |done].
  { destruct (fd3 <? 0); [|by apply wp_ret]. apply wp_bind, wp_gets. by apply wp_boot, open_dloader_ends, Nat.lt_succ_diag_r. }
  intros [] s8 H78. cbv beta in H78. assert (H18 : later s1 s8) by (by etrans).
  apply wp_bind. eapply wp_mono; [apply wp_boot, download_images_ends| |done].
  { eapply later_sizes; [|exact Hs]. etrans; [exact H01|exact H18]. }
  intros r2 s9 H89. cbv beta in H89. assert (H19 : later s1 s9) by (by etrans). destruct (r2 =? DL_FAILURE); [by apply Hrec|]. apply wp_ret. by etrans.
Qed.

(** C9: A boot ends. The devices give finitely many answers (reads, and
    results of writes and opens), whatever they are, and files and images are
    arbitrary, the sizes in the table being C integers: the loops of a boot
    come to an end: it returns a result, or waits for a device that says
    nothing more, or does something undefined - unless the file of the first
    loader is shorter than its size in the table: the loop that reads it then
    spins at the end of the file without waiting for anything
    (short_loader_spins shows that it does), and nothing else spins. *)
Theorem modem_boot_ends s : sizes_ok s ->
  match modem_boot file malloc s with
  | Ret _ _ => True
  | Exit _ => True
  | Bad f => f = Blocked \/ (f = OutOfBounds \/ f = NullPointer \/ f = Uninitialised) \/ (f = Spins /\ loader_short (download_image_info s))
  end.
Proof.
  intros Hs. pose proof (boot_loop_ends (S (length (opens s))) s (Nat.lt_succ_diag_r _) Hs) as H.
  unfold modem_boot, bind, gets. unfold wp in H. destruct (boot_loop _ _ _ _) as [r s'|s'|f]; [done..|]. destruct H as [H1 H2]. destruct f; naive_solver.
Qed.
End ends.

(** A UART that says nothing more: the boot waits for it. *)
Definition silent_boot : boot := Boot (Link [] [] [] []) (Link [] [] [] []) [] [Image_info (Some [47; 97]) 5 0x400] 1 [] 0 0 [3] [].
Lemma modem_boot_ends_witness : sizes_ok silent_boot /\ modem_boot (fun _ => None) (fun _ => None) silent_boot = Bad Blocked /\
  match modem_boot (fun _ => None) (fun _ => None) silent_boot with
  | Ret _ _ => True
  | Exit _ => True
  | Bad f => f = Blocked \/ (f = OutOfBounds \/ f = NullPointer \/ f = Uninitialised) \/ (f = Spins /\ loader_short (fun _ => None) (download_image_info silent_boot))
  end.
Proof.
  assert (H : sizes_ok silent_boot) by (apply Forall_singleton; done). split; [exact H|]. split; [reflexivity|]. apply (modem_boot_ends _ _ silent_boot H).
Defined.

(** A loader of 5 bytes whose table says 9. *)
Example loader_of_5 : download_fdl (fun _ => Some [RxData [1; 2; 3; 4; 5] ]) (fun n => Some (replicate (Z.to_nat n) 0))
  (Boot (Link [] [] [] []) (Link [] [] [] []) [] [Image_info (Some [47; 97]) 9 0x400] 1 [] 0 0 [] []) = Bad Spins.
Proof. reflexivity. Qed.
