(* ===== verification/ModemImages.v ===== *)
(** * The list of images

    What [get_modem_images_info] takes from a well-formed /modem_images.info:
    the rows of the list as data, their text, and that the table holds the
    images of the rows and [uart_dev] the path of the last row without one. *)
From stdpp Require Import base list.
From Stdlib Require Import ZArith Lia.
From S2P Require Import Prelude Packet ModemBoot.

(** ** Definitions *)

(** A number as it is written in the list: two characters, which are skipped,
    "0x", and hexadecimal digits. *)
Record number := Number { prefix : Z * Z; digits : list Z }.
Definition number_text (n : number) : list Z := (prefix n).1 :: (prefix n).2 :: digits n.
Definition digit_value (c : Z) : Z := default 0 (hex_digit c).
Definition hex_value (ds : list Z) : Z := foldl (fun n c => n * 16 + digit_value c) 0 ds.
(** [strtol] gives at most [LONG_MAX]. *)
Definition number_value (n : number) : Z := Z.min 2147483647 (hex_value (digits n)).

Inductive row :=
  | Empty
  | Comment (text : list Z)
  | Image (blank1 path blank2 : list Z) (size : number) (blank3 : list Z) (addr : number) (more : list Z).

Definition row_text (r : row) : list Z :=
  match r with
  | Empty => []
  | Comment t => 35 :: t
  | Image b1 path b2 size b3 addr more => b1 ++ path ++ b2 ++ number_text size ++ b3 ++ number_text addr ++ more
  end.
Definition row_line (r : row) : list Z := row_text r ++ [10].

(** The characters of words and lines. *)
Definition word_char (c : Z) : Prop := is_delim c = false /\ c <> 0 /\ c <> 10.
Definition line_char (c : Z) : Prop := c <> 0 /\ c <> 10.
Definition number_ok (n : number) : Prop :=
  word_char (prefix n).1 /\ word_char (prefix n).2 /\ Forall (fun c => is_Some (hex_digit c)) (digits n).
Definition blank (b : list Z) : Prop := Forall (fun c => is_delim c = true) b.
Definition row_ok (r : row) : Prop :=
  zlen (row_text r) < 255 /\
  match r with
  | Empty => True
  | Comment t => Forall line_char t
  | Image b1 path b2 size b3 addr more =>
      blank b1 /\ Forall word_char path /\ path <> [] /\ head (row_text r) <> Some 35 /\ blank b2 /\ b2 <> [] /\ number_ok size /\ blank b3 /\ b3 <> [] /\
      number_ok addr /\ Forall line_char more /\ (forall c, head more = Some c -> is_delim c = true)
  end.

(** What a row stands for. *)
Definition row_image (r : row) : option image_info :=
  match r with
  | Image _ path _ size _ addr _ =>
      if (number_value addr =? 0) || (number_value size =? 0) then None else Some (Image_info (Some path) (number_value size) (number_value addr))
  | _ => None
  end.
Definition row_device (r : row) : option (list Z) :=
  match r with
  | Image _ path _ size _ addr _ => if (number_value addr =? 0) || (number_value size =? 0) then Some path else None
  | _ => None
  end.

(** The rows up to the one that gives the [n]th image. *)
Fixpoint rows_read (n : nat) (rows : list row) : list row :=
  match rows with
  | [] => []
  | r :: rows => r :: (match row_image r with
                       | Some _ => match n with S (S n) => rows_read (S n) rows | _ => [] end
                       | None => rows_read n rows
                       end)
  end.

(** ** Characters *)


Lemma drop_zlen {A} (a b : list A) : drop (Z.to_nat (zlen a)) (a ++ b) = b.
Proof. unfold zlen. rewrite Nat2Z.id. apply drop_app_length. Qed.
Lemma aget_zlen {A} (a : list A) c b : aget (a ++ c :: b) (zlen a) = Some c.
Proof. unfold zlen. rewrite aget_nat. by rewrite lookup_app_r, Nat.sub_diag by lia. Qed.
Lemma aset_zlen (a : list Z) c b x : aset (a ++ c :: b) (zlen a) x = Some (a ++ x :: b).
Proof. unfold zlen. rewrite aset_nat by (rewrite length_app; cbn; lia). f_equal. by rewrite insert_app_r_alt, Nat.sub_diag by lia. Qed.

Lemma strlen_app a b : Forall (fun c => c <> 0) a -> strlen (a ++ 0 :: b) = Some (zlen a).
Proof.
  induction 1 as [|c a Hc _ IH]; [done|]. cbn [app strlen]. rewrite (proj2 (Z.eqb_neq c 0)) by done. rewrite IH, obind_Some, zlen_cons. f_equal. lia.
Qed.

Lemma strspn_app b c s : blank b -> is_delim c = false -> strspn (b ++ c :: s) = zlen b.
Proof.
  intros Hb Hc. induction Hb as [|d b Hd _ IH]; cbn [app strspn]; [by rewrite Hc|]. rewrite Hd, IH, zlen_cons. lia.
Qed.

Lemma strcspn_app w c s : Forall word_char w -> is_delim c = true \/ c = 0 -> strcspn (w ++ c :: s) = zlen w.
Proof.
  intros Hw Hc. induction Hw as [|d w (Hd & H0 & _) _ IH]; cbn [app strcspn].
  - destruct Hc as [-> | ->]; [done|]. by rewrite orb_true_r.
  - rewrite Hd, (proj2 (Z.eqb_neq d 0)), IH, zlen_cons by done. cbn. lia.
Qed.

Lemma delim_nonzero c : is_delim c = true -> c <> 0.
Proof. unfold is_delim. intros H ->. discriminate H. Qed.
Lemma delim_line c : is_delim c = true -> line_char c.
Proof. unfold is_delim, line_char. intros H. destruct (Z.eqb_spec c 32), (Z.eqb_spec c 9); try discriminate H; lia. Qed.
Lemma blank_line b : blank b -> Forall line_char b.
Proof. intros H. eapply Forall_impl; [exact H|]. apply delim_line. Qed.
Lemma word_line w : Forall word_char w -> Forall line_char w.
Proof. intros H. eapply Forall_impl; [exact H|]. intros c (_ & Hc). exact Hc. Qed.

Lemma hex_word c : is_Some (hex_digit c) -> word_char c.
Proof.
  intros [v H]. assert (Hc : 48 <= c <= 102).
  { unfold hex_digit in H. repeat case_match; try discriminate H; lia. }
  unfold word_char, is_delim. split; [|lia]. rewrite !(proj2 (Z.eqb_neq _ _)) by lia. done.
Qed.
Lemma hex_bounds c v : hex_digit c = Some v -> 0 <= v < 16 /\ 48 <= c <= 102.
Proof. unfold hex_digit. repeat case_match; intros [= <-]; lia. Qed.
Lemma number_word n : number_ok n -> Forall word_char (number_text n).
Proof. intros (H1 & H2 & H3). repeat apply Forall_cons_2; [done..|]. eapply Forall_impl; [exact H3|]. apply hex_word. Qed.

(** ** Tokens *)

(** Where a word starts and stops, after blanks at [zlen a]. *)
Lemma token_start a b d s : blank b -> is_delim d = false -> zlen a + strspn (drop (Z.to_nat (zlen a)) (a ++ b ++ d :: s)) = zlen (a ++ b).
Proof. intros Hb Hd. by rewrite drop_zlen, strspn_app, zlen_app. Qed.
Lemma token_stop a w c s : Forall word_char w -> is_delim c = true \/ c = 0 ->
  zlen a + strcspn (drop (Z.to_nat (zlen a)) (a ++ w ++ c :: s)) = zlen (a ++ w).
Proof. intros Hw Hc. by rewrite drop_zlen, strcspn_app, zlen_app. Qed.

(** Up to the byte that ends the word. *)
Lemma strtok_scan a b w c s : blank b -> Forall word_char w -> w <> [] -> is_delim c = true \/ c = 0 ->
  strtok_r (a ++ b ++ w ++ c :: s) (zlen a) =
    if c =? 0 then Some (Some (a ++ b ++ w ++ c :: s, zlen (a ++ b), zlen (a ++ b ++ w)))
    else Some (Some (a ++ b ++ w ++ 0 :: s, zlen (a ++ b), zlen (a ++ b ++ w ++ [0]))).
Proof.
  intros Hb Hw Hne Hc. destruct w as [|d w]; [done|]. pose proof (Forall_cons_1 _ _ _ Hw) as [(Hd & H0 & _) _]. unfold strtok_r.
  cbn [app]. rewrite token_start by done. rewrite (app_assoc a b), aget_zlen, obind_Some, (proj2 (Z.eqb_neq d 0)) by done.
  pose proof (token_stop (a ++ b) (d :: w) c s Hw Hc) as E. cbn [app] in E. rewrite E. clear E.
  change (d :: w ++ c :: s) with ((d :: w) ++ c :: s). rewrite (app_assoc (a ++ b)), aget_zlen, obind_Some.
  destruct (Z.eqb_spec c 0).
  - by rewrite <- !app_assoc.
  - rewrite aset_zlen, obind_Some. rewrite !zlen_app, <- !app_assoc. cbn [app]. rewrite !zlen_cons, zlen_app, Z.add_assoc. do 3 f_equal.
    change (zlen [0]) with 1. lia.
Qed.

(** ** Numbers *)

Lemma hex_digits_app ds s : Forall (fun c => is_Some (hex_digit c)) ds -> forall n,
  hex_digits (ds ++ 0 :: s) n = foldl (fun n c => n * 16 + digit_value c) n ds.
Proof.
  induction 1 as [|c ds [v Hv] _ IH]; intros n; [done|]. cbn [app hex_digits foldl]. unfold digit_value at 2. rewrite Hv. apply IH.
Qed.

Lemma hex_value_nonneg ds : Forall (fun c => is_Some (hex_digit c)) ds -> 0 <= hex_value ds.
Proof.
  unfold hex_value. intros H. assert (G : forall n, 0 <= n -> 0 <= foldl (fun n c => n * 16 + digit_value c) n ds); [|by apply G].
  induction H as [|c ds [v Hv] _ IH]; intros n Hn; [done|]. apply IH. unfold digit_value. rewrite Hv. cbn. pose proof (hex_bounds _ _ Hv). lia.
Qed.

Lemma skip_0x_hex s : (forall z x s', s = z :: x :: s' -> z = 48 -> x <> 120 /\ x <> 88) -> skip_0x s = s.
Proof.
  intros H. destruct s as [|z [|x [|d s']]]; [done..|]. cbn [skip_0x]. destruct (Z.eqb_spec z 48); [|done].
  destruct (H _ _ _ eq_refl e). by rewrite !(proj2 (Z.eqb_neq _ _)) by done.
Qed.

Lemma strtol_digits ds s : Forall (fun c => is_Some (hex_digit c)) ds -> strtol16 (ds ++ 0 :: s) = Z.min 2147483647 (hex_value ds).
Proof.
  intros H. pose proof (hex_value_nonneg ds H). assert (E : skip_0x (ds ++ 0 :: s) = ds ++ 0 :: s).
  { apply skip_0x_hex. intros z x s' Es ->. destruct H as [|c ds [v Hv] H]; [discriminate Es|]. injection Es as -> Es.
    destruct H as [|c' ds [v' Hv'] H]; injection Es as <- Es; [lia|]. pose proof (hex_bounds _ _ Hv'). split; [lia|].
    intros ->. discriminate Hv'. }
  unfold strtol16. assert (Es : skip_space (ds ++ 0 :: s) = ds ++ 0 :: s).
  { destruct H as [|c ds [v Hv] _]; [done|]. cbn [app skip_space]. pose proof (hex_bounds _ _ Hv). unfold is_space.
    rewrite (proj2 (Z.eqb_neq c 32)), (proj2 (Z.leb_gt c 13)), andb_false_r by lia. done. }
  rewrite Es. clear Es. assert (Eh : hex_digits (ds ++ 0 :: s) 0 = hex_value ds) by by apply hex_digits_app.
  destruct ds as [|c ds]; cbn [app] in *.
  - cbn [Z.eqb]. rewrite E, Eh. lia.
  - pose proof (Forall_cons_1 _ _ _ H) as [ [v Hv] _]. pose proof (hex_bounds _ _ Hv). rewrite !(proj2 (Z.eqb_neq c _)) by lia. rewrite E, Eh. lia.
Qed.

(** A number in a line, two characters behind its start. *)
Lemma number_at l x n s : l = x ++ number_text n ++ 0 :: s -> number_ok n -> strtol16 (drop (Z.to_nat (zlen x + 2)) l) = number_value n.
Proof.
  intros -> (_ & _ & H). assert (E : x ++ number_text n ++ 0 :: s = (x ++ [(prefix n).1; (prefix n).2]) ++ digits n ++ 0 :: s) by by rewrite <- !app_assoc.
  rewrite E. replace (zlen x + 2) with (zlen (x ++ [(prefix n).1; (prefix n).2])) by (rewrite zlen_app; done). rewrite drop_zlen. by apply strtol_digits.
Qed.

Lemma number_inside l x n s : l = x ++ number_text n ++ 0 :: s -> (zlen l <=? zlen x + 2) = false.
Proof. intros ->. apply Z.leb_gt. rewrite !zlen_app. unfold number_text. rewrite !zlen_cons. pose proof (zlen_nonneg (digits n)). pose proof (zlen_nonneg s). lia. Qed.

(** ** A line *)

Lemma number_line n : number_ok n -> Forall line_char (number_text n).
Proof. intros H. by apply word_line, number_word. Qed.

Lemma row_chars r : row_ok r -> Forall line_char (row_text r).
Proof.
  intros [_ H]. destruct r as [|t|b1 p b2 n1 b3 n2 more]; cbn [row_text].
  - constructor.
  - by constructor.
  - destruct H as (H1 & H2 & _ & _ & H3 & _ & H4 & H5 & _ & H6 & H7 & _).
    repeat apply Forall_app_2; eauto using blank_line, word_line, number_line.
Qed.

(** What [parse_line] makes of a row, and that the array keeps its size. *)
Definition row_result (r : row) : line_result :=
  match r with
  | Image _ path _ size _ addr _ => Entry path (number_value size) (number_value addr)
  | _ => Skip
  end.

Lemma number_value_bounds n : number_ok n -> 0 <= number_value n < 2 ^ 31.
Proof. intros (_ & _ & H). pose proof (hex_value_nonneg _ H). unfold number_value. lia. Qed.

Lemma parse_words b1 p b2 n1 b3 n2 more tail : row_ok (Image b1 p b2 n1 b3 n2 more) ->
  let line := b1 ++ p ++ b2 ++ number_text n1 ++ b3 ++ number_text n2 ++ more ++ 0 :: tail in
  exists l1 l2 l3 (x1 x2 s1 : list Z) (s2 q : Z),
    strtok_r line 0 = Some (Some (l1, zlen b1, q)) /\
    strtok_r l1 q = Some (Some (l2, zlen x1, zlen s1)) /\
    strtok_r l2 (zlen s1) = Some (Some (l3, zlen x2, s2)) /\ zlen l3 = zlen line /\
    string_at l3 (zlen b1) = Some p /\
    (exists s, l3 = x1 ++ number_text n1 ++ 0 :: s) /\ (exists s, l3 = x2 ++ number_text n2 ++ 0 :: s).
Proof.
  intros [_ (H1 & H2 & H2' & _ & H3 & H3' & H4 & H5 & H5' & H6 & H7 & H8)] line.
  destruct b2 as [|c2 b2]; [done|]. destruct b3 as [|c3 b3]; [done|]. apply Forall_cons in H3 as [Hc2 H3]. apply Forall_cons in H5 as [Hc3 H5].
  set (a1 := b1 ++ p ++ [0]). set (a2 := a1 ++ b2 ++ number_text n1 ++ [0]).
  assert (Hm : exists c s, more ++ 0 :: tail = c :: s /\ (is_delim c = true \/ c = 0)).
  { destruct more as [|c more]; [by eexists _, _; split; [|right]|]. eexists _, _. split; [reflexivity|]. left. by apply H8. }
  destruct Hm as (c & s & Em & Hc).
  exists (a1 ++ b2 ++ number_text n1 ++ c3 :: b3 ++ number_text n2 ++ c :: s), (a2 ++ b3 ++ number_text n2 ++ c :: s), (a2 ++ b3 ++ number_text n2 ++ 0 :: s),
    (a1 ++ b2), (a2 ++ b3), a2, (if c =? 0 then zlen (a2 ++ b3 ++ number_text n2) else zlen (a2 ++ b3 ++ number_text n2 ++ [0])), (zlen a1).
  assert (Hn : forall n, number_text n <> []) by done.
  split; [|split; [|split; [|split; [|split; [|split] ] ] ] ].
  - unfold line. rewrite Em. pose proof (strtok_scan [] b1 p c2 (b2 ++ number_text n1 ++ (c3 :: b3) ++ number_text n2 ++ c :: s) H1 H2 H2' (or_introl Hc2)) as E.
    cbn [app] in E |- *. change (zlen (@nil Z)) with 0 in E. rewrite E, (proj2 (Z.eqb_neq c2 0)) by by apply delim_nonzero.
    unfold a1. by rewrite <- !app_assoc.
  - rewrite strtok_scan by eauto using number_word. rewrite (proj2 (Z.eqb_neq c3 0)) by by apply delim_nonzero. unfold a2. by rewrite <- !app_assoc.
  - rewrite strtok_scan by eauto using number_word. destruct (Z.eqb_spec c 0) as [->|]; done.
  - unfold line. rewrite Em. unfold a2, a1. rewrite !zlen_app, !zlen_cons, ?zlen_app, ?zlen_cons, ?zlen_app, ?zlen_cons. change (zlen (@nil Z)) with 0. lia.
  - unfold a2, a1, string_at, strlen_at. rewrite <- !app_assoc. rewrite drop_zlen. cbn [app]. rewrite strlen_app, obind_Some.
    + unfold zlen. by rewrite Nat2Z.id, take_app_length.
    + eapply Forall_impl; [exact H2|]. by intros ? (_ & ? & _).
  - unfold a2. rewrite <- !app_assoc. cbn [app]. eexists. rewrite <- app_assoc. reflexivity.
  - eexists. rewrite <- app_assoc. reflexivity.
Qed.

Lemma parse_row r tail : row_ok r -> exists line', parse_line (row_text r ++ 10 :: 0 :: tail) = Some (row_result r, line') /\
  zlen line' = zlen (row_text r ++ 10 :: 0 :: tail).
Proof.
  intros Hr. pose proof (row_chars r Hr) as Hch. unfold parse_line, strlen_at. change (Z.to_nat 0) with 0%nat. rewrite drop_0.
  rewrite (app_assoc (row_text r) [10] (0 :: tail) : row_text r ++ 10 :: 0 :: tail = _). rewrite strlen_app, obind_Some.
  2:{ apply Forall_app_2; [|by apply Forall_singleton]. eapply Forall_impl; [exact Hch|]. by intros ? [? _]. }
  rewrite <- app_assoc. cbn [app]. rewrite zlen_app. change (zlen [10]) with 1. rewrite Z.add_simpl_r, aset_zlen, obind_Some.
  destruct r as [|t|b1 p b2 n1 b3 n2 more].
  - eexists. split; [reflexivity|done].
  - eexists. split; [reflexivity|]. cbn [row_text]. by rewrite !zlen_app, !zlen_cons.
  - destruct (parse_words b1 p b2 n1 b3 n2 more (0 :: tail) Hr) as (l1 & l2 & l3 & x1 & x2 & s1 & s2 & q & E1 & E2 & E3 & Hl & Ep & [t1 En1] & [t2 En2]).
    destruct Hr as [_ (_ & _ & Hne & H35 & _ & _ & Hn1 & _ & _ & Hn2 & _)].
    assert (Eh : exists h t, row_text (Image b1 p b2 n1 b3 n2 more) = h :: t) by (cbn [row_text]; destruct b1, p; eauto; done).
    destruct Eh as (h & t & Eh). rewrite Eh in *. apply Forall_cons in Hch as [ [Hh _] _]. cbn [app]. change (aget (h :: t ++ 0 :: 0 :: tail) 0) with (Some h).
    rewrite obind_Some. rewrite (proj2 (Z.eqb_neq h 35)), (proj2 (Z.eqb_neq h 0)) by (done || by intros ->). cbn [orb].
    assert (Eline : h :: t ++ 0 :: 0 :: tail = b1 ++ p ++ b2 ++ number_text n1 ++ b3 ++ number_text n2 ++ more ++ 0 :: 0 :: tail).
    { change (h :: t ++ 0 :: 0 :: tail) with ((h :: t) ++ 0 :: 0 :: tail). rewrite <- Eh. cbn [row_text]. by rewrite <- !app_assoc. }
    rewrite Eline, E1, obind_Some, E2, obind_Some, E3, obind_Some, Ep, obind_Some.
    rewrite (number_inside _ _ _ _ En1), (number_inside _ _ _ _ En2). cbn [orb].
    rewrite (number_at _ _ _ _ En1 Hn1), (number_at _ _ _ _ En2 Hn2). eexists. split.
    + cbn [row_result]. pose proof (number_value_bounds n2 Hn2). unfold u32, wrap. rewrite Z.mod_small by lia. reflexivity.
    + rewrite Hl, <- Eline. rewrite !zlen_cons, !zlen_app, !zlen_cons. lia.
Qed.

(** ** The list *)

Lemma fgets_line text f : forall n, Forall line_char text -> (length text < n)%nat -> fgets n (text ++ 10 :: f) = (text ++ [10], f).
Proof.
  induction text as [|c text IH]; intros n H Hn; (destruct n as [|n]; [cbn in Hn; lia|]); [done|].
  apply Forall_cons in H as [ [_ Hc] H]. cbn [app fgets]. rewrite (proj2 (Z.eqb_neq c 10)) by done. rewrite IH by (done || (cbn in Hn; lia)). done.
Qed.

Definition images (rows : list row) : list image_info := omap row_image rows.
Definition devices (rows : list row) : list (list Z) := omap row_device rows.
Definition room (k : Z) : nat := Z.to_nat (max_item - k).

(** The state with another table and device. *)
Definition with_table (info : list image_info) (dev : list Z) (s : boot) : boot := set_uart_dev dev (set_info info s).

(** The table [info] is [old] with [imgs] from the [k]th entry on; the one
    behind them, used for a row without an image, may differ, too. *)
Definition table_holds (old info : list image_info) (k : Z) (imgs : list image_info) : Prop :=
  length info = length old /\ take (Z.to_nat k + length imgs) info = take (Z.to_nat k) old ++ imgs.

Lemma table_holds_nil info k : table_holds info info k [].
Proof. split; [done|]. by rewrite Nat.add_0_r, app_nil_r. Qed.

Lemma table_holds_insert old info k i imgs : table_holds (<[Z.to_nat k := i]> old) info k imgs -> table_holds old info k imgs.
Proof. intros [H1 H2]. rewrite length_insert in H1. split; [done|]. by rewrite H2, take_insert_ge by lia. Qed.

Lemma table_holds_cons old info k i imgs : 0 <= k < zlen old -> table_holds (<[Z.to_nat k := i]> old) info (k + 1) imgs -> table_holds old info k (i :: imgs).
Proof.
  intros Hk [H1 H2]. rewrite length_insert in H1. split; [done|]. unfold zlen in Hk. rewrite Z2Nat.inj_add in H2 by lia. change (Z.to_nat 1) with 1%nat in H2.
  cbn [length]. rewrite <- Nat.add_assoc in H2. cbn [Nat.add] in H2. rewrite H2.
  replace (Z.to_nat k + 1)%nat with (S (Z.to_nat k)) by lia.
  erewrite take_S_r by (rewrite list_lookup_insert_eq by lia; reflexivity). rewrite take_insert_ge by lia. by rewrite <- app_assoc.
Qed.

Lemma last_cons_default {A} (a d : A) l : default d (last (a :: l)) = default a (last l).
Proof. rewrite last_cons. by destruct (last l). Qed.

Lemma bind_lift_Some {S A B} f (a : A) (k : A -> M S B) (s : S) : bind (lift f (Some a)) k s = k a s.
Proof. done. Qed.

Lemma run_ret {S A B} (a : A) (k : A -> M S B) (s : S) : bind (ret a) k s = k a s.
Proof. done. Qed.
Lemma run_device {B} p k (f : Z -> M boot B) s : bind (modify (set_uart_dev p) ;;; ret k) f s = f k (set_uart_dev p s).
Proof. done. Qed.
Lemma run_set_image {B} k i (m : M boot B) s : 0 <= k < zlen (download_image_info s) ->
  (set_image k i ;;; m) s = m (set_info (<[Z.to_nat k := i]> (download_image_info s)) s).
Proof. intros H. unfold set_image, bind, get, lift, modify. by rewrite aset_Some by done. Qed.

(** Reading stops with the seventh image. *)
Lemma images_read rows : forall n, images (rows_read (S n) rows) = take (S n) (images rows).
Proof.
  induction rows as [|r rows IH]; intros n; [done|]. unfold images in *. cbn [rows_read omap list_omap]. destruct (row_image r) as [i|]; [|apply IH].
  destruct n as [|n]; [done|]. cbn [take]. by rewrite IH.
Qed.

Lemma read_lines_rows rows : forall fuel line k s, Forall row_ok rows -> zlen line = 256 -> zlen (download_image_info s) = max_item -> 0 <= k < max_item ->
  (length rows < fuel)%nat ->
  exists info dev, read_lines fuel (concat (row_line <$> rows)) line k s = Ret (k + zlen (images (rows_read (room k) rows))) (with_table info dev s) /\
    table_holds (download_image_info s) info k (images (rows_read (room k) rows)) /\
    dev = default (uart_dev s) (last (devices (rows_read (room k) rows))).
Proof.
  induction rows as [|r rows IH]; intros fuel line k s Hr Hl Hi Hk Hf; (destruct fuel as [|fuel]; [cbn in Hf; lia|]).
  { exists (download_image_info s), (uart_dev s). split; [|split; [apply table_holds_nil|done] ]. cbn. rewrite Z.add_0_r. by destruct s. }
  apply Forall_cons in Hr as [Hr Hrs]. cbn [fmap list_fmap concat]. unfold row_line at 1. rewrite <- app_assoc. cbn [app read_lines].
  pose proof (proj1 Hr) as Hlen. rewrite fgets_line by (by apply row_chars || (unfold zlen in Hlen; lia)). cbn [fst snd].
  assert (Ht : exists c t, row_text r ++ [10] = c :: t) by (destruct (row_text r); eauto). destruct Ht as (c & t & Ht). rewrite Ht.
  change (c :: t ++ [0]) with ((c :: t) ++ [0]). rewrite <- Ht. clear c t Ht.
  rewrite store_ok by (rewrite ?zlen_app, ?zlen_cons, ?zlen_app; change (zlen (@nil Z)) with 0; lia). unfold Prelude.put. change (Z.to_nat 0) with 0%nat. rewrite take_0. cbn [app].
  rewrite <- !app_assoc. cbn [app]. set (tail := drop _ line). destruct (parse_row r tail Hr) as (line' & E & Hl').
  rewrite bind_lift_Some, E, bind_lift_Some. cbn [fst snd].
  assert (Hl2 : zlen line' = 256).
  { rewrite Hl'. rewrite zlen_app, !zlen_cons. unfold tail, zlen in *. rewrite length_drop, !length_app. cbn [length]. lia. }
  destruct r as [|t|b1 p b2 n1 b3 n2 more]; cbn [row_result].
  - by apply IH; [..|cbn in Hf; lia].
  - by apply IH; [..|cbn in Hf; lia].
  - set (i := Image_info (Some p) (number_value n1) (number_value n2)). 
    rewrite run_set_image by lia. set (s1 := set_info _ s).
    assert (Hs1 : zlen (download_image_info s1) = max_item) by (unfold s1, zlen in *; cbn [download_image_info set_info]; by rewrite length_insert).
    cbn [rows_read row_image images devices omap list_omap row_device].
    destruct ((number_value n2 =? 0) || (number_value n1 =? 0)) eqn:Ez.
    + rewrite run_device.
      rewrite Z.geb_leb, (proj2 (Z.leb_gt max_item k)) by lia. specialize (IH fuel line' k (set_uart_dev p s1)).
      destruct IH as (info & dev & E1 & H1 & ->); [done|done|done|done|cbn in Hf; lia|].
      exists info. eexists. split; [exact E1|]. split; [exact (table_holds_insert _ _ _ i _ H1)|]. by rewrite last_cons_default.
    + rewrite run_ret.
      assert (H1 : table_holds (<[Z.to_nat k := i]> (download_image_info s)) (download_image_info s1) (k + 1) []) by apply table_holds_nil.
      rewrite zlen_cons, Z.geb_leb. fold i. destruct (Z.leb_spec max_item (k + 1)).
      * replace (room k) with 1%nat by (unfold room, max_item in *; lia). exists (download_image_info s1), (uart_dev s). cbn [omap list_omap].
        split; [by destruct s|]. split; [|done]. apply table_holds_cons; [lia|done].
      * replace (room k) with (S (room (k + 1))) by (unfold room; lia). destruct (room (k + 1)) as [|n] eqn:En; [unfold room in En; lia|]. rewrite <- En.
        specialize (IH fuel line' (k + 1) s1). destruct IH as (info & dev & E1 & H2 & ->); [done|done|done|lia|cbn in Hf; lia|].
        exists info. eexists. split; [rewrite E1; f_equal; unfold images; lia|]. split; [|done]. apply table_holds_cons; [lia|done].
Qed.

(** C19: What [get_modem_images_info] reads. When every line of
    /modem_images.info is empty, a comment, or a row of a path, a size and an
    address with blanks between them, and ends with a newline within 255
    bytes, then the images of the rows, at most seven, are in the table in the
    order of the file - their sizes and addresses the numbers written there,
    up to 0x7fffffff -, their number is returned and kept, and the path of the
    last row read whose size or address is 0 becomes the UART. *)
Theorem images_table_read rows line s : Forall row_ok rows -> zlen line = 256 -> zlen (download_image_info s) = max_item ->
  let read := rows_read 7 rows in
  exists info, get_modem_images_info (Some (concat (row_line <$> rows))) line s =
      Ret (zlen (images read)) (set_count (zlen (images read)) (with_table info (default (uart_dev s) (last (devices read))) s)) /\
    length info = length (download_image_info s) /\ take (length (images read)) info = take 7 (images rows).
Proof.
  intros Hr Hl Hi read. assert (Hf : (length rows < S (length (concat (row_line <$> rows))))%nat).
  { clear. induction rows as [|r rows IH]; [cbn; lia|]. cbn [fmap list_fmap concat length] in *. rewrite length_app. unfold row_line at 1. rewrite length_app. cbn [length]. lia. }
  destruct (read_lines_rows rows _ line 0 s Hr Hl Hi ltac:(done) Hf) as (info & dev & E & [H1 H2] & ->). exists info.
  change (room 0) with 7%nat in *. fold read in E, H2. unfold get_modem_images_info, bind. rewrite E. split; [done|]. split; [done|].
  change (Z.to_nat 0) with 0%nat in H2. rewrite take_0 in H2. cbn [Nat.add app] in H2. rewrite H2. apply images_read.
Qed.

(** "#images", "/dev/ttyS1 0x0 0x0" and "/a<tab>0x10 0x400". *)
Definition sample_list : list row :=
  [Comment [105; 109; 97; 103; 101; 115];
   Image [] [47; 100; 101; 118; 47; 116; 116; 121; 83; 49] [32] (Number (48, 120) [48]) [32] (Number (48, 120) [48]) [];
   Empty;
   Image [] [47; 97] [9] (Number (48, 120) [49; 48]) [32] (Number (48, 120) [52; 48; 48]) []].
Definition sample_table : boot := Boot (Link [] [] [] []) (Link [] [] [] []) [] (replicate 7 (Image_info None 0 0)) 6 [] 0 0 [] [].

#[local] Instance word_char_dec c : Decision (word_char c).
Proof. unfold word_char. apply _. Defined.
#[local] Instance line_char_dec c : Decision (line_char c).
Proof. unfold line_char. apply _. Defined.
#[local] Instance number_ok_dec n : Decision (number_ok n).
Proof. unfold number_ok. apply _. Defined.

Lemma sample_list_ok : Forall row_ok sample_list.
Proof.
  assert (Hi : forall p b s b' a, zlen (row_text (Image [] p [b] s [b'] a [])) < 255 -> Forall word_char p -> head p <> Some 35 -> p <> [] -> is_delim b = true ->
    is_delim b' = true -> number_ok s -> number_ok a -> row_ok (Image [] p [b] s [b'] a [])).
  { intros p b s b' a Hl Hp H35 Hne Hb Hb' Hs Ha. split; [done|]. split; [apply Forall_nil_2|]. split; [done|]. split; [done|]. split; [by destruct p|].
    split; [by apply Forall_singleton|]. split; [done|]. split; [done|]. split; [by apply Forall_singleton|]. split; [done|]. split; [done|].
    split; [apply Forall_nil_2|done]. }
  repeat apply Forall_cons_2.
  - split; [done|]. apply (bool_decide_unpack _). by vm_compute.
  - apply Hi; try done; apply (bool_decide_unpack _); by vm_compute.
  - done.
  - apply Hi; try done; apply (bool_decide_unpack _); by vm_compute.
  - apply Forall_nil_2.
Qed.

Lemma images_table_read_witness : exists info,
  get_modem_images_info (Some (concat (row_line <$> sample_list))) (replicate 256 0) sample_table =
    Ret 1 (set_count 1 (with_table info [47; 100; 101; 118; 47; 116; 116; 121; 83; 49] sample_table)) /\
  take 1 info = [Image_info (Some [47; 97]) 0x10 0x400].
Proof.
  destruct (images_table_read sample_list (replicate 256 0) sample_table sample_list_ok) as (info & E & _ & Ht); [done|done|].
  exists info. split; [exact E|exact Ht].
Defined.
