(* ===== verification/ModemState.v ===== *)
(** * The modem manager

    src/common/apps/modem_control/main.c: the state of the modem, kept from
    the messages of the kernel driver; what the clients of the socket and the
    monitor program are told; the loop that boots the modem, with the steps of
    the thread that accepts clients between its rounds. *)
From stdpp Require Import base list relations.
From Stdlib Require Import ZArith Lia.
From S2P Require Import Prelude Packet ModemBoot.

(** ** Definitions *)

Definition MAX_CLIENT_NUM : nat := 10.
Definition DATA_BUF_SIZE : Z := 128.
Definition TEST_BUFFER_SIZE : Z := 33 * 1024.

Inductive MODEM_STA_E :=
  | MODEM_STA_SHUTDOWN
  | MODEM_STA_BOOT
  | MODEM_STA_INIT
  | MODEM_STA_ALIVE
  | MODEM_STA_ASSERT
  | MODEM_STA_BOOTCOMP
  | MODEM_STA_MAX.
#[export] Instance MODEM_STA_E_eq_dec : EqDecision MODEM_STA_E.
Proof. solve_decision. Defined.

Inductive signal := SIGUSR1 | SIGUSR2.

(** What the outside sees: [kill] and the writes to clients. *)
Inductive effect :=
  | Kill (pid : Z) (sig : signal)
  | Tell (fd : Z) (message : list Z).

(** The state: the static variables ([info_buffer] is the [test_buffer] of
    main.c), the state of modem_boot.c with the devices, whether the thread
    has begun to listen, what the next reads of the state file give ([None]:
    it cannot be opened) and the next searches for the monitor, and what was
    sent so far. *)
Record manager := Manager {
  modem_state : MODEM_STA_E;
  flash_less_flag : Z;
  client_fd : list Z;
  info_buffer : list Z;
  machine : boot;
  listening : bool;
  states : list (option rx_event);
  pids : list Z;
  told : list effect
}.

Definition set_modem_state (x : MODEM_STA_E) (s : manager) : manager :=
  Manager x (flash_less_flag s) (client_fd s) (info_buffer s) (machine s) (listening s) (states s) (pids s) (told s).
Definition set_flash_less_flag (x : Z) (s : manager) : manager :=
  Manager (modem_state s) x (client_fd s) (info_buffer s) (machine s) (listening s) (states s) (pids s) (told s).
Definition set_client_fd (x : list Z) (l : bool) (s : manager) : manager :=
  Manager (modem_state s) (flash_less_flag s) x (info_buffer s) (machine s) l (states s) (pids s) (told s).
Definition set_info_buffer (x : list Z) (s : manager) : manager :=
  Manager (modem_state s) (flash_less_flag s) (client_fd s) x (machine s) (listening s) (states s) (pids s) (told s).
Definition set_machine (x : boot) (s : manager) : manager :=
  Manager (modem_state s) (flash_less_flag s) (client_fd s) (info_buffer s) x (listening s) (states s) (pids s) (told s).
Definition set_states (x : list (option rx_event)) (s : manager) : manager :=
  Manager (modem_state s) (flash_less_flag s) (client_fd s) (info_buffer s) (machine s) (listening s) x (pids s) (told s).
Definition set_pids (x : list Z) (s : manager) : manager :=
  Manager (modem_state s) (flash_less_flag s) (client_fd s) (info_buffer s) (machine s) (listening s) (states s) x (told s).
Definition tell (e : effect) (s : manager) : manager :=
  Manager (modem_state s) (flash_less_flag s) (client_fd s) (info_buffer s) (machine s) (listening s) (states s) (pids s) (told s ++ [e]).

Definition on_machine {A} : M boot A -> M manager A := zoom machine set_machine.

(** [get_task_pid(MONITOR_APP)], which searches /proc. *)
Definition get_task_pid : M manager Z :=
  s <- get ;;
  match pids s with
  | [] => bad Blocked
  | p :: ps => modify (set_pids ps) ;;; ret p
  end.

Definition kill (pid : Z) (sig : signal) : M manager unit := modify (tell (Kill pid sig)).

(** [open], one [read] into the buffer, [close]; the buffer and the result. *)
Definition get_modem_state (buffer : list Z) (size : Z) : M manager (list Z * Z) :=
  s <- get ;;
  match states s with
  | [] => bad Blocked
  | e :: es =>
      modify (set_states es) ;;;
      match e with
      | Some (RxData d) =>
          buffer <- lift OutOfBounds (store buffer 0 (take (Z.to_nat size) d)) ;;
          ret (buffer, zlen (take (Z.to_nat size) d))
      | _ => ret (buffer, 0)
      end
  end.

(** [sscanf(message, "%d", ...)]; [None] when nothing is stored or the number
    is not an [int]. *)
Definition dec_digit (c : Z) : option Z := if (48 <=? c) && (c <=? 57) then Some (c - 48) else None.
Fixpoint dec_digits (s : list Z) (n : Z) : Z :=
  match s with
  | [] => n
  | c :: s => match dec_digit c with Some d => dec_digits s (n * 10 + d) | None => n end
  end.
Definition scan_digits (s : list Z) : option Z :=
  match s with
  | [] => None
  | c :: _ => _ ← dec_digit c; Some (dec_digits s 0)
  end.
Definition scan_int (s : list Z) : option Z :=
  n ← match skip_space s with
      | [] => None
      | c :: s' => if c =? 45 then n ← scan_digits s'; Some (- n) else if c =? 43 then scan_digits s' else scan_digits (c :: s')
      end;
  if (- 2 ^ 31 <=? n) && (n <? 2 ^ 31) then Some n else None.

Definition translate_modem_state_message (message : list Z) : M manager Z :=
  n <- lift OutOfBounds (strlen message) ;;
  lift Uninitialised (scan_int (take (Z.to_nat n) message)).

(** [write] to every client; what it returns is only printed. *)
Definition broadcast_modem_state (message : list Z) (size : Z) : M manager unit :=
  forM (upto MAX_CLIENT_NUM) (fun i =>
    s <- get ;;
    fd <- lift OutOfBounds (aget (client_fd s) i) ;;
    if fd >? 0 then
      text <- lift OutOfBounds (slice message 0 size) ;;
      modify (tell (Tell fd text))
    else ret tt).

(** The loop of [get_modem_assert_information]; the array and [read_len]. *)
Fixpoint assert_loop (fuel : nat) (assert_info : list Z) (buffer size read_len timeout : Z) : M boot (list Z * Z) :=
  match fuel with
  | O => bad OutOfFuel
  | S fuel =>
      r <- on_uart (read assert_info buffer size) ;;
      let timeout := timeout + 1 in
      let '(size, read_len, buffer) := if r.2 >? 0 then (size - r.2, read_len + r.2, buffer + r.2) else (size, read_len, buffer) in
      if timeout >? 100000 then ret (r.1, read_len)
      else if size >? 0 then assert_loop fuel r.1 buffer size read_len timeout else ret (r.1, read_len)
  end.

(** [open_uart_device(1)]: of its two parameters it gets one. *)
Definition get_modem_assert_information (assert_info : list Z) (size : Z) : M boot (list Z * Z) :=
  uart_fd <- open_device ;;
  if size =? 0 then ret (assert_info, 0) else
  if uart_fd <? 0 then ret (assert_info, 0) else
  _ <- on_uart (write [80] 1) ;;
  n <- gets (fun s => link_fuel (uart s)) ;;
  r <- assert_loop n assert_info 0 size 0 0 ;;
  _ <- on_uart (write [79] 1) ;;
  ret r.

(** "Modem Alive" and "Modem Assert\n". *)
Definition modem_alive : list Z := [77; 111; 100; 101; 109; 32; 65; 108; 105; 118; 101].
Definition modem_assert : list Z := [77; 111; 100; 101; 109; 32; 65; 115; 115; 101; 114; 116; 10].

(** The check of "flash less or not and first alive": the flag and
    [first_alive]. *)
Definition flash_less (flag alive_status : Z) : Z * bool :=
  if flag =? 0xff then (if alive_status =? 1 then (0, true) else (1, false))
  else if flag =? 1 then (if alive_status =? 1 then (2, true) else (flag, false))
  else (flag, false).

Definition tell_monitor_alive (first_alive : bool) : M manager unit :=
  pid <- get_task_pid ;;
  if (pid >? 0) && negb first_alive then kill pid SIGUSR2 else ret tt.

(** An alive modem that is not alive any more: its report, from the UART, for
    the clients. *)
Definition modem_stopped : M manager unit :=
  modify (set_modem_state MODEM_STA_ASSERT) ;;;
  s <- get ;;
  b <- lift OutOfBounds (store (info_buffer s) 0 (replicate 300 0)) ;;
  r <- on_machine (get_modem_assert_information b 256) ;;
  modify (set_info_buffer r.1) ;;;
  if r.2 >? 0 then
    n <- lift OutOfBounds (strlen r.1) ;;
    broadcast_modem_state r.1 n
  else broadcast_modem_state modem_assert (zlen modem_assert).

Definition process_modem_state_message (message : list Z) : M manager unit :=
  mask <- translate_modem_state_message message ;;
  if mask <? 0 then ret tt else
  let alive_status := Z.land mask 1 in
  let reset_status := Z.shiftr mask 1 in
  s <- get ;;
  let '(flag, first_alive) := flash_less (flash_less_flag s) alive_status in
  modify (set_flash_less_flag flag) ;;;
  match modem_state s with
  | MODEM_STA_INIT =>
      if reset_status =? 0 then
        if alive_status =? 1 then
          modify (set_modem_state MODEM_STA_ALIVE) ;;;
          tell_monitor_alive first_alive
        else modify (set_modem_state MODEM_STA_BOOT)
      else ret tt
  | MODEM_STA_ASSERT =>
      if reset_status =? 1 then
        pid <- get_task_pid ;;
        (if pid >? 0 then kill pid SIGUSR1 else ret tt) ;;;
        modify (set_modem_state MODEM_STA_BOOT)
      else ret tt
  | MODEM_STA_BOOTCOMP =>
      if reset_status =? 0 then
        if alive_status =? 1 then
          modify (set_modem_state MODEM_STA_ALIVE) ;;;
          broadcast_modem_state modem_alive (zlen modem_alive) ;;;
          tell_monitor_alive first_alive
        else ret tt
      else ret tt
  | MODEM_STA_ALIVE =>
      (if alive_status =? 0 then modem_stopped else ret tt) ;;;
      if reset_status =? 1 then modify (set_modem_state MODEM_STA_BOOT) else ret tt
  | _ => ret tt
  end.

Section main.
Context (file : list Z -> option (list rx_event)) (malloc : Z -> option (list Z)).

(** The body of the loop of [main]. *)
Definition main_round : M manager unit :=
  r <- get_modem_state (replicate (Z.to_nat DATA_BUF_SIZE) 0) DATA_BUF_SIZE ;;
  (if r.2 >? 0 then process_modem_state_message r.1 else ret tt) ;;;
  s <- get ;;
  if decide (modem_state s = MODEM_STA_BOOT) then
    _ <- on_machine (modem_boot file malloc) ;;
    modify (set_modem_state MODEM_STA_BOOTCOMP)
  else ret tt.

(** Up to the loop: [false] when the program exits, because the phone was
    started by its charger or the state file cannot be opened. [images] is
    the text of the list of images, [line] an array on the stack. *)
Definition main_start (charger state_file : bool) (images : option (list Z)) (line : list Z) : M manager bool :=
  if charger then ret false else
  if negb state_file then ret false else
  _ <- on_machine (get_modem_images_info images line) ;;
  modify (set_modem_state MODEM_STA_INIT) ;;;
  ret true.

(** [modemd_listenaccept_thread]: the first free place takes the client; when
    there is none its descriptor is lost. *)
Fixpoint fill (n : Z) (fds : list Z) : list Z :=
  match fds with
  | [] => []
  | fd :: fds => if fd =? -1 then n :: fds else fd :: fill n fds
  end.

(** The steps of the two threads. *)
Inductive main_step : manager -> manager -> Prop :=
  | step_round s s' : main_round s = Ret tt s' -> main_step s s'
  | step_listen s : listening s = false -> main_step s (set_client_fd (replicate MAX_CLIENT_NUM (-1)) true s)
  | step_accept s n : listening s = true -> 0 <= n -> main_step s (set_client_fd (fill n (client_fd s)) true s).

Definition main_steps : manager -> manager -> Prop := rtc main_step.
End main.

(** The state in which a process starts. *)
Definition manager_init (m : boot) (es : list (option rx_event)) (ps : list Z) : manager :=
  Manager MODEM_STA_SHUTDOWN 0xff (replicate MAX_CLIENT_NUM 0) (replicate (Z.to_nat TEST_BUFFER_SIZE) 0) m false es ps [].
