(* ===== verification/ModemStateProofs.v ===== *)
(** * The manager refines an abstract monitor

    The monitor: four phases, whether the modem was alive before, and the
    signals that are due. Every status message that the manager of
    ModemState.v handles is a step of it; the handling accesses nothing
    outside its arrays. *)
From stdpp Require Import base list relations.
From Stdlib Require Import ZArith Lia.
From S2P Require Import Prelude Packet ModemBoot ModemBootProofs ModemHandshake ModemState.

(** ** The monitor *)

Inductive phase := Starting | Booted | Alive | Asserted.
Record monitor := Monitor { now : phase; known : bool; signals : list signal }.

(** The step for a status; [found] is whether the monitor program runs. *)
Definition due (found : bool) (sig : signal) (m : monitor) : list signal := if found then signals m ++ [sig] else signals m.
Definition observe (found : bool) (m : monitor) (alive : bool) (reset : Z) : monitor :=
  let again := if known m then due found SIGUSR2 m else signals m in
  match now m with
  | Starting =>
      if reset =? 0 then if alive then Monitor Alive true again else Monitor Booted (known m) (signals m)
      else Monitor Starting (known m || alive) (signals m)
  | Booted => if (reset =? 0) && alive then Monitor Alive true again else Monitor Booted (known m || alive) (signals m)
  | Alive => Monitor (if reset =? 1 then Booted else if alive then Alive else Asserted) (known m || alive) (signals m)
  | Asserted => if reset =? 1 then Monitor Booted (known m || alive) (due found SIGUSR1 m) else Monitor Asserted (known m || alive) (signals m)
  end.

(** The manager's state as a monitor: the boot that a status leads to belongs
    to its step. *)
Definition phase_of (x : MODEM_STA_E) : option phase :=
  match x with
  | MODEM_STA_INIT => Some Starting
  | MODEM_STA_BOOT | MODEM_STA_BOOTCOMP => Some Booted
  | MODEM_STA_ALIVE => Some Alive
  | MODEM_STA_ASSERT => Some Asserted
  | _ => None
  end.
Definition signals_of (l : list effect) : list signal := omap (fun e => match e with Kill _ sig => Some sig | Tell _ _ => None end) l.
Definition known_flag (f : Z) (k : bool) : Prop := if k then f = 0 \/ f = 2 else f = 0xff \/ f = 1.

Record shows (s : manager) (m : monitor) : Prop := {
  shows_phase : phase_of (modem_state s) = Some (now m);
  shows_known : known_flag (flash_less_flag s) (known m);
  shows_signals : signals_of (told s) = signals m
}.

(** What a wait for the environment may look like: the scripts are used up, or
    [sscanf] stored nothing. *)
Definition waits (f : fault) : Prop := f = Blocked \/ f = Uninitialised.

(** What is still to come: the reads of the state file and the searches. *)
Definition script (s : manager) : list (option rx_event) * list Z := (states s, pids s).
(** Whether a status makes the manager search for the monitor program. *)
Definition looks (p : phase) (alive : bool) (reset : Z) : bool :=
  match p with
  | Starting | Booted => (reset =? 0) && alive
  | Alive => false
  | Asserted => reset =? 1
  end.
(** One search is used up, when there is one. *)
Definition used (look : bool) (s s' : manager) : Prop :=
  states s' = states s /\ if look then exists p, pids s = p :: pids s' else pids s' = pids s.

(** Whether the next search finds the monitor (without one, no signal is
    decided). *)
Definition found_next (s : manager) : bool := match pids s with p :: _ => p >? 0 | [] => true end.

(** ** Pieces of the handler *)

Section handler.
Context (P : Z -> Prop).

(** The arrays, and something about the searches to come. *)
Definition arrays_ok (s : manager) : Prop := length (client_fd s) = MAX_CLIENT_NUM /\ 300 <= zlen (info_buffer s) /\ Forall P (pids s).
Lemma arrays_pids p ps s : arrays_ok s -> pids s = p :: ps -> arrays_ok (set_pids ps s).
Proof. intros (H1 & H2 & H3) E. rewrite E in H3. by apply Forall_cons in H3 as [_ H3]. Qed.

Lemma signals_of_app a b : signals_of (a ++ b) = signals_of a ++ signals_of b.
Proof. apply omap_app. Qed.

(** Steps that send no signal and leave the state of the modem alone. *)
Record quiet (s s' : manager) : Prop := {
  quiet_state : modem_state s' = modem_state s;
  quiet_flag : flash_less_flag s' = flash_less_flag s;
  quiet_signals : signals_of (told s') = signals_of (told s);
  quiet_fds : client_fd s' = client_fd s;
  quiet_info : zlen (info_buffer s') = zlen (info_buffer s);
  quiet_pids : pids s' = pids s;
  quiet_states : states s' = states s;
  quiet_machine : machine s' = machine s
}.
#[export] Instance quiet_preorder : PreOrder quiet.
Proof. split; [by intros ?|]. intros a b c [] []. split; congruence. Qed.

Lemma quiet_shows s s' m : quiet s s' -> shows s m -> shows s' m.
Proof. intros [] []. split; congruence. Qed.
Lemma quiet_arrays s s' : quiet s s' -> arrays_ok s -> arrays_ok s'.
Proof. intros [] []. split; congruence. Qed.

(** What a message to all clients leaves. *)
Definition told_all (fds text : list Z) : list effect := (fun fd => Tell fd text) <$> filter (fun fd => 0 < fd) fds.

Lemma signals_told_all fds text : signals_of (told_all fds text) = [].
Proof. unfold told_all. by induction (filter _ fds) as [|fd l IH]. Qed.

Lemma slice_from_0 text n : 0 <= n <= zlen text -> slice text 0 n = Some (take (Z.to_nat n) text).
Proof.
  intros H. unfold slice. change (Z.to_nat 0) with 0%nat. rewrite drop_0, (proj2 (Z.eqb_eq _ n)); [done|].
  unfold zlen in *. rewrite length_take. lia.
Qed.

(** The state after it. *)
Definition tell_all (text : list Z) (fds : list Z) (s : manager) : manager :=
  Manager (modem_state s) (flash_less_flag s) (client_fd s) (info_buffer s) (machine s) (listening s) (states s) (pids s) (told s ++ told_all fds text).

Lemma tell_all_nil text s : tell_all text [] s = s.
Proof. unfold tell_all, told_all. cbn. rewrite app_nil_r. by destruct s. Qed.

Lemma quiet_tell_all text fds s : quiet s (tell_all text fds s).
Proof. split; cbn; rewrite ?signals_of_app, ?signals_told_all, ?app_nil_r; done. Qed.

Lemma tell_all_snoc text fds fd s : tell_all text (fds ++ [fd]) s = (if fd >? 0 then tell (Tell fd text) (tell_all text fds s) else tell_all text fds s).
Proof.
  unfold tell_all, told_all. rewrite filter_app, fmap_app, app_assoc. destruct (Z.gtb_spec fd 0).
  - by rewrite filter_cons_True by lia.
  - rewrite filter_cons_False by lia. cbn. by rewrite app_nil_r.
Qed.

Lemma broadcast_wp F text n s : length (client_fd s) = MAX_CLIENT_NUM -> 0 <= n <= zlen text ->
  wp F (broadcast_modem_state text n) (fun _ s' => s' = tell_all (take (Z.to_nat n) text) (client_fd s) s) (fun _ => False) s.
Proof.
  intros Hl Hn. unfold broadcast_modem_state.
  eapply wp_mono; [apply (wp_forM_upto _ _ (fun i s' => s' = tell_all (take (Z.to_nat n) text) (take i (client_fd s)) s))| |intros s0 H0; exact H0].
  - by rewrite take_0, tell_all_nil.
  - intros i s' Hi ->. repeat wp_step. destruct (lookup_lt_is_Some_2 (client_fd s) i) as [fd E]; [lia|].
    eapply wp_lift_Some; [cbn [client_fd tell_all]; rewrite aget_nat; exact E|]. rewrite (take_S_r _ _ _ E), tell_all_snoc.
    destruct (fd >? 0); [|done]. wp_step. eapply wp_lift_Some; [by apply slice_from_0|]. done.
  - intros [] s' ->. by rewrite (take_ge (client_fd s)) by (by rewrite Hl).
Qed.

(** The monitor program is looked for, once. *)
Lemma found_wp (Q : Z -> manager -> Prop) E s : (forall p ps, pids s = p :: ps -> Q p (set_pids ps s)) -> wp waits get_task_pid Q E s.
Proof. intros H. unfold get_task_pid, wp, bind, get. destruct (pids s) as [|p ps] eqn:Ep; [by left|]. by apply H. Qed.

(** *** The status *)

Lemma translate_wp message n s Q E : strlen message = Some n -> (forall v, scan_int (take (Z.to_nat n) message) = Some v -> Q v s) ->
  wp waits (translate_modem_state_message message) Q E s.
Proof.
  intros Hn HQ. unfold translate_modem_state_message. wp_step. eapply wp_lift_Some; [exact Hn|]. apply wp_lift; [exact HQ|]. by right.
Qed.

Lemma alive_cases mask : Z.land mask 1 = Z.b2z (Z.odd mask).
Proof. change 1 with (Z.ones 1). rewrite Z.land_ones, <- Z.bit0_mod, Z.bit0_odd by lia. done. Qed.

Lemma flash_less_known f k alive : known_flag f k ->
  let r := flash_less f (Z.b2z alive) in known_flag r.1 (k || alive) /\ (alive = true -> r.2 = negb k).
Proof. unfold known_flag, flash_less. destruct k, alive; intros [-> | ->]; cbn; auto. Qed.

(** *** The report of a modem that has stopped *)

Lemma put_snoc b d x : zlen d + zlen x <= zlen b -> Prelude.put (Prelude.put b 0 d) (zlen d) x = Prelude.put b 0 (d ++ x).
Proof. intros H. pose proof (put_put b 0 d x) as E. rewrite Z.add_0_l in E. apply E; lia. Qed.

(** It holds bytes from the UART, in their order and at most 256. *)
Lemma assert_loop_wp fuel : forall b d t s, 256 <= zlen b -> zlen d < 256 -> (link_fuel (uart s) <= fuel)%nat ->
  wp (eq Blocked) (assert_loop fuel (Prelude.put b 0 d) (zlen d) (256 - zlen d) (zlen d) t)
    (fun r _ => exists e, r = (Prelude.put b 0 (d ++ e), zlen (d ++ e)) /\ zlen (d ++ e) <= 256) (fun _ => False) s.
Proof.
  induction fuel as [|fuel IH]; intros b d t s Hb Hd Hf; [unfold link_fuel in Hf; lia|]. cbn [assert_loop]. wp_step. apply wp_zoom. unfold wp at 1, read.
  destruct (uart s) as [sb txs log evs] eqn:Eu. cbn [rx]. pose proof (zlen_nonneg d) as Hd0.
  assert (Hstop : exists e, (Prelude.put b 0 d, zlen d) = (Prelude.put b 0 (d ++ e), zlen (d ++ e)) /\ zlen (d ++ e) <= 256)
    by (exists []; rewrite app_nil_r; split; [done|lia]).
  destruct evs as [|[r|x] evs]; [done| |].
  - cbn [fst snd]. destruct (Z.gtb_spec (Z.min r 0) 0); [lia|]. destruct (_ >? 100000); [exact Hstop|].
    destruct (Z.gtb_spec (256 - zlen d) 0); [|exact Hstop]. apply IH; [done|done|]. unfold link_fuel in *. cbn in *. lia.
  - set (y := take (Z.to_nat (256 - zlen d)) x). assert (Hy : zlen y <= 256 - zlen d) by (unfold y, zlen in *; rewrite length_take; lia).
    rewrite store_ok by (rewrite ?zlen_put by lia; lia). rewrite put_snoc by lia. cbn [fst snd]. pose proof (zlen_nonneg y) as Hy0.
    destruct (Z.gtb_spec (zlen y) 0).
    + replace (256 - zlen d - zlen y) with (256 - zlen (d ++ y)) by (rewrite zlen_app; lia). rewrite <- zlen_app.
      assert (Hstop' : exists e, (Prelude.put b 0 (d ++ y), zlen (d ++ y)) = (Prelude.put b 0 (d ++ e), zlen (d ++ e)) /\ zlen (d ++ e) <= 256)
        by (exists y; split; [done|rewrite zlen_app; lia]).
      destruct (_ >? 100000); [exact Hstop'|]. destruct (Z.gtb_spec (256 - zlen (d ++ y)) 0); [|exact Hstop'].
      eapply wp_mono; [apply IH; [done|lia|]| |done].
      * unfold link_fuel in *. cbn [rx uart set_uart] in *. change (stream (RxData x :: evs)) with (x ++ stream evs) in Hf.
        destruct (Nat.leb_spec (length x) (Z.to_nat (256 - zlen d))).
        -- cbn [length] in Hf. rewrite length_app in Hf. lia.
        -- change (stream (RxData ?z :: evs)) with (z ++ stream evs). cbn [length] in *. rewrite length_app in *. rewrite length_drop. lia.
      * intros r s' (e & -> & He). exists (y ++ e). rewrite app_assoc. done.
    + assert (x = []) as ->.
      { destruct x as [|c x]; [done|]. unfold y in H. destruct (Z.to_nat (256 - zlen d)) eqn:En; [lia|]. cbn [take] in H. rewrite zlen_cons in H. pose proof (zlen_nonneg (take n x)). lia. }
      unfold y. rewrite take_nil, app_nil_r. destruct (_ >? 100000); [exact Hstop|]. destruct (Z.gtb_spec (256 - zlen d) 0); [|exact Hstop].
      apply IH; [done|done|]. unfold link_fuel in *. cbn in *. lia.
Qed.

(** From a UART that has all of it, the first [size] bytes. *)
Lemma assert_loop_full fuel : forall b d size t s, good_file (rx (uart s)) -> 0 < size <= zlen (stream (rx (uart s))) -> zlen d + size <= zlen b ->
  t + size <= 100000 -> size < Z.of_nat fuel ->
  exists evs, assert_loop fuel (Prelude.put b 0 d) (zlen d) size (zlen d) t s =
    Ret (Prelude.put b 0 (d ++ take (Z.to_nat size) (stream (rx (uart s)))), zlen d + size) (set_uart (Link (send_buffer (uart s)) (tx (uart s)) (sent (uart s)) evs) s).
Proof.
  induction fuel as [|fuel IH]; intros b d size t s Hg Hs Hb Ht Hf; [lia|]. cbn [assert_loop]. pose proof (zlen_nonneg d) as Hd0.
  unfold bind, on_uart, zoom, read. destruct (uart s) as [sb txs log evs] eqn:Eu. cbn [rx send_buffer tx sent] in *.
  destruct evs as [|e evs]; [change (zlen (stream [])) with 0 in Hs; lia|]. apply Forall_cons in Hg as [(c & x & ->) Hg].
  set (y := take (Z.to_nat size) (c :: x)). assert (Hy : 0 < zlen y <= size).
  { unfold y. destruct (Z.to_nat size) eqn:En; [lia|]. cbn [take]. rewrite zlen_cons. unfold zlen. rewrite length_take. lia. }
  rewrite store_ok by (rewrite ?zlen_put by lia; lia). rewrite put_snoc by lia. cbn [fst snd].
  rewrite (proj2 (Z.gtb_lt (zlen y) 0)) by lia. destruct (Z.gtb_spec (t + 1) 100000); [lia|].
  change (stream (RxData (c :: x) :: evs)) with ((c :: x) ++ stream evs) in *. rewrite zlen_app in Hs. destruct (Nat.leb_spec (length (c :: x)) (Z.to_nat size)).
  - assert (y = c :: x) as Ey by (unfold y; by rewrite take_ge by lia). rewrite Ey in *. rewrite firstn_app, (take_ge (c :: x)) by lia.
    destruct (Z.gtb_spec (size - zlen (c :: x)) 0).
    + rewrite <- zlen_app. destruct (IH b (d ++ c :: x) (size - zlen (c :: x)) (t + 1) (set_uart (Link sb txs log evs) s)) as [evs' E].
      * exact Hg.
      * cbn [uart set_uart rx]. lia.
      * rewrite zlen_app. lia.
      * lia.
      * lia.
      * rewrite E. exists evs'. cbn [uart set_uart rx send_buffer tx sent]. rewrite <- app_assoc, zlen_app.
        replace (Z.to_nat (size - zlen (c :: x))) with (Z.to_nat size - length (c :: x))%nat by (unfold zlen; lia). do 2 f_equal. lia.
    + exists evs. replace (Z.to_nat size - length (c :: x))%nat with 0%nat by (unfold zlen in *; lia). rewrite take_0, app_nil_r.
      unfold ret. do 2 f_equal. lia.
  - assert (Ey : zlen y = size) by (unfold y, zlen; rewrite length_take; lia). rewrite Ey, Z.sub_diag. cbn [Z.gtb Z.compare].
    eexists. rewrite take_app_le by lia. unfold ret. reflexivity.
Qed.

Lemma write_1 c s : wp (eq Blocked) (on_uart (write [c] 1)) (fun _ s' => rx (uart s') = rx (uart s)) (fun _ => False) s.
Proof. apply wp_zoom. unfold wp, write. change (zlen [c] <? 1) with false. cbn iota. by destruct (tx (uart s)). Qed.

Lemma assert_information_wp b s : 256 <= zlen b ->
  wp (eq Blocked) (get_modem_assert_information b 256) (fun r _ => exists d, r = (Prelude.put b 0 d, zlen d) /\ zlen d <= 256) (fun _ => False) s.
Proof.
  intros Hb. assert (Hnone : exists d, (b, 0) = (Prelude.put b 0 d, zlen d) /\ zlen d <= 256) by (exists []; rewrite put_nil by lia; done).
  unfold get_modem_assert_information, open_device. repeat wp_step. destruct (opens s) as [|fd o]; [done|]. repeat wp_step.
  change (256 =? 0) with false. cbn iota. destruct (fd <? 0); [exact Hnone|]. wp_step. eapply wp_mono; [apply write_1| |done]. intros _ s1 _.
  repeat wp_step. eapply (wp_mono _ (fun r _ => exists d, r = (Prelude.put b 0 d, zlen d) /\ zlen d <= 256) _ (fun _ => False)); [| |done].
  - pose proof (assert_loop_wp (link_fuel (uart s1)) b [] 0 s1 Hb) as H. rewrite put_nil in H by lia. apply H; done.
  - intros r s2 Hr. wp_step. eapply wp_mono; [apply write_1| |done]. intros _ s3 _. exact Hr.
Qed.

(** A text up to its first zero. *)
Fixpoint c_string (l : list Z) : list Z :=
  match l with
  | [] => []
  | c :: l => if c =? 0 then [] else c :: c_string l
  end.
Lemma strlen_c_string d rest : strlen (d ++ 0 :: rest) = Some (zlen (c_string d)) /\ take (length (c_string d)) (d ++ 0 :: rest) = c_string d.
Proof.
  induction d as [|c d [IH1 IH2] ]; [done|]. cbn [app strlen c_string]. destruct (c =? 0); [done|]. rewrite IH1, obind_Some, zlen_cons. split; [f_equal; lia|].
  cbn [length take]. by rewrite IH2.
Qed.
Lemma c_string_length d : zlen (c_string d) <= zlen d.
Proof. induction d as [|c d IH]; [done|]. cbn [c_string]. pose proof (zlen_nonneg d). destruct (c =? 0); rewrite ?zlen_cons; [change (zlen (@nil Z)) with 0; lia|lia]. Qed.

(** The report ends with a zero of the 300 that were stored before. *)
Lemma report_text b d : 300 <= zlen b -> zlen d <= 256 -> exists rest, Prelude.put (Prelude.put b 0 (replicate 300 0)) 0 d = d ++ 0 :: rest.
Proof.
  intros Hb Hd. unfold Prelude.put at 1. rewrite take_0. cbn [app]. unfold Prelude.put. rewrite take_0. cbn [app].
  replace (replicate 300 0) with (replicate (length d) 0 ++ 0 :: replicate (299 - length d) 0).
  - rewrite <- app_assoc. rewrite drop_app_length' by (rewrite length_replicate; unfold zlen; lia). cbn [app]. by eexists.
  - unfold zlen in Hd. replace 300%nat with (length d + S (299 - length d))%nat by lia. by rewrite replicate_add.
Qed.

Definition alive_report (s : manager) (d : list Z) : list Z := if zlen d >? 0 then c_string d else modem_assert.

Lemma shows_tell_all s m text fds : shows s m -> shows (tell_all text fds s) m.
Proof. apply quiet_shows, quiet_tell_all. Qed.
Lemma arrays_tell_all s text fds : arrays_ok s -> arrays_ok (tell_all text fds s).
Proof. apply quiet_arrays, quiet_tell_all. Qed.

Lemma tell_monitor_wp again s m : arrays_ok s -> shows s m ->
  wp waits (tell_monitor_alive (negb again)) (fun _ s' => arrays_ok s' /\
    shows s' (Monitor (now m) (known m) (if again then due (found_next s) SIGUSR2 m else signals m)) /\ used true s s') (fun _ => False) s.
Proof.
  intros Ha Hs. unfold tell_monitor_alive, kill. wp_step. apply found_wp. intros p ps Ep. unfold found_next. rewrite Ep, negb_involutive, andb_comm.
  pose proof (arrays_pids _ _ _ Ha Ep) as Ha'. assert (Hu : forall s', states s' = states s -> pids s' = ps -> used true s s') by (intros s' H1 H2; split; [done|exists p; congruence]).
  destruct again; cbn [andb]; [|wp_step; split; [done|]; split; [by destruct Hs; split|by apply Hu] ].
  destruct (p >? 0); wp_step; (split; [done|]); (split; [|by apply Hu]); destruct Hs as [H1 H2 H3]; split; try done. cbn. by rewrite signals_of_app, H3.
Qed.

(** ** The handler *)

(** The report: the state of the modem changes, and no signal is sent. *)
Lemma modem_stopped_wp s : arrays_ok s ->
  wp waits modem_stopped (fun _ s' => arrays_ok s' /\ modem_state s' = MODEM_STA_ASSERT /\ flash_less_flag s' = flash_less_flag s /\
    signals_of (told s') = signals_of (told s) /\ script s' = script s) (fun _ => False) s.
Proof.
  intros Ha. unfold modem_stopped. repeat wp_step. cbn [info_buffer set_modem_state]. destruct Ha as (Hl & Hb & HP).
  assert (H300 : zlen (replicate 300 0) = 300) by done.
  eapply wp_lift_Some; [apply store_ok; lia|]. repeat wp_step. apply wp_zoom. set (b := Prelude.put _ _ _).
  assert (Hlb : zlen b = zlen (info_buffer s)) by (apply zlen_put; lia).
  eapply wp_mono; [apply (wp_faults (eq Blocked)); [by intros f <-; left|]; apply assert_information_wp; lia| |done].
  intros r m1 (d & -> & Hd). repeat wp_step. cbn [fst snd]. set (s1 := set_info_buffer _ _).
  assert (Ha1 : arrays_ok s1) by (split; [done|]; split; [cbn; rewrite zlen_put; lia|done]).
  assert (Hend : forall text n, 0 <= n <= zlen text -> wp waits (broadcast_modem_state text n) (fun _ s' => arrays_ok s' /\ modem_state s' = MODEM_STA_ASSERT /\
    flash_less_flag s' = flash_less_flag s /\ signals_of (told s') = signals_of (told s) /\ script s' = script s) (fun _ => False) s1).
  { intros text n Hn. eapply wp_mono; [by apply broadcast_wp| |done]. intros _ s' ->.
    destruct (quiet_tell_all (take (Z.to_nat n) text) (client_fd s1) s1) as [H1 H2 H3 H4 H5 H6 H7 H8]. split; [by apply arrays_tell_all|]. split; [exact H1|]. split; [exact H2|]. split; [exact H3|]. unfold script. by rewrite H6, H7. }
  destruct (zlen d >? 0).
  - destruct (report_text (info_buffer s) d Hb Hd) as [rest E]. fold b in E. wp_step. rewrite E.
    destruct (strlen_c_string d rest) as [En _]. eapply wp_lift_Some; [exact En|]. apply Hend. rewrite zlen_app. pose proof (c_string_length d).
    pose proof (zlen_nonneg (c_string d)). pose proof (zlen_nonneg (0 :: rest)). lia.
  - apply Hend. done.
Qed.

Definition handled (s s' : manager) (m : monitor) (v : Z) : Prop :=
  arrays_ok s' /\ shows s' (if v <? 0 then m else observe (found_next s) m (Z.odd v) (Z.shiftr v 1)) /\
  used (negb (v <? 0) && looks (now m) (Z.odd v) (Z.shiftr v 1)) s s'.

Lemma tell_monitor_wp' first k s m : arrays_ok s -> shows s m -> first = negb k ->
  wp waits (tell_monitor_alive first) (fun _ s' => arrays_ok s' /\
    shows s' (Monitor (now m) (known m) (if k then due (found_next s) SIGUSR2 m else signals m)) /\ used true s s') (fun _ => False) s.
Proof. intros Ha Hs ->. by apply tell_monitor_wp. Qed.

Lemma used_same s s' : script s' = script s -> used false s s'.
Proof. intros [= H1 H2]. by split. Qed.

Lemma process_wp message n s m : arrays_ok s -> shows s m -> modem_state s <> MODEM_STA_BOOT -> strlen message = Some n ->
  wp waits (process_modem_state_message message) (fun _ s' => exists v, scan_int (take (Z.to_nat n) message) = Some v /\ handled s s' m v) (fun _ => False) s.
Proof.
  intros Ha Hs Hnb Hn. unfold process_modem_state_message. wp_step. eapply translate_wp; [exact Hn|]. intros v Hv.
  eapply (wp_mono _ (fun _ s' => handled s s' m v) _ (fun _ => False)); [|by exists v|done].
  unfold handled. destruct (v <? 0); [by wp_step|]. cbn [negb andb]. rewrite alive_cases. set (reset := Z.shiftr v 1). set (alive := Z.odd v). repeat wp_step.
  destruct Hs as [Hp Hk Hsig]. pose proof (flash_less_known _ _ alive Hk) as [Hk' Hfirst].
  destruct (flash_less _ _) as [flag first]. cbn [fst snd] in *. wp_step. set (s1 := set_flash_less_flag flag s).
  assert (Ha1 : arrays_ok s1) by done. assert (Hs1 : forall x p, phase_of x = Some p -> shows (set_modem_state x s1) (Monitor p (known m || alive) (signals m))) by done.
  assert (Hs0 : shows s1 (Monitor (now m) (known m || alive) (signals m))) by done.
  assert (Hb : Z.b2z alive =? 1 = alive) by (by destruct alive). assert (Hb0 : Z.b2z alive =? 0 = negb alive) by (by destruct alive).
  rewrite Hb, Hb0. unfold observe, looks. destruct (modem_state s) eqn:Es; cbn in Hp; try discriminate Hp; try done; injection Hp as Hp; rewrite <- Hp in *.
  - destruct (reset =? 0); [|by wp_step]. destruct alive; [|wp_step; split; [done|]; rewrite orb_false_r in Hs1; split; [by apply Hs1|done] ].
    repeat wp_step. rewrite orb_true_r in Hs1.
    eapply wp_mono; [apply (tell_monitor_wp' _ (known m) (set_modem_state MODEM_STA_ALIVE s1) _ Ha1 (Hs1 MODEM_STA_ALIVE Alive eq_refl)); by apply Hfirst|done|done].
  - do 2 wp_step. eapply (wp_mono _ (fun _ s' => arrays_ok s' /\ modem_state s' = (if alive then MODEM_STA_ALIVE else MODEM_STA_ASSERT) /\ flash_less_flag s' = flag /\ signals_of (told s') = signals m /\ script s' = script s) _ (fun _ => False)); [| |done].
    + destruct alive; cbn [negb]; [by wp_step|]. eapply wp_mono; [by apply modem_stopped_wp| |done]. intros _ s' (H1 & H2 & H3 & H4 & H5).
      split; [done|]. split; [done|]. split; [done|]. by rewrite H4.
    + intros _ s' (H1 & H2 & H3 & H4 & H5).
      destruct (reset =? 1); wp_step; (split; [done|]); (split; [|by apply used_same]); split; cbn [now known signals modem_state set_modem_state flash_less_flag told]; rewrite ?H2, ?H3, ?H4; try done.
      by destruct alive.
  - destruct (reset =? 1); [|by wp_step]. do 2 wp_step. apply found_wp. intros p ps Ep. change (pids s = p :: ps) in Ep. unfold found_next. rewrite Ep. pose proof (arrays_pids _ _ _ Ha1 Ep) as Ha2.
    unfold kill, due. destruct (p >? 0); repeat wp_step; (split; [done|]); (split; [|by split; [|exists p] ]); split; try done. cbn. by rewrite signals_of_app, Hsig.
  - destruct (reset =? 0); [|by wp_step]. destruct alive; cbn [andb]; [|by wp_step]. repeat wp_step. set (s2 := set_modem_state MODEM_STA_ALIVE s1).
    assert (Ha2 : arrays_ok s2) by done. rewrite orb_true_r in Hs1. pose proof (Hs1 MODEM_STA_ALIVE Alive eq_refl) as Hs2.
    eapply wp_mono; [apply broadcast_wp; [apply Ha|done]| |done]. intros _ s3 ->.
    eapply wp_mono; [apply (tell_monitor_wp' _ (known m)); [by apply arrays_tell_all|apply shows_tell_all, Hs2|by apply Hfirst]|done|done].
Qed.
End handler.
