(* ===== verification/ModemMonitor.v ===== *)
(** * What the manager does

    The theorems on main.c: a status is handled as the monitor of
    ModemStateProofs.v observes it, so is a whole run; the order of the
    signals in it; the report of a modem that has stopped; the reboot that
    nobody is told of. *)
From stdpp Require Import base list relations.
From Stdlib Require Import ZArith Lia.
From S2P Require Import Prelude Packet ModemBoot ModemBootProofs ModemHandshake ModemState ModemStateProofs.

(** ** One status *)

(** Handling a status message, a text with its terminating zero: the
    number in it is observed as the abstract monitor does - a negative one is
    ignored -, or it waits for a device or a search, or the text is no number
    and [sscanf] stores nothing; it never touches anything outside the
    manager's arrays, and its loops end. *)
Theorem status_observed P message n s m : arrays_ok P s -> shows s m -> modem_state s <> MODEM_STA_BOOT -> strlen message = Some n ->
  match process_modem_state_message message s with
  | Ret _ s' => exists v, scan_int (take (Z.to_nat n) message) = Some v /\ arrays_ok P s' /\
      shows s' (if v <? 0 then m else observe (found_next s) m (Z.odd v) (Z.shiftr v 1))
  | Exit _ => False
  | Bad f => f = Blocked \/ f = Uninitialised
  end.
Proof.
  intros Ha Hs Hb Hn. pose proof (process_wp P message n s m Ha Hs Hb Hn) as H. unfold wp in H. destruct (process_modem_state_message message s); [|done..].
  destruct H as (v & Hv & Ha' & Hs' & _). by exists v.
Qed.

(** ** Runs *)

(** The status in what a read of the state file gives: of at most 128 bytes
    the number before the first zero; nothing in a failed or empty read or a
    negative number. *)
Definition status_in (e : option rx_event) : option (bool * Z) :=
  match e with
  | Some (RxData (c :: d)) => v ← scan_int (c_string (take 128 (c :: d))); if v <? 0 then None else Some (Z.odd v, Z.shiftr v 1)
  | _ => None
  end.

(** The monitor that observes statuses, with the results of the searches for
    the monitor program: a search is used up by a status that asks for one. *)
Fixpoint watch (m : monitor) (ps : list Z) (l : list (bool * Z)) : option (monitor * list Z) :=
  match l with
  | [] => Some (m, ps)
  | (alive, reset) :: l =>
      if looks (now m) alive reset then match ps with [] => None | p :: ps => watch (observe (p >? 0) m alive reset) ps l end
      else watch (observe false m alive reset) ps l
  end.

Lemma watch_app l1 : forall m ps l2, watch m ps (l1 ++ l2) = '(m', ps') ← watch m ps l1; watch m' ps' l2.
Proof.
  induction l1 as [|[alive reset] l1 IH]; intros m ps l2; [done|]. cbn [app watch]. destruct (looks _ _ _); [|apply IH]. destruct ps; [done|apply IH].
Qed.
Lemma observe_unasked found m alive reset : looks (now m) alive reset = false -> observe found m alive reset = observe false m alive reset.
Proof. unfold looks, observe. destruct (now m), (reset =? 0), (reset =? 1), alive; done. Qed.

(** One status, as a step of the handler uses the searches. *)
Lemma watch_one s s' m alive reset : used (looks (now m) alive reset) s s' ->
  watch m (pids s) [(alive, reset)] = Some (observe (found_next s) m alive reset, pids s').
Proof.
  intros [_ H]. unfold watch, found_next. destruct (looks _ _ _) eqn:El; [by destruct H as [p ->]|]. rewrite H. do 2 f_equal. symmetry. by apply observe_unasked.
Qed.

(** What holds between the rounds. *)
Definition between (P : Z -> Prop) (s : manager) (m : monitor) : Prop := arrays_ok P s /\ shows s m /\ modem_state s <> MODEM_STA_BOOT.

Lemma fill_length n l : length (fill n l) = length l.
Proof. induction l as [|fd l IH]; [done|]. cbn [fill]. destruct (fd =? -1); [done|]. cbn [length]. by rewrite IH. Qed.

(** The text in an array that ends with zeros. *)
Lemma strlen_nonneg l : forall n, strlen l = Some n -> 0 <= n.
Proof.
  induction l as [|c l IH]; intros n; [done|]. cbn [strlen]. destruct (c =? 0); [by intros [= <-]|]. destruct (strlen l); [|done].
  rewrite obind_Some. intros [= <-]. specialize (IH _ eq_refl). lia.
Qed.
Lemma strlen_text l : forall n, strlen l = Some n -> take (Z.to_nat n) l = c_string l.
Proof.
  induction l as [|c l IH]; intros n; [done|]. cbn [strlen c_string]. destruct (c =? 0); [by intros [= <-]|].
  destruct (strlen l) as [k|] eqn:Ek; [|done]. rewrite obind_Some. intros [= <-]. apply strlen_nonneg in Ek as Hk.
  replace (Z.to_nat (k + 1)) with (S (Z.to_nat k)) by lia. cbn [take]. by rewrite (IH k).
Qed.
Lemma c_string_zeros d n : c_string (d ++ replicate n 0) = c_string d.
Proof. induction d as [|c d IH]; [by destruct n|]. cbn [app c_string]. by rewrite IH. Qed.
Lemma message_text d : zlen d <= 128 -> c_string (Prelude.put (replicate (Z.to_nat DATA_BUF_SIZE) 0) 0 d) = c_string d.
Proof. intros H. unfold Prelude.put. rewrite take_0. cbn [app]. rewrite drop_replicate. apply c_string_zeros. Qed.

Section runs.
Context (file : list Z -> option (list rx_event)) (malloc : Z -> option (list Z)) (P : Z -> Prop).

(** What a step leaves: it observed the statuses in what it read. *)
Definition follows (s s' : manager) (m : monitor) : Prop :=
  exists read m', between P s' m' /\ states s = read ++ states s' /\ watch m (pids s) (omap status_in read) = Some (m', pids s').

(** The boot that follows belongs to the same phase. *)
Lemma round_end s s' m : arrays_ok P s -> shows s m ->
  (s <- get ;; if decide (modem_state s = MODEM_STA_BOOT) then _ <- on_machine (modem_boot file malloc) ;; modify (set_modem_state MODEM_STA_BOOTCOMP) else ret tt) s = Ret tt s' ->
  between P s' m /\ script s' = script s.
Proof.
  intros Ha [H1 H2 H3] E. unfold bind, get in E. destruct (decide _) as [Eb|Hne]; [|by injection E as <-]. rewrite Eb in H1.
  unfold on_machine, zoom in E. destruct (modem_boot _ _ _) as [r m1|m1|f]; try discriminate E. injection E as <-.
  split; [|done]. split; [exact Ha|]. split; [by split|done].
Qed.

(** A read takes one entry of the script; the buffer holds what it gave. *)
Lemma get_modem_state_step s r s1 : get_modem_state (replicate (Z.to_nat DATA_BUF_SIZE) 0) DATA_BUF_SIZE s = Ret r s1 ->
  exists e, states s = e :: states s1 /\ s1 = set_states (states s1) s /\
    (r.2 > 0 -> forall n, strlen r.1 = Some n -> status_in e = v ← scan_int (take (Z.to_nat n) r.1); if v <? 0 then None else Some (Z.odd v, Z.shiftr v 1)) /\
    (r.2 <= 0 -> status_in e = None).
Proof.
  unfold get_modem_state, bind, get, modify. destruct (states s) as [|e es]; [done|]. intros E. exists e.
  destruct e as [ [q|d]|]; [by injection E as <- <-| |by injection E as <- <-]. unfold lift in E.
  change (Z.to_nat DATA_BUF_SIZE) with 128%nat in *. assert (Hd : zlen (take 128 d) <= 128) by (unfold zlen; rewrite length_take; lia).
  rewrite store_ok in E by (try (change (zlen (replicate 128 0)) with 128); lia). injection E as <- <-. cbn [fst snd states set_states].
  split; [done|]. split; [done|]. destruct d as [|c d]; [done|]. split.
  - intros _ n Hn. pose proof (message_text _ Hd) as Hm. apply strlen_text in Hn as Ht.
    match type of Hn with strlen ?x = _ => change (c_string x = c_string (take 128 (c :: d))) in Hm end. by rewrite Ht, Hm.
  - change (take 128 (c :: d)) with (c :: take 127 d). rewrite zlen_cons. pose proof (zlen_nonneg (take 127 d)). lia.
Qed.

(** Handling a message that it returns from. *)
Lemma process_follows message s s' m : between P s m -> process_modem_state_message message s = Ret tt s' ->
  exists n v, strlen message = Some n /\ scan_int (take (Z.to_nat n) message) = Some v /\ handled P s s' m v.
Proof.
  intros (Ha & Hs & Hb) E. destruct (strlen message) as [n|] eqn:En.
  - pose proof (process_wp P message n s m Ha Hs Hb En) as H. unfold wp in H. rewrite E in H. destruct H as (v & Hv & H). by exists n, v.
  - unfold process_modem_state_message, translate_modem_state_message, bind, lift in E. rewrite En in E. discriminate E.
Qed.

(** A round reads once, and observes the status that it reads. *)
Lemma round_follows s s' m : between P s m -> main_round file malloc s = Ret tt s' ->
  exists e m', between P s' m' /\ states s = e :: states s' /\ watch m (pids s) (omap status_in [e]) = Some (m', pids s').
Proof.
  intros Hb E. unfold main_round, bind at 1 in E. destruct (get_modem_state _ _ s) as [r s1|s1|f] eqn:Eg; try discriminate E.
  apply get_modem_state_step in Eg as (e & Ee & Es1 & Hst & Hno). exists e. assert (Hb1 : between P s1 m).
  { rewrite Es1. destruct Hb as (Ha & [H1 H2 H3] & Hn). split; [exact Ha|]. split; [by split|exact Hn]. }
  assert (Hp1 : pids s1 = pids s) by (by rewrite Es1). unfold bind at 1 in E. rewrite Ee, <- Hp1. destruct (Z.gtb_spec r.2 0).
  - destruct (process_modem_state_message r.1 _) as [ [] s2|s2|f] eqn:Ep; try discriminate E.
    destruct (process_follows _ _ _ _ Hb1 Ep) as (n & v & Hn & Hv & Ha2 & Hs2 & Hu).
    destruct (round_end _ _ _ Ha2 Hs2 E) as [Hb' [= H1 H2]]. eexists. split; [exact Hb'|]. rewrite H1, H2. rewrite (proj1 Hu). split; [done|].
    cbn [omap list_omap]. rewrite (Hst ltac:(lia) n Hn), Hv, obind_Some. destruct (v <? 0); [|by apply watch_one].
    cbn [negb andb] in Hu. cbn [watch]. by rewrite (proj2 Hu).
  - destruct Hb1 as (Ha1 & Hs1 & _). destruct (round_end _ _ _ Ha1 Hs1 E) as [Hb' [= H1 H2]]. exists m. rewrite H1, H2. split; [done|]. split; [done|].
    cbn [omap list_omap]. by rewrite Hno by lia.
Qed.
Lemma step_follows s s' m : between P s m -> main_step file malloc s s' -> follows s s' m.
Proof.
  intros Hb Hst. destruct Hst as [s s' E|s Hl|s n Hl Hn].
  - destruct (round_follows _ _ _ Hb E) as (e & m' & H). by exists [e], m'.
  - exists [], m. destruct Hb as ((H1 & H2 & H3) & [H4 H5 H6] & H7). split; [|done]. split; [by split|]. split; [by split|done].
  - exists [], m. destruct Hb as ((H1 & H2 & H3) & [H4 H5 H6] & H7). split; [|done]. split; [|split; [by split|done] ].
    split; [|done]. cbn. by rewrite fill_length.
Qed.

Lemma run_follows s s' m : between P s m -> main_steps file malloc s s' -> follows s s' m.
Proof.
  intros Hb Hr. revert m Hb. induction Hr as [s|s s1 s' Hst _ IH]; intros m Hb; [by exists [], m|].
  destruct (step_follows _ _ _ Hb Hst) as (read & m1 & Hb1 & E1 & W1). destruct (IH m1 Hb1) as (read' & m' & Hb' & E2 & W2).
  exists (read ++ read'), m'. split; [done|]. rewrite omap_app, watch_app, W1. split; [by rewrite E1, E2, app_assoc|exact W2].
Qed.

(** The loop begins with the modem's state unknown. *)
Definition monitor_init : monitor := Monitor Starting false [].
Lemma start_between c f images line b es ps s : Forall P ps -> main_start c f images line (manager_init b es ps) = Ret true s ->
  between P s monitor_init /\ script s = (es, ps).
Proof.
  intros Hps E. unfold main_start in E. destruct c; [discriminate E|]. destruct f; [|discriminate E]. cbn [negb] in E.
  unfold bind, on_machine, zoom in E. destruct (get_modem_images_info _ _ _) as [r b'|b'|x]; try discriminate E. injection E as <-.
  split; [|done]. split; [split; [done|split; [|done] ]|split; [|done] ].
  - cbn [info_buffer set_modem_state set_machine manager_init]. unfold zlen, TEST_BUFFER_SIZE. rewrite length_replicate. lia.
  - split; [done| |done]. by left.
Qed.

(** A whole run. *)
Lemma main_follows c f images line b es ps s0 s : Forall P ps -> main_start c f images line (manager_init b es ps) = Ret true s0 ->
  main_steps file malloc s0 s ->
  exists read m, between P s m /\ es = read ++ states s /\ watch monitor_init ps (omap status_in read) = Some (m, pids s).
Proof.
  intros Hps E Hr. destruct (start_between _ _ _ _ _ _ _ _ Hps E) as [Hb [= <- <-]]. exact (run_follows _ _ _ Hb Hr).
Qed.
End runs.

(** C7: The manager implements the abstract monitor. Let [es] be what the reads
    of the state file give from the start of the program, in their order, and
    [ps] what its searches for the monitor program give. However the modem,
    the files and the clients behave, whenever the main loop has begun and is
    between two rounds, with the steps of the thread that accepts clients
    anywhere in between, a prefix of [es] has been read, and the state of the
    modem, the flag for the first time that it was alive, the signals sent so
    far and the searches that are left are exactly those of the monitor that
    observed the statuses in this prefix, in their order; the modem is not
    left waiting to be booted, and each further round that returns reads
    exactly once. Rounds that do not return - because a device, the state file
    or a search has nothing more to give, or a message is not a number - are
    not part of a run. *)
Theorem manager_refines file malloc c f images line b es ps s0 s :
  main_start c f images line (manager_init b es ps) = Ret true s0 -> main_steps file malloc s0 s ->
  exists read m, es = read ++ states s /\ watch monitor_init ps (omap status_in read) = Some (m, pids s) /\
    shows s m /\ modem_state s <> MODEM_STA_BOOT /\
    (forall s', main_round file malloc s = Ret tt s' -> exists e, states s = e :: states s').
Proof.
  intros E Hr. assert (HP : Forall (fun _ : Z => True) ps) by by apply Forall_true.
  destruct (main_follows file malloc (fun _ => True) _ _ _ _ _ _ _ _ _ HP E Hr) as (read & m & Hb & Ees & Hw). exists read, m.
  split; [done|]. split; [done|]. split; [apply Hb|]. split; [apply Hb|]. intros s' Er.
  destruct (round_follows file malloc (fun _ => True) _ _ _ Hb Er) as (e & _ & _ & He & _). by exists e.
Qed.

(** *** The order of the signals *)

Definition no_repeat (l : list signal) : Prop := forall a z, l <> a ++ SIGUSR1 :: SIGUSR1 :: z.
Record ordered (m : monitor) : Prop := {
  ordered_signals : no_repeat (signals m);
  ordered_last : last (signals m) = Some SIGUSR1 -> now m = Booted;
  ordered_first : known m = false -> signals m = []
}.

Lemma no_repeat_snoc l x : no_repeat l -> (last l = Some SIGUSR1 -> x <> SIGUSR1) -> no_repeat (l ++ [x]).
Proof.
  intros H Hx a z E. destruct z as [|y z] using rev_ind.
  - change [SIGUSR1; SIGUSR1] with ([SIGUSR1] ++ [SIGUSR1]) in E. rewrite app_assoc in E. apply app_inj_tail in E as [-> ->].
    apply Hx; [apply last_snoc|done].
  - rewrite app_comm_cons, app_comm_cons, app_assoc in E. apply app_inj_tail in E as [-> _]. by eapply H.
Qed.

(** A signal is added, or none is. *)
Lemma ordered_same ph k k' sg ph' : ordered (Monitor ph k sg) -> (ph = Booted -> ph' = Booted \/ last sg <> Some SIGUSR1) -> (k' = false -> k = false) ->
  ordered (Monitor ph' k' sg).
Proof. intros [H1 H2 H3] Hp Hk. split; cbn in *; [done| |auto]. intros Hl. destruct (Hp (H2 Hl)); done. Qed.
Lemma ordered_add ph sg x ph' : ordered (Monitor ph true sg) -> (x = SIGUSR1 -> ph <> Booted /\ ph' = Booted) -> ordered (Monitor ph' true (sg ++ [x])).
Proof.
  intros [H1 H2 H3] Hx. cbn in *. split; cbn; [| |done].
  - apply no_repeat_snoc; [done|]. intros Hl ->. destruct (Hx eq_refl) as [Hn _]. by apply Hn, H2.
  - rewrite last_snoc. intros [= ->]. by apply Hx.
Qed.

Lemma observe_ordered m alive reset : ordered m -> (now m = Asserted \/ now m = Alive -> known m = true) ->
  ordered (observe true m alive reset) /\ (now (observe true m alive reset) = Asserted \/ now (observe true m alive reset) = Alive -> known (observe true m alive reset) = true).
Proof.
  intros H Hk. pose proof (ordered_first _ H) as H0. unfold observe, due. destruct m as [ph k sg]; cbn [now known signals] in *.
  assert (Hs : forall ph' k', ph' = Booted \/ ph <> Booted -> (k' = false -> k = false) -> ordered (Monitor ph' k' sg)).
  { intros ph' k' Hp Hk'. eapply ordered_same; [exact H| |done]. intros ->. destruct Hp; [by left|done]. }
  assert (Hor : k || alive = false -> k = false) by by destruct k.
  assert (Hag : ordered (Monitor Alive true (if k then sg ++ [SIGUSR2] else sg))).
  { destruct k; [by eapply ordered_add|]. rewrite H0 by done. split; cbn; [|done..]. intros a z E. by destruct a. }
  destruct ph.
  - destruct (reset =? 0); [destruct alive|]; (split; [|cbn; naive_solver]); [exact Hag|apply Hs; auto..].
  - destruct ((reset =? 0) && alive); (split; [|cbn; naive_solver]); [exact Hag|]. apply Hs; auto.
  - rewrite (Hk (or_intror eq_refl)) in *. cbn [orb]. split; [|done]. apply Hs; [by right|done].
  - rewrite (Hk (or_introl eq_refl)) in *. cbn [orb]. destruct (reset =? 1); (split; [|done]); [by eapply ordered_add|]. apply Hs; [by right|done].
Qed.

Lemma watch_ordered l : forall m ps m' ps', Forall (fun p => 0 < p) ps -> watch m ps l = Some (m', ps') ->
  ordered m -> (now m = Asserted \/ now m = Alive -> known m = true) -> ordered m' /\ (now m' = Asserted \/ now m' = Alive -> known m' = true).
Proof.
  induction l as [|[alive reset] l IH]; intros m ps m' ps' Hps; [by intros [= <- <-]|]. cbn [watch]. intros Hw Ho Hk.
  destruct (observe_ordered m alive reset Ho Hk) as [Ho' Hk']. destruct (looks _ _ _) eqn:El.
  - destruct ps as [|p ps]; [done|]. apply Forall_cons in Hps as [Hp Hps]. rewrite (proj2 (Z.gtb_lt p 0)) in Hw by done. by eapply IH.
  - rewrite <- (observe_unasked true _ _ _ El) in Hw. by eapply IH.
Qed.

(** C20: The signals to the monitor program, when it is running: none before the
    modem was alive for the first time; SIGUSR1, for a modem that stopped and
    is booted again, never twice without a SIGUSR2 in between, for the modem
    that is alive again; and not yet, or no longer, the last signal while the
    modem is alive or has just stopped. *)
Theorem signals_alternate file malloc c f images line b es ps s0 s :
  Forall (fun p => 0 < p) ps -> main_start c f images line (manager_init b es ps) = Ret true s0 -> main_steps file malloc s0 s ->
  (forall l1 l2, signals_of (told s) <> l1 ++ SIGUSR1 :: SIGUSR1 :: l2) /\
  (modem_state s = MODEM_STA_ALIVE \/ modem_state s = MODEM_STA_ASSERT -> last (signals_of (told s)) <> Some SIGUSR1) /\
  (flash_less_flag s = 0xff \/ flash_less_flag s = 1 -> signals_of (told s) = []).
Proof.
  intros Hps E Hr.
  destruct (main_follows file malloc (fun p => 0 < p) _ _ _ _ _ _ _ _ _ Hps E Hr) as (read & m & (_ & [H1 H2 H3] & _) & _ & Hm).
  assert (Ho : ordered m /\ (now m = Asserted \/ now m = Alive -> known m = true)).
  { eapply watch_ordered; [exact Hps|exact Hm| |by intros [?|?] ]. split; [intros a z; by destruct a|done..]. }
  destruct Ho as [ [Ho1 Ho2 Ho3] Hk]. rewrite H3. split; [exact Ho1|]. split.
  - intros Hst Hl. specialize (Ho2 Hl). destruct Hst as [Hst|Hst]; rewrite Hst in H1; cbn in H1; congruence.
  - intros Hfl. apply Ho3. destruct (known m); [|done]. cbn in H2. lia.
Qed.

(** ** The report *)

Lemma information_full b m fd o : 256 <= zlen b -> opens m = fd :: o -> 0 <= fd -> (2 <= length (tx (uart m)))%nat -> good_file (rx (uart m)) ->
  256 <= zlen (stream (rx (uart m))) ->
  exists m', get_modem_assert_information b 256 m = Ret (Prelude.put b 0 (take 256 (stream (rx (uart m)))), 256) m' /\ sent (uart m') = sent (uart m) ++ [[80]; [79]].
Proof.
  intros Hb Eo Hfd Htx Hg Hst. unfold get_modem_assert_information, open_device, bind, get. rewrite Eo. unfold modify, ret at 1. change (256 =? 0) with false.
  cbn iota. rewrite (proj2 (Z.ltb_ge fd 0)) by done. unfold on_uart at 1, zoom at 1, write at 1. change (zlen [80] <? 1) with false. cbn iota.
  cbn [uart set_opens]. destruct (tx (uart m)) as [|t1 [|t2 txs] ] eqn:Et; [cbn in Htx; lia..|]. unfold gets.
  set (m1 := set_uart _ _). destruct (assert_loop_full (link_fuel (uart m1)) b [] 256 0 m1) as [evs E]; [done|split; [lia|done]|change (zlen (@nil Z)) with 0; lia|lia| |].
  { unfold link_fuel, m1. cbn [uart set_uart rx]. unfold zlen in Hst. lia. }
  rewrite put_nil in E by lia. change (zlen []) with 0 in E. rewrite E. cbn [app]. unfold on_uart, zoom, write. change (zlen [79] <? 1) with false. cbn iota.
  cbn [uart set_uart tx m1]. eexists. split; [reflexivity|]. cbn. by rewrite <- app_assoc.
Qed.

Lemma modem_stopped_full P s fd o : arrays_ok P s -> let m := machine s in
  opens m = fd :: o -> 0 <= fd -> (2 <= length (tx (uart m)))%nat -> good_file (rx (uart m)) -> 256 <= zlen (stream (rx (uart m))) ->
  wp no_fault modem_stopped (fun _ s' => modem_state s' = MODEM_STA_ASSERT /\ sent (uart (machine s')) = sent (uart m) ++ [[80]; [79]] /\
    told s' = told s ++ told_all (client_fd s) (c_string (take 256 (stream (rx (uart m)))))) (fun _ => False) s.
Proof.
  intros (Hl & Hb & _) m Eo Hfd Htx Hg Hst. unfold modem_stopped. repeat wp_step. cbn [info_buffer set_modem_state].
  assert (H300 : zlen (replicate 300 0) = 300) by done. eapply wp_lift_Some; [apply store_ok; lia|]. repeat wp_step. apply wp_zoom.
  set (b := Prelude.put _ _ _). assert (Hlb : zlen b = zlen (info_buffer s)) by (apply zlen_put; lia).
  destruct (information_full b m fd o ltac:(lia) Eo Hfd Htx Hg Hst) as (m' & E & Hsent). unfold wp at 1. cbn [machine set_modem_state]. fold m. rewrite E.
  repeat wp_step. cbn [fst snd]. change (256 >? 0) with true. cbn iota. set (d := take 256 _) in *.
  assert (Hd : zlen d <= 256) by (unfold d, zlen; rewrite length_take; lia).
  destruct (report_text (info_buffer s) d Hb Hd) as [rest Er]. fold b in Er. rewrite Er. destruct (strlen_c_string d rest) as [En Et].
  wp_step. eapply wp_lift_Some; [exact En|]. eapply wp_mono; [apply broadcast_wp; [done|]| |done].
  - rewrite zlen_app. pose proof (c_string_length d). pose proof (zlen_nonneg (c_string d)). pose proof (zlen_nonneg (0 :: rest)). lia.
  - intros _ s' ->. split; [done|]. split; [exact Hsent|]. cbn. unfold zlen. by rewrite Nat2Z.id, Et.
Qed.

(** C32: A modem that stops. The manager takes the modem to be alive and gets
    a message, a text with its terminating zero, whose number is not negative
    and even: it is not alive any more. When the UART opens, takes two bytes
    written to it and then delivers at least 256 bytes in reads that do not
    fail, in whatever pieces, the manager writes P and O to the modem, and
    every client gets the first 256 bytes, up to the first zero in them; then
    the modem is to be booted if the number says that it is in reset, or its
    reset is waited for. *)
Theorem assert_report P message n mask s fd o : arrays_ok P s -> modem_state s = MODEM_STA_ALIVE -> strlen message = Some n ->
  scan_int (take (Z.to_nat n) message) = Some mask -> 0 <= mask -> Z.odd mask = false ->
  opens (machine s) = fd :: o -> 0 <= fd -> (2 <= length (tx (uart (machine s))))%nat -> good_file (rx (uart (machine s))) ->
  256 <= zlen (stream (rx (uart (machine s)))) ->
  exists s', process_modem_state_message message s = Ret tt s' /\
    modem_state s' = (if Z.shiftr mask 1 =? 1 then MODEM_STA_BOOT else MODEM_STA_ASSERT) /\
    sent (uart (machine s')) = sent (uart (machine s)) ++ [[80]; [79]] /\
    told s' = told s ++ told_all (client_fd s) (c_string (take 256 (stream (rx (uart (machine s)))))).
Proof.
  intros Ha Hst Hn Hv Hm Ho Eo Hfd Htx Hg Hs256.
  cut (wp no_fault (process_modem_state_message message) (fun _ s' => modem_state s' = (if Z.shiftr mask 1 =? 1 then MODEM_STA_BOOT else MODEM_STA_ASSERT) /\
    sent (uart (machine s')) = sent (uart (machine s)) ++ [[80]; [79]] /\
    told s' = told s ++ told_all (client_fd s) (c_string (take 256 (stream (rx (uart (machine s))))))) (fun _ => False) s).
  { intros H. apply wp_total in H as ([] & s' & H). by exists s'. }
  unfold process_modem_state_message, translate_modem_state_message. repeat wp_step. eapply wp_lift_Some; [exact Hn|]. eapply wp_lift_Some; [exact Hv|].
  rewrite (proj2 (Z.ltb_ge mask 0)) by done. rewrite alive_cases, Ho. repeat wp_step. destruct (flash_less _ _) as [flag first]. rewrite Hst. do 2 wp_step.
  cbn [Z.b2z Z.eqb]. wp_step. eapply wp_mono; [by eapply (modem_stopped_full P (set_flash_less_flag flag s))| |done].
  intros _ s' (H1 & H2 & H3). destruct (_ =? 1); by wp_step.
Qed.

(** A modem that resets while it is alive: the driver's 3 - alive, and in
    reset - has the manager boot it, without a word to the clients and without
    a signal to the monitor program, whose SIGUSR1 is for modems that were
    seen to stop before. *)
Theorem reset_untold P message n s : arrays_ok P s -> modem_state s = MODEM_STA_ALIVE -> strlen message = Some n ->
  scan_int (take (Z.to_nat n) message) = Some 3 ->
  exists s', process_modem_state_message message s = Ret tt s' /\ modem_state s' = MODEM_STA_BOOT /\ told s' = told s.
Proof.
  intros Ha Hst Hn Hv.
  cut (wp no_fault (process_modem_state_message message) (fun _ s' => modem_state s' = MODEM_STA_BOOT /\ told s' = told s) (fun _ => False) s).
  { intros H. apply wp_total in H as ([] & s' & H). by exists s'. }
  unfold process_modem_state_message, translate_modem_state_message. repeat wp_step. eapply wp_lift_Some; [exact Hn|]. eapply wp_lift_Some; [exact Hv|].
  change (3 <? 0) with false. cbn iota. repeat wp_step. destruct (flash_less _ _) as [flag first]. rewrite Hst. repeat wp_step.
  change (Z.land 3 1 =? 0) with false. change (Z.shiftr 3 1 =? 1) with true. cbn iota. by repeat wp_step.
Qed.

(** ** Witnesses *)

Definition quiet_boot : boot := Boot (Link [] [] [] []) (Link [] [] [] []) [] [Image_info None 0 0] 0 [] 0 0 [] [].

(** "1": the modem is alive when the manager starts. *)
Definition alive_start : manager := set_modem_state MODEM_STA_INIT (manager_init quiet_boot [Some (RxData [49; 10])] [42]).
Definition alive_end : manager := set_pids [] (set_modem_state MODEM_STA_ALIVE (set_flash_less_flag 0 (set_states [] alive_start))).

Lemma alive_started : main_start false true None [] (manager_init quiet_boot [Some (RxData [49; 10])] [42]) = Ret true alive_start.
Proof. unfold alive_start, manager_init. generalize (replicate (Z.to_nat TEST_BUFFER_SIZE) 0). reflexivity. Qed.
Lemma alive_run : main_steps (fun _ => None) (fun _ => None) alive_start alive_end.
Proof. apply rtc_once, step_round. reflexivity. Qed.
Lemma alive_arrays P : P 42 -> arrays_ok P alive_start /\ shows alive_start monitor_init.
Proof.
  intros HP. split; [split; [done|]; split; [|by apply Forall_singleton]|split; [done|by left|done] ].
  cbn [info_buffer set_modem_state alive_start manager_init]. unfold zlen, TEST_BUFFER_SIZE. rewrite length_replicate. lia.
Qed.

Lemma status_observed_witness : exists s', process_modem_state_message [49; 10; 0] alive_start = Ret tt s' /\ shows s' (Monitor Alive true []).
Proof.
  destruct (alive_arrays (fun _ => True) I) as [Ha Hs].
  pose proof (status_observed (fun _ => True) [49; 10; 0] 2 alive_start monitor_init Ha Hs ltac:(discriminate) eq_refl) as H.
  destruct (process_modem_state_message [49; 10; 0] alive_start) as [ [] s'|s'|f] eqn:E; [|done|discriminate E].
  exists s'. split; [done|]. destruct H as (v & Hv & _ & H). vm_compute in Hv. injection Hv as <-. exact H.
Defined.

Lemma manager_refines_witness : exists read m, [Some (RxData [49; 10])] = read ++ states alive_end /\
  watch monitor_init [42] (omap status_in read) = Some (m, pids alive_end) /\ shows alive_end m /\ m = Monitor Alive true [].
Proof.
  destruct (manager_refines (fun _ => None) (fun _ => None) false true None [] quiet_boot [Some (RxData [49; 10])] [42] alive_start alive_end alive_started alive_run)
    as (read & m & E & Hw & Hs & _). exists read, m. split; [exact E|]. split; [exact Hw|]. split; [exact Hs|].
  cbn [alive_end states set_pids set_modem_state set_flash_less_flag set_states] in E. rewrite app_nil_r in E. subst read. vm_compute in Hw. by injection Hw as <-.
Defined.

Lemma signals_alternate_witness :
  modem_state alive_end = MODEM_STA_ALIVE /\ last (signals_of (told alive_end)) <> Some SIGUSR1.
Proof.
  destruct (signals_alternate (fun _ => None) (fun _ => None) false true None [] quiet_boot [Some (RxData [49; 10])] [42] alive_start alive_end) as (_ & H & _).
  - by apply Forall_singleton.
  - exact alive_started.
  - exact alive_run.
  - split; [reflexivity|]. apply H. by left.
Defined.

(** A modem that reports 256 letters, to one client. *)
Definition report_boot : boot :=
  Boot (Link [] [1; 1] [] [RxData (replicate 200 65); RxData (replicate 100 66)]) (Link [] [] [] []) [] [Image_info None 0 0] 0 [] 1 1 [7] [].
Definition report_start : manager :=
  Manager MODEM_STA_ALIVE 0 [12; -1; -1; -1; -1; -1; -1; -1; -1; -1] (replicate (Z.to_nat TEST_BUFFER_SIZE) 0) report_boot true [] [] [].

Lemma report_arrays : arrays_ok (fun _ => True) report_start.
Proof. split; [done|]. split; [|done]. cbn [info_buffer report_start]. unfold zlen, TEST_BUFFER_SIZE. rewrite length_replicate. lia. Qed.

Lemma assert_report_witness : exists s', process_modem_state_message [48; 10; 0] report_start = Ret tt s' /\ modem_state s' = MODEM_STA_ASSERT /\
  told s' = [Tell 12 (replicate 200 65 ++ replicate 56 66)].
Proof.
  destruct (assert_report (fun _ => True) [48; 10; 0] 2 0 report_start 7 [] report_arrays) as (s' & E & Hs & _ & Ht);
    [reflexivity..|lia|reflexivity|reflexivity|lia|cbn; lia| | |].
  - apply Forall_cons_2; [by eexists _, _|]. apply Forall_singleton. by eexists _, _.
  - vm_compute. discriminate.
  - exists s'. split; [exact E|]. split; [exact Hs|]. rewrite Ht. vm_compute. reflexivity.
Defined.

Lemma reset_untold_witness : exists s', process_modem_state_message [51; 10; 0] report_start = Ret tt s' /\ modem_state s' = MODEM_STA_BOOT /\ told s' = [].
Proof. exact (reset_untold (fun _ => True) [51; 10; 0] 2 report_start report_arrays eq_refl eq_refl eq_refl). Defined.
