(* ===== verification/AudioTables.v ===== *)
(** * Tables of the equaliser

    The cosine table (a quarter of a period, 16384 for 1) and the table of
    gains (4096 for 0 dB, a twentieth of a dB a step) of
    src/common/libs/audio/vb_effect/filter_calc.c. *)
From Stdlib Require Import ZArith List.
Import ListNotations.
Open Scope Z_scope.

(** ** Definitions *)

Definition Linear_gain_Table : list Z :=
  [1; 1; 1; 1; 1; 1; 1; 1; 1; 1; 1; 1; 1; 1; 1; 1; 1; 1; 1; 1; 1; 1; 1; 1; 1; 1; 1; 1; 1; 1; 1; 1; 1; 1; 1; 1; 1; 1;
    1; 1; 1; 1; 1; 1; 1; 1; 1; 1; 1; 1; 1; 1; 1; 1; 1; 1; 1; 1; 1; 1; 1; 1; 1; 1; 1; 1; 1; 1; 1; 1; 1; 1; 1; 1; 1; 1;
    1; 1; 1; 1; 1; 1; 1; 1; 1; 1; 1; 1; 1; 1; 1; 1; 1; 1; 1; 1; 1; 1; 1; 1; 1; 1; 1; 1; 1; 1; 1; 1; 1; 1; 1; 1; 1; 1;
    1; 1; 2; 2; 2; 2; 2; 2; 2; 2; 2; 2; 2; 2; 2; 2; 2; 2; 2; 2; 2; 2; 2; 2; 2; 2; 2; 2; 2; 2; 2; 2; 2; 2; 2; 2; 2; 2;
    2; 2; 2; 2; 2; 2; 2; 2; 2; 2; 2; 2; 2; 2; 2; 2; 2; 2; 2; 2; 2; 2; 2; 2; 2; 2; 2; 2; 2; 2; 2; 2; 2; 2; 3; 3; 3; 3;
    3; 3; 3; 3; 3; 3; 3; 3; 3; 3; 3; 3; 3; 3; 3; 3; 3; 3; 3; 3; 3; 3; 3; 3; 3; 3; 3; 3; 3; 3; 3; 3; 3; 3; 3; 3; 3; 3;
    3; 3; 3; 3; 3; 3; 3; 3; 4; 4; 4; 4; 4; 4; 4; 4; 4; 4; 4; 4; 4; 4; 4; 4; 4; 4; 4; 4; 4; 4; 4; 4; 4; 4; 4; 4; 4; 4;
    4; 4; 4; 4; 4; 4; 4; 4; 4; 5; 5; 5; 5; 5; 5; 5; 5; 5; 5; 5; 5; 5; 5; 5; 5; 5; 5; 5; 5; 5; 5; 5; 5; 5; 5; 5; 5; 5;
    5; 5; 5; 6; 6; 6; 6; 6; 6; 6; 6; 6; 6; 6; 6; 6; 6; 6; 6; 6; 6; 6; 6; 6; 6; 6; 6; 6; 6; 6; 7; 7; 7; 7; 7; 7; 7; 7;
    7; 7; 7; 7; 7; 7; 7; 7; 7; 7; 7; 7; 7; 7; 7; 8; 8; 8; 8; 8; 8; 8; 8; 8; 8; 8; 8; 8; 8; 8; 8; 8; 8; 8; 8; 9; 9; 9;
    9; 9; 9; 9; 9; 9; 9; 9; 9; 9; 9; 9; 9; 9; 9; 9; 10; 10; 10; 10; 10; 10; 10; 10; 10; 10; 10; 10; 10; 10; 10; 10;
    11; 11; 11; 11; 11; 11; 11; 11; 11; 11; 11; 11; 11; 11; 11; 12; 12; 12; 12; 12; 12; 12; 12; 12; 12; 12; 12; 12;
    12; 13; 13; 13; 13; 13; 13; 13; 13; 13; 13; 13; 13; 13; 14; 14; 14; 14; 14; 14; 14; 14; 14; 14; 14; 14; 15; 15;
    15; 15; 15; 15; 15; 15; 15; 15; 15; 16; 16; 16; 16; 16; 16; 16; 16; 16; 16; 16; 17; 17; 17; 17; 17; 17; 17; 17;
    17; 17; 18; 18; 18; 18; 18; 18; 18; 18; 18; 19; 19; 19; 19; 19; 19; 19; 19; 19; 20; 20; 20; 20; 20; 20; 20; 20;
    21; 21; 21; 21; 21; 21; 21; 21; 21; 22; 22; 22; 22; 22; 22; 22; 23; 23; 23; 23; 23; 23; 23; 23; 24; 24; 24; 24;
    24; 24; 24; 25; 25; 25; 25; 25; 25; 25; 26; 26; 26; 26; 26; 26; 27; 27; 27; 27; 27; 27; 28; 28; 28; 28; 28; 28;
    28; 29; 29; 29; 29; 29; 30; 30; 30; 30; 30; 30; 31; 31; 31; 31; 31; 31; 32; 32; 32; 32; 32; 33; 33; 33; 33; 33;
    34; 34; 34; 34; 34; 35; 35; 35; 35; 35; 36; 36; 36; 36; 36; 37; 37; 37; 37; 38; 38; 38; 38; 38; 39; 39; 39; 39;
    40; 40; 40; 40; 40; 41; 41; 41; 41; 42; 42; 42; 42; 43; 43; 43; 43; 44; 44; 44; 44; 45; 45; 45; 45; 46; 46; 46;
    47; 47; 47; 47; 48; 48; 48; 48; 49; 49; 49; 50; 50; 50; 50; 51; 51; 51; 52; 52; 52; 53; 53; 53; 53; 54; 54; 54;
    55; 55; 55; 56; 56; 56; 57; 57; 57; 58; 58; 58; 59; 59; 59; 60; 60; 60; 61; 61; 61; 62; 62; 63; 63; 63; 64; 64;
    64; 65; 65; 66; 66; 66; 67; 67; 67; 68; 68; 69; 69; 69; 70; 70; 71; 71; 72; 72; 72; 73; 73; 74; 74; 74; 75; 75;
    76; 76; 77; 77; 78; 78; 78; 79; 79; 80; 80; 81; 81; 82; 82; 83; 83; 84; 84; 85; 85; 86; 86; 87; 87; 88; 88; 89;
    89; 90; 90; 91; 91; 92; 92; 93; 93; 94; 94; 95; 96; 96; 97; 97; 98; 98; 99; 99; 100; 101; 101; 102; 102; 103; 104;
    104; 105; 105; 106; 107; 107; 108; 108; 109; 110; 110; 111; 112; 112; 113; 114; 114; 115; 116; 116; 117; 118; 118;
    119; 120; 120; 121; 122; 122; 123; 124; 125; 125; 126; 127; 128; 128; 129; 130; 131; 131; 132; 133; 134; 134; 135;
    136; 137; 137; 138; 139; 140; 141; 142; 142; 143; 144; 145; 146; 147; 147; 148; 149; 150; 151; 152; 153; 153; 154;
    155; 156; 157; 158; 159; 160; 161; 162; 163; 164; 164; 165; 166; 167; 168; 169; 170; 171; 172; 173; 174; 175; 176;
    177; 178; 179; 180; 181; 182; 184; 185; 186; 187; 188; 189; 190; 191; 192; 193; 194; 196; 197; 198; 199; 200; 201;
    202; 204; 205; 206; 207; 208; 210; 211; 212; 213; 214; 216; 217; 218; 219; 221; 222; 223; 225; 226; 227; 229; 230;
    231; 233; 234; 235; 237; 238; 239; 241; 242; 243; 245; 246; 248; 249; 251; 252; 254; 255; 256; 258; 259; 261; 262;
    264; 265; 267; 269; 270; 272; 273; 275; 276; 278; 280; 281; 283; 285; 286; 288; 289; 291; 293; 295; 296; 298; 300;
    301; 303; 305; 307; 308; 310; 312; 314; 316; 317; 319; 321; 323; 325; 327; 329; 331; 332; 334; 336; 338; 340; 342;
    344; 346; 348; 350; 352; 354; 356; 358; 360; 362; 365; 367; 369; 371; 373; 375; 377; 380; 382; 384; 386; 388; 391;
    393; 395; 397; 400; 402; 404; 407; 409; 411; 414; 416; 419; 421; 423; 426; 428; 431; 433; 436; 438; 441; 443; 446;
    449; 451; 454; 456; 459; 462; 464; 467; 470; 472; 475; 478; 481; 484; 486; 489; 492; 495; 498; 501; 503; 506; 509;
    512; 515; 518; 521; 524; 527; 530; 533; 536; 539; 543; 546; 549; 552; 555; 558; 562; 565; 568; 571; 575; 578; 581;
    585; 588; 592; 595; 598; 602; 605; 609; 612; 616; 619; 623; 627; 630; 634; 638; 641; 645; 649; 652; 656; 660; 664;
    668; 671; 675; 679; 683; 687; 691; 695; 699; 703; 707; 711; 715; 720; 724; 728; 732; 736; 741; 745; 749; 753; 758;
    762; 767; 771; 775; 780; 784; 789; 794; 798; 803; 807; 812; 817; 821; 826; 831; 836; 841; 845; 850; 855; 860; 865;
    870; 875; 880; 885; 890; 896; 901; 906; 911; 916; 922; 927; 932; 938; 943; 949; 954; 960; 965; 971; 976; 982; 988;
    993; 999; 1005; 1011; 1017; 1022; 1028; 1034; 1040; 1046; 1052; 1058; 1065; 1071; 1077; 1083; 1089; 1096; 1102;
    1108; 1115; 1121; 1128; 1134; 1141; 1147; 1154; 1161; 1167; 1174; 1181; 1188; 1194; 1201; 1208; 1215; 1222; 1229;
    1236; 1244; 1251; 1258; 1265; 1273; 1280; 1287; 1295; 1302; 1310; 1317; 1325; 1333; 1340; 1348; 1356; 1364; 1372;
    1379; 1387; 1395; 1403; 1412; 1420; 1428; 1436; 1444; 1453; 1461; 1470; 1478; 1487; 1495; 1504; 1513; 1521; 1530;
    1539; 1548; 1557; 1566; 1575; 1584; 1593; 1602; 1611; 1621; 1630; 1640; 1649; 1659; 1668; 1678; 1687; 1697; 1707;
    1717; 1727; 1737; 1747; 1757; 1767; 1777; 1787; 1798; 1808; 1819; 1829; 1840; 1850; 1861; 1872; 1883; 1893; 1904;
    1915; 1926; 1938; 1949; 1960; 1971; 1983; 1994; 2006; 2017; 2029; 2041; 2052; 2064; 2076; 2088; 2100; 2112; 2125;
    2137; 2149; 2162; 2174; 2187; 2199; 2212; 2225; 2237; 2250; 2263; 2276; 2290; 2303; 2316; 2330; 2343; 2357; 2370;
    2384; 2398; 2411; 2425; 2439; 2453; 2468; 2482; 2496; 2511; 2525; 2540; 2554; 2569; 2584; 2599; 2614; 2629; 2644;
    2659; 2675; 2690; 2706; 2721; 2737; 2753; 2769; 2785; 2801; 2817; 2833; 2850; 2866; 2883; 2899; 2916; 2933; 2950;
    2967; 2984; 3001; 3018; 3036; 3053; 3071; 3089; 3107; 3125; 3143; 3161; 3179; 3197; 3216; 3234; 3253; 3272; 3291;
    3310; 3329; 3348; 3367; 3387; 3406; 3426; 3446; 3466; 3486; 3506; 3526; 3546; 3567; 3588; 3608; 3629; 3650; 3671;
    3692; 3714; 3735; 3757; 3778; 3800; 3822; 3844; 3866; 3889; 3911; 3934; 3956; 3979; 4002; 4025; 4049; 4072; 4096;
    4119; 4143; 4167; 4191; 4215; 4239; 4264; 4289; 4313; 4338; 4363; 4388; 4414; 4439; 4465; 4491; 4517; 4543; 4569;
    4595; 4622; 4649; 4675; 4702; 4729; 4757; 4784; 4812; 4840; 4868; 4896; 4924; 4952; 4981; 5010; 5039; 5068; 5097;
    5126; 5156; 5186; 5216; 5246; 5276; 5307; 5337; 5368; 5399; 5430; 5462; 5493; 5525; 5557; 5589; 5621; 5654; 5686;
    5719; 5752; 5785; 5819; 5852; 5886; 5920; 5954; 5989; 6023; 6058; 6093; 6128; 6163; 6199; 6235; 6271; 6307; 6343;
    6380; 6417; 6454; 6491; 6529; 6566; 6604; 6642; 6681; 6719; 6758; 6797; 6836; 6876; 6916; 6956; 6996; 7036; 7077;
    7118; 7159; 7200; 7242; 7283; 7325; 7368; 7410; 7453; 7496; 7539; 7583; 7627; 7671; 7715; 7759; 7804; 7849; 7895;
    7940; 7986; 8032; 8079; 8125; 8172; 8219; 8267; 8314; 8362; 8411; 8459; 8508; 8557; 8607; 8656; 8706; 8757; 8807;
    8858; 8909; 8961; 9012; 9064; 9117; 9169; 9222; 9275; 9329; 9383; 9437; 9492; 9546; 9601; 9657; 9713; 9769; 9825;
    9882; 9939; 9996; 10054; 10112; 10170; 10229; 10288; 10348; 10407; 10467; 10528; 10589; 10650; 10711; 10773;
    10835; 10898; 10961; 11024; 11088; 11152; 11216; 11281; 11346; 11411; 11477; 11544; 11610; 11677; 11745; 11812;
    11881; 11949; 12018; 12088; 12157; 12228; 12298; 12369; 12441; 12512; 12585; 12657; 12730; 12804; 12878; 12952;
    13027; 13102; 13178; 13254; 13330; 13407; 13485; 13563; 13641; 13720; 13799; 13879; 13959; 14039; 14120; 14202;
    14284; 14366; 14449; 14533; 14617; 14701; 14786; 14871; 14957; 15043; 15130; 15218; 15305; 15394; 15483; 15572;
    15662; 15752; 15843; 15935; 16027; 16119; 16212; 16306; 16400; 16495; 16590; 16686; 16782; 16879; 16976; 17074;
    17173; 17272; 17372; 17472; 17573; 17675; 17777; 17879; 17982; 18086; 18191; 18296; 18401; 18508; 18614; 18722;
    18830; 18939; 19048; 19158; 19269; 19380; 19492; 19604; 19717; 19831; 19946; 20061; 20177; 20293; 20410; 20528;
    20647; 20766; 20886; 21006; 21128; 21250; 21372; 21496; 21620; 21745; 21870; 21996; 22123; 22251; 22379; 22509;
    22639; 22769; 22901; 23033; 23166; 23300; 23434; 23570; 23706; 23842; 23980; 24119; 24258; 24398; 24539; 24680;
    24823; 24966; 25110; 25255; 25401; 25548; 25695; 25844; 25993; 26143; 26294; 26445; 26598; 26752; 26906; 27062;
    27218; 27375; 27533; 27692; 27852; 28013; 28174; 28337; 28500; 28665; 28831; 28997; 29164; 29333; 29502; 29672;
    29844; 30016; 30189; 30364; 30539; 30715; 30892; 31071; 31250; 31431; 31612; 31795; 31978; 32163; 32348; 32535].

Definition cos_Table : list Z :=
  [16384; 16383; 16383; 16383; 16383; 16383; 16383; 16383; 16383; 16383; 16383; 16383; 16383; 16383; 16383; 16382;
    16382; 16382; 16382; 16382; 16382; 16381; 16381; 16381; 16381; 16380; 16380; 16380; 16380; 16379; 16379; 16379;
    16379; 16378; 16378; 16378; 16377; 16377; 16377; 16376; 16376; 16375; 16375; 16375; 16374; 16374; 16373; 16373;
    16372; 16372; 16371; 16371; 16370; 16370; 16369; 16369; 16368; 16368; 16367; 16367; 16366; 16366; 16365; 16364;
    16364; 16363; 16363; 16362; 16361; 16361; 16360; 16359; 16359; 16358; 16357; 16356; 16356; 16355; 16354; 16353;
    16353; 16352; 16351; 16350; 16350; 16349; 16348; 16347; 16346; 16345; 16344; 16344; 16343; 16342; 16341; 16340;
    16339; 16338; 16337; 16336; 16335; 16334; 16333; 16332; 16331; 16330; 16329; 16328; 16327; 16326; 16325; 16324;
    16323; 16322; 16321; 16320; 16319; 16318; 16316; 16315; 16314; 16313; 16312; 16311; 16309; 16308; 16307; 16306;
    16305; 16303; 16302; 16301; 16300; 16298; 16297; 16296; 16294; 16293; 16292; 16290; 16289; 16288; 16286; 16285;
    16284; 16282; 16281; 16279; 16278; 16277; 16275; 16274; 16272; 16271; 16269; 16268; 16266; 16265; 16263; 16262;
    16260; 16259; 16257; 16256; 16254; 16252; 16251; 16249; 16248; 16246; 16244; 16243; 16241; 16239; 16238; 16236;
    16234; 16233; 16231; 16229; 16228; 16226; 16224; 16222; 16221; 16219; 16217; 16215; 16213; 16212; 16210; 16208;
    16206; 16204; 16202; 16201; 16199; 16197; 16195; 16193; 16191; 16189; 16187; 16185; 16183; 16181; 16179; 16177;
    16175; 16173; 16171; 16169; 16167; 16165; 16163; 16161; 16159; 16157; 16155; 16153; 16151; 16149; 16147; 16144;
    16142; 16140; 16138; 16136; 16134; 16131; 16129; 16127; 16125; 16123; 16120; 16118; 16116; 16114; 16111; 16109;
    16107; 16104; 16102; 16100; 16097; 16095; 16093; 16090; 16088; 16086; 16083; 16081; 16078; 16076; 16074; 16071;
    16069; 16066; 16064; 16061; 16059; 16056; 16054; 16051; 16049; 16046; 16044; 16041; 16039; 16036; 16033; 16031;
    16028; 16026; 16023; 16020; 16018; 16015; 16012; 16010; 16007; 16004; 16002; 15999; 15996; 15994; 15991; 15988;
    15985; 15983; 15980; 15977; 15974; 15972; 15969; 15966; 15963; 15960; 15957; 15955; 15952; 15949; 15946; 15943;
    15940; 15937; 15934; 15931; 15928; 15926; 15923; 15920; 15917; 15914; 15911; 15908; 15905; 15902; 15899; 15896;
    15892; 15889; 15886; 15883; 15880; 15877; 15874; 15871; 15868; 15865; 15861; 15858; 15855; 15852; 15849; 15846;
    15842; 15839; 15836; 15833; 15830; 15826; 15823; 15820; 15817; 15813; 15810; 15807; 15803; 15800; 15797; 15793;
    15790; 15787; 15783; 15780; 15777; 15773; 15770; 15766; 15763; 15759; 15756; 15753; 15749; 15746; 15742; 15739;
    15735; 15732; 15728; 15725; 15721; 15718; 15714; 15710; 15707; 15703; 15700; 15696; 15693; 15689; 15685; 15682;
    15678; 15674; 15671; 15667; 15663; 15660; 15656; 15652; 15649; 15645; 15641; 15637; 15634; 15630; 15626; 15622;
    15618; 15615; 15611; 15607; 15603; 15599; 15596; 15592; 15588; 15584; 15580; 15576; 15572; 15568; 15564; 15561;
    15557; 15553; 15549; 15545; 15541; 15537; 15533; 15529; 15525; 15521; 15517; 15513; 15509; 15505; 15500; 15496;
    15492; 15488; 15484; 15480; 15476; 15472; 15468; 15463; 15459; 15455; 15451; 15447; 15443; 15438; 15434; 15430;
    15426; 15422; 15417; 15413; 15409; 15404; 15400; 15396; 15392; 15387; 15383; 15379; 15374; 15370; 15366; 15361;
    15357; 15352; 15348; 15344; 15339; 15335; 15330; 15326; 15322; 15317; 15313; 15308; 15304; 15299; 15295; 15290;
    15286; 15281; 15277; 15272; 15267; 15263; 15258; 15254; 15249; 15245; 15240; 15235; 15231; 15226; 15221; 15217;
    15212; 15207; 15203; 15198; 15193; 15189; 15184; 15179; 15175; 15170; 15165; 15160; 15156; 15151; 15146; 15141;
    15136; 15132; 15127; 15122; 15117; 15112; 15107; 15102; 15098; 15093; 15088; 15083; 15078; 15073; 15068; 15063;
    15058; 15053; 15048; 15043; 15038; 15033; 15028; 15023; 15018; 15013; 15008; 15003; 14998; 14993; 14988; 14983;
    14978; 14973; 14968; 14963; 14957; 14952; 14947; 14942; 14937; 14932; 14927; 14921; 14916; 14911; 14906; 14901;
    14895; 14890; 14885; 14880; 14874; 14869; 14864; 14858; 14853; 14848; 14843; 14837; 14832; 14827; 14821; 14816;
    14810; 14805; 14800; 14794; 14789; 14783; 14778; 14773; 14767; 14762; 14756; 14751; 14745; 14740; 14734; 14729;
    14723; 14718; 14712; 14707; 14701; 14696; 14690; 14685; 14679; 14673; 14668; 14662; 14657; 14651; 14645; 14640;
    14634; 14628; 14623; 14617; 14611; 14606; 14600; 14594; 14589; 14583; 14577; 14571; 14566; 14560; 14554; 14548;
    14543; 14537; 14531; 14525; 14519; 14514; 14508; 14502; 14496; 14490; 14484; 14478; 14473; 14467; 14461; 14455;
    14449; 14443; 14437; 14431; 14425; 14419; 14413; 14407; 14401; 14395; 14389; 14383; 14377; 14371; 14365; 14359;
    14353; 14347; 14341; 14335; 14329; 14323; 14317; 14310; 14304; 14298; 14292; 14286; 14280; 14274; 14267; 14261;
    14255; 14249; 14243; 14236; 14230; 14224; 14218; 14211; 14205; 14199; 14193; 14186; 14180; 14174; 14167; 14161;
    14155; 14148; 14142; 14136; 14129; 14123; 14117; 14110; 14104; 14098; 14091; 14085; 14078; 14072; 14065; 14059;
    14053; 14046; 14040; 14033; 14027; 14020; 14014; 14007; 14001; 13994; 13988; 13981; 13974; 13968; 13961; 13955;
    13948; 13942; 13935; 13928; 13922; 13915; 13908; 13902; 13895; 13888; 13882; 13875; 13868; 13862; 13855; 13848;
    13842; 13835; 13828; 13821; 13815; 13808; 13801; 13794; 13788; 13781; 13774; 13767; 13760; 13753; 13747; 13740;
    13733; 13726; 13719; 13712; 13705; 13699; 13692; 13685; 13678; 13671; 13664; 13657; 13650; 13643; 13636; 13629;
    13622; 13615; 13608; 13601; 13594; 13587; 13580; 13573; 13566; 13559; 13552; 13545; 13538; 13531; 13524; 13517;
    13510; 13502; 13495; 13488; 13481; 13474; 13467; 13460; 13452; 13445; 13438; 13431; 13424; 13416; 13409; 13402;
    13395; 13388; 13380; 13373; 13366; 13359; 13351; 13344; 13337; 13329; 13322; 13315; 13307; 13300; 13293; 13285;
    13278; 13271; 13263; 13256; 13249; 13241; 13234; 13226; 13219; 13211; 13204; 13197; 13189; 13182; 13174; 13167;
    13159; 13152; 13144; 13137; 13129; 13122; 13114; 13107; 13099; 13092; 13084; 13076; 13069; 13061; 13054; 13046;
    13038; 13031; 13023; 13016; 13008; 13000; 12993; 12985; 12977; 12970; 12962; 12954; 12947; 12939; 12931; 12923;
    12916; 12908; 12900; 12893; 12885; 12877; 12869; 12861; 12854; 12846; 12838; 12830; 12822; 12815; 12807; 12799;
    12791; 12783; 12775; 12768; 12760; 12752; 12744; 12736; 12728; 12720; 12712; 12704; 12696; 12688; 12680; 12672;
    12665; 12657; 12649; 12641; 12633; 12625; 12617; 12609; 12600; 12592; 12584; 12576; 12568; 12560; 12552; 12544;
    12536; 12528; 12520; 12512; 12504; 12495; 12487; 12479; 12471; 12463; 12455; 12447; 12438; 12430; 12422; 12414;
    12406; 12397; 12389; 12381; 12373; 12364; 12356; 12348; 12340; 12331; 12323; 12315; 12307; 12298; 12290; 12282;
    12273; 12265; 12257; 12248; 12240; 12232; 12223; 12215; 12207; 12198; 12190; 12181; 12173; 12165; 12156; 12148;
    12139; 12131; 12122; 12114; 12105; 12097; 12088; 12080; 12072; 12063; 12054; 12046; 12037; 12029; 12020; 12012;
    12003; 11995; 11986; 11978; 11969; 11960; 11952; 11943; 11935; 11926; 11917; 11909; 11900; 11892; 11883; 11874;
    11866; 11857; 11848; 11840; 11831; 11822; 11813; 11805; 11796; 11787; 11779; 11770; 11761; 11752; 11744; 11735;
    11726; 11717; 11708; 11700; 11691; 11682; 11673; 11664; 11656; 11647; 11638; 11629; 11620; 11611; 11602; 11594;
    11585; 11576; 11567; 11558; 11549; 11540; 11531; 11522; 11513; 11504; 11496; 11487; 11478; 11469; 11460; 11451;
    11442; 11433; 11424; 11415; 11406; 11397; 11388; 11379; 11370; 11360; 11351; 11342; 11333; 11324; 11315; 11306;
    11297; 11288; 11279; 11270; 11260; 11251; 11242; 11233; 11224; 11215; 11206; 11196; 11187; 11178; 11169; 11160;
    11150; 11141; 11132; 11123; 11114; 11104; 11095; 11086; 11077; 11067; 11058; 11049; 11040; 11030; 11021; 11012;
    11002; 10993; 10984; 10974; 10965; 10956; 10946; 10937; 10928; 10918; 10909; 10900; 10890; 10881; 10871; 10862;
    10853; 10843; 10834; 10824; 10815; 10805; 10796; 10786; 10777; 10768; 10758; 10749; 10739; 10730; 10720; 10711;
    10701; 10692; 10682; 10673; 10663; 10653; 10644; 10634; 10625; 10615; 10606; 10596; 10586; 10577; 10567; 10558;
    10548; 10538; 10529; 10519; 10510; 10500; 10490; 10481; 10471; 10461; 10452; 10442; 10432; 10423; 10413; 10403;
    10393; 10384; 10374; 10364; 10354; 10345; 10335; 10325; 10315; 10306; 10296; 10286; 10276; 10267; 10257; 10247;
    10237; 10227; 10218; 10208; 10198; 10188; 10178; 10168; 10159; 10149; 10139; 10129; 10119; 10109; 10099; 10089;
    10079; 10070; 10060; 10050; 10040; 10030; 10020; 10010; 10000; 9990; 9980; 9970; 9960; 9950; 9940; 9930; 9920;
    9910; 9900; 9890; 9880; 9870; 9860; 9850; 9840; 9830; 9820; 9810; 9800; 9790; 9780; 9770; 9759; 9749; 9739; 9729;
    9719; 9709; 9699; 9689; 9679; 9668; 9658; 9648; 9638; 9628; 9618; 9607; 9597; 9587; 9577; 9567; 9556; 9546; 9536;
    9526; 9516; 9505; 9495; 9485; 9475; 9464; 9454; 9444; 9434; 9423; 9413; 9403; 9392; 9382; 9372; 9361; 9351; 9341;
    9331; 9320; 9310; 9300; 9289; 9279; 9268; 9258; 9248; 9237; 9227; 9217; 9206; 9196; 9185; 9175; 9165; 9154; 9144;
    9133; 9123; 9112; 9102; 9092; 9081; 9071; 9060; 9050; 9039; 9029; 9018; 9008; 8997; 8987; 8976; 8966; 8955; 8945;
    8934; 8924; 8913; 8902; 8892; 8881; 8871; 8860; 8850; 8839; 8829; 8818; 8807; 8797; 8786; 8776; 8765; 8754; 8744;
    8733; 8722; 8712; 8701; 8690; 8680; 8669; 8658; 8648; 8637; 8626; 8616; 8605; 8594; 8584; 8573; 8562; 8552; 8541;
    8530; 8519; 8509; 8498; 8487; 8476; 8466; 8455; 8444; 8433; 8423; 8412; 8401; 8390; 8379; 8369; 8358; 8347; 8336;
    8325; 8315; 8304; 8293; 8282; 8271; 8260; 8249; 8239; 8228; 8217; 8206; 8195; 8184; 8173; 8162; 8152; 8141; 8130;
    8119; 8108; 8097; 8086; 8075; 8064; 8053; 8042; 8031; 8020; 8009; 7998; 7988; 7977; 7966; 7955; 7944; 7933; 7922;
    7911; 7900; 7889; 7878; 7867; 7856; 7844; 7833; 7822; 7811; 7800; 7789; 7778; 7767; 7756; 7745; 7734; 7723; 7712;
    7701; 7690; 7678; 7667; 7656; 7645; 7634; 7623; 7612; 7601; 7590; 7578; 7567; 7556; 7545; 7534; 7523; 7511; 7500;
    7489; 7478; 7467; 7456; 7444; 7433; 7422; 7411; 7400; 7388; 7377; 7366; 7355; 7343; 7332; 7321; 7310; 7299; 7287;
    7276; 7265; 7253; 7242; 7231; 7220; 7208; 7197; 7186; 7174; 7163; 7152; 7141; 7129; 7118; 7107; 7095; 7084; 7073;
    7061; 7050; 7039; 7027; 7016; 7005; 6993; 6982; 6970; 6959; 6948; 6936; 6925; 6914; 6902; 6891; 6879; 6868; 6857;
    6845; 6834; 6822; 6811; 6799; 6788; 6777; 6765; 6754; 6742; 6731; 6719; 6708; 6696; 6685; 6673; 6662; 6650; 6639;
    6627; 6616; 6604; 6593; 6581; 6570; 6558; 6547; 6535; 6524; 6512; 6501; 6489; 6478; 6466; 6455; 6443; 6432; 6420;
    6408; 6397; 6385; 6374; 6362; 6351; 6339; 6327; 6316; 6304; 6293; 6281; 6269; 6258; 6246; 6235; 6223; 6211; 6200;
    6188; 6176; 6165; 6153; 6141; 6130; 6118; 6106; 6095; 6083; 6071; 6060; 6048; 6036; 6025; 6013; 6001; 5990; 5978;
    5966; 5955; 5943; 5931; 5919; 5908; 5896; 5884; 5873; 5861; 5849; 5837; 5826; 5814; 5802; 5790; 5779; 5767; 5755;
    5743; 5732; 5720; 5708; 5696; 5684; 5673; 5661; 5649; 5637; 5625; 5614; 5602; 5590; 5578; 5566; 5555; 5543; 5531;
    5519; 5507; 5495; 5484; 5472; 5460; 5448; 5436; 5424; 5412; 5401; 5389; 5377; 5365; 5353; 5341; 5329; 5317; 5306;
    5294; 5282; 5270; 5258; 5246; 5234; 5222; 5210; 5198; 5187; 5175; 5163; 5151; 5139; 5127; 5115; 5103; 5091; 5079;
    5067; 5055; 5043; 5031; 5019; 5007; 4995; 4983; 4972; 4960; 4948; 4936; 4924; 4912; 4900; 4888; 4876; 4864; 4852;
    4840; 4828; 4816; 4804; 4792; 4780; 4768; 4756; 4743; 4731; 4719; 4707; 4695; 4683; 4671; 4659; 4647; 4635; 4623;
    4611; 4599; 4587; 4575; 4563; 4551; 4539; 4527; 4514; 4502; 4490; 4478; 4466; 4454; 4442; 4430; 4418; 4406; 4394;
    4381; 4369; 4357; 4345; 4333; 4321; 4309; 4297; 4284; 4272; 4260; 4248; 4236; 4224; 4212; 4200; 4187; 4175; 4163;
    4151; 4139; 4127; 4114; 4102; 4090; 4078; 4066; 4054; 4041; 4029; 4017; 4005; 3993; 3980; 3968; 3956; 3944; 3932;
    3920; 3907; 3895; 3883; 3871; 3858; 3846; 3834; 3822; 3810; 3797; 3785; 3773; 3761; 3748; 3736; 3724; 3712; 3700;
    3687; 3675; 3663; 3651; 3638; 3626; 3614; 3602; 3589; 3577; 3565; 3552; 3540; 3528; 3516; 3503; 3491; 3479; 3467;
    3454; 3442; 3430; 3417; 3405; 3393; 3381; 3368; 3356; 3344; 3331; 3319; 3307; 3294; 3282; 3270; 3257; 3245; 3233;
    3221; 3208; 3196; 3184; 3171; 3159; 3147; 3134; 3122; 3110; 3097; 3085; 3073; 3060; 3048; 3035; 3023; 3011; 2998;
    2986; 2974; 2961; 2949; 2937; 2924; 2912; 2900; 2887; 2875; 2862; 2850; 2838; 2825; 2813; 2801; 2788; 2776; 2763;
    2751; 2739; 2726; 2714; 2701; 2689; 2677; 2664; 2652; 2639; 2627; 2615; 2602; 2590; 2577; 2565; 2553; 2540; 2528;
    2515; 2503; 2491; 2478; 2466; 2453; 2441; 2428; 2416; 2404; 2391; 2379; 2366; 2354; 2341; 2329; 2316; 2304; 2292;
    2279; 2267; 2254; 2242; 2229; 2217; 2204; 2192; 2180; 2167; 2155; 2142; 2130; 2117; 2105; 2092; 2080; 2067; 2055;
    2042; 2030; 2018; 2005; 1993; 1980; 1968; 1955; 1943; 1930; 1918; 1905; 1893; 1880; 1868; 1855; 1843; 1830; 1818;
    1805; 1793; 1780; 1768; 1755; 1743; 1730; 1718; 1705; 1693; 1680; 1668; 1655; 1643; 1630; 1618; 1605; 1593; 1580;
    1568; 1555; 1543; 1530; 1518; 1505; 1493; 1480; 1468; 1455; 1443; 1430; 1418; 1405; 1393; 1380; 1368; 1355; 1343;
    1330; 1318; 1305; 1292; 1280; 1267; 1255; 1242; 1230; 1217; 1205; 1192; 1180; 1167; 1155; 1142; 1130; 1117; 1105;
    1092; 1079; 1067; 1054; 1042; 1029; 1017; 1004; 992; 979; 967; 954; 941; 929; 916; 904; 891; 879; 866; 854; 841;
    829; 816; 803; 791; 778; 766; 753; 741; 728; 716; 703; 690; 678; 665; 653; 640; 628; 615; 603; 590; 577; 565; 552;
    540; 527; 515; 502; 490; 477; 464; 452; 439; 427; 414; 402; 389; 376; 364; 351; 339; 326; 314; 301; 289; 276; 263;
    251; 238; 226; 213; 201; 188; 175; 163; 150; 138; 125; 113; 100; 87; 75; 62; 50; 37; 25; 12; 0].
