(* ===== verification/AudioFilter.v ===== *)
(** * The coefficients of the equaliser's filters

    src/common/libs/audio/vb_effect/filter_calc.c: the coefficients of a band
    of the equaliser and of the low-cut filter in front of the bands, computed
    in fixed point. [None] is undefined behaviour: a signed overflow, a
    division by zero, an access outside a table. *)
From stdpp Require Import base list.
From Stdlib Require Import ZArith Lia.
From S2P Require Import Prelude AudioTables.

(** ** Definitions *)

(** *** Checked arithmetic *)

Definition signed (w z : Z) : Prop := - 2 ^ (w - 1) <= z < 2 ^ (w - 1).
#[export] Instance signed_dec w z : Decision (signed w z).
Proof. unfold signed. apply _. Defined.

(** A result of type [int] or [int64_t]. *)
Definition chk (w z : Z) : option Z := if decide (signed w z) then Some z else None.
Definition int32 : Z -> option Z := chk 32.
Definition int64 : Z -> option Z := chk 64.
(** [a / b] *)
Definition cdiv (w a b : Z) : option Z := if b =? 0 then None else chk w (Z.quot a b).

(** *** The types *)

Record IIR_FILTER_PARA_T := Iir { B0 : Z; B1 : Z; B2 : Z; A0 : Z; A1 : Z; A2 : Z }.

Inductive FILTER_EQPARA_TYPE_E :=
  | FILTER_EQPARA_NORMAL_EQ
  | FILTER_EQPARA_LOW_SHELVE
  | FILTER_EQPARA_HIGH_SHELVE
  | FILTER_EQPARA_MAX.

(** [unEqPara] holds the one 16-bit number of the union. *)
Record FILTER_EQ_CALC_PARA_T := Eq_para {
  eq_on : bool;
  eEqParaType : FILTER_EQPARA_TYPE_E;
  fo : Z;
  unEqPara : Z;
  boostdB : Z;
  basegaindB : Z
}.

Inductive FILTER_LCFPARA_TYPE_E :=
  | FILTER_LCFPARA_F1F1
  | FILTER_LCFPARA_BUTTERWORTH
  | FILTER_LCFPARA_other (n : Z).

(** The first member of the union's struct and [fp] share their place. *)
Record FILTER_LCF_CALC_PARA_T := Lcf_para {
  lcf_on : bool;
  eLcfParaType : FILTER_LCFPARA_TYPE_E;
  f1_g0 : Z; f1_g1 : Z; f1_fp : Z;
  f2_g0 : Z; f2_g1 : Z; f2_fp : Z
}.
Definition fp (p : FILTER_LCF_CALC_PARA_T) : Z := f1_g0 p.

(** What the functions store through their pointers: [*sGain] and
    [*filterPara]. *)
Definition filter_out : Type := Z * IIR_FILTER_PARA_T.
Definition store_iir (b0 b1 b2 a0 a1 a2 : Z) : IIR_FILTER_PARA_T :=
  Iir (s16 b0) (s16 b1) (s16 b2) (s16 a0) (s16 a1) (s16 a2).

(** *** Common parts *)

(** [while (m > 32767) { m = m/2; n_bit = n_bit+1; }] *)
Fixpoint overflow_bits (fuel : nat) (m n_bit : Z) : option Z :=
  match fuel with
  | O => None
  | S fuel => if m >? 32767 then overflow_bits fuel (Z.quot m 2) (n_bit + 1) else Some n_bit
  end.

Definition abso (x : Z) : option Z := if x >? 0 then Some x else int32 (- x).
Definition filter_max (a b : Z) : Z := if a >? b then a else b.

(** "prevent B overflow" and "calc S and adjust B": the gain and the three
    numerators. *)
Definition adjust (b0 b1 b2 gain : Z) : option (Z * Z * Z * Z) :=
  x ← abso b0; y ← abso b1; z ← abso b2;
  n_bit ← overflow_bits 32 (filter_max (filter_max x y) z) 0;
  if n_bit =? 0 then Some (gain, b0, b1, b2) else
  s ← int32 (gain * 2 ^ n_bit);
  Some (if s >? 32767 then 32767 else s, Z.shiftr b0 n_bit, Z.shiftr b1 n_bit, Z.shiftr b2 n_bit).

(** [((cos_Table[2048-k])<<12)/cos_Table[k]], the tangent. *)
Definition tangent (k : Z) : option Z :=
  s ← aget cos_Table (2048 - k); c ← aget cos_Table k;
  x ← int32 (s * 2 ^ 12); cdiv 32 x c.

(** *** A band of the equaliser *)

(** The numerators and denominators; the inner [None] is [return FALSE]. *)
Definition eq_coeffs (Qk Qgama Qfo : Z) : option (option (Z * Z * Z * Z * Z)) :=
  d ← int32 (Qk + Qgama);
  x ← int32 (2 ^ 14 * Qk); b ← cdiv 32 x d;
  y ← int32 (Qgama * Qk); y ← cdiv 32 y d; y ← int32 (y * Qk);
  let y := Z.shiftr y 10 in
  b0 ← int32 (b + y);
  if Z.quot Qfo 2 >=? 2048 then Some None else
  b1 ← (if Qfo <=? 2048 then
          c ← aget cos_Table Qfo; p ← int32 (c * Qk); p ← int32 (p * 2); cdiv 32 (- p) d
        else
          c ← aget cos_Table (4096 - Qfo); p ← int32 (c * Qk); p ← int32 (p * 2); cdiv 32 p d);
  b2 ← int32 (b - y);
  z ← int32 ((Qk - Qgama) * 2 ^ 14); a2 ← cdiv 32 z d;
  Some (Some (b0, b1, b2, b1, a2)).

(** The 16-bit variables of [Filter_CalcEQ] in the normal case. *)
Definition Filter_CalcEQ_normal (p : FILTER_EQ_CALC_PARA_T) (fs : Z) (out : filter_out) : option (bool * filter_out) :=
  let fail := Some (false, out) in
  let q := unEqPara p in
  if fo p >=? Z.shiftr fs 1 then fail else
  if fo p <=? 0 then fail else
  x ← int32 (1113 * fo p); x ← cdiv 32 x fs; x ← int32 (x + 1);
  let qMin := s16 x in
  let q := if q <? qMin then qMin else q in
  x ← cdiv 32 (fo p * 2 ^ 9) q;
  let df := s16 x in
  x ← int32 (df * 2 ^ 13); x ← cdiv 32 x fs;
  let Qdf := s16 x in
  x ← int32 (fo p * 2 ^ 13); x ← cdiv 32 x fs;
  let Qfo := s16 x in
  if (boostdB p <? -720) || (boostdB p >? 180) then fail else
  let qkdB := s16 (boostdB p * 5) in
  Qk ← aget Linear_gain_Table (s16 (Z.quot (qkdB + 7200) 5));
  if Z.quot Qdf 2 >=? 2048 then fail else
  x ← tangent (Z.quot Qdf 2);
  let Qgama := s16 x in
  if (basegaindB p <? -720) || (basegaindB p >? 180) then fail else
  base_gain ← aget Linear_gain_Table (s16 (Z.quot (basegaindB p * 10 + 7200) 5));
  c ← eq_coeffs Qk Qgama Qfo;
  match c with
  | None => fail
  | Some (b0, b1, b2, a1, a2) =>
      r ← adjust b0 b1 b2 base_gain;
      let '(s, b0, b1, b2) := r in
      Some (true, (s16 s, store_iir b0 b1 b2 16384 a1 a2))
  end.

Definition Filter_CalcEQ (p : FILTER_EQ_CALC_PARA_T) (fs : Z) (out : filter_out) : option (bool * filter_out) :=
  if eq_on p then
    match eEqParaType p with
    | FILTER_EQPARA_NORMAL_EQ => Filter_CalcEQ_normal p fs out
    | _ => Some (false, out)
    end
  else Some (true, (4096, Iir 16384 0 0 16384 0 0)).

(** *** The low-cut filter *)

(** Two first-order sections: the numerators and denominators. *)
Definition lcf_f1f1 (F1_G0 F1_G1 F2_G0 F2_G1 w1 w2 : Z) : option (Z * Z * Z * Z * Z) :=
  x1 ← int64 (F1_G0 * w1); x2 ← int64 (F2_G0 * w2);
  let x1 := Z.shiftr x1 12 in let x2 := Z.shiftr x2 12 in
  b0 ← int64 (F1_G1 * F2_G1);
  u ← int64 (x1 * F2_G1); v ← int64 (x2 * F1_G1); b1 ← int64 (u + v);
  b2 ← int64 (x1 * x2);
  let a0 := 2 ^ 24 in
  a1 ← int64 ((w1 + w2) * 2 ^ 12);
  a2 ← int64 (w1 * w2);
  d ← int64 (a0 + a1 + a2);
  let dividor := Z.shiftr d 12 in
  n0 ← int64 ((b0 + b1 + b2) * 4); h0 ← cdiv 64 n0 dividor;
  n1 ← int64 ((b2 - b0) * 8); h1 ← cdiv 64 n1 dividor;
  n2 ← int64 ((b0 - b1 + b2) * 4); h2 ← cdiv 64 n2 dividor;
  m1 ← int64 ((a2 - a0) * 2); k1 ← cdiv 64 m1 dividor; k1 ← int64 (k1 * 4);
  m2 ← int64 (a0 - a1 + a2); k2 ← cdiv 64 m2 dividor; k2 ← int64 (k2 * 4);
  Some (s32 h0, s32 h1, s32 h2, s32 k1, s32 k2).

Definition gain_ok (g : Z) : bool := negb ((g <? -720) || (g >? 180)).
(** [Linear_gain_Table[gain_index]] *)
Definition linear_gain (g : Z) : option Z := aget Linear_gain_Table (s16 (Z.quot (g * 10 + 7200) 5)).

(** The inner [None] is [return TRUE]. *)
Definition lcf_f1f1_para (p : FILTER_LCF_CALC_PARA_T) (fs : Z) : option (option (Z * Z * Z * Z * Z)) :=
  if negb (gain_ok (f1_g0 p) && gain_ok (f1_g1 p) && gain_ok (f2_g0 p) && gain_ok (f2_g1 p)) then Some None else
  x ← cdiv 32 (f1_fp p * 2 ^ 13) fs;
  let Qf1fp := s16 x in
  if Z.quot Qf1fp 2 >=? 2048 then Some None else
  x ← cdiv 32 (f2_fp p * 2 ^ 13) fs;
  let Qf2fp := s16 x in
  if Z.quot Qf2fp 2 >=? 2048 then Some None else
  w1 ← tangent (Z.quot Qf1fp 2); w2 ← tangent (Z.quot Qf2fp 2);
  g1 ← linear_gain (f1_g0 p); g2 ← linear_gain (f1_g1 p); g3 ← linear_gain (f2_g0 p); g4 ← linear_gain (f2_g1 p);
  r ← lcf_f1f1 g1 g2 g3 g4 w1 w2;
  Some (Some r).

Definition lcf_butterworth (p : FILTER_LCF_CALC_PARA_T) (lcf_gain fs : Z) : option (option (Z * Z * Z * Z * Z)) :=
  x ← cdiv 32 (fp p * 2 ^ 13) fs;
  let Qlcffp := s16 x in
  let k := Z.quot Qlcffp 2 in
  if k =? 0 then Some None else
  c ← aget cos_Table k; s ← aget cos_Table (2048 - k);
  x ← int32 (c * 2 ^ 14); K ← cdiv 32 x s;
  Qk2dk ← cdiv 32 (2 ^ 28) K;
  d0 ← int64 (lcf_gain * K); d1 ← int64 ((Qk2dk - K) * 2 ^ 15); d2 ← int64 ((K - 23170 + Qk2dk) * 2 ^ 14);
  x ← int32 (K + 23170); dividor ← int32 (x + Qk2dk);
  g ← cdiv 64 (- d0) dividor;
  let BUT_GAIN := if s32 g =? 0 then -1 else s32 g in
  h1 ← int32 (- BUT_GAIN * 2);
  k1 ← cdiv 64 d1 dividor; k2 ← cdiv 64 d2 dividor;
  Some (Some (BUT_GAIN, h1, BUT_GAIN, s32 k1, s32 k2)).

Definition all_pass : filter_out := (4096, Iir 16384 0 0 16384 0 0).

Definition Filter_CalcLCF (p : FILTER_LCF_CALC_PARA_T) (lcf_gain fs : Z) : option (bool * filter_out) :=
  if fs <=? 0 then Some (false, all_pass) else
  if lcf_on p then
    c ← match eLcfParaType p with
        | FILTER_LCFPARA_F1F1 => lcf_f1f1_para p fs
        | FILTER_LCFPARA_BUTTERWORTH => lcf_butterworth p lcf_gain fs
        | FILTER_LCFPARA_other _ => Some None
        end;
    match c with
    | None => Some (true, all_pass)
    | Some (h0, h1, h2, k1, k2) =>
        r ← adjust h0 h1 h2 4096;
        let '(s, b0, b1, b2) := r in
        Some (true, (s16 s, store_iir b0 b1 b2 16384 k1 k2))
    end
  else Some (true, all_pass).

(** *** For the tools *)

Definition Filter_CalcEQ_Para (band_filter_on : bool) (band_fo band_q band_boostdB band_basegaindB fs : Z) (out : filter_out) : option (bool * filter_out) :=
  Filter_CalcEQ (Eq_para band_filter_on FILTER_EQPARA_NORMAL_EQ band_fo band_q band_boostdB band_basegaindB) fs out.
Definition Filter_CalcLCF_Para (p : FILTER_LCF_CALC_PARA_T) (fs : Z) : option (bool * filter_out) := Filter_CalcLCF p 16384 fs.

(** A band of +6 dB at 1 kHz (q is in 1/512). *)
Example band_1k : Filter_CalcEQ (Eq_para true FILTER_EQPARA_NORMAL_EQ 1000 512 120 0) 44100 all_pass =
  Some (true, (4096, Iir 18050 (-31330) 13598 16384 (-31330) 15264)).
Proof. vm_compute. reflexivity. Qed.
