(* ===== verification/AudioFilterProofs.v ===== *)
(** * The bands of the equaliser

    For every band that the equaliser can be given, at every sample rate up to
    71 kHz, [Filter_CalcEQ] computes without an overflow, a division by zero
    or an access outside its tables; its filter has no pole outside of the
    unit circle; at 0 dB it passes the sound. *)
From stdpp Require Import base list.
From Stdlib Require Import ZArith Lia.
From S2P Require Import Prelude AudioTables AudioFilter.

(** ** Checked arithmetic *)

Lemma chk_ok w z : signed w z -> chk w z = Some z.
Proof. intros H. unfold chk. by rewrite decide_True. Qed.
Lemma int32_ok z : -2147483648 <= z < 2147483648 -> int32 z = Some z.
Proof. intros H. apply chk_ok. exact H. Qed.
Lemma cdiv32_ok a b : 0 < b -> -2147483648 < a < 2147483648 -> cdiv 32 a b = Some (Z.quot a b).
Proof.
  intros Hb Ha. unfold cdiv. rewrite (proj2 (Z.eqb_neq b 0)) by lia. apply chk_ok. unfold signed. change (2 ^ (32 - 1)) with 2147483648.
  pose proof (Z.quot_abs a b ltac:(lia)) as E. rewrite (Z.abs_eq b) in E by lia. rewrite Z.quot_div_nonneg in E by lia.
  pose proof (Z.div_le_upper_bound (Z.abs a) b (Z.abs a) Hb ltac:(nia)). lia.
Qed.
Lemma s16_small z : -32768 <= z < 32768 -> s16 z = z.
Proof. intros H. unfold s16, swrap. change (2 ^ (16 - 1)) with 32768. change (2 ^ 16) with 65536. rewrite Z.mod_small by lia. lia. Qed.

(** The next checked operation, with bounds left to [tac]. *)
Ltac chk_step tac :=
  lazymatch goal with
  | |- context [mbind ?k (int32 ?e)] => rewrite (int32_ok e) by tac; rewrite obind_Some
  | |- context [mbind ?k (cdiv 32 ?a ?b)] => rewrite (cdiv32_ok a b) by tac; rewrite obind_Some
  end.

(** ** The tables *)

Definition in_table (l : list Z) (n : nat) (ok : Z -> Z -> bool) : bool :=
  forallb (fun i => match aget l i with Some x => ok i x | None => false end) (upto n).
Lemma in_table_ok l n ok i : in_table l n ok = true -> 0 <= i < Z.of_nat n -> exists x, aget l i = Some x /\ ok i x = true.
Proof.
  intros H Hi. unfold in_table in H. rewrite forallb_forall in H. specialize (H i). destruct (aget l i) as [x|].
  - exists x. split; [done|]. apply H. apply in_map_iff. exists (Z.to_nat i). split; [lia|]. apply in_seq. lia.
  - discriminate H. apply in_map_iff. exists (Z.to_nat i). split; [lia|]. apply in_seq. lia.
Qed.

Lemma linear_gain_entry i : 0 <= i <= 1800 -> exists g, aget Linear_gain_Table i = Some g /\ 1 <= g <= 32535.
Proof.
  intros Hi. destruct (in_table_ok Linear_gain_Table 1801 (fun _ g => (1 <=? g) && (g <=? 32535)) i) as (g & E & Hg); [by vm_compute|lia|].
  exists g. split; [done|]. apply andb_true_iff in Hg as [H1 H2]. lia.
Qed.
Lemma cos_entry i : 0 <= i <= 2048 -> exists c, aget cos_Table i = Some c /\ 0 <= c <= 16384 /\ (1 <= i -> c <= 16383).
Proof.
  intros Hi. destruct (in_table_ok cos_Table 2049 (fun i c => (0 <=? c) && (c <=? 16384) && ((i <? 1) || (c <=? 16383))) i) as (c & E & Hc); [by vm_compute|lia|].
  exists c. split; [done|]. apply andb_true_iff in Hc as [Hc H3]. apply andb_true_iff in Hc as [H1 H2]. apply orb_true_iff in H3. lia.
Qed.

(** The tangent of half the bandwidth fits its 16 bits, and is 0 for a
    bandwidth of 0 only. *)
Lemma tangent_entry k : 0 <= k <= 1884 -> exists t, tangent k = Some t /\ 0 <= t <= 32767 /\ (1 <= k -> 1 <= t) /\ (k = 0 -> t = 0).
Proof.
  intros Hk. assert (H : forallb (fun k => match tangent k with Some t => (0 <=? t) && (t <=? 32767) && ((k <? 1) || (1 <=? t)) && ((0 <? k) || (t =? 0)) | None => false end) (upto 1885) = true)
    by by vm_compute.
  rewrite forallb_forall in H. specialize (H k ltac:(apply in_map_iff; exists (Z.to_nat k); split; [lia|apply in_seq; lia])).
  destruct (tangent k) as [t|]; [|discriminate H]. exists t. split; [done|]. rewrite !andb_true_iff, !orb_true_iff in H. lia.
Qed.

(** ** The coefficients *)

(** [q * 16384 / d] of numbers whose sum is [d]: rounding never makes the
    middle coefficient too big. *)
Lemma quot_nonneg a b : 0 <= a -> 0 < b -> Z.quot a b = a / b.
Proof. intros. apply Z.quot_div_nonneg; lia. Qed.
Lemma quot_neg a b : 0 <= a -> 0 < b -> Z.quot (- a) b = - (a / b).
Proof. intros. rewrite Z.quot_opp_l by lia. by rewrite quot_nonneg. Qed.

Lemma triangle k g c : 1 <= k -> 0 <= g -> 0 <= c <= 16384 ->
  let a2 := Z.quot ((k - g) * 2 ^ 14) (k + g) in
  -16384 <= a2 <= 16384 /\ (2 * c * k) / (k + g) <= 16384 + a2.
Proof.
  intros Hk Hg Hc a2. change (2 ^ 14) with 16384 in a2. destruct (Z.le_gt_cases g k) as [Hgk|Hgk].
  - assert (E : a2 = (k - g) * 16384 / (k + g)) by (apply quot_nonneg; nia).
    assert (E2 : 16384 + a2 = (2 * 16384 * k) / (k + g)).
    { rewrite E. rewrite Z.add_comm, <- Z.div_add by lia. f_equal. lia. }
    split.
    + split; [rewrite E; pose proof (Z.div_pos ((k - g) * 16384) (k + g) ltac:(nia) ltac:(lia)); lia|].
      rewrite E. apply Z.div_le_upper_bound; nia.
    + rewrite E2. apply Z.div_le_mono; nia.
  - assert (E : a2 = - ((g - k) * 16384 / (k + g))).
    { unfold a2. rewrite <- quot_neg by nia. f_equal. lia. }
    pose proof (Z.div_pos ((g - k) * 16384) (k + g) ltac:(nia) ltac:(lia)).
    assert ((g - k) * 16384 / (k + g) <= 16384) by (apply Z.div_le_upper_bound; nia).
    split; [lia|]. rewrite E. pose proof (Z.mul_div_le (2 * c * k) (k + g) ltac:(lia)). pose proof (Z.mul_div_le ((g - k) * 16384) (k + g) ltac:(lia)). nia.
Qed.

Record coeffs_ok (b0 b1 b2 a2 : Z) : Prop := {
  ok_b0 : 0 <= b0 <= 1100000;
  ok_b2 : -1100000 <= b2 <= 16384;
  ok_b1 : -32768 <= b1 <= 32766;
  ok_a2 : -16384 <= a2 <= 16384;
  ok_stable : Z.abs b1 <= 16384 + a2
}.

(** Their values; a centre of at least one step keeps the cosine below 1. *)
Record coeffs_values (Qk Qgama Qfo b0 b1 b2 a2 : Z) : Prop := {
  value_b0 : b0 = 16384 * Qk / (Qk + Qgama) + Qgama * Qk / (Qk + Qgama) * Qk / 1024;
  value_b2 : b2 = 16384 * Qk / (Qk + Qgama) - Qgama * Qk / (Qk + Qgama) * Qk / 1024;
  value_a2 : a2 = Z.quot ((Qk - Qgama) * 2 ^ 14) (Qk + Qgama);
  value_b1 : 1 <= Qfo -> -32766 <= b1
}.

Lemma eq_coeffs_ok Qk Qgama Qfo : 1 <= Qk <= 32535 -> 0 <= Qgama <= 32767 -> 0 <= Qfo <= 4095 ->
  exists b0 b1 b2 a2, eq_coeffs Qk Qgama Qfo = Some (Some (b0, b1, b2, b1, a2)) /\ coeffs_ok b0 b1 b2 a2 /\
    coeffs_values Qk Qgama Qfo b0 b1 b2 a2.
Proof.
  intros Hk Hg Hf. unfold eq_coeffs. set (d := Qk + Qgama). assert (Hd : 1 <= d <= 65302) by lia.
  chk_step lia. chk_step lia. chk_step lia.
  rewrite (quot_nonneg (2 ^ 14 * Qk)) by lia. set (b := 2 ^ 14 * Qk / d).
  assert (Hb : 0 <= b <= 16384) by (split; [apply Z.div_pos; lia|apply Z.div_le_upper_bound; lia]).
  assert (Hp : 0 <= Qgama * Qk <= 32767 * 32535) by nia.
  chk_step lia. chk_step lia. rewrite (quot_nonneg (Qgama * Qk)) by lia.
  set (y := Qgama * Qk / d). assert (Hy : 0 <= y <= 32767) by (split; [apply Z.div_pos; lia|apply Z.div_le_upper_bound; nia]).
  assert (Hyk : 0 <= y * Qk <= 32767 * 32535) by nia.
  chk_step lia. rewrite Z.shiftr_div_pow2 by lia. change (2 ^ 10) with 1024. set (z := y * Qk / 1024).
  assert (Hz : 0 <= z <= 1041100) by (split; [apply Z.div_pos; lia|apply Z.div_le_upper_bound; lia]).
  chk_step lia. rewrite (quot_nonneg Qfo) by lia.
  assert (Hq : Qfo / 2 <= 2047) by (apply Z.lt_succ_r, Z.div_lt_upper_bound; lia). rewrite Z.geb_leb, (proj2 (Z.leb_gt 2048 _)) by lia.
  assert (Hb1 : exists c, 0 <= c <= 16384 /\ (1 <= Qfo -> c <= 16383) /\
    (if Qfo <=? 2048 then c0 ← aget cos_Table Qfo; p ← int32 (c0 * Qk); p ← int32 (p * 2); cdiv 32 (- p) d
     else c0 ← aget cos_Table (4096 - Qfo); p ← int32 (c0 * Qk); p ← int32 (p * 2); cdiv 32 p d) =
    Some (if Qfo <=? 2048 then - (2 * c * Qk / d) else 2 * c * Qk / d)).
  { destruct (Z.leb_spec Qfo 2048).
    - destruct (cos_entry Qfo ltac:(lia)) as (c & E & Hc & Hc1). exists c. split; [done|]. split; [done|]. rewrite E, obind_Some.
      assert (0 <= c * Qk <= 16384 * 32535) by nia. chk_step lia. chk_step lia.
      rewrite cdiv32_ok by lia. f_equal. rewrite <- quot_neg by nia. f_equal. lia.
    - destruct (cos_entry (4096 - Qfo) ltac:(lia)) as (c & E & Hc & Hc1). exists c. split; [done|]. split; [lia|]. rewrite E, obind_Some.
      assert (0 <= c * Qk <= 16384 * 32535) by nia. chk_step lia. chk_step lia.
      rewrite cdiv32_ok by lia. f_equal. rewrite <- quot_nonneg by nia. f_equal. lia. }
  destruct Hb1 as (c & Hc & Hc1 & ->). rewrite obind_Some. chk_step lia.
  chk_step lia. replace (Qgama + Qk) with d by lia. chk_step lia.
  destruct (triangle Qk Qgama c ltac:(lia) ltac:(lia) Hc) as [Ha2 Hst]. fold d in Ha2, Hst.
  assert (Hm : 0 <= 2 * c * Qk / d <= 2 * c).
  { split; [apply Z.div_pos; nia|apply Z.div_le_upper_bound; nia]. }
  eexists _, _, _, _. split; [reflexivity|]. split; (split; [try lia; try done..|]).
  - destruct (Z.leb_spec Qfo 2048); lia.
  - destruct (Qfo <=? 2048); lia.
  - intros H. specialize (Hc1 H). assert (2 * c * Qk / d <= 32766) by lia. destruct (Qfo <=? 2048); lia.
Qed.

(** ** The adjustment *)

Lemma overflow_bits_ok fuel : forall m n, 0 <= m < 2 ^ (Z.of_nat fuel + 14) -> (0 < fuel)%nat -> 0 <= n ->
  exists k, overflow_bits fuel m n = Some (n + k) /\ 0 <= k < Z.of_nat fuel /\ m < 32768 * 2 ^ k /\ (1 <= k -> 32768 * 2 ^ (k - 1) <= m).
Proof.
  induction fuel as [|fuel IH]; intros m n Hm Hf Hn; [lia|]. cbn [overflow_bits]. destruct (Z.gtb_spec m 32767).
  - assert (Hfuel : (0 < fuel)%nat).
    { destruct fuel; [|lia]. change (2 ^ (Z.of_nat 1 + 14)) with 32768 in Hm. lia. }
    rewrite quot_nonneg by lia. destruct (IH (m / 2) (n + 1)) as (k & E & Hk & Hlt & Hge); [|done|lia|].
    { split; [apply Z.div_pos; lia|]. apply Z.div_lt_upper_bound; [lia|]. replace (Z.of_nat (S fuel) + 14) with (Z.succ (Z.of_nat fuel + 14)) in Hm by lia.
      rewrite Z.pow_succ_r in Hm by lia. lia. }
    exists (k + 1). rewrite E. split; [f_equal; lia|]. split; [lia|]. pose proof (Z.mod_pos_bound m 2). pose proof (Z.div_mod m 2). split.
    + rewrite Z.pow_add_r by lia. change (2 ^ 1) with 2. lia.
    + intros _. rewrite Z.add_simpl_r. destruct (Z.eq_dec k 0) as [->|Hk0]; [change (2 ^ 0) with 1; lia|]. specialize (Hge ltac:(lia)).
      replace k with (k - 1 + 1) by lia. rewrite Z.pow_add_r by lia. change (2 ^ 1) with 2. lia.
  - exists 0. rewrite Z.add_0_r. split; [done|]. split; [lia|]. change (2 ^ 0) with 1. lia.
Qed.

Lemma abso_ok x : -2147483648 < x < 2147483648 -> abso x = Some (Z.abs x).
Proof. intros H. unfold abso. destruct (Z.gtb_spec x 0); [by rewrite Z.abs_eq by lia|]. rewrite int32_ok by lia. by rewrite Z.abs_neq by lia. Qed.
Lemma filter_max_spec a b : filter_max a b = Z.max a b.
Proof. unfold filter_max. destruct (Z.gtb_spec a b); lia. Qed.

Lemma shift_small x k : 0 <= k -> Z.abs x < 32768 * 2 ^ k -> -32768 <= Z.shiftr x k <= 32767.
Proof.
  intros Hk Hx. rewrite Z.shiftr_div_pow2 by done. pose proof (Z.pow_pos_nonneg 2 k ltac:(lia) Hk). split.
  - apply Z.div_le_lower_bound; lia.
  - apply Z.lt_succ_r, Z.div_lt_upper_bound; lia.
Qed.

(** The numerators are shifted by the bits that are too many, and the gain is
    multiplied for it, up to 32767. *)
Lemma adjust_ok b0 b1 b2 gain : Z.abs b0 < 2 ^ 21 -> Z.abs b1 < 2 ^ 21 -> Z.abs b2 < 2 ^ 21 -> 0 <= gain <= 32767 ->
  exists k, 0 <= k <= 6 /\ adjust b0 b1 b2 gain = Some (Z.min 32767 (gain * 2 ^ k), Z.shiftr b0 k, Z.shiftr b1 k, Z.shiftr b2 k) /\
    (Z.max (Z.max (Z.abs b0) (Z.abs b1)) (Z.abs b2) <= 32767 -> k = 0) /\
    -32768 <= Z.shiftr b0 k <= 32767 /\ -32768 <= Z.shiftr b1 k <= 32767 /\ -32768 <= Z.shiftr b2 k <= 32767.
Proof.
  intros H0 H1 H2 Hg. change (2 ^ 21) with 2097152 in *. unfold adjust. rewrite !abso_ok by lia. rewrite !obind_Some. rewrite !filter_max_spec. set (m := Z.max _ _).
  destruct (overflow_bits_ok 32 m 0) as (k & E & Hk & Hlt & Hk0); [change (2 ^ (Z.of_nat 32 + 14)) with 70368744177664; lia|lia|lia|].
  rewrite E, obind_Some. rewrite Z.add_0_l. clear E. exists k.
  assert (Hm : m < 2097152) by lia. assert (Hk6 : k <= 6).
  { destruct (Z.le_gt_cases k 6); [done|]. specialize (Hk0 ltac:(lia)). pose proof (Z.pow_le_mono_r 2 6 (k - 1) ltac:(lia) ltac:(lia)). change (2 ^ 6) with 64 in *. lia. }
  assert (Hp : 1 <= 2 ^ k <= 64).
  { pose proof (Z.pow_le_mono_r 2 k 6 ltac:(lia) ltac:(lia)). pose proof (Z.pow_pos_nonneg 2 k ltac:(lia) ltac:(lia)). change (2 ^ 6) with 64 in *. lia. }
  split; [lia|]. split; [|split].
  - destruct (Z.eqb_spec k 0) as [->|Hne].
    + change (2 ^ 0) with 1. rewrite !Z.shiftr_0_r. repeat f_equal. lia.
    + assert (0 <= gain * 2 ^ k <= 32767 * 64) by nia. chk_step lia. repeat f_equal. destruct (Z.gtb_spec (gain * 2 ^ k) 32767); lia.
  - intros H. destruct (Z.eq_dec k 0); [done|]. specialize (Hk0 ltac:(lia)). pose proof (Z.pow_pos_nonneg 2 (k - 1) ltac:(lia) ltac:(lia)). lia.
  - split; [|split]; apply shift_small; lia.
Qed.

(** ** A band *)

Definition int16 (z : Z) : Prop := -32768 <= z < 32768.
Record band_ok (p : FILTER_EQ_CALC_PARA_T) : Prop := {
  band_fo : int16 (fo p);
  band_q : int16 (unEqPara p);
  band_boost : int16 (boostdB p);
  band_gain : int16 (basegaindB p)
}.

(** The band's width and centre in the table's steps: the smallest [q] keeps
    the width small enough. *)
Lemma width_ok f q fs : 0 < f < 32768 -> 2 * f < fs <= 71231 -> int16 q ->
  let qMin := 1113 * f / fs + 1 in let q := Z.max q qMin in let df := f * 2 ^ 9 / q in let Qdf := df * 2 ^ 13 / fs in
  1 <= qMin <= 600 /\ 1 <= q < 32768 /\ 0 <= df < 32768 /\ 0 <= Qdf <= 3768 /\ 0 <= f * 2 ^ 13 / fs <= 4095.
Proof.
  intros Hf Hfs Hq qMin q' df Qdf. unfold int16 in Hq.
  assert (H1 : 0 <= 1113 * f / fs <= 557) by (split; [apply Z.div_pos; lia|apply Z.lt_succ_r, Z.div_lt_upper_bound; lia]).
  assert (Hq' : 1 <= q' < 32768) by (unfold q', qMin; lia).
  assert (Hqf : 1113 * f < q' * fs).
  { pose proof (Z.mul_succ_div_gt (1113 * f) fs ltac:(lia)). unfold q', qMin. nia. }
  assert (Hdf0 : 0 <= df) by (apply Z.div_pos; lia).
  assert (Hdfq : df * q' <= f * 512) by (pose proof (Z.mul_div_le (f * 2 ^ 9) q' ltac:(lia)); fold df in H; lia).
  assert (Hdf : df * 1113 < 512 * fs) by nia.
  assert (Hw : Qdf * fs <= df * 8192) by (pose proof (Z.mul_div_le (df * 2 ^ 13) fs ltac:(lia)); fold Qdf in H; lia).
  split; [unfold qMin; lia|]. split; [done|]. split; [lia|]. split.
  - split; [apply Z.div_pos; lia|]. nia.
  - split; [apply Z.div_pos; lia|]. apply Z.lt_succ_r, Z.div_lt_upper_bound; lia.
Qed.

(** What a band stores: numerators [b >> k] and a gain for them, denominators
    as they are; none of them is cut to its 16 bits. *)
Definition band_result (b0 b1 b2 a2 gain k : Z) : filter_out :=
  (Z.min 32767 (gain * 2 ^ k), Iir (Z.shiftr b0 k) (Z.shiftr b1 k) (Z.shiftr b2 k) 16384 b1 a2).
Record adjusted (b0 b1 b2 gain k : Z) : Prop := {
  adjusted_k : 0 <= k <= 6;
  adjusted_gain : 1 <= gain <= 32535;
  adjusted_none : Z.max (Z.max (Z.abs b0) (Z.abs b1)) (Z.abs b2) <= 32767 -> k = 0;
  adjusted_b0 : int16 (Z.shiftr b0 k);
  adjusted_b1 : int16 (Z.shiftr b1 k);
  adjusted_b2 : int16 (Z.shiftr b2 k)
}.

Lemma stored b0 b1 b2 a2 gain k : coeffs_ok b0 b1 b2 a2 -> adjusted b0 b1 b2 gain k ->
  (s16 (Z.min 32767 (gain * 2 ^ k)), store_iir (Z.shiftr b0 k) (Z.shiftr b1 k) (Z.shiftr b2 k) 16384 b1 a2) = band_result b0 b1 b2 a2 gain k.
Proof.
  intros [C1 C2 C3 C4 C5] [A1 A2 A3 A4 A5 A6]. unfold band_result, store_iir, int16 in *. pose proof (Z.pow_pos_nonneg 2 k ltac:(lia) ltac:(lia)).
  rewrite !s16_small by (try lia; nia). done.
Qed.

(** The index of a gain; [g] is in tenths of a decibel. *)
Lemma boost_index b : -720 <= b <= 180 -> s16 (Z.quot (s16 (b * 5) + 7200) 5) = b + 1440.
Proof.
  intros H. rewrite (s16_small (b * 5)) by lia. replace (b * 5 + 7200) with ((b + 1440) * 5) by lia. rewrite Z.quot_mul by lia. apply s16_small. lia.
Qed.
Lemma gain_index b : -720 <= b <= 180 -> s16 (Z.quot (b * 10 + 7200) 5) = 2 * b + 1440.
Proof. intros H. replace (b * 10 + 7200) with ((2 * b + 1440) * 5) by lia. rewrite Z.quot_mul by lia. apply s16_small. lia. Qed.

(** The bands that are not refused. *)
Definition in_range (p : FILTER_EQ_CALC_PARA_T) (fs : Z) : bool :=
  (0 <? fo p) && (fo p <? fs / 2) && (-720 <=? boostdB p) && (boostdB p <=? 180) && (-720 <=? basegaindB p) && (basegaindB p <=? 180).
Lemma in_range_spec p fs : in_range p fs = true <-> 0 < fo p < fs / 2 /\ -720 <= boostdB p <= 180 /\ -720 <= basegaindB p <= 180.
Proof. unfold in_range. rewrite !andb_true_iff, !Z.ltb_lt, !Z.leb_le. lia. Qed.
Lemma out_of_range p fs : ~ (0 < fo p < fs / 2 /\ -720 <= boostdB p <= 180 /\ -720 <= basegaindB p <= 180) -> in_range p fs = false.
Proof. rewrite <- in_range_spec. by destruct (in_range p fs). Qed.

Lemma Filter_CalcEQ_normal_ok p fs out : band_ok p -> fs <= 71231 ->
  in_range p fs = false /\ Filter_CalcEQ_normal p fs out = Some (false, out) \/
  in_range p fs = true /\ exists Qk Qgama Qfo gain b0 b1 b2 a2 k, aget Linear_gain_Table (boostdB p + 1440) = Some Qk /\ 1 <= Qk <= 32535 /\ 0 <= Qgama <= 32767 /\
    aget Linear_gain_Table (2 * basegaindB p + 1440) = Some gain /\ eq_coeffs Qk Qgama Qfo = Some (Some (b0, b1, b2, b1, a2)) /\
    coeffs_ok b0 b1 b2 a2 /\ coeffs_values Qk Qgama (fo p * 2 ^ 13 / fs) b0 b1 b2 a2 /\ adjusted b0 b1 b2 gain k /\ Filter_CalcEQ_normal p fs out = Some (true, band_result b0 b1 b2 a2 gain k).
Proof.
  intros [Hf Hq Hb Hg] Hfs. unfold Filter_CalcEQ_normal. unfold int16 in Hf, Hb, Hg.
  rewrite Z.shiftr_div_pow2 by lia. change (2 ^ 1) with 2. rewrite Z.geb_leb.
  destruct (Z.leb_spec (fs / 2) (fo p)) as [|Hhalf]; [left; split; [apply out_of_range; lia|done]|].
  destruct (Z.leb_spec (fo p) 0) as [|Hpos]; [left; split; [apply out_of_range; lia|done]|].
  assert (Hfs2 : 2 * fo p < fs) by (pose proof (Z.mul_div_le fs 2 ltac:(lia)); lia).
  destruct (width_ok (fo p) (unEqPara p) fs ltac:(lia) ltac:(lia) Hq) as (W1 & W2 & W3 & W4 & W5).
  chk_step lia. chk_step lia. rewrite (quot_nonneg (1113 * fo p)) by lia. chk_step lia. rewrite (s16_small (1113 * fo p / fs + 1)) by lia.
  set (qMin := 1113 * fo p / fs + 1) in *. set (q := Z.max (unEqPara p) qMin) in *.
  replace (if unEqPara p <? qMin then qMin else unEqPara p) with q by (unfold q; destruct (Z.ltb_spec (unEqPara p) qMin); lia).
  chk_step lia. rewrite (quot_nonneg (fo p * 2 ^ 9)) by lia. set (df := fo p * 2 ^ 9 / q) in *. rewrite (s16_small df) by lia.
  chk_step lia. chk_step lia. rewrite (quot_nonneg (df * 2 ^ 13)) by lia. set (Qdf := df * 2 ^ 13 / fs) in *. rewrite (s16_small Qdf) by lia.
  chk_step lia. chk_step lia. rewrite (quot_nonneg (fo p * 2 ^ 13)) by lia. set (Qfo := fo p * 2 ^ 13 / fs) in *. rewrite (s16_small Qfo) by lia.
  destruct ((boostdB p <? -720) || (boostdB p >? 180)) eqn:Eb; [left; split; [apply out_of_range; lia|done]|]. apply orb_false_iff in Eb as [Eb1 Eb2].
  assert (Hboost : -720 <= boostdB p <= 180) by lia. rewrite boost_index by done.
  destruct (linear_gain_entry (boostdB p + 1440) ltac:(lia)) as (Qk & EQk & HQk). rewrite EQk, obind_Some.
  assert (Hk : 0 <= Qdf / 2 <= 1884) by (split; [apply Z.div_pos; lia|apply Z.div_le_upper_bound; lia]).
  rewrite (quot_nonneg Qdf) by lia. rewrite Z.geb_leb, (proj2 (Z.leb_gt 2048 _)) by lia.
  destruct (tangent_entry (Qdf / 2) Hk) as (t & Et & Ht & _). rewrite Et, obind_Some. rewrite (s16_small t) by lia.
  destruct ((basegaindB p <? -720) || (basegaindB p >? 180)) eqn:Eg; [left; split; [apply out_of_range; lia|done]|]. apply orb_false_iff in Eg as [Eg1 Eg2].
  rewrite gain_index by lia. destruct (linear_gain_entry (2 * basegaindB p + 1440) ltac:(lia)) as (gain & Egain & Hgain). rewrite Egain, obind_Some.
  destruct (eq_coeffs_ok Qk t Qfo HQk Ht W5) as (b0 & b1 & b2 & a2 & Ec & Hc & Hv). rewrite Ec, obind_Some.
  pose proof Hc as [C1 C2 C3 C4 C5]. destruct (adjust_ok b0 b1 b2 gain) as (k & Hk6 & Ea & Hk0 & H0 & H1 & H2); [change (2 ^ 21) with 2097152; lia..|lia|].
  rewrite Ea, obind_Some. right. split; [apply in_range_spec; lia|]. exists Qk, t, Qfo, gain, b0, b1, b2, a2, k. do 7 (split; [done|]).
  assert (Hadj : adjusted b0 b1 b2 gain k) by (split; [lia|done|done|unfold int16; lia..]). split; [done|]. by rewrite stored.
Qed.

(** ** Properties *)

(** A filter whose poles are not outside of the unit circle: the triangle of
    second-order filters, with 16384 for 1. *)
Definition poles_inside (f : IIR_FILTER_PARA_T) : Prop := A0 f = 16384 /\ -16384 <= A2 f <= 16384 /\ Z.abs (A1 f) <= 16384 + A2 f.

Definition accepted (p : FILTER_EQ_CALC_PARA_T) (fs : Z) : bool :=
  negb (eq_on p) || (match eEqParaType p with FILTER_EQPARA_NORMAL_EQ => true | _ => false end && in_range p fs).

Lemma Filter_CalcEQ_ok p fs out : band_ok p -> fs <= 71231 ->
  if accepted p fs then
    exists s f, Filter_CalcEQ p fs out = Some (true, (s, f)) /\ 1 <= s <= 32767 /\ poles_inside f /\
      int16 (B0 f) /\ int16 (B1 f) /\ int16 (B2 f) /\ int16 (A1 f)
  else Filter_CalcEQ p fs out = Some (false, out).
Proof.
  intros Hp Hfs. unfold Filter_CalcEQ, accepted. destruct (eq_on p); cbn [negb orb].
  - destruct (eEqParaType p); cbn [andb]; [|done..].
    destruct (Filter_CalcEQ_normal_ok p fs out Hp Hfs) as [ [-> E]|[-> (Qk & t & Qfo & gain & b0 & b1 & b2 & a2 & k & _ & _ & _ & _ & _ & [C1 C2 C3 C4 C5] & _ & [K1 K2 _ K3 K4 K5] & E)] ]; [done|].
    eexists _, _. split; [exact E|]. cbn [fst snd B0 B1 B2 A0 A1 A2]. pose proof (Z.pow_pos_nonneg 2 k ltac:(lia) ltac:(lia)).
    split; [nia|]. split; [done|]. unfold int16 in *. lia.
  - eexists _, _. split; [reflexivity|]. unfold poles_inside, int16. cbn. lia.
Qed.

(** C18: Every band of the equaliser: for all values of its 16-bit parameters,
    at every sample rate up to 71231 Hz, [Filter_CalcEQ] computes without
    overflowing an [int], dividing by zero or reading outside of its tables.
    It refuses the shelves, and bands whose centre is not between 0 and half
    the sample rate or whose gains are not between -72 and 18 dB, and stores
    nothing then; otherwise it stores a gain that is positive and a filter
    whose poles are not outside of the unit circle, so that the sound cannot
    grow without limit, and whose coefficients fit their 16 bits. *)
Theorem eq_band_safe p fs out : band_ok p -> fs <= 71231 ->
  if accepted p fs then
    exists s f, Filter_CalcEQ p fs out = Some (true, (s, f)) /\ 1 <= s <= 32767 /\ poles_inside f /\
      int16 (B0 f) /\ int16 (B1 f) /\ int16 (B2 f) /\ int16 (A1 f)
  else Filter_CalcEQ p fs out = Some (false, out).
Proof. apply Filter_CalcEQ_ok. Qed.

(** The coefficients at 0 dB. *)
Lemma flat_values g f b0 b1 b2 a2 : 0 <= g -> coeffs_values 4096 g f b0 b1 b2 a2 -> -4 <= b0 - 16384 <= 0 /\ Z.abs (b2 - a2) <= 4.
Proof.
  intros Hg [-> -> -> _]. set (d := 4096 + g). assert (Hd : 0 < d) by lia. set (x := g * 4096 / d).
  assert (Ex : x * 4096 / 1024 = 4 * x) by (replace (x * 4096) with (4 * x * 1024) by lia; apply Z.div_mul; lia). rewrite Ex.
  pose proof (Z.mul_div_le (g * 4096) d Hd) as X1. pose proof (Z.mul_succ_div_gt (g * 4096) d Hd) as X2. fold x in X1, X2.
  set (y := 16384 * 4096 / d). pose proof (Z.mul_div_le (16384 * 4096) d Hd) as Y1. pose proof (Z.mul_succ_div_gt (16384 * 4096) d Hd) as Y2. fold y in Y1, Y2.
  split; [nia|]. set (q := Z.quot _ d). change (2 ^ 14) with 16384 in q.
  assert (Hq : d * q - d < (4096 - g) * 16384 < d * q + d).
  { pose proof (Z.quot_rem ((4096 - g) * 16384) d ltac:(lia)) as E. fold q in E. pose proof (Z.rem_bound_abs ((4096 - g) * 16384) d ltac:(lia)). lia. }
  assert (Hyx : d * (y - 4 * x) <= (4096 - g) * 16384 + 4 * d /\ (4096 - g) * 16384 - d <= d * (y - 4 * x)) by (unfold d in *; lia).
  nia.
Qed.

(** A band of 0 dB, the middle of the gains, whose centre is not below a
    step of the table: its numerators are its denominators up to 4 in 16384,
    so that it passes the sound as it is, and its gain is the base gain that
    was asked for. *)
Theorem eq_band_flat p fs out : band_ok p -> fs <= 71231 -> eq_on p = true -> eEqParaType p = FILTER_EQPARA_NORMAL_EQ -> boostdB p = 0 ->
  0 < fo p < fs / 2 -> -720 <= basegaindB p <= 180 -> fs <= 8192 * fo p ->
  exists s f, Filter_CalcEQ p fs out = Some (true, (s, f)) /\ aget Linear_gain_Table (2 * basegaindB p + 1440) = Some s /\
    B1 f = A1 f /\ Z.abs (B0 f - A0 f) <= 4 /\ Z.abs (B2 f - A2 f) <= 4.
Proof.
  intros Hp Hfs Hon Hty Hb Hf Hg Hc. unfold Filter_CalcEQ. rewrite Hon, Hty.
  destruct (Filter_CalcEQ_normal_ok p fs out Hp Hfs) as [ [Er _]|[_ (Qk & t & Qfo & gain & b0 & b1 & b2 & a2 & k & EQk & _ & Ht & Eg & _ & [C1 C2 C3 C4 C5] & Hv & [K1 K2 K0 K3 K4 K5] & E)] ].
  { rewrite (proj2 (in_range_spec p fs)) in Er; [discriminate Er|lia]. }
  eexists _, _. split; [exact E|]. rewrite Hb in EQk. change (aget Linear_gain_Table (0 + 1440)) with (Some 4096) in EQk. injection EQk as <-.
  destruct (flat_values t _ b0 b1 b2 a2 ltac:(lia) Hv) as [F0 F2]. pose proof (value_b1 _ _ _ _ _ _ _ Hv) as Hb1.
  assert (Hfs0 : 0 < fs) by (destruct (Z.le_gt_cases fs 0); [pose proof (Z.div_le_upper_bound fs 2 0); lia|done]).
  assert (H1 : 1 <= fo p * 2 ^ 13 / fs) by (apply Z.div_le_lower_bound; lia). specialize (Hb1 H1). rewrite K0 by lia.
  change (2 ^ 0) with 1. rewrite !Z.shiftr_0_r, Z.mul_1_r, Z.min_r by lia. cbn [B0 B1 B2 A0 A1 A2]. split; [exact Eg|]. split; [done|]. lia.
Qed.

(** ** Witnesses *)

Definition sample_band : FILTER_EQ_CALC_PARA_T := Eq_para true FILTER_EQPARA_NORMAL_EQ 1000 512 0 0.
Lemma sample_band_ok : band_ok sample_band.
Proof. by repeat split. Qed.

Lemma eq_band_safe_witness : exists s f, Filter_CalcEQ sample_band 44100 all_pass = Some (true, (s, f)) /\ 1 <= s <= 32767 /\ poles_inside f.
Proof.
  destruct (eq_band_safe sample_band 44100 all_pass sample_band_ok) as (s & f & E & Hs & Hp & _); [done|].
  exists s, f. split; [exact E|]. split; [exact Hs|exact Hp].
Defined.

Lemma eq_band_flat_witness : exists s f, Filter_CalcEQ sample_band 44100 all_pass = Some (true, (s, f)) /\ s = 4096 /\ Z.abs (B0 f - A0 f) <= 4.
Proof.
  destruct (eq_band_flat sample_band 44100 all_pass sample_band_ok) as (s & f & E & Hg & _ & H0 & _); [done|reflexivity|reflexivity|reflexivity|by vm_compute|done|done|].
  exists s, f. split; [exact E|]. split; [|exact H0]. vm_compute in Hg. injection Hg as <-. reflexivity.
Defined.
