(* ===== verification/AudioLcfProofs.v ===== *)
(** * The low-cut filter

    For every setting of the low-cut filter, [Filter_CalcLCF] computes without
    an overflow, a division by zero or an access outside its tables, and its
    filter has no pole outside of the unit circle; where it can be set by the
    phone, the negated denominator fits its register but for corners below
    the first step of the table. *)
From stdpp Require Import base list.
From Stdlib Require Import ZArith Lia.
From S2P Require Import Prelude AudioTables AudioFilter AudioFilterProofs.

(** ** Checked arithmetic *)

Definition I64 : Z := 9223372036854775808.
Lemma int64_ok z : - I64 <= z < I64 -> int64 z = Some z.
Proof. intros H. apply chk_ok. exact H. Qed.
Lemma cdiv64_ok a b : 0 < b -> - I64 < a < I64 -> cdiv 64 a b = Some (Z.quot a b).
Proof.
  intros Hb Ha. unfold cdiv. rewrite (proj2 (Z.eqb_neq b 0)) by lia. apply chk_ok. unfold signed. change (2 ^ (64 - 1)) with I64.
  pose proof (Z.quot_abs a b ltac:(lia)) as E. rewrite (Z.abs_eq b) in E by lia. rewrite Z.quot_div_nonneg in E by lia.
  pose proof (Z.div_le_upper_bound (Z.abs a) b (Z.abs a) Hb ltac:(nia)). lia.
Qed.
Lemma s32_small z : -2147483648 <= z < 2147483648 -> s32 z = z.
Proof.
  intros H. unfold s32, swrap. change (2 ^ (32 - 1)) with 2147483648. change (2 ^ 32) with 4294967296. rewrite Z.mod_small by lia. lia.
Qed.

(** The next checked operation of 64 bits. *)
Ltac chk64 tac :=
  lazymatch goal with
  | |- context [mbind ?k (int64 ?e)] => rewrite (int64_ok e) by tac; rewrite obind_Some
  | |- context [mbind ?k (cdiv 64 ?a ?b)] => rewrite (cdiv64_ok a b) by tac; rewrite obind_Some
  end.

Lemma mul_range a b A B : 0 <= a <= A -> 0 <= b <= B -> 0 <= a * b <= A * B.
Proof. intros Ha Hb. split; [lia|]. apply Z.mul_le_mono_nonneg; lia. Qed.

Lemma tangent_full k : 0 <= k <= 2047 -> exists t, tangent k = Some t /\ 0 <= t < 8388608 /\ (1 <= k -> 1 <= t) /\ (k = 0 -> t = 0).
Proof.
  intros Hk. assert (H : forallb (fun k => match tangent k with Some t => (0 <=? t) && (t <? 8388608) && ((k <? 1) || (1 <=? t)) && ((0 <? k) || (t =? 0)) | None => false end) (upto 2048) = true)
    by by vm_compute.
  rewrite forallb_forall in H. specialize (H k ltac:(apply in_map_iff; exists (Z.to_nat k); split; [lia|apply in_seq; lia])).
  destruct (tangent k) as [t|]; [|discriminate H]. exists t. split; [done|]. rewrite !andb_true_iff, !orb_true_iff in H. lia.
Qed.

(** A quotient between bounds of the dividend. *)
Lemma quot_between a b m : 0 < b -> Z.abs a <= m * b -> Z.abs (Z.quot a b) <= m.
Proof.
  intros Hb H. rewrite <- Z.quot_abs by lia. rewrite (Z.abs_eq b) by lia. rewrite quot_nonneg by lia. apply Z.div_le_upper_bound; lia.
Qed.

Lemma quot_parts a b : 0 < b -> (0 <= a -> 0 <= Z.quot a b /\ Z.quot a b * b <= a < Z.quot a b * b + b) /\
  (a <= 0 -> Z.quot a b <= 0 /\ Z.quot a b * b - b < a <= Z.quot a b * b).
Proof.
  intros Hb. split; intros Ha.
  - rewrite quot_nonneg by lia. pose proof (Z.div_mod a b ltac:(lia)). pose proof (Z.mod_pos_bound a b Hb). pose proof (Z.div_pos a b Ha Hb). lia.
  - replace a with (- (- a)) by lia. rewrite quot_neg by lia. pose proof (Z.div_mod (- a) b ltac:(lia)). pose proof (Z.mod_pos_bound (- a) b Hb).
    pose proof (Z.div_pos (- a) b ltac:(lia) Hb). lia.
Qed.

(** ** The two sections *)

Section sections.
Context (w1 w2 : Z) (H1 : 0 <= w1 < 8388608) (H2 : 0 <= w2 < 8388608).
Let a0 := 2 ^ 24.
Let a1 := (w1 + w2) * 2 ^ 12.
Let a2 := w1 * w2.
Let D := Z.shiftr (a0 + a1 + a2) 12.
Let r := a2 mod 4096.

Lemma divisor : 4096 * D = a0 + a1 + a2 - r /\ 4096 <= D /\ 0 <= r < 4096 /\ 0 <= a1 /\ 0 <= a2 < 70368744177664.
Proof.
  unfold D, r. rewrite Z.shiftr_div_pow2 by done. change (2 ^ 12) with 4096 in *. change a0 with (4096 * 4096). unfold a1. change (2 ^ 12) with 4096.
  replace (4096 * 4096 + (w1 + w2) * 4096 + a2) with (a2 + (4096 + w1 + w2) * 4096) by lia. rewrite Z.div_add by done.
  pose proof (Z.div_mod a2 4096 ltac:(done)). pose proof (Z.mod_pos_bound a2 4096 ltac:(done)). assert (0 <= a2) by (unfold a2; nia).
  assert (0 <= a2 / 4096) by (apply Z.div_pos; lia). assert (a2 < 70368744177664) by (unfold a2; nia). lia.
Qed.

(** The denominators. *)
Lemma lcf_poles (k1 := Z.quot ((a2 - a0) * 2) D * 4) (k2 := Z.quot (a0 - a1 + a2) D * 4) :
  -16384 <= k2 <= 16384 /\ Z.abs k1 <= 16384 + k2 /\ k1 < 32768 /\ (1 <= w1 + w2 -> -32768 < k1).
Proof.
  destruct divisor as (HD & HD1 & Hr & Ha1 & Ha2). change a0 with 16777216 in *. unfold k1, k2. clear k1 k2.
  assert (Ha1r : a1 = 0 -> a2 = 0) by (unfold a1, a2; nia). assert (Ha1s : a1 <> 0 -> 4096 <= a1) by (unfold a1; lia).
  assert (Hr0 : a1 = 0 -> r = 0) by (intros E; unfold r; by rewrite (Ha1r E)).
  assert (Ha1w : 1 <= w1 + w2 -> 4096 <= a1) by (unfold a1; lia).
  assert (Hra : r <= a2) by (apply Z.mod_le; lia). clearbody a1 a2 D r.
  destruct (quot_parts (a0 - a1 + a2) D ltac:(lia)) as [Q1 Q2]. destruct (quot_parts ((a2 - a0) * 2) D ltac:(lia)) as [R1 R2].
  change a0 with 16777216 in *. set (q2 := Z.quot (16777216 - a1 + a2) D) in *. set (q1 := Z.quot ((a2 - 16777216) * 2) D) in *. clearbody q1 q2.
  assert (Hq2 : -4096 <= q2 <= 4096).
  { split.
    - destruct (Z.le_gt_cases (-4096) q2) as [|Hq]; [done|]. pose proof (Z.mul_le_mono_nonneg_r q2 (-4097) D ltac:(lia) ltac:(lia)). lia.
    - destruct (Z.le_gt_cases q2 4096) as [|Hq]; [done|]. pose proof (Z.mul_le_mono_nonneg_r 4097 q2 D ltac:(lia) ltac:(lia)). lia. }
  split; [lia|]. split; [|split].
  - destruct (Z.le_gt_cases (Z.abs q1) (4096 + q2)) as [|Hq]; [lia|]. exfalso.
    pose proof (Z.mul_le_mono_nonneg_r (4097 + q2) (Z.abs q1) D ltac:(lia) ltac:(lia)) as Hm.
    destruct (Z.abs_spec q1) as [ [Hs E]|[Hs E] ]; rewrite E in *; lia.
  - destruct (Z.le_gt_cases 8192 q1) as [Hq|]; [|lia]. exfalso.
    pose proof (Z.mul_le_mono_nonneg_r 8192 q1 D ltac:(lia) Hq). lia.
  - intros Hw. specialize (Ha1w Hw). destruct (Z.le_gt_cases q1 (-8192)) as [Hq|]; [|lia]. exfalso.
    pose proof (Z.mul_le_mono_nonneg_r q1 (-8192) D ltac:(lia) Hq). lia.
Qed.

(** The numerators, for gains of at most 18 dB. *)
Context (G0 G1 K0 K1 : Z) (HG0 : 1 <= G0 <= 32535) (HG1 : 1 <= G1 <= 32535) (HK0 : 1 <= K0 <= 32535) (HK1 : 1 <= K1 <= 32535).
Let x1 := Z.shiftr (G0 * w1) 12.
Let x2 := Z.shiftr (K0 * w2) 12.

Lemma section_gain g h w : 0 <= w -> 1 <= g <= 32535 -> 1 <= h <= 32535 ->
  0 <= Z.shiftr (g * w) 12 /\ 4096 * (h + Z.shiftr (g * w) 12) <= 32535 * (4096 + w).
Proof.
  intros Hw Hg Hh. rewrite Z.shiftr_div_pow2 by done. change (2 ^ 12) with 4096.
  pose proof (Z.div_pos (g * w) 4096 ltac:(nia) ltac:(lia)). pose proof (Z.mul_div_le (g * w) 4096 ltac:(lia)). nia.
Qed.
Lemma lcf_numerators : 0 <= x1 < 70000000 /\ 0 <= x2 < 70000000 /\ 0 <= 4 * ((G1 + x1) * (K1 + x2)) <= 1034000 * D.
Proof.
  destruct (section_gain G0 G1 w1 ltac:(lia) HG0 HG1) as [P1 P2]. destruct (section_gain K0 K1 w2 ltac:(lia) HK0 HK1) as [Q1 Q2].
  fold x1 in P1, P2. fold x2 in Q1, Q2. split; [lia|]. split; [lia|]. clearbody x1 x2.
  assert (Hm : (4096 * (G1 + x1)) * (4096 * (K1 + x2)) <= (32535 * (4096 + w1)) * (32535 * (4096 + w2)))
    by (apply Z.mul_le_mono_nonneg; lia).
  destruct divisor as (HD & HD1 & Hr & _). assert (Hd : (4096 + w1) * (4096 + w2) = a0 + a1 + a2) by (unfold a0, a1, a2; lia).
  split; [apply Z.mul_nonneg_nonneg; [done|apply Z.mul_nonneg_nonneg; lia]|].
  replace ((32535 * (4096 + w1)) * (32535 * (4096 + w2))) with (32535 * 32535 * ((4096 + w1) * (4096 + w2))) in Hm by lia.
  rewrite Hd in Hm. lia.
Qed.

Lemma lcf_f1f1_ok : exists h0 h1 h2 k1 k2, lcf_f1f1 G0 G1 K0 K1 w1 w2 = Some (h0, h1, h2, k1, k2) /\
  Z.abs h0 <= 1034000 /\ Z.abs h1 <= 2068000 /\ Z.abs h2 <= 1034000 /\
  -16384 <= k2 <= 16384 /\ Z.abs k1 <= 16384 + k2 /\ k1 < 32768 /\ (1 <= w1 + w2 -> -32768 < k1).
Proof.
  destruct divisor as (HD & HD1 & Hr & Ha1 & Ha2). destruct lcf_numerators as (X1 & X2 & HN). 
  pose proof (mul_range G0 w1 32535 8388608 ltac:(lia) ltac:(lia)) as P1. pose proof (mul_range K0 w2 32535 8388608 ltac:(lia) ltac:(lia)) as P2.
  pose proof (mul_range G1 K1 32535 32535 ltac:(lia) ltac:(lia)) as P3. pose proof (mul_range x1 K1 70000000 32535 ltac:(lia) ltac:(lia)) as P4.
  pose proof (mul_range x2 G1 70000000 32535 ltac:(lia) ltac:(lia)) as P5. pose proof (mul_range x1 x2 70000000 70000000 ltac:(lia) ltac:(lia)) as P6.
  assert (P7 : a1 <= 16777216 * 4096) by (unfold a1; lia). pose proof lcf_poles as Hpoles. cbv zeta in Hpoles.
  change a0 with 16777216 in *. revert Hpoles HN. unfold lcf_f1f1. fold x1 x2 a1 a2. change (2 ^ 24) with 16777216. cbv zeta. 
  do 2 chk64 ltac:(unfold I64; lia). change (Z.shiftr (G0 * w1) 12) with x1. change (Z.shiftr (K0 * w2) 12) with x2.
  do 8 chk64 ltac:(unfold I64; lia). change (Z.shiftr (16777216 + a1 + a2) 12) with D. clearbody x1 x2 a1 a2 D.
  do 8 chk64 ltac:(unfold I64 in *; lia). intros (Q2 & Q1 & Q3 & Q4) HN.
  set (q1 := Z.quot ((a2 - 16777216) * 2) D) in *. assert (Hq1 : Z.abs (q1 * 4) <= 32768) by (clearbody q1; lia).
  chk64 ltac:(clearbody q1; unfold I64; lia). do 2 chk64 ltac:(clearbody q1; unfold I64 in *; lia).
  set (q2 := Z.quot (16777216 - a1 + a2) D) in *. chk64 ltac:(clearbody q1 q2; unfold I64; lia).
  do 5 eexists. split; [reflexivity|].
  pose proof (quot_between ((G1 * K1 + (x1 * K1 + x2 * G1) + x1 * x2) * 4) D 1034000 ltac:(lia) ltac:(clearbody q1 q2; lia)) as B0.
  pose proof (quot_between ((x1 * x2 - G1 * K1) * 8) D 2068000 ltac:(lia) ltac:(clearbody q1 q2; lia)) as B1.
  pose proof (quot_between ((G1 * K1 - (x1 * K1 + x2 * G1) + x1 * x2) * 4) D 1034000 ltac:(lia) ltac:(clearbody q1 q2; lia)) as B2.
  revert B0 B1 B2. generalize (Z.quot ((G1 * K1 + (x1 * K1 + x2 * G1) + x1 * x2) * 4) D), (Z.quot ((x1 * x2 - G1 * K1) * 8) D), (Z.quot ((G1 * K1 - (x1 * K1 + x2 * G1) + x1 * x2) * 4) D).
  intros h0 h1 h2 B0 B1 B2. clearbody q1 q2. rewrite !s32_small by lia. done.
Qed.
End sections.

(** ** The filter *)

(** The parameters, which are 16 bits, with corners that are not negative. *)
Record lcf_ok (p : FILTER_LCF_CALC_PARA_T) : Prop := {
  lcf_type_ok : eLcfParaType p <> FILTER_LCFPARA_BUTTERWORTH;
  lcf_f1 : 0 <= f1_fp p < 32768;
  lcf_f2 : 0 <= f2_fp p < 32768
}.

Lemma gain_ok_spec g : gain_ok g = true <-> -720 <= g <= 180.
Proof. unfold gain_ok. rewrite negb_true_iff, orb_false_iff, Z.ltb_ge, Z.gtb_ltb, Z.ltb_ge. lia. Qed.
Lemma linear_gain_ok g : gain_ok g = true -> exists x, linear_gain g = Some x /\ 1 <= x <= 32535.
Proof. intros H. apply gain_ok_spec in H. unfold linear_gain. rewrite gain_index by done. apply linear_gain_entry. lia. Qed.

Definition corner (f fs : Z) : Z := f * 8192 / fs.
Lemma corner_ok f fs : 8192 <= fs -> 0 <= f < 32768 -> cdiv 32 (f * 2 ^ 13) fs = Some (corner f fs) /\ s16 (corner f fs) = corner f fs /\ 0 <= corner f fs.
Proof.
  intros Hfs Hf. change (2 ^ 13) with 8192. rewrite cdiv32_ok by lia. rewrite quot_nonneg by lia. unfold corner.
  pose proof (Z.div_pos (f * 8192) fs ltac:(lia) ltac:(lia)). pose proof (Z.div_le_upper_bound (f * 8192) fs 32767 ltac:(lia) ltac:(nia)).
  split; [done|]. split; [apply s16_small; lia|lia].
Qed.

(** The two sections, unless a gain or a corner is refused. *)
Lemma lcf_f1f1_para_ok p fs : lcf_ok p -> 8192 <= fs ->
  lcf_f1f1_para p fs = Some None \/
  exists h0 h1 h2 k1 k2, lcf_f1f1_para p fs = Some (Some (h0, h1, h2, k1, k2)) /\
    Z.abs h0 <= 1034000 /\ Z.abs h1 <= 2068000 /\ Z.abs h2 <= 1034000 /\
    -16384 <= k2 <= 16384 /\ Z.abs k1 <= 16384 + k2 /\ k1 < 32768 /\ (2 <= corner (f1_fp p) fs \/ 2 <= corner (f2_fp p) fs -> -32768 < k1).
Proof.
  intros [_ Hf1 Hf2] Hfs. unfold lcf_f1f1_para.
  destruct (gain_ok (f1_g0 p)) eqn:E1; [|by left]. destruct (gain_ok (f1_g1 p)) eqn:E2; [|by left].
  destruct (gain_ok (f2_g0 p)) eqn:E3; [|by left]. destruct (gain_ok (f2_g1 p)) eqn:E4; [|by left]. cbn [andb negb].
  destruct (corner_ok (f1_fp p) fs Hfs Hf1) as (C1 & S1 & R1). destruct (corner_ok (f2_fp p) fs Hfs Hf2) as (C2 & S2 & R2).
  rewrite C1, obind_Some, S1, (quot_nonneg (corner (f1_fp p) fs)) by lia. destruct (Z.geb_spec (corner (f1_fp p) fs / 2) 2048) as [|K1]; [by left|].
  rewrite C2, obind_Some, S2, (quot_nonneg (corner (f2_fp p) fs)) by lia. destruct (Z.geb_spec (corner (f2_fp p) fs / 2) 2048) as [|K2]; [by left|].
  right. set (k1 := corner (f1_fp p) fs / 2) in *. set (k2 := corner (f2_fp p) fs / 2) in *.
  assert (Hk1 : 0 <= k1) by (apply Z.div_pos; lia). assert (Hk2 : 0 <= k2) by (apply Z.div_pos; lia).
  destruct (tangent_full k1 ltac:(lia)) as (w1 & T1 & W1 & P1 & _). destruct (tangent_full k2 ltac:(lia)) as (w2 & T2 & W2 & P2 & _).
  rewrite T1, obind_Some, T2, obind_Some.
  destruct (linear_gain_ok _ E1) as (g1 & -> & G1). destruct (linear_gain_ok _ E2) as (g2 & -> & G2).
  destruct (linear_gain_ok _ E3) as (g3 & -> & G3). destruct (linear_gain_ok _ E4) as (g4 & -> & G4). rewrite !obind_Some.
  destruct (lcf_f1f1_ok w1 w2 W1 W2 g1 g2 g3 g4 G1 G2 G3 G4) as (h0 & h1 & h2 & q1 & q2 & -> & B0 & B1 & B2 & Q2 & Q1 & Q3 & Q4).
  rewrite obind_Some. exists h0, h1, h2, q1, q2. do 7 (split; [done|]). intros Hc. apply Q4.
  assert (1 <= k1 \/ 1 <= k2) as [H|H] by (destruct Hc; [left|right]; apply Z.div_le_lower_bound; lia); [specialize (P1 H)|specialize (P2 H)]; lia.
Qed.

Definition lcf_result (p : FILTER_LCF_CALC_PARA_T) (fs : Z) (o : filter_out) : Prop :=
  1 <= o.1 <= 32767 /\ poles_inside o.2 /\ int16 (B0 o.2) /\ int16 (B1 o.2) /\ int16 (B2 o.2) /\ int16 (A1 o.2) /\
  (2 <= corner (f1_fp p) fs \/ 2 <= corner (f2_fp p) fs -> int16 (- A1 o.2)).

Lemma all_pass_result p fs : lcf_result p fs all_pass.
Proof. unfold lcf_result, poles_inside, int16. cbn. lia. Qed.

Lemma Filter_CalcLCF_ok p gain fs : lcf_ok p -> 8192 <= fs -> exists o, Filter_CalcLCF p gain fs = Some (true, o) /\ lcf_result p fs o.
Proof.
  intros Hp Hfs. unfold Filter_CalcLCF. destruct (Z.leb_spec fs 0); [lia|].
  assert (Hall : exists o, Some (true, all_pass) = Some (true, o) /\ lcf_result p fs o) by (exists all_pass; split; [done|apply all_pass_result]).
  destruct (lcf_on p); [|done]. pose proof (lcf_type_ok p Hp) as Ht. destruct (eLcfParaType p) as [| |n]; [|done|by rewrite obind_Some].
  destruct (lcf_f1f1_para_ok p fs Hp Hfs) as [->|(h0 & h1 & h2 & k1 & k2 & -> & B0 & B1 & B2 & K2 & K1 & K3 & K4)]; rewrite obind_Some; [done|].
  destruct (adjust_ok h0 h1 h2 4096) as (k & Hk6 & Ea & _ & H0 & H1 & H2); [change (2 ^ 21) with 2097152; lia..|lia|].
  rewrite Ea, obind_Some. eexists. split; [reflexivity|].
  assert (Hp2 : 1 <= 2 ^ k) by (pose proof (Z.pow_pos_nonneg 2 k ltac:(lia) ltac:(lia)); lia).
  unfold lcf_result, poles_inside, store_iir, int16. cbn [fst snd AudioFilter.B0 AudioFilter.B1 AudioFilter.B2 A0 A1 A2].
  rewrite !s16_small by lia. repeat split; try lia.
Qed.

(** ** Properties *)

(** The low-cut filter: for all gains and all corners that are not
    negative, at every sample rate from 8192 Hz on, [Filter_CalcLCF] computes
    without overflowing an [int] or an [int64_t], dividing by zero or reading
    outside of its tables. Its gain is positive, its poles are not outside of
    the unit circle, its coefficients fit their 16 bits, and, unless both
    corners are below two steps of the table, so does the negated A1 that is
    written into the register. *)
Theorem lcf_safe p gain fs : lcf_ok p -> 8192 <= fs ->
  exists s f, Filter_CalcLCF p gain fs = Some (true, (s, f)) /\ 1 <= s <= 32767 /\ poles_inside f /\
    int16 (B0 f) /\ int16 (B1 f) /\ int16 (B2 f) /\ int16 (A1 f) /\
    (2 <= f1_fp p * 8192 / fs \/ 2 <= f2_fp p * 8192 / fs -> int16 (- A1 f)).
Proof.
  intros Hp Hfs. destruct (Filter_CalcLCF_ok p gain fs Hp Hfs) as ([s f] & E & H). exists s, f. split; [exact E|exact H].
Qed.

(** A low-cut filter at 0 Hz: -A1 is 32768, which its register takes for
    -32768. *)
Definition lcf_zero : FILTER_LCF_CALC_PARA_T := Lcf_para true FILTER_LCFPARA_F1F1 (-200) 0 0 0 0 0.
Example lcf_zero_negates : exists o, Filter_CalcLCF lcf_zero 16384 44100 = Some (true, o) /\ A1 o.2 = -32768 /\ s16 (- A1 o.2) = -32768.
Proof. eexists. split; [vm_compute; reflexivity|]. by vm_compute. Qed.

(** ** Witnesses *)

Definition sample_lcf : FILTER_LCF_CALC_PARA_T := Lcf_para true FILTER_LCFPARA_F1F1 (-200) 0 150 0 0 0.
Lemma sample_lcf_ok : lcf_ok sample_lcf.
Proof. by split. Qed.
Lemma lcf_safe_witness : exists s f, Filter_CalcLCF sample_lcf 16384 44100 = Some (true, (s, f)) /\ poles_inside f /\ int16 (- A1 f).
Proof.
  destruct (lcf_safe sample_lcf 16384 44100 sample_lcf_ok) as (s & f & E & _ & Hp & _ & _ & _ & _ & Hn); [done|].
  exists s, f. split; [exact E|]. split; [exact Hp|]. apply Hn. left. by vm_compute.
Defined.
