(* ===== verification/AudioRegs.v ===== *)
(** * The registers of the audio effect block

    src/common/libs/audio/vb_effect/vb_hal_if.c and vb_hal_adp.c: the 61
    registers, which are words of a buffer, with the log of the writes. *)
From stdpp Require Import base list.
From Stdlib Require Import ZArith Lia.
From S2P Require Import Prelude.

(** ** Definitions *)

(** The words of the buffer, as [init_regs] of vbc_codec_eq.c lays them out. *)
Definition DAPATCHCTL : Z := 0.
Definition DADGCTL : Z := 1.
Definition DAHPCTL : Z := 2.
Definition DAALCCTL (n : Z) : Z := 3 + n.
Definition HPCOEF (n : Z) : Z := 18 + n.

Definition VBDAPATH_DA0_ADDFM_SHIFT : Z := 0.
Definition VBDAPATH_DA1_ADDFM_SHIFT : Z := 2.
Definition VBDADG_DG0_SHIFT : Z := 0.
Definition VBDADG_EN0_SHIFT : Z := 7.
Definition VBDADG_DG1_SHIFT : Z := 8.
Definition VBDADG_EN1_SHIFT : Z := 15.
Definition VBDAHP_LIMIT_SHIFT : Z := 0.
Definition VBDAHP_WID_SEL_SHIFT : Z := 8.
Definition VBDAHP_REG_CLR_SHIFT : Z := 9.
Definition VBDAHP_EN_SHIFT : Z := 10.
Definition VBDAALC_EN_SHIFT : Z := 11.

Definition VBC_DA_RIGHT : Z := 0.
Definition VBC_DA_LEFT : Z := 1.

(** The registers, the writes so far, and [_hpf_is_need_disable]. *)
Record vbc := Vbc { regs : list Z; writes : list (Z * Z); hpf_is_need_disable : Z }.

(** [REG32 (r) = v], [REG32 (r)]; [v] is converted to an unsigned word. *)
Definition reg_write (r v : Z) : M vbc unit :=
  s <- get ;;
  l <- lift OutOfBounds (aset (regs s) r (u32 v)) ;;
  modify (fun s => Vbc l (writes s ++ [(r, u32 v)]) (hpf_is_need_disable s)).
Definition reg_read (r : Z) : M vbc Z :=
  s <- get ;;
  lift OutOfBounds (aget (regs s) r).
(** [REG32 (r) |= v], [REG32 (r) &= ~v] *)
Definition reg_or (r v : Z) : M vbc unit := x <- reg_read r ;; reg_write r (Z.lor x v).
Definition reg_clear (r v : Z) : M vbc unit := x <- reg_read r ;; reg_write r (Z.land x (Z.lnot v)).
Definition reg_switch (r shift : Z) (is_enable : bool) : M vbc unit :=
  if is_enable then reg_or r (2 ^ shift) else reg_clear r (2 ^ shift).

(** *** The high-pass filters *)

Definition VB_PHY_HPFSwitch (is_enable : bool) : M vbc unit := reg_switch DAHPCTL VBDAHP_EN_SHIFT is_enable.
Definition VB_SwitchHpf (is_enable : bool) : M vbc unit :=
  modify (fun s => Vbc (regs s) (writes s) 0) ;;;
  VB_PHY_HPFSwitch is_enable ;;;
  if is_enable then ret tt else modify (fun s => Vbc (regs s) (writes s) 1).

Definition VB_SetHpfMode (is_reset_mode : bool) : M vbc unit := reg_switch DAHPCTL VBDAHP_REG_CLR_SHIFT is_reset_mode.

(** The coefficients of the [filter_index]th filter; the parameters are
    [int16_t]. *)
Definition VB_SetHpfParas (filter_index b0 b1 b2 a0 minusA1 minusA2 : Z) : M vbc unit :=
  let i := s16 filter_index in
  if (1 <=? i) && (i <=? 6) then
    let n := 7 * (i - 1) in
    reg_write (HPCOEF (n + 1)) (s16 b0) ;;;
    reg_write (HPCOEF (n + 3)) (s16 b1) ;;;
    reg_write (HPCOEF (n + 5)) (s16 b2) ;;;
    reg_write (HPCOEF (n + 2)) (s16 a0) ;;;
    reg_write (HPCOEF (n + 4)) (s16 minusA1) ;;;
    reg_write (HPCOEF (n + 6)) (s16 minusA2)
  else ret tt.

Definition VB_SetHpfGain (gain_index gain_value : Z) : M vbc unit :=
  let i := s16 gain_index in
  if (0 <=? i) && (i <=? 6) then reg_write (HPCOEF (7 * i)) (s16 gain_value) else ret tt.
Definition VB_GetHpfGain (gain_index : Z) : M vbc Z :=
  let i := s16 gain_index in
  if (0 <=? i) && (i <=? 6) then reg_read (HPCOEF (7 * i)) else ret 0.

Definition VB_SetHpfLimit (rLimit : Z) : M vbc unit :=
  let limit_value := if s8 rLimit <? 0 then 0 else s8 rLimit in
  reg_clear DAHPCTL (0xff * 2 ^ VBDAHP_LIMIT_SHIFT) ;;;
  reg_or DAHPCTL (limit_value * 2 ^ VBDAHP_LIMIT_SHIFT).

Definition VB_SetHpfWidth (width : Z) : M vbc unit :=
  let data_width_value := if u16 width =? 16 then 0 else 2 ^ VBDAHP_WID_SEL_SHIFT in
  x <- reg_read DAHPCTL ;;
  if Z.land x (2 ^ VBDAHP_WID_SEL_SHIFT) =? data_width_value then ret tt else
  reg_clear DAHPCTL (2 ^ VBDAHP_WID_SEL_SHIFT) ;;;
  reg_or DAHPCTL data_width_value.

(** *** Level control, mixing and the digital gain *)

Definition VB_ALCSwitch (is_enable : bool) : M vbc unit := reg_switch DAHPCTL VBDAALC_EN_SHIFT is_enable.

(** [VBC_ALC_PARAS_T], its eleven members in order. *)
Definition VB_SetALCParas (alc : list Z) : M vbc unit :=
  forM (upto 11) (fun i => v <- lift OutOfBounds (aget alc i) ;; reg_write (DAALCCTL i) v).

Definition VB_SetFMMixMode (da_index mix_mode : Z) : M vbc unit :=
  let mix shift :=
    let v := if s16 mix_mode =? 1 then 1 else if s16 mix_mode =? 2 then 2 else 0 in
    reg_clear DAPATCHCTL (3 * 2 ^ shift) ;;;
    reg_or DAPATCHCTL (v * 2 ^ shift) in
  if da_index =? 0 then mix VBDAPATH_DA0_ADDFM_SHIFT
  else if da_index =? 1 then mix VBDAPATH_DA1_ADDFM_SHIFT
  else ret tt.

Definition VB_DGSwitch (da_index : Z) (is_enable : bool) : M vbc unit :=
  if da_index =? 0 then reg_switch DADGCTL VBDADG_EN0_SHIFT is_enable
  else if da_index =? 1 then reg_switch DADGCTL VBDADG_EN1_SHIFT is_enable
  else ret tt.

(** The gain is shifted as an [int], whose sign goes along. *)
Definition VB_SetDG (da_index dg_value : Z) : M vbc unit :=
  let dg := s16 dg_value in
  let dg := if dg >? 63 then 63 else dg in
  let dg := if dg <? -64 then -64 else dg in
  let set shift := reg_clear DADGCTL (0x7f * 2 ^ shift) ;;; reg_or DADGCTL (dg * 2 ^ shift) in
  if da_index =? 0 then set VBDADG_DG0_SHIFT
  else if da_index =? 1 then set VBDADG_DG1_SHIFT
  else ret tt.

Definition vbc_reg_default : list Z :=
  [0; 0x1818; 0x7F; 0; 0; 0; 0; 0; 0; 0; 0; 0; 0; 0; 0x183; 0x183; 0; 0x1818] ++ replicate 43 0.
