(* ===== verification/AudioRegsProofs.v ===== *)
(** * What the register functions write

    Every function of AudioRegs.v that takes no decision on the registers is a
    list of writes; the registers after it are those after the last write to
    each. *)
From stdpp Require Import base list.
From Stdlib Require Import ZArith Lia.
From S2P Require Import Prelude AudioRegs.

(** ** Definitions *)

(** The registers after the writes [w]. *)
Fixpoint replay (l : list Z) (w : list (Z * Z)) : list Z :=
  match w with
  | [] => l
  | (r, v) :: w => replay (<[Z.to_nat r := v]> l) w
  end.
Definition after (s : vbc) (w : list (Z * Z)) : vbc := Vbc (replay (regs s) w) (writes s ++ w) (hpf_is_need_disable s).
(** The function makes the writes [w] and changes nothing else. *)
Definition logs (m : M vbc unit) (s : vbc) (w : list (Z * Z)) : Prop := m s = Ret tt (after s w).

(** The value the writes [w] leave in [r], if any. *)
Fixpoint last_write (w : list (Z * Z)) (r : Z) : option Z :=
  match w with
  | [] => None
  | (r', v) :: w => match last_write w r with Some x => Some x | None => if r' =? r then Some v else None end
  end.

Definition reg (l : list Z) (r : Z) : Z := default 0 (aget l r).
Definition registers (l : list Z) : Prop := length l = 61%nat.

(** ** Lemmas *)

Lemma replay_app l w1 w2 : replay l (w1 ++ w2) = replay (replay l w1) w2.
Proof. revert l. induction w1 as [|[r v] w1 IH]; intros l; [done|]. apply IH. Qed.
Lemma replay_length l w : length (replay l w) = length l.
Proof. revert l. induction w as [|[r v] w IH]; intros l; [done|]. cbn [replay]. by rewrite IH, length_insert. Qed.
Lemma replay_registers l w : registers l -> registers (replay l w).
Proof. unfold registers. by rewrite replay_length. Qed.

Lemma last_write_app w1 w2 r : last_write (w1 ++ w2) r = match last_write w2 r with Some x => Some x | None => last_write w1 r end.
Proof.
  induction w1 as [|[r' v] w1 IH]; cbn [app last_write]; [by destruct (last_write w2 r)|].
  rewrite IH. by destruct (last_write w2 r).
Qed.
Lemma last_write_None w r : Forall (fun p => p.1 <> r) w -> last_write w r = None.
Proof.
  induction 1 as [|[r' v] w H _ IH]; [done|]. cbn [last_write]. rewrite IH. cbn in H. by rewrite (proj2 (Z.eqb_neq r' r) H).
Qed.

Lemma replay_lookup l w r : registers l -> Forall (fun p => 0 <= p.1 < 61) w -> 0 <= r < 61 ->
  aget (replay l w) r = match last_write w r with Some v => Some v | None => aget l r end.
Proof.
  intros Hl Hw Hr. revert l Hl. induction Hw as [|[r' v] w H _ IH]; intros l Hl; [done|]. cbn [replay last_write]. cbn in H.
  rewrite IH by (unfold registers in *; by rewrite length_insert).
  destruct (last_write w r) as [x|]; [done|]. unfold aget. rewrite (proj2 (Z.leb_le 0 r)) by lia. unfold registers in Hl.
  destruct (Z.eqb_spec r' r) as [->|Hne]; [apply list_lookup_insert_eq; lia|apply list_lookup_insert_ne; lia].
Qed.

Lemma logs_nil s : logs (ret tt) s [].
Proof. unfold logs, ret, after. rewrite app_nil_r. by destruct s. Qed.
Lemma logs_bind m k s w1 w2 : logs m s w1 -> logs k (after s w1) w2 -> logs (m ;;; k) s (w1 ++ w2).
Proof.
  unfold logs. intros H1 H2. rewrite (bind_Ret _ _ _ _ _ H1). rewrite H2. unfold after. cbn [regs writes hpf_is_need_disable].
  by rewrite replay_app, app_assoc.
Qed.
Lemma logs_forM {A} (l : list A) (body : A -> M vbc unit) (w : A -> list (Z * Z)) s : registers (regs s) ->
  (forall a s, a ∈ l -> registers (regs s) -> logs (body a) s (w a)) -> logs (forM l body) s (l ≫= w).
Proof.
  revert s. induction l as [|a l IH]; intros s Hs H; [apply logs_nil|]. cbn [forM]. rewrite bind_cons. apply logs_bind.
  - apply H; [apply list_elem_of_here|done].
  - apply IH; [by apply replay_registers|]. intros b s' Hb Hs'. apply H; [by apply list_elem_of_further|done].
Qed.

Lemma reg_write_logs r v s : registers (regs s) -> 0 <= r < 61 -> logs (reg_write r v) s [(r, u32 v)].
Proof.
  intros Hs Hr. unfold logs, reg_write, bind, get, lift. rewrite aset_Some by (unfold zlen, registers in *; lia). done.
Qed.
Lemma reg_read_ok r s : registers (regs s) -> 0 <= r < 61 -> reg_read r s = Ret (reg (regs s) r) s.
Proof.
  intros Hs Hr. unfold reg_read, bind, get, lift, reg.
  destruct (aget_is_Some (regs s) r) as [x E]; [unfold zlen, registers in *; lia|]. by rewrite E.
Qed.
Lemma reg_or_logs r v s : registers (regs s) -> 0 <= r < 61 -> logs (reg_or r v) s [(r, u32 (Z.lor (reg (regs s) r) v))].
Proof. intros Hs Hr. unfold logs, reg_or. rewrite (bind_Ret _ _ _ _ _ (reg_read_ok _ _ Hs Hr)). by apply reg_write_logs. Qed.
Lemma reg_clear_logs r v s : registers (regs s) -> 0 <= r < 61 -> logs (reg_clear r v) s [(r, u32 (Z.land (reg (regs s) r) (Z.lnot v)))].
Proof. intros Hs Hr. unfold logs, reg_clear. rewrite (bind_Ret _ _ _ _ _ (reg_read_ok _ _ Hs Hr)). by apply reg_write_logs. Qed.
Lemma reg_after s w r : registers (regs s) -> Forall (fun p => 0 <= p.1 < 61) w -> 0 <= r < 61 ->
  reg (replay (regs s) w) r = default (reg (regs s) r) (last_write w r).
Proof. intros Hs Hw Hr. unfold reg. rewrite replay_lookup by done. by destruct (last_write w r). Qed.

(** *** The filters *)

Lemma s16_index i : 0 <= i <= 7 -> s16 i = i.
Proof. intros H. unfold s16, swrap. change (2 ^ (16 - 1)) with 32768. change (2 ^ 16) with 65536. rewrite Z.mod_small by lia. lia. Qed.

Definition gain_write (i v : Z) : Z * Z := (HPCOEF (7 * i), u32 (s16 v)).
Definition paras_writes (i b0 b1 b2 a0 a1 a2 : Z) : list (Z * Z) :=
  let n := 7 * (i - 1) in
  [(HPCOEF (n + 1), u32 (s16 b0)); (HPCOEF (n + 3), u32 (s16 b1)); (HPCOEF (n + 5), u32 (s16 b2));
   (HPCOEF (n + 2), u32 (s16 a0)); (HPCOEF (n + 4), u32 (s16 a1)); (HPCOEF (n + 6), u32 (s16 a2))].

Lemma VB_SetHpfGain_logs i v s : registers (regs s) -> 0 <= i <= 6 -> logs (VB_SetHpfGain i v) s [gain_write i v].
Proof.
  intros Hs Hi. unfold VB_SetHpfGain. rewrite s16_index by lia. rewrite (proj2 (Z.leb_le 0 i)), (proj2 (Z.leb_le i 6)) by lia. cbn [andb].
  apply reg_write_logs; [done|unfold HPCOEF; lia].
Qed.
Lemma VB_GetHpfGain_ok i s : registers (regs s) -> 0 <= i <= 6 -> VB_GetHpfGain i s = Ret (reg (regs s) (HPCOEF (7 * i))) s.
Proof.
  intros Hs Hi. unfold VB_GetHpfGain. rewrite s16_index by lia. rewrite (proj2 (Z.leb_le 0 i)), (proj2 (Z.leb_le i 6)) by lia. cbn [andb].
  apply reg_read_ok; [done|unfold HPCOEF; lia].
Qed.
Lemma VB_SetHpfParas_logs i b0 b1 b2 a0 a1 a2 s : registers (regs s) -> 1 <= i <= 6 ->
  logs (VB_SetHpfParas i b0 b1 b2 a0 a1 a2) s (paras_writes i b0 b1 b2 a0 a1 a2).
Proof.
  intros Hs Hi. unfold VB_SetHpfParas. rewrite s16_index by lia. rewrite (proj2 (Z.leb_le 1 i)), (proj2 (Z.leb_le i 6)) by lia. cbn [andb].
  unfold paras_writes. cbv zeta.
  repeat (apply (logs_bind _ _ _ [_]); [apply reg_write_logs; [by repeat apply (replay_registers _ [_])|unfold HPCOEF; lia]|]).
  apply reg_write_logs; [by repeat apply (replay_registers _ [_])|unfold HPCOEF; lia].
Qed.
Lemma VB_SetHpfMode_logs (b : bool) s : registers (regs s) -> let x := reg (regs s) DAHPCTL in
  logs (VB_SetHpfMode b) s [(DAHPCTL, u32 (if b then Z.lor x 512 else Z.land x (Z.lnot 512)))].
Proof.
  intros Hs. unfold VB_SetHpfMode, reg_switch. change (2 ^ VBDAHP_REG_CLR_SHIFT) with 512.
  destruct b; [apply reg_or_logs|apply reg_clear_logs]; unfold DAHPCTL; done || lia.
Qed.
