(* ===== verification/AudioEq.v ===== *)
(** * Setting up the audio effect block

    src/common/libs/audio/vb_effect/vbc_codec_eq.c: the parameters of a sound
    profile are taken from the phone's non-volatile data, turned into filters
    and gains, and written into the registers of AudioRegs.v; a change of the
    filters fades the sound out and in. *)
From stdpp Require Import base list.
From Stdlib Require Import ZArith Lia.
From S2P Require Import Prelude AudioTables AudioFilter AudioRegs.

(** ** Definitions *)

Definition EQ_BAND_MAX : nat := 8.
Definition EQ_MODE_MAX : nat := 6.
Definition HPF_S_GAIN_NUM : nat := 6.
Definition TOTAL_S_GAIN_NUM : nat := 7.
Definition AUDIO_NO_ERROR : Z := 0.
Definition AUDIO_ERROR : Z := 1.
Definition DEFAULT_OUT_SAMPLING_RATE : Z := 44100.
Definition HPF_FADE_GAIN_SET_TIMES : nat := 20.
Definition HPF_DATA_WIDTH_24 : Z := 24.
Definition AUD_ENHA_EQMODE_SEL_OFF : Z := 0.
Definition AUD_ENHA_EQMODE_SEL_MMISET : Z := 15.

(** *** The non-volatile data *)

Record EQ_BAND_INPUT_PARA_T := Band { band_fo : Z; band_q : Z; band_boostdB : Z; band_gaindB : Z }.
Record EQ_MODE_PARA_T := Mode { agc_in_gain : Z; band_control : Z; eq_band : list EQ_BAND_INPUT_PARA_T }.
Record AUDIO_ENHA_EQ_STRUCT_T := Enha { eq_control : Z; eq_modes : list EQ_MODE_PARA_T }.
(** The members of the mode's struct that are used, for the music type 0. *)
Record AUDIO_NV_ARM_MODE_INFO_T := Arm {
  ucModeName : list Z;
  aud_proc_exp_control : Z * Z;
  eq_switch : Z;
  agc_input_gain : list Z;
  valid_volume_level_count : Z;
  arm_volume : list Z;
  reserve : list Z
}.
Record AUDIO_TOTAL_T := Total { audio_enha_eq : AUDIO_ENHA_EQ_STRUCT_T; audio_nv_arm_mode_info : AUDIO_NV_ARM_MODE_INFO_T }.

(** *** The parameters in use *)

Record ALC_CONTROL_PARAM_T := Alc { alc_sw : bool; alc_input_gain : Z; alc_ingain_Set : Z; alc_Para : list Z }.
Record HPF_CONTROL_PARAM_T := Hpf {
  data_width : Z;
  r_limit : Z;
  s_gain : list Z;
  lcf_para : FILTER_LCF_CALC_PARA_T;
  eq_band_num : Z;
  low_shelve_on : bool;
  high_shelve_on : bool;
  band_sw : list bool;
  eq_band_para : list EQ_BAND_INPUT_PARA_T
}.

(** The static variables and the registers. *)
Record audio := Audio {
  cur_dg : Z * Z;
  cur_dapath : Z * Z;
  cur_alc : ALC_CONTROL_PARAM_T;
  cur_hpf : HPF_CONTROL_PARAM_T;
  cur_eq_mode_sel : Z;
  vb : vbc
}.
Definition set_dg (x : Z * Z) (s : audio) : audio := Audio x (cur_dapath s) (cur_alc s) (cur_hpf s) (cur_eq_mode_sel s) (vb s).
Definition set_dapath (x : Z * Z) (s : audio) : audio := Audio (cur_dg s) x (cur_alc s) (cur_hpf s) (cur_eq_mode_sel s) (vb s).
Definition set_alc (x : ALC_CONTROL_PARAM_T) (s : audio) : audio := Audio (cur_dg s) (cur_dapath s) x (cur_hpf s) (cur_eq_mode_sel s) (vb s).
Definition set_hpf (x : HPF_CONTROL_PARAM_T) (s : audio) : audio := Audio (cur_dg s) (cur_dapath s) (cur_alc s) x (cur_eq_mode_sel s) (vb s).
Definition set_mode_sel (x : Z) (s : audio) : audio := Audio (cur_dg s) (cur_dapath s) (cur_alc s) (cur_hpf s) x (vb s).
Definition set_vb (x : vbc) (s : audio) : audio := Audio (cur_dg s) (cur_dapath s) (cur_alc s) (cur_hpf s) (cur_eq_mode_sel s) x.
Definition on_vb {A} : M vbc A -> M audio A := zoom vb set_vb.

Definition set_s_gain (l : list Z) (h : HPF_CONTROL_PARAM_T) : HPF_CONTROL_PARAM_T :=
  Hpf (data_width h) (r_limit h) l (lcf_para h) (eq_band_num h) (low_shelve_on h) (high_shelve_on h) (band_sw h) (eq_band_para h).

(** *** Fading *)

(** [ori_gain_ptr->s[i] - j*step_value[i]] for j = 1, ..., 20, then 0. *)
Definition AUDENHA_FadeOut (ori_gain : list Z) : M vbc unit :=
  let step s := Z.quot s (Z.of_nat HPF_FADE_GAIN_SET_TIMES) in
  forM (upto HPF_FADE_GAIN_SET_TIMES) (fun j =>
    forM (upto HPF_S_GAIN_NUM) (fun i =>
      s <- lift OutOfBounds (aget ori_gain i) ;;
      VB_SetHpfGain i (s - (j + 1) * step s))) ;;;
  forM (upto HPF_S_GAIN_NUM) (fun i => VB_SetHpfGain i 0).

Definition AUDENHA_FadeIn (dest_gain : list Z) : M vbc unit :=
  let step s := Z.quot s (Z.of_nat HPF_FADE_GAIN_SET_TIMES) in
  forM (upto HPF_FADE_GAIN_SET_TIMES) (fun j =>
    forM (upto HPF_S_GAIN_NUM) (fun i =>
      s <- lift OutOfBounds (aget dest_gain i) ;;
      VB_SetHpfGain i ((j + 1) * step s))) ;;;
  forM (upto HPF_S_GAIN_NUM) (fun i =>
    s <- lift OutOfBounds (aget dest_gain i) ;;
    VB_SetHpfGain i s).

(** *** The filters *)

(** [hpf_gain_ptr->s[i] = v] *)
Definition store_gain (i v : Z) : M audio unit :=
  s <- get ;;
  l <- lift OutOfBounds (aset (s_gain (cur_hpf s)) i v) ;;
  modify (fun s => set_hpf (set_s_gain l (cur_hpf s)) s).

(** A filter that is all-pass when it cannot be computed; what C leaves
    undefined in the computation is undefined here. *)
Definition filter_or_pass (r : option (bool * filter_out)) : M audio filter_out :=
  r <- lift OutOfBounds r ;;
  ret (if r.1 : bool then r.2 else all_pass).

(** [eq_input_para] of the [i]th band; [i+1] and [eq_band_num-2] are unsigned. *)
Definition band_para (h : HPF_CONTROL_PARAM_T) (i : Z) : option FILTER_EQ_CALC_PARA_T :=
  sw ← aget (band_sw h) i;
  b ← aget (eq_band_para h) i;
  ty ← (if (i =? 0) && low_shelve_on h then
          n ← aget (eq_band_para h) (i + 1); Some (FILTER_EQPARA_LOW_SHELVE, band_fo n)
        else if (i =? u32 (eq_band_num h - 1)) && high_shelve_on h then
          n ← aget (eq_band_para h) (u32 (eq_band_num h - 2)); Some (FILTER_EQPARA_HIGH_SHELVE, band_fo n)
        else Some (FILTER_EQPARA_NORMAL_EQ, band_q b));
  Some (Eq_para sw ty.1 (band_fo b) ty.2 (band_boostdB b) (band_gaindB b)).

(** The loop over the bands from the [i]th on: their filters; each gain goes
    to [s[i+1]]. *)
Fixpoint band_filters (n : nat) (i sample_rate : Z) : M audio (list IIR_FILTER_PARA_T) :=
  match n with
  | O => ret []
  | S n =>
      s <- get ;;
      p <- lift OutOfBounds (band_para (cur_hpf s) i) ;;
      (if i <? Z.of_nat EQ_BAND_MAX then ret tt else bad OutOfBounds) ;;;
      f <- filter_or_pass (Filter_CalcEQ p sample_rate all_pass) ;;
      store_gain (i + 1) f.1 ;;;
      fs <- band_filters n (i + 1) sample_rate ;;
      ret (f.2 :: fs)
  end.

(** [VB_SetHpfParas(i, B0, B1, B2, 16384, -A1, -A2)] *)
Definition set_filter (i : Z) (f : IIR_FILTER_PARA_T) : M vbc unit :=
  VB_SetHpfParas i (B0 f) (B1 f) (B2 f) 16384 (- A1 f) (- A2 f).

Fixpoint set_filters (i : Z) (fs : list IIR_FILTER_PARA_T) : M vbc unit :=
  match fs with
  | [] => ret tt
  | f :: fs => set_filter i f ;;; set_filters (i + 1) fs
  end.

(** Reading the gains S0 to S5 into an array of [int16_t]. *)
Fixpoint get_gains (n : nat) (i : Z) : M vbc (list Z) :=
  match n with
  | O => ret []
  | S n => g <- VB_GetHpfGain i ;; l <- get_gains n (i + 1) ;; ret (s16 g :: l)
  end.

(** The part on the registers: [lcf] and [bands] are the filters, [gains] the
    gains S0 to S5. *)
Definition change_filters (lcf : IIR_FILTER_PARA_T) (bands : list IIR_FILTER_PARA_T) (gains : list Z) : M vbc unit :=
  ori <- get_gains HPF_S_GAIN_NUM 0 ;;
  s5 <- lift OutOfBounds (aget ori 5) ;;
  (if negb (s5 =? 0) then AUDENHA_FadeOut ori else ret tt) ;;;
  VB_SetHpfMode true ;;;
  forM (upto HPF_S_GAIN_NUM) (fun i => VB_SetHpfParas (i + 1) 0 0 0 0 0 0) ;;;
  set_filter 1 lcf ;;;
  set_filters 2 bands ;;;
  VB_SetHpfMode false ;;;
  AUDENHA_FadeIn gains.

Definition AUDENHA_SetHpf (sample_rate : Z) : M audio bool :=
  s <- get ;;
  lcf <- filter_or_pass (Filter_CalcLCF (lcf_para (cur_hpf s)) 16384 sample_rate) ;;
  store_gain 0 lcf.1 ;;;
  s <- get ;;
  bands <- band_filters (Z.to_nat (eq_band_num (cur_hpf s))) 0 sample_rate ;;
  s <- get ;;
  on_vb (change_filters lcf.2 bands (s_gain (cur_hpf s))) ;;;
  ret true.

(** *** Level control, digital gain, mixing *)

(** The input gain: [(alc_input_gain * alc_ingain_Set)>>12], at most 32767,
    which becomes an [int16_t]. *)
Definition alc_gain (a : ALC_CONTROL_PARAM_T) : Z :=
  let temp := Z.shiftr (alc_input_gain a * alc_ingain_Set a) 12 in
  if temp <=? 32767 then s16 temp else 32767.

Definition AUDENHA_SetAlcIngain : M audio bool :=
  s <- get ;;
  on_vb (VB_SetHpfGain 6 (alc_gain (cur_alc s))) ;;;
  ret true.

Definition AUDENHA_initDigiGain : M audio Z :=
  s <- get ;;
  on_vb (VB_SetDG VBC_DA_LEFT (cur_dg s).1 ;;;
         VB_SetDG VBC_DA_RIGHT (cur_dg s).2 ;;;
         VB_DGSwitch VBC_DA_LEFT true ;;;
         VB_DGSwitch VBC_DA_RIGHT true) ;;;
  ret AUDIO_NO_ERROR.

Definition AUDENHA_SetDigiGain : M audio bool :=
  s <- get ;;
  on_vb (VB_SetDG VBC_DA_LEFT (cur_dg s).1 ;;; VB_SetDG VBC_DA_RIGHT (cur_dg s).2) ;;;
  ret true.

Definition AUDENHA_initDAPath : M audio bool :=
  s <- get ;;
  on_vb (VB_SetFMMixMode VBC_DA_LEFT (cur_dapath s).1 ;;; VB_SetFMMixMode VBC_DA_RIGHT (cur_dapath s).2) ;;;
  ret true.

Definition AUDENHA_initAlc : M audio Z :=
  s <- get ;;
  on_vb (VB_SetHpfGain (Z.of_nat TOTAL_S_GAIN_NUM - 1) (alc_gain (cur_alc s)) ;;;
         if alc_sw (cur_alc s) then VB_SetALCParas (alc_Para (cur_alc s)) ;;; VB_ALCSwitch true else VB_ALCSwitch false) ;;;
  ret AUDIO_NO_ERROR.

Definition AUDENHA_InitHpf (sample_rate : Z) : M audio Z :=
  s <- get ;;
  on_vb (VB_SetHpfLimit (r_limit (cur_hpf s)) ;;; VB_SetHpfWidth (data_width (cur_hpf s)) ;;; VB_SwitchHpf true) ;;;
  r <- AUDENHA_SetHpf sample_rate ;;
  ret (if r : bool then AUDIO_NO_ERROR else AUDIO_ERROR).

Definition AUDENHA_SetEqMode (sample_rate : Z) : M audio Z :=
  _ <- AUDENHA_SetAlcIngain ;;
  r <- AUDENHA_SetHpf sample_rate ;;
  ret (if r : bool then AUDIO_NO_ERROR else AUDIO_ERROR).

Definition AUDENHA_Init (sample_rate : Z) : M audio Z :=
  _ <- AUDENHA_initDigiGain ;;
  _ <- AUDENHA_initDAPath ;;
  _ <- AUDENHA_initAlc ;;
  r <- AUDENHA_InitHpf sample_rate ;;
  ret (if r =? AUDIO_NO_ERROR then AUDIO_NO_ERROR else AUDIO_ERROR).

Definition AUDENHA_DeInit : M audio bool :=
  on_vb (forM (upto TOTAL_S_GAIN_NUM) (fun i => VB_SetHpfGain i 0) ;;;
         VB_SetHpfMode true ;;; VB_SetHpfMode false ;;;
         VB_SwitchHpf false ;;; VB_ALCSwitch false ;;;
         VB_DGSwitch VBC_DA_LEFT false ;;; VB_DGSwitch VBC_DA_RIGHT false) ;;;
  ret true.

(** *** The parameters from the non-volatile data *)

Definition test_bit (x n : Z) : bool := negb (Z.land x (2 ^ n) =? 0).

(** The equaliser of the profile; of its three parameters only
    [eq_para_set_index] can be anything but [SCI_FALSE] or 1, with which
    [AUDENHA_GetPara] calls it, so that the tunable set is never used. *)
Definition AUDENHA_GetParaFromEqset (enha : AUDIO_ENHA_EQ_STRUCT_T) (eq_para_set_index : Z) : M audio Z :=
  s <- get ;;
  let h := cur_hpf s in let a := cur_alc s in
  if cur_eq_mode_sel s =? AUD_ENHA_EQMODE_SEL_OFF then
    modify (set_alc (Alc (alc_sw a) (alc_input_gain a) 4096 (alc_Para a))) ;;;
    modify (set_hpf (Hpf (data_width h) (r_limit h) (s_gain h) (lcf_para h) (Z.of_nat HPF_S_GAIN_NUM - 1) (low_shelve_on h) (high_shelve_on h)
                         (replicate EQ_BAND_MAX false) (eq_band_para h))) ;;;
    ret AUDIO_NO_ERROR
  else if eq_para_set_index =? 0 then ret AUDIO_ERROR else
  let eq_mode_index := if cur_eq_mode_sel s =? AUD_ENHA_EQMODE_SEL_MMISET then 0 else cur_eq_mode_sel s - 1 in
  m <- lift OutOfBounds (aget (eq_modes enha) eq_mode_index) ;;
  modify (set_alc (Alc (alc_sw a) (alc_input_gain a) (agc_in_gain m) (alc_Para a))) ;;;
  let n := if test_bit (eq_control enha) 15 then 8 else 5 in
  let k := Z.to_nat n in
  modify (set_hpf (Hpf (data_width h) (r_limit h) (s_gain h) (lcf_para h) n (test_bit (band_control m) 0) (test_bit (band_control m) 1)
                       (((fun i => test_bit (band_control m) (15 - i)) <$> upto k) ++ drop k (band_sw h))
                       (take k (eq_band m) ++ drop k (eq_band_para h)))) ;;;
  ret AUDIO_NO_ERROR.

(** The masks of [reserve[0]] are not shifted down. *)
Definition lcf_type (x : Z) : FILTER_LCFPARA_TYPE_E :=
  if x =? 0 then FILTER_LCFPARA_F1F1 else if x =? 1 then FILTER_LCFPARA_BUTTERWORTH else FILTER_LCFPARA_other x.

Definition AUDENHA_GetParaFromAudMode (arm : AUDIO_NV_ARM_MODE_INFO_T) : M audio Z :=
  s <- get ;;
  let control := (aud_proc_exp_control arm).2 in
  gain <- lift OutOfBounds (aget (agc_input_gain arm) 0) ;;
  alc <- lift OutOfBounds (slice (reserve arm) 7 11) ;;
  modify (set_alc (Alc (test_bit control 8) (s16 gain) (alc_ingain_Set (cur_alc s)) (s16 <$> alc))) ;;;
  modify (set_mode_sel (Z.land (eq_switch arm) 0xF)) ;;;
  r0 <- lift OutOfBounds (aget (reserve arm) 0) ;;
  r <- lift OutOfBounds (slice (reserve arm) 1 6) ;;
  let ty := lcf_type (Z.land r0 0x0700) in
  let h := cur_hpf s in let old := lcf_para h in
  v <- lift OutOfBounds (match r with
                         | [a; b; c; d; e; f] =>
                             Some (match ty with
                                   | FILTER_LCFPARA_F1F1 => Lcf_para (test_bit control 0) ty (s16 a) (s16 b) (s16 c) (s16 d) (s16 e) (s16 f)
                                   | _ => Lcf_para (test_bit control 0) ty (s16 a) (f1_g1 old) (f1_fp old) (f2_g0 old) (f2_g1 old) (f2_fp old)
                                   end)
                         | _ => None
                         end) ;;
  modify (set_hpf (Hpf (data_width h) (Z.land r0 0xff) (s_gain h) v (eq_band_num h) (low_shelve_on h) (high_shelve_on h) (band_sw h) (eq_band_para h))) ;;;
  modify (set_dapath (Z.land r0 0x3000, Z.land r0 0xC000)) ;;;
  ret AUDIO_NO_ERROR.

(** "Headset", "Headfree", "Handset". *)
Definition name_headset : list Z := [72; 101; 97; 100; 115; 101; 116].
Definition name_headfree : list Z := [72; 101; 97; 100; 102; 114; 101; 101].
Definition name_handset : list Z := [72; 97; 110; 100; 115; 101; 116].
Definition eq_para_set_index (name : list Z) : Z :=
  if decide (take 7 name = name_headset) then 1
  else if decide (take 8 name = name_headfree) then 2
  else if decide (take 7 name = name_handset) then 3
  else 4.

Definition AUDENHA_GetPara (p : AUDIO_TOTAL_T) : M audio Z :=
  let arm := audio_nv_arm_mode_info p in
  arm_vol <- lift OutOfBounds (aget (arm_volume arm) (valid_volume_level_count arm)) ;;
  let gain := s16 (Z.shiftr (Z.land arm_vol 0xffff0000) 16) in
  modify (set_dg (gain, gain)) ;;;
  _ <- AUDENHA_GetParaFromAudMode arm ;;
  r <- AUDENHA_GetParaFromEqset (audio_enha_eq p) (eq_para_set_index (ucModeName arm)) ;;
  if negb (r =? AUDIO_NO_ERROR) then ret AUDIO_ERROR else
  modify (fun s => let h := cur_hpf s in
    set_hpf (Hpf HPF_DATA_WIDTH_24 (r_limit h) (replicate HPF_S_GAIN_NUM 4096) (lcf_para h) (eq_band_num h) (low_shelve_on h) (high_shelve_on h) (band_sw h) (eq_band_para h)) s) ;;;
  ret AUDIO_NO_ERROR.

(** The registers are those of the buffer given. *)
Definition AUDENHA_SetPara (p : AUDIO_TOTAL_T) (para_buf : list Z) : M audio Z :=
  modify (fun s => set_vb (Vbc para_buf [] (hpf_is_need_disable (vb s))) s) ;;;
  r <- AUDENHA_GetPara p ;;
  if negb (r =? AUDIO_NO_ERROR) then ret AUDIO_ERROR else
  r <- AUDENHA_Init DEFAULT_OUT_SAMPLING_RATE ;;
  if negb (r =? AUDIO_NO_ERROR) then ret AUDIO_ERROR else ret AUDIO_NO_ERROR.
