(* ===== verification/AudioEqProofs.v ===== *)
(** * The change of the filters

    vbc_codec_eq.c, AUDENHA_SetHpf: what it writes, in which order, and what
    the registers hold afterwards. *)
From stdpp Require Import base list.
From Stdlib Require Import ZArith Lia.
From S2P Require Import Prelude AudioTables AudioFilter AudioFilterProofs AudioRegs AudioRegsProofs AudioEq.

(** ** The writes *)

Definition gain_of (l : list Z) (i : Z) : Z := default 0 (aget l i).
Definition fade_step (s : Z) : Z := Z.quot s (Z.of_nat HPF_FADE_GAIN_SET_TIMES).
Definition gains_writes (f : Z -> Z) : list (Z * Z) := upto HPF_S_GAIN_NUM ≫= (fun i => [gain_write i (f i)]).
Definition fade_out_writes (g : list Z) : list (Z * Z) :=
  (upto HPF_FADE_GAIN_SET_TIMES ≫= fun j => gains_writes (fun i => gain_of g i - (j + 1) * fade_step (gain_of g i))) ++ gains_writes (fun _ => 0).
Definition fade_in_writes (g : list Z) : list (Z * Z) :=
  (upto HPF_FADE_GAIN_SET_TIMES ≫= fun j => gains_writes (fun i => (j + 1) * fade_step (gain_of g i))) ++ gains_writes (gain_of g).
Definition filter_writes (i : Z) (f : IIR_FILTER_PARA_T) : list (Z * Z) :=
  paras_writes i (B0 f) (B1 f) (B2 f) 16384 (- A1 f) (- A2 f).
Fixpoint filters_writes (i : Z) (fs : list IIR_FILTER_PARA_T) : list (Z * Z) :=
  match fs with
  | [] => []
  | f :: fs => filter_writes i f ++ filters_writes (i + 1) fs
  end.
Definition zero_writes : list (Z * Z) := upto HPF_S_GAIN_NUM ≫= (fun i => paras_writes (i + 1) 0 0 0 0 0 0).
Definition coef_writes (lcf : IIR_FILTER_PARA_T) (bands : list IIR_FILTER_PARA_T) : list (Z * Z) :=
  zero_writes ++ filter_writes 1 lcf ++ filters_writes 2 bands.
(** The gains S0 to S5 as they are read. *)
Definition gains_read (l : list Z) : list Z := (fun i => s16 (reg l (HPCOEF (7 * i)))) <$> upto HPF_S_GAIN_NUM.
Definition change_writes (l : list Z) (lcf : IIR_FILTER_PARA_T) (bands : list IIR_FILTER_PARA_T) (gains : list Z) : list (Z * Z) :=
  (if negb (gain_of (gains_read l) 5 =? 0) then fade_out_writes (gains_read l) else []) ++
  [(DAHPCTL, u32 (Z.lor (reg l DAHPCTL) 512))] ++
  coef_writes lcf bands ++
  [(DAHPCTL, u32 (Z.land (u32 (Z.lor (reg l DAHPCTL) 512)) (Z.lnot 512)))] ++
  fade_in_writes gains.

(** The gains S0 to S5, and the coefficients. *)
Definition is_gain (r : Z) : bool := (HPCOEF 0 <=? r) && (r <=? HPCOEF 35) && ((r - HPCOEF 0) mod 7 =? 0).
Definition is_coef (r : Z) : bool := (HPCOEF 0 <? r) && (r <? HPCOEF 42) && negb ((r - HPCOEF 0) mod 7 =? 0).

(** ** Lemmas *)

Lemma upto_elem i n : i ∈ upto n -> 0 <= i < Z.of_nat n.
Proof. intros H. apply list_elem_of_fmap in H as (k & -> & Hk). apply elem_of_seq in Hk. lia. Qed.

(** One gain of each: [f i], which the array holds. *)
Lemma gains_logs (g : list Z) (f : Z -> Z -> Z) s : registers (regs s) -> length g = HPF_S_GAIN_NUM ->
  logs (forM (upto HPF_S_GAIN_NUM) (fun i => x <- lift OutOfBounds (aget g i) ;; VB_SetHpfGain i (f i x))) s (gains_writes (fun i => f i (gain_of g i))).
Proof.
  intros Hs Hg. apply logs_forM; [done|]. intros i s' Hi Hs'. apply upto_elem in Hi. change (Z.of_nat HPF_S_GAIN_NUM) with 6 in Hi.
  destruct (aget_is_Some g i) as [x E]; [unfold zlen; rewrite Hg; done|]. unfold gain_of. rewrite E.
  unfold logs, bind, lift. apply VB_SetHpfGain_logs; [done|lia].
Qed.
Lemma zeros_logs s : registers (regs s) -> logs (forM (upto HPF_S_GAIN_NUM) (fun i => VB_SetHpfGain i 0)) s (gains_writes (fun _ => 0)).
Proof.
  intros Hs. apply logs_forM; [done|]. intros i s' Hi Hs'. apply upto_elem in Hi. change (Z.of_nat HPF_S_GAIN_NUM) with 6 in Hi.
  apply VB_SetHpfGain_logs; [done|lia].
Qed.

Lemma AUDENHA_FadeOut_logs g s : registers (regs s) -> length g = HPF_S_GAIN_NUM -> logs (AUDENHA_FadeOut g) s (fade_out_writes g).
Proof.
  intros Hs Hg. apply logs_bind.
  - apply logs_forM; [done|]. intros j s' _ Hs'.
    apply (gains_logs g (fun _ x => x - (j + 1) * fade_step x)); done.
  - apply zeros_logs. by apply replay_registers.
Qed.
Lemma AUDENHA_FadeIn_logs g s : registers (regs s) -> length g = HPF_S_GAIN_NUM -> logs (AUDENHA_FadeIn g) s (fade_in_writes g).
Proof.
  intros Hs Hg. apply logs_bind.
  - apply logs_forM; [done|]. intros j s' _ Hs'.
    apply (gains_logs g (fun _ x => (j + 1) * fade_step x)); done.
  - apply (gains_logs g (fun _ x => x)); [by apply replay_registers|done].
Qed.

Lemma set_filters_logs fs : forall i s, registers (regs s) -> 1 <= i -> i + zlen fs <= 7 -> logs (set_filters i fs) s (filters_writes i fs).
Proof.
  induction fs as [|f fs IH]; intros i s Hs Hi Hn; [apply logs_nil|]. rewrite zlen_cons in Hn. pose proof (zlen_nonneg fs).
  apply logs_bind; [apply VB_SetHpfParas_logs; [done|lia]|]. apply IH; [by apply replay_registers|lia..].
Qed.

Lemma zero_logs s : registers (regs s) -> logs (forM (upto HPF_S_GAIN_NUM) (fun i => VB_SetHpfParas (i + 1) 0 0 0 0 0 0)) s zero_writes.
Proof.
  intros Hs. apply logs_forM; [done|]. intros i s' Hi Hs'. apply upto_elem in Hi. change (Z.of_nat HPF_S_GAIN_NUM) with 6 in Hi.
  apply VB_SetHpfParas_logs; [done|lia].
Qed.

Lemma get_gains_ok n : forall i s, registers (regs s) -> 0 <= i -> i + Z.of_nat n <= 7 ->
  get_gains n i s = Ret ((fun k => s16 (reg (regs s) (HPCOEF (7 * (i + k))))) <$> upto n) s.
Proof.
  induction n as [|n IH]; intros i s Hs Hi Hn; [done|]. cbn [get_gains].
  rewrite (bind_Ret _ _ _ _ _ (VB_GetHpfGain_ok i s Hs ltac:(lia))).
  rewrite (bind_Ret _ _ _ _ _ (IH (i + 1) s Hs ltac:(lia) ltac:(lia))).
  unfold ret. apply (f_equal (fun l => Ret l s)). unfold upto. cbn [seq]. rewrite !fmap_cons. apply (f_equal2 cons); [by rewrite Z.add_0_r|].
  rewrite <- fmap_S_seq, <- !list_fmap_compose. apply list_fmap_ext. intros k x _. cbn [compose]. do 4 f_equal. lia.
Qed.

Lemma gains_read_length l : length (gains_read l) = HPF_S_GAIN_NUM.
Proof. done. Qed.

(** *** Which registers are written *)

Lemma concat_writes {A} (P : Z * Z -> Prop) (l : list A) (w : A -> list (Z * Z)) : (forall a, a ∈ l -> Forall P (w a)) -> Forall P (l ≫= w).
Proof.
  intros H. induction l as [|a l IH]; [exact (Forall_nil_2 _)|]. rewrite bind_cons. apply Forall_app. split; [apply H, list_elem_of_here|].
  apply IH. intros b Hb. apply H. by apply list_elem_of_further.
Qed.

Definition on_gains (w : list (Z * Z)) : Prop := Forall (fun p => is_gain p.1 = true) w.
Definition on_coefs (w : list (Z * Z)) : Prop := Forall (fun p => is_coef p.1 = true) w.

Lemma gains_writes_on f : on_gains (gains_writes f).
Proof. repeat (apply Forall_cons_2; [reflexivity|]). exact (Forall_nil_2 _). Qed.
Lemma fade_out_on g : on_gains (fade_out_writes g).
Proof. apply Forall_app. split; [apply concat_writes; intros j _|]; apply gains_writes_on. Qed.
Lemma fade_in_on g : on_gains (fade_in_writes g).
Proof. apply Forall_app. split; [apply concat_writes; intros j _|]; apply gains_writes_on. Qed.

Lemma paras_writes_on i b0 b1 b2 a0 a1 a2 : 1 <= i <= 6 -> on_coefs (paras_writes i b0 b1 b2 a0 a1 a2).
Proof.
  intros Hi. assert (i = 1 \/ i = 2 \/ i = 3 \/ i = 4 \/ i = 5 \/ i = 6) as [->|[->|[->|[->|[->| ->] ] ] ] ] by lia;
    repeat (apply Forall_cons_2; [reflexivity|]); exact (Forall_nil_2 _).
Qed.
Lemma filters_writes_on fs : forall i, 1 <= i -> i + zlen fs <= 7 -> on_coefs (filters_writes i fs).
Proof.
  induction fs as [|f fs IH]; intros i Hi Hn; [exact (Forall_nil_2 _)|]. rewrite zlen_cons in Hn. pose proof (zlen_nonneg fs).
  apply Forall_app. split; [apply paras_writes_on; lia|]. apply IH; lia.
Qed.
Lemma coef_writes_on lcf bands : (length bands <= 5)%nat -> on_coefs (coef_writes lcf bands).
Proof.
  intros H. apply Forall_app. split.
  - apply concat_writes. intros i Hi. apply upto_elem in Hi. change (Z.of_nat HPF_S_GAIN_NUM) with 6 in Hi. apply paras_writes_on. lia.
  - apply Forall_app. split; [by apply paras_writes_on|]. apply filters_writes_on; unfold zlen; lia.
Qed.

Lemma is_gain_range r : is_gain r = true -> 18 <= r <= 53.
Proof. unfold is_gain, HPCOEF. rewrite !andb_true_iff, !Z.leb_le. lia. Qed.
Lemma is_coef_range r : is_coef r = true -> 18 < r < 60.
Proof. unfold is_coef, HPCOEF. rewrite !andb_true_iff, !Z.ltb_lt. lia. Qed.
Lemma on_gains_range w : on_gains w -> Forall (fun p : Z * Z => 18 <= p.1 < 60) w.
Proof. intros H. eapply Forall_impl; [exact H|]. intros p Hp. apply is_gain_range in Hp. lia. Qed.
Lemma on_coefs_range w : on_coefs w -> Forall (fun p : Z * Z => 18 <= p.1 < 60) w.
Proof. intros H. eapply Forall_impl; [exact H|]. intros p Hp. apply is_coef_range in Hp. lia. Qed.
Lemma in_block w : Forall (fun p : Z * Z => 18 <= p.1 < 60) w -> Forall (fun p : Z * Z => 0 <= p.1 < 61) w.
Proof. intros H. eapply Forall_impl; [exact H|]. intros p; cbn. lia. Qed.

(** Writes to the gains and coefficients leave the control register. *)
Lemma reg_ctl l w : registers l -> Forall (fun p : Z * Z => 18 <= p.1 < 60) w -> reg (replay l w) DAHPCTL = reg l DAHPCTL.
Proof.
  intros Hl Hw. change (replay l w) with (replay (regs (Vbc l [] 0)) w). rewrite reg_after; [|done|by apply in_block|done].
  rewrite last_write_None; [done|]. eapply Forall_impl; [exact Hw|]. intros p; unfold DAHPCTL; cbn. lia.
Qed.

(** *** The whole change *)

Lemma change_filters_logs lcf bands gains s : registers (regs s) -> (length bands <= 5)%nat -> length gains = HPF_S_GAIN_NUM ->
  logs (change_filters lcf bands gains) s (change_writes (regs s) lcf bands gains).
Proof.
  intros Hs Hb Hg. unfold change_filters. unfold logs. rewrite (bind_Ret _ _ _ _ _ (get_gains_ok 6 0 s Hs ltac:(lia) ltac:(lia))).
  change ((fun k => s16 (reg (regs s) (HPCOEF (7 * (0 + k))))) <$> upto 6) with (gains_read (regs s)).
  destruct (aget_is_Some (gains_read (regs s)) 5) as [x E]; [done|]. unfold lift at 1, bind at 1. rewrite E.
  unfold change_writes, gain_of at 1. rewrite E. cbn [default from_option id].
  assert (Hfade : logs (if negb (x =? 0) then AUDENHA_FadeOut (gains_read (regs s)) else ret tt) s (if negb (x =? 0) then fade_out_writes (gains_read (regs s)) else []))
    by (destruct (negb _); [by apply AUDENHA_FadeOut_logs|apply logs_nil]).
  assert (Hon : Forall (fun p : Z * Z => 18 <= p.1 < 60) (if negb (x =? 0) then fade_out_writes (gains_read (regs s)) else []))
    by (destruct (negb _); [apply on_gains_range, fade_out_on|exact (Forall_nil_2 _)]).
  revert Hfade Hon. generalize (if negb (x =? 0) then fade_out_writes (gains_read (regs s)) else []). intros w Hfade Hon.
  apply (logs_bind _ _ _ _ _ Hfade). clear Hfade. set (s1 := after s w). assert (H1 : registers (regs s1)) by by apply replay_registers.
  rewrite <- (reg_ctl (regs s) w Hs Hon). change (replay (regs s) w) with (regs s1). clearbody s1.
  apply logs_bind; [by apply (VB_SetHpfMode_logs true)|]. set (c := u32 (Z.lor _ _)). set (s2 := after s1 _).
  assert (H2 : registers (regs s2)) by by apply replay_registers. assert (Hc : reg (regs s2) DAHPCTL = c) by (unfold s2, after; cbn [regs]; rewrite reg_after by (done || by repeat constructor); done).
  clearbody s2. clearbody c. clear H1 Hs. unfold coef_writes. rewrite <- !(app_assoc).
  apply logs_bind; [by apply zero_logs|]. apply logs_bind; [apply VB_SetHpfParas_logs; [by apply replay_registers|lia]|].
  apply logs_bind; [apply set_filters_logs; [by repeat apply replay_registers|lia|unfold zlen; lia]|].
  set (s3 := after _ _). assert (H3 : registers (regs s3)) by by repeat apply replay_registers.
  assert (H3c : reg (regs s3) DAHPCTL = c).
  { rewrite <- Hc. unfold s3, after. cbn [regs]. rewrite <- !replay_app. apply reg_ctl; [done|]. apply on_coefs_range. by apply coef_writes_on. }
  clearbody s3. rewrite <- H3c. apply logs_bind; [by apply (VB_SetHpfMode_logs false)|].
  apply AUDENHA_FadeIn_logs; [by apply replay_registers|done].
Qed.

(** *** The order of the writes *)

(** The gains S0 to S5 are all zero. *)
Definition gains_zero (l : list Z) : bool := forallb (fun i => reg l (HPCOEF (7 * i)) =? 0) (upto HPF_S_GAIN_NUM).
(** Every write of a coefficient is made while the delay lines are held
    clear and, if [muted], while the gains are zero. *)
Fixpoint quiet (muted : bool) (l : list Z) (w : list (Z * Z)) : bool :=
  match w with
  | [] => true
  | (r, v) :: w =>
      (if is_coef r then Z.testbit (reg l DAHPCTL) VBDAHP_REG_CLR_SHIFT && (negb muted || gains_zero l) else true) &&
      quiet muted (<[Z.to_nat r := v]> l) w
  end.

Lemma quiet_app muted l w1 w2 : quiet muted l (w1 ++ w2) = quiet muted l w1 && quiet muted (replay l w1) w2.
Proof. revert l. induction w1 as [|[r v] w1 IH]; intros l; [done|]. cbn [app quiet replay]. by rewrite IH, andb_assoc. Qed.
Lemma quiet_others muted l w : Forall (fun p : Z * Z => is_coef p.1 = false) w -> quiet muted l w = true.
Proof. intros H. revert l. induction H as [|[r v] w E _ IH]; intros l; [done|]. cbn [quiet]. cbn in E. rewrite E. apply IH. Qed.
Lemma gain_not_coef r : is_gain r = true -> is_coef r = false.
Proof. unfold is_gain, is_coef. rewrite !andb_true_iff. intros [_ ->]. by rewrite andb_false_r. Qed.
Lemma quiet_gains muted l w : on_gains w -> quiet muted l w = true.
Proof. intros H. apply quiet_others. eapply Forall_impl; [exact H|]. intros p. apply gain_not_coef. Qed.

(** Registers other than [r] leave it. *)
Lemma reg_other l r r' v : registers l -> 0 <= r' -> 0 <= r -> r' <> r -> reg (<[Z.to_nat r' := v]> l) r = reg l r.
Proof.
  intros Hl Hr' Hr Hne. unfold reg, aget. rewrite (proj2 (Z.leb_le 0 r)) by lia. by rewrite list_lookup_insert_ne by lia.
Qed.
Lemma reg_same l r v : registers l -> 0 <= r < 61 -> reg (<[Z.to_nat r := v]> l) r = v.
Proof.
  intros Hl Hr. unfold reg, aget. rewrite (proj2 (Z.leb_le 0 r)) by lia. unfold registers in Hl. by rewrite list_lookup_insert_eq by lia.
Qed.
(** Setting and clearing REG_CLR. *)
Lemma ctl_set x : Z.testbit (u32 (Z.lor x 512)) VBDAHP_REG_CLR_SHIFT = true.
Proof. unfold u32, wrap. change VBDAHP_REG_CLR_SHIFT with 9. rewrite Z.mod_pow2_bits_low by lia. rewrite Z.lor_spec. change (Z.testbit 512 9) with true. apply orb_true_r. Qed.
Lemma ctl_cleared x i : 0 <= x < 2 ^ 32 -> 0 <= i ->
  Z.testbit (u32 (Z.land (u32 (Z.lor x 512)) (Z.lnot 512))) i = Z.testbit x i && negb (i =? 9).
Proof.
  intros Hx Hi. unfold u32, wrap. destruct (Z.lt_ge_cases i 32) as [H|H].
  - rewrite !Z.mod_pow2_bits_low, Z.land_spec, Z.mod_pow2_bits_low, Z.lor_spec, Z.lnot_spec by lia.
    change 512 with (2 ^ 9). rewrite Z.pow2_bits_eqb by lia. rewrite Z.eqb_sym. by destruct (Z.testbit x i), (i =? 9).
  - rewrite Z.mod_pow2_bits_high by lia. rewrite (bits_above 32) by lia. done.
Qed.
Lemma quiet_coefs muted l w : registers l -> on_coefs w -> Z.testbit (reg l DAHPCTL) VBDAHP_REG_CLR_SHIFT = true ->
  (muted = true -> gains_zero l = true) -> quiet muted l w = true.
Proof.
  intros Hl Hw. revert l Hl. induction Hw as [|[r v] w H _ IH]; intros l Hl Hb Hm; [done|]. cbn [quiet]. cbn in H. rewrite H, Hb.
  pose proof (is_coef_range r H) as Hr.
  apply andb_true_iff. split; [destruct muted; [by rewrite Hm by done|done]|]. apply IH.
  - unfold registers in *. by rewrite length_insert.
  - rewrite reg_other; [done|done|lia|done|unfold DAHPCTL; lia].
  - intros Hmu. specialize (Hm Hmu). unfold gains_zero in *. rewrite forallb_forall in *. intros i Hi. specialize (Hm i Hi).
    assert (Hi' : 0 <= i < 6) by (apply (upto_elem i 6), list_elem_of_In, Hi).
    rewrite reg_other; [done|done|lia|unfold HPCOEF; lia|]. intros ->. apply not_false_iff_true in H. apply H. apply gain_not_coef.
    unfold is_gain. replace (HPCOEF (7 * i) - HPCOEF 0) with (i * 7) by (unfold HPCOEF; lia). rewrite Z.mod_mul by done.
    unfold HPCOEF. rewrite !andb_true_iff, !Z.leb_le. split; [lia|done].
Qed.

Lemma gains_written l w f : registers l -> Forall (fun p : Z * Z => 0 <= p.1 < 61) w -> forall i, 0 <= i < 6 ->
  reg (replay l (w ++ gains_writes f)) (HPCOEF (7 * i)) = u32 (s16 (f i)).
Proof.
  intros Hl Hw i Hi. change (replay l (w ++ gains_writes f)) with (replay (regs (Vbc l [] 0)) (w ++ gains_writes f)). rewrite reg_after.
  - rewrite last_write_app. assert (i = 0 \/ i = 1 \/ i = 2 \/ i = 3 \/ i = 4 \/ i = 5) as [->|[->|[->|[->|[->| ->] ] ] ] ] by lia; reflexivity.
  - done.
  - apply Forall_app. split; [done|]. apply in_block, on_gains_range, gains_writes_on.
  - unfold HPCOEF. lia.
Qed.
Lemma faded_out l g : registers l -> gains_zero (replay l (fade_out_writes g)) = true.
Proof.
  intros Hl. apply forallb_forall. intros i Hi. assert (Hi' : 0 <= i < 6) by (apply (upto_elem i 6), list_elem_of_In, Hi).
  unfold fade_out_writes. rewrite gains_written; [done|done| |done]. apply in_block, on_gains_range, concat_writes. intros j _. apply gains_writes_on.
Qed.

(** C17: Whatever sound is playing, the new coefficients of the filters are only
    ever written while the delay lines are held clear; and if the last gain is
    not zero, only after all the gains have been faded out to zero. The order
    of the writes is that of the code, and the change always completes. *)
Theorem filters_quiet lcf bands gains s : registers (regs s) -> (length bands <= 5)%nat -> length gains = HPF_S_GAIN_NUM ->
  exists w, change_filters lcf bands gains s = Ret tt (after s w) /\
    quiet (negb (gain_of (gains_read (regs s)) 5 =? 0)) (regs s) w = true.
Proof.
  intros Hs Hb Hg. exists (change_writes (regs s) lcf bands gains). split; [by apply change_filters_logs|]. unfold change_writes.
  set (muted := negb _). set (c := u32 (Z.lor _ _)). set (fade := if muted then _ else []).
  assert (Hon : on_gains fade) by (unfold fade; destruct muted; [apply fade_out_on|exact (Forall_nil_2 _)]).
  assert (Hz : muted = true -> gains_zero (replay (regs s) fade) = true) by (intros Hm; unfold fade; rewrite Hm; by apply faded_out).
  clearbody fade. rewrite !quiet_app, !andb_true_iff.
  split; [by apply quiet_gains|]. split; [by apply quiet_others, Forall_cons_2; [|exact (Forall_nil_2 _)]|].
  split; [|split; [by apply quiet_others, Forall_cons_2; [|exact (Forall_nil_2 _)]|apply quiet_gains, fade_in_on] ].
  assert (Hl : registers (replay (regs s) fade)) by by apply replay_registers. cbn [replay].
  apply quiet_coefs; [by apply (replay_registers _ [(DAHPCTL, c)])|by apply coef_writes_on| |].
  - rewrite reg_same by done. apply ctl_set.
  - intros Hm. specialize (Hz Hm). unfold gains_zero in *. rewrite forallb_forall in *. intros i Hi. specialize (Hz i Hi).
    assert (Hi' : 0 <= i < 6) by (apply (upto_elem i 6), list_elem_of_In, Hi).
    rewrite reg_other; [done|done|done|unfold HPCOEF; lia|unfold DAHPCTL, HPCOEF; lia].
Qed.

(** *** What the registers hold afterwards *)

(** The words B0, B1, B2, A0, A1 and A2 of the [k]th filter (from 0), in the
    order the block has them. *)
Definition filter_regs (l : list Z) (k : Z) : list Z := (fun c => reg l (HPCOEF (7 * k + c))) <$> [1; 3; 5; 2; 4; 6].
Definition filter_words (f : IIR_FILTER_PARA_T) : list Z :=
  (fun x => u32 (s16 x)) <$> [B0 f; B1 f; B2 f; 16384; - A1 f; - A2 f].

Record installed (fs : list IIR_FILTER_PARA_T) (gains l0 l : list Z) : Prop := {
  in_gains : forall i, 0 <= i < 6 -> reg l (HPCOEF (7 * i)) = u32 (s16 (gain_of gains i));
  in_filters : forall k f, aget fs k = Some f -> filter_regs l k = filter_words f;
  in_zero : forall k, zlen fs <= k < 6 -> filter_regs l k = replicate 6 0;
  in_ctl : forall i, 0 <= i -> Z.testbit (reg l DAHPCTL) i = Z.testbit (reg l0 DAHPCTL) i && negb (i =? VBDAHP_REG_CLR_SHIFT);
  in_frame : forall r, 0 <= r < 18 \/ r = 60 -> r <> DAHPCTL -> reg l r = reg l0 r
}.

Lemma coefs_last lcf bands k : (length bands <= 5)%nat -> 0 <= k < 6 ->
  (fun c => last_write (coef_writes lcf bands) (HPCOEF (7 * k + c))) <$> [1; 3; 5; 2; 4; 6] =
  Some <$> (match aget (lcf :: bands) k with Some f => filter_words f | None => replicate 6 0 end).
Proof.
  intros Hb Hk. assert (k = 0 \/ k = 1 \/ k = 2 \/ k = 3 \/ k = 4 \/ k = 5) as [->|[->|[->|[->|[->| ->] ] ] ] ] by lia;
  (destruct bands as [|f1 [|f2 [|f3 [|f4 [|f5 [|f6 bands] ] ] ] ] ]; [reflexivity..|cbn in Hb; lia]).
Qed.

(** Only the coefficients' part of the writes reaches the coefficients, and
    only the end of the fading-in decides the gains. *)
Lemma change_last_coef l lcf bands gains r : is_coef r = true -> 
  last_write (change_writes l lcf bands gains) r = last_write (coef_writes lcf bands) r.
Proof.
  intros Hr. pose proof (is_coef_range r Hr) as Hd. assert (G : forall w, on_gains w -> last_write w r = None).
  { intros w Hw. apply last_write_None. eapply Forall_impl; [exact Hw|]. intros [r' v] Hp E. cbn in Hp, E. subst r'. apply gain_not_coef in Hp. congruence. }
  assert (C : forall v, last_write [(DAHPCTL, v)] r = None).
  { intros v. apply last_write_None, Forall_cons_2; [|exact (Forall_nil_2 _)]. cbn. unfold DAHPCTL. lia. }
  unfold change_writes. rewrite !last_write_app, !C, (G _ (fade_in_on gains)). destruct (last_write (coef_writes lcf bands) r); [done|].
  destruct (negb _); [by apply G, fade_out_on|done].
Qed.
Lemma coef_index k c : 0 <= k < 6 -> 1 <= c <= 6 -> is_coef (HPCOEF (7 * k + c)) = true.
Proof.
  intros Hk Hc. unfold is_coef, HPCOEF. replace (18 + (7 * k + c) - (18 + 0)) with (c + k * 7) by lia. rewrite Z.mod_add, Z.mod_small by lia.
  rewrite !andb_true_iff, !Z.ltb_lt, negb_true_iff, Z.eqb_neq. lia.
Qed.
Lemma change_last_ctl l lcf bands gains :
  last_write (change_writes l lcf bands gains) DAHPCTL = Some (u32 (Z.land (u32 (Z.lor (reg l DAHPCTL) 512)) (Z.lnot 512))).
Proof.
  unfold change_writes. rewrite !last_write_app. rewrite (last_write_None (fade_in_writes gains)); [done|].
  eapply Forall_impl; [exact (fade_in_on gains)|]. intros [r v] Hp. apply is_gain_range in Hp. cbn in *. unfold DAHPCTL. lia.
Qed.
Lemma change_range l lcf bands gains : (length bands <= 5)%nat -> Forall (fun p : Z * Z => (18 <= p.1 < 60) \/ p.1 = DAHPCTL) (change_writes l lcf bands gains).
Proof.
  intros Hb. assert (H : forall w, Forall (fun p : Z * Z => 18 <= p.1 < 60) w -> Forall (fun p : Z * Z => (18 <= p.1 < 60) \/ p.1 = DAHPCTL) w).
  { intros w Hw. eapply Forall_impl; [exact Hw|]. intros p Hp. by left. }
  unfold change_writes. apply Forall_app; split; [|apply Forall_app; split; [|apply Forall_app; split; [|apply Forall_app; split] ] ].
  - destruct (negb _); [apply H, on_gains_range, fade_out_on|exact (Forall_nil_2 _)].
  - apply Forall_cons_2; [by right|exact (Forall_nil_2 _)].
  - apply H, on_coefs_range, coef_writes_on, Hb.
  - apply Forall_cons_2; [by right|exact (Forall_nil_2 _)].
  - apply H, on_gains_range, fade_in_on.
Qed.
Lemma change_in_block l lcf bands gains : (length bands <= 5)%nat -> Forall (fun p : Z * Z => 0 <= p.1 < 61) (change_writes l lcf bands gains).
Proof. intros Hb. eapply Forall_impl; [exact (change_range l lcf bands gains Hb)|]. intros p. unfold DAHPCTL. cbn. lia. Qed.

Lemma reg_replay l w r : registers l -> Forall (fun p : Z * Z => 0 <= p.1 < 61) w -> 0 <= r < 61 ->
  reg (replay l w) r = default (reg l r) (last_write w r).
Proof. intros Hl. exact (reg_after (Vbc l [] 0) w r Hl). Qed.

Lemma default_list {A} (d : A -> Z) (o : A -> option Z) (l : list A) : forall ws : list Z, o <$> l = Some <$> ws -> (fun c => default (d c) (o c)) <$> l = ws.
Proof.
  induction l as [|a l IH]; intros [|x ws] H; try discriminate H; [done|]. rewrite !fmap_cons in H. injection H as Ha Hl.
  rewrite fmap_cons, Ha, (IH ws Hl). done.
Qed.

Lemma change_installed l lcf bands gains : registers l -> Forall (fun x => 0 <= x < 2 ^ 32) l -> (length bands <= 5)%nat ->
  installed (lcf :: bands) gains l (replay l (change_writes l lcf bands gains)).
Proof.
  intros Hl Hw Hb. pose proof (change_in_block l lcf bands gains Hb) as Hin.
  assert (Hk : forall k, 0 <= k < 6 -> filter_regs (replay l (change_writes l lcf bands gains)) k =
    match aget (lcf :: bands) k with Some f => filter_words f | None => replicate 6 0 end).
  { intros k Hk. pose proof (coefs_last lcf bands k Hb Hk) as E. unfold filter_regs.
    assert (Hc : forall c, 1 <= c <= 6 -> reg (replay l (change_writes l lcf bands gains)) (HPCOEF (7 * k + c)) = default (reg l (HPCOEF (7 * k + c))) (last_write (coef_writes lcf bands) (HPCOEF (7 * k + c)))).
    { intros c Hc. rewrite reg_replay by (done || unfold HPCOEF; lia). by rewrite change_last_coef by (by apply coef_index). }
    rewrite <- (default_list (fun c => reg l (HPCOEF (7 * k + c))) _ _ _ E). apply list_fmap_ext. intros j c Hj. apply Hc.
    do 6 (destruct j as [|j]; [injection Hj as <-; lia|]). discriminate Hj. }
  split.
  - intros i Hi. unfold change_writes, fade_in_writes. rewrite !app_assoc. apply gains_written; [done| |done].
    rewrite <- !app_assoc. unfold change_writes, fade_in_writes in Hin. rewrite !app_assoc in Hin. apply Forall_app in Hin as [Hin _]. by rewrite <- !app_assoc in Hin.
  - intros k f Hf. pose proof (aget_range _ _ _ Hf) as Hr. rewrite zlen_cons in Hr. rewrite Hk by (unfold zlen in Hr; lia). by rewrite Hf.
  - intros k Hz. rewrite Hk; [|pose proof (zlen_nonneg (lcf :: bands)); lia]. by rewrite aget_None by lia.
  - intros i Hi. rewrite reg_replay by (done || unfold DAHPCTL; lia). rewrite change_last_ctl. cbn [default from_option id].
    apply ctl_cleared; [|done]. unfold reg. destruct (aget l DAHPCTL) as [x|] eqn:E; [|done]. cbn. apply aget_Some in E as [_ E]. exact (Forall_lookup_1 _ _ _ _ Hw E).
  - intros r Hr Hne. rewrite reg_replay; [|done|done|lia]. rewrite last_write_None; [done|].
    eapply Forall_impl; [exact (change_range l lcf bands gains Hb)|]. intros p. cbn. unfold DAHPCTL in *. lia.
Qed.

(** ** Witnesses *)

Lemma filters_quiet_witness : exists w, change_filters all_pass.2 [all_pass.2] (replicate 6 4096) (Vbc vbc_reg_default [] 0) = Ret tt (after (Vbc vbc_reg_default [] 0) w) /\
  quiet false vbc_reg_default w = true.
Proof. exact (filters_quiet all_pass.2 [all_pass.2] (replicate 6 4096) (Vbc vbc_reg_default [] 0) eq_refl ltac:(cbn; lia) eq_refl). Defined.
