(* ===== verification/AudioEqInstall.v ===== *)
(** * A profile in the registers

    vbc_codec_eq.c: from the parameters of a profile to the registers:
    AUDENHA_SetHpf computes the filters without undefined behaviour and leaves
    them, with their gains, in the registers; the errors of the rest. *)
From stdpp Require Import base list.
From Stdlib Require Import ZArith Lia.
From S2P Require Import Prelude AudioTables AudioFilter AudioFilterProofs AudioLcfProofs AudioRegs AudioRegsProofs AudioEq AudioEqProofs.

(** ** The parameters *)

Record band_input_ok (b : EQ_BAND_INPUT_PARA_T) : Prop := {
  input_fo : int16 (AudioEq.band_fo b);
  input_q : int16 (AudioEq.band_q b);
  input_boost : int16 (band_boostdB b);
  input_gain : int16 (band_gaindB b)
}.

(** What is asked of the parameters of the filters: two to five bands, of any
    16-bit values, and corners that are not negative. *)
Record hpf_ok (h : HPF_CONTROL_PARAM_T) : Prop := {
  hpf_lcf : lcf_ok (lcf_para h);
  hpf_bands : 2 <= eq_band_num h <= 5;
  hpf_gains : length (s_gain h) = HPF_S_GAIN_NUM;
  hpf_sw : length (band_sw h) = EQ_BAND_MAX;
  hpf_paras : length (eq_band_para h) = EQ_BAND_MAX;
  hpf_inputs : Forall band_input_ok (eq_band_para h)
}.

(** The filter of a band, all-pass if it is refused. *)
Definition band_of (h : HPF_CONTROL_PARAM_T) (rate i : Z) : filter_out :=
  match p ← band_para h i; Filter_CalcEQ p rate all_pass with
  | Some (true, o) => o
  | _ => all_pass
  end.
Definition lcf_of (h : HPF_CONTROL_PARAM_T) (rate : Z) : filter_out :=
  match Filter_CalcLCF (lcf_para h) 16384 rate with
  | Some (true, o) => o
  | _ => all_pass
  end.
Fixpoint bands_from (h : HPF_CONTROL_PARAM_T) (rate : Z) (n : nat) (i : Z) : list filter_out :=
  match n with
  | O => []
  | S n => band_of h rate i :: bands_from h rate n (i + 1)
  end.
Definition bands_of (h : HPF_CONTROL_PARAM_T) (rate : Z) : list filter_out := bands_from h rate (Z.to_nat (eq_band_num h)) 0.
(** The gains S0 to S5: those of the filters, then those of before. *)
Definition gains_of (h : HPF_CONTROL_PARAM_T) (rate : Z) : list Z := Prelude.put (s_gain h) 0 ((lcf_of h rate).1 :: (fst <$> bands_of h rate)).

(** ** Lemmas *)

Lemma bands_from_length h rate n i : length (bands_from h rate n i) = n.
Proof. revert i. induction n as [|n IH]; intros i; cbn; [done|]. by rewrite IH. Qed.

Lemma bands_from_gains l h rate n i : bands_from (set_s_gain l h) rate n i = bands_from h rate n i.
Proof. revert i. induction n as [|n IH]; intros i; [done|]. cbn [bands_from]. by rewrite IH. Qed.

Lemma aget_Forall {A} (P : A -> Prop) (l : list A) i x : Forall P l -> aget l i = Some x -> P x.
Proof. intros H E. apply aget_Some in E as [_ E]. exact (Forall_lookup_1 _ _ _ _ H E). Qed.

Lemma band_para_ok h i : hpf_ok h -> 0 <= i < eq_band_num h -> exists p, band_para h i = Some p /\ band_ok p.
Proof.
  intros Hh Hi. pose proof (hpf_bands h Hh) as Hn. unfold band_para.
  assert (Hb : forall j, 0 <= j < 8 -> exists b, aget (eq_band_para h) j = Some b /\ band_input_ok b).
  { intros j Hj. destruct (aget_is_Some (eq_band_para h) j) as [b E]; [unfold zlen; rewrite (hpf_paras h Hh); unfold EQ_BAND_MAX; lia|].
    exists b. split; [done|]. exact (aget_Forall _ _ _ _ (hpf_inputs h Hh) E). }
  destruct (aget_is_Some (band_sw h) i) as [sw Esw]; [unfold zlen; rewrite (hpf_sw h Hh); unfold EQ_BAND_MAX; lia|].
  rewrite Esw, obind_Some. destruct (Hb i ltac:(lia)) as (b & Eb & [B1 B2 B3 B4]). rewrite Eb, obind_Some.
  destruct ((i =? 0) && low_shelve_on h).
  - destruct (Hb (i + 1) ltac:(lia)) as (n & En & [N1 _ _ _]). rewrite En, !obind_Some. eexists. split; [reflexivity|]. by split.
  - destruct ((i =? u32 (eq_band_num h - 1)) && high_shelve_on h).
    + rewrite u32_small by lia. destruct (Hb (eq_band_num h - 2) ltac:(lia)) as (n & En & [N1 _ _ _]). rewrite En, !obind_Some.
      eexists. split; [reflexivity|]. by split.
    + rewrite obind_Some. eexists. split; [reflexivity|]. by split.
Qed.

(** A filter whose gain is positive, whose poles are not outside of the unit
    circle and whose coefficients fit their registers. *)
Definition filter_good (o : filter_out) : Prop :=
  1 <= o.1 <= 32767 /\ poles_inside o.2 /\ int16 (B0 o.2) /\ int16 (B1 o.2) /\ int16 (B2 o.2) /\ int16 (A1 o.2).
Lemma all_pass_good : filter_good all_pass.
Proof. unfold filter_good, poles_inside, int16. cbn. lia. Qed.

Lemma band_of_ok h rate i p : band_para h i = Some p -> band_ok p -> rate <= 71231 ->
  (forall s, filter_or_pass (Filter_CalcEQ p rate all_pass) s = Ret (band_of h rate i) s) /\ filter_good (band_of h rate i).
Proof.
  intros Ep Hp Hr. unfold band_of. rewrite Ep, obind_Some. pose proof (Filter_CalcEQ_ok p rate all_pass Hp Hr) as H. destruct (accepted p rate).
  - destruct H as (s & f & -> & Hs & Hpoles & Hb0 & Hb1 & Hb2 & Ha1). by split; [|unfold filter_good].
  - rewrite H. split; [done|apply all_pass_good].
Qed.
Lemma lcf_of_ok h rate : hpf_ok h -> 8192 <= rate ->
  (forall s, filter_or_pass (Filter_CalcLCF (lcf_para h) 16384 rate) s = Ret (lcf_of h rate) s) /\ filter_good (lcf_of h rate).
Proof.
  intros Hh Hr. unfold lcf_of. destruct (Filter_CalcLCF_ok (lcf_para h) 16384 rate (hpf_lcf h Hh) Hr) as (o & -> & H1 & H2 & H3 & H4 & H5 & H6 & _).
  by split; [|unfold filter_good].
Qed.

Definition with_gains (l : list Z) (s : audio) : audio := set_hpf (set_s_gain l (cur_hpf s)) s.
Lemma with_gains_twice l l' s : with_gains l (with_gains l' s) = with_gains l s.
Proof. done. Qed.
Lemma with_gains_same s : with_gains (s_gain (cur_hpf s)) s = s.
Proof. by destruct s as [? ? ? [] ? ?]. Qed.

Lemma store_gain_ok i v s : 0 <= i < zlen (s_gain (cur_hpf s)) -> store_gain i v s = Ret tt (with_gains (Prelude.put (s_gain (cur_hpf s)) i [v]) s).
Proof. intros Hi. unfold store_gain, bind, get, lift. by rewrite aset_put. Qed.

Lemma hpf_ok_gains h l : hpf_ok h -> length l = HPF_S_GAIN_NUM -> hpf_ok (set_s_gain l h).
Proof. intros [H1 H2 H3 H4 H5 H6] Hl. by split. Qed.

Lemma band_filters_ok rate n : forall i s, rate <= 71231 -> hpf_ok (cur_hpf s) -> 0 <= i -> i + Z.of_nat n <= eq_band_num (cur_hpf s) ->
  let o := bands_from (cur_hpf s) rate n i in
  band_filters n i rate s = Ret (snd <$> o) (with_gains (Prelude.put (s_gain (cur_hpf s)) (i + 1) (fst <$> o)) s) /\ Forall filter_good o.
Proof.
  induction n as [|n IH]; intros i s Hr Hh Hi Hn o; pose proof (hpf_bands _ Hh) as Hb; pose proof (hpf_gains _ Hh) as Hg.
  - split; [|exact (Forall_nil_2 _)]. unfold o. cbn [bands_from fmap list_fmap band_filters]. rewrite put_nil by (unfold zlen; rewrite Hg; unfold HPF_S_GAIN_NUM; lia).
    by rewrite with_gains_same.
  - unfold o. clear o. cbn [bands_from]. rewrite !fmap_cons.
    destruct (band_para_ok (cur_hpf s) i Hh ltac:(lia)) as (p & Ep & Hp). destruct (band_of_ok (cur_hpf s) rate i p Ep Hp Hr) as [Ef Hf].
    assert (Hlen : zlen (s_gain (cur_hpf s)) = 6) by (unfold zlen; by rewrite Hg).
    set (s1 := with_gains (Prelude.put (s_gain (cur_hpf s)) (i + 1) [(band_of (cur_hpf s) rate i).1]) s).
    destruct (IH (i + 1) s1) as [IH1 IH2]; [done| |lia|cbn; lia|].
    { apply hpf_ok_gains; [done|]. apply Nat2Z.inj. change (zlen (Prelude.put (s_gain (cur_hpf s)) (i + 1) [(band_of (cur_hpf s) rate i).1]) = 6).
      rewrite zlen_put; [done|lia|change (zlen [_]) with 1; lia]. }
    change (cur_hpf s1) with (set_s_gain (Prelude.put (s_gain (cur_hpf s)) (i + 1) [(band_of (cur_hpf s) rate i).1]) (cur_hpf s)) in IH1, IH2.
    rewrite bands_from_gains in IH1, IH2. split; [|by apply Forall_cons_2].
    cbn [band_filters]. unfold bind at 1, get. unfold bind at 1, lift at 1. rewrite Ep.
    rewrite (proj2 (Z.ltb_lt i (Z.of_nat EQ_BAND_MAX))) by (unfold EQ_BAND_MAX; lia). unfold bind at 1, ret at 1.
    rewrite (bind_Ret _ _ _ _ _ (Ef s)). rewrite (bind_Ret _ _ _ _ _ (store_gain_ok (i + 1) _ s ltac:(lia))). fold s1.
    rewrite (bind_Ret _ _ _ _ _ IH1). unfold ret. f_equal.
    unfold s1. rewrite with_gains_twice. f_equal. cbn [s_gain set_s_gain].
    change (i + 1 + 1) with (i + 1 + zlen [(band_of (cur_hpf s) rate i).1]). apply put_put; [lia|].
    change (zlen [_]) with 1. unfold zlen at 1. rewrite length_fmap, bands_from_length. lia.
Qed.

(** ** Setting the filters *)

Definition words (l : list Z) : Prop := Forall (fun x => 0 <= x < 2 ^ 32) l.

Lemma gains_of_length h rate : hpf_ok h -> length (gains_of h rate) = HPF_S_GAIN_NUM.
Proof.
  intros Hh. pose proof (hpf_bands h Hh). pose proof (hpf_gains h Hh) as Hg. unfold gains_of. apply Nat2Z.inj.
  change (zlen (Prelude.put (s_gain h) 0 ((lcf_of h rate).1 :: (bands_of h rate).*1)) = 6).
  rewrite zlen_put; [unfold zlen; by rewrite Hg|done|]. rewrite zlen_cons. unfold zlen, bands_of. rewrite length_fmap, bands_from_length, Hg. unfold HPF_S_GAIN_NUM. lia.
Qed.

Lemma AUDENHA_SetHpf_ok s rate : hpf_ok (cur_hpf s) -> registers (regs (vb s)) -> 8192 <= rate <= 71231 -> let h := cur_hpf s in
  AUDENHA_SetHpf rate s = Ret true (set_vb (after (vb s) (change_writes (regs (vb s)) (lcf_of h rate).2 (snd <$> bands_of h rate) (gains_of h rate)))
    (with_gains (gains_of h rate) s)) /\ Forall filter_good (lcf_of h rate :: bands_of h rate).
Proof.
  intros Hh Hs Hr h. pose proof (hpf_bands _ Hh) as Hb. pose proof (hpf_gains _ Hh) as Hg.
  assert (Hlen : zlen (s_gain (cur_hpf s)) = 6) by (unfold zlen; by rewrite Hg). destruct (lcf_of_ok (cur_hpf s) rate Hh ltac:(lia)) as [El Hl].
  unfold AUDENHA_SetHpf. unfold bind at 1, get at 1. rewrite (bind_Ret _ _ _ _ _ (El s)).
  rewrite (bind_Ret _ _ _ _ _ (store_gain_ok 0 _ s ltac:(lia))). unfold bind at 1, get at 1.
  set (s1 := with_gains (Prelude.put (s_gain (cur_hpf s)) 0 [(lcf_of (cur_hpf s) rate).1]) s).
  destruct (band_filters_ok rate (Z.to_nat (eq_band_num (cur_hpf s1))) 0 s1) as [Eb Hf]; [lia| |lia|cbn; lia|].
  { apply hpf_ok_gains; [done|]. apply Nat2Z.inj. change (zlen (Prelude.put (s_gain (cur_hpf s)) 0 [(lcf_of (cur_hpf s) rate).1]) = 6).
    rewrite zlen_put; [done|lia|change (zlen [_]) with 1; lia]. }
  rewrite (bind_Ret _ _ _ _ _ Eb). change (cur_hpf s1) with (set_s_gain (Prelude.put (s_gain (cur_hpf s)) 0 [(lcf_of (cur_hpf s) rate).1]) (cur_hpf s)) in *.
  rewrite bands_from_gains in *. cbn [set_s_gain eq_band_num s_gain] in *. change (bands_from (cur_hpf s) rate (Z.to_nat (eq_band_num (cur_hpf s))) 0) with (bands_of h rate) in *.
  unfold s1. rewrite with_gains_twice.
  change (0 + 1) with (0 + zlen [(lcf_of (cur_hpf s) rate).1]).
  rewrite put_put; [|lia|unfold zlen at 2, bands_of; rewrite length_fmap, bands_from_length; change (zlen [_]) with 1; unfold h; lia].
  change (Prelude.put (s_gain (cur_hpf s)) 0 ([(lcf_of (cur_hpf s) rate).1] ++ (bands_of h rate).*1)) with (gains_of h rate).
  split; [|by apply Forall_cons_2].
  unfold bind at 1, get at 1. unfold on_vb, zoom, bind. change (vb (with_gains (gains_of h rate) s)) with (vb s).
  rewrite (change_filters_logs _ _ _ (vb s) Hs); [done| |by apply gains_of_length].
  unfold bands_of. rewrite length_fmap, bands_from_length. unfold h. lia.
Qed.

(** ** The parameters from the non-volatile data *)

Record mode_ok (m : EQ_MODE_PARA_T) : Prop := {
  mode_bands : length (eq_band m) = EQ_BAND_MAX;
  mode_inputs : Forall band_input_ok (eq_band m)
}.
(** A profile: its arrays have their sizes, the volume level is one of the
    array, the equaliser mode exists, and the corners are not negative. *)
Record profile_ok (p : AUDIO_TOTAL_T) : Prop := {
  profile_level : 0 <= valid_volume_level_count (audio_nv_arm_mode_info p) < zlen (arm_volume (audio_nv_arm_mode_info p));
  profile_agc : agc_input_gain (audio_nv_arm_mode_info p) <> [];
  profile_reserve : 18 <= zlen (reserve (audio_nv_arm_mode_info p));
  profile_f1 : forall x, aget (reserve (audio_nv_arm_mode_info p)) 3 = Some x -> 0 <= s16 x;
  profile_f2 : forall x, aget (reserve (audio_nv_arm_mode_info p)) 6 = Some x -> 0 <= s16 x;
  profile_mode : 0 <= Z.land (eq_switch (audio_nv_arm_mode_info p)) 0xF <= 6 \/ Z.land (eq_switch (audio_nv_arm_mode_info p)) 0xF = 15;
  profile_modes : length (eq_modes (audio_enha_eq p)) = EQ_MODE_MAX;
  profile_mode_ok : Forall mode_ok (eq_modes (audio_enha_eq p))
}.
(** What the static variables hold from the start. *)
Record hpf_wf (h : HPF_CONTROL_PARAM_T) : Prop := {
  wf_lcf1 : 0 <= f1_fp (lcf_para h) < 32768;
  wf_lcf2 : 0 <= f2_fp (lcf_para h) < 32768;
  wf_sw : length (band_sw h) = EQ_BAND_MAX;
  wf_paras : length (eq_band_para h) = EQ_BAND_MAX;
  wf_inputs : Forall band_input_ok (eq_band_para h)
}.

(** The type of the low-cut filter that a profile can give. *)
Lemma lcf_type_other x : lcf_type (Z.land x 0x0700) <> FILTER_LCFPARA_BUTTERWORTH.
Proof.
  unfold lcf_type. destruct (Z.eqb_spec (Z.land x 0x0700) 0); [done|]. destruct (Z.eqb_spec (Z.land x 0x0700) 1) as [E|]; [|done].
  exfalso. assert (H : Z.testbit (Z.land x 0x0700) 0 = false) by (rewrite Z.land_spec; apply andb_false_r). rewrite E in H. discriminate H.
Qed.

Lemma s16_range x : -32768 <= s16 x < 32768.
Proof. unfold s16, swrap. change (2 ^ (16 - 1)) with 32768. change (2 ^ 16) with 65536. pose proof (Z.mod_pos_bound (x + 32768) 65536 ltac:(done)). lia. Qed.

Lemma slice_1_6 (l : list Z) : 18 <= zlen l -> exists a b c d e f, slice l 1 6 = Some [a; b; c; d; e; f] /\ aget l 3 = Some c /\ aget l 6 = Some f.
Proof.
  intros H. destruct l as [|x0 [|a [|b [|c [|d [|e [|f l] ] ] ] ] ] ]; try (unfold zlen in H; cbn [length] in H; lia).
  exists a, b, c, d, e, f. by split.
Qed.

Definition steady (s s' : audio) : Prop := vb s' = vb s /\ s_gain (cur_hpf s') = s_gain (cur_hpf s).

Lemma GetParaFromAudMode_ok arm s : 18 <= zlen (reserve arm) -> agc_input_gain arm <> [] ->
  (forall x, aget (reserve arm) 3 = Some x -> 0 <= s16 x) -> (forall x, aget (reserve arm) 6 = Some x -> 0 <= s16 x) -> hpf_wf (cur_hpf s) ->
  wp no_fault (AUDENHA_GetParaFromAudMode arm) (fun r s' => r = AUDIO_NO_ERROR /\ steady s s' /\ cur_eq_mode_sel s' = Z.land (eq_switch arm) 0xF /\
    hpf_wf (cur_hpf s') /\ lcf_ok (lcf_para (cur_hpf s')) /\ length (alc_Para (cur_alc s')) = 11%nat) (fun _ => False) s.
Proof.
  intros Hr Ha H3 H6 [W1 W2 W3 W4 W5]. unfold AUDENHA_GetParaFromAudMode. apply wp_bind, wp_get, wp_bind.
  destruct (agc_input_gain arm) as [|g gs]; [done|]. apply (wp_lift_Some _ _ g); [done|]. apply wp_bind.
  destruct (slice_is_Some (reserve arm) 7 11 ltac:(lia) ltac:(lia) ltac:(lia)) as [alc Ealc]. apply (wp_lift_Some _ _ alc); [done|].
  apply slice_Some in Ealc as (_ & _ & Ealc). do 2 apply wp_bind, wp_modify. apply wp_bind.
  destruct (aget_is_Some (reserve arm) 0 ltac:(lia)) as [r0 E0]. apply (wp_lift_Some _ _ r0); [done|]. apply wp_bind.
  destruct (slice_1_6 _ Hr) as (a & b & c & d & e & f & E & E3 & E6). apply (wp_lift_Some _ _ [a; b; c; d; e; f]); [done|].
  apply wp_bind. eapply wp_lift_Some; [reflexivity|]. do 2 apply wp_bind, wp_modify. apply wp_ret.
  specialize (H3 c E3). specialize (H6 f E6). pose proof (s16_range c). pose proof (s16_range f). pose proof (lcf_type_other r0) as Ht.
  split; [done|]. split; [done|]. split; [done|]. cbn [cur_hpf cur_alc set_dapath set_hpf lcf_para alc_Para set_mode_sel set_alc].
  split; [|split].
  - split; cbn [lcf_para band_sw eq_band_para]; [destruct (lcf_type (Z.land r0 1792)); cbn; lia..|done|done|done].
  - destruct (lcf_type (Z.land r0 1792)); split; cbn; done || lia.
  - rewrite length_fmap. unfold zlen in Ealc. lia.
Qed.

(** The number of bands a profile asks for. *)
Definition extended (p : AUDIO_TOTAL_T) : bool :=
  negb (Z.land (eq_switch (audio_nv_arm_mode_info p)) 0xF =? AUD_ENHA_EQMODE_SEL_OFF) && test_bit (eq_control (audio_enha_eq p)) 15.

Lemma Forall_take_drop {A} (P : A -> Prop) k (l1 l2 : list A) : Forall P l1 -> Forall P l2 -> Forall P (take k l1 ++ drop k l2).
Proof. intros H1 H2. apply Forall_app. split; [by apply Forall_take|by apply Forall_drop]. Qed.
Lemma length_take_drop {A B} (k : nat) (l1 : list A) (l2 : list B) (n : nat) : length l1 = n -> length l2 = n -> (k <= n)%nat -> (length (take k l1) + length (drop k l2))%nat = n.
Proof. intros H1 H2 Hk. rewrite length_take, length_drop. lia. Qed.

Lemma GetParaFromEqset_ok p index s : profile_ok p -> index <> 0 -> hpf_wf (cur_hpf s) -> lcf_ok (lcf_para (cur_hpf s)) ->
  cur_eq_mode_sel s = Z.land (eq_switch (audio_nv_arm_mode_info p)) 0xF ->
  wp no_fault (AUDENHA_GetParaFromEqset (audio_enha_eq p) index) (fun r s' => r = AUDIO_NO_ERROR /\ steady s s' /\ hpf_wf (cur_hpf s') /\
    lcf_ok (lcf_para (cur_hpf s')) /\ eq_band_num (cur_hpf s') = (if extended p then 8 else 5) /\ alc_Para (cur_alc s') = alc_Para (cur_alc s)) (fun _ => False) s.
Proof.
  intros Hp Hi [W1 W2 W3 W4 W5] Hl Hs. unfold AUDENHA_GetParaFromEqset, extended. wp_step. wp_step. rewrite Hs.
  set (sel := Z.land _ 0xF) in *. destruct (Z.eqb_spec sel AUD_ENHA_EQMODE_SEL_OFF) as [|Hoff]; cbn [negb andb].
  - repeat wp_step. split; [done|]. split; [done|]. split; [|done]. by split.
  - rewrite (proj2 (Z.eqb_neq index 0)) by done. wp_step.
    set (i := if sel =? AUD_ENHA_EQMODE_SEL_MMISET then 0 else sel - 1).
    assert (Hi6 : 0 <= i < zlen (eq_modes (audio_enha_eq p))).
    { unfold zlen. rewrite (profile_modes p Hp). pose proof (profile_mode p Hp) as Hm. fold sel in Hm. unfold i. unfold AUD_ENHA_EQMODE_SEL_OFF in Hoff. unfold AUD_ENHA_EQMODE_SEL_MMISET, EQ_MODE_MAX.
      destruct (Z.eqb_spec sel 15); lia. }
    destruct (aget_is_Some _ _ Hi6) as [m Em]. apply (wp_lift_Some _ _ m); [done|]. destruct (aget_Forall _ _ _ _ (profile_mode_ok p Hp) Em) as [Hb Hin].
    repeat wp_step. split; [done|]. split; [done|]. cbn [cur_hpf set_hpf lcf_para eq_band_num].
    split; [|split; [done|split; [by destruct (test_bit _ 15)|done] ] ].
    set (k := Z.to_nat (if test_bit (eq_control (audio_enha_eq p)) 15 then 8 else 5)).
    assert (Hk : (k <= EQ_BAND_MAX)%nat) by (unfold k, EQ_BAND_MAX; destruct (test_bit _ 15); lia).
    split; cbn [lcf_para band_sw eq_band_para]; [done|done| | |by apply Forall_take_drop].
    + rewrite length_app, length_fmap, length_drop, W3. unfold upto. rewrite length_fmap, length_seq. lia.
    + rewrite length_app. by apply length_take_drop.
Qed.

Lemma eq_para_set_index_pos name : eq_para_set_index name <> 0.
Proof. unfold eq_para_set_index. by repeat destruct (decide _). Qed.

Lemma GetPara_ok p s : profile_ok p -> hpf_wf (cur_hpf s) ->
  wp no_fault (AUDENHA_GetPara p) (fun r s' => r = AUDIO_NO_ERROR /\ vb s' = vb s /\ hpf_wf (cur_hpf s') /\ lcf_ok (lcf_para (cur_hpf s')) /\
    s_gain (cur_hpf s') = replicate HPF_S_GAIN_NUM 4096 /\ eq_band_num (cur_hpf s') = (if extended p then 8 else 5) /\ data_width (cur_hpf s') = HPF_DATA_WIDTH_24 /\
    length (alc_Para (cur_alc s')) = 11%nat) (fun _ => False) s.
Proof.
  intros Hp Hw. unfold AUDENHA_GetPara. cbv zeta. wp_step.
  destruct (aget_is_Some _ _ (profile_level p Hp)) as [v Ev]. apply (wp_lift_Some _ _ v); [done|]. do 2 wp_step. wp_step.
  eapply wp_mono; [apply GetParaFromAudMode_ok; [apply Hp..|exact Hw]| |done].
  intros r s1 (_ & [Hv _] & Hsel & Hw1 & Hl & Halc). wp_step.
  eapply wp_mono; [apply (GetParaFromEqset_ok p _ s1 Hp (eq_para_set_index_pos _) Hw1 Hl Hsel)| |done].
  intros r' s2 (-> & [Hv2 _] & [W1 W2 W3 W4 W5] & Hl2 & Hn & Halc2). cbn [negb Z.eqb AUDIO_NO_ERROR]. repeat wp_step.
  split; [done|]. split; [by cbn; rewrite Hv2, Hv|]. split; [by split|]. do 4 (split; [done|]). cbn. by rewrite Halc2.
Qed.

(** ** The other settings *)

Definition sound (s : vbc) : Prop := registers (regs s) /\ words (regs s).
(** The operation completes, and leaves 61 words. *)
Definition settles (m : M vbc unit) : Prop := forall s, sound s -> wp no_fault m (fun _ s' => sound s') (fun _ => False) s.

Lemma words_insert l i v : words l -> words (<[i := u32 v]> l).
Proof. intros H. apply Forall_insert; [done|]. exact (u32_range v). Qed.
Lemma sound_after s r v : sound s -> sound (after s [(r, u32 v)]).
Proof. intros [H1 H2]. split; [by apply replay_registers|]. apply words_insert, H2. Qed.

Lemma wp_reg_write r v s Q : sound s -> 0 <= r < 61 -> (sound (after s [(r, u32 v)]) -> Q tt (after s [(r, u32 v)])) -> wp no_fault (reg_write r v) Q (fun _ => False) s.
Proof. intros Hs Hr HQ. unfold wp. rewrite reg_write_logs by (apply Hs || done). apply HQ, sound_after, Hs. Qed.
Lemma wp_reg_or r v s Q : sound s -> 0 <= r < 61 ->
  (let s' := after s [(r, u32 (Z.lor (reg (regs s) r) v))] in sound s' -> reg (regs s') r = u32 (Z.lor (reg (regs s) r) v) -> Q tt s') -> wp no_fault (reg_or r v) Q (fun _ => False) s.
Proof. intros Hs Hr HQ. unfold wp. rewrite reg_or_logs by (apply Hs || done). apply HQ; [by apply sound_after|]. apply reg_same; [apply Hs|done]. Qed.
Lemma wp_reg_clear r v s Q : sound s -> 0 <= r < 61 ->
  (let s' := after s [(r, u32 (Z.land (reg (regs s) r) (Z.lnot v)))] in sound s' -> reg (regs s') r = u32 (Z.land (reg (regs s) r) (Z.lnot v)) -> Q tt s') -> wp no_fault (reg_clear r v) Q (fun _ => False) s.
Proof. intros Hs Hr HQ. unfold wp. rewrite reg_clear_logs by (apply Hs || done). apply HQ; [by apply sound_after|]. apply reg_same; [apply Hs|done]. Qed.

Lemma settles_bind m k : settles m -> settles k -> settles (m ;;; k).
Proof. intros Hm Hk s Hs. apply wp_bind. eapply wp_mono; [by apply Hm| |done]. intros [] s' Hs'. by apply Hk. Qed.
Lemma settles_ret : settles (ret tt).
Proof. intros s Hs. by apply wp_ret. Qed.
Lemma settles_or r v : 0 <= r < 61 -> settles (reg_or r v).
Proof. intros Hr s Hs. apply wp_reg_or; [done|done|]. by intros s' H _. Qed.
Lemma settles_clear r v : 0 <= r < 61 -> settles (reg_clear r v).
Proof. intros Hr s Hs. apply wp_reg_clear; [done|done|]. by intros s' H _. Qed.
Lemma settles_write r v : 0 <= r < 61 -> settles (reg_write r v).
Proof. intros Hr s Hs. by apply wp_reg_write. Qed.
Lemma settles_switch r n b : 0 <= r < 61 -> settles (reg_switch r n b).
Proof. intros Hr. destruct b; [by apply settles_or|by apply settles_clear]. Qed.
Create HintDb settle.
#[export] Hint Resolve settles_bind settles_ret settles_or settles_clear settles_write settles_switch : settle.

Lemma settles_SetHpfGain i v : settles (VB_SetHpfGain i v).
Proof.
  unfold VB_SetHpfGain. destruct (Z.leb_spec 0 (s16 i)), (Z.leb_spec (s16 i) 6); cbn [andb]; auto with settle.
  apply settles_write. unfold HPCOEF. lia.
Qed.
Lemma settles_SetDG i v : settles (VB_SetDG i v).
Proof. unfold VB_SetDG. repeat case_match; cbv zeta; eauto 6 with settle; apply settles_bind; auto with settle; (apply settles_clear || apply settles_or); done. Qed.
Lemma settles_DGSwitch i b : settles (VB_DGSwitch i b).
Proof. unfold VB_DGSwitch. repeat case_match; auto with settle; by apply settles_switch. Qed.
Lemma settles_SetFMMixMode i v : settles (VB_SetFMMixMode i v).
Proof. unfold VB_SetFMMixMode. repeat case_match; cbv zeta; auto with settle; apply settles_bind; (apply settles_clear || apply settles_or); done. Qed.
Lemma settles_ALCSwitch b : settles (VB_ALCSwitch b).
Proof. by apply settles_switch. Qed.
Lemma settles_SetALCParas l : length l = 11%nat -> settles (VB_SetALCParas l).
Proof.
  intros Hl s Hs. apply (wp_forM _ _ sound); [done|]. intros i s' Hi Hs'. apply upto_elem in Hi. apply wp_bind.
  destruct (aget_is_Some l i) as [x E]; [unfold zlen; rewrite Hl; lia|]. apply (wp_lift_Some _ _ x); [done|].
  apply wp_reg_write; [done|unfold DAALCCTL; lia|done].
Qed.
Lemma settles_SetHpfLimit v : settles (VB_SetHpfLimit v).
Proof. apply settles_bind; [by apply settles_clear|by apply settles_or]. Qed.

(** The width and the enabling, as bits 8 and 10 of the control register. *)
Definition ctl_bit (s : vbc) (i : Z) : bool := Z.testbit (reg (regs s) DAHPCTL) i.
Lemma testbit_u32 x i : 0 <= i < 32 -> Z.testbit (u32 x) i = Z.testbit x i.
Proof. intros Hi. unfold u32, wrap. apply Z.mod_pow2_bits_low. lia. Qed.

Lemma SetHpfWidth_24 s : sound s -> wp no_fault (VB_SetHpfWidth HPF_DATA_WIDTH_24) (fun _ s' => sound s' /\ ctl_bit s' VBDAHP_WID_SEL_SHIFT = true) (fun _ => False) s.
Proof.
  intros Hs. unfold VB_SetHpfWidth. change (u16 HPF_DATA_WIDTH_24 =? 16) with false. cbv iota. change (2 ^ VBDAHP_WID_SEL_SHIFT) with (2 ^ 8). apply wp_bind.
  unfold wp at 1. rewrite reg_read_ok; [|apply Hs|done]. destruct (Z.eqb_spec (Z.land (reg (regs s) DAHPCTL) (2 ^ 8)) (2 ^ 8)) as [E|E].
  - apply wp_ret. split; [done|]. unfold ctl_bit. change VBDAHP_WID_SEL_SHIFT with 8. apply (f_equal (fun x => Z.testbit x 8)) in E.
    rewrite Z.land_spec, Z.pow2_bits_true, andb_true_r in E by lia. exact E.
  - apply wp_bind. apply wp_reg_clear; [done|done|]. intros s1 Hs1 _. apply wp_reg_or; [done|done|]. intros s2 Hs2 E2. split; [done|].
    unfold ctl_bit. change VBDAHP_WID_SEL_SHIFT with 8. rewrite E2, testbit_u32, Z.lor_spec, Z.pow2_bits_true by lia. apply orb_true_r.
Qed.
Lemma SwitchHpf_on s : sound s -> wp no_fault (VB_SwitchHpf true) (fun _ s' => sound s' /\ ctl_bit s' VBDAHP_EN_SHIFT = true /\ ctl_bit s' VBDAHP_WID_SEL_SHIFT = ctl_bit s VBDAHP_WID_SEL_SHIFT) (fun _ => False) s.
Proof.
  intros Hs. unfold VB_SwitchHpf. do 3 wp_step. apply wp_reg_or; [done|done|]. intros s2 Hs2 E2. cbn [regs] in E2. apply wp_ret. split; [done|].
  unfold ctl_bit. rewrite E2. change VBDAHP_EN_SHIFT with 10. change VBDAHP_WID_SEL_SHIFT with 8. rewrite !testbit_u32, !Z.lor_spec, !Z.pow2_bits_eqb by lia.
  split; [apply orb_true_r|]. change (10 =? 8) with false. apply orb_false_r.
Qed.

(** An operation on the registers, for the whole state. *)
Lemma on_vb_settles m s : settles m -> sound (vb s) ->
  wp no_fault (on_vb m) (fun _ s' => sound (vb s') /\ cur_hpf s' = cur_hpf s /\ cur_alc s' = cur_alc s) (fun _ => False) s.
Proof. intros Hm Hs. apply wp_zoom. eapply wp_mono; [by apply Hm| |done]. by intros [] v Hv. Qed.
#[export] Hint Resolve settles_SetHpfGain settles_SetDG settles_DGSwitch settles_SetFMMixMode settles_ALCSwitch settles_SetHpfLimit : settle.

(** A part that completes, inside of a computation that may not. *)
Lemma wp_completes {S A} (F : fault -> Prop) (m : M S A) P Q E s : wp no_fault m P (fun _ => False) s -> (forall a s', P a s' -> Q a s') -> wp F m Q E s.
Proof. intros H HP. destruct (wp_total _ _ _ H) as (a & t & Et & Ht). unfold wp. rewrite Et. by apply HP. Qed.

Definition hpf_switched (s s' : audio) : Prop :=
  sound (vb s') /\ ctl_bit (vb s') VBDAHP_WID_SEL_SHIFT = true /\ ctl_bit (vb s') VBDAHP_EN_SHIFT = true /\ cur_hpf s' = cur_hpf s.
Lemma hpf_switches s : sound (vb s) -> data_width (cur_hpf s) = HPF_DATA_WIDTH_24 ->
  wp no_fault (on_vb (VB_SetHpfLimit (r_limit (cur_hpf s)) ;;; VB_SetHpfWidth (data_width (cur_hpf s)) ;;; VB_SwitchHpf true)) (fun _ => hpf_switched s) (fun _ => False) s.
Proof.
  intros Hs ->. apply wp_zoom, wp_bind. eapply wp_mono; [by apply settles_SetHpfLimit| |done]. intros [] v1 V1. apply wp_bind.
  eapply wp_mono; [by apply SetHpfWidth_24| |done]. intros [] v2 [V2 B2]. eapply wp_mono; [by apply SwitchHpf_on| |done].
  intros [] v3 (V3 & B3 & B3'). rewrite B2 in B3'. split; [exact V3|]. done.
Qed.

(** All of [AUDENHA_Init] before the filters. *)
Lemma AUDENHA_Init_before rate s Q E F : sound (vb s) -> length (alc_Para (cur_alc s)) = 11%nat -> data_width (cur_hpf s) = HPF_DATA_WIDTH_24 ->
  (forall s1, hpf_switched s s1 -> wp F (AUDENHA_SetHpf rate) (fun (r : bool) s' => Q (if r then AUDIO_NO_ERROR else AUDIO_ERROR) s') E s1) ->
  wp F (AUDENHA_Init rate) Q E s.
Proof.
  intros Hs Ha Hw HQ. unfold AUDENHA_Init. wp_step. unfold AUDENHA_initDigiGain. do 2 wp_step. wp_step.
  eapply wp_completes; [apply on_vb_settles; [auto with settle|done]|]. intros [] s1 (H1 & E1 & A1). repeat wp_step.
  unfold AUDENHA_initDAPath. do 2 wp_step. wp_step. eapply wp_completes; [apply on_vb_settles; [auto with settle|done]|].
  intros [] s2 (H2 & E2 & A2). repeat wp_step. unfold AUDENHA_initAlc. do 2 wp_step. wp_step. eapply wp_completes; [apply on_vb_settles; [|done]|].
  { apply settles_bind; [apply settles_SetHpfGain|]. destruct (alc_sw (cur_alc s2)); [|apply settles_ALCSwitch].
    apply settles_bind; [apply settles_SetALCParas; congruence|apply settles_ALCSwitch]. }
  intros [] s3 (H3 & E3 & A3). repeat wp_step. unfold AUDENHA_InitHpf. do 2 wp_step. wp_step.
  eapply wp_completes; [apply hpf_switches; [done|congruence]|]. intros [] s4 (H4 & B1 & B2 & E4). repeat wp_step.
  eapply wp_mono; [apply HQ; split; [done|split; [done|split; [done|congruence] ] ]| |done]. intros r s5 H5. repeat wp_step. by destruct r.
Qed.

(** ** Eight bands *)

Definition out_of_bounds (f : fault) : Prop := f = OutOfBounds.

Lemma filter_or_pass_same r s : wp out_of_bounds (filter_or_pass r) (fun _ s' => s' = s) (fun _ => False) s.
Proof. unfold filter_or_pass. destruct r as [ [b o]|]; [|done]. unfold lift, wp, bind. cbn. done. Qed.
(** A gain outside of the six is a write outside of the array. *)
Lemma store_gain_cases i v s : length (s_gain (cur_hpf s)) = HPF_S_GAIN_NUM -> 0 <= i ->
  wp out_of_bounds (store_gain i v) (fun _ s' => i < 6 /\ length (s_gain (cur_hpf s')) = HPF_S_GAIN_NUM /\ eq_band_num (cur_hpf s') = eq_band_num (cur_hpf s)) (fun _ => False) s.
Proof.
  intros Hg Hi. unfold store_gain. do 2 wp_step. wp_step. unfold wp at 1, lift. destruct (aset (s_gain (cur_hpf s)) i v) as [l|] eqn:El; [|done].
  wp_step. pose proof (aset_length _ _ _ _ El) as Hl. unfold aset in El. destruct (Z.leb_spec 0 i), (Z.ltb_spec i (Z.of_nat (length (s_gain (cur_hpf s))))); try discriminate El.
  cbn [cur_hpf set_hpf set_s_gain s_gain]. split; [rewrite Hg in *; unfold HPF_S_GAIN_NUM in *; lia|]. split; [congruence|done].
Qed.

Lemma band_filters_overflow rate n : forall i s, length (s_gain (cur_hpf s)) = HPF_S_GAIN_NUM -> 0 <= i <= 5 -> 6 <= i + Z.of_nat n ->
  wp out_of_bounds (band_filters n i rate) (fun _ _ => False) (fun _ => False) s.
Proof.
  induction n as [|n IH]; intros i s Hg Hi Hn; [lia|]. cbn [band_filters]. do 3 wp_step.
  unfold wp at 1, lift at 1. destruct (band_para (cur_hpf s) i) as [p|]; [|done]. wp_step.
  rewrite (proj2 (Z.ltb_lt i (Z.of_nat EQ_BAND_MAX))) by (unfold EQ_BAND_MAX; lia). do 2 wp_step.
  eapply wp_mono; [apply filter_or_pass_same| |done]. intros f s' ->. wp_step.
  eapply wp_mono; [apply store_gain_cases; [done|lia]| |done]. intros [] s1 (H6 & Hg1 & _). wp_step.
  eapply wp_mono; [apply IH; [done|lia|lia]| |done]. by intros.
Qed.
Lemma SetHpf_overflow rate s : length (s_gain (cur_hpf s)) = HPF_S_GAIN_NUM -> 6 <= eq_band_num (cur_hpf s) ->
  wp out_of_bounds (AUDENHA_SetHpf rate) (fun _ _ => False) (fun _ => False) s.
Proof.
  intros Hg Hn. unfold AUDENHA_SetHpf. do 2 wp_step. wp_step. eapply wp_mono; [apply filter_or_pass_same| |done]. intros f s' ->. wp_step.
  eapply wp_mono; [apply store_gain_cases; [done|lia]| |done]. intros [] s1 (_ & Hg1 & Hn1). do 2 wp_step. wp_step.
  eapply wp_mono; [apply band_filters_overflow; [done|lia|lia]| |done]. by intros.
Qed.

(** ** Properties *)

(** Setting a profile up to the filters: the parameters are taken, the
    registers are those of the buffer given. *)
Lemma SetPara_before p para_buf s Q E F : let s0 := set_vb (Vbc para_buf [] (hpf_is_need_disable (vb s))) s in
  profile_ok p -> hpf_wf (cur_hpf s) -> registers para_buf -> words para_buf ->
  (forall s1 s2, AUDENHA_GetPara p s0 = Ret AUDIO_NO_ERROR s1 -> cur_hpf s2 = cur_hpf s1 -> sound (vb s2) -> lcf_ok (lcf_para (cur_hpf s1)) -> hpf_wf (cur_hpf s1) ->
    s_gain (cur_hpf s1) = replicate HPF_S_GAIN_NUM 4096 -> eq_band_num (cur_hpf s1) = (if extended p then 8 else 5) ->
    ctl_bit (vb s2) VBDAHP_WID_SEL_SHIFT = true -> ctl_bit (vb s2) VBDAHP_EN_SHIFT = true ->
    wp F (AUDENHA_SetHpf DEFAULT_OUT_SAMPLING_RATE) (fun (r : bool) s' => Q (if r then AUDIO_NO_ERROR else AUDIO_ERROR) s') E s2) ->
  wp F (AUDENHA_SetPara p para_buf) Q E s.
Proof.
  intros s0 Hp Hw Hr Hb HQ. unfold AUDENHA_SetPara. do 3 wp_step. destruct (wp_total _ _ _ (GetPara_ok p s0 Hp Hw)) as (r & s1 & E1 & H1).
  unfold wp at 1. change (set_vb _ s) with s0. rewrite E1. destruct H1 as (-> & Hv & Hw1 & Hl & Hg & Hn & Hd & Ha). cbn [negb Z.eqb AUDIO_NO_ERROR]. wp_step.
  apply AUDENHA_Init_before; [rewrite Hv; by split|done|done|]. intros s2 (H2 & B1 & B2 & E2).
  eapply wp_mono; [by apply (HQ s1 s2)| |done]. intros b s3 H3. by destruct b.
Qed.

(** What the registers hold for a profile. *)
Record profile_in (h : HPF_CONTROL_PARAM_T) (l : list Z) : Prop := {
  profile_gains : forall i, 0 <= i < 6 -> reg l (HPCOEF (7 * i)) = u32 (s16 (gain_of (gains_of h DEFAULT_OUT_SAMPLING_RATE) i));
  profile_lcf : filter_regs l 0 = filter_words (lcf_of h DEFAULT_OUT_SAMPLING_RATE).2;
  profile_bands : forall i, 0 <= i < 5 -> filter_regs l (i + 1) = filter_words (band_of h DEFAULT_OUT_SAMPLING_RATE i).2;
  profile_clear : Z.testbit (reg l DAHPCTL) VBDAHP_REG_CLR_SHIFT = false;
  profile_width : Z.testbit (reg l DAHPCTL) VBDAHP_WID_SEL_SHIFT = true;
  profile_on : Z.testbit (reg l DAHPCTL) VBDAHP_EN_SHIFT = true
}.

Lemma bands_from_get h rate n : forall i k, 0 <= k < Z.of_nat n -> aget (bands_from h rate n i) k = Some (band_of h rate (i + k)).
Proof.
  induction n as [|n IH]; intros i k Hk; [lia|]. cbn [bands_from]. destruct (Z.eq_dec k 0) as [->|Hne]; [by rewrite Z.add_0_r|].
  change (band_of h rate i :: bands_from h rate n (i + 1)) with ([band_of h rate i] ++ bands_from h rate n (i + 1)).
  rewrite aget_app by lia. change (zlen [_]) with 1. rewrite (proj2 (Z.ltb_ge k 1)) by lia. rewrite IH by lia. do 2 f_equal. lia.
Qed.
Lemma aget_fmap {A B} (f : A -> B) (l : list A) i : aget (f <$> l) i = f <$> aget l i.
Proof. unfold aget. destruct (0 <=? i); [apply list_lookup_fmap|done]. Qed.


Lemma profile_hpf_ok h : lcf_ok (lcf_para h) -> hpf_wf h -> s_gain h = replicate HPF_S_GAIN_NUM 4096 -> eq_band_num h = 5 -> hpf_ok h.
Proof. intros Hl [_ _ W3 W4 W5] Hg Hn. split; [done|lia|by rewrite Hg|done..]. Qed.

(** C10: A profile is set. Assumed of the profile: the level of the volume is
    one of the entries of arm_volume, agc_input_gain has an entry and reserve
    at least 18 words; the two corners of the low-cut filter, reserve[3] and
    reserve[6], are not negative as 16-bit numbers (filter_calc.c:905 reads
    outside a table otherwise); the mode of the equaliser is 0 (off), 1 to 6
    or 15 (for 7 to 14 modes outside of the array are read,
    vbc_codec_eq.c:654); there are six modes, each with its eight bands, whose
    inputs are C integers within the types of the struct; the extended
    equaliser is not asked for (its eight bands overflow,
    eight_bands_overflow). The static variables have arrays of their sizes,
    inputs of the bands within their types and low-cut corners that are not
    negative, as they do from the start; the registers are in any state, and
    so is the buffer for them, which has its size. Then [AUDENHA_SetPara]
    computes all of the filters without undefined behaviour, reports success,
    and leaves the block on, in 24-bit width and no longer held clear, with
    the low-cut filter and the filters of the five bands of the profile in
    their registers, each with its gain; these gains are positive and these
    filters have no poles outside of the unit circle. *)
Theorem profile_set p para_buf s : profile_ok p -> hpf_wf (cur_hpf s) -> registers para_buf -> words para_buf -> extended p = false ->
  exists s1 s', AUDENHA_GetPara p (set_vb (Vbc para_buf [] (hpf_is_need_disable (vb s))) s) = Ret AUDIO_NO_ERROR s1 /\
    AUDENHA_SetPara p para_buf s = Ret AUDIO_NO_ERROR s' /\ profile_in (cur_hpf s1) (regs (vb s')) /\
    Forall filter_good (lcf_of (cur_hpf s1) DEFAULT_OUT_SAMPLING_RATE :: bands_of (cur_hpf s1) DEFAULT_OUT_SAMPLING_RATE) /\
    eq_band_num (cur_hpf s1) = 5 /\ cur_hpf s' = set_s_gain (gains_of (cur_hpf s1) DEFAULT_OUT_SAMPLING_RATE) (cur_hpf s1).
Proof.
  intros Hp Hw Hr Hb Hx.
  assert (H : wp no_fault (AUDENHA_SetPara p para_buf) (fun r s' => r = AUDIO_NO_ERROR /\
    exists s1, AUDENHA_GetPara p (set_vb (Vbc para_buf [] (hpf_is_need_disable (vb s))) s) = Ret AUDIO_NO_ERROR s1 /\ profile_in (cur_hpf s1) (regs (vb s')) /\
    Forall filter_good (lcf_of (cur_hpf s1) DEFAULT_OUT_SAMPLING_RATE :: bands_of (cur_hpf s1) DEFAULT_OUT_SAMPLING_RATE) /\
    eq_band_num (cur_hpf s1) = 5 /\ cur_hpf s' = set_s_gain (gains_of (cur_hpf s1) DEFAULT_OUT_SAMPLING_RATE) (cur_hpf s1)) (fun _ => False) s).
  2:{ destruct (wp_total _ _ _ H) as (r & s' & E & -> & s1 & H'). exists s1, s'. naive_solver. }
  apply SetPara_before; [done..|]. intros s0 s1 E0 E1 [Hs1 Hs2] Hl Hw1 Hg Hn B1 B2. rewrite Hx in Hn. pose proof (profile_hpf_ok _ Hl Hw1 Hg Hn) as Hh. rewrite <- E1 in Hh.
  unfold wp. destruct (AUDENHA_SetHpf_ok s1 DEFAULT_OUT_SAMPLING_RATE Hh Hs1 ltac:(unfold DEFAULT_OUT_SAMPLING_RATE; lia)) as [E Hgood]. rewrite E.
  split; [done|]. exists s0. rewrite <- E1 in *. split; [done|]. split; [|done]. cbn [vb set_vb after regs].
  set (h := cur_hpf s1) in *. set (fs := snd <$> bands_of h DEFAULT_OUT_SAMPLING_RATE).
  assert (Hlen : length fs = 5%nat) by (unfold fs, bands_of; rewrite length_fmap, bands_from_length, Hn; done).
  destruct (change_installed (regs (vb s1)) (lcf_of h DEFAULT_OUT_SAMPLING_RATE).2 fs (gains_of h DEFAULT_OUT_SAMPLING_RATE) Hs1 Hs2 ltac:(lia)) as [I1 I2 I3 I4 I5].
  split; [exact I1|by apply I2| | | |].
  - intros i Hi. apply I2.
    change ((lcf_of h DEFAULT_OUT_SAMPLING_RATE).2 :: fs) with ([(lcf_of h DEFAULT_OUT_SAMPLING_RATE).2] ++ fs). rewrite aget_app by lia.
    change (zlen [_]) with 1. rewrite (proj2 (Z.ltb_ge (i + 1) 1)) by lia. replace (i + 1 - 1) with i by lia. unfold fs, bands_of.
    rewrite aget_fmap, bands_from_get by (rewrite Hn; lia). done.
  - rewrite I4 by done. apply andb_false_r.
  - rewrite I4 by done. by rewrite andb_true_r.
  - rewrite I4 by done. by rewrite andb_true_r.
Qed.

(** A profile that asks for the extended equaliser of eight bands is never
    set: the gain of the sixth band is written beyond the array of the six
    gains, whatever the profile and the registers hold. *)
Theorem eight_bands_overflow p para_buf s : profile_ok p -> hpf_wf (cur_hpf s) -> registers para_buf -> words para_buf -> extended p = true ->
  AUDENHA_SetPara p para_buf s = Bad OutOfBounds.
Proof.
  intros Hp Hw Hr Hb Hx. assert (H : wp out_of_bounds (AUDENHA_SetPara p para_buf) (fun _ _ => False) (fun _ => False) s).
  2:{ unfold wp in H. destruct (AUDENHA_SetPara p para_buf s); [done|done|]. by rewrite H. }
  apply SetPara_before; [done..|]. intros s0 s1 _ E1 Hs1 Hl Hw1 Hg Hn _ _. rewrite Hx in Hn. rewrite <- E1 in *.
  eapply wp_mono; [apply SetHpf_overflow; [by rewrite Hg|lia]| |done]. by intros.
Qed.

(** ** Witnesses *)

(** The static variables at the start, and a headset profile with the bands of
    its third mode. *)
Definition audio_init : audio :=
  Audio (0, 0) (0, 0) (Alc false 0 0 (replicate 11 0))
    (Hpf 0 0 (replicate HPF_S_GAIN_NUM 0) (Lcf_para false FILTER_LCFPARA_F1F1 0 0 0 0 0 0) 0 false false
         (replicate EQ_BAND_MAX false) (replicate EQ_BAND_MAX (Band 0 0 0 0))) 0 (Vbc vbc_reg_default [] 0).
Definition sample_mode : EQ_MODE_PARA_T :=
  Mode 4096 0x7C00 [Band 100 512 60 0; Band 400 512 (-30) 0; Band 1000 512 120 0; Band 3500 512 0 0; Band 9000 700 45 0; Band 0 0 0 0; Band 0 0 0 0; Band 0 0 0 0].
Definition sample_profile (eq_control : Z) : AUDIO_TOTAL_T :=
  Total (Enha eq_control (replicate EQ_MODE_MAX sample_mode))
    (Arm name_headset (0, 1) 3 [4096] 2 [0; 0; 0x00100000] (replicate 1 0 ++ [-200; 0; 150; 0; 0; 0] ++ replicate 20 0)).

Lemma sample_profile_ok eq_control : profile_ok (sample_profile eq_control).
Proof.
  split; [done|done|done| | |left; done|done|].
  - intros x [= <-]. by vm_compute.
  - intros x [= <-]. by vm_compute.
  - cbn [audio_enha_eq sample_profile eq_modes]. apply Forall_replicate. split; [done|].
    cbn [eq_band sample_mode]. repeat (apply Forall_cons_2; [by repeat split|]). exact (Forall_nil_2 _).
Qed.
Lemma audio_init_wf : hpf_wf (cur_hpf audio_init).
Proof. split; [done|done|done|done|]. apply Forall_replicate. by repeat split. Qed.
Lemma default_words : words vbc_reg_default.
Proof.
  apply Forall_app. split; [|by apply Forall_replicate].
  repeat (apply Forall_cons_2; [done|]). exact (Forall_nil_2 _).
Qed.

Lemma profile_set_witness : exists s1 s', AUDENHA_SetPara (sample_profile 0) vbc_reg_default audio_init = Ret AUDIO_NO_ERROR s' /\
  profile_in (cur_hpf s1) (regs (vb s')).
Proof.
  destruct (profile_set (sample_profile 0) vbc_reg_default audio_init (sample_profile_ok 0) audio_init_wf) as (s1 & s' & _ & E & H & _); [reflexivity|exact default_words|reflexivity|].
  exists s1, s'. split; [exact E|exact H].
Defined.

Lemma eight_bands_overflow_witness : AUDENHA_SetPara (sample_profile 0x8000) vbc_reg_default audio_init = Bad OutOfBounds.
Proof.
  apply (eight_bands_overflow (sample_profile 0x8000) vbc_reg_default audio_init (sample_profile_ok 0x8000) audio_init_wf); [reflexivity|exact default_words|reflexivity].
Defined.
