(* ===== verification/AudioGain.v ===== *)
(** * The digital gain

    vb_hal_adp.c, VB_SetDG: the two gains of seven bits share one register
    with their switches; what becomes of the other bits. *)
From stdpp Require Import base list.
From Stdlib Require Import ZArith Lia.
From S2P Require Import Prelude AudioRegs AudioRegsProofs AudioEq.

(** The gain as it is stored. *)
Definition clamped (v : Z) : Z := Z.max (-64) (Z.min 63 v).

Lemma s16_id v : -32768 <= v < 32768 -> s16 v = v.
Proof. intros H. unfold s16, swrap. change (2 ^ (16 - 1)) with 32768. change (2 ^ 16) with 65536. rewrite Z.mod_small by lia. lia. Qed.
Lemma clamp_spec v : (let dg := if v >? 63 then 63 else v in if dg <? -64 then -64 else dg) = clamped v.
Proof. unfold clamped. cbv zeta. destruct (Z.gtb_spec v 63); [|destruct (Z.ltb_spec v (-64)); lia]. cbn. lia. Qed.

(** The bits from the seventh on are the sign. *)
Lemma clamped_sign v i : 7 <= i -> Z.testbit (clamped v) i = (v <? 0).
Proof.
  intros Hi. pose proof (Z.div_small (clamped v) (2 ^ i)) as Hs. rewrite Z.testbit_eqb by lia.
  assert (Hp : 128 <= 2 ^ i) by (change 128 with (2 ^ 7); apply Z.pow_le_mono_r; lia).
  destruct (Z.ltb_spec v 0).
  - assert (E : clamped v / 2 ^ i = -1) by (symmetry; apply (Z.div_unique _ _ _ (clamped v + 2 ^ i)); unfold clamped; lia). by rewrite E.
  - rewrite Hs by (unfold clamped; lia). done.
Qed.

(** The bits of a field of seven bits at [n], into which a gain is written. *)
Definition dg_bits (n : Z) (x v i : Z) : bool :=
  if i <? n then Z.testbit x i else if i <? n + 7 then Z.testbit (clamped v) (i - n) else Z.testbit x i || (v <? 0).

Lemma dg_field x n v i : 0 <= n -> 0 <= i < 32 ->
  Z.testbit (u32 (Z.lor (u32 (Z.land x (Z.lnot (0x7f * 2 ^ n)))) (clamped v * 2 ^ n))) i = dg_bits n x v i.
Proof.
  intros Hn Hi. unfold u32, wrap. rewrite Z.mod_pow2_bits_low, Z.lor_spec, Z.mod_pow2_bits_low, Z.land_spec, Z.lnot_spec by lia.
  change 0x7f with (Z.ones 7). unfold dg_bits. destruct (Z.ltb_spec i n).
  - rewrite !Z.mul_pow2_bits_low by lia. by rewrite andb_true_r, orb_false_r.
  - rewrite !Z.mul_pow2_bits by lia. destruct (Z.ltb_spec i (n + 7)).
    + rewrite Z.ones_spec_low by lia. by rewrite andb_false_r.
    + rewrite Z.ones_spec_high by lia. rewrite andb_true_r, clamped_sign by lia. done.
Qed.

Lemma VB_SetDG_logs n v s : registers (regs s) -> -32768 <= v < 32768 -> forall i, i = 0 /\ n = 0 \/ i = 1 /\ n = 8 ->
  exists w, logs (VB_SetDG i v) s w /\ Forall (fun p => p.1 = DADGCTL) w /\
    forall k, 0 <= k < 32 -> Z.testbit (reg (replay (regs s) w) DADGCTL) k = dg_bits n (reg (regs s) DADGCTL) v k.
Proof.
  intros Hs Hv i Hi. unfold VB_SetDG. rewrite (s16_id v Hv). cbv zeta. pose proof (clamp_spec v) as E. cbv zeta in E. rewrite E. clear E.
  set (c := clamped v * 2 ^ n). set (x := reg (regs s) DADGCTL). set (y := u32 (Z.land x (Z.lnot (0x7f * 2 ^ n)))).
  exists [(DADGCTL, y); (DADGCTL, u32 (Z.lor y c))].
  assert (H : logs (reg_clear DADGCTL (0x7f * 2 ^ n) ;;; reg_or DADGCTL c) s [(DADGCTL, y); (DADGCTL, u32 (Z.lor y c))]).
  { apply (logs_bind _ _ _ [(DADGCTL, y)]); [by apply reg_clear_logs|].
    assert (Hs1 : registers (regs (after s [(DADGCTL, y)]))) by by apply replay_registers.
    assert (Ey : y = reg (regs (after s [(DADGCTL, y)])) DADGCTL) by (cbn [after regs]; by rewrite reg_after by (done || by repeat constructor)).
    rewrite Ey at 2. by apply reg_or_logs. }
  split; [destruct Hi as [ [-> ->]|[-> ->] ]; exact H|]. split; [by repeat constructor|].
  intros k Hk. rewrite reg_after by (done || by repeat constructor). cbn [last_write]. change (DADGCTL =? DADGCTL) with true. cbn [default from_option id].
  apply dg_field; lia.
Qed.

(** Other registers. *)
Lemma reg_elsewhere l w r : registers l -> Forall (fun p : Z * Z => p.1 = DADGCTL) w -> 0 <= r < 61 -> r <> DADGCTL -> reg (replay l w) r = reg l r.
Proof.
  intros Hl Hw Hr Hne. change (replay l w) with (replay (regs (Vbc l [] 0)) w). rewrite reg_after; [|done| |done].
  - rewrite last_write_None; [done|]. eapply Forall_impl; [exact Hw|]. intros p ->. done.
  - eapply Forall_impl; [exact Hw|]. intros p ->. done.
Qed.

(** Setting the digital gains, left and then right: the right gain, between
    -64 and 63, is in bits 0 to 6 and no register but that of the gains
    changes. If the right gain is not negative, the left gain is in bits 8 to
    14, and the switches in bits 7 and 15 are as they were, but that a negative
    left gain turns the left one on. A negative right gain is shifted in with
    its sign: it turns on both switches and makes every bit of the left gain
    one, whatever the left gain was to be. *)
Theorem digital_gain s left right : registers (regs (vb s)) -> cur_dg s = (left, right) -> -32768 <= left < 32768 -> -32768 <= right < 32768 ->
  exists s', AUDENHA_SetDigiGain s = Ret true s' /\
    (forall k, 0 <= k < 32 -> Z.testbit (reg (regs (vb s')) DADGCTL) k =
       if k <? 7 then Z.testbit (clamped right) k else dg_bits 8 (reg (regs (vb s)) DADGCTL) left k || (right <? 0)) /\
    (right < 0 -> forall k, 7 <= k < 32 -> Z.testbit (reg (regs (vb s')) DADGCTL) k = true) /\
    (forall r, 0 <= r < 61 -> r <> DADGCTL -> reg (regs (vb s')) r = reg (regs (vb s)) r).
Proof.
  intros Hs E Hl Hr. unfold AUDENHA_SetDigiGain, bind at 1, get. rewrite E. cbn [fst snd].
  destruct (VB_SetDG_logs 8 left (vb s) Hs Hl VBC_DA_LEFT) as (w1 & L1 & F1 & B1); [by right|].
  assert (Hs1 : registers (regs (after (vb s) w1))) by by apply replay_registers.
  destruct (VB_SetDG_logs 0 right (after (vb s) w1) Hs1 Hr VBC_DA_RIGHT) as (w2 & L2 & F2 & B2); [by left|].
  pose proof (logs_bind _ _ _ _ _ L1 L2) as L. unfold on_vb, zoom, bind at 1. rewrite L. eexists. split; [reflexivity|].
  cbn [vb set_vb after regs] in *. rewrite replay_app.
  assert (H : forall k, 0 <= k < 32 -> Z.testbit (reg (replay (replay (regs (vb s)) w1) w2) DADGCTL) k =
    if k <? 7 then Z.testbit (clamped right) k else dg_bits 8 (reg (regs (vb s)) DADGCTL) left k || (right <? 0)).
  { intros k Hk. rewrite B2 by done. unfold dg_bits at 1. rewrite (proj2 (Z.ltb_ge k 0)) by lia. rewrite Z.add_0_l, Z.sub_0_r. by rewrite B1. }
  split; [exact H|]. split.
  - intros Hneg k Hk. rewrite H by lia. rewrite (proj2 (Z.ltb_ge k 7)), (proj2 (Z.ltb_lt right 0)) by lia. apply orb_true_r.
  - intros r Hr0 Hne. rewrite !reg_elsewhere by (done || by apply replay_registers). done.
Qed.

Definition loud : audio :=
  Audio (16, -5) (0, 0) (Alc false 0 0 []) (Hpf 0 0 [] (AudioFilter.Lcf_para false AudioFilter.FILTER_LCFPARA_F1F1 0 0 0 0 0 0) 0 false false [] []) 0 (Vbc vbc_reg_default [] 0).
Lemma digital_gain_witness : exists s', AUDENHA_SetDigiGain loud = Ret true s' /\ forall k, 7 <= k < 32 -> Z.testbit (reg (regs (vb s')) DADGCTL) k = true.
Proof.
  destruct (digital_gain loud 16 (-5) eq_refl eq_refl) as (s' & E & _ & H & _); [lia|lia|].
  exists s'. split; [exact E|]. apply H. lia.
Defined.
