(* ===== verification/EngTok.v ===== *)
(** * The tokens of AT responses

    src/common/apps/engineeringmodel/engcs/eng_attok.c: a response is a string
    in a buffer; the tokens are cut out of it in place. Memory is the buffer,
    a pointer into it is an index, and NULL is [None]. *)
From stdpp Require Import base list.
From Stdlib Require Import ZArith Lia String Ascii.
From S2P Require Import Prelude.

(** ** Definitions *)

(** *** Strings *)

Fixpoint str (s : string) : list Z :=
  match s with
  | EmptyString => []
  | String c s => Z.of_nat (nat_of_ascii c) :: str s
  end.

(** The distance to the first character that [p] holds of; [None] beyond the
    end of the memory. *)
Fixpoint scan (p : Z -> bool) (l : list Z) : option Z :=
  match l with
  | [] => None
  | c :: l => if p c then Some 0 else n ← scan p l; Some (n + 1)
  end.
Definition from (buf : list Z) (i : Z) : list Z := drop (Z.to_nat i) buf.

(** The string at a pointer, without its NUL. *)
Definition cstring (buf : list Z) (i : Z) : option (list Z) :=
  n ← scan (Z.eqb 0) (from buf i); Some (take (Z.to_nat n) (from buf i)).

(** *** The libc's part *)

Definition isspace (c : Z) : bool := (c =? 32) || ((9 <=? c) && (c <=? 13)).
Definition isdigit (c : Z) : bool := (48 <=? c) && (c <=? 57).
Definition xdigit (c : Z) : option Z :=
  if isdigit c then Some (c - 48)
  else if (65 <=? c) && (c <=? 70) then Some (c - 55)
  else if (97 <=? c) && (c <=? 102) then Some (c - 87)
  else None.

Fixpoint skip_spaces (s : list Z) : list Z :=
  match s with
  | c :: s' => if isspace c then skip_spaces s' else s
  | [] => []
  end.
(** The sign: whether it is a minus, and the rest. *)
Definition sign (s : list Z) : bool * list Z :=
  match s with
  | c :: s' => if c =? 45 then (true, s') else if c =? 43 then (false, s') else (false, s)
  | [] => (false, [])
  end.

(** The digits at the front of [s], after those with the value [acc]; [None]
    is no digit at all. *)
Fixpoint digits (base : Z) (s : list Z) (acc : option Z) : option Z :=
  match s with
  | c :: s' =>
      match xdigit c with
      | Some d => if d <? base then digits base s' (Some (default 0 acc * base + d)) else acc
      | None => acc
      end
  | [] => acc
  end.

(** [strtol(s, &end, 10)]: [None] when no digit is there ([end == s]). *)
Definition strtol10 (s : list Z) : option Z :=
  let '(neg, s) := sign (skip_spaces s) in
  v ← digits 10 s None;
  Some (if neg : bool then Z.max (- 2 ^ 31) (- v) else Z.min (2 ^ 31 - 1) v).

(** [strtoul(s, &end, 16)], converted to a [long] of 32 bits. *)
Definition strip_0x (s : list Z) : list Z :=
  match s with
  | 48 :: x :: d :: s' => if ((x =? 120) || (x =? 88)) && match xdigit d with Some _ => true | None => false end then d :: s' else s
  | _ => s
  end.
Definition strtoul16 (s : list Z) : option Z :=
  let '(neg, s) := sign (skip_spaces s) in
  v ← digits 16 (strip_0x s) None;
  Some (s32 (if v >? 2 ^ 32 - 1 then 2 ^ 32 - 1 else if neg : bool then - v else v)).

Definition digit (d : Z) : Z := if d <? 10 then 48 + d else 87 + d.
(** [printf] of a number: the digits of [v]; ten are enough for 32 bits. *)
Fixpoint print_base (fuel : nat) (base v : Z) : list Z :=
  match fuel with
  | O => []
  | S fuel => if v <? base then [digit v] else print_base fuel base (v / base) ++ [digit (v mod base)]
  end.
Definition print_int (v : Z) : list Z := if v <? 0 then 45 :: print_base 10 10 (- v) else print_base 10 10 v.
Definition print_hex (v : Z) : list Z := print_base 8 16 (u32 v).

(** *** The tokens *)

(** The buffer, and [*p_cur]. *)
Record tok := Tok { tbuf : list Z; tcur : option Z }.
Definition set_cur (c : option Z) : M tok unit := modify (fun t => Tok (tbuf t) c).

(** [strchr(p, c)]: [None] is NULL. *)
Definition strchr (buf : list Z) (p c : Z) : option (option Z) :=
  n ← scan (fun x => (x =? 0) || (x =? c)) (from buf p);
  x ← aget buf (p + n);
  Some (if x =? c then Some (p + n) else None).

Definition at_tok_start : M tok Z :=
  t <- get ;;
  match tcur t with
  | None => ret (-1)
  | Some p =>
      r <- lift OutOfBounds (strchr (tbuf t) p 58) ;;
      match r with
      | None => set_cur None ;;; ret (-1)
      | Some q => set_cur (Some (q + 1)) ;;; ret 0
      end
  end.

Definition skipWhiteSpace : M tok unit :=
  t <- get ;;
  match tcur t with
  | None => ret tt
  | Some p =>
      n <- lift OutOfBounds (scan (fun c => (c =? 0) || negb (isspace c)) (from (tbuf t) p)) ;;
      set_cur (Some (p + n))
  end.

Definition skipNextComma : M tok unit :=
  t <- get ;;
  match tcur t with
  | None => ret tt
  | Some p =>
      n <- lift OutOfBounds (scan (fun c => (c =? 0) || (c =? 44)) (from (tbuf t) p)) ;;
      c <- lift OutOfBounds (aget (tbuf t) (p + n)) ;;
      set_cur (Some (if c =? 44 then p + n + 1 else p + n))
  end.

(** [strsep(p_cur, delim)] for one delimiter. *)
Definition strsep (delim : Z) : M tok (option Z) :=
  t <- get ;;
  match tcur t with
  | None => ret None
  | Some p =>
      n <- lift OutOfBounds (scan (fun c => (c =? 0) || (c =? delim)) (from (tbuf t) p)) ;;
      c <- lift OutOfBounds (aget (tbuf t) (p + n)) ;;
      (if c =? 0 then set_cur None else
         b <- lift OutOfBounds (aset (tbuf t) (p + n) 0) ;;
         modify (fun _ => Tok b (Some (p + n + 1)))) ;;;
      ret (Some p)
  end.

Definition nextTok : M tok (option Z) :=
  skipWhiteSpace ;;;
  t <- get ;;
  match tcur t with
  | None => ret None
  | Some p =>
      c <- lift OutOfBounds (aget (tbuf t) p) ;;
      if c =? 34 then
        set_cur (Some (p + 1)) ;;;
        r <- strsep 34 ;;
        skipNextComma ;;;
        ret r
      else strsep 44
  end.

(** The result, and what is stored through [p_out], if anything. *)
Definition at_tok_nextint_base (base : Z) (uns : bool) : M tok (Z * option Z) :=
  t <- get ;;
  match tcur t with
  | None => ret (-1, None)
  | Some _ =>
      r <- nextTok ;;
      match r with
      | None => ret (-1, None)
      | Some p =>
          t <- get ;;
          s <- lift OutOfBounds (cstring (tbuf t) p) ;;
          let l := if uns then strtoul16 s else strtol10 s in
          ret (match l with Some v => 0 | None => -1 end, Some (default 0 l))
      end
  end.
Definition at_tok_nextint : M tok (Z * option Z) := at_tok_nextint_base 10 false.
Definition at_tok_nexthexint : M tok (Z * option Z) := at_tok_nextint_base 16 true.

Definition at_tok_nextbool : M tok (Z * option Z) :=
  r <- at_tok_nextint ;;
  if r.1 <? 0 then ret (-1, None) else
  result <- lift Uninitialised r.2 ;;
  if negb ((result =? 0) || (result =? 1)) then ret (-1, None) else
  ret (r.1, Some result).

(** [None] in the second place: nothing is stored through [p_out]. *)
Definition at_tok_nextstr : M tok (Z * option (option Z)) :=
  t <- get ;;
  match tcur t with
  | None => ret (-1, None)
  | Some _ => p <- nextTok ;; ret (0, Some p)
  end.

Definition at_tok_hasmore : M tok bool :=
  t <- get ;;
  match tcur t with
  | None => ret false
  | Some p => c <- lift OutOfBounds (aget (tbuf t) p) ;; ret (negb (c =? 0))
  end.

(** [+SPPSRATE: 1,-20, 300] *)
Example tokens : match (at_tok_start ;;; a <- at_tok_nextint ;; b <- at_tok_nextint ;; c <- at_tok_nextint ;; ret (a, b, c))
    (Tok (str "+SPPSRATE: 1,-20, 300" ++ [0]) (Some 0)) with
  | Ret r t => r = ((0, Some 1), (0, Some (-20)), (0, Some 300)) /\ tcur t = None
  | _ => False
  end.
Proof. vm_compute. done. Qed.
