(* ===== verification/EngTokProofs.v ===== *)
(** * What the tokens are

    The theorems on EngTok.v. The tokens are cut out of the buffer in place;
    the reference works on the text that is left, as a list, and writes
    nothing. On every string that ends in the buffer the functions do nothing
    undefined and do what the reference does; what they return stays as it is
    while the tokens after it are cut. *)
From stdpp Require Import base list.
From Stdlib Require Import ZArith Lia.
From Stdlib Require Import (notations) String.
From S2P Require Import Prelude EngTok.

(** ** The reference *)

(** What is in front of the first character that [P] holds of, and the rest. *)
Fixpoint until (P : Z -> bool) (s : list Z) : list Z :=
  match s with
  | [] => []
  | c :: s' => if P c then [] else c :: until P s'
  end.
Fixpoint since (P : Z -> bool) (s : list Z) : list Z :=
  match s with
  | [] => []
  | c :: s' => if P c then s else since P s'
  end.
(** The text after the character that a search ends at, if there is one. *)
Definition after (s : list Z) : option (list Z) := match s with [] => None | _ :: s' => Some s' end.

Definition cut (d : Z) (s : list Z) : list Z * option (list Z) := (until (Z.eqb d) s, after (since (Z.eqb d) s)).
Definition skip_comma (s : list Z) : list Z := default [] (after (since (Z.eqb 44) s)).
Definition blank (c : Z) : bool := negb (isspace c).

(** The next token of a text, and the text after it. *)
Definition next_token (s : list Z) : list Z * option (list Z) :=
  match since blank s with
  | [] => ([], None)
  | c :: s' => if c =? 34 then ((cut 34 s').1, skip_comma <$> (cut 34 s').2) else cut 44 (c :: s')
  end.

Definition number (base : Z) (uns : bool) (w : list Z) : Z * option Z :=
  let v := if uns then strtoul16 w else strtol10 w in
  (match v with Some _ => 0 | None => -1 end, Some (default 0 v)).

(** ** Strings in the buffer *)

Definition no0 (s : list Z) : Prop := Forall (fun c => c <> 0) s.
Definition text_at (buf : list Z) (p : Z) (s : list Z) : Prop :=
  no0 s /\ exists pre post, buf = pre ++ s ++ 0 :: post /\ zlen pre = p.

Lemma until_since P s : until P s ++ since P s = s.
Proof. induction s as [|c s IH]; [done|]. cbn [until since]. destruct (P c); [done|]. cbn [app]. by f_equal. Qed.
Lemma no0_split P s : no0 s -> no0 (until P s) /\ no0 (since P s).
Proof. intros H. rewrite <- (until_since P s) in H. by apply Forall_app in H. Qed.
Lemma since_head P s c s' : since P s = c :: s' -> P c = true.
Proof. induction s as [|x s IH]; [done|]. cbn [since]. destruct (P x) eqn:E; [by intros [= -> ->]|done]. Qed.
Lemma no0_after s s' : no0 s -> after s = Some s' -> no0 s'.
Proof. destruct s as [|c s]; [done|]. intros H [= <-]. by apply Forall_cons in H as [_ H]. Qed.

Lemma from_app pre s : from (pre ++ s) (zlen pre) = s.
Proof. unfold from, zlen. rewrite Nat2Z.id. by rewrite drop_app_length. Qed.

(** A search that the NUL ends. *)
Lemma scan_until P s post : no0 s -> scan (fun c => (c =? 0) || P c) (s ++ 0 :: post) = Some (zlen (until P s)).
Proof.
  intros H. induction H as [|c s Hc H IH]; [done|]. cbn [app scan until]. destruct (Z.eqb_spec c 0) as [->|_]; [done|]. cbn [orb].
  destruct (P c); [done|]. rewrite IH, obind_Some, zlen_cons. f_equal. lia.
Qed.
Lemma scan_ext P Q l : (forall c, P c = Q c) -> scan P l = scan Q l.
Proof. intros H. induction l as [|c l IH]; [done|]. cbn [scan]. by rewrite H, IH. Qed.
Lemma until_none s : until (fun _ => false) s = s.
Proof. induction s as [|c s IH]; [done|]. cbn [until]. by f_equal. Qed.
Lemma until_ext P Q s : (forall c, P c = Q c) -> until P s = until Q s /\ since P s = since Q s.
Proof. intros H. induction s as [|c s [IH1 IH2] ]; [done|]. cbn [until since]. by rewrite H, IH1, IH2. Qed.

Section At.
Context (buf : list Z) (p : Z) (s : list Z) (H : text_at buf p s).

Lemma text_range : 0 <= p /\ p + zlen s < zlen buf.
Proof. destruct H as (_ & pre & post & -> & <-). autorewrite with cbits. pose proof (zlen_nonneg pre). pose proof (zlen_nonneg post). lia. Qed.

Lemma text_scan P Q : (forall c, Q c = (c =? 0) || P c) -> scan Q (from buf p) = Some (zlen (until P s)).
Proof. intros E. destruct H as (H0 & pre & post & -> & <-). rewrite from_app, (scan_ext _ _ _ E). by apply scan_until. Qed.

Lemma text_cstring : cstring buf p = Some s.
Proof.
  unfold cstring. rewrite (text_scan (fun _ => false)) by (intros c; rewrite orb_false_r; apply Z.eqb_sym).
  rewrite obind_Some, until_none. destruct H as (H0 & pre & post & -> & <-). rewrite from_app. unfold zlen. rewrite Nat2Z.id. f_equal. by rewrite take_app_length.
Qed.

(** The character that a search ends at. *)
Lemma text_char P : aget buf (p + zlen (until P s)) = Some (match since P s with [] => 0 | c :: _ => c end).
Proof.
  destruct H as (H0 & pre & post & -> & <-). rewrite <- (until_since P s) at 1. rewrite <- !app_assoc.
  pose proof (zlen_nonneg pre). pose proof (zlen_nonneg (until P s)).
  rewrite aget_app by lia. rewrite (proj2 (Z.ltb_ge _ _)) by lia. rewrite aget_app by lia. rewrite (proj2 (Z.ltb_ge _ _)) by lia.
  replace (zlen pre + zlen (until P s) - zlen pre - zlen (until P s)) with 0 by lia. by destruct (since P s).
Qed.

Lemma text_since P : text_at buf (p + zlen (until P s)) (since P s).
Proof.
  destruct H as (H0 & pre & post & E & <-). split; [by apply no0_split|]. exists (pre ++ until P s), post. rewrite zlen_app. split; [|done].
  rewrite E, <- app_assoc, (app_assoc (until P s)), until_since. done.
Qed.
Lemma text_tail c s' : s = c :: s' -> text_at buf (p + 1) s'.
Proof.
  intros ->. destruct H as (H0 & pre & post & E & <-). apply Forall_cons in H0 as [_ H0]. split; [done|]. exists (pre ++ [c]), post.
  rewrite zlen_app. split; [|done]. by rewrite E, <- app_assoc.
Qed.

End At.

(** The first character of a text. *)
Lemma text_first buf p s : text_at buf p s -> aget buf p = Some (match s with [] => 0 | c :: _ => c end).
Proof.
  intros H. pose proof (text_char _ _ _ H (fun _ => true)) as E. replace (until (fun _ => true) s) with (@nil Z) in E by by destruct s.
  change (zlen (@nil Z)) with 0 in E. rewrite Z.add_0_r in E. rewrite E. by destruct s.
Qed.

(** ** What the functions keep *)

(** Everything in front of this is done with. *)
Definition pos (t : tok) : Z := match tcur t with Some p => p | None => zlen (tbuf t) end.
Definition cuts (t t' : tok) : Prop :=
  zlen (tbuf t') = zlen (tbuf t) /\ pos t <= pos t' /\ forall i, i < pos t -> aget (tbuf t') i = aget (tbuf t) i.
(** The text that is left. *)
Definition left_ (t : tok) (v : option (list Z)) : Prop :=
  match v with Some s => exists p, tcur t = Some p /\ text_at (tbuf t) p s | None => tcur t = None end.
(** A string that nothing writes to any more. *)
Definition held (t : tok) (p : Z) (s : list Z) : Prop := text_at (tbuf t) p s /\ p + zlen s < pos t.

Lemma cuts_trans t1 t2 t3 : cuts t1 t2 -> cuts t2 t3 -> cuts t1 t3.
Proof. intros (L1 & P1 & E1) (L2 & P2 & E2). split; [congruence|]. split; [lia|]. intros i Hi. rewrite E2 by lia. by apply E1. Qed.
Lemma cuts_forward t c : pos t <= pos (Tok (tbuf t) c) -> cuts t (Tok (tbuf t) c).
Proof. done. Qed.

Lemma text_at_spec buf p s : text_at buf p s <->
  no0 s /\ 0 <= p /\ (forall k c, s !! k = Some c -> aget buf (p + Z.of_nat k) = Some c) /\ aget buf (p + zlen s) = Some 0.
Proof.
  split.
  - intros H. destruct (text_range _ _ _ H) as [Hp _]. destruct H as (H0 & pre & post & -> & <-). pose proof (zlen_nonneg pre). pose proof (zlen_nonneg s).
    split; [done|]. split; [done|]. split.
    + intros k c Hk. rewrite aget_app by lia. rewrite (proj2 (Z.ltb_ge _ _)) by lia. replace (zlen pre + Z.of_nat k - zlen pre) with (Z.of_nat k) by lia.
      rewrite aget_nat, lookup_app_l; [done|]. by apply lookup_lt_Some in Hk.
    + rewrite aget_app by lia. rewrite (proj2 (Z.ltb_ge _ _)) by lia. rewrite aget_app by lia. rewrite (proj2 (Z.ltb_ge _ _)) by lia.
      by replace (zlen pre + zlen s - zlen pre - zlen s) with 0 by lia.
  - intros (H0 & Hp & Hs & Hz). split; [done|]. pose proof (aget_range _ _ _ Hz) as Hr. pose proof (zlen_nonneg s).
    exists (take (Z.to_nat p) buf), (drop (Z.to_nat (p + zlen s + 1)) buf). unfold zlen in Hr. split; [|unfold zlen; rewrite length_take; lia].
    apply aget_ext. intros i. destruct (Z.ltb_spec i 0); [by rewrite !aget_None by lia|]. rewrite aget_app by lia.
    assert (El : zlen (take (Z.to_nat p) buf) = p) by (unfold zlen in *; rewrite length_take; lia). rewrite El.
    destruct (Z.ltb_spec i p).
    { unfold aget. rewrite (proj2 (Z.leb_le 0 i)) by lia. by rewrite lookup_take_lt by lia. }
    rewrite aget_app by lia. destruct (Z.ltb_spec (i - p) (zlen s)) as [Hi|Hi].
    + destruct (aget_is_Some s (i - p)) as [c Ec]; [lia|]. rewrite Ec. apply aget_Some in Ec as [_ Ec].
      rewrite <- (Hs _ _ Ec). f_equal. lia.
    + destruct (Z.eq_dec i (p + zlen s)) as [->|Hne].
      { rewrite Hz. by replace (p + zlen s - p - zlen s) with 0 by lia. }
      unfold aget. rewrite (proj2 (Z.leb_le 0 i)), (proj2 (Z.leb_le 0 (i - p - zlen s))) by lia.
      replace (Z.to_nat (i - p - zlen s)) with (S (Z.to_nat (i - (p + zlen s + 1)))) by lia. 
      transitivity (drop (Z.to_nat (p + zlen s + 1)) buf !! Z.to_nat (i - (p + zlen s + 1))); [rewrite lookup_drop; f_equal; lia|done].
Qed.

Lemma held_cuts t t' p s : held t p s -> cuts t t' -> held t' p s.
Proof.
  intros [Ht Hp] (L & P & E). split; [|lia]. apply text_at_spec in Ht as (H0 & H1 & Hs & Hz). apply text_at_spec. split; [done|]. split; [done|]. split.
  - intros k c Hk. rewrite E; [by apply Hs|]. apply lookup_lt_Some in Hk. unfold zlen in Hp. lia.
  - rewrite E by lia. done.
Qed.

(** Two functions have the same state when one ends where the other starts. *)
Lemma set_cur_spec c t : set_cur c t = Ret tt (Tok (tbuf t) c).
Proof. done. Qed.

Lemma skipWhiteSpace_ref t s : left_ t (Some s) ->
  exists t', skipWhiteSpace t = Ret tt t' /\ cuts t t' /\ left_ t' (Some (since blank s)).
Proof.
  intros (p & Ep & Ht). eexists. unfold skipWhiteSpace. rewrite (bind_Ret get _ t t t) by done. rewrite Ep.
  erewrite bind_Ret by (unfold lift; rewrite (text_scan _ _ _ Ht blank) by done; done). rewrite set_cur_spec. split; [done|].
  pose proof (zlen_nonneg (until blank s)). split.
  - apply cuts_forward. unfold pos. rewrite Ep. cbn. lia.
  - eexists. split; [done|]. by apply text_since.
Qed.

Lemma skipNextComma_ref t s : left_ t (Some s) ->
  exists t', skipNextComma t = Ret tt t' /\ cuts t t' /\ left_ t' (Some (skip_comma s)).
Proof.
  intros (p & Ep & Ht). eexists. unfold skipNextComma. rewrite (bind_Ret get _ t t t) by done. rewrite Ep.
  erewrite bind_Ret by (unfold lift; rewrite (text_scan _ _ _ Ht (Z.eqb 44)) by (intros c; by rewrite (Z.eqb_sym 44)); done).
  erewrite bind_Ret by (unfold lift; rewrite (text_char _ _ _ Ht); done). rewrite set_cur_spec. split; [done|].
  pose proof (zlen_nonneg (until (Z.eqb 44) s)). pose proof (text_since _ _ _ Ht (Z.eqb 44)) as Hs. unfold skip_comma.
  destruct (since (Z.eqb 44) s) as [|c s'] eqn:Ec; cbn [after default from_option].
  - split; [apply cuts_forward; unfold pos; rewrite Ep; cbn; lia|]. by eexists.
  - apply since_head in Ec. rewrite (Z.eqb_sym c), Ec. split; [apply cuts_forward; unfold pos; rewrite Ep; cbn; lia|].
    eexists. split; [done|]. by eapply text_tail.
Qed.

(** A NUL in the place of a delimiter. *)
Lemma text_cut pre s1 d s2 post : no0 (s1 ++ s2) -> exists b,
  aset (pre ++ s1 ++ d :: s2 ++ 0 :: post) (zlen pre + zlen s1) 0 = Some b /\
  b = pre ++ s1 ++ 0 :: s2 ++ 0 :: post /\ text_at b (zlen pre) s1 /\ text_at b (zlen pre + zlen s1 + 1) s2.
Proof.
  intros [H1 H2]%Forall_app. exists (pre ++ s1 ++ 0 :: s2 ++ 0 :: post). split; [|split; [done|]; split].
  - pose proof (zlen_nonneg pre). pose proof (zlen_nonneg s1). pose proof (zlen_nonneg (s2 ++ 0 :: post)).
    rewrite aset_Some by (autorewrite with cbits in *; lia). f_equal. replace (Z.to_nat (zlen pre + zlen s1)) with (length pre + length s1)%nat by (unfold zlen; lia).
    rewrite insert_app_r. f_equal. replace (length s1) with (length s1 + 0)%nat by lia. by rewrite insert_app_r.
  - split; [done|]. by exists pre, (s2 ++ 0 :: post).
  - split; [done|]. exists (pre ++ s1 ++ [0]), post. split; [by rewrite <- !app_assoc|]. autorewrite with cbits. lia.
Qed.

Lemma strsep_ref d t s : d <> 0 -> left_ t (Some s) -> exists p t', tcur t = Some p /\
  strsep d t = Ret (Some p) t' /\ cuts t t' /\ left_ t' (cut d s).2 /\ held t' p (cut d s).1.
Proof.
  intros Hd (p & Ep & Ht). exists p. unfold strsep. rewrite (bind_Ret get _ t t t) by done. rewrite Ep.
  erewrite bind_Ret by (unfold lift; rewrite (text_scan _ _ _ Ht (Z.eqb d)) by (intros c; by rewrite (Z.eqb_sym d)); done).
  erewrite bind_Ret by (unfold lift; rewrite (text_char _ _ _ Ht); done).
  pose proof (text_range _ _ _ Ht) as [Hp Hr]. pose proof (until_since (Z.eqb d) s) as Eu. unfold cut. cbn [fst snd].
  destruct (since (Z.eqb d) s) as [|c s'] eqn:Ec; cbn [after].
  - rewrite app_nil_r in Eu. rewrite Eu. eexists. split; [done|]. split; [done|].
    split; [apply cuts_forward; unfold pos; rewrite Ep; cbn; pose proof (zlen_nonneg s); lia|]. split; [done|]. split; [done|]. unfold pos. cbn. lia.
  - apply since_head, Z.eqb_eq in Ec. subst c. rewrite (proj2 (Z.eqb_neq d 0)) by done.
    destruct Ht as (H0 & pre & post & E & Epre). set (w := until (Z.eqb d) s) in *.
    assert (H0' : no0 (w ++ s')).
    { rewrite <- Eu in H0. apply Forall_app in H0 as [Hw Hs]. apply Forall_cons in Hs as [_ Hs]. by apply Forall_app. }
    destruct (text_cut pre w d s' post H0') as (b & Eb & Eb' & T1 & T2). rewrite E, <- Eu, <- app_assoc, <- Epre. cbn [app]. rewrite Eb.
    eexists. split; [done|]. split; [done|]. cbn. pose proof (zlen_nonneg w). split; [|split; [by eexists|split; [done|unfold pos; cbn; lia] ] ].
    unfold cuts, pos. rewrite Ep. cbn. rewrite E, Eb', <- Eu. split; [autorewrite with cbits; lia|].
    split; [lia|]. intros i Hi. destruct (Z.ltb_spec i 0); [by rewrite !aget_None by lia|].
    rewrite !(aget_app pre) by lia. by rewrite !(proj2 (Z.ltb_lt i (zlen pre))) by lia.
Qed.

Lemma nextTok_ref t s : left_ t (Some s) -> exists p t', nextTok t = Ret (Some p) t' /\ cuts t t' /\
  left_ t' (next_token s).2 /\ held t' p (next_token s).1.
Proof.
  intros H. destruct (skipWhiteSpace_ref _ _ H) as (t1 & E1 & C1 & p & Ep & Ht). unfold nextTok, next_token.
  erewrite bind_Ret by done. rewrite (bind_Ret get _ t1 t1 t1) by done. rewrite Ep. erewrite bind_Ret by (unfold lift; rewrite (text_first _ _ _ Ht); done).
  assert (Hplain : exists p0 t', strsep 44 t1 = Ret (Some p0) t' /\ cuts t t' /\ left_ t' (cut 44 (since blank s)).2 /\ held t' p0 (cut 44 (since blank s)).1).
  { destruct (strsep_ref 44 t1 (since blank s)) as (p0 & t2 & Ep0 & E2 & C2 & L2 & K2); [done|by eexists|]. exists p0, t2. split; [done|]. split; [by eapply cuts_trans|done]. }
  destruct (since blank s) as [|c s']; [done|]. destruct (Z.eqb_spec c 34) as [->|Hc].
  2: exact Hplain.
  erewrite bind_Ret by apply set_cur_spec.
  assert (C2 : cuts t1 (Tok (tbuf t1) (Some (p + 1)))) by (apply cuts_forward; unfold pos; rewrite Ep; cbn; lia).
  destruct (strsep_ref 34 (Tok (tbuf t1) (Some (p + 1))) s') as (p0 & t3 & _ & E3 & C3 & L3 & K3); [done|by eexists; split; [done|eapply text_tail]|].
  erewrite bind_Ret by exact E3. destruct (cut 34 s') as [w [r|] ]; cbn [fst snd fmap option_fmap option_map] in *.
  - destruct (skipNextComma_ref _ _ L3) as (t4 & E4 & C4 & L4). erewrite bind_Ret by exact E4. exists p0, t4. split; [done|].
    split; [eauto using cuts_trans|]. split; [done|]. by eapply held_cuts.
  - assert (E4 : skipNextComma t3 = Ret tt t3).
    { unfold skipNextComma. rewrite (bind_Ret get _ t3 t3 t3) by done. by rewrite L3. }
    erewrite bind_Ret by exact E4. exists p0, t3. split; [done|]. split; [eauto using cuts_trans|done].
Qed.

(** ** The functions of the interface *)

Definition nothing : Z * option Z := (-1, None).
(** The number read from the text that is left, and what is left then. *)
Definition ref_int (base : Z) (uns : bool) (v : option (list Z)) : (Z * option Z) * option (list Z) :=
  match v with Some s => (number base uns (next_token s).1, (next_token s).2) | None => (nothing, None) end.

Lemma left_None t : left_ t None -> tcur t = None.
Proof. done. Qed.
Lemma cuts_refl t : cuts t t.
Proof. done. Qed.

Lemma nextint_base_ref base uns t v : left_ t v -> exists t',
  at_tok_nextint_base base uns t = Ret (ref_int base uns v).1 t' /\ cuts t t' /\ left_ t' (ref_int base uns v).2.
Proof.
  intros H. unfold at_tok_nextint_base. rewrite (bind_Ret get _ t t t) by done. destruct v as [s|]; cbn [ref_int fst snd].
  - destruct (nextTok_ref _ _ H) as (p & t' & E & C & L & K). destruct H as (p0 & -> & _). exists t'. split; [|done].
    erewrite bind_Ret by exact E. cbv beta iota. rewrite (bind_Ret get _ t' t' t') by done. erewrite bind_Ret by (unfold lift; rewrite (text_cstring _ _ _ (proj1 K)); done). done.
  - rewrite (left_None _ H). by exists t.
Qed.

Lemma nextstr_ref t s : left_ t (Some s) -> exists p t',
  at_tok_nextstr t = Ret (0, Some (Some p)) t' /\ cuts t t' /\ left_ t' (next_token s).2 /\ held t' p (next_token s).1.
Proof.
  intros H. destruct (nextTok_ref _ _ H) as (p & t' & E & C & L & K). exists p, t'. split; [|done]. unfold at_tok_nextstr.
  rewrite (bind_Ret get _ t t t) by done. destruct H as (p0 & -> & _). by erewrite bind_Ret by exact E.
Qed.
Lemma nextstr_none t : left_ t None -> at_tok_nextstr t = Ret (-1, None) t.
Proof. intros H. unfold at_tok_nextstr. rewrite (bind_Ret get _ t t t) by done. by rewrite (left_None _ H). Qed.

(** What follows the colon. *)
Definition ref_start (v : option (list Z)) : option (list Z) := s ← v; after (since (Z.eqb 58) s).

Lemma start_ref t v : left_ t v -> exists t',
  at_tok_start t = Ret (match ref_start v with Some _ => 0 | None => -1 end) t' /\ cuts t t' /\ left_ t' (ref_start v).
Proof.
  intros H. unfold at_tok_start. rewrite (bind_Ret get _ t t t) by done. destruct v as [s|]; [|rewrite (left_None _ H); by exists t].
  destruct H as (p & Ep & Ht). rewrite Ep. unfold strchr. rewrite (text_scan _ _ _ Ht (Z.eqb 58)) by (intros c; by rewrite (Z.eqb_sym 58)).
  cbn [ref_start mbind option_bind]. rewrite (text_char _ _ _ Ht). cbn [mbind option_bind]. pose proof (text_since _ _ _ Ht (Z.eqb 58)) as Hs.
  pose proof (text_range _ _ _ Hs) as [_ Hr]. pose proof (zlen_nonneg (until (Z.eqb 58) s)). destruct (since (Z.eqb 58) s) as [|c s'] eqn:Ec.
  - unfold lift. cbn [bind after]. eexists. split; [done|]. split; [|done]. apply cuts_forward. unfold pos. rewrite Ep. cbn. rewrite zlen_nil in Hr. lia.
  - pose proof (since_head _ _ _ _ Ec) as Hc. rewrite (Z.eqb_sym c), Hc. unfold lift. cbn [bind after]. eexists. split; [done|].
    split; [apply cuts_forward; unfold pos; rewrite Ep; cbn; lia|]. eexists. split; [done|]. by eapply text_tail.
Qed.

(** ** Numbers are read as they are printed *)

Lemma digit_read base d : 0 <= d < base -> base <= 16 -> xdigit (digit d) = Some d /\ isspace (digit d) = false.
Proof.
  intros Hd Hb. unfold digit, xdigit, isspace, isdigit. destruct (Z.ltb_spec d 10).
  - rewrite (proj2 (Z.leb_le 48 _)), (proj2 (Z.leb_le _ 57)), (proj2 (Z.eqb_neq _ 32)), (proj2 (Z.leb_gt _ 13)) by lia.
    rewrite andb_false_r. split; [cbn [andb]; f_equal; lia|done].
  - rewrite (proj2 (Z.leb_gt (87 + d) 57)), (proj2 (Z.leb_gt (87 + d) 70)), (proj2 (Z.leb_le 97 _)), (proj2 (Z.leb_le _ 102)),
      (proj2 (Z.eqb_neq _ 32)), (proj2 (Z.leb_gt _ 13)) by lia. rewrite !andb_false_r. split; [cbn [andb]; f_equal; lia|done].
Qed.

Lemma digits_app base l k acc : (forall c, In c l -> exists d, xdigit c = Some d /\ d < base) ->
  digits base (l ++ k) acc = digits base k (fold_left (fun a c => Some (default 0 a * base + default 0 (xdigit c))) l acc).
Proof.
  revert acc. induction l as [|c l IH]; intros acc H; [done|]. cbn [app digits fold_left].
  destruct (H c (or_introl eq_refl)) as (d & -> & Hd). rewrite (proj2 (Z.ltb_lt _ _)) by done. apply IH. intros x Hx. by apply H; right.
Qed.

(** The digits that [printf] writes: there is one, they are digits, and they
    have the value. *)
Lemma print_base_spec base fuel v : 1 < base <= 16 -> 0 <= v < base ^ Z.of_nat fuel ->
  (0 < fuel)%nat -> print_base fuel base v <> [] /\
  (forall c, In c (print_base fuel base v) -> exists d, c = digit d /\ 0 <= d < base) /\
  (forall acc, fold_left (fun a c => Some (default 0 a * base + default 0 (xdigit c))) (print_base fuel base v) acc
     = Some (default 0 acc * base ^ zlen (print_base fuel base v) + v)).
Proof.
  intros Hb. revert v. induction fuel as [|fuel IH]; intros v Hv Hf; [lia|]. cbn [print_base]. destruct (Z.ltb_spec v base) as [Hlt|Hge].
  - split; [done|]. split; [intros c [<-|[] ]; exists v; split; [done|lia]|]. intros acc. cbn [fold_left]. rewrite (proj1 (digit_read base v ltac:(lia) ltac:(lia))).
    cbn [default from_option id]. change (zlen [digit v]) with 1. by rewrite Z.pow_1_r.
  - assert (Hq : 0 <= v / base < base ^ Z.of_nat fuel).
    { split; [apply Z.div_pos; lia|]. apply Z.div_lt_upper_bound; [lia|]. rewrite Nat2Z.inj_succ, Z.pow_succ_r in Hv by lia. lia. }
    assert (Hf' : (0 < fuel)%nat).
    { destruct fuel; [|lia]. change (Z.of_nat 1) with 1 in Hv. lia. }
    pose proof (Z.mod_pos_bound v base ltac:(lia)) as Hm. destruct (IH _ Hq Hf') as (_ & Hd & Hfold). split; [by destruct (print_base fuel base (v / base))|]. split.
    + intros c [Hc|[<-|[] ] ]%in_app_or; [by apply Hd|]. by exists (v mod base).
    + intros acc. rewrite fold_left_app, Hfold. cbn [fold_left]. rewrite (proj1 (digit_read base (v mod base) Hm ltac:(lia))). cbn [default from_option id].
      rewrite zlen_app. change (zlen [digit (v mod base)]) with 1. rewrite Z.pow_add_r by (try apply zlen_nonneg; lia).
      rewrite Z.pow_1_r. pose proof (Z_div_mod_eq_full v base). f_equal. lia.
Qed.

Definition int32 (v : Z) : Prop := - 2 ^ 31 <= v < 2 ^ 31.

(** What a printed number looks like. *)
Definition plain (c : Z) : Prop := c = 45 \/ 48 <= c <= 57.
Lemma plain_not c : plain c -> c <> 0 /\ c <> 34 /\ c <> 44 /\ c <> 58 /\ isspace c = false.
Proof.
  intros H. unfold plain, isspace in *. repeat (split; [lia|]). destruct H as [->|H]; [done|].
  rewrite (proj2 (Z.eqb_neq _ _)), (proj2 (Z.leb_gt _ 13)) by lia. by rewrite andb_false_r.
Qed.

Lemma print_nat_plain v : 0 <= v < 10 ^ 10 -> Forall plain (print_base 10 10 v).
Proof.
  intros Hv. apply List.Forall_forall. intros c Hc. destruct (print_base_spec 10 10 v) as (_ & H & _); [lia|done|lia|].
  destruct (H c Hc) as (d & -> & Hd). right. unfold digit. rewrite (proj2 (Z.ltb_lt _ _)) by lia. lia.
Qed.
Lemma print_int_plain v : int32 v -> Forall plain (print_int v) /\ print_int v <> [].
Proof.
  intros Hv. unfold int32, print_int in *. destruct (Z.ltb_spec v 0).
  - split; [|done]. apply Forall_cons. split; [by left|]. apply print_nat_plain. lia.
  - split; [apply print_nat_plain; lia|]. apply print_base_spec; lia.
Qed.

Lemma digits_printed v : 0 <= v < 10 ^ 10 -> digits 10 (print_base 10 10 v) None = Some v.
Proof.
  intros Hv. destruct (print_base_spec 10 10 v) as (_ & Hd & Hf); [lia|done|lia|]. rewrite <- (app_nil_r (print_base 10 10 v)), digits_app.
  - cbn [digits]. rewrite Hf. cbn [default from_option id]. done.
  - intros c Hc. destruct (Hd c Hc) as (d & -> & Hd'). exists d. split; [apply (digit_read 10); lia|lia].
Qed.

Lemma strtol_print v : int32 v -> strtol10 (print_int v) = Some v.
Proof.
  intros Hv. pose proof (print_int_plain v Hv) as [Hp Hn]. unfold int32 in Hv. unfold strtol10.
  assert (E : skip_spaces (print_int v) = print_int v).
  { destruct (print_int v) as [|c l]; [done|]. cbn [skip_spaces]. apply Forall_cons in Hp as [Hc _]. by rewrite (proj2 (proj2 (proj2 (proj2 (plain_not c Hc))))). }
  rewrite E. clear E Hp Hn. unfold print_int. destruct (Z.ltb_spec v 0).
  - cbn [sign]. change (45 =? 45) with true. cbv beta iota. rewrite digits_printed by lia. rewrite obind_Some. f_equal. lia.
  - assert (Es : sign (print_base 10 10 v) = (false, print_base 10 10 v)).
    { destruct (print_base_spec 10 10 v) as (Hn & Hd & _); [lia|lia|lia|]. destruct (print_base 10 10 v) as [|c l]; [done|].
      destruct (Hd c (or_introl eq_refl)) as (d & -> & Hd'). unfold digit. rewrite (proj2 (Z.ltb_lt _ _)) by lia. cbn [sign].
      by rewrite (proj2 (Z.eqb_neq _ 45)), (proj2 (Z.eqb_neq _ 43)) by lia. }
    rewrite Es. rewrite digits_printed by lia. rewrite obind_Some. f_equal. lia.
Qed.

(** ** Fields between commas *)

(** A field that is a token as it is. *)
Definition word (w : list Z) : Prop :=
  no0 w /\ Forall (fun c => c <> 44) w /\ match w with c :: _ => c <> 34 /\ isspace c = false | [] => True end.
Definition spaces (l : list Z) : Prop := Forall (fun c => isspace c = true) l.
(** The end of a text, or another field after the comma. *)
Definition next_field (k : list Z) : Prop := match k with [] => True | c :: _ => c = 44 end.

Lemma since_spaces sp k : spaces sp -> since blank (sp ++ k) = since blank k.
Proof. intros H. induction H as [|c sp Hc H IH]; [done|]. cbn [app since]. unfold blank at 1. by rewrite Hc. Qed.
Lemma cut_word d w k : Forall (fun c => c <> d) w -> match k with [] => True | c :: _ => c = d end -> cut d (w ++ k) = (w, after k).
Proof.
  intros Hw Hk. unfold cut. induction Hw as [|c w Hc Hw IH]; cbn [app until since].
  - destruct k as [|c k]; [done|]. subst c. cbn [until since]. by rewrite Z.eqb_refl.
  - rewrite (proj2 (Z.eqb_neq d c)) by done. injection IH as IH1 IH2. by rewrite IH1, IH2.
Qed.

Lemma next_word sp w k : spaces sp -> word w -> next_field k -> next_token (sp ++ w ++ k) = (w, after k).
Proof.
  intros Hs (H0 & Hw & Hh) Hk. unfold next_token. rewrite since_spaces by done. assert (E : since blank (w ++ k) = w ++ k).
  { destruct w as [|c w]; [destruct k as [|c k]; [done|]; cbn in Hk; by subst c|]. cbn [app since]. unfold blank at 1. by rewrite (proj2 Hh). }
  rewrite E. rewrite <- (cut_word 44 w k) by done. destruct w as [|c w].
  - destruct k as [|c k]; [done|]. cbn in Hk. by subst c.
  - cbn [app]. by rewrite (proj2 (Z.eqb_neq c 34)) by apply Hh.
Qed.

(** A string in quotes may contain commas. *)
Lemma next_quoted sp w k : spaces sp -> Forall (fun c => c <> 34) w -> next_field k ->
  next_token (sp ++ 34 :: w ++ 34 :: k) = (w, Some (default [] (after k))).
Proof.
  intros Hs Hw Hk. unfold next_token. rewrite since_spaces by done. change (since blank (34 :: w ++ 34 :: k)) with (34 :: w ++ 34 :: k). cbv beta iota.
  rewrite (cut_word 34 w (34 :: k)) by done. cbn [fst snd after fmap option_fmap option_map]. f_equal. f_equal. unfold skip_comma. by destruct k as [|c k]; [|cbn in Hk; subst c].
Qed.

Lemma plain_word w : Forall plain w -> word w.
Proof.
  intros H. split; [|split].
  - eapply Forall_impl; [exact H|]. intros c Hc. by apply plain_not.
  - eapply Forall_impl; [exact H|]. intros c Hc. by apply plain_not.
  - destruct H as [|c w Hc _]; [done|]. apply plain_not in Hc. tauto.
Qed.

Lemma next_int sp v k : spaces sp -> int32 v -> next_field k ->
  ref_int 10 false (Some (sp ++ print_int v ++ k)) = ((0, Some v), after k).
Proof.
  intros Hs Hv Hk. cbn [ref_int]. rewrite next_word; [|done|by apply plain_word, print_int_plain|done]. cbn [fst snd]. unfold number. by rewrite strtol_print.
Qed.

(** [3,-5,8]: numbers with commas between them. *)
Fixpoint commas (l : list (list Z)) : list Z :=
  match l with
  | [] => []
  | w :: l => w ++ match l with [] => [] | _ => 44 :: commas l end
  end.
Lemma commas_cons w l : commas (w :: l) = w ++ match l with [] => [] | _ => 44 :: commas l end.
Proof. done. Qed.

Definition fields (l : list Z) : list Z := commas (print_int <$> l).
(** What is left when [l] is still to be read. *)
Definition fields_left (l : list Z) : option (list Z) := match l with [] => None | _ => Some (fields l) end.

Lemma fields_cons v l : fields (v :: l) = print_int v ++ match l with [] => [] | _ => 44 :: fields l end.
Proof. unfold fields. cbn [fmap list_fmap]. rewrite commas_cons. by destruct l. Qed.

Lemma ref_int_fields v l : int32 v -> ref_int 10 false (Some (fields (v :: l))) = ((0, Some v), fields_left l).
Proof.
  intros Hv. rewrite fields_cons. change (print_int v ++ ?k) with ([] ++ print_int v ++ k). rewrite next_int; [|constructor|done|by destruct l]. by destruct l.
Qed.

(** ** Any sequence of calls *)

Inductive call := Start | Int | Hex | Bool | Str | HasMore.
(** A code, with a number or a string that was stored; the string is a pointer
    or the text itself. *)
Inductive answer (A : Type) := Num (code : Z) (v : option Z) | Txt (code : Z) (v : option A).
Arguments Num {A} code v.
Arguments Txt {A} code v.

Definition call_tok (c : call) : M tok (answer Z) :=
  match c with
  | Start => r <- at_tok_start ;; ret (Num r None)
  | Int => r <- at_tok_nextint ;; ret (Num r.1 r.2)
  | Hex => r <- at_tok_nexthexint ;; ret (Num r.1 r.2)
  | Bool => r <- at_tok_nextbool ;; ret (Num r.1 r.2)
  | Str => r <- at_tok_nextstr ;; ret (Txt r.1 (x ← r.2; x))
  | HasMore => r <- at_tok_hasmore ;; ret (Num (if r : bool then 1 else 0) None)
  end.
Fixpoint run (cs : list call) : M tok (list (answer Z)) :=
  match cs with
  | [] => ret []
  | c :: cs => a <- call_tok c ;; l <- run cs ;; ret (a :: l)
  end.

Definition ref_call (c : call) (v : option (list Z)) : answer (list Z) * option (list Z) :=
  match c with
  | Start => (Num (match ref_start v with Some _ => 0 | None => -1 end) None, ref_start v)
  | Int => let '(r, v') := ref_int 10 false v in (Num r.1 r.2, v')
  | Hex => let '(r, v') := ref_int 16 true v in (Num r.1 r.2, v')
  | Bool => let '(r, v') := ref_int 10 false v in
      (match r with (0, Some 0) | (0, Some 1) => Num r.1 r.2 | _ => Num (-1) None end, v')
  | Str => match v with
           | Some s => (Txt 0 (Some (next_token s).1), (next_token s).2)
           | None => (Txt (-1) None, None)
           end
  | HasMore => (Num (match v with Some (_ :: _) => 1 | _ => 0 end) None, v)
  end.
Fixpoint ref_run (cs : list call) (v : option (list Z)) : list (answer (list Z)) :=
  match cs with
  | [] => []
  | c :: cs => let '(a, v') := ref_call c v in a :: ref_run cs v'
  end.

Definition same_answer (buf : list Z) (a : answer Z) (r : answer (list Z)) : Prop :=
  match a, r with
  | Num c v, Num c' v' => c = c' /\ v = v'
  | Txt c None, Txt c' None => c = c'
  | Txt c (Some p), Txt c' (Some w) => c = c' /\ cstring buf p = Some w
  | _, _ => False
  end.
(** The string of an answer is not written to any more. *)
Definition answer_held (t : tok) (a : answer Z) (r : answer (list Z)) : Prop :=
  same_answer (tbuf t) a r /\ match a, r with Txt _ (Some p), Txt _ (Some w) => held t p w | _, _ => True end.

Lemma answer_cuts t t' a r : answer_held t a r -> cuts t t' -> answer_held t' a r.
Proof.
  intros [H1 H2] C. destruct a as [c v|c [p|] ], r as [c' v'|c' [w|] ]; try done. cbn in *. pose proof (held_cuts _ _ _ _ H2 C) as H3.
  split; [|done]. split; [apply H1|]. apply text_cstring, H3.
Qed.

Lemma nextbool_ref t v : left_ t v -> exists r t', at_tok_nextbool t = Ret r t' /\ cuts t t' /\ left_ t' (ref_int 10 false v).2 /\
  r = match (ref_int 10 false v).1 with (0, Some 0) => (0, Some 0) | (0, Some 1) => (0, Some 1) | _ => (-1, None) end.
Proof.
  intros H. destruct (nextint_base_ref 10 false t v H) as (t' & E & C & L). unfold at_tok_nextbool. erewrite bind_Ret by exact E.
  destruct v as [s|]; cbn [ref_int fst snd] in *; [|by exists (-1, None), t']. unfold number.
  destruct (strtol10 (next_token s).1) as [x|]; cbn [fst snd default from_option id]; [|by exists (-1, None), t'].
  cbv beta. cbn [fst snd]. change (0 <? 0) with false. cbv beta iota. rewrite (bind_Ret _ _ t' x t') by done. cbv beta iota.
  destruct (Z.eqb_spec x 0) as [->|H0]; [by exists (0, Some 0), t'|]. destruct (Z.eqb_spec x 1) as [->|H1]; [by exists (0, Some 1), t'|].
  exists (-1, None), t'. split; [done|]. split; [done|]. split; [done|]. by destruct x as [|[x|x|]|x].
Qed.

Lemma hasmore_ref t v : left_ t v -> at_tok_hasmore t = Ret (match v with Some (_ :: _) => true | _ => false end) t.
Proof.
  intros H. unfold at_tok_hasmore. rewrite (bind_Ret get _ t t t) by done. destruct v as [s|]; [|by rewrite (left_None _ H)].
  destruct H as (p & -> & Ht). erewrite bind_Ret by (unfold lift; rewrite (text_first _ _ _ Ht); done). destruct s as [|c s]; [done|].
  destruct Ht as [H0 _]. apply Forall_cons in H0 as [H0 _]. by rewrite (proj2 (Z.eqb_neq c 0)).
Qed.

Lemma call_ref c t v : left_ t v -> exists a t', call_tok c t = Ret a t' /\ cuts t t' /\ left_ t' (ref_call c v).2 /\ answer_held t' a (ref_call c v).1.
Proof.
  intros H. destruct c; cbn [call_tok ref_call].
  - destruct (start_ref t v H) as (t' & E & C & L). eexists _, t'. erewrite bind_Ret by exact E. split; [done|]. by split; [done|split].
  - destruct (nextint_base_ref 10 false t v H) as (t' & E & C & L). destruct (ref_int 10 false v). eexists _, t'. erewrite bind_Ret by exact E. split; [done|]. by split; [done|split].
  - destruct (nextint_base_ref 16 true t v H) as (t' & E & C & L). destruct (ref_int 16 true v). eexists _, t'. erewrite bind_Ret by exact E. split; [done|]. by split; [done|split].
  - destruct (nextbool_ref t v H) as (r & t' & E & C & L & ->). destruct (ref_int 10 false v) as [ [c o] v']. eexists _, t'. erewrite bind_Ret by exact E.
    split; [done|]. split; [done|]. split; [done|]. cbn [fst]. destruct c as [|c|c]; [|done|done]. destruct o as [ [|[o|o|]|o]|]; done.
  - destruct v as [s|].
    + destruct (nextstr_ref t s H) as (p & t' & E & C & L & K). eexists _, t'. erewrite bind_Ret by exact E. split; [done|]. split; [done|]. split; [done|].
      split; [|done]. split; [done|]. apply text_cstring, K.
    + eexists _, t. erewrite bind_Ret by (by apply nextstr_none). split; [done|]. by split; [done|split].
  - eexists _, t. erewrite bind_Ret by (by apply hasmore_ref). split; [done|]. split; [done|]. split; [done|]. split; [|done]. by destruct v as [ [|c s]|].
Qed.

Lemma run_ref cs t v : left_ t v -> exists l t', run cs t = Ret l t' /\ cuts t t' /\ Forall2 (answer_held t') l (ref_run cs v).
Proof.
  revert t v. induction cs as [|c cs IH]; intros t v H; [exists [], t; repeat split; [done|by constructor]|].
  destruct (call_ref c t v H) as (a & t1 & E1 & C1 & L1 & A1). cbn [run ref_run]. destruct (ref_call c v) as [r v'].
  destruct (IH t1 v' L1) as (l & t2 & E2 & C2 & A2). exists (a :: l), t2. erewrite bind_Ret by exact E1. cbv beta. erewrite bind_Ret by exact E2.
  split; [done|]. split; [by eapply cuts_trans|]. constructor; [by eapply answer_cuts|done].
Qed.

(** C15: The tokens are cut out of a response in place, by writing NULs into
    it: on every buffer and every string that ends in it, and for every
    sequence of calls of the tokenizer, nothing outside the buffer is read or
    written, what is in front of the string stays as it is, and the codes, the
    numbers and the strings returned are those of the reference that copies
    the tokens: when all the calls are over the strings still are. *)
Theorem tokens_in_place buf p s cs : text_at buf p s -> exists l t,
  run cs (Tok buf (Some p)) = Ret l t /\ zlen (tbuf t) = zlen buf /\
  (forall i, i < p -> aget (tbuf t) i = aget buf i) /\
  Forall2 (same_answer (tbuf t)) l (ref_run cs (Some s)).
Proof.
  intros H. destruct (run_ref cs (Tok buf (Some p)) (Some s)) as (l & t & E & (L & _ & F) & A); [by exists p|].
  exists l, t. split; [done|]. split; [done|]. split; [done|]. eapply Forall2_impl; [exact A|]. by intros a r [Ha _].
Qed.

Lemma tokens_in_place_witness : exists l t,
  run [Start; Int; Str; Hex; Bool; HasMore] (Tok (str "+X: -7,a b,1F,0" ++ [0; 9]) (Some 0)) = Ret l t /\ zlen (tbuf t) = 17 /\
  (forall i, i < 0 -> aget (tbuf t) i = aget (str "+X: -7,a b,1F,0" ++ [0; 9]) i) /\
  Forall2 (same_answer (tbuf t)) l [Num 0 None; Num 0 (Some (-7)); Txt 0 (Some [97; 32; 98]); Num 0 (Some 31); Num 0 (Some 0); Num 0 None].
Proof.
  apply (tokens_in_place (str "+X: -7,a b,1F,0" ++ [0; 9]) 0 (str "+X: -7,a b,1F,0") [Start; Int; Str; Hex; Bool; HasMore]). split; [|by exists [], [9] ].
  repeat (apply List.Forall_cons; [done|]). apply List.Forall_nil.
Defined.
