(* ===== verification/EngParcel.v ===== *)
(** * Parcels of response lines

    src/common/apps/engineeringmodel/engcs/engparcel.c: the lines of a
    response are packed into one array; the responses that the PC gets are
    made from the tokens of its lines. A [char] is unsigned, as on ARM. *)
From stdpp Require Import base list.
From Stdlib Require Import ZArith Lia String.
From S2P Require Import Prelude EngTok.

(** ** Definitions *)

Definition SEND_ARRAY_MAX_LEN : nat := 512.
Definition SEND_DATA_START_POS : Z := 2.
Definition SEND_DATA_ITEM_LENGTH_BYTES : Z := 1.
Definition LARGE_LEN : nat := 2048.

(** *** Packing *)

Record send_array_t := Send { index : Z; item_num : Z; array : list Z; largeIndex : Z; largeString : list Z }.

Definition eng_init_array : M send_array_t unit :=
  modify (fun _ => Send SEND_DATA_START_POS 0 (replicate SEND_ARRAY_MAX_LEN 0) 0 (replicate LARGE_LEN 0)).
Definition eng_clear_array : M send_array_t unit := eng_init_array.

(** [data] is the string with its NUL and what follows it. *)
Definition eng_push_array (data : list Z) (len : Z) : M send_array_t unit :=
  s <- get ;;
  d <- lift OutOfBounds (slice data 0 len) ;;
  a <- lift OutOfBounds (store (array s) (index s) (len :: d)) ;;
  modify (fun s => Send (u8 (index s + len + SEND_DATA_ITEM_LENGTH_BYTES)) (u8 (item_num s + 1)) a (largeIndex s) (largeString s)).

Definition eng_push_large_string (data : list Z) (len : Z) : M send_array_t unit :=
  s <- get ;;
  d <- lift OutOfBounds (slice data 0 len) ;;
  l <- lift OutOfBounds (store (largeString s) (largeIndex s) (d ++ [10])) ;;
  modify (fun s => Send (index s) (item_num s) (array s) (largeIndex s + len + 1) l).
Definition eng_pop_large_string : M send_array_t (list Z) := gets largeString.

Definition eng_push_finish : M send_array_t unit :=
  s <- get ;;
  a <- lift OutOfBounds (store (array s) 0 [index s; item_num s]) ;;
  modify (fun s => Send (index s) (item_num s) a (largeIndex s) (largeString s)).

(** The array, and [*len]. *)
Definition eng_pop_array : M send_array_t (list Z * Z) :=
  s <- get ;;
  len <- lift OutOfBounds (aget (array s) 0) ;;
  ret (array s, len).

(** *** Printing *)

(** A string argument: a pointer into the text that is cut into tokens, a
    zeroed array, one with anything in it, or NULL. *)
Inductive text := At (p : Z) | Zeroed | Junk | Null.
(** The pieces of a format, with their arguments; an [int] that nothing was
    stored in is [None]. *)
Inductive piece := T (s : string) | B (l : list Z) | D (v : option Z) | X (v : option Z) | S_ (t : text).

(** The text under the tokens, and the string written so far: [out], whose
    256 bytes are [respose_data] of [eng_atCommandResponse]. *)
Record resp := Resp { r_tok : tok; r_out : list Z }.
Definition OUT_LEN : Z := 256.
Definition on_tok {A} : M tok A -> M resp A := zoom r_tok (fun t s => Resp t (r_out s)).

Definition piece_bytes (buf : list Z) (p : piece) : M resp (list Z) :=
  match p with
  | T s => ret (str s)
  | B l => ret l
  | D v => v <- lift Uninitialised v ;; ret (print_int v)
  | X v => v <- lift Uninitialised v ;; ret (print_hex v)
  | S_ (At i) => lift OutOfBounds (cstring buf i)
  | S_ Zeroed => ret []
  | S_ Junk => bad Uninitialised
  | S_ Null => bad NullPointer
  end.
Fixpoint pieces_bytes (buf : list Z) (ps : list piece) : M resp (list Z) :=
  match ps with
  | [] => ret []
  | p :: ps => a <- piece_bytes buf p ;; b <- pieces_bytes buf ps ;; ret (a ++ b)
  end.
(** [sprintf(out_ptr, ...); out_ptr += strlen(out_ptr);] *)
Definition sprintf (ps : list piece) : M resp unit :=
  s <- get ;;
  b <- pieces_bytes (tbuf (r_tok s)) ps ;;
  (if zlen (r_out s) + zlen b <? OUT_LEN then ret tt else bad OutOfBounds) ;;;
  modify (fun s => Resp (r_tok s) (r_out s ++ b)).

(** *** Tokens into variables *)

Definition skip_prefix : M resp unit := _ <- on_tok at_tok_start ;; ret tt.
(** [at_tok_nextint(&item_ptr, &v)]: what [v] holds then. *)
Definition nextint (v : option Z) : M resp (option Z) :=
  r <- on_tok at_tok_nextint ;; ret (match r.2 with Some x => Some x | None => v end).
Definition nexthexint (v : option Z) : M resp (option Z) :=
  r <- on_tok at_tok_nexthexint ;; ret (match r.2 with Some x => Some x | None => v end).
Definition nextstr (v : text) : M resp text :=
  r <- on_tok at_tok_nextstr ;;
  ret (match r.2 with Some (Some p) => At p | Some None => Null | None => v end).
(** [item_ptr] itself, as a string. *)
Definition item_ptr : M resp text := s <- get ;; ret (match tcur (r_tok s) with Some p => At p | None => Null end).

(** *** The items *)

(** [memset(item, 0, sizeof(item)); snprintf(item, item_len+1, "%s", ptr);
    item_ptr = item;] *)
Definition load_item (size : Z) (content : list Z) (ptr item_len : Z) : M resp unit :=
  s <- lift OutOfBounds (cstring content ptr) ;;
  let s := take (Z.to_nat item_len) s in
  (if zlen s <? size then ret tt else bad OutOfBounds) ;;;
  modify (fun r => Resp (Tok (s ++ replicate (Z.to_nat (size - zlen s)) 0) (Some 0)) (r_out r)).

(** The loop over the items, from [ptr] on; [vars] are the variables that are
    declared in front of it. *)
Fixpoint items_from {A} (n : nat) (size : Z) (content : list Z) (ptr : Z) (vars : A) (body : A -> M resp A) : M resp unit :=
  match n with
  | O => ret tt
  | S n =>
      item_len <- lift OutOfBounds (aget content ptr) ;;
      load_item size content (ptr + 1) item_len ;;;
      vars <- body vars ;;
      items_from n size content (ptr + 1 + item_len) vars body
  end.
Definition items {A} (size : Z) (content : list Z) (vars : A) (body : A -> M resp A) : M resp Z :=
  n <- lift OutOfBounds (aget content (SEND_DATA_START_POS - 1)) ;;
  items_from (Z.to_nat n) size content SEND_DATA_START_POS vars body ;;;
  s <- get ;; ret (zlen (r_out s)).
(** The first item only. *)
Definition first_item (size : Z) (content : list Z) (body : M resp unit) : M resp Z :=
  item_len <- lift OutOfBounds (aget content SEND_DATA_START_POS) ;;
  load_item size content (SEND_DATA_START_POS + 1) item_len ;;;
  body ;;;
  s <- get ;; ret (zlen (r_out s)).
(** The first item in the array itself:
    [data = &content->content[SEND_DATA_START_POS+SEND_DATA_ITEM_LENGTH_BYTES]]. *)
Definition in_place (content : list Z) (body : M resp unit) : M resp Z :=
  modify (fun r => Resp (Tok content (Some (SEND_DATA_START_POS + SEND_DATA_ITEM_LENGTH_BYTES))) (r_out r)) ;;;
  body ;;;
  s <- get ;; ret (zlen (r_out s)).

(** *** The responses *)

(** [*value] afterwards, if it was [v]. *)
Definition eng_ResponseOneInt (v : option Z) : M resp (option Z) :=
  r <- on_tok at_tok_start ;;
  if r <? 0 then ret v else nextint v.
Definition eng_ResponseCurrentBand : option Z -> M resp (option Z) := eng_ResponseOneInt.
Definition eng_ResponseGetArmLog : option Z -> M resp (option Z) := eng_ResponseOneInt.
Definition eng_ResponseGetAutoAnswer : option Z -> M resp (option Z) := eng_ResponseOneInt.
Definition eng_ResponseCurrentAttach : option Z -> M resp (option Z) := eng_ResponseOneInt.

Definition eng_ResponseGetSpPsrate (content : list Z) : M resp Z :=
  items 128 content (None, None, None) (fun '(type, ul, dl) =>
    skip_prefix ;;;
    type <- nextint type ;; ul <- nextint ul ;; dl <- nextint dl ;;
    sprintf [D type; T ","; D ul; T ","; D dl; T ","] ;;;
    ret (type, ul, dl)).

Definition eng_ResponseSPID (content : list Z) : M resp Z :=
  items 128 content tt (fun _ =>
    skip_prefix ;;;
    data <- nextstr Zeroed ;;
    sprintf [S_ data; T ","]).

Definition eng_ResponseSPTest (content : list Z) : M resp Z :=
  items 128 content (None, None) (fun '(type, value) =>
    skip_prefix ;;;
    type <- nextint type ;; value <- nextint value ;;
    sprintf [D type; T ","; D value; T ","] ;;;
    ret (type, value)).

(** The second argument is [cell_id2] twice. *)
Definition eng_ResponseSPFRQ (content : list Z) : M resp Z :=
  items 128 content (None, None, None, None) (fun '(freq, cell_id1, cell_id2, cell_id3) =>
    skip_prefix ;;;
    freq <- nextint freq ;; cell_id1 <- nextint cell_id1 ;; cell_id2 <- nextint cell_id2 ;; cell_id3 <- nextint cell_id3 ;;
    sprintf [D freq; T ","; D cell_id2; T ","; D cell_id2; T ","; D cell_id3; T ","] ;;;
    ret (freq, cell_id1, cell_id2, cell_id3)).

Definition eng_ResponseGetSPDGCNUM (content : list Z) : M resp Z :=
  items 128 content None (fun num =>
    num <- nextint num ;;
    sprintf [D num] ;;;
    ret num).

Definition eng_ResponseGetSPDGCINFO (content : list Z) : M resp Z :=
  items 128 content (None, None, None) (fun '(index, arfcn, bsic) =>
    index <- nextint index ;; arfcn <- nextint arfcn ;; bsic <- nextint bsic ;;
    sprintf [D index; T ","; D arfcn; T ","; D bsic] ;;;
    ret (index, arfcn, bsic)).

Definition eng_ResponseGetSPL1 (content : list Z) : M resp Z :=
  in_place content (on_off <- eng_ResponseOneInt None ;; sprintf [D on_off]).

Definition eng_ResponseIntString : M resp unit :=
  skip_prefix ;;;
  index <- nextint None ;; ptr <- nextstr Junk ;;
  sprintf [D index; T ", "; S_ ptr].
Definition eng_ResponseString : M resp unit :=
  skip_prefix ;;;
  ptr <- nextstr Junk ;;
  sprintf [S_ ptr].

Definition eng_ResponseL1PARAM (content : list Z) : M resp Z := in_place content eng_ResponseIntString.
Definition eng_ResponseTRRPARAM (content : list Z) : M resp Z := in_place content eng_ResponseIntString.
Definition eng_ResponseRRDMPARAM (content : list Z) : M resp Z := in_place content eng_ResponseIntString.
Definition eng_ResponseTDMEASSWTH (content : list Z) : M resp Z := in_place content eng_ResponseString.
Definition eng_ResponseGetTDMEASSWTH (content : list Z) : M resp Z :=
  in_place content (type <- eng_ResponseOneInt None ;; sprintf [D type]).
Definition eng_ResponseSMTIMER (content : list Z) : M resp Z := in_place content eng_ResponseString.
Definition eng_ResponseTRRDCFEPARAM (content : list Z) : M resp Z := in_place content eng_ResponseIntString.

Definition eng_ResponseMBCELLID (content : list Z) : M resp Z :=
  in_place content (
    skip_prefix ;;;
    data <- item_ptr ;;
    s <- get ;;
    d <- piece_bytes (tbuf (r_tok s)) (S_ data) ;;
    if zlen d >? 1 then
      mcc <- nextstr Zeroed ;; mnc <- nextstr Zeroed ;; lac <- nextstr Zeroed ;; ci <- nextstr Zeroed ;;
      sprintf [S_ mcc; T ","; S_ mnc; T ","; S_ lac; T ","; S_ ci]
    else sprintf [T " "]).

Definition eng_ResponseMBAU (content : list Z) : M resp Z :=
  first_item 128 content (skip_prefix ;;; p <- item_ptr ;; sprintf [S_ p]).

Definition eng_ResponseEUICC (content : list Z) : M resp Z :=
  first_item 128 content (
    skip_prefix ;;;
    data1 <- nextint None ;; data2 <- nextint None ;; data3 <- nextint None ;;
    sprintf [D data1; T ","; D data2; T ","; D data3]).

Definition eng_ResponseCGREG (content : list Z) : M resp Z :=
  first_item 128 content (
    skip_prefix ;;;
    int1 <- nextint None ;; int2 <- nextint None ;;
    string1 <- nextstr Zeroed ;; string2 <- nextstr Zeroed ;;
    int3 <- nextint None ;;
    sprintf [D int1; T ","; D int2; T ","; S_ string1; T ","; S_ string2; T ","; D int3]).

Definition eng_ResponseSYSINFO (content : list Z) : M resp Z :=
  first_item 128 content (
    skip_prefix ;;;
    int1 <- nextint None ;; int2 <- nextint None ;; int3 <- nextint None ;; int4 <- nextint None ;;
    int5 <- nextint None ;; int6 <- nextint None ;; int7 <- nextint None ;;
    sprintf [D int1; T ","; D int2; T ","; D int3; T ","; D int4; T ","; D int5; T ","; D int6; T ","; D int7]).

Definition one_string (content : list Z) : M resp Z :=
  first_item 128 content (skip_prefix ;;; string1 <- nextstr Zeroed ;; sprintf [S_ string1]).
Definition eng_ResponseHVER (content : list Z) : M resp Z := one_string content.
Definition eng_ResponseSPVER (content : list Z) : M resp Z := one_string content.

Definition eng_ResponseGetSYSCONFIG (content : list Z) : M resp Z :=
  first_item 128 content (
    skip_prefix ;;;
    int1 <- nextint None ;; int2 <- nextint None ;; int3 <- nextint None ;; int4 <- nextint None ;;
    sprintf [D int1; T ","; D int2; T ","; D int3; T ","; D int4]).

Definition eng_ResponseSETUPLMN (content : list Z) : M resp Z :=
  first_item 256 content (
    skip_prefix ;;;
    int1 <- nextint None ;; int2 <- nextint None ;;
    v <- lift Uninitialised int1 ;;
    if v =? 144 then sprintf [D int1] else sprintf [D int1; T ","; D int2]).

Definition uplmn (content : list Z) : M resp Z :=
  first_item 256 content (
    skip_prefix ;;;
    int1 <- nextint None ;; int2 <- nextint None ;;
    string1 <- nextstr Zeroed ;;
    v <- lift Uninitialised int1 ;;
    if v =? 144 then sprintf [S_ string1] else sprintf [D int1]).
Definition eng_ResponseGETUPLMN (content : list Z) : M resp Z := uplmn content.
Definition eng_ResponseGETUPLMNLEN (content : list Z) : M resp Z := uplmn content.

Definition eng_ResponseSADC (content : list Z) : M resp Z :=
  first_item 128 content (
    skip_prefix ;;;
    int1 <- nexthexint None ;; int2 <- nexthexint None ;; int3 <- nexthexint None ;; int4 <- nexthexint None ;;
    sprintf [T "0x"; X int1; T ",0x"; X int2; T ",0x"; X int3; T ",0x"; X int4]).

Definition eng_ResponseCGMR (content : list Z) : M resp Z :=
  items 128 content tt (fun _ => p <- item_ptr ;; sprintf [S_ p; T ","]).

Definition eng_ResponseCCED (content : list Z) : M resp Z :=
  first_item 256 content (skip_prefix ;;; p <- item_ptr ;; sprintf [S_ p]).

Definition crlf : list Z := [13; 10].
Definition eng_ResponsePLMN (content : list Z) : M resp Z :=
  items 256 content tt (fun _ =>
    p <- item_ptr ;; sprintf [S_ p; T " "; B crlf]).

(** A response of two lines. *)
Definition resp_init : resp := Resp (Tok [] None) [].
Definition packed (lines : list (list Z)) : outcome send_array_t (list Z * Z) :=
  (eng_init_array ;;; forM lines (fun l => eng_push_array (l ++ [0]) (u8 (zlen l))) ;;; eng_push_finish ;;; eng_pop_array)
    (Send 0 0 [] 0 []).
Example two_rates : match packed [str "+SPPSRATE: 0,64,128"; str "+SPPSRATE: 1,-1,384"] with
  | Ret (content, len) _ =>
      len = 42 /\ match eng_ResponseGetSpPsrate content resp_init with
                  | Ret n r => n = zlen (str "0,64,128,1,-1,384,") /\ r_out r = str "0,64,128,1,-1,384,"
                  | _ => False
                  end
  | _ => False
  end.
Proof. vm_compute. done. Qed.
