(* ===== verification/EngParcelProofs.v ===== *)
(** * What the application is told

    The theorems on EngParcel.v: the lines of an answer are packed without
    leaving the array, and are unpacked as they were when they fit; the numbers
    in the rows of an answer are reported - but for one of them. *)
From stdpp Require Import base list.
From Stdlib Require Import ZArith Lia.
From Stdlib Require Import (notations) String.
From S2P Require Import Prelude EngTok EngTokProofs EngParcel.

(** ** Packing *)

(** The bytes of the lines in the array, and how many of them there are. *)
Definition item_bytes (l : list Z) : list Z := zlen l :: l.
Definition body (lines : list (list Z)) : list Z := concat (item_bytes <$> lines).
(** What is kept of a line whose length does not fit a byte. *)
Definition kept (l : list Z) : list Z := take (Z.to_nat (u8 (zlen l))) l.
Definition total (lines : list (list Z)) : Z := 2 + zlen (body lines).

Lemma zlen_kept l : zlen (kept l) = u8 (zlen l) /\ 0 <= zlen (kept l) <= 255.
Proof.
  pose proof (u8_range (zlen l)). pose proof (zlen_nonneg l). assert (u8 (zlen l) <= zlen l) by (unfold u8, wrap; apply Z.mod_le; lia).
  unfold kept. assert (E : zlen (take (Z.to_nat (u8 (zlen l))) l) = u8 (zlen l)) by (unfold zlen in *; rewrite length_take; lia). rewrite E. lia.
Qed.
Lemma kept_short l : zlen l <= 255 -> kept l = l.
Proof. intros H. unfold kept. pose proof (zlen_nonneg l). rewrite u8_small by lia. unfold zlen. rewrite Nat2Z.id. apply firstn_all. Qed.
Lemma body_cons l lines : body (l :: lines) = item_bytes l ++ body lines.
Proof. done. Qed.
Lemma body_app l k : body (l ++ k) = body l ++ body k.
Proof. unfold body. by rewrite fmap_app, concat_app. Qed.
Lemma zlen_body_cons l lines : zlen (body (l :: lines)) = 1 + zlen l + zlen (body lines).
Proof. rewrite body_cons, zlen_app. unfold item_bytes. rewrite zlen_cons. lia. Qed.
Lemma body_count lines : Z.of_nat (length lines) <= zlen (body lines).
Proof. induction lines as [|l lines IH]; [done|]. rewrite zlen_body_cons. cbn [length]. pose proof (zlen_nonneg l). lia. Qed.
Lemma body_member l lines : In l lines -> zlen l + 1 <= zlen (body lines).
Proof.
  induction lines as [|k lines IH]; [done|]. rewrite zlen_body_cons. pose proof (zlen_nonneg (body lines)). pose proof (zlen_nonneg k).
  intros [->|Hin]; [lia|]. specialize (IH Hin). lia.
Qed.

Definition push (l : list Z) : M send_array_t unit := eng_push_array (l ++ [0]) (u8 (zlen l)).
Definition array_ok (s : send_array_t) : Prop := zlen (array s) = 512 /\ 0 <= index s <= 255 /\ 0 <= item_num s <= 255.

Lemma push_spec s l : array_ok s -> push l s =
  Ret tt (Send (u8 (index s + zlen (kept l) + 1)) (u8 (item_num s + 1)) (Prelude.put (array s) (index s) (item_bytes (kept l))) (largeIndex s) (largeString s)).
Proof.
  intros (Ha & Hi & Hn). destruct (zlen_kept l) as [Ek Hk]. unfold push, eng_push_array. rewrite (bind_Ret get _ s s s) by done. pose proof (zlen_nonneg l).
  assert (Es : slice (l ++ [0]) 0 (u8 (zlen l)) = Some (kept l)).
  { destruct (slice_is_Some (l ++ [0]) 0 (u8 (zlen l))) as [x E]; [lia|lia|rewrite zlen_app; assert (u8 (zlen l) <= zlen l) by (unfold u8, wrap; apply Z.mod_le; lia); change (zlen [0]) with 1; lia|].
    rewrite E. f_equal. apply slice_Some in E as (-> & _). rewrite drop_0. unfold kept. rewrite take_app_le; [done|].
    assert (u8 (zlen l) <= zlen l) by (unfold u8, wrap; apply Z.mod_le; lia). unfold zlen in *. lia. }
  erewrite bind_Ret by (unfold lift; rewrite Es; done). unfold item_bytes. rewrite Ek.
  erewrite bind_Ret by (unfold lift; rewrite store_ok by (rewrite ?zlen_cons; lia); done). unfold modify, SEND_DATA_ITEM_LENGTH_BYTES. done.
Qed.

Lemma push_ok s l : array_ok s -> exists s', push l s = Ret tt s' /\ array_ok s' /\ index s' = u8 (index s + zlen (kept l) + 1) /\ item_num s' = u8 (item_num s + 1)
  /\ largeIndex s' = largeIndex s /\ largeString s' = largeString s.
Proof.
  intros H. rewrite push_spec by done. eexists. split; [done|]. destruct H as (Ha & Hi & Hn). destruct (zlen_kept l) as [Ek Hk].
  pose proof (u8_range (index s + zlen (kept l) + 1)). pose proof (u8_range (item_num s + 1)).
  split; [|done]. split; [|cbn; lia]. cbn [array]. rewrite zlen_put; [done|lia|]. unfold item_bytes. rewrite zlen_cons. lia.
Qed.

(** The sums of the lengths, modulo 256. *)
Definition sizes (lines : list (list Z)) : Z := zlen (body (kept <$> lines)).

Lemma u8_add a b : u8 (u8 a + b) = u8 (a + b).
Proof. unfold u8, wrap. by rewrite Zplus_mod_idemp_l. Qed.

(** Any lines: the array is not left. *)
Lemma push_all_ok lines s : array_ok s -> exists s', forM lines push s = Ret tt s' /\ array_ok s' /\
  index s' = u8 (index s + sizes lines) /\ item_num s' = u8 (item_num s + Z.of_nat (length lines)) /\
  largeIndex s' = largeIndex s /\ largeString s' = largeString s.
Proof.
  revert s. induction lines as [|l lines IH]; intros s Hs.
  - exists s. destruct Hs as (Ha & Hi & Hn). split; [done|]. split; [done|]. unfold sizes. change (zlen (body (kept <$> []))) with 0.
    change (Z.of_nat (length [])) with 0. rewrite !Z.add_0_r, !u8_small by lia. done.
  - destruct (push_ok s l Hs) as (s1 & E1 & O1 & I1 & N1 & L1 & S1). destruct (IH s1 O1) as (s2 & E2 & O2 & I2 & N2 & L2 & S2).
    exists s2. cbn [forM]. erewrite bind_Ret by exact E1. rewrite E2. split; [done|]. split; [done|]. rewrite I2, N2, I1, N1, !u8_add, L2, S2, L1, S1.
    unfold sizes. rewrite fmap_cons, zlen_body_cons. split; [f_equal; lia|]. split; [|done]. f_equal. cbn [length]. lia.
Qed.

(** Lines that fit: they stand in the array one behind the other. *)
Lemma push_all_fit lines done_ s : zlen (array s) = 512 -> index s = total done_ -> item_num s = Z.of_nat (length done_) ->
  array s = Prelude.put (replicate 512 0) 2 (body done_) -> total (done_ ++ lines) <= 255 ->
  forM lines push s = Ret tt (Send (total (done_ ++ lines)) (Z.of_nat (length (done_ ++ lines)))
    (Prelude.put (replicate 512 0) 2 (body (done_ ++ lines))) (largeIndex s) (largeString s)).
Proof.
  revert done_ s. induction lines as [|l lines IH]; intros done_ s Ha Hi Hn Ep Ht.
  - rewrite app_nil_r in *. destruct s as [i n a li ls]. cbn in *. subst. done.
  - unfold total in *. assert (Hl : zlen (body done_) + 1 + zlen l + zlen (body lines) <= 253) by (rewrite body_app, zlen_app, zlen_body_cons in Ht; lia).
    pose proof (body_count done_). pose proof (zlen_nonneg (body done_)). pose proof (zlen_nonneg l). pose proof (zlen_nonneg (body lines)).
    cbn [forM]. erewrite bind_Ret by (apply push_spec; split; [done|lia]). rewrite kept_short by lia.
    replace (done_ ++ l :: lines) with ((done_ ++ [l]) ++ lines) by by rewrite <- app_assoc.
    assert (Eb : body (done_ ++ [l]) = body done_ ++ item_bytes l) by (rewrite body_app; f_equal; unfold body; cbn; by rewrite app_nil_r).
    assert (El : zlen (item_bytes l) = 1 + zlen l) by (unfold item_bytes; by rewrite zlen_cons).
    assert (Ez : zlen (replicate 512 0) = 512) by done.
    rewrite (IH (done_ ++ [l])); cbn [index item_num array largeIndex largeString]; [done|..].
    + rewrite zlen_put; lia.
    + rewrite Eb, zlen_app, u8_small by lia. lia.
    + rewrite u8_small, length_app by lia. cbn [length]. lia.
    + rewrite Ep, Hi, Eb. apply put_put; lia.
    + rewrite body_app, Eb, !zlen_app. lia.
Qed.

Definition array_start : send_array_t := Send SEND_DATA_START_POS 0 (replicate SEND_ARRAY_MAX_LEN 0) 0 (replicate LARGE_LEN 0).
(** The packed lines: their number of bytes, their number, the lines, and zeros. *)
Definition packing (lines : list (list Z)) : list Z :=
  [total lines; Z.of_nat (length lines)] ++ body lines ++ replicate (Z.to_nat (512 - total lines)) 0.

Lemma packed_unfold lines : packed lines = (forM lines push ;;; eng_push_finish ;;; eng_pop_array) array_start.
Proof. done. Qed.

Lemma finish_spec_pop s : array_ok s -> (eng_push_finish ;;; eng_pop_array) s =
  Ret (Prelude.put (array s) 0 [index s; item_num s], index s) (Send (index s) (item_num s) (Prelude.put (array s) 0 [index s; item_num s]) (largeIndex s) (largeString s)).
Proof.
  intros (Ha & _). unfold eng_push_finish, eng_pop_array. rewrite bind_assoc. rewrite (bind_Ret get _ s s s) by done. rewrite bind_assoc.
  erewrite bind_Ret by (unfold lift; rewrite store_ok by (change (zlen [index s; item_num s]) with 2; lia); done). erewrite bind_Ret by done.
  rewrite (bind_Ret get _ _ _ _) by done. cbn [array]. erewrite bind_Ret; [done|]. unfold lift.
  rewrite aget_put by (change (zlen [index s; item_num s]) with 2; lia). done.
Qed.

Lemma packing_put lines : total lines <= 255 -> Prelude.put (Prelude.put (replicate 512 0) 2 (body lines)) 0 [total lines; Z.of_nat (length lines)] = packing lines.
Proof.
  intros Ht. unfold total in *. pose proof (zlen_nonneg (body lines)). assert (Ez : zlen (replicate 512 0) = 512) by done.
  assert (Ez' : forall n, zlen (replicate (Z.to_nat n) 0) = Z.max 0 n) by (intros n; unfold zlen; rewrite length_replicate; lia).
  unfold packing, total. apply aget_ext. intros i. set (h := [2 + zlen (body lines); Z.of_nat (length lines)]). assert (Eh : zlen h = 2) by done.
  destruct (Z.ltb_spec i 0); [by rewrite !aget_None by lia|].
  rewrite aget_put by (rewrite ?zlen_put; lia). rewrite Eh, !aget_app by lia. rewrite Eh.
  destruct (Z.ltb_spec i 2) as [Hi|Hi].
  { rewrite (proj2 (Z.leb_le 0 i)), (proj2 (Z.ltb_lt i (0 + 2))) by lia. cbn [andb]. by rewrite Z.sub_0_r. }
  rewrite (proj2 (Z.ltb_ge i (0 + 2))), andb_false_r, aget_put by lia. rewrite aget_app by lia.
  rewrite (proj2 (Z.leb_le 2 i)) by lia. cbn [andb]. destruct (Z.ltb_spec i (2 + zlen (body lines))) as [Hb|Hb].
  - by rewrite (proj2 (Z.ltb_lt _ _)) by lia.
  - rewrite (proj2 (Z.ltb_ge _ _)) by lia. destruct (Z.ltb_spec i 512).
    + unfold aget. rewrite (proj2 (Z.leb_le 0 _)), (proj2 (Z.leb_le 0 (i - 2 - _))) by lia. rewrite !lookup_replicate_2; [done|lia|lia].
    + rewrite !aget_None; [done|right; rewrite Ez'; lia|lia].
Qed.

(** C25: Packing. Whatever the lines of an answer are, packing them stays inside
    the array; the two bytes of the header are the number of bytes and of lines
    modulo 256, where a line of more than 255 characters counts as its length
    modulo 256. When the lines with a byte for each fit 253 bytes, the array holds
    exactly the header, each line behind its length, and zeros. *)
Theorem lines_packed lines : exists content s, packed lines = Ret (content, u8 (2 + sizes lines)) s /\
  zlen content = 512 /\ aget content 0 = Some (u8 (2 + sizes lines)) /\ aget content 1 = Some (u8 (Z.of_nat (length lines))) /\
  (total lines <= 255 -> content = packing lines).
Proof.
  rewrite packed_unfold. assert (H0 : array_ok array_start) by done.
  destruct (push_all_ok lines array_start H0) as (s1 & E1 & O1 & I1 & N1 & _). change (index array_start) with 2 in I1. change (item_num array_start) with 0 in N1.
  eexists _, _. erewrite bind_Ret by exact E1. rewrite finish_spec_pop by done. rewrite I1, N1. split; [done|]. destruct O1 as (Ha & _).
  set (h := [u8 (2 + sizes lines); u8 (0 + Z.of_nat (length lines))]). assert (Eh : zlen h = 2) by done.
  split; [rewrite zlen_put; lia|]. split; [rewrite aget_put by lia; done|]. split; [rewrite aget_put by lia; done|].
  intros Ht. destruct (Z.le_gt_cases (total lines) 255); [|lia]. pose proof (push_all_fit lines [] array_start eq_refl eq_refl eq_refl eq_refl Ht) as E2.
  rewrite E1 in E2. injection E2 as ->. cbn [array index item_num app] in *. subst h. rewrite <- I1, Z.add_0_l.
  pose proof (body_count lines). unfold total in *. rewrite u8_small by lia. apply packing_put. done.
Qed.

(** ** Unpacking *)

(** A C string in a longer list. *)
Lemma cstring_app pre l post : no0 l -> In 0 post -> exists s, cstring (pre ++ l ++ post) (zlen pre) = Some (l ++ s).
Proof.
  intros Hl Hp. assert (Hs : exists s k, no0 s /\ post = s ++ 0 :: k).
  { clear Hl. induction post as [|c post IH]; [done|]. destruct (Z.eq_dec c 0) as [->|Hc]; [by exists [], post; split; [constructor|]|].
    destruct Hp as [Hp|Hp]; [done|]. destruct (IH Hp) as (s & k & Hs & ->). exists (c :: s), k. split; [by constructor|done]. }
  destruct Hs as (s & k & Hs & ->). exists s. apply text_cstring. split; [by apply Forall_app|]. exists pre, k. by rewrite <- app_assoc.
Qed.

Lemma load_item_spec size pre l post r : no0 l -> In 0 post -> zlen l < size ->
  load_item size (pre ++ l ++ post) (zlen pre) (zlen l) r =
  Ret tt (Resp (Tok (l ++ replicate (Z.to_nat (size - zlen l)) 0) (Some 0)) (r_out r)).
Proof.
  intros Hl Hp Hs. destruct (cstring_app pre l post Hl Hp) as [s Es]. unfold load_item. erewrite bind_Ret by (unfold lift; rewrite Es; done).
  assert (Et : take (Z.to_nat (zlen l)) (l ++ s) = l) by (unfold zlen; by rewrite Nat2Z.id, take_app_length).
  cbv beta zeta. rewrite Et. rewrite (proj2 (Z.ltb_lt _ _)) by done. by erewrite bind_Ret by done.
Qed.
Lemma item_text size l : no0 l -> zlen l < size -> text_at (l ++ replicate (Z.to_nat (size - zlen l)) 0) 0 l.
Proof.
  intros Hl Hs. split; [done|]. destruct (Z.to_nat (size - zlen l)) as [|n] eqn:E; [lia|]. by exists [], (replicate n 0).
Qed.

(** A body of the loop that appends a text [o] to what was written, for a line
    [l] with [R l o], whatever the variables hold. *)
Definition reports {A} (body_ : A -> M resp A) (size : Z) (R : list Z -> list Z -> Prop) : Prop :=
  forall v l o out, no0 l -> R l o -> zlen l < size -> zlen out + zlen o < OUT_LEN ->
  wp no_fault (body_ v) (fun _ r => r_out r = out ++ o) (fun _ => False) (Resp (Tok (l ++ replicate (Z.to_nat (size - zlen l)) 0) (Some 0)) out).

Section Items.
Context {A : Type} (body_ : A -> M resp A) (size : Z) (R : list Z -> list Z -> Prop) (Hb : reports body_ size R).

Lemma items_from_spec lines outs : Forall2 R lines outs ->
  forall pre post v t out, Forall no0 lines -> Forall (fun l => zlen l < size) lines -> In 0 post ->
  zlen (out ++ concat outs) < OUT_LEN -> exists t',
  items_from (length lines) size (pre ++ body lines ++ post) (zlen pre) v body_ (Resp t out) = Ret tt (Resp t' (out ++ concat outs)).
Proof.
  intros HR. induction HR as [|l o lines outs Hlo HR IH]; intros pre post v t out H0 Hsz Hp Hout; [exists t; by rewrite app_nil_r|].
  apply Forall_cons in H0 as [Hl0 H0]. apply Forall_cons in Hsz as [Hlsz Hsz].
  cbn [length items_from concat] in *. pose proof (zlen_nonneg pre). pose proof (zlen_nonneg l).
  rewrite body_cons. unfold item_bytes. erewrite bind_Ret.
  2: { unfold lift. rewrite aget_app by lia. rewrite (proj2 (Z.ltb_ge _ _)), Z.sub_diag by lia. done. }
  replace (pre ++ ((zlen l :: l) ++ body lines) ++ post) with ((pre ++ [zlen l]) ++ l ++ (body lines ++ post)) by (cbn [app]; by rewrite <- !app_assoc).
  replace (zlen pre + 1) with (zlen (pre ++ [zlen l])) by (rewrite zlen_app; done).
  erewrite bind_Ret by (apply load_item_spec; [done|apply in_or_app; by right|done]).
  rewrite !zlen_app in Hout. pose proof (zlen_nonneg (concat outs)).
  pose proof (Hb v l o out Hl0 Hlo Hlsz ltac:(lia)) as Hw. unfold wp in Hw. cbn [r_out].
  destruct (body_ v _) as [v' [t1 o1]|s1|f] eqn:E1; [|done|done]. cbn in Hw. subst o1. erewrite bind_Ret by exact E1.
  replace ((pre ++ [zlen l]) ++ l ++ body lines ++ post) with ((pre ++ [zlen l] ++ l) ++ body lines ++ post) by (by rewrite <- !app_assoc).
  replace (zlen (pre ++ [zlen l]) + zlen l) with (zlen (pre ++ [zlen l] ++ l)) by (rewrite !zlen_app; lia).
  destruct (IH (pre ++ [zlen l] ++ l) post v' t1 (out ++ o)) as (t2 & E2); try done; [by rewrite !zlen_app; lia|]. exists t2. rewrite E2. by rewrite <- app_assoc.
Qed.

Lemma items_spec v lines outs : Forall2 R lines outs -> total lines <= 255 ->
  Forall no0 lines -> Forall (fun l => zlen l < size) lines -> zlen (concat outs) < OUT_LEN ->
  exists t, items size (packing lines) v body_ resp_init = Ret (zlen (concat outs)) (Resp t (concat outs)).
Proof.
  intros HR Ht H0 Hsz Hout. unfold items. erewrite bind_Ret by done. cbv beta. rewrite Nat2Z.id.
  destruct (items_from_spec lines outs HR [total lines; Z.of_nat (length lines)] (replicate (Z.to_nat (512 - total lines)) 0) v (Tok [] None) []) as (t & E); try done.
  { destruct (Z.to_nat (512 - total lines)) eqn:En; [lia|]. by left. }
  unfold resp_init, packing. erewrite bind_Ret by exact E. rewrite (bind_Ret get _ _ _ _) by done. by exists t.
Qed.

End Items.

(** ** Rows of numbers *)

Lemma wp_skip_prefix F t out name k (Q : unit -> resp -> Prop) E : left_ t (Some (name ++ 58 :: k)) -> Forall (fun c => c <> 58) name ->
  (forall t', left_ t' (Some k) -> Q tt (Resp t' out)) -> wp F skip_prefix Q E (Resp t out).
Proof.
  intros H Hn HQ. destruct (start_ref t _ H) as (t' & Es & _ & L). unfold skip_prefix, on_tok. wp_step. apply wp_zoom. cbn [r_tok r_out]. unfold wp. rewrite Es. cbn.
  apply HQ. cbn [ref_start mbind option_bind] in L. pose proof (f_equal snd (cut_word 58 name (58 :: k) Hn eq_refl)) as Ec. cbn [cut snd] in Ec. by rewrite Ec in L.
Qed.
Lemma wp_nextint F t out old sp v l (Q : option Z -> resp -> Prop) E : left_ t (Some (sp ++ fields (v :: l))) -> spaces sp -> int32 v ->
  (forall t', left_ t' (fields_left l) -> Q (Some v) (Resp t' out)) -> wp F (nextint old) Q E (Resp t out).
Proof.
  intros H Hsp Hv HQ. destruct (nextint_base_ref 10 false t _ H) as (t' & Es & _ & L). rewrite fields_cons in Es, L.
  rewrite next_int in Es, L; [|done|done|by destruct l|done|done|by destruct l].
  unfold nextint, on_tok. wp_step. apply wp_zoom. cbn [r_tok r_out]. unfold wp, at_tok_nextint. rewrite Es. cbn. apply HQ. by destruct l.
Qed.
Lemma wp_nextint' F t out old v l (Q : option Z -> resp -> Prop) E : left_ t (fields_left (v :: l)) -> int32 v ->
  (forall t', left_ t' (fields_left l) -> Q (Some v) (Resp t' out)) -> wp F (nextint old) Q E (Resp t out).
Proof. intros H Hv. by apply (wp_nextint F t out old []); [|constructor|]. Qed.
Lemma wp_sprintf F t out ps b (Q : unit -> resp -> Prop) E : pieces_bytes (tbuf t) ps (Resp t out) = Ret b (Resp t out) ->
  zlen out + zlen b < OUT_LEN -> Q tt (Resp t (out ++ b)) -> wp F (sprintf ps) Q E (Resp t out).
Proof.
  intros Eb Hl HQ. unfold sprintf. wp_step. wp_step. wp_step. unfold wp at 1. cbn [r_tok]. rewrite Eb. wp_step. cbn [r_out].
  rewrite (proj2 (Z.ltb_lt _ _)) by done. wp_step. by wp_step.
Qed.

(** A row: a name, a colon, and numbers. *)
Definition row (vs : list Z) (l : list Z) : Prop :=
  exists name sp, Forall (fun c => c <> 0 /\ c <> 58) name /\ spaces sp /\ Forall int32 vs /\ l = name ++ 58 :: sp ++ fields vs.
Lemma named_row (name : String.string) vs : forallb (fun c => negb (c =? 0) && negb (c =? 58)) (str name) = true -> Forall int32 vs ->
  row vs (str name ++ 58 :: [32] ++ fields vs).
Proof.
  intros Hn Hvs. exists (str name), [32]. split; [|split; [by repeat constructor|done] ]. apply List.Forall_forall. intros c Hc.
  apply List.forallb_forall with (x := c) in Hn; [|done]. apply andb_true_iff in Hn as [H1 H2]. apply negb_true_iff, Z.eqb_neq in H1. by apply negb_true_iff, Z.eqb_neq in H2.
Qed.
(** The numbers as they are reported, with a comma behind each. *)
Definition listed (vs : list Z) : list Z := concat ((fun v => print_int v ++ [44]) <$> vs).

(** The responses that report rows: how many numbers a row has, and which of them
    are reported. *)
Definition row_responses : list ((list Z -> M resp Z) * nat * (list Z -> list Z)) :=
  [(eng_ResponseGetSpPsrate, 3%nat, id); (eng_ResponseSPTest, 2%nat, id);
   (eng_ResponseSPFRQ, 4%nat, fun l => match l with [a; _; c; d] => [a; c; c; d] | _ => [] end)].
Definition row_text (k : nat) (g : list Z -> list Z) (l o : list Z) : Prop := exists vs, length vs = k /\ row vs l /\ o = listed (g vs).

Ltac row_body :=
  intros v l o out H0 (vs & Hk & (name & sp & Hname & Hsp & Hvs & El) & Eo) Hsz Hout;
  assert (Hl : left_ (Tok (l ++ replicate (Z.to_nat (128 - zlen l)) 0) (Some 0)) (Some (name ++ 58 :: sp ++ fields vs)))
    by (rewrite <- El; exists 0; split; [done|by apply item_text]);
  repeat (destruct vs as [|? vs]; [try discriminate Hk|]; try discriminate Hk);
  repeat match goal with H : Forall int32 (_ :: _) |- _ => apply Forall_cons in H as [? ?] end;
  repeat match goal with |- wp _ (let '(_, _) := ?x in _) _ _ _ => destruct x | v : (_ * _)%type |- _ => destruct v end;
  wp_step; eapply wp_skip_prefix; [exact Hl|eapply Forall_impl; [exact Hname|]; intros ? [_ ?]; done|intros ? ?]; wp_step;
  eapply wp_nextint; [eassumption|exact Hsp|assumption|intros ? ?]; cbv beta;
  repeat (wp_step; eapply wp_nextint'; [eassumption|assumption|intros ? ?]; cbv beta);
  wp_step; apply wp_sprintf with (b := o); [rewrite Eo; unfold listed, id; cbn [fmap list_fmap concat]; rewrite <- ?app_assoc; reflexivity|exact Hout|by wp_step].

(** What the three loops report. *)
Lemma rates_report : reports (fun '(type, ul, dl) =>
    skip_prefix ;;; type <- nextint type ;; ul <- nextint ul ;; dl <- nextint dl ;;
    sprintf [D type; T ","; D ul; T ","; D dl; T ","] ;;; ret (type, ul, dl)) 128 (row_text 3 id).
Proof. row_body. Qed.
Lemma tests_report : reports (fun '(type, value) =>
    skip_prefix ;;; type <- nextint type ;; value <- nextint value ;;
    sprintf [D type; T ","; D value; T ","] ;;; ret (type, value)) 128 (row_text 2 id).
Proof. row_body. Qed.
Lemma freqs_report : reports (fun '(freq, cell_id1, cell_id2, cell_id3) =>
    skip_prefix ;;; freq <- nextint freq ;; cell_id1 <- nextint cell_id1 ;; cell_id2 <- nextint cell_id2 ;; cell_id3 <- nextint cell_id3 ;;
    sprintf [D freq; T ","; D cell_id2; T ","; D cell_id2; T ","; D cell_id3; T ","] ;;; ret (freq, cell_id1, cell_id2, cell_id3)) 128
  (row_text 4 (fun l => match l with [a; _; c; d] => [a; c; c; d] | _ => [] end)).
Proof. row_body. Qed.

Lemma fields_no0 vs : Forall int32 vs -> no0 (fields vs).
Proof.
  intros Hvs. induction Hvs as [|v vs Hv Hvs IH]; [constructor|]. rewrite fields_cons. apply Forall_app. split.
  - eapply Forall_impl; [by apply print_int_plain|]. intros c Hc. by apply plain_not.
  - destruct vs; [constructor|]. by constructor.
Qed.
Lemma row_no0 vs l : row vs l -> no0 l.
Proof.
  intros (name & sp & Hn & Hsp & Hvs & ->). apply Forall_app. split; [eapply Forall_impl; [exact Hn|]; by intros c [Hc _]|].
  constructor; [done|]. apply Forall_app. split; [eapply Forall_impl; [exact Hsp|]; intros c Hc ->; done|by apply fields_no0].
Qed.

(** The lines of rows, and what is reported of them. *)
Definition rows (k : nat) (table : list (list Z)) (lines : list (list Z)) : Prop := Forall2 (fun vs l => length vs = k /\ row vs l) table lines.

Lemma rows_texts k g table lines : rows k table lines ->
  Forall2 (row_text k g) lines ((fun vs => listed (g vs)) <$> table) /\ Forall no0 lines.
Proof.
  intros H. induction H as [|vs l table lines [Hk Hr] H [IH1 IH2] ]; [done|]. cbn [fmap list_fmap]. split; constructor; try done; [by exists vs|by eapply row_no0].
Qed.

Lemma rows_made f k g table lines : In (f, k, g) row_responses -> rows k table lines -> total lines <= 255 ->
  Forall (fun l => zlen l < 128) lines -> zlen (concat ((fun vs => listed (g vs)) <$> table)) < OUT_LEN ->
  exists t, f (packing lines) resp_init = Ret (zlen (concat ((fun vs => listed (g vs)) <$> table))) (Resp t (concat ((fun vs => listed (g vs)) <$> table))).
Proof.
  intros Hin Hr Ht Hsz Hout. destruct (rows_texts k g table lines Hr) as [Htx H0].
  destruct Hin as [[= <- <- <-]|[[= <- <- <-]|[[= <- <- <-]|[] ] ] ].
  - exact (items_spec _ _ _ rates_report _ _ _ Htx Ht H0 Hsz Hout).
  - exact (items_spec _ _ _ tests_report _ _ _ Htx Ht H0 Hsz Hout).
  - exact (items_spec _ _ _ freqs_report _ _ _ Htx Ht H0 Hsz Hout).
Qed.

(** C24: Rows of numbers. An answer to a query of the rates or of the test values,
    lines of a name, a colon and the numbers, which fit the array: they are packed,
    and the response lists all their numbers, in order. Of the locked frequencies
    it lists the second cell twice, and not the first one. *)
Theorem rows_reported f k g table lines : In (f, k, g) row_responses -> rows k table lines -> total lines <= 255 ->
  Forall (fun l => zlen l < 128) lines -> zlen (concat ((fun vs => listed (g vs)) <$> table)) < OUT_LEN ->
  exists content s r, packed lines = Ret (content, total lines) s /\
    f content resp_init = Ret (zlen (r_out r)) r /\ r_out r = concat ((fun vs => listed (g vs)) <$> table).
Proof.
  intros Hin Hr Ht Hsz Hout. rewrite packed_unfold. pose proof (push_all_fit lines [] array_start eq_refl eq_refl eq_refl eq_refl Ht) as E1.
  destruct (rows_made f k g table lines Hin Hr Ht Hsz Hout) as (t & E). pose proof (body_count lines). pose proof (zlen_nonneg (body lines)).
  assert (Hok : array_ok (Send (total lines) (Z.of_nat (length lines)) (Prelude.put (replicate 512 0) 2 (body lines)) 0 (replicate LARGE_LEN 0))).
  { unfold total in *. split; [|cbn [index item_num]; lia]. cbn [array]. assert (Ez : zlen (replicate 512 0) = 512) by done. rewrite zlen_put; lia. }
  exists (packing lines). eexists _, (Resp t (concat ((fun vs => listed (g vs)) <$> table))). erewrite bind_Ret by exact E1.
  split; [|by split]. cbn [app]. pose proof (finish_spec_pop _ Hok) as Ef. cbn [array index item_num] in Ef. rewrite packing_put in Ef by done. exact Ef.
Qed.

Lemma rows_reported_witness : exists content s r, packed [str "+SPPSRATE: 0,64,128"; str "+SPPSRATE: 1,-1,384"] = Ret (content, 42) s /\
    eng_ResponseGetSpPsrate content resp_init = Ret (zlen (r_out r)) r /\ r_out r = str "0,64,128,1,-1,384,".
Proof.
  apply (rows_reported eng_ResponseGetSpPsrate 3 id [[0; 64; 128]; [1; -1; 384] ]).
  - by left.
  - apply List.Forall2_cons; [split; [done|]|apply List.Forall2_cons; [split; [done|]|apply List.Forall2_nil] ];
      apply (named_row "+SPPSRATE"); (done || (repeat (apply List.Forall_cons; [done|]); apply List.Forall_nil)).
  - vm_compute. discriminate.
  - repeat (apply List.Forall_cons; [done|]). apply List.Forall_nil.
  - vm_compute. reflexivity.
Defined.
