(* ===== verification/EngLine.v ===== *)
(** * The lines of the modem

    src/common/apps/engineeringmodel/engcs/eng_modemclient.c: [eng_readline]
    cuts what the modem's device delivers into lines; a few tests say what a
    line is. The device is a script of what its [read] finds. *)
From stdpp Require Import base list.
From Stdlib Require Import ZArith Lia.
From Stdlib Require Import (notations) String.
From S2P Require Import Prelude EngTok.

(** ** Definitions *)

Definition ENG_BUF_LEN : Z := 2048.

(** *** The device *)

(** What a call of [read] finds: bytes (those that do not fit stay for the next
    call; no bytes are the end), an interruption by a signal, or an error. *)
Inductive event := Data (l : list Z) | Interrupted | NoData.

(** [s_ATBuffer], the offset [s_ATBufferCur] in it, and the events to come. *)
Record port := Port { s_ATBuffer : list Z; s_ATBufferCur : Z; events : list event }.
Definition set_buf (b : list Z) : M port unit := modify (fun s => Port b (s_ATBufferCur s) (events s)).
Definition set_atcur (c : Z) : M port unit := modify (fun s => Port (s_ATBuffer s) c (events s)).
Definition set_events (e : list event) : M port unit := modify (fun s => Port (s_ATBuffer s) (s_ATBufferCur s) e).

(** [read] and the loop around it while it is interrupted: the bytes, [None] for
    [count <= 0]. When the script is over there is no data any more. *)
Fixpoint read_events (room : Z) (es : list event) : option (list Z) * list event :=
  match es with
  | [] => (None, [])
  | Interrupted :: es => read_events room es
  | NoData :: es => (None, es)
  | Data [] :: es => (None, es)
  | Data l :: es =>
      if zlen l <=? room then (Some l, es)
      else (Some (take (Z.to_nat room) l), Data (drop (Z.to_nat room) l) :: es)
  end.
Definition sys_read (room : Z) : M port (option (list Z)) :=
  s <- get ;;
  let '(r, es) := read_events room (events s) in
  set_events es ;;; ret r.

(** *** Lines *)

Definition newline (c : Z) : bool := (c =? 13) || (c =? 10).

(** [*p == c], where [p] may be anything. *)
Definition char_is (buf : list Z) (p c : Z) : option bool := x ← aget buf p; Some (x =? c).

Definition findNextEOL (buf : list Z) (cur : Z) : option (option Z) :=
  a ← char_is buf cur 62;
  b ← (if a : bool then char_is buf (cur + 1) 32 else Some false);
  c ← (if b : bool then char_is buf (cur + 2) 0 else Some false);
  if c : bool then Some (Some (cur + 2)) else
  n ← scan (fun c => (c =? 0) || newline c) (from buf cur);
  x ← aget buf (cur + n);
  Some (if x =? 0 then None else Some (cur + n)).

(** Over leading newlines. *)
Definition skip_newlines : M port unit :=
  s <- get ;;
  n <- lift OutOfBounds (scan (fun c => negb (newline c)) (from (s_ATBuffer s) (s_ATBufferCur s))) ;;
  set_atcur (s_ATBufferCur s + n).

(** [s_ATBufferCur = s_ATBuffer; *s_ATBufferCur = '\0';] *)
Definition ditch : M port unit :=
  s <- get ;;
  b <- lift OutOfBounds (aset (s_ATBuffer s) 0 0) ;;
  set_buf b ;;; set_atcur 0.

(** The loop that reads until a line is complete: its end, if it got one. *)
Fixpoint read_loop (fuel : nat) (p_read : Z) : M port (option Z) :=
  match fuel with
  | O => bad OutOfFuel
  | S fuel =>
      p_read <- (if ENG_BUF_LEN - p_read =? 0 then ditch ;;; ret 0 else ret p_read) ;;
      r <- sys_read (ENG_BUF_LEN - p_read) ;;
      match r with
      | None => ret None
      | Some bytes =>
          s <- get ;;
          b <- lift OutOfBounds (store (s_ATBuffer s) p_read bytes) ;;
          b <- lift OutOfBounds (aset b (p_read + zlen bytes) 0) ;;
          set_buf b ;;;
          skip_newlines ;;;
          s <- get ;;
          p_eol <- lift OutOfBounds (findNextEOL (s_ATBuffer s) (s_ATBufferCur s)) ;;
          match p_eol with
          | Some e => ret (Some e)
          | None => read_loop fuel (p_read + zlen bytes)
          end
      end
  end.

(** Each round of the loop takes an event or at least a byte of one. *)
Definition event_size (e : event) : nat := match e with Data l => S (length l) | _ => 1 end.
Definition load (es : list event) : nat := list_sum (event_size <$> es).

(** The offset of the line, which a NUL ends. *)
Definition eng_readline : M port (option Z) :=
  s <- get ;;
  c <- lift OutOfBounds (aget (s_ATBuffer s) (s_ATBufferCur s)) ;;
  start <- (if c =? 0 then ditch ;;; ret (inl 0)
            else
              skip_newlines ;;;
              s <- get ;;
              p_eol <- lift OutOfBounds (findNextEOL (s_ATBuffer s) (s_ATBufferCur s)) ;;
              match p_eol with
              | Some e => ret (inr e)
              | None =>
                  line <- lift OutOfBounds (cstring (s_ATBuffer s) (s_ATBufferCur s)) ;;
                  b <- lift OutOfBounds (store (s_ATBuffer s) 0 (line ++ [0])) ;;
                  set_buf b ;;; set_atcur 0 ;;; ret (inl (zlen line))
              end) ;;
  p_eol <- match start with
           | inr e => ret (Some e)
           | inl p_read => s <- get ;; read_loop (S (load (events s))) p_read
           end ;;
  match p_eol with
  | None => ret None
  | Some e =>
      s <- get ;;
      b <- lift OutOfBounds (aset (s_ATBuffer s) e 0) ;;
      set_buf b ;;; set_atcur (e + 1) ;;; ret (Some (s_ATBufferCur s))
  end.

(** *** What a line is *)

(** [strStartsWith] on strings without their NUL. *)
Fixpoint strStartsWith (line prefix : list Z) : bool :=
  match line, prefix with
  | a :: line, b :: prefix => if a =? b then strStartsWith line prefix else false
  | _, [] => true
  | [], _ :: _ => false
  end.

Definition s_finalResponsesError : list (list Z) :=
  [str "ERROR"; str "+CMS ERROR:"; str "+CME ERROR:"; str "NO CARRIER"; str "NO ANSWER"; str "NO DIALTONE"].
Definition isFinalResponseError (line : list Z) : bool := existsb (strStartsWith line) s_finalResponsesError.
Definition s_finalResponsesSuccess : list (list Z) := [str "OK"; str "CONNECT"].
Definition isFinalResponseSuccess (line : list Z) : bool := existsb (strStartsWith line) s_finalResponsesSuccess.
Definition s_finalResponse : list (list Z) := [str "OK"; str "ERROR"].
Definition isFinalResponse (line : list Z) : bool := existsb (strStartsWith line) s_finalResponse.

(** *** Answers that are passed on as they come *)

Definition s_AllResponse : list (list Z) :=
  [str "OK"; str "CONNECT"; str "ERROR"; str "+CMS ERROR:"; str "+CME ERROR:"; str "NO CARRIER"; str "NO ANSWER"; str "NO DIALTONE"; str ">"].

(** The offset of the last occurrence of [needle], counted from [i]. *)
Fixpoint rstrstr_from (i : Z) (haystack needle : list Z) : option Z :=
  match haystack with
  | [] => None
  | _ :: h =>
      match rstrstr_from (i + 1) h needle with
      | Some r => Some r
      | None => if strStartsWith haystack needle then Some i else None
      end
  end.
Definition rstrstr (haystack needle : list Z) : option Z :=
  match needle with [] => Some 0 | _ => rstrstr_from 0 haystack needle end.

Definition two (data : list Z) (i a b : Z) : bool :=
  match aget data i, aget data (i + 1) with Some x, Some y => (x =? a) && (y =? b) | _, _ => false end.
(** A final response between two line ends; what ends the data may also be a
    blank and a newline. *)
Definition ends_with_response (data : list Z) (r : list Z) : bool :=
  match rstrstr data r with
  | None => false
  | Some p =>
      (if 2 <=? p then two data (p - 2) 10 13 || two data (p - 2) 13 10 else false) &&
      (two data (zlen data - 2) 13 10 || two data (zlen data - 2) 32 10 || two data (zlen data - 2) 10 13)
  end.
Definition isAtNoHandleEnd (data : list Z) : bool := existsb (ends_with_response data) s_AllResponse.

(** A line in two parts, and a prompt: the cursor is behind the end of what was
    read then, so that a byte of an earlier line follows. *)
Definition port_start (es : list event) : port := Port (replicate (Z.to_nat ENG_BUF_LEN) 0) 0 es.
Fixpoint read_lines (n : nat) : M port (list (list Z)) :=
  match n with
  | O => ret []
  | S n =>
      r <- eng_readline ;;
      match r with
      | None => ret []
      | Some p => s <- get ;; line <- lift OutOfBounds (cstring (s_ATBuffer s) p) ;; l <- read_lines n ;; ret (line :: l)
      end
  end.
Definition result_lines (n : nat) (es : list event) : option (list (list Z)) :=
  match read_lines n (port_start es) with Ret l _ => Some l | _ => None end.
Example parts : result_lines 9 [Data ([13; 10] ++ str "+CG"); Data (str "MR: 1" ++ [13; 10; 13; 10]); Interrupted; Data (str "OK" ++ [13])]
  = Some [str "+CGMR: 1"; str "OK"].
Proof. vm_compute. done. Qed.
Example after_prompt : result_lines 3 [Data (str "+CGSN" ++ [13]); Data (str "> "); Data (str "OK" ++ [13])] = Some [str "+CGSN"; str "> "; str "SNOK"].
Proof. vm_compute. done. Qed.
