(* ===== verification/EngLineProofs.v ===== *)
(** * However the modem's bytes arrive

    The theorems on EngLine.v. The reference cuts the whole stream of bytes at
    its line ends; [eng_readline] gives the same lines however the stream is
    cut into chunks, as long as the buffer has room and no prompt comes. *)
From stdpp Require Import base list.
From Stdlib Require Import ZArith Lia.
From Stdlib Require Import (notations) String.
From S2P Require Import Prelude EngTok EngTokProofs EngLine.

(** ** The reference *)

Fixpoint lines_from (line s : list Z) : list (list Z) :=
  match s with
  | [] => []
  | c :: s =>
      if newline c then match line with [] => lines_from [] s | _ => line :: lines_from [] s end
      else lines_from (line ++ [c]) s
  end.
(** The complete lines of a stream, without the empty ones. *)
Definition lines_of (s : list Z) : list (list Z) := lines_from [] s.

Definition text (c : Z) : bool := negb (newline c).
(** The first line of a stream, and what follows it. *)
Definition next_line (s : list Z) : option (list Z * list Z) :=
  r ← after (since newline (since text s)); Some (until newline (since text s), r).

Lemma lines_from_line line s : line <> [] ->
  lines_from line s = match since newline s with [] => [] | _ :: r => (line ++ until newline s) :: lines_of r end.
Proof.
  revert line. induction s as [|c s IH]; intros line Hl; [done|]. cbn [lines_from since until]. destruct (newline c).
  - rewrite app_nil_r. by destruct line.
  - rewrite IH by by destruct line. destruct (since newline s); [done|]. by rewrite <- app_assoc.
Qed.
Lemma lines_of_next s : lines_of s = match next_line s with Some (l, r) => l :: lines_of r | None => [] end.
Proof.
  unfold next_line. induction s as [|c s IH]; [done|]. unfold lines_of. cbn [lines_from since]. unfold text at 1 3. destruct (newline c) eqn:Ec; cbn [negb].
  - exact IH.
  - cbn [app since until]. rewrite Ec. rewrite lines_from_line by done. by destruct (since newline s).
Qed.

Definition event_bytes (e : event) : list Z := match e with Data l => l | _ => [] end.
Definition flat (es : list event) : list Z := concat (event_bytes <$> es).

(** A stream in which no line, with the line ends in front of it, is longer than
    [L], and none starts like a prompt. *)
Inductive calm (L : Z) : list Z -> Prop :=
  | calm_end s : next_line s = None -> zlen s <= L -> strStartsWith (since text s) (str "> ") = false -> calm L s
  | calm_line s l r : next_line s = Some (l, r) -> zlen s - zlen r <= L + 1 -> strStartsWith (since text s) (str "> ") = false ->
      calm L r -> calm L s.

(** ** Streams *)

Definition newlines (l : list Z) : Prop := Forall (fun c => newline c = true) l.
Definition texts (l : list Z) : Prop := Forall (fun c => newline c = false) l.

Lemma since_app_skip P l k : Forall (fun c => P c = false) l -> since P (l ++ k) = since P k /\ until P (l ++ k) = l ++ until P k.
Proof. intros H. induction H as [|c l Hc H [IH1 IH2] ]; [done|]. cbn [app since until]. rewrite Hc. split; [done|]. by rewrite IH2. Qed.
Lemma newlines_text l : newlines l <-> Forall (fun c => text c = false) l.
Proof. unfold newlines. rewrite !Forall_forall. split; intros H c Hc; specialize (H c Hc); unfold text in *; by destruct (newline c). Qed.
Lemma until_all P s : Forall (fun c => P c = false) (until P s).
Proof. induction s as [|c s IH]; [done|]. cbn [until]. destruct (P c) eqn:E; [done|]. by constructor. Qed.
Lemma since_nil P s : since P s = [] -> Forall (fun c => P c = false) s.
Proof. intros E. pose proof (until_all P s) as H. pose proof (until_since P s) as Eu. rewrite E, app_nil_r in Eu. by rewrite <- Eu. Qed.

Lemma since_idem P s : since P (since P s) = since P s.
Proof. induction s as [|c s IH]; [done|]. cbn [since]. destruct (P c) eqn:E; [|done]. cbn [since]. by rewrite E. Qed.
Lemma next_line_skip s : next_line (since text s) = next_line s.
Proof. unfold next_line. by rewrite since_idem. Qed.
Lemma since_length P s : zlen (since P s) <= zlen s.
Proof. pose proof (until_since P s) as E. rewrite <- E at 2. rewrite zlen_app. pose proof (zlen_nonneg (until P s)). lia. Qed.

Lemma calm_skip L sk s : newlines sk -> calm L (sk ++ s) -> calm L s.
Proof.
  intros Hsk H. apply newlines_text in Hsk. assert (E : since text (sk ++ s) = since text s) by by apply since_app_skip.
  assert (En : next_line (sk ++ s) = next_line s) by (rewrite <- next_line_skip, E; apply next_line_skip). pose proof (zlen_nonneg sk).
  inversion H as [s0 Hn Hl Hp|s0 l r Hn Hl Hp Hr]; subst; rewrite En, E, zlen_app in *.
  - apply calm_end; [done|lia|done].
  - eapply calm_line; [done|lia|done|done].
Qed.
Lemma calm_prompt L s : calm L s -> strStartsWith (since text s) (str "> ") = false.
Proof. by intros []. Qed.

(** What is read of a line before its end. *)
Lemma calm_room L sk t k : newlines sk -> texts t -> calm L (sk ++ t ++ k) -> zlen sk + zlen t <= L.
Proof.
  intros Hsk Ht H. apply newlines_text in Hsk. destruct (decide (t = [])) as [->|Hne].
  - inversion H as [s0 Hn Hl Hp|s0 l r Hn Hl Hp Hr]; subst; rewrite !zlen_app, ?zlen_nil in *; pose proof (zlen_nonneg k); [lia|].
    cbn [app] in *. unfold next_line in Hn. rewrite (proj1 (since_app_skip text sk k Hsk)) in Hn. pose proof (since_length text k).
    destruct (since newline (since text k)) as [|c r'] eqn:E; [done|]. cbn in Hn. injection Hn as _ <-. pose proof (since_length newline (since text k)) as Hs.
    rewrite E, zlen_cons in Hs. lia.
  - assert (E1 : since text (sk ++ t ++ k) = t ++ k).
    { rewrite (proj1 (since_app_skip text sk _ Hsk)). destruct Ht as [|c t Hc Ht]; [done|]. cbn [app since]. unfold text. by rewrite Hc. }
    inversion H as [s0 Hn Hl Hp|s0 l r Hn Hl Hp Hr]; subst; rewrite !zlen_app in *; pose proof (zlen_nonneg k); [lia|].
    unfold next_line in Hn. rewrite E1, (proj1 (since_app_skip newline t k Ht)) in Hn. pose proof (since_length newline k) as Hs.
    destruct (since newline k) as [|c r']; [done|]. cbn in Hn. injection Hn as _ <-. rewrite zlen_cons in Hs. lia.
Qed.

(** ** The buffer *)

Lemma text_copy buf p s : text_at buf p s -> exists b, store buf 0 (s ++ [0]) = Some b /\ zlen b = zlen buf /\ text_at b 0 s.
Proof.
  intros H. pose proof (text_range _ _ _ H) as [Hp Hr]. pose proof (zlen_nonneg s). exists (Prelude.put buf 0 (s ++ [0])).
  assert (El : zlen (s ++ [0]) = zlen s + 1) by (rewrite zlen_app; done).
  split; [apply store_ok; lia|]. split; [apply zlen_put; lia|]. apply text_at_spec. split; [apply H|]. split; [lia|]. split.
  - intros k c Hk. pose proof (lookup_lt_Some _ _ _ Hk). rewrite aget_put by lia. rewrite (proj2 (Z.leb_le 0 _)), (proj2 (Z.ltb_lt _ (0 + _))) by (unfold zlen in *; lia).
    cbn [andb]. replace (0 + Z.of_nat k - 0) with (Z.of_nat k) by lia. by rewrite aget_nat, lookup_app_l.
  - rewrite aget_put by lia. rewrite (proj2 (Z.leb_le 0 _)), (proj2 (Z.ltb_lt _ (0 + zlen (s ++ [0])))) by lia. cbn [andb].
    rewrite aget_app by lia. rewrite (proj2 (Z.ltb_ge _ _)) by lia. by replace (0 + zlen s - 0 - zlen s) with 0 by lia.
Qed.

Lemma text_append buf p s bytes : text_at buf p s -> no0 bytes -> p + zlen s + zlen bytes < zlen buf -> exists b b',
  store buf (p + zlen s) bytes = Some b /\ aset b (p + zlen s + zlen bytes) 0 = Some b' /\ zlen b' = zlen buf /\ text_at b' p (s ++ bytes).
Proof.
  intros H Hb Hr. pose proof (text_range _ _ _ H) as [Hp _]. pose proof (zlen_nonneg s). pose proof (zlen_nonneg bytes).
  exists (Prelude.put buf (p + zlen s) bytes), (Prelude.put buf (p + zlen s) (bytes ++ [0])).
  assert (El : zlen (bytes ++ [0]) = zlen bytes + 1) by (rewrite zlen_app; done).
  split; [apply store_ok; lia|]. split; [rewrite aset_put by (rewrite zlen_put; lia); f_equal; apply put_put; change (zlen [0]) with 1; lia|].
  split; [apply zlen_put; lia|]. apply text_at_spec in H as (Hs0 & _ & Hs & _). apply text_at_spec. split; [by apply Forall_app|]. split; [done|]. split.
  - intros k c Hk. apply lookup_app_Some in Hk as [Hk|[Hge Hk] ].
    + pose proof (lookup_lt_Some _ _ _ Hk). rewrite aget_put by lia. rewrite (proj2 (Z.leb_gt _ _)) by (unfold zlen in *; lia). cbn [andb]. by apply Hs.
    + pose proof (lookup_lt_Some _ _ _ Hk). rewrite aget_put by lia. unfold zlen in *.
      rewrite (proj2 (Z.leb_le _ _)), (proj2 (Z.ltb_lt _ _)) by lia. cbn [andb].
      replace (p + Z.of_nat k - (p + Z.of_nat (length s))) with (Z.of_nat (k - length s)) by lia. rewrite aget_nat, lookup_app_l by done. done.
  - rewrite aget_put by lia. rewrite zlen_app, (proj2 (Z.leb_le _ _)), (proj2 (Z.ltb_lt _ _)) by lia. cbn [andb].
    rewrite aget_app by lia. rewrite (proj2 (Z.ltb_ge _ _)) by lia. by replace (p + (zlen s + zlen bytes) - (p + zlen s) - zlen bytes) with 0 by lia.
Qed.

Lemma text_second buf p c s : text_at buf p (c :: s) -> aget buf (p + 1) = Some (match s with [] => 0 | c :: _ => c end).
Proof. intros H. apply (text_first _ _ s). by eapply text_tail. Qed.

Lemma findNextEOL_spec buf p t : text_at buf p t -> strStartsWith t (str "> ") = false ->
  findNextEOL buf p = Some (match since newline t with [] => None | _ => Some (p + zlen (until newline t)) end).
Proof.
  intros H Hp. unfold findNextEOL, char_is. rewrite (text_first _ _ _ H), !obind_Some.
  set (a := match t with [] => 0 | c :: _ => c end).
  assert (E : exists b : bool, (if a =? 62 then char_is buf (p + 1) 32 else Some false) = Some b /\
               (if b then char_is buf (p + 2) 0 else Some false) = Some false).
  { subst a. destruct t as [|a t]; [by exists false|]. destruct (Z.eqb_spec a 62) as [->|_]; [|by exists false].
    unfold char_is at 1. rewrite (text_second _ _ _ _ H), obind_Some. eexists. split; [done|].
    destruct t as [|b t]; [done|]. destruct (Z.eqb_spec b 32) as [->|_]; [|done]. cbn in Hp. by destruct t. }
  destruct E as (b & E1 & E2). unfold char_is in E1, E2. rewrite E1, obind_Some, E2, obind_Some.
  rewrite (text_scan _ _ _ H newline) by done. rewrite obind_Some, (text_char _ _ _ H), obind_Some.
  destruct (since newline t) as [|c r] eqn:Ec; [done|]. apply since_head in Ec. unfold newline in Ec. by destruct (Z.eqb_spec c 0) as [->|].
Qed.

Definition port_text (s : port) (t : list Z) : Prop := zlen (s_ATBuffer s) = ENG_BUF_LEN /\ text_at (s_ATBuffer s) (s_ATBufferCur s) t.

(** The newlines in front of a text are skipped. *)
Lemma skip_newlines_spec s t : port_text s t -> skip_newlines s =
  Ret tt (Port (s_ATBuffer s) (s_ATBufferCur s + zlen (until text t)) (events s)) /\
  port_text (Port (s_ATBuffer s) (s_ATBufferCur s + zlen (until text t)) (events s)) (since text t).
Proof.
  intros [Hl H]. split; [|split; [done|by apply text_since] ]. unfold skip_newlines. rewrite (bind_Ret get _ s s s) by done.
  erewrite bind_Ret by (unfold lift; rewrite (text_scan _ _ _ H text); [done|]; intros c; unfold text; by destruct (Z.eqb_spec c 0) as [->|]). done.
Qed.
Lemma ditch_spec s : zlen (s_ATBuffer s) = ENG_BUF_LEN -> exists b, ditch s = Ret tt (Port b 0 (events s)) /\ port_text (Port b 0 (events s)) [].
Proof.
  intros Hl. exists (Prelude.put (s_ATBuffer s) 0 [0]). unfold ENG_BUF_LEN in Hl. split.
  - unfold ditch. rewrite (bind_Ret get _ s s s) by done. erewrite bind_Ret by (unfold lift; rewrite aset_put by lia; done). done.
  - split; [cbn; rewrite zlen_put by (change (zlen [0]) with 1; lia); done|]. cbn. apply text_at_spec. split; [constructor|]. split; [lia|].
    split; [done|]. rewrite aget_put by (change (zlen [0]) with 1; lia). done.
Qed.

(** A line is complete: it is closed with a NUL, and the cursor is behind it. *)
Lemma close_line s t : port_text s t -> since newline t <> [] -> exists b r, after (since newline t) = Some r /\
  aset (s_ATBuffer s) (s_ATBufferCur s + zlen (until newline t)) 0 = Some b /\
  text_at b (s_ATBufferCur s) (until newline t) /\ port_text (Port b (s_ATBufferCur s + zlen (until newline t) + 1) (events s)) r.
Proof.
  intros [Hl (H0 & pre & post & E & Ep)] Hne. destruct (since newline t) as [|c r] eqn:Ec; [done|]. pose proof (until_since newline t) as Eu. rewrite Ec in Eu.
  assert (H0' : no0 (until newline t ++ r)).
  { rewrite <- Eu in H0. apply Forall_app in H0 as [Hw Hs]. apply Forall_cons in Hs as [_ Hs]. by apply Forall_app. }
  destruct (text_cut pre (until newline t) c r post H0') as (b & Eb & Eb' & T1 & T2). exists b, r. split; [done|].
  assert (Eold : s_ATBuffer s = pre ++ until newline t ++ c :: r ++ 0 :: post) by (rewrite E, <- Eu at 1; by rewrite <- app_assoc).
  rewrite <- Ep, Eold. split; [done|]. split; [done|]. split; [|done]. cbn. rewrite <- Hl, Eold, Eb'. autorewrite with cbits. lia.
Qed.

(** ** Reading *)

Definition chunk (K : Z) (e : event) : Prop := zlen (event_bytes e) <= K.

Lemma flat_cons e es : flat (e :: es) = event_bytes e ++ flat es.
Proof. done. Qed.

Lemma load_cons e es : load (e :: es) = (event_size e + load es)%nat.
Proof. done. Qed.

Lemma read_events_spec room K es : Forall (chunk K) es -> K <= room ->
  match read_events room es with
  | (Some l, es') => l <> [] /\ flat es = l ++ flat es' /\ (load es' < load es)%nat /\ zlen l <= K /\ Forall (chunk K) es'
  | (None, es') => flat es = flat es' /\ (load es' < load es \/ es' = [])%nat /\ Forall (chunk K) es'
  end.
Proof.
  intros H Hr. induction H as [|e es He H IH]; [cbn; auto|]. destruct e as [ [|c l]| |]; cbn [read_events].
  - split; [done|]. split; [left; rewrite load_cons; cbn [event_size]; lia|done].
  - unfold chunk in He. cbn [event_bytes] in He. rewrite (proj2 (Z.leb_le _ _)) by lia. rewrite flat_cons. split; [done|]. split; [done|]. split; [rewrite load_cons; cbn [event_size]; lia|done].
  - rewrite flat_cons. cbn [event_bytes app]. destruct (read_events room es) as [ [l|] es'].
    + destruct IH as (A & B & C & D). split; [done|]. split; [done|]. split; [rewrite load_cons; cbn [event_size]; lia|done].
    + destruct IH as (A & B & C). split; [done|]. split; [|done]. destruct B as [B|B]; [left; rewrite load_cons; cbn [event_size]; lia|by right].
  - split; [done|]. split; [left; rewrite load_cons; cbn [event_size]; lia|done].
Qed.

(** A call, from the text [t] that is left in the buffer and with the events
    [es] to come, of which it may take some. *)
Definition call_ok (t : list Z) (es : list event) (r : option Z) (s' : port) : Prop :=
  exists t', port_text s' t' /\ (load (events s') <= load es)%nat /\
  match r with
  | Some p => exists l, text_at (s_ATBuffer s') p l /\ next_line (t ++ flat es) = Some (l, t' ++ flat (events s'))
  | None => since text (t ++ flat es) = since text (t' ++ flat (events s')) /\ (load (events s') < load es \/ events s' = [])%nat
  end.

Section Reading.
Context (K L : Z) (HL : L + K < ENG_BUF_LEN).

(** What is to come. *)
Definition coming (es : list event) : Prop := Forall (chunk K) es /\ no0 (flat es).

Lemma coming_read room es : coming es -> K <= room -> forall r es', read_events room es = (r, es') ->
  coming es' /\ flat es = default [] r ++ flat es' /\ (load es' <= load es)%nat /\
  match r with Some l => l <> [] /\ no0 l /\ zlen l <= K /\ (load es' < load es)%nat | None => (load es' < load es \/ es' = [])%nat end.
Proof.
  intros [Hc H0] Hr r es' E. pose proof (read_events_spec room K es Hc Hr) as H. rewrite E in H. destruct r as [l|].
  - destruct H as (A & B & C & D & F). rewrite B in H0. apply Forall_app in H0 as [H0 H1]. repeat split; try done; try lia.
  - destruct H as (B & C & F). rewrite B in H0. split; [by split|]. split; [done|]. split; [|done]. destruct C as [C| ->]; [lia|cbn; lia].
Qed.

(** After some reading, what is left and what is to come are what they were but
    for newlines at the front. *)
Definition same_stream (t : list Z) (es : list event) (t' : list Z) (es' : list event) : Prop :=
  exists sk, newlines sk /\ t ++ flat es = sk ++ t' ++ flat es'.

Lemma same_refl t es es' : flat es = flat es' -> same_stream t es t es'.
Proof. intros E. exists []. split; [by constructor|by rewrite E]. Qed.
Lemma same_trans t1 e1 t2 e2 t3 e3 : same_stream t1 e1 t2 e2 -> same_stream t2 e2 t3 e3 -> same_stream t1 e1 t3 e3.
Proof. intros (k1 & N1 & E1) (k2 & N2 & E2). exists (k1 ++ k2). split; [by apply Forall_app|]. by rewrite E1, E2, app_assoc. Qed.
Lemma same_since t es t' es' : same_stream t es t' es' -> since text (t ++ flat es) = since text (t' ++ flat es').
Proof. intros (sk & N & ->). apply since_app_skip. by apply newlines_text. Qed.
Lemma same_skip t es : same_stream t es (since text t) es.
Proof. exists (until text t). split; [apply newlines_text, until_all|]. by rewrite app_assoc, until_since. Qed.
Lemma calm_stream t es t' es' : same_stream t es t' es' -> calm L (t ++ flat es) -> calm L (t' ++ flat es').
Proof. intros (sk & N & ->). by apply calm_skip. Qed.

Lemma since_none P t : Forall (fun c => P c = false) t <-> since P t = [].
Proof.
  split; [|apply since_nil]. intros H. rewrite <- (app_nil_r t). by rewrite (proj1 (since_app_skip P t [] H)).
Qed.
Lemma texts_since t : since newline t = [] -> texts t.
Proof. apply since_nil. Qed.

Lemma strip_prompt t k : strStartsWith (t ++ k) (str "> ") = false -> strStartsWith t (str "> ") = false.
Proof.
  change (str "> ") with [62; 32]. destruct t as [|a t]; [done|]. cbn [app strStartsWith]. destruct (a =? 62); [|done].
  destruct t as [|b t]; [done|]. cbn [app strStartsWith]. destruct (b =? 32); [|done]. by destruct t, k.
Qed.

Lemma since_app P t k : since P t <> [] -> since P (t ++ k) = since P t ++ k.
Proof. induction t as [|c t IH]; [done|]. cbn [app since]. by destruct (P c). Qed.
Lemma skip_app t k : since text (since text t ++ k) = since text (t ++ k).
Proof.
  destruct (since text t) as [|c r] eqn:E.
  - by rewrite (proj1 (since_app_skip text t k (since_nil _ _ E))).
  - rewrite (since_app text t k) by by rewrite E. rewrite E. cbn [app since]. apply since_head in E. by rewrite E.
Qed.

(** Newlines, then text, then the NUL. *)
Lemma read_loop_spec fuel s sk t :
  zlen (s_ATBuffer s) = ENG_BUF_LEN -> text_at (s_ATBuffer s) (s_ATBufferCur s) t -> s_ATBufferCur s = zlen sk ->
  newlines sk -> texts t -> coming (events s) -> calm L (sk ++ t ++ flat (events s)) -> (load (events s) < fuel)%nat ->
  exists r s' t', read_loop fuel (zlen sk + zlen t) s = Ret r s' /\ port_text s' t' /\ coming (events s') /\
    same_stream t (events s) t' (events s') /\ (load (events s') <= load (events s))%nat /\
    match r with
    | Some e => since text t' = t' /\ since newline t' <> [] /\ e = s_ATBufferCur s' + zlen (until newline t')
    | None => texts t' /\ (load (events s') < load (events s) \/ events s' = [])%nat
    end.
Proof.
  revert s sk t. induction fuel as [|fuel IH]; intros s sk t Hl Ht Ec Hsk Htx Hc Hcalm Hf; [lia|].
  pose proof (calm_room L sk t _ Hsk Htx Hcalm) as Hroom. pose proof (zlen_nonneg sk). pose proof (zlen_nonneg t).
  assert (HK : 0 <= K \/ events s = []).
  { destruct (events s) as [|e es]; [by right|]. left. destruct Hc as [Hc _]. apply Forall_cons in Hc as [Hc _]. unfold chunk in Hc.
    pose proof (zlen_nonneg (event_bytes e)). lia. }
  pose proof (proj2 (text_range _ _ _ Ht)) as Hin. rewrite Hl, Ec in Hin. cbn [read_loop].
  rewrite (proj2 (Z.eqb_neq _ 0)) by lia. erewrite bind_Ret by done. cbv beta.
  unfold sys_read. rewrite bind_assoc. rewrite (bind_Ret get _ _ _ _) by done. cbv beta.
  destruct HK as [HK|E0].
  2: { rewrite E0 in *. cbn [read_events]. eexists None, (Port (s_ATBuffer s) (s_ATBufferCur s) []), t. split; [done|]. split; [done|].
    split; [done|]. split; [by apply same_refl|]. split; [done|]. split; [done|by right]. }
  unfold ENG_BUF_LEN in HL.
  destruct (read_events (ENG_BUF_LEN - (zlen sk + zlen t)) (events s)) as [r es'] eqn:Er.
  destruct (coming_read (ENG_BUF_LEN - (zlen sk + zlen t)) (events s) Hc ltac:(unfold ENG_BUF_LEN; lia) _ _ Er) as (Hc' & Ef & Hle & Hr).
  rewrite bind_assoc. erewrite bind_Ret by done. cbv beta. erewrite bind_Ret by done. cbv beta.
  destruct r as [bytes|]; cbn [default from_option id] in Ef.
  2: { eexists None, _, t. split; [done|]. split; [by split|]. split; [done|]. split; [by apply same_refl|]. split; [done|]. by split. }
  destruct Hr as (Hne & Hb0 & HbK & Hlt). rewrite (bind_Ret get _ _ _ _) by done. cbn [s_ATBuffer].
  destruct (text_append _ _ _ bytes Ht Hb0 ltac:(unfold ENG_BUF_LEN in *; lia)) as (b1 & b2 & E1 & E2 & El2 & T2). rewrite Ec in E1, E2.
  erewrite bind_Ret by (unfold lift; rewrite E1; done). erewrite bind_Ret by (unfold lift; rewrite E2; done). erewrite bind_Ret by done. cbv beta. cbn [s_ATBufferCur events].
  set (s1 := Port b2 (s_ATBufferCur s) es').
  destruct (skip_newlines_spec s1 (t ++ bytes)) as [Es [Hl2 T3] ]; [split; [by rewrite <- Hl|done]|]. erewrite bind_Ret by exact Es. rewrite (bind_Ret get _ _ _ _) by done.
  set (s2 := Port (s_ATBuffer s1) (s_ATBufferCur s1 + zlen (until text (t ++ bytes))) (events s1)) in *.
  assert (Hstream : same_stream t (events s) (since text (t ++ bytes)) es').
  { exists (until text (t ++ bytes)). split; [apply newlines_text, until_all|]. by rewrite Ef, app_assoc, (app_assoc (until _ _)), until_since. }
  assert (Hcalm1 : calm L (t ++ flat (events s))) by by apply (calm_skip L sk).
  assert (Hp : strStartsWith (since text (t ++ bytes)) (str "> ") = false).
  { destruct (since text (t ++ bytes)) as [|c r0] eqn:Ex; [done|]. apply (strip_prompt _ (flat es')). rewrite <- Ex. rewrite <- (since_app text) by by rewrite Ex.
    rewrite <- app_assoc, <- Ef. by apply calm_prompt in Hcalm1. }
  erewrite bind_Ret by (unfold lift; rewrite (findNextEOL_spec _ _ _ T3 Hp); done). cbv beta.
  destruct (since newline (since text (t ++ bytes))) as [|c r0] eqn:En.
  - (* no line yet *)
    assert (Esk : newlines (sk ++ until text (t ++ bytes))).
    { apply Forall_app. split; [done|]. apply newlines_text, until_all. }
    destruct (IH s2 (sk ++ until text (t ++ bytes)) (since text (t ++ bytes))) as (r & s' & t' & E & P & C & S & Lo & R); try done.
    + cbn. rewrite Ec, zlen_app. done.
    + by apply texts_since.
    + assert (Eall : (sk ++ until text (t ++ bytes)) ++ since text (t ++ bytes) ++ flat es' = sk ++ t ++ flat (events s)).
      { rewrite Ef, <- (app_assoc sk), (app_assoc (until text _)), until_since, <- app_assoc. done. }
      cbn [events s2 s1]. by rewrite Eall.
    + change (events s2) with es'. lia.
    + change (events s2) with es' in *. exists r, s', t'. replace (zlen sk + zlen t + zlen bytes) with (zlen (sk ++ until text (t ++ bytes)) + zlen (since text (t ++ bytes))).
      2: { rewrite zlen_app. pose proof (f_equal zlen (until_since text (t ++ bytes))) as El. rewrite !zlen_app in El. lia. }
      split; [done|]. split; [done|]. split; [done|]. split; [by eapply same_trans|]. split; [lia|].
      destruct r; [done|]. destruct R as [Rt R]. split; [done|]. destruct R as [R|R]; [left; lia|by right].
  - eexists (Some _), s2, (since text (t ++ bytes)). split; [done|]. split; [done|]. split; [done|]. split; [done|]. change (events s2) with es'. split; [lia|].
    rewrite since_idem, En. by split.
Qed.

Lemma until_app P t k : since P t <> [] -> until P (t ++ k) = until P t.
Proof. induction t as [|c t IH]; [done|]. cbn [app until since]. destruct (P c); [done|]. intros H. by rewrite IH. Qed.

(** The end of a call that has found a line. *)
Definition finish (p_eol : option Z) : M port (option Z) :=
  match p_eol with
  | None => ret None
  | Some e =>
      s <- get ;;
      b <- lift OutOfBounds (aset (s_ATBuffer s) e 0) ;;
      set_buf b ;;; set_atcur (e + 1) ;;; ret (Some (s_ATBufferCur s))
  end.
Definition line_found (t : list Z) (es : list event) (p : Z) (s' : port) (t' : list Z) : Prop :=
  exists l, text_at (s_ATBuffer s') p l /\ next_line (t ++ flat es) = Some (l, t' ++ flat (events s')).

Lemma finish_spec t es s1 t1 : port_text s1 t1 -> same_stream t es t1 (events s1) -> since text t1 = t1 -> since newline t1 <> [] ->
  exists s' t', finish (Some (s_ATBufferCur s1 + zlen (until newline t1))) s1 = Ret (Some (s_ATBufferCur s1)) s' /\
    port_text s' t' /\ events s' = events s1 /\ line_found t es (s_ATBufferCur s1) s' t'.
Proof.
  intros Hp Hs Hx Hn. destruct (close_line s1 t1 Hp Hn) as (b & r & Er & Eb & Tl & Tr). eexists _, r. cbn [finish].
  rewrite (bind_Ret get _ _ _ _) by done. erewrite bind_Ret by (unfold lift; rewrite Eb; done). split; [done|]. split; [exact Tr|]. split; [done|].
  exists (until newline t1). split; [done|]. rewrite <- next_line_skip, (same_since _ _ _ _ Hs), next_line_skip. unfold next_line. cbn [events].
  assert (E1 : since text (t1 ++ flat (events s1)) = t1 ++ flat (events s1)).
  { rewrite since_app; [by rewrite Hx|]. rewrite Hx. by intros ->. }
  rewrite E1, since_app, until_app by done. by destruct (since newline t1); [|injection Er as ->].
Qed.

Lemma readline_spec s t : port_text s t -> coming (events s) -> calm L (t ++ flat (events s)) ->
  exists r s' t', eng_readline s = Ret r s' /\ port_text s' t' /\ coming (events s') /\ (load (events s') <= load (events s))%nat /\
    match r with
    | Some p => line_found t (events s) p s' t'
    | None => same_stream t (events s) t' (events s') /\ texts t' /\ ((load (events s') < load (events s))%nat \/ events s' = [])
    end.
Proof.
  intros [Hl Ht] Hc Hcalm. unfold eng_readline. fold finish. rewrite (bind_Ret get _ _ _ _) by done.
  erewrite bind_Ret by (unfold lift; rewrite (text_first _ _ _ Ht); done). cbv beta.
  assert (Hread : forall s1 t1, port_text s1 t1 -> s_ATBufferCur s1 = 0 -> events s1 = events s -> texts t1 -> same_stream t (events s) t1 (events s) ->
    calm L (t1 ++ flat (events s)) ->
    exists r s' t', (p_eol <- read_loop (S (load (events s1))) (zlen t1) ;; finish p_eol) s1 = Ret r s' /\ port_text s' t' /\ coming (events s') /\ (load (events s') <= load (events s))%nat /\
    match r with
    | Some p => line_found t (events s) p s' t'
    | None => same_stream t (events s) t' (events s') /\ texts t' /\ ((load (events s') < load (events s))%nat \/ events s' = [])
    end).
  { intros s1 t1 [Hl1 Ht1] Ec Ee Htx Hst Hca.
    destruct (read_loop_spec (S (load (events s1))) s1 [] t1) as (r & s' & t' & E & P & C & St & Lo & R); try done; [by constructor|by rewrite Ee|by rewrite Ee|lia|].
    change (zlen [] + zlen t1) with (zlen t1) in E. rewrite Ee in *. erewrite bind_Ret by exact E. destruct r as [e|].
    - destruct R as (Hx & Hn & ->). destruct (finish_spec t (events s) s' t' P) as (s2 & t2 & E2 & P2 & Ev & Lf); try done; [by eapply same_trans|].
      exists (Some (s_ATBufferCur s')), s2, t2. rewrite Ev. split; [exact E2|]. split; [done|]. split; [done|]. by split.
    - exists None, s', t'. split; [done|]. split; [done|]. split; [done|]. split; [done|]. split; [|done]. by eapply same_trans. }
  destruct t as [|c t].
  - change (0 =? 0) with true. cbv beta iota. destruct (ditch_spec s Hl) as (b & Ed & Hd). erewrite bind_Ret by (erewrite bind_Ret by exact Ed; done). cbv beta iota.
    rewrite bind_assoc. rewrite (bind_Ret get _ _ _ _) by done. apply (Hread (Port b 0 (events s)) []); try done; [by constructor|by apply same_refl].
  - assert (Hc0 : c <> 0) by (by destruct Ht as [H0 _]; apply Forall_cons in H0 as [H0 _]). rewrite (proj2 (Z.eqb_neq c 0)) by done.
    destruct (skip_newlines_spec s (c :: t) (conj Hl Ht)) as [Es [Hl2 T2] ]. set (t0 := c :: t) in *. set (s2 := Port _ _ _) in Es, Hl2, T2.
    rewrite bind_assoc. erewrite bind_Ret by exact Es. rewrite bind_assoc. rewrite (bind_Ret get _ _ _ _) by done. rewrite bind_assoc.
    assert (Hst : same_stream t0 (events s) (since text t0) (events s)) by apply same_skip.
    assert (Hp : strStartsWith (since text t0) (str "> ") = false).
    { destruct (since text t0) as [|x r0] eqn:Ex; [done|]. apply (strip_prompt _ (flat (events s))). rewrite <- Ex. rewrite <- (since_app text) by by rewrite Ex. by apply calm_prompt in Hcalm. }
    erewrite bind_Ret by (unfold lift; rewrite (findNextEOL_spec _ _ _ T2 Hp); done). cbv beta.
    destruct (since newline (since text t0)) as [|x r0] eqn:En.
    + rewrite bind_assoc. erewrite bind_Ret by (unfold lift; rewrite (text_cstring _ _ _ T2); done). rewrite bind_assoc.
      destruct (text_copy _ _ _ T2) as (b & Eb & Elb & Tb). erewrite bind_Ret by (unfold lift; rewrite Eb; done). rewrite bind_assoc. erewrite bind_Ret by done.
      rewrite bind_assoc. erewrite bind_Ret by done. erewrite bind_Ret by done. cbv beta iota. rewrite bind_assoc. rewrite (bind_Ret get _ _ _ _) by done.
      apply (Hread (Port b 0 (events s)) (since text t0)); [split; [by rewrite <- Hl2|done]|done|done|by apply texts_since|done|].
      apply (calm_skip L (until text t0)); [apply newlines_text, until_all|]. by rewrite app_assoc, until_since.
    + erewrite bind_Ret by done. cbv beta iota. erewrite bind_Ret by done.
      destruct (finish_spec t0 (events s) s2 (since text t0) (conj Hl2 T2)) as (s3 & t3 & E3 & P3 & Ev & Lf); [done|by rewrite since_idem|by rewrite En|].
      exists (Some (s_ATBufferCur s2)), s3, t3. rewrite Ev. split; [exact E3|]. split; [done|]. split; [done|]. split; [done|]. exact Lf.
Qed.

End Reading.

(** ** All the lines *)

(** The calls of a caller that, as [eng_modem2server] does, calls again when it
    got no line; the lines are copied before the next call. *)
Fixpoint drain (n : nat) : M port (list (list Z)) :=
  match n with
  | O => bad OutOfFuel
  | S n =>
      r <- eng_readline ;;
      s <- get ;;
      match r with
      | Some p => line <- lift OutOfBounds (cstring (s_ATBuffer s) p) ;; l <- drain n ;; ret (line :: l)
      | None => match events s with [] => ret [] | _ => drain n end
      end
  end.

Lemma next_line_size s l r : next_line s = Some (l, r) -> (length r < length s)%nat.
Proof.
  unfold next_line. intros E. pose proof (since_length text s) as H1. pose proof (since_length newline (since text s)) as H2. unfold zlen in *.
  destruct (since newline (since text s)) as [|c r']; [done|]. cbn in E. injection E as _ <-. cbn [length] in H2. lia.
Qed.
Lemma lines_of_skip s : lines_of (since text s) = lines_of s.
Proof. by rewrite !lines_of_next, next_line_skip. Qed.
Lemma lines_of_texts t : texts t -> lines_of t = [].
Proof.
  intros H. rewrite lines_of_next. unfold next_line. assert (E : since newline (since text t) = []); [|by rewrite E].
  apply since_none. pose proof (until_since text t) as Eu. rewrite <- Eu in H. by apply Forall_app in H as [_ H].
Qed.
Lemma same_lines t es t' es' : same_stream t es t' es' -> lines_of (t ++ flat es) = lines_of (t' ++ flat es').
Proof. intros E. by rewrite <- (lines_of_skip (t ++ _)), (same_since _ _ _ _ E), lines_of_skip. Qed.

Section Drain.
Context (K L : Z) (HL : L + K < ENG_BUF_LEN).

Lemma calm_next s l r : calm L s -> next_line s = Some (l, r) -> calm L r.
Proof. intros [s0 Hn _ _|s0 l' r' Hn _ _ Hr] E; congruence. Qed.

(** A bound on the calls that are left: lines to come, and events. *)
Definition todo (t : list Z) (es : list event) : nat := (length (lines_of (t ++ flat es)) + load es)%nat.

Lemma drain_spec n s t : port_text s t -> coming K (events s) -> calm L (t ++ flat (events s)) -> (todo t (events s) < n)%nat ->
  exists s', drain n s = Ret (lines_of (t ++ flat (events s))) s'.
Proof.
  revert s t. induction n as [|n IH]; intros s t Hp Hc Hcalm Hn; [lia|]. unfold todo in *.
  destruct (readline_spec K L HL s t Hp Hc Hcalm) as (r & s1 & t1 & E & P1 & C1 & Lo & R).
  cbn [drain]. erewrite bind_Ret by exact E. cbv beta. rewrite (bind_Ret get _ s1 s1 s1) by done. cbv beta iota. destruct r as [p|].
  - destruct R as (l & Tl & En). erewrite bind_Ret by (unfold lift; rewrite (text_cstring _ _ _ Tl); done). cbv beta.
    rewrite lines_of_next, En in *. cbn [length] in Hn.
    destruct (IH s1 t1 P1 C1 (calm_next _ _ _ Hcalm En) ltac:(lia)) as (s2 & E2). erewrite bind_Ret by exact E2. by eexists.
  - destruct R as (Hs & Htx & Hev). pose proof (same_lines _ _ _ _ Hs) as El. rewrite El in *. destruct (events s1) as [|e es] eqn:Ee.
    + exists s1. change (flat []) with (@nil Z). by rewrite app_nil_r, lines_of_texts.
    + destruct Hev as [Hev|Hev]; [|done]. rewrite <- Ee in *. destruct (IH s1 t1 P1 C1) as (s2 & E2); [|lia|by eexists].
      by eapply calm_stream.
Qed.
End Drain.

Lemma port_start_text es : port_text (port_start es) [].
Proof. split; [done|]. split; [constructor|]. exists [], (replicate 2047 0). done. Qed.

(** C14: However the modem's bytes arrive: when no line - with the line ends in
    front of it - is longer than [L], no chunk than [K], the two together are
    shorter than the buffer and no line looks like a prompt, then a caller that
    calls [eng_readline] again whenever it got no line gets all complete lines
    of the stream, without the empty ones, in order and as they were sent,
    whatever the chunks are and whatever interruptions and empty reads come
    between them; nothing outside the buffer is read or written. *)
Theorem lines_of_any_chunks K L es n : L + K < ENG_BUF_LEN -> Forall (chunk K) es -> no0 (flat es) -> calm L (flat es) ->
  (length (lines_of (flat es)) + load es < n)%nat -> exists s, drain n (port_start es) = Ret (lines_of (flat es)) s.
Proof. intros HL Hc H0 Hcalm Hn. by apply (drain_spec K L HL n (port_start es) []); [apply port_start_text|split|..]. Qed.

Lemma lines_of_any_chunks_witness : exists s,
  drain 99 (port_start [Data ([13; 10] ++ str "+CG"); Interrupted; NoData; Data (str "MR: 1" ++ [13; 10; 13; 10; 79]); Data (str "K" ++ [13])])
    = Ret [str "+CGMR: 1"; str "OK"] s.
Proof.
  apply (lines_of_any_chunks 20 20 [Data ([13; 10] ++ str "+CG"); Interrupted; NoData; Data (str "MR: 1" ++ [13; 10; 13; 10; 79]); Data (str "K" ++ [13])]).
  - done.
  - repeat (apply List.Forall_cons; [done|]). apply List.Forall_nil.
  - repeat (apply List.Forall_cons; [done|]). apply List.Forall_nil.
  - eapply calm_line; [vm_compute; done|vm_compute; done|done|]. eapply calm_line; [vm_compute; done|vm_compute; done|done|]. by apply calm_end.
  - vm_compute. lia.
Defined.

(** A read that fills the buffer: when the modem has sent at least as many
    bytes as the buffer has room for, the NUL after them is written behind the
    buffer. *)
Theorem full_read_overflows l es : ENG_BUF_LEN <= zlen l -> eng_readline (port_start (Data l :: es)) = Bad OutOfBounds.
Proof.
  intros Hl. unfold eng_readline. rewrite (bind_Ret get _ _ _ _) by done.
  erewrite bind_Ret by (unfold lift; rewrite (text_first _ _ _ (proj2 (port_start_text _))); done). cbv beta. change (0 =? 0) with true. cbv beta iota.
  destruct (ditch_spec (port_start (Data l :: es)) eq_refl) as (b & Ed & Hb & _). erewrite bind_Ret by (erewrite bind_Ret by exact Ed; done). cbv beta iota.
  rewrite bind_assoc. rewrite (bind_Ret get _ _ _ _) by done. cbn [read_loop]. change (ENG_BUF_LEN - 0 =? 0) with false. cbv beta iota.
  rewrite bind_assoc. erewrite bind_Ret by done. cbv beta. change (ENG_BUF_LEN - 0) with ENG_BUF_LEN. unfold sys_read. rewrite !bind_assoc.
  rewrite (bind_Ret get _ _ _ _) by done. cbn [events s_ATBuffer s_ATBufferCur] in *.
  assert (Er : exists es', read_events ENG_BUF_LEN (Data l :: es) = (Some (take (Z.to_nat ENG_BUF_LEN) l), es')).
  { destruct l as [|c l0]; [done|]. cbn [read_events]. destruct (Z.leb_spec (zlen (c :: l0)) ENG_BUF_LEN); [|by eexists].
    rewrite firstn_all2 by (unfold zlen, ENG_BUF_LEN in *; lia). by eexists. }
  destruct Er as [es' Er]. change (events (port_start (Data l :: es))) with (Data l :: es). rewrite Er, bind_assoc. erewrite bind_Ret by done. cbv beta. erewrite bind_Ret by done. cbv beta iota.
  rewrite bind_assoc. rewrite (bind_Ret get _ _ _ _) by done. rewrite bind_assoc. cbn [s_ATBuffer] in *.
  assert (Elen : zlen (take (Z.to_nat ENG_BUF_LEN) l) = ENG_BUF_LEN) by (unfold zlen, ENG_BUF_LEN in *; rewrite length_take; lia).
  erewrite bind_Ret by (unfold lift; rewrite store_ok by lia; done). unfold bind, lift.
  assert (Ea : aset (Prelude.put b 0 (take (Z.to_nat ENG_BUF_LEN) l)) (0 + zlen (take (Z.to_nat ENG_BUF_LEN) l)) 0 = None); [|by rewrite Ea].
  unfold aset. rewrite (proj2 (Z.ltb_ge _ _)); [by rewrite andb_false_r|]. fold (zlen (Prelude.put b 0 (take (Z.to_nat ENG_BUF_LEN) l))). rewrite zlen_put; lia.
Qed.

Lemma full_read_overflows_witness : eng_readline (port_start [Data (replicate 2048 65)]) = Bad OutOfBounds.
Proof. apply (full_read_overflows (replicate 2048 65) []). vm_compute. discriminate. Defined.
