(* ===== verification/EngCmd.v ===== *)
(** * Commands to the modem

    src/common/apps/engineeringmodel/engcs: the commands (engat.h), their
    parameters (engparcel.h), the reading of a command that the application
    sends ([eng_parsecmd] of eng_modemclient.c) and the AT command made of it
    ([eng_atCommandRequest]). *)
From stdpp Require Import base list.
From Stdlib Require Import ZArith Lia.
From Stdlib Require Import (notations) String.
From S2P Require Import Prelude EngTok.

(** ** Definitions *)

(** *** The commands *)

Inductive ENG_AT_CMD :=
  | ENG_AT_REQUEST_MODEM_VERSION | ENG_AT_REQUEST_IMEI | ENG_AT_SELECT_BAND | ENG_AT_CURRENT_BAND | ENG_AT_SETARMLOG | ENG_AT_GETARMLOG
  | ENG_AT_SETAUTOANSWER | ENG_AT_GETAUTOANSWER | ENG_AT_SETSPPSRATE | ENG_AT_GETSPPSRATE | ENG_AT_SETSPTEST | ENG_AT_GETSPTEST | ENG_AT_SPID
  | ENG_AT_SETSPFRQ | ENG_AT_GETSPFRQ | ENG_AT_SPAUTE | ENG_AT_SETSPDGCNUM | ENG_AT_GETSPDGCNUM | ENG_AT_SETSPDGCINFO | ENG_AT_GETSPDGCINFO
  | ENG_AT_GRRTDNCELL | ENG_AT_SPL1ITRRSWITCH | ENG_AT_GETSPL1ITRRSWITCH | ENG_AT_PCCOTDCELL | ENG_AT_SDATACONF | ENG_AT_L1PARAM | ENG_AT_TRRPARAM
  | ENG_AT_SETTDMEASSWTH | ENG_AT_GETTDMEASSWTH | ENG_AT_RRDMPARAM | ENG_AT_DMPARAMRESET | ENG_AT_SMTIMER | ENG_AT_TRRDCFEPARAM | ENG_AT_CIMI
  | ENG_AT_MBCELLID | ENG_AT_MBAU | ENG_AT_EUICC | ENG_AT_CGREG | ENG_AT_EXIT | ENG_AT_NOHANDLE_CMD | ENG_AT_SYSINFO | ENG_AT_HVER
  | ENG_AT_GETSYSCONFIG | ENG_AT_SETSYSCONFIG | ENG_AT_SPVER | ENG_AT_AUTOATTACH | ENG_AT_SETAUTOATTACH | ENG_AT_PDPACTIVE | ENG_AT_GETPDPACT
  | ENG_AT_SGPRSDATA | ENG_AT_GETUPLMN | ENG_AT_CGSMS | ENG_AT_CAOC | ENG_AT_CAMM | ENG_AT_SETCOPS | ENG_AT_SADC | ENG_AT_CFUN | ENG_AT_CGMR
  | ENG_AT_SETCAPLOG | ENG_AT_SETUPLMN | ENG_AT_GETUPLMNLEN | ENG_AT_GETDSPLOG | ENG_AT_SETDSPLOG | ENG_AT_SGMR | ENG_AT_CAOCD | ENG_AT_CAOCQ
  | ENG_AT_CCED | ENG_AT_L1MON | ENG_AT_GET_ASSERT_MODE | ENG_AT_SET_ASSERT_MODE | ENG_AT_SET_MANUAL_ASSERT | ENG_AT_SFPL | ENG_AT_SEPL
  | ENG_AT_SPENGMD_QUERY | ENG_AT_SPENGMD_OPEN | ENG_AT_SPENGMD_CLOSE | ENG_AT_SSMP | ENG_AT_CMD_END | ENG_AT_SET_SNVM | ENG_AT_SET_VALUE
  | ENG_AT_RESET.

Definition code (c : ENG_AT_CMD) : Z :=
  match c with
  | ENG_AT_REQUEST_MODEM_VERSION => 0 | ENG_AT_REQUEST_IMEI => 1 | ENG_AT_SELECT_BAND => 2 | ENG_AT_CURRENT_BAND => 3 | ENG_AT_SETARMLOG => 4
  | ENG_AT_GETARMLOG => 5 | ENG_AT_SETAUTOANSWER => 6 | ENG_AT_GETAUTOANSWER => 7 | ENG_AT_SETSPPSRATE => 8 | ENG_AT_GETSPPSRATE => 9
  | ENG_AT_SETSPTEST => 10 | ENG_AT_GETSPTEST => 11 | ENG_AT_SPID => 12 | ENG_AT_SETSPFRQ => 13 | ENG_AT_GETSPFRQ => 14 | ENG_AT_SPAUTE => 15
  | ENG_AT_SETSPDGCNUM => 16 | ENG_AT_GETSPDGCNUM => 17 | ENG_AT_SETSPDGCINFO => 18 | ENG_AT_GETSPDGCINFO => 19 | ENG_AT_GRRTDNCELL => 20
  | ENG_AT_SPL1ITRRSWITCH => 21 | ENG_AT_GETSPL1ITRRSWITCH => 22 | ENG_AT_PCCOTDCELL => 23 | ENG_AT_SDATACONF => 24 | ENG_AT_L1PARAM => 25
  | ENG_AT_TRRPARAM => 26 | ENG_AT_SETTDMEASSWTH => 27 | ENG_AT_GETTDMEASSWTH => 28 | ENG_AT_RRDMPARAM => 29 | ENG_AT_DMPARAMRESET => 30
  | ENG_AT_SMTIMER => 31 | ENG_AT_TRRDCFEPARAM => 32 | ENG_AT_CIMI => 33 | ENG_AT_MBCELLID => 34 | ENG_AT_MBAU => 35 | ENG_AT_EUICC => 36
  | ENG_AT_CGREG => 37 | ENG_AT_EXIT => 38 | ENG_AT_NOHANDLE_CMD => 39 | ENG_AT_SYSINFO => 40 | ENG_AT_HVER => 41 | ENG_AT_GETSYSCONFIG => 42
  | ENG_AT_SETSYSCONFIG => 43 | ENG_AT_SPVER => 44 | ENG_AT_AUTOATTACH => 45 | ENG_AT_SETAUTOATTACH => 46 | ENG_AT_PDPACTIVE => 47
  | ENG_AT_GETPDPACT => 48 | ENG_AT_SGPRSDATA => 49 | ENG_AT_GETUPLMN => 50 | ENG_AT_CGSMS => 51 | ENG_AT_CAOC => 52 | ENG_AT_CAMM => 53
  | ENG_AT_SETCOPS => 54 | ENG_AT_SADC => 55 | ENG_AT_CFUN => 56 | ENG_AT_CGMR => 57 | ENG_AT_SETCAPLOG => 58 | ENG_AT_SETUPLMN => 59
  | ENG_AT_GETUPLMNLEN => 60 | ENG_AT_GETDSPLOG => 61 | ENG_AT_SETDSPLOG => 62 | ENG_AT_SGMR => 70 | ENG_AT_CAOCD => 80 | ENG_AT_CAOCQ => 81
  | ENG_AT_CCED => 101 | ENG_AT_L1MON => 103 | ENG_AT_GET_ASSERT_MODE => 108 | ENG_AT_SET_ASSERT_MODE => 109 | ENG_AT_SET_MANUAL_ASSERT => 110
  | ENG_AT_SFPL => 111 | ENG_AT_SEPL => 112 | ENG_AT_SPENGMD_QUERY => 117 | ENG_AT_SPENGMD_OPEN => 118 | ENG_AT_SPENGMD_CLOSE => 119
  | ENG_AT_SSMP => 200 | ENG_AT_CMD_END => 201 | ENG_AT_SET_SNVM => 250 | ENG_AT_SET_VALUE => 251 | ENG_AT_RESET => 252
  end.
Definition commands : list ENG_AT_CMD :=
  [ENG_AT_REQUEST_MODEM_VERSION; ENG_AT_REQUEST_IMEI; ENG_AT_SELECT_BAND; ENG_AT_CURRENT_BAND; ENG_AT_SETARMLOG; ENG_AT_GETARMLOG;
   ENG_AT_SETAUTOANSWER; ENG_AT_GETAUTOANSWER; ENG_AT_SETSPPSRATE; ENG_AT_GETSPPSRATE; ENG_AT_SETSPTEST; ENG_AT_GETSPTEST; ENG_AT_SPID;
   ENG_AT_SETSPFRQ; ENG_AT_GETSPFRQ; ENG_AT_SPAUTE; ENG_AT_SETSPDGCNUM; ENG_AT_GETSPDGCNUM; ENG_AT_SETSPDGCINFO; ENG_AT_GETSPDGCINFO;
   ENG_AT_GRRTDNCELL; ENG_AT_SPL1ITRRSWITCH; ENG_AT_GETSPL1ITRRSWITCH; ENG_AT_PCCOTDCELL; ENG_AT_SDATACONF; ENG_AT_L1PARAM; ENG_AT_TRRPARAM;
   ENG_AT_SETTDMEASSWTH; ENG_AT_GETTDMEASSWTH; ENG_AT_RRDMPARAM; ENG_AT_DMPARAMRESET; ENG_AT_SMTIMER; ENG_AT_TRRDCFEPARAM; ENG_AT_CIMI;
   ENG_AT_MBCELLID; ENG_AT_MBAU; ENG_AT_EUICC; ENG_AT_CGREG; ENG_AT_EXIT; ENG_AT_NOHANDLE_CMD; ENG_AT_SYSINFO; ENG_AT_HVER; ENG_AT_GETSYSCONFIG;
   ENG_AT_SETSYSCONFIG; ENG_AT_SPVER; ENG_AT_AUTOATTACH; ENG_AT_SETAUTOATTACH; ENG_AT_PDPACTIVE; ENG_AT_GETPDPACT; ENG_AT_SGPRSDATA; ENG_AT_GETUPLMN;
   ENG_AT_CGSMS; ENG_AT_CAOC; ENG_AT_CAMM; ENG_AT_SETCOPS; ENG_AT_SADC; ENG_AT_CFUN; ENG_AT_CGMR; ENG_AT_SETCAPLOG; ENG_AT_SETUPLMN;
   ENG_AT_GETUPLMNLEN; ENG_AT_GETDSPLOG; ENG_AT_SETDSPLOG; ENG_AT_SGMR; ENG_AT_CAOCD; ENG_AT_CAOCQ; ENG_AT_CCED; ENG_AT_L1MON;
   ENG_AT_GET_ASSERT_MODE; ENG_AT_SET_ASSERT_MODE; ENG_AT_SET_MANUAL_ASSERT; ENG_AT_SFPL; ENG_AT_SEPL; ENG_AT_SPENGMD_QUERY; ENG_AT_SPENGMD_OPEN;
   ENG_AT_SPENGMD_CLOSE; ENG_AT_SSMP; ENG_AT_CMD_END; ENG_AT_SET_SNVM; ENG_AT_SET_VALUE; ENG_AT_RESET].
(** The command of an [int]; other values take the default branches. *)
Definition of_code (z : Z) : option ENG_AT_CMD := List.find (fun c => code c =? z) commands.

(** *** The parameters *)

(** What a [void *] of a command points to: NULL, an [int], or one of the
    structs. An array of characters is [None] when it was copied from one that
    nothing was stored in. *)
Definition chars := option (list Z).
Inductive param :=
  | NULL
  | oneint (v : Z)
  | eng_at_sppsrate (type ul dl : Z)
  | eng_at_sptest (type value : Z)
  | eng_at_spfreq (param_num operation index freq cell_id1 cell_id2 cell_id3 : Z)
  | eng_at_spaute (enable delayms dev volume : Z)
  | eng_at_spdgcnum (num : Z)
  | eng_at_spdgcinfo (index band arfcn bsic : Z)
  | eng_at_grrtdncell (param_num index arfcn cpi1 cpi2 cpi3 cpi4 : Z)
  | eng_at_pccotdcell (arfcn cell_id : Z)
  | eng_at_l1param (param_num index value : Z)
  | eng_at_trrparam (param_num index value : Z)
  | eng_at_rrdmparam (param_num index value : Z)
  | eng_at_smtimer (param_num value : Z)
  | eng_at_ttrdcfeparam (param_num index value : Z)
  | eng_at_sdataconf (param_num id : Z) (type ip : chars) (server_port self_port : Z)
  | eng_at_mbau (param_num : Z) (rend autn : chars)
  | eng_at_nohandle (cmd : chars)
  | eng_at_sysinfo (data1 data2 data3 data4 : Z)
  | eng_at_pdpactive (param_num param1 param2 : Z)
  | eng_at_spgresdata (param_num param1 param2 : Z) (param3 : chars)
  | eng_at_camm (param_num : Z) (param1 param2 : chars)
  | eng_at_cops (param_num param1 param2 : Z) (param3 : chars) (param4 : Z)
  | eng_at_crsm (param_num whatHandler fileID p1 p2 p3 : Z) (data others : chars)
  | eng_at_sgmr (param_num dual_sys op type : Z) (str : chars).

(** *** Reading a command *)

(** The text, and the static [at_oneint], which keeps its value from one command
    to the next when nothing is stored in it. *)
Record parse := Parse { p_tok : tok; at_oneint : Z }.
Definition tokens {A} (m : M tok A) : M parse A := zoom p_tok (fun t s => Parse t (at_oneint s)) m.

(** [at_tok_nextint(&data, &v)]; what [v] holds then, if it was [old]. *)
Definition int_or (old : option Z) : M parse (option Z) :=
  r <- tokens at_tok_nextint ;; ret (match r.2 with Some x => Some x | None => old end).
(** The same for a field of a struct of zeros. *)
Definition int_field : M parse Z := r <- int_or (Some 0) ;; ret (default 0 r).
Definition int_static : M parse param :=
  s <- get ;;
  r <- int_or (Some (at_oneint s)) ;;
  modify (fun s => Parse (p_tok s) (default 0 r)) ;;;
  ret (oneint (default 0 r)).

(** [at_tok_nextstr(&data, &ptr)]: the token, or [None] when [ptr] still points
    to the array that it pointed to before. *)
Definition str_ptr : M parse (option Z) :=
  r <- tokens at_tok_nextstr ;;
  match r.2 with
  | None => ret None
  | Some None => bad NullPointer
  | Some (Some p) => ret (Some p)
  end.
(** [memcpy(field, ptr, n)], where the array is [old]. *)
Definition copy (n : Z) (old : chars) (ptr : option Z) : M parse chars :=
  match ptr with
  | None => ret old
  | Some p => s <- get ;; l <- lift OutOfBounds (slice (tbuf (p_tok s)) p n) ;; ret (Some l)
  end.
Definition chars_field (n : Z) (old : chars) : M parse chars := p <- str_ptr ;; copy n old p.
(** An array of [n] zeros. *)
Definition zeros (n : nat) : chars := Some (replicate n 0).
(** [memcpy(field, data, n)] *)
Definition chars_data (n : Z) : M parse chars :=
  s <- get ;;
  p <- lift NullPointer (tcur (p_tok s)) ;;
  l <- lift OutOfBounds (slice (tbuf (p_tok s)) p n) ;; ret (Some l).

(** The [switch] of [eng_parsecmd]: what follows the command and [param_num]. *)
Definition parse_param (cmd : Z) (param_num : option Z) : M parse param :=
  let num := lift Uninitialised param_num in
  match of_code cmd with
  | Some ENG_AT_SELECT_BAND | Some ENG_AT_SET_ASSERT_MODE | Some ENG_AT_SETARMLOG | Some ENG_AT_SETDSPLOG
  | Some ENG_AT_SETAUTOANSWER => int_static
  | Some ENG_AT_SETSPPSRATE =>
      type <- int_field ;; ul <- int_field ;; dl <- int_field ;; ret (eng_at_sppsrate type ul dl)
  | Some ENG_AT_SETSPTEST =>
      type <- int_field ;; value <- int_field ;; ret (eng_at_sptest type value)
  | Some ENG_AT_SETSPFRQ =>
      n <- num ;;
      operation <- int_field ;; index <- int_field ;; freq <- int_field ;;
      if n =? 3 then ret (eng_at_spfreq n operation index freq 0 0 0) else
      cell_id1 <- int_field ;; cell_id2 <- int_field ;; cell_id3 <- int_field ;;
      ret (eng_at_spfreq n operation index freq cell_id1 cell_id2 cell_id3)
  | Some ENG_AT_SPAUTE =>
      enable <- int_field ;; delayms <- int_field ;; dev <- int_field ;; volume <- int_field ;;
      ret (eng_at_spaute enable delayms dev volume)
  | Some ENG_AT_SETSPDGCNUM => num <- int_field ;; ret (eng_at_spdgcnum num)
  | Some ENG_AT_SETSPDGCINFO =>
      index <- int_field ;; band <- int_field ;; arfcn <- int_field ;; bsic <- int_field ;;
      ret (eng_at_spdgcinfo index band arfcn bsic)
  | Some ENG_AT_GRRTDNCELL =>
      n <- num ;;
      if n <? 3 then ret NULL else
      index <- int_field ;; arfcn <- int_field ;; cpi1 <- int_field ;;
      if n <? 4 then ret (eng_at_grrtdncell 3 index arfcn cpi1 0 0 0) else
      cpi2 <- int_field ;;
      if n <? 5 then ret (eng_at_grrtdncell 4 index arfcn cpi1 cpi2 0 0) else
      cpi3 <- int_field ;;
      if n <? 6 then ret (eng_at_grrtdncell 5 index arfcn cpi1 cpi2 cpi3 0) else
      cpi4 <- int_field ;;
      ret (eng_at_grrtdncell 6 index arfcn cpi1 cpi2 cpi3 cpi4)
  | Some ENG_AT_SPL1ITRRSWITCH => int_static
  | Some ENG_AT_PCCOTDCELL =>
      arfcn <- int_field ;; cell_id <- int_field ;; ret (eng_at_pccotdcell arfcn cell_id)
  | Some ENG_AT_SDATACONF =>
      n <- num ;;
      id <- int_field ;; type <- chars_field 16 None ;; ip <- chars_field 64 None ;; server_port <- int_field ;;
      self_port <- (if n =? 5 then int_field else ret 0) ;;
      ret (eng_at_sdataconf n id type ip server_port self_port)
  | Some ENG_AT_L1PARAM =>
      n <- num ;; index <- int_field ;; value <- (if n =? 2 then int_field else ret 0) ;; ret (eng_at_l1param n index value)
  | Some ENG_AT_TRRPARAM =>
      n <- num ;; index <- int_field ;; value <- (if n =? 2 then int_field else ret 0) ;; ret (eng_at_trrparam n index value)
  | Some ENG_AT_SETTDMEASSWTH => int_static
  | Some ENG_AT_RRDMPARAM =>
      n <- num ;; index <- int_field ;; value <- (if n =? 2 then int_field else ret 0) ;; ret (eng_at_rrdmparam n index value)
  | Some ENG_AT_SMTIMER =>
      n <- num ;; value <- (if n =? 1 then int_field else ret 0) ;; ret (eng_at_smtimer n value)
  | Some ENG_AT_TRRDCFEPARAM =>
      n <- num ;;
      if n =? 1 then index <- int_field ;; ret (eng_at_ttrdcfeparam n index 0)
      else if n =? 2 then index <- int_field ;; value <- int_field ;; ret (eng_at_ttrdcfeparam n index value)
      else ret (eng_at_ttrdcfeparam n 0 0)
  | Some ENG_AT_MBCELLID => int_static
  | Some ENG_AT_MBAU =>
      n <- num ;;
      if n =? 1 then rend <- chars_field 33 (zeros 33) ;; ret (eng_at_mbau n rend (zeros 33))
      else if n =? 2 then rend <- chars_field 33 (zeros 33) ;; autn <- chars_field 33 (zeros 33) ;; ret (eng_at_mbau n rend autn)
      else ret (eng_at_mbau n (zeros 33) (zeros 33))
  | Some ENG_AT_NOHANDLE_CMD => cmd <- chars_data 1024 ;; ret (eng_at_nohandle cmd)
  | Some ENG_AT_CGSMS | Some ENG_AT_SETAUTOATTACH => int_static
  | Some ENG_AT_PDPACTIVE =>
      n <- num ;;
      if n =? 2 then param1 <- int_field ;; param2 <- int_field ;; ret (eng_at_pdpactive n param1 param2)
      else ret (eng_at_pdpactive n 0 0)
  | Some ENG_AT_SGPRSDATA =>
      n <- num ;;
      if n =? 1 then param1 <- int_field ;; ret (eng_at_spgresdata n param1 0 (zeros 256))
      else if n =? 3 then
        param1 <- int_field ;; param2 <- int_field ;; param3 <- chars_field 256 None ;; ret (eng_at_spgresdata n param1 param2 param3)
      else ret (eng_at_spgresdata n 0 0 (zeros 256))
  | Some ENG_AT_CAMM =>
      n <- num ;;
      if n =? 2 then param1_ptr <- str_ptr ;; param2_ptr <- str_ptr ;;
        param1 <- copy 256 None param1_ptr ;; param2 <- copy 256 None param2_ptr ;; ret (eng_at_camm n param1 param2)
      else ret (eng_at_camm n (zeros 256) (zeros 256))
  | Some ENG_AT_GETUPLMN => int_static
  | Some ENG_AT_SETUPLMN =>
      n <- num ;;
      if n =? 7 then
        whatHandler <- int_field ;; fileID <- int_field ;; p1 <- int_field ;; p2 <- int_field ;; p3 <- int_field ;;
        param6_ptr <- str_ptr ;; param7_ptr <- str_ptr ;;
        data <- copy 128 None param6_ptr ;; others <- copy 16 None param7_ptr ;;
        ret (eng_at_crsm n whatHandler fileID p1 p2 p3 data others)
      else ret (eng_at_crsm n 0 0 0 0 0 (zeros 128) (zeros 16))
  | Some ENG_AT_SETCOPS =>
      n <- num ;;
      if n =? 4 then
        param1 <- int_field ;; param2 <- int_field ;; param3_ptr <- str_ptr ;; param4 <- int_field ;;
        param3 <- copy 256 None param3_ptr ;;
        ret (eng_at_cops n param1 param2 param3 param4)
      else ret (eng_at_cops n 0 0 (zeros 256) 0)
  | Some ENG_AT_SETSYSCONFIG =>
      data1 <- int_field ;; data2 <- int_field ;; data3 <- int_field ;; data4 <- int_field ;;
      ret (eng_at_sysinfo data1 data2 data3 data4)
  | Some ENG_AT_SPVER | Some ENG_AT_CFUN | Some ENG_AT_SETCAPLOG => int_static
  | Some ENG_AT_CCED => type <- int_field ;; value <- int_field ;; ret (eng_at_sptest type value)
  | Some ENG_AT_SGMR =>
      n <- num ;;
      if n =? 3 then
        dual_sys <- int_field ;; op <- int_field ;; type <- int_field ;; ret (eng_at_sgmr n dual_sys op type (zeros 256))
      else if n =? 4 then
        dual_sys <- int_field ;; op <- int_field ;; type <- int_field ;; str <- chars_field 256 None ;;
        ret (eng_at_sgmr n dual_sys op type str)
      else ret (eng_at_sgmr n 0 0 0 (zeros 256))
  | _ => ret NULL
  end.
Definition eng_parsecmd : M parse (Z * param) :=
  type <- int_or None ;;
  param_num <- int_or None ;;
  cmd <- lift Uninitialised type ;;
  p <- parse_param cmd param_num ;;
  ret (cmd, p).

(** *** The AT command *)

Definition ENG_AT_CMD_MAX_LEN : Z := 1024.

(** The pieces of a format. *)
Inductive arg := Fs (s : String.string) | Fd (v : Z) | Fq (a : chars) | Fa (a : chars).
(** A string argument is an array of characters that a NUL ends; [Fq] is one in
    quotes. *)
Definition chars_text {S} (a : chars) : M S (list Z) :=
  l <- lift Uninitialised a ;; lift OutOfBounds (cstring l 0).
Definition arg_bytes {S} (a : arg) : M S (list Z) :=
  match a with
  | Fs s => ret (str s)
  | Fd v => ret (print_int v)
  | Fq a => t <- chars_text a ;; ret (34 :: t ++ [34])
  | Fa a => chars_text a
  end.
(** [sprintf(at_cmd_req, ...)] *)
Fixpoint fmt {S} (l : list arg) : M S (list Z) :=
  match l with
  | [] => ret []
  | a :: l => x <- arg_bytes a ;; y <- fmt l ;; ret (x ++ y)
  end.
(** The numbers [a, b, ...] with commas after those but the last. *)
Fixpoint ints (l : list Z) : list arg :=
  match l with
  | [] => []
  | [v] => [Fd v]
  | v :: l => Fd v :: Fs "," :: ints l
  end.

(** A command with an [int], and one without a parameter. *)
Definition with_int {S} (s : String.string) (p : param) : M S (list Z) :=
  match p with oneint v => fmt [Fs s; Fd v] | _ => bad NullPointer end.
Definition plain_cmd {S} (s : String.string) : M S (list Z) := fmt [Fs s].
(** [AT+X=index], or [AT+X=index,value]. *)
Definition index_value {S} (s : String.string) (param_num index value : Z) : M S (list Z) :=
  if param_num =? 2 then fmt (Fs s :: ints [index; value]) else fmt [Fs s; Fd index].

(** The parameter is read as the struct of the command: another one, or NULL, is
    a fault. *)
Definition eng_atCommandRequest {S} (cmd : Z) (p : param) : M S (list Z) :=
  b <- match of_code cmd with
  | Some ENG_AT_REQUEST_MODEM_VERSION => plain_cmd "AT+CGMM"
  | Some ENG_AT_REQUEST_IMEI => plain_cmd "AT+CGSN"
  | Some ENG_AT_SELECT_BAND => with_int "AT+SBAND=" p
  | Some ENG_AT_CURRENT_BAND => plain_cmd "AT+SBAND?"
  | Some ENG_AT_SETARMLOG => with_int "AT+ARMLOG=" p
  | Some ENG_AT_GETARMLOG => plain_cmd "AT+ARMLOG?"
  | Some ENG_AT_SETDSPLOG => with_int "AT+SPDSPOP=" p
  | Some ENG_AT_GETDSPLOG => plain_cmd "AT+SPDSPOP?"
  | Some ENG_AT_SETAUTOANSWER => with_int "AT+SPAUTO=" p
  | Some ENG_AT_GETAUTOANSWER => plain_cmd "AT+SPAUTO?"
  | Some ENG_AT_SETSPPSRATE =>
      match p with eng_at_sppsrate type ul dl => fmt (Fs "AT+SPPSRATE=" :: ints [type; ul; dl]) | _ => bad NullPointer end
  | Some ENG_AT_GETSPPSRATE => plain_cmd "AT+SPPSRATE?"
  | Some ENG_AT_SETSPTEST =>
      match p with eng_at_sptest type value => fmt (Fs "AT+SPTEST=" :: ints [type; value]) | _ => bad NullPointer end
  | Some ENG_AT_GETSPTEST => plain_cmd "AT+SPTEST?"
  | Some ENG_AT_SPID => plain_cmd "AT+SPID"
  | Some ENG_AT_SETSPFRQ =>
      match p with
      | eng_at_spfreq param_num operation index freq cell_id1 cell_id2 cell_id3 =>
          if param_num =? 3 then fmt (Fs "AT+SPFRQ=" :: ints [operation; index; freq])
          else fmt (Fs "AT+SPFRQ=" :: ints [operation; index; freq; cell_id1; cell_id2; cell_id3])
      | _ => bad NullPointer
      end
  | Some ENG_AT_GETSPFRQ => plain_cmd "AT+SPFRQ?"
  | Some ENG_AT_SPAUTE =>
      match p with eng_at_spaute enable delayms dev volume => fmt (Fs "AT+SPAUTE=" :: ints [enable; delayms; dev; volume]) | _ => bad NullPointer end
  | Some ENG_AT_SETSPDGCNUM => match p with eng_at_spdgcnum num => fmt [Fs "AT+SPDGCNUM="; Fd num] | _ => bad NullPointer end
  | Some ENG_AT_GETSPDGCNUM => plain_cmd "AT+SPDGCNUM?"
  | Some ENG_AT_SETSPDGCINFO =>
      match p with eng_at_spdgcinfo index band arfcn bsic => fmt (Fs "AT+SPDGCINFO=" :: ints [index; band; arfcn; bsic]) | _ => bad NullPointer end
  | Some ENG_AT_GETSPDGCINFO => plain_cmd "AT+SPDGCINFO?"
  | Some ENG_AT_GRRTDNCELL =>
      match p with
      | NULL => plain_cmd "AT+GRRTDNCELL"
      | eng_at_grrtdncell param_num index arfcn cpi1 cpi2 cpi3 cpi4 =>
          if param_num =? 3 then fmt (Fs "AT+GRRTDNCELL=" :: ints [index; arfcn; cpi1])
          else if param_num =? 4 then fmt (Fs "AT+GRRTDNCELL=" :: ints [index; arfcn; cpi1; cpi2])
          else if param_num =? 5 then fmt (Fs "AT+GRRTDNCELL=" :: ints [index; arfcn; cpi1; cpi2; cpi3])
          else if param_num =? 6 then fmt (Fs "AT+GRRTDNCELL=" :: ints [index; arfcn; cpi1; cpi2; cpi3; cpi4])
          else plain_cmd "AT+GRRTDNCELL"
      | _ => bad NullPointer
      end
  | Some ENG_AT_SPL1ITRRSWITCH => with_int "AT+SPL1ITRRSWITCH=" p
  | Some ENG_AT_GETSPL1ITRRSWITCH => plain_cmd "AT+SPL1ITRRSWITCH?"
  | Some ENG_AT_PCCOTDCELL =>
      match p with eng_at_pccotdcell arfcn cell_id => fmt (Fs "AT+PCCOTDCELL=" :: ints [arfcn; cell_id]) | _ => bad NullPointer end
  | Some ENG_AT_SDATACONF =>
      match p with
      | eng_at_sdataconf param_num id type ip server_port self_port =>
          if param_num =? 5 then fmt [Fs "AT+SDATACONF="; Fd id; Fs ","; Fq type; Fs ","; Fq ip; Fs ","; Fd server_port; Fs ", "; Fd self_port]
          else fmt [Fs "AT+SDATACONF="; Fd id; Fs ","; Fq type; Fs ","; Fq ip; Fs ","; Fd server_port]
      | _ => bad NullPointer
      end
  | Some ENG_AT_L1PARAM => match p with eng_at_l1param n index value => index_value "AT+L1PARAM=" n index value | _ => bad NullPointer end
  | Some ENG_AT_TRRPARAM => match p with eng_at_trrparam n index value => index_value "AT+TRRPARAM=" n index value | _ => bad NullPointer end
  | Some ENG_AT_SETTDMEASSWTH => with_int "AT+TDMEASSWTH=" p
  | Some ENG_AT_GETTDMEASSWTH => plain_cmd "AT+TDMEASSWTH?"
  | Some ENG_AT_RRDMPARAM => match p with eng_at_rrdmparam n index value => index_value "AT+RRDMPARAM=" n index value | _ => bad NullPointer end
  | Some ENG_AT_DMPARAMRESET => plain_cmd "AT+DMPARAMRESET"
  | Some ENG_AT_SMTIMER =>
      match p with eng_at_smtimer n value => if n =? 1 then fmt [Fs "AT+SMTIMER="; Fd value] else plain_cmd "AT+SMTIMER" | _ => bad NullPointer end
  | Some ENG_AT_TRRDCFEPARAM =>
      match p with
      | eng_at_ttrdcfeparam n index value =>
          if n =? 1 then fmt [Fs "AT+TRRDCFEPARAM="; Fd index]
          else if n =? 2 then fmt (Fs "AT+TRRDCFEPARAM=" :: ints [index; value]) else ret []
      | _ => bad NullPointer
      end
  | Some ENG_AT_CIMI => plain_cmd "AT+CIMI"
  | Some ENG_AT_MBCELLID => with_int "AT^MBCELLID=" p
  | Some ENG_AT_MBAU =>
      match p with
      | eng_at_mbau n rend autn =>
          if n =? 2 then fmt [Fs "AT^MBAU="; Fq rend; Fs ","; Fq autn; Fs " "] else fmt [Fs "AT^MBAU="; Fq rend; Fs " "]
      | _ => bad NullPointer
      end
  | Some ENG_AT_EUICC => plain_cmd "AT+EUICC?"
  | Some ENG_AT_CGREG => plain_cmd "AT+CGREG?"
  | Some ENG_AT_NOHANDLE_CMD => match p with eng_at_nohandle cmd => fmt [Fa cmd] | _ => bad NullPointer end
  | Some ENG_AT_SYSINFO => plain_cmd "AT^SYSINFO"
  | Some ENG_AT_HVER => plain_cmd "AT^HVER"
  | Some ENG_AT_GETSYSCONFIG => plain_cmd "AT^SYSCONFIG?"
  | Some ENG_AT_SETSYSCONFIG =>
      match p with eng_at_sysinfo data1 data2 data3 data4 => fmt (Fs "AT^SYSCONFIG=" :: ints [data1; data2; data3; data4]) | _ => bad NullPointer end
  | Some ENG_AT_SPVER => with_int "AT+SPVER=" p
  | Some ENG_AT_CAOC => plain_cmd "AT+CAOC=2"
  | Some ENG_AT_CAOCD => plain_cmd "AT+CAOC=1"
  | Some ENG_AT_CAOCQ => plain_cmd "AT+CAOC=0"
  | Some ENG_AT_CGSMS => with_int "AT+CGSMS=" p
  | Some ENG_AT_GETUPLMN =>
      match p with oneint v => fmt [Fs "AT+CRSM=176,28512,0,0,"; Fd v; Fs ",0,"; Fq (Some (str "3F007FFF" ++ [0]))] | _ => bad NullPointer end
  | Some ENG_AT_GETUPLMNLEN => fmt [Fs "AT+CRSM=192,28512,0,0,15,0,"; Fq (Some (str "3F007FFF" ++ [0]))]
  | Some ENG_AT_AUTOATTACH => plain_cmd "AT+SAUTOATT?"
  | Some ENG_AT_SETAUTOATTACH => with_int "AT+SAUTOATT=" p
  | Some ENG_AT_PDPACTIVE =>
      match p with eng_at_pdpactive n param1 param2 => if n =? 2 then fmt (Fs "AT+CGACT=" :: ints [param1; param2]) else ret [] | _ => bad NullPointer end
  | Some ENG_AT_GETPDPACT => plain_cmd "AT+CGACT?"
  | Some ENG_AT_EXIT => plain_cmd "AT+ENGEXIT"
  | Some ENG_AT_SGPRSDATA =>
      match p with
      | eng_at_spgresdata n param1 param2 param3 =>
          if n =? 1 then fmt [Fs "AT+SGPRSDATA="; Fd param1]
          else fmt [Fs "AT+SGPRSDATA="; Fd param1; Fs ", "; Fd param2; Fs ", "; Fq param3; Fs " "]
      | _ => bad NullPointer
      end
  | Some ENG_AT_CAMM =>
      match p with eng_at_camm n param1 param2 => if n =? 2 then fmt [Fs "AT+CAMM="; Fq param1; Fs ", "; Fq param2; Fs " "] else ret [] | _ => bad NullPointer end
  | Some ENG_AT_SETCOPS =>
      match p with
      | eng_at_cops n param1 param2 param3 param4 =>
          if n =? 4 then fmt [Fs "AT+COPS="; Fd param1; Fs ", "; Fd param2; Fs ", "; Fq param3; Fs ", "; Fd param4] else ret []
      | _ => bad NullPointer
      end
  | Some ENG_AT_SETUPLMN =>
      match p with
      | eng_at_crsm n whatHandler fileID p1 p2 p3 data others =>
          if n =? 7 then fmt ((Fs "AT+CRSM=" :: ints [whatHandler; fileID; p1; p2; p3]) ++ [Fs ","; Fq data; Fs ","; Fq others]) else ret []
      | _ => bad NullPointer
      end
  | Some ENG_AT_SADC => plain_cmd "AT+SADC"
  | Some ENG_AT_CFUN => with_int "AT+CFUN=" p
  | Some ENG_AT_CGMR => plain_cmd "AT+CGMR"
  | Some ENG_AT_SETCAPLOG => with_int "AT+SPCAPLOG=" p
  | Some ENG_AT_CCED =>
      match p with eng_at_sptest type value => fmt (Fs "AT+CCED=" :: ints [type; value]) | _ => bad NullPointer end
  | Some ENG_AT_L1MON => plain_cmd "AT+SL1MON"
  | Some ENG_AT_SFPL => plain_cmd "AT+SFPL"
  | Some ENG_AT_SEPL => plain_cmd "AT+SEPL"
  | Some ENG_AT_SPENGMD_QUERY => plain_cmd "AT+SPENGMD=0,10,2"
  | Some ENG_AT_SPENGMD_OPEN => plain_cmd "AT+SPENGMD=1,10,2,3"
  | Some ENG_AT_SPENGMD_CLOSE => plain_cmd "AT+SPENGMD=1,10,2,1"
  | Some ENG_AT_GET_ASSERT_MODE => plain_cmd "AT+SDRMOD?"
  | Some ENG_AT_SET_ASSERT_MODE => with_int "AT+SDRMOD=" p
  | Some ENG_AT_SET_MANUAL_ASSERT => plain_cmd "AT+SPATASSERT=1"
  | Some ENG_AT_SGMR =>
      match p with
      | eng_at_sgmr n dual_sys op type str =>
          if n =? 4 then fmt ((Fs "AT+SGMR=" :: ints [dual_sys; op; type]) ++ [Fs ","; Fq str])
          else if n =? 3 then fmt (Fs "AT+SGMR=" :: ints [dual_sys; op; type]) else ret []
      | _ => bad NullPointer
      end
  | Some ENG_AT_SSMP => plain_cmd "AT+SSMP"
  | _ => ret []
  end ;;
  (if zlen b <? ENG_AT_CMD_MAX_LEN then ret b else bad OutOfBounds).

(** A command of the application and the AT command. *)
Definition request (data : list Z) (old : Z) : outcome parse (list Z) :=
  (r <- eng_parsecmd ;; eng_atCommandRequest r.1 r.2) (Parse (Tok data (Some 0)) old).
Definition request_of (s : list Z) : option (list Z) :=
  match request (s ++ replicate (2048 - length s) 0) 0 with Ret b _ => Some b | _ => None end.
Example rate : request_of (str "8,3,1,64,-128") = Some (str "AT+SPPSRATE=1,64,-128").
Proof. vm_compute. done. Qed.
Example conf : request_of (str "24,4,1,TCP,10.0.0.1,80") = Some (str "AT+SDATACONF=1," ++ [34] ++ str "TCP" ++ [34; 44; 34] ++ str "10.0.0.1" ++ [34] ++ str ",80").
Proof. vm_compute. done. Qed.
Example pass_on : request_of (str "39,0,AT+CSQ") = Some (str "AT+CSQ").
Proof. vm_compute. done. Qed.
