(* ===== verification/EngCmdProofs.v ===== *)
(** * The modem gets the command that was meant

    The theorems on EngCmd.v: every command of integers reaches the modem with
    its numbers; the parameter of a command is always the struct that the
    printing of the command takes it for. *)
From stdpp Require Import base list.
From Stdlib Require Import ZArith Lia.
From Stdlib Require Import (notations) String.
From S2P Require Import Prelude EngTok EngTokProofs EngCmd.

(** ** Integers between commas *)

Lemma int_or_spec s old v l : left_ (p_tok s) (Some (fields (v :: l))) -> int32 v ->
  exists t', int_or old s = Ret (Some v) (Parse t' (at_oneint s)) /\ left_ t' (fields_left l).
Proof.
  intros H Hv. destruct (nextint_base_ref 10 false (p_tok s) _ H) as (t' & E & _ & L). rewrite (ref_int_fields v l Hv) in E, L. exists t'. split; [|done].
  unfold int_or, tokens. erewrite bind_Ret by (unfold zoom; unfold at_tok_nextint; rewrite E; done). done.
Qed.
Lemma int_field_spec s v l : left_ (p_tok s) (Some (fields (v :: l))) -> int32 v ->
  exists t', int_field s = Ret v (Parse t' (at_oneint s)) /\ left_ t' (fields_left l).
Proof.
  intros H Hv. destruct (int_or_spec s (Some 0) v l H Hv) as (t' & E & L). exists t'. split; [|done]. unfold int_field. by erewrite bind_Ret by exact E.
Qed.
Lemma int_static_spec s v l : left_ (p_tok s) (Some (fields (v :: l))) -> int32 v ->
  exists t', int_static s = Ret (oneint v) (Parse t' v) /\ left_ t' (fields_left l).
Proof.
  intros H Hv. destruct (int_or_spec s (Some (at_oneint s)) v l H Hv) as (t' & E & L). exists t'. split; [|done]. unfold int_static.
  rewrite (bind_Ret get _ s s s) by done. by erewrite bind_Ret by exact E.
Qed.

(** ** The commands of integers *)

(** The commands with what the modem gets in front of the numbers, and how many
    numbers there are. *)
Definition int_commands : list (ENG_AT_CMD * String.string * nat) :=
  [(ENG_AT_SELECT_BAND, "AT+SBAND="%string, 1%nat); (ENG_AT_SETARMLOG, "AT+ARMLOG="%string, 1%nat); (ENG_AT_SETDSPLOG, "AT+SPDSPOP="%string, 1%nat);
   (ENG_AT_SETAUTOANSWER, "AT+SPAUTO="%string, 1%nat); (ENG_AT_SETSPPSRATE, "AT+SPPSRATE="%string, 3%nat); (ENG_AT_SETSPTEST, "AT+SPTEST="%string, 2%nat);
   (ENG_AT_SETSPFRQ, "AT+SPFRQ="%string, 3%nat); (ENG_AT_SETSPFRQ, "AT+SPFRQ="%string, 6%nat); (ENG_AT_SPAUTE, "AT+SPAUTE="%string, 4%nat);
   (ENG_AT_SETSPDGCNUM, "AT+SPDGCNUM="%string, 1%nat); (ENG_AT_SETSPDGCINFO, "AT+SPDGCINFO="%string, 4%nat);
   (ENG_AT_GRRTDNCELL, "AT+GRRTDNCELL="%string, 3%nat); (ENG_AT_GRRTDNCELL, "AT+GRRTDNCELL="%string, 4%nat);
   (ENG_AT_GRRTDNCELL, "AT+GRRTDNCELL="%string, 5%nat); (ENG_AT_GRRTDNCELL, "AT+GRRTDNCELL="%string, 6%nat);
   (ENG_AT_SPL1ITRRSWITCH, "AT+SPL1ITRRSWITCH="%string, 1%nat); (ENG_AT_PCCOTDCELL, "AT+PCCOTDCELL="%string, 2%nat);
   (ENG_AT_L1PARAM, "AT+L1PARAM="%string, 1%nat); (ENG_AT_L1PARAM, "AT+L1PARAM="%string, 2%nat);
   (ENG_AT_TRRPARAM, "AT+TRRPARAM="%string, 1%nat); (ENG_AT_TRRPARAM, "AT+TRRPARAM="%string, 2%nat); (ENG_AT_SETTDMEASSWTH, "AT+TDMEASSWTH="%string, 1%nat);
   (ENG_AT_RRDMPARAM, "AT+RRDMPARAM="%string, 1%nat); (ENG_AT_RRDMPARAM, "AT+RRDMPARAM="%string, 2%nat); (ENG_AT_SMTIMER, "AT+SMTIMER="%string, 1%nat);
   (ENG_AT_TRRDCFEPARAM, "AT+TRRDCFEPARAM="%string, 1%nat); (ENG_AT_TRRDCFEPARAM, "AT+TRRDCFEPARAM="%string, 2%nat);
   (ENG_AT_MBCELLID, "AT^MBCELLID="%string, 1%nat); (ENG_AT_CGSMS, "AT+CGSMS="%string, 1%nat); (ENG_AT_SETAUTOATTACH, "AT+SAUTOATT="%string, 1%nat);
   (ENG_AT_PDPACTIVE, "AT+CGACT="%string, 2%nat); (ENG_AT_SGPRSDATA, "AT+SGPRSDATA="%string, 1%nat); (ENG_AT_SETSYSCONFIG, "AT^SYSCONFIG="%string, 4%nat);
   (ENG_AT_SPVER, "AT+SPVER="%string, 1%nat); (ENG_AT_CFUN, "AT+CFUN="%string, 1%nat); (ENG_AT_SETCAPLOG, "AT+SPCAPLOG="%string, 1%nat);
   (ENG_AT_CCED, "AT+CCED="%string, 2%nat); (ENG_AT_SET_ASSERT_MODE, "AT+SDRMOD="%string, 1%nat); (ENG_AT_SGMR, "AT+SGMR="%string, 3%nat)].
(** The commands without numbers. *)
Definition plain_commands : list (ENG_AT_CMD * String.string * nat) := (fun x : ENG_AT_CMD * String.string => (x.1, x.2, 0%nat)) <$>
  [(ENG_AT_REQUEST_MODEM_VERSION, "AT+CGMM"%string); (ENG_AT_REQUEST_IMEI, "AT+CGSN"%string); (ENG_AT_CURRENT_BAND, "AT+SBAND?"%string);
   (ENG_AT_GETARMLOG, "AT+ARMLOG?"%string); (ENG_AT_GETDSPLOG, "AT+SPDSPOP?"%string); (ENG_AT_GETAUTOANSWER, "AT+SPAUTO?"%string);
   (ENG_AT_GETSPPSRATE, "AT+SPPSRATE?"%string); (ENG_AT_GETSPTEST, "AT+SPTEST?"%string); (ENG_AT_SPID, "AT+SPID"%string);
   (ENG_AT_GETSPFRQ, "AT+SPFRQ?"%string); (ENG_AT_GETSPDGCNUM, "AT+SPDGCNUM?"%string); (ENG_AT_GETSPDGCINFO, "AT+SPDGCINFO?"%string);
   (ENG_AT_GRRTDNCELL, "AT+GRRTDNCELL"%string); (ENG_AT_GETSPL1ITRRSWITCH, "AT+SPL1ITRRSWITCH?"%string);
   (ENG_AT_GETTDMEASSWTH, "AT+TDMEASSWTH?"%string); (ENG_AT_DMPARAMRESET, "AT+DMPARAMRESET"%string); (ENG_AT_SMTIMER, "AT+SMTIMER"%string);
   (ENG_AT_CIMI, "AT+CIMI"%string); (ENG_AT_EUICC, "AT+EUICC?"%string); (ENG_AT_CGREG, "AT+CGREG?"%string); (ENG_AT_SYSINFO, "AT^SYSINFO"%string);
   (ENG_AT_HVER, "AT^HVER"%string); (ENG_AT_GETSYSCONFIG, "AT^SYSCONFIG?"%string); (ENG_AT_CAOC, "AT+CAOC=2"%string);
   (ENG_AT_CAOCD, "AT+CAOC=1"%string); (ENG_AT_CAOCQ, "AT+CAOC=0"%string); (ENG_AT_AUTOATTACH, "AT+SAUTOATT?"%string);
   (ENG_AT_GETPDPACT, "AT+CGACT?"%string); (ENG_AT_EXIT, "AT+ENGEXIT"%string); (ENG_AT_SADC, "AT+SADC"%string); (ENG_AT_CGMR, "AT+CGMR"%string);
   (ENG_AT_L1MON, "AT+SL1MON"%string); (ENG_AT_SFPL, "AT+SFPL"%string); (ENG_AT_SEPL, "AT+SEPL"%string);
   (ENG_AT_SPENGMD_QUERY, "AT+SPENGMD=0,10,2"%string); (ENG_AT_SPENGMD_OPEN, "AT+SPENGMD=1,10,2,3"%string);
   (ENG_AT_SPENGMD_CLOSE, "AT+SPENGMD=1,10,2,1"%string); (ENG_AT_GET_ASSERT_MODE, "AT+SDRMOD?"%string);
   (ENG_AT_SET_MANUAL_ASSERT, "AT+SPATASSERT=1"%string); (ENG_AT_SSMP, "AT+SSMP"%string)].
Definition simple_commands := int_commands ++ plain_commands.

Lemma code_of_code c : of_code (code c) = Some c.
Proof. by destruct c. Qed.

Lemma length_print_int v : int32 v -> zlen (print_int v) <= 11.
Proof.
  assert (H : forall n b x, zlen (print_base n b x) <= Z.of_nat n).
  { induction n as [|n IH]; intros b x; [done|]. cbn [print_base]. destruct (x <? b); [change (zlen [digit x]) with 1; lia|].
    rewrite zlen_app. change (zlen [digit (x mod b)]) with 1. specialize (IH b (x / b)). lia. }
  intros _. unfold print_int. destruct (v <? 0); [rewrite zlen_cons|]; specialize (H 10%nat 10); [specialize (H (- v))|specialize (H v)]; lia.
Qed.

(** What [sprintf] writes for numbers. *)
Lemma fmt_ints {S} (s : S) l : fmt (ints l) s = Ret (fields l) s.
Proof.
  induction l as [|v l IH]; [done|]. destruct l as [|w l]; [unfold fields; cbn; by rewrite !app_nil_r|].
  change (ints (v :: w :: l)) with (Fd v :: Fs "," :: ints (w :: l)). rewrite fields_cons. cbn [fmt arg_bytes].
  erewrite bind_Ret by done. erewrite bind_Ret by (erewrite bind_Ret by done; erewrite bind_Ret by exact IH; done). done.
Qed.
Lemma fmt_cons_ints {S} (s : S) n l : fmt (Fs n :: ints l) s = Ret (str n ++ fields l) s.
Proof. cbn [fmt arg_bytes]. erewrite bind_Ret by done. erewrite bind_Ret by apply fmt_ints. done. Qed.
Lemma fmt_one {S} (s : S) n v : fmt [Fs n; Fd v] s = Ret (str n ++ fields [v]) s.
Proof. apply (fmt_cons_ints s n [v]). Qed.

Lemma fields_length l : Forall int32 l -> zlen (fields l) <= 12 * zlen l.
Proof.
  intros H. induction H as [|v l Hv H IH]; [done|]. rewrite fields_cons, zlen_app, zlen_cons. pose proof (length_print_int v Hv).
  destruct l; [change (zlen []) with 0; pose proof (zlen_nonneg (@nil Z)); lia|]. rewrite zlen_cons. lia.
Qed.


Lemma wp_eq {S A} F (m : M S A) (Q : A -> S -> Prop) E s a s' : m s = Ret a s' -> Q a s' -> wp F m Q E s.
Proof. intros H HQ. unfold wp. by rewrite H. Qed.
Lemma wp_int_field F t o v l (Q : Z -> parse -> Prop) E : left_ t (fields_left (v :: l)) -> int32 v ->
  (forall t', left_ t' (fields_left l) -> Q v (Parse t' o)) -> wp F int_field Q E (Parse t o).
Proof. intros H Hv HQ. destruct (int_field_spec (Parse t o) v l H Hv) as (t' & Eq & L). eapply wp_eq; [exact Eq|]. by apply HQ. Qed.
Lemma wp_int_static F t o v l (Q : param -> parse -> Prop) E : left_ t (fields_left (v :: l)) -> int32 v ->
  (forall t', left_ t' (fields_left l) -> Q (oneint v) (Parse t' v)) -> wp F int_static Q E (Parse t o).
Proof. intros H Hv HQ. destruct (int_static_spec (Parse t o) v l H Hv) as (t' & Eq & L). eapply wp_eq; [exact Eq|]. by apply HQ. Qed.

Lemma fmt_plain {S} (s : S) n : plain_cmd n s = Ret (str n ++ fields []) s.
Proof. unfold plain_cmd. cbn [fmt arg_bytes]. erewrite bind_Ret by done. by erewrite bind_Ret by done. Qed.

(** The AT command of a parameter. *)
Definition prints (c : ENG_AT_CMD) (name : String.string) (vs : list Z) (p : param) : Prop :=
  forall S (s : S), eng_atCommandRequest (code c) p s = Ret (str name ++ fields vs) s.

(** Comparisons of constants. *)
Ltac constants := match goal with
  | |- context [Z.of_nat ?k] => let v := eval vm_compute in (Z.of_nat k) in change (Z.of_nat k) with v
  | |- context [?a =? ?b] => let v := eval vm_compute in (a =? b) in constr_eq_bool v; change (a =? b) with v
  | |- context [?a <? ?b] => let v := eval vm_compute in (a <? b) in constr_eq_bool v; change (a <? b) with v
  end
with constr_eq_bool v := match v with true => idtac | false => idtac end.

(** [parse_param] and the printing, symbolically. *)
Ltac forward := repeat first
  [ progress cbv beta iota
  | constants
  | eapply wp_lift_Some; [reflexivity|]
  | eapply wp_int_field; [eassumption|assumption|intros ? ?]
  | eapply wp_int_static; [eassumption|assumption|intros ? ?]
  | wp_step ].

Lemma command_forwarded F E c name n vs t old : In (c, name, n) simple_commands -> length vs = n -> Forall int32 vs -> left_ t (fields_left vs) ->
  wp F (parse_param (code c) (Some (Z.of_nat n))) (fun p _ => prints c name vs p) E (Parse t old).
Proof.
  intros Hin Hn Hvs Ht.
  assert (Hl : zlen (str name ++ fields vs) < ENG_AT_CMD_MAX_LEN).
  { pose proof (fields_length vs Hvs) as H1. assert (H2 : zlen (str name) <= 20 /\ (n <= 6)%nat).
    { revert Hin. apply List.Forall_forall with (P := fun x => zlen (str x.1.2) <= 20 /\ (x.2 <= 6)%nat) (x := (c, name, n)).
      repeat (apply List.Forall_cons; [vm_compute; split; [discriminate|lia]|]). apply List.Forall_nil. }
    rewrite zlen_app. unfold zlen, ENG_AT_CMD_MAX_LEN in *. lia. }
  unfold parse_param. rewrite code_of_code.
  repeat (destruct Hin as [[= <- <- <-]|Hin]); try destruct Hin.
  all: repeat (destruct vs as [|? vs]; [try discriminate Hn|]; try discriminate Hn).
  all: repeat match goal with H : Forall _ (_ :: _) |- _ => apply Forall_cons in H as [? ?] end.
  all: forward.
  all: intros S s; unfold eng_atCommandRequest; rewrite code_of_code; cbv beta iota; repeat (constants; cbv beta iota).
  all: erewrite bind_Ret by first [apply fmt_plain|apply fmt_cons_ints|apply fmt_one|unfold index_value; constants; cbv beta iota; first [apply fmt_cons_ints|apply fmt_one] ].
  all: by rewrite (proj2 (Z.ltb_lt _ _) Hl).
Qed.

(** Reading a whole command. *)
Lemma command_read c name n vs buf p old : In (c, name, n) simple_commands -> length vs = n -> Forall int32 vs ->
  text_at buf p (fields (code c :: Z.of_nat n :: vs)) ->
  exists q s, eng_parsecmd (Parse (Tok buf (Some p)) old) = Ret (code c, q) s /\ prints c name vs q.
Proof.
  intros Hin Hn Hvs Ht.
  assert (Hw : wp no_fault eng_parsecmd (fun r _ => r.1 = code c /\ prints c name vs r.2) (fun _ => False) (Parse (Tok buf (Some p)) old)).
  { unfold eng_parsecmd. wp_step. destruct (int_or_spec (Parse (Tok buf (Some p)) old) None (code c) (Z.of_nat n :: vs)) as (t1 & E1 & L1); [by exists p|by destruct c|].
    eapply wp_eq; [exact E1|]. cbn [at_oneint]. wp_step.
    destruct (int_or_spec (Parse t1 old) None (Z.of_nat n) vs) as (t2 & E2 & L2); [exact L1| |].
    { revert Hin. apply List.Forall_forall with (P := fun x => int32 (Z.of_nat x.2)) (x := (c, name, n)).
      repeat (apply List.Forall_cons; [vm_compute; split; [discriminate|done]|]). apply List.Forall_nil. }
    eapply wp_eq; [exact E2|]. cbn [at_oneint]. wp_step. apply (wp_lift_Some _ _ (code c)); [done|]. wp_step.
    eapply wp_mono; [by apply (command_forwarded no_fault (fun _ => False) c name n vs t2 old)| |done]. intros q s Hq. by wp_step. }
  unfold wp in Hw. destruct (eng_parsecmd (Parse (Tok buf (Some p)) old)) as [ [x q] s|s|f]; [|done|done]. destruct Hw as [Hx Hq]. cbn in Hx. subst x. by exists q, s.
Qed.

(** C13: A command of the table - those that take integers, in each of their
    forms, or nothing - with as many numbers as it says is taken from the message's
    text, which has its number, the count of its numbers and the numbers, with
    commas between them, and becomes the AT command with the same numbers,
    whatever they are and whatever was sent before. *)
Theorem commands_forwarded c name n vs buf p old : In (c, name, n) simple_commands -> length vs = n -> Forall int32 vs ->
  text_at buf p (fields (code c :: Z.of_nat n :: vs)) ->
  exists s, (r <- eng_parsecmd ;; eng_atCommandRequest r.1 r.2) (Parse (Tok buf (Some p)) old) = Ret (str name ++ fields vs) s.
Proof.
  intros Hin Hn Hvs Ht. destruct (command_read c name n vs buf p old Hin Hn Hvs Ht) as (q & s & E & Hq).
  exists s. erewrite bind_Ret by exact E. apply Hq.
Qed.

Lemma commands_forwarded_witness : exists s,
  (r <- eng_parsecmd ;; eng_atCommandRequest r.1 r.2) (Parse (Tok (str "8,3,1,64,-128" ++ [0]) (Some 0)) 5) = Ret (str "AT+SPPSRATE=1,64,-128") s.
Proof.
  apply (commands_forwarded ENG_AT_SETSPPSRATE "AT+SPPSRATE="%string 3 [1; 64; -128]).
  - vm_compute. tauto.
  - done.
  - repeat (apply List.Forall_cons; [vm_compute; split; [discriminate|done]|]). apply List.Forall_nil.
  - split; [|by exists [], [] ]. repeat (apply List.Forall_cons; [done|]). apply List.Forall_nil.
Defined.

(** ** Parameters have the types of their commands *)

(** The struct that a command's parameter points to. *)
Definition fits (cmd : Z) (p : param) : bool :=
  match of_code cmd, p with
  | Some (ENG_AT_SELECT_BAND | ENG_AT_SET_ASSERT_MODE | ENG_AT_SETARMLOG | ENG_AT_SETDSPLOG | ENG_AT_SETAUTOANSWER | ENG_AT_SPL1ITRRSWITCH
      | ENG_AT_SETTDMEASSWTH | ENG_AT_MBCELLID | ENG_AT_CGSMS | ENG_AT_SETAUTOATTACH | ENG_AT_GETUPLMN | ENG_AT_SPVER | ENG_AT_CFUN
      | ENG_AT_SETCAPLOG), oneint _ => true
  | Some ENG_AT_SETSPPSRATE, eng_at_sppsrate _ _ _ => true
  | Some (ENG_AT_SETSPTEST | ENG_AT_CCED), eng_at_sptest _ _ => true
  | Some ENG_AT_SETSPFRQ, eng_at_spfreq _ _ _ _ _ _ _ => true
  | Some ENG_AT_SPAUTE, eng_at_spaute _ _ _ _ => true
  | Some ENG_AT_SETSPDGCNUM, eng_at_spdgcnum _ => true
  | Some ENG_AT_SETSPDGCINFO, eng_at_spdgcinfo _ _ _ _ => true
  | Some ENG_AT_GRRTDNCELL, (NULL | eng_at_grrtdncell _ _ _ _ _ _ _) => true
  | Some ENG_AT_PCCOTDCELL, eng_at_pccotdcell _ _ => true
  | Some ENG_AT_SDATACONF, eng_at_sdataconf _ _ _ _ _ _ => true
  | Some ENG_AT_L1PARAM, eng_at_l1param _ _ _ => true
  | Some ENG_AT_TRRPARAM, eng_at_trrparam _ _ _ => true
  | Some ENG_AT_RRDMPARAM, eng_at_rrdmparam _ _ _ => true
  | Some ENG_AT_SMTIMER, eng_at_smtimer _ _ => true
  | Some ENG_AT_TRRDCFEPARAM, eng_at_ttrdcfeparam _ _ _ => true
  | Some ENG_AT_MBAU, eng_at_mbau _ _ _ => true
  | Some ENG_AT_NOHANDLE_CMD, eng_at_nohandle _ => true
  | Some ENG_AT_PDPACTIVE, eng_at_pdpactive _ _ _ => true
  | Some ENG_AT_SGPRSDATA, eng_at_spgresdata _ _ _ _ => true
  | Some ENG_AT_CAMM, eng_at_camm _ _ _ => true
  | Some ENG_AT_SETUPLMN, eng_at_crsm _ _ _ _ _ _ _ _ => true
  | Some ENG_AT_SETCOPS, eng_at_cops _ _ _ _ _ => true
  | Some ENG_AT_SETSYSCONFIG, eng_at_sysinfo _ _ _ _ => true
  | Some ENG_AT_SGMR, eng_at_sgmr _ _ _ _ _ => true
  | Some (ENG_AT_REQUEST_MODEM_VERSION | ENG_AT_REQUEST_IMEI | ENG_AT_CURRENT_BAND | ENG_AT_GETARMLOG | ENG_AT_GETAUTOANSWER | ENG_AT_GETSPPSRATE
      | ENG_AT_GETSPTEST | ENG_AT_SPID | ENG_AT_GETSPFRQ | ENG_AT_GETSPDGCNUM | ENG_AT_GETSPDGCINFO | ENG_AT_GETSPL1ITRRSWITCH
      | ENG_AT_GETTDMEASSWTH | ENG_AT_DMPARAMRESET | ENG_AT_CIMI | ENG_AT_EUICC | ENG_AT_CGREG | ENG_AT_EXIT | ENG_AT_SYSINFO | ENG_AT_HVER
      | ENG_AT_GETSYSCONFIG | ENG_AT_AUTOATTACH | ENG_AT_GETPDPACT | ENG_AT_CAOC | ENG_AT_SADC | ENG_AT_CGMR | ENG_AT_GETUPLMNLEN
      | ENG_AT_GETDSPLOG | ENG_AT_CAOCD | ENG_AT_CAOCQ | ENG_AT_L1MON | ENG_AT_GET_ASSERT_MODE | ENG_AT_SET_MANUAL_ASSERT | ENG_AT_SFPL
      | ENG_AT_SEPL | ENG_AT_SPENGMD_QUERY | ENG_AT_SPENGMD_OPEN | ENG_AT_SPENGMD_CLOSE | ENG_AT_SSMP | ENG_AT_CMD_END | ENG_AT_SET_SNVM
      | ENG_AT_SET_VALUE | ENG_AT_RESET), NULL => true
  | None, NULL => true
  | _, _ => false
  end.

Definition any_fault : fault -> Prop := fun _ => True.
Definition not_null : fault -> Prop := fun f => f <> NullPointer.

Lemma wp_skip {S A} (m : M S A) (Q : A -> S -> Prop) s : (forall a s', Q a s') -> wp any_fault m Q (fun _ => True) s.
Proof. intros H. unfold wp. by destruct (m s). Qed.
Lemma int_static_oneint (Q : param -> parse -> Prop) s : (forall v s', Q (oneint v) s') -> wp any_fault int_static Q (fun _ => True) s.
Proof. intros H. unfold int_static. do 2 wp_step. wp_step. apply wp_skip. intros r s'. wp_step. wp_step. by wp_step. Qed.

Lemma parse_param_fits cmd n s : wp any_fault (parse_param cmd n) (fun p _ => fits cmd p = true) (fun _ => True) s.
Proof.
  unfold parse_param, fits. destruct (of_code cmd) as [ []|].
  all: repeat first
    [ progress cbv beta iota | done
    | match goal with |- wp _ (if ?b then _ else _) _ _ _ => destruct b end
    | apply int_static_oneint; intros ? ?
    | match goal with |- wp _ (bind _ _) _ _ _ => apply wp_bind; apply wp_skip; intros ? ? | |- wp _ (ret _) _ _ _ => apply wp_ret end ].
Qed.

Lemma fmt_not_null {S} (l : list arg) (s : S) : wp not_null (fmt l) (fun _ _ => True) (fun _ => True) s.
Proof.
  revert s. induction l as [|a l IH]; intros s; [by apply wp_ret|]. cbn [fmt]. wp_step.
  assert (Ht : forall c (Q : list Z -> S -> Prop) s', (forall x s'', Q x s'') -> wp not_null (chars_text c) Q (fun _ => True) s').
  { intros c Q s' HQ. unfold chars_text. wp_step. destruct c as [l'|]; [|done]. apply (wp_lift_Some _ _ l'); [done|]. unfold wp, lift. by destruct (cstring l' 0). }
  assert (Ha : forall (Q : list Z -> S -> Prop), (forall x s'', Q x s'') -> wp not_null (arg_bytes a) Q (fun _ => True) s).
  { intros Q HQ. destruct a; cbn [arg_bytes]; [by wp_step|by wp_step| |by apply Ht]. wp_step. apply Ht. intros x s''. by wp_step. }
  apply Ha. intros x s''. wp_step. eapply wp_mono; [apply IH| |done]. intros y s3 _. by wp_step.
Qed.

Lemma request_not_null {S} cmd p (s : S) : fits cmd p = true -> wp not_null (eng_atCommandRequest cmd p) (fun _ _ => True) (fun _ => True) s.
Proof.
  intros H. unfold eng_atCommandRequest, fits in *. wp_step.
  assert (Hend : forall l (s' : S), wp not_null (fmt l) (fun a => wp not_null (if zlen a <? ENG_AT_CMD_MAX_LEN then ret a else bad OutOfBounds) (fun _ _ => True) (fun _ => True)) (fun _ => True) s').
  { intros l s'. eapply wp_mono; [apply fmt_not_null| |done]. intros a s'' _. cbv beta. destruct (zlen a <? ENG_AT_CMD_MAX_LEN); [by wp_step|by apply wp_bad]. }
  destruct (of_code cmd) as [ []|], p; try discriminate H; unfold plain_cmd, with_int, index_value; cbv beta iota;
    repeat match goal with |- context [if ?b then fmt _ else _] => destruct b | |- context [if ?b then _ else _] => destruct b end;
    first [apply Hend | apply (Hend [])].
Qed.

(** C26: The parameter that [eng_parsecmd] returns for a command, whatever the text
    of the message is, is NULL or a struct as the command has it: so
    [eng_atCommandRequest], which casts it to that struct without a check, never
    takes it for another one and never reads through NULL. *)
Theorem parameters_typed s cmd p s' : eng_parsecmd s = Ret (cmd, p) s' ->
  fits cmd p = true /\ forall S (t : S), eng_atCommandRequest cmd p t <> Bad NullPointer.
Proof.
  intros E. assert (Hf : fits cmd p = true).
  { assert (H : wp any_fault eng_parsecmd (fun r _ => fits r.1 r.2 = true) (fun _ => True) s).
    { unfold eng_parsecmd. wp_step. apply wp_skip. intros type s1. wp_step. apply wp_skip. intros n s2. wp_step. apply wp_skip. intros c s3.
      wp_step. eapply wp_mono; [apply parse_param_fits| |done]. intros q s4 Hq. by wp_step. }
    unfold wp in H. by rewrite E in H. }
  split; [done|]. intros S t Eb. pose proof (request_not_null cmd p t Hf) as H. unfold wp in H. by rewrite Eb in H.
Qed.

Lemma parameters_typed_witness : fits 20 (eng_at_grrtdncell 3 1 2 3 0 0 0) = true /\ forall S (t : S), eng_atCommandRequest 20 (eng_at_grrtdncell 3 1 2 3 0 0 0) t <> Bad NullPointer.
Proof.
  apply (parameters_typed (Parse (Tok (str "20,3,1,2,3" ++ [0]) (Some 0)) 0) 20 (eng_at_grrtdncell 3 1 2 3 0 0 0)
    (Parse (Tok [50; 48; 0; 51; 0; 49; 0; 50; 0; 51; 0] None) 0)). vm_compute. done.
Defined.
