(* ===== verification/EngServer.v ===== *)
(** * The server between the applications and the modem client

    src/common/apps/engineeringmodel/engcs/engservice.c: the table of the
    clients that are connected, and what the server does with what an
    application or the modem client sends; [get_send_fd] and
    [eng_write2server] of eng_modemclient.c are the other ends of its messages. *)
From stdpp Require Import base list.
From Stdlib Require Import ZArith Lia.
From Stdlib Require Import (notations) String.
From S2P Require Import Prelude EngTok EngLine.

(** ** Definitions *)

Definition ENG_MAX_RW_SIZE : Z := 2028.
Definition ENG_MAX_CONNECT_NUM : nat := 60.
Definition ENG_MAX_CLIENT_NAME_LEN : Z := 20.

Definition atoi (s : list Z) : Z := default 0 (strtol10 s).

(** *** The table of the clients *)

(** [fe] is the descriptor of the event, [None] for NULL. *)
Record eng_client_info := Client { name : list Z; type : Z; fe : option Z }.
Definition no_client : eng_client_info := Client (replicate 20 0) 0 None.

(** What the server does to the outside. *)
Inductive action :=
  | Sent (fd : Z) (bytes : list Z)
  | Tested (bytes : list Z)        (* eng_test_function *)
  | Unregistered (fd : Z)          (* the event of a descriptor is deleted *)
  | Closed (fd : Z).
Record server := Server { client_info : list eng_client_info; monitor_svc_fd : Z; actions : list action }.
Definition act (a : action) : M server unit := modify (fun s => Server (client_info s) (monitor_svc_fd s) (actions s ++ [a])).
Definition set_clients (l : list eng_client_info) : M server unit := modify (fun s => Server l (monitor_svc_fd s) (actions s)).
Definition client_info_init : M server unit := set_clients (replicate ENG_MAX_CONNECT_NUM no_client).

(** [strcpy] and [strncpy] into an array of [size] zeros. *)
Definition copy_string {S} (size : Z) (s : list Z) : M S (list Z) :=
  if zlen s <? size then ret (s ++ replicate (Z.to_nat (size - zlen s)) 0) else bad OutOfBounds.

(** The name and the type in a client's first message: [NAME] or [NAME:t]; with
    a colon the last two characters are not part of the name. *)
Definition clinet_info_getnametype {S} (input : list Z) : M S (list Z * Z) :=
  if forallb (fun c => negb (c =? 58)) input then
    n <- copy_string ENG_MAX_CLIENT_NAME_LEN input ;; ret (n, 0)
  else
    let k := zlen input - 2 in
    (if (0 <=? k) && (k <=? ENG_MAX_CLIENT_NAME_LEN) then ret tt else bad OutOfBounds) ;;;
    let s := take (Z.to_nat k) input in
    p <- lift OutOfBounds (scan (Z.eqb 58) input) ;;
    ret (s ++ replicate (Z.to_nat (ENG_MAX_CLIENT_NAME_LEN - k)) 0, atoi (from input (p + 1))).

(** The first entry that [P] holds of. *)
Definition find_entry (P : eng_client_info -> bool) (l : list eng_client_info) : option (nat * eng_client_info) :=
  list_find (fun c => P c = true) l.
Definition has_fd (fd : Z) (c : eng_client_info) : bool := match fe c with Some f => fd =? f | None => false end.
Definition is_free (c : eng_client_info) : bool := match fe c with Some _ => false | None => true end.

(** [memcpy(client_info[i].name, name, strlen(name))] into a free entry. *)
Definition client_info_update (fd : Z) (nm : list Z) (t : Z) : M server unit :=
  s <- get ;;
  match find_entry is_free (client_info s) with
  | None => ret tt
  | Some (i, c) =>
      n <- lift OutOfBounds (cstring nm 0) ;;
      b <- lift OutOfBounds (store (name c) 0 n) ;;
      set_clients (<[i := Client b t (Some fd)]> (client_info s))
  end.
Definition client_info_gettype (fd : Z) : M server Z :=
  s <- get ;; ret (match find_entry (has_fd fd) (client_info s) with Some (_, c) => type c | None => 0 end).
Definition name_starts (nm : list Z) (c : eng_client_info) : bool := strStartsWith (name c) nm.
Definition client_info_get_socketid (nm : list Z) : M server Z :=
  s <- get ;;
  match find_entry (name_starts nm) (client_info s) with
  | Some (_, c) => lift NullPointer (fe c)
  | None => ret (-1)
  end.
Definition eng_event_can_reg : M server bool :=
  s <- get ;; ret (match find_entry is_free (client_info s) with Some _ => true | None => false end).
Definition eng_event_unreg (fd : Z) : M server Z :=
  s <- get ;;
  match find_entry (has_fd fd) (client_info s) with
  | Some (i, c) =>
      act (Unregistered fd) ;;; set_clients (<[i := no_client]> (client_info s)) ;;; act (Closed fd) ;;; ret 0
  | None => act (Closed fd) ;;; ret (-1)
  end.

(** *** The kinds of clients *)

Definition ENG_APPCLIENT := str "appclient".
Definition ENG_PCCLIENT := str "pcclient".
Definition ENG_MODEM := str "modem".
Definition ENG_ADRV := str "adrvclient".
Definition ENG_LOGECLIENT := str "logclient".
Definition ENG_MONITOR := str "engmonitor".
Definition ENG_WELCOME := str "welcome".
Definition ENG_ERROR := str "error".
Definition ENG_DESTERROR := str "desterr".
Inductive client_func := pcclient_event_func | modemclient_event_func | appclient_event_func
  | adrvclient_event_func | logclient_event_func | monitorclient_event_func.

Definition getclientfunc (fd : Z) (regname : list Z) : M server (option client_func) :=
  let isa := strStartsWith regname in
  if isa ENG_PCCLIENT then ret (Some pcclient_event_func)
  else if isa ENG_MODEM then ret (Some modemclient_event_func)
  else if isa ENG_APPCLIENT then ret (Some appclient_event_func)
  else if isa ENG_ADRV then ret (Some adrvclient_event_func)
  else if isa ENG_LOGECLIENT then ret (Some logclient_event_func)
  else if isa ENG_MONITOR then
    modify (fun s => Server (client_info s) fd (actions s)) ;;; ret (Some monitorclient_event_func)
  else ret None.

(** [memcpy(eng_write_buf, ENG_DESTERROR, ENG_MAX_RW_SIZE)]: the literal has eight
    bytes. *)
Definition desterror (fd : Z) : M server unit :=
  b <- lift OutOfBounds (slice (ENG_DESTERROR ++ [0]) 0 ENG_MAX_RW_SIZE) ;;
  s <- lift OutOfBounds (cstring b 0) ;;
  act (Sent fd s).

(** A new connection that has sent [input], [None] for an error of [read];
    [created] says whether [fdevent_create] gives an event. *)
Definition eng_event_reg (fd : Z) (input : option (list Z)) (created : bool) : M server Z :=
  room <- eng_event_can_reg ;;
  if negb room then ret (-1) else
  match input with
  | None => act (Closed fd) ;;; ret (-1)
  | Some input =>
      r <- clinet_info_getnametype input ;;
      let '(regname, t) := r in
      s <- get ;;
      if (monitor_svc_fd s <? 0) && negb (strStartsWith regname ENG_MONITOR) then
        desterror fd ;;; act (Closed fd) ;;; ret (-1)
      else
        func <- getclientfunc fd regname ;;
        match func with
        | None => act (Closed fd) ;;; ret (-1)
        | Some _ =>
            if created then client_info_update fd regname t ;;; act (Sent fd ENG_WELCOME) ;;; ret 0
            else act (Sent fd ENG_ERROR) ;;; ret (-1)
        end
  end.

(** *** Messages *)

(** [%5d] *)
Definition pad (w : nat) (l : list Z) : list Z := replicate (w - length l) 32 ++ l.
(** [outbuf] has [ENG_MAX_RW_SIZE] bytes. *)
Definition setup_send_data {S} (fd t : Z) (inbuf : list Z) : M S (list Z) :=
  let b := pad 5 (print_int (6 + 6 + 2 + zlen inbuf)) ++ [59] ++ pad 5 (print_int fd) ++ [59] ++ print_int t ++ [59] ++ inbuf in
  if zlen b <? ENG_MAX_RW_SIZE then ret b else bad OutOfBounds.

(** The server's: the descriptor in front of the first semicolon, and the rest;
    [fdstring] has eight bytes. *)
Definition get_send_fd_server {S} (inbuf : list Z) : M S (Z * list Z) :=
  match scan (Z.eqb 59) inbuf with
  | None => ret (0, [])
  | Some p =>
      let f := take (Z.to_nat p) inbuf in
      (if zlen f <? 8 then ret tt else bad OutOfBounds) ;;;
      ret (atoi f, from inbuf (p + 1))
  end.

(** An event that a descriptor can be read: [input] is the text read, [None] for
    no bytes, [Some []] for an error of [read]. *)
Definition appclient_event (fd : Z) (input : option (list Z)) : M server unit :=
  t <- client_info_gettype fd ;;
  dest_fd <- client_info_get_socketid ENG_MODEM ;;
  match input with
  | None => _ <- eng_event_unreg fd ;; ret tt
  | Some buf =>
      if 0 <=? dest_fd then
        if strStartsWith buf (str "CMD:") then act (Tested (from buf 4))
        else b <- setup_send_data fd t buf ;; act (Sent dest_fd b)
      else desterror fd
  end.
Definition modemclient_event (fd : Z) (input : option (list Z)) : M server unit :=
  r <- get_send_fd_server (default [] input) ;;
  let '(dest_fd, b) := r in
  match input with
  | None => _ <- eng_event_unreg fd ;; ret tt
  | Some _ => if 0 <=? dest_fd then act (Sent dest_fd b) else desterror fd
  end.

(** *** The other ends, in the modem client *)

(** [tmp], what was read from the server; [buf] of [data]. *)
Record frame := Frame { f_tmp : list Z; f_buf : list Z }.

(** A number in front of a semicolon, and the offset behind that: the semicolon
    becomes a NUL, [strtmp] has eight bytes. *)
Definition number_field (p : Z) : M frame (Z * Z) :=
  s <- get ;;
  r <- lift OutOfBounds (n ← scan (fun c => (c =? 0) || (c =? 59)) (from (f_tmp s) p); c ← aget (f_tmp s) (p + n); Some (n, c)) ;;
  let '(n, c) := r in
  (if c =? 59 then ret tt else bad NullPointer) ;;;
  b <- lift OutOfBounds (aset (f_tmp s) (p + n) 0) ;;
  modify (fun s => Frame b (f_buf s)) ;;;
  t <- lift OutOfBounds (cstring b p) ;;
  (if zlen t <? 8 then ret tt else bad OutOfBounds) ;;;
  ret (atoi t, p + n + 1).

(** The length, the descriptor and the type of a message at [inbuf]; the text is
    copied. *)
Definition get_send_fd (inbuf : Z) : M frame (Z * Z * Z) :=
  a <- number_field inbuf ;;
  b <- number_field a.2 ;;
  c <- number_field b.2 ;;
  let '(len, fd, t) := (a.1, b.1, c.1) in
  let ptr2 := c.2 - 1 in
  let n := len - (ptr2 - inbuf - 1) in
  (if 0 <=? n then ret tt else bad OutOfBounds) ;;;
  s <- get ;;
  bytes <- lift OutOfBounds (slice (f_tmp s) (ptr2 + 1) n) ;;
  o <- lift OutOfBounds (store (f_buf s) 0 bytes) ;;
  modify (fun s => Frame (f_tmp s) o) ;;;
  ret (len, fd, t).

(** What [eng_write2server] sends: [tmp] has [ENG_BUF_LEN] bytes. *)
Definition server_message {S} (fd : Z) (data : list Z) : M S (list Z) :=
  let b := print_int fd ++ [59] ++ data in
  if zlen b <? ENG_BUF_LEN then ret b else bad OutOfBounds.

Definition server_start : server := Server [] (-1) [].
(** The monitor, the modem client and an application connect; the application
    sends a command, the modem client answers. *)
Example served : match (client_info_init ;;;
    _ <- eng_event_reg 4 (Some ENG_MONITOR) true ;; _ <- eng_event_reg 5 (Some ENG_MODEM) true ;;
    _ <- eng_event_reg 7 (Some (str "appclient:1")) true ;;
    appclient_event 7 (Some (str "9,0")) ;;; modemclient_event 5 (Some (str "7;OK"))) server_start with
  | Ret _ s => actions s = [Sent 4 ENG_WELCOME; Sent 5 ENG_WELCOME; Sent 7 ENG_WELCOME; Sent 5 (str "   17;    7;1;9,0"); Sent 7 (str "OK")]
  | _ => False
  end.
Proof. vm_compute. done. Qed.
