(* ===== verification/EngServerProofs.v ===== *)
(** * Messages arrive at the other end

    The theorems on EngServer.v: what the server packs around a command the
    modem client takes off again, and the other way round for the answer. *)
From stdpp Require Import base list.
From Stdlib Require Import ZArith Lia.
From Stdlib Require Import (notations) String.
From S2P Require Import Prelude EngTok EngTokProofs EngLine EngServer.

(** ** Numbers in a field *)

Lemma print_base_length base fuel k v : 1 < base -> 0 <= v < base ^ Z.of_nat k -> (1 <= k)%nat -> zlen (print_base fuel base v) <= Z.of_nat k.
Proof.
  intros Hb. revert k v. induction fuel as [|fuel IH]; intros k v Hv Hk; [cbn [print_base]; change (zlen (@nil Z)) with 0; lia|].
  cbn [print_base]. destruct (Z.ltb_spec v base); [change (zlen [digit v]) with 1; lia|].
  destruct k as [|[|k] ]; [lia|change (Z.of_nat 1) with 1 in Hv; lia|]. rewrite zlen_app. change (zlen [digit (v mod base)]) with 1.
  assert (Hq : 0 <= v / base < base ^ Z.of_nat (S k)).
  { split; [apply Z.div_pos; lia|]. apply Z.div_lt_upper_bound; [lia|]. rewrite (Nat2Z.inj_succ (S k)), Z.pow_succ_r in Hv by lia. lia. }
  specialize (IH (S k) (v / base) Hq ltac:(lia)). lia.
Qed.
Lemma print_nat_length k v : 0 <= v < 10 ^ Z.of_nat k -> (1 <= k)%nat -> zlen (print_int v) <= Z.of_nat k.
Proof. intros Hv Hk. unfold print_int. rewrite (proj2 (Z.ltb_ge v 0)) by lia. by apply print_base_length. Qed.

Lemma skip_blanks n s : skip_spaces (replicate n 32 ++ s) = skip_spaces s.
Proof. by induction n. Qed.
Lemma atoi_pad w v : int32 v -> atoi (pad w (print_int v)) = v.
Proof.
  intros Hv. unfold atoi, pad. pose proof (strtol_print v Hv) as E. unfold strtol10 in *. by rewrite skip_blanks, E.
Qed.
Lemma atoi_print v : int32 v -> atoi (print_int v) = v.
Proof. intros Hv. unfold atoi. by rewrite strtol_print. Qed.

Lemma zlen_pad w l : zlen l <= Z.of_nat w -> zlen (pad w l) = Z.of_nat w.
Proof. intros H. unfold pad, zlen in *. rewrite length_app, length_replicate. lia. Qed.

(** What can stand in front of a semicolon. *)
Definition field_text (w : list Z) : Prop := Forall (fun c => c <> 0 /\ c <> 59) w.
Lemma print_field v : int32 v -> field_text (print_int v).
Proof. intros Hv. eapply Forall_impl; [apply print_int_plain; exact Hv|]. intros c Hc. unfold plain in Hc. lia. Qed.
Lemma pad_field w v : int32 v -> field_text (pad w (print_int v)).
Proof. intros Hv. apply Forall_app. split; [apply Forall_replicate; lia|by apply print_field]. Qed.

Lemma scan_semicolon w r (P : Z -> bool) : Forall (fun c => P c = false) w -> P 59 = true -> scan P (w ++ 59 :: r) = Some (zlen w).
Proof.
  intros H HP. induction H as [|c w Hc H IH]; cbn [app scan]; [by rewrite HP|]. rewrite Hc, IH, obind_Some, zlen_cons. f_equal. lia.
Qed.

(** ** From the server *)

Lemma number_field_spec pre w r buf : field_text w -> zlen w < 8 ->
  number_field (zlen pre) (Frame (pre ++ w ++ 59 :: r) buf) = Ret (atoi w, zlen pre + zlen w + 1) (Frame (pre ++ w ++ 0 :: r) buf).
Proof.
  intros Hw Hl. unfold number_field. rewrite (bind_Ret get _ _ _ _) by done. cbn [f_tmp f_buf]. pose proof (zlen_nonneg pre). pose proof (zlen_nonneg w).
  assert (Es : (n ← scan (fun c => (c =? 0) || (c =? 59)) (from (pre ++ w ++ 59 :: r) (zlen pre)); c ← aget (pre ++ w ++ 59 :: r) (zlen pre + n); Some (n, c)) = Some (zlen w, 59)).
  { rewrite from_app, scan_semicolon; [|eapply Forall_impl; [exact Hw|]; intros c [H1 H2]; cbv beta; by rewrite (proj2 (Z.eqb_neq _ _) H1), (proj2 (Z.eqb_neq _ _) H2)|done].
    rewrite obind_Some, aget_app by lia. rewrite (proj2 (Z.ltb_ge _ _)) by lia. rewrite aget_app by lia. rewrite (proj2 (Z.ltb_ge _ _)) by lia.
    replace (zlen pre + zlen w - zlen pre - zlen w) with 0 by lia. done. }
  erewrite bind_Ret by (unfold lift; rewrite Es; done). cbv beta iota. change (59 =? 59) with true. cbv beta iota. erewrite bind_Ret by done.
  assert (Hw0 : no0 (w ++ [])) by (rewrite app_nil_r; eapply Forall_impl; [exact Hw|]; by intros c [Hc _]).
  assert (Ew : aset (pre ++ w ++ 59 :: r) (zlen pre + zlen w) 0 = Some (pre ++ w ++ 0 :: r)).
  { rewrite aset_Some by (autorewrite with cbits; pose proof (zlen_nonneg r); lia). f_equal.
    replace (Z.to_nat (zlen pre + zlen w)) with (length pre + (length w + 0))%nat by (unfold zlen; lia). by rewrite !insert_app_r. }
  erewrite bind_Ret by (unfold lift; rewrite Ew; done). erewrite bind_Ret by done. cbn [f_buf].
  erewrite bind_Ret by (unfold lift; rewrite (text_cstring _ (zlen pre) w); [done|]; split; [by rewrite app_nil_r in Hw0|by exists pre, r]).
  rewrite (proj2 (Z.ltb_lt _ _)) by done. by erewrite bind_Ret by done.
Qed.

Lemma slice_app pre l post : slice (pre ++ l ++ post) (zlen pre) (zlen l) = Some l.
Proof.
  pose proof (zlen_nonneg pre). pose proof (zlen_nonneg l). pose proof (zlen_nonneg post).
  destruct (slice_is_Some (pre ++ l ++ post) (zlen pre) (zlen l)) as [x E]; [lia|lia|autorewrite with cbits; lia|].
  rewrite E. f_equal. apply slice_Some in E as (-> & _). unfold zlen. rewrite !Nat2Z.id, drop_app_length, take_app_length. done.
Qed.

(** The fields of a message of the server. *)
Definition framed (fd t : Z) (data : list Z) : list Z :=
  pad 5 (print_int (14 + zlen data)) ++ [59] ++ pad 5 (print_int fd) ++ [59] ++ print_int t ++ [59] ++ data.

Section Framed.
Context (fd t : Z) (data : list Z).
Context (Hfd : 0 <= fd <= 99999) (Ht : 0 <= t <= 9) (Hlen : zlen data < ENG_MAX_RW_SIZE - 14).

Lemma framed_length : zlen (framed fd t data) = 14 + zlen data.
Proof.
  unfold framed. pose proof (zlen_nonneg data). unfold ENG_MAX_RW_SIZE in Hlen.
  rewrite !zlen_app, !zlen_pad by (apply print_nat_length; lia). change (zlen [59]) with 1.
  assert (E : zlen (print_int t) = 1).
  { unfold print_int. rewrite (proj2 (Z.ltb_ge t 0)) by lia. cbn [print_base]. by rewrite (proj2 (Z.ltb_lt t 10)) by lia. }
  lia.
Qed.

Lemma setup_framed {S} (s : S) : setup_send_data fd t data s = Ret (framed fd t data) s.
Proof.
  unfold setup_send_data. change (6 + 6 + 2 + zlen data) with (14 + zlen data). fold (framed fd t data). rewrite framed_length.
  by rewrite (proj2 (Z.ltb_lt _ _)) by lia.
Qed.

(** Two bytes too many are copied. *)
Lemma get_send_fd_spec pre x y post buf : zlen data + 2 <= zlen buf -> exists tmp,
  get_send_fd (zlen pre) (Frame (pre ++ framed fd t data ++ x :: y :: post) buf)
    = Ret (14 + zlen data, fd, t) (Frame (pre ++ tmp ++ x :: y :: post) (Prelude.put buf 0 (data ++ [x; y]))) /\ zlen tmp = 14 + zlen data.
Proof.
  intros Hbuf. pose proof (zlen_nonneg data). pose proof framed_length as Efr. unfold ENG_MAX_RW_SIZE in Hlen. set (a := pad 5 (print_int (14 + zlen data))). set (b := pad 5 (print_int fd)).
  assert (Ha : zlen a = 5) by (apply zlen_pad, print_nat_length; lia). assert (Hb : zlen b = 5) by (apply zlen_pad, print_nat_length; lia).
  assert (Hc : zlen (print_int t) = 1) by (unfold framed in Efr; rewrite !zlen_app in Efr; fold a b in Efr; change (zlen [59]) with 1 in Efr; lia).
  assert (Ia : int32 (14 + zlen data)) by (unfold int32; lia). assert (Ib : int32 fd) by (unfold int32; lia). assert (Ic : int32 t) by (unfold int32; lia).
  exists (a ++ [0] ++ b ++ [0] ++ print_int t ++ [0] ++ data). unfold framed, get_send_fd. fold a b.
  set (r3 := data ++ x :: y :: post). set (r2 := print_int t ++ 59 :: r3). set (r1 := b ++ 59 :: r2).
  replace (pre ++ (a ++ [59] ++ b ++ [59] ++ print_int t ++ [59] ++ data) ++ x :: y :: post) with (pre ++ a ++ 59 :: r1)
    by (unfold r1, r2, r3; cbn [app]; rewrite <- !app_assoc; cbn [app]; rewrite <- !app_assoc; cbn [app]; by rewrite <- !app_assoc).
  erewrite bind_Ret by (apply number_field_spec; [by apply pad_field|lia]). cbn [fst snd].
  replace (pre ++ a ++ 0 :: r1) with ((pre ++ a ++ [0]) ++ b ++ 59 :: r2) by (unfold r1; by rewrite <- !app_assoc).
  replace (zlen pre + zlen a + 1) with (zlen (pre ++ a ++ [0])) by (rewrite !zlen_app; change (zlen [0]) with 1; lia).
  erewrite bind_Ret by (apply number_field_spec; [by apply pad_field|lia]). cbn [fst snd].
  replace ((pre ++ a ++ [0]) ++ b ++ 0 :: r2) with ((pre ++ a ++ [0] ++ b ++ [0]) ++ print_int t ++ 59 :: r3) by (unfold r2; by rewrite <- !app_assoc).
  replace (zlen (pre ++ a ++ [0]) + zlen b + 1) with (zlen (pre ++ a ++ [0] ++ b ++ [0])) by (rewrite !zlen_app; change (zlen [0]) with 1; lia).
  erewrite bind_Ret by (apply number_field_spec; [by apply print_field|lia]). cbn [fst snd].
  unfold a, b. rewrite !atoi_pad, atoi_print by done. fold a b.
  set (pre3 := pre ++ a ++ [0] ++ b ++ [0] ++ print_int t ++ [0]).
  replace ((pre ++ a ++ [0] ++ b ++ [0]) ++ print_int t ++ 0 :: r3) with (pre3 ++ r3) by (unfold pre3; by rewrite <- !app_assoc).
  assert (Ep : zlen (pre ++ a ++ [0] ++ b ++ [0]) + zlen (print_int t) + 1 = zlen pre3) by (unfold pre3; rewrite !zlen_app; change (zlen [0]) with 1; lia).
  assert (Ep3 : zlen pre3 = zlen pre + 14) by (unfold pre3; rewrite !zlen_app; change (zlen [0]) with 1; lia).
  rewrite Ep. replace (14 + zlen data - (zlen pre3 - 1 - zlen pre - 1)) with (zlen (data ++ [x; y])) by (rewrite zlen_app; change (zlen [x; y]) with 2; lia).
  rewrite (proj2 (Z.leb_le _ _)) by apply zlen_nonneg. erewrite bind_Ret by done. rewrite (bind_Ret get _ _ _ _) by done. cbn [f_tmp f_buf].
  replace (zlen pre3 - 1 + 1) with (zlen pre3) by lia. replace r3 with ((data ++ [x; y]) ++ post) by (unfold r3; by rewrite <- app_assoc).
  erewrite bind_Ret by (unfold lift; rewrite slice_app; done).
  erewrite bind_Ret by (unfold lift; rewrite store_ok by (rewrite ?zlen_app; change (zlen [x; y]) with 2; lia); done). cbn [f_tmp f_buf].
  split; [|rewrite !zlen_app; change (zlen [0]) with 1; lia]. unfold modify, ret, bind. cbn [f_tmp]. do 2 f_equal. unfold pre3. by rewrite <- !app_assoc.
Qed.

End Framed.

(** ** To the server *)

Lemma server_message_back {S T} fd data (s : S) (s' : T) m : 0 <= fd <= 99999 -> server_message fd data s = Ret m s ->
  get_send_fd_server m s' = Ret (fd, data) s'.
Proof.
  intros Hfd E. unfold server_message in E. assert (Hi : int32 fd) by (unfold int32; lia).
  set (b := print_int fd ++ [59] ++ data) in E. destruct (zlen b <? ENG_BUF_LEN); [|done]. injection E as <-. unfold get_send_fd_server. subst b. cbn [app].
  rewrite scan_semicolon; [|eapply Forall_impl; [by apply print_field|]; intros c [_ Hc]; apply Z.eqb_neq; lia|done].
  assert (Et : take (Z.to_nat (zlen (print_int fd))) (print_int fd ++ 59 :: data) = print_int fd) by (unfold zlen; by rewrite Nat2Z.id, take_app_length).
  rewrite Et, (proj2 (Z.ltb_lt _ _)) by (pose proof (print_nat_length 5 fd); lia). erewrite bind_Ret by done. rewrite atoi_print by done.
  change (59 :: data) with ([59] ++ data). rewrite app_assoc. replace (zlen (print_int fd) + 1) with (zlen (print_int fd ++ [59])) by (rewrite zlen_app; done).
  by rewrite from_app.
Qed.

(** C16: Messages arrive. What the server packs around the text of an application -
    its length, the descriptor and the type of the application - the modem client
    takes off again, wherever the message begins in what it has read: it gets the
    descriptor and the type, and the text, with the two bytes after it. What the
    client packs around an answer the server takes off: the answer goes to the
    descriptor that asked. *)
Theorem messages_arrive fd t data answer pre x y post buf : 0 <= fd <= 99999 -> 0 <= t <= 9 -> zlen data < ENG_MAX_RW_SIZE - 14 ->
  zlen data + 2 <= zlen buf -> zlen answer < ENG_BUF_LEN - 6 -> exists b tmp m,
  setup_send_data fd t data tt = Ret b tt /\
  get_send_fd (zlen pre) (Frame (pre ++ b ++ x :: y :: post) buf)
    = Ret (zlen b, fd, t) (Frame (pre ++ tmp ++ x :: y :: post) (Prelude.put buf 0 (data ++ [x; y]))) /\ zlen tmp = zlen b /\
  server_message fd answer tt = Ret m tt /\ get_send_fd_server m tt = Ret (fd, answer) tt.
Proof.
  intros Hfd Ht Hl Hb Ha. destruct (get_send_fd_spec fd t data Hfd Ht Hl pre x y post buf Hb) as (tmp & E & Et).
  assert (Em : server_message fd answer tt = Ret (print_int fd ++ [59] ++ answer) tt).
  { unfold server_message. pose proof (print_nat_length 5 fd). rewrite (proj2 (Z.ltb_lt _ _)); [done|]. rewrite !zlen_app. change (zlen [59]) with 1. lia. }
  exists (framed fd t data), tmp, (print_int fd ++ [59] ++ answer). rewrite framed_length by done. split; [by apply setup_framed|]. split; [done|]. split; [done|].
  split; [done|]. by apply (server_message_back fd answer tt).
Qed.

Lemma messages_arrive_witness : exists b tmp m,
  setup_send_data 7 1 (str "9,0") tt = Ret b tt /\
  get_send_fd 0 (Frame (b ++ [0; 0]) (replicate 10 0))
    = Ret (zlen b, 7, 1) (Frame (tmp ++ [0; 0]) [57; 44; 48; 0; 0; 0; 0; 0; 0; 0]) /\ zlen tmp = zlen b /\
  server_message 7 (str "OK") tt = Ret m tt /\ get_send_fd_server m tt = Ret (7, str "OK") tt.
Proof. apply (messages_arrive 7 1 (str "9,0") (str "OK") [] 0 0 [] (replicate 10 0)); vm_compute; (done || (split; discriminate) || discriminate). Defined.
