(* ===== verification/EngTableProofs.v ===== *)
(** * The table of the clients

    The theorems on the server of EngServer.v: its table of 60 entries is a map
    from descriptors to names and types, whatever clients come and go, and an
    application's text goes to a modem client that is registered. *)
From stdpp Require Import base list gmap.
From Stdlib Require Import ZArith Lia.
From Stdlib Require Import (notations) String.
From S2P Require Import Prelude EngTok EngTokProofs EngLine EngServer EngServerProofs.

(** ** Entries *)

(** A name in its array. *)
Definition in_field (nm : list Z) : list Z := nm ++ replicate (Z.to_nat (ENG_MAX_CLIENT_NAME_LEN - zlen nm)) 0.
Definition name_ok (nm : list Z) : Prop := Forall (fun c => c <> 0 /\ c <> 58) nm /\ zlen nm < ENG_MAX_CLIENT_NAME_LEN.
Notation table := (gmap Z (list Z * Z)).

Definition entry (c : eng_client_info) : option (Z * (list Z * Z)) := fd ← fe c; Some (fd, (name c, type c)).
Definition entries (l : list eng_client_info) : list (Z * (list Z * Z)) := omap entry l.
Definition entry_ok (c : eng_client_info) : Prop :=
  match fe c with None => c = no_client | Some fd => 0 <= fd /\ exists nm, name_ok nm /\ name c = in_field nm end.

(** The table holds the clients of [m]. *)
Definition holds (l : list eng_client_info) (m : table) : Prop :=
  length l = ENG_MAX_CONNECT_NUM /\ Forall entry_ok l /\ map_to_list m ≡ₚ entries l.

Lemma entries_at l i c x : l !! i = Some c ->
  entries l ≡ₚ option_list (entry c) ++ entries (take i l ++ drop (S i) l) /\ entries (<[i := x]> l) ≡ₚ option_list (entry x) ++ entries (take i l ++ drop (S i) l).
Proof.
  intros H. assert (E : forall y, entries (take i l ++ y :: drop (S i) l) ≡ₚ option_list (entry y) ++ entries (take i l ++ drop (S i) l)).
  { intros y. unfold entries. rewrite !omap_app. cbn [omap list_omap]. destruct (entry y) as [e|]; [|done]. symmetry. apply (Permutation_middle (omap entry (take i l))). }
  split; [rewrite <- (take_drop_middle l i c H) at 1; apply E|]. rewrite insert_take_drop by by eapply lookup_lt_Some. apply E.
Qed.

Lemma holds_lookup l m fd v : holds l m -> m !! fd = Some v <-> (fd, v) ∈ entries l.
Proof. intros (_ & _ & H). rewrite <- H. symmetry. apply elem_of_map_to_list. Qed.
Lemma entries_elem l fd v : (fd, v) ∈ entries l <-> exists c, c ∈ l /\ fe c = Some fd /\ v = (name c, type c).
Proof.
  unfold entries. rewrite list_elem_of_omap. unfold entry. split; intros (c & Hc & E); exists c; (split; [done|]).
  - destruct (fe c) as [f|]; [|done]. cbn in E. by injection E as -> <-.
  - destruct E as [-> ->]. done.
Qed.

(** ** Finding *)

Lemma find_entry_Some P l i c : find_entry P l = Some (i, c) -> l !! i = Some c /\ P c = true.
Proof. unfold find_entry. rewrite list_find_Some. tauto. Qed.
Lemma find_entry_None P l : find_entry P l = None -> Forall (fun c => P c = false) l.
Proof. unfold find_entry. rewrite list_find_None. intros H. eapply Forall_impl; [exact H|]. intros c Hc. by apply not_true_is_false. Qed.

Lemma entries_size l : (length (entries l) <= length l)%nat.
Proof. induction l as [|c l IH]; [done|]. cbn [entries omap list_omap]. unfold entries in IH. destruct (entry c); cbn [length]; lia. Qed.
Lemma entries_full l : Forall (fun c => is_free c = false) l -> length (entries l) = length l.
Proof. intros H. induction H as [|c l Hc H IH]; [done|]. cbn [entries omap list_omap]. unfold is_free, entry in *. by destruct (fe c); cbn; f_equal. Qed.

(** Room is left when there are fewer than 60 clients. *)
Lemma can_reg_spec s m : holds (client_info s) m -> eng_event_can_reg s = Ret (bool_decide (size m < 60)%nat) s.
Proof.
  intros (Hl & Hok & Hp). unfold eng_event_can_reg. rewrite (bind_Ret get _ s s s) by done. unfold ret. f_equal.
  assert (Hs : size m = length (entries (client_info s))) by (by rewrite <- Hp, length_map_to_list). unfold ENG_MAX_CONNECT_NUM in Hl.
  destruct (find_entry is_free (client_info s)) as [ [i c]|] eqn:E; symmetry.
  - apply bool_decide_eq_true. apply find_entry_Some in E as [Hi Hf]. destruct (entries_at _ i c c Hi) as [Ee _]. rewrite Hs, Ee.
    assert (Ec : entry c = None) by (unfold is_free, entry in *; by destruct (fe c)). rewrite Ec. change (option_list None) with (@nil (Z * (list Z * Z))); cbn [app].
    pose proof (entries_size (take i (client_info s) ++ drop (S i) (client_info s))) as H1. rewrite length_app, length_take, length_drop in H1. apply lookup_lt_Some in Hi. lia.
  - apply bool_decide_eq_false. rewrite Hs, (entries_full _ (find_entry_None _ _ E)). lia.
Qed.

Lemma gettype_spec s m fd : holds (client_info s) m -> client_info_gettype fd s = Ret (match m !! fd with Some (_, t) => t | None => 0 end) s.
Proof.
  intros H. unfold client_info_gettype. rewrite (bind_Ret get _ s s s) by done. unfold ret. f_equal. destruct (find_entry (has_fd fd) (client_info s)) as [ [i c]|] eqn:E.
  - apply find_entry_Some in E as [Hi Hf]. unfold has_fd in Hf. destruct (fe c) as [f|] eqn:Ec; [|done]. apply Z.eqb_eq in Hf as <-.
    assert (Em : m !! fd = Some (name c, type c)) by (apply (holds_lookup _ _ _ _ H), entries_elem; exists c; split; [by eapply list_elem_of_lookup_2|done]). by rewrite Em.
  - destruct (m !! fd) as [v|] eqn:Em; [|done]. apply (holds_lookup _ _ _ _ H), entries_elem in Em as (c & Hc & Ec & _).
    pose proof (find_entry_None _ _ E) as Hn. rewrite Forall_forall in Hn. specialize (Hn c Hc). unfold has_fd in Hn. rewrite Ec, Z.eqb_refl in Hn. done.
Qed.

Lemma socketid_spec s m x nm : holds (client_info s) m -> x <> 0 -> exists fd, client_info_get_socketid (x :: nm) s = Ret fd s /\
  ((0 <= fd /\ exists v, m !! fd = Some v /\ strStartsWith v.1 (x :: nm) = true) \/
   (fd = -1 /\ forall f v, m !! f = Some v -> strStartsWith v.1 (x :: nm) = false)).
Proof.
  intros H Hx. unfold client_info_get_socketid. rewrite (bind_Ret get _ s s s) by done. cbv beta. destruct (find_entry (name_starts (x :: nm)) (client_info s)) as [ [i c]|] eqn:E.
  - apply find_entry_Some in E as [Hi Hf]. unfold name_starts in Hf. pose proof (list_elem_of_lookup_2 _ _ _ Hi) as Hc.
    pose proof H as (_ & Hok & _). rewrite Forall_forall in Hok. specialize (Hok c Hc). unfold entry_ok in Hok. destruct (fe c) as [f|] eqn:Ec.
    + exists f. destruct Hok as [Hf0 _]. split; [done|]. left. split; [done|]. exists (name c, type c). split; [|done]. apply (holds_lookup _ _ _ _ H), entries_elem. by exists c.
    + subst c. change (strStartsWith (0 :: replicate 19 0) (x :: nm) = true) in Hf. cbn [strStartsWith] in Hf. by destruct (Z.eqb_spec 0 x).
  - exists (-1). split; [done|]. right. split; [done|]. intros f v Hv. apply (holds_lookup _ _ _ _ H), entries_elem in Hv as (c & Hc & _ & ->).
    pose proof (find_entry_None _ _ E) as Hn. rewrite Forall_forall in Hn. exact (Hn c Hc).
Qed.

(** ** Coming and going *)

Lemma unreg_spec s m fd : holds (client_info s) m -> exists r s', eng_event_unreg fd s = Ret r s' /\
  holds (client_info s') (delete fd m) /\ monitor_svc_fd s' = monitor_svc_fd s.
Proof.
  intros H. unfold eng_event_unreg. rewrite (bind_Ret get _ s s s) by done. cbv beta. destruct (find_entry (has_fd fd) (client_info s)) as [ [i c]|] eqn:E.
  - apply find_entry_Some in E as [Hi Hf]. unfold has_fd in Hf. destruct (fe c) as [f|] eqn:Ec; [|done]. apply Z.eqb_eq in Hf as <-.
    eexists _, _. split; [by do 3 (erewrite bind_Ret by done)|]. split; [|done]. cbn [client_info]. pose proof H as (Hl & Hok & Hp).
    destruct (entries_at _ i c no_client Hi) as [Ee Ee']. unfold entry in Ee at 1. rewrite Ec in Ee. cbn in Ee.
    split; [by rewrite length_insert|]. split; [by apply Forall_insert|]. rewrite Ee'. change (option_list (entry no_client)) with (@nil (Z * (list Z * Z))). cbn [app].
    assert (Em : m !! fd = Some (name c, type c)) by (apply (holds_lookup _ _ _ _ H), entries_elem; exists c; split; [by eapply list_elem_of_lookup_2|done]).
    apply (Permutation_cons_inv (a := (fd, (name c, type c)))). rewrite <- Ee, <- Hp. by apply map_to_list_delete.
  - eexists _, _. split; [by erewrite bind_Ret by done|]. split; [|done]. cbn [client_info]. rewrite delete_id; [done|].
    destruct (m !! fd) as [v|] eqn:Em; [|done]. apply (holds_lookup _ _ _ _ H), entries_elem in Em as (c & Hc & Ec & _).
    pose proof (find_entry_None _ _ E) as Hn. rewrite Forall_forall in Hn. specialize (Hn c Hc). unfold has_fd in Hn. rewrite Ec, Z.eqb_refl in Hn. done.
Qed.

(** A client's first message. *)
Definition greeting (nm : list Z) (t : option Z) : list Z := match t with None => nm | Some t => nm ++ 58 :: print_int t end.
Definition type_ok (t : option Z) : Prop := match t with None => True | Some t => 0 <= t <= 9 end.

Lemma no_colon nm : Forall (fun c => c <> 0 /\ c <> 58) nm -> forallb (fun c => negb (c =? 58)) nm = true.
Proof. intros H. induction H as [|c nm [_ Hc] H IH]; [done|]. cbn. by rewrite (proj2 (Z.eqb_neq _ _) Hc), IH. Qed.

Lemma getnametype_spec {S} (s : S) nm t : name_ok nm -> type_ok t -> clinet_info_getnametype (greeting nm t) s = Ret (in_field nm, default 0 t) s.
Proof.
  intros [Hnm Hl] Ht. pose proof (zlen_nonneg nm). unfold clinet_info_getnametype. destruct t as [t|]; cbn [greeting type_ok] in *.
  - assert (Ef : forallb (fun c => negb (c =? 58)) (nm ++ 58 :: print_int t) = false) by (rewrite forallb_app; cbn; by rewrite andb_false_r).
    assert (Ed : zlen (print_int t) = 1) by (unfold print_int; rewrite (proj2 (Z.ltb_ge t 0)) by lia; cbn [print_base]; by rewrite (proj2 (Z.ltb_lt t 10)) by lia).
    assert (Ek : zlen (nm ++ 58 :: print_int t) - 2 = zlen nm) by (rewrite zlen_app, zlen_cons; lia). rewrite Ef, Ek. cbv zeta.
    rewrite (proj2 (Z.leb_le 0 _)), (proj2 (Z.leb_le _ ENG_MAX_CLIENT_NAME_LEN)) by lia. erewrite bind_Ret by done.
    assert (Es : scan (Z.eqb 58) (nm ++ 58 :: print_int t) = Some (zlen nm)).
    { clear -Hnm. induction Hnm as [|c nm [_ Hc] Hnm IH]; [done|]. cbn [app scan]. rewrite (proj2 (Z.eqb_neq _ _)) by lia. rewrite IH, obind_Some, zlen_cons. f_equal. lia. }
    erewrite bind_Ret by (unfold lift; rewrite Es; done). unfold ret. do 2 f_equal.
    + unfold in_field. f_equal. unfold zlen. by rewrite Nat2Z.id, take_app_length.
    + change (58 :: print_int t) with ([58] ++ print_int t). rewrite app_assoc. replace (zlen nm + 1) with (zlen (nm ++ [58])) by (rewrite zlen_app; done).
      rewrite from_app. rewrite atoi_print; [done|unfold int32; lia].
  - rewrite no_colon by done. unfold copy_string. rewrite (proj2 (Z.ltb_lt _ _)) by done. by erewrite bind_Ret by done.
Qed.

Lemma update_spec s m fd nm t : holds (client_info s) m -> m !! fd = None -> (size m < 60)%nat -> name_ok nm -> 0 <= fd -> exists l,
  client_info_update fd (in_field nm) t s = Ret tt (Server l (monitor_svc_fd s) (actions s)) /\ holds l (<[fd := (in_field nm, t)]> m).
Proof.
  intros H Hfd Hs Hnm H0. pose proof (can_reg_spec s m H) as Er. rewrite bool_decide_eq_true_2 in Er by done. unfold eng_event_can_reg in Er. rewrite (bind_Ret get _ s s s) in Er by done.
  unfold client_info_update. rewrite (bind_Ret get _ s s s) by done. cbv beta in *. destruct (find_entry is_free (client_info s)) as [ [i c]|] eqn:E; [clear Er|done].
  apply find_entry_Some in E as [Hi Hf]. pose proof H as (Hl & Hok & Hp). pose proof Hok as Hok'. rewrite Forall_forall in Hok'. specialize (Hok' c (list_elem_of_lookup_2 _ _ _ Hi)).
  unfold is_free, entry_ok in *. destruct (fe c); [done|]. subst c. destruct Hnm as [Hn Hlen]. pose proof (zlen_nonneg nm). unfold ENG_MAX_CLIENT_NAME_LEN in Hlen.
  assert (Hc : cstring (in_field nm) 0 = Some nm).
  { apply text_cstring. split; [eapply Forall_impl; [exact Hn|]; by intros c [Hc _]|]. unfold in_field, ENG_MAX_CLIENT_NAME_LEN. destruct (Z.to_nat (20 - zlen nm)) as [|k] eqn:Ek; [lia|]. by exists [], (replicate k 0). }
  erewrite bind_Ret by (unfold lift; rewrite Hc; done). change (name no_client) with (replicate 20 0). assert (Ez : zlen (replicate 20 0) = 20) by done.
  erewrite bind_Ret by (unfold lift; rewrite store_ok by lia; done).
  assert (Eb : Prelude.put (replicate 20 0) 0 nm = in_field nm).
  { unfold Prelude.put, in_field, ENG_MAX_CLIENT_NAME_LEN. rewrite Z.add_0_l, take_0, drop_replicate. cbn [app]. do 2 f_equal. lia. }
  rewrite Eb. eexists. split; [done|]. destruct (entries_at _ i no_client (Client (in_field nm) t (Some fd)) Hi) as [Ee Ee'].
  split; [by rewrite length_insert|]. split; [apply Forall_insert; [done|]; split; [done|]; by exists nm|].
  rewrite Ee'. change (option_list (entry no_client)) with (@nil (Z * (list Z * Z))) in Ee. cbn [app] in Ee. rewrite <- Ee, <- Hp. by apply map_to_list_insert.
Qed.

(** The names that the server knows, and that of the monitor. *)
Definition known (nm : list Z) : bool :=
  existsb (strStartsWith (in_field nm)) [ENG_PCCLIENT; ENG_MODEM; ENG_APPCLIENT; ENG_ADRV; ENG_LOGECLIENT; ENG_MONITOR].
Definition is_monitor (nm : list Z) : bool := strStartsWith (in_field nm) ENG_MONITOR.

(** [getclientfunc] keeps the table and the log; the monitor is remembered. *)
Lemma getclientfunc_spec fd nm s : exists f w, getclientfunc fd (in_field nm) s = Ret f (Server (client_info s) w (actions s)) /\
  match f with Some _ => known nm = true | None => known nm = false end /\
  (0 <= fd -> 0 <= monitor_svc_fd s \/ known nm && is_monitor nm = true -> 0 <= w) /\ (known nm = false -> w = monitor_svc_fd s).
Proof.
  assert (Es : Server (client_info s) (monitor_svc_fd s) (actions s) = s) by by destruct s.
  unfold getclientfunc, known, is_monitor. set (l := in_field nm). cbn [existsb].
  assert (Hex : strStartsWith l ENG_MONITOR = true -> strStartsWith l ENG_PCCLIENT = false /\ strStartsWith l ENG_MODEM = false /\ strStartsWith l ENG_APPCLIENT = false /\ strStartsWith l ENG_ADRV = false /\ strStartsWith l ENG_LOGECLIENT = false).
  { intros Hm. destruct l as [|x l']; [done|]. change (strStartsWith (x :: l') ENG_MONITOR) with (if x =? 101 then strStartsWith l' (str "ngmonitor") else false) in Hm.
    destruct (Z.eqb_spec x 101) as [->|]; [|done]. done. }
  destruct (strStartsWith l ENG_MONITOR) eqn:Em.
  - destruct (Hex eq_refl) as (-> & -> & -> & -> & ->). eexists _, fd. split; [by erewrite bind_Ret by done|]. split; [done|]. split; [lia|done].
  - exists (if strStartsWith l ENG_PCCLIENT then Some pcclient_event_func else if strStartsWith l ENG_MODEM then Some modemclient_event_func
      else if strStartsWith l ENG_APPCLIENT then Some appclient_event_func else if strStartsWith l ENG_ADRV then Some adrvclient_event_func
      else if strStartsWith l ENG_LOGECLIENT then Some logclient_event_func else None), (monitor_svc_fd s). rewrite Es, andb_false_r.
    split; [|split; [|split; [intros _ [?|?]; [done|congruence]|done] ] ]; destruct (strStartsWith l ENG_PCCLIENT), (strStartsWith l ENG_MODEM), (strStartsWith l ENG_APPCLIENT), (strStartsWith l ENG_ADRV), (strStartsWith l ENG_LOGECLIENT); done.
Qed.

(** A client arrives: it is entered when there is room and its name is known. *)
Lemma reg_spec s m fd nm t : holds (client_info s) m -> m !! fd = None -> 0 <= fd -> name_ok nm -> type_ok t ->
  0 <= monitor_svc_fd s \/ is_monitor nm = true -> exists r s', eng_event_reg fd (Some (greeting nm t)) true s = Ret r s' /\
  let here := bool_decide (size m < 60)%nat && known nm in
  holds (client_info s') (if here then <[fd := (in_field nm, default 0 t)]> m else m) /\
  (0 <= monitor_svc_fd s \/ here && is_monitor nm = true -> 0 <= monitor_svc_fd s').
Proof.
  intros H Hfd H0 Hnm Ht Hw. unfold eng_event_reg. erewrite bind_Ret by by apply can_reg_spec. destruct (bool_decide (size m < 60)%nat) eqn:Eb; cbn [negb andb].
  2: { eexists _, s. split; [done|]. split; [done|]. by intros [?|?]. }
  apply bool_decide_eq_true in Eb. erewrite bind_Ret by by apply getnametype_spec. cbv beta iota. rewrite (bind_Ret get _ s s s) by done. cbv beta.
  assert (Eg : (monitor_svc_fd s <? 0) && negb (strStartsWith (in_field nm) ENG_MONITOR) = false).
  { destruct Hw as [Hw|Hw]; [by rewrite (proj2 (Z.ltb_ge _ _))|]. unfold is_monitor in Hw. by rewrite Hw, andb_false_r. }
  rewrite Eg. destruct (getclientfunc_spec fd nm s) as (f & w & Ef & Hk & Hmon & Hno). erewrite bind_Ret by exact Ef. cbv beta iota. destruct f.
  - rewrite Hk in *. destruct (update_spec (Server (client_info s) w (actions s)) m fd nm (default 0 t) H Hfd Eb Hnm H0) as (l & El & Hl).
    erewrite bind_Ret by exact El. erewrite bind_Ret by done. eexists _, _. split; [done|]. split; [done|]. intros Hm. by apply Hmon.
  - rewrite Hk. erewrite bind_Ret by done. eexists _, _. split; [done|]. split; [done|]. cbn. rewrite (Hno Hk). by intros [?|?].
Qed.

(** *** What happens to the server *)

Inductive happening := Arrives (fd : Z) (nm : list Z) (t : option Z) | Leaves (fd : Z).
Definition happen (h : happening) : M server unit :=
  match h with
  | Arrives fd nm t => _ <- eng_event_reg fd (Some (greeting nm t)) true ;; ret tt
  | Leaves fd => _ <- eng_event_unreg fd ;; ret tt
  end.
(** The clients that there are then, and whether a monitor has come. *)
Definition after_happening (st : table * bool) (h : happening) : table * bool :=
  let (m, w) := st in
  match h with
  | Arrives fd nm t =>
      if bool_decide (size m < 60)%nat && known nm then (<[fd := (in_field nm, default 0 t)]> m, w || is_monitor nm) else (m, w)
  | Leaves fd => (delete fd m, w)
  end.
Definition after_all (hs : list happening) : table * bool := foldl after_happening (∅, false) hs.
(** A new connection has a new descriptor; the monitor comes first. *)
Definition fair (st : table * bool) (h : happening) : Prop :=
  match h with
  | Arrives fd nm t => 0 <= fd /\ st.1 !! fd = None /\ name_ok nm /\ type_ok t /\ (st.2 = true \/ is_monitor nm = true)
  | Leaves _ => True
  end.
Fixpoint fair_all (st : table * bool) (hs : list happening) : Prop :=
  match hs with [] => True | h :: hs => fair st h /\ fair_all (after_happening st h) hs end.

Definition stands (s : server) (st : table * bool) : Prop := holds (client_info s) st.1 /\ (st.2 = true -> 0 <= monitor_svc_fd s).

Lemma happen_spec s st h : stands s st -> fair st h -> exists s', happen h s = Ret tt s' /\ stands s' (after_happening st h).
Proof.
  destruct st as [m w]. intros [H Hw]. cbn [fst snd] in *. destruct h as [fd nm t|fd]; cbn [fair fst snd happen after_happening].
  - intros (H0 & Hfd & Hnm & Ht & Hm). destruct (reg_spec s m fd nm t H Hfd H0 Hnm Ht) as (r & s' & E & H' & Hw'); [destruct Hm; tauto|].
    exists s'. erewrite bind_Ret by exact E. split; [done|]. destruct (bool_decide (size m < 60)%nat && known nm); (split; [done|]); cbn [snd]; intros Hx; apply Hw'.
    + apply orb_true_iff in Hx. tauto.
    + tauto.
  - intros _. destruct (unreg_spec s m fd H) as (r & s' & E & H' & Hm'). exists s'. erewrite bind_Ret by exact E. split; [done|]. split; [done|]. cbn [snd]. by rewrite Hm'.
Qed.

Lemma happen_all_spec hs s st : stands s st -> fair_all st hs -> exists s', forM hs happen s = Ret tt s' /\ stands s' (foldl after_happening st hs).
Proof.
  revert s st. induction hs as [|h hs IH]; intros s st Hs Hf; [by exists s|]. destruct Hf as [Hf Hfs]. destruct (happen_spec s st h Hs Hf) as (s1 & E & Hs1).
  cbn [forM]. erewrite bind_Ret by exact E. exact (IH s1 _ Hs1 Hfs).
Qed.

Lemma holds_start : holds (replicate ENG_MAX_CONNECT_NUM no_client) ∅.
Proof.
  split; [done|]. split; [by apply Forall_replicate|]. by rewrite map_to_list_empty.
Qed.
Lemma holds_size l m : holds l m -> (size m <= 60)%nat.
Proof.
  intros (Hl & _ & Hp). assert (Hs : size m = length (entries l)) by (by rewrite <- Hp, length_map_to_list).
  pose proof (entries_size l). unfold ENG_MAX_CONNECT_NUM in Hl. lia.
Qed.

(** A longer name, with room for a client, is copied behind its array. *)
Lemma long_name s m fd nm : holds (client_info s) m -> (size m < 60)%nat -> Forall (fun c => c <> 0 /\ c <> 58) nm -> ENG_MAX_CLIENT_NAME_LEN <= zlen nm ->
  happen (Arrives fd nm None) s = Bad OutOfBounds.
Proof.
  intros H Hs Hn Hl. cbn [happen greeting]. unfold eng_event_reg, bind at 1. erewrite bind_Ret by by apply can_reg_spec.
  rewrite bool_decide_eq_true_2 by done. cbn [negb]. unfold clinet_info_getnametype. rewrite (no_colon nm Hn). unfold copy_string.
  by rewrite (proj2 (Z.ltb_ge (zlen nm) ENG_MAX_CLIENT_NAME_LEN)) by done.
Qed.

(** C12: The server's table. Clients come and go in any order, where a new
    connection has a descriptor that is not in the table, a monitor comes
    before any other client (without one the server reads behind a literal,
    engservice.c:246), names have less than 20 characters, none of them NUL or
    a colon, and a type, if one is given, is one digit. Then the server never
    leaves an array or follows a null pointer, and its table of 60 entries is
    the map from descriptors to names and types in which a client with a known
    name is put when there is room, and taken out when it leaves. The type of
    a client is found by its descriptor; while a modem client is in the map,
    the text of an application that does not begin with CMD: and fits in the
    buffer with its header is packed with the application's descriptor and
    type and sent to one. The bound on names is needed: while there is room, a
    client without a type whose name has 20 or more characters makes the
    server write behind its array. *)
Theorem table_is_map hs : fair_all (∅, false) hs -> exists s, (client_info_init ;;; forM hs happen) server_start = Ret tt s /\
  let m := (after_all hs).1 in (size m <= 60)%nat /\
  (forall fd, client_info_gettype fd s = Ret (match m !! fd with Some (_, t) => t | None => 0 end) s) /\
  (forall fd n t buf, m !! fd = Some (n, t) -> strStartsWith buf (str "CMD:") = false -> zlen (framed fd t buf) < ENG_MAX_RW_SIZE ->
    (exists f v, m !! f = Some v /\ strStartsWith v.1 ENG_MODEM = true) ->
    exists dest v, m !! dest = Some v /\ strStartsWith v.1 ENG_MODEM = true /\
      appclient_event fd (Some buf) s = Ret tt (Server (client_info s) (monitor_svc_fd s) (actions s ++ [Sent dest (framed fd t buf)]))) /\
  (forall fd nm, (size m < 60)%nat -> Forall (fun c => c <> 0 /\ c <> 58) nm -> ENG_MAX_CLIENT_NAME_LEN <= zlen nm -> happen (Arrives fd nm None) s = Bad OutOfBounds).
Proof.
  intros Hf. destruct (happen_all_spec hs (Server (replicate ENG_MAX_CONNECT_NUM no_client) (-1) []) (∅, false)) as (s & E & Hh & _); [by split; [apply holds_start|]|done|].
  fold (after_all hs) in Hh. set (m := (after_all hs).1) in *. exists s. split; [by erewrite bind_Ret by done|]. cbv zeta. split; [by eapply holds_size|].
  split; [intros fd; by apply gettype_spec|]. split; [|intros fd nm; by eapply long_name].
  intros fd n t buf Hfd Hc Hl (f & v & Hv & Hvm).
  destruct (socketid_spec s m 109 (str "odem") Hh) as (dest & Ed & [(Hd & u & Hu & Hum)|(_ & Hno)]); [done| |pose proof (Hno f v Hv) as Hx; change (strStartsWith v.1 ENG_MODEM = false) in Hx; congruence].
  exists dest, u. split; [done|]. split; [done|]. unfold appclient_event. erewrite bind_Ret by by apply gettype_spec. rewrite Hfd.
  erewrite bind_Ret by exact Ed. rewrite (proj2 (Z.leb_le _ _)) by done. rewrite Hc. unfold setup_send_data. change (6 + 6 + 2 + zlen buf) with (14 + zlen buf).
  cbv zeta. fold (framed fd t buf). rewrite (proj2 (Z.ltb_lt _ _)) by done. by erewrite bind_Ret by done.
Qed.

Lemma table_is_map_witness : exists s, (client_info_init ;;; forM [Arrives 4 ENG_MONITOR None; Arrives 5 ENG_MODEM None; Arrives 7 ENG_APPCLIENT (Some 1); Leaves 4; Arrives 4 (str "unknown") None] happen) server_start = Ret tt s /\
  appclient_event 7 (Some (str "9,0")) s = Ret tt (Server (client_info s) (monitor_svc_fd s) (actions s ++ [Sent 5 (str "   17;    7;1;9,0")])).
Proof.
  destruct (table_is_map [Arrives 4 ENG_MONITOR None; Arrives 5 ENG_MODEM None; Arrives 7 ENG_APPCLIENT (Some 1); Leaves 4; Arrives 4 (str "unknown") None]) as (s & E & _ & _ & Hm & _).
  - assert (Hn : forall nm, forallb (fun c => negb (c =? 0) && negb (c =? 58)) nm && (zlen nm <? 20) = true -> name_ok nm).
    { intros nm H. apply andb_true_iff in H as [H Hl]. apply Z.ltb_lt in Hl. split; [|exact Hl]. apply List.Forall_forall. intros c Hc.
      apply List.forallb_forall with (x := c) in H; [|done]. apply andb_true_iff in H as [H1 H2]. apply negb_true_iff, Z.eqb_neq in H1. by apply negb_true_iff, Z.eqb_neq in H2. }
    repeat (split; [first [exact I|split; [lia|split; [vm_compute; reflexivity|split; [apply Hn; vm_compute; reflexivity|split; [cbn; try exact I; lia|]; (left; vm_compute; reflexivity) || (right; vm_compute; reflexivity)] ] ] ]|]). exact I.
  - exists s. split; [exact E|]. destruct (Hm 7 (in_field ENG_APPCLIENT) 1 (str "9,0")) as (dest & v & Hd & Hv & Ea).
    + vm_compute. reflexivity.
    + reflexivity.
    + vm_compute. reflexivity.
    + exists 5, (in_field ENG_MODEM, 0). split; vm_compute; reflexivity.
    + assert (Ed : dest = 5); [|subst dest; exact Ea]. clear -Hd Hv.
      assert (Ha : map_to_list (after_all [Arrives 4 ENG_MONITOR None; Arrives 5 ENG_MODEM None; Arrives 7 ENG_APPCLIENT (Some 1); Leaves 4; Arrives 4 (str "unknown") None]).1 = [(5, (in_field ENG_MODEM, 0)); (7, (in_field ENG_APPCLIENT, 1))] \/
        map_to_list (after_all [Arrives 4 ENG_MONITOR None; Arrives 5 ENG_MODEM None; Arrives 7 ENG_APPCLIENT (Some 1); Leaves 4; Arrives 4 (str "unknown") None]).1 = [(7, (in_field ENG_APPCLIENT, 1)); (5, (in_field ENG_MODEM, 0))])
        by (vm_compute; first [left; reflexivity|right; reflexivity]).
      apply elem_of_map_to_list in Hd. destruct Ha as [Ha|Ha]; rewrite Ha in Hd; rewrite !elem_of_cons in Hd; destruct Hd as [ [= -> ->]|[ [= -> ->]|Hd] ]; try done; by apply elem_of_nil in Hd.
Defined.
