(* ===== verification/EngExchange.v ===== *)
(** * Commands and answers

    src/common/apps/engineeringmodel/engcs/eng_modemclient.c: a message of the
    server is taken apart, its command is sent to a modem as an AT command, the
    lines that the modem answers with are collected, and what is made of them
    goes back to the server. *)
From stdpp Require Import base list.
From Stdlib Require Import ZArith Lia.
From Stdlib Require Import (notations) String.
From S2P Require Import Prelude EngTok EngParcel EngLine EngCmd EngServer.

(** ** Definitions *)

(** *** The client *)

(** The statics of the files, the devices of the two modems (what they will
    deliver, what was written to them), what [select] says about them (whether
    there is an answer in time), how many bytes the writes to the server take -
    all of them when the script is over -, and what was written to the server. *)
Record client := MkClient {
  send_array : send_array_t;
  at_buffer : list Z; at_cur : Z;
  dev1 : list event; dev2 : list event;
  out1 : list Z; out2 : list Z;
  ready : list bool;
  accepts : list Z; to_server : list (list Z);
  one : Z; cmd_type : Z }.

Definition put_array (a : send_array_t) (c : client) : client :=
  MkClient a (at_buffer c) (at_cur c) (dev1 c) (dev2 c) (out1 c) (out2 c) (ready c) (accepts c) (to_server c) (one c) (cmd_type c).
Definition on_array {A} (m : M send_array_t A) : M client A := zoom send_array put_array m.
(** The modem of a type: 1 is the second one. *)
Definition port_of (t : Z) (c : client) : port := Port (at_buffer c) (at_cur c) (if t =? 1 then dev2 c else dev1 c).
Definition put_port (t : Z) (p : port) (c : client) : client :=
  MkClient (send_array c) (s_ATBuffer p) (s_ATBufferCur p) (if t =? 1 then dev1 c else events p) (if t =? 1 then events p else dev2 c)
    (out1 c) (out2 c) (ready c) (accepts c) (to_server c) (one c) (cmd_type c).
Definition on_port {A} (t : Z) (m : M port A) : M client A := zoom (port_of t) (put_port t) m.
Definition write_modem (t : Z) (bytes : list Z) : M client unit := modify (fun c =>
  MkClient (send_array c) (at_buffer c) (at_cur c) (dev1 c) (dev2 c)
    (if t =? 1 then out1 c else out1 c ++ bytes) (if t =? 1 then out2 c ++ bytes else out2 c)
    (ready c) (accepts c) (to_server c) (one c) (cmd_type c)).
Definition select_modem : M client bool :=
  c <- get ;;
  modify (fun c => MkClient (send_array c) (at_buffer c) (at_cur c) (dev1 c) (dev2 c) (out1 c) (out2 c) (tail (ready c)) (accepts c) (to_server c) (one c) (cmd_type c)) ;;;
  ret (match ready c with b :: _ => b | [] => false end).
Definition set_command (o t : Z) : M client unit := modify (fun c =>
  MkClient (send_array c) (at_buffer c) (at_cur c) (dev1 c) (dev2 c) (out1 c) (out2 c) (ready c) (accepts c) (to_server c) o t).

(** *** Writing to the server *)

Definition eng_write (bytes : list Z) : M client Z :=
  c <- get ;;
  let w := match accepts c with n :: _ => Z.min n (zlen bytes) | [] => zlen bytes end in
  modify (fun c => MkClient (send_array c) (at_buffer c) (at_cur c) (dev1 c) (dev2 c) (out1 c) (out2 c) (ready c)
    (tail (accepts c)) (to_server c ++ [take (Z.to_nat w) bytes]) (one c) (cmd_type c)) ;;;
  ret w.
(** At most three times, until all bytes are taken. *)
Fixpoint write_tries (n : nat) (bytes : list Z) : M client unit :=
  match n with
  | O => ret tt
  | S n => w <- eng_write bytes ;; if w =? zlen bytes then ret tt else write_tries n bytes
  end.
Definition eng_write2server (fd : Z) (data : list Z) : M client unit :=
  b <- server_message fd data ;; write_tries 3 b.

(** *** Answers *)

Definition eng_specialAT (cmd : Z) : bool := cmd =? code ENG_AT_SPVER.
Definition eng_isLargeInfoAt (cmd : Z) : bool :=
  (cmd =? code ENG_AT_L1MON) || (cmd =? code ENG_AT_GET_ASSERT_MODE) || (cmd =? code ENG_AT_SGMR).

(** The offset of the response in the memory at [data], [None] for NULL, and its
    length, [None] when it is not known. *)
Definition response : Type := option Z * option Z.

(** The bytes at an offset, with a NUL. *)
Definition write_string (off : Z) (s : list Z) : M (list Z) unit :=
  d <- get ;; d <- lift OutOfBounds (store d off (s ++ [0])) ;; modify (fun _ => d).

(** [response.content = &data[3]; response.content_len = data[2];] *)
Definition first_line : M (list Z) response :=
  d <- get ;;
  n <- lift OutOfBounds (aget d (SEND_DATA_START_POS + SEND_DATA_ITEM_LENGTH_BYTES - 1)) ;;
  ret (Some (SEND_DATA_START_POS + SEND_DATA_ITEM_LENGTH_BYTES), Some n).

(** The number in the first line, printed in its place. *)
Definition one_number (f : option Z -> M resp (option Z)) : M (list Z) response :=
  d <- get ;;
  let off := SEND_DATA_START_POS + SEND_DATA_ITEM_LENGTH_BYTES in
  match f None (Resp (Tok d (Some off)) []) with
  | Ret v r =>
      v <- lift Uninitialised v ;;
      modify (fun _ => tbuf (r_tok r)) ;;;
      d <- get ;;
      (** [memset(content, 0, sizeof(content))], the size of a pointer *)
      d <- lift OutOfBounds (store d off [0; 0; 0; 0]) ;;
      modify (fun _ => d) ;;;
      write_string off (print_int v) ;;;
      ret (Some off, Some (zlen (print_int v)))
  | Exit _ => bad OutOfFuel
  | Bad x => bad x
  end.

(** A response made of the lines, in [respose_data] first; the text is copied
    over the lines, 256 bytes of it. What cut the lines into tokens behind those
    bytes is not kept: nothing reads it before [eng_clear_array]. *)
Definition made (f : list Z -> M resp Z) : M (list Z) response :=
  d <- get ;;
  match f d resp_init with
  | Ret n r =>
      d <- lift OutOfBounds (store d 0 (r_out r ++ replicate (Z.to_nat (OUT_LEN - zlen (r_out r))) 0)) ;;
      modify (fun _ => d) ;;;
      ret (Some 0, Some n)
  | Exit _ => bad OutOfFuel
  | Bad x => bad x
  end.

(** [memset(content, 0, sizeof(content))] and the text; what is behind the NUL of
    the text is never read. *)
Definition made_cced : M (list Z) response :=
  d <- get ;;
  match eng_ResponseCCED d resp_init with
  | Ret n r =>
      if (n =? 0) || (n =? 1) then
        write_string 0 (str "No Network") ;;; ret (Some 0, Some (zlen (str "No Network") + 1))
      else
        d <- lift OutOfBounds (store d 0 (r_out r ++ replicate (Z.to_nat (OUT_LEN - zlen (r_out r))) 0)) ;;
        modify (fun _ => d) ;;;
        ret (Some 0, Some n)
  | Exit _ => bad OutOfFuel
  | Bad x => bad x
  end.

Definition whole : M (list Z) response :=
  d <- get ;; s <- lift OutOfBounds (cstring d 0) ;; ret (Some 0, Some (zlen s)).

Definition eng_atCommandResponse (cmd : Z) (data_len : option Z) : M (list Z) response :=
  d <- get ;;
  if isFinalResponse d then ret (Some 0, data_len) else
  match of_code cmd with
  | Some ENG_AT_REQUEST_MODEM_VERSION | Some ENG_AT_REQUEST_IMEI => first_line
  | Some ENG_AT_CURRENT_BAND => one_number eng_ResponseCurrentBand
  | Some ENG_AT_GETARMLOG | Some ENG_AT_GETDSPLOG => one_number eng_ResponseGetArmLog
  | Some ENG_AT_GETAUTOANSWER => one_number eng_ResponseGetAutoAnswer
  | Some ENG_AT_GETSPPSRATE => made eng_ResponseGetSpPsrate
  | Some ENG_AT_GETSPTEST => made eng_ResponseSPTest
  | Some ENG_AT_SPID => made eng_ResponseSPID
  | Some ENG_AT_GETSPFRQ => made eng_ResponseSPFRQ
  | Some ENG_AT_GETSPDGCNUM => made eng_ResponseGetSPDGCNUM
  | Some ENG_AT_GETSPDGCINFO => made eng_ResponseGetSPDGCINFO
  | Some ENG_AT_GETSPL1ITRRSWITCH => made eng_ResponseGetSPL1
  | Some ENG_AT_L1PARAM => made eng_ResponseL1PARAM
  | Some ENG_AT_TRRPARAM => made eng_ResponseTRRPARAM
  | Some ENG_AT_SETTDMEASSWTH => made eng_ResponseTDMEASSWTH
  | Some ENG_AT_GETTDMEASSWTH => made eng_ResponseGetTDMEASSWTH
  | Some ENG_AT_RRDMPARAM => made eng_ResponseRRDMPARAM
  | Some ENG_AT_SMTIMER => made eng_ResponseSMTIMER
  | Some ENG_AT_TRRDCFEPARAM => made eng_ResponseTRRDCFEPARAM
  | Some ENG_AT_CIMI => first_line
  | Some ENG_AT_MBCELLID => made eng_ResponseMBCELLID
  | Some ENG_AT_MBAU => made eng_ResponseMBAU
  | Some ENG_AT_EUICC => made eng_ResponseEUICC
  | Some ENG_AT_CGREG => made eng_ResponseCGREG
  | Some ENG_AT_NOHANDLE_CMD => ret (Some 0, data_len)
  | Some ENG_AT_SYSINFO => made eng_ResponseSYSINFO
  | Some ENG_AT_HVER => made eng_ResponseHVER
  | Some ENG_AT_GETSYSCONFIG => made eng_ResponseGetSYSCONFIG
  | Some ENG_AT_SPVER => made eng_ResponseSPVER
  | Some ENG_AT_AUTOATTACH => one_number eng_ResponseCurrentAttach
  | Some ENG_AT_GETPDPACT => first_line
  | Some ENG_AT_GETUPLMN => made eng_ResponseGETUPLMN
  | Some ENG_AT_GETUPLMNLEN => made eng_ResponseGETUPLMNLEN
  | Some ENG_AT_SETUPLMN => made eng_ResponseSETUPLMN
  | Some ENG_AT_SADC => made eng_ResponseSADC
  | Some ENG_AT_CGMR => made eng_ResponseCGMR
  | Some ENG_AT_CCED => made_cced
  | Some ENG_AT_L1MON => whole
  | Some ENG_AT_SFPL | Some ENG_AT_SEPL => made eng_ResponsePLMN
  | Some ENG_AT_GET_ASSERT_MODE | Some ENG_AT_SGMR => whole
  | _ => ret (None, Some 0)
  end.

(** *** Collecting the lines *)

(** What [send_data] points to, and [send_len]. *)
Inductive place := Array | Large.
Definition memory (p : place) (a : send_array_t) : list Z := match p with Array => array a | Large => largeString a end.
Definition put_memory (p : place) (d : list Z) (a : send_array_t) : send_array_t :=
  match p with
  | Array => Send (index a) (item_num a) d (largeIndex a) (largeString a)
  | Large => Send (index a) (item_num a) (array a) (largeIndex a) d
  end.
Definition on_memory {A} (p : place) (m : M (list Z) A) : M client A := on_array (zoom (memory p) (put_memory p) m).

Definition pop (large : bool) : M client (place * option Z) :=
  if large then ret (Large, None) else r <- on_array eng_pop_array ;; ret (Array, Some r.2).

(** The end of an answer that succeeds: OK when there is nothing in it. *)
Definition finish_ok (large : bool) : M client (place * option Z) :=
  on_array eng_push_finish ;;;
  r <- pop large ;;
  b <- on_memory r.1 (d <- get ;; lift OutOfBounds (aget d 1)) ;;
  if b =? 0 then on_memory r.1 (write_string 0 (str "OK")) ;;; ret (r.1, Some 2) else ret r.
Definition finish_error : M client (place * option Z) :=
  r <- pop false ;;
  on_memory r.1 (write_string 0 (str "ERROR")) ;;; ret (r.1, Some 5).

(** [while(1)], for the modem [t]. With no event to come and no line it runs for
    ever. *)
Fixpoint collect (fuel : nat) (t : Z) : M client (place * option Z) :=
  match fuel with
  | O => bad OutOfFuel
  | S fuel =>
      r <- on_port t eng_readline ;;
      c <- get ;;
      match r with
      | None =>
          if eng_specialAT (cmd_type c) then pop false
          else match events (port_of t c) with [] => bad Blocked | _ => collect fuel t end
      | Some p =>
          line <- lift OutOfBounds (cstring (at_buffer c) p) ;;
          if isFinalResponseSuccess line then finish_ok (eng_isLargeInfoAt (cmd_type c))
          else if isFinalResponseError line then finish_error
          else
            on_array (if eng_isLargeInfoAt (cmd_type c) then eng_push_large_string (line ++ [0]) (u8 (zlen line))
                      else eng_push_array (line ++ [0]) (u8 (zlen line))) ;;;
            collect fuel t
      end
  end.
(** Each round takes a line, of which there are fewer than characters, or an
    event. *)
Definition collect_fuel (c : client) (t : Z) : nat := (2049 + 2 * load (events (port_of t c)))%nat.

(** *** Answers that are passed on *)

(** [tmp = read(modemfd, ptr, ENG_BUF_LEN)] *)
Definition raw_read (t : Z) : M client (option (list Z)) :=
  on_port t (s <- get ;;
    match events s with
    | [] => ret None
    | Data l :: es =>
        set_events (if zlen l <=? ENG_BUF_LEN then es else Data (drop (Z.to_nat ENG_BUF_LEN) l) :: es) ;;;
        ret (Some (take (Z.to_nat ENG_BUF_LEN) l))
    | _ :: es => set_events es ;;; ret None
    end).
(** The loop, from [ptr] on: [s_ATDictBuf] and the number of bytes at its end. *)
Fixpoint pass_on (fuel : nat) (t : Z) (dict : list Z) (ptr counter : Z) : M client (list Z * Z) :=
  match fuel with
  | O => bad OutOfFuel
  | S fuel =>
      c <- get ;;
      let over := match events (port_of t c) with [] => true | _ => false end in
      r <- raw_read t ;;
      dict <- (match r with None => ret dict | Some l => lift OutOfBounds (store dict ptr l) end) ;;
      let counter := match r with None => counter | Some l => counter + zlen l end in
      let ptr := match r with None => ptr | Some l => ptr + counter end in
      s <- lift OutOfBounds (cstring dict 0) ;;
      if isAtNoHandleEnd s then ret (dict, counter)
      else if over then bad Blocked else pass_on fuel t dict ptr counter
  end.

(** *** An answer *)

Record eng_fdtype_t := FdType { fd : Z; fdt : Z }.

(** The text of the response to the lines that a modem answers with. *)
Definition answer (t : Z) : M client (list Z) :=
  c <- get ;;
  r <- collect (collect_fuel c t) t ;;
  let '(p, send_len) := r in
  c <- get ;;
  a <- on_memory p (eng_atCommandResponse (cmd_type c) send_len) ;;
  off <- lift NullPointer a.1 ;;
  on_memory p (d <- get ;; lift OutOfBounds (cstring d off)).

Definition eng_modem2server (status : Z) (fdtype : eng_fdtype_t) : M client Z :=
  if status =? -2 then ret (-1) else
  if status <? 0 then eng_write2server (fd fdtype) (str "ERROR") ;;; ret (-1) else
  n <- select_modem ;;
  if n : bool then
    c <- get ;;
    content <- (if negb (cmd_type c =? code ENG_AT_NOHANDLE_CMD) then answer (fdt fdtype)
      else
        r <- pass_on (S (load (events (port_of (fdt fdtype) c)))) (fdt fdtype) (replicate (Z.to_nat ENG_BUF_LEN) 0) 0 0 ;;
        lift OutOfBounds (cstring r.1 0)) ;;
    eng_write2server (fd fdtype) content ;;;
    on_array eng_clear_array ;;;
    ret 0
  else eng_write2server (fd fdtype) (str "ERROR") ;;; ret (-1).

(** *** A message of the server *)

(** One turn: the message at [words]; [r] is [ret]. *)
Definition turn (f : frame) (words r : Z) : M client (frame * Z * Z) :=
  match get_send_fd words f with
  | Ret (words_len, fd, t) f =>
      c <- get ;;
      match eng_parsecmd (Parse (Tok (f_buf f) (Some 0)) (one c)) with
      | Ret (cmd_type, param) s =>
          set_command (at_oneint s) cmd_type ;;;
          cmd <- eng_atCommandRequest cmd_type param ;;
          r <- (if 0 <? zlen cmd then write_modem t cmd ;;; write_modem t [13] ;;; ret r else ret (-1)) ;;
          _ <- eng_modem2server r (FdType fd t) ;;
          ret (Frame (f_tmp f) (tbuf (p_tok s)), words_len, r)
      | Exit _ => bad OutOfFuel
      | Bad x => bad x
      end
  | Exit _ => bad OutOfFuel
  | Bad x => bad x
  end.
Fixpoint turns (fuel : nat) (f : frame) (words length r : Z) : M client unit :=
  match fuel with
  | O => bad OutOfFuel
  | S fuel =>
      x <- turn f words r ;;
      let '(f, words_len, r) := x in
      let length := length + words_len in
      if ENG_BUF_LEN <=? length then ret tt else
      let words := words + length in
      b <- lift OutOfBounds (aget (f_tmp f) words) ;;
      if b =? 0 then ret tt else turns fuel f words length r
  end.
Definition turns_fuel : nat := 2049.

Definition fill (l : list Z) : list Z := l ++ replicate (Z.to_nat (ENG_BUF_LEN - zlen l)) 0.
(** What was read from the server, [None] when [select] or [read] fails. *)
Definition eng_servermodem_comm (input : option (list Z)) : M client Z :=
  match input with
  | None => ret (-2)
  | Some [] => ret (-2)
  | Some l => turns turns_fuel (Frame (fill l) (replicate (Z.to_nat ENG_BUF_LEN) 0)) 0 0 0 ;;; ret 0
  end.

(** *** The beginning *)

Definition client_start (e1 e2 : list event) (sel : list bool) : client :=
  MkClient (Send SEND_DATA_START_POS 0 (replicate SEND_ARRAY_MAX_LEN 0) 0 (replicate LARGE_LEN 0))
    (replicate (Z.to_nat ENG_BUF_LEN) 0) 0 e1 e2 [] [] sel [] [] 0 0.
Definition exchange (e : list event) (sel : list bool) (l : list Z) : option (list Z * list (list Z)) :=
  match eng_servermodem_comm (Some l) (client_start e [] sel) with Ret _ c => Some (out1 c, to_server c) | _ => None end.

Example get_rate : exchange [Data (str "+SPPSRATE: 0,64,1"); Data (str "28" ++ crlf ++ str "+SPPSRATE: 1,-1,384" ++ crlf ++ crlf ++ str "OK" ++ crlf)] [true]
    (str "   17;    7;0;9,0") = Some (str "AT+SPPSRATE?" ++ [13], [str "7;0,64,128,1,-1,384,"]).
Proof. vm_compute. done. Qed.
Example pass_csq : exchange [Data (crlf ++ str "+CSQ: 9,99" ++ crlf); Data (crlf ++ str "OK" ++ crlf)] [true]
    (str "   26;    7;0;39,0,AT+CSQ") = Some (str "AT+CSQ" ++ [13], [str "7;" ++ crlf ++ str "+CSQ: 9,99" ++ crlf ++ crlf ++ str "OK" ++ crlf]).
Proof. vm_compute. done. Qed.

(** Three commands in one read: the third one is lost. *)
Definition message (fd t : Z) (data : list Z) : list Z :=
  match setup_send_data fd t data tt with Ret m _ => m | _ => [] end.
Definition ok_line : event := Data (str "OK" ++ crlf).
Example third_lost : exchange [ok_line; ok_line; ok_line] [true; true; true] (message 7 0 (str "2,1,5") ++ message 7 0 (str "2,1,6") ++ message 7 0 (str "2,1,7"))
  = Some (str "AT+SBAND=5" ++ [13] ++ str "AT+SBAND=6" ++ [13], [str "7;OK"; str "7;OK"]).
Proof. vm_compute. done. Qed.
(** A command that gives no AT command, and one behind it. *)
Example sticky_error : exchange [ok_line] [true] (message 7 0 (str "63,0") ++ message 7 0 (str "2,1,6"))
  = Some (str "AT+SBAND=6" ++ [13], [str "7;ERROR"; str "7;ERROR"]).
Proof. vm_compute. done. Qed.
