(* ===== verification/EngExchangeProofs.v ===== *)
(** * A command is answered

    The theorems on EngExchange.v, which put those on the other files of the
    modem client together: from the message of the server to the modem and back,
    however the modem's answer arrives. *)
From stdpp Require Import base list.
From Stdlib Require Import ZArith Lia.
From Stdlib Require Import (notations) String.
From S2P Require Import Prelude EngTok EngTokProofs EngParcel EngParcelProofs EngLine EngLineProofs EngCmd EngCmdProofs EngServer EngServerProofs EngExchange.

(** ** The client with an array and a port *)

Section Parts.
Context (tm : Z) (c : client).

(** The client [c] with another array and another port of the modem [tm]. *)
Definition with_parts (a : send_array_t) (p : port) : client := put_port tm p (put_array a c).

Lemma port_of_parts a p : port_of tm (with_parts a p) = p.
Proof. unfold port_of, with_parts, put_port. cbn. destruct (tm =? 1); by destruct p. Qed.
Lemma put_port_parts a p p' : put_port tm p' (with_parts a p) = with_parts a p'.
Proof. unfold with_parts, put_port. cbn. by destruct (tm =? 1). Qed.
Lemma put_array_parts a a' p : put_array a' (with_parts a p) = with_parts a' p.
Proof. done. Qed.
Lemma parts_self : with_parts (send_array c) (port_of tm c) = c.
Proof. unfold with_parts, put_port, port_of. cbn. destruct c. cbn. by destruct (tm =? 1). Qed.

Lemma on_port_parts {A} (m : M port A) a p x p' : m p = Ret x p' -> on_port tm m (with_parts a p) = Ret x (with_parts a p').
Proof. intros E. unfold on_port, zoom. rewrite port_of_parts, E. by rewrite put_port_parts. Qed.
Lemma on_array_parts {A} (m : M send_array_t A) a p x a' : m a = Ret x a' -> on_array m (with_parts a p) = Ret x (with_parts a' p).
Proof. intros E. unfold on_array, zoom. change (send_array (with_parts a p)) with a. by rewrite E. Qed.

End Parts.

(** ** Collecting *)

(** A line that does not end an answer. *)
Definition inner (l : list Z) : Prop := isFinalResponseSuccess l = false /\ isFinalResponseError l = false.

Section Collect.
Context (K L : Z) (HL : L + K < ENG_BUF_LEN) (tm : Z) (c : client).
Context (Hspecial : eng_specialAT (cmd_type c) = false) (Hlarge : eng_isLargeInfoAt (cmd_type c) = false).

(** The lines up to [fin], which ends the answer, are packed, and then what the
    end does is done; the bytes behind [fin] are left. *)
Lemma collect_spec fuel lines fin more a p t :
  port_text p t -> coming K (events p) -> calm L (t ++ flat (events p)) -> lines_of (t ++ flat (events p)) = lines ++ fin :: more ->
  Forall inner lines -> ~ inner fin -> (length (lines_of (t ++ flat (events p))) + load (events p) < fuel)%nat -> array_ok a ->
  exists a' p' t', forM lines push a = Ret tt a' /\
    port_text p' t' /\ coming K (events p') /\ calm L (t' ++ flat (events p')) /\ lines_of (t' ++ flat (events p')) = more /\
    collect fuel tm (with_parts tm c a p) = (if isFinalResponseSuccess fin then finish_ok false else finish_error) (with_parts tm c a' p').
Proof.
  revert lines a p t. induction fuel as [|fuel IH]; intros lines a p t Hp Hc Hcalm Hlines Hin Hfin Hf Ha; [lia|].
  destruct (readline_spec K L HL p t Hp Hc Hcalm) as (r & p1 & t1 & E & P1 & C1 & Lo & R).
  cbn [collect]. erewrite bind_Ret by (apply on_port_parts; exact E). cbv beta. rewrite (bind_Ret get _ _ _ _) by done. cbv beta.
  change (cmd_type (with_parts tm c a p1)) with (cmd_type c). rewrite port_of_parts, Hspecial, Hlarge. destruct r as [q|].
  - destruct R as (l & Tl & En). change (at_buffer (with_parts tm c a p1)) with (s_ATBuffer p1).
    erewrite bind_Ret by (unfold lift; rewrite (text_cstring _ _ _ Tl); done). cbv beta. pose proof (calm_next L _ _ _ Hcalm En) as Hcalm1.
    rewrite lines_of_next, En in Hlines. destruct lines as [|l0 lines]; injection Hlines as -> Hrest.
    + exists a, p1, t1. split; [done|]. split; [done|]. split; [done|]. split; [done|]. split; [done|].
      destruct (isFinalResponseSuccess fin) eqn:E1; [done|]. destruct (isFinalResponseError fin) eqn:E2; [done|]. by destruct Hfin.
    + apply Forall_cons in Hin as [ [H1 H2] Hin]. rewrite H1, H2. destruct (push_ok a l0 Ha) as (a1 & Ep & Oa & _).
      erewrite bind_Ret by (apply on_array_parts; exact Ep). cbv beta.
      rewrite lines_of_next, En in Hf. cbn [length] in Hf.
      destruct (IH lines a1 p1 t1 P1 C1 Hcalm1 Hrest Hin Hfin ltac:(lia) Oa) as (a2 & p2 & t2 & E2 & Hrest2).
      exists a2, p2, t2. split; [cbn [forM]; erewrite bind_Ret by exact Ep; exact E2|exact Hrest2].
  - destruct R as (Hs & Htx & Hev). pose proof (same_lines _ _ _ _ Hs) as El. rewrite El in *. destruct (events p1) as [|e es] eqn:Ee.
    + exfalso. change (flat []) with (@nil Z) in Hlines. rewrite app_nil_r, lines_of_texts in Hlines by done. by destruct lines.
    + destruct Hev as [Hev|Hev]; [|done]. rewrite <- Ee in *. apply (IH lines a p1 t1); try done; [by eapply calm_stream|lia].
Qed.

End Collect.

(** ** The end of an answer *)

Definition with_header (a : send_array_t) : send_array_t :=
  Send (index a) (item_num a) (Prelude.put (array a) 0 [index a; item_num a]) (largeIndex a) (largeString a).
Definition with_text (s : list Z) (a : send_array_t) : send_array_t :=
  Send (index a) (item_num a) (Prelude.put (array a) 0 (s ++ [0])) (largeIndex a) (largeString a).

Lemma on_memory_parts {A} tm c (m : M (list Z) A) a p x d : m (array a) = Ret x d ->
  on_memory Array m (with_parts tm c a p) = Ret x (with_parts tm c (put_memory Array d a) p).
Proof. intros E. unfold on_memory. apply on_array_parts. unfold zoom. cbn [memory]. by rewrite E. Qed.

Lemma pop_header a : array_ok a -> eng_push_finish a = Ret tt (with_header a) /\ eng_pop_array (with_header a) = Ret (array (with_header a), index a) (with_header a).
Proof.
  intros (Ha & _). unfold eng_push_finish. rewrite (bind_Ret get _ a a a) by done.
  erewrite bind_Ret by (unfold lift; rewrite store_ok by (change (zlen [index a; item_num a]) with 2; lia); done). split; [done|].
  unfold eng_pop_array. rewrite (bind_Ret get _ _ _ _) by done. erewrite bind_Ret; [done|]. unfold lift. cbn [array with_header].
  rewrite aget_put by (change (zlen [index a; item_num a]) with 2; lia). done.
Qed.

Lemma write_text d s : zlen s < zlen d -> write_string 0 s d = Ret tt (Prelude.put d 0 (s ++ [0])).
Proof.
  intros H. unfold write_string. rewrite (bind_Ret get _ _ _ _) by done. pose proof (zlen_nonneg s).
  erewrite bind_Ret by (unfold lift; rewrite store_ok by (rewrite ?zlen_app; change (zlen [0]) with 1; lia); done). done.
Qed.
Lemma zlen_with_header a : array_ok a -> zlen (array (with_header a)) = 512.
Proof. intros (Ha & _). cbn [array with_header]. rewrite zlen_put; change (zlen [index a; item_num a]) with 2; lia. Qed.

Lemma finish_ok_spec tm c a p : array_ok a -> finish_ok false (with_parts tm c a p) =
  if item_num a =? 0 then Ret (Array, Some 2) (with_parts tm c (with_text (str "OK") (with_header a)) p)
  else Ret (Array, Some (index a)) (with_parts tm c (with_header a) p).
Proof.
  intros Ha. destruct (pop_header a Ha) as [E1 E2]. pose proof (zlen_with_header a Ha) as Hl. unfold finish_ok, pop.
  erewrite bind_Ret by (apply on_array_parts; exact E1). rewrite bind_assoc. erewrite bind_Ret by (apply on_array_parts; exact E2). cbv beta.
  erewrite bind_Ret by done. cbn [fst snd].
  assert (E3 : aget (array (with_header a)) 1 = Some (item_num a)).
  { destruct Ha as (Ha & _). cbn [array with_header]. rewrite aget_put by (change (zlen [index a; item_num a]) with 2; lia). done. }
  erewrite bind_Ret by (apply on_memory_parts; rewrite (bind_Ret get _ _ _ _) by done; unfold lift; rewrite E3; done). cbv beta.
  assert (Eh : put_memory Array (array (with_header a)) (with_header a) = with_header a) by done. rewrite Eh.
  destruct (item_num a =? 0); [|done]. erewrite bind_Ret by (apply on_memory_parts; apply write_text; rewrite Hl; done). done.
Qed.
Lemma finish_error_spec tm c a p : zlen (array a) = 512 -> exists n, finish_error (with_parts tm c a p) =
  Ret (Array, Some n) (with_parts tm c (with_text (str "ERROR") a) p).
Proof.
  intros Ha. exists 5. unfold finish_error, pop. rewrite bind_assoc. destruct (aget_is_Some (array a) 0) as [n En]; [lia|].
  erewrite bind_Ret by (apply on_array_parts; unfold eng_pop_array; rewrite (bind_Ret get _ _ _ _) by done; erewrite bind_Ret by (unfold lift; rewrite En; done); done).
  erewrite bind_Ret by done. cbn [fst snd]. erewrite bind_Ret by (apply on_memory_parts; apply write_text; rewrite Ha; done). done.
Qed.

(** ** The text of an answer *)

Lemma put_front d s : Prelude.put d 0 s = s ++ drop (Z.to_nat (zlen s)) d.
Proof. unfold Prelude.put. by rewrite Z.add_0_l, take_0. Qed.
Lemma cstring_front d s : no0 s -> cstring (Prelude.put d 0 (s ++ [0])) 0 = Some s.
Proof. intros H. apply text_cstring. split; [done|]. exists [], (drop (Z.to_nat (zlen (s ++ [0]))) d). split; [|done]. rewrite put_front. by rewrite <- app_assoc. Qed.

(** OK and ERROR are passed on, whatever the command was. *)
Lemma final_text tm c a p s n cmd : s = str "OK" \/ s = str "ERROR" ->
  (a_ <- on_memory Array (eng_atCommandResponse cmd n) ;; off <- lift NullPointer a_.1 ;; on_memory Array (d <- get ;; lift OutOfBounds (cstring d off)))
    (with_parts tm c (with_text s a) p) = Ret s (with_parts tm c (with_text s a) p).
Proof.
  intros Hs. assert (Hf : isFinalResponse (array (with_text s a)) = true).
  { cbn [array with_text]. rewrite put_front. destruct Hs as [-> | ->]; done. }
  assert (H0 : no0 s) by (destruct Hs as [-> | ->]; repeat (apply List.Forall_cons; [done|]); apply List.Forall_nil).
  assert (Em : put_memory Array (array (with_text s a)) (with_text s a) = with_text s a) by done.
  erewrite bind_Ret by (apply on_memory_parts; unfold eng_atCommandResponse; rewrite (bind_Ret get _ _ _ _) by done; rewrite Hf; done). cbn [fst]. rewrite Em.
  erewrite bind_Ret by done. rewrite <- Em at 2. apply on_memory_parts. rewrite (bind_Ret get _ _ _ _) by done. unfold lift. cbn [array with_text]. by rewrite cstring_front.
Qed.

(** The queries that rows answer. *)
Definition row_queries : list (ENG_AT_CMD * (list Z -> M resp Z) * nat * (list Z -> list Z)) :=
  [(ENG_AT_GETSPPSRATE, eng_ResponseGetSpPsrate, 3%nat, id); (ENG_AT_GETSPTEST, eng_ResponseSPTest, 2%nat, id);
   (ENG_AT_GETSPFRQ, eng_ResponseSPFRQ, 4%nat, fun l => match l with [a; _; c; d] => [a; c; c; d] | _ => [] end)].
Definition reported (g : list Z -> list Z) (table : list (list Z)) : list Z := concat ((fun vs => listed (g vs)) <$> table).

Lemma listed_no0 vs : Forall int32 vs -> no0 (listed vs).
Proof.
  intros H. induction H as [|v vs Hv H IH]; [constructor|]. unfold listed. cbn [fmap list_fmap concat]. apply Forall_app. split; [|exact IH].
  apply Forall_app. split; [|by repeat constructor]. eapply Forall_impl; [by apply print_int_plain|]. intros c Hc. by apply plain_not.
Qed.

Lemma not_final lines : lines <> [] -> Forall (fun l => l <> []) lines -> isFinalResponse (packing lines) = false.
Proof.
  intros Hne Hl. assert (Hb : 2 * Z.of_nat (length lines) <= zlen (body lines)).
  { clear Hne. induction Hl as [|l lines Hx Hl IH]; [done|]. rewrite zlen_body_cons. cbn [length]. destruct l as [|x l]; [done|]. rewrite zlen_cons. pose proof (zlen_nonneg l). lia. }
  unfold isFinalResponse, s_finalResponse, packing. change (str "OK") with [79; 75]. change (str "ERROR") with [69; 82; 82; 79; 82]. cbn [existsb app strStartsWith].
  unfold total. destruct (Z.eqb_spec (2 + zlen (body lines)) 79); [rewrite (proj2 (Z.eqb_neq _ 75)) by lia|];
    (destruct (Z.eqb_spec (2 + zlen (body lines)) 69); [rewrite (proj2 (Z.eqb_neq _ 82)) by lia|]); done.
Qed.

Lemma rows_reportable f k g table lines : In (f, k, g) row_responses -> rows k table lines -> no0 (reported g table) /\ Forall (fun l => l <> []) lines.
Proof.
  intros Hin H. unfold reported. induction H as [|vs l table lines [Hk Hr] H [IH1 IH2] ]; [by split; constructor|]. cbn [fmap list_fmap concat]. destruct Hr as (name & sp & _ & _ & Hvs & ->). split.
  - apply Forall_app. split; [|done]. apply listed_no0.
    destruct Hin as [[= <- <- <-]|[[= <- <- <-]|[[= <- <- <-]|[] ] ] ]; [done|done|].
    repeat (destruct vs as [|? vs]; [try discriminate Hk|]; try discriminate Hk). repeat (apply Forall_cons in Hvs as [? Hvs]). cbv beta iota. repeat (apply List.Forall_cons; [assumption|]). apply List.Forall_nil.
  - constructor; [by destruct name|done].
Qed.

Lemma row_response c f k g d n : In (c, f, k, g) row_queries -> isFinalResponse d = false -> eng_atCommandResponse (code c) n d = made f d.
Proof.
  intros Hin Hf. unfold eng_atCommandResponse. rewrite (bind_Ret get _ _ _ _) by done. cbv beta. rewrite Hf, code_of_code.
  by destruct Hin as [[= <- <- <- <-]|[[= <- <- <- <-]|[[= <- <- <- <-]|[] ] ] ].
Qed.
Lemma row_queries_responses c f k g : In (c, f, k, g) row_queries -> In (f, k, g) row_responses.
Proof. intros [[= <- <- <- <-]|[[= <- <- <- <-]|[[= <- <- <- <-]|[] ] ] ]; [by left|by right; left|by right; right; left]. Qed.

(** The text that [made] leaves in front of the memory. *)
Lemma made_text f d out t : f d resp_init = Ret (zlen out) (Resp t out) -> no0 out -> zlen out < OUT_LEN -> zlen d = 512 ->
  exists d', made f d = Ret (Some 0, Some (zlen out)) d' /\ cstring d' 0 = Some out.
Proof.
  intros E H0 Ho Hd. pose proof (zlen_nonneg out). unfold OUT_LEN in Ho. unfold made. rewrite (bind_Ret get _ _ _ _) by done. cbv beta. rewrite E. cbn [r_out]. unfold OUT_LEN.
  assert (El : zlen (out ++ replicate (Z.to_nat (256 - zlen out)) 0) = 256) by (rewrite zlen_app; unfold zlen at 2; rewrite length_replicate; lia).
  erewrite bind_Ret by (unfold lift; rewrite store_ok by lia; done). eexists. split; [by erewrite bind_Ret by done|].
  apply text_cstring. split; [done|]. destruct (Z.to_nat (256 - zlen out)) as [|m] eqn:Em; [lia|]. exists [], (replicate m 0 ++ drop 256 d). split; [|done].
  rewrite put_front, El. change (Z.to_nat 256) with 256%nat. cbn [replicate app]. by rewrite <- app_assoc.
Qed.

Lemma rows_text c f k g table lines n : In (c, f, k, g) row_queries -> rows k table lines -> lines <> [] -> total lines <= 255 ->
  Forall (fun l => zlen l < 128) lines -> zlen (reported g table) < OUT_LEN ->
  exists m d, eng_atCommandResponse (code c) n (packing lines) = Ret (Some 0, m) d /\ cstring d 0 = Some (reported g table).
Proof.
  intros Hin Hr Hne Ht Hsz Ho. pose proof (row_queries_responses _ _ _ _ Hin) as Hin'. destruct (rows_reportable f k g table lines Hin' Hr) as [H0 Hl].
  rewrite (row_response c f k g _ n Hin) by by apply not_final. destruct (rows_made f k g table lines Hin' Hr Ht Hsz Ho) as (t & E).
  destruct (made_text f (packing lines) _ t E H0 Ho) as (d & Ed & Ec).
  { unfold packing, total in *. pose proof (zlen_nonneg (body lines)).
    assert (Er : forall i, 0 <= i -> zlen (replicate (Z.to_nat i) 0) = i) by (intros i Hi; unfold zlen; rewrite length_replicate; lia).
    rewrite !zlen_app, Er by lia. change (zlen [2 + zlen (body lines); Z.of_nat (length lines)]) with 2. lia. }
  by eexists _, d.
Qed.

(** What is told to the application when the modem answers a command with some
    lines and the last line [fin]. *)
Inductive replies (cmd : Z) : list (list Z) -> list Z -> list Z -> Prop :=
  | acknowledged fin : isFinalResponseSuccess fin = true -> replies cmd [] fin (str "OK")
  | refused lines fin : isFinalResponseSuccess fin = false -> isFinalResponseError fin = true -> replies cmd lines fin (str "ERROR")
  | rows_listed c f k g table lines fin : cmd = code c -> In (c, f, k, g) row_queries -> rows k table lines -> lines <> [] -> total lines <= 255 ->
      Forall (fun l => zlen l < 128) lines -> zlen (reported g table) < OUT_LEN -> isFinalResponseSuccess fin = true ->
      replies cmd lines fin (reported g table).

Lemma replies_final cmd lines fin reply : replies cmd lines fin reply -> ~ inner fin.
Proof. intros [? Hs|? ? Hs He|? ? ? ? ? ? ? _ _ _ _ _ _ _ Hs] [H1 H2]; congruence. Qed.

(** Two bytes are a length and a number of lines less than 256. *)
Lemma push_start lines : total lines <= 255 -> lines <> [] -> exists a, forM lines push array_start = Ret tt a /\
  array (with_header a) = packing lines /\ item_num a <> 0.
Proof.
  intros Ht Hne. eexists. split; [exact (push_all_fit lines [] array_start eq_refl eq_refl eq_refl eq_refl Ht)|]. cbn [array with_header index item_num app].
  split; [by apply packing_put|]. by destruct lines.
Qed.

Section Reply.
Context (tm : Z) (c : client) (a0 : send_array_t) (p : port) (cmd : Z).

(** The end of [answer], behind the collecting. *)
Definition reply_to (m : M client (place * option Z)) : M client (list Z) :=
  r <- m ;; let '(q, send_len) := r in
  c <- get ;;
  a <- on_memory q (eng_atCommandResponse (cmd_type c) send_len) ;;
  off <- lift NullPointer a.1 ;;
  on_memory q (d <- get ;; lift OutOfBounds (cstring d off)).

Lemma reply_final s n m a : (s = str "OK" \/ s = str "ERROR") -> m (with_parts tm c a p) = Ret (Array, n) (with_parts tm c (with_text s a0) p) ->
  reply_to m (with_parts tm c a p) = Ret s (with_parts tm c (with_text s a0) p).
Proof.
  intros Hs E. unfold reply_to. erewrite bind_Ret by exact E. cbv beta iota. rewrite (bind_Ret get _ _ _ _) by done. cbv beta. by apply final_text.
Qed.
End Reply.

Lemma reply_spec tm c lines fin reply a p : replies (cmd_type c) lines fin reply -> forM lines push array_start = Ret tt a ->
  exists a', reply_to (if isFinalResponseSuccess fin then finish_ok false else finish_error) (with_parts tm c a p) = Ret reply (with_parts tm c a' p).
Proof.
  intros H Ea. destruct (push_all_ok lines array_start) as (a1 & E1 & Oa & _ & Na & _); [done|]. rewrite Ea in E1. injection E1 as <-.
  destruct H as [fin Hs|lines fin Hs He|x f k g table lines fin Hx Hin Hr Hne Ht Hsz Ho Hs]; rewrite Hs.
  - exists (with_text (str "OK") (with_header a)). eapply reply_final; [by left|]. rewrite finish_ok_spec by done. injection Ea as <-. done.
  - destruct (finish_error_spec tm c a p) as [n E]; [by destruct Oa|]. exists (with_text (str "ERROR") a). eapply reply_final; [by right|exact E].
  - destruct (push_start lines Ht Hne) as (a2 & E2 & Ep & Hn). rewrite Ea in E2. injection E2 as <-.
    destruct (rows_text x f k g table lines (Some (index a)) Hin Hr Hne Ht Hsz Ho) as (m & d & Em & Ec).
    exists (put_memory Array d (with_header a)). unfold reply_to. erewrite bind_Ret by (rewrite finish_ok_spec by done; by rewrite (proj2 (Z.eqb_neq _ 0) Hn)).
    cbv beta iota. rewrite (bind_Ret get _ _ _ _) by done. cbv beta. change (cmd_type (with_parts tm c (with_header a) p)) with (cmd_type c). rewrite Hx.
    erewrite bind_Ret by (apply on_memory_parts; rewrite Ep; exact Em). cbn [fst]. erewrite bind_Ret by done.
    apply (on_memory_parts tm c _ (put_memory Array d (with_header a)) p (reported g table) d). rewrite (bind_Ret get _ _ _ _) by done. cbn [array put_memory]. unfold lift. by rewrite Ec.
Qed.

(** ** A client that waits for a command *)

Lemma flat_load es : (length (flat es) <= load es)%nat.
Proof.
  induction es as [|e es IH]; [done|]. rewrite flat_cons, load_cons, length_app. destruct e; cbn [event_bytes event_size length]; lia.
Qed.
Lemma lines_length s : (length (lines_of s) <= length s)%nat.
Proof.
  remember (length s) as n eqn:E. assert (H : (length s <= n)%nat) by lia. clear E. revert s H. induction n as [|n IH]; intros s H; rewrite lines_of_next;
    (destruct (next_line s) as [ [l r]|] eqn:En; [apply next_line_size in En|cbn [length]; lia]); [lia|]. cbn [length]. specialize (IH r). lia.
Qed.

Section Session.
Context (K L : Z) (HL : L + K < ENG_BUF_LEN) (tm : Z).

(** What the modem's device still delivers, with what was read of it, is [ls]. *)
Definition has_lines (c : client) (ls : list (list Z)) : Prop := exists u,
  port_text (port_of tm c) u /\ coming K (events (port_of tm c)) /\ calm L (u ++ flat (events (port_of tm c))) /\ lines_of (u ++ flat (events (port_of tm c))) = ls.
(** The array is as [eng_clear_array] leaves it, and the server takes all bytes. *)
Definition idle (c : client) : Prop := send_array c = array_start /\ accepts c = [].
(** What was written to the modem. *)
Definition written (c : client) : list Z := if tm =? 1 then out2 c else out1 c.

Lemma answer_spec c lines fin more reply : send_array c = array_start -> eng_specialAT (cmd_type c) = false -> eng_isLargeInfoAt (cmd_type c) = false ->
  has_lines c (lines ++ fin :: more) -> Forall inner lines -> replies (cmd_type c) lines fin reply ->
  exists a p, answer tm c = Ret reply (with_parts tm c a p) /\ has_lines (with_parts tm c a p) more.
Proof.
  intros Ha Hs Hl (u & Hp & Hc & Hcalm & El) Hin Hr. pose proof (parts_self tm c) as Ec. set (p := port_of tm c) in *. set (es := events p) in *.
  assert (Hf : (length (lines_of (u ++ flat es)) + load es < collect_fuel c tm)%nat).
  { pose proof (lines_length (u ++ flat es)) as H1. pose proof (flat_load es). rewrite length_app in H1. unfold collect_fuel. fold p es.
    destruct Hp as (Hb & _ & pre & post & Eb & _). rewrite Eb in Hb. unfold zlen, ENG_BUF_LEN in Hb. rewrite !length_app in Hb. lia. }
  destruct (collect_spec K L HL tm c Hs Hl (collect_fuel c tm) lines fin more array_start p u Hp Hc Hcalm El Hin (replies_final _ _ _ _ Hr) Hf) as (a & p' & u' & Ea & Hp' & Hc' & Hcalm' & El' & E); [done|].
  destruct (reply_spec tm c lines fin reply a p' Hr Ea) as (a' & E'). exists a', p'. split; [|exists u'; by rewrite port_of_parts].
  unfold answer. rewrite (bind_Ret get _ _ _ _) by done. cbv beta. rewrite <- E'. unfold reply_to. rewrite Ha in Ec. rewrite <- Ec at 2. unfold bind at 1. rewrite E. done.
Qed.

(** The message of the client to the server. *)
Definition to_application (fd : Z) (reply : list Z) : list Z := print_int fd ++ [59] ++ reply.

(** The client when an answer was sent: the array is empty again. *)
Definition sent (c : client) (m : list Z) : client :=
  MkClient array_start (at_buffer c) (at_cur c) (dev1 c) (dev2 c) (out1 c) (out2 c) (ready c) [] (to_server c ++ [m]) (one c) (cmd_type c).

Lemma write2server_spec c fd reply : accepts c = [] -> 0 <= fd <= 99999 -> zlen reply < ENG_BUF_LEN - 6 ->
  (eng_write2server fd reply ;;; on_array eng_clear_array ;;; ret 0) c = Ret 0 (sent c (to_application fd reply)).
Proof.
  intros Hc Hfd Hr. unfold eng_write2server. fold (to_application fd reply). set (m := to_application fd reply).
  assert (Em : server_message fd reply c = Ret m c).
  { unfold server_message. fold (to_application fd reply). fold m. pose proof (print_nat_length 5 fd). rewrite (proj2 (Z.ltb_lt _ _)); [done|].
    unfold m, to_application. rewrite !zlen_app. change (zlen [59]) with 1. lia. }
  rewrite bind_assoc. erewrite bind_Ret by exact Em. cbn [write_tries]. rewrite bind_assoc. unfold eng_write at 1. rewrite bind_assoc.
  rewrite (bind_Ret get _ _ _ _) by done. cbv beta. rewrite Hc. rewrite bind_assoc. erewrite bind_Ret by done. erewrite bind_Ret by done. rewrite Z.eqb_refl.
  erewrite bind_Ret by done. unfold zlen. rewrite Nat2Z.id, firstn_all. cbn. by rewrite Hc.
Qed.

(** *** A command *)

Record request_t := Request { r_fd : Z; r_cmd : ENG_AT_CMD; r_name : String.string; r_args : list Z;
  r_lines : list (list Z); r_fin : list Z; r_reply : list Z }.
(** The application's text, what the modem gets, and what the modem answers. *)
Definition r_text (r : request_t) : list Z := fields (EngCmd.code (r_cmd r) :: Z.of_nat (length (r_args r)) :: r_args r).
Definition r_at (r : request_t) : list Z := str (r_name r) ++ fields (r_args r) ++ [13].
Definition r_answer (r : request_t) : list (list Z) := r_lines r ++ [r_fin r].
Definition valid (r : request_t) : Prop :=
  In (r_cmd r, r_name r, length (r_args r)) simple_commands /\
  eng_specialAT (EngCmd.code (r_cmd r)) = false /\ eng_isLargeInfoAt (EngCmd.code (r_cmd r)) = false /\
  Forall int32 (r_args r) /\ 0 <= r_fd r <= 99999 /\ Forall inner (r_lines r) /\ replies (EngCmd.code (r_cmd r)) (r_lines r) (r_fin r) (r_reply r).

Lemma replies_length cmd lines fin reply : replies cmd lines fin reply -> zlen reply < ENG_BUF_LEN - 6.
Proof. intros [? _|? ? _ _|? ? ? ? ? ? ? _ _ _ _ _ _ Ho _]; [done|done|]. unfold OUT_LEN, ENG_BUF_LEN in *. lia. Qed.

Lemma simple_command x : In x simple_commands ->
  negb (EngCmd.code x.1.1 =? EngCmd.code ENG_AT_NOHANDLE_CMD) = true /\ 0 < zlen (str x.1.2) /\ (x.2 <= 6)%nat.
Proof. revert x. apply List.Forall_forall. repeat (apply List.Forall_cons; [vm_compute; split; [done|split; [done|lia] ]|]). apply List.Forall_nil. Qed.

Lemma text_length r : valid r -> zlen (r_text r) < ENG_MAX_RW_SIZE - 14 /\ no0 (r_text r).
Proof.
  intros (Hin & _ & _ & Hvs & _). destruct (simple_command _ Hin) as (_ & _ & Hn). cbn [snd] in Hn.
  assert (Hi : Forall int32 (EngCmd.code (r_cmd r) :: Z.of_nat (length (r_args r)) :: r_args r)).
  { constructor; [by destruct (r_cmd r)|]. constructor; [unfold int32; lia|done]. }
  split; [|by apply fields_no0]. pose proof (fields_length _ Hi) as H. unfold r_text. rewrite !zlen_cons in H. unfold zlen at 2 in H. unfold ENG_MAX_RW_SIZE. lia.
Qed.

(** The client when the command was sent to the modem and the modem has begun to
    answer. *)
Definition asked (c : client) (o cmd : Z) (at_cmd : list Z) : client :=
  MkClient (send_array c) (at_buffer c) (at_cur c) (dev1 c) (dev2 c) (if tm =? 1 then out1 c else out1 c ++ at_cmd) (if tm =? 1 then out2 c ++ at_cmd else out2 c)
    (tail (ready c)) (accepts c) (to_server c) o cmd.
Lemma asked_written c o cmd l : written (asked c o cmd l) = written c ++ l.
Proof. unfold written, asked. cbn. by destruct (tm =? 1). Qed.

Context (Htm : 0 <= tm <= 9).

Lemma modem2server_spec c r rest o : valid r -> idle c -> ready c = true :: rest -> forall more, has_lines c (r_answer r ++ more) -> exists a p,
  eng_modem2server 0 (FdType (r_fd r) tm) (MkClient (send_array c) (at_buffer c) (at_cur c) (dev1 c) (dev2 c) (out1 c) (out2 c) (ready c) (accepts c) (to_server c) o (EngCmd.code (r_cmd r)))
    = Ret 0 (sent (with_parts tm (asked c o (EngCmd.code (r_cmd r)) []) a p) (to_application (r_fd r) (r_reply r))) /\
  has_lines (with_parts tm (asked c o (EngCmd.code (r_cmd r)) []) a p) more.
Proof.
  intros (Hin & Hs & Hl & Hvs & Hfd & Hinner & Hr) [Ha Hac] Hready more Hm. destruct (simple_command _ Hin) as (Hno & _ & _). cbn [fst] in Hno.
  unfold r_answer in Hm. rewrite <- app_assoc in Hm. cbn [app] in Hm. set (c' := asked c o (EngCmd.code (r_cmd r)) []).
  destruct (answer_spec c' (r_lines r) (r_fin r) more (r_reply r)) as (a & p & E & Hm'); try done.
  exists a, p. split; [|done]. unfold eng_modem2server. change (0 =? -2) with false. change (0 <? 0) with false. cbv iota.
  unfold select_modem. rewrite bind_assoc. rewrite (bind_Ret get _ _ _ _) by done. cbv beta. rewrite bind_assoc. erewrite bind_Ret by done. cbv beta. cbn [ready]. rewrite Hready.
  erewrite bind_Ret by done. cbv beta iota. rewrite (bind_Ret get _ _ _ _) by done. cbn [cmd_type]. rewrite Hno.
  match goal with |- _ ?x = _ => replace x with c' end;
    [|unfold c', asked; rewrite Hready, !app_nil_r; by destruct (tm =? 1)].
  cbn [fdt fd]. rewrite (bind_Ret _ _ _ _ _ E).
  apply write2server_spec; [done|done|by eapply replies_length].
Qed.

(** The client after a command. *)
Definition answered (c : client) (r : request_t) (o : Z) (a : send_array_t) (p : port) : client :=
  sent (with_parts tm (asked c o (EngCmd.code (r_cmd r)) (r_at r)) a p) (to_application (r_fd r) (r_reply r)).

Lemma fill_message m : zlen m <= ENG_BUF_LEN - 2 -> exists post, fill m = [] ++ m ++ 0 :: 0 :: post.
Proof.
  intros H. unfold fill, ENG_BUF_LEN in *. pose proof (zlen_nonneg m). destruct (Z.to_nat (2048 - zlen m)) as [|[|n] ] eqn:E; [lia|lia|]. by exists (replicate n 0).
Qed.

Lemma turn_spec c r rest more : valid r -> idle c -> ready c = true :: rest -> has_lines c (r_answer r ++ more) -> exists o a p f,
  turn (Frame (fill (framed (r_fd r) tm (r_text r))) (replicate (Z.to_nat ENG_BUF_LEN) 0)) 0 0 c = Ret (f, 14 + zlen (r_text r), 0) (answered c r o a p) /\
  aget (f_tmp f) (14 + zlen (r_text r)) = Some 0 /\ has_lines (answered c r o a p) more.
Proof.
  intros Hv Hi Hready Hm. destruct (text_length r Hv) as [Hlen H0]. pose proof Hv as (Hin & _ & _ & Hvs & Hfd & _). destruct (simple_command _ Hin) as (_ & Hname & _).
  assert (Hml : zlen (framed (r_fd r) tm (r_text r)) <= ENG_BUF_LEN - 2) by (rewrite framed_length by lia; unfold ENG_MAX_RW_SIZE, ENG_BUF_LEN in *; lia).
  destruct (fill_message _ Hml) as (post & Ef). set (z := replicate (Z.to_nat ENG_BUF_LEN) 0). assert (Hz : zlen (r_text r) + 2 <= zlen z) by (unfold ENG_MAX_RW_SIZE in Hlen; change (zlen z) with 2048; lia).
  destruct (get_send_fd_spec (r_fd r) tm (r_text r) Hfd Htm Hlen [] 0 0 post z Hz) as (tmp & Eg & Etmp). set (b := Prelude.put z 0 (r_text r ++ [0; 0])) in *.
  assert (Hb : text_at b 0 (r_text r)) by (split; [done|]; exists [], (0 :: drop (Z.to_nat (zlen (r_text r ++ [0; 0]))) z); split; [unfold b; rewrite put_front, <- app_assoc; done|done]).
  destruct (command_read (r_cmd r) (r_name r) (length (r_args r)) (r_args r) b 0 (one c) Hin eq_refl Hvs Hb) as (q & s & Ep & Hq).
  set (o := at_oneint s). set (c1 := MkClient (send_array c) (at_buffer c) (at_cur c) (dev1 c) (dev2 c) (if tm =? 1 then out1 c else out1 c ++ r_at r) (if tm =? 1 then out2 c ++ r_at r else out2 c)
    (ready c) (accepts c) (to_server c) (one c) (cmd_type c)).
  destruct (modem2server_spec c1 r rest o Hv Hi Hready more Hm) as (a & p & E & Hm'). exists o, a, p, (Frame ([] ++ tmp ++ 0 :: 0 :: post) (tbuf (p_tok s))).
  assert (Ec : asked c1 o (EngCmd.code (r_cmd r)) [] = asked c o (EngCmd.code (r_cmd r)) (r_at r)) by (unfold asked, c1; cbn; rewrite !app_nil_r; by destruct (tm =? 1)).
  rewrite Ec in E, Hm'. split; [|split; [cbn [f_tmp app]; rewrite aget_app, Etmp, Z.ltb_irrefl, Z.sub_diag by (pose proof (zlen_nonneg (r_text r)); lia); done|exact Hm'] ].
  unfold turn. rewrite Ef. change 0 with (zlen (@nil Z)) at 1. rewrite Eg. rewrite (bind_Ret get _ _ _ _) by done. cbn [f_buf f_tmp]. rewrite Ep.
  erewrite bind_Ret by done. erewrite bind_Ret by apply Hq. rewrite zlen_app. pose proof (zlen_nonneg (fields (r_args r))). cbn [fst snd] in Hname. rewrite (proj2 (Z.ltb_lt 0 _)) by lia.
  rewrite !bind_assoc. erewrite bind_Ret by done. rewrite !bind_assoc. erewrite bind_Ret by done. erewrite bind_Ret by done.
  match goal with |- bind (eng_modem2server _ _) _ ?x = _ => replace x with
    (MkClient (send_array c1) (at_buffer c1) (at_cur c1) (dev1 c1) (dev2 c1) (out1 c1) (out2 c1) (ready c1) (accepts c1) (to_server c1) o (EngCmd.code (r_cmd r))) end.
  2: { unfold c1, r_at. cbn. destruct (tm =? 1); by rewrite <- !app_assoc. }
  by rewrite (bind_Ret _ _ _ _ _ E).
Qed.

(** The server passes a text of an application on, and the client works on it. *)
Definition ask (r : request_t) : M client unit :=
  m <- setup_send_data (r_fd r) tm (r_text r) ;; _ <- eng_servermodem_comm (Some m) ;; ret tt.

Lemma ask_spec c r rest more : valid r -> idle c -> ready c = true :: rest -> has_lines c (r_answer r ++ more) -> exists o a p,
  ask r c = Ret tt (answered c r o a p) /\ has_lines (answered c r o a p) more.
Proof.
  intros Hv Hi Hready Hm. destruct (turn_spec c r rest more Hv Hi Hready Hm) as (o & a & p & f & E & Ef & Hm'). exists o, a, p. split; [|done].
  destruct (text_length r Hv) as [Hlen _]. pose proof Hv as (_ & _ & _ & _ & Hfd & _). unfold ask. erewrite bind_Ret by (apply setup_framed; lia).
  unfold eng_servermodem_comm. pose proof (framed_length (r_fd r) tm (r_text r) Hfd Htm Hlen) as El. pose proof (zlen_nonneg (r_text r)).
  destruct (framed (r_fd r) tm (r_text r)) as [|x m] eqn:Em; [change (zlen (@nil Z)) with 0 in El; lia|]. rewrite <- Em in *. rewrite bind_assoc.
  unfold turns_fuel. change 2049%nat with (S 2048). generalize 2048%nat as n. intros n. cbn [turns]. rewrite bind_assoc. erewrite bind_Ret by exact E. cbv beta iota zeta. rewrite !Z.add_0_l.
  unfold ENG_MAX_RW_SIZE in Hlen. rewrite (proj2 (Z.leb_gt ENG_BUF_LEN _)) by (unfold ENG_BUF_LEN; lia).
  rewrite bind_assoc. erewrite bind_Ret by (unfold lift; rewrite Ef; done). done.
Qed.

(** C5: A session. The applications, with descriptors from 0 to 99999, send
    commands with numbers from the table of simple commands (not AT+SPVER and
    the other commands with special or large answers, which are read in
    another way), the numbers being C integers, one after the other; the
    server passes each on to the modem client. The modem is ready in time for
    each command and answers it with OK alone, with an error behind any lines,
    or - the three commands that list rows - with rows and OK; its bytes
    arrive in any pieces of at most K bytes and its lines have at most L, with
    L + K below the 2048 bytes of the buffer (a read that fills it writes a
    byte behind it, eng_modemclient.c:347), without NUL bytes and without the
    prompt that begins with >; listed rows have the number of fields of their
    command, together at most 255 bytes with fewer than 128 each
    (engparcel.c:85), and their report fits in the output buffer; the server
    takes every message in one write. Then the modem gets the AT commands that
    were meant, with their numbers, and each application is sent the answer to
    its own command - OK, ERROR, or the numbers of the rows that the modem
    listed (for the locked frequencies with one of them in place of another)
    -, and after each command the client is ready for the next. *)
Theorem session_answered rs c more : Forall valid rs -> idle c -> ready c = replicate (length rs) true -> has_lines c (concat (r_answer <$> rs) ++ more) ->
  exists c', forM rs ask c = Ret tt c' /\ idle c' /\ has_lines c' more /\ written c' = written c ++ concat (r_at <$> rs) /\
    exists ms, to_server c' = to_server c ++ ms /\ Forall2 (fun m r => get_send_fd_server m tt = Ret (r_fd r, r_reply r) tt) ms rs.
Proof.
  intros Hv. revert c. induction Hv as [|r rs Hr Hv IH]; intros c Hi Hready Hm.
  - exists c. rewrite app_nil_r. do 4 (split; [done|]). exists []. by rewrite app_nil_r.
  - cbn [fmap list_fmap concat] in Hm. rewrite <- app_assoc in Hm. destruct (ask_spec c r _ _ Hr Hi Hready Hm) as (o & a & p & E & Hm').
    destruct (IH (answered c r o a p)) as (c' & E' & Hi' & Hm2 & Hw & ms & Hs & Hms); [done| |done|].
    { cbn [answered sent ready]. unfold with_parts, put_port. cbn. by rewrite Hready. }
    exists c'. cbn [forM]. rewrite (bind_Ret _ _ _ _ _ E). split; [done|]. split; [done|]. split; [done|]. split.
    + rewrite Hw. change (written (answered c r o a p)) with (written (asked c o (EngCmd.code (r_cmd r)) (r_at r))). rewrite asked_written. cbn [fmap list_fmap concat]. by rewrite <- app_assoc.
    + exists (to_application (r_fd r) (r_reply r) :: ms). rewrite Hs. cbn [answered sent to_server]. split; [by rewrite <- app_assoc|]. constructor; [|done].
      destruct Hr as (_ & _ & _ & _ & Hfd & _ & Hrep). apply (server_message_back (S := unit) (T := unit) (r_fd r) (r_reply r) tt); [done|].
      unfold server_message. fold (to_application (r_fd r) (r_reply r)). pose proof (print_nat_length 5 (r_fd r)). pose proof (replies_length _ _ _ _ Hrep).
      rewrite (proj2 (Z.ltb_lt _ _)); [done|]. unfold to_application. rewrite !zlen_app. change (zlen [59]) with 1. lia.
Qed.
End Session.

Definition some_requests : list request_t :=
  [Request 7 ENG_AT_SETSPPSRATE "AT+SPPSRATE="%string [1; 64; -128] [] (str "OK") (str "OK");
   Request 8 ENG_AT_GETSPPSRATE "AT+SPPSRATE?"%string [] [str "+SPPSRATE: 0,64,128"; str "+SPPSRATE: 1,-1,384"] (str "OK") (str "0,64,128,1,-1,384,");
   Request 7 ENG_AT_SETSPTEST "AT+SPTEST="%string [1; 2] [] (str "+CME ERROR: 3") (str "ERROR")].
Definition some_events : list event :=
  [Data (crlf ++ str "O"); Interrupted; Data (str "K" ++ crlf ++ crlf ++ str "+SPPSRATE: 0,6"); Data (str "4,128" ++ crlf ++ str "+SPPSRATE: 1,-1,384" ++ crlf ++ crlf ++ str "OK" ++ crlf);
   NoData; Data (crlf ++ str "+CME ERROR: 3" ++ crlf)].

Lemma session_answered_witness : exists c', forM some_requests (ask 1) (client_start [] some_events [true; true; true]) = Ret tt c' /\ idle c' /\ has_lines 100 100 1 c' [] /\
  written 1 c' = str "AT+SPPSRATE=1,64,-128" ++ [13] ++ str "AT+SPPSRATE?" ++ [13] ++ str "AT+SPTEST=1,2" ++ [13] /\
  exists ms, to_server c' = ms /\ Forall2 (fun m r => get_send_fd_server m tt = Ret (r_fd r, r_reply r) tt) ms some_requests.
Proof.
  apply (session_answered 100 100 eq_refl 1 ltac:(lia) some_requests (client_start [] some_events [true; true; true]) []).
  - assert (Hv : forall f c n vs ls fin rep, existsb (fun x => (EngCmd.code x.1.1 =? EngCmd.code c) && Nat.eqb x.2 (length vs) && String.eqb x.1.2 n) simple_commands = true ->
      eng_specialAT (EngCmd.code c) = false -> eng_isLargeInfoAt (EngCmd.code c) = false -> Forall int32 vs -> 0 <= f <= 99999 -> Forall inner ls ->
      replies (EngCmd.code c) ls fin rep -> valid (Request f c n vs ls fin rep)).
    { intros f c n vs ls fin rep Hin ? ? ? ? ? ?. split; [|done]. apply List.existsb_exists in Hin as ([ [c' n'] k] & Hin & Hx). cbn [fst snd] in Hx.
      apply andb_true_iff in Hx as [Hx Hn]. apply andb_true_iff in Hx as [Hc Hk]. apply Z.eqb_eq in Hc. apply Nat.eqb_eq in Hk. apply String.eqb_eq in Hn.
      pose proof (code_of_code c) as E1. rewrite <- Hc, code_of_code in E1. injection E1 as ->. cbn. by subst. }
    apply List.Forall_cons; [|apply List.Forall_cons; [|apply List.Forall_cons; [|apply List.Forall_nil] ] ]; apply Hv; try reflexivity; try lia;
      try (repeat (apply List.Forall_cons; [done|]); apply List.Forall_nil).
    + by apply acknowledged.
    + apply (rows_listed _ ENG_AT_GETSPPSRATE eng_ResponseGetSpPsrate 3 id [[0; 64; 128]; [1; -1; 384] ]); try done; [by left| |repeat (apply List.Forall_cons; [done|]); apply List.Forall_nil].
      apply List.Forall2_cons; [split; [done|]|apply List.Forall2_cons; [split; [done|]|apply List.Forall2_nil] ];
        apply (named_row "+SPPSRATE"); (done || (repeat (apply List.Forall_cons; [done|]); apply List.Forall_nil)).
    + by apply refused.
  - done.
  - done.
  - exists []. split; [apply (port_start_text some_events)|]. split; [split; repeat (apply List.Forall_cons; [done|]); apply List.Forall_nil|]. split; [|vm_compute; reflexivity].
    do 5 (eapply calm_line; [vm_compute; reflexivity|vm_compute; discriminate|reflexivity|]). by apply calm_end.
Defined.
