(* ===== verification/EngDiag.v ===== *)
(** * Frames of the diagnosis tool

    src/common/apps/engineeringmodel/engcs: vdiag.c takes frames out of what a
    PC sends over the serial line, eng_diag.c answers those that are not for
    the modem: the audio parameters, which are read and written in hexadecimal
    digits, and the factory mode. A [char] is unsigned, as on the phone. *)
From stdpp Require Import base list.
From Stdlib Require Import ZArith Lia.
From Stdlib Require Import (notations) String.
From S2P Require Import Prelude EngTok EngLine.

(** ** Definitions *)

(** *** Hexadecimal digits *)

(** Everything that is no decimal digit is taken for a capital letter. *)
Definition hex_value (c : Z) : Z := if (48 <=? c) && (c <=? 57) then u8 (c - 48) else u8 (c - 65 + 10).
(** [ascii2bin(dst, src, size)] from [count] on: [dst] afterwards. *)
Fixpoint ascii2bin (dst src : list Z) (count size : Z) : option (list Z) :=
  if count <? size then
    match dst, src with
    | _ :: dst, h :: l :: src => r ← ascii2bin dst src (count + 2) size; Some (u8 (Z.lor (Z.shiftl (hex_value h) 4) (hex_value l)) :: r)
    | _, _ => None
    end
  else Some dst.
Definition hex_digit (v : Z) : Z := if v <=? 9 then v + 48 else v + 65 - 10.
Fixpoint bin2ascii (src : list Z) : list Z :=
  match src with
  | [] => []
  | b :: src => hex_digit (Z.shiftr (Z.land b 240) 4) :: hex_digit (Z.land b 15) :: bin2ascii src
  end.

(** *** State *)

Definition EQ_SIZE : Z := 544.      (* sizeof(AUDIO_ENHA_EQ_STRUCT_T) *)
Definition MODE_SIZE : Z := 2784.   (* sizeof(AUDIO_NV_ARM_MODE_STRUCT_T) *)
Record AUDIO_TOTAL_T := AudioTotal { audio_enha_eq : list Z; ucModeName : list Z; tAudioNvArmModeStruct : list Z }.

Record statics := Statics { g_is_data : Z; g_index : Z; cmd_type : Z; eq_or_tun_type : Z; eq_mode_sel_type : Z }.
(** What the functions do to the outside. *)
Inductive act :=
  | Wrote (bytes : list Z)                    (* to the PC *)
  | Restarted                                 (* restart_vser *)
  | Forwarded (bytes : list Z)                (* to the modem's pipe *)
  | TestMode (v : Z)                          (* eng_sql_string2int_set *)
  | CheckFactoryMode
  | Installed (l : list AUDIO_TOTAL_T)        (* parse_vb_effect_params *)
  | SetPga (a : AUDIO_TOTAL_T).               (* SetAudio_pga_parameter_eng *)
(** The frame and the pointer into it; the parameters in memory and in the file
    that [mmap] maps; which calls of [mmap] and [write] succeed - all of them when
    the script is over. *)
Record diag := Diag {
  frame : tok; vars : statics;
  audio_total : list AUDIO_TOTAL_T; audio_file : list AUDIO_TOTAL_T; tun_data : list Z;
  mmaps : list bool; writes : list bool; acts : list act }.

Definition put_frame (t : tok) (d : diag) : diag := Diag t (vars d) (audio_total d) (audio_file d) (tun_data d) (mmaps d) (writes d) (acts d).
Definition on_frame {A} (m : M tok A) : M diag A := zoom frame put_frame m.
Definition set_vars (f : statics -> statics) : M diag unit := modify (fun d =>
  Diag (frame d) (f (vars d)) (audio_total d) (audio_file d) (tun_data d) (mmaps d) (writes d) (acts d)).
Definition set_is_data (f : Z -> Z) : M diag unit := set_vars (fun v => Statics (f (g_is_data v)) (g_index v) (cmd_type v) (eq_or_tun_type v) (eq_mode_sel_type v)).
Definition set_index (i : Z) : M diag unit := set_vars (fun v => Statics (g_is_data v) i (cmd_type v) (eq_or_tun_type v) (eq_mode_sel_type v)).
Definition set_cmd_type (c : Z) : M diag unit := set_vars (fun v => Statics (g_is_data v) (g_index v) c (eq_or_tun_type v) (eq_mode_sel_type v)).
Definition set_eq_or_tun (c : Z) : M diag unit := set_vars (fun v => Statics (g_is_data v) (g_index v) (cmd_type v) c (eq_mode_sel_type v)).
Definition set_mode_sel (c : Z) : M diag unit := set_vars (fun v => Statics (g_is_data v) (g_index v) (cmd_type v) (eq_or_tun_type v) c).
Definition set_total (l : list AUDIO_TOTAL_T) : M diag unit := modify (fun d =>
  Diag (frame d) (vars d) l (audio_file d) (tun_data d) (mmaps d) (writes d) (acts d)).
Definition set_file (l : list AUDIO_TOTAL_T) : M diag unit := modify (fun d =>
  Diag (frame d) (vars d) (audio_total d) l (tun_data d) (mmaps d) (writes d) (acts d)).
Definition set_tun (l : list Z) : M diag unit := modify (fun d =>
  Diag (frame d) (vars d) (audio_total d) (audio_file d) l (mmaps d) (writes d) (acts d)).
Definition perform (a : act) : M diag unit := modify (fun d =>
  Diag (frame d) (vars d) (audio_total d) (audio_file d) (tun_data d) (mmaps d) (writes d) (acts d ++ [a])).
Definition mmap : M diag bool :=
  d <- get ;;
  modify (fun d => Diag (frame d) (vars d) (audio_total d) (audio_file d) (tun_data d) (tail (mmaps d)) (writes d) (acts d)) ;;;
  ret (match mmaps d with b :: _ => b | [] => true end).
Definition eng_diag_write2pc (bytes : list Z) : M diag unit :=
  d <- get ;;
  modify (fun d => Diag (frame d) (vars d) (audio_total d) (audio_file d) (tun_data d) (mmaps d) (tail (writes d)) (acts d)) ;;;
  perform (Wrote bytes) ;;;
  (match writes d with false :: _ => perform Restarted | _ => ret tt end).

(** *** Which commands are handled here *)

Definition at_tok_equel_start : M tok Z :=
  t <- get ;;
  match tcur t with
  | None => ret (-1)
  | Some p =>
      r <- lift OutOfBounds (strchr (tbuf t) p 61) ;;
      match r with
      | None => set_cur None ;;; ret (-1)
      | Some q => set_cur (Some (q + 1)) ;;; ret 0
      end
  end.
(** [at_tok_nextint(&ptr, &v)] for a static [v]. *)
Definition static_int (set : Z -> M diag unit) : M diag unit :=
  r <- on_frame at_tok_nextint ;; match r.2 with Some v => set v | None => ret tt end.
Definition ptr_char : M diag Z :=
  d <- get ;;
  p <- lift NullPointer (tcur (frame d)) ;;
  lift OutOfBounds (aget (tbuf (frame d)) p).

(** Behind the first byte and the header. *)
Definition BODY : Z := 1 + 8.
Definition MAX_AUDIO_VOLUME_MODE_COUNT : Z := 4.
Definition body_starts (s : list Z) : M diag bool := d <- get ;; ret (strStartsWith (from (tbuf (frame d)) BODY) s).
Definition at_sadm : list Z := str "AT+SADM4AP".
Definition at_spenha : list Z := str "AT+SPENHA".
Definition isupper (c : Z) : bool := (65 <=? c) && (c <=? 90).

Definition sadm_to_handle : M diag bool :=
  _ <- on_frame at_tok_equel_start ;;
  static_int set_cmd_type ;;;
  d <- get ;;
  let c := cmd_type (vars d) in
  if negb (existsb (Z.eqb c) [7; 8; 9; 10; 11; 12]) then ret false
  else if c =? 7 then ret true
  else
    x <- ptr_char ;;
    set_index (x - 48) ;;;
    ret (negb (MAX_AUDIO_VOLUME_MODE_COUNT <=? x - 48)).
Definition spenha_to_handle : M diag bool :=
  _ <- on_frame at_tok_equel_start ;;
  static_int set_eq_or_tun ;;;
  static_int set_cmd_type ;;;
  d <- get ;;
  let c := cmd_type (vars d) in
  if negb (existsb (Z.eqb c) [0; 1; 2; 3; 4]) then ret false
  else if c =? 0 then ret true
  else
    static_int set_index ;;;
    d <- get ;;
    let i := g_index (vars d) in
    if (MAX_AUDIO_VOLUME_MODE_COUNT <? i) || (i <=? 0) then ret false else
    set_index (i - 1) ;;;
    (if c =? 2 then x <- ptr_char ;; set_mode_sel (x - 48) else ret tt) ;;;
    ret true.
Definition is_audio_at_cmd_need_to_handle : M diag bool :=
  d <- get ;;
  c <- lift OutOfBounds (aget (tbuf (frame d)) BODY) ;;
  is_at <- body_starts (str "AT") ;;
  if negb (g_is_data (vars d) =? 0) && negb is_at && (isdigit c || isupper c) then ret true else
  on_frame (set_cur (Some BODY)) ;;;
  sadm <- body_starts at_sadm ;;
  if sadm : bool then sadm_to_handle else
  spenha <- body_starts at_spenha ;;
  if spenha : bool then spenha_to_handle else ret false.

(** *** The audio parameters *)

Definition ok_text : list Z := [13; 10] ++ str "OK" ++ [13; 10].
Definition error_text : list Z := [13; 10] ++ str "ERROR" ++ [13; 10].
Definition prompt_text : list Z := [13; 10] ++ str "> ".

(** The parameters of [g_index], in memory and in the file. *)
Definition this_total : M diag AUDIO_TOTAL_T := d <- get ;; lift OutOfBounds (aget (audio_total d) (g_index (vars d))).
Definition put_total (a : AUDIO_TOTAL_T) : M diag unit :=
  d <- get ;; l <- lift OutOfBounds (aset (audio_total d) (g_index (vars d)) a) ;; set_total l.
Definition this_file : M diag AUDIO_TOTAL_T := d <- get ;; lift OutOfBounds (aget (audio_file d) (g_index (vars d))).
Definition put_file (a : AUDIO_TOTAL_T) : M diag unit :=
  d <- get ;; l <- lift OutOfBounds (aset (audio_file d) (g_index (vars d)) a) ;; set_file l.
Definition with_mode (m : list Z) (a : AUDIO_TOTAL_T) : AUDIO_TOTAL_T := AudioTotal (audio_enha_eq a) (ucModeName a) m.
Definition with_eq (e : list Z) (a : AUDIO_TOTAL_T) : AUDIO_TOTAL_T := AudioTotal e (ucModeName a) (tAudioNvArmModeStruct a).

(** [ascii2bin(dst, ptr, wlen)]: [size] is an [unsigned long]. *)
Definition from_hex (dst : list Z) (wlen : Z) : M diag (list Z) :=
  d <- get ;; lift OutOfBounds (ascii2bin dst (from (tbuf (frame d)) BODY) 0 (u32 wlen)).
Definition mode_from_hex (wlen : Z) : M diag unit :=
  a <- this_total ;; m <- from_hex (tAudioNvArmModeStruct a) wlen ;; put_total (with_mode m a).
Definition eq_from_hex (wlen : Z) : M diag unit :=
  a <- this_total ;; e <- from_hex (audio_enha_eq a) wlen ;; put_total (with_eq e a).
Definition mode_to_file : M diag unit := a <- this_total ;; f <- this_file ;; put_file (with_mode (tAudioNvArmModeStruct a) f).
Definition eq_to_file : M diag unit := a <- this_total ;; f <- this_file ;; put_file (with_eq (audio_enha_eq a) f).
Definition mode_of_file : M diag unit := f <- this_file ;; a <- this_total ;; put_total (with_mode (tAudioNvArmModeStruct f) a).
Definition eq_of_file : M diag unit := f <- this_file ;; a <- this_total ;; put_total (with_eq (audio_enha_eq f) a).

(** [if (g_is_data & flag) { g_is_data &= ~flag; ... }]; whether it was set. *)
Definition when_flag (flag : Z) (m : M diag unit) : M diag bool :=
  d <- get ;;
  if Z.land (g_is_data (vars d)) flag =? 0 then ret false
  else set_is_data (fun g => Z.land g (Z.lnot flag)) ;;; m ;;; ret true.

(** Data that follow a command. [g_indicator] is zero between the calls. *)
Definition audio_data : M diag (list Z) :=
  d <- get ;;
  len <- lift OutOfBounds (load16 (tbuf (frame d)) 5) ;;
  let wlen := len - 8 - 1 in
  mapped <- mmap ;;
  if negb mapped then ret error_text else
  a <- when_flag 2 (mode_from_hex wlen) ;;
  b <- when_flag 1 (mode_from_hex wlen ;;; mode_to_file) ;;
  c <- when_flag 4 (eq_from_hex wlen) ;;
  e <- when_flag 8 (eq_from_hex wlen ;;; eq_to_file) ;;
  _ <- when_flag 16 (d <- get ;; t <- from_hex (tun_data d) wlen ;; set_tun t) ;;
  (if a || b || c || e then
     d <- get ;; perform (Installed (audio_total d)) ;;; t <- this_total ;; perform (SetPga t)
   else ret tt) ;;;
  ret ok_text.

Definition quoted (s : list Z) : list Z := [34] ++ s ++ [34].
Definition mode_name : M diag (list Z) := a <- this_total ;; lift OutOfBounds (cstring (ucModeName a) 0).
Definition sadm_command : M diag (list Z) :=
  d <- get ;;
  let c := cmd_type (vars d) in
  let print_mode := n <- mode_name ;; a <- this_total ;; ret (str "+SADM4AP: 0," ++ quoted n ++ [44] ++ bin2ascii (tAudioNvArmModeStruct a)) in
  if c =? 7 then ret (str "+SADM4AP: 4")
  else if c =? 8 then n <- mode_name ;; ret (str "+SADM4AP: " ++ print_int (g_index (vars d)) ++ [44] ++ quoted n)
  else if c =? 10 then set_is_data (fun g => Z.lor g 2) ;;; ret prompt_text
  else if c =? 11 then set_is_data (fun g => Z.lor g 1) ;;; ret prompt_text
  else if c =? 12 then mapped <- mmap ;; (if mapped : bool then mode_of_file else ret tt) ;;; print_mode
  else if c =? 9 then print_mode
  else ret error_text.
(** [rsp] keeps what it has in the default branches. *)
Definition spenha_command (rsp : list Z) : M diag (list Z) :=
  d <- get ;;
  let c := cmd_type (vars d) in
  let prefix := str "+SPENHA: " ++ print_int (g_index (vars d)) ++ [44] in
  if eq_or_tun_type (vars d) =? 1 then
    if c =? 0 then ret (str "+SPENHA: 1")
    else if (c =? 2) || (c =? 4) then set_is_data (fun g => Z.lor g 16) ;;; ret prompt_text
    else if (c =? 3) || (c =? 1) then ret (prefix ++ bin2ascii (tun_data d))
    else ret rsp
  else
    let print_eq := a <- this_total ;; ret (prefix ++ bin2ascii (audio_enha_eq a)) in
    if c =? 0 then ret (str "+SPENHA: 4")
    else if c =? 2 then set_is_data (fun g => Z.lor g 4) ;;; ret prompt_text
    else if c =? 4 then set_is_data (fun g => Z.lor g 8) ;;; ret prompt_text
    (** what a failed [mmap] returns is not NULL *)
    else if c =? 3 then mapped <- mmap ;; (if mapped : bool then eq_of_file else bad NullPointer) ;;; print_eq
    else if c =? 1 then print_eq
    else ret rsp.

(** The text of [rsp]. *)
Definition eng_diag_audio : M diag (list Z) :=
  d <- get ;;
  if negb (g_is_data (vars d) =? 0) then audio_data else
  sadm <- body_starts at_sadm ;;
  rsp <- (if sadm : bool then sadm_command else ret error_text) ;;
  spenha <- body_starts at_spenha ;;
  if spenha : bool then spenha_command rsp else ret rsp.

(** *** Frames *)

Inductive DIAG_CMD_TYPE := CMD_COMMON | CMD_USER_FACTORYMODE | CMD_USER_AUDIO.
Definition eng_diag_parse : M diag DIAG_CMD_TYPE :=
  d <- get ;;
  type <- lift OutOfBounds (aget (tbuf (frame d)) 7) ;;
  subtype <- lift OutOfBounds (aget (tbuf (frame d)) 8) ;;
  if type =? 13 then ret (if subtype =? 7 then CMD_USER_FACTORYMODE else CMD_COMMON)
  else if type =? 104 then b <- is_audio_at_cmd_need_to_handle ;; ret (if b : bool then CMD_USER_AUDIO else CMD_COMMON)
  else ret CMD_COMMON.

Definition set_subtype (v : Z) : M diag unit := on_frame (t <- get ;; b <- lift OutOfBounds (aset (tbuf t) 8 v) ;; modify (fun t => Tok b (tcur t))).
Definition eng_diag_factorymode : M diag (list Z) :=
  d <- get ;;
  x <- lift OutOfBounds (aget (tbuf (frame d)) BODY) ;;
  (if (x =? 0) || (x =? 1) then perform (TestMode x) ;;; perform CheckFactoryMode ;;; set_subtype 0 else set_subtype 1) ;;;
  ret [].

Definition ENG_DIAG_BUF : Z := 8192.
(** [eng_diag_buf]: the frame that goes back; the sequence number is four bytes. *)
Definition message {S} (seq_num : list Z) (type subtype : Z) (payload : list Z) : M S (list Z) :=
  let m := [126] ++ seq_num ++ le16 (8 + zlen payload) ++ [type; subtype] ++ payload ++ [126] in
  if zlen m <=? ENG_DIAG_BUF then ret m else bad OutOfBounds.
Definition eng_diag_user_handle (type : DIAG_CMD_TYPE) : M diag (list Z) :=
  match type with
  | CMD_USER_AUDIO => rsp <- eng_diag_audio ;; message [0; 0; 0; 0] 156 0 rsp
  | _ =>
      rsp <- (match type with CMD_USER_FACTORYMODE => eng_diag_factorymode | _ => ret [] end) ;;
      d <- get ;;
      seq_num <- lift OutOfBounds (slice (tbuf (frame d)) 1 4) ;;
      t <- lift OutOfBounds (aget (tbuf (frame d)) 7) ;;
      s <- lift OutOfBounds (aget (tbuf (frame d)) 8) ;;
      message seq_num t s rsp
  end.
(** Whether the frame was for this program. *)
Definition eng_diag : M diag bool :=
  type <- eng_diag_parse ;;
  match type with
  | CMD_COMMON => ret false
  | _ =>
      m <- eng_diag_user_handle type ;;
      eng_diag_write2pc m ;;;
      (match type with
       | CMD_USER_AUDIO => m <- message [0; 0; 0; 0] 156 0 ok_text ;; eng_diag_write2pc m
       | _ => ret tt
       end) ;;;
      ret true
  end.

(** *** The serial line *)

Definition DATA_EXT_DIAG_SIZE : nat := Z.to_nat 8192.
Record vdiag := Vdiag { ext_data_buf : list Z; ext_buf_len : Z; rest : diag }.
Definition no_frame : list Z := replicate DATA_EXT_DIAG_SIZE 0.
Definition init_user_diag_buf : M vdiag unit := modify (fun v => Vdiag no_frame 0 (rest v)).
Definition put_ext (c : Z) (n : Z) : M vdiag unit :=
  v <- get ;;
  b <- lift OutOfBounds (aset (ext_data_buf v) (ext_buf_len v) c) ;;
  modify (fun v => Vdiag b n (rest v)).
Fixpoint get_user_diag_buf (buf : list Z) : M vdiag bool :=
  match buf with
  | [] => ret false
  | c :: buf =>
      v <- get ;;
      let n := ext_buf_len v in
      if (c =? 126) && (n =? 0) then put_ext c (n + 1) ;;; get_user_diag_buf buf
      else if (0 <? n) && (n <? Z.of_nat DATA_EXT_DIAG_SIZE) then
        if c =? 126 then put_ext c n ;;; ret true else put_ext c (n + 1) ;;; get_user_diag_buf buf
      else get_user_diag_buf buf
  end.
(** The frame is worked on where it is. *)
Definition on_diag {A} (m : M diag A) : M vdiag A :=
  zoom (fun v => put_frame (Tok (ext_data_buf v) None) (rest v)) (fun d v => Vdiag (tbuf (frame d)) (ext_buf_len v) d) m.
(** A round of [eng_vdiag_thread] that has read [l]. *)
Definition vdiag_round (l : list Z) : M vdiag unit :=
  found <- get_user_diag_buf l ;;
  handled <- (if found : bool then r <- on_diag eng_diag ;; init_user_diag_buf ;;; ret r else ret false) ;;
  if handled : bool then ret tt else on_diag (perform (Forwarded l)).

(** *** The beginning *)

Definition diag_start (total file : list AUDIO_TOTAL_T) : vdiag :=
  Vdiag no_frame 0 (Diag (Tok [] None) (Statics 0 0 0 0 0) total file (replicate 376 0) [] [] []).
(** A frame of the PC. *)
Definition pc_frame (seq_num : list Z) (type subtype : Z) (payload : list Z) : list Z :=
  [126] ++ seq_num ++ le16 (8 + zlen payload) ++ [type; subtype] ++ payload ++ [126].
Definition audio_frame (s : String.string) : list Z := pc_frame [1; 0; 0; 0] 104 1 (str s).
Definition some_total : AUDIO_TOTAL_T := AudioTotal (replicate (Z.to_nat EQ_SIZE) 1) (str "Handset" ++ replicate 9 0) (replicate (Z.to_nat MODE_SIZE) 2).
Definition run_rounds (ls : list (list Z)) : option (list act) :=
  match forM ls vdiag_round (diag_start (replicate 4 some_total) (replicate 4 some_total)) with Ret _ v => Some (acts (rest v)) | _ => None end.
Example count_modes : run_rounds [take 5 (audio_frame "AT+SADM4AP=7"); drop 5 (audio_frame "AT+SADM4AP=7")]
  = Some [Forwarded (take 5 (audio_frame "AT+SADM4AP=7")); Wrote ([126; 0; 0; 0; 0; 19; 0; 156; 0] ++ str "+SADM4AP: 4" ++ [126]);
          Wrote ([126; 0; 0; 0; 0; 14; 0; 156; 0] ++ ok_text ++ [126])].
Proof. vm_compute. done. Qed.
Example no_mode : forM [audio_frame "AT+SADM4AP=8"] vdiag_round (diag_start (replicate 4 some_total) (replicate 4 some_total)) = Bad NullPointer.
Proof. vm_compute. done. Qed.
(** A command where data are expected is taken for data. *)
Example command_as_data : match forM [audio_frame "AT+SADM4AP=10,0"; audio_frame "AT+SADM4AP=9,0"] vdiag_round (diag_start (replicate 4 some_total) (replicate 4 some_total)) with
  | Ret _ v => tAudioNvArmModeStruct <$> (audio_total (rest v) !! 0%nat) = Some ([189; 92; 173; 100; 185; 105; 144] ++ replicate (Z.to_nat (MODE_SIZE - 7)) 2)
  | _ => False
  end.
Proof. vm_compute. done. Qed.
