(* ===== verification/EngDiagProofs.v ===== *)
(** * Parameters through the diagnosis tool

    The theorems on EngDiag.v: what a PC writes with hexadecimal digits is what
    it reads back, however its frames are cut; and what a frame that is too long
    does. *)
From stdpp Require Import base list.
From Stdlib Require Import ZArith Lia.
From Stdlib Require Import (notations) String.
From S2P Require Import Prelude EngTok EngTokProofs EngLine EngDiag.

(** ** Digits *)

Lemma in_upto v n : In v (upto n) <-> 0 <= v < Z.of_nat n.
Proof.
  unfold upto. rewrite List.in_map_iff. split; [intros (k & <- & Hk%List.in_seq); lia|]. intros H. exists (Z.to_nat v). rewrite List.in_seq. lia.
Qed.
(** A fact that is checked for all numbers below a bound. *)
Lemma all_below (P : Z -> bool) n v : forallb P (upto n) = true -> 0 <= v < Z.of_nat n -> P v = true.
Proof. intros H Hv. rewrite List.forallb_forall in H. by apply H, in_upto. Qed.

Lemma hex_value_digit v : 0 <= v < 16 -> hex_value (hex_digit v) = v /\ hex_digit v <> 126.
Proof.
  intros H. assert (E : (hex_value (hex_digit v) =? v) && negb (hex_digit v =? 126) = true) by by apply (all_below (fun v => (hex_value (hex_digit v) =? v) && negb (hex_digit v =? 126)) 16).
  apply andb_true_iff in E as [E1 E2]. apply Z.eqb_eq in E1. apply negb_true_iff, Z.eqb_neq in E2. done.
Qed.

Lemma byte_halves b : byte b -> 0 <= Z.shiftr (Z.land b 240) 4 < 16 /\ 0 <= Z.land b 15 < 16 /\ Z.lor (Z.shiftl (Z.shiftr (Z.land b 240) 4) 4) (Z.land b 15) = b.
Proof.
  intros H. set (P := fun b => (0 <=? Z.shiftr (Z.land b 240) 4) && (Z.shiftr (Z.land b 240) 4 <? 16) && (0 <=? Z.land b 15) && (Z.land b 15 <? 16)
    && (Z.lor (Z.shiftl (Z.shiftr (Z.land b 240) 4) 4) (Z.land b 15) =? b)).
  assert (E : P b = true) by by apply (all_below P 256). unfold P in E. lia.
Qed.

Lemma bin2ascii_length p : zlen (bin2ascii p) = 2 * zlen p.
Proof. induction p as [|b p IH]; [done|]. cbn [bin2ascii]. rewrite !zlen_cons, IH. lia. Qed.

(** The digits of some bytes, read into an array. *)
Lemma hex_roundtrip p dst post n : bytes p -> zlen p <= zlen dst -> ascii2bin dst (bin2ascii p ++ post) n (n + 2 * zlen p) = Some (p ++ drop (length p) dst).
Proof.
  intros Hp. revert dst n. induction Hp as [|b p Hb Hp IH]; intros dst n Hl.
  - change (zlen (@nil Z)) with 0. cbn [bin2ascii app length]. rewrite drop_0. destruct dst as [|x dst]; cbn [ascii2bin]; by rewrite (proj2 (Z.ltb_ge _ _)) by lia.
  - rewrite zlen_cons in *. destruct dst as [|x dst]; [change (zlen (@nil Z)) with 0 in Hl; pose proof (zlen_nonneg p); lia|]. rewrite zlen_cons in Hl. pose proof (zlen_nonneg p).
    cbn [bin2ascii app ascii2bin length drop]. rewrite (proj2 (Z.ltb_lt _ _)) by lia. replace (n + 2 * (1 + zlen p)) with (n + 2 + 2 * zlen p) by lia.
    rewrite (IH dst (n + 2)) by lia. rewrite obind_Some. destruct (byte_halves b Hb) as (H1 & H2 & E).
    rewrite (proj1 (hex_value_digit _ H1)), (proj1 (hex_value_digit _ H2)), E. f_equal. f_equal. unfold u8, wrap. apply Z.mod_small. exact Hb.
Qed.

Lemma bin2ascii_no126 p : bytes p -> Forall (fun c => c <> 126) (bin2ascii p).
Proof.
  intros H. induction H as [|b p Hb H IH]; [constructor|]. destruct (byte_halves b Hb) as (H1 & H2 & _). cbn [bin2ascii].
  constructor; [by apply hex_value_digit|]. constructor; [by apply hex_value_digit|done].
Qed.

(** ** Frames *)

Definition no126 (l : list Z) : Prop := Forall (fun c => c <> 126) l.
(** The buffer with the beginning of a frame. *)
Definition buffered (pre : list Z) : list Z := Prelude.put no_frame 0 pre.
Lemma zlen_no_frame : zlen no_frame = 8192.
Proof. unfold no_frame, DATA_EXT_DIAG_SIZE, zlen. rewrite length_replicate. lia. Qed.
Lemma buffered_front pre : zlen pre <= 8192 -> buffered pre = pre ++ replicate (Z.to_nat (8192 - zlen pre)) 0 /\ zlen (buffered pre) = 8192.
Proof.
  intros H. pose proof (zlen_nonneg pre). unfold buffered, Prelude.put. rewrite Z.add_0_l, take_0. cbn [app]. unfold no_frame, DATA_EXT_DIAG_SIZE. rewrite drop_replicate.
  assert (E : (Z.to_nat 8192 - Z.to_nat (zlen pre))%nat = Z.to_nat (8192 - zlen pre)) by lia. rewrite E. split; [done|]. rewrite zlen_app. unfold zlen at 2. rewrite length_replicate. lia.
Qed.
Lemma put_ext_spec pre c n r : zlen pre < 8192 -> put_ext c n (Vdiag (buffered pre) (zlen pre) r) = Ret tt (Vdiag (buffered (pre ++ [c])) n r).
Proof.
  intros H. pose proof (zlen_nonneg pre). unfold put_ext. rewrite (bind_Ret get _ _ _ _) by done. cbn [ext_data_buf ext_buf_len].
  assert (E : aset (buffered pre) (zlen pre) c = Some (buffered (pre ++ [c]))).
  { destruct (buffered_front pre) as [E1 El]; [lia|]. destruct (buffered_front (pre ++ [c])) as [E2 _]; [rewrite zlen_app; change (zlen [c]) with 1; lia|].
    rewrite aset_Some by lia. f_equal. rewrite E2, E1, zlen_app. change (zlen [c]) with 1. destruct (Z.to_nat (8192 - zlen pre)) as [|k] eqn:Ek; [lia|].
    replace (Z.to_nat (8192 - (zlen pre + 1))) with k by lia. replace (Z.to_nat (zlen pre)) with (length pre + 0)%nat by (unfold zlen; lia).
    rewrite insert_app_r. cbn. by rewrite <- app_assoc. }
  erewrite bind_Ret by (unfold lift; rewrite E; done). done.
Qed.

(** Inside a frame. *)
Lemma collect_inside l pre r post : no126 l -> 0 < zlen pre -> zlen pre + zlen l <= 8192 ->
  get_user_diag_buf (l ++ post) (Vdiag (buffered pre) (zlen pre) r) = get_user_diag_buf post (Vdiag (buffered (pre ++ l)) (zlen (pre ++ l)) r).
Proof.
  intros Hl. revert pre. induction Hl as [|c l Hc Hl IH]; intros pre Hp Hlen; [by rewrite app_nil_r|]. rewrite zlen_cons in Hlen. pose proof (zlen_nonneg l).
  cbn [app get_user_diag_buf]. rewrite (bind_Ret get _ _ _ _) by done. cbn [ext_buf_len]. rewrite (proj2 (Z.eqb_neq c 126) Hc). cbn [andb].
  rewrite (proj2 (Z.ltb_lt 0 _)), (proj2 (Z.ltb_lt (zlen pre) (Z.of_nat DATA_EXT_DIAG_SIZE))) by (unfold DATA_EXT_DIAG_SIZE; lia). cbn [andb].
  erewrite bind_Ret by (apply put_ext_spec; lia). replace (zlen pre + 1) with (zlen (pre ++ [c])) by (rewrite zlen_app; done).
  replace (pre ++ c :: l) with ((pre ++ [c]) ++ l) by by rewrite <- app_assoc. apply IH; rewrite zlen_app; change (zlen [c]) with 1; lia.
Qed.
Lemma collect_start l r : get_user_diag_buf (126 :: l) (Vdiag no_frame 0 r) = get_user_diag_buf l (Vdiag (buffered [126]) (zlen [126]) r).
Proof.
  cbn [get_user_diag_buf]. rewrite (bind_Ret get _ _ _ _) by done. cbn [ext_buf_len]. change (126 =? 126) with true. cbn [andb Z.eqb].
  change (Vdiag no_frame 0 r) with (Vdiag (buffered []) (zlen (@nil Z)) r). erewrite bind_Ret by by apply put_ext_spec. done.
Qed.
Lemma collect_end pre l r : 0 < zlen pre < 8192 -> get_user_diag_buf (126 :: l) (Vdiag (buffered pre) (zlen pre) r) = Ret true (Vdiag (buffered (pre ++ [126])) (zlen pre) r).
Proof.
  intros H. cbn [get_user_diag_buf]. rewrite (bind_Ret get _ _ _ _) by done. cbn [ext_buf_len]. change (126 =? 126) with true. rewrite (proj2 (Z.eqb_neq (zlen pre) 0)) by lia. cbn [andb].
  rewrite (proj2 (Z.ltb_lt 0 _)), (proj2 (Z.ltb_lt (zlen pre) (Z.of_nat DATA_EXT_DIAG_SIZE))) by (unfold DATA_EXT_DIAG_SIZE; lia). cbn [andb].
  by erewrite bind_Ret by (apply put_ext_spec; lia).
Qed.

(** ** Rounds *)

(** The pieces in which a frame arrives; those without its end. *)
Definition pieces (f : list Z) (ls : list (list Z)) : Prop := exists init l, ls = init ++ [l ++ [126]] /\ concat ls = f.
Definition early (ls : list (list Z)) : list (list Z) := take (length ls - 1) ls.

Definition forwards (d : diag) (ls : list (list Z)) : diag :=
  Diag (EngDiag.frame d) (vars d) (audio_total d) (audio_file d) (tun_data d) (mmaps d) (writes d) (acts d ++ (Forwarded <$> ls)).
Lemma forwards_nil d : forwards d [] = d.
Proof. unfold forwards. cbn. rewrite app_nil_r. by destruct d. Qed.
Lemma forwards_app d ls ks : forwards (forwards d ls) ks = forwards d (ls ++ ks).
Proof. unfold forwards. cbn. by rewrite fmap_app, app_assoc. Qed.
Lemma put_put_frame t t' d : put_frame t (put_frame t' d) = put_frame t d.
Proof. done. Qed.

Lemma forward_spec b n d l : on_diag (perform (Forwarded l)) (Vdiag b n d) = Ret tt (Vdiag b n (put_frame (Tok b None) (forwards d [l]))).
Proof. done. Qed.

(** Rounds that complete, and more of them. *)
Lemma forM_done {A S} (xs ys : list A) (f : A -> M S unit) s s' : forM xs f s = Ret tt s' -> forM (xs ++ ys) f s = forM ys f s'.
Proof.
  revert s. induction xs as [|x xs IH]; intros s Hx; [by injection Hx as ->|]. cbn [app forM] in *. unfold bind in *. destruct (f x s); try done. by apply IH.
Qed.

Section Frame.
Context (content : list Z) (Hno : no126 content) (Hlen : zlen content <= 8190).

(** A piece of a frame without its end. *)
Lemma collect_part pre l post r : pre ++ l ++ post = 126 :: content ->
  get_user_diag_buf l (Vdiag (buffered pre) (zlen pre) r) = Ret false (Vdiag (buffered (pre ++ l)) (zlen (pre ++ l)) r).
Proof.
  intros E. pose proof (f_equal zlen E) as El. rewrite !zlen_app, zlen_cons in El.
  pose proof (zlen_nonneg l). pose proof (zlen_nonneg post). destruct pre as [|x pre].
  - destruct l as [|x l]; [done|]. cbn [app] in E. injection E as -> E. change (buffered []) with no_frame. change (zlen (@nil Z)) with 0. rewrite collect_start.
    rewrite <- E in Hno. apply Forall_app in Hno as [Hl _]. rewrite <- (app_nil_r l) at 1. change (zlen (@nil Z)) with 0 in El. rewrite zlen_cons in El.
    rewrite collect_inside; [done|done|done|change (zlen [126]) with 1; lia].
  - cbn [app] in E. injection E as -> E. rewrite <- E in Hno. apply Forall_app in Hno as [_ Hno']. apply Forall_app in Hno' as [Hl _].
    rewrite <- (app_nil_r l) at 1. rewrite collect_inside; [done|done| |lia]. rewrite zlen_cons. pose proof (zlen_nonneg pre). lia.
Qed.
Lemma collect_last pre l r : pre ++ l = 126 :: content ->
  get_user_diag_buf (l ++ [126]) (Vdiag (buffered pre) (zlen pre) r) = Ret true (Vdiag (buffered (126 :: content ++ [126])) (zlen (126 :: content)) r).
Proof.
  intros E. pose proof (f_equal zlen E) as El. rewrite zlen_app, zlen_cons in El. pose proof (zlen_nonneg content).
  assert (Eend : get_user_diag_buf [126] (Vdiag (buffered (126 :: content)) (zlen (126 :: content)) r) = Ret true (Vdiag (buffered (126 :: content ++ [126])) (zlen (126 :: content)) r))
    by (apply (collect_end (126 :: content)); rewrite zlen_cons; lia).
  destruct pre as [|x pre].
  - cbn [app] in E. subst l. change (buffered []) with no_frame. change (zlen (@nil Z)) with 0. cbn [app]. rewrite collect_start.
    rewrite collect_inside; [exact Eend|done|done|change (zlen [126]) with 1; lia].
  - cbn [app] in E. injection E as -> E. rewrite <- E in Hno. apply Forall_app in Hno as [_ Hl]. rewrite zlen_cons in El. pose proof (zlen_nonneg pre).
    rewrite collect_inside; [|done|rewrite zlen_cons; lia|rewrite zlen_cons; lia]. cbn [app]. by rewrite E.
Qed.

Lemma rounds_part init pre post t d : pre ++ concat init ++ post = 126 :: content -> exists t',
  forM init vdiag_round (Vdiag (buffered pre) (zlen pre) (put_frame t d))
    = Ret tt (Vdiag (buffered (pre ++ concat init)) (zlen (pre ++ concat init)) (put_frame t' (forwards d init))).
Proof.
  revert pre t d. induction init as [|l init IH]; intros pre t d E; [exists t; cbn [concat forM]; by rewrite app_nil_r, forwards_nil|].
  cbn [concat] in E |- *. rewrite <- app_assoc in E. cbn [forM]. unfold vdiag_round at 1. rewrite bind_assoc. erewrite bind_Ret by (eapply collect_part; exact E).
  rewrite bind_assoc. erewrite bind_Ret by done. cbv iota. erewrite bind_Ret by apply forward_spec.
  destruct (IH (pre ++ l) (Tok (buffered (pre ++ l)) None) (forwards d [l])) as (t' & E'); [by rewrite <- app_assoc|].
  exists t'. rewrite forwards_app, <- app_assoc in E'. exact E'.
Qed.

(** A frame in pieces that [eng_diag] handles; what came before its last piece has
    gone to the modem. *)
Lemma frame_received ls t d d' : pieces (126 :: content ++ [126]) ls ->
  eng_diag (put_frame (Tok (buffered (126 :: content ++ [126])) None) (forwards d (early ls))) = Ret true d' ->
  forM ls vdiag_round (Vdiag no_frame 0 (put_frame t d)) = Ret tt (Vdiag no_frame 0 d').
Proof.
  intros (init & l & -> & Ec) Ed. assert (E : concat init ++ l = 126 :: content).
  { rewrite concat_app in Ec. cbn [concat] in Ec. rewrite app_nil_r, app_assoc in Ec. change (126 :: content ++ [126]) with ((126 :: content) ++ [126]) in Ec. by apply app_inj_2 in Ec as [Ec _]. }
  assert (Ee : early (init ++ [l ++ [126]]) = init).
  { unfold early. rewrite length_app. cbn [length]. replace (length init + 1 - 1)%nat with (length init) by lia. apply take_app_length. }
  rewrite Ee in Ed. destruct (rounds_part init [] l t d E) as (t' & Ei). change (buffered []) with no_frame in Ei. change (zlen (@nil Z)) with 0 in Ei. cbn [app] in Ei.
  rewrite (forM_done _ _ _ _ _ Ei). cbn [forM]. unfold vdiag_round. rewrite bind_assoc. erewrite bind_Ret by by apply collect_last.
  rewrite bind_assoc. rewrite bind_assoc. erewrite bind_Ret; [|unfold on_diag, zoom; cbn [ext_data_buf ext_buf_len rest]; rewrite put_put_frame, Ed; done].
  rewrite bind_assoc. erewrite bind_Ret by done. erewrite bind_Ret by done. done.
Qed.

End Frame.

(** A frame that does not end: when the buffer is full, nothing is found any more. *)
Lemma deaf l b r : get_user_diag_buf l (Vdiag b 8192 r) = Ret false (Vdiag b 8192 r).
Proof.
  induction l as [|c l IH]; [done|]. cbn [get_user_diag_buf]. rewrite (bind_Ret get _ _ _ _) by done. cbn [ext_buf_len]. change (8192 =? 0) with false.
  change (8192 <? Z.of_nat DATA_EXT_DIAG_SIZE) with false. by rewrite !andb_false_r.
Qed.
Lemma deaf_rounds ls b t d : exists t', forM ls vdiag_round (Vdiag b 8192 (put_frame t d)) = Ret tt (Vdiag b 8192 (put_frame t' (forwards d ls))).
Proof.
  revert t d. induction ls as [|l ls IH]; intros t d; [exists t; by rewrite forwards_nil|]. cbn [forM]. unfold vdiag_round at 1. rewrite bind_assoc.
  erewrite bind_Ret by apply deaf. rewrite bind_assoc. erewrite bind_Ret by done. cbv iota. erewrite bind_Ret by apply forward_spec.
  destruct (IH (Tok b None) (forwards d [l])) as (t' & E). exists t'. rewrite forwards_app in E. exact E.
Qed.

(** C27: After a frame start with 8191 bytes behind it that do not end the frame, no
    frame is found any more, whatever the PC sends: all it sends goes to the
    modem, and none of it is answered. *)
Theorem long_frame_deaf l post ls d : no126 l -> zlen l = 8191 -> exists t b,
  forM ((126 :: l ++ post) :: ls) vdiag_round (Vdiag no_frame 0 d) = Ret tt (Vdiag b 8192 (put_frame t (forwards d ((126 :: l ++ post) :: ls)))).
Proof.
  intros Hl Hn. set (f := 126 :: l ++ post). cbn [forM]. unfold vdiag_round at 1. rewrite bind_assoc. unfold f at 1.
  erewrite bind_Ret by (rewrite collect_start, collect_inside by (done || (change (zlen [126]) with 1; lia)); replace (zlen ([126] ++ l)) with 8192 by (rewrite zlen_app; change (zlen [126]) with 1; lia); apply deaf).
  rewrite bind_assoc. erewrite bind_Ret by done. cbv iota.
  erewrite bind_Ret by apply forward_spec. destruct (deaf_rounds ls (buffered ([126] ++ l)) (Tok (buffered ([126] ++ l)) None) (forwards d [f])) as (t' & E).
  exists t', (buffered ([126] ++ l)). rewrite forwards_app in E. exact E.
Qed.

Lemma long_frame_deaf_witness : exists t b, forM [126 :: replicate (Z.to_nat 8191) 65 ++ [126]; audio_frame "AT+SADM4AP=7"] vdiag_round (diag_start [] []) =
  Ret tt (Vdiag b 8192 (put_frame t (forwards (rest (diag_start [] [])) [126 :: replicate (Z.to_nat 8191) 65 ++ [126]; audio_frame "AT+SADM4AP=7"]))).
Proof.
  apply (long_frame_deaf (replicate (Z.to_nat 8191) 65) [126] [audio_frame "AT+SADM4AP=7"] (rest (diag_start [] []))).
  - apply Forall_replicate. done.
  - vm_compute. reflexivity.
Defined.

(** ** The audio parameters *)

Section Exchange.
Context (tun : list Z) (seq_num : list Z) (sub : Z) (Hseq : length seq_num = 4%nat).

(** The state, when every [mmap] and [write] succeeds. *)
Definition st (t : tok) (g i c : Z) (eq ms : Z) (tot file : list AUDIO_TOTAL_T) (a : list act) : diag :=
  Diag t (Statics g i c eq ms) tot file tun [] [] a.

Lemma message_spec {S} (s : S) q t u payload : length q = 4%nat -> zlen payload <= 8182 -> message q t u payload s = Ret (pc_frame q t u payload) s.
Proof.
  intros Hq Hp. unfold message. fold (pc_frame q t u payload). rewrite (proj2 (Z.leb_le _ _)); [done|]. unfold pc_frame, ENG_DIAG_BUF. rewrite !zlen_app.
  assert (E : zlen q = 4) by (unfold zlen; by rewrite Hq). rewrite E. change (zlen [126]) with 1. change (zlen (le16 (8 + zlen payload))) with 2. change (zlen [t; u]) with 2. lia.
Qed.

(** A command with an index. *)
Definition sadm_text (c i : Z) : list Z := at_sadm ++ [61] ++ print_int c ++ [44; 48 + i; 13].
Definition sadm_frame (c i : Z) : list Z := pc_frame seq_num 104 sub (sadm_text c i).
Definition answer_frame (payload : list Z) : list Z := pc_frame [0; 0; 0; 0] 156 0 payload.

Lemma sadm_parsed c i gi ct eq ms tot file a : In c [9; 10; 11] -> 0 <= i < 4 -> exists b q,
  eng_diag_parse (st (Tok (buffered (sadm_frame c i)) None) 0 gi ct eq ms tot file a) = Ret CMD_USER_AUDIO (st (Tok b q) 0 i c eq ms tot file a) /\
  strStartsWith (from b BODY) at_sadm = true /\ strStartsWith (from b BODY) at_spenha = false.
Proof.
  intros Hc Hi. destruct seq_num as [|s1 [|s2 [|s3 [|s4 [|] ] ] ] ] eqn:Es; try discriminate Hseq.
  assert (Hi' : i = 0 \/ i = 1 \/ i = 2 \/ i = 3) by lia. unfold sadm_frame. rewrite Es.
  exists (<[Z.to_nat (BODY + 11 + zlen (print_int c)) := 0]> (buffered (pc_frame [s1; s2; s3; s4] 104 sub (sadm_text c i)))), (Some (BODY + 12 + zlen (print_int c))).
  destruct Hc as [<-|[<-|[<-|[] ] ] ]; destruct Hi' as [->|[->|[->| ->] ] ]; (split; [vm_compute; reflexivity|split; vm_compute; reflexivity]).
Qed.

(** What is done behind the parsing of a command. *)
Lemma handled_spec b q g i c eq ms tot file a b' q' g' i' c' eq' ms' tot' file' a' rsp t0 :
  eng_diag_parse t0 = Ret CMD_USER_AUDIO (st (Tok b q) g i c eq ms tot file a) ->
  eng_diag_audio (st (Tok b q) g i c eq ms tot file a) = Ret rsp (st (Tok b' q') g' i' c' eq' ms' tot' file' a') -> zlen rsp <= 8182 ->
  eng_diag t0 = Ret true (st (Tok b' q') g' i' c' eq' ms' tot' file' (a' ++ [Wrote (answer_frame rsp); Wrote (answer_frame ok_text)])).
Proof.
  intros Ep Ea Hr. unfold eng_diag. erewrite bind_Ret by exact Ep. cbv iota. unfold eng_diag_user_handle. rewrite bind_assoc. erewrite bind_Ret by exact Ea.
  erewrite bind_Ret by by apply message_spec. erewrite bind_Ret by done. rewrite bind_assoc. erewrite bind_Ret by by apply message_spec. erewrite bind_Ret by done.
  unfold ret, st. do 2 f_equal. cbn. by rewrite <- app_assoc.
Qed.

(** The flag of a command to set the parameters. *)
Definition flag_of (c : Z) : Z := if c =? 10 then 2 else 1.

Lemma set_command_spec c i gi ct eq ms tot file a : In c [10; 11] -> 0 <= i < 4 -> exists t,
  eng_diag (st (Tok (buffered (sadm_frame c i)) None) 0 gi ct eq ms tot file a)
    = Ret true (st t (flag_of c) i c eq ms tot file (a ++ [Wrote (answer_frame prompt_text); Wrote (answer_frame ok_text)])).
Proof.
  intros Hc Hi. destruct (sadm_parsed c i gi ct eq ms tot file a) as (b & q & Ep & H1 & H2); [destruct Hc as [<-|[<-|[] ] ]; cbn; tauto|done|].
  exists (Tok b q). eapply handled_spec; [exact Ep| |done]. unfold eng_diag_audio. rewrite (bind_Ret get _ _ _ _) by done. cbn [vars st g_is_data]. change (negb (0 =? 0)) with false. cbv iota.
  unfold body_starts at 1. rewrite bind_assoc. rewrite (bind_Ret get _ _ _ _) by done. erewrite bind_Ret by done. cbn [EngDiag.frame st tbuf]. rewrite H1.
  assert (Es : sadm_command (st (Tok b q) 0 i c eq ms tot file a) = Ret prompt_text (st (Tok b q) (flag_of c) i c eq ms tot file a)) by by destruct Hc as [<-|[<-|[] ] ].
  erewrite bind_Ret by exact Es. unfold body_starts. rewrite bind_assoc. rewrite (bind_Ret get _ _ _ _) by done. erewrite bind_Ret by done. cbn [EngDiag.frame st tbuf]. by rewrite H2.
Qed.

(** *** Reading *)

Lemma get_command_spec i gi ct eq ms tot file a x nm : 0 <= i < 4 -> aget tot i = Some x -> cstring (ucModeName x) 0 = Some nm -> zlen nm < 16 ->
  zlen (tAudioNvArmModeStruct x) = MODE_SIZE -> exists t,
  eng_diag (st (Tok (buffered (sadm_frame 9 i)) None) 0 gi ct eq ms tot file a)
    = Ret true (st t 0 i 9 eq ms tot file (a ++ [Wrote (answer_frame (str "+SADM4AP: 0," ++ quoted nm ++ [44] ++ bin2ascii (tAudioNvArmModeStruct x))); Wrote (answer_frame ok_text)])).
Proof.
  intros Hi Hx Hnm Hn Hs. destruct (sadm_parsed 9 i gi ct eq ms tot file a) as (b & q & Ep & H1 & H2); [by left|done|].
  exists (Tok b q). set (rsp := str "+SADM4AP: 0," ++ quoted nm ++ [44] ++ bin2ascii (tAudioNvArmModeStruct x)).
  assert (Hl : zlen rsp <= 8182).
  { unfold rsp, quoted. rewrite !zlen_app, bin2ascii_length, Hs. unfold MODE_SIZE. change (zlen (str "+SADM4AP: 0,")) with 12. change (zlen [34]) with 1. change (zlen [44]) with 1. lia. }
  eapply handled_spec; [exact Ep| |exact Hl]. unfold eng_diag_audio. rewrite (bind_Ret get _ _ _ _) by done. cbn [vars st g_is_data]. change (negb (0 =? 0)) with false. cbv iota.
  unfold body_starts at 1. rewrite bind_assoc. rewrite (bind_Ret get _ _ _ _) by done. erewrite bind_Ret by done. cbn [EngDiag.frame st tbuf]. rewrite H1.
  assert (Et : this_total (st (Tok b q) 0 i 9 eq ms tot file a) = Ret x (st (Tok b q) 0 i 9 eq ms tot file a)).
  { unfold this_total. rewrite (bind_Ret get _ _ _ _) by done. cbn [audio_total vars g_index st]. unfold lift. by rewrite Hx. }
  assert (Es : sadm_command (st (Tok b q) 0 i 9 eq ms tot file a) = Ret rsp (st (Tok b q) 0 i 9 eq ms tot file a)).
  { unfold sadm_command, mode_name. rewrite (bind_Ret get _ _ _ _) by done. cbn [vars cmd_type st]. cbv zeta.
    change (9 =? 7) with false. change (9 =? 8) with false. change (9 =? 10) with false. change (9 =? 11) with false. change (9 =? 12) with false. change (9 =? 9) with true. cbv iota.
    erewrite bind_Ret by (erewrite bind_Ret by exact Et; unfold lift; rewrite Hnm; done). erewrite bind_Ret by exact Et. done. }
  erewrite bind_Ret by exact Es. unfold body_starts. rewrite bind_assoc. rewrite (bind_Ret get _ _ _ _) by done. erewrite bind_Ret by done. cbn [EngDiag.frame st tbuf]. by rewrite H2.
Qed.

(** *** Writing *)

(** The digits of the parameters, and a character that ends them. *)
Definition data_frame (p : list Z) (x : Z) : list Z := pc_frame seq_num 104 sub (bin2ascii p ++ [x]).

Lemma data_buffer p x : zlen p = MODE_SIZE -> exists post, let b := buffered (data_frame p x) in
  aget b 7 = Some 104 /\ aget b 8 = Some sub /\ load16 b 5 = Some 5577 /\ from b BODY = bin2ascii p ++ post.
Proof.
  intros Hp. assert (El : zlen (bin2ascii p ++ [x]) = 5569) by (rewrite zlen_app, bin2ascii_length, Hp; done).
  destruct seq_num as [|s1 [|s2 [|s3 [|s4 [|] ] ] ] ] eqn:Es; try discriminate Hseq. unfold data_frame. rewrite Es.
  assert (Ef : pc_frame [s1; s2; s3; s4] 104 sub (bin2ascii p ++ [x]) = [126; s1; s2; s3; s4; 201; 21; 104; sub] ++ bin2ascii p ++ [x; 126]).
  { unfold pc_frame. rewrite El. change (le16 (8 + 5569)) with [201; 21]. cbn [app]. rewrite <- app_assoc. done. }
  rewrite Ef. destruct (buffered_front ([126; s1; s2; s3; s4; 201; 21; 104; sub] ++ bin2ascii p ++ [x; 126])) as [Eb _].
  { rewrite !zlen_app, bin2ascii_length, Hp. change (zlen [126; s1; s2; s3; s4; 201; 21; 104; sub]) with 9. change (zlen [x; 126]) with 2. unfold MODE_SIZE. lia. }
  eexists. cbv zeta. rewrite Eb. split; [done|]. split; [done|]. split; [done|]. rewrite <- !app_assoc. done.
Qed.

Lemma data_parsed p x g i c eq ms tot file a : zlen p = MODE_SIZE -> bytes p -> g <> 0 ->
  eng_diag_parse (st (Tok (buffered (data_frame p x)) None) g i c eq ms tot file a)
    = Ret CMD_USER_AUDIO (st (Tok (buffered (data_frame p x)) None) g i c eq ms tot file a).
Proof.
  intros Hp Hb Hg. destruct (data_buffer p x Hp) as (post & H7 & H8 & _ & Hf). set (b := buffered (data_frame p x)) in *. unfold eng_diag_parse.
  rewrite (bind_Ret get _ _ _ _) by done. cbn [EngDiag.frame st tbuf]. erewrite bind_Ret by (unfold lift; rewrite H7; done). erewrite bind_Ret by (unfold lift; rewrite H8; done).
  change (104 =? 13) with false. change (104 =? 104) with true. cbv iota.
  assert (En : is_audio_at_cmd_need_to_handle (st (Tok b None) g i c eq ms tot file a) = Ret true (st (Tok b None) g i c eq ms tot file a)).
  { destruct p as [|y p]; [done|]. apply Forall_cons in Hb as [Hy _]. destruct (byte_halves y Hy) as (Hh & Hl & _). cbn [bin2ascii app] in Hf.
    set (h := Z.shiftr (Z.land y 240) 4) in *. set (l := Z.land y 15) in *. unfold is_audio_at_cmd_need_to_handle. rewrite (bind_Ret get _ _ _ _) by done.
    assert (Ha : aget b BODY = Some (hex_digit h)).
    { assert (E0 : aget (from b BODY) 0 = Some (hex_digit h)) by (by rewrite Hf). unfold aget, from, BODY in *. cbn in E0 |- *. by rewrite lookup_drop in E0. }
    erewrite bind_Ret by (unfold lift; cbn [EngDiag.frame st tbuf]; rewrite Ha; done). unfold body_starts at 1. rewrite bind_assoc. rewrite (bind_Ret get _ _ _ _) by done. erewrite bind_Ret by done.
    cbn [EngDiag.frame st tbuf vars g_is_data]. rewrite Hf. rewrite (proj2 (Z.eqb_neq g 0) Hg).
    assert (Eat : strStartsWith (hex_digit h :: hex_digit l :: bin2ascii p ++ post) (str "AT") = false).
    { change (str "AT") with [65; 84]. cbn [strStartsWith]. destruct (hex_digit h =? 65); [|done]. rewrite (proj2 (Z.eqb_neq (hex_digit l) 84)); [done|]. unfold hex_digit. destruct (l <=? 9); lia. }
    assert (Ed : isdigit (hex_digit h) || isupper (hex_digit h) = true).
    { unfold isdigit, isupper, hex_digit. destruct (Z.leb_spec h 9); lia. }
    rewrite Eat, Ed. done. }
  by erewrite bind_Ret by exact En.
Qed.

Lemma mode_from_hex_spec p x g i c eq ms tot file a y : zlen p = MODE_SIZE -> bytes p -> aget tot i = Some y -> zlen (tAudioNvArmModeStruct y) = MODE_SIZE ->
  mode_from_hex 5568 (st (Tok (buffered (data_frame p x)) None) g i c eq ms tot file a)
    = Ret tt (st (Tok (buffered (data_frame p x)) None) g i c eq ms (<[Z.to_nat i := with_mode p y]> tot) file a).
Proof.
  intros Hp Hb Hy Hs. destruct (data_buffer p x Hp) as (post & _ & _ & _ & Hf). set (b := buffered (data_frame p x)) in *. unfold mode_from_hex, this_total, put_total.
  rewrite bind_assoc. rewrite (bind_Ret get _ _ _ _) by done. cbn [audio_total vars g_index st]. erewrite bind_Ret by (unfold lift; rewrite Hy; done).
  assert (Ex : ascii2bin (tAudioNvArmModeStruct y) (from b BODY) 0 (u32 5568) = Some p).
  { rewrite Hf. change (u32 5568) with (0 + 2 * MODE_SIZE). rewrite <- Hp. rewrite hex_roundtrip by (done || lia). f_equal.
    rewrite drop_ge; [apply app_nil_r|]. unfold zlen in *. lia. }
  unfold from_hex. rewrite bind_assoc. rewrite (bind_Ret get _ _ _ _) by done. cbn [EngDiag.frame st tbuf]. erewrite bind_Ret by (unfold lift; rewrite Ex; done).
  rewrite (bind_Ret get _ _ _ _) by done. cbn [audio_total vars g_index st]. apply aget_range in Hy as Hr. unfold lift. rewrite aset_Some by lia. by erewrite bind_Ret by done.
Qed.

(** The parameters in the file, for the command that writes them there. *)
Definition filed (c i : Z) (p : list Z) (file : list AUDIO_TOTAL_T) : list AUDIO_TOTAL_T :=
  if c =? 10 then file else match aget file i with Some f => <[Z.to_nat i := with_mode p f]> file | None => file end.

Lemma data_spec p x c i eq ms tot file a y : zlen p = MODE_SIZE -> bytes p -> In c [10; 11] -> aget tot i = Some y -> zlen (tAudioNvArmModeStruct y) = MODE_SIZE ->
  is_Some (aget file i) -> exists t, let tot' := <[Z.to_nat i := with_mode p y]> tot in
  eng_diag (st (Tok (buffered (data_frame p x)) None) (flag_of c) i c eq ms tot file a)
    = Ret true (st t 0 i c eq ms tot' (filed c i p file) (a ++ [Installed tot'; SetPga (with_mode p y); Wrote (answer_frame ok_text); Wrote (answer_frame ok_text)])).
Proof.
  intros Hp Hb Hc Hy Hs [f Hf]. destruct (data_buffer p x Hp) as (post & _ & _ & H5 & _). set (b := buffered (data_frame p x)) in *. exists (Tok b None). cbv zeta. set (tot' := <[Z.to_nat i := with_mode p y]> tot).
  assert (Hg : flag_of c <> 0) by by destruct Hc as [<-|[<-|[] ] ]. pose proof (data_parsed p x (flag_of c) i c eq ms tot file a Hp Hb Hg) as Ep. fold b in Ep.
  assert (Ht' : aget tot' i = Some (with_mode p y)).
  { unfold aget in *. destruct (0 <=? i) eqn:E0; [|done]. unfold tot'. rewrite list_lookup_insert_eq; [done|by eapply lookup_lt_Some]. }
  pose proof (handled_spec b None (flag_of c) i c eq ms tot file a b None 0 i c eq ms tot' (filed c i p file) (a ++ [Installed tot'; SetPga (with_mode p y)]) ok_text _ Ep) as H.
  rewrite <- app_assoc in H. apply H; [|done]. clear H. unfold eng_diag_audio. rewrite (bind_Ret get _ _ _ _) by done. cbn [vars g_is_data st]. rewrite (proj2 (Z.eqb_neq _ 0) Hg). cbn [negb].
  unfold audio_data. rewrite (bind_Ret get _ _ _ _) by done. cbn [EngDiag.frame st tbuf]. erewrite bind_Ret by (unfold lift; rewrite H5; done). change (5577 - 8 - 1) with 5568.
  assert (Emm : mmap (st (Tok b None) (flag_of c) i c eq ms tot file a) = Ret true (st (Tok b None) (flag_of c) i c eq ms tot file a)) by done.
  erewrite bind_Ret by exact Emm. cbn [negb]. cbv iota.
  assert (Em : forall g, mode_from_hex 5568 (st (Tok b None) g i c eq ms tot file a) = Ret tt (st (Tok b None) g i c eq ms tot' file a)) by (intros g; by apply mode_from_hex_spec).
  assert (Eo : forall A (k : unit -> M diag A) fi, (( d <- get ;; perform (Installed (audio_total d)) ;;; t <- this_total ;; perform (SetPga t)) : M diag unit) (st (Tok b None) 0 i c eq ms tot' fi a)
    = Ret tt (st (Tok b None) 0 i c eq ms tot' fi (a ++ [Installed tot'; SetPga (with_mode p y)]))).
  { intros A k fi. rewrite (bind_Ret get _ _ _ _) by done. erewrite bind_Ret by done. unfold this_total. rewrite bind_assoc. rewrite (bind_Ret get _ _ _ _) by done.
    cbn [audio_total vars g_index st]. erewrite bind_Ret by (unfold lift; rewrite Ht'; done). unfold perform, modify. cbn. unfold st. by rewrite <- app_assoc. }
  destruct Hc as [<-|[<-|[] ] ].
  - assert (E1 : when_flag 2 (mode_from_hex 5568) (st (Tok b None) (flag_of 10) i 10 eq ms tot file a) = Ret true (st (Tok b None) 0 i 10 eq ms tot' file a)).
    { change (flag_of 10) with 2. unfold when_flag. rewrite (bind_Ret get _ _ _ _) by done. cbn [vars g_is_data st]. change (Z.land 2 2 =? 0) with false. cbv iota. erewrite bind_Ret by done. by erewrite bind_Ret by apply Em. }
    erewrite bind_Ret by exact E1. do 4 (erewrite bind_Ret by done). cbn [orb]. erewrite bind_Ret by exact (Eo unit ret file). done.
  - assert (E2 : when_flag 1 (mode_from_hex 5568 ;;; mode_to_file) (st (Tok b None) (flag_of 11) i 11 eq ms tot file a) = Ret true (st (Tok b None) 0 i 11 eq ms tot' (filed 11 i p file) a)).
    { change (flag_of 11) with 1. unfold when_flag. rewrite (bind_Ret get _ _ _ _) by done. cbn [vars g_is_data st]. change (Z.land 1 1 =? 0) with false. cbv iota. erewrite bind_Ret by done. rewrite bind_assoc. erewrite bind_Ret by apply Em.
      unfold mode_to_file, this_total, this_file, put_file. rewrite !bind_assoc. rewrite (bind_Ret get _ _ _ _) by done. cbn [audio_total vars g_index st]. erewrite bind_Ret by (unfold lift; rewrite Ht'; done).
      rewrite bind_assoc. rewrite bind_assoc. rewrite (bind_Ret get _ _ _ _) by done. cbn [audio_file vars g_index st]. erewrite bind_Ret by (unfold lift; rewrite Hf; done). rewrite bind_assoc. rewrite (bind_Ret get _ _ _ _) by done.
      cbn [audio_file vars g_index st]. apply aget_range in Hf as Hr. unfold lift. rewrite bind_assoc. rewrite aset_Some by lia. unfold filed. change (11 =? 10) with false. cbv iota. rewrite Hf. erewrite bind_Ret by done. by erewrite bind_Ret by done. }
    erewrite bind_Ret by done. erewrite bind_Ret by exact E2. do 3 (erewrite bind_Ret by done). cbn [orb]. erewrite bind_Ret by exact (Eo unit ret _). done.
Qed.
End Exchange.

(** *** A session *)

Lemma pc_frame_content q t u payload : pc_frame q t u payload = 126 :: (q ++ le16 (8 + zlen payload) ++ [t; u] ++ payload) ++ [126].
Proof. unfold pc_frame. cbn [app]. by rewrite <- !app_assoc. Qed.

Section Frames.
Context (seq_num : list Z) (sub : Z) (Hseq : length seq_num = 4%nat) (Hno : no126 seq_num) (Hsub : sub <> 126).

Lemma sadm_content c i : In c [9; 10; 11] -> 0 <= i < 4 -> exists content, sadm_frame seq_num sub c i = 126 :: content ++ [126] /\ no126 content /\ zlen content <= 8190.
Proof.
  intros Hc Hi. exists (seq_num ++ le16 (8 + zlen (sadm_text c i)) ++ [104; sub] ++ sadm_text c i). split; [apply pc_frame_content|].
  assert (Hs : zlen seq_num = 4) by (unfold zlen; by rewrite Hseq). assert (Hi' : i = 0 \/ i = 1 \/ i = 2 \/ i = 3) by lia.
  split; [apply Forall_app; split; [done|]|rewrite zlen_app, Hs]; destruct Hc as [<-|[<-|[<-|[] ] ] ]; destruct Hi' as [->|[->|[->| ->] ] ];
    (vm_compute; discriminate) || (repeat (apply List.Forall_cons; [exact Hsub || (vm_compute; discriminate)|]); apply List.Forall_nil).
Qed.
Lemma data_content p x : zlen p = MODE_SIZE -> bytes p -> x <> 126 -> exists content, data_frame seq_num sub p x = 126 :: content ++ [126] /\ no126 content /\ zlen content <= 8190.
Proof.
  intros Hp Hb Hx. exists (seq_num ++ le16 (8 + zlen (bin2ascii p ++ [x])) ++ [104; sub] ++ bin2ascii p ++ [x]). split; [apply pc_frame_content|].
  assert (Hs : zlen seq_num = 4) by (unfold zlen; by rewrite Hseq). assert (El : zlen (bin2ascii p ++ [x]) = 5569) by (rewrite zlen_app, bin2ascii_length, Hp; done).
  split; [|rewrite !zlen_app, Hs, bin2ascii_length, Hp; vm_compute; discriminate]. rewrite El. change (le16 (8 + 5569)) with [201; 21].
  apply Forall_app. split; [done|]. repeat (constructor; [done|]). apply Forall_app. split; [by apply bin2ascii_no126|]. by constructor.
Qed.
End Frames.

(** C11: Parameters are exchanged. A PC sends a command to set the parameters of one of
    the four modes, then the parameters with hexadecimal digits, then the command
    to read them, each frame in any pieces: the parameters in memory - and, for
    the command that says so, in the file - are those sent, those of the other
    modes are as they were; they are installed; what the PC reads is what it
    wrote. What comes of a frame before its last piece has gone to the modem. *)
Theorem parameters_exchanged tun seq_num sub c i x p tot file gi ct eq ms a y nm t ls1 ls2 ls3 :
  length seq_num = 4%nat -> no126 seq_num -> sub <> 126 -> In c [10; 11] -> 0 <= i < 4 -> zlen p = MODE_SIZE -> bytes p -> x <> 126 ->
  aget tot i = Some y -> zlen (tAudioNvArmModeStruct y) = MODE_SIZE -> cstring (ucModeName y) 0 = Some nm -> zlen nm < 16 -> is_Some (aget file i) ->
  pieces (sadm_frame seq_num sub c i) ls1 -> pieces (data_frame seq_num sub p x) ls2 -> pieces (sadm_frame seq_num sub 9 i) ls3 ->
  exists t', let tot' := <[Z.to_nat i := with_mode p y]> tot in
  forM (ls1 ++ ls2 ++ ls3) vdiag_round (Vdiag no_frame 0 (st tun t 0 gi ct eq ms tot file a)) =
    Ret tt (Vdiag no_frame 0 (st tun t' 0 i 9 eq ms tot' (filed c i p file)
      (a ++ (Forwarded <$> early ls1) ++ [Wrote (answer_frame prompt_text); Wrote (answer_frame ok_text)] ++
       (Forwarded <$> early ls2) ++ [Installed tot'; SetPga (with_mode p y); Wrote (answer_frame ok_text); Wrote (answer_frame ok_text)] ++
       (Forwarded <$> early ls3) ++ [Wrote (answer_frame (str "+SADM4AP: 0," ++ quoted nm ++ [44] ++ bin2ascii p)); Wrote (answer_frame ok_text)]))).
Proof.
  intros Hseq Hno Hsub Hc Hi Hp Hb Hx Hy Hs Hnm Hn Hf L1 L2 L3. cbv zeta. set (tot' := <[Z.to_nat i := with_mode p y]> tot).
  assert (Hc9 : In c [9; 10; 11]) by (destruct Hc as [<-|[<-|[] ] ]; cbn; tauto).
  destruct (sadm_content seq_num sub Hseq Hno Hsub c i Hc9 Hi) as (k1 & F1 & N1 & Z1). destruct (data_content seq_num sub Hseq Hno Hsub p x Hp Hb Hx) as (k2 & F2 & N2 & Z2).
  destruct (sadm_content seq_num sub Hseq Hno Hsub 9 i ltac:(by left) Hi) as (k3 & F3 & N3 & Z3). rewrite F1 in L1. rewrite F2 in L2. rewrite F3 in L3.
  destruct (set_command_spec tun seq_num sub Hseq c i gi ct eq ms tot file (a ++ (Forwarded <$> early ls1)) Hc Hi) as (t1 & E1). rewrite F1 in E1.
  rewrite (forM_done _ _ _ _ _ (frame_received k1 N1 Z1 ls1 t (st tun t 0 gi ct eq ms tot file a) _ L1 E1)). set (a1 := (a ++ _) ++ _).
  destruct (data_spec tun seq_num sub Hseq p x c i eq ms tot file (a1 ++ (Forwarded <$> early ls2)) y Hp Hb Hc Hy Hs Hf) as (t2 & E2). rewrite F2 in E2. cbv zeta in E2. fold tot' in E2.
  rewrite (forM_done _ _ _ _ _ (frame_received k2 N2 Z2 ls2 t1 (st tun t1 (flag_of c) i c eq ms tot file a1) _ L2 E2)). set (a2 := (a1 ++ _) ++ _).
  assert (Ht' : aget tot' i = Some (with_mode p y)).
  { unfold aget in *. destruct (0 <=? i) eqn:E0; [|done]. unfold tot'. rewrite list_lookup_insert_eq; [done|by eapply lookup_lt_Some]. }
  destruct (get_command_spec tun seq_num sub Hseq i i c eq ms tot' (filed c i p file) (a2 ++ (Forwarded <$> early ls3)) (with_mode p y) nm Hi Ht' Hnm Hn Hp) as (t3 & E3). rewrite F3 in E3.
  exists t3. etransitivity; [exact (frame_received k3 N3 Z3 ls3 t2 (st tun t2 0 i c eq ms tot' (filed c i p file) a2) _ L3 E3)|]. unfold a2, a1. by rewrite <- !app_assoc.
Qed.

Lemma parameters_exchanged_witness : exists t',
  forM ([take 20 (sadm_frame [1; 0; 0; 0] 1 11 2); drop 20 (sadm_frame [1; 0; 0; 0] 1 11 2)] ++ [data_frame [1; 0; 0; 0] 1 (replicate (Z.to_nat 2784) 165) 26] ++ [sadm_frame [1; 0; 0; 0] 1 9 2])
    vdiag_round (Vdiag no_frame 0 (st (replicate 376 0) (Tok [] None) 0 0 0 0 0 (replicate 4 some_total) (replicate 4 some_total) [])) =
    Ret tt (Vdiag no_frame 0 (st (replicate 376 0) t' 0 2 9 0 0 (<[2%nat := with_mode (replicate (Z.to_nat 2784) 165) some_total]> (replicate 4 some_total))
      (<[2%nat := with_mode (replicate (Z.to_nat 2784) 165) some_total]> (replicate 4 some_total))
      ([Forwarded (take 20 (sadm_frame [1; 0; 0; 0] 1 11 2)); Wrote (answer_frame prompt_text); Wrote (answer_frame ok_text);
        Installed (<[2%nat := with_mode (replicate (Z.to_nat 2784) 165) some_total]> (replicate 4 some_total)); SetPga (with_mode (replicate (Z.to_nat 2784) 165) some_total);
        Wrote (answer_frame ok_text); Wrote (answer_frame ok_text);
        Wrote (answer_frame (str "+SADM4AP: 0," ++ quoted (str "Handset") ++ [44] ++ bin2ascii (replicate (Z.to_nat 2784) 165))); Wrote (answer_frame ok_text)]))).
Proof.
  apply (parameters_exchanged (replicate 376 0) [1; 0; 0; 0] 1 11 2 26 (replicate (Z.to_nat 2784) 165) (replicate 4 some_total) (replicate 4 some_total) 0 0 0 0 [] some_total (str "Handset") (Tok [] None)
    [take 20 (sadm_frame [1; 0; 0; 0] 1 11 2); drop 20 (sadm_frame [1; 0; 0; 0] 1 11 2)] [data_frame [1; 0; 0; 0] 1 (replicate (Z.to_nat 2784) 165) 26] [sadm_frame [1; 0; 0; 0] 1 9 2]).
  - reflexivity.
  - repeat (apply List.Forall_cons; [done|]). apply List.Forall_nil.
  - done.
  - right. by left.
  - done.
  - vm_compute. reflexivity.
  - apply Forall_replicate. done.
  - done.
  - reflexivity.
  - vm_compute. reflexivity.
  - vm_compute. reflexivity.
  - vm_compute. reflexivity.
  - by eexists.
  - exists [take 20 (sadm_frame [1; 0; 0; 0] 1 11 2)], (take 5 (drop 20 (sadm_frame [1; 0; 0; 0] 1 11 2))). split; vm_compute; reflexivity.
  - exists [], (removelast (data_frame [1; 0; 0; 0] 1 (replicate (Z.to_nat 2784) 165) 26)). split; vm_compute; reflexivity.
  - exists [], (removelast (sadm_frame [1; 0; 0; 0] 1 9 2)). split; vm_compute; reflexivity.
Defined.
